(* ===== verification/_CoqProject ===== *)
-Q . S2P
Prelude.v
CString.v
Interrupt.v
Lists.v
Bitmap.v
BlockDev.v
Disk.v
Fat.v
Stdio.v
Names.v
File.v
FsFunc.v
Shell.v
Entry.v
FsTree.v
FileOps.v
Create.v
Mount.v
Kernel.v
Paging.v
Thread.v
Sync.v
IoQueue.v
Keyboard.v
Memory.v
DataPages.v
Pid.v
Space.v
Heap.v
HeapOk.v
Malloc.v
Tss.v
Screen.v
Vectors.v
Timer.v
Ide.v
Process.v
Partition.v
System.v
Switch.v
Pending.v
Demo.v
Start.v
Wait.v
Reap.v
Fork.v
ForkPages.v
Resume.v
Exec.v
Syscall.v
Programs.v
Typed.v
Boot.v
FirstRun.v
Shared.v
ReaderWriter.v
Bank.v
