(* ===== verification/Prelude.v ===== *)
(** * GwOS: a verification library for the GwOS kernel

    GwOS is a small 32-bit x86 kernel in C: interrupts and a timer, kernel
    threads and user processes with paging, locks, a keyboard, an ATA disk
    and a FAT12 file system with a shell.  This library models the C code as
    executable functions of a state and proves theorems about them.  The names
    of definitions are those of the source wherever possible; a function whose
    loops need names of their own has them next to it ([malloc_page_loop] is
    the loop of [malloc_page]).

    ** The parts and their files

    - Foundations.  [Prelude] (this file): machine integers as [Z] with their
      wraps [u8], [u16], [u32], [i32]; outcomes ([Ok], or [Panic] for ASSERT
      and PANIC, [Fault] for an access outside every object, [OutOfFuel]);
      the state and error monad [M]; bounded arrays.  [CString]: lib/string.c.
      [Stdio]: lib/stdio.c, with the console as the text printed and the
      keyboard as a stream of words.
    - Kernel data structures.  [Interrupt]: the interrupt flag and the
      descriptor table of kernel/interrupt.c; [Vectors]: the rest of that file,
      over a class for the two interrupt controllers.  [Lists]:
      lib/kernel/list.c on a memory of links.  [Bitmap]: lib/kernel/bitmap.c.
    - Memory.  [Kernel]: the global state shared by the rest of the kernel.
      [Paging]: page tables in physical memory reached through the self map,
      page frames and the switch of page directories (kernel/memory.c,
      userprog/process.c, userprog/tss.c).  [Memory]: runs of virtual pages,
      the layout of the pools and the block descriptors (kernel/memory.c).
      [DataPages]: what the page allocator keeps of the bytes in mapped pages.
      [Heap]: sys_malloc and sys_free, the arenas at the start of their pages.
      [HeapOk]: the invariant of the heap; [Malloc]: the theorems on it.
      [Space]: the address spaces of all processes at once.
    - Threads.  [Thread]: the scheduler of thread/thread.c.  [Pid]: process
      numbers and the list of all threads.  [Sync]: semaphores and locks of
      thread/sync.c under all interleavings.  [IoQueue]: device/ioqueue.c.
      [Keyboard]: device/keyboard.c.
    - Processes.  [Process]: the creation of threads and processes
      (thread/thread.c, userprog/process.c).  [Wait]: their end
      (thread/thread.c, userprog/exit.c, userprog/wait.c).  [Fork], [Exec]:
      userprog/fork.c and userprog/exec.c.  [ForkPages]: the copy of the
      address space of a parent.  [Resume]: the registers of the processor,
      the second half of switch_to (thread/switch.asm) and intr_exit
      (kernel/kernel.asm), and what the child of a fork returns with;
      [FirstRun]: the way of a new process to user mode.  [Syscall]: the system calls from
      the library function to the handler.  [System] joins the invariants of
      scheduler, thread list and address spaces; [Switch], [Pending], [Start]
      and [Reap] show that the scheduler, a thread half made, the start and
      the end of a process keep them; [Programs] has the theorems on fork and
      execv.  [Demo] is the concrete kernel of the witnesses.
    - The whole kernel.  [Boot]: from the loader to the end of
      thread_init (kernel/init.c, boot/).  [Typed]: the typing of every
      field and the reachable states of all components together.
    - Devices.  [Tss]: the segment descriptors and the TSS of userprog/tss.c.
      [Screen]: the text console (print_asm.asm, print_c.c, device/console.c)
      against a sheet of paper that scrolls.  [Timer]: device/timer.c, on the
      scheduler.  [Ide]: the transfers of device/ide.c, a client of two
      classes: [Ports], the registers of a channel, and [Ata], the laws of the
      controller behind them; it implements the interface of [BlockDev].
      [Partition]: the rest of that file, the identification of disks and the
      partition tables, with buffers from [Heap].
    - Storage.  [BlockDev]: the interface to the disk driver (a class with four
      laws, and an instance).  [Disk]: filesystem/disk.c over that interface.
      [File]: filesystem/file.c.  [FsFunc]: filesystem/fsfunc.c.  [Shell]: the
      commands of fsfunc.c and kernel/shell.c.  [Names]: dates, 8.3 names and
      paths of file.c and fsfunc.c.
    - Theorems on the file system.  [Fat]: clusters and chains.  [Entry]:
      directory entries.  [FsTree]: lists of siblings, deletion, searching.
      [FileOps]: opening, writing, closing and reading.  [Create]: new files.
      [Mount]: the tree built at boot.
    - User programs.  [Shared]: processes interleaved at every access to
      memory, with the locks of [Sync] as seen from outside: taken or free, by
      whom and how often.  [ReaderWriter] and [Bank]: two programs of
      userprog/actualuserprogs/ on it.

    ** How states correspond to the code

    A C pointer to an object of the kernel is its address, a [Z]; the objects
    are in finite maps keyed by address, so that aliasing is that of the code:
    two pointers are the same object exactly if they are equal.  The links of
    list nodes are separate maps ([Lists]), keyed by the address of the node
    inside its object ([general_node] at offset 36 of a PCB).  Page tables are
    words of physical memory ([Kernel.ram]) and are read and written through
    the virtual addresses [pte_ptr] and [pde_ptr] compute, translated with the
    page directory that is loaded.  The file system state [File.fs] has the
    statics of file.c (the table of files, the open files and the chains of
    sector buffers) and the disk, whose sectors are byte lists behind
    [BlockDevice].  The buffers of disk.c which survive between calls are part
    of that state ([Disk.dstate]).

    A thread that sleeps or is preempted continues later, in a state other
    threads have changed.  A function that may sleep therefore is cut at the
    point where it does: it returns what its remaining code needs, and the
    remaining code is a function of its own ([semaphore_down_again],
    [getchar_woken]).  [Sync] composes them into a step relation whose steps
    are the pieces that run without interruption.

    ** What the theorems show

    - Data structures: list operations are the operations on sequences, for
      all lists of the memory at once, and leave the interrupt flag as it was;
      a bitmap search is first fit.
    - Memory: adding a page maps exactly that page; the lookup through the
      self map is the walk of the processor where the page is mapped, faults
      without a page table, and is stale where only the entry is missing; pages are taken from the pool of
      the caller, are distinct, and come back from their address alone;
      malloc_page and mfree_page keep the invariants and undo each other;
      sys_malloc returns an object disjoint from every live one, sys_free gives
      back exactly that object, and both keep the invariant of the heap.
    - Threads: schedule is round robin over the ready threads; block and
      unblock; locks exclude, lose no wakeup, and no assertion fails in any
      interleaving; the ring buffer is a FIFO queue; the keyboard driver keeps
      its modifiers and never sleeps.
    - Processes: thread_start and process_execute add one thread or process
      and change no other; a process that has ended is collected with all that
      was its own; both keep the invariants of the system.  A child gets
      the pages of its parent, in frames of its own, and resumes with the
      registers of its parent and 0 in eax; a new process enters user mode at
      its entry point with a stack page.  execv refuses what is no program and
      reads files along their chains.
    - The whole kernel: once mem_init and thread_init are done every invariant
      holds; a lemma of [Typed] says that the model keeps the values of fields
      within their C types.
    - Devices: put_str and the functions on numbers show the text the sheet
      shows; a time slice is as many ticks as the priority says; ms_sleep
      waits for the ticks it computes; interrupts are set up for the lines in
      use; sys_read_disk and sys_write_disk are a block device; the scan of a
      disk finds the partitions its tables describe and gives its buffers back.
    - User programs: readers and writers exclude each other and never come to
      a standstill; no payment to the account is lost.
    - File system: entries of the FAT and of directories read back; chains
      grow at their end and are freed completely; the tree at boot is the tree
      on the disk; files are found, created and deleted; what is written is
      what is read.
    - Errors: what the code does when memory or disk are full, and the places
      where it does something else than it means to.

    ** Bounds and fuel

    A loop that counts has its number of iterations as a [nat] argument; a
    loop that follows a chain has fuel.  A list walk has [walk_fuel], more
    than the number of nodes that have a link, so a walk that runs out of fuel
    is one that never ends.  A chain of clusters has [LOOP] = 4097 steps: a
    FAT has 3072 entries and a chain does not repeat one.  The buffers of an
    open file have MAX_NODE_CNT steps, one for each that exists.  The
    polling loop of [busy_wait] is bounded in the code, by 30000 counted
    down.  [partition_scan] takes fuel for the depth of its recursion, and one
    more than the number of tables is enough; a cycle of tables without
    partitions is a scan without end.  Theorems that say a function returns show that fuel is not
    exhausted.

    ** What is not modelled

    Assembly (boot/, the first half of switch_to, the interrupt entries): its
    effect on the state is written out where C code relies on it; print_asm.asm,
    the second half of switch_to and intr_exit are modelled.  What a suspended call does after it is woken is
    modelled for semaphores, locks, the character queue and the waiting of a
    parent, and left out elsewhere.  [Boot] ends with thread_init: the
    initialisation of each device is in its own file and not composed with it,
    nor is the end of main.  Interrupts between two C statements are looked at
    in [Sync] only.  The user
    programs that only print or call each other, and the tools under
    command/.  The manifest lists every part. *)

From Stdlib Require Export ZArith Lia.
From stdpp Require Export base tactics numbers option gmap.
From stdpp Require Export list_basics list_relations list_monad list_misc list_numbers.
Export list_basics.list list_relations.list list_monad.list list_misc.list list_numbers.list.

Declare Scope gw_scope.
Delimit Scope gw_scope with gw.
Open Scope Z_scope.

(** ** Machine integers

    A C integer of width [w] is a [Z]; every operation of the source that can
    leave its range is followed by one of these wraps. *)

Definition u8 (x : Z) : Z := x mod 256.
Definition u16 (x : Z) : Z := x mod 65536.
Definition u32 (x : Z) : Z := x mod 4294967296.
Definition i8 (x : Z) : Z := (x + 128) mod 256 - 128.
Definition i16 (x : Z) : Z := (x + 32768) mod 65536 - 32768.
Definition i32 (x : Z) : Z := (x + 2147483648) mod 4294967296 - 2147483648.

(** [DIV_ROUND_UP(X, STEP)] of global.h, on [uint32_t] operands. *)
Definition DIV_ROUND_UP (X STEP : Z) : Z := u32 (u32 (X + STEP) - 1) / STEP.

Definition PG_SIZE : Z := 4096.

(** ** Outcomes

    [ASSERT] and [PANIC] end in [panic_spin], which never returns: [Panic].
    An access outside every object the program owns is [Fault].  [OutOfFuel]
    is the outcome of a loop whose bound was too small; every theorem that
    says a loop returns proves that it is not reached. *)

Inductive err := Panic | Fault | OutOfFuel.

Inductive res (A : Type) := Ok (a : A) | Err (e : err).
Arguments Ok {A} a.
Arguments Err {A} e.

#[export] Instance err_eq_dec : EqDecision err.
Proof. solve_decision. Defined.

#[export] Instance res_eq_dec {A} `{EqDecision A} : EqDecision (res A).
Proof. solve_decision. Defined.

#[export] Instance res_ret : MRet res := fun A a => Ok a.
#[export] Instance res_bind : MBind res := fun A B f m =>
  match m with Ok a => f a | Err e => Err e end.

(** State-and-error monad: a C function on the state [S]. *)
Definition M (S A : Type) : Type := S -> res (A * S).

#[export] Instance M_ret {S} : MRet (M S) := fun A a s => Ok (a, s).
#[export] Instance M_bind {S} : MBind (M S) := fun A B f m s =>
  match m s with Ok (a, s') => f a s' | Err e => Err e end.

Definition get {S} : M S S := fun s => Ok (s, s).
Definition put {S} (s : S) : M S unit := fun _ => Ok (tt, s).
Definition gets {S A} (f : S -> A) : M S A := fun s => Ok (f s, s).
Definition modify {S} (f : S -> S) : M S unit := fun s => Ok (tt, f s).
Definition fail {S A} (e : err) : M S A := fun _ => Err e.
Definition lift {S A} (r : res A) : M S A := fun s =>
  match r with Ok a => Ok (a, s) | Err e => Err e end.

Definition ASSERT (b : bool) : res unit := if b then Ok tt else Err Panic.
Definition ASSERTM {S} (b : bool) : M S unit := lift (ASSERT b).

(** ** C arrays

    An array is the list of its cells; an access outside of it is a [Fault]. *)

Definition aget (l : list Z) (i : Z) : res Z :=
  if i <? 0 then Err Fault
  else match l !! Z.to_nat i with Some x => Ok x | None => Err Fault end.

Definition aset (l : list Z) (i x : Z) : res (list Z) :=
  if (i <? 0) || (Z.of_nat (length l) <=? i) then Err Fault
  else Ok (<[Z.to_nat i := x]> l).

(** Reading with a default, for specifications. *)
Definition at_ (l : list Z) (i : Z) : Z := default 0 (l !! Z.to_nat i).

Definition zlen {A} (l : list A) : Z := Z.of_nat (length l).

(** [n] numbers from [i] on, which evaluates in linear time. *)
Fixpoint zrange (n : nat) (i : Z) : list Z := match n with O => [] | S n' => i :: zrange n' (i + 1) end.

Lemma elem_of_zrange n : forall i x, x ∈ zrange n i <-> i <= x < i + Z.of_nat n.
Proof.
  induction n as [|n IH]; intros i x; cbn [zrange].
  - split; [intros H; by apply not_elem_of_nil in H|lia].
  - rewrite elem_of_cons, IH. lia.
Qed.

Definition is_byte (x : Z) : Prop := 0 <= x < 256.
Definition bytes (l : list Z) : Prop := Forall is_byte l.

(** [char] is signed on the target. *)
Definition schar (x : Z) : Z := i8 x.

(** ** Automation *)

(** Facts about wraps and array accesses, used by rewriting. *)
Create Rewrite HintDb gw_rw.
(** Range facts and well-formedness lemmas, used by [eauto]. *)
Create HintDb gw discriminated.

(** [zarith]: linear arithmetic after turning [/] and [mod] into equations. *)
Ltac zarith := Z.div_mod_to_equations; lia.

Ltac unwrap := unfold schar, u8, u16, u32, i8, i16, i32, PG_SIZE in *.

(** Unfold the monad's operations and evaluate. *)
Ltac mrun :=
  unfold mbind, M_bind, mret, M_ret, res_bind, res_ret, gets, modify, get, put, fail, lift;
  cbn.

(** Simplify the boolean guards the arithmetic context decides. *)
Ltac decide_bool :=
  repeat match goal with
  | |- context [?a <? ?b] =>
      first [ rewrite (proj2 (Z.ltb_lt a b)) by lia
            | rewrite (proj2 (Z.ltb_ge a b)) by lia ]
  | |- context [?a <=? ?b] =>
      first [ rewrite (proj2 (Z.leb_le a b)) by lia
            | rewrite (proj2 (Z.leb_gt a b)) by lia ]
  | |- context [?a =? ?b] =>
      first [ rewrite (proj2 (Z.eqb_eq a b)) by lia
            | rewrite (proj2 (Z.eqb_neq a b)) by lia ]
  end; cbn [orb andb negb].

(** Turn boolean comparisons in the hypotheses into propositions. *)
Ltac bool_prop :=
  repeat match goal with
  | H : (_ && _) = true |- _ => apply andb_true_iff in H as [? ?]
  | H : (_ || _) = false |- _ => apply orb_false_iff in H as [? ?]
  | H : negb _ = true |- _ => apply negb_true_iff in H
  | H : negb _ = false |- _ => apply negb_false_iff in H
  | H : (_ <? _) = true |- _ => apply Z.ltb_lt in H
  | H : (_ <? _) = false |- _ => apply Z.ltb_ge in H
  | H : (_ <=? _) = true |- _ => apply Z.leb_le in H
  | H : (_ <=? _) = false |- _ => apply Z.leb_gt in H
  | H : (_ =? _) = true |- _ => apply Z.eqb_eq in H
  | H : (_ =? _) = false |- _ => apply Z.eqb_neq in H
  end.

(** ** Monad laws used by the proofs *)

Lemma bindM_ok {S A B} (m : M S A) (f : A -> M S B) s a s' :
  m s = Ok (a, s') -> (m ≫= f) s = f a s'.
Proof. intros H. unfold mbind, M_bind. by rewrite H. Qed.

Lemma bindM_err {S A B} (m : M S A) (f : A -> M S B) s e :
  m s = Err e -> (m ≫= f) s = Err e.
Proof. intros H. unfold mbind, M_bind. by rewrite H. Qed.

Lemma bindM_inv {S A B} (m : M S A) (f : A -> M S B) s b s' :
  (m ≫= f) s = Ok (b, s') -> exists a s1, m s = Ok (a, s1) /\ f a s1 = Ok (b, s').
Proof. unfold mbind, M_bind. destruct (m s) as [[a s1]|]; [eauto | done]. Qed.

Lemma bindR_ok {A B} (m : res A) (f : A -> res B) a :
  m = Ok a -> (m ≫= f) = f a.
Proof. intros H. unfold mbind, res_bind. by rewrite H. Qed.

Lemma bindR_inv {A B} (m : res A) (f : A -> res B) b :
  (m ≫= f) = Ok b -> exists a, m = Ok a /\ f a = Ok b.
Proof. unfold mbind, res_bind. destruct m; [eauto | done]. Qed.

Lemma bind_modify {S B} (f : S -> S) (k : unit -> M S B) s : (modify f ≫= k) s = k tt (f s).
Proof. done. Qed.

Lemma bind_gets {S A B} (f : S -> A) (k : A -> M S B) s : (gets f ≫= k) s = k (f s) s.
Proof. done. Qed.

Lemma bind_get {S B} (k : S -> M S B) s : (get ≫= k) s = k s s.
Proof. done. Qed.

Lemma bind_mret {S A B} (a : A) (k : A -> M S B) s : (mret a ≫= k) s = k a s.
Proof. done. Qed.

Lemma bind_lift {S A B} (r : res A) (k : A -> M S B) s a :
  r = Ok a -> (lift r ≫= k) s = k a s.
Proof. by intros ->. Qed.

Lemma bind_assert {S B} (b : bool) (k : unit -> M S B) s :
  b = true -> (ASSERTM b ≫= k) s = k tt s.
Proof. by intros ->. Qed.

Lemma bind_assert_panic {S B} (b : bool) (k : unit -> M S B) s :
  b = false -> (ASSERTM b ≫= k) s = Err Panic.
Proof. by intros ->. Qed.

Lemma lift_ok {S A} (r : res A) (s : S) a : r = Ok a -> lift r s = Ok (a, s).
Proof. by intros ->. Qed.

(** Run the head of a monadic program whose value a hypothesis or lemma gives. *)
Ltac run_with H :=
  first [ rewrite (bindM_ok _ _ _ _ _ H) | rewrite (bindR_ok _ _ _ H) ].

(** ** Integer facts *)

Lemma u8_range x : 0 <= u8 x < 256.
Proof. unwrap. zarith. Qed.
Lemma u16_range x : 0 <= u16 x < 65536.
Proof. unwrap. zarith. Qed.
Lemma u32_range x : 0 <= u32 x < 4294967296.
Proof. unwrap. zarith. Qed.
Lemma u8_small x : 0 <= x < 256 -> u8 x = x.
Proof. apply Z.mod_small. Qed.
Lemma u16_small x : 0 <= x < 65536 -> u16 x = x.
Proof. apply Z.mod_small. Qed.
Lemma u32_small x : 0 <= x < 4294967296 -> u32 x = x.
Proof. apply Z.mod_small. Qed.
Lemma i32_small x : -2147483648 <= x < 2147483648 -> i32 x = x.
Proof. intros. unwrap. rewrite Z.mod_small; lia. Qed.
Lemma schar_small x : 0 <= x < 128 -> schar x = x.
Proof. intros. unwrap. rewrite Z.mod_small; lia. Qed.

Lemma schar_inj x y : is_byte x -> is_byte y -> schar x = schar y -> x = y.
Proof. unfold is_byte. unwrap. zarith. Qed.

#[export] Hint Resolve u8_range u16_range u32_range : gw.

Lemma DIV_ROUND_UP_spec X STEP :
  0 < STEP -> 0 <= X -> X + STEP <= 4294967296 ->
  DIV_ROUND_UP X STEP = (X + STEP - 1) / STEP.
Proof.
  intros HS HX Hlt. unfold DIV_ROUND_UP, u32.
  destruct (Z.eq_dec (X + STEP) 4294967296) as [->|Hne].
  - by rewrite Z.mod_same by lia.
  - by rewrite (Z.mod_small (X + STEP)), Z.mod_small by lia.
Qed.

(** A mask that keeps the low [n] bits is a remainder. *)
Lemma land_low (x n : Z) : 0 <= n -> Z.land x (2 ^ n - 1) = x mod 2 ^ n.
Proof. intros. rewrite <- Z.land_ones by done. by rewrite Z.ones_equiv. Qed.

(** A mask that clears the low [n] bits of a [w]-bit word. *)
Lemma land_high (x n w : Z) : 0 <= n <= w -> 0 <= x < 2 ^ w ->
  Z.land x (2 ^ w - 2 ^ n) = x - x mod 2 ^ n.
Proof.
  intros Hn Hx.
  replace (2 ^ w - 2 ^ n) with (Z.shiftl (Z.ones (w - n)) n).
  2:{ rewrite Z.shiftl_mul_pow2, Z.ones_equiv by lia.
      replace (2 ^ w) with (2 ^ (w - n) * 2 ^ n)
        by (rewrite <- Z.pow_add_r by lia; f_equal; lia). lia. }
  transitivity (Z.shiftl (Z.land (Z.shiftr x n) (Z.ones (w - n))) n).
  - apply Z.bits_inj'. intros i Hi.
    rewrite Z.land_spec, !Z.shiftl_spec by done.
    destruct (Z_lt_le_dec i n).
    + rewrite (Z.testbit_neg_r _ (i - n)) by lia.
      by rewrite (Z.testbit_neg_r (Z.land _ _)) by lia; apply andb_false_r.
    + rewrite Z.land_spec, Z.shiftr_spec by lia. repeat f_equal; lia.
  - rewrite Z.land_ones, Z.shiftl_mul_pow2, Z.shiftr_div_pow2 by lia.
    assert (2 ^ w = 2 ^ (w - n) * 2 ^ n)
      by (rewrite <- Z.pow_add_r by lia; f_equal; lia).
    assert (0 < 2 ^ n) by (apply Z.pow_pos_nonneg; lia).
    rewrite Z.mod_small; [pose proof (Z.div_mod x (2 ^ n)); lia|].
    split; [apply Z.div_pos; lia | apply Z.div_lt_upper_bound; lia].
Qed.

(** ** Arrays *)

Lemma aget_ok l i x : 0 <= i -> l !! Z.to_nat i = Some x -> aget l i = Ok x.
Proof. intros Hi Hl. unfold aget. decide_bool. by rewrite Hl. Qed.

Lemma aget_at l i : 0 <= i < zlen l -> aget l i = Ok (at_ l i).
Proof.
  intros Hi. unfold at_, zlen in *.
  destruct (lookup_lt_is_Some_2 l (Z.to_nat i)) as [x Hx]; [lia|].
  rewrite Hx. apply aget_ok; [lia | done].
Qed.

Lemma aget_inv l i x : aget l i = Ok x -> 0 <= i < zlen l /\ x = at_ l i.
Proof.
  unfold aget, at_, zlen. destruct (Z.ltb_spec i 0); [done|].
  destruct (l !! Z.to_nat i) eqn:E; [|done]. intros [= ->].
  apply lookup_lt_Some in E. split; [lia | done].
Qed.

Lemma aget_fault l i : ~ (0 <= i < zlen l) -> aget l i = Err Fault.
Proof.
  unfold aget, zlen. intros Hi. destruct (Z.ltb_spec i 0); [done|].
  by rewrite lookup_ge_None_2 by lia.
Qed.

Lemma aset_ok l i x : 0 <= i < zlen l -> aset l i x = Ok (<[Z.to_nat i := x]> l).
Proof. unfold zlen, aset. intros Hi. by decide_bool. Qed.

Lemma aset_inv l i x l' :
  aset l i x = Ok l' -> 0 <= i < zlen l /\ l' = <[Z.to_nat i := x]> l.
Proof.
  unfold aset, zlen. destruct (Z.ltb_spec i 0); [done|].
  destruct (Z.leb_spec (Z.of_nat (length l)) i); cbn; [done|]. intros [= <-]. split; [lia | done].
Qed.

Lemma aset_fault l i x : ~ (0 <= i < zlen l) -> aset l i x = Err Fault.
Proof.
  unfold aset, zlen. intros Hi. destruct (Z.ltb_spec i 0); [done|].
  by decide_bool.
Qed.

Lemma zlen_insert (l : list Z) (i : nat) x : zlen (<[i := x]> l) = zlen l.
Proof. unfold zlen. by rewrite length_insert. Qed.

Lemma zlen_app {A} (l k : list A) : zlen (l ++ k) = zlen l + zlen k.
Proof. unfold zlen. rewrite length_app. lia. Qed.

Lemma zlen_cons {A} (x : A) l : zlen (x :: l) = 1 + zlen l.
Proof. unfold zlen. cbn [length]. lia. Qed.

Lemma zlen_nil {A} : zlen (@nil A) = 0.
Proof. done. Qed.

Lemma zlen_nonneg {A} (l : list A) : 0 <= zlen l.
Proof. unfold zlen. lia. Qed.

Lemma to_nat_zlen {A} (l : list A) : Z.to_nat (zlen l) = length l.
Proof. apply Nat2Z.id. Qed.

Lemma at_insert l i j x : 0 <= i < zlen l -> 0 <= j ->
  at_ (<[Z.to_nat i := x]> l) j = if Z.eq_dec i j then x else at_ l j.
Proof.
  unfold at_, zlen. intros Hi Hj. destruct (Z.eq_dec i j) as [->|Hne].
  - by rewrite list_lookup_insert_eq by lia.
  - by rewrite list_lookup_insert_ne by lia.
Qed.

Lemma bytes_insert l i x : bytes l -> is_byte x -> bytes (<[i := x]> l).
Proof. intros Hl Hx. by apply Forall_insert. Qed.

Lemma bytes_at l i : bytes l -> is_byte (at_ l i).
Proof.
  intros Hl. unfold at_. destruct (l !! Z.to_nat i) eqn:E; cbn.
  - by eapply Forall_lookup_1 in E.
  - unfold is_byte. lia.
Qed.

#[export] Hint Resolve bytes_insert bytes_at : gw.
#[export] Hint Rewrite @to_nat_zlen zlen_insert @zlen_app @zlen_cons @zlen_nil : gw_rw.
