(* ===== verification/CString.v ===== *)
(** * CString: lib/string.c

    A pointer into an array is the array (a list of bytes 0..255) and an
    offset; reading or writing outside the array is a [Fault].  The loops that
    run to a NUL byte take a bound of one more than the array they read, so
    they fault before the bound is exhausted. *)

From S2P Require Import Prelude.

(** [memset]: [while (size) { *u8dst++ = data; size--; }]. *)
Fixpoint memset_loop (size : nat) (dst : list Z) (u8dst data : Z) : res (list Z) :=
  match size with
  | O => Ok dst
  | S n => dst' ← aset dst u8dst data; memset_loop n dst' (u8dst + 1) data
  end.

Definition memset (dst : list Z) (p data size : Z) : res (list Z) :=
  memset_loop (Z.to_nat size) dst p data.

(** [memcpy]: byte by byte, ascending, between two arrays. *)
Fixpoint memcpy_loop (size : nat) (dst : list Z) (u8dst : Z) (src : list Z) (u8src : Z)
    : res (list Z) :=
  match size with
  | O => Ok dst
  | S n =>
      x ← aget src u8src;
      dst' ← aset dst u8dst x;
      memcpy_loop n dst' (u8dst + 1) src (u8src + 1)
  end.

Definition memcpy (dst : list Z) (p : Z) (src : list Z) (q size : Z) : res (list Z) :=
  memcpy_loop (Z.to_nat size) dst p src q.

(** The copy loop [while ( *dst++ = *src++ );] shared by [strcpy] and [strcat]. *)
Fixpoint strcpy_loop (fuel : nat) (dst : list Z) (p : Z) (src : list Z) (q : Z)
    : res (list Z) :=
  match fuel with
  | O => Err OutOfFuel
  | S n =>
      c ← aget src q;
      dst' ← aset dst p c;
      if c =? 0 then Ok dst' else strcpy_loop n dst' (p + 1) src (q + 1)
  end.

Definition strcpy (dst : list Z) (p : Z) (src : list Z) (q : Z) : res (list Z) :=
  strcpy_loop (S (length src)) dst p src q.

(** The scan loop [while ( *p++ );]: the pointer one past the terminator. *)
Fixpoint scan_nul (fuel : nat) (str : list Z) (p : Z) : res Z :=
  match fuel with
  | O => Err OutOfFuel
  | S n => c ← aget str p; if c =? 0 then Ok (p + 1) else scan_nul n str (p + 1)
  end.

Definition strlen (str : list Z) (s : Z) : res Z :=
  p ← scan_nul (S (length str)) str s;
  Ok (u32 (p - s - 1)).

Definition strcat (dst : list Z) (p : Z) (src : list Z) (q : Z) : res (list Z) :=
  str ← scan_nul (S (length dst)) dst p;
  strcpy_loop (S (length src)) dst (str - 1) src q.

(** The position at which [strcmp]'s loop stops. *)
Fixpoint strcmp_loop (fuel : nat) (a : list Z) (p : Z) (b : list Z) (q : Z) : res (Z * Z) :=
  match fuel with
  | O => Err OutOfFuel
  | S n =>
      x ← aget a p;
      if x =? 0 then Ok (p, q)
      else y ← aget b q;
           if x =? y then strcmp_loop n a (p + 1) b (q + 1) else Ok (p, q)
  end.

Definition strcmp (a : list Z) (p : Z) (b : list Z) (q : Z) : res Z :=
  '(p', q') ← strcmp_loop (S (length a)) a p b q;
  x ← aget a p';
  y ← aget b q';
  Ok (if schar x <? schar y then -1 else if schar y <? schar x then 1 else 0).

Fixpoint memcmp_loop (size : nat) (a : list Z) (p : Z) (b : list Z) (q : Z) : res Z :=
  match size with
  | O => Ok 0
  | S n =>
      x ← aget a p;
      y ← aget b q;
      if negb (schar x =? schar y) then Ok (if schar y <? schar x then 1 else -1)
      else memcmp_loop n a (p + 1) b (q + 1)
  end.

Definition memcmp (a : list Z) (p : Z) (b : list Z) (q size : Z) : res Z :=
  memcmp_loop (Z.to_nat size) a p b q.

(** ** Specifications *)

(** The array [l] holds the C string [s] at offset [p]. *)
Definition cstr (l : list Z) (p : Z) (s : list Z) : Prop :=
  exists pre post, l = pre ++ s ++ 0 :: post /\ zlen pre = p /\ Forall (fun c => c <> 0) s.

(** Lexicographic order on signed characters, the end of a string below
    every positive character. *)
Fixpoint cmp_spec (s t : list Z) : Z :=
  match s, t with
  | [], [] => 0
  | x :: s', y :: t' => if x =? y then cmp_spec s' t'
                        else if schar x <? schar y then -1 else 1
  | [], y :: _ => if 0 <? schar y then -1 else 1
  | x :: _, [] => if schar x <? 0 then -1 else 1
  end.

Fixpoint memcmp_spec (s t : list Z) : Z :=
  match s, t with
  | x :: s', y :: t' => if x =? y then memcmp_spec s' t'
                        else if schar y <? schar x then 1 else -1
  | _, _ => 0
  end.

(** ** Array decomposition lemmas *)

Lemma aget_mid pre x post : aget (pre ++ x :: post) (zlen pre) = Ok x.
Proof.
  apply aget_ok; unfold zlen; [lia|]. rewrite Nat2Z.id. by apply list_lookup_middle.
Qed.

Lemma aset_mid pre x y post : aset (pre ++ x :: post) (zlen pre) y = Ok (pre ++ y :: post).
Proof.
  rewrite aset_ok by (unfold zlen; rewrite length_app; cbn; lia).
  unfold zlen. rewrite Nat2Z.id. by rewrite insert_app_r_alt, Nat.sub_diag by lia.
Qed.

Lemma snoc_shift {A} (pre : list A) x l : pre ++ x :: l = (pre ++ [x]) ++ l.
Proof. by rewrite <- app_assoc. Qed.

Lemma zlen_snoc {A} (pre : list A) x : zlen (pre ++ [x]) = zlen pre + 1.
Proof. by rewrite zlen_app. Qed.

Lemma cstr_cons l p x s : cstr l p (x :: s) -> x <> 0 /\ cstr l (p + 1) s.
Proof.
  intros (pre & post & -> & <- & Hs). apply Forall_cons_1 in Hs as [Hx Hs].
  split; [done|]. exists (pre ++ [x]), post. by rewrite zlen_snoc, <- app_assoc.
Qed.

Lemma cstr_head l p x s : cstr l p (x :: s) -> aget l p = Ok x.
Proof. intros (pre & post & -> & <- & _). apply aget_mid. Qed.

Lemma cstr_nul l p : cstr l p [] -> aget l p = Ok 0.
Proof. intros (pre & post & -> & <- & _). apply aget_mid. Qed.

Lemma cstr_fuel l p s : cstr l p s -> (length s < length l)%nat.
Proof.
  intros (pre & post & -> & _ & _). rewrite !length_app. cbn [length]. lia.
Qed.

(** ** Functional behaviour *)

Lemma memset_loop_ok n data : forall mid pre post, length mid = n ->
  memset_loop n (pre ++ mid ++ post) (zlen pre) data = Ok (pre ++ replicate n data ++ post).
Proof.
  induction n as [|n IH]; intros [|x mid] pre post Hlen; try done.
  cbn [memset_loop]. cbn [app]. rewrite (bindR_ok _ _ _ (aset_mid pre x data (mid ++ post))).
  rewrite snoc_shift, <- zlen_snoc with (x := data), IH by (cbn in Hlen; lia).
  by rewrite <- app_assoc.
Qed.

Lemma memset_ok pre mid post data :
  memset (pre ++ mid ++ post) (zlen pre) data (zlen mid)
  = Ok (pre ++ replicate (length mid) data ++ post).
Proof. unfold memset. rewrite to_nat_zlen. by apply memset_loop_ok. Qed.

Lemma memcpy_loop_ok s : forall pre mid post spre spost, length mid = length s ->
  memcpy_loop (length s) (pre ++ mid ++ post) (zlen pre) (spre ++ s ++ spost) (zlen spre)
  = Ok (pre ++ s ++ post).
Proof.
  induction s as [|y s IH]; intros pre [|x mid] post spre spost Hlen; try done.
  cbn [length memcpy_loop]. cbn [app].
  rewrite (bindR_ok _ _ _ (aget_mid spre y (s ++ spost))).
  rewrite (bindR_ok _ _ _ (aset_mid pre x y (mid ++ post))).
  rewrite (snoc_shift pre), (snoc_shift spre).
  rewrite <- (zlen_snoc pre y), <- (zlen_snoc spre y), IH by (cbn in Hlen; lia).
  by rewrite <- app_assoc.
Qed.

Lemma memcpy_ok pre mid post spre s spost : length mid = length s ->
  memcpy (pre ++ mid ++ post) (zlen pre) (spre ++ s ++ spost) (zlen spre) (zlen s)
  = Ok (pre ++ s ++ post).
Proof. intros. unfold memcpy. rewrite to_nat_zlen. by apply memcpy_loop_ok. Qed.

Lemma scan_nul_ok s : forall fuel l p, (length s < fuel)%nat -> cstr l p s ->
  scan_nul fuel l p = Ok (p + zlen s + 1).
Proof.
  induction s as [|x s IH]; intros [|fuel] l p Hf Hc; try (cbn in Hf; lia); cbn [scan_nul].
  - rewrite (bindR_ok _ _ _ (cstr_nul _ _ Hc)). cbn. f_equal. rewrite zlen_nil. lia.
  - rewrite (bindR_ok _ _ _ (cstr_head _ _ _ _ Hc)).
    apply cstr_cons in Hc as [Hx Hc]. decide_bool.
    rewrite IH by (cbn in Hf; first [lia | done]). f_equal. rewrite zlen_cons. lia.
Qed.

Lemma strlen_ok l p s : cstr l p s -> strlen l p = Ok (u32 (zlen s)).
Proof.
  intros Hc. unfold strlen. erewrite bindR_ok.
  2:{ apply (scan_nul_ok s); [apply cstr_fuel in Hc; lia | done]. }
  do 2 f_equal. lia.
Qed.

Lemma strcpy_loop_ok s : forall fuel src q pre mid post, (length s < fuel)%nat ->
  cstr src q s -> length mid = S (length s) ->
  strcpy_loop fuel (pre ++ mid ++ post) (zlen pre) src q = Ok (pre ++ (s ++ [0]) ++ post).
Proof.
  induction s as [|y s IH]; intros [|fuel] src q pre [|x mid] post Hf Hc Hlen;
    try done; try (cbn in Hf; lia); cbn [strcpy_loop]; cbn [app].
  - rewrite (bindR_ok _ _ _ (cstr_nul _ _ Hc)).
    rewrite (bindR_ok _ _ _ (aset_mid pre x 0 (mid ++ post))).
    by destruct mid.
  - rewrite (bindR_ok _ _ _ (cstr_head _ _ _ _ Hc)).
    rewrite (bindR_ok _ _ _ (aset_mid pre x y (mid ++ post))).
    apply cstr_cons in Hc as [Hx Hc]. decide_bool.
    rewrite (snoc_shift pre), <- (zlen_snoc pre y), IH by (cbn in Hf, Hlen; first [lia|done]).
    by rewrite <- !app_assoc.
Qed.

Lemma strcpy_ok src q s pre mid post :
  cstr src q s -> length mid = S (length s) ->
  strcpy (pre ++ mid ++ post) (zlen pre) src q = Ok (pre ++ (s ++ [0]) ++ post).
Proof.
  intros Hc Hm. apply strcpy_loop_ok; [apply cstr_fuel in Hc; lia | done | done].
Qed.

Lemma strcpy_loop_overflow s : forall fuel src q pre mid, (length s < fuel)%nat ->
  cstr src q s -> (length mid <= length s)%nat ->
  strcpy_loop fuel (pre ++ mid) (zlen pre) src q = Err Fault.
Proof.
  induction s as [|y s IH]; intros [|fuel] src q pre [|x mid] Hf Hc Hlen;
    try (cbn in Hf, Hlen; lia); cbn [strcpy_loop].
  - rewrite (bindR_ok _ _ _ (cstr_nul _ _ Hc)), app_nil_r, aset_fault by lia. done.
  - rewrite (bindR_ok _ _ _ (cstr_head _ _ _ _ Hc)), app_nil_r, aset_fault by lia. done.
  - rewrite (bindR_ok _ _ _ (cstr_head _ _ _ _ Hc)).
    rewrite (bindR_ok _ _ _ (aset_mid pre x y mid)).
    apply cstr_cons in Hc as [Hx Hc]. decide_bool.
    rewrite (snoc_shift pre), <- (zlen_snoc pre y), IH by (cbn in Hf, Hlen; first [lia|done]).
    done.
Qed.

Lemma strcat_ok src q s pre t rest post :
  cstr src q s -> Forall (fun c => c <> 0) t -> length rest = length s ->
  strcat (pre ++ t ++ 0 :: rest ++ post) (zlen pre) src q
  = Ok (pre ++ t ++ (s ++ [0]) ++ post).
Proof.
  intros Hc Ht Hr. unfold strcat.
  assert (Hd : cstr (pre ++ t ++ 0 :: rest ++ post) (zlen pre) t)
    by (exists pre, (rest ++ post); done).
  erewrite bindR_ok by (apply (scan_nul_ok t); [apply cstr_fuel in Hd; lia | done]).
  replace (zlen pre + zlen t + 1 - 1) with (zlen (pre ++ t)) by (rewrite zlen_app; lia).
  replace (pre ++ t ++ 0 :: rest ++ post) with ((pre ++ t) ++ (0 :: rest) ++ post)
    by (by rewrite <- !app_assoc).
  rewrite (strcpy_loop_ok s) by
    (first [done | apply cstr_fuel in Hc; lia | cbn; lia]).
  by rewrite <- !app_assoc.
Qed.

(** What [strcmp] does after its loop. *)
Definition cmp_at (a : list Z) (b : list Z) (pq : Z * Z) : res Z :=
  let '(p', q') := pq in
  x ← aget a p';
  y ← aget b q';
  Ok (if schar x <? schar y then -1 else if schar y <? schar x then 1 else 0).

Lemma cmp_at_ok a b p q x y : aget a p = Ok x -> aget b q = Ok y ->
  cmp_at a b (p, q)
  = Ok (if schar x <? schar y then -1 else if schar y <? schar x then 1 else 0).
Proof. intros Hx Hy. unfold cmp_at. by rewrite (bindR_ok _ _ _ Hx), (bindR_ok _ _ _ Hy). Qed.

Lemma schar_tri x y : is_byte x -> is_byte y -> x <> y ->
  (if schar x <? schar y then -1 else if schar y <? schar x then 1 else 0)
  = if schar x <? schar y then -1 else 1.
Proof.
  intros Hx Hy Hne. destruct (Z.ltb_spec (schar x) (schar y)); [done|].
  destruct (Z.ltb_spec (schar y) (schar x)); [done|].
  contradict Hne. apply schar_inj; [done|done|lia].
Qed.

Lemma strcmp_loop_ok s : forall t fuel a p b q, (length s < fuel)%nat ->
  bytes s -> bytes t -> cstr a p s -> cstr b q t ->
  (strcmp_loop fuel a p b q ≫= cmp_at a b) = Ok (cmp_spec s t).
Proof.
  assert (H0 : is_byte 0) by (unfold is_byte; lia).
  induction s as [|x s IH]; intros t [|fuel] a p b q Hf Hs Ht Ha Hb;
    try (cbn in Hf; lia); cbn [strcmp_loop].
  - rewrite (bindR_ok _ _ _ (cstr_nul _ _ Ha)). cbn [Z.eqb]. rewrite (bindR_ok _ _ _ eq_refl).
    destruct t as [|y t].
    + by rewrite (cmp_at_ok _ _ _ _ _ _ (cstr_nul _ _ Ha) (cstr_nul _ _ Hb)).
    + rewrite (cmp_at_ok _ _ _ _ _ _ (cstr_nul _ _ Ha) (cstr_head _ _ _ _ Hb)).
      apply cstr_cons in Hb as [Hy _]. apply Forall_cons_1 in Ht as [Hyb _].
      by rewrite schar_tri by (done || congruence).
  - pose proof (cstr_head _ _ _ _ Ha) as Hx. apply cstr_cons in Ha as [Hx0 Ha].
    apply Forall_cons_1 in Hs as [Hxb Hs]. rewrite (bindR_ok _ _ _ Hx). decide_bool.
    destruct t as [|y t].
    + rewrite (bindR_ok _ _ _ (cstr_nul _ _ Hb)). decide_bool.
      rewrite (bindR_ok _ _ _ eq_refl), (cmp_at_ok _ _ _ _ _ _ Hx (cstr_nul _ _ Hb)).
      by rewrite schar_tri by done.
    + pose proof (cstr_head _ _ _ _ Hb) as Hy. apply cstr_cons in Hb as [Hy0 Hb].
      apply Forall_cons_1 in Ht as [Hyb Ht]. rewrite (bindR_ok _ _ _ Hy). cbn [cmp_spec].
      destruct (Z.eqb_spec x y) as [->|Hne].
      * apply IH; [cbn in Hf; lia | done..].
      * rewrite (bindR_ok _ _ _ eq_refl), (cmp_at_ok _ _ _ _ _ _ Hx Hy).
        by rewrite schar_tri by done.
Qed.

Lemma strcmp_spec a p s b q t :
  bytes s -> bytes t -> cstr a p s -> cstr b q t -> strcmp a p b q = Ok (cmp_spec s t).
Proof.
  intros Hs Ht Ha Hb. apply strcmp_loop_ok; try done. apply cstr_fuel in Ha. lia.
Qed.

Lemma cmp_spec_eq s : forall t, cmp_spec s t = 0 <-> s = t.
Proof.
  induction s as [|x s IH]; intros [|y t]; cbn [cmp_spec].
  - done.
  - split; [destruct (0 <? schar y); lia | done].
  - split; [destruct (schar x <? 0); lia | done].
  - destruct (Z.eqb_spec x y) as [->|Hne].
    + rewrite IH. split; congruence.
    + split; [destruct (schar x <? schar y); lia | congruence].
Qed.

Lemma memcmp_loop_ok s : forall t a b apre apost bpre bpost,
  length t = length s -> bytes s -> bytes t ->
  a = apre ++ s ++ apost -> b = bpre ++ t ++ bpost ->
  memcmp_loop (length s) a (zlen apre) b (zlen bpre) = Ok (memcmp_spec s t).
Proof.
  induction s as [|x s IH]; intros [|y t] a b apre apost bpre bpost Hl Hs Ht -> ->; try done.
  cbn [memcmp_loop length memcmp_spec]. cbn [app].
  apply Forall_cons_1 in Hs as [Hx Hs]. apply Forall_cons_1 in Ht as [Hy Ht].
  rewrite (bindR_ok _ _ _ (aget_mid apre x _)), (bindR_ok _ _ _ (aget_mid bpre y _)).
  destruct (Z.eqb_spec x y) as [->|Hne].
  - rewrite Z.eqb_refl. cbn [negb]. rewrite <- (zlen_snoc apre y), <- (zlen_snoc bpre y).
    apply (IH t _ _ (apre ++ [y]) apost (bpre ++ [y]) bpost); try done;
      first [by rewrite <- app_assoc | cbn in Hl; lia].
  - assert (schar x <> schar y) by (intros E; by apply schar_inj in E).
    by decide_bool.
Qed.

(** ** Properties *)

(** [strcmp] on two NUL-terminated strings returns without leaving their
    arrays; it returns 0 exactly when the strings are equal, and otherwise -1
    or 1 by the first differing character, compared as signed [char]. *)
Theorem strcmp_correct (a : list Z) (p : Z) (s b : list Z) (q : Z) (t : list Z) :
  bytes s -> bytes t -> cstr a p s -> cstr b q t ->
  exists r, strcmp a p b q = Ok r /\ r = cmp_spec s t /\ (r = 0 <-> s = t).
Proof.
  intros Hs Ht Ha Hb. exists (cmp_spec s t).
  split; [by apply strcmp_spec | split; [done | apply cmp_spec_eq]].
Qed.

Lemma strcmp_correct_witness :
  exists r, strcmp [97; 98; 0; 9] 0 [7; 97; 99; 0] 1 = Ok r /\ r = cmp_spec [97; 98] [97; 99]
            /\ (r = 0 <-> [97; 98] = [97; 99]).
Proof.
  apply (strcmp_correct _ _ [97; 98] _ _ [97; 99]); unfold bytes, is_byte.
  - repeat constructor; lia.
  - repeat constructor; lia.
  - exists [], [9]. repeat split; repeat constructor; lia.
  - exists [7], []. repeat split; repeat constructor; lia.
Defined.

(** [strcpy] writes the string and its terminator and nothing else when
    the destination has room, and otherwise leaves the destination array: it
    does no bounds check of its own. *)
Theorem strcpy_exact_or_fault (src : list Z) (q : Z) (s pre mid post : list Z) :
  cstr src q s -> length mid = S (length s) ->
  strcpy (pre ++ mid ++ post) (zlen pre) src q = Ok (pre ++ (s ++ [0]) ++ post)
  /\ forall room, (length room <= length s)%nat ->
       strcpy (pre ++ room) (zlen pre) src q = Err Fault.
Proof.
  intros Hc Hm. split; [by apply strcpy_ok|]. intros room Hr.
  apply (strcpy_loop_overflow s); [apply cstr_fuel in Hc; lia | done | done].
Qed.

Lemma strcpy_exact_or_fault_witness :
  strcpy ([1] ++ [2; 3] ++ [4]) 1 [65; 0] 0 = Ok ([1] ++ ([65] ++ [0]) ++ [4])
  /\ forall room, (length room <= 1)%nat -> strcpy ([1] ++ room) 1 [65; 0] 0 = Err Fault.
Proof.
  apply (strcpy_exact_or_fault [65; 0] 0 [65] [1] [2; 3] [4]).
  - exists [], []. repeat split; repeat constructor; lia.
  - reflexivity.
Defined.
