(* ===== verification/Interrupt.v ===== *)
(** * Interrupt: kernel/interrupt.c and the machine state under the kernel lists

    [mach] is the part of the machine every kernel list operation touches: the
    EFLAGS register and the link fields ([prev], [next]) of the list nodes,
    one finite map per field, keyed by the node's address. *)

From S2P Require Import Prelude.

Record mach := mk_mach { eflags : Z; prevs : gmap Z Z; nexts : gmap Z Z }.

Inductive intr_status := INTR_OFF | INTR_ON.

#[export] Instance intr_status_eq_dec : EqDecision intr_status.
Proof. solve_decision. Defined.

Definition EFLAGS_IF : Z := 0x200.

(** The machine instructions [sti] and [cli] on EFLAGS (IF is bit 9). *)
Definition sti : M mach unit :=
  modify (fun s => mk_mach (Z.lor (eflags s) EFLAGS_IF) (prevs s) (nexts s)).
Definition cli : M mach unit :=
  modify (fun s => mk_mach (Z.ldiff (eflags s) EFLAGS_IF) (prevs s) (nexts s)).

Definition intr_get_status : M mach intr_status :=
  eflags_v ← gets eflags;
  mret (if negb (Z.land EFLAGS_IF eflags_v =? 0) then INTR_ON else INTR_OFF).

Definition intr_enable : M mach intr_status :=
  old_status ← intr_get_status;
  _ ← (if decide (old_status = INTR_OFF) then sti else mret tt);
  mret old_status.

Definition intr_disable : M mach intr_status :=
  old_status ← intr_get_status;
  _ ← (if decide (old_status = INTR_ON) then cli else mret tt);
  mret old_status.

Definition intr_set_status (status : intr_status) : M mach intr_status :=
  if decide (status = INTR_ON) then intr_enable else intr_disable.

(** ** The interrupt descriptor table *)

Module Idt.

Definition IDT_DESC_CNT : Z := 0x81.
Definition SELECTOR_KERNEL_CODE : Z := 1 * 8 + 0 * 4 + 0.
Definition IDT_DESC_ATTR_DPL0 : Z := 1 * 128 + 0 * 32 + 0xE.
Definition IDT_DESC_ATTR_DPL3 : Z := 1 * 128 + 3 * 32 + 0xE.

Record gate_desc := mk_gate {
  func_offset_low_16bit : Z;
  selector : Z;
  dcount : Z;
  attribute : Z;
  func_offset_high_16bit : Z }.

Definition make_idt_desc (func attribute : Z) : gate_desc :=
  mk_gate (u16 (Z.land (u32 func) 0x0000FFFF)) SELECTOR_KERNEL_CODE 0 (u8 attribute)
    (u16 (Z.shiftr (Z.land (u32 func) 0xFFFF0000) 16)).

(** [for (i = 0; i < IDT_DESC_CNT; i++) make_idt_desc(&idt[i], intr_entry_table[i], DPL0)]. *)
Fixpoint idt_loop (n : nat) (i : Z) (intr_entry_table : list Z) (idt : list gate_desc)
    : res (list gate_desc) :=
  match n with
  | O => Ok idt
  | S n' =>
      f ← aget intr_entry_table i;
      idt_loop n' (i + 1) intr_entry_table
        (<[Z.to_nat i := make_idt_desc f IDT_DESC_ATTR_DPL0]> idt)
  end.

(** [idt] is the static table of [IDT_DESC_CNT] gates; [intr_entry_table] are
    the words from that symbol of kernel.asm on, as many as the loop reads: only
    the first 48 are entry stubs.  The system-call entry is an address
    kernel.asm exports. *)
Definition idt_init (intr_entry_table : list Z) (syscall_handler : Z) (idt : list gate_desc)
    : res (list gate_desc) :=
  idt' ← idt_loop (Z.to_nat IDT_DESC_CNT) 0 intr_entry_table idt;
  Ok (<[Z.to_nat (IDT_DESC_CNT - 1) := make_idt_desc syscall_handler IDT_DESC_ATTR_DPL3]> idt').

(** [intr_function_table[vector_id] = function]. *)
Definition register_handler (vector_id function : Z) (intr_function_table : list Z)
    : res (list Z) :=
  aset intr_function_table (u8 vector_id) function.

(** What the CPU reads back from a gate: target address and privilege level. *)
Definition gate_target (g : gate_desc) : Z :=
  func_offset_low_16bit g + func_offset_high_16bit g * 65536.
Definition gate_dpl (g : gate_desc) : Z := Z.land (Z.shiftr (attribute g) 5) 3.

Lemma gate_target_make func attr :
  0 <= func < 4294967296 -> gate_target (make_idt_desc func attr) = func.
Proof.
  intros Hf. unfold gate_target, make_idt_desc. cbn [func_offset_low_16bit func_offset_high_16bit].
  rewrite (u32_small func) by lia.
  change 0x0000FFFF with (2 ^ 16 - 1). rewrite (land_low func 16) by lia.
  change 0xFFFF0000 with (2 ^ 32 - 2 ^ 16).
  rewrite (land_high func 16 32) by lia.
  rewrite Z.shiftr_div_pow2 by lia. unwrap. change (2 ^ 16) with 65536. zarith.
Qed.

Lemma idt_loop_ok tbl : forall n i idt, zlen idt = IDT_DESC_CNT -> 0 <= i ->
  i + Z.of_nat n <= zlen tbl -> i + Z.of_nat n <= zlen idt ->
  exists idt', idt_loop n i tbl idt = Ok idt' /\ zlen idt' = IDT_DESC_CNT /\
    forall j, 0 <= j < IDT_DESC_CNT ->
      idt' !! Z.to_nat j =
        (if (i <=? j) && (j <? i + Z.of_nat n)
         then Some (make_idt_desc (at_ tbl j) IDT_DESC_ATTR_DPL0) else idt !! Z.to_nat j).
Proof.
  induction n as [|n IH]; intros i idt Hlen Hi Ht Hd; cbn [idt_loop].
  - exists idt. split; [done|split; [done|]]. intros j Hj.
    destruct (Z.leb_spec i j), (Z.ltb_spec j (i + Z.of_nat 0)); cbn; try done; lia.
  - rewrite (bindR_ok _ _ _ (aget_at tbl i ltac:(lia))).
    set (g := make_idt_desc (at_ tbl i) IDT_DESC_ATTR_DPL0).
    assert (Hlen' : zlen (<[Z.to_nat i := g]> idt) = IDT_DESC_CNT)
      by (unfold zlen in *; by rewrite length_insert).
    destruct (IH (i + 1) (<[Z.to_nat i := g]> idt)) as (idt' & E & L & Hk); try lia.
    exists idt'. split; [done|split; [done|]]. intros j Hj. rewrite Hk by done.
    destruct (Z.eq_dec i j) as [->|Hne].
    + destruct (Z.leb_spec (j + 1) j); [lia|]. cbn [andb].
      rewrite list_lookup_insert_eq by (unfold zlen in *; lia). decide_bool. done.
    + rewrite list_lookup_insert_ne by lia.
      destruct (Z.leb_spec (i + 1) j), (Z.leb_spec i j); try lia; cbn [andb]; try done.
      destruct (Z.ltb_spec j (i + 1 + Z.of_nat n)), (Z.ltb_spec j (i + Z.of_nat (S n)));
        try lia; done.
Qed.

(** After [idt_init] every vector below 0x80 leads to the word of the table
    for that vector at privilege 0, and vector 0x80 -- and only it -- enters
    [syscall_handler] with a gate that user mode (ring 3) may call. *)
Theorem idt_init_gates (intr_entry_table : list Z) (syscall_handler : Z) (idt : list gate_desc) :
  zlen intr_entry_table = IDT_DESC_CNT -> zlen idt = IDT_DESC_CNT ->
  Forall (fun f => 0 <= f < 4294967296) intr_entry_table ->
  0 <= syscall_handler < 4294967296 ->
  exists idt', idt_init intr_entry_table syscall_handler idt = Ok idt' /\
    forall v, 0 <= v <= 0x80 -> exists g, idt' !! Z.to_nat v = Some g /\
      selector g = SELECTOR_KERNEL_CODE /\
      (v < 0x80 -> gate_target g = at_ intr_entry_table v /\ gate_dpl g = 0) /\
      (v = 0x80 -> gate_target g = syscall_handler /\ gate_dpl g = 3).
Proof.
  intros Ht Hi Hf Hs. unfold idt_init.
  destruct (idt_loop_ok intr_entry_table (Z.to_nat IDT_DESC_CNT) 0 idt)
    as (idt' & E & L & Hk); try (rewrite ?Ht, ?Hi; unfold IDT_DESC_CNT in *; lia).
  rewrite (bindR_ok _ _ _ E). eexists. split; [done|]. intros v Hv.
  destruct (Z.eq_dec v 0x80) as [->|Hne].
  - rewrite list_lookup_insert_eq by (unfold zlen, IDT_DESC_CNT in *; lia).
    eexists. split; [done|]. split; [done|]. split; [lia|]. intros _.
    split; [by apply gate_target_make | done].
  - rewrite list_lookup_insert_ne by (unfold IDT_DESC_CNT; lia).
    rewrite Hk by (unfold IDT_DESC_CNT; lia).
    change (0 + Z.of_nat (Z.to_nat IDT_DESC_CNT)) with 0x81. decide_bool.
    eexists. split; [done|]. split; [done|]. split; [|lia]. intros _.
    split; [|done]. apply gate_target_make.
    unfold at_. destruct (lookup_lt_is_Some_2 intr_entry_table (Z.to_nat v)) as [x Hx];
      [unfold zlen, IDT_DESC_CNT in *; lia|]. rewrite Hx. cbn.
    by apply (Forall_lookup_1 _ _ _ _ Hf Hx).
Qed.

Lemma idt_init_gates_witness :
  exists idt', idt_init (replicate 129 0xc0001500) 0xc0002000 (replicate 129 (mk_gate 0 0 0 0 0))
               = Ok idt' /\
    forall v, 0 <= v <= 0x80 -> exists g, idt' !! Z.to_nat v = Some g /\
      selector g = SELECTOR_KERNEL_CODE /\
      (v < 0x80 -> gate_target g = at_ (replicate 129 0xc0001500) v /\ gate_dpl g = 0) /\
      (v = 0x80 -> gate_target g = 0xc0002000 /\ gate_dpl g = 3).
Proof.
  apply idt_init_gates.
  - reflexivity.
  - reflexivity.
  - apply Forall_replicate. lia.
  - lia.
Defined.

End Idt.

(** ** Interrupt status lemmas *)

Definition status_of (s : mach) : intr_status :=
  if Z.testbit (eflags s) 9 then INTR_ON else INTR_OFF.

Lemma land_if_bit x : Z.land EFLAGS_IF x = if Z.testbit x 9 then 0x200 else 0.
Proof.
  apply Z.bits_inj'. intros i Hi. rewrite Z.land_spec.
  change EFLAGS_IF with (2 ^ 9). rewrite Z.pow2_bits_eqb by lia.
  destruct (Z.eqb_spec 9 i) as [<-|Hne]; cbn [andb].
  - destruct (Z.testbit x 9); done.
  - destruct (Z.testbit x 9); [|by rewrite Z.testbit_0_l].
    change 0x200 with (2 ^ 9). rewrite Z.pow2_bits_eqb by lia. by decide_bool.
Qed.

Lemma intr_get_status_ok s : intr_get_status s = Ok (status_of s, s).
Proof.
  unfold intr_get_status, mbind, M_bind, gets, mret, M_ret, status_of.
  rewrite land_if_bit. by destruct (Z.testbit (eflags s) 9).
Qed.

Lemma sti_bit x i : 0 <= i -> Z.testbit (Z.lor x EFLAGS_IF) i = (Z.testbit x i || (i =? 9)).
Proof.
  intros Hi. rewrite Z.lor_spec. change EFLAGS_IF with (2 ^ 9).
  rewrite Z.pow2_bits_eqb by lia. by rewrite Z.eqb_sym.
Qed.

Lemma cli_bit x i : 0 <= i -> Z.testbit (Z.ldiff x EFLAGS_IF) i = (Z.testbit x i && negb (i =? 9)).
Proof.
  intros Hi. rewrite Z.ldiff_spec. change EFLAGS_IF with (2 ^ 9).
  rewrite Z.pow2_bits_eqb by lia. by rewrite Z.eqb_sym.
Qed.

(** EFLAGS after the interrupt flag is set to a status. *)
Definition with_if (st : intr_status) (x : Z) : Z :=
  match st with INTR_ON => Z.lor x EFLAGS_IF | INTR_OFF => Z.ldiff x EFLAGS_IF end.

Lemma with_if_id s : with_if (status_of s) (eflags s) = eflags s.
Proof.
  unfold with_if, status_of. destruct (Z.testbit (eflags s) 9) eqn:E;
    apply Z.bits_inj'; intros i Hi; rewrite ?sti_bit, ?cli_bit by done.
  - destruct (Z.eqb_spec i 9) as [->|]; [by rewrite E | apply orb_false_r].
  - destruct (Z.eqb_spec i 9) as [->|]; [by rewrite E | apply andb_true_r].
Qed.

Lemma with_if_with_if st st' x : with_if st (with_if st' x) = with_if st x.
Proof.
  apply Z.bits_inj'. intros i Hi. unfold with_if.
  destruct st, st'; rewrite ?sti_bit, ?cli_bit, ?sti_bit, ?cli_bit by done;
    destruct (Z.testbit x i), (i =? 9); done.
Qed.

Lemma status_with_if st x p n : status_of (mk_mach (with_if st x) p n) = st.
Proof.
  unfold status_of, with_if. cbn [eflags]. destruct st; rewrite ?sti_bit, ?cli_bit by lia;
    rewrite ?orb_true_r, ?andb_false_r; done.
Qed.

Lemma intr_set_status_ok st s :
  intr_set_status st s
  = Ok (status_of s, mk_mach (with_if st (eflags s)) (prevs s) (nexts s)).
Proof.
  destruct s as [e p n]. unfold intr_set_status, intr_enable, intr_disable.
  pose proof (with_if_id (mk_mach e p n)) as Hid. cbn [eflags prevs nexts] in *.
  destruct st; [rewrite decide_False by done | rewrite decide_True by done];
    rewrite (bindM_ok _ _ _ _ _ (intr_get_status_ok _));
    destruct (status_of (mk_mach e p n)); cbn in Hid; case_decide; try done;
    unfold sti, cli; mrun; by rewrite ?Hid.
Qed.

Lemma intr_disable_ok s :
  intr_disable s = Ok (status_of s, mk_mach (with_if INTR_OFF (eflags s)) (prevs s) (nexts s)).
Proof. apply (intr_set_status_ok INTR_OFF). Qed.

(** The idiom [old = intr_disable(); body; intr_set_status(old)]: the body runs
    with interrupts off and EFLAGS is restored whatever it was. *)
Lemma critical_section {A} (body : M mach A) s a p n :
  body (mk_mach (with_if INTR_OFF (eflags s)) (prevs s) (nexts s))
    = Ok (a, mk_mach (with_if INTR_OFF (eflags s)) p n) ->
  (old ← intr_disable; r ← body; _ ← intr_set_status old; mret r) s
    = Ok (a, mk_mach (eflags s) p n).
Proof.
  intros Hb. rewrite (bindM_ok _ _ _ _ _ (intr_disable_ok s)).
  rewrite (bindM_ok _ _ _ _ _ Hb).
  rewrite (bindM_ok _ _ _ _ _ (intr_set_status_ok _ _)). cbn [eflags prevs nexts].
  rewrite with_if_with_if, with_if_id. done.
Qed.
