(* ===== verification/Lists.v ===== *)
(** * Lists: lib/kernel/list.c

    The doubly linked lists with sentinel nodes that carry every queue of the
    kernel.  A [struct list] at address [L] has its head sentinel at [L] and
    its tail sentinel at [L + 8]; a node is the address of its two link
    fields.  The operations work on the link memory of [mach]; reading a link
    that was never written, or any access through NULL, is a [Fault].

    The abstraction is [Γ], a map from list addresses to node sequences:
    [lists_ok s Γ] says that the link memory holds exactly these lists, on
    pairwise disjoint nodes.  Every operation refines the sequence operation
    on one list of [Γ] and leaves all others alone. *)

From S2P Require Import Prelude Interrupt.

Definition NULL : Z := 0.
Definition head_of (L : Z) : Z := L.
Definition tail_of (L : Z) : Z := L + 8.

Definition rd_next (a : Z) : M mach Z := fun s =>
  match nexts s !! a with Some x => Ok (x, s) | None => Err Fault end.
Definition rd_prev (a : Z) : M mach Z := fun s =>
  match prevs s !! a with Some x => Ok (x, s) | None => Err Fault end.
Definition wr_next (a x : Z) : M mach unit := fun s =>
  if a =? NULL then Err Fault else Ok (tt, mk_mach (eflags s) (prevs s) (<[a := x]> (nexts s))).
Definition wr_prev (a x : Z) : M mach unit := fun s =>
  if a =? NULL then Err Fault else Ok (tt, mk_mach (eflags s) (<[a := x]> (prevs s)) (nexts s)).

Definition list_init (L : Z) : M mach unit :=
  _ ← wr_prev (head_of L) NULL;
  _ ← wr_next (head_of L) (tail_of L);
  _ ← wr_prev (tail_of L) (head_of L);
  wr_next (tail_of L) NULL.

Definition list_insert_before (src node : Z) : M mach unit :=
  old_status ← intr_disable;
  r ← (p ← rd_prev src;
       _ ← wr_next p node;
       p' ← rd_prev src;
       _ ← wr_prev node p';
       _ ← wr_next node src;
       wr_prev src node);
  _ ← intr_set_status old_status;
  mret r.

Definition list_push (L node : Z) : M mach unit :=
  first ← rd_next (head_of L);
  list_insert_before first node.

Definition list_append (L node : Z) : M mach unit :=
  list_insert_before (tail_of L) node.

Definition list_remove (node : Z) : M mach unit :=
  old_status ← intr_disable;
  r ← (p ← rd_prev node;
       n ← rd_next node;
       _ ← wr_next p n;
       n' ← rd_next node;
       p' ← rd_prev node;
       wr_prev n' p');
  _ ← intr_set_status old_status;
  mret r.

Definition list_pop (L : Z) : M mach Z :=
  node ← rd_next (head_of L);
  _ ← list_remove node;
  mret node.

(** A walk visits each node at most once unless the links form a cycle, so
    one step more than there are nodes is enough fuel. *)
Definition walk_fuel (s : mach) : nat := S (size (nexts s)).

Fixpoint node_find_loop (fuel : nat) (L node obj_node : Z) : M mach bool :=
  match fuel with
  | O => fail OutOfFuel
  | S n =>
      if node =? tail_of L then mret false
      else if node =? obj_node then mret true
      else nxt ← rd_next node; node_find_loop n L nxt obj_node
  end.

Definition node_find (L obj_node : Z) : M mach bool := fun s =>
  (node ← rd_next (head_of L); node_find_loop (walk_fuel s) L node obj_node) s.

Fixpoint list_len_loop (fuel : nat) (L node len : Z) : M mach Z :=
  match fuel with
  | O => fail OutOfFuel
  | S n =>
      if node =? tail_of L then mret len
      else nxt ← rd_next node; list_len_loop n L nxt (u32 (len + 1))
  end.

Definition list_len (L : Z) : M mach Z := fun s =>
  (node ← rd_next (head_of L); list_len_loop (walk_fuel s) L node 0) s.

Definition list_empty (L : Z) : M mach bool :=
  first ← rd_next (head_of L); mret (first =? tail_of L).

(** The callback may change the caller's state [S], of which the link memory
    is the part [mach_of]. *)
Section traversal.
Context {S : Type} (mach_of : S -> mach).

Definition on_links {A} (m : M mach A) : M S A := fun s =>
  match m (mach_of s) with Ok (a, _) => Ok (a, s) | Err e => Err e end.

Fixpoint list_traversal_loop (fuel : nat) (L node : Z) (func : Z -> M S bool) : M S Z :=
  match fuel with
  | O => fail OutOfFuel
  | Datatypes.S n =>
      if node =? tail_of L then mret NULL
      else b ← func node;
           if (b : bool) then mret node
           else nxt ← on_links (rd_next node); list_traversal_loop n L nxt func
  end.

Definition list_traversal (L : Z) (func : Z -> M S bool) : M S Z := fun s =>
  (node ← on_links (rd_next (head_of L));
   e ← on_links (list_empty L);
   if (e : bool) then mret NULL
   else list_traversal_loop (walk_fuel (mach_of s)) L node func) s.
End traversal.

(** ** The abstraction *)

Definition link (s : mach) (a b : Z) : Prop :=
  nexts s !! a = Some b /\ prevs s !! b = Some a.

(** A segment: from [a] through [xs] to [b], linked both ways. *)
Fixpoint dseg (s : mach) (a : Z) (xs : list Z) (b : Z) : Prop :=
  match xs with
  | [] => link s a b
  | x :: xs' => link s a x /\ dseg s x xs' b
  end.

Definition foot (L : Z) (xs : list Z) : list Z := head_of L :: xs ++ [tail_of L].

Record lists_ok (s : mach) (Γ : gmap Z (list Z)) : Prop := {
  lo_seg : forall L xs, Γ !! L = Some xs -> dseg s (head_of L) xs (tail_of L);
  lo_nodup : forall L xs, Γ !! L = Some xs -> NoDup (foot L xs);
  lo_disj : forall L1 L2 xs1 xs2 a, Γ !! L1 = Some xs1 -> Γ !! L2 = Some xs2 ->
    L1 <> L2 -> a ∈ foot L1 xs1 -> a ∉ foot L2 xs2;
  lo_nonnull : forall L xs a, Γ !! L = Some xs -> a ∈ foot L xs -> a <> NULL }.

Definition fresh (Γ : gmap Z (list Z)) (node : Z) : Prop :=
  node <> NULL /\ forall L xs, Γ !! L = Some xs -> node ∉ foot L xs.

(** ** Segment lemmas *)

Definition last_of (a : Z) (xs : list Z) : Z := default a (list.last xs).

Lemma last_of_cons a x xs : last_of a (x :: xs) = last_of x xs.
Proof. unfold last_of. rewrite last_cons. by destruct (list.last xs). Qed.

Lemma last_of_elem a xs : last_of a xs ∈ a :: xs.
Proof.
  unfold last_of. destruct (list.last xs) eqn:E; cbn; [|set_solver].
  apply last_Some in E as [l ->]. set_solver.
Qed.

Lemma dseg_prev s a xs b : dseg s a xs b -> link s (last_of a xs) b.
Proof.
  revert a. induction xs as [|x xs IH]; intros a; [done|].
  intros [_ H]. rewrite last_of_cons. by apply IH.
Qed.

Lemma dseg_app s a xs y ys b :
  dseg s a (xs ++ y :: ys) b <-> dseg s a xs y /\ dseg s y ys b.
Proof.
  revert a. induction xs as [|x xs IH]; intros a; cbn [app dseg]; [done|].
  rewrite IH. tauto.
Qed.

Lemma dseg_frame s s' a xs b : dseg s a xs b ->
  (forall c, c ∈ a :: xs -> nexts s' !! c = nexts s !! c) ->
  (forall c, c ∈ xs ++ [b] -> prevs s' !! c = prevs s !! c) ->
  dseg s' a xs b.
Proof.
  revert a. induction xs as [|x xs IH]; intros a; cbn [dseg]; unfold link.
  - intros [H1 H2] Hn Hp. rewrite Hn, Hp by set_solver. done.
  - intros [[H1 H2] H] Hn Hp. split; [rewrite Hn, Hp by set_solver; done|].
    apply IH; [done| |]; intros c Hc; [apply Hn | apply Hp]; set_solver.
Qed.

(** Redirecting the last link of a segment to another node. *)
Lemma dseg_retarget s s' a xs b c : dseg s a xs b -> NoDup (a :: xs) -> c ∉ xs ->
  nexts s' = <[last_of a xs := c]> (nexts s) ->
  prevs s' = <[c := last_of a xs]> (prevs s) ->
  dseg s' a xs c.
Proof.
  revert a. induction xs as [|x xs IH]; intros a Hs Hnd Hc Hn Hp; cbn [dseg] in *.
  - unfold link. rewrite Hn, Hp. unfold last_of. cbn. by rewrite !lookup_insert_eq.
  - destruct Hs as [[H1 H2] Hs]. rewrite last_of_cons in Hn, Hp.
    apply NoDup_cons in Hnd as [Ha Hnd].
    pose proof (last_of_elem x xs) as Hl. split.
    + unfold link. rewrite Hn, Hp, !lookup_insert_ne by set_solver. done.
    + apply IH; [done..|set_solver|done|done].
Qed.

Lemma dseg_length s a xs b : dseg s a xs b -> NoDup (a :: xs) ->
  (length xs < size (nexts s))%nat.
Proof.
  intros Hs Hnd.
  assert (Hin : forall x, x ∈ a :: xs -> is_Some (nexts s !! x)).
  { clear Hnd. revert a Hs. induction xs as [|y ys IH]; intros a; cbn [dseg].
    - intros [H _] x Hx. assert (x = a) as -> by set_solver. eauto.
    - intros [[H _] Hs] x Hx. apply elem_of_cons in Hx as [->|Hx]; [eauto|]. by eapply IH. }
  assert (Hsz : size (list_to_set (a :: xs) : gset Z) = S (length xs))
    by (rewrite size_list_to_set by done; done).
  assert (list_to_set (a :: xs) ⊆ dom (nexts s)).
  { intros x Hx. apply elem_of_dom, Hin. by apply elem_of_list_to_set in Hx. }
  pose proof (subseteq_size _ _ H). rewrite size_dom in H0. lia.
Qed.

(** ** Effects of the primitive operations on the link memory *)

Lemma rd_next_ok s a x : nexts s !! a = Some x -> rd_next a s = Ok (x, s).
Proof. intros H. unfold rd_next. by rewrite H. Qed.
Lemma rd_prev_ok s a x : prevs s !! a = Some x -> rd_prev a s = Ok (x, s).
Proof. intros H. unfold rd_prev. by rewrite H. Qed.
Lemma wr_next_ok s a x : a <> NULL ->
  wr_next a x s = Ok (tt, mk_mach (eflags s) (prevs s) (<[a := x]> (nexts s))).
Proof. unfold NULL. intros H. unfold wr_next, NULL. by decide_bool. Qed.
Lemma wr_prev_ok s a x : a <> NULL ->
  wr_prev a x s = Ok (tt, mk_mach (eflags s) (<[a := x]> (prevs s)) (nexts s)).
Proof. unfold NULL. intros H. unfold wr_prev, NULL. by decide_bool. Qed.

Lemma insert_before_eff s src node pre :
  prevs s !! src = Some pre -> pre <> NULL -> node <> NULL -> src <> NULL ->
  list_insert_before src node s =
    Ok (tt, mk_mach (eflags s) (<[src := node]> (<[node := pre]> (prevs s)))
                    (<[node := src]> (<[pre := node]> (nexts s)))).
Proof.
  intros Hp H1 H2 H3. apply critical_section.
  rewrite (bindM_ok _ _ _ _ _ (rd_prev_ok (mk_mach _ (prevs s) _) _ _ Hp)).
  rewrite (bindM_ok _ _ _ _ _ (wr_next_ok _ _ _ H1)). cbn [eflags prevs nexts].
  rewrite (bindM_ok _ _ _ _ _ (rd_prev_ok (mk_mach _ (prevs s) _) _ _ Hp)).
  rewrite (bindM_ok _ _ _ _ _ (wr_prev_ok _ _ _ H2)). cbn [eflags prevs nexts].
  rewrite (bindM_ok _ _ _ _ _ (wr_next_ok _ _ _ H2)). cbn [eflags prevs nexts].
  by rewrite wr_prev_ok.
Qed.

Lemma remove_eff s node pre nxt :
  prevs s !! node = Some pre -> nexts s !! node = Some nxt ->
  pre <> NULL -> nxt <> NULL -> pre <> node ->
  list_remove node s =
    Ok (tt, mk_mach (eflags s) (<[nxt := pre]> (prevs s)) (<[pre := nxt]> (nexts s))).
Proof.
  intros Hp Hn H1 H2 H3. apply critical_section.
  rewrite (bindM_ok _ _ _ _ _ (rd_prev_ok (mk_mach _ (prevs s) _) _ _ Hp)).
  rewrite (bindM_ok _ _ _ _ _ (rd_next_ok (mk_mach _ _ (nexts s)) _ _ Hn)).
  rewrite (bindM_ok _ _ _ _ _ (wr_next_ok _ _ _ H1)). cbn [eflags prevs nexts].
  erewrite bindM_ok by (apply rd_next_ok; cbn; by rewrite lookup_insert_ne).
  rewrite (bindM_ok _ _ _ _ _ (rd_prev_ok (mk_mach _ (prevs s) _) _ _ Hp)).
  by rewrite wr_prev_ok.
Qed.

(** ** Refinement of sequence operations *)

Lemma dseg_first s a xs b : dseg s a xs b -> nexts s !! a = Some (default b (head xs)).
Proof. destruct xs; [by intros [? _] | by intros [[? _] _]]. Qed.

Lemma dseg_split s a xs ys b : dseg s a (xs ++ ys) b ->
  dseg s a xs (default b (head ys)) /\
  match ys with [] => True | y :: ys' => dseg s y ys' b end.
Proof.
  destruct ys as [|y ys]; cbn; [by rewrite app_nil_r|]. apply dseg_app.
Qed.

(** Changing one list of [Γ]: the other lists are framed. *)
Lemma lists_ok_update s s' Γ L xs ys :
  lists_ok s Γ -> Γ !! L = Some xs ->
  dseg s' (head_of L) ys (tail_of L) -> NoDup (foot L ys) ->
  (forall a, a ∈ foot L ys -> a ∈ foot L xs \/ fresh Γ a) ->
  (forall L2 xs2 c, Γ !! L2 = Some xs2 -> L2 <> L -> c ∈ foot L2 xs2 ->
     nexts s' !! c = nexts s !! c /\ prevs s' !! c = prevs s !! c) ->
  lists_ok s' (<[L := ys]> Γ).
Proof.
  intros [Hseg Hnd Hdj Hnn] HL Hs' Hnd' Hin Hfr.
  assert (Hother : forall L2 xs2 a, Γ !! L2 = Some xs2 -> L2 <> L -> a ∈ foot L ys ->
    a ∉ foot L2 xs2).
  { intros L2 xs2 a H2 Hne Ha. destruct (Hin a Ha) as [Ha'|[_ Hf]]; [|by eapply Hf].
    by eapply (Hdj L L2). }
  split.
  - intros L2 xs2. destruct (decide (L2 = L)) as [->|Hne].
    + rewrite lookup_insert_eq. by intros [= <-].
    + rewrite lookup_insert_ne by done. intros H2.
      apply (dseg_frame s); [by apply Hseg| |]; intros c Hc;
        apply (Hfr L2 xs2 c H2 Hne); unfold foot; set_solver.
  - intros L2 xs2. destruct (decide (L2 = L)) as [->|Hne].
    + rewrite lookup_insert_eq. by intros [= <-].
    + rewrite lookup_insert_ne by done. apply Hnd.
  - intros L1 L2 xs1 xs2 a H1 H2 Hne Ha.
    destruct (decide (L1 = L)) as [->|H1L], (decide (L2 = L)) as [->|H2L]; try done;
      rewrite ?lookup_insert_eq, ?lookup_insert_ne in * by done; simplify_eq.
    + by eapply Hother.
    + intros Ha2. by eapply (Hother L1).
    + by eapply (Hdj L1 L2).
  - intros L2 xs2 a H2 Ha. destruct (decide (L2 = L)) as [->|Hne].
    + rewrite lookup_insert_eq in H2. simplify_eq.
      destruct (Hin a Ha) as [Ha'|[Hf _]]; [by eapply Hnn | done].
    + rewrite lookup_insert_ne in H2 by done. by eapply Hnn.
Qed.

Lemma foot_insert_perm L xs ys node :
  foot L (xs ++ node :: ys) ≡ₚ node :: foot L (xs ++ ys).
Proof.
  unfold foot. rewrite <- !app_assoc. cbn [app].
  rewrite <- Permutation_middle. apply Permutation_swap.
Qed.

Lemma insert_before_ok s Γ L xs ys node :
  lists_ok s Γ -> Γ !! L = Some (xs ++ ys) -> fresh Γ node ->
  exists s', list_insert_before (default (tail_of L) (head ys)) node s = Ok (tt, s')
    /\ lists_ok s' (<[L := xs ++ node :: ys]> Γ) /\ eflags s' = eflags s.
Proof.
  intros HO HL [Hnn Hfr]. pose proof (lo_seg _ _ HO _ _ HL) as Hs.
  pose proof (lo_nodup _ _ HO _ _ HL) as Hnd. pose proof (Hfr _ _ HL) as Hnode.
  apply dseg_split in Hs as [Hx Hy]. set (src := default (tail_of L) (head ys)) in *.
  assert (Hsrc : src ∈ ys ++ [tail_of L]) by (destruct ys; cbn in *; set_solver).
  pose proof (last_of_elem (head_of L) xs) as Hpre.
  destruct (dseg_prev _ _ _ _ Hx) as [Hpn Hpp]. set (pre := last_of (head_of L) xs) in *.
  assert (Hnd1 : NoDup ((head_of L :: xs) ++ (ys ++ [tail_of L])))
    by (unfold foot in Hnd; by rewrite <- app_assoc in Hnd).
  apply NoDup_app in Hnd1 as (HndX & Hsep & HndY).
  unfold foot in Hnode. rewrite <- app_assoc in Hnode.
  assert (Hps : pre <> src) by (intros E; apply (Hsep pre Hpre); by rewrite E).
  assert (Hnp : node <> pre) by (intros ->; apply Hnode; set_solver).
  assert (Hns : node <> src) by (intros ->; apply Hnode; set_solver).
  eexists. split; [|split].
  - apply insert_before_eff; [done|..|done|];
      (eapply (lo_nonnull _ _ HO); [done | unfold foot; rewrite <- app_assoc; set_solver]).
  - eapply (lists_ok_update s); [done|done|..].
    + apply dseg_app. split.
      * eapply dseg_frame.
        -- apply (dseg_retarget s (mk_mach (eflags s) (<[node := pre]> (prevs s))
             (<[pre := node]> (nexts s))) (head_of L) xs src node); [done|done|set_solver|done|done].
        -- intros c Hc. cbn [nexts]. rewrite (lookup_insert_ne _ node) by set_solver. done.
        -- intros c Hc. cbn [prevs]. rewrite (lookup_insert_ne _ src); [done|].
           intros ->. apply elem_of_app in Hc as [Hc|Hc]; [|set_solver].
           apply (Hsep c); [set_solver | done].
      * destruct ys as [|y ys]; cbn [dseg] in *.
        -- unfold link. cbn [prevs nexts]. rewrite !lookup_insert_eq. done.
        -- split; [unfold link; cbn [prevs nexts]; rewrite !lookup_insert_eq; done|].
           eapply dseg_frame; [done|..]; intros c Hc; cbn [prevs nexts].
           ++ rewrite !lookup_insert_ne; [done| |set_solver].
              intros <-. apply (Hsep _ Hpre). set_solver.
           ++ cbn in HndY. apply NoDup_cons in HndY as [Hy1 _].
              rewrite !lookup_insert_ne; [done|set_solver|].
              intros E. apply Hy1. cbn in E. by rewrite E.
    + rewrite foot_insert_perm. apply NoDup_cons. split; [by apply (Hfr _ _ HL) | done].
    + intros a. rewrite foot_insert_perm. intros [->|Ha]%elem_of_cons; [by right | by left].
    + intros L2 xs2 c H2 Hne Hc. cbn [prevs nexts].
      assert (Hc' : c ∉ foot L (xs ++ ys)) by (eapply (lo_disj _ _ HO L2 L); done).
      assert (node <> c) by (intros <-; by apply (Hfr _ _ H2)).
      unfold foot in Hc'. rewrite <- app_assoc in Hc'.
      rewrite !lookup_insert_ne by set_solver. done.
  - done.
Qed.

Lemma remove_ok s Γ L xs x ys :
  lists_ok s Γ -> Γ !! L = Some (xs ++ x :: ys) ->
  exists s', list_remove x s = Ok (tt, s')
    /\ lists_ok s' (<[L := xs ++ ys]> Γ) /\ fresh (<[L := xs ++ ys]> Γ) x
    /\ eflags s' = eflags s.
Proof.
  intros HO HL. pose proof (lo_seg _ _ HO _ _ HL) as Hs.
  pose proof (lo_nodup _ _ HO _ _ HL) as Hnd. rewrite foot_insert_perm in Hnd.
  apply NoDup_cons in Hnd as [Hxf Hnd].
  assert (Hnnx : forall a, a ∈ foot L (xs ++ x :: ys) -> a <> NULL)
    by (intros a; apply (lo_nonnull _ _ HO _ _ _ HL)).
  setoid_rewrite foot_insert_perm in Hnnx.
  apply dseg_app in Hs as [Hx Hy].
  pose proof (last_of_elem (head_of L) xs) as Hpre.
  destruct (dseg_prev _ _ _ _ Hx) as [Hpn Hpp]. set (pre := last_of (head_of L) xs) in *.
  pose proof (dseg_first _ _ _ _ Hy) as Hxn. set (nxt := default (tail_of L) (head ys)) in *.
  assert (Hnxt : nxt ∈ ys ++ [tail_of L]) by (destruct ys; cbn in *; set_solver).
  unfold foot in Hnnx, Hxf, Hnd. rewrite <- app_assoc in Hnnx, Hxf, Hnd.
  change (head_of L :: xs ++ ys ++ [tail_of L]) with
    ((head_of L :: xs) ++ (ys ++ [tail_of L])) in Hnnx, Hxf, Hnd.
  pose proof Hnd as Hnd'. apply NoDup_app in Hnd as (HndX & Hsep & HndY).
  assert (HO' : lists_ok (mk_mach (eflags s) (<[nxt := pre]> (prevs s)) (<[pre := nxt]> (nexts s)))
                  (<[L := xs ++ ys]> Γ)).
  { eapply (lists_ok_update s); [done|done|..].
    - assert (Hn : dseg (mk_mach (eflags s) (<[nxt := pre]> (prevs s)) (<[pre := nxt]> (nexts s)))
                     (head_of L) xs nxt).
      { eapply dseg_retarget; [done|done| |done|done]. intros Hc. apply (Hsep nxt); [set_solver|done]. }
      destruct ys as [|y ys]; cbn in nxt; [by rewrite app_nil_r|].
      apply dseg_app. split; [done|]. destruct Hy as [_ Hy].
      eapply dseg_frame; [done|..]; intros c Hc; cbn [prevs nexts].
      + rewrite lookup_insert_ne; [done|]. intros <-. apply (Hsep _ Hpre). set_solver.
      + cbn in HndY. apply NoDup_cons in HndY as [Hy1 _].
        rewrite lookup_insert_ne; [done|]. intros <-. exact (Hy1 Hc).
    - unfold foot. by rewrite <- app_assoc.
    - intros a Ha. left. rewrite foot_insert_perm. by right.
    - intros L2 xs2 c H2 Hne Hc. cbn [prevs nexts].
      assert (Hc' : c ∉ foot L (xs ++ x :: ys)) by (eapply (lo_disj _ _ HO L2 L); done).
      rewrite foot_insert_perm in Hc'. unfold foot in Hc'. rewrite <- app_assoc in Hc'.
      rewrite !lookup_insert_ne by set_solver. done. }
  eexists. split; [apply (remove_eff _ _ pre nxt); try done; try (apply Hnnx; set_solver); set_solver|].
  split; [done|]. split; [|done]. split; [apply Hnnx; set_solver|].
  intros L2 xs2. destruct (decide (L2 = L)) as [->|Hne].
  - rewrite lookup_insert_eq. intros [= <-]. unfold foot. by rewrite <- app_assoc.
  - rewrite lookup_insert_ne by done. intros H2. eapply (lo_disj _ _ HO L L2); try done.
    rewrite foot_insert_perm. by left.
Qed.

Lemma list_append_ok s Γ L xs node :
  lists_ok s Γ -> Γ !! L = Some xs -> fresh Γ node ->
  exists s', list_append L node s = Ok (tt, s')
    /\ lists_ok s' (<[L := xs ++ [node]]> Γ) /\ eflags s' = eflags s.
Proof.
  intros HO HL Hf. destruct (insert_before_ok s Γ L xs [] node) as (s' & E & H);
    [done | by rewrite app_nil_r | done | eauto].
Qed.

Lemma list_push_ok s Γ L xs node :
  lists_ok s Γ -> Γ !! L = Some xs -> fresh Γ node ->
  exists s', list_push L node s = Ok (tt, s')
    /\ lists_ok s' (<[L := node :: xs]> Γ) /\ eflags s' = eflags s.
Proof.
  intros HO HL Hf. destruct (insert_before_ok s Γ L [] xs node) as (s' & E & H);
    [done..|]. exists s'. split; [|done]. unfold list_push.
  erewrite bindM_ok by (apply rd_next_ok, (dseg_first _ _ xs), (lo_seg _ _ HO _ _ HL)). done.
Qed.

Lemma list_pop_ok s Γ L x xs :
  lists_ok s Γ -> Γ !! L = Some (x :: xs) ->
  exists s', list_pop L s = Ok (x, s')
    /\ lists_ok s' (<[L := xs]> Γ) /\ fresh (<[L := xs]> Γ) x /\ eflags s' = eflags s.
Proof.
  intros HO HL. destruct (remove_ok s Γ L [] x xs) as (s' & E & H); [done..|].
  exists s'. split; [|done]. unfold list_pop.
  erewrite bindM_ok by (apply rd_next_ok, (dseg_first _ _ (x :: xs)), (lo_seg _ _ HO _ _ HL)).
  cbn [from_option head]. by rewrite (bindM_ok _ _ _ _ _ E).
Qed.

(** Popping an empty list removes the tail sentinel: the head is left pointing
    at NULL and the write through NULL faults. *)
Lemma list_pop_empty s L :
  link s (head_of L) (tail_of L) -> nexts s !! tail_of L = Some NULL ->
  head_of L <> NULL -> head_of L <> tail_of L -> list_pop L s = Err Fault.
Proof.
  intros [H1 H2] H3 H4 H5. unfold list_pop.
  erewrite bindM_ok by (apply rd_next_ok, H1). unfold list_remove.
  apply bindM_err. rewrite (bindM_ok _ _ _ _ _ (intr_disable_ok s)). apply bindM_err.
  rewrite (bindM_ok _ _ _ _ _ (rd_prev_ok (mk_mach _ (prevs s) _) _ _ H2)).
  rewrite (bindM_ok _ _ _ _ _ (rd_next_ok (mk_mach _ _ (nexts s)) _ _ H3)).
  rewrite (bindM_ok _ _ _ _ _ (wr_next_ok _ _ _ H4)). cbn [eflags prevs nexts].
  erewrite bindM_ok by (apply rd_next_ok; cbn; by rewrite lookup_insert_ne).
  rewrite (bindM_ok _ _ _ _ _ (rd_prev_ok (mk_mach _ (prevs s) _) _ _ H2)). done.
Qed.

Lemma list_init_ok s Γ L :
  lists_ok s Γ -> Γ !! L = None -> fresh Γ (head_of L) -> fresh Γ (tail_of L) ->
  exists s', list_init L s = Ok (tt, s') /\ lists_ok s' (<[L := []]> Γ) /\ eflags s' = eflags s.
Proof.
  intros [Hseg Hnd Hdj Hnn] HL [Hh Hhf] [Ht Htf].
  assert (Hne : head_of L <> tail_of L) by (unfold head_of, tail_of; lia).
  unfold list_init.
  rewrite (bindM_ok _ _ _ _ _ (wr_prev_ok _ _ _ Hh)).
  rewrite (bindM_ok _ _ _ _ _ (wr_next_ok _ _ _ Hh)).
  rewrite (bindM_ok _ _ _ _ _ (wr_prev_ok _ _ _ Ht)), wr_next_ok by done.
  cbn [eflags prevs nexts]. eexists. split; [done|]. split; [|done]. split.
  - intros L2 xs2 [[-> <-]|[Hn H2]]%lookup_insert_Some.
    + split; cbn [prevs nexts].
      * rewrite lookup_insert_ne by done. by rewrite lookup_insert_eq.
      * by rewrite lookup_insert_eq.
    + eapply dseg_frame; [by apply Hseg|..]; intros c Hc; cbn [prevs nexts];
        rewrite !lookup_insert_ne; try done; intros <-;
        first [eapply Hhf | eapply Htf]; try done; unfold foot; set_solver.
  - intros L2 xs2 [[-> <-]|[Hn H2]]%lookup_insert_Some; [|by apply Hnd].
    unfold foot. cbn [app]. repeat constructor; set_solver.
  - intros L1 L2 xs1 xs2 a [[-> <-]|[Hn1 H1]]%lookup_insert_Some
      [[-> <-]|[Hn2 H2]]%lookup_insert_Some Hn Ha; try done.
    + unfold foot in Ha. cbn in Ha. intros Ha2.
      assert (a = head_of L1 \/ a = tail_of L1) as [->| ->] by set_solver;
        [by eapply Hhf | by eapply Htf].
    + unfold foot. cbn. intros Ha2.
      assert (a = head_of L2 \/ a = tail_of L2) as [->| ->] by set_solver;
        [by eapply Hhf | by eapply Htf].
    + by eapply (Hdj L1 L2).
  - intros L2 xs2 a [[-> <-]|[Hn H2]]%lookup_insert_Some Ha; [|by eapply Hnn].
    unfold foot in Ha. cbn in Ha. set_solver.
Qed.

(** ** Walks *)

Lemma foot_tail L xs : NoDup (foot L xs) -> (tail_of L ∉ xs) /\ NoDup (head_of L :: xs).
Proof.
  unfold foot. intros H. change (NoDup ((head_of L :: xs) ++ [tail_of L])) in H.
  apply NoDup_app in H as (H1 & H2 & _). split; [|done].
  intros Hin. by apply (H2 (tail_of L)); [right|left].
Qed.

Lemma walk_start s Γ L xs : lists_ok s Γ -> Γ !! L = Some xs ->
  dseg s (head_of L) xs (tail_of L) /\ (tail_of L ∉ xs) /\ (length xs < walk_fuel s)%nat
  /\ rd_next (head_of L) s = Ok (default (tail_of L) (head xs), s).
Proof.
  intros HO HL. pose proof (lo_seg _ _ HO _ _ HL) as Hs.
  destruct (foot_tail _ _ (lo_nodup _ _ HO _ _ HL)) as [Ht Hnd].
  split; [done|]. split; [done|]. split.
  - pose proof (dseg_length _ _ _ _ Hs Hnd). unfold walk_fuel. lia.
  - by apply rd_next_ok, dseg_first.
Qed.

Lemma node_find_loop_ok s L obj xs : forall a fuel,
  dseg s a xs (tail_of L) -> tail_of L ∉ xs -> (length xs < fuel)%nat ->
  node_find_loop fuel L (default (tail_of L) (head xs)) obj s = Ok (bool_decide (obj ∈ xs), s).
Proof.
  induction xs as [|x xs IH]; intros a [|fuel] Hs Ht Hf; try (cbn in Hf; lia);
    cbn [node_find_loop head from_option]; unfold id.
  - rewrite Z.eqb_refl. by rewrite bool_decide_eq_false_2 by set_solver.
  - destruct Hs as [_ Hs]. apply not_elem_of_cons in Ht as [Hx Ht].
    rewrite (proj2 (Z.eqb_neq x (tail_of L))) by congruence.
    destruct (Z.eqb_spec x obj) as [->|Hne].
    + by rewrite bool_decide_eq_true_2 by set_solver.
    + rewrite (bindM_ok _ _ _ _ _ (rd_next_ok _ _ _ (dseg_first _ _ _ _ Hs))).
      rewrite (IH x) by (done || (cbn in Hf; lia)). f_equal. f_equal.
      apply bool_decide_ext. set_solver.
Qed.

Lemma node_find_ok s Γ L xs obj : lists_ok s Γ -> Γ !! L = Some xs ->
  node_find L obj s = Ok (bool_decide (obj ∈ xs), s).
Proof.
  intros HO HL. destruct (walk_start _ _ _ _ HO HL) as (Hs & Ht & Hf & Hr).
  unfold node_find. rewrite (bindM_ok _ _ _ _ _ Hr). by eapply node_find_loop_ok.
Qed.

Lemma list_len_loop_ok s L xs : forall a fuel len,
  dseg s a xs (tail_of L) -> tail_of L ∉ xs -> (length xs < fuel)%nat ->
  0 <= len -> len + zlen xs < 4294967296 ->
  list_len_loop fuel L (default (tail_of L) (head xs)) len s = Ok (len + zlen xs, s).
Proof.
  induction xs as [|x xs IH]; intros a [|fuel] len Hs Ht Hf Hl Hb; try (cbn in Hf; lia);
    cbn [list_len_loop head from_option]; unfold id.
  - rewrite Z.eqb_refl, zlen_nil, Z.add_0_r. done.
  - destruct Hs as [_ Hs]. apply not_elem_of_cons in Ht as [Hx Ht].
    rewrite (proj2 (Z.eqb_neq x (tail_of L))) by congruence.
    rewrite (bindM_ok _ _ _ _ _ (rd_next_ok _ _ _ (dseg_first _ _ _ _ Hs))).
    rewrite zlen_cons in *. pose proof (zlen_nonneg xs).
    rewrite u32_small, (IH x) by (done || (cbn in Hf; lia)). do 2 f_equal. lia.
Qed.

Lemma list_len_ok s Γ L xs : lists_ok s Γ -> Γ !! L = Some xs -> zlen xs < 4294967296 ->
  list_len L s = Ok (zlen xs, s).
Proof.
  intros HO HL Hb. destruct (walk_start _ _ _ _ HO HL) as (Hs & Ht & Hf & Hr).
  unfold list_len. rewrite (bindM_ok _ _ _ _ _ Hr).
  erewrite list_len_loop_ok by (done || lia). done.
Qed.

Lemma list_empty_ok s Γ L xs : lists_ok s Γ -> Γ !! L = Some xs ->
  list_empty L s = Ok (bool_decide (xs = []), s).
Proof.
  intros HO HL. destruct (walk_start _ _ _ _ HO HL) as (Hs & Ht & Hf & Hr).
  unfold list_empty. rewrite (bindM_ok _ _ _ _ _ Hr). mrun.
  destruct xs as [|x xs]; cbn [head from_option]; unfold id.
  - by rewrite Z.eqb_refl.
  - apply not_elem_of_cons in Ht as [Hx _].
    by rewrite (proj2 (Z.eqb_neq x (tail_of L))) by congruence.
Qed.

Section traversal_ok.
Context {S : Type} (mach_of : S -> mach) (L : Z).

(** A callback that runs [f] on the state and answers [p], for the nodes [ok]
    and in the states [I]: the traversal applies it to the nodes up to and
    including the first it accepts. *)
Variables (func : Z -> M S bool) (p : Z -> S -> bool) (f : Z -> S -> S).
Variables (ok : Z -> Prop) (I : S -> Prop).
Hypothesis func_ok : forall n s, ok n -> I s -> func n s = Ok (p n s, f n s).
Hypothesis f_inv : forall n s, ok n -> I s -> I (f n s).
Hypothesis f_mach : forall n s, mach_of (f n s) = mach_of s.

Fixpoint trav_spec (xs : list Z) (s : S) : Z * S :=
  match xs with
  | [] => (NULL, s)
  | x :: xs' => if p x s then (x, f x s) else trav_spec xs' (f x s)
  end.

Lemma on_links_ok {A} (m : M mach A) s a s1 :
  m (mach_of s) = Ok (a, s1) -> on_links mach_of m s = Ok (a, s).
Proof using. intros H. unfold on_links. by rewrite H. Qed.

Lemma list_traversal_loop_ok xs : forall a fuel s,
  dseg (mach_of s) a xs (tail_of L) -> tail_of L ∉ xs -> (length xs < fuel)%nat ->
  Forall ok xs -> I s ->
  list_traversal_loop mach_of fuel L (default (tail_of L) (head xs)) func s
  = Ok (trav_spec xs s).
Proof using func_ok f_inv f_mach.
  induction xs as [|x xs IH]; intros a [|fuel] s Hs Ht Hf Hok HI; try (cbn in Hf; lia);
    cbn [list_traversal_loop head from_option trav_spec]; unfold id.
  - by rewrite Z.eqb_refl.
  - destruct Hs as [_ Hs]. apply not_elem_of_cons in Ht as [Hx Ht].
    rewrite (proj2 (Z.eqb_neq x (tail_of L))) by congruence.
    apply Forall_cons in Hok as [Hx1 Hok].
    rewrite (bindM_ok _ _ _ _ _ (func_ok x s Hx1 HI)). destruct (p x s); [done|].
    erewrite bindM_ok.
    2:{ eapply on_links_ok, rd_next_ok. rewrite f_mach.
        by apply (dseg_first _ _ xs (tail_of L)). }
    apply (IH x); [by rewrite f_mach | done | cbn in Hf; lia | done | by apply f_inv].
Qed.

Lemma list_traversal_ok Γ xs s : lists_ok (mach_of s) Γ -> Γ !! L = Some xs ->
  Forall ok xs -> I s -> list_traversal mach_of L func s = Ok (trav_spec xs s).
Proof using func_ok f_inv f_mach.
  intros HO HL Hok HI. destruct (walk_start _ _ _ _ HO HL) as (Hs & Ht & Hf & Hr).
  unfold list_traversal. rewrite (bindM_ok _ _ _ _ _ (on_links_ok _ _ _ _ Hr)).
  rewrite (bindM_ok _ _ _ _ _ (on_links_ok _ _ _ _ (list_empty_ok _ _ _ _ HO HL))).
  destruct xs as [|x xs]; [by rewrite bool_decide_eq_true_2|].
  rewrite bool_decide_eq_false_2 by done. by eapply list_traversal_loop_ok.
Qed.
End traversal_ok.

(** ** An executable check of the abstraction, for concrete states *)

Fixpoint dsegb (s : mach) (a : Z) (xs : list Z) (b : Z) : bool :=
  match xs with
  | [] => bool_decide (nexts s !! a = Some b) && bool_decide (prevs s !! b = Some a)
  | x :: xs' => bool_decide (nexts s !! a = Some x) && bool_decide (prevs s !! x = Some a)
                && dsegb s x xs' b
  end.

Definition lists_okb (s : mach) (G : list (Z * list Z)) : bool :=
  forallb (fun '(L, xs) => dsegb s (head_of L) xs (tail_of L)) G
  && bool_decide (NoDup (G ≫= fun '(L, xs) => foot L xs))
  && forallb (fun a => negb (a =? NULL)) (G ≫= fun '(L, xs) => foot L xs).

Lemma dsegb_sound s xs : forall a b, dsegb s a xs b = true -> dseg s a xs b.
Proof.
  induction xs as [|x xs IH]; intros a b; cbn [dsegb dseg]; intros H; bool_prop;
    repeat match goal with H : bool_decide _ = true |- _ => apply bool_decide_eq_true in H end.
  - done.
  - split; [done|]. by apply IH.
Qed.

Lemma foot_in_concat (G : list (Z * list Z)) L xs a : (L, xs) ∈ G -> a ∈ foot L xs ->
  a ∈ G ≫= fun '(L, xs) => foot L xs.
Proof. intros HG Ha. apply list_elem_of_bind. by exists (L, xs). Qed.

Lemma concat_disjoint (G : list (Z * list Z)) L1 xs1 L2 xs2 a :
  NoDup (G ≫= fun '(L, xs) => foot L xs) -> (L1, xs1) ∈ G -> (L2, xs2) ∈ G ->
  L1 <> L2 -> a ∈ foot L1 xs1 -> a ∉ foot L2 xs2.
Proof.
  induction G as [|[L xs] G IH]; intros Hnd H1 H2 Hne Ha Ha2; [by apply not_elem_of_nil in H1|].
  rewrite bind_cons in Hnd. apply NoDup_app in Hnd as (_ & Hd & Hnd).
  apply elem_of_cons in H1 as [[= -> ->]|H1], H2 as [[= -> ->]|H2]; try done.
  - apply (Hd a Ha). by eapply foot_in_concat.
  - apply (Hd a Ha2). by eapply foot_in_concat.
  - by apply IH.
Qed.

Lemma concat_nodup (G : list (Z * list Z)) L xs :
  NoDup (G ≫= fun '(L, xs) => foot L xs) -> (L, xs) ∈ G -> NoDup (foot L xs).
Proof.
  induction G as [|[L' xs'] G IH]; intros Hnd HG; [by apply not_elem_of_nil in HG|].
  rewrite bind_cons in Hnd. apply NoDup_app in Hnd as (H1 & _ & Hnd).
  apply elem_of_cons in HG as [[= -> ->]|HG]; [done | by apply IH].
Qed.

Lemma lists_okb_sound s (G : list (Z * list Z)) :
  lists_okb s G = true -> lists_ok s (list_to_map G).
Proof.
  unfold lists_okb. intros H. bool_prop. apply bool_decide_eq_true in H1.
  rewrite forallb_forall in H, H0. setoid_rewrite <- list_elem_of_In in H.
  setoid_rewrite <- list_elem_of_In in H0. split.
  - intros L xs HL%elem_of_list_to_map_2. by apply dsegb_sound, (H (L, xs)).
  - intros L xs HL%elem_of_list_to_map_2. by eapply concat_nodup.
  - intros L1 L2 xs1 xs2 a HL1%elem_of_list_to_map_2 HL2%elem_of_list_to_map_2.
    by eapply concat_disjoint.
  - intros L xs a HL%elem_of_list_to_map_2 Ha. pose proof (foot_in_concat _ _ _ _ HL Ha) as Hc.
    apply H0 in Hc. bool_prop. done.
Qed.

(** ** Properties *)

(** C30.  The linked lists implement sequences.  From any well-linked memory
    holding the lists [Γ], on the list [L] with nodes [xs]: [list_append] and
    [list_push] add a node that is in no list at the back and at the front,
    [list_pop] takes the first node, [list_remove] takes a node out of the
    middle and leaves it free; all other lists keep their nodes, all links
    stay consistent in both directions, and EFLAGS (hence the interrupt state)
    is what it was. *)
Theorem list_updates_refine (s : mach) (Γ : gmap Z (list Z)) (L : Z) (xs : list Z) :
  lists_ok s Γ -> Γ !! L = Some xs ->
  (forall node, fresh Γ node ->
     (exists s', list_append L node s = Ok (tt, s')
        /\ lists_ok s' (<[L := xs ++ [node]]> Γ) /\ eflags s' = eflags s) /\
     (exists s', list_push L node s = Ok (tt, s')
        /\ lists_ok s' (<[L := node :: xs]> Γ) /\ eflags s' = eflags s)) /\
  (forall x ys, xs = x :: ys ->
     exists s', list_pop L s = Ok (x, s')
        /\ lists_ok s' (<[L := ys]> Γ) /\ fresh (<[L := ys]> Γ) x /\ eflags s' = eflags s) /\
  (forall ys x zs, xs = ys ++ x :: zs ->
     exists s', list_remove x s = Ok (tt, s')
        /\ lists_ok s' (<[L := ys ++ zs]> Γ) /\ fresh (<[L := ys ++ zs]> Γ) x
        /\ eflags s' = eflags s).
Proof.
  intros HO HL. split; [|split].
  - intros node Hf. split; [by apply list_append_ok | by apply list_push_ok].
  - intros x ys ->. by apply list_pop_ok.
  - intros ys x zs ->. by apply remove_ok.
Qed.

(** The list at 16 with the nodes 100 and 200. *)
Definition example_links : mach :=
  mk_mach 0x202 (list_to_map [(16, 0); (100, 16); (200, 100); (24, 200)])
                (list_to_map [(16, 100); (100, 200); (200, 24); (24, 0)]).

Lemma list_updates_refine_witness :
  (forall node, fresh (list_to_map [(16, [100; 200])]) node ->
     (exists s', list_append 16 node example_links = Ok (tt, s')
        /\ lists_ok s' (<[16 := [100; 200] ++ [node]]> (list_to_map [(16, [100; 200])]))
        /\ eflags s' = eflags example_links) /\
     (exists s', list_push 16 node example_links = Ok (tt, s')
        /\ lists_ok s' (<[16 := node :: [100; 200]]> (list_to_map [(16, [100; 200])]))
        /\ eflags s' = eflags example_links)) /\
  (forall x ys, [100; 200] = x :: ys ->
     exists s', list_pop 16 example_links = Ok (x, s')
        /\ lists_ok s' (<[16 := ys]> (list_to_map [(16, [100; 200])]))
        /\ fresh (<[16 := ys]> (list_to_map [(16, [100; 200])])) x
        /\ eflags s' = eflags example_links) /\
  (forall ys x zs, [100; 200] = ys ++ x :: zs ->
     exists s', list_remove x example_links = Ok (tt, s')
        /\ lists_ok s' (<[16 := ys ++ zs]> (list_to_map [(16, [100; 200])]))
        /\ fresh (<[16 := ys ++ zs]> (list_to_map [(16, [100; 200])])) x
        /\ eflags s' = eflags example_links).
Proof.
  apply (list_updates_refine example_links (list_to_map [(16, [100; 200])]) 16 [100; 200]).
  - apply lists_okb_sound. vm_compute. reflexivity.
  - reflexivity.
Defined.

(** The walks over a list terminate and answer for the sequence:
    [node_find] is membership, [list_len] the length, [list_empty] emptiness,
    and [list_traversal] with a side-effect-free callback returns the first
    node the callback accepts, or NULL; none of them changes a link. *)
Theorem list_walks_correct (s : mach) (Γ : gmap Z (list Z)) (L : Z) (xs : list Z) :
  lists_ok s Γ -> Γ !! L = Some xs -> zlen xs < 4294967296 ->
  (forall obj, node_find L obj s = Ok (bool_decide (obj ∈ xs), s)) /\
  list_len L s = Ok (zlen xs, s) /\
  list_empty L s = Ok (bool_decide (xs = []), s) /\
  (forall p : Z -> bool, list_traversal id L (fun n => mret (p n)) s
     = Ok (default NULL (List.find p xs), s)).
Proof.
  intros HO HL Hb. split; [|split; [|split]].
  - intros obj. by eapply node_find_ok.
  - by eapply list_len_ok.
  - by eapply list_empty_ok.
  - intros p. erewrite (list_traversal_ok id L _ (fun n _ => p n) (fun _ t => t) (fun _ => True) (fun _ => True));
      try done; [|by apply Forall_true].
    f_equal. clear. induction xs as [|x xs IH]; cbn; [done|]. by destruct (p x).
Qed.

Lemma list_walks_correct_witness :
  (forall obj, node_find 16 obj example_links
     = Ok (bool_decide (obj ∈ [100; 200]), example_links)) /\
  list_len 16 example_links = Ok (zlen [100; 200], example_links) /\
  list_empty 16 example_links = Ok (bool_decide ([100; 200] = []), example_links) /\
  (forall p : Z -> bool, list_traversal id 16 (fun n => mret (p n)) example_links
     = Ok (default NULL (List.find p [100; 200]), example_links)).
Proof.
  apply (list_walks_correct example_links (list_to_map [(16, [100; 200])]) 16 [100; 200]).
  - apply lists_okb_sound. vm_compute. reflexivity.
  - reflexivity.
  - reflexivity.
Defined.
