(* ===== verification/Bitmap.v ===== *)
(** * Bitmap: lib/kernel/bitmap.c

    [len] is the byte length the owner recorded, [bits] the byte array the
    pointer field designates.  [bit mp i] is the specification view: bit
    [i mod 8] of byte [i / 8]. *)

From S2P Require Import Prelude CString.

Record bitmap := mk_bitmap { len : Z; bits : list Z }.

Definition bitmap_init (mp : bitmap) : res bitmap :=
  b ← memset (bits mp) 0 0 (len mp);
  Ok (mk_bitmap (len mp) b).

Definition bitmap_check_idx (mp : bitmap) (idx : Z) : res bool :=
  let idx_byte := u32 idx / 8 in
  let idx_bit := u32 idx mod 8 in
  b ← aget (bits mp) idx_byte;
  Ok (negb (Z.land b (Z.shiftl 1 idx_bit) =? 0)).

(** Inner loop: bits [i + j], ..., [i + cnt - 1] are all clear. *)
Fixpoint apply_run (n : nat) (mp : bitmap) (i j : Z) : res bool :=
  match n with
  | O => Ok true
  | S n' =>
      b ← bitmap_check_idx mp (i + j);
      if (b : bool) then Ok false else apply_run n' mp i (j + 1)
  end.

(** Outer loop, [n] iterations left. *)
Fixpoint apply_scan (n : nat) (mp : bitmap) (i cnt : Z) : res Z :=
  match n with
  | O => Ok (-1)
  | S n' =>
      b ← bitmap_check_idx mp i;
      if (b : bool) then apply_scan n' mp (i + 1) cnt
      else flag ← apply_run (Z.to_nat (cnt - 1)) mp i 1;
           if (flag : bool) then Ok i else apply_scan n' mp (i + 1) cnt
  end.

(** The loop bound [mp->len - cnt] is an unsigned 32-bit difference. *)
Definition bitmap_apply_cnt (mp : bitmap) (cnt : Z) : res Z :=
  apply_scan (Z.to_nat (u32 (len mp - cnt))) mp 0 cnt.

Definition bitmap_set_idx (mp : bitmap) (idx value : Z) : res bitmap :=
  _ ← ASSERT ((value =? 0) || (value =? 1));
  let idx_byte := u32 idx / 8 in
  let idx_bit := u32 idx mod 8 in
  b ← aget (bits mp) idx_byte;
  let b' := if value =? 0 then Z.land b (Z.lnot (Z.shiftl 1 idx_bit))
            else Z.lor b (Z.shiftl 1 idx_bit) in
  bs ← aset (bits mp) idx_byte (u8 b');
  Ok (mk_bitmap (len mp) bs).

(** ** Specification view *)

Definition bit (mp : bitmap) (i : Z) : bool := Z.testbit (at_ (bits mp) (i / 8)) (i mod 8).

Record bitmap_wf (mp : bitmap) : Prop := {
  bw_len : 0 <= len mp <= zlen (bits mp);
  bw_small : zlen (bits mp) < 268435456;
  bw_bytes : bytes (bits mp) }.

(** The index designates a bit of the array. *)
Definition in_bits (mp : bitmap) (i : Z) : Prop := 0 <= i < 8 * zlen (bits mp).

Definition free_run (mp : bitmap) (i cnt : Z) : Prop :=
  forall j, 0 <= j < cnt -> bit mp (i + j) = false.

(** ** Bit lemmas *)

Lemma land_bit x b : 0 <= b -> negb (Z.land x (Z.shiftl 1 b) =? 0) = Z.testbit x b.
Proof.
  intros Hb. rewrite Z.shiftl_1_l.
  destruct (Z.testbit x b) eqn:E.
  - apply negb_true_iff, Z.eqb_neq. intros H0.
    apply (f_equal (fun y => Z.testbit y b)) in H0.
    rewrite Z.land_spec, E, Z.pow2_bits_eqb, Z.eqb_refl, Z.testbit_0_l in H0 by done. done.
  - apply negb_false_iff, Z.eqb_eq. apply Z.bits_inj'. intros i Hi.
    rewrite Z.land_spec, Z.pow2_bits_eqb, Z.testbit_0_l by done.
    destruct (Z.eqb_spec b i) as [<-|]; [by rewrite E | apply andb_false_r].
Qed.

Lemma byte_bits_inj x : is_byte x <-> 0 <= x /\ forall i, 8 <= i -> Z.testbit x i = false.
Proof.
  unfold is_byte. split.
  - intros Hx. split; [lia|]. intros i Hi. rewrite <- (Z.mod_small x (2 ^ 8)) by lia.
    by apply Z.mod_pow2_bits_high.
  - intros [H0 Hi]. split; [done|].
    destruct (Z.eq_dec x 0) as [->|Hne]; [lia|].
    assert (Z.log2 x < 8) by
      (destruct (Z_lt_le_dec (Z.log2 x) 8) as [|Hge]; [done|];
       pose proof (Hi _ Hge) as E; rewrite Z.bit_log2 in E by lia; done).
    change 256 with (2 ^ 8). apply Z.log2_lt_pow2; lia.
Qed.

Lemma lor_bit_byte x b : is_byte x -> 0 <= b < 8 -> is_byte (Z.lor x (Z.shiftl 1 b)).
Proof.
  rewrite !byte_bits_inj, Z.shiftl_1_l. intros [H0 Hx] Hb. split.
  - apply Z.lor_nonneg. split; [done | apply Z.pow_nonneg; lia].
  - intros i Hi. rewrite Z.lor_spec, Hx, Z.pow2_bits_eqb by lia. by decide_bool.
Qed.

Lemma land_lnot_byte x b : is_byte x -> is_byte (Z.land x (Z.lnot (Z.shiftl 1 b))).
Proof.
  rewrite !byte_bits_inj. intros [H0 Hx]. split.
  - apply Z.land_nonneg. by left.
  - intros i Hi. by rewrite Z.land_spec, Hx.
Qed.

Lemma bitmap_check_idx_ok mp i : bitmap_wf mp -> in_bits mp i ->
  bitmap_check_idx mp i = Ok (bit mp i).
Proof.
  intros [_ Hs _] Hi. unfold in_bits in Hi. unfold bitmap_check_idx, bit.
  assert (H8 : 0 <= i / 8 < zlen (bits mp)) by zarith.
  rewrite u32_small by lia. rewrite (bindR_ok _ _ _ (aget_at _ _ H8)).
  by rewrite land_bit by zarith.
Qed.

Lemma bitmap_set_idx_ok mp i v : bitmap_wf mp -> in_bits mp i -> v = 0 \/ v = 1 ->
  exists mp', bitmap_set_idx mp i v = Ok mp' /\ bitmap_wf mp' /\ len mp' = len mp /\
    zlen (bits mp') = zlen (bits mp) /\
    forall j, in_bits mp j -> bit mp' j = if Z.eq_dec i j then (v =? 1) else bit mp j.
Proof.
  intros [Hl Hs Hb] Hi Hv. unfold in_bits in *. unfold bitmap_set_idx.
  erewrite bindR_ok by (unfold ASSERT; destruct Hv as [-> | ->]; done).
  assert (H8 : 0 <= i / 8 < zlen (bits mp)) by zarith.
  rewrite u32_small by lia. rewrite (bindR_ok _ _ _ (aget_at _ _ H8)).
  set (x := at_ (bits mp) (i / 8)) in *.
  assert (Hx : is_byte x) by (by apply bytes_at).
  set (y := if v =? 0 then _ else _).
  assert (Hbit : 0 <= i mod 8 < 8) by zarith.
  assert (Hy : is_byte y) by
    (unfold y; destruct (v =? 0); [by apply land_lnot_byte | by apply lor_bit_byte]).
  rewrite (u8_small y) by (unfold is_byte in Hy; lia).
  rewrite (bindR_ok _ _ _ (aset_ok _ _ y H8)). eexists. split; [done|].
  split; [|split; [done|split; [cbn [bits]; by rewrite zlen_insert|]]].
  { split; cbn [len bits]; rewrite ?zlen_insert; auto with gw. }
  intros j Hj. unfold bit. cbn [bits]. rewrite at_insert by zarith.
  destruct (Z.eq_dec i j) as [<-|Hne].
  - destruct (Z.eq_dec (i / 8) (i / 8)) as [_|]; [|done]. unfold y.
    destruct Hv as [-> | ->]; cbn [Z.eqb Pos.eqb].
    + rewrite Z.land_spec, Z.lnot_spec, Z.shiftl_1_l, Z.pow2_bits_true by lia. apply andb_false_r.
    + rewrite Z.lor_spec, Z.shiftl_1_l, Z.pow2_bits_true by lia. apply orb_true_r.
  - destruct (Z.eq_dec (i / 8) (j / 8)) as [Hq|]; [|done].
    assert (i mod 8 <> j mod 8) by zarith. assert (0 <= j mod 8) by zarith.
    rewrite <- Hq. fold x. unfold y. destruct (v =? 0).
    + rewrite Z.land_spec, Z.lnot_spec, Z.shiftl_1_l, Z.pow2_bits_false by lia. apply andb_true_r.
    + rewrite Z.lor_spec, Z.shiftl_1_l, Z.pow2_bits_false by lia. apply orb_false_r.
Qed.

(** ** The scan *)

Lemma apply_run_ok mp i : bitmap_wf mp -> forall n j, 0 <= i -> 0 <= j ->
  i + j + Z.of_nat n <= 8 * zlen (bits mp) ->
  exists r, apply_run n mp i j = Ok r /\
    (r = true <-> forall k, j <= k < j + Z.of_nat n -> bit mp (i + k) = false).
Proof.
  intros Hwf. induction n as [|n IH]; intros j Hi Hj Hb; cbn [apply_run].
  - exists true. split; [done|]. split; [|done]. intros _ k Hk. lia.
  - rewrite (bindR_ok _ _ _ (bitmap_check_idx_ok mp (i + j) Hwf ltac:(unfold in_bits; lia))).
    destruct (bit mp (i + j)) eqn:E.
    + exists false. split; [done|]. split; [done|]. intros H.
      rewrite (H j) in E by lia. done.
    + destruct (IH (j + 1)) as (r & Hr & Hiff); try lia. exists r. split; [done|].
      rewrite Hiff. split; intros H k Hk.
      * destruct (Z.eq_dec k j) as [->|]; [done | apply H; lia].
      * apply H. lia.
Qed.

Lemma apply_scan_ok mp cnt : bitmap_wf mp -> 1 <= cnt -> forall n i, 0 <= i ->
  i + Z.of_nat n + cnt <= 8 * zlen (bits mp) ->
  exists r, apply_scan n mp i cnt = Ok r /\
    ((r = -1 /\ forall k, i <= k < i + Z.of_nat n -> ~ free_run mp k cnt) \/
     (i <= r < i + Z.of_nat n /\ free_run mp r cnt /\
      forall k, i <= k < r -> ~ free_run mp k cnt)).
Proof.
  intros Hwf Hc. induction n as [|n IH]; intros i Hi Hb; cbn [apply_scan].
  { exists (-1). split; [done|]. left. split; [done|]. lia. }
  rewrite (bindR_ok _ _ _ (bitmap_check_idx_ok mp i Hwf ltac:(unfold in_bits; lia))).
  assert (Hskip : ~ free_run mp i cnt -> exists r, apply_scan n mp (i + 1) cnt = Ok r /\
    ((r = -1 /\ forall k, i <= k < i + Z.of_nat (S n) -> ~ free_run mp k cnt) \/
     (i <= r < i + Z.of_nat (S n) /\ free_run mp r cnt /\
      forall k, i <= k < r -> ~ free_run mp k cnt))).
  { intros Hno. destruct (IH (i + 1)) as (r & Hr & Hcase); try lia. exists r. split; [done|].
    destruct Hcase as [[-> H]|(H1 & H2 & H3)]; [left|right]; (split; [lia|]).
    - intros k Hk. destruct (Z.eq_dec k i) as [->|]; [done | apply H; lia].
    - split; [done|]. intros k Hk. destruct (Z.eq_dec k i) as [->|]; [done | apply H3; lia]. }
  destruct (bit mp i) eqn:E.
  - apply Hskip. intros H. specialize (H 0 ltac:(lia)). rewrite Z.add_0_r in H. congruence.
  - destruct (apply_run_ok mp i Hwf (Z.to_nat (cnt - 1)) 1) as (b & Hb1 & Hiff); try lia.
    rewrite (bindR_ok _ _ _ Hb1).
    assert (Hrun : b = true <-> free_run mp i cnt).
    { rewrite Hiff. unfold free_run. split; intros H j Hj.
      - destruct (Z.eq_dec j 0) as [->|]; [by rewrite Z.add_0_r | apply H; lia].
      - apply H. lia. }
    destruct b.
    + exists i. split; [done|]. right. split; [lia|]. split; [by apply Hrun | lia].
    + apply Hskip. intros H. apply Hrun in H. done.
Qed.

Lemma bitmap_apply_cnt_ok mp cnt : bitmap_wf mp -> 1 <= cnt <= len mp ->
  exists r, bitmap_apply_cnt mp cnt = Ok r /\
    ((r = -1 /\ forall k, 0 <= k < len mp - cnt -> ~ free_run mp k cnt) \/
     (0 <= r < len mp - cnt /\ free_run mp r cnt /\
      forall k, 0 <= k < r -> ~ free_run mp k cnt)).
Proof.
  intros Hwf Hc. pose proof (bw_len _ Hwf) as Hbl. pose proof (bw_small _ Hwf) as Hbs.
  unfold bitmap_apply_cnt. rewrite u32_small by lia.
  destruct (apply_scan_ok mp cnt Hwf ltac:(lia) (Z.to_nat (len mp - cnt)) 0)
    as (r & Hr & Hcase); try lia.
  exists r. split; [done|]. rewrite Z2Nat.id in Hcase by lia.
  destruct Hcase as [[-> H]|(H1 & H2 & H3)]; [left|right]; auto with lia.
Qed.

Lemma bitmap_init_ok mp : bitmap_wf mp ->
  exists mp', bitmap_init mp = Ok mp' /\ bitmap_wf mp' /\ len mp' = len mp /\
    zlen (bits mp') = zlen (bits mp) /\
    forall i, 0 <= i < 8 * len mp -> bit mp' i = false.
Proof.
  intros [Hl Hs Hb]. unfold bitmap_init.
  pose proof (memset_ok [] (take (Z.to_nat (len mp)) (bits mp)) (drop (Z.to_nat (len mp)) (bits mp)) 0)
    as E. cbn [app] in E. rewrite take_drop in E.
  assert (Hz : zlen (take (Z.to_nat (len mp)) (bits mp)) = len mp)
    by (unfold zlen in *; rewrite length_take; lia).
  rewrite Hz in E. rewrite (bindR_ok _ _ _ E). eexists. split; [done|].
  assert (Hlen : length (take (Z.to_nat (len mp)) (bits mp)) = Z.to_nat (len mp))
    by (rewrite length_take; unfold zlen in *; lia).
  rewrite Hlen. cbn [len bits].
  assert (Hzl : zlen (replicate (Z.to_nat (len mp)) 0 ++ drop (Z.to_nat (len mp)) (bits mp))
                = zlen (bits mp))
    by (unfold zlen in *; rewrite length_app, length_replicate, length_drop; lia).
  split; [|split; [done|split; [done|]]].
  - split; cbn [len bits]; rewrite ?Hzl; [done|done|].
    apply Forall_app. split; [apply Forall_replicate; unfold is_byte; lia | by apply Forall_drop].
  - intros i Hi. unfold bit, at_. cbn [bits].
    rewrite lookup_app_l by (rewrite length_replicate; zarith).
    rewrite lookup_replicate_2 by zarith. apply Z.testbit_0_l.
Qed.

(** ** Properties *)

(** [bitmap_set_idx] writes exactly one bit: afterwards the bit reads as
    the value written, every other bit of the array as before, the length is
    unchanged and the cells are still bytes; a value other than 0 and 1 stops
    in the assertion. *)
Theorem bitmap_set_check (mp : bitmap) (i v : Z) :
  bitmap_wf mp -> in_bits mp i ->
  ((v = 0 \/ v = 1) -> exists mp', bitmap_set_idx mp i v = Ok mp' /\ bitmap_wf mp' /\
     len mp' = len mp /\
     forall j, in_bits mp j ->
       bitmap_check_idx mp' j = Ok (if Z.eq_dec i j then (v =? 1) else bit mp j)) /\
  (v <> 0 /\ v <> 1 -> bitmap_set_idx mp i v = Err Panic).
Proof.
  intros Hwf Hi. split.
  - intros Hv. destruct (bitmap_set_idx_ok mp i v Hwf Hi Hv) as (mp' & E & Hwf' & Hl & Hz & Hbit).
    exists mp'. split; [done|]. split; [done|]. split; [done|]. intros j Hj.
    rewrite bitmap_check_idx_ok by (done || (unfold in_bits in *; by rewrite Hz)).
    by rewrite Hbit.
  - intros [H0 H1]. unfold bitmap_set_idx, ASSERT. by decide_bool.
Qed.

Definition example_map : bitmap := mk_bitmap 4 [255; 3; 0; 129].

Lemma example_map_wf : bitmap_wf example_map.
Proof.
  split; [vm_compute; split; discriminate | reflexivity |].
  unfold bytes, is_byte. repeat constructor; lia.
Qed.

Lemma bitmap_set_check_witness :
  ((1 = 0 \/ 1 = 1) -> exists mp', bitmap_set_idx example_map 12 1 = Ok mp' /\ bitmap_wf mp' /\
     len mp' = len example_map /\
     forall j, in_bits example_map j ->
       bitmap_check_idx mp' j = Ok (if Z.eq_dec 12 j then (1 =? 1) else bit example_map j)) /\
  (1 <> 0 /\ 1 <> 1 -> bitmap_set_idx example_map 12 1 = Err Panic).
Proof.
  apply (bitmap_set_check example_map 12 1).
  - exact example_map_wf.
  - unfold in_bits, zlen. cbn. lia.
Defined.

(** [bitmap_apply_cnt] is first fit on the range it scans: it returns the
    least start below [len - cnt] of [cnt] clear bits, or -1 exactly when no
    start below [len - cnt] has them.  It never reads outside the array and it
    always returns. *)
Theorem bitmap_apply_first_fit (mp : bitmap) (cnt : Z) :
  bitmap_wf mp -> 1 <= cnt <= len mp ->
  exists r, bitmap_apply_cnt mp cnt = Ok r /\
    (r = -1 <-> forall k, 0 <= k < len mp - cnt -> ~ free_run mp k cnt) /\
    (r <> -1 -> 0 <= r < len mp - cnt /\ free_run mp r cnt /\
       forall k, 0 <= k < r -> ~ free_run mp k cnt).
Proof.
  intros Hwf Hc. destruct (bitmap_apply_cnt_ok mp cnt Hwf Hc) as (r & Hr & Hcase).
  exists r. split; [done|]. destruct Hcase as [[-> H]|(H1 & H2 & H3)].
  - split; [done | lia].
  - split; [|done]. split; [lia|]. intros H. by destruct (H r H1).
Qed.

Lemma bitmap_apply_first_fit_witness :
  exists r, bitmap_apply_cnt example_map 2 = Ok r /\
    (r = -1 <-> forall k, 0 <= k < len example_map - 2 -> ~ free_run example_map k 2) /\
    (r <> -1 -> 0 <= r < len example_map - 2 /\ free_run example_map r 2 /\
       forall k, 0 <= k < r -> ~ free_run example_map k 2).
Proof.
  apply (bitmap_apply_first_fit example_map 2).
  - exact example_map_wf.
  - cbn. lia.
Defined.

(** The scan takes the byte length for a number of bits: once the first
    [len - cnt] bits are taken it reports failure, whatever the other seven
    eighths of the bitmap hold. *)
Theorem bitmap_apply_ignores_rest (mp : bitmap) (cnt : Z) :
  bitmap_wf mp -> 1 <= cnt <= len mp ->
  (forall i, 0 <= i < len mp - cnt -> bit mp i = true) ->
  bitmap_apply_cnt mp cnt = Ok (-1).
Proof.
  intros Hwf Hc Hfull. destruct (bitmap_apply_cnt_ok mp cnt Hwf Hc) as (r & -> & Hcase).
  destruct Hcase as [[-> _]|(H1 & H2 & _)]; [done|].
  specialize (H2 0 ltac:(lia)). rewrite Z.add_0_r, Hfull in H2 by done. done.
Qed.

(** 64 bits, 57 of them free, and no page can be found. *)
Lemma bitmap_apply_ignores_rest_witness :
  bitmap_apply_cnt (mk_bitmap 8 [127; 0; 0; 0; 0; 0; 0; 0]) 1 = Ok (-1).
Proof.
  apply (bitmap_apply_ignores_rest (mk_bitmap 8 [127; 0; 0; 0; 0; 0; 0; 0]) 1).
  - split; [vm_compute; split; discriminate | reflexivity |].
    unfold bytes, is_byte. repeat constructor; lia.
  - cbn. lia.
  - intros i Hi. cbn in Hi.
    assert (Hc : i = 0 \/ i = 1 \/ i = 2 \/ i = 3 \/ i = 4 \/ i = 5 \/ i = 6) by lia.
    destruct Hc as [->|[->|[->|[->|[->|[->| ->]]]]]]; reflexivity.
Defined.
