(* ===== verification/BlockDev.v ===== *)
(** * BlockDev: what the file system relies on from the disk driver

    [read_disk] and [write_disk] of lib/user/syscall.c transfer one 512-byte
    sector through [ide_read] and [ide_write].  [BlockDevice] states what the
    file system uses of that: a sector written reads back, and no other sector
    changes.  [RamDisk] is an implementation by a finite map. *)

From S2P Require Import Prelude.

Definition BytePerSec : Z := 512.

(** The contents of one sector buffer. *)
Definition sector (b : list Z) : Prop := length b = 512%nat /\ bytes b.

Class BlockDevice (D : Type) := {
  dread : D -> Z -> list Z;
  dwrite : D -> Z -> list Z -> D;
  dwf : D -> Prop;
  dread_sector : forall d s, dwf d -> sector (dread d s);
  dwrite_wf : forall d s b, dwf d -> sector b -> dwf (dwrite d s b);
  dread_eq : forall d s b, dread (dwrite d s b) s = b;
  dread_ne : forall d s s' b, s <> s' -> dread (dwrite d s b) s' = dread d s' }.

Section device.
Context {D : Type} `{BlockDevice D}.

Lemma dread_dwrite d s s' b :
  dread (dwrite d s b) s' = if Z.eq_dec s s' then b else dread d s'.
Proof. destruct (Z.eq_dec s s') as [<-|]; [apply dread_eq | by apply dread_ne]. Qed.

Lemma dread_length d s : dwf d -> zlen (dread d s) = 512.
Proof. intros Hd. destruct (dread_sector d s Hd) as [Hl _]. unfold zlen. by rewrite Hl. Qed.

Lemma dread_byte d s i : dwf d -> is_byte (at_ (dread d s) i).
Proof. intros Hd. apply bytes_at, (dread_sector d s Hd). Qed.
End device.

Lemma sector_zlen b : sector b -> zlen b = 512.
Proof. intros [Hl _]. unfold zlen. by rewrite Hl. Qed.

Lemma sector_insert b i x : sector b -> is_byte x -> sector (<[i := x]> b).
Proof. intros [Hl Hb] Hx. split; [by rewrite length_insert | by apply bytes_insert]. Qed.

#[export] Hint Resolve dread_sector dwrite_wf sector_insert : gw.

(** ** A disk held in a finite map; sectors never written are zero. *)

Definition ramdisk : Type := gmap Z (list Z).

Definition zero_sector : list Z := replicate 512 0.

Lemma zero_sector_ok : sector zero_sector.
Proof. split; [reflexivity|]. apply Forall_replicate. unfold is_byte. lia. Qed.

#[export] Hint Resolve zero_sector_ok : gw.

Definition ram_read (d : gmap Z (list Z)) (s : Z) : list Z := default zero_sector (d !! s).

#[export] Instance RamDisk : BlockDevice (gmap Z (list Z)).
Proof.
  refine {| dread := ram_read;
            dwrite := fun d s b => <[s := b]> d;
            dwf := fun d => forall s b, d !! s = Some b -> sector b |}.
  - intros d s Hd. unfold ram_read. destruct (d !! s) as [b|] eqn:E; cbn [from_option];
      [by eapply Hd | apply zero_sector_ok].
  - intros d s b Hd Hb s' b' [[_ <-]|[_ E]]%lookup_insert_Some; [done | by eapply Hd].
  - intros d s b. unfold ram_read. by rewrite lookup_insert_eq.
  - intros d s s' b Hne. unfold ram_read. by rewrite lookup_insert_ne.
Defined.
