(* ===== verification/Disk.v ===== *)
(** * Disk: filesystem/disk.c, the FAT12 layer

    The state is the disk (any [BlockDevice]) and the global array [img], the
    cache of sectors 0..19 that [update_img] refreshes before every FAT read.
    The specification view of a FAT is [fatb d p], byte [p] of the first FAT,
    and [fat d c], the 12-bit entry of cluster [c]. *)

From S2P Require Import Prelude BlockDev.

Definition SecCnt : Z := 2880.
Definition BytePerDirEntry : Z := 32.
Definition ClusToSec : Z := 31.

(** ** Little-endian fields of a sector buffer *)

Definition get_u8 (buff : list Z) (st : Z) : res Z := aget buff st.

Definition get_u16 (buff : list Z) (st : Z) : res Z :=
  b0 ← aget buff st;
  b1 ← aget buff (st + 1);
  Ok (u16 (b0 + Z.shiftl b1 8)).

Definition get_u32 (buff : list Z) (st : Z) : res Z :=
  b0 ← aget buff st;
  b1 ← aget buff (st + 1);
  b2 ← aget buff (st + 2);
  b3 ← aget buff (st + 3);
  Ok (u32 (b0 + Z.shiftl b1 8 + Z.shiftl b2 16 + Z.shiftl b3 24)).

Definition write_u8 (buff : list Z) (st data : Z) : res (list Z) := aset buff st (u8 data).

Definition write_u16 (buff : list Z) (st data : Z) : res (list Z) :=
  b ← aset buff st (u8 data);
  aset b (st + 1) (u8 (Z.shiftr data 8)).

Definition write_u32 (buff : list Z) (st data : Z) : res (list Z) :=
  b ← aset buff st (u8 data);
  b ← aset b (st + 1) (u8 (Z.shiftr data 8));
  b ← aset b (st + 2) (u8 (Z.shiftr data 16));
  aset b (st + 3) (u8 (Z.shiftr data 24)).

Definition min (x y : Z) : Z := if x <? y then x else y.

(** ** Sectors and the FAT *)

Section fat12.
Context {D : Type} `{BlockDevice D}.

Record dstate := mk_dstate { dsk : D; img : list Z }.

Definition read_sector (secID : Z) : M dstate (list Z) :=
  let secID := u16 secID in
  _ ← ASSERTM ((0 <=? secID) && (secID <=? SecCnt));
  gets (fun s => dread (dsk s) secID).

Definition write_sector (secID : Z) (buff : list Z) : M dstate unit :=
  let secID := u16 secID in
  _ ← ASSERTM ((0 <=? secID) && (secID <=? SecCnt));
  modify (fun s => mk_dstate (dwrite (dsk s) secID buff) (img s)).

(** [img[i * 512 + j] = buff[j]] for [j] in 0..511. *)
Definition copy_into (im : list Z) (i : nat) (buff : list Z) : list Z :=
  take (i * 512) im ++ buff ++ drop (i * 512 + 512) im.

Fixpoint update_img_loop (n i : nat) : M dstate unit :=
  match n with
  | O => mret tt
  | S n' =>
      buff ← read_sector (Z.of_nat i);
      _ ← modify (fun s => mk_dstate (dsk s) (copy_into (img s) i buff));
      update_img_loop n' (S i)
  end.

Definition update_img : M dstate unit := update_img_loop 20 0.

(** [write_sector(i, img + i * 512)] for [i] in 0..19. *)
Fixpoint disk_close_loop (n i : nat) : M dstate unit :=
  match n with
  | O => mret tt
  | S n' =>
      s ← get;
      _ ← write_sector (Z.of_nat i) (take 512 (drop (i * 512) (img s)));
      disk_close_loop n' (S i)
  end.

Definition disk_close : M dstate unit := disk_close_loop 20 0.

Definition clear_cluster (clusID : Z) : M dstate unit :=
  write_sector (u16 clusID + ClusToSec) zero_sector.

Definition write_fat_sector (secID : Z) (buff : list Z) : M dstate unit :=
  let secID := u16 secID in
  _ ← write_sector secID buff;
  write_sector (secID + 9) buff.

(** The 12 bits of entry [clusID] in the cached image. *)
Definition img_entry (im : list Z) (clusID : Z) : res Z :=
  let pos := clusID / 2 * 3 + clusID mod 2 in
  if clusID mod 2 =? 0 then
    hi ← aget im (512 + pos + 1);
    lo ← aget im (512 + pos);
    Ok (u16 (Z.shiftl (Z.land hi 0xF) 8 + lo))
  else
    lo ← aget im (512 + pos);
    hi ← aget im (512 + pos + 1);
    Ok (u16 (Z.shiftr (Z.land lo 0xF0) 4 + Z.shiftl hi 4)).

Definition get_fat_next_cluster (clusID : Z) : M dstate Z :=
  let clusID := u16 clusID in
  _ ← update_img;
  im ← gets img;
  lift (img_entry im clusID).

Definition write_fat_next_cluster (clusID data : Z) : M dstate unit :=
  let clusID := u16 clusID in
  let data := u16 data in
  let pos := clusID / 2 * 3 + clusID mod 2 in
  buff ← read_sector (1 + pos / 512);
  let secpos := pos mod 512 in
  b0 ← lift (aget buff secpos);
  buff ← lift (aset buff secpos
            (if clusID mod 2 =? 0 then u8 data
             else u8 (Z.land b0 0xF + Z.shiftl (u8 (Z.land data 0xF)) 4)));
  buff ← (if negb (1 + pos / 512 =? 1 + (pos + 1) / 512) then
            _ ← write_fat_sector (1 + pos / 512) buff;
            read_sector (1 + (pos + 1) / 512)
          else mret buff);
  let secpos := (pos + 1) mod 512 in
  b1 ← lift (aget buff secpos);
  buff ← lift (aset buff secpos
            (if clusID mod 2 =? 0
             then u8 (Z.land b1 0xF0 + Z.land (u8 (Z.shiftr data 8)) 0xF)
             else u8 (Z.shiftr data 4)));
  write_fat_sector (1 + (pos + 1) / 512) buff.

(** The scan of [find_empty_cluster], [n] triples left, at image offset [i]. *)
Fixpoint find_empty_scan (n : nat) (im : list Z) (i : Z) : res Z :=
  match n with
  | O => Ok (u16 (-1))
  | S n' =>
      b1 ← aget im (i + 1);
      b0 ← aget im i;
      if u16 (Z.shiftl (Z.land b1 0xF) 8 + b0) =? 0 then Ok (u16 ((i - 512) / 3 * 2))
      else
        b1 ← aget im (i + 1);
        b2 ← aget im (i + 2);
        if u16 (Z.shiftr (Z.land b1 0xF0) 4 + Z.shiftl b2 4) =? 0
        then Ok (u16 ((i - 512) / 3 * 2 + 1))
        else find_empty_scan n' im (i + 3)
  end.

Definition find_empty_cluster : M dstate Z :=
  _ ← update_img;
  im ← gets img;
  clusID ← lift (find_empty_scan 1536 im 512);
  _ ← clear_cluster clusID;
  mret clusID.

(** [newClus] is a [uint16_t] and is compared with the [int] -1. *)
Definition append_a_cluster (clusID : Z) : M dstate Z :=
  newClus ← find_empty_cluster;
  if newClus =? -1 then mret (u16 (-1))
  else
    _ ← write_fat_next_cluster clusID newClus;
    _ ← write_fat_next_cluster newClus 0xFFF;
    mret newClus.

(** ** Specification view *)

Definition fatb (d : D) (p : Z) : Z := at_ (dread d (1 + p / 512)) (p mod 512).

Definition fat_pos (c : Z) : Z := c / 2 * 3 + c mod 2.

Definition fat (d : D) (c : Z) : Z :=
  let p := fat_pos c in
  if c mod 2 =? 0 then fatb d (p + 1) mod 16 * 256 + fatb d p
  else fatb d p / 16 + fatb d (p + 1) * 16.

(** The two copies of the FAT agree. *)
Definition fat_mirror (d : D) : Prop :=
  forall s, 1 <= s <= 9 -> dread d (s + 9) = dread d s.

Record dstate_wf (s : dstate) : Prop := {
  dw_disk : dwf (dsk s);
  dw_img : zlen (img s) = 10240 }.

(** ** Arithmetic of nibbles and shifts *)

Lemma land_F x : Z.land x 0xF = x mod 16.
Proof. apply (land_low x 4). lia. Qed.

Lemma land_F0 x : is_byte x -> Z.land x 0xF0 = x - x mod 16.
Proof. intros Hx. apply (land_high x 4 8); unfold is_byte in Hx; lia. Qed.

(** ** Sector access *)

Lemma read_sector_ok s i : 0 <= i <= SecCnt -> read_sector i s = Ok (dread (dsk s) i, s).
Proof.
  unfold SecCnt. intros Hi. unfold read_sector, ASSERTM, ASSERT, SecCnt.
  rewrite u16_small by lia. decide_bool. done.
Qed.

Lemma write_sector_ok s i b : 0 <= i <= SecCnt ->
  write_sector i b s = Ok (tt, mk_dstate (dwrite (dsk s) i b) (img s)).
Proof.
  unfold SecCnt. intros Hi. unfold write_sector, ASSERTM, ASSERT, SecCnt.
  rewrite u16_small by lia. decide_bool. done.
Qed.

Lemma write_fat_sector_ok s i b : 1 <= i <= 2871 ->
  write_fat_sector i b s = Ok (tt, mk_dstate (dwrite (dwrite (dsk s) i b) (i + 9) b) (img s)).
Proof.
  intros Hi. unfold write_fat_sector. rewrite u16_small by lia.
  rewrite (bindM_ok _ _ _ _ _ (write_sector_ok s i b ltac:(unfold SecCnt; lia))).
  by rewrite write_sector_ok by (unfold SecCnt; lia).
Qed.

(** ** The image cache *)

Lemma at_copy_into im i buff p : zlen im = 10240 -> zlen buff = 512 -> (i < 20)%nat ->
  0 <= p < 10240 ->
  at_ (copy_into im i buff) p =
    if (Z.of_nat i * 512 <=? p) && (p <? Z.of_nat i * 512 + 512)
    then at_ buff (p - Z.of_nat i * 512) else at_ im p.
Proof.
  intros Him Hb Hi Hp. unfold at_, copy_into. unfold zlen in *.
  assert (Hl : length (take (i * 512) im) = (i * 512)%nat) by (rewrite length_take; lia).
  destruct (Z.leb_spec (Z.of_nat i * 512) p); cbn [andb].
  - rewrite lookup_app_r by lia. rewrite Hl.
    destruct (Z.ltb_spec p (Z.of_nat i * 512 + 512)).
    + rewrite lookup_app_l by lia. repeat f_equal. lia.
    + rewrite lookup_app_r by lia. rewrite lookup_drop. repeat f_equal. lia.
  - rewrite lookup_app_l by lia. rewrite lookup_take_lt by lia. done.
Qed.

Lemma zlen_copy_into im i buff : zlen im = 10240 -> zlen buff = 512 -> (i < 20)%nat ->
  zlen (copy_into im i buff) = 10240.
Proof.
  unfold zlen, copy_into. intros Him Hb Hi.
  rewrite !length_app, length_take, length_drop. lia.
Qed.

Lemma update_img_loop_ok n : forall i s, dstate_wf s -> (i + n <= 20)%nat ->
  exists s', update_img_loop n i s = Ok (tt, s') /\ dsk s' = dsk s /\ dstate_wf s' /\
    forall p, 0 <= p < 10240 -> at_ (img s') p =
      if (Z.of_nat i * 512 <=? p) && (p <? Z.of_nat (i + n) * 512)
      then at_ (dread (dsk s) (p / 512)) (p mod 512) else at_ (img s) p.
Proof.
  induction n as [|n IH]; intros i s Hwf Hi; cbn [update_img_loop].
  - exists s. split; [done|]. split; [done|]. split; [done|]. intros p Hp.
    destruct (Z.leb_spec (Z.of_nat i * 512) p), (Z.ltb_spec p (Z.of_nat (i + 0) * 512));
      cbn [andb]; done || lia.
  - rewrite (bindM_ok _ _ _ _ _ (read_sector_ok s (Z.of_nat i) ltac:(unfold SecCnt; lia))).
    set (buff := dread (dsk s) (Z.of_nat i)).
    set (s1 := mk_dstate (dsk s) (copy_into (img s) i buff)).
    destruct Hwf as [Hd Him]. assert (Hb : zlen buff = 512) by (by apply dread_length).
    rewrite bind_modify. fold s1.
    destruct (IH (S i) s1) as (s' & E & Hd' & Hwf' & Hp').
    { split; [done|]. by apply zlen_copy_into; [done..|lia]. }
    { lia. }
    exists s'. split; [done|]. split; [done|]. split; [done|]. intros p Hp.
    rewrite Hp' by done. unfold s1. cbn [dsk img].
    rewrite at_copy_into by (done || lia).
    destruct (Z.leb_spec (Z.of_nat (S i) * 512) p), (Z.leb_spec (Z.of_nat i * 512) p),
      (Z.ltb_spec p (Z.of_nat (S i + n) * 512)), (Z.ltb_spec p (Z.of_nat i * 512 + 512)),
      (Z.ltb_spec p (Z.of_nat (i + S n) * 512)); cbn [andb]; try done; try lia.
    unfold buff. repeat f_equal; zarith.
Qed.

Lemma update_img_ok s : dstate_wf s ->
  exists s', update_img s = Ok (tt, s') /\ dsk s' = dsk s /\ dstate_wf s' /\
    forall p, 0 <= p < 10240 -> at_ (img s') p = at_ (dread (dsk s) (p / 512)) (p mod 512).
Proof.
  intros Hwf. destruct (update_img_loop_ok 20 0 s Hwf ltac:(lia)) as (s' & E & Hd & Hw & Hp).
  exists s'. split; [done|]. split; [done|]. split; [done|]. intros p Hpr.
  rewrite Hp by done. change (Z.of_nat 0 * 512) with 0.
  change (Z.of_nat (0 + 20) * 512) with 10240. by decide_bool.
Qed.

Lemma img_fatb s s' p : 
  (forall p, 0 <= p < 10240 -> at_ (img s') p = at_ (dread (dsk s) (p / 512)) (p mod 512)) ->
  0 <= p < 9728 -> at_ (img s') (512 + p) = fatb (dsk s) p.
Proof. intros Hi Hp. rewrite Hi by lia. unfold fatb. f_equal; [f_equal|]; zarith. Qed.

Lemma fatb_byte d p : dwf d -> is_byte (fatb d p).
Proof. intros Hd. by apply dread_byte. Qed.

(** The entry computed from the image is [fat]. *)
Lemma img_entry_fat s s' c : dwf (dsk s) -> zlen (img s') = 10240 ->
  (forall p, 0 <= p < 10240 -> at_ (img s') p = at_ (dread (dsk s) (p / 512)) (p mod 512)) ->
  0 <= c < 6484 -> img_entry (img s') c = Ok (fat (dsk s) c).
Proof.
  intros Hd Hz Hi Hc. unfold img_entry, fat. fold (fat_pos c). cbv zeta.
  assert (Hp : 0 <= fat_pos c < 9727) by (unfold fat_pos; zarith).
  pose proof (fatb_byte (dsk s) (fat_pos c) Hd) as B0.
  pose proof (fatb_byte (dsk s) (fat_pos c + 1) Hd) as B1. unfold is_byte in B0, B1.
  assert (E0 : aget (img s') (512 + fat_pos c) = Ok (fatb (dsk s) (fat_pos c)))
    by (rewrite aget_at, img_fatb with (s := s); done || lia).
  assert (E1 : aget (img s') (512 + fat_pos c + 1) = Ok (fatb (dsk s) (fat_pos c + 1)))
    by (rewrite aget_at, <- Z.add_assoc, img_fatb with (s := s); done || lia).
  destruct (c mod 2 =? 0).
  - rewrite (bindR_ok _ _ _ E1), (bindR_ok _ _ _ E0).
    rewrite land_F, Z.shiftl_mul_pow2 by lia. change (2 ^ 8) with 256.
    rewrite u16_small by zarith. done.
  - rewrite (bindR_ok _ _ _ E0), (bindR_ok _ _ _ E1).
    rewrite land_F0, Z.shiftr_div_pow2, Z.shiftl_mul_pow2 by (done || lia).
    change (2 ^ 4) with 16. rewrite u16_small by zarith. f_equal. zarith.
Qed.

Lemma get_fat_ok s c : dstate_wf s -> 0 <= c < 6484 ->
  exists s', get_fat_next_cluster c s = Ok (fat (dsk s) c, s') /\ dsk s' = dsk s /\ dstate_wf s'.
Proof.
  intros Hwf Hc. destruct (update_img_ok s Hwf) as (s' & E & Hd & Hw & Hi).
  exists s'. split; [|done]. unfold get_fat_next_cluster. rewrite u16_small by lia.
  rewrite (bindM_ok _ _ _ _ _ E). rewrite bind_gets.
  apply lift_ok. apply (img_entry_fat s s' c); try done; [apply (dw_disk _ Hwf) | apply (dw_img _ Hw)].
Qed.

Lemma fat_range d c : dwf d -> 0 <= c -> 0 <= fat d c < 4096.
Proof.
  intros Hd Hc. unfold fat. pose proof (fatb_byte d (fat_pos c) Hd).
  pose proof (fatb_byte d (fat_pos c + 1) Hd). unfold is_byte in *.
  destruct (c mod 2 =? 0); zarith.
Qed.

(** ** Writing an entry *)

(** A FAT sector written to both copies. *)
Definition fat_put (d : D) (q : Z) (b : list Z) : D := dwrite (dwrite d q b) (q + 9) b.

Lemma fat_put_wf d q b : dwf d -> sector b -> dwf (fat_put d q b).
Proof. intros. unfold fat_put. auto with gw. Qed.

Lemma fat_put_read d q b s' : 1 <= q <= 9 -> s' <= 9 ->
  dread (fat_put d q b) s' = if Z.eq_dec q s' then b else dread d s'.
Proof.
  intros Hq Hs. unfold fat_put. rewrite dread_ne by lia. apply dread_dwrite.
Qed.

Lemma fat_put_fatb d q b p : 1 <= q <= 9 -> 0 <= p < 4608 ->
  fatb (fat_put d q b) p = if Z.eq_dec q (1 + p / 512) then at_ b (p mod 512) else fatb d p.
Proof.
  intros Hq Hp. unfold fatb. rewrite fat_put_read by zarith.
  by destruct (Z.eq_dec q (1 + p / 512)).
Qed.

Lemma fat_put_mirror d q b : 1 <= q <= 9 -> fat_mirror d -> fat_mirror (fat_put d q b).
Proof.
  intros Hq Hm s Hs. unfold fat_put. rewrite !dread_dwrite.
  destruct (Z.eq_dec (q + 9) (s + 9)), (Z.eq_dec (q + 9) s), (Z.eq_dec q (s + 9)),
    (Z.eq_dec q s); try lia; try done. by apply Hm.
Qed.

Lemma fat_put_other d q b s : 1 <= q <= 9 -> s < 1 \/ 18 < s ->
  dread (fat_put d q b) s = dread d s.
Proof. intros Hq Hs. unfold fat_put. by rewrite !dread_ne by lia. Qed.

(** The two bytes of the entry of [c] after [data] is stored. *)
Definition low_byte (c data b0 : Z) : Z :=
  if c mod 2 =? 0 then u8 data else u8 (Z.land b0 0xF + Z.shiftl (u8 (Z.land data 0xF)) 4).
Definition high_byte (c data b1 : Z) : Z :=
  if c mod 2 =? 0 then u8 (Z.land b1 0xF0 + Z.land (u8 (Z.shiftr data 8)) 0xF)
  else u8 (Z.shiftr data 4).

Lemma entry_byte c data b : is_byte (low_byte c data b) /\ is_byte (high_byte c data b).
Proof. unfold low_byte, high_byte, is_byte. split; destruct (c mod 2 =? 0); apply u8_range. Qed.

(** What [write_fat_next_cluster] does to the disk. *)
Definition fat_written (d d' : D) (pos v0 v1 : Z) : Prop :=
  dwf d' /\ (fat_mirror d -> fat_mirror d') /\
  (forall s, s < 1 \/ 18 < s -> dread d' s = dread d s) /\
  forall p, 0 <= p < 4608 ->
    fatb d' p = if Z.eq_dec p pos then v0 else if Z.eq_dec p (pos + 1) then v1 else fatb d p.

Lemma fat_written_same d pos v0 v1 : dwf d -> 0 <= pos -> pos + 1 < 4608 ->
  is_byte v0 -> is_byte v1 -> pos / 512 = (pos + 1) / 512 ->
  fat_written d
    (fat_put d (1 + (pos + 1) / 512)
      (<[Z.to_nat ((pos + 1) mod 512) := v1]> (<[Z.to_nat (pos mod 512) := v0]>
         (dread d (1 + pos / 512))))) pos v0 v1.
Proof.
  intros Hd Hp0 Hp1 H0 H1 Heq. pose proof (dread_sector d (1 + pos / 512) Hd) as Hs.
  pose proof (sector_zlen _ Hs) as Hz.
  assert (Hq : 1 <= 1 + (pos + 1) / 512 <= 9) by zarith.
  split; [apply fat_put_wf; auto with gw|].
  split; [by apply fat_put_mirror|]. split; [intros; by apply fat_put_other|].
  intros p Hp. rewrite fat_put_fatb by done.
  destruct (Z.eq_dec (1 + (pos + 1) / 512) (1 + p / 512)) as [E|E].
  - rewrite !at_insert by (rewrite ?zlen_insert; rewrite ?Hz; zarith).
    destruct (Z.eq_dec ((pos + 1) mod 512) (p mod 512)), (Z.eq_dec (pos mod 512) (p mod 512)),
      (Z.eq_dec p pos), (Z.eq_dec p (pos + 1)); try done; try zarith.
    unfold fatb. by rewrite Heq, E.
  - destruct (Z.eq_dec p pos), (Z.eq_dec p (pos + 1)); subst; try done; lia.
Qed.

Lemma fat_written_split d pos v0 v1 : dwf d -> 0 <= pos -> pos + 1 < 4608 ->
  is_byte v0 -> is_byte v1 -> pos / 512 <> (pos + 1) / 512 ->
  let d1 := fat_put d (1 + pos / 512) (<[Z.to_nat (pos mod 512) := v0]> (dread d (1 + pos / 512))) in
  fat_written d
    (fat_put d1 (1 + (pos + 1) / 512)
      (<[Z.to_nat ((pos + 1) mod 512) := v1]> (dread d1 (1 + (pos + 1) / 512)))) pos v0 v1.
Proof.
  intros Hd Hp0 Hp1 H0 H1 Hne d1. pose proof (dread_sector d (1 + pos / 512) Hd) as Hs.
  assert (Hd1 : dwf d1) by (apply fat_put_wf; auto with gw).
  pose proof (dread_sector d1 (1 + (pos + 1) / 512) Hd1) as Hs1.
  assert (Hq : 1 <= 1 + pos / 512 <= 9) by zarith.
  assert (Hq1 : 1 <= 1 + (pos + 1) / 512 <= 9) by zarith.
  split; [apply fat_put_wf; auto with gw|].
  split; [intros; by apply fat_put_mirror, fat_put_mirror|].
  split; [intros s Hso; unfold d1; by rewrite !fat_put_other by done|].
  intros p Hp. rewrite fat_put_fatb by done.
  destruct (Z.eq_dec (1 + (pos + 1) / 512) (1 + p / 512)) as [E|E].
  - rewrite at_insert by (rewrite ?(sector_zlen _ Hs1); zarith).
    destruct (Z.eq_dec ((pos + 1) mod 512) (p mod 512)).
    + destruct (Z.eq_dec p pos), (Z.eq_dec p (pos + 1)); try done; zarith.
    + destruct (Z.eq_dec p pos), (Z.eq_dec p (pos + 1)); try zarith.
      rewrite E. unfold d1. rewrite fat_put_read by lia.
      destruct (Z.eq_dec (1 + pos / 512) (1 + p / 512)); [lia | done].
  - unfold d1. rewrite fat_put_fatb by done.
    destruct (Z.eq_dec (1 + pos / 512) (1 + p / 512)) as [E2|E2].
    + rewrite at_insert by (rewrite ?(sector_zlen _ Hs); zarith).
      destruct (Z.eq_dec (pos mod 512) (p mod 512)), (Z.eq_dec p pos), (Z.eq_dec p (pos + 1));
        try done; try zarith. unfold fatb. by rewrite E2.
    + destruct (Z.eq_dec p pos), (Z.eq_dec p (pos + 1)); subst; try done; lia.
Qed.

Lemma write_fat_bytes s c data : dstate_wf s -> 0 <= c < 3072 -> 0 <= data < 65536 ->
  exists s', write_fat_next_cluster c data s = Ok (tt, s') /\ img s' = img s /\
    fat_written (dsk s) (dsk s') (fat_pos c)
      (low_byte c data (fatb (dsk s) (fat_pos c)))
      (high_byte c data (fatb (dsk s) (fat_pos c + 1))).
Proof.
  intros [Hd Him] Hc Hdata. unfold write_fat_next_cluster.
  rewrite (u16_small c), (u16_small data) by lia. fold (fat_pos c). cbv zeta.
  assert (Hp : 0 <= fat_pos c /\ fat_pos c + 1 < 4608) by (unfold fat_pos; zarith).
  set (pos := fat_pos c) in *. destruct Hp as [Hp0 Hp1].
  rewrite (bindM_ok _ _ _ _ _ (read_sector_ok s (1 + pos / 512) ltac:(unfold SecCnt; zarith))).
  pose proof (dread_sector (dsk s) (1 + pos / 512) Hd) as Hs.
  assert (Hk : 0 <= pos mod 512 < zlen (dread (dsk s) (1 + pos / 512)))
    by (rewrite (sector_zlen _ Hs); zarith).
  rewrite (bind_lift _ _ _ _ (aget_at _ _ Hk)).
  fold (fatb (dsk s) pos). fold (low_byte c data (fatb (dsk s) pos)).
  rewrite (bind_lift _ _ _ _ (aset_ok _ _ _ Hk)).
  destruct (entry_byte c data (fatb (dsk s) pos)) as [Hv0 _].
  destruct (entry_byte c data (fatb (dsk s) (pos + 1))) as [_ Hv1].
  set (v0 := low_byte c data (fatb (dsk s) pos)) in *.
  destruct (Z.eqb_spec (1 + pos / 512) (1 + (pos + 1) / 512)) as [E|E]; cbn [negb].
  - rewrite bind_mret.
    assert (Hk1 : 0 <= (pos + 1) mod 512 < zlen (<[Z.to_nat (pos mod 512) := v0]>
              (dread (dsk s) (1 + pos / 512)))) by (rewrite zlen_insert, (sector_zlen _ Hs); zarith).
    rewrite (bind_lift _ _ _ _ (aget_at _ _ Hk1)). rewrite at_insert by zarith.
    destruct (Z.eq_dec (pos mod 512) ((pos + 1) mod 512)) as [E2|_]; [zarith|].
    rewrite E. fold (fatb (dsk s) (pos + 1)). fold (high_byte c data (fatb (dsk s) (pos + 1))).
    rewrite E in Hk1. rewrite (bind_lift _ _ _ _ (aset_ok _ _ _ Hk1)).
    rewrite write_fat_sector_ok by zarith. eexists. split; [done|]. split; [done|].
    cbn [dsk].
    pose proof (fat_written_same (dsk s) pos v0 _ Hd Hp0 Hp1 Hv0 Hv1 ltac:(lia)) as HF.
    by rewrite E in HF.
  - erewrite bindM_ok.
    2:{ rewrite (bindM_ok _ _ _ _ _ (write_fat_sector_ok s (1 + pos / 512) _ ltac:(zarith))).
        apply read_sector_ok. unfold SecCnt. zarith. }
    cbn [dsk]. fold (fat_put (dsk s) (1 + pos / 512)
      (<[Z.to_nat (pos mod 512) := v0]> (dread (dsk s) (1 + pos / 512)))).
    set (d1 := fat_put _ _ _).
    assert (Hd1 : dwf d1) by (apply fat_put_wf; auto with gw).
    assert (Hk1 : 0 <= (pos + 1) mod 512 < zlen (dread d1 (1 + (pos + 1) / 512)))
      by (rewrite (dread_length _ _ Hd1); zarith).
    rewrite (bind_lift _ _ _ _ (aget_at _ _ Hk1)).
    assert (Hb1 : at_ (dread d1 (1 + (pos + 1) / 512)) ((pos + 1) mod 512)
                  = fatb (dsk s) (pos + 1)).
    { unfold d1. rewrite fat_put_read by zarith.
      destruct (Z.eq_dec (1 + pos / 512) (1 + (pos + 1) / 512)); [lia | done]. }
    rewrite Hb1. fold (high_byte c data (fatb (dsk s) (pos + 1))).
    rewrite (bind_lift _ _ _ _ (aset_ok _ _ _ Hk1)).
    rewrite write_fat_sector_ok by zarith. eexists. split; [done|]. split; [done|].
    cbn [dsk]. apply fat_written_split; (done || lia).
Qed.

Lemma low_byte_val c data b : is_byte b -> 0 <= data < 65536 ->
  low_byte c data b = if c mod 2 =? 0 then data mod 256 else b mod 16 + data mod 16 * 16.
Proof.
  unfold is_byte. intros Hb Hd. unfold low_byte. destruct (c mod 2 =? 0); [done|].
  rewrite !land_F, Z.shiftl_mul_pow2 by lia. change (2 ^ 4) with 16.
  rewrite (u8_small (data mod 16)) by zarith. apply u8_small. zarith.
Qed.

Lemma high_byte_val c data b : is_byte b -> 0 <= data < 65536 ->
  high_byte c data b = if c mod 2 =? 0 then b - b mod 16 + data / 256 mod 16 else data / 16 mod 256.
Proof.
  intros Hb Hd. unfold high_byte.
  rewrite !land_F, land_F0, !Z.shiftr_div_pow2 by (done || lia).
  change (2 ^ 8) with 256. change (2 ^ 4) with 16. unfold is_byte in Hb.
  destruct (c mod 2 =? 0); [|done].
  rewrite (u8_small (data / 256)) by zarith. apply u8_small. zarith.
Qed.

Lemma fat_written_fat d d' c data : dwf d -> 0 <= c < 3072 -> 0 <= data < 65536 ->
  fat_written d d' (fat_pos c) (low_byte c data (fatb d (fat_pos c)))
    (high_byte c data (fatb d (fat_pos c + 1))) ->
  forall c', 0 <= c' < 3072 ->
    fat d' c' = if Z.eq_dec c' c then data mod 4096 else fat d c'.
Proof.
  intros Hd Hc Hdata (_ & _ & _ & Hb) c' Hc'.
  pose proof (fatb_byte d (fat_pos c) Hd) as B0.
  pose proof (fatb_byte d (fat_pos c + 1) Hd) as B1.
  rewrite low_byte_val, high_byte_val in Hb by done.
  assert (Hp : 0 <= fat_pos c' /\ fat_pos c' + 1 < 4608) by (unfold fat_pos; zarith).
  unfold fat. rewrite !Hb by lia. clear Hb. unfold is_byte in *.
  destruct (Z.eq_dec c' c) as [->|Hne].
  - destruct (Z.eq_dec (fat_pos c) (fat_pos c)); [|done].
    destruct (Z.eq_dec (fat_pos c + 1) (fat_pos c)); [lia|].
    destruct (Z.eq_dec (fat_pos c + 1) (fat_pos c + 1)); [|done].
    destruct (c mod 2 =? 0); zarith.
  - destruct (Z.eqb_spec (c' mod 2) 0), (Z.eqb_spec (c mod 2) 0);
      destruct (Z.eq_dec (fat_pos c') (fat_pos c)) as [E|],
        (Z.eq_dec (fat_pos c' + 1) (fat_pos c)) as [E1|],
        (Z.eq_dec (fat_pos c') (fat_pos c + 1)) as [E2|],
        (Z.eq_dec (fat_pos c' + 1) (fat_pos c + 1)) as [E3|];
      try done; try lia;
      try (exfalso; unfold fat_pos in *; zarith);
      rewrite ?E, ?E1, ?E2, ?E3; zarith.
Qed.

Lemma write_fat_ok s c data : dstate_wf s -> 0 <= c < 3072 -> 0 <= data < 65536 ->
  exists s', write_fat_next_cluster c data s = Ok (tt, s') /\ dstate_wf s' /\
    (fat_mirror (dsk s) -> fat_mirror (dsk s')) /\
    (forall i, i < 1 \/ 18 < i -> dread (dsk s') i = dread (dsk s) i) /\
    forall c', 0 <= c' < 3072 ->
      fat (dsk s') c' = if Z.eq_dec c' c then data mod 4096 else fat (dsk s) c'.
Proof.
  intros Hwf Hc Hdata. destruct (write_fat_bytes s c data Hwf Hc Hdata) as (s' & E & Hi & HW).
  exists s'. split; [done|]. pose proof HW as (Hd' & Hm & Ho & _).
  split; [split; [done | rewrite Hi; apply (dw_img _ Hwf)]|].
  split; [done|]. split; [done|].
  by apply fat_written_fat; [apply (dw_disk _ Hwf)|..].
Qed.

(** Any 16-bit cluster number is accepted; only these sectors change. *)
Lemma write_fat_sectors s c data : dstate_wf s -> 0 <= c < 65536 ->
  exists s', write_fat_next_cluster c data s = Ok (tt, s') /\ dstate_wf s' /\
    forall i, i <> 1 + fat_pos c / 512 -> i <> 1 + fat_pos c / 512 + 9 ->
      i <> 1 + (fat_pos c + 1) / 512 -> i <> 1 + (fat_pos c + 1) / 512 + 9 ->
      dread (dsk s') i = dread (dsk s) i.
Proof.
  intros [Hd Him] Hc. unfold write_fat_next_cluster. rewrite (u16_small c) by lia.
  fold (fat_pos c). cbv zeta.
  assert (Hp : 0 <= fat_pos c < 98303) by (unfold fat_pos; zarith).
  set (pos := fat_pos c) in *.
  rewrite (bindM_ok _ _ _ _ _ (read_sector_ok s (1 + pos / 512) ltac:(unfold SecCnt; zarith))).
  pose proof (dread_sector (dsk s) (1 + pos / 512) Hd) as Hs.
  assert (Hk : 0 <= pos mod 512 < zlen (dread (dsk s) (1 + pos / 512)))
    by (rewrite (sector_zlen _ Hs); zarith).
  rewrite (bind_lift _ _ _ _ (aget_at _ _ Hk)).
  fold (low_byte c (u16 data) (at_ (dread (dsk s) (1 + pos / 512)) (pos mod 512))).
  rewrite (bind_lift _ _ _ _ (aset_ok _ _ _ Hk)).
  set (b := <[_ := _]> _). assert (Hb : sector b)
    by (apply sector_insert; [done | apply entry_byte]).
  assert (Hfin : forall s1 b1, dwf (dsk s1) -> zlen (img s1) = 10240 -> sector b1 ->
    exists s', (x ← lift (aget b1 ((pos + 1) mod 512));
      y ← lift (aset b1 ((pos + 1) mod 512)
            (if c mod 2 =? 0 then u8 (Z.land x 0xF0 + Z.land (u8 (Z.shiftr (u16 data) 8)) 0xF)
             else u8 (Z.shiftr (u16 data) 4)));
      write_fat_sector (1 + (pos + 1) / 512) y) s1 = Ok (tt, s') /\ dstate_wf s' /\
      forall i, i <> 1 + (pos + 1) / 512 -> i <> 1 + (pos + 1) / 512 + 9 ->
        dread (dsk s') i = dread (dsk s1) i).
  { intros s1 b1 Hd1 Hi1 Hb1.
    assert (Hk1 : 0 <= (pos + 1) mod 512 < zlen b1) by (rewrite (sector_zlen _ Hb1); zarith).
    rewrite (bind_lift _ _ _ _ (aget_at _ _ Hk1)).
    fold (high_byte c (u16 data) (at_ b1 ((pos + 1) mod 512))).
    rewrite (bind_lift _ _ _ _ (aset_ok _ _ _ Hk1)), write_fat_sector_ok by zarith.
    eexists. split; [done|]. split.
    - split; [|done]. apply dwrite_wf; [apply dwrite_wf; [done|]|];
        (apply sector_insert; [done | apply entry_byte]).
    - intros i H1 H2. cbn [dsk]. by rewrite !dread_ne by congruence. }
  destruct (Z.eqb_spec (1 + pos / 512) (1 + (pos + 1) / 512)) as [E|E]; cbn [negb].
  - rewrite bind_mret. destruct (Hfin s b Hd Him Hb) as (s' & Es & Hw & Ho).
    exists s'. split; [done|]. split; [done|]. intros. by apply Ho.
  - erewrite bindM_ok.
    2:{ rewrite (bindM_ok _ _ _ _ _ (write_fat_sector_ok s (1 + pos / 512) _ ltac:(zarith))).
        apply read_sector_ok. unfold SecCnt. zarith. }
    cbn [dsk]. set (s1 := mk_dstate _ _).
    destruct (Hfin s1 (dread (dsk s1) (1 + (pos + 1) / 512))) as (s' & Es & Hw & Ho).
    { unfold s1. cbn [dsk]. auto with gw. }
    { done. }
    { apply dread_sector. unfold s1. cbn [dsk]. auto with gw. }
    exists s'. split; [done|]. split; [done|]. intros i H1 H2 H3 H4. rewrite Ho by done.
    unfold s1. cbn [dsk]. by rewrite !dread_ne by congruence.
Qed.

(** ** Allocation *)

(** The FAT depends on sectors 1..9 only. *)
Lemma fat_frame d d' c : (forall i, 1 <= i <= 9 -> dread d' i = dread d i) ->
  0 <= c < 3072 -> fat d' c = fat d c.
Proof.
  intros Hi Hc. assert (0 <= fat_pos c /\ fat_pos c + 1 < 4608) by (unfold fat_pos; zarith).
  unfold fat, fatb. by rewrite !Hi by zarith.
Qed.

(** Triple [k] of the FAT holds entries [2k] and [2k + 1]. *)
Lemma find_empty_scan_ok s s' : dwf (dsk s) -> zlen (img s') = 10240 ->
  (forall p, 0 <= p < 10240 -> at_ (img s') p = at_ (dread (dsk s) (p / 512)) (p mod 512)) ->
  forall n k, 0 <= k -> k + Z.of_nat n <= 1536 ->
  exists r, find_empty_scan n (img s') (512 + 3 * k) = Ok r /\
    ((r = 65535 /\ forall c, 2 * k <= c < 2 * (k + Z.of_nat n) -> fat (dsk s) c <> 0) \/
     (2 * k <= r < 2 * (k + Z.of_nat n) /\ fat (dsk s) r = 0 /\
      forall c, 2 * k <= c < r -> fat (dsk s) c <> 0)).
Proof.
  intros Hd Hz Hi. induction n as [|n IH]; intros k Hk Hn.
  { exists 65535. split; [done|]. left. split; [done|]. lia. }
  cbn [find_empty_scan].
  pose proof (img_entry_fat s s' (2 * k) Hd Hz Hi ltac:(lia)) as Ex.
  pose proof (img_entry_fat s s' (2 * k + 1) Hd Hz Hi ltac:(lia)) as Ey.
  unfold img_entry in Ex, Ey.
  replace (2 * k / 2 * 3 + (2 * k) mod 2) with (3 * k) in Ex by zarith.
  replace ((2 * k + 1) / 2 * 3 + (2 * k + 1) mod 2) with (3 * k + 1) in Ey by zarith.
  replace ((2 * k) mod 2) with 0 in Ex by zarith.
  replace ((2 * k + 1) mod 2) with 1 in Ey by zarith. cbn [Z.eqb] in Ex, Ey.
  apply bindR_inv in Ex as (b1 & E1 & Ex). apply bindR_inv in Ex as (b0 & E0 & Ex).
  apply bindR_inv in Ey as (b1' & E1' & Ey). apply bindR_inv in Ey as (b2 & E2 & Ey).
  rewrite Z.add_assoc in E1'. rewrite E1 in E1'. injection E1' as <-.
  replace (512 + (3 * k + 1) + 1) with (512 + 3 * k + 2) in E2 by lia.
  rewrite (bindR_ok _ _ _ E1), (bindR_ok _ _ _ E0). injection Ex as ->.
  destruct (Z.eqb_spec (fat (dsk s) (2 * k)) 0) as [Z0|N0].
  { exists (2 * k). replace ((512 + 3 * k - 512) / 3 * 2) with (2 * k) by zarith.
    rewrite u16_small by lia. split; [done|]. right. split; [lia|]. split; [done|]. lia. }
  rewrite (bindR_ok _ _ _ E1), (bindR_ok _ _ _ E2). injection Ey as ->.
  destruct (Z.eqb_spec (fat (dsk s) (2 * k + 1)) 0) as [Z1|N1].
  { exists (2 * k + 1). replace ((512 + 3 * k - 512) / 3 * 2) with (2 * k) by zarith.
    rewrite u16_small by lia. split; [done|]. right. split; [lia|]. split; [done|].
    intros c Hc. by replace c with (2 * k) by lia. }
  destruct (IH (k + 1)) as (r & Er & Hcase); [lia..|].
  replace (512 + 3 * (k + 1)) with (512 + 3 * k + 3) in Er by lia.
  exists r. split; [done|].
  assert (Hsplit : forall c, 2 * k <= c -> c = 2 * k \/ c = 2 * k + 1 \/ 2 * (k + 1) <= c) by lia.
  destruct Hcase as [[-> HA]|(HA & HB & HC)]; [left|right].
  - split; [done|]. intros c Hc. destruct (Hsplit c) as [->|[->|]]; [lia|done|done|apply HA; lia].
  - split; [lia|]. split; [done|].
    intros c Hc. destruct (Hsplit c) as [->|[->|]]; [lia|done|done|apply HC; lia].
Qed.

(** The first free entry, if any. *)
Definition first_free (d : D) (c : Z) : Prop :=
  0 <= c < 3072 /\ fat d c = 0 /\ forall c', 0 <= c' < c -> fat d c' <> 0.
Definition fat_full (d : D) : Prop := forall c, 0 <= c < 3072 -> fat d c <> 0.

Lemma first_free_fun d c1 c2 : first_free d c1 -> first_free d c2 -> c1 = c2.
Proof.
  intros (R1 & Z1 & M1) (R2 & Z2 & M2).
  destruct (Z.lt_trichotomy c1 c2) as [Hlt|[E|Hlt]]; [|done|].
  - by destruct (M2 c1 ltac:(lia)).
  - by destruct (M1 c2 ltac:(lia)).
Qed.

Lemma find_empty_scan_whole s : dstate_wf s ->
  exists r s1, (_ ← update_img; im ← gets img; lift (find_empty_scan 1536 im 512)) s = Ok (r, s1)
    /\ dsk s1 = dsk s /\ dstate_wf s1 /\
    ((r = 65535 /\ fat_full (dsk s)) \/ first_free (dsk s) r).
Proof.
  intros Hwf. destruct (update_img_ok s Hwf) as (s1 & E & Hd & Hw & Hi).
  destruct (find_empty_scan_ok s s1 (dw_disk _ Hwf) (dw_img _ Hw) Hi 1536 0) as (r & Er & Hc);
    [lia|lia|].
  exists r, s1. split; [|split; [done|split; [done|]]].
  - rewrite (bindM_ok _ _ _ _ _ E), bind_gets. by apply lift_ok.
  - destruct Hc as [[-> H1]|(H1 & H2 & H3)]; [left|right].
    + split; [done|]. intros c Hc. apply H1. lia.
    + split; [lia|]. split; [done|]. intros c Hc. apply H3. lia.
Qed.

Lemma find_empty_run s : dstate_wf s ->
  exists r s1, dsk s1 = dsk s /\ dstate_wf s1 /\
    find_empty_cluster s = (_ ← clear_cluster r; mret r) s1 /\
    ((r = 65535 /\ fat_full (dsk s)) \/ first_free (dsk s) r).
Proof.
  intros Hwf. destruct (find_empty_scan_whole s Hwf) as (r & s1 & E & Hd & Hw & Hc).
  exists r, s1. split; [done|]. split; [done|]. split; [|done].
  apply bindM_inv in E as (u & s2 & E1 & E2). apply bindM_inv in E2 as (im & s3 & E3 & E4).
  unfold find_empty_cluster. rewrite (bindM_ok _ _ _ _ _ E1), (bindM_ok _ _ _ _ _ E3).
  by rewrite (bindM_ok _ _ _ _ _ E4).
Qed.

Lemma clear_cluster_ok s c : dstate_wf s -> 0 <= c <= 2849 ->
  exists s', clear_cluster c s = Ok (tt, s') /\ dstate_wf s' /\
    dsk s' = dwrite (dsk s) (c + ClusToSec) zero_sector.
Proof.
  intros [Hd Hi] Hc. unfold clear_cluster. rewrite u16_small by lia.
  rewrite write_sector_ok by (unfold SecCnt, ClusToSec; lia).
  eexists. split; [done|]. split; [|done]. split; [|done]. cbn [dsk]. auto with gw.
Qed.

Lemma find_empty_ok s n : dstate_wf s -> first_free (dsk s) n -> n <= 2849 ->
  exists s', find_empty_cluster s = Ok (n, s') /\ dstate_wf s' /\
    dsk s' = dwrite (dsk s) (n + ClusToSec) zero_sector.
Proof.
  intros Hwf Hn Hb. destruct (find_empty_run s Hwf) as (r & s1 & Hd & Hw & E & Hc).
  pose proof Hn as (Hr & Hz & _).
  assert (r = n) as ->.
  { destruct Hc as [[_ Hf]|Hf]; [by destruct (Hf n Hr) | by eapply first_free_fun]. }
  destruct (clear_cluster_ok s1 n Hw ltac:(lia)) as (s' & E' & Hw' & Hd').
  exists s'. rewrite E, (bindM_ok _ _ _ _ _ E'). split; [done|]. split; [done|]. by rewrite Hd', Hd.
Qed.

(** With no free entry the cluster number is 65535, and the sector cleared is
    [u16 (65535 + 31) = 30], a sector of the root directory. *)
Lemma find_empty_full s : dstate_wf s -> fat_full (dsk s) ->
  exists s', find_empty_cluster s = Ok (65535, s') /\ dstate_wf s' /\
    dsk s' = dwrite (dsk s) 30 zero_sector.
Proof.
  intros Hwf Hf. destruct (find_empty_run s Hwf) as (r & s1 & Hd & Hw & E & Hc).
  assert (r = 65535) as ->.
  { destruct Hc as [[-> _]|(Hr & Hz & _)]; [done | by destruct (Hf r Hr)]. }
  exists (mk_dstate (dwrite (dsk s1) 30 zero_sector) (img s1)). split; [|split].
  - by rewrite E.
  - destruct Hw as [Hd1 Hi]. split; [|done]. cbn [dsk]. auto with gw.
  - cbn [dsk]. by rewrite Hd.
Qed.
End fat12.

Arguments dstate D : clear implicits.
