(* ===== verification/Fat.v ===== *)
(** * Fat: cluster allocation and cluster chains over the FAT12 layer

    [append_a_cluster] of filesystem/disk.c and [clear_file] of
    filesystem/file.c, specified on chains: [chain d c l] says that the
    clusters reached from [c] by following the FAT are [l] and that the walk
    ends in an end-of-chain mark (0xFF8..0xFFF). *)

From S2P Require Import Prelude BlockDev Disk.

Definition eoc (c : Z) : Prop := 0xFF8 <= c <= 0xFFF.
Definition eocb (c : Z) : bool := (0xFF8 <=? c) && (c <=? 0xFFF).

Lemma eocb_spec c : eocb c = true <-> eoc c.
Proof. unfold eocb, eoc. rewrite andb_true_iff, !Z.leb_le. done. Qed.

Section chains.
Context {D : Type} `{BlockDevice D}.

Fixpoint chain (d : D) (c : Z) (l : list Z) : Prop :=
  match l with
  | [] => eoc c
  | x :: l' => c = x /\ 2 <= x <= 2849 /\ chain d (fat d x) l'
  end.

(** ** clear_file

    [while (true) { if (eoc clusID) break; clear_cluster; write_fat 0; next }].
    The loop visits each cluster of a chain once; a FAT has 3072 entries. *)
Fixpoint clear_file_loop (fuel : nat) (clusID nextClus : Z) : M (dstate D) unit :=
  match fuel with
  | O => fail OutOfFuel
  | S n =>
      if (0xFF8 <=? clusID) && (clusID <=? 0xFFF) then mret tt
      else
        _ ← clear_cluster clusID;
        _ ← write_fat_next_cluster clusID 0x000;
        let clusID' := nextClus in
        nextClus' ← get_fat_next_cluster clusID';
        clear_file_loop n clusID' nextClus'
  end.

Definition clear_file (FstClus : Z) : M (dstate D) unit :=
  nextClus ← get_fat_next_cluster FstClus;
  clear_file_loop 4096 FstClus nextClus.

(** ** Lemmas *)

Lemma chain_in d c l : chain d c l -> forall x, x ∈ l -> 2 <= x <= 2849 /\ fat d x <> 0.
Proof.
  revert c. induction l as [|y l IH]; intros c Hc x Hx; [by apply not_elem_of_nil in Hx|].
  destruct Hc as (-> & Hr & Hc). apply elem_of_cons in Hx as [->|Hx]; [|by eapply IH].
  split; [done|]. destruct l as [|z l]; cbn in Hc; [unfold eoc in Hc; lia|].
  destruct Hc as (-> & Hz & _). lia.
Qed.

Lemma chain_frame d d' c l : chain d c l ->
  (forall x, x ∈ l -> fat d' x = fat d x) -> chain d' c l.
Proof.
  revert c. induction l as [|y l IH]; intros c Hc Hf; [done|].
  destruct Hc as (-> & Hr & Hc). split; [done|]. split; [done|].
  rewrite Hf by set_solver. apply IH; [done | set_solver].
Qed.

Lemma fat_dwrite d i b c : 9 < i -> 0 <= c < 3072 -> fat (dwrite d i b) c = fat d c.
Proof. intros Hi Hc. apply fat_frame; [|done]. intros j Hj. by rewrite dread_ne by lia. Qed.

Lemma mirror_dwrite d i b : 18 < i -> fat_mirror d -> fat_mirror (dwrite d i b).
Proof. intros Hi Hm s Hs. rewrite !dread_ne by lia. by apply Hm. Qed.

(** A free cluster is linked in behind [c]. *)
Definition appended (d d' : D) (c n : Z) : Prop :=
  (forall c', 0 <= c' < 3072 -> fat d' c' =
     if Z.eq_dec c' n then 0xFFF else if Z.eq_dec c' c then n else fat d c') /\
  (fat_mirror d -> fat_mirror d') /\
  dread d' (n + ClusToSec) = zero_sector /\
  (forall i, i < 1 \/ 18 < i -> i <> n + ClusToSec -> dread d' i = dread d i).

Lemma append_ok s c n : dstate_wf s -> 0 <= c < 3072 ->
  first_free (dsk s) n -> 2 <= n <= 2849 ->
  exists s', append_a_cluster c s = Ok (n, s') /\ dstate_wf s' /\ appended (dsk s) (dsk s') c n.
Proof.
  intros Hwf Hc Hn Hr. destruct (find_empty_ok s n Hwf Hn ltac:(lia)) as (s1 & E1 & W1 & D1).
  destruct (write_fat_ok s1 c n W1 Hc ltac:(lia)) as (s2 & E2 & W2 & M2 & O2 & F2).
  destruct (write_fat_ok s2 n 0xFFF W2 ltac:(lia) ltac:(lia)) as (s3 & E3 & W3 & M3 & O3 & F3).
  exists s3. unfold append_a_cluster. rewrite (bindM_ok _ _ _ _ _ E1). decide_bool.
  rewrite (bindM_ok _ _ _ _ _ E2), (bindM_ok _ _ _ _ _ E3). split; [done|]. split; [done|].
  unfold ClusToSec in *. split; [|split; [|split]].
  - intros c' Hc'. rewrite F3 by done. destruct (Z.eq_dec c' n); [done|].
    rewrite F2 by done. destruct (Z.eq_dec c' c); [rewrite Z.mod_small by lia; done|].
    rewrite D1. apply fat_dwrite; lia.
  - intros Hm. apply M3, M2. rewrite D1. by apply mirror_dwrite; [lia|].
  - rewrite O3, O2 by (unfold ClusToSec; lia). rewrite D1. apply dread_eq.
  - intros i Hi Hne. rewrite O3, O2, D1 by lia. by rewrite dread_ne by (unfold ClusToSec in *; lia).
Qed.

Lemma chain_append d d' c l x n : chain d c (l ++ [x]) -> NoDup (l ++ [x]) ->
  fat d n = 0 -> 2 <= n <= 2849 -> appended d d' x n -> chain d' c ((l ++ [x]) ++ [n]).
Proof.
  intros Hc Hnd Hz Hn (Hf & _).
  assert (Hnin : n ∉ l ++ [x]) by (intros Hin; by destruct (chain_in _ _ _ Hc n Hin)).
  revert c Hc. induction l as [|y l IH]; intros c Hc; cbn [app] in *.
  - destruct Hc as (-> & Hr & _). split; [done|]. split; [done|].
    rewrite Hf by lia. destruct (Z.eq_dec x n); [set_solver|].
    destruct (Z.eq_dec x x); [|done]. split; [done|]. split; [done|].
    rewrite Hf by lia. destruct (Z.eq_dec n n); [|done]. cbn. unfold eoc. lia.
  - destruct Hc as (-> & Hr & Hc). apply NoDup_cons in Hnd as [Hy Hnd].
    split; [done|]. split; [done|]. rewrite Hf by lia.
    destruct (Z.eq_dec y n); [set_solver|]. destruct (Z.eq_dec y x); [set_solver|].
    apply IH; [done|set_solver|done].
Qed.

(** ** clear_file frees exactly the chain *)

(** State after the clusters of [l] have been released. *)
Definition released (d d' : D) (l : list Z) : Prop :=
  (forall c, 0 <= c < 3072 -> fat d' c = if decide (c ∈ l) then 0 else fat d c) /\
  (fat_mirror d -> fat_mirror d') /\
  (forall c, c ∈ l -> dread d' (c + ClusToSec) = zero_sector) /\
  (forall i, i < 1 \/ 18 < i -> i - ClusToSec ∉ l -> dread d' i = dread d i).

Lemma clear_file_step s c : dstate_wf s -> 2 <= c <= 2849 ->
  exists s', (_ ← clear_cluster c; write_fat_next_cluster c 0x000) s = Ok (tt, s') /\
    dstate_wf s' /\ released (dsk s) (dsk s') [c].
Proof.
  intros Hwf Hc. destruct (clear_cluster_ok s c Hwf ltac:(lia)) as (s1 & E1 & W1 & D1).
  destruct (write_fat_ok s1 c 0 W1 ltac:(lia) ltac:(lia)) as (s2 & E2 & W2 & M2 & O2 & F2).
  exists s2. rewrite (bindM_ok _ _ _ _ _ E1). split; [done|]. split; [done|].
  unfold ClusToSec in *. split; [|split; [|split]].
  - intros c' Hc'. rewrite F2, D1 by done. rewrite fat_dwrite by lia.
    destruct (Z.eq_dec c' c), (decide (c' ∈ [c])); try done; set_solver.
  - intros Hm. apply M2. rewrite D1. by apply mirror_dwrite; [lia|].
  - intros c' ->%list_elem_of_singleton. rewrite O2, D1 by (unfold ClusToSec; lia). apply dread_eq.
  - intros i Hi Hni. rewrite O2, D1 by done. rewrite dread_ne; [done|].
    intros <-. apply Hni. unfold ClusToSec. rewrite Z.add_simpl_r. set_solver.
Qed.

Lemma released_cons d d1 d2 c l : (c ∉ l) -> 2 <= c <= 2849 ->
  released d d1 [c] -> released d1 d2 l -> released d d2 (c :: l).
Proof.
  intros Hc Hr (F1 & M1 & Z1 & O1) (F2 & M2 & Z2 & O2). split; [|split; [|split]].
  - intros c' Hc'. rewrite F2, F1 by done.
    destruct (decide (c' ∈ l)), (decide (c' ∈ c :: l)), (decide (c' ∈ [c])); try done; set_solver.
  - intros Hm. by apply M2, M1.
  - intros c' [->|Hin]%elem_of_cons; [|by apply Z2].
    rewrite O2; [apply Z1; set_solver | unfold ClusToSec; lia |].
    by rewrite Z.add_simpl_r.
  - intros i Hi Hni. rewrite O2, O1 by (done || set_solver). done.
Qed.

Lemma clear_file_loop_ok l : forall fuel c s, dstate_wf s -> NoDup l -> chain (dsk s) c l ->
  (length l < fuel)%nat ->
  exists s', clear_file_loop fuel c (fat (dsk s) c) s = Ok (tt, s') /\ dstate_wf s' /\
    released (dsk s) (dsk s') l.
Proof.
  induction l as [|x l IH]; intros [|fuel] c s Hwf Hnd Hch Hf; try (cbn in Hf; lia);
    cbn [clear_file_loop].
  - rewrite (proj2 (eocb_spec c) Hch : (0xFF8 <=? c) && (c <=? 0xFFF) = true).
    exists s. split; [done|]. split; [done|]. split; [|split; [done|split]].
    + intros c' Hc'. by rewrite decide_False by set_solver.
    + set_solver.
    + done.
  - destruct Hch as (-> & Hr & Hch). apply NoDup_cons in Hnd as [Hx Hnd].
    rewrite (proj2 (Z.leb_gt 0xFF8 x)) by lia. cbn [andb].
    destruct (clear_file_step s x Hwf Hr) as (s1 & E1 & W1 & R1).
    apply bindM_inv in E1 as (u & s0 & Ea & Eb).
    rewrite (bindM_ok _ _ _ _ _ Ea), (bindM_ok _ _ _ _ _ Eb).
    pose proof (fat_range (dsk s) x (dw_disk _ Hwf) ltac:(lia)) as Hfr.
    assert (Hfr' : 0 <= fat (dsk s) x < 6484) by lia.
    destruct (get_fat_ok s1 (fat (dsk s) x) W1 Hfr') as (s2 & E2 & D2 & W2).
    rewrite (bindM_ok _ _ _ _ _ E2). rewrite <- D2.
    destruct (IH fuel (fat (dsk s) x) s2) as (s' & E' & W' & R').
    { done. }
    { done. }
    { rewrite D2. apply (chain_frame (dsk s)); [done|]. intros y Hy.
      destruct R1 as (F1 & _). rewrite F1, decide_False; [reflexivity|intros ->%list_elem_of_singleton; exact (Hx Hy)|].
      destruct (chain_in _ _ _ Hch y Hy). lia. }
    { cbn in Hf. lia. }
    exists s'. split; [done|]. split; [done|]. rewrite D2 in R'.
    by eapply released_cons.
Qed.

Lemma chain_length (l : list Z) : NoDup l -> (forall x, x ∈ l -> 2 <= x <= 2849) ->
  (length l <= 2848)%nat.
Proof.
  intros Hnd Hr.
  assert (Hsub : l ⊆+ seqZ 2 2848).
  { apply NoDup_submseteq; [done|]. intros x Hx. apply elem_of_seqZ. specialize (Hr x Hx). lia. }
  apply submseteq_length in Hsub. rewrite length_seqZ in Hsub. done.
Qed.

Lemma clear_file_ok s c l : dstate_wf s -> NoDup l -> chain (dsk s) c l -> 0 <= c < 6484 ->
  exists s', clear_file c s = Ok (tt, s') /\ dstate_wf s' /\ released (dsk s) (dsk s') l.
Proof.
  intros Hwf Hnd Hch Hc. destruct (get_fat_ok s c Hwf Hc) as (s1 & E1 & D1 & W1).
  unfold clear_file. rewrite (bindM_ok _ _ _ _ _ E1), <- D1.
  apply clear_file_loop_ok; [done|done|by rewrite D1|].
  assert (length l <= 2848)%nat; [|lia].
  apply chain_length; [done|]. intros x Hx. by destruct (chain_in _ _ _ Hch x Hx).
Qed.
End chains.

(** ** Properties *)

Section claims.
Context {D : Type} `{BlockDevice D}.

(** C33. Storing 12 bits in the entry of a cluster and reading it back gives
    them; every other entry and every sector outside the two FAT copies is
    unchanged, and the copies stay equal.  Entries that straddle a sector
    boundary are included. *)
Theorem fat_write_read (s : dstate D) (c data : Z) :
  dstate_wf s -> fat_mirror (dsk s) -> 0 <= c < 3072 -> 0 <= data < 4096 ->
  exists s', write_fat_next_cluster c data s = Ok (tt, s') /\ dstate_wf s' /\
    fat_mirror (dsk s') /\
    (forall i, i < 1 \/ 18 < i -> dread (dsk s') i = dread (dsk s) i) /\
    forall c', 0 <= c' < 3072 -> exists s1 s2,
      get_fat_next_cluster c' s = Ok (fat (dsk s) c', s1) /\ dsk s1 = dsk s /\
      get_fat_next_cluster c' s' = Ok (if Z.eq_dec c' c then data else fat (dsk s) c', s2) /\
      dsk s2 = dsk s'.
Proof.
  intros Hwf Hm Hc Hd. destruct (write_fat_ok s c data Hwf Hc ltac:(lia)) as (s' & E & W & M & O & F).
  exists s'. do 4 (split; [by auto|]). intros c' Hc'.
  destruct (get_fat_ok s c' Hwf ltac:(lia)) as (s1 & E1 & D1 & _).
  destruct (get_fat_ok s' c' W ltac:(lia)) as (s2 & E2 & D2 & _).
  exists s1, s2. do 2 (split; [done|]). split; [|done]. rewrite E2, F by done.
  by destruct (Z.eq_dec c' c); [rewrite Z.mod_small by lia|].
Qed.

(** C27. [append_a_cluster] on the last cluster of a chain takes the first free
    cluster, zeroes its sector and extends the chain by it; no other FAT
    entry and no other data sector changes. *)
Theorem append_extends_chain (s : dstate D) (c x n : Z) (l : list Z) :
  dstate_wf s -> chain (dsk s) c (l ++ [x]) -> NoDup (l ++ [x]) ->
  first_free (dsk s) n -> 2 <= n <= 2849 ->
  exists s', append_a_cluster x s = Ok (n, s') /\ dstate_wf s' /\
    chain (dsk s') c ((l ++ [x]) ++ [n]) /\ NoDup ((l ++ [x]) ++ [n]) /\
    appended (dsk s) (dsk s') x n.
Proof.
  intros Hwf Hch Hnd Hn Hr.
  assert (Hx : 2 <= x <= 2849) by (eapply chain_in; [done|set_solver]).
  destruct (append_ok s x n Hwf ltac:(lia) Hn Hr) as (s' & E & W & A).
  exists s'. split; [done|]. split; [done|]. destruct Hn as (_ & Hz & _).
  split; [by eapply chain_append|]. split; [|done].
  apply NoDup_app. split; [done|]. split; [|apply NoDup_singleton].
  intros y Hy ->%list_elem_of_singleton. destruct (chain_in _ _ _ Hch n Hy) as [_ Hnz]. exact (Hnz Hz).
Qed.

(** C34. [clear_file] returns on every chain, frees exactly the clusters of the
    chain, zeroes their sectors and changes nothing else. *)
Theorem clear_file_frees_chain (s : dstate D) (c : Z) (l : list Z) :
  dstate_wf s -> NoDup l -> chain (dsk s) c l ->
  exists s', clear_file c s = Ok (tt, s') /\ dstate_wf s' /\ released (dsk s) (dsk s') l.
Proof.
  intros Hwf Hnd Hch. apply clear_file_ok; [done..|].
  destruct l as [|x l]; [cbn in Hch; unfold eoc in Hch; lia|].
  destruct Hch as (-> & ? & _). lia.
Qed.

(** On a full FAT [find_empty_cluster] reports 65535 and has zeroed
    sector 30; [append_a_cluster] does not recognise the failure: it returns
    65535 as a cluster number. *)
Theorem append_on_full_fat (s : dstate D) (c : Z) :
  dstate_wf s -> fat_full (dsk s) -> 0 <= c < 3072 ->
  (exists s', find_empty_cluster s = Ok (65535, s') /\
     dsk s' = dwrite (dsk s) 30 zero_sector) /\
  exists s', append_a_cluster c s = Ok (65535, s') /\ dread (dsk s') 30 = zero_sector /\
    (forall c', 0 <= c' < 3072 -> fat (dsk s') c' = if Z.eq_dec c' c then 0xFFF else fat (dsk s) c').
Proof.
  intros Hwf Hf Hc. destruct (find_empty_full s Hwf Hf) as (s1 & E1 & W1 & D1).
  split; [eauto|].
  destruct (write_fat_ok s1 c 65535 W1 Hc ltac:(lia)) as (s2 & E2 & W2 & _ & O2 & F2).
  destruct (write_fat_sectors s2 65535 0xFFF W2 ltac:(lia)) as (s3 & E3 & W3 & O3).
  exists s3. unfold append_a_cluster. rewrite (bindM_ok _ _ _ _ _ E1). decide_bool.
  rewrite (bindM_ok _ _ _ _ _ E2), (bindM_ok _ _ _ _ _ E3).
  change (fat_pos 65535 / 512) with 191 in O3.
  change ((fat_pos 65535 + 1) / 512) with 191 in O3. split; [done|]. split.
  - rewrite O3, O2, D1 by lia. apply dread_eq.
  - intros c' Hc'. rewrite (fat_frame (dsk s2)), F2; [|exact Hc'|intros; apply O3; lia|exact Hc'].
    destruct (Z.eq_dec c' c); [done|]. rewrite D1. by apply fat_dwrite.
Qed.

(** The scan does not stop at the last cluster of the medium (2849): when
    that is the state of the FAT, the allocation panics in [write_sector]. *)
Theorem find_empty_past_medium_panics (s : dstate D) (n : Z) :
  dstate_wf s -> first_free (dsk s) n -> 2849 < n -> find_empty_cluster s = Err Panic.
Proof.
  intros Hwf Hn Hb. destruct (find_empty_run s Hwf) as (r & s1 & Hd & Hw & E & Hc).
  pose proof Hn as (Hr & Hz & _).
  assert (r = n) as ->.
  { destruct Hc as [[_ Hf]|Hf]; [by destruct (Hf n Hr) | by eapply first_free_fun]. }
  rewrite E. apply bindM_err. unfold clear_cluster, write_sector.
  rewrite (u16_small n), u16_small by (unfold ClusToSec; lia).
  apply bind_assert_panic. unfold SecCnt, ClusToSec. apply andb_false_intro2. lia.
Qed.
End claims.

(** ** Concrete disks for the witnesses *)

(** Bounded checks of [first_free] and [fat_full]. *)
Definition used_below (d : ramdisk) (n : Z) : bool :=
  forallb (fun c => negb (fat d c =? 0)) (seqZ 0 n).

Lemma used_below_spec d n : used_below d n = true -> forall c, 0 <= c < n -> fat d c <> 0.
Proof.
  unfold used_below. rewrite forallb_forall. intros Hu c Hc.
  specialize (Hu c). rewrite <- list_elem_of_In, elem_of_seqZ in Hu.
  specialize (Hu ltac:(lia)). bool_prop. done.
Qed.

Lemma mirror_check (d : ramdisk) :
  forallb (fun s => bool_decide (dread d (s + 9) = dread d s)) (seqZ 1 9) = true -> fat_mirror d.
Proof.
  rewrite forallb_forall. intros Hm s Hs. specialize (Hm s).
  rewrite <- list_elem_of_In, elem_of_seqZ in Hm. apply (bool_decide_eq_true_1 _ (Hm ltac:(lia))).
Qed.

Lemma ramdisk_sectors (l : list (Z * list Z)) :
  Forall (fun p => sector p.2) l -> dwf (list_to_map l : ramdisk).
Proof.
  intros Hl s b Hb. apply elem_of_list_to_map_2 in Hb.
  rewrite Forall_forall in Hl. apply (Hl (s, b) Hb).
Qed.

Definition img0 : list Z := replicate (Z.to_nat 10240) 0.

Definition fat_bytes (es : list Z) (n : nat) : list Z :=
  es ++ replicate (n - length es) 0.

(** A fresh FAT with entries 0 and 1 reserved and the chain 2, 3. *)
Definition demo_fat : list Z := fat_bytes [0xF0; 0xFF; 0xFF; 0x03; 0xF0; 0xFF] 512.
Definition demo_disk : ramdisk := list_to_map [(1, demo_fat); (10, demo_fat)].
Definition demo : dstate ramdisk := mk_dstate demo_disk img0.

(** Every entry in use, up to entry [2 * n] for the first free one. *)
Definition full_disk (k : nat) : ramdisk :=
  list_to_map (map (fun s => (Z.of_nat s, replicate 512 0xFF)) (seq 1 k)).

Lemma replicate_sector x : is_byte x -> sector (replicate 512 x).
Proof. intros Hx. split; [apply length_replicate | by apply Forall_replicate]. Qed.

Lemma demo_wf : dstate_wf demo.
Proof.
  split; [|reflexivity]. apply ramdisk_sectors.
  repeat constructor; unfold is_byte; cbn; lia.
Qed.

Lemma full_disk_wf k : dstate_wf (mk_dstate (full_disk k) img0).
Proof.
  split; [|reflexivity]. apply ramdisk_sectors. apply Forall_forall.
  intros p (s & -> & _)%list_elem_of_fmap. apply replicate_sector. unfold is_byte. lia.
Qed.

Lemma fat_write_read_witness : exists s', write_fat_next_cluster 341 0xABC demo = Ok (tt, s') /\
  exists s2, get_fat_next_cluster 341 s' = Ok (0xABC, s2).
Proof.
  assert (Hm : fat_mirror (dsk demo)).
  { apply mirror_check. vm_compute. reflexivity. }
  destruct (fat_write_read demo 341 0xABC demo_wf Hm) as (s' & E & _ & _ & _ & R); [lia..|].
  exists s'. split; [exact E|]. assert (H341 : 0 <= 341 < 3072) by lia.
  destruct (R 341 H341) as (_ & s2 & _ & _ & E2 & _).
  exists s2. exact E2.
Defined.

Lemma append_extends_chain_witness : exists s', append_a_cluster 3 demo = Ok (4, s') /\
  chain (dsk s') 2 [2; 3; 4].
Proof.
  destruct (append_extends_chain demo 2 3 4 [2]) as (s' & E & _ & Hc & _).
  - exact demo_wf.
  - split; [done|]. split; [lia|]. split; [vm_compute; reflexivity|]. split; [lia|].
    vm_compute. split; discriminate.
  - apply (bool_decide_unpack _). vm_compute. exact I.
  - split; [lia|]. split; [vm_compute; reflexivity|]. apply used_below_spec. vm_compute. reflexivity.
  - lia.
  - exists s'. split; [exact E|exact Hc].
Defined.

Lemma clear_file_frees_chain_witness : exists s', clear_file 2 demo = Ok (tt, s') /\
  fat (dsk s') 2 = 0 /\ fat (dsk s') 3 = 0.
Proof.
  destruct (clear_file_frees_chain demo 2 [2; 3]) as (s' & E & _ & F & _).
  - exact demo_wf.
  - apply (bool_decide_unpack _). vm_compute. exact I.
  - split; [done|]. split; [lia|]. split; [vm_compute; reflexivity|]. split; [lia|].
    vm_compute. split; discriminate.
  - exists s'. split; [exact E|]. split; rewrite F by lia; reflexivity.
Defined.

Lemma append_on_full_fat_witness :
  exists s', append_a_cluster 2 (mk_dstate (full_disk 18) img0) = Ok (65535, s').
Proof.
  destruct (append_on_full_fat (mk_dstate (full_disk 18) img0) 2) as (_ & s' & E & _).
  - apply full_disk_wf.
  - intros c Hc. revert c Hc. apply used_below_spec. vm_compute. reflexivity.
  - lia.
  - exists s'. exact E.
Defined.

Lemma find_empty_past_medium_panics_witness :
  find_empty_cluster (mk_dstate (<[9 := fat_bytes (replicate 300 0xFF) 512]> (full_disk 8))
    img0) = Err Panic.
Proof.
  apply (find_empty_past_medium_panics _ 2931).
  - split; [|reflexivity]. apply (@dwrite_wf _ RamDisk (full_disk 8) 9); [apply (dw_disk _ (full_disk_wf 8))|].
    split; [reflexivity|]. apply Forall_app. split; apply Forall_replicate; unfold is_byte; lia.
  - split; [lia|]. split; [vm_compute; reflexivity|]. apply used_below_spec. vm_compute. reflexivity.
  - lia.
Defined.
