(* ===== verification/Stdio.v ===== *)
(** * Stdio: lib/stdio.c, formatted output and number parsing

    [itoa] and [vsprintf] write into a caller's array; [va_arg] reads the next
    word of the argument list, a number or a pointer to a string (an array and
    an offset).  The digit loop runs at most 32 times for a base of at least 2
    on a 32-bit number; its bound is 33. *)

From S2P Require Import Prelude CString.

(** ** itoa *)

Definition digit_char (d : Z) : Z := if d <=? 9 then u8 (d + 48) else u8 (d - 10 + 65).

(** [while (x) { s[len++] = ...; x /= b; }]; the remainder by 0 traps. *)
Fixpoint itoa_digits (fuel : nat) (s : list Z) (p len x b : Z) : res (list Z * Z) :=
  match fuel with
  | O => Err OutOfFuel
  | S n =>
      if x =? 0 then Ok (s, len)
      else if b =? 0 then Err Fault
      else
        s' ← aset s (p + len) (digit_char (x mod b));
        itoa_digits n s' p (len + 1) (x / b) b
  end.

(** [for (i = 0; i < len / 2; i++)]: swap [s[i]] and [s[len - 1 - i]]. *)
Fixpoint itoa_reverse (n : nat) (s : list Z) (p i len : Z) : res (list Z) :=
  match n with
  | O => Ok s
  | S n' =>
      tmp ← aget s (p + i);
      y ← aget s (p + (len - 1 - i));
      s1 ← aset s (p + i) y;
      s2 ← aset s1 (p + (len - 1 - i)) tmp;
      itoa_reverse n' s2 p (i + 1) len
  end.

Definition itoa (s : list Z) (p x b : Z) : res (list Z) :=
  '(s, len) ← (if x =? 0 then s' ← aset s p 48; Ok (s', 1) else Ok (s, 0));
  '(s, len) ← itoa_digits 33 s p len x b;
  s ← aset s (p + len) 0;
  itoa_reverse (Z.to_nat (len / 2)) s p 0 len.

(** ** vsprintf *)

Inductive arg :=
  | AInt (x : Z)
  | AStr (buf : list Z) (off : Z).

Fixpoint vsprintf_loop (fuel : nat) (s format : list Z) (i len : Z) (args : list arg)
    : res (list Z * Z) :=
  match fuel with
  | O => Err OutOfFuel
  | S n =>
      flen ← strlen format 0;
      if negb (i <? flen) then Ok (s, len)
      else
        c ← aget format i;
        if c =? 37 (* '%' *) then
          k ← aget format (i + 1);
          if (k =? 120) || (k =? 100) (* 'x', 'd' *) then
            match args with
            | AInt x :: args' =>
                s ← itoa s len x (if k =? 120 then 16 else 10);
                len ← strlen s 0;
                vsprintf_loop n s format (i + 2) len args'
            | _ => Err Fault
            end
          else if k =? 115 (* 's' *) then
            match args with
            | AStr a off :: args' =>
                s ← strcpy s len a off;
                len ← strlen s 0;
                vsprintf_loop n s format (i + 2) len args'
            | _ => Err Fault
            end
          else if k =? 99 (* 'c' *) then
            match args with
            | AInt x :: args' =>
                s ← aset s len (u8 x);
                vsprintf_loop n s format (i + 2) (len + 1) args'
            | _ => Err Fault
            end
          else vsprintf_loop n s format (i + 2) len args
        else
          s ← aset s len c;
          vsprintf_loop n s format (i + 1) (len + 1) args
  end.

Definition vsprintf (s format : list Z) (args : list arg) : res (list Z * Z) :=
  '(s, len) ← vsprintf_loop (S (length format)) s format 0 0 args;
  s ← aset s len 0;
  r ← strlen s 0;
  Ok (s, r).

Definition sprintf (buf format : list Z) (args : list arg) : res (list Z * Z) :=
  vsprintf buf format args.

(** The buffer [printf] hands to [write]. *)
Definition printf (format : list Z) (args : list arg) : res (list Z) :=
  '(buf, _) ← vsprintf (replicate 1000 0) format args;
  Ok buf.

(** ** s_to_uint *)

Definition s_to_uint_step (x c : Z) : Z :=
  let c := schar c in
  if (48 <=? c) && (c <=? 57) then u32 (x * 10 + c - 48)
  else if (97 <=? c) && (c <=? 122) then u32 (x * 10 + c - 97 + 10)
  else if (65 <=? c) && (c <=? 90) then u32 (x * 10 + c - 65 + 10)
  else x.

Fixpoint s_to_uint_loop (n : nat) (value : list Z) (i x : Z) : res Z :=
  match n with
  | O => Ok x
  | S n' => c ← aget value i; s_to_uint_loop n' value (i + 1) (s_to_uint_step x c)
  end.

Definition s_to_uint (value : list Z) : res Z :=
  len ← strlen value 0;
  s_to_uint_loop (Z.to_nat len) value 0 0.

(** ** vscanf

    [read] is the system call that fills [value]; the arguments are pointers
    to a number or to a string buffer, and the result is what they hold after
    the call. *)
Inductive dest := DInt (x : Z) | DStr (buf : list Z).

Section scanf.
Context {I : Type} (read : list Z -> I -> res (list Z * I)).

Fixpoint vscanf_loop (fuel : nat) (format value : list Z) (i : Z) (args : list dest) (inp : I)
    : res (list dest * I) :=
  match fuel with
  | O => Err OutOfFuel
  | S n =>
      flen ← strlen format 0;
      if negb (i <? flen) then Ok (args, inp)
      else
        c ← aget format i;
        if c =? 37 then
          k ← aget format (i + 1);
          if (k =? 100) || (k =? 120) then
            match args with
            | DInt _ :: args' =>
                '(value, inp) ← read value inp;
                x ← s_to_uint value;
                '(rest, inp) ← vscanf_loop n format value (i + 2) args' inp;
                Ok (DInt x :: rest, inp)
            | _ => Err Fault
            end
          else if (k =? 99) || (k =? 115) then
            match args with
            | DStr buf :: args' =>
                '(value, inp) ← read value inp;
                buf ← strcpy buf 0 value 0;
                '(rest, inp) ← vscanf_loop n format value (i + 2) args' inp;
                Ok (DStr buf :: rest, inp)
            | _ => Err Fault
            end
          else vscanf_loop n format value (i + 2) args inp
        else vscanf_loop n format value (i + 1) args inp
  end.

Definition vscanf (format value : list Z) (args : list dest) (inp : I) : res (list dest * I) :=
  vscanf_loop (S (length format)) format value 0 args inp.
End scanf.

(** ** Specification *)

(** The digits of [x] in base [b], least significant first. *)
Fixpoint rdigits (fuel : nat) (b x : Z) : list Z :=
  match fuel with
  | O => []
  | S n => if x =? 0 then [] else digit_char (x mod b) :: rdigits n b (x / b)
  end.

(** The numeral [itoa] writes. *)
Definition numeral (b x : Z) : list Z :=
  if x =? 0 then [48] else reverse (rdigits 32 b x).

Fixpoint render (format : list Z) (args : list arg) : option (list Z) :=
  match format with
  | [] => Some []
  | c :: rest =>
      if c =? 37 then
        match rest with
        | [] => Some []
        | k :: rest' =>
            if k =? 120 then
              match args with AInt x :: a' => app (numeral 16 x) <$> render rest' a' | _ => None end
            else if k =? 100 then
              match args with AInt x :: a' => app (numeral 10 x) <$> render rest' a' | _ => None end
            else if k =? 115 then
              match args with
              | AStr buf off :: a' =>
                  match strlen buf off with
                  | Ok n => app (take (Z.to_nat n) (drop (Z.to_nat off) buf)) <$> render rest' a'
                  | Err _ => None
                  end
              | _ => None
              end
            else if k =? 99 then
              match args with AInt x :: a' => cons (u8 x) <$> render rest' a' | _ => None end
            else render rest' args
        end
      else cons c <$> render rest args
  end.

(** ** Lemmas: itoa *)

Lemma aget_app (pre : list Z) x post i : i = zlen pre -> aget (pre ++ x :: post) i = Ok x.
Proof. intros ->. apply aget_mid. Qed.

Lemma aset_app (pre : list Z) x y post i : i = zlen pre ->
  aset (pre ++ x :: post) i y = Ok (pre ++ y :: post).
Proof. intros ->. apply aset_mid. Qed.

Lemma itoa_digits_ok b : 2 <= b -> forall n pre fuel x post dn mid, (n < fuel)%nat ->
  0 <= x < 2 ^ Z.of_nat n -> length mid = length (rdigits n b x) ->
  itoa_digits fuel (pre ++ dn ++ mid ++ post) (zlen pre) (zlen dn) x b
  = Ok (pre ++ dn ++ rdigits n b x ++ post, zlen dn + zlen (rdigits n b x)).
Proof.
  intros Hb n pre. induction n as [|n IH]; intros [|fuel] x post dn mid Hf Hx Hl; try lia.
  - assert (x = 0) as -> by (cbn in Hx; lia). cbn [rdigits] in *.
    destruct mid; [|done]. cbn. by rewrite zlen_nil, Z.add_0_r.
  - cbn [rdigits] in *. cbn [itoa_digits]. destruct (Z.eqb_spec x 0) as [->|Hne].
    { destruct mid; [|done]. by rewrite zlen_nil, Z.add_0_r. }
    decide_bool. destruct mid as [|m mid]; [done|]. cbn [app]. rewrite (app_assoc pre dn).
    rewrite (bindR_ok _ _ _ (aset_app (pre ++ dn) m _ _ _ (eq_sym (zlen_app pre dn)))).
    rewrite <- (zlen_snoc dn (digit_char (x mod b))).
    replace ((pre ++ dn) ++ digit_char (x mod b) :: mid ++ post)
      with (pre ++ (dn ++ [digit_char (x mod b)]) ++ mid ++ post) by (by rewrite <- !app_assoc).
    rewrite IH.
    + rewrite zlen_snoc, zlen_cons, <- !app_assoc. do 2 f_equal. lia.
    + lia.
    + rewrite Nat2Z.inj_succ, Z.pow_succ_r in Hx by lia. split; [apply Z.div_pos; lia|].
      apply Z.div_lt_upper_bound; nia.
    + cbn in Hl. lia.
Qed.

Lemma itoa_reverse_ok n : forall pre A m B post,
  length A = length B -> (length m / 2 = n)%nat ->
  itoa_reverse n (pre ++ A ++ m ++ B ++ post) (zlen pre) (zlen A) (zlen (A ++ m ++ B))
  = Ok (pre ++ A ++ reverse m ++ B ++ post).
Proof.
  induction n as [|n IH]; intros pre A m B post HAB Hm; cbn [itoa_reverse].
  - apply Nat.div_small_iff in Hm; [|lia]. do 3 f_equal.
    destruct m as [|x [|y m]]; cbn in Hm; try lia; done.
  - destruct m as [|x m]; [done|]. destruct m as [|y m _] using rev_ind; [done|].
    assert (Ex : zlen pre + zlen A = zlen (pre ++ A)) by (by rewrite zlen_app).
    assert (Ey : zlen pre + (zlen (A ++ (x :: m ++ [y]) ++ B) - 1 - zlen A)
      = zlen (pre ++ A ++ x :: m)).
    { rewrite !zlen_app, !zlen_cons, !zlen_app. unfold zlen. rewrite HAB. cbn. lia. }
    rewrite Ex, Ey.
    assert (L1 : forall u v, pre ++ A ++ (u :: m ++ [v]) ++ B ++ post
      = (pre ++ A) ++ u :: m ++ v :: B ++ post) by (intros; by rewrite <- !app_assoc; cbn; rewrite <- app_assoc).
    assert (L2 : forall u v, (pre ++ A) ++ u :: m ++ v :: B ++ post
      = (pre ++ A ++ u :: m) ++ v :: B ++ post) by (intros; rewrite <- !app_assoc; done).
    rewrite L1, (bindR_ok _ _ _ (aget_app _ _ _ _ eq_refl)), L2,
      (bindR_ok _ _ _ (aget_app _ _ _ _ eq_refl)), <- L2,
      (bindR_ok _ _ _ (aset_app _ _ _ _ _ eq_refl)), L2.
    erewrite bindR_ok by (apply aset_app; by rewrite !zlen_app, !zlen_cons).
    assert (L3 : (pre ++ A ++ y :: m) ++ x :: B ++ post
      = pre ++ (A ++ [y]) ++ m ++ (x :: B) ++ post) by (by rewrite <- !app_assoc).
    rewrite L3. replace (zlen A + 1) with (zlen (A ++ [y])) by (by rewrite zlen_snoc).
    replace (zlen (A ++ (x :: m ++ [y]) ++ B)) with (zlen ((A ++ [y]) ++ m ++ x :: B))
      by (rewrite !zlen_app, !zlen_cons, !zlen_app, zlen_cons, zlen_nil; lia).
    rewrite IH.
    + rewrite reverse_cons, reverse_app, <- !app_assoc. done.
    + rewrite length_app. cbn. lia.
    + cbn [length] in Hm. rewrite length_app in Hm. cbn [length] in Hm.
      replace (S (length m + 1)) with (length m + 1 * 2)%nat in Hm by lia.
      rewrite Nat.div_add in Hm by lia. lia.
Qed.

Lemma itoa_ok pre mid post x b : 2 <= b -> 0 <= x < 2 ^ 32 ->
  length mid = S (length (numeral b x)) ->
  itoa (pre ++ mid ++ post) (zlen pre) x b = Ok (pre ++ numeral b x ++ 0 :: post).
Proof.
  intros Hb Hx Hl. unfold itoa, numeral in *. destruct (Z.eqb_spec x 0) as [->|Hne].
  - destruct mid as [|a [|a' [|]]]; try done. cbn [app].
    rewrite (bindR_ok _ _ _ (aset_mid pre a 48 _)). erewrite bindR_ok by done.
    cbn [itoa_digits]. change ((0 =? 0)) with true. cbv iota.
    erewrite bindR_ok by done. rewrite (snoc_shift pre).
    rewrite (bindR_ok _ _ _ (aset_app _ _ _ _ _ (eq_sym (zlen_snoc pre 48)))).
    by rewrite <- snoc_shift.
  - rewrite length_reverse in Hl. set (ds := rdigits 32 b x) in *.
    destruct mid as [|z mid _] using rev_ind; [done|]. rewrite length_app in Hl. cbn [length] in Hl.
    erewrite bindR_ok by done.
    pose proof (itoa_digits_ok b Hb 32 pre 33 x ([z] ++ post) [] mid ltac:(lia) Hx ltac:(fold ds; lia)) as E.
    cbn [app] in E. rewrite <- app_assoc. cbn [app]. rewrite (bindR_ok _ _ _ E). fold ds.
    rewrite zlen_nil, Z.add_0_l, (app_assoc pre ds).
    rewrite (bindR_ok _ _ _ (aset_app (pre ++ ds) _ _ _ _ (eq_sym (zlen_app pre ds)))).
    rewrite <- app_assoc.
    pose proof (itoa_reverse_ok (length ds / 2) pre [] ds [] (0 :: post) eq_refl eq_refl) as R.
    cbn [app] in R. rewrite app_nil_r in R. change (zlen []) with 0 in R. rewrite <- R. f_equal.
    unfold zlen. rewrite <- (Nat2Z.inj_div _ 2). apply Nat2Z.id.
Qed.

(** ** Lemmas: numerals *)

Lemma digit_char_range d : 0 <= d < 36 -> 48 <= digit_char d <= 90.
Proof. intros Hd. unfold digit_char, u8. destruct (Z.leb_spec d 9); rewrite Z.mod_small; lia. Qed.

Lemma rdigits_forall b n : 2 <= b <= 36 -> forall x, 0 <= x ->
  Forall (fun c => 48 <= c <= 90) (rdigits n b x).
Proof.
  intros Hb. induction n as [|n IH]; intros x Hx; cbn [rdigits]; [constructor|].
  destruct (x =? 0); [constructor|]. pose proof (Z.mod_pos_bound x b ltac:(lia)).
  constructor; [apply digit_char_range; lia | apply IH, Z.div_pos; lia].
Qed.

Lemma numeral_chars b x : 2 <= b <= 36 -> 0 <= x -> Forall (fun c => 48 <= c <= 90) (numeral b x).
Proof.
  intros Hb Hx. unfold numeral. destruct (x =? 0); [repeat constructor; lia|].
  apply Forall_reverse. by apply rdigits_forall.
Qed.

Lemma rdigits_length n b : forall x, (length (rdigits n b x) <= n)%nat.
Proof.
  induction n as [|n IH]; intros x; cbn [rdigits]; [done|].
  destruct (x =? 0); cbn [length]; [lia|]. specialize (IH (x / b)). lia.
Qed.

Lemma numeral_length b x : 0 <= x -> zlen (numeral b x) <= 32.
Proof.
  intros Hx. unfold numeral, zlen. destruct (x =? 0); [cbn; lia|]. rewrite length_reverse.
  pose proof (rdigits_length 32 b x). lia.
Qed.

Lemma numeral_nonzero b x : 2 <= b <= 36 -> 0 <= x -> Forall (fun c => c <> 0) (numeral b x).
Proof. intros. eapply Forall_impl; [by apply numeral_chars|]. cbn. lia. Qed.

(** Reading a digit in the range of [itoa]. *)
Lemma step_digit v d : 0 <= d < 36 ->
  s_to_uint_step v (digit_char d) = u32 (v * 10 + d).
Proof.
  intros Hd. pose proof (digit_char_range d Hd). unfold s_to_uint_step.
  rewrite schar_small by lia. unfold digit_char, u8 in *.
  destruct (Z.leb_spec d 9); rewrite Z.mod_small in * by lia; decide_bool; f_equal; lia.
Qed.

Lemma s_to_uint_loop_ok s : forall l p x, cstr l p s ->
  s_to_uint_loop (length s) l p x = Ok (fold_left s_to_uint_step s x).
Proof.
  induction s as [|c s IH]; intros l p x Hc; [done|]. cbn [length s_to_uint_loop fold_left].
  rewrite (bindR_ok _ _ _ (cstr_head _ _ _ _ Hc)). apply IH. by apply cstr_cons in Hc as [_ Hc].
Qed.

Lemma s_to_uint_ok l s : cstr l 0 s -> zlen s < 4294967296 ->
  s_to_uint l = Ok (fold_left s_to_uint_step s 0).
Proof.
  intros Hc Hl. unfold s_to_uint. rewrite (bindR_ok _ _ _ (strlen_ok _ _ _ Hc)).
  rewrite u32_small, to_nat_zlen by (pose proof (zlen_nonneg s); lia). by apply s_to_uint_loop_ok.
Qed.

(** The value [s_to_uint] gives to the digits of a numeral. *)
Definition read_digits (n : nat) (b x : Z) : Z :=
  fold_right (fun c acc => s_to_uint_step acc c) 0 (rdigits n b x).

Lemma read_numeral b x : 0 <= x -> fold_left s_to_uint_step (numeral b x) 0 = read_digits 32 b x.
Proof.
  intros Hx. unfold numeral, read_digits. destruct (Z.eqb_spec x 0) as [->|]; [done|].
  unfold reverse. rewrite <- rev_alt. by rewrite <- fold_left_rev_right, rev_involutive.
Qed.

Lemma read_digits_10 n : forall x, 0 <= x < 2 ^ Z.of_nat n -> x < 4294967296 ->
  read_digits n 10 x = x.
Proof.
  unfold read_digits. induction n as [|n IH]; intros x Hx Hb.
  { cbn in *. lia. }
  cbn [rdigits]. destruct (Z.eqb_spec x 0) as [->|Hne]; [done|]. cbn [fold_right].
  rewrite Nat2Z.inj_succ, Z.pow_succ_r in Hx by lia.
  rewrite step_digit, IH by zarith. rewrite u32_small by zarith. zarith.
Qed.

Lemma read_digits_16 n : forall x, 0 <= x < 2 ^ Z.of_nat n -> x < 4294967296 ->
  0 <= read_digits n 16 x <= x /\ (16 <= x -> read_digits n 16 x < x) /\
  (x < 16 -> read_digits n 16 x = x).
Proof.
  unfold read_digits. induction n as [|n IH]; intros x Hx Hb.
  { cbn in *. lia. }
  cbn [rdigits]. destruct (Z.eqb_spec x 0) as [->|Hne]; [cbn; lia|]. cbn [fold_right].
  rewrite Nat2Z.inj_succ, Z.pow_succ_r in Hx by lia.
  destruct (IH (x / 16)) as (B & S & E); [zarith..|].
  rewrite step_digit by zarith. rewrite u32_small by zarith.
  split; [zarith|]. split; [zarith|]. intros Hs. rewrite E by zarith. zarith.
Qed.

(** ** Lemmas: vsprintf *)

Definition arg_ok (a : arg) : Prop :=
  match a with
  | AInt x => 0 <= x < 4294967296
  | AStr buf off => exists s, cstr buf off s /\ zlen s < 4294967296
  end.

Lemma cstr_take buf off s : cstr buf off s ->
  take (Z.to_nat (zlen s)) (drop (Z.to_nat off) buf) = s.
Proof.
  intros (pre & post & -> & <- & _). rewrite !to_nat_zlen, drop_app_length.
  by rewrite take_app_length.
Qed.

Lemma strlen_app out post : Forall (fun c => c <> 0) out -> zlen out < 4294967296 ->
  strlen (out ++ 0 :: post) 0 = Ok (zlen out).
Proof.
  intros Ho Hl. rewrite (strlen_ok _ 0 out) by (exists [], post; done).
  rewrite u32_small; [done|]. pose proof (zlen_nonneg out). lia.
Qed.

(** Reading the format at a position inside it. *)
Lemma format_at format fmt fpre c rest : cstr format 0 fmt -> fmt = fpre ++ c :: rest ->
  aget format (zlen fpre) = Ok c.
Proof.
  intros (pre & post & -> & Hp & _) ->. destruct pre; [|rewrite zlen_cons in Hp; unfold zlen in Hp; lia].
  cbn [app]. rewrite <- app_assoc. apply aget_app. done.
Qed.

Lemma format_end format fmt : cstr format 0 fmt -> aget format (zlen fmt) = Ok 0.
Proof.
  intros (pre & post & -> & Hp & _). destruct pre; [|rewrite zlen_cons in Hp; unfold zlen in Hp; lia].
  by apply aget_app.
Qed.

Lemma fmap_Some_app {A} (w : list A) o out : app w <$> o = Some out ->
  exists out', o = Some out' /\ out = w ++ out'.
Proof. intros (out' & -> & ->)%fmap_Some. eauto. Qed.

Section vsprintf_proof.
Context (format fmt : list Z) (Hfmt : cstr format 0 fmt) (Hflen : zlen fmt < 4294967296).

Lemma format_len : strlen format 0 = Ok (zlen fmt).
Proof. rewrite (strlen_ok _ _ _ Hfmt). by rewrite u32_small by (pose proof (zlen_nonneg fmt); lia). Qed.

(** What the loop leaves: the rendered text, one byte for the terminator
    and the rest of the array. *)
Definition loop_result (r : res (list Z * Z)) (out0 out post : list Z) : Prop :=
  exists m, r = Ok (out0 ++ out ++ m :: post, zlen (out0 ++ out)).

Definition loop_good (fuel : nat) : Prop :=
  forall fpre rest args out0 mid post out,
    fmt = fpre ++ rest -> (length rest < fuel)%nat -> Forall arg_ok args ->
    render rest args = Some out -> Forall (fun c => c <> 0) (out0 ++ out) ->
    zlen (out0 ++ out) < 4294967296 -> length mid = S (length out) ->
    loop_result (vsprintf_loop fuel (out0 ++ mid ++ post) format (zlen fpre) (zlen out0) args)
      out0 out post.

(** One character goes into the output. *)
Lemma loop_char fuel c fpre rest args out0 mid post out : loop_good fuel ->
  fmt = fpre ++ rest -> (length rest < fuel)%nat -> Forall arg_ok args ->
  cons c <$> render rest args = Some out -> Forall (fun c => c <> 0) (out0 ++ out) ->
  zlen (out0 ++ out) < 4294967296 -> length mid = S (length out) ->
  loop_result (s ← aset (out0 ++ mid ++ post) (zlen out0) c;
    vsprintf_loop fuel s format (zlen fpre) (zlen out0 + 1) args) out0 out post.
Proof.
  intros IH Hf Hl Ha (out' & Hr & ->)%fmap_Some Hnz Hlen Hm.
  destruct mid as [|m mid]; [done|]. cbn [app].
  rewrite (bindR_ok _ _ _ (aset_mid out0 m c _)), <- (zlen_snoc out0 c), snoc_shift.
  rewrite (snoc_shift out0 c out') in Hnz, Hlen.
  destruct (IH fpre rest args (out0 ++ [c]) mid post out') as (m' & E); try done.
  { cbn in Hm. lia. }
  exists m'. rewrite E, <- !app_assoc. done.
Qed.

(** A terminated string goes into the output. *)
Lemma loop_str fuel w (put : list Z -> res (list Z)) fpre rest args out0 mid post out :
  loop_good fuel -> fmt = fpre ++ rest -> (length rest < fuel)%nat -> Forall arg_ok args ->
  app w <$> render rest args = Some out ->
  (forall mid1 post1, length mid1 = S (length w) ->
    put (out0 ++ mid1 ++ post1) = Ok (out0 ++ w ++ 0 :: post1)) ->
  Forall (fun c => c <> 0) (out0 ++ out) ->
  zlen (out0 ++ out) < 4294967296 -> length mid = S (length out) ->
  loop_result (s ← put (out0 ++ mid ++ post); len ← strlen s 0;
    vsprintf_loop fuel s format (zlen fpre) len args) out0 out post.
Proof.
  intros IH Hf Hl Ha (out' & Hr & ->)%fmap_Some_app Hput Hnz Hlen Hm. rewrite length_app in Hm.
  rewrite <- (take_drop (S (length w)) mid), <- app_assoc.
  erewrite bindR_ok by (apply Hput; rewrite length_take; lia).
  rewrite (app_assoc out0 w out') in Hnz, Hlen. rewrite (app_assoc out0 w).
  erewrite bindR_ok.
  2:{ apply strlen_app; [by apply Forall_app in Hnz as [? _]|].
      rewrite zlen_app in Hlen. pose proof (zlen_nonneg out'). lia. }
  destruct (IH fpre rest args (out0 ++ w) (0 :: drop (S (length w)) mid) post out')
    as (m & E); try done.
  { cbn [length]. rewrite length_drop. lia. }
  exists m. cbn [app] in E. rewrite E, <- !app_assoc. done.
Qed.

Lemma loop_done fuel i out0 mid post : (0 < fuel)%nat -> zlen fmt <= i -> length mid = 1%nat ->
  forall args, loop_result (vsprintf_loop fuel (out0 ++ mid ++ post) format i (zlen out0) args)
    out0 [] post.
Proof.
  intros Hf Hi Hm args. destruct fuel; [lia|]. cbn [vsprintf_loop].
  rewrite (bindR_ok _ _ _ format_len). decide_bool.
  destruct mid as [|m [|]]; try done. exists m. by rewrite app_nil_r.
Qed.

Lemma loop_step fuel : loop_good fuel -> loop_good (S fuel).
Proof.
  intros IH fpre rest args out0 mid post out Hf Hfuel Hargs Hr Hnz Hlen Hm.
  destruct rest as [|c rest].
  { injection Hr as <-. apply loop_done; [lia| |done]. rewrite Hf, app_nil_r. done. }
  cbn [vsprintf_loop]. rewrite (bindR_ok _ _ _ format_len).
  assert (Hi : zlen fpre < zlen fmt) by (rewrite Hf, zlen_app, zlen_cons; unfold zlen; lia).
  rewrite (proj2 (Z.ltb_lt _ _) Hi). cbn [negb].
  rewrite (bindR_ok _ _ _ (format_at _ _ _ _ _ Hfmt Hf)).
  cbn [render] in Hr. destruct (Z.eqb_spec c 37) as [->|Hc].
  2:{ rewrite <- (zlen_snoc fpre c). apply (loop_char fuel c _ rest); try done;
      [by rewrite Hf, <- snoc_shift | cbn in Hfuel; lia]. }
  rewrite <- (zlen_snoc fpre 37). destruct rest as [|k rest].
  { rewrite <- Hf, (bindR_ok _ _ _ (format_end _ _ Hfmt)). injection Hr as <-.
    apply loop_done; [cbn in Hfuel; lia|rewrite Hf, zlen_snoc; lia|done]. }
  assert (Hf2 : fmt = (fpre ++ [37; k]) ++ rest) by (by rewrite Hf, <- app_assoc).
  assert (Hf1 : fmt = (fpre ++ [37]) ++ k :: rest) by (by rewrite Hf, <- app_assoc).
  rewrite (bindR_ok _ _ _ (format_at _ _ _ _ _ Hfmt Hf1)).
  assert (Hi2 : zlen fpre + 2 = zlen (fpre ++ [37; k])) by (by rewrite zlen_app).
  rewrite Hi2. assert (Hl2 : (length rest < fuel)%nat) by (cbn in Hfuel; lia).
  destruct (Z.eqb_spec k 120) as [->|N1]; [|destruct (Z.eqb_spec k 100) as [->|N2]]; cbn [orb].
  1,2: destruct args as [|[x|] args]; try done; apply Forall_cons in Hargs as [Hx Ha]; cbn in Hx;
    eapply (loop_str fuel (numeral _ x) (fun s => itoa s (zlen out0) x _)); try done;
    intros; apply itoa_ok; by try lia.
  destruct (Z.eqb_spec k 115) as [->|N3].
  { destruct args as [|[|buf off] args]; try done. apply Forall_cons in Hargs as [(s & Hs & Hsl) Ha].
    rewrite (strlen_ok _ _ _ Hs), u32_small in Hr by (pose proof (zlen_nonneg s); lia).
    rewrite (cstr_take _ _ _ Hs) in Hr.
    eapply (loop_str fuel s (fun t => strcpy t (zlen out0) buf off)); try done.
    intros. rewrite (strcpy_ok buf off s) by done. by rewrite <- !app_assoc. }
  destruct (Z.eqb_spec k 99) as [->|N4]; [|by apply (IH _ rest)].
  destruct args as [|[x|] args]; try done. apply Forall_cons in Hargs as [Hx Ha].
  by eapply loop_char.
Qed.

Lemma vsprintf_loop_ok fuel : loop_good fuel.
Proof. induction fuel as [|fuel IH]; [intros ? **; lia | by apply loop_step]. Qed.

Lemma vsprintf_ok args mid post out : Forall arg_ok args ->
  render fmt args = Some out -> Forall (fun c => c <> 0) out -> zlen out < 4294967296 ->
  length mid = S (length out) ->
  vsprintf (mid ++ post) format args = Ok (out ++ 0 :: post, zlen out).
Proof.
  intros Ha Hr Hnz Hl Hm.
  destruct (vsprintf_loop_ok (S (length format)) [] fmt args [] mid post out) as (m & E); try done.
  { apply cstr_fuel in Hfmt. lia. }
  unfold vsprintf. cbn [app] in E. rewrite (bindR_ok _ _ _ E).
  rewrite (bindR_ok _ _ _ (aset_mid out m 0 post)).
  by rewrite (bindR_ok _ _ _ (strlen_app out post Hnz Hl)).
Qed.
End vsprintf_proof.

(** ** Properties *)

(** C37. [vsprintf] writes exactly the rendering of the format: literal
    characters, base-16 and base-10 numerals, strings and characters, then a
    NUL; it returns the length and leaves the rest of the array alone, so an
    array of the rendered length plus one is enough. *)
Theorem vsprintf_renders (format fmt : list Z) (args : list arg) (mid post out : list Z) :
  cstr format 0 fmt -> zlen fmt < 4294967296 -> Forall arg_ok args ->
  render fmt args = Some out -> Forall (fun c => c <> 0) out -> zlen out < 4294967296 ->
  length mid = S (length out) ->
  vsprintf (mid ++ post) format args = Ok (out ++ 0 :: post, zlen out).
Proof. intros Hf Hl. by apply vsprintf_ok with (fmt := fmt). Qed.

(** ["a%d:%x%s"] with 42, 255 and "ok". *)
Lemma vsprintf_renders_witness :
  vsprintf (replicate 12 7 ++ [8; 9]) [97; 37; 100; 58; 37; 120; 37; 115; 0]
    [AInt 42; AInt 255; AStr [111; 107; 0; 5] 0]
  = Ok ([97; 52; 50; 58; 70; 70; 111; 107] ++ 0 :: [7; 7; 7; 8; 9], 8).
Proof.
  apply (vsprintf_renders _ [97; 37; 100; 58; 37; 120; 37; 115] _ (replicate 9 7) ([7; 7; 7; 8; 9])).
  - exists [], []. split; [reflexivity|]. split; [reflexivity|]. repeat constructor; lia.
  - reflexivity.
  - repeat constructor; try lia. exists [111; 107]. split; [|reflexivity].
    exists [], [5]. split; [reflexivity|]. split; [reflexivity|]. repeat constructor; lia.
  - vm_compute. reflexivity.
  - repeat constructor; lia.
  - reflexivity.
  - reflexivity.
Defined.

(** Printing a 32-bit number in base 10 with [itoa] and reading the array
    with [s_to_uint] gives the number back. *)
Theorem itoa_decimal_roundtrip (x : Z) (mid post : list Z) :
  0 <= x < 2 ^ 32 -> length mid = S (length (numeral 10 x)) ->
  exists s, itoa (mid ++ post) 0 x 10 = Ok s /\ s_to_uint s = Ok x.
Proof.
  intros Hx Hm. pose proof (itoa_ok [] mid post x 10 ltac:(lia) Hx Hm) as E.
  exists (numeral 10 x ++ 0 :: post). split; [exact E|].
  rewrite (s_to_uint_ok _ (numeral 10 x)).
  - rewrite read_numeral by lia. by rewrite read_digits_10 by (cbn; lia).
  - exists [], post. split; [done|]. split; [done|]. apply numeral_nonzero; lia.
  - pose proof (numeral_length 10 x ltac:(lia)). lia.
Qed.

Lemma itoa_decimal_roundtrip_witness :
  exists s, itoa (replicate 11 1 ++ []) 0 4294967295 10 = Ok s /\ s_to_uint s = Ok 4294967295.
Proof. apply (itoa_decimal_roundtrip 4294967295 (replicate 11 1) []); [lia | reflexivity]. Defined.

(** [s_to_uint], which [vscanf] also uses for [%x], multiplies by 10
    whatever the base: a number printed in base 16 reads back as itself only
    when it has one digit, and as a smaller number otherwise. *)
Theorem itoa_hex_not_read_back (x : Z) (mid post : list Z) :
  0 <= x < 2 ^ 32 -> length mid = S (length (numeral 16 x)) ->
  exists s v, itoa (mid ++ post) 0 x 16 = Ok s /\ s_to_uint s = Ok v /\
    (v = x <-> x < 16) /\ (16 <= x -> v < x).
Proof.
  intros Hx Hm. pose proof (itoa_ok [] mid post x 16 ltac:(lia) Hx Hm) as E.
  exists (numeral 16 x ++ 0 :: post), (read_digits 32 16 x). split; [exact E|].
  destruct (read_digits_16 32 x) as (B & S & T); [cbn; lia | lia |]. split; [|lia].
  rewrite (s_to_uint_ok _ (numeral 16 x)).
  - by rewrite read_numeral by lia.
  - exists [], post. split; [done|]. split; [done|]. apply numeral_nonzero; lia.
  - pose proof (numeral_length 16 x ltac:(lia)). lia.
Qed.

Lemma itoa_hex_not_read_back_witness :
  exists s v, itoa (replicate 5 1 ++ []) 0 0xBEEF 16 = Ok s /\ s_to_uint s = Ok v /\ v < 0xBEEF.
Proof.
  destruct (itoa_hex_not_read_back 0xBEEF (replicate 5 1) []) as (s & v & E & V & _ & L);
    [lia | reflexivity |].
  exists s, v. split; [exact E|]. split; [exact V|]. apply L. lia.
Defined.
