(* ===== verification/Names.v ===== *)
(** * Names: file names, dates and paths of the file system

    The pure string functions of filesystem/file.c and filesystem/fsfunc.c.
    Every [char] array is passed as a buffer and handed back as it is after
    the call; an index outside of it is a fault. *)

From Stdlib Require Import String Ascii.
From S2P Require Import Prelude CString Disk.

(** The characters of a literal, and the literal as a C string. *)
Definition lit (s : string) : list Z := map (fun c => Z.of_N (N_of_ascii c)) (list_ascii_of_string s).
Definition cs (s : string) : list Z := lit s ++ [0].

(** ** Dates and times of a directory entry *)

Definition generate_date (year month day : Z) : Z :=
  u16 (Z.shiftl (year - 1980) 9 + Z.shiftl month 5 + day).

Definition generate_time (hour minute : Z) : Z := u16 (Z.shiftl hour 11 + Z.shiftl minute 5).

(** The fields [file_print_time] and [file_print_date] extract. *)
Definition time_fields (x : Z) : Z * Z :=
  (Z.shiftr (Z.land x 0xF800) 11, Z.shiftr (Z.land x 0x07E0) 5).
Definition date_fields (x : Z) : Z * Z * Z :=
  (Z.shiftr (Z.land x 0xFE00) 9 + 1980, Z.shiftr (Z.land x 0x01E0) 5, Z.land x 0x001F).

(** ** The 8.3 form of a name *)

(** [for (i = 0; i < strlen(name); i++)]: upper case in place, characters
    before the first dot to [fst], after it to [ext], dots dropped. *)
Fixpoint generate_split (fuel : nat) (name fst ext : list Z) (i fst_len ext_len : Z) (dot : bool)
    : res (list Z * list Z * list Z * Z * Z) :=
  match fuel with
  | O => Err OutOfFuel
  | S n =>
      sl ← strlen name 0;
      if negb (i <? sl) then Ok (name, fst, ext, fst_len, ext_len)
      else
        c ← aget name i;
        if c =? 46 then generate_split n name fst ext (i + 1) fst_len ext_len true
        else
          name ← (if (97 <=? schar c) && (schar c <=? 122) then aset name i (u8 (schar c - 97 + 65))
                  else Ok name);
          c ← aget name i;
          if negb dot then
            fst ← aset fst fst_len c;
            generate_split n name fst ext (i + 1) (fst_len + 1) ext_len dot
          else
            ext ← aset ext ext_len c;
            generate_split n name fst ext (i + 1) fst_len (ext_len + 1) dot
  end.

(** [for (i = 0; i < n; i++) filename[filename_len++] = src[i]]. *)
Fixpoint copy_chars (n : nat) (filename : list Z) (filename_len : Z) (src : list Z) (i : Z)
    : res (list Z * Z) :=
  match n with
  | O => Ok (filename, filename_len)
  | S n' =>
      c ← aget src i;
      filename ← aset filename filename_len c;
      copy_chars n' filename (filename_len + 1) src (i + 1)
  end.

(** [while (filename_len < k) filename[filename_len++] = ' ']. *)
Fixpoint pad_spaces (n : nat) (filename : list Z) (filename_len : Z) : res (list Z * Z) :=
  match n with
  | O => Ok (filename, filename_len)
  | S n' =>
      filename ← aset filename filename_len 32;
      pad_spaces n' filename (filename_len + 1)
  end.

Definition generate_filename (name filename : list Z) : res (list Z * list Z) :=
  d1 ← strcmp name 0 (cs ".") 0;
  if d1 =? 0 then
    filename ← strcpy filename 0 (cs ".          ") 0; Ok (name, filename)
  else
    d2 ← strcmp name 0 (cs "..") 0;
    if d2 =? 0 then
      filename ← strcpy filename 0 (cs "..         ") 0; Ok (name, filename)
    else
      '(name, fst, ext, fst_len, ext_len) ←
        generate_split (S (length name)) name (replicate 30 0) (replicate 30 0) 0 0 0 false;
      '(filename, filename_len) ← copy_chars (Z.to_nat (min fst_len 8)) filename 0 fst 0;
      '(filename, filename_len) ← pad_spaces (Z.to_nat (8 - filename_len)) filename filename_len;
      '(filename, filename_len) ← copy_chars (Z.to_nat (min ext_len 3)) filename filename_len ext 0;
      '(filename, filename_len) ← pad_spaces (Z.to_nat (11 - filename_len)) filename filename_len;
      filename ← aset filename filename_len 0;
      Ok (name, filename).

(** ** Paths *)

Definition to_upper (c : Z) : Z :=
  if (97 <=? schar c) && (schar c <=? 122) then u8 (schar c - 97 + 65) else c.

Fixpoint standard_loop (fuel : nat) (s dirPath : list Z) (i len : Z) : res (list Z * Z) :=
  match fuel with
  | O => Err OutOfFuel
  | S n =>
      sl ← strlen dirPath 0;
      if negb (i <? sl) then Ok (s, len)
      else
        c ← aget dirPath i;
        if (i =? sl - 1) && (c =? 47) then standard_loop n s dirPath (i + 1) len
        else
          s ← aset s len (to_upper c);
          standard_loop n s dirPath (i + 1) (len + 1)
  end.

Definition standard_dir_path (s dirPath : list Z) : res (list Z) :=
  d ← strcmp dirPath 0 (cs "/") 0;
  if d =? 0 then strcpy s 0 dirPath 0
  else
    '(s, len) ← standard_loop (S (length dirPath)) s dirPath 0 0;
    aset s len 0.

(** First loop of [divede_path]; returns where it stopped. *)
Fixpoint divide_first (fuel : nat) (dirPath fstDir : list Z) (i fst_len : Z) : res (list Z * Z * Z) :=
  match fuel with
  | O => Err OutOfFuel
  | S n =>
      sl ← strlen dirPath 0;
      if negb (i <? sl) then Ok (fstDir, i, fst_len)
      else
        c ← aget dirPath i;
        if c =? 47 then Ok (fstDir, i, fst_len)
        else
          fstDir ← aset fstDir fst_len c;
          divide_first n dirPath fstDir (i + 1) (fst_len + 1)
  end.

(** [for (i = ...; i < strlen(dirPath); i++) resPath[res_len++] = dirPath[i]]. *)
Fixpoint copy_rest (fuel : nat) (dirPath resPath : list Z) (i res_len : Z) : res (list Z * Z) :=
  match fuel with
  | O => Err OutOfFuel
  | S n =>
      sl ← strlen dirPath 0;
      if negb (i <? sl) then Ok (resPath, res_len)
      else
        c ← aget dirPath i;
        resPath ← aset resPath res_len c;
        copy_rest n dirPath resPath (i + 1) (res_len + 1)
  end.

Definition divede_path (dirPath fstDir resPath : list Z) : res (list Z * list Z) :=
  '(fstDir, i, fst_len) ← divide_first (S (length dirPath)) dirPath fstDir 0 0;
  '(resPath, res_len) ← copy_rest (S (length dirPath)) dirPath resPath (i + 1) 0;
  fstDir ← aset fstDir fst_len 0;
  resPath ← aset resPath res_len 0;
  Ok (fstDir, resPath).

(** [for (i = strlen(p) - 1; i >= 0; i--) if (p[i] == '/') break;] with [n] the
    number of indices left; the index where it stopped, or -1. *)
Fixpoint last_slash (n : nat) (p : list Z) : res Z :=
  match n with
  | O => Ok (-1)
  | S i => c ← aget p (Z.of_nat i); if c =? 47 then Ok (Z.of_nat i) else last_slash i p
  end.

(** [for (j = 0; j < n; j++) dst[len++] = src[j]] from [j] on. *)
Definition copy_prefix (n : nat) (dst src : list Z) : res (list Z * Z) := copy_chars n dst 0 src 0.

(** [fa_dir_path(path, path)], the only call: both arguments are one array, so
    the copy reads what it writes. *)
Definition fa_dir_path (path : list Z) : res (list Z) :=
  sl ← strlen path 0;
  i ← last_slash (Z.to_nat sl) path;
  let len := Z.max 0 i in
  '(path, len) ← (if len =? 0 then p ← aset path 0 47; Ok (p, 1) else Ok (path, len));
  aset path len 0.

(** [memset(dirPath, 0, sizeof(dirPath))] clears the size of a pointer. *)
Definition file_path_to_dir_path (filePath dirPath filename : list Z) : res (list Z * list Z) :=
  dirPath ← memset dirPath 0 0 4;
  filename ← memset filename 0 0 4;
  sl ← strlen filePath 0;
  i ← last_slash (Z.to_nat sl) filePath;
  let s := replicate 50 0 in
  '(s, len) ← copy_prefix (Z.to_nat i) s filePath;
  s ← aset s len 0;
  dirPath ← standard_dir_path dirPath s;
  '(s, len) ← copy_rest (S (length filePath)) filePath s (i + 1) 0;
  s ← aset s len 0;
  '(_, filename) ← generate_filename s filename;
  Ok (dirPath, filename).

(** ** Specification of names *)

Open Scope Z_scope.

(** Characters before the first dot and after it, in upper case, without dots. *)
Fixpoint split83 (dot : bool) (s : list Z) : list Z * list Z :=
  match s with
  | [] => ([], [])
  | c :: s' =>
      if c =? 46 then split83 true s'
      else let '(b, e) := split83 dot s' in
           if dot then (b, to_upper c :: e) else (to_upper c :: b, e)
  end.

(** At most [k] characters, filled up with spaces. *)
Definition field (k : nat) (l : list Z) : list Z := take k l ++ replicate (k - length l) 32.

Definition name83 (s : list Z) : list Z :=
  let '(b, e) := split83 false s in field 8 b ++ field 3 e.

Lemma field_length k l : length (field k l) = k.
Proof. unfold field. rewrite length_app, length_take, length_replicate. lia. Qed.

Lemma name83_length s : length (name83 s) = 11%nat.
Proof. unfold name83. destruct (split83 false s). by rewrite length_app, !field_length. Qed.

(** ** The functions compute the specification *)

Definition nonul (s : list Z) : Prop := Forall (fun c => c <> 0) s.

Lemma to_upper_byte c : is_byte c -> is_byte (to_upper c) /\ (c <> 0 -> to_upper c <> 0).
Proof.
  unfold is_byte, to_upper. intros Hc. destruct (_ && _) eqn:E; [|done]. bool_prop.
  unfold u8. unwrap. zarith.
Qed.

Lemma upper_nonul s : bytes s -> nonul s -> nonul (map to_upper s).
Proof.
  intros Hb Hn. induction s as [|c s IH]; [constructor|].
  apply Forall_cons in Hb as [Hc Hb]. apply Forall_cons in Hn as [Hz Hn]. cbn. constructor; [|by apply IH].
  by apply to_upper_byte.
Qed.

Lemma strlen_terminated s post : nonul s -> zlen s < 4294967296 -> strlen (s ++ 0 :: post) 0 = Ok (zlen s).
Proof.
  intros Hs Hl. rewrite (strlen_ok _ _ s) by (by exists [], post).
  rewrite u32_small; [done|]. pose proof (zlen_nonneg s). lia.
Qed.

Lemma zlen_map {A B} (f : A -> B) l : zlen (map f l) = zlen l.
Proof. unfold zlen. by rewrite length_map. Qed.

Lemma generate_split_ok todo : forall fuel done post fa fz ea ez dot,
  bytes (done ++ todo) -> nonul (done ++ todo) -> zlen (done ++ todo) < 4294967296 ->
  (length todo < fuel)%nat ->
  (length (split83 dot todo).1 <= length fz)%nat -> (length (split83 dot todo).2 <= length ez)%nat ->
  generate_split fuel (map to_upper done ++ todo ++ 0 :: post) (fa ++ fz) (ea ++ ez)
      (zlen done) (zlen fa) (zlen ea) dot
  = let '(b, e) := split83 dot todo in
    Ok (map to_upper (done ++ todo) ++ 0 :: post, (fa ++ b) ++ drop (length b) fz,
        (ea ++ e) ++ drop (length e) ez, zlen (fa ++ b), zlen (ea ++ e)).
Proof.
  induction todo as [|c todo IH]; intros fuel done post fa fz ea ez dot Hb Hn Hl Hf Hfz Hez;
    (destruct fuel as [|fuel]; [cbn in Hf; lia|]); cbn [generate_split].
  - rewrite app_nil_r in Hb, Hn, Hl |- *. cbn [app].
    rewrite (bindR_ok _ _ _ (strlen_terminated _ post (upper_nonul _ Hb Hn) ltac:(by rewrite zlen_map))).
    rewrite zlen_map, Z.ltb_irrefl. cbn. by rewrite !app_nil_r.
  - assert (Hn' : nonul (map to_upper done ++ c :: todo)).
    { unfold nonul in *. rewrite Forall_app in Hn |- *. destruct Hn. split; [|done].
      apply Forall_app in Hb as [Hb _]. by apply upper_nonul. }
    assert (Hl' : zlen (map to_upper done ++ c :: todo) = zlen done + 1 + zlen todo)
      by (rewrite zlen_app, zlen_map, zlen_cons; lia).
    assert (Hl2 : zlen (done ++ c :: todo) = zlen done + 1 + zlen todo) by (rewrite zlen_app, zlen_cons; lia).
    rewrite app_assoc, (bindR_ok _ _ _ (strlen_terminated _ post Hn' ltac:(lia))), Hl', <- app_assoc.
    pose proof (zlen_nonneg todo). rewrite (proj2 (Z.ltb_lt _ _)) by lia. cbn [negb app].
    rewrite <- (zlen_map to_upper done), (bindR_ok _ _ _ (aget_mid _ _ _)).
    assert (Hc : is_byte c) by (apply Forall_app in Hb as [_ Hb]; by apply Forall_cons in Hb as [Hb _]).
    specialize (IH fuel (done ++ [c]) post).
    rewrite !(map_app to_upper done [c]), !zlen_snoc, <- !app_assoc in IH. cbn [app map] in IH.
    cbn [split83] in Hfz, Hez |- *. destruct (c =? 46) eqn:Edot.
    + apply Z.eqb_eq in Edot. subst c. change (to_upper 46) with 46 in IH. rewrite zlen_map.
      rewrite IH by (done || (cbn in Hf; lia)).
      destruct (split83 true todo) as [b e]. rewrite map_app. done.
    + assert (Ename : (if (97 <=? schar c) && (schar c <=? 122)
          then aset (map to_upper done ++ c :: todo ++ 0 :: post) (zlen (map to_upper done)) (u8 (schar c - 97 + 65))
          else Ok (map to_upper done ++ c :: todo ++ 0 :: post))
          = Ok (map to_upper done ++ to_upper c :: todo ++ 0 :: post)).
      { assert (Eu : to_upper c = if (97 <=? schar c) && (schar c <=? 122) then u8 (schar c - 97 + 65) else c)
          by reflexivity.
        rewrite Eu. destruct (_ && _); [apply aset_mid | done]. }
      rewrite (bindR_ok _ _ _ Ename), (bindR_ok _ _ _ (aget_mid _ _ _)).
      rewrite zlen_map. destruct (split83 dot todo) as [b e] eqn:Es. cbn [fst snd] in *.
      destruct dot; cbn [negb fst snd] in *.
      * destruct ez as [|x ez]; [cbn in Hez; lia|]. rewrite (bindR_ok _ _ _ (aset_mid _ _ _ _)).
        rewrite (snoc_shift ea). rewrite <- (zlen_snoc ea (to_upper c)).
        rewrite IH by (done || (cbn in Hf, Hez; rewrite ?Es; cbn [fst snd]; lia)). rewrite Es.
        rewrite map_app, <- !app_assoc. cbn [app length drop]. done.
      * destruct fz as [|x fz]; [cbn in Hfz; lia|]. rewrite (bindR_ok _ _ _ (aset_mid _ _ _ _)).
        rewrite (snoc_shift fa). rewrite <- (zlen_snoc fa (to_upper c)).
        rewrite IH by (done || (cbn in Hf, Hfz; rewrite ?Es; cbn [fst snd]; lia)). rewrite Es.
        rewrite map_app, <- !app_assoc. cbn [app length drop]. done.
Qed.

Lemma copy_chars_ok s : forall pre mid post spre spost, length mid = length s ->
  copy_chars (length s) (pre ++ mid ++ post) (zlen pre) (spre ++ s ++ spost) (zlen spre)
  = Ok ((pre ++ s) ++ post, zlen (pre ++ s)).
Proof.
  induction s as [|c s IH]; intros pre [|x mid] post spre spost Hm; try done.
  - cbn. by rewrite app_nil_r.
  - cbn [length copy_chars app]. rewrite (bindR_ok _ _ _ (aget_mid _ _ _)).
    rewrite (bindR_ok _ _ _ (aset_mid _ _ _ _)).
    rewrite (snoc_shift pre), (snoc_shift spre), <- !zlen_snoc with (x := c).
    cbn in Hm. rewrite IH by lia. by rewrite <- !app_assoc.
Qed.

Lemma pad_spaces_ok n : forall pre mid post, length mid = n ->
  pad_spaces n (pre ++ mid ++ post) (zlen pre)
  = Ok ((pre ++ replicate n 32) ++ post, zlen (pre ++ replicate n 32)).
Proof.
  induction n as [|n IH]; intros pre [|x mid] post Hm; try done.
  - cbn. by rewrite app_nil_r.
  - cbn [pad_spaces app]. rewrite (bindR_ok _ _ _ (aset_mid _ _ _ _)).
    rewrite (snoc_shift pre), <- zlen_snoc with (x := 32). cbn in Hm. rewrite IH by lia.
    cbn [replicate]. by rewrite <- !app_assoc.
Qed.

Lemma split_at_len {A} (n : nat) (l : list A) : (n <= length l)%nat ->
  exists a b, l = a ++ b /\ length a = n /\ length b = (length l - n)%nat.
Proof.
  intros Hn. exists (take n l), (drop n l). rewrite take_drop, length_take, length_drop.
  split; [done|]. lia.
Qed.

(** Copy at most [k] characters of the field and fill it up. *)
Lemma fill_field k pre mid post b z : length mid = k ->
  exists f l, copy_chars (Nat.min (length b) k) (pre ++ mid ++ post) (zlen pre) (b ++ z) 0 = Ok (f, l) /\
    pad_spaces (Z.to_nat (zlen pre + Z.of_nat k - l)) f l
    = Ok ((pre ++ field k b) ++ post, zlen (pre ++ field k b)).
Proof.
  intros Hm. destruct (split_at_len (length (take k b)) mid) as (m1 & m2 & -> & H1 & H2);
    [rewrite length_take; lia|].
  replace (Nat.min (length b) k) with (length (take k b)) by (rewrite length_take; lia).
  pose proof (copy_chars_ok (take k b) pre m1 (m2 ++ post) [] (drop k b ++ z) H1) as E.
  cbn [app] in E. rewrite (app_assoc (take k b)), take_drop in E. change (zlen (@nil Z)) with 0 in E.
  rewrite <- (app_assoc m1). exists ((pre ++ take k b) ++ m2 ++ post), (zlen (pre ++ take k b)).
  split; [exact E|].
  assert (Hn : Z.to_nat (zlen pre + Z.of_nat k - zlen (pre ++ take k b)) = length m2).
  { rewrite zlen_app. unfold zlen. rewrite length_app in Hm. lia. }
  rewrite Hn, pad_spaces_ok by done. unfold field.
  replace (k - length b)%nat with (length m2); [by rewrite <- !app_assoc|].
  rewrite length_app in Hm. rewrite length_take in H1. lia.
Qed.

Lemma min_nat x k : 0 <= x -> Z.to_nat (min x (Z.of_nat k)) = Nat.min (Z.to_nat x) k.
Proof. intros Hx. unfold min. destruct (Z.ltb_spec x (Z.of_nat k)); lia. Qed.

(** A path component that [generate_filename] can hold in its arrays. *)
Definition name_ok (s : list Z) : Prop :=
  bytes s /\ nonul s /\ zlen s < 4294967296 /\
  (length (split83 false s).1 <= 30)%nat /\ (length (split83 false s).2 <= 30)%nat.

Lemma cs_cstr s : nonul s -> cstr (s ++ [0]) 0 s.
Proof. intros Hn. by exists [], []. Qed.

Lemma generate_filename_ok s post fb : name_ok s -> s <> [46] -> s <> [46; 46] ->
  (12 <= length fb)%nat ->
  generate_filename (s ++ 0 :: post) fb
  = Ok (map to_upper s ++ 0 :: post, name83 s ++ 0 :: drop 12 fb).
Proof.
  intros (Hb & Hn & Hl & H1 & H2) Hs1 Hs2 Hfb. unfold generate_filename.
  assert (Hc : cstr (s ++ 0 :: post) 0 s) by (by exists [], post).
  assert (Hdots : forall t, bytes t -> nonul t -> s <> t ->
    exists r, strcmp (s ++ 0 :: post) 0 (t ++ [0]) 0 = Ok r /\ (r =? 0) = false).
  { intros t Ht Hnt Hne. exists (cmp_spec s t).
    split; [apply strcmp_spec; try done; by apply cs_cstr|]. apply Z.eqb_neq. by rewrite cmp_spec_eq. }
  destruct (Hdots [46]) as (r1 & E1 & R1); [repeat constructor; unfold is_byte; lia| repeat constructor; lia|done|].
  destruct (Hdots [46; 46]) as (r2 & E2 & R2);
    [repeat constructor; unfold is_byte; lia| repeat constructor; lia|done|].
  change (cs ".") with ([46] ++ [0]). change (cs "..") with ([46; 46] ++ [0]).
  rewrite (bindR_ok _ _ _ E1), R1, (bindR_ok _ _ _ E2), R2.
  pose proof (generate_split_ok s (S (length (s ++ 0 :: post))) [] post [] (replicate 30 0) [] (replicate 30 0) false
    Hb Hn Hl) as Hsp.
  specialize (Hsp ltac:(rewrite length_app; lia) ltac:(by rewrite length_replicate) ltac:(by rewrite length_replicate)).
  cbn [map app] in Hsp. change (zlen (@nil Z)) with 0 in Hsp.
  destruct (split83 false s) as [b e] eqn:Es. cbn [fst snd] in H1, H2. rewrite (bindR_ok _ _ _ Hsp).
  destruct (split_at_len 8 fb ltac:(lia)) as (m1 & fb1 & -> & L1 & L1').
  destruct (split_at_len 3 fb1 ltac:(lia)) as (m2 & fb2 & -> & L2 & L2').
  destruct fb2 as [|x fb2]; [cbn in *; rewrite !length_app in *; cbn in *; lia|].
  change (min (zlen b) 8) with (min (zlen b) (Z.of_nat 8)).
  change (min (zlen e) 3) with (min (zlen e) (Z.of_nat 3)).
  rewrite !min_nat, !to_nat_zlen by apply zlen_nonneg.
  destruct (fill_field 8 [] m1 (m2 ++ x :: fb2) b (drop (length b) (replicate 30 0)) L1) as (f1 & l1 & C1 & P1).
  cbn [app] in C1, P1. change (zlen (@nil Z)) with 0 in C1, P1. change (0 + Z.of_nat 8) with 8 in P1.
  rewrite (bindR_ok _ _ _ C1), (bindR_ok _ _ _ P1).
  destruct (fill_field 3 (field 8 b) m2 (x :: fb2) e (drop (length e) (replicate 30 0)) L2) as (f2 & l2 & C2 & P2).
  assert (Hz : zlen (field 8 b) = 8) by (unfold zlen; by rewrite field_length). rewrite Hz in C2, P2 |- *.
  change (8 + Z.of_nat 3) with 11 in P2.
  rewrite (bindR_ok _ _ _ C2), (bindR_ok _ _ _ P2), (bindR_ok _ _ _ (aset_mid _ _ _ _)).
  unfold name83. rewrite Es. do 3 f_equal. f_equal.
  rewrite app_assoc, drop_app_ge by (rewrite length_app; lia).
  by rewrite length_app, L1, L2.
Qed.

(** *** Paths *)

Lemma divide_first_ok a : forall fuel pre fa fz rest post,
  nonul (pre ++ a ++ rest) -> zlen (pre ++ a ++ rest) < 4294967296 -> 47 ∉ a ->
  (length a < fuel)%nat -> (length a <= length fz)%nat ->
  rest = [] \/ (exists b, rest = 47 :: b) ->
  divide_first fuel ((pre ++ a ++ rest) ++ 0 :: post) (fa ++ fz) (zlen pre) (zlen fa)
  = Ok ((fa ++ a) ++ drop (length a) fz, zlen (pre ++ a), zlen (fa ++ a)).
Proof.
  induction a as [|c a IH]; intros fuel pre fa fz rest post Hn Hl Hs Hf Hz Hr;
    (destruct fuel as [|fuel]; [cbn in Hf; lia|]); cbn [divide_first];
    rewrite (bindR_ok _ _ _ (strlen_terminated _ post Hn Hl)), zlen_app.
  - cbn [app]. rewrite !app_nil_r. destruct Hr as [->|[b ->]].
    + change (zlen (@nil Z)) with 0. rewrite Z.add_0_r, Z.ltb_irrefl. done.
    + rewrite zlen_cons. pose proof (zlen_nonneg b). rewrite (proj2 (Z.ltb_lt _ _)) by lia. cbn [negb].
      rewrite <- app_assoc. cbn [app]. by rewrite (bindR_ok _ _ _ (aget_mid _ _ _)).
  - pose proof (zlen_nonneg (a ++ rest)). cbn [app]. rewrite zlen_cons, (proj2 (Z.ltb_lt _ _)) by lia. cbn [negb].
    assert (Eg : aget ((pre ++ c :: a ++ rest) ++ 0 :: post) (zlen pre) = Ok c)
      by (rewrite <- app_assoc; apply aget_mid).
    rewrite (bindR_ok _ _ _ Eg).
    apply not_elem_of_cons in Hs as [Hc Hs]. rewrite (proj2 (Z.eqb_neq _ _)) by done.
    destruct fz as [|x fz]; [cbn in Hz; lia|]. rewrite (bindR_ok _ _ _ (aset_mid _ _ _ _)).
    rewrite (snoc_shift fa), <- !zlen_snoc with (x := c). cbn [app] in Hn, Hl. rewrite (snoc_shift pre) in Hn, Hl.
    rewrite (snoc_shift pre c (a ++ rest)). cbn in Hf, Hz.
    rewrite (IH fuel (pre ++ [c]) (fa ++ [c]) fz rest post Hn Hl Hs) by (done || lia).
    by rewrite <- !snoc_shift.
Qed.

Lemma copy_rest_ok b : forall fuel pre ra rz post,
  nonul (pre ++ b) -> zlen (pre ++ b) < 4294967296 -> (length b < fuel)%nat -> (length b <= length rz)%nat ->
  copy_rest fuel ((pre ++ b) ++ 0 :: post) (ra ++ rz) (zlen pre) (zlen ra)
  = Ok ((ra ++ b) ++ drop (length b) rz, zlen (ra ++ b)).
Proof.
  induction b as [|c b IH]; intros fuel pre ra rz post Hn Hl Hf Hz;
    (destruct fuel as [|fuel]; [cbn in Hf; lia|]); cbn [copy_rest];
    rewrite (bindR_ok _ _ _ (strlen_terminated _ post Hn Hl)), zlen_app.
  - change (zlen (@nil Z)) with 0. rewrite Z.add_0_r, Z.ltb_irrefl. cbn. by rewrite !app_nil_r.
  - pose proof (zlen_nonneg b). rewrite zlen_cons, (proj2 (Z.ltb_lt _ _)) by lia. cbn [negb].
    assert (Eg : aget ((pre ++ c :: b) ++ 0 :: post) (zlen pre) = Ok c)
      by (rewrite <- app_assoc; apply aget_mid).
    rewrite (bindR_ok _ _ _ Eg).
    destruct rz as [|x rz]; [cbn in Hz; lia|]. rewrite (bindR_ok _ _ _ (aset_mid _ _ _ _)).
    rewrite (snoc_shift ra), <- !zlen_snoc with (x := c). rewrite (snoc_shift pre) in Hn, Hl.
    rewrite (snoc_shift pre c b). cbn in Hf, Hz.
    rewrite (IH fuel (pre ++ [c]) (ra ++ [c]) rz post Hn Hl) by lia.
    by rewrite <- !snoc_shift.
Qed.

(** Past the end nothing is copied. *)
Lemma copy_rest_end fuel p post res i n : nonul p -> zlen p < 4294967296 -> zlen p <= i -> (0 < fuel)%nat ->
  copy_rest fuel (p ++ 0 :: post) res i n = Ok (res, n).
Proof.
  intros Hn Hl Hi Hf. destruct fuel as [|fuel]; [lia|]. cbn [copy_rest].
  rewrite (bindR_ok _ _ _ (strlen_terminated _ post Hn Hl)). by rewrite (proj2 (Z.ltb_ge _ _)) by lia.
Qed.

Lemma last_slash_ok b : forall a post, 47 ∉ b ->
  last_slash (length (a ++ 47 :: b)) (a ++ 47 :: b ++ post) = Ok (zlen a).
Proof.
  induction b as [|c b IH] using rev_ind; intros a post Hb.
  - rewrite length_app, Nat.add_1_r. cbn [last_slash app].
    fold (zlen a). rewrite (bindR_ok _ _ _ (aget_mid _ _ _)). done.
  - assert (E : a ++ 47 :: b ++ [c] = (a ++ 47 :: b) ++ [c]) by (by rewrite <- app_assoc).
    rewrite E, length_app, Nat.add_1_r. cbn [last_slash]. fold (zlen (a ++ 47 :: b)).
    assert (E2 : a ++ 47 :: (b ++ [c]) ++ post = (a ++ 47 :: b) ++ c :: post)
      by (by rewrite <- !app_assoc).
    rewrite E2, (bindR_ok _ _ _ (aget_mid _ _ _)).
    apply not_elem_of_app in Hb as [Hb Hc]. rewrite (proj2 (Z.eqb_neq _ _)) by set_solver.
    rewrite <- (IH a (c :: post) Hb). by rewrite <- app_assoc.
Qed.

Lemma divede_path_ok a rest b fb rb post :
  nonul (a ++ rest) -> zlen (a ++ rest) < 4294967296 -> 47 ∉ a ->
  (rest = [] /\ b = []) \/ rest = 47 :: b ->
  (length a < length fb)%nat -> (length b < length rb)%nat ->
  divede_path ((a ++ rest) ++ 0 :: post) fb rb
  = Ok (a ++ 0 :: drop (S (length a)) fb, b ++ 0 :: drop (S (length b)) rb).
Proof.
  intros Hn Hl Hs Hr Hfb Hrb. unfold divede_path.
  set (p := (a ++ rest) ++ 0 :: post).
  assert (Hf : (S (length a) <= length p)%nat) by (unfold p; rewrite !length_app; cbn; lia).
  pose proof (divide_first_ok a (S (length p)) [] [] fb rest post Hn Hl Hs ltac:(lia) ltac:(lia)) as E1.
  cbn [app] in E1. change (zlen (@nil Z)) with 0 in E1. fold p in E1.
  assert (Hr' : rest = [] \/ (exists b, rest = 47 :: b)) by (destruct Hr as [[-> _]| ->]; eauto).
  rewrite (bindR_ok _ _ _ (E1 Hr')).
  assert (E2 : copy_rest (S (length p)) p rb (zlen a + 1) 0 = Ok (b ++ drop (length b) rb, zlen b)).
  { destruct Hr as [[-> ->]| ->].
    - unfold p. rewrite app_nil_r in *. rewrite copy_rest_end; [done|done|done|lia|lia].
    - pose proof (copy_rest_ok b (S (length p)) (a ++ [47]) [] rb post) as E.
      rewrite <- app_assoc in E. cbn [app] in E. fold p in E. rewrite zlen_snoc in E.
      apply E; try done; [unfold p; rewrite !length_app; cbn; lia|lia]. }
  rewrite (bindR_ok _ _ _ E2).
  destruct (drop (length a) fb) as [|x fz] eqn:Ef.
  { apply (f_equal length) in Ef. rewrite length_drop in Ef. cbn in Ef. lia. }
  destruct (drop (length b) rb) as [|y rz] eqn:Er.
  { apply (f_equal length) in Er. rewrite length_drop in Er. cbn in Er. lia. }
  rewrite (bindR_ok _ _ _ (aset_mid _ _ _ _)), (bindR_ok _ _ _ (aset_mid _ _ _ _)).
  assert (Ef' : drop (S (length a)) fb = fz) by (by rewrite <- Nat.add_1_r, <- drop_drop, Ef).
  assert (Er' : drop (S (length b)) rb = rz) by (by rewrite <- Nat.add_1_r, <- drop_drop, Er).
  by rewrite Ef', Er'.
Qed.

Lemma fa_dir_path_ok a b post : nonul (a ++ 47 :: b) -> zlen (a ++ 47 :: b) < 4294967296 -> 47 ∉ b -> b <> [] ->
  exists post', fa_dir_path ((a ++ 47 :: b) ++ 0 :: post) =
    Ok ((if decide (a = []) then [47] else a) ++ 0 :: post').
Proof.
  intros Hn Hl Hb Hne. unfold fa_dir_path. rewrite (bindR_ok _ _ _ (strlen_terminated _ post Hn Hl)).
  rewrite to_nat_zlen. pose proof (last_slash_ok b a (0 :: post) Hb) as E.
  rewrite <- app_assoc. cbn [app]. rewrite (bindR_ok _ _ _ E).
  pose proof (zlen_nonneg a). rewrite Z.max_r by lia.
  destruct b as [|x b]; [done|]. destruct a as [|y a].
  - cbn [app]. change (zlen (@nil Z) =? 0) with true. cbv iota.
    exists (b ++ 0 :: post). rewrite decide_True by done.
    pose proof (aset_mid [] 47 47 (x :: b ++ 0 :: post)) as E1.
    pose proof (aset_mid [47] x 0 (b ++ 0 :: post)) as E2.
    cbn [app] in E1, E2 |- *. change (zlen (@nil Z)) with 0 in E1. change (zlen [47]) with 1 in E2.
    unfold mbind, res_bind. by rewrite E1, E2.
  - rewrite (proj2 (Z.eqb_neq _ _)) by (rewrite zlen_cons; pose proof (zlen_nonneg a); lia).
    unfold mbind, res_bind. rewrite aset_mid. eexists. rewrite decide_False by done. reflexivity.
Qed.

(** Every character of a literal satisfies a linear condition. *)
Ltac forall_lit :=
  unfold bytes, nonul; vm_compute;
  repeat (apply List.Forall_cons; [try (split; [discriminate|reflexivity]); try discriminate|]); apply List.Forall_nil.

(** ** Properties *)

(** [generate_filename] computes the 8.3 form of a path component: the
    first eight characters before the dot and the first three after it, in
    upper case, each padded with spaces, terminated; the name itself is left
    in upper case, and the rest of both arrays is not written. *)
Theorem generate_filename_83 (s post fb : list Z) :
  name_ok s -> s <> lit "." -> s <> lit ".." -> (12 <= length fb)%nat ->
  generate_filename (s ++ 0 :: post) fb
  = Ok (map to_upper s ++ 0 :: post, name83 s ++ 0 :: drop 12 fb).
Proof. apply generate_filename_ok. Qed.

Lemma generate_filename_83_witness :
  generate_filename (lit "readme.text" ++ 0 :: replicate 38 0) (replicate 50 0)
  = Ok (lit "README.TEXT" ++ 0 :: replicate 38 0, lit "README  TEX" ++ 0 :: replicate 38 0).
Proof.
  apply (generate_filename_83 (lit "readme.text") (replicate 38 0) (replicate 50 0)).
  - split; [forall_lit|]. split; [forall_lit|]. split; [reflexivity|].
    split; apply Nat.leb_le; vm_compute; reflexivity.
  - discriminate.
  - discriminate.
  - cbn. lia.
Defined.

(** A path is cut at its first slash and glued at its last: [divede_path]
    of [a/b] delivers the component [a], which has no slash, and the rest [b]
    (and the whole path and an empty rest when there is no slash), and
    [fa_dir_path] of [a/b] with [b] a component delivers [a], or [/] when [a]
    is empty. *)
Theorem path_split_join (a b : list Z) (post fb rb : list Z) :
  nonul (a ++ 47 :: b) -> zlen (a ++ 47 :: b) < 4294967296 ->
  (length a < length fb)%nat -> (length b < length rb)%nat ->
  (47 ∉ a ->
     divede_path ((a ++ 47 :: b) ++ 0 :: post) fb rb
       = Ok (a ++ 0 :: drop (S (length a)) fb, b ++ 0 :: drop (S (length b)) rb) /\
     divede_path (a ++ 0 :: post) fb rb = Ok (a ++ 0 :: drop (S (length a)) fb, 0 :: drop 1 rb)) /\
  (47 ∉ b -> b <> [] ->
     exists post', fa_dir_path ((a ++ 47 :: b) ++ 0 :: post) =
       Ok ((if decide (a = []) then lit "/" else a) ++ 0 :: post')).
Proof.
  intros Hn Hl Hfb Hrb. split.
  - intros Hs. split; [apply divede_path_ok; auto|].
    pose proof (divede_path_ok a [] [] fb rb post) as E. rewrite app_nil_r in E.
    unfold nonul in *. apply Forall_app in Hn as [Hn _]. rewrite zlen_app in Hl.
    pose proof (zlen_nonneg (47 :: b)). apply E; auto; [lia|]. cbn. lia.
  - intros Hb Hne. by apply fa_dir_path_ok.
Qed.

Lemma path_split_join_witness :
  divede_path ((lit "usr" ++ 47 :: lit "bin/x") ++ 0 :: []) (replicate 5 1) (replicate 6 1)
    = Ok (lit "usr" ++ 0 :: [1], lit "bin/x" ++ 0 :: []).
Proof.
  apply (path_split_join (lit "usr") (lit "bin/x") [] (replicate 5 1) (replicate 6 1)).
  - forall_lit.
  - reflexivity.
  - cbn. lia.
  - cbn. lia.
  - cbn. set_solver by lia.
Defined.

(** The packed date and time of a directory entry unpack to what was
    packed, for every calendar date from 1980 to 2107 and every hour and
    minute: what [file_print_date] and [file_print_time] extract is what
    [generate_date] and [generate_time] were given. *)
Theorem date_time_roundtrip (year month day hour minute : Z) :
  1980 <= year <= 2107 -> 0 <= month <= 15 -> 0 <= day <= 31 -> 0 <= hour <= 31 -> 0 <= minute <= 63 ->
  date_fields (generate_date year month day) = (year, month, day) /\
  time_fields (generate_time hour minute) = (hour, minute).
Proof.
  intros Hy Hm Hd Hh Hmi. unfold date_fields, time_fields, generate_date, generate_time.
  rewrite !Z.shiftl_mul_pow2 by lia. rewrite !u16_small by lia.
  change 0xFE00 with (2 ^ 16 - 2 ^ 9). change 0xF800 with (2 ^ 16 - 2 ^ 11).
  rewrite (land_high _ 9 16), (land_high _ 11 16) by lia.
  change 0x1F with (2 ^ 5 - 1). rewrite (land_low _ 5) by lia.
  replace 0x01E0 with (Z.land (2 ^ 9 - 1) (2 ^ 16 - 2 ^ 5)) by done.
  replace 0x07E0 with (Z.land (2 ^ 11 - 1) (2 ^ 16 - 2 ^ 5)) by done.
  rewrite !Z.land_assoc, (land_low _ 9), (land_low _ 11), !(land_high _ 5 16) by zarith.
  rewrite !Z.shiftr_div_pow2 by lia.
  change (2 ^ 9) with 512. change (2 ^ 11) with 2048. change (2 ^ 5) with 32.
  split; repeat f_equal; zarith.
Qed.

Lemma date_time_roundtrip_witness :
  date_fields (generate_date 2021 7 14) = (2021, 7, 14) /\ time_fields (generate_time 23 59) = (23, 59).
Proof. apply (date_time_roundtrip 2021 7 14 23 59); lia. Defined.
