(* ===== verification/File.v ===== *)
(** * File: filesystem/file.c, the tree of files and the open files

    The globals of the file system: the disk [sdb] with the FAT cache, the
    disk [sda] programs are loaded from, the array [filelist] and [rootfile],
    the open files and their sector buffers, what has been printed, and the
    words the keyboard delivers to [scanf].  A [struct File *] is 1 for
    [&rootfile], [2 + i] for [&filelist[i]] and 0 for NULL; [&activelist[i]]
    and [&AFBLNodelist[i]] are [1 + i].  Following a NULL pointer is a fault. *)

From Stdlib Require Import String.
From S2P Require Import Prelude CString BlockDev Disk Fat Stdio Names.

Record File := mk_File {
  Filename : list Z;
  Attr : Z;
  Reserved : list Z;
  WrtTime : Z;
  WrtDate : Z;
  FstClus : Z;
  FileSize : Z;
  Fa : Z;
  FstSon : Z;
  NextSib : Z;
  used : bool }.

Inductive FileOpenType := ReadOnly | WriteOnly | ReadWrite.

#[export] Instance FileOpenType_eq_dec : EqDecision FileOpenType.
Proof. solve_decision. Defined.

#[export] Instance File_eq_dec : EqDecision File.
Proof. solve_decision. Defined.

Record AFBLNode := mk_node { nbuff : list Z; nnext : Z; nused : bool }.

Record ActiveFile := mk_active {
  afile : Z;
  RefCnt : Z;
  Type_ : FileOpenType;
  ahead : Z;
  buffsize : Z;
  aused : bool }.

Definition NULLF : Z := 0.
Definition rootfile : Z := 1.
Definition file_ptr (i : Z) : Z := 2 + i.
Definition active_ptr (i : Z) : Z := 1 + i.
Definition node_ptr (i : Z) : Z := 1 + i.

Definition MAX_FILE_CNT : nat := 100.
Definition MAX_NODE_CNT : nat := 100.
Definition MAX_ACTIVE_CNT : nat := 10.

(** Setters. *)
Definition set_used (b : bool) (f : File) : File :=
  mk_File (Filename f) (Attr f) (Reserved f) (WrtTime f) (WrtDate f) (FstClus f) (FileSize f)
    (Fa f) (FstSon f) (NextSib f) b.
Definition set_FileSize (x : Z) (f : File) : File :=
  mk_File (Filename f) (Attr f) (Reserved f) (WrtTime f) (WrtDate f) (FstClus f) x
    (Fa f) (FstSon f) (NextSib f) (used f).
Definition set_FstSon (p : Z) (f : File) : File :=
  mk_File (Filename f) (Attr f) (Reserved f) (WrtTime f) (WrtDate f) (FstClus f) (FileSize f)
    (Fa f) p (NextSib f) (used f).
Definition set_NextSib (p : Z) (f : File) : File :=
  mk_File (Filename f) (Attr f) (Reserved f) (WrtTime f) (WrtDate f) (FstClus f) (FileSize f)
    (Fa f) (FstSon f) p (used f).

(** [init_new_file]: everything but [Reserved]. *)
Definition new_file (f : File) : File :=
  mk_File (replicate 11 0) 0 (Reserved f) 0 0 0 0 NULLF NULLF NULLF true.

Section fs.
Context {D : Type} `{BlockDevice D}.

Record fs := mk_fs {
  fdisk : dstate D;
  fsda : D;
  files : gmap Z File;
  active_cnt : Z;
  activelist : gmap Z ActiveFile;
  AFBLNodelist : gmap Z AFBLNode;
  out : list Z;
  words : nat -> list Z;
  wpos : nat }.

Definition set_disk (d : dstate D) (s : fs) : fs :=
  mk_fs d (fsda s) (files s) (active_cnt s) (activelist s) (AFBLNodelist s) (out s) (words s) (wpos s).
Definition set_files (x : gmap Z File) (s : fs) : fs :=
  mk_fs (fdisk s) (fsda s) x (active_cnt s) (activelist s) (AFBLNodelist s) (out s) (words s) (wpos s).
Definition set_active (c : Z) (x : gmap Z ActiveFile) (s : fs) : fs :=
  mk_fs (fdisk s) (fsda s) (files s) c x (AFBLNodelist s) (out s) (words s) (wpos s).
Definition set_nodes (x : gmap Z AFBLNode) (s : fs) : fs :=
  mk_fs (fdisk s) (fsda s) (files s) (active_cnt s) (activelist s) x (out s) (words s) (wpos s).
Definition set_out (x : list Z) (s : fs) : fs :=
  mk_fs (fdisk s) (fsda s) (files s) (active_cnt s) (activelist s) (AFBLNodelist s) x (words s) (wpos s).
Definition set_wpos (x : nat) (s : fs) : fs :=
  mk_fs (fdisk s) (fsda s) (files s) (active_cnt s) (activelist s) (AFBLNodelist s) (out s) (words s) x.

(** ** Access *)

Definition on_disk {A} (m : M (dstate D) A) : M fs A := fun s =>
  match m (fdisk s) with Ok (a, d) => Ok (a, set_disk d s) | Err e => Err e end.

Definition get_file (p : Z) : M fs File := fun s =>
  match files s !! p with Some f => Ok (f, s) | None => Err Fault end.
Definition upd_file (p : Z) (g : File -> File) : M fs unit :=
  f ← get_file p; modify (fun s => set_files (<[p := g f]> (files s)) s).

Definition get_active (p : Z) : M fs ActiveFile := fun s =>
  match activelist s !! p with Some a => Ok (a, s) | None => Err Fault end.
Definition put_active (p : Z) (a : ActiveFile) : M fs unit :=
  modify (fun s => set_active (active_cnt s) (<[p := a]> (activelist s)) s).

Definition get_node (p : Z) : M fs AFBLNode := fun s =>
  match AFBLNodelist s !! p with Some a => Ok (a, s) | None => Err Fault end.
Definition put_node (p : Z) (a : AFBLNode) : M fs unit :=
  modify (fun s => set_nodes (<[p := a]> (AFBLNodelist s)) s).

(** [printf]: the string it builds goes to the console. *)
Definition print (format : list Z) (args : list arg) : M fs unit :=
  buf ← lift (printf format args);
  n ← lift (strlen buf 0);
  modify (fun s => set_out (out s ++ take (Z.to_nat n) buf) s).

Definition say (s : string) : M fs unit := print (cs s) [].
Definition say_line (s : string) : M fs unit := print (lit s ++ [10; 0]) [].

(** [scanf]: [read] fills the array with the next word. *)
Definition read_word (value : list Z) (i : (nat -> list Z) * nat) : res (list Z * ((nat -> list Z) * nat)) :=
  value ← strcpy value 0 (i.1 i.2 ++ [0]) 0;
  Ok (value, (i.1, S i.2)).

Definition scan (format : list Z) (args : list dest) : M fs (list dest) := fun s =>
  match vscanf read_word format (replicate 1000 0) args (words s, wpos s) with
  | Ok (ds, (_, n)) => Ok (ds, set_wpos n s)
  | Err e => Err e
  end.

(** ** file.c *)

Definition init_new_file (file : Z) : M fs unit :=
  if file =? NULLF then mret tt else upd_file file new_file.

Definition file_init : M fs unit :=
  _ ← init_new_file rootfile;
  modify (fun s =>
    set_nodes ((fun n => mk_node (nbuff n) (nnext n) false) <$> AFBLNodelist s)
      (set_active 0 ((fun a => mk_active (afile a) (RefCnt a) (Type_ a) (ahead a) (buffsize a) false)
                      <$> activelist s)
        (set_files (map_imap (fun p f => Some (if p =? rootfile then f else set_used false f)) (files s)) s))).

Fixpoint get_empty_file_loop (n : nat) (i : Z) : M fs Z :=
  match n with
  | O => mret NULLF
  | S n' =>
      f ← get_file (file_ptr i);
      if negb (used f) then _ ← init_new_file (file_ptr i); mret (file_ptr i)
      else get_empty_file_loop n' (i + 1)
  end.
Definition get_empty_file : M fs Z := get_empty_file_loop MAX_FILE_CNT 0.

(** [n] cells of an array from [st] on. *)
Fixpoint read_cells (n : nat) (buff : list Z) (st : Z) : res (list Z) :=
  match n with
  | O => Ok []
  | S n' => c ← aget buff st; r ← read_cells n' buff (st + 1); Ok (c :: r)
  end.

Definition init_file (file fa : Z) (filename : list Z) (attr wrttime wrtdate fstclus filesize : Z)
    : M fs unit :=
  name ← lift (read_cells 11 filename 0);
  upd_file file (fun f => mk_File name (u8 attr) (Reserved f) (u16 wrttime) (u16 wrtdate) (u16 fstclus)
    (u32 filesize) fa NULLF NULLF (used f)).

Definition make_file_from_sector (fa : Z) (buff : list Z) (st : Z) : M fs Z :=
  file ← get_empty_file;
  if file =? NULLF then mret NULLF
  else
    name ← lift (read_cells 11 buff st);
    attr ← lift (aget buff (st + 11));
    resv ← lift (read_cells 10 buff (st + 12));
    wt ← lift (get_u16 buff (st + 22));
    wd ← lift (get_u16 buff (st + 24));
    fc ← lift (get_u16 buff (st + 26));
    sz ← lift (get_u32 buff (st + 28));
    _ ← upd_file file (fun f => mk_File name attr resv wt wd fc sz fa (FstSon f) (NextSib f) (used f));
    mret file.

(** *** Printing *)

Definition file_print_filesize (f : File) : M fs unit := print (cs "%d") [AInt (FileSize f)].

(** The characters of [l] that are not spaces, one [printf] each; how many. *)
Fixpoint print_chars (l : list Z) (cnt : Z) : M fs Z :=
  match l with
  | [] => mret cnt
  | c :: l' =>
      if negb (c =? 0x20) then _ ← print (cs "%c") [AInt c]; print_chars l' (cnt + 1)
      else print_chars l' cnt
  end.
Fixpoint print_blanks (n : nat) : M fs unit :=
  match n with O => mret tt | S n' => _ ← say " "; print_blanks n' end.

Definition file_print_name (f : File) : M fs unit :=
  cnt ← print_chars (take 8 (Filename f)) 0;
  c8 ← lift (aget (Filename f) 8);
  cnt ← (if negb (c8 =? 0x20) then _ ← say "."; mret (cnt + 1) else mret cnt);
  cnt ← print_chars (drop 8 (Filename f)) cnt;
  print_blanks (Z.to_nat (12 - cnt)).

Definition file_print_attr (f : File) : M fs unit :=
  if Attr f =? 0x01 then say "read-only   "
  else if Attr f =? 0x02 then say "hidden      "
  else if Attr f =? 0x04 then say "system      "
  else if Attr f =? 0x08 then say "volume label"
  else if Attr f =? 0x10 then say "subdirectory"
  else if Attr f =? 0x20 then say "archive     "
  else say "unused      ".

Definition file_print_time (f : File) : M fs unit :=
  let '(hour, minute) := time_fields (WrtTime f) in
  print (cs "%d%d:%d%d") [AInt (hour / 10 mod 10); AInt (hour mod 10);
                          AInt (minute / 10 mod 10); AInt (minute mod 10)].

Definition file_print_date (f : File) : M fs unit :=
  let '(year, month, day) := date_fields (WrtDate f) in
  print (cs "%d%d-%d%d-%d%d")
    [AInt (month / 10 mod 10); AInt (month mod 10); AInt (day / 10 mod 10); AInt (day mod 10);
     AInt (year / 10 mod 10); AInt (year mod 10)].

Definition file_print_all (file : Z) (ShowHid : bool) : M fs unit :=
  if file =? NULLF then mret tt
  else
    f ← get_file file;
    c0 ← lift (aget (Filename f) 0);
    if negb ShowHid && ((Attr f =? 0x02) || (c0 =? 0x2E)) then mret tt
    else
      _ ← say "Filename: ";
      _ ← file_print_name f;
      _ ← say "    Attribute: ";
      _ ← file_print_attr f;
      _ ← say "    Last Write Time: ";
      _ ← file_print_time f;
      _ ← say "    Last Write Date: ";
      _ ← file_print_date f;
      _ ← say "    File Size: ";
      _ ← file_print_filesize f;
      say_line "".

(** *** Directory entries *)

(** [for (j = 0; j < 11; j++) write_u8(buff, i + j, file->Filename[j])]. *)
Fixpoint write_name (name buff : list Z) (st : Z) : res (list Z) :=
  match name with
  | [] => Ok buff
  | c :: name' => buff ← write_u8 buff st c; write_name name' buff (st + 1)
  end.

Definition fill_entry (buff : list Z) (i : Z) (f : File) : res (list Z) :=
  buff ← write_name (Filename f) buff i;
  buff ← write_u8 buff (i + 11) (Attr f);
  buff ← write_u16 buff (i + 22) (WrtTime f);
  buff ← write_u16 buff (i + 24) (WrtDate f);
  buff ← write_u16 buff (i + 26) (FstClus f);
  write_u32 buff (i + 28) (FileSize f).

Fixpoint dir_entry_loop (n : nat) (secID : Z) (buff : list Z) (i : Z) (file : Z) : M fs bool :=
  match n with
  | O => mret false
  | S n' =>
      c ← lift (aget buff i);
      if (c =? 0x00) || (c =? 0xE5) then
        f ← get_file file;
        buff ← lift (fill_entry buff i f);
        _ ← on_disk (write_sector secID buff);
        mret true
      else dir_entry_loop n' secID buff (i + BytePerDirEntry) file
  end.

Definition create_dir_entry_in_sector (secID : Z) (file : Z) : M fs bool :=
  let secID := u16 secID in
  buff ← on_disk (read_sector secID);
  dir_entry_loop 16 secID buff 0 file.

(** Both the fourteen sectors of the root directory and a chain of clusters;
    [Some] result, or the cluster at which the loop ended without one. *)
Fixpoint create_dir_entry_loop (fuel : nat) (clusID secID file : Z) : M fs (option Z) :=
  match fuel with
  | O => fail OutOfFuel
  | S n =>
      if (clusID =? 0) && (secID =? 33) then mret (Some clusID)
      else if negb (clusID =? 0) && (0xFF8 <=? clusID) && (clusID <=? 0xFFF) then mret (Some clusID)
      else
        r ← create_dir_entry_in_sector secID file;
        if (r : bool) then mret None
        else if clusID =? 0 then create_dir_entry_loop n clusID (u16 (secID + 1)) file
        else
          next ← on_disk (get_fat_next_cluster clusID);
          create_dir_entry_loop n next (u16 (next + ClusToSec)) file
  end.

Definition create_dir_entry (dir file : Z) : M fs bool :=
  d ← get_file dir;
  let clusID := if dir =? rootfile then 0 else FstClus d in
  let secID := if dir =? rootfile then 19 else u16 (clusID + ClusToSec) in
  r ← create_dir_entry_loop 4097 clusID secID file;
  match r with
  | None => mret true
  | Some clusID =>
      if clusID =? 0 then mret false
      else
        newClus ← on_disk (append_a_cluster clusID);
        create_dir_entry_in_sector (newClus + ClusToSec) file
  end.

Definition write_empty_directory (fa dir : Z) : M fs bool :=
  dot ← get_empty_file;
  d ← get_file dir;
  _ ← init_file dot dir (cs ".          ") (Attr d) (WrtTime d) (WrtDate d) (FstClus d) (FileSize d);
  r ← create_dir_entry dir dot;
  if negb r then _ ← upd_file dot (set_used false); mret false
  else
    dotdot ← get_empty_file;
    f ← get_file fa;
    _ ← init_file dotdot dir (cs "..         ") (Attr f) (WrtTime f) (WrtDate f) (FstClus f) (FileSize f);
    r ← create_dir_entry dir dotdot;
    if negb r then _ ← upd_file dotdot (set_used false); mret false
    else
      _ ← upd_file dir (set_FstSon dot);
      _ ← upd_file dot (set_NextSib dotdot);
      mret true.

(** *** Buffers and open files *)

Definition init_new_AFBLNode (node : Z) : M fs unit :=
  _ ← get_node node;
  put_node node (mk_node (replicate 512 0) NULLF true).

Fixpoint get_empty_AFBLNode_loop (n : nat) (i : Z) : M fs Z :=
  match n with
  | O => mret NULLF
  | S n' =>
      a ← get_node (node_ptr i);
      if negb (nused a) then _ ← init_new_AFBLNode (node_ptr i); mret (node_ptr i)
      else get_empty_AFBLNode_loop n' (i + 1)
  end.
Definition get_empty_AFBLNode : M fs Z := get_empty_AFBLNode_loop MAX_NODE_CNT 0.

Definition init_AFBLNode (node : Z) (writeBuff : list Z) (next : Z) : M fs unit :=
  a ← get_node node;
  b ← lift (read_cells 512 writeBuff 0);
  put_node node (mk_node b next (nused a)).

Definition active_file_open (acfile file : Z) (Type0 : FileOpenType) : M fs unit :=
  _ ← modify (fun s => set_active (active_cnt s + 1) (activelist s) s);
  a ← get_active acfile;
  put_active acfile (mk_active file 1 Type0 NULLF 0 (aused a)).

(** The buffers go to the clusters of the chain one by one and are freed. *)
Fixpoint active_close_loop (fuel : nat) (clusID now : Z) : M fs unit :=
  if now =? NULLF then mret tt
  else
    match fuel with
    | O => fail OutOfFuel
    | S n =>
        a ← get_node now;
        _ ← on_disk (write_sector (clusID + ClusToSec) (nbuff a));
        _ ← put_node now (mk_node (nbuff a) (nnext a) false);
        next ← on_disk (get_fat_next_cluster clusID);
        active_close_loop n next (nnext a)
    end.

Definition active_file_close (acfile : Z) : M fs unit :=
  _ ← modify (fun s => set_active (active_cnt s - 1) (activelist s) s);
  a ← get_active acfile;
  _ ← upd_file (afile a) (set_FileSize (buffsize a));
  f ← get_file (afile a);
  _ ← active_close_loop MAX_NODE_CNT (FstClus f) (ahead a);
  put_active acfile (mk_active NULLF 0 ReadOnly NULLF 0 (aused a)).

Definition clear_file_of (file : Z) : M fs unit :=
  f ← get_file file;
  on_disk (clear_file (FstClus f)).

Fixpoint open_find (n : nat) (i file : Z) (Type0 : FileOpenType) : M fs (option Z) :=
  match n with
  | O => mret None
  | S n' =>
      a ← get_active (active_ptr i);
      if (afile a =? file) && bool_decide (Type_ a = Type0) then
        _ ← put_active (active_ptr i)
              (mk_active (afile a) (i32 (RefCnt a + 1)) (Type_ a) (ahead a) (buffsize a) (aused a));
        mret (Some (active_ptr i))
      else open_find n' (i + 1) file Type0
  end.

Fixpoint open_free (n : nat) (i file : Z) (Type0 : FileOpenType) : M fs Z :=
  match n with
  | O => mret NULLF
  | S n' =>
      a ← get_active (active_ptr i);
      if RefCnt a =? 0 then _ ← active_file_open (active_ptr i) file Type0; mret (active_ptr i)
      else open_free n' (i + 1) file Type0
  end.

Definition open_file (file : Z) (Type0 : FileOpenType) : M fs Z :=
  r ← open_find MAX_ACTIVE_CNT 0 file Type0;
  match r with
  | Some p => mret p
  | None => open_free MAX_ACTIVE_CNT 0 file Type0
  end.

Definition close_file (acfile : Z) : M fs unit :=
  a ← get_active acfile;
  _ ← put_active acfile
        (mk_active (afile a) (i32 (RefCnt a - 1)) (Type_ a) (ahead a) (buffsize a) (aused a));
  a ← get_active acfile;
  if RefCnt a =? 0 then active_file_close acfile else mret tt.
End fs.

Arguments fs D : clear implicits.
