(* ===== verification/FsFunc.v ===== *)
(** * FsFunc: filesystem/fsfunc.c, the operations on the file system

    The tree of files is built from the directory sectors, searched and
    changed; files are written through a list of sector buffers and read from
    the chain of clusters.  Loops over siblings and clusters have a bound of
    4097, more than there are files or FAT entries: only a cyclic list of
    siblings or a cyclic chain reaches it. *)

From Stdlib Require Import String.
From S2P Require Import Prelude CString BlockDev Disk Fat Stdio Names File.

Definition LOOP : nat := 4097.

Section fsfunc.
Context {D : Type} `{BlockDevice D}.

(** ** The tree *)

(** The entry at [i]: a file for it, linked behind [now], and the directory it
    names.  The result is [head] and [now] afterwards. *)
Definition build_entry (rec : Z -> Z -> M (fs D) Z) (fa : Z) (buff : list Z) (i head now : Z)
    : M (fs D) (Z * Z) :=
  p ← make_file_from_sector fa buff i;
  head ← (if now =? NULLF then mret p
          else _ ← upd_file now (set_NextSib p); mret head);
  f ← get_file p;
  c0 ← lift (aget (Filename f) 0);
  _ ← (if (Attr f =? 0x10) && negb (c0 =? 0x2E) then
         son ← rec p (FstClus f);
         upd_file p (set_FstSon son)
       else mret tt);
  mret (head, p).

Fixpoint build_entries (rec : Z -> Z -> M (fs D) Z) (n : nat) (fa : Z) (buff : list Z) (i head now : Z)
    : M (fs D) (Z * Z) :=
  match n with
  | O => mret (head, now)
  | S n' =>
      c ← lift (aget buff i);
      if (c =? 0xE5) || (c =? 0) then build_entries rec n' fa buff (i + 32) head now
      else
        '(head, now) ← build_entry rec fa buff i head now;
        build_entries rec n' fa buff (i + 32) head now
  end.

Fixpoint build_loop (fuel : nat) (fa clusID secID head now : Z) : M (fs D) Z :=
  match fuel with
  | O => fail OutOfFuel
  | S n =>
      if (clusID =? 0) && (secID =? 33) then mret head
      else if negb (clusID =? 0) && (0xFF8 <=? clusID) && (clusID <=? 0xFFF) then mret head
      else
        buff ← on_disk (read_sector secID);
        '(head, now) ← build_entries
           (fun fa' c => build_loop n fa' c (if c =? 0 then 19 else u16 (c + ClusToSec)) NULLF NULLF)
           16 fa buff 0 head now;
        if clusID =? 0 then build_loop n fa clusID (u16 (secID + 1)) head now
        else
          next ← on_disk (get_fat_next_cluster clusID);
          build_loop n fa next (u16 (next + ClusToSec)) head now
  end.

Definition build_tree (fa clusID : Z) : M (fs D) Z :=
  build_loop LOOP fa clusID (if clusID =? 0 then 19 else u16 (clusID + ClusToSec)) NULLF NULLF.

Definition build_all_tree : M (fs D) unit :=
  son ← build_tree rootfile 0;
  upd_file rootfile (set_FstSon son).

Fixpoint list_directory_loop (fuel : nat) (now : Z) (ShowHid : bool) : M (fs D) unit :=
  if now =? NULLF then mret tt
  else
    match fuel with
    | O => fail OutOfFuel
    | S n =>
        _ ← file_print_all now ShowHid;
        f ← get_file now;
        list_directory_loop n (NextSib f) ShowHid
    end.
Definition list_directory (dir : Z) (ShowHid : bool) : M (fs D) unit :=
  d ← get_file dir; list_directory_loop LOOP (FstSon d) ShowHid.

(** [tree_directory_with_spacenum], with the loop over sons passed the
    function itself. *)
Fixpoint for_sons (rec : Z -> M (fs D) unit) (fuel : nat) (son : Z) : M (fs D) unit :=
  if son =? NULLF then mret tt
  else
    match fuel with
    | O => fail OutOfFuel
    | S n => _ ← rec son; f ← get_file son; for_sons rec n (NextSib f)
    end.

Fixpoint tree_directory_with_spacenum (fuel : nat) (SpaceNum p : Z) (ShowHid : bool) (maxLayer : Z)
    : M (fs D) unit :=
  match fuel with
  | O => fail OutOfFuel
  | S n =>
      f ← get_file p;
      c0 ← lift (aget (Filename f) 0);
      if negb (used f) || (c0 =? 0x2E) then mret tt
      else if negb ShowHid && (Attr f =? 0x02) then mret tt
      else
        _ ← print_blanks (Z.to_nat SpaceNum);
        _ ← say "|---";
        _ ← file_print_name f;
        _ ← say_line "";
        if SpaceNum =? i32 ((maxLayer - 1) * 4) then mret tt
        else for_sons (fun son => tree_directory_with_spacenum n (SpaceNum + 4) son ShowHid maxLayer)
               LOOP (FstSon f)
  end.

Definition tree_directory (dir : Z) (ShowHid : bool) (maxLayer : Z) : M (fs D) unit :=
  _ ← say_line ".";
  d ← get_file dir;
  for_sons (fun now => tree_directory_with_spacenum LOOP 0 now ShowHid maxLayer) LOOP (FstSon d).

(** ** Search *)

(** [for (i = 0; i < 11; i++) if (a[i] != b[i]) { same = false; break; }]. *)
Fixpoint same_name (n : nat) (a b : list Z) (i : Z) : res bool :=
  match n with
  | O => Ok true
  | S n' => x ← aget a i; y ← aget b i; if negb (x =? y) then Ok false else same_name n' a b (i + 1)
  end.

Fixpoint find_sibling (fuel : nat) (now : Z) (filename : list Z) : M (fs D) Z :=
  if now =? NULLF then mret NULLF
  else
    match fuel with
    | O => fail OutOfFuel
    | S n =>
        f ← get_file now;
        same ← lift (same_name 11 (Filename f) filename 0);
        if (same : bool) then mret now else find_sibling n (NextSib f) filename
    end.

Definition is_file_exist (dir : Z) (filename : list Z) : M (fs D) Z :=
  d ← get_file dir; find_sibling LOOP (FstSon d) filename.

Definition change_directory (dir : Z) (subdirname : list Z) : M (fs D) Z :=
  r1 ← lift (strcmp subdirname 0 (cs ".          ") 0);
  if r1 =? 0 then mret dir
  else
    r2 ← lift (strcmp subdirname 0 (cs "..         ") 0);
    d ← get_file dir;
    if r2 =? 0 then mret (Fa d)
    else find_sibling LOOP (FstSon d) subdirname.

(** ** Creation *)

Definition name_clash (p : Z) : M (fs D) unit :=
  f ← get_file p;
  if Attr f =? 0x20 then say_line "There is a directory with the same name in this path."
  else say_line "There is a file with the same name in this path".

Definition create_empty_file (dir : Z) (Filename0 : list Z) (Attr0 WrtTime0 WrtDate0 : Z) : M (fs D) bool :=
  p ← is_file_exist dir Filename0;
  if negb (p =? NULLF) then _ ← name_clash p; mret false
  else
    clusID ← on_disk find_empty_cluster;
    if clusID =? -1 then mret false
    else
      file ← get_empty_file;
      _ ← init_file file dir Filename0 Attr0 WrtTime0 WrtDate0 clusID 0;
      r ← create_dir_entry dir file;
      if negb r then _ ← upd_file file (set_used false); mret false
      else
        _ ← on_disk (write_fat_next_cluster clusID 0xFFF);
        d ← get_file dir;
        _ ← upd_file file (set_NextSib (FstSon d));
        _ ← upd_file dir (set_FstSon file);
        mret true.

Definition create_empty_directory (dir : Z) (Filename0 : list Z) (WrtTime0 WrtDate0 : Z) : M (fs D) bool :=
  p ← is_file_exist dir Filename0;
  if negb (p =? NULLF) then _ ← name_clash p; mret false
  else
    clusID ← on_disk find_empty_cluster;
    if clusID =? -1 then mret false
    else
      subdir ← get_empty_file;
      _ ← init_file subdir dir Filename0 0x10 WrtTime0 WrtDate0 clusID 0;
      r ← create_dir_entry dir subdir;
      if negb r then _ ← upd_file subdir (set_used false); mret false
      else
        _ ← on_disk (write_fat_next_cluster clusID 0xFFF);
        r ← write_empty_directory dir subdir;
        if negb r then _ ← upd_file subdir (set_used false); mret false
        else
          d ← get_file dir;
          _ ← upd_file subdir (set_NextSib (FstSon d));
          _ ← upd_file dir (set_FstSon subdir);
          mret true.

(** ** Writing and reading *)

(** The next cluster of the chain, appended when it ends, and a new buffer
    behind [now]; [None] where the caller returns false. *)
Definition next_buffer (clusID now : Z) : M (fs D) (option (Z * Z)) :=
  newClusID ← on_disk (get_fat_next_cluster clusID);
  newClusID ← (if (0xFF8 <=? newClusID) && (newClusID <=? 0xFFF)
               then on_disk (append_a_cluster clusID) else mret newClusID);
  if newClusID =? -1 then mret None
  else
    a ← get_node now;
    node ← get_empty_AFBLNode;
    _ ← put_node now (mk_node (nbuff a) node (nused a));
    if node =? NULLF then mret None else mret (Some (newClusID, node)).

Definition flush (cnt clusID now : Z) (buff : list Z) : M (fs D) (option (Z * Z)) :=
  r ← (if 1 <? cnt then next_buffer clusID now else mret (Some (clusID, now)));
  match r with
  | None => mret None
  | Some (clusID, now) => _ ← init_AFBLNode now buff NULLF; mret (Some (clusID, now))
  end.

(** One iteration per character; [size] counts them. *)
Fixpoint write_loop (n : nat) (s : list Z) (i id cnt clusID now : Z) (buff : list Z)
    : M (fs D) (option (Z * Z * Z * Z * list Z)) :=
  match n with
  | O => mret (Some (id, cnt, clusID, now, buff))
  | S n' =>
      c ← lift (aget s i);
      buff ← (if id <? BytePerSec then lift (aset buff id c) else mret buff);
      if id =? BytePerSec - 1 then
        buff ← lift (aset buff (id + 1) 0);
        r ← flush (cnt + 1) clusID now buff;
        match r with
        | None => mret None
        | Some (clusID, now) => write_loop n' s (i + 1) ((id + 1) mod BytePerSec) (cnt + 1) clusID now buff
        end
      else write_loop n' s (i + 1) ((id + 1) mod BytePerSec) cnt clusID now buff
  end.

(** [for (i = id; i < BytePerSec; i++) buff[i] = 0]. *)
Definition zero_tail (buff : list Z) (id : Z) : res (list Z) :=
  memset buff id 0 (BytePerSec - id).

Definition set_ahead (acfile now : Z) : M (fs D) unit :=
  a ← get_active acfile;
  put_active acfile (mk_active (afile a) (RefCnt a) (Type_ a) now (buffsize a) (aused a)).
Definition set_buffsize (acfile size : Z) : M (fs D) unit :=
  a ← get_active acfile;
  put_active acfile (mk_active (afile a) (RefCnt a) (Type_ a) (ahead a) (u32 size) (aused a)).

(** The local arrays are not initialised: every cell is written before it is
    read, so they start as zeros here. *)
Definition write_file (acfile : Z) : M (fs D) bool :=
  a ← get_active acfile;
  if bool_decide (Type_ a = ReadOnly) then mret false
  else
    now ← get_empty_AFBLNode;
    _ ← set_ahead acfile now;
    f ← get_file (afile a);
    _ ← say_line "Please enter content: ";
    ds ← scan (cs "%s") [DStr (replicate 1024 0)];
    match ds with
    | [DStr s] =>
        s_len ← lift (strlen s 0);
        r ← write_loop (Z.to_nat s_len) s 0 0 0 (FstClus f) now (replicate 512 0);
        match r with
        | None => mret false
        | Some (id, cnt, clusID, now, buff) =>
            r ← (if 0 <? id then
                   buff ← lift (zero_tail buff id);
                   flush (cnt + 1) clusID now buff
                 else mret (Some (clusID, now)));
            match r with
            | None => mret false
            | Some (clusID, _) =>
                _ ← on_disk (write_fat_next_cluster clusID 0xFFF);
                _ ← set_buffsize acfile s_len;
                mret true
            end
        end
    | _ => fail Fault
    end.

Fixpoint write_sda_loop (n : nat) (i clusID now : Z) : M (fs D) bool :=
  match n with
  | O => mret true
  | S n' =>
      r ← (if 1 <=? i then next_buffer clusID now else mret (Some (clusID, now)));
      match r with
      | None => mret false
      | Some (clusID, now) =>
          buff ← gets (fun s => dread (fsda s) (300 + i));
          _ ← init_AFBLNode now buff NULLF;
          write_sda_loop n' (i + 1) clusID now
      end
  end.

Definition write_file_from_sda (acfile filesize : Z) : M (fs D) bool :=
  a ← get_active acfile;
  if bool_decide (Type_ a = ReadOnly) then mret false
  else
    now ← get_empty_AFBLNode;
    _ ← set_ahead acfile now;
    f ← get_file (afile a);
    r ← write_sda_loop (Z.to_nat (DIV_ROUND_UP filesize 512)) 0 (FstClus f) now;
    if negb r then mret false
    else _ ← set_buffsize acfile filesize; mret true.

(** The inner loop of [read_file]; stops when [size] reaches the file's. *)
Fixpoint read_sector_chars (n : nat) (buff : list Z) (i size fsize : Z) : M (fs D) Z :=
  match n with
  | O => mret size
  | S n' =>
      c ← lift (aget buff i);
      _ ← print (cs "%c") [AInt c];
      if size + 1 =? fsize then mret (size + 1)
      else read_sector_chars n' buff (i + 1) (size + 1) fsize
  end.

Fixpoint read_loop (fuel : nat) (clusID size fsize : Z) : M (fs D) unit :=
  match fuel with
  | O => fail OutOfFuel
  | S n =>
      if (0xFF8 <=? clusID) && (clusID <=? 0xFFF) then mret tt
      else
        buff ← on_disk (read_sector (clusID + ClusToSec));
        size ← read_sector_chars 512 buff 0 size fsize;
        next ← on_disk (get_fat_next_cluster clusID);
        read_loop n next size fsize
  end.

Definition read_file (acfile : Z) : M (fs D) unit :=
  a ← get_active acfile;
  f ← get_file (afile a);
  _ ← read_loop LOOP (FstClus f) 0 (FileSize f);
  say_line "".

(** ** Deletion *)

Fixpoint unlink_loop (fuel : nat) (fa file now pre : Z) (found : bool) : M (fs D) bool :=
  if now =? NULLF then mret found
  else
    match fuel with
    | O => fail OutOfFuel
    | S n =>
        f ← get_file now;
        _ ← (if now =? file then
               if negb (pre =? NULLF) then upd_file pre (set_NextSib (NextSib f))
               else upd_file fa (set_FstSon (NextSib f))
             else mret tt);
        f ← get_file now;
        unlink_loop n fa file (NextSib f) now (found || (now =? file))
    end.

Definition delete_file_from_fa (fa file : Z) : M (fs D) bool :=
  d ← get_file fa;
  found ← unlink_loop LOOP fa file (FstSon d) NULLF false;
  if negb found then
    f ← get_file file;
    _ ← (if Attr f =? 0x10 then say_line "No such directory in this path."
         else say_line "No such file in this directory.");
    mret false
  else mret true.

Definition delete_file (dir file : Z) : M (fs D) bool :=
  r ← delete_file_from_fa dir file;
  if negb r then mret false
  else
    _ ← clear_file_of file;
    _ ← upd_file file (set_used false);
    mret true.

Fixpoint dir_empty_loop (fuel : nat) (son : Z) : M (fs D) bool :=
  if son =? NULLF then mret false
  else
    match fuel with
    | O => fail OutOfFuel
    | S n =>
        f ← get_file son;
        c0 ← lift (aget (Filename f) 0);
        if negb (c0 =? 0x2E) then mret false else dir_empty_loop n (NextSib f)
    end.
Definition is_dir_empty (dir : Z) : M (fs D) bool :=
  d ← get_file dir; dir_empty_loop LOOP (FstSon d).

Fixpoint delete_directory (fuel : nat) (fa dir : Z) (rc : bool) : M (fs D) bool :=
  match fuel with
  | O => fail OutOfFuel
  | S n =>
      e ← (if negb rc then is_dir_empty dir else mret false);
      if negb rc && e then _ ← say_line "Error: This directory is not empty."; mret false
      else
        r ← delete_file_from_fa fa dir;
        if negb r then mret false
        else
          _ ← (if rc then
                 d ← get_file dir;
                 for_sons (fun son =>
                   f ← get_file son;
                   c0 ← lift (aget (Filename f) 0);
                   if negb (c0 =? 0x2E) then
                     if Attr f =? 0x10 then _ ← delete_directory n dir son true; mret tt
                     else _ ← delete_file dir son; mret tt
                   else mret tt) LOOP (FstSon d)
               else mret tt);
          _ ← clear_file_of dir;
          _ ← upd_file dir (set_used false);
          mret true
  end.

(** ** Appending one file to another *)

Fixpoint last_cluster (fuel : nat) (clusID2 : Z) : M (fs D) Z :=
  match fuel with
  | O => fail OutOfFuel
  | S n =>
      nextClus2 ← on_disk (get_fat_next_cluster clusID2);
      if (0xFF8 <=? nextClus2) && (nextClus2 <=? 0xFFF) then mret clusID2
      else last_cluster n nextClus2
  end.

(** [for (i = id; i < 512; i++) buff2[i] = buff1[i - id]], then
    [for (i = 512 - id; i < 512; i++) buff2[j++] = buff1[i]]. *)
Definition copy_head (buff2 buff1 : list Z) (id : Z) : res (list Z) :=
  memcpy buff2 id buff1 0 (BytePerSec - id).
Definition copy_tail (buff2 buff1 : list Z) (id : Z) : res (list Z) :=
  memcpy buff2 0 buff1 (BytePerSec - id) id.

Fixpoint append_loop (fuel : nat) (clusID1 clusID2 id : Z) (buff2 : list Z) : M (fs D) (option (Z * list Z)) :=
  match fuel with
  | O => fail OutOfFuel
  | S n =>
      if (0xFF8 <=? clusID1) && (clusID1 <=? 0xFFF) then mret (Some (clusID2, buff2))
      else
        buff1 ← on_disk (read_sector (clusID1 + ClusToSec));
        buff2 ← lift (copy_head buff2 buff1 id);
        _ ← on_disk (write_sector (clusID2 + ClusToSec) buff2);
        r ← (if id <? BytePerSec - 1 then
               c ← on_disk (append_a_cluster clusID2);
               if c =? -1 then mret None
               else b ← on_disk (read_sector (c + ClusToSec)); mret (Some (c, b))
             else mret (Some (clusID2, buff2)));
        match r with
        | None => mret None
        | Some (clusID2, buff2) =>
            buff2 ← lift (copy_tail buff2 buff1 id);
            next ← on_disk (get_fat_next_cluster clusID1);
            append_loop n next clusID2 id buff2
        end
  end.

Definition append_file (file1 file2 : Z) : M (fs D) bool :=
  f1 ← get_file file1;
  f2 ← get_file file2;
  clusID2 ← last_cluster LOOP (FstClus f2);
  buff2 ← on_disk (read_sector (clusID2 + ClusToSec));
  let id := FileSize f2 mod BytePerSec in
  r ← (if id =? 0 then
         c ← on_disk (append_a_cluster clusID2);
         if c =? -1 then mret None
         else b ← on_disk (read_sector (c + ClusToSec)); mret (Some (c, b))
       else mret (Some (clusID2, buff2)));
  match r with
  | None => mret false
  | Some (clusID2, buff2) =>
      r ← append_loop LOOP (FstClus f1) clusID2 id buff2;
      match r with
      | None => mret false
      | Some (clusID2, buff2) =>
          _ ← on_disk (write_sector (clusID2 + ClusToSec) buff2);
          f1 ← get_file file1;
          _ ← upd_file file2 (fun f => set_FileSize (u32 (FileSize f + FileSize f1)) f);
          mret true
      end
  end.
End fsfunc.
