(* ===== verification/Shell.v ===== *)
(** * Shell: the commands of filesystem/fsfunc.c and kernel/shell.c

    Each command reads its words with [scanf] into arrays of 50 characters,
    walks to the directory and calls the operations of FsFunc.  [shell_exec]
    stops at [fork]: what it does before is modelled, the process it starts is
    not.  Also [boot_sector_init] of filesystem/disk.c, the first thing the
    shell does. *)

From Stdlib Require Import String.
From S2P Require Import Prelude CString BlockDev Disk Fat Stdio Names File FsFunc.

Definition buf50 : list Z := replicate 50 0.

Definition msg_help : list Z :=
  lit "help: print the instructions and their usage" ++ [10; 13] ++
  [10; 13] ++
  lit "        usage: help " ++ [10; 13] ++
  [10; 13] ++
  lit "ls: list directory contents " ++ [10; 13] ++
  [10; 13] ++
  lit "        usage: ls -l                list information of unhidden files in the directory" ++ [10; 13] ++
  lit "               ls -al               list information of all files in the directory" ++ [10; 13] ++
  [10; 13] ++
  lit "tree: list contents of directories in a tree-like format." ++ [10; 13] ++
  [10; 13] ++
  lit "        usage: tree -L level        level is the max display depth of the directory tree." ++ [10; 13] ++
  lit "                                    For example, 'tree -L 3'" ++ [10; 13] ++
  lit "                                    By default, hidden files are not shown" ++ [10; 13] ++
  lit "               tree -aL level       Also show the hidden files'" ++ [10; 13] ++
  [10; 13] ++
  lit "cd: change directory" ++ [10; 13] ++
  [10; 13] ++
  lit "        usage: cd relative_path     For example, 'cd subdir/subsubdir' " ++ [10; 13] ++
  lit "               cd absolute_path     Absolute path is begin with '/'" ++ [10; 13] ++
  lit "                                    For example, 'cd /dir/subdir' " ++ [10; 13] ++
  [10; 13] ++
  lit "touch: create a new empty file" ++ [10; 13] ++
  [10; 13] ++
  lit "        usage: touch filename" ++ [10; 13] ++
  [10; 13] ++
  lit "mkdir: create a new empty directory" ++ [10; 13] ++
  [10; 13] ++
  lit "        usage: mkdir dirname" ++ [10; 13] ++
  [10; 13] ++
  lit "cat: print the content of the file" ++ [10; 13] ++
  [10; 13] ++
  lit "        usage: cat filename" ++ [10; 13] ++
  [10; 13] ++
  lit "write: write the content of the file" ++ [10; 13] ++
  [10; 13] ++
  lit "        usage : write filename" ++ [10; 13] ++
  [10; 13] ++
  lit "append: copy the contentt of a file and paste it in the tail of another file" ++ [10; 13] ++
  [10; 13] ++
  lit "        usage : append file1 file2 The content of file1 is appended to file2" ++ [10; 13] ++
  [10; 13] ++
  lit "rm: delete files" ++ [10; 13] ++
  [10; 13] ++
  lit "        usage : rm filename Delete a file" ++ [10; 13] ++ lit " " ++
  lit "                rm -r dirname Delete the entire directory recursively" ++ [10; 13] ++
  [10; 13] ++
  lit "rmdir: delete a empty directory" ++ [10; 13] ++
  [10; 13] ++
  lit "        usage : rmdir dirname" ++ [10; 13] ++
  [10; 13] ++ [0].

Record BootSector := mk_boot {
  BS_OEMName : list Z;
  BPB_BytsPerSec : Z;
  BPB_SecPerClus : Z;
  BPB_ResvdSecCnt : Z;
  BPB_NumFATs : Z;
  BPB_RootEntCnt : Z;
  BPB_TotSec16 : Z;
  BPB_Media : Z;
  BPB_FATSz16 : Z;
  BPB_SecPerTrk : Z;
  BPB_NumHeads : Z;
  BPB_HiddSec : Z;
  BPB_TotSec32 : Z;
  BPB_DrvNum : Z;
  BS_Reserved1 : Z;
  BS_BootSig : Z;
  BS_VolID : Z;
  BS_VolLab : list Z;
  BS_FileSysType : list Z }.

Section shell.
Context {D : Type} `{BlockDevice D}.

(** [None] where the signature is missing; otherwise the fields read and the
    value returned. *)
Definition boot_sector_init : M (dstate D) (option (BootSector * bool)) :=
  buff ← read_sector 0;
  b510 ← lift (aget buff 510);
  b511 ← lift (aget buff 511);
  if negb (b510 =? 0x55) || negb (b511 =? 0xAA) then mret None
  else
    oem ← lift (read_cells 8 buff 3);
    bps ← lift (get_u16 buff 11);
    spc ← lift (get_u8 buff 13);
    rsv ← lift (get_u16 buff 14);
    nf ← lift (get_u8 buff 16);
    re ← lift (get_u16 buff 17);
    ts ← lift (get_u16 buff 19);
    md ← lift (get_u8 buff 21);
    fsz ← lift (get_u16 buff 22);
    spt ← lift (get_u16 buff 24);
    nh ← lift (get_u16 buff 26);
    hs ← lift (get_u32 buff 28);
    ts32 ← lift (get_u32 buff 32);
    dn ← lift (get_u8 buff 36);
    r1 ← lift (get_u8 buff 37);
    bsig ← lift (get_u8 buff 38);
    vid ← lift (get_u32 buff 39);
    lab ← lift (read_cells 11 buff 43);
    typ ← lift (read_cells 8 buff 54);
    mret (Some (mk_boot oem bps spc rsv nf re ts md fsz spt nh hs ts32 dn r1 bsig vid lab typ,
                ts32 =? 0)).

Definition line_num (s : string) (x : Z) : M (fs D) unit := print (lit s ++ lit "%d" ++ [10; 0]) [AInt x].

Definition show_boot_sector_info (b : BootSector) : M (fs D) unit :=
  _ ← line_num "Bytes per sector:  " (BPB_BytsPerSec b);
  _ ← line_num "Sectors per cluster:  " (BPB_SecPerClus b);
  _ ← line_num "Number of reserved sectors:  " (BPB_ResvdSecCnt b);
  _ ← line_num "Number of FATs: " (BPB_NumFATs b);
  _ ← line_num "Maximum number of root directory entries: " (BPB_RootEntCnt b);
  _ ← line_num "Total sector count(16): " (BPB_TotSec16 b);
  _ ← line_num "Media: " (BPB_Media b);
  _ ← line_num "Sectors per FAT: " (BPB_FATSz16 b);
  _ ← line_num "Sectors per track: " (BPB_SecPerTrk b);
  _ ← line_num "Number of heads: " (BPB_NumHeads b);
  _ ← line_num "Number of hidden sectors: " (BPB_HiddSec b);
  _ ← line_num "Total sector count for FAT32 (0 for FAT12 and FAT16): " (BPB_TotSec32 b);
  _ ← line_num "DrvNum: " (BPB_DrvNum b);
  _ ← line_num "Boot signature: " (BS_BootSig b);
  _ ← line_num "Volume id: " (BS_VolID b);
  print (lit "--End of Boot Sector Information.--" ++ [10; 10; 0]) [].

Definition shell_help : M (fs D) unit := print (lit "%s" ++ [10; 0]) [AStr msg_help 0].

(** [scanf("%s", a)] with [a] of the given size. *)
Definition scan_str (n : nat) : M (fs D) (list Z) :=
  ds ← scan (cs "%s") [DStr (replicate n 0)];
  match ds with [DStr s] => mret s | _ => fail Fault end.

Definition is_str (a : list Z) (s : string) : M (fs D) bool :=
  r ← lift (strcmp a 0 (cs s) 0); mret (r =? 0).

Definition shell_ls (nowDir : Z) : M (fs D) unit :=
  par ← scan_str 50;
  l ← is_str par "-l";
  if (l : bool) then list_directory nowDir false
  else
    al ← is_str par "-al";
    if (al : bool) then list_directory nowDir true
    else say_line "usage: ls -l or ls -al".

Definition shell_tree (nowDir : Z) : M (fs D) unit :=
  ds ← scan (cs "%s%d") [DStr buf50; DInt 0];
  match ds with
  | [DStr par; DInt level] =>
      l ← is_str par "-L";
      if (l : bool) then tree_directory nowDir false (i32 level)
      else
        al ← is_str par "-aL";
        if (al : bool) then tree_directory nowDir true (i32 level)
        else
          _ ← say_line "usage: tree -L level or tree -aL level";
          say_line "Use help to see explanation."
  | _ => fail Fault
  end.

(** [try_cd(dirPath, &nowDir, nowPath)]: the value returned, [*ptr_to_nowDir]
    and [nowPath] after the call.  In the absolute case the recursive call
    works on a local variable, so the directory handed back is the root. *)
Fixpoint try_cd (fuel : nat) (dirPath : list Z) (nowDir : Z) (nowPath : list Z) : M (fs D) (bool * Z * list Z) :=
  match fuel with
  | O => fail OutOfFuel
  | S n =>
      sl ← lift (strlen dirPath 0);
      if sl =? 0 then mret (true, nowDir, nowPath)
      else
        c0 ← lift (aget dirPath 0);
        if c0 =? 47 then
          nowPath ← lift (strcpy nowPath 0 (cs "/") 0);
          '(newDirPath, _) ← lift (copy_rest (S (length dirPath)) dirPath buf50 1 0);
          '(b, _, nowPath) ← try_cd n newDirPath rootfile nowPath;
          mret (b, rootfile, nowPath)
        else
          '(fstDir, resPath) ← lift (divede_path dirPath buf50 buf50);
          '(fstDir, filename) ← lift (generate_filename fstDir buf50);
          next ← change_directory nowDir filename;
          if next =? NULLF then mret (false, nowDir, nowPath)
          else
            dd ← is_str fstDir "..";
            nowPath ← (if (dd : bool) then lift (fa_dir_path nowPath)
                       else
                         d ← is_str fstDir ".";
                         if negb d then
                           root ← is_str nowPath "/";
                           nowPath ← (if negb root then lift (strcat nowPath 0 (cs "/") 0) else mret nowPath);
                           lift (strcat nowPath 0 fstDir 0)
                         else mret nowPath);
            try_cd n resPath next nowPath
  end.

Definition CD : nat := 100.

Definition shell_cd (nowDir : Z) (nowPath : list Z) : M (fs D) (Z * list Z) :=
  s ← scan_str 50;
  dirPath ← lift (standard_dir_path buf50 s);
  nextPath ← lift (strcpy buf50 0 nowPath 0);
  '(b, nextDir, nextPath) ← try_cd CD dirPath nowDir nextPath;
  if (b : bool) then
    nowPath ← lift (strcpy nowPath 0 nextPath 0);
    _ ← say_line "Successfully changed directory.";
    mret (nextDir, nowPath)
  else
    _ ← say_line "Failed to change directory.";
    mret (nowDir, nowPath).

(** The common beginning of the commands that name a file: read the path,
    split it, go to the directory.  [None] when that fails. *)
Definition locate (nowDir : Z) (filePath : list Z) : M (fs D) (option (Z * list Z)) :=
  '(dirPath, filename) ← lift (file_path_to_dir_path filePath buf50 buf50);
  '(b, dir, _) ← try_cd CD dirPath nowDir buf50;
  mret (if (b : bool) then Some (dir, filename) else None).

Definition shell_touch (nowDir : Z) : M (fs D) unit :=
  filePath ← scan_str 50;
  r ← locate nowDir filePath;
  match r with
  | None => say_line "Failed to create empty file."
  | Some (dir, filename) =>
      b ← create_empty_file dir filename 0x20 (generate_time 0 0) (generate_date 1900 1 0);
      if (b : bool) then say_line "Successfully created empty file."
      else say_line "Failed to create empty file."
  end.

Definition shell_mkdir (nowDir : Z) : M (fs D) unit :=
  filePath ← scan_str 50;
  r ← locate nowDir filePath;
  match r with
  | None => say_line "Failed to create empty directory."
  | Some (dir, filename) =>
      b ← create_empty_directory dir filename (generate_time 0 0) (generate_date 1900 1 0);
      if (b : bool) then say_line "Successfully created empty directory."
      else say_line "Failed to create empty directory."
  end.

(** Find the file and open it; the checks of cat, write and exec. *)
Definition find_and_open (nowDir : Z) (filePath : list Z) (t : FileOpenType) : M (fs D) (option Z) :=
  r ← locate nowDir filePath;
  match r with
  | None => _ ← say_line "Failed to open and print the file."; mret None
  | Some (dir, filename) =>
      file ← is_file_exist dir filename;
      if file =? NULLF then _ ← say_line "Error: No such a file."; mret None
      else
        f ← get_file file;
        if Attr f =? 0x10 then _ ← say_line "Error: It's a directory."; mret None
        else
          acfile ← open_file file t;
          if acfile =? NULLF then
            _ ← say_line "The active file list is full. Failed to open and print the file.";
            mret None
          else mret (Some acfile)
  end.

Definition shell_cat (nowDir : Z) : M (fs D) unit :=
  filePath ← scan_str 50;
  r ← find_and_open nowDir filePath ReadOnly;
  match r with
  | None => mret tt
  | Some acfile => _ ← read_file acfile; close_file acfile
  end.

Definition shell_write (nowDir : Z) (from_sda : bool) (filesize : Z) : M (fs D) unit :=
  filePath ← scan_str 50;
  r ← find_and_open nowDir filePath ReadWrite;
  match r with
  | None => mret tt
  | Some acfile =>
      b ← (if from_sda then write_file_from_sda acfile filesize else write_file acfile);
      _ ← (if (b : bool) then say_line "Successfully wroted the file"
           else say_line "Failed to write the file");
      close_file acfile
  end.

Definition shell_append (nowDir : Z) : M (fs D) unit :=
  ds ← scan (cs "%s%s") [DStr buf50; DStr buf50];
  match ds with
  | [DStr filePath1; DStr filePath2] =>
      '(dirPath1, filename1) ← lift (file_path_to_dir_path filePath1 buf50 buf50);
      '(dirPath2, filename2) ← lift (file_path_to_dir_path filePath2 buf50 buf50);
      '(b1, dir1, _) ← try_cd CD dirPath1 nowDir buf50;
      '(b2, dir2, _) ← (if (b1 : bool) then try_cd CD dirPath2 nowDir buf50 else mret (false, nowDir, buf50));
      if negb b1 || negb b2 then say_line "Failed to open and print the file."
      else
        file1 ← is_file_exist dir1 filename1;
        file2 ← is_file_exist dir2 filename2;
        if (file1 =? NULLF) || (file2 =? NULLF) then say_line "Error: Both files should exist."
        else
          f1 ← get_file file1;
          f2 ← get_file file2;
          if (Attr f1 =? 0x10) || (Attr f2 =? 0x10) then say_line "Error: Can't append a directory"
          else
            acfile1 ← open_file file1 ReadOnly;
            acfile2 ← open_file file2 ReadWrite;
            a1 ← get_active acfile1;
            a2 ← get_active acfile2;
            b ← append_file (afile a1) (afile a2);
            if (b : bool) then say_line "Successfullly appended file."
            else say_line "Failed to append file. "
  | _ => fail Fault
  end.

Definition shell_rm (nowDir : Z) : M (fs D) unit :=
  s ← scan_str 10;
  rec ← is_str s "-r";
  if (rec : bool) then
    filePath ← scan_str 50;
    r ← locate nowDir filePath;
    match r with
    | None => say_line "Failed to open and print the file."
    | Some (dir, filename) =>
        file ← is_file_exist dir filename;
        if file =? NULLF then say_line "Error: No such a file."
        else
          b ← delete_directory LOOP dir file true;
          if (b : bool) then say_line "Successfully deleted the directory recursively."
          else say_line "Failed to delete the directory recursively."
    end
  else
    filePath ← lift (strcpy buf50 0 s 0);
    r ← locate nowDir filePath;
    match r with
    | None => say_line "Failed to open and print the file."
    | Some (dir, filename) =>
        file ← is_file_exist dir filename;
        if file =? NULLF then say_line "Error: No such a file."
        else
          f ← get_file file;
          if Attr f =? 0x10 then say_line "Error: It's a directory."
          else
            b ← delete_file dir file;
            if (b : bool) then say_line "Successfully deleted the file."
            else say_line "Failed to delete the file."
    end.

Definition shell_rmdir (nowDir : Z) : M (fs D) unit :=
  filePath ← scan_str 50;
  r ← locate nowDir filePath;
  match r with
  | None => say_line "Failed to open and print the file."
  | Some (dir, filename) =>
      file ← is_file_exist dir filename;
      b ← delete_directory LOOP dir file false;
      if (b : bool) then say_line "Successfully deleted the directory."
      else say_line "Failed to delete the directory."
  end.

Definition shell_write_program_to_sdb : M (fs D) unit :=
  _ ← shell_touch rootfile;
  ds ← scan (cs "%d") [DInt 0];
  match ds with
  | [DInt filesize] => shell_write rootfile true filesize
  | _ => fail Fault
  end.

(** [run acfile] stands for [fork], and [wait] in the parent or [execv] in
    the child. *)
Definition shell_exec (run : Z -> M (fs D) unit) (nowDir : Z) : M (fs D) unit :=
  filePath ← scan_str 50;
  r ← find_and_open nowDir filePath ReadOnly;
  match r with
  | None => mret tt
  | Some acfile => _ ← run acfile; close_file acfile
  end.

(** One turn of the loop of [shell]: a command, and the prompt. *)
Definition shell_turn (run : Z -> M (fs D) unit) (nowDir : Z) (nowPath : list Z) : M (fs D) (Z * list Z) :=
  inst ← scan_str 50;
  let stay (m : M (fs D) unit) : M (fs D) (Z * list Z) := (_ ← m; mret (nowDir, nowPath)) in
  let test (s : string) (yes no : M (fs D) (Z * list Z)) : M (fs D) (Z * list Z) :=
    (b ← is_str inst s; if (b : bool) then yes else no) in
  '(nowDir, nowPath) ←
    test "help"%string (stay shell_help)
    (test "ls"%string (stay (shell_ls nowDir))
    (test "tree"%string (stay (shell_tree nowDir))
    (test "cd"%string (shell_cd nowDir nowPath)
    (test "touch"%string (stay (shell_touch nowDir))
    (test "mkdir"%string (stay (shell_mkdir nowDir))
    (test "cat"%string (stay (shell_cat nowDir))
    (test "write"%string (stay (shell_write nowDir false 0))
    (test "append"%string (stay (shell_append nowDir))
    (test "rm"%string (stay (shell_rm nowDir))
    (test "rmdir"%string (stay (shell_rmdir nowDir))
    (test "exec"%string (stay (shell_exec run nowDir))
    (test "sdb"%string (stay shell_write_program_to_sdb)
      (stay (say_line "Invalid command."))))))))))))));
  _ ← print ([10] ++ lit "%s:" ++ [0]) [AStr nowPath 0];
  mret (nowDir, nowPath).
End shell.
