(* ===== verification/Entry.v ===== *)
(** * Entry: directory entries on the disk

    What [create_dir_entry_in_sector] writes into a directory sector and what
    [make_file_from_sector] reads from it: the encoding of a file as a 32-byte
    entry, the choice of the slot, and the round trip. *)

From Stdlib Require Import String.
From S2P Require Import Prelude CString BlockDev Disk Fat Stdio Names File.

(** ** Cells of a part of an array *)

Lemma aget_part pre l post (k : nat) x : l !! k = Some x ->
  aget (pre ++ l ++ post) (zlen pre + Z.of_nat k) = Ok x.
Proof.
  intros Hk. apply aget_ok; [unfold zlen; lia|].
  replace (Z.to_nat (zlen pre + Z.of_nat k)) with (length pre + k)%nat by (unfold zlen; lia).
  rewrite lookup_app_r by lia. replace (length pre + k - length pre)%nat with k by lia.
  by apply lookup_app_l_Some.
Qed.

Lemma aset_part pre l post (k : nat) x : (k < length l)%nat ->
  aset (pre ++ l ++ post) (zlen pre + Z.of_nat k) x = Ok (pre ++ <[k := x]> l ++ post).
Proof.
  intros Hk. rewrite aset_ok by (rewrite !zlen_app; unfold zlen; lia).
  replace (Z.to_nat (zlen pre + Z.of_nat k)) with (length pre + k)%nat by (unfold zlen; lia).
  rewrite insert_app_r_alt by lia. replace (length pre + k - length pre)%nat with k by lia.
  by rewrite insert_app_l.
Qed.

(** ** The encoding *)

Definition le16 (x : Z) : list Z := [x mod 256; x / 256 mod 256].
Definition le32 (x : Z) : list Z := [x mod 256; x / 256 mod 256; x / 65536 mod 256; x / 16777216 mod 256].

(** The entry of [f] in place of [slot]; the ten reserved bytes stay. *)
Definition encode (f : File) (slot : list Z) : list Z :=
  Filename f ++ [Attr f] ++ take 10 (drop 12 slot) ++
  le16 (WrtTime f) ++ le16 (WrtDate f) ++ le16 (FstClus f) ++ le32 (FileSize f).

Record file_wf (f : File) : Prop := {
  fw_name : length (Filename f) = 11%nat;
  fw_bytes : bytes (Filename f);
  fw_attr : is_byte (Attr f);
  fw_time : 0 <= WrtTime f < 65536;
  fw_date : 0 <= WrtDate f < 65536;
  fw_clus : 0 <= FstClus f < 65536;
  fw_size : 0 <= FileSize f < 4294967296 }.

Lemma u8_shiftr x k : 0 <= k -> u8 (Z.shiftr x k) = x / 2 ^ k mod 256.
Proof. intros Hk. unfold u8. by rewrite Z.shiftr_div_pow2. Qed.

Lemma write_u8_part pre l post k x : (k < length l)%nat -> is_byte x ->
  write_u8 (pre ++ l ++ post) (zlen pre + Z.of_nat k) x = Ok (pre ++ <[k := x]> l ++ post).
Proof. intros Hk Hx. unfold write_u8. rewrite u8_small by done. by apply aset_part. Qed.

Lemma write_u16_part pre l post k x : (S k < length l)%nat ->
  write_u16 (pre ++ l ++ post) (zlen pre + Z.of_nat k) x
  = Ok (pre ++ <[S k := x / 256 mod 256]> (<[k := x mod 256]> l) ++ post).
Proof.
  intros Hk. unfold write_u16. rewrite (bindR_ok _ _ _ (aset_part pre l post k _ ltac:(lia))).
  rewrite u8_shiftr by lia.
  replace (zlen pre + Z.of_nat k + 1) with (zlen pre + Z.of_nat (S k)) by lia.
  rewrite aset_part by (rewrite length_insert; lia). done.
Qed.

Lemma write_u32_part pre l post k x : (S (S (S k)) < length l)%nat ->
  write_u32 (pre ++ l ++ post) (zlen pre + Z.of_nat k) x
  = Ok (pre ++ <[S (S (S k)) := x / 16777216 mod 256]> (<[S (S k) := x / 65536 mod 256]>
         (<[S k := x / 256 mod 256]> (<[k := x mod 256]> l))) ++ post).
Proof.
  intros Hk. unfold write_u32. rewrite !u8_shiftr by lia.
  replace (zlen pre + Z.of_nat k + 1) with (zlen pre + Z.of_nat (S k)) by lia.
  replace (zlen pre + Z.of_nat k + 2) with (zlen pre + Z.of_nat (S (S k))) by lia.
  replace (zlen pre + Z.of_nat k + 3) with (zlen pre + Z.of_nat (S (S (S k)))) by lia.
  unfold mbind, res_bind.
  rewrite aset_part by lia. cbv beta iota.
  rewrite aset_part by (rewrite length_insert; lia). cbv beta iota.
  rewrite aset_part by (rewrite !length_insert; lia). cbv beta iota.
  rewrite aset_part by (rewrite !length_insert; lia). reflexivity.
Qed.

Lemma write_name_part name : forall pre mid post, length mid = length name -> bytes name ->
  write_name name (pre ++ mid ++ post) (zlen pre) = Ok (pre ++ name ++ post).
Proof.
  induction name as [|c name IH]; intros pre [|x mid] post Hm Hb; try done.
  apply Forall_cons in Hb as [Hc Hb]. cbn [write_name].
  pose proof (write_u8_part pre (x :: mid) post 0 c ltac:(cbn; lia) Hc) as E.
  cbn [Z.of_nat] in E. rewrite Z.add_0_r in E. rewrite (bindR_ok _ _ _ E).
  change (<[0%nat:=c]> (x :: mid)) with (c :: mid). cbn [app].
  rewrite (snoc_shift pre), <- zlen_snoc with (x := c). rewrite IH by (done || (cbn in Hm; lia)).
  by rewrite <- app_assoc.
Qed.

(** A list of a known length, cell by cell. *)
Ltac cells l :=
  match goal with H : length l = _ |- _ =>
    repeat (destruct l as [|? l]; [discriminate H|]); destruct l; [clear H|discriminate H] end.

Lemma fill_entry_ok pre slot post f : length slot = 32%nat -> file_wf f ->
  fill_entry (pre ++ slot ++ post) (zlen pre) f = Ok (pre ++ encode f slot ++ post).
Proof.
  intros Hs [Hn Hb Ha _ _ _ _]. unfold fill_entry, encode.
  destruct (split_at_len 11 slot ltac:(lia)) as (s1 & s2 & -> & L1 & L2). rewrite length_app, L1 in Hs.
  rewrite <- (app_assoc s1), (bindR_ok _ _ _ (write_name_part (Filename f) pre s1 (s2 ++ post) ltac:(lia) Hb)).
  set (n := Filename f) in *. assert (Hs2 : length s2 = 21%nat) by lia. clear L2 Hs.
  rewrite (app_assoc n s2 post).
  change 11 with (Z.of_nat 11). change 22 with (Z.of_nat 22). change 24 with (Z.of_nat 24).
  change 26 with (Z.of_nat 26). change 28 with (Z.of_nat 28).
  unfold mbind, res_bind.
  rewrite write_u8_part by (done || (rewrite length_app; lia)). cbv beta iota.
  rewrite write_u16_part by (rewrite ?length_insert, length_app; lia). cbv beta iota.
  rewrite write_u16_part by (rewrite ?length_insert, length_app; lia). cbv beta iota.
  rewrite write_u16_part by (rewrite ?length_insert, length_app; lia). cbv beta iota.
  rewrite write_u32_part by (rewrite ?length_insert, length_app; lia).
  clearbody n. cells n. cells s1. cells s2. reflexivity.
Qed.

(** ** Decoding *)

Lemma read_cells_part l : forall pre post, read_cells (length l) (pre ++ l ++ post) (zlen pre) = Ok l.
Proof.
  induction l as [|x l IH]; intros pre post; [done|]. cbn [length read_cells app].
  rewrite (bindR_ok _ _ _ (aget_mid _ _ _)), (snoc_shift pre), <- zlen_snoc with (x := x).
  by rewrite (bindR_ok _ _ _ (IH (pre ++ [x]) post)).
Qed.

Lemma get_u16_part pre post x : 0 <= x < 65536 -> get_u16 (pre ++ le16 x ++ post) (zlen pre) = Ok x.
Proof.
  intros Hx. unfold get_u16, le16.
  pose proof (aget_part pre (le16 x) post 0 _ eq_refl) as E0. pose proof (aget_part pre (le16 x) post 1 _ eq_refl) as E1.
  cbn [Z.of_nat Pos.of_succ_nat] in E0, E1. rewrite Z.add_0_r in E0. unfold le16 in E0, E1.
  rewrite (bindR_ok _ _ _ E0), (bindR_ok _ _ _ E1). rewrite Z.shiftl_mul_pow2 by lia.
  change (2 ^ 8) with 256. rewrite u16_small by zarith. f_equal. zarith.
Qed.

Lemma get_u32_part pre post x : 0 <= x < 4294967296 -> get_u32 (pre ++ le32 x ++ post) (zlen pre) = Ok x.
Proof.
  intros Hx. unfold get_u32.
  pose proof (aget_part pre (le32 x) post 0 _ eq_refl) as E0. pose proof (aget_part pre (le32 x) post 1 _ eq_refl) as E1.
  pose proof (aget_part pre (le32 x) post 2 _ eq_refl) as E2. pose proof (aget_part pre (le32 x) post 3 _ eq_refl) as E3.
  cbn [Z.of_nat Pos.of_succ_nat Pos.succ] in E0, E1, E2, E3. rewrite Z.add_0_r in E0.
  rewrite (bindR_ok _ _ _ E0), (bindR_ok _ _ _ E1), (bindR_ok _ _ _ E2), (bindR_ok _ _ _ E3).
  rewrite !Z.shiftl_mul_pow2 by lia. change (2 ^ 8) with 256. change (2 ^ 16) with 65536.
  change (2 ^ 24) with 16777216.
  assert (Hs : x mod 256 + x / 256 mod 256 * 256 + x / 65536 mod 256 * 65536 + x / 16777216 mod 256 * 16777216 = x)
    by zarith.
  rewrite Hs, u32_small by done. done.
Qed.

Section entries.
Context {D : Type} `{BlockDevice D}.

(** The first element of [filelist] that is not in use. *)
Definition first_unused (s : fs D) (i : Z) : Prop :=
  0 <= i < 100 /\ (exists f, files s !! file_ptr i = Some f /\ used f = false) /\
  forall j, 0 <= j < i -> exists f, files s !! file_ptr j = Some f /\ used f = true.

Lemma get_file_ok (s : fs D) p f : files s !! p = Some f -> get_file p s = Ok (f, s).
Proof. intros E. unfold get_file. by rewrite E. Qed.

Lemma upd_file_ok (s : fs D) p f g : files s !! p = Some f ->
  upd_file p g s = Ok (tt, set_files (<[p := g f]> (files s)) s).
Proof. intros E. unfold upd_file. by rewrite (bindM_ok _ _ _ _ _ (get_file_ok s p f E)). Qed.

Lemma get_empty_file_ok (s : fs D) i f : first_unused s i -> files s !! file_ptr i = Some f ->
  get_empty_file s = Ok (file_ptr i, set_files (<[file_ptr i := new_file f]> (files s)) s).
Proof.
  intros (Hi & (f' & Ef' & Hu) & Hbelow) Ef. rewrite Ef in Ef'. injection Ef' as <-.
  assert (Hloop : forall n j, 0 <= j <= i -> j + Z.of_nat n = 100 ->
    get_empty_file_loop n j s = Ok (file_ptr i, set_files (<[file_ptr i := new_file f]> (files s)) s)).
  { induction n as [|n IH]; intros j Hj Hn; [lia|]. cbn [get_empty_file_loop].
    destruct (decide (j = i)) as [->|Hne].
    - rewrite (bindM_ok _ _ _ _ _ (get_file_ok s _ f Ef)), Hu. cbn [negb]. unfold init_new_file.
      rewrite (proj2 (Z.eqb_neq _ _)) by (unfold file_ptr, NULLF; lia).
      by rewrite (bindM_ok _ _ _ _ _ (upd_file_ok s _ f _ Ef)).
    - destruct (Hbelow j ltac:(lia)) as (g & Eg & Hg).
      rewrite (bindM_ok _ _ _ _ _ (get_file_ok s _ g Eg)), Hg. cbn [negb]. apply IH; lia. }
  apply (Hloop 100%nat 0); lia.
Qed.

Lemma make_file_from_sector_ok (s : fs D) fa pre slot post f i g :
  length slot = 32%nat -> file_wf f -> first_unused s i -> files s !! file_ptr i = Some g ->
  make_file_from_sector fa (pre ++ encode f slot ++ post) (zlen pre) s
  = Ok (file_ptr i, set_files (<[file_ptr i :=
      mk_File (Filename f) (Attr f) (take 10 (drop 12 slot)) (WrtTime f) (WrtDate f) (FstClus f)
        (FileSize f) fa NULLF NULLF true]> (files s)) s).
Proof.
  intros Hsl [Hn Hb Ha Ht Hd Hc Hz] Hfu Hg. unfold make_file_from_sector.
  rewrite (bindM_ok _ _ _ _ _ (get_empty_file_ok s i g Hfu Hg)).
  destruct Hfu as (Hi & _). rewrite (proj2 (Z.eqb_neq _ _)) by (unfold file_ptr, NULLF; lia).
  set (s1 := set_files _ s). set (r := take 10 (drop 12 slot)).
  assert (Hr : length r = 10%nat) by (unfold r; rewrite length_take, length_drop; lia).
  unfold encode. fold r. set (n := Filename f) in *.
  assert (E1 : read_cells 11 (pre ++ (n ++ [Attr f] ++ r ++ le16 (WrtTime f) ++ le16 (WrtDate f)
    ++ le16 (FstClus f) ++ le32 (FileSize f)) ++ post) (zlen pre) = Ok n).
  { rewrite <- Hn, <- app_assoc. apply read_cells_part. }
  rewrite (bind_lift _ _ _ _ E1).
  assert (Hzn : zlen n = 11) by (unfold zlen; by rewrite Hn).
  assert (Hzr : zlen r = 10) by (unfold zlen; by rewrite Hr).
  rewrite <- !app_assoc. rewrite (app_assoc pre n). cbn [app].
  assert (P1 : zlen pre + 11 = zlen (pre ++ n)) by (rewrite zlen_app; lia).
  rewrite P1, (bind_lift _ _ _ _ (aget_mid (pre ++ n) _ _)).
  rewrite (snoc_shift (pre ++ n) (Attr f)).
  set (p2 := (pre ++ n) ++ [Attr f]).
  assert (P2 : zlen pre + 12 = zlen p2) by (unfold p2; rewrite zlen_snoc, zlen_app; lia).
  assert (E2 : read_cells 10 (p2 ++ r ++ le16 (WrtTime f) ++ le16 (WrtDate f) ++ le16 (FstClus f)
    ++ le32 (FileSize f) ++ post) (zlen p2) = Ok r) by (rewrite <- Hr; apply read_cells_part).
  rewrite P2, (bind_lift _ _ _ _ E2).
  rewrite (app_assoc p2 r).
  replace (zlen pre + 22) with (zlen (p2 ++ r)) by (rewrite zlen_app; lia).
  rewrite (bind_lift _ _ _ _ (get_u16_part _ _ _ Ht)).
  rewrite (app_assoc (p2 ++ r)). set (p3 := (p2 ++ r) ++ le16 (WrtTime f)).
  replace (zlen pre + 24) with (zlen p3) by (unfold p3; rewrite !zlen_app; change (zlen (le16 (WrtTime f))) with 2; lia).
  rewrite (bind_lift _ _ _ _ (get_u16_part _ _ _ Hd)).
  rewrite (app_assoc p3). set (p4 := p3 ++ le16 (WrtDate f)).
  assert (P4 : zlen p4 = zlen pre + 26)
    by (unfold p4, p3; rewrite !zlen_app; change (zlen (le16 (WrtTime f))) with 2;
        change (zlen (le16 (WrtDate f))) with 2; lia).
  rewrite <- P4, (bind_lift _ _ _ _ (get_u16_part _ _ _ Hc)).
  rewrite (app_assoc p4). set (p5 := p4 ++ le16 (FstClus f)).
  replace (zlen pre + 28) with (zlen p5)
    by (unfold p5; rewrite zlen_app; change (zlen (le16 (FstClus f))) with 2; lia).
  rewrite (bind_lift _ _ _ _ (get_u32_part _ _ _ Hz)).
  assert (Eg : files s1 !! file_ptr i = Some (new_file g)) by (unfold s1; cbn; by rewrite lookup_insert_eq).
  rewrite (bindM_ok _ _ _ _ _ (upd_file_ok s1 _ _ _ Eg)).
  unfold s1. cbn [set_files files]. by rewrite insert_insert_eq.
Qed.

(** ** The slot *)

Definition slot_free (b : list Z) (k : Z) : Prop := at_ b (32 * k) = 0x00 \/ at_ b (32 * k) = 0xE5.
Definition first_slot (b : list Z) (k : Z) : Prop :=
  0 <= k < 16 /\ slot_free b k /\ forall j, 0 <= j < k -> ~ slot_free b j.
Definition no_slot (b : list Z) : Prop := forall j, 0 <= j < 16 -> ~ slot_free b j.

(** Sector [b] with the entry of [f] in slot [k]. *)
Definition put_entry (b : list Z) (k : Z) (f : File) : list Z :=
  let i := Z.to_nat (32 * k) in
  take i b ++ encode f (take 32 (drop i b)) ++ drop (i + 32) b.

Lemma slot_freeb (b : list Z) k c : aget b (32 * k) = Ok c ->
  ((c =? 0x00) || (c =? 0xE5)) = true <-> slot_free b k.
Proof.
  intros E. apply aget_inv in E as [_ ->]. unfold slot_free.
  rewrite orb_true_iff, !Z.eqb_eq. done.
Qed.

Lemma on_write_sector (s : fs D) secID b : 0 <= secID <= SecCnt ->
  on_disk (write_sector secID b) s
  = Ok (tt, set_disk (mk_dstate (dwrite (dsk (fdisk s)) secID b) (img (fdisk s))) s).
Proof. intros Hs. unfold on_disk. by rewrite write_sector_ok. Qed.

Lemma on_read_sector (s : fs D) secID : 0 <= secID <= SecCnt ->
  on_disk (read_sector secID) s = Ok (dread (dsk (fdisk s)) secID, s).
Proof. intros Hs. unfold on_disk. rewrite read_sector_ok by done. by destruct s. Qed.

Lemma put_entry_ok (b : list Z) k f : zlen b = 512 -> 0 <= k < 16 -> file_wf f ->
  fill_entry b (32 * k) f = Ok (put_entry b k f).
Proof.
  intros Hb Hk Hf. unfold put_entry. set (i := Z.to_nat (32 * k)).
  assert (Hi : (i + 32 <= length b)%nat) by (unfold zlen, i in *; lia).
  assert (Hp : zlen (take i b) = 32 * k) by (unfold zlen; rewrite length_take; unfold i in *; lia).
  pose proof (fill_entry_ok (take i b) (take 32 (drop i b)) (drop (i + 32) b) f) as E.
  rewrite Hp in E. rewrite <- E; [|rewrite length_take, length_drop; lia|exact Hf].
  f_equal. rewrite <- (take_drop i b) at 1. f_equal.
  rewrite <- (take_drop 32 (drop i b)) at 1. by rewrite drop_drop.
Qed.

Lemma dir_entry_loop_ok (s : fs D) secID b file f : zlen b = 512 -> files s !! file = Some f -> file_wf f ->
  0 <= secID <= SecCnt -> forall n k, 0 <= k -> k + Z.of_nat n = 16 ->
  ((forall j, k <= j < 16 -> ~ slot_free b j) -> dir_entry_loop n secID b (32 * k) file s = Ok (false, s)) /\
  (forall m, k <= m < 16 -> slot_free b m -> (forall j, k <= j < m -> ~ slot_free b j) ->
     dir_entry_loop n secID b (32 * k) file s = Ok (true,
       set_disk (mk_dstate (dwrite (dsk (fdisk s)) secID (put_entry b m f)) (img (fdisk s))) s)).
Proof.
  intros Hb Hf Hwf Hsec. induction n as [|n IH]; intros k Hk Hn.
  { split; [done|]. intros m Hm. lia. }
  cbn [dir_entry_loop]. pose proof (aget_at b (32 * k) ltac:(lia)) as Eg.
  rewrite (bind_lift _ _ _ _ Eg). pose proof (slot_freeb b k _ Eg) as Hfb.
  destruct (IH (k + 1) ltac:(lia) ltac:(lia)) as [IH1 IH2].
  replace (32 * (k + 1)) with (32 * k + BytePerDirEntry) in IH1, IH2 by (unfold BytePerDirEntry; lia).
  destruct ((at_ b (32 * k) =? 0) || (at_ b (32 * k) =? 229)) eqn:Et.
  - assert (Hfk : slot_free b k) by (by apply Hfb). split.
    + intros Hno. by destruct (Hno k ltac:(lia)).
    + intros m Hm Hfm Hlt. destruct (decide (m = k)) as [->|]; [|by destruct (Hlt k ltac:(lia))].
      rewrite (bindM_ok _ _ _ _ _ (get_file_ok s _ f Hf)).
      rewrite (bind_lift _ _ _ _ (put_entry_ok b k f Hb ltac:(lia) Hwf)).
      by rewrite (bindM_ok _ _ _ _ _ (on_write_sector s secID _ Hsec)).
  - assert (Hnk : ~ slot_free b k) by (intros Hx; apply Hfb in Hx; discriminate). split.
    + intros Hno. apply IH1. intros j Hj. apply Hno. lia.
    + intros m Hm Hfm Hlt. apply IH2; [|done|]; [destruct (decide (m = k)) as [->|]; [done|lia]|].
      intros j Hj. apply Hlt. lia.
Qed.

Lemma create_entry_ok (s : fs D) secID file f : dwf (dsk (fdisk s)) -> files s !! file = Some f -> file_wf f ->
  0 <= secID <= SecCnt ->
  let b := dread (dsk (fdisk s)) secID in
  (no_slot b -> create_dir_entry_in_sector secID file s = Ok (false, s)) /\
  (forall k, first_slot b k -> create_dir_entry_in_sector secID file s = Ok (true,
     set_disk (mk_dstate (dwrite (dsk (fdisk s)) secID (put_entry b k f)) (img (fdisk s))) s)).
Proof.
  intros Hd Hf Hwf Hsec b. unfold create_dir_entry_in_sector.
  rewrite u16_small by (unfold SecCnt in Hsec; lia).
  pose proof (dread_length (dsk (fdisk s)) secID Hd) as Hlen. fold b in Hlen.
  destruct (dir_entry_loop_ok s secID b file f Hlen Hf Hwf Hsec 16 0 ltac:(lia) ltac:(lia)) as [L1 L2].
  rewrite (bindM_ok _ _ _ _ _ (on_read_sector s secID Hsec)). fold b. split.
  - intros Hno. apply L1. exact Hno.
  - intros k (Hk & Hfr & Hlt). apply (L2 k Hk Hfr). exact Hlt.
Qed.

(** ** Properties *)

(** C17. A directory entry survives the way to the disk and back.
    [create_dir_entry_in_sector] puts the file into the first slot that is
    unused or deleted and changes nothing but the 32 bytes of that slot in
    that sector; [make_file_from_sector] of the same slot then yields a file
    with the same name, attribute, time, date, first cluster and size.  With
    no slot left it reports failure and writes nothing. *)
Theorem dir_entry_roundtrip (s : fs D) (secID file : Z) (f : File) :
  dwf (dsk (fdisk s)) -> files s !! file = Some f -> file_wf f -> 0 <= secID <= SecCnt ->
  let b := dread (dsk (fdisk s)) secID in
  (no_slot b -> create_dir_entry_in_sector secID file s = Ok (false, s)) /\
  (forall k, first_slot b k -> exists s',
     create_dir_entry_in_sector secID file s = Ok (true, s') /\ files s' = files s /\
     (forall x, x <> secID -> dread (dsk (fdisk s')) x = dread (dsk (fdisk s)) x) /\
     let b' := dread (dsk (fdisk s')) secID in
     (forall j, 0 <= j < 512 -> ~ (32 * k <= j < 32 * k + 32) -> at_ b' j = at_ b j) /\
     forall fa i g, first_unused s' i -> files s' !! file_ptr i = Some g -> exists s'' resv,
       make_file_from_sector fa b' (32 * k) s' = Ok (file_ptr i, s'') /\
       files s'' !! file_ptr i = Some (mk_File (Filename f) (Attr f) resv (WrtTime f) (WrtDate f)
         (FstClus f) (FileSize f) fa NULLF NULLF true)).
Proof.
  intros Hd Hf Hwf Hsec b. destruct (create_entry_ok s secID file f Hd Hf Hwf Hsec) as [C1 C2].
  split; [exact C1|]. intros k Hk. eexists. split; [exact (C2 k Hk)|]. split; [done|].
  cbn [fdisk set_disk dsk]. split; [intros x Hx; by apply dread_ne|]. rewrite dread_eq. fold b.
  destruct Hk as (Hk & _). pose proof (dread_length (dsk (fdisk s)) secID Hd) as Hlen. fold b in Hlen.
  assert (Hpre : zlen (take (Z.to_nat (32 * k)) b) = 32 * k)
    by (unfold zlen in *; rewrite length_take; lia).
  assert (Hsl : length (take 32 (drop (Z.to_nat (32 * k)) b)) = 32%nat)
    by (rewrite length_take, length_drop; unfold zlen in Hlen; lia).
  assert (Henc : length (encode f (take 32 (drop (Z.to_nat (32 * k)) b))) = 32%nat).
  { unfold encode. rewrite !length_app, (fw_name _ Hwf), length_take, length_drop, Hsl. done. }
  split.
  - intros j Hj Hout. unfold put_entry, at_. f_equal. set (i := Z.to_nat (32 * k)) in *.
    destruct (decide (j < 32 * k)).
    + rewrite lookup_app_l by (rewrite length_take; unfold zlen, i in *; lia).
      by rewrite lookup_take_lt by (unfold i; lia).
    + rewrite lookup_app_r by (rewrite length_take; unfold zlen, i in *; lia).
      rewrite lookup_app_r by (rewrite length_take, Henc; unfold zlen, i in *; lia).
      rewrite lookup_drop. f_equal. rewrite length_take, Henc. unfold zlen, i in *. lia.
  - intros fa i g Hfu Hg.
    pose proof (make_file_from_sector_ok
      (set_disk (mk_dstate (dwrite (dsk (fdisk s)) secID (put_entry b k f)) (img (fdisk s))) s)
      fa (take (Z.to_nat (32 * k)) b) _ (drop (Z.to_nat (32 * k) + 32) b) f i g Hsl Hwf Hfu Hg) as E.
    rewrite Hpre in E. eexists _, _. split; [exact E|]. cbn. by rewrite lookup_insert_eq.
Qed.
End entries.

(** ** A small file system for the witnesses *)

Definition blank_file : File := mk_File (replicate 11 0) 0 (replicate 10 0) 0 0 0 0 0 0 0 false.
Definition blank_files : gmap Z File := list_to_map ((fun i => (i, blank_file)) <$> seqZ 1 101).

(** Over the disk [demo] of Fat, nothing open, nothing printed, the given words typed. *)
Definition demo_fs (fl : gmap Z File) (ws : list (list Z)) : fs ramdisk :=
  mk_fs demo ∅ fl 0
    (list_to_map ((fun i => (i, mk_active 0 0 ReadOnly 0 0 false)) <$> seqZ 1 10))
    (list_to_map ((fun i => (i, mk_node (replicate 512 0) 0 false)) <$> seqZ 1 100))
    [] (fun n => default [] (ws !! n)) 0.

(** README.TXT at cluster 5, 700 bytes, in slot 0 of [filelist]. *)
Definition readme : File := mk_File (name83 (lit "readme.txt")) 0x20 (replicate 10 0) 0 24608 5 700 1 0 0 true.

Lemma dir_entry_roundtrip_witness :
  exists s', create_dir_entry_in_sector 19 2 (demo_fs (<[2 := readme]> blank_files) []) = Ok (true, s') /\
    exists s'' resv, make_file_from_sector 1 (dread (dsk (fdisk s')) 19) 0 s' = Ok (3, s'') /\
      files s'' !! 3 = Some (mk_File (name83 (lit "readme.txt")) 0x20 resv 0 24608 5 700 1 NULLF NULLF true).
Proof.
  destruct (dir_entry_roundtrip (demo_fs (<[2 := readme]> blank_files) []) 19 2 readme) as [_ Hr].
  - apply demo_wf.
  - vm_compute. reflexivity.
  - split; vm_compute; try reflexivity; try (split; [discriminate|reflexivity]).
    repeat (apply List.Forall_cons; [split; [discriminate|reflexivity]|]). apply List.Forall_nil.
  - unfold SecCnt. lia.
  - destruct (Hr 0) as (s' & E & Hfl & _ & _ & Hmk).
    + split; [lia|]. split; [by left|]. intros j Hj. lia.
    + exists s'. split; [exact E|]. destruct (Hmk 1 1 blank_file) as (s'' & resv & E2 & F2).
      * split; [lia|]. rewrite Hfl. split; [exists blank_file; split; vm_compute; reflexivity|].
        intros j Hj. assert (j = 0) as -> by lia. exists readme. split; vm_compute; reflexivity.
      * rewrite Hfl. vm_compute. reflexivity.
      * exists s'', resv. split; [exact E2|exact F2].
Defined.
