(* ===== verification/FsTree.v ===== *)
(** * FsTree: the lists of siblings of filesystem/fsfunc.c

    A directory's children hang from [FstSon] and are linked by [NextSib].
    [sibs] relates that to a sequence, and the operations that search a
    directory, unlink a file from it and delete it are proved against the
    sequence. *)

From Stdlib Require Import String.
From S2P Require Import Prelude CString BlockDev Disk Fat Stdio Names File Entry FsFunc.

Fixpoint sibs (m : gmap Z File) (p : Z) (l : list Z) : Prop :=
  match l with
  | [] => p = NULLF
  | x :: l' => p = x /\ x <> NULLF /\ exists f, m !! x = Some f /\ sibs m (NextSib f) l'
  end.

Lemma sibs_frame m m' l : forall p, sibs m p l ->
  (forall x f, x ∈ l -> m !! x = Some f -> exists f', m' !! x = Some f' /\ NextSib f' = NextSib f) ->
  sibs m' p l.
Proof.
  induction l as [|x l IH]; intros p Hs Hf; [done|]. destruct Hs as (-> & Hx & f & Ef & Hs).
  destruct (Hf x f ltac:(set_solver) Ef) as (f' & Ef' & En).
  split; [done|]. split; [done|]. exists f'. split; [done|]. rewrite En. apply IH; [done|].
  intros y g Hy. apply Hf. set_solver.
Qed.

Lemma sibs_insert m p l x g : sibs m p l -> x ∉ l -> sibs (<[x := g]> m) p l.
Proof.
  intros Hs Hx. apply (sibs_frame m); [done|]. intros y f Hy Ef. exists f.
  rewrite lookup_insert_ne; [done|]. by intros ->.
Qed.

Lemma sibs_member m p l x : sibs m p l -> x ∈ l -> x <> NULLF /\ is_Some (m !! x).
Proof.
  revert p. induction l as [|y l IH]; intros p Hs Hx; [by apply not_elem_of_nil in Hx|].
  destruct Hs as (-> & Hy & f & Ef & Hs). apply elem_of_cons in Hx as [->|Hx]; [|by eapply IH].
  split; [done|]. by exists f.
Qed.

(** The name of a file in the table. *)
Definition fname (m : gmap Z File) (x : Z) : list Z := default [] (Filename <$> m !! x).
Definition named (m : gmap Z File) (nm : list Z) (x : Z) : bool := bool_decide (fname m x = nm).

Lemma same_name_ok a : forall b pre qre post qost, length b = length a ->
  same_name (length a) (pre ++ a ++ post) (qre ++ b ++ qost) (zlen pre) = Ok (bool_decide (a = b)) \/
  zlen qre <> zlen pre.
Proof.
  induction a as [|x a IH]; intros [|y b] pre qre post qost Hl; try discriminate Hl.
  { left. by rewrite bool_decide_eq_true_2. }
  destruct (decide (zlen qre = zlen pre)) as [E|]; [left|by right]. cbn [length same_name app].
  rewrite (bindR_ok _ _ _ (aget_mid _ _ _)). rewrite <- E, (bindR_ok _ _ _ (aget_mid _ _ _)).
  destruct (Z.eqb_spec x y) as [->|Hne]; cbn [negb].
  - rewrite (snoc_shift pre), (snoc_shift qre). destruct (IH b (pre ++ [y]) (qre ++ [y]) post qost) as [Ei|Ei].
    + cbn in Hl. lia.
    + rewrite !zlen_snoc, <- E in Ei. rewrite Ei. f_equal. apply bool_decide_ext. split; congruence.
    + destruct Ei. rewrite !zlen_snoc. lia.
  - rewrite bool_decide_eq_false_2 by congruence. done.
Qed.

Lemma same_name_name a b post : length a = 11%nat -> length b = 11%nat ->
  same_name 11 a (b ++ post) 0 = Ok (bool_decide (a = b)).
Proof.
  intros Ha Hb. destruct (same_name_ok a b [] [] [] post) as [E|E]; [lia| |done].
  rewrite Ha in E. rewrite !app_nil_r in E. exact E.
Qed.

Section tree.
Context {D : Type} `{BlockDevice D}.

(** ** Search *)

Lemma find_sibling_ok (s : fs D) nm post l : forall fuel p, sibs (files s) p l ->
  (forall x f, x ∈ l -> files s !! x = Some f -> length (Filename f) = 11%nat) ->
  length nm = 11%nat -> (length l < fuel)%nat ->
  find_sibling fuel p (nm ++ post) s = Ok (default NULLF (List.find (named (files s) nm) l), s).
Proof.
  induction l as [|x l IH]; intros fuel p Hs Hn Hnm Hf; (destruct fuel as [|fuel]; [cbn in Hf; lia|]).
  { cbn in Hs. subst p. done. }
  destruct Hs as (-> & Hx & f & Ef & Hs). cbn [find_sibling].
  rewrite (proj2 (Z.eqb_neq _ _)) by done. rewrite (bindM_ok _ _ _ _ _ (get_file_ok s _ f Ef)).
  assert (Hlf : length (Filename f) = 11%nat) by (apply (Hn x f); [by left|done]).
  rewrite (bind_lift _ _ _ _ (same_name_name (Filename f) nm post Hlf Hnm)).
  assert (Enm : named (files s) nm x = bool_decide (Filename f = nm)) by (unfold named, fname; by rewrite Ef).
  cbn [List.find]. rewrite Enm.
  destruct (bool_decide (Filename f = nm)); [done|].
  apply IH; [done| |done|cbn in Hf; lia]. intros y g Hy. apply Hn. by right.
Qed.

(** ** Unlinking *)

(** The table after [file] has been taken out of the children [a ++ file :: b] of [fa]. *)
Definition unlinked (m : gmap Z File) (fa file : Z) (a : list Z) (next : Z) : gmap Z File :=
  match list.last a with
  | None => alter (set_FstSon next) fa m
  | Some pre => alter (set_NextSib next) pre m
  end.

Lemma alter_insert_eq (m : gmap Z File) p f g : m !! p = Some f -> <[p := g f]> m = alter g p m.
Proof.
  intros E. apply map_eq. intros j. destruct (decide (j = p)) as [->|].
  - by rewrite lookup_insert_eq, lookup_alter_eq, E.
  - by rewrite lookup_insert_ne, lookup_alter_ne.
Qed.

(** Walking past files that are not [file] changes nothing. *)
Lemma unlink_skip (s : fs D) fa file l : forall fuel p pre found, sibs (files s) p l -> file ∉ l ->
  (length l < fuel)%nat -> unlink_loop fuel fa file p pre found s = Ok (found, s).
Proof.
  induction l as [|x l IH]; intros fuel p pre found Hs Hn Hf; (destruct fuel as [|fuel]; [cbn in Hf; lia|]).
  { cbn in Hs. by subst p. }
  destruct Hs as (-> & Hx & f & Ef & Hs). apply not_elem_of_cons in Hn as [Hne Hn].
  cbn [unlink_loop]. rewrite (proj2 (Z.eqb_neq x NULLF)) by done.
  rewrite (bindM_ok _ _ _ _ _ (get_file_ok s _ f Ef)), (proj2 (Z.eqb_neq x file)) by done.
  rewrite bind_mret, (bindM_ok _ _ _ _ _ (get_file_ok s _ f Ef)), orb_false_r.
  apply IH; [done|done|cbn in Hf; lia].
Qed.

Lemma get_file_other (s : fs D) p q g f : p <> q -> files s !! q = Some f ->
  get_file q (set_files (<[p := g]> (files s)) s) = Ok (f, set_files (<[p := g]> (files s)) s).
Proof. intros Hne E. apply get_file_ok. cbn. by rewrite lookup_insert_ne. Qed.

Lemma unlink_loop_ok (s : fs D) fa file b g a : forall fuel p pre,
  sibs (files s) p (a ++ file :: b) -> NoDup (a ++ file :: b) -> files s !! file = Some g ->
  is_Some (files s !! fa) -> fa ∉ (a ++ file :: b) ->
  (pre = NULLF \/ ((pre ∉ a ++ file :: b) /\ pre <> NULLF /\ is_Some (files s !! pre))) ->
  (length (a ++ file :: b) < fuel)%nat ->
  unlink_loop fuel fa file p pre false s = Ok (true,
    set_files (match list.last a with
               | Some x => alter (set_NextSib (NextSib g)) x (files s)
               | None => if pre =? NULLF then alter (set_FstSon (NextSib g)) fa (files s)
                         else alter (set_NextSib (NextSib g)) pre (files s)
               end) s).
Proof.
  induction a as [|x a IH]; intros fuel p pre Hs Hnd Hg [d Hd] Hfa Hpre Hf;
    (destruct fuel as [|fuel]; [cbn in Hf; lia|]); cbn [app] in *;
    destruct Hs as (-> & Hx & f & Ef & Hs); apply NoDup_cons in Hnd as [Hnx Hnd]; cbn [unlink_loop].
  - rewrite (proj2 (Z.eqb_neq file NULLF)), (bindM_ok _ _ _ _ _ (get_file_ok s _ f Ef)), Z.eqb_refl by done.
    rewrite Ef in Hg. injection Hg as <-. cbn [list.last].
    assert (Hpn : pre <> file) by (destruct Hpre as [->|(Hp & _)]; [done|set_solver]).
    assert (Hfn : fa <> file) by set_solver. cbn in Hf.
    destruct (Z.eqb_spec pre NULLF) as [Ep|Ep]; cbn [negb].
    + rewrite (bindM_ok _ _ _ _ _ (upd_file_ok s fa d _ Hd)).
      rewrite (bindM_ok _ _ _ _ _ (get_file_other s fa file _ f Hfn Ef)).
      rewrite orb_true_r, (unlink_skip _ fa file b); [by rewrite (alter_insert_eq _ _ _ _ Hd)| |done|lia].
      cbn [set_files files]. apply sibs_insert; [done|set_solver].
    + destruct Hpre as [->|(Hp & _ & [e He])]; [done|].
      rewrite (bindM_ok _ _ _ _ _ (upd_file_ok s pre e _ He)).
      rewrite (bindM_ok _ _ _ _ _ (get_file_other s pre file _ f Hpn Ef)).
      rewrite orb_true_r, (unlink_skip _ fa file b); [by rewrite (alter_insert_eq _ _ _ _ He)| |done|lia].
      cbn [set_files files]. apply sibs_insert; [done|set_solver].
  - assert (x <> file) by set_solver.
    rewrite (proj2 (Z.eqb_neq x NULLF)), (bindM_ok _ _ _ _ _ (get_file_ok s _ f Ef)),
      (proj2 (Z.eqb_neq x file)) by done.
    rewrite bind_mret, (bindM_ok _ _ _ _ _ (get_file_ok s _ f Ef)). cbn [orb].
    rewrite (IH fuel (NextSib f) x); [|done|done|done|by exists d|set_solver| |cbn in Hf; lia].
    + rewrite (proj2 (Z.eqb_neq x NULLF)) by done. do 3 f_equal. destruct a as [|y a]; [done|].
      change (list.last (x :: y :: a)) with (list.last (y :: a)).
      by destruct (proj2 (last_is_Some (y :: a)) ltac:(done)) as [z ->].
    + right. split; [done|]. split; [done|]. by exists f.
Qed.

Lemma sibs_cut (m : gmap Z File) x file b g a : forall p, sibs m p (a ++ x :: file :: b) ->
  NoDup (a ++ x :: file :: b) -> m !! file = Some g ->
  sibs (alter (set_NextSib (NextSib g)) x m) p (a ++ x :: b).
Proof.
  induction a as [|y a IH]; intros p Hs Hnd Hg; cbn [app] in *; apply NoDup_cons in Hnd as [Hy Hnd].
  - destruct Hs as (-> & Hx & f & Ef & _ & Hfile & g' & Eg & Hs).
    rewrite Hg in Eg. injection Eg as <-. apply NoDup_cons in Hnd as [Hfb Hnd].
    split; [done|]. split; [done|]. exists (set_NextSib (NextSib g) f).
    split; [by rewrite lookup_alter_eq, Ef|]. cbn [NextSib set_NextSib].
    apply (sibs_frame m); [done|]. intros z h Hz Ez. exists h. rewrite lookup_alter_ne; [done|].
    intros ->. set_solver.
  - destruct Hs as (-> & Hy0 & f & Ef & Hs). split; [done|]. split; [done|]. exists f.
    split; [|by apply IH]. rewrite lookup_alter_ne; [done|]. intros ->. set_solver.
Qed.

(** The list of children is the old one without [file]. *)
Lemma sibs_unlinked (m : gmap Z File) fa d file a b g : m !! fa = Some d -> m !! file = Some g ->
  sibs m (FstSon d) (a ++ file :: b) -> NoDup (a ++ file :: b) -> fa ∉ a ++ file :: b ->
  let m' := unlinked m fa file a (NextSib g) in
  (exists d', m' !! fa = Some d' /\ sibs m' (FstSon d') (a ++ b)) /\
  (forall x f, m !! x = Some f -> exists f', m' !! x = Some f' /\ Filename f' = Filename f /\
     FstClus f' = FstClus f /\ used f' = used f) /\
  m' !! file = Some g.
Proof.
  intros Hd Hg Hs Hnd Hfa m'.
  assert (Hgen : forall y next, (forall x f, m !! x = Some f -> exists f',
    alter (set_NextSib next) y m !! x = Some f' /\ Filename f' = Filename f /\
    FstClus f' = FstClus f /\ used f' = used f)).
  { intros y next x f Ef. destruct (decide (x = y)) as [->|].
    - exists (set_NextSib next f). by rewrite lookup_alter_eq, Ef.
    - exists f. by rewrite lookup_alter_ne. }
  unfold m', unlinked. destruct a as [|y a] using rev_ind.
  - cbn [list.last app] in *. destruct Hs as (Ep & Hf0 & g' & Eg & Hs). rewrite Hg in Eg. injection Eg as <-.
    apply NoDup_cons in Hnd as [Hfb Hnd]. split; [|split].
    + exists (set_FstSon (NextSib g) d). split; [by rewrite lookup_alter_eq, Hd|].
      apply (sibs_frame m); [done|]. intros x f Hx Ef. exists f. rewrite lookup_alter_ne; [done|]. intros ->. set_solver.
    + intros x f Ef. destruct (decide (x = fa)) as [->|].
      * exists (set_FstSon (NextSib g) f). by rewrite lookup_alter_eq, Ef.
      * exists f. by rewrite lookup_alter_ne.
    + rewrite lookup_alter_ne; [done|]. intros ->. set_solver.
  - clear IHa. rewrite last_snoc, <- app_assoc in *. cbn [app] in *.
    assert (fa <> y) by set_solver. assert (y <> file).
    { intros ->. apply NoDup_app in Hnd as (_ & _ & Hnd). apply NoDup_cons in Hnd as [Hx _]. set_solver. }
    split; [|split; [by apply Hgen|by rewrite lookup_alter_ne]].
    exists d. split; [by rewrite lookup_alter_ne|].
    by apply (sibs_cut m y file).
Qed.

Lemma delete_from_fa_ok (s : fs D) fa d file a b g : files s !! fa = Some d -> files s !! file = Some g ->
  sibs (files s) (FstSon d) (a ++ file :: b) -> NoDup (a ++ file :: b) -> fa ∉ a ++ file :: b ->
  (length (a ++ file :: b) < LOOP)%nat ->
  delete_file_from_fa fa file s = Ok (true, set_files (unlinked (files s) fa file a (NextSib g)) s).
Proof.
  intros Hd Hg Hs Hnd Hfa Hlen. unfold delete_file_from_fa.
  rewrite (bindM_ok _ _ _ _ _ (get_file_ok s _ d Hd)).
  pose proof (unlink_loop_ok s fa file b g a LOOP (FstSon d) NULLF Hs Hnd Hg ltac:(by exists d) Hfa
    (or_introl eq_refl) Hlen) as E.
  rewrite (bindM_ok _ _ _ _ _ E). unfold unlinked. by destruct (list.last a).
Qed.

Lemma clear_file_of_ok (s : fs D) file g s1 : files s !! file = Some g ->
  clear_file (FstClus g) (fdisk s) = Ok (tt, s1) -> clear_file_of file s = Ok (tt, set_disk s1 s).
Proof.
  intros Hg E. unfold clear_file_of. rewrite (bindM_ok _ _ _ _ _ (get_file_ok s _ g Hg)).
  unfold on_disk. rewrite E. reflexivity.
Qed.

(** ** Properties *)

(** Searching a directory finds the first child with the name, or NULL,
    and changes nothing: [is_file_exist] agrees with searching the sequence
    of children. *)
Theorem is_file_exist_correct (s : fs D) (dir : Z) (d : File) (l nm post : list Z) :
  files s !! dir = Some d -> sibs (files s) (FstSon d) l ->
  (forall x f, x ∈ l -> files s !! x = Some f -> length (Filename f) = 11%nat) ->
  length nm = 11%nat -> (length l < LOOP)%nat ->
  is_file_exist dir (nm ++ post) s = Ok (default NULLF (List.find (named (files s) nm) l), s).
Proof.
  intros Hd Hs Hn Hnm Hl. unfold is_file_exist. rewrite (bindM_ok _ _ _ _ _ (get_file_ok s _ d Hd)).
  by apply find_sibling_ok.
Qed.

(** C2. [delete_file] of a child takes exactly that child out of the
    directory's list, frees exactly the clusters of its chain and marks its
    slot unused; names and first clusters of the other files are unchanged.
    The sectors of the root directory are not written: the entry of the
    deleted file stays on the disk, and names freed clusters. *)
Theorem delete_file_removes (s : fs D) (dir file : Z) (d g : File) (a b cl : list Z) :
  dstate_wf (fdisk s) -> files s !! dir = Some d -> files s !! file = Some g ->
  sibs (files s) (FstSon d) (a ++ file :: b) -> NoDup (a ++ file :: b) -> dir ∉ a ++ file :: b ->
  (length (a ++ file :: b) < LOOP)%nat ->
  chain (dsk (fdisk s)) (FstClus g) cl -> NoDup cl ->
  exists s', delete_file dir file s = Ok (true, s') /\
    (exists d', files s' !! dir = Some d' /\ sibs (files s') (FstSon d') (a ++ b)) /\
    (exists g', files s' !! file = Some g' /\ used g' = false) /\
    (forall x f, x <> file -> files s !! x = Some f -> exists f', files s' !! x = Some f' /\
       Filename f' = Filename f /\ FstClus f' = FstClus f /\ used f' = used f) /\
    dstate_wf (fdisk s') /\ released (dsk (fdisk s)) (dsk (fdisk s')) cl /\
    (forall i, 19 <= i <= 32 -> dread (dsk (fdisk s')) i = dread (dsk (fdisk s)) i).
Proof.
  intros Hwf Hd Hg Hs Hnd Hfa Hlen Hch Hcl.
  destruct (sibs_unlinked (files s) dir d file a b g Hd Hg Hs Hnd Hfa) as ((d' & Ed & Hs') & Hkeep & Hg').
  set (m := unlinked (files s) dir file a (NextSib g)) in *.
  assert (Hc : 0 <= FstClus g < 6484).
  { destruct cl as [|c cl]; [cbn in Hch; unfold eoc in Hch; lia|]. destruct Hch as (-> & ? & _). lia. }
  destruct (clear_file_ok (fdisk s) (FstClus g) cl Hwf Hcl Hch Hc) as (s1 & E1 & W1 & R1).
  assert (Hne : dir <> file) by (intros ->; apply Hfa, elem_of_app; right; by left).
  exists (set_files (<[file := set_used false g]> m) (set_disk s1 s)). split.
  - unfold delete_file. rewrite (bindM_ok _ _ _ _ _ (delete_from_fa_ok s dir d file a b g Hd Hg Hs Hnd Hfa Hlen)).
    cbn [negb]. fold m.
    pose proof (clear_file_of_ok (set_files m s) file g s1 Hg' E1) as E2.
    rewrite (bindM_ok _ _ _ _ _ E2).
    by rewrite (bindM_ok _ _ _ _ _ (upd_file_ok (set_disk s1 (set_files m s)) file g _ Hg')).
  - cbn [set_files set_disk files fdisk]. split; [|split; [|split; [|split; [|split]]]].
    + exists d'. split; [by rewrite lookup_insert_ne|]. apply sibs_insert; [done|].
      apply NoDup_app in Hnd as (_ & Hna & Hnb). apply NoDup_cons in Hnb as [Hfb _].
      intros [Hx|Hx]%elem_of_app; [|done]. apply (Hna file Hx). by left.
    + exists (set_used false g). by rewrite lookup_insert_eq.
    + intros x f Hx Ef. destruct (Hkeep x f Ef) as (f' & Ef' & ?). exists f'. by rewrite lookup_insert_ne.
    + exact W1.
    + exact R1.
    + destruct R1 as (_ & _ & _ & Ho). intros i Hi. apply Ho; [lia|]. intros Hin.
      destruct (chain_in _ _ _ Hch _ Hin) as [Hr _]. unfold ClusToSec in Hr. lia.
Qed.

Lemma dir_empty_loop_false fuel : forall son (s : fs D) r s', dir_empty_loop fuel son s = Ok (r, s') -> r = false.
Proof.
  induction fuel as [|fuel IH]; intros son s r s'; cbn [dir_empty_loop];
    (destruct (son =? NULLF); [intros E; by injection E as <- _|]); [done|].
  intros E. apply bindM_inv in E as (f & s1 & E1 & E). apply bindM_inv in E as (c & s2 & E2 & E).
  destruct (negb (c =? 46)); [by injection E as <- _|]. by apply IH in E.
Qed.

(** [rmdir] deletes directories that are not empty.  [is_dir_empty]
    answers false whatever the directory holds, so [delete_directory] without
    [-r] never refuses: on a child directory with any contents it unlinks the
    directory and frees its clusters, and its children are lost. *)
Theorem rmdir_deletes_nonempty (s : fs D) (fa dir : Z) (d g : File) (a b l cl : list Z) (n : nat) :
  dstate_wf (fdisk s) -> files s !! fa = Some d -> files s !! dir = Some g ->
  sibs (files s) (FstSon d) (a ++ dir :: b) -> NoDup (a ++ dir :: b) -> fa ∉ a ++ dir :: b ->
  (length (a ++ dir :: b) < LOOP)%nat ->
  sibs (files s) (FstSon g) l -> (length l < LOOP)%nat ->
  (forall x f, x ∈ l -> files s !! x = Some f -> length (Filename f) = 11%nat) ->
  chain (dsk (fdisk s)) (FstClus g) cl -> NoDup cl ->
  exists s', delete_directory (S n) fa dir false s = Ok (true, s') /\
    released (dsk (fdisk s)) (dsk (fdisk s')) cl /\ out s' = out s.
Proof.
  intros Hwf Hd Hg Hs Hnd Hfa Hlen Hl Hll Hnm Hch Hcl.
  assert (Hemp : is_dir_empty dir s = Ok (false, s)).
  { unfold is_dir_empty. rewrite (bindM_ok _ _ _ _ _ (get_file_ok s _ g Hg)).
    assert (Hgen : forall fuel p l, sibs (files s) p l -> (length l < fuel)%nat ->
      (forall x f, x ∈ l -> files s !! x = Some f -> length (Filename f) = 11%nat) ->
      dir_empty_loop fuel p s = Ok (false, s)).
    { induction fuel as [|fuel IH]; intros p l0 Hp Hf Hn; [lia|]. destruct l0 as [|x l0].
      - cbn in Hp. by subst p.
      - destruct Hp as (-> & Hx & f & Ef & Hp). cbn [dir_empty_loop]. rewrite (proj2 (Z.eqb_neq _ _)) by done.
        rewrite (bindM_ok _ _ _ _ _ (get_file_ok s _ f Ef)).
        assert (Hlf : length (Filename f) = 11%nat) by (apply (Hn x f); [by left|done]).
        rewrite (bind_lift _ _ _ _ (aget_at (Filename f) 0 ltac:(unfold zlen; lia))).
        destruct (negb _); [done|]. apply (IH _ l0); [done|cbn in Hf; lia|].
        intros y h Hy. apply Hn. by right. }
    by apply (Hgen _ _ l). }
  destruct (sibs_unlinked (files s) fa d dir a b g Hd Hg Hs Hnd Hfa) as (_ & _ & Hg').
  set (m := unlinked (files s) fa dir a (NextSib g)) in *.
  assert (Hc : 0 <= FstClus g < 6484).
  { destruct cl as [|c cl]; [cbn in Hch; unfold eoc in Hch; lia|]. destruct Hch as (-> & ? & _). lia. }
  destruct (clear_file_ok (fdisk s) (FstClus g) cl Hwf Hcl Hch Hc) as (s1 & E1 & W1 & R1).
  exists (set_files (<[dir := set_used false g]> m) (set_disk s1 s)). split; [|split; [exact R1|reflexivity]].
  cbn [delete_directory negb]. rewrite (bindM_ok _ _ _ _ _ Hemp). cbn [andb].
  rewrite (bindM_ok _ _ _ _ _ (delete_from_fa_ok s fa d dir a b g Hd Hg Hs Hnd Hfa Hlen)). cbn [negb]. fold m.
  rewrite bind_mret.
  pose proof (clear_file_of_ok (set_files m s) dir g s1 Hg' E1) as E2.
  rewrite (bindM_ok _ _ _ _ _ E2).
  by rewrite (bindM_ok _ _ _ _ _ (upd_file_ok (set_disk s1 (set_files m s)) dir g _ Hg')).
Qed.
End tree.

(** ** A directory with two files and a subdirectory for the witnesses *)

(** A.TXT, NOTES.TXT at cluster [cn], and SUB at cluster [cd], which holds
    OLD.TXT.  The FAT of [demo] has the chain 2, 3. *)
Definition tree_file (name : string) (attr clus son next : Z) : File :=
  mk_File (name83 (lit name)) attr (replicate 10 0) 0 24608 clus 0 rootfile son next true.
Definition demo_tree (cn cd : Z) : gmap Z File :=
  <[1 := mk_File (replicate 11 0) 0 (replicate 10 0) 0 0 0 0 NULLF 2 NULLF true]>
  (<[2 := tree_file "a.txt" 0x20 7 NULLF 3]>
  (<[3 := tree_file "notes.txt" 0x20 cn NULLF 4]>
  (<[4 := tree_file "sub" 0x10 cd 5 NULLF]>
  (<[5 := tree_file "old.txt" 0x20 8 NULLF NULLF]> blank_files)))).
Definition demo_dir : fs ramdisk := demo_fs (demo_tree 2 9) [].

Lemma demo_sibs : sibs (demo_tree 2 9) 2 [2; 3; 4].
Proof.
  repeat (split; [reflexivity|]; split; [discriminate|]; eexists; split; [vm_compute; reflexivity|]).
  reflexivity.
Qed.

Lemma is_file_exist_correct_witness :
  is_file_exist 1 (name83 (lit "notes.txt") ++ [0]) demo_dir = Ok (3, demo_dir).
Proof.
  rewrite (is_file_exist_correct demo_dir 1 (mk_File (replicate 11 0) 0 (replicate 10 0) 0 0 0 0 NULLF 2 NULLF true)
    [2; 3; 4]).
  - vm_compute. reflexivity.
  - vm_compute. reflexivity.
  - exact demo_sibs.
  - intros x f Hx. repeat (apply elem_of_cons in Hx as [->|Hx]);
      [vm_compute; intros [= <-]; reflexivity..|]. by apply not_elem_of_nil in Hx.
  - reflexivity.
  - vm_compute. lia.
Defined.

Lemma delete_file_removes_witness : exists s', delete_file 1 3 demo_dir = Ok (true, s') /\
  (exists d', files s' !! 1 = Some d' /\ sibs (files s') (FstSon d') [2; 4]) /\
  fat (dsk (fdisk s')) 2 = 0 /\ fat (dsk (fdisk s')) 3 = 0.
Proof.
  destruct (delete_file_removes demo_dir 1 3 (mk_File (replicate 11 0) 0 (replicate 10 0) 0 0 0 0 NULLF 2 NULLF true)
    (tree_file "notes.txt" 0x20 2 NULLF 4) [2] [4] [2; 3]) as (s' & E & Hs & _ & _ & _ & Hr & _).
  - exact demo_wf.
  - vm_compute. reflexivity.
  - vm_compute. reflexivity.
  - exact demo_sibs.
  - apply (bool_decide_unpack _). vm_compute. exact I.
  - apply (bool_decide_unpack _). vm_compute. exact I.
  - vm_compute. lia.
  - split; [done|]. split; [lia|]. split; [vm_compute; reflexivity|]. split; [lia|].
    vm_compute. split; discriminate.
  - apply (bool_decide_unpack _). vm_compute. exact I.
  - exists s'. split; [exact E|]. split; [exact Hs|]. destruct Hr as (Hz & _).
    split; rewrite Hz by lia; reflexivity.
Defined.

Lemma rmdir_deletes_nonempty_witness :
  let s := demo_fs (demo_tree 9 2) [] in
  files s !! 5 = Some (tree_file "old.txt" 0x20 8 NULLF NULLF) /\
  exists s', delete_directory 1 1 4 false s = Ok (true, s') /\ fat (dsk (fdisk s')) 2 = 0.
Proof.
  split; [vm_compute; reflexivity|].
  destruct (rmdir_deletes_nonempty (demo_fs (demo_tree 9 2) []) 1 4
    (mk_File (replicate 11 0) 0 (replicate 10 0) 0 0 0 0 NULLF 2 NULLF true)
    (tree_file "sub" 0x10 2 5 NULLF) [2; 3] [] [5] [2; 3] 0) as (s' & E & Hr & _).
  - exact demo_wf.
  - vm_compute. reflexivity.
  - vm_compute. reflexivity.
  - repeat (split; [reflexivity|]; split; [discriminate|]; eexists; split; [vm_compute; reflexivity|]).
    reflexivity.
  - apply (bool_decide_unpack _). vm_compute. exact I.
  - apply (bool_decide_unpack _). vm_compute. exact I.
  - vm_compute. lia.
  - repeat (split; [reflexivity|]; split; [discriminate|]; eexists; split; [vm_compute; reflexivity|]).
    reflexivity.
  - vm_compute. lia.
  - intros x f Hx. apply list_elem_of_singleton in Hx as ->. vm_compute. intros [= <-]. reflexivity.
  - split; [done|]. split; [lia|]. split; [vm_compute; reflexivity|]. split; [lia|].
    vm_compute. split; discriminate.
  - apply (bool_decide_unpack _). vm_compute. exact I.
  - exists s'. split; [exact E|]. destruct Hr as (Hz & _).
    rewrite Hz by lia. reflexivity.
Defined.
