(* ===== verification/FileOps.v ===== *)
(** * FileOps: opening, writing, closing and reading files

    The operations of FsFunc and File on an open file, proved against the
    contents of the sectors of the file: what [write_file] is given is what
    [close_file] puts on the disk and [read_file] prints. *)

From Stdlib Require Import String.
From S2P Require Import Prelude CString BlockDev Disk Fat Stdio Names File Entry FsFunc FsTree.

(** The word [w] can be typed: characters other than NUL. *)
Definition word_ok (w : list Z) : Prop := Forall (fun c => 0 < c < 256) w.

Lemma word_nonul w : word_ok w -> Forall (fun c => c <> 0) w.
Proof. intros Hw. eapply Forall_impl; [exact Hw|]. cbn. lia. Qed.

Lemma word_cstr w post : word_ok w -> cstr (w ++ 0 :: post) 0 w.
Proof. intros Hw. exists [], post. split; [done|]. split; [done|]. by apply word_nonul. Qed.

Lemma split_at_nat {A} (l : list A) n : (n <= length l)%nat -> exists a b, l = a ++ b /\ length a = n.
Proof.
  intros Hn. exists (take n l), (drop n l). split; [by rewrite take_drop|]. rewrite length_take. lia.
Qed.

(** [strcpy] of a word to the beginning of an array with room for it. *)
Lemma strcpy_word w src buf : cstr src 0 w -> (length w < length buf)%nat ->
  strcpy buf 0 src 0 = Ok (w ++ 0 :: drop (S (length w)) buf).
Proof.
  intros Hc Hl. destruct (split_at_nat buf (S (length w)) ltac:(lia)) as (a & b & -> & Ha).
  pose proof (strcpy_ok src 0 w [] a b Hc Ha) as E. cbn [app] in E. rewrite zlen_nil in E.
  rewrite E, <- Ha, drop_app_length. f_equal. by rewrite <- app_assoc.
Qed.

Section ops.
Context {D : Type} `{BlockDevice D}.

(** ** Printing and reading words *)

Lemma printf_ok format fmt args o : cstr format 0 fmt -> zlen fmt < 4294967296 -> Forall arg_ok args ->
  render fmt args = Some o -> Forall (fun c => c <> 0) o -> zlen o < 1000 ->
  printf format args = Ok (o ++ 0 :: replicate (999 - length o) 0).
Proof.
  intros Hf Hl Ha Hr Hn Ho. unfold printf.
  pose proof (vsprintf_ok format fmt Hf Hl args (replicate (S (length o)) 0)
    (replicate (999 - length o) 0) o Ha Hr Hn ltac:(lia) ltac:(apply length_replicate)) as E.
  rewrite <- replicate_add in E. replace (S (length o) + (999 - length o))%nat with 1000%nat in E
    by (unfold zlen in Ho; lia).
  by rewrite (bindR_ok _ _ _ E).
Qed.

Lemma print_ok format fmt args o (s : fs D) : cstr format 0 fmt -> zlen fmt < 4294967296 ->
  Forall arg_ok args -> render fmt args = Some o -> Forall (fun c => c <> 0) o -> zlen o < 1000 ->
  print format args s = Ok (tt, set_out (out s ++ o) s).
Proof.
  intros Hf Hl Ha Hr Hn Ho. unfold print.
  rewrite (bind_lift _ _ _ _ (printf_ok format fmt args o Hf Hl Ha Hr Hn Ho)).
  assert (Es : strlen (o ++ 0 :: replicate (999 - length o) 0) 0 = Ok (zlen o)).
  { rewrite (strlen_ok _ _ o); [|by exists [], (replicate (999 - length o) 0)].
    rewrite u32_small by (pose proof (zlen_nonneg o); lia). done. }
  rewrite (bind_lift _ _ _ _ Es). unfold modify. rewrite to_nat_zlen, take_app_length. done.
Qed.

(** One character through [printf("%c", c)]; NUL prints nothing. *)
Lemma print_char c (s : fs D) : 0 < c < 256 ->
  print (cs "%c") [AInt c] s = Ok (tt, set_out (out s ++ [c]) s).
Proof.
  intros Hc. apply (print_ok _ (lit "%c")).
  - exists [], []. split; [reflexivity|]. split; [reflexivity|]. repeat constructor; discriminate.
  - reflexivity.
  - repeat constructor; lia.
  - cbn. by rewrite u8_small by lia.
  - repeat constructor. lia.
  - reflexivity.
Qed.

(** A message without conversions is printed as it is. *)
Lemma render_plain l : Forall (fun c => c <> 37) l -> render l [] = Some l.
Proof.
  induction 1 as [|x l Hx _ IH]; [done|]. cbn [render]. rewrite (proj2 (Z.eqb_neq x 37) Hx), IH. done.
Qed.

Definition message_ok (m : string) : bool :=
  bool_decide (Forall (fun c => c <> 37 /\ c <> 0) (lit m)) && (zlen (lit m) <? 999).

Lemma say_line_ok m (s : fs D) : message_ok m = true ->
  say_line m s = Ok (tt, set_out (out s ++ lit m ++ [10]) s).
Proof.
  unfold message_ok. intros [Hm%bool_decide_eq_true_1 Hl]%andb_true_iff. apply Z.ltb_lt in Hl.
  assert (Hn : Forall (fun c => c <> 0) (lit m ++ [10])).
  { apply Forall_app. split; [eapply Forall_impl; [exact Hm|by intros ? [? ?]]|by repeat constructor]. }
  assert (Hz : zlen (lit m ++ [10]) < 1000) by (rewrite zlen_snoc; lia).
  apply (print_ok _ (lit m ++ [10])); [|lia|constructor| |done|done].
  - exists [], []. split; [by rewrite <- app_assoc|]. by split.
  - apply render_plain, Forall_app. split; [eapply Forall_impl; [exact Hm|by intros ? [? ?]]|].
    by repeat constructor.
Qed.

Lemma say_line_empty (s : fs D) : say_line "" s = Ok (tt, set_out (out s ++ [10]) s).
Proof. by apply say_line_ok. Qed.

(** [scanf("%s", buf)] stores the next word. *)
Lemma scan_word w buf (s : fs D) : words s (wpos s) = w -> word_ok w -> zlen w < 1000 ->
  (length w < length buf)%nat ->
  scan (cs "%s") [DStr buf] s
  = Ok ([DStr (w ++ 0 :: drop (S (length w)) buf)], set_wpos (S (wpos s)) s).
Proof.
  intros Hw Hok Hl Hb. unfold scan, vscanf. change (length (cs "%s")) with 3%nat. cbn [vscanf_loop].
  change (strlen (cs "%s") 0) with (Ok 2 : res Z). rewrite (bindR_ok (Ok 2) _ 2 eq_refl).
  change (negb (0 <? 2)) with false. cbn iota.
  change (aget (cs "%s") 0) with (Ok 37 : res Z). rewrite (bindR_ok (Ok 37) _ 37 eq_refl).
  change (37 =? 37) with true. cbn iota.
  change (aget (cs "%s") (0 + 1)) with (Ok 115 : res Z). rewrite (bindR_ok (Ok 115) _ 115 eq_refl).
  change ((115 =? 100) || (115 =? 120)) with false. change ((115 =? 99) || (115 =? 115)) with true. cbn iota.
  assert (Er : read_word (replicate 1000 0) (words s, wpos s)
    = Ok (w ++ 0 :: drop (S (length w)) (replicate 1000 0), (words s, S (wpos s)))).
  { unfold read_word. cbn [fst snd]. rewrite Hw.
    rewrite (bindR_ok _ _ _ (strcpy_word w (w ++ [0]) (replicate 1000 0) (word_cstr w [] Hok)
      ltac:(rewrite length_replicate; unfold zlen in Hl; lia))). done. }
  rewrite (bindR_ok _ _ _ Er).
  rewrite (bindR_ok _ _ _ (strcpy_word w _ buf (word_cstr w _ Hok) Hb)).
  change (strlen (cs "%s") 0) with (Ok 2 : res Z). rewrite (bindR_ok (Ok 2) _ 2 eq_refl).
  change (negb (0 + 2 <? 2)) with true. done.
Qed.

(** ** Sector buffers *)

(** The first element of [AFBLNodelist] that is not in use. *)
Definition first_node (s : fs D) (i : Z) : Prop :=
  0 <= i < 100 /\ (exists a, AFBLNodelist s !! node_ptr i = Some a /\ nused a = false) /\
  forall j, 0 <= j < i -> exists a, AFBLNodelist s !! node_ptr j = Some a /\ nused a = true.

Lemma get_node_ok (s : fs D) p a : AFBLNodelist s !! p = Some a -> get_node p s = Ok (a, s).
Proof. intros E. unfold get_node. by rewrite E. Qed.

Lemma get_active_ok (s : fs D) p a : activelist s !! p = Some a -> get_active p s = Ok (a, s).
Proof. intros E. unfold get_active. by rewrite E. Qed.

Definition new_node : AFBLNode := mk_node (replicate 512 0) NULLF true.

Lemma init_new_node_ok (s : fs D) p a : AFBLNodelist s !! p = Some a ->
  init_new_AFBLNode p s = Ok (tt, set_nodes (<[p := new_node]> (AFBLNodelist s)) s).
Proof. intros E. unfold init_new_AFBLNode. by rewrite (bindM_ok _ _ _ _ _ (get_node_ok s p a E)). Qed.

Lemma get_empty_node_ok (s : fs D) i : first_node s i ->
  get_empty_AFBLNode s
  = Ok (node_ptr i, set_nodes (<[node_ptr i := new_node]> (AFBLNodelist s)) s).
Proof.
  intros (Hi & (a & Ea & Hu) & Hbelow).
  assert (Hloop : forall n j, 0 <= j <= i -> j + Z.of_nat n = 100 ->
    get_empty_AFBLNode_loop n j s
    = Ok (node_ptr i, set_nodes (<[node_ptr i := new_node]> (AFBLNodelist s)) s)).
  { induction n as [|n IH]; intros j Hj Hn; [lia|]. cbn [get_empty_AFBLNode_loop].
    destruct (decide (j = i)) as [->|Hne].
    - rewrite (bindM_ok _ _ _ _ _ (get_node_ok s _ a Ea)), Hu. cbn [negb].
      by rewrite (bindM_ok _ _ _ _ _ (init_new_node_ok s _ a Ea)).
    - destruct (Hbelow j ltac:(lia)) as (b & Eb & Hb).
      rewrite (bindM_ok _ _ _ _ _ (get_node_ok s _ b Eb)), Hb. cbn [negb]. apply IH; lia. }
  apply (Hloop 100%nat 0); lia.
Qed.

Lemma read_cells_all b : read_cells (length b) b 0 = Ok b.
Proof.
  pose proof (read_cells_part b [] []) as E. rewrite app_nil_r in E. exact E.
Qed.

Lemma init_node_ok (s : fs D) p a b next : AFBLNodelist s !! p = Some a -> length b = 512%nat ->
  init_AFBLNode p b next s = Ok (tt, set_nodes (<[p := mk_node b next (nused a)]> (AFBLNodelist s)) s).
Proof.
  intros E Hb. unfold init_AFBLNode. rewrite (bindM_ok _ _ _ _ _ (get_node_ok s p a E)).
  pose proof (read_cells_all b) as Er. rewrite Hb in Er. by rewrite (bind_lift _ _ _ _ Er).
Qed.

(** ** The loop of [write_file] inside the first sector *)

Lemma write_loop_ok (s : fs D) w str : forall k pre buff mid post clusID now, str = pre ++ w ++ post ->
  length mid = length w -> zlen pre + zlen w <= 511 -> buff = pre ++ mid ++ drop (length pre + length w) buff ->
  write_loop (length w + k) str (zlen pre) (zlen pre) 0 clusID now buff s
  = write_loop k str (zlen pre + zlen w) (zlen pre + zlen w) 0 clusID now
      (pre ++ w ++ drop (length pre + length w) buff) s.
Proof.
  induction w as [|x w IH]; intros k pre buff mid post clusID now Hstr Hm Hl Hb.
  { cbn [length app]. rewrite zlen_nil, Z.add_0_r, Nat.add_0_r in *.
    destruct mid; [|done]. cbn [app] in Hb. rewrite <- Hb. done. }
  destruct mid as [|y mid]; [done|]. set (rest := drop _ buff) in *.
  pose proof (zlen_nonneg pre) as Hp. pose proof (zlen_nonneg w) as Hw. rewrite zlen_cons in Hl.
  change (length (x :: w) + k)%nat with (S (length w + k)). cbn [write_loop].
  assert (Ea : aget str (zlen pre) = Ok x) by (rewrite Hstr; apply aget_mid).
  rewrite (bind_lift _ _ _ _ Ea).
  change BytePerSec with 512. decide_bool.
  assert (Es : aset buff (zlen pre) x = Ok (pre ++ x :: mid ++ rest)).
  { rewrite Hb. cbn [app]. apply aset_mid. }
  rewrite (bind_lift _ _ _ _ Es).
  assert (Ep : (zlen pre + 1) mod 512 = zlen (pre ++ [x])) by (rewrite zlen_snoc, Z.mod_small; lia).
  rewrite Ep. rewrite <- zlen_snoc with (x := x).
  assert (Er : drop (length (pre ++ [x]) + length w) (pre ++ x :: mid ++ rest) = rest).
  { replace (pre ++ x :: mid ++ rest) with (((pre ++ [x]) ++ mid) ++ rest) by (by rewrite <- !app_assoc).
    replace (length (pre ++ [x]) + length w)%nat with (length ((pre ++ [x]) ++ mid)).
    - apply drop_app_length.
    - rewrite (length_app (pre ++ [x])). cbn in Hm. lia. }
  rewrite (IH k (pre ++ [x]) (pre ++ x :: mid ++ rest) mid post clusID now).
  - rewrite Er, zlen_snoc, zlen_cons, <- app_assoc. cbn [app].
    replace (zlen pre + 1 + zlen w) with (zlen pre + (1 + zlen w)) by lia. done.
  - by rewrite Hstr, <- app_assoc.
  - cbn in Hm. lia.
  - rewrite zlen_snoc. lia.
  - by rewrite Er, <- app_assoc.
Qed.

Definition sector_of (w : list Z) : list Z := w ++ replicate (512 - length w) 0.

Lemma sector_of_length w : zlen w <= 512 -> length (sector_of w) = 512%nat.
Proof. intros Hw. unfold sector_of. rewrite length_app, length_replicate. unfold zlen in Hw. lia. Qed.

Lemma sector_of_sector w : word_ok w -> zlen w <= 512 -> sector (sector_of w).
Proof.
  intros Hok Hw. split; [by apply sector_of_length|]. apply Forall_app. split.
  - eapply Forall_impl; [exact Hok|]. unfold is_byte. cbn. lia.
  - apply Forall_replicate. unfold is_byte. lia.
Qed.

Lemma zero_tail_ok w rest : length (w ++ rest) = 512%nat ->
  zero_tail (w ++ rest) (zlen w) = Ok (sector_of w).
Proof.
  intros Hl. rewrite length_app in Hl. unfold zero_tail.
  replace (BytePerSec - zlen w) with (zlen rest) by (unfold BytePerSec, zlen; lia).
  pose proof (memset_ok w rest [] 0) as E. rewrite !app_nil_r in E. rewrite E. unfold sector_of.
  do 3 f_equal. lia.
Qed.

(** The state with the open file [p] pointing to the buffer [n]. *)
Definition with_ahead (n : Z) (a : ActiveFile) : ActiveFile :=
  mk_active (afile a) (RefCnt a) (Type_ a) n (buffsize a) (aused a).
Definition with_buffsize (x : Z) (a : ActiveFile) : ActiveFile :=
  mk_active (afile a) (RefCnt a) (Type_ a) (ahead a) x (aused a).

Lemma set_ahead_ok (s : fs D) p n a : activelist s !! p = Some a ->
  set_ahead p n s = Ok (tt, set_active (active_cnt s) (<[p := with_ahead n a]> (activelist s)) s).
Proof. intros E. unfold set_ahead. by rewrite (bindM_ok _ _ _ _ _ (get_active_ok s p a E)). Qed.

Lemma set_buffsize_ok (s : fs D) p x a : activelist s !! p = Some a -> 0 <= x < 4294967296 ->
  set_buffsize p x s = Ok (tt, set_active (active_cnt s) (<[p := with_buffsize x a]> (activelist s)) s).
Proof.
  intros E Hx. unfold set_buffsize. rewrite (bindM_ok _ _ _ _ _ (get_active_ok s p a E)).
  by rewrite u32_small.
Qed.

Definition write_prompt : list Z := lit "Please enter content: " ++ [10].

Lemma say_prompt (s : fs D) :
  say_line "Please enter content: " s = Ok (tt, set_out (out s ++ write_prompt) s).
Proof. by apply say_line_ok. Qed.

(** The content typed for an open file, for fewer than 512 characters: the
    loop collects it, the last buffer is stored behind it. *)
Lemma write_loop_word (s : fs D) w k post clusID n : zlen w <= 511 ->
  write_loop (length w + k) (w ++ post) 0 0 0 clusID n (replicate 512 0) s
  = write_loop k (w ++ post) (zlen w) (zlen w) 0 clusID n (w ++ replicate (512 - length w) 0) s.
Proof.
  intros Hw. assert (Hlw : (length w <= 511)%nat) by (unfold zlen in Hw; lia).
  pose proof (write_loop_ok s w (w ++ post) k [] (replicate 512 0) (replicate (length w) 0) post clusID n
    eq_refl (length_replicate _ _) ltac:(rewrite zlen_nil; lia)) as E.
  change (zlen []) with 0 in E. cbn [app length Nat.add] in E. rewrite drop_replicate in E.
  rewrite (E ltac:(rewrite <- replicate_add; f_equal; lia)). by rewrite Z.add_0_l.
Qed.

Lemma write_flush_ok (s : fs D) w clusID n a : zlen w <= 511 ->
  AFBLNodelist s !! n = Some a -> nused a = true -> nbuff a = replicate 512 0 -> nnext a = NULLF ->
  (if 0 <? zlen w then
     buff ← lift (zero_tail (w ++ replicate (512 - length w) 0) (zlen w)); flush (0 + 1) clusID n buff
   else mret (Some (clusID, n))) s
  = Ok (Some (clusID, n), set_nodes (<[n := mk_node (sector_of w) NULLF true]> (AFBLNodelist s)) s).
Proof.
  intros Hw Ea Hu Hb Hn. assert (Hlw : (length w <= 511)%nat) by (unfold zlen in Hw; lia).
  destruct (Z.ltb_spec 0 (zlen w)).
  - rewrite (bind_lift _ _ _ _ (zero_tail_ok w (replicate (512 - length w) 0)
      ltac:(rewrite length_app, length_replicate; lia))).
    unfold flush. change (1 <? 0 + 1) with false. cbn iota. rewrite bind_mret.
    rewrite (bindM_ok _ _ _ _ _ (init_node_ok s n a _ NULLF Ea (sector_of_length w ltac:(lia)))).
    by rewrite Hu.
  - assert (w = []) as -> by (destruct w; [done|rewrite zlen_cons in *; pose proof (zlen_nonneg w); lia]).
    cbn [mret M_ret]. unfold sector_of. cbn [length app Nat.sub].
    rewrite <- Hb, <- Hn, <- Hu. destruct a as [b0 n0 u0]. cbn [nbuff nnext nused].
    rewrite insert_id by done. by destruct s.
Qed.

Lemma on_disk_ok {A} (m : M (dstate D) A) (s : fs D) x d : m (fdisk s) = Ok (x, d) ->
  on_disk m s = Ok (x, set_disk d s).
Proof. intros E. unfold on_disk. by rewrite E. Qed.

(** The state [write_file] leaves: the buffer [n] of the open file [p] holds
    the content [w], the disk is [d]. *)
Definition written (s : fs D) (p n : Z) (a : ActiveFile) (w : list Z) (d : dstate D) : fs D :=
  mk_fs d (fsda s) (files s) (active_cnt s)
    (<[p := with_buffsize (zlen w) (with_ahead n a)]> (activelist s))
    (<[n := mk_node (sector_of w) NULLF true]> (AFBLNodelist s))
    (out s ++ write_prompt) (words s) (S (wpos s)).

Lemma write_file_ok (s : fs D) p a f i w d : activelist s !! p = Some a -> Type_ a <> ReadOnly ->
  files s !! afile a = Some f -> first_node s i -> words s (wpos s) = w -> word_ok w -> zlen w <= 511 ->
  write_fat_next_cluster (FstClus f) 0xFFF (fdisk s) = Ok (tt, d) ->
  write_file p s = Ok (true, written s p (node_ptr i) a w d).
Proof.
  intros Ea Ht Ef Hi Hw Hok Hl Ed. unfold write_file.
  rewrite (bindM_ok _ _ _ _ _ (get_active_ok s p a Ea)), bool_decide_eq_false_2 by done.
  rewrite (bindM_ok _ _ _ _ _ (get_empty_node_ok s i Hi)). set (n := node_ptr i).
  set (s1 := set_nodes _ s). assert (Ea1 : activelist s1 !! p = Some a) by exact Ea.
  rewrite (bindM_ok _ _ _ _ _ (set_ahead_ok s1 p n a Ea1)). set (s2 := set_active _ _ s1).
  assert (Ef2 : files s2 !! afile a = Some f) by exact Ef.
  rewrite (bindM_ok _ _ _ _ _ (get_file_ok s2 _ f Ef2)), (bindM_ok _ _ _ _ _ (say_prompt s2)).
  set (s3 := set_out _ s2). pose proof (zlen_nonneg w) as Hw0.
  assert (Hlw : (length w <= 511)%nat) by (unfold zlen in Hl; lia).
  rewrite (bindM_ok _ _ _ _ _ (scan_word w (replicate 1024 0) s3 Hw Hok ltac:(lia)
    ltac:(rewrite length_replicate; lia))).
  set (s4 := set_wpos _ s3). cbn iota beta.
  assert (Es : forall post, strlen (w ++ 0 :: post) 0 = Ok (zlen w))
    by (intros post; rewrite (strlen_ok _ 0 w (word_cstr w post Hok)), u32_small; [done|lia]).
  rewrite (bind_lift _ _ _ _ (Es _)), to_nat_zlen.
  assert (Ew : write_loop (length w) (w ++ 0 :: drop (S (length w)) (replicate 1024 0)) 0 0 0 (FstClus f) n
    (replicate 512 0) s4 = Ok (Some (zlen w, 0, FstClus f, n, w ++ replicate (512 - length w) 0), s4)).
  { rewrite <- (Nat.add_0_r (length w)) at 1. by rewrite write_loop_word. }
  rewrite (bindM_ok _ _ _ _ _ Ew). cbn iota beta.
  assert (En : AFBLNodelist s4 !! n = Some new_node) by (unfold s4, s3, s2, s1; cbn; apply lookup_insert_eq).
  rewrite (bindM_ok _ _ _ _ _ (write_flush_ok s4 w (FstClus f) n new_node Hl En eq_refl eq_refl eq_refl)).
  set (s5 := set_nodes _ s4). cbn iota beta.
  rewrite (bindM_ok _ _ _ _ _ (on_disk_ok _ s5 _ _ Ed)). set (s6 := set_disk d s5).
  assert (E6 : activelist s6 !! p = Some (with_ahead n a)) by (unfold s6, s5, s4, s3, s2; cbn; apply lookup_insert_eq).
  rewrite (bindM_ok _ _ _ _ _ (set_buffsize_ok s6 p (zlen w) _ E6 ltac:(lia))).
  unfold s6, s5, s4, s3, s2, s1, written. cbn. by rewrite !insert_insert_eq.
Qed.

(** ** Closing *)

Lemma active_close_nil fuel clusID (s : fs D) : active_close_loop fuel clusID NULLF s = Ok (tt, s).
Proof. by destruct fuel. Qed.

(** Closing the last reference to a file with one buffer: the buffer goes to
    the first cluster and is released, the size is the number of characters
    written, the entry of the open file is free again. *)
Lemma close_file_ok (s : fs D) p n a b f : activelist s !! p = Some a -> RefCnt a = 1 -> ahead a = n ->
  n <> NULLF -> AFBLNodelist s !! n = Some b -> nnext b = NULLF -> sector (nbuff b) ->
  files s !! afile a = Some f -> 2 <= FstClus f <= 2849 -> dstate_wf (fdisk s) ->
  exists d, close_file p s = Ok (tt,
      mk_fs d (fsda s) (<[afile a := set_FileSize (buffsize a) f]> (files s)) (active_cnt s - 1)
        (<[p := mk_active NULLF 0 ReadOnly NULLF 0 (aused a)]> (activelist s))
        (<[n := mk_node (nbuff b) NULLF false]> (AFBLNodelist s)) (out s) (words s) (wpos s)) /\
    dsk d = dwrite (dsk (fdisk s)) (FstClus f + ClusToSec) (nbuff b) /\ dstate_wf d.
Proof.
  intros Ea Hr Hn Hn0 Eb Hx Hsec Ef Hc Hwf.
  set (d1 := mk_dstate (dwrite (dsk (fdisk s)) (FstClus f + ClusToSec) (nbuff b)) (img (fdisk s))).
  assert (W1 : dstate_wf d1).
  { destruct Hwf as [Hd Hi]. split; [by apply dwrite_wf|exact Hi]. }
  destruct (get_fat_ok d1 (FstClus f) W1 ltac:(lia)) as (d2 & E2 & D2 & W2).
  exists d2. split; [|split; [exact D2|exact W2]].
  unfold close_file. rewrite (bindM_ok _ _ _ _ _ (get_active_ok s p a Ea)), Hr.
  change (i32 (1 - 1)) with 0. unfold put_active. rewrite bind_modify. set (s1 := set_active _ _ s).
  assert (E1 : activelist s1 !! p = Some (mk_active (afile a) 0 (Type_ a) (ahead a) (buffsize a) (aused a)))
    by apply lookup_insert_eq.
  rewrite (bindM_ok _ _ _ _ _ (get_active_ok s1 p _ E1)). cbn [RefCnt].
  change (0 =? 0) with true. cbn iota. unfold active_file_close. rewrite bind_modify. set (s2 := set_active _ _ s1).
  rewrite (bindM_ok _ _ _ _ _ (get_active_ok s2 p _ E1)). cbn [afile buffsize].
  assert (Ef2 : files s2 !! afile a = Some f) by exact Ef.
  rewrite (bindM_ok _ _ _ _ _ (upd_file_ok s2 _ f _ Ef2)). set (s3 := set_files _ s2).
  assert (Ef3 : files s3 !! afile a = Some (set_FileSize (buffsize a) f)) by apply lookup_insert_eq.
  rewrite (bindM_ok _ _ _ _ _ (get_file_ok s3 _ _ Ef3)).
  cbn [FstClus set_FileSize ahead]. rewrite Hn.
  assert (El : forall k, active_close_loop (S k) (FstClus f) n s3
    = Ok (tt, set_disk d2 (set_nodes (<[n := mk_node (nbuff b) NULLF false]> (AFBLNodelist s)) s3))).
  { intros k. cbn [active_close_loop]. rewrite (proj2 (Z.eqb_neq n NULLF)) by done.
    assert (Eb3 : AFBLNodelist s3 !! n = Some b) by exact Eb.
    rewrite (bindM_ok _ _ _ _ _ (get_node_ok s3 n b Eb3)).
    assert (Hs : 0 <= FstClus f + ClusToSec <= SecCnt) by (unfold ClusToSec, SecCnt; lia).
    rewrite (bindM_ok _ _ _ _ _ (on_write_sector s3 _ (nbuff b) Hs)). fold d1. unfold put_node. rewrite bind_modify.
    set (s4 := set_nodes _ _). rewrite (bindM_ok _ _ _ _ _ (on_disk_ok (get_fat_next_cluster (FstClus f)) s4 _ _ E2)).
    unfold s4. rewrite Hx. apply active_close_nil. }
  rewrite (bindM_ok _ _ _ _ _ (El 99%nat)). unfold put_active, modify, s3, s2, s1. cbn. by rewrite insert_insert_eq.
Qed.

(** ** Reading *)

(** The bytes of the clusters of [cl]. *)
Definition contents (d : D) (cl : list Z) : list Z := concat ((fun c => dread d (c + ClusToSec)) <$> cl).

Lemma read_chars_ok fsize w : forall n buff pre post size (s : fs D), word_ok w -> w <> [] ->
  buff = pre ++ w ++ post -> (length w <= n)%nat -> size + zlen w <= fsize ->
  (length w = n \/ size + zlen w = fsize) ->
  read_sector_chars n buff (zlen pre) size fsize s = Ok (size + zlen w, set_out (out s ++ w) s).
Proof.
  induction w as [|x w IH]; intros [|n] buff pre post size s Hok Hne Hb Hn Hf He; try done; try (cbn in Hn; lia).
  apply Forall_cons_1 in Hok as [Hx Hok]. cbn [read_sector_chars].
  assert (Eg : aget buff (zlen pre) = Ok x) by (rewrite Hb; apply aget_mid).
  rewrite (bind_lift _ _ _ _ Eg), (bindM_ok _ _ _ _ _ (print_char x s Hx)). rewrite zlen_cons in *.
  pose proof (zlen_nonneg w). destruct (Z.eqb_spec (size + 1) fsize) as [E|E].
  - assert (w = []) as -> by (destruct w; [done|rewrite zlen_cons in *; pose proof (zlen_nonneg w); lia]).
    by rewrite zlen_nil, Z.add_0_r.
  - destruct w as [|y w].
    + destruct He as [He|He]; [|rewrite zlen_nil in He; lia]. cbn in He. assert (n = 0%nat) as -> by lia.
      cbn [read_sector_chars]. by rewrite zlen_nil, Z.add_0_r.
    + rewrite <- zlen_snoc with (x := x).
      rewrite (IH n buff (pre ++ [x]) post (size + 1)); [|done|done|by rewrite Hb, <- app_assoc|cbn in Hn |- *; lia|lia|].
      * cbn [set_out out]. rewrite <- (app_assoc (out s)). by rewrite Z.add_assoc.
      * cbn in He |- *. destruct He; [left; lia|right; lia].
Qed.

Lemma read_loop_ok fsize cl : forall fuel c size (s : fs D), dstate_wf (fdisk s) ->
  chain (dsk (fdisk s)) c cl -> cl <> [] -> (length cl < fuel)%nat -> 0 <= size ->
  512 * (zlen cl - 1) < fsize - size <= 512 * zlen cl ->
  let w := take (Z.to_nat (fsize - size)) (contents (dsk (fdisk s)) cl) in word_ok w ->
  exists d, read_loop fuel c size fsize s = Ok (tt, set_out (out s ++ w) (set_disk d s)) /\
    dsk d = dsk (fdisk s) /\ dstate_wf d.
Proof.
  induction cl as [|x cl IH]; intros fuel c size s Hwf Hch Hne Hf Hs0 Hs w Hok; [done|].
  destruct fuel as [|fuel]; [cbn in Hf; lia|]. destruct Hch as (-> & Hx & Hch). cbn [read_loop].
  rewrite (proj2 (andb_false_iff (0xFF8 <=? x) (x <=? 0xFFF))) by (left; apply Z.leb_gt; lia).
  assert (Hsec : 0 <= x + ClusToSec <= SecCnt) by (unfold ClusToSec, SecCnt; lia).
  rewrite (bindM_ok _ _ _ _ _ (on_read_sector s _ Hsec)).
  set (b := dread (dsk (fdisk s)) (x + ClusToSec)) in *. rewrite zlen_cons in Hs.
  assert (Hb : length b = 512%nat) by apply (dread_sector _ _ (dw_disk _ Hwf)).
  assert (Ew : w = take (Z.to_nat (fsize - size)) b ++
    take (Z.to_nat (fsize - size) - 512) (contents (dsk (fdisk s)) cl)).
  { unfold w, contents. cbn [fmap list_fmap concat]. rewrite take_app. fold b. by rewrite Hb. }
  set (w1 := take (Z.to_nat (fsize - size)) b) in *. pose proof (zlen_nonneg cl) as Hcl.
  assert (L1 : zlen w1 = Z.min (fsize - size) 512) by (unfold w1, zlen; rewrite length_take; lia).
  assert (Hok1 : word_ok w1) by (rewrite Ew in Hok; by apply Forall_app in Hok as [? _]).
  assert (Hw1 : w1 <> []) by (intros Hz; rewrite Hz, zlen_nil in L1; lia).
  rewrite <- (zlen_nil (A := Z)).
  rewrite (bindM_ok _ _ _ _ _ (read_chars_ok fsize w1 512 b [] (drop (Z.to_nat (fsize - size)) b) size s Hok1 Hw1
    ltac:(cbn; unfold w1; by rewrite take_drop) ltac:(unfold zlen in L1; lia) ltac:(lia)
    ltac:(unfold zlen in L1 |- *; lia))).
  set (s1 := set_out _ s). destruct (get_fat_ok (fdisk s1) x Hwf ltac:(lia)) as (d1 & E1 & D1 & W1).
  rewrite (bindM_ok _ _ _ _ _ (on_disk_ok (get_fat_next_cluster x) s1 _ _ E1)).
  change (dsk (fdisk s1)) with (dsk (fdisk s)) in *. set (s2 := set_disk d1 s1).
  destruct cl as [|y cl].
  - destruct fuel as [|fuel]; [cbn in Hf; lia|]. exists d1. split; [|by split]. cbn [read_loop].
    rewrite (proj2 (eocb_spec _) Hch : (0xFF8 <=? _) && (_ <=? 0xFFF) = true).
    rewrite Ew. unfold contents. cbn [fmap list_fmap concat]. by rewrite take_nil, app_nil_r.
  - rewrite L1, Z.min_r by (rewrite zlen_cons in *; pose proof (zlen_nonneg cl); lia).
    destruct (IH fuel (fat (dsk (fdisk s)) x) (size + 512) s2) as (d & E & Ed & Wd).
    + exact W1.
    + unfold s2. cbn [fdisk set_disk]. rewrite D1. exact Hch.
    + done.
    + cbn in Hf |- *. lia.
    + lia.
    + lia.
    + unfold s2. cbn [fdisk set_disk]. rewrite D1.
      replace (Z.to_nat (fsize - (size + 512))) with (Z.to_nat (fsize - size) - 512)%nat by lia.
      rewrite Ew in Hok. by apply Forall_app in Hok as [_ ?].
    + exists d. rewrite E. unfold s2, s1. cbn [fdisk set_disk]. rewrite Ed. unfold s2. cbn [fdisk set_disk]. rewrite D1.
      split; [|by split]. cbn [out set_out set_disk]. rewrite <- app_assoc, Ew.
      replace (Z.to_nat (fsize - (size + 512))) with (Z.to_nat (fsize - size) - 512)%nat by lia. done.
Qed.

(** ** Opening *)

(** No entry of [activelist] is for [file]. *)
Definition closed (s : fs D) (file : Z) : Prop :=
  forall j, 0 <= j < 10 -> exists a, activelist s !! active_ptr j = Some a /\ afile a <> file.

(** The first free entry of [activelist]. *)
Definition first_entry (s : fs D) (k : Z) : Prop :=
  0 <= k < 10 /\ (exists a, activelist s !! active_ptr k = Some a /\ RefCnt a = 0) /\
  forall j, 0 <= j < k -> exists a, activelist s !! active_ptr j = Some a /\ RefCnt a <> 0.

Definition opened (file : Z) (t : FileOpenType) (a : ActiveFile) : ActiveFile :=
  mk_active file 1 t NULLF 0 (aused a).

Lemma open_find_none (s : fs D) file t : closed s file -> forall n j, 0 <= j -> j + Z.of_nat n = 10 ->
  open_find n j file t s = Ok (None, s).
Proof.
  intros Hc. induction n as [|n IH]; intros j Hj Hn; [done|]. cbn [open_find].
  destruct (Hc j ltac:(lia)) as (a & Ea & Hne).
  rewrite (bindM_ok _ _ _ _ _ (get_active_ok s _ a Ea)), (proj2 (Z.eqb_neq _ _) Hne). cbn [andb].
  apply IH; lia.
Qed.

Lemma open_free_ok (s : fs D) file t k a : first_entry s k -> activelist s !! active_ptr k = Some a ->
  forall n j, 0 <= j <= k -> j + Z.of_nat n = 10 -> open_free n j file t s
  = Ok (active_ptr k, set_active (active_cnt s + 1) (<[active_ptr k := opened file t a]> (activelist s)) s).
Proof.
  intros (Hk & (a' & Ea' & Hr) & Hb) Ea. rewrite Ea in Ea'. injection Ea' as <-.
  induction n as [|n IH]; intros j Hj Hn; [lia|]. cbn [open_free]. destruct (decide (j = k)) as [->|Hne].
  - rewrite (bindM_ok _ _ _ _ _ (get_active_ok s _ a Ea)), Hr. change (0 =? 0) with true. cbn iota.
    assert (Eo : active_file_open (active_ptr k) file t s = Ok (tt,
      set_active (active_cnt s + 1) (<[active_ptr k := opened file t a]> (activelist s)) s)).
    { unfold active_file_open. rewrite bind_modify. set (s1 := set_active _ _ s).
      assert (E1 : activelist s1 !! active_ptr k = Some a) by exact Ea.
      by rewrite (bindM_ok _ _ _ _ _ (get_active_ok s1 _ a E1)). }
    by rewrite (bindM_ok _ _ _ _ _ Eo).
  - destruct (Hb j ltac:(lia)) as (b & Eb & Hrb).
    rewrite (bindM_ok _ _ _ _ _ (get_active_ok s _ b Eb)), (proj2 (Z.eqb_neq _ _) Hrb). apply IH; lia.
Qed.

Lemma open_file_ok (s : fs D) file t k a : closed s file -> first_entry s k ->
  activelist s !! active_ptr k = Some a -> open_file file t s
  = Ok (active_ptr k, set_active (active_cnt s + 1) (<[active_ptr k := opened file t a]> (activelist s)) s).
Proof.
  intros Hc Hk Ea. unfold open_file.
  change MAX_ACTIVE_CNT with 10%nat. rewrite (bindM_ok _ _ _ _ _ (open_find_none s file t Hc 10 0 ltac:(lia) ltac:(lia))).
  apply (open_free_ok s file t k a Hk Ea); [destruct Hk; lia|lia].
Qed.

Lemma read_file_ok (s : fs D) p a f cl : activelist s !! p = Some a -> files s !! afile a = Some f ->
  dstate_wf (fdisk s) -> chain (dsk (fdisk s)) (FstClus f) cl -> cl <> [] -> (length cl < LOOP)%nat ->
  512 * (zlen cl - 1) < FileSize f <= 512 * zlen cl ->
  let w := take (Z.to_nat (FileSize f)) (contents (dsk (fdisk s)) cl) in word_ok w ->
  exists d, read_file p s = Ok (tt, set_out (out s ++ w ++ [10]) (set_disk d s)) /\
    dsk d = dsk (fdisk s) /\ dstate_wf d.
Proof.
  intros Ea Ef Hwf Hch Hne Hl Hs w Hok. unfold read_file.
  rewrite (bindM_ok _ _ _ _ _ (get_active_ok s p a Ea)), (bindM_ok _ _ _ _ _ (get_file_ok s _ f Ef)).
  destruct (read_loop_ok (FileSize f) cl LOOP (FstClus f) 0 s Hwf Hch Hne Hl ltac:(lia)
    ltac:(by rewrite Z.sub_0_r)) as (d & E & Ed & Wd); [by rewrite Z.sub_0_r|].
  rewrite Z.sub_0_r in E. fold w in E. exists d. rewrite (bindM_ok _ _ _ _ _ E), say_line_empty.
  cbn [out set_out]. rewrite <- app_assoc. split; [reflexivity|by split].
Qed.

(** ** Properties *)

(** [read_file] prints the file.  For a file whose size fits its chain of
    clusters, it returns and prints exactly the first [FileSize] bytes of the
    clusters in the order of the chain, and a newline; disk and tables are
    unchanged.  (The bytes must not be NUL, which [printf] drops.) *)
Theorem read_file_prints (s : fs D) (p : Z) (a : ActiveFile) (f : File) (cl : list Z) :
  activelist s !! p = Some a -> files s !! afile a = Some f -> dstate_wf (fdisk s) ->
  chain (dsk (fdisk s)) (FstClus f) cl -> NoDup cl -> cl <> [] ->
  512 * (zlen cl - 1) < FileSize f <= 512 * zlen cl ->
  word_ok (take (Z.to_nat (FileSize f)) (contents (dsk (fdisk s)) cl)) ->
  exists s', read_file p s = Ok (tt, s') /\
    out s' = out s ++ take (Z.to_nat (FileSize f)) (contents (dsk (fdisk s)) cl) ++ [10] /\
    dsk (fdisk s') = dsk (fdisk s) /\ files s' = files s /\ activelist s' = activelist s.
Proof.
  intros Ea Ef Hwf Hch Hnd Hne Hs Hok.
  assert (Hl : (length cl < LOOP)%nat) by (pose proof (chain_length cl Hnd (fun x Hx => proj1 (chain_in _ _ _ Hch x Hx))); unfold LOOP; lia).
  destruct (read_file_ok s p a f cl Ea Ef Hwf Hch Hne Hl Hs Hok) as (d & E & Ed & _).
  eexists. split; [exact E|]. split; [reflexivity|]. split; [exact Ed|]. by split.
Qed.

(** Open, write the next word, close. *)
Definition write_word (file : Z) : M (fs D) bool :=
  acfile ← open_file file ReadWrite;
  ok ← write_file acfile;
  _ ← close_file acfile;
  mret ok.

(** Open, print, and leave open. *)
Definition cat_file (file : Z) : M (fs D) Z :=
  acfile ← open_file file ReadOnly;
  _ ← read_file acfile;
  mret acfile.

(** What a file of a word looks like: table, FAT and sector. *)
Definition stores (s : fs D) (file : Z) (f : File) (w : list Z) : Prop :=
  files s !! file = Some (set_FileSize (zlen w) f) /\ fat (dsk (fdisk s)) (FstClus f) = 0xFFF /\
  dread (dsk (fdisk s)) (FstClus f + ClusToSec) = sector_of w.

Lemma closed_put (s : fs D) p file a : closed s file -> afile a <> file -> file <> NULLF ->
  forall s', activelist s' = <[p := a]> (activelist s) -> closed s' file.
Proof.
  intros Hc Ha Hf s' E j Hj. rewrite E. destruct (decide (active_ptr j = p)) as [->|].
  - exists a. by rewrite lookup_insert_eq.
  - destruct (Hc j Hj) as (b & Eb & Hb). exists b. by rewrite lookup_insert_ne.
Qed.

Lemma first_entry_put (s s' : fs D) k a : first_entry s k -> RefCnt a = 0 ->
  activelist s' = <[active_ptr k := a]> (activelist s) -> first_entry s' k.
Proof.
  intros (Hk & _ & Hb) Ha E. split; [done|]. rewrite E. split; [exists a; by rewrite lookup_insert_eq|].
  intros j Hj. destruct (Hb j Hj) as (b & Eb & Hr). exists b. rewrite lookup_insert_ne; [done|].
  unfold active_ptr. lia.
Qed.

Lemma write_word_ok (s : fs D) file f w k i : dstate_wf (fdisk s) -> files s !! file = Some f ->
  2 <= FstClus f <= 2849 -> file <> NULLF -> closed s file -> first_entry s k -> first_node s i ->
  words s (wpos s) = w -> word_ok w -> zlen w <= 511 ->
  exists s', write_word file s = Ok (true, s') /\ stores s' file f w /\ dstate_wf (fdisk s') /\
    out s' = out s ++ write_prompt /\ closed s' file /\ first_entry s' k /\ active_cnt s' = active_cnt s /\
    (forall x, x <> file -> files s' !! x = files s !! x) /\
    (forall c, 0 <= c < 3072 -> c <> FstClus f -> fat (dsk (fdisk s')) c = fat (dsk (fdisk s)) c) /\
    (forall j, j < 1 \/ 18 < j -> j <> FstClus f + ClusToSec ->
       dread (dsk (fdisk s')) j = dread (dsk (fdisk s)) j) /\
    first_node s' i.
Proof.
  intros Hwf Ef Hc Hfile Hcl Hk Hi Hw Hok Hl. pose proof Hk as (Hk0 & (e & Ee & Hre) & Hkb).
  unfold write_word. rewrite (bindM_ok _ _ _ _ _ (open_file_ok s file ReadWrite k e Hcl Hk Ee)).
  set (p := active_ptr k) in *. set (a := opened file ReadWrite e). set (s1 := set_active _ _ s).
  destruct (write_fat_ok (fdisk s) (FstClus f) 0xFFF Hwf ltac:(lia) ltac:(lia)) as (d & Ed & Wd & _ & Od & Fd).
  assert (Ea : activelist s1 !! p = Some a) by apply lookup_insert_eq.
  assert (Ew : write_file p s1 = Ok (true, written s1 p (node_ptr i) a w d)).
  { apply (write_file_ok s1 p a f i w d); try done. }
  rewrite (bindM_ok _ _ _ _ _ Ew). set (s2 := written s1 p (node_ptr i) a w d).
  set (a2 := with_buffsize (zlen w) (with_ahead (node_ptr i) a)).
  assert (Ea2 : activelist s2 !! p = Some a2) by apply lookup_insert_eq.
  assert (En : AFBLNodelist s2 !! node_ptr i = Some (mk_node (sector_of w) NULLF true)) by apply lookup_insert_eq.
  destruct Hi as (Hi0 & Hi1 & Hib).
  assert (Hn0 : node_ptr i <> NULLF) by (unfold node_ptr, NULLF; lia).
  destruct (close_file_ok s2 p (node_ptr i) a2 _ f Ea2 eq_refl eq_refl Hn0 En eq_refl
    (sector_of_sector w Hok ltac:(lia)) Ef Hc Wd) as (d2 & E2 & D2 & W2).
  rewrite (bindM_ok _ _ _ _ _ E2). eexists. split; [reflexivity|]. cbn [fdisk files active_cnt activelist AFBLNodelist out words wpos].
  change (fdisk s2) with d in *. change (nbuff _) with (sector_of w) in *.
  assert (Hfr : forall c, 0 <= c < 3072 -> fat (dsk d2) c = fat (dsk d) c).
  { intros c Hc'. rewrite D2. apply fat_dwrite; [unfold ClusToSec; lia|done]. }
  split; [|split; [exact W2|split; [reflexivity|split; [|split; [|split; [|split; [|split; [|split]]]]]]]].
  - unfold stores. cbn [files fdisk]. split; [apply lookup_insert_eq|]. split.
    + rewrite Hfr, Fd by lia. destruct (Z.eq_dec _ _); [done|lia].
    + rewrite D2. apply dread_eq.
  - apply (closed_put s p file (mk_active NULLF 0 ReadOnly NULLF 0 (aused a2)) Hcl); [cbn; congruence|done|].
    cbn [activelist]. unfold s2, written, s1. cbn [activelist set_active]. by rewrite !insert_insert_eq.
  - apply (first_entry_put s _ k (mk_active NULLF 0 ReadOnly NULLF 0 (aused a2)) Hk); [done|].
    cbn [activelist]. unfold s2, written, s1. cbn [activelist set_active]. by rewrite !insert_insert_eq.
  - unfold s2, written, s1. cbn. lia.
  - intros x Hx. by rewrite lookup_insert_ne.
  - intros c Hc' Hne. rewrite Hfr, Fd by lia. by destruct (Z.eq_dec _ _).
  - intros j Hj Hne. rewrite D2, dread_ne by done. by apply Od.
  - split; [done|]. cbn [AFBLNodelist]. split; [eexists; split; [apply lookup_insert_eq|done]|].
    intros j Hj. rewrite lookup_insert_ne by (unfold node_ptr; lia).
    unfold s2, written. cbn [AFBLNodelist]. rewrite lookup_insert_ne by (unfold node_ptr; lia). by apply Hib.
Qed.

Lemma close_unwritten_ok (s : fs D) p a f : activelist s !! p = Some a -> RefCnt a = 1 -> ahead a = NULLF ->
  files s !! afile a = Some f ->
  close_file p s = Ok (tt, mk_fs (fdisk s) (fsda s) (<[afile a := set_FileSize (buffsize a) f]> (files s))
    (active_cnt s - 1) (<[p := mk_active NULLF 0 ReadOnly NULLF 0 (aused a)]> (activelist s))
    (AFBLNodelist s) (out s) (words s) (wpos s)).
Proof.
  intros Ea Hr Hn Ef. unfold close_file. rewrite (bindM_ok _ _ _ _ _ (get_active_ok s p a Ea)), Hr.
  change (i32 (1 - 1)) with 0. unfold put_active. rewrite bind_modify. set (s1 := set_active _ _ s).
  assert (E1 : activelist s1 !! p = Some (mk_active (afile a) 0 (Type_ a) (ahead a) (buffsize a) (aused a)))
    by apply lookup_insert_eq.
  rewrite (bindM_ok _ _ _ _ _ (get_active_ok s1 p _ E1)). cbn [RefCnt].
  change (0 =? 0) with true. cbn iota. unfold active_file_close. rewrite bind_modify. set (s2 := set_active _ _ s1).
  rewrite (bindM_ok _ _ _ _ _ (get_active_ok s2 p _ E1)). cbn [afile buffsize].
  assert (Ef2 : files s2 !! afile a = Some f) by exact Ef.
  rewrite (bindM_ok _ _ _ _ _ (upd_file_ok s2 _ f _ Ef2)). set (s3 := set_files _ s2).
  assert (Ef3 : files s3 !! afile a = Some (set_FileSize (buffsize a) f)) by apply lookup_insert_eq.
  rewrite (bindM_ok _ _ _ _ _ (get_file_ok s3 _ _ Ef3)). cbn [ahead]. rewrite Hn.
  rewrite (bindM_ok _ _ _ _ _ (active_close_nil _ _ s3)).
  unfold put_active, modify, s3, s2, s1. cbn. by rewrite insert_insert_eq.
Qed.

Lemma cat_file_ok (s : fs D) file f cl k : dstate_wf (fdisk s) -> files s !! file = Some f ->
  closed s file -> first_entry s k -> chain (dsk (fdisk s)) (FstClus f) cl -> cl <> [] ->
  (length cl < LOOP)%nat -> 512 * (zlen cl - 1) < FileSize f <= 512 * zlen cl ->
  let w := take (Z.to_nat (FileSize f)) (contents (dsk (fdisk s)) cl) in word_ok w ->
  exists s' a, cat_file file s = Ok (active_ptr k, s') /\ out s' = out s ++ w ++ [10] /\
    dsk (fdisk s') = dsk (fdisk s) /\ files s' = files s /\
    activelist s' !! active_ptr k = Some (opened file ReadOnly a).
Proof.
  intros Hwf Ef Hcl Hk Hch Hne Hl Hs w Hok. pose proof Hk as (_ & (e & Ee & _) & _).
  unfold cat_file. rewrite (bindM_ok _ _ _ _ _ (open_file_ok s file ReadOnly k e Hcl Hk Ee)).
  set (s1 := set_active _ _ s).
  assert (Ea : activelist s1 !! active_ptr k = Some (opened file ReadOnly e)) by apply lookup_insert_eq.
  destruct (read_file_ok s1 (active_ptr k) _ f cl Ea Ef Hwf Hch Hne Hl Hs Hok) as (d & E & Ed & _).
  eexists _, e. rewrite (bindM_ok _ _ _ _ _ E). split; [reflexivity|]. split; [reflexivity|].
  split; [exact Ed|]. split; [reflexivity|exact Ea].
Qed.

(** A content of 512 characters or more does not fit: [write_file] writes
    one character behind its sector buffer. *)
Lemma write_file_overflows (s : fs D) (p i : Z) (a : ActiveFile) (f : File) (w : list Z) :
  activelist s !! p = Some a -> Type_ a <> ReadOnly -> files s !! afile a = Some f -> first_node s i ->
  words s (wpos s) = w -> word_ok w -> 512 <= zlen w < 1000 -> write_file p s = Err Fault.
Proof.
  intros Ea Ht Ef Hi Hw Hok Hl. unfold write_file.
  rewrite (bindM_ok _ _ _ _ _ (get_active_ok s p a Ea)), bool_decide_eq_false_2 by done.
  rewrite (bindM_ok _ _ _ _ _ (get_empty_node_ok s i Hi)). set (s1 := set_nodes _ s).
  assert (Ea1 : activelist s1 !! p = Some a) by exact Ea.
  rewrite (bindM_ok _ _ _ _ _ (set_ahead_ok s1 p _ a Ea1)). set (s2 := set_active _ _ s1).
  assert (Ef2 : files s2 !! afile a = Some f) by exact Ef.
  rewrite (bindM_ok _ _ _ _ _ (get_file_ok s2 _ f Ef2)), (bindM_ok _ _ _ _ _ (say_prompt s2)).
  set (s3 := set_out _ s2).
  assert (Hlw : (512 <= length w < 1000)%nat) by (unfold zlen in Hl; lia).
  rewrite (bindM_ok _ _ _ _ _ (scan_word w (replicate 1024 0) s3 Hw Hok ltac:(lia)
    ltac:(rewrite length_replicate; lia))).
  set (s4 := set_wpos _ s3). cbn iota beta.
  assert (Es : forall post, strlen (w ++ 0 :: post) 0 = Ok (zlen w))
    by (intros post; rewrite (strlen_ok _ 0 w (word_cstr w post Hok)), u32_small; [done|lia]).
  rewrite (bind_lift _ _ _ _ (Es _)), to_nat_zlen. apply bindM_err.
  destruct (split_at_nat w 511 ltac:(lia)) as (w1 & [|x w2] & Ew & L1);
    [rewrite Ew, length_app in Hlw; cbn in Hlw; lia|].
  assert (Hlen : (length w = length w1 + S (length w2))%nat) by (by rewrite Ew, length_app).
  rewrite Hlen, Ew, <- app_assoc, write_loop_word by (unfold zlen; lia). cbn [app write_loop].
  rewrite (bind_lift _ _ _ _ (aget_mid w1 x _)).
  assert (Hz : zlen w1 = 511) by (unfold zlen; lia). rewrite L1.
  assert (Eset : aset (w1 ++ replicate (512 - 511) 0) 511 x = Ok (w1 ++ [x]))
    by (rewrite <- Hz; apply (aset_mid w1 0 x [])).
  rewrite Hz. change (511 <? BytePerSec) with true. cbn iota. rewrite (bind_lift _ _ _ _ Eset).
  change (511 =? BytePerSec - 1) with true. cbn iota. apply bindM_err.
  unfold lift. by rewrite aset_fault by (rewrite zlen_snoc, Hz; lia).
Qed.

(** C18. Writing and reading a word, for a file that is not open, with room in the
    tables.
    - Opening it, typing a word of 1 to 511 characters and closing it stores the
      word, zero padded, in the first cluster, ends the chain there, records the
      length, and leaves every other file, cluster and sector as it was; opening
      it again and reading prints exactly the word.  The close that follows the
      reading keeps the disk, but stores 0 as the size of the file.
    - A longer word, up to the size of the buffer it is scanned into, faults. *)
Theorem write_then_read (s : fs D) (file : Z) (f : File) (w : list Z) (k i : Z) :
  dstate_wf (fdisk s) -> files s !! file = Some f -> 2 <= FstClus f <= 2849 -> file <> NULLF ->
  closed s file -> first_entry s k -> first_node s i -> words s (wpos s) = w -> word_ok w ->
  (1 <= zlen w <= 511 ->
   exists s', write_word file s = Ok (true, s') /\ stores s' file f w /\
     out s' = out s ++ write_prompt /\
     (forall x, x <> file -> files s' !! x = files s !! x) /\
     (forall c, 0 <= c < 3072 -> c <> FstClus f -> fat (dsk (fdisk s')) c = fat (dsk (fdisk s)) c) /\
     (forall j, j < 1 \/ 18 < j -> j <> FstClus f + ClusToSec ->
        dread (dsk (fdisk s')) j = dread (dsk (fdisk s)) j) /\
     exists s2 acfile, cat_file file s' = Ok (acfile, s2) /\ out s2 = out s' ++ w ++ [10] /\
       exists s3, close_file acfile s2 = Ok (tt, s3) /\ dsk (fdisk s3) = dsk (fdisk s') /\
         files s3 = <[file := set_FileSize 0 f]> (files s')) /\
  (512 <= zlen w < 1000 -> write_word file s = Err Fault).
Proof.
  intros Hwf Ef Hc Hfile Hcl Hk Hi Hw Hok. split; intros Hl.
  2: { destruct Hk as (Hk1 & (e & Ee & Hu) & Hk2). unfold write_word.
    rewrite (bindM_ok _ _ _ _ _ (open_file_ok s file ReadWrite k e Hcl (conj Hk1 (conj (ex_intro _ e (conj Ee Hu)) Hk2)) Ee)).
    set (s1 := set_active _ _ s). apply bindM_err.
    apply (write_file_overflows s1 (active_ptr k) i (opened file ReadWrite e) f w); try done. apply lookup_insert_eq. }
  destruct (write_word_ok s file f w k i Hwf Ef Hc Hfile Hcl Hk Hi Hw Hok ltac:(lia))
    as (s' & E & St & W & O & Cl & Fe & _ & Of & Oc & Os & _).
  exists s'. split; [exact E|]. split; [exact St|]. do 4 (split; [assumption|]).
  destruct St as (Sf & Sc & Sd).
  assert (Et : take (Z.to_nat (zlen w)) (contents (dsk (fdisk s')) [FstClus f]) = w).
  { unfold contents. cbn [fmap list_fmap concat]. rewrite Sd, app_nil_r, to_nat_zlen. unfold sector_of.
    apply take_app_length. }
  destruct (cat_file_ok s' file (set_FileSize (zlen w) f) [FstClus f] k W Sf Cl Fe) as (s2 & a & E2 & O2 & D2 & F2 & A2).
  - cbn [FstClus set_FileSize chain]. rewrite Sc. unfold eoc. repeat split; lia.
  - done.
  - cbn. unfold LOOP. lia.
  - cbn [FileSize set_FileSize]. change (zlen [FstClus f]) with 1. lia.
  - cbn [FileSize set_FileSize]. by rewrite Et.
  - cbn [FileSize set_FileSize] in O2. rewrite Et in O2. exists s2, (active_ptr k). split; [exact E2|]. split; [exact O2|].
    eexists. split; [apply (close_unwritten_ok s2 _ _ (set_FileSize (zlen w) f) A2 eq_refl eq_refl); cbn [afile opened]; by rewrite F2|].
    cbn [fdisk files]. split; [exact D2|]. by rewrite F2.
Qed.

(** Looking at a file loses its size: [close_file] stores [buffsize] as
    the size, and that is 0 when nothing was written.  After opening a file
    for reading, printing it correctly and closing it, its size is 0. *)
Theorem cat_forgets_size (s : fs D) (file : Z) (f : File) (cl : list Z) (k : Z) :
  dstate_wf (fdisk s) -> files s !! file = Some f -> closed s file -> first_entry s k ->
  chain (dsk (fdisk s)) (FstClus f) cl -> NoDup cl -> cl <> [] ->
  512 * (zlen cl - 1) < FileSize f <= 512 * zlen cl ->
  word_ok (take (Z.to_nat (FileSize f)) (contents (dsk (fdisk s)) cl)) ->
  exists s', (acfile ← cat_file file; close_file acfile) s = Ok (tt, s') /\
    out s' = out s ++ take (Z.to_nat (FileSize f)) (contents (dsk (fdisk s)) cl) ++ [10] /\
    files s' !! file = Some (set_FileSize 0 f).
Proof.
  intros Hwf Ef Hcl Hk Hch Hnd Hne Hs Hok.
  assert (Hl : (length cl < LOOP)%nat)
    by (pose proof (chain_length cl Hnd (fun x Hx => proj1 (chain_in _ _ _ Hch x Hx))); unfold LOOP; lia).
  destruct (cat_file_ok s file f cl k Hwf Ef Hcl Hk Hch Hne Hl Hs Hok) as (s1 & a & E & O & _ & F & A).
  rewrite <- F in Ef. eexists. rewrite (bindM_ok _ _ _ _ _ E).
  split; [exact (close_unwritten_ok s1 _ _ f A eq_refl eq_refl Ef)|]. split; [exact O|].
  apply lookup_insert_eq.
Qed.
End ops.

(** ** Concrete files for the witnesses *)

(** A file of 514 characters in the clusters 2 and 3. *)
Definition text_disk : ramdisk :=
  list_to_map [(1, demo_fat); (10, demo_fat); (33, replicate 512 65); (34, replicate 512 66)].
Definition text_file (size : Z) : File := set_FileSize size (tree_file "text" 0x20 2 NULLF NULLF).
Definition text_fs (size : Z) (ws : list (list Z)) : fs ramdisk :=
  set_disk (mk_dstate text_disk img0) (demo_fs (<[2 := text_file size]> blank_files) ws).

Lemma text_wf : dstate_wf (mk_dstate text_disk img0).
Proof.
  split; [|reflexivity]. apply ramdisk_sectors.
  repeat (apply List.Forall_cons; [split; [reflexivity|apply (bool_decide_unpack _); vm_compute; exact I]|]).
  apply List.Forall_nil.
Qed.

Lemma text_chain : chain text_disk 2 [2; 3].
Proof.
  split; [done|]. split; [lia|]. split; [vm_compute; reflexivity|]. split; [lia|].
  vm_compute. split; discriminate.
Qed.

Lemma text_closed size ws file : file <> NULLF -> closed (text_fs size ws) file.
Proof.
  intros Hf j Hj. exists (mk_active 0 0 ReadOnly 0 0 false). split; [|intros E; apply Hf; symmetry; exact E].
  assert (j = 0 \/ j = 1 \/ j = 2 \/ j = 3 \/ j = 4 \/ j = 5 \/ j = 6 \/ j = 7 \/ j = 8 \/ j = 9) as Hd by lia.
  repeat (destruct Hd as [->|Hd]; [vm_compute; reflexivity|]). subst. vm_compute. reflexivity.
Qed.

Lemma text_entry size ws : first_entry (text_fs size ws) 0.
Proof.
  split; [lia|]. split; [|intros j Hj; lia].
  exists (mk_active 0 0 ReadOnly 0 0 false). split; vm_compute; reflexivity.
Qed.

Lemma text_node size ws : first_node (text_fs size ws) 0.
Proof.
  split; [lia|]. split; [|intros j Hj; lia].
  exists (mk_node (replicate 512 0) 0 false). split; vm_compute; reflexivity.
Qed.

Lemma read_file_prints_witness :
  let s := set_active 1 (<[1 := mk_active 2 1 ReadOnly 0 0 false]> (activelist (text_fs 514 []))) (text_fs 514 []) in
  exists s', read_file 1 s = Ok (tt, s') /\ out s' = replicate 512 65 ++ [66; 66] ++ [10].
Proof.
  intros s. destruct (read_file_prints s 1 (mk_active 2 1 ReadOnly 0 0 false) (text_file 514) [2; 3])
    as (s' & E & O & _).
  - vm_compute. reflexivity.
  - vm_compute. reflexivity.
  - exact text_wf.
  - exact text_chain.
  - apply (bool_decide_unpack _). vm_compute. exact I.
  - discriminate.
  - vm_compute. split; [reflexivity|discriminate].
  - apply (bool_decide_unpack _). vm_compute. exact I.
  - exists s'. split; [exact E|]. rewrite O. vm_compute. reflexivity.
Defined.

Lemma write_then_read_witness :
  let s := text_fs 0 [lit "hello"] in
  exists s', write_word 2 s = Ok (true, s') /\ files s' !! 2 = Some (text_file 5) /\
    exists s'' acfile, cat_file 2 s' = Ok (acfile, s'') /\ out s'' = write_prompt ++ lit "hello" ++ [10].
Proof.
  intros s. destruct (write_then_read s 2 (text_file 0) (lit "hello") 0 0)
    as [Hs _].
  - exact text_wf.
  - vm_compute. reflexivity.
  - cbn. lia.
  - discriminate.
  - apply text_closed. discriminate.
  - apply text_entry.
  - apply text_node.
  - reflexivity.
  - apply (bool_decide_unpack _). vm_compute. exact I.
  - destruct Hs as (s' & E & (F & _) & O & _ & _ & _ & s'' & p & E2 & O2 & _); [vm_compute; split; discriminate|].
    exists s'. split; [exact E|]. split; [exact F|]. exists s'', p. split; [exact E2|].
    rewrite O2, O. reflexivity.
Defined.

Lemma write_file_overflows_witness :
  let s := set_active 1 (<[1 := mk_active 2 1 ReadWrite 0 0 false]> (activelist (text_fs 0 [])))
    (text_fs 0 [replicate 512 65]) in
  write_file 1 s = Err Fault.
Proof.
  intros s. apply (write_file_overflows s 1 0 (mk_active 2 1 ReadWrite 0 0 false) (text_file 0) (replicate 512 65)).
  - vm_compute. reflexivity.
  - discriminate.
  - vm_compute. reflexivity.
  - split; [lia|]. split; [|intros j Hj; lia].
    exists (mk_node (replicate 512 0) 0 false). split; vm_compute; reflexivity.
  - reflexivity.
  - apply (bool_decide_unpack _). vm_compute. exact I.
  - vm_compute. split; [discriminate|reflexivity].
Defined.

Lemma cat_forgets_size_witness :
  exists s', (acfile ← cat_file 2; close_file acfile) (text_fs 514 []) = Ok (tt, s') /\
    files s' !! 2 = Some (text_file 0).
Proof.
  destruct (cat_forgets_size (text_fs 514 []) 2 (text_file 514) [2; 3] 0) as (s' & E & _ & F).
  - exact text_wf.
  - vm_compute. reflexivity.
  - apply text_closed. discriminate.
  - apply text_entry.
  - exact text_chain.
  - apply (bool_decide_unpack _). vm_compute. exact I.
  - discriminate.
  - vm_compute. split; [reflexivity|discriminate].
  - apply (bool_decide_unpack _). vm_compute. exact I.
  - exists s'. split; [exact E|exact F].
Defined.
