(* ===== verification/Create.v ===== *)
(** * Create: new files in the root directory

    [create_empty_file] proved for the root directory: what it adds to the
    table of files, to the FAT and to the sectors of the directory, and what
    it does when the name is taken or the directory is full. *)

From Stdlib Require Import String.
From S2P Require Import Prelude CString BlockDev Disk Fat Stdio Names File Entry FsFunc FsTree FileOps.

Lemma encode_sector f slot : file_wf f -> length slot = 32%nat -> bytes slot ->
  length (encode f slot) = 32%nat /\ bytes (encode f slot).
Proof.
  intros Hf Hl Hs. unfold encode. split.
  - rewrite !length_app, (fw_name _ Hf), length_take, length_drop, Hl. done.
  - assert (Hm : forall x, is_byte (x mod 256)) by (intros x; unfold is_byte; apply Z.mod_pos_bound; lia).
    assert (H16 : forall x, bytes (le16 x)) by (intros x; unfold bytes; repeat constructor; apply Hm).
    assert (H32 : forall x, bytes (le32 x)) by (intros x; unfold bytes; repeat constructor; apply Hm).
    unfold bytes in *. rewrite !Forall_app, Forall_singleton.
    split; [apply (fw_bytes _ Hf)|]. split; [apply (fw_attr _ Hf)|]. split; [by apply Forall_take, Forall_drop|].
    repeat split; auto.
Qed.

Lemma put_entry_sector b k f : sector b -> 0 <= k < 16 -> file_wf f -> sector (put_entry b k f).
Proof.
  intros [Hl Hb] Hk Hf. unfold put_entry. set (i := Z.to_nat (32 * k)).
  destruct (encode_sector f (take 32 (drop i b)) Hf) as [He1 He2].
  - rewrite length_take, length_drop. unfold i. lia.
  - by apply Forall_take, Forall_drop.
  - split.
    + rewrite !length_app, He1, length_take, length_drop. unfold i. lia.
    + apply Forall_app. split; [by apply Forall_take|]. apply Forall_app. split; [done|by apply Forall_drop].
Qed.

Section create.
Context {D : Type} `{BlockDevice D}.

(** The first slot of the fourteen sectors of the root directory: sector and
    position in it. *)
Definition root_slot (d : D) (sec k : Z) : Prop :=
  19 <= sec <= 32 /\ first_slot (dread d sec) k /\ forall i, 19 <= i < sec -> no_slot (dread d i).
Definition root_full (d : D) : Prop := forall i, 19 <= i <= 32 -> no_slot (dread d i).

Definition put_in (d : D) (sec k : Z) (f : File) : D := dwrite d sec (put_entry (dread d sec) k f).

Lemma root_loop_ok (s : fs D) file f : dwf (dsk (fdisk s)) -> files s !! file = Some f -> file_wf f ->
  forall n secID, 19 <= secID -> secID + Z.of_nat n = 33 ->
  (forall fuel sec k, root_slot (dsk (fdisk s)) sec k -> secID <= sec -> (n <= fuel)%nat ->
    create_dir_entry_loop fuel 0 secID file s
    = Ok (None, set_disk (mk_dstate (put_in (dsk (fdisk s)) sec k f) (img (fdisk s))) s)) /\
  (forall fuel, root_full (dsk (fdisk s)) -> (n < fuel)%nat ->
    create_dir_entry_loop fuel 0 secID file s = Ok (Some 0, s)).
Proof.
  intros Hd Hf Hwf. induction n as [|n IH]; intros secID Hs Hn.
  - assert (secID = 33) as -> by lia. split; [intros fuel sec k (Hr & _) Hle; lia|].
    intros [|fuel] _ Hfu; [lia|]. reflexivity.
  - destruct (IH (secID + 1) ltac:(lia) ltac:(lia)) as [I1 I2].
    assert (Hsec : 0 <= secID <= SecCnt) by (unfold SecCnt; lia).
    destruct (create_entry_ok s secID file f Hd Hf Hwf Hsec) as [C1 C2].
    assert (Hend : (0 =? 0) && (secID =? 33) = false) by (apply andb_false_intro2; lia).
    split; [intros [|fuel] sec k Hr Hle Hfu|intros [|fuel] Hfull Hfu]; try lia; cbn [create_dir_entry_loop];
      rewrite Hend; change (negb (0 =? 0) && (0xFF8 <=? 0) && (0 <=? 0xFFF)) with false; cbn iota.
    + destruct Hr as (Hr & Hk & Hb). destruct (decide (sec = secID)) as [->|Hne].
      * by rewrite (bindM_ok _ _ _ _ _ (C2 k Hk)).
      * rewrite (bindM_ok _ _ _ _ _ (C1 (Hb secID ltac:(lia)))).
        change (0 =? 0) with true. cbn iota. rewrite u16_small by lia. apply I1; [done|lia|lia].
    + rewrite (bindM_ok _ _ _ _ _ (C1 (Hfull secID ltac:(lia)))).
      change (0 =? 0) with true. cbn iota. rewrite u16_small by lia. apply I2; [done|lia].
Qed.

Lemma create_root_entry_ok (s : fs D) file f r : files s !! rootfile = Some r ->
  dwf (dsk (fdisk s)) -> files s !! file = Some f -> file_wf f ->
  (forall sec k, root_slot (dsk (fdisk s)) sec k -> create_dir_entry rootfile file s
    = Ok (true, set_disk (mk_dstate (put_in (dsk (fdisk s)) sec k f) (img (fdisk s))) s)) /\
  (root_full (dsk (fdisk s)) -> create_dir_entry rootfile file s = Ok (false, s)).
Proof.
  intros Hr Hd Hf Hwf.
  assert (El : forall fuel, (14 < fuel)%nat ->
    (forall sec k, root_slot (dsk (fdisk s)) sec k -> create_dir_entry_loop fuel 0 19 file s
      = Ok (None, set_disk (mk_dstate (put_in (dsk (fdisk s)) sec k f) (img (fdisk s))) s)) /\
    (root_full (dsk (fdisk s)) -> create_dir_entry_loop fuel 0 19 file s = Ok (Some 0, s))).
  { intros fuel Hfu. destruct (root_loop_ok s file f Hd Hf Hwf 14 19 ltac:(lia) ltac:(lia)) as [L1 L2]. split.
    - intros sec k Hs. apply L1; [done|destruct Hs; lia|lia].
    - intros Hfull. apply L2; [done|lia]. }
  destruct (El 4097%nat ltac:(lia)) as [L1 L2].
  assert (Eu : create_dir_entry rootfile file s
    = (r ← create_dir_entry_loop 4097 0 19 file;
       match r with
       | None => mret true
       | Some clusID =>
           if clusID =? 0 then mret false
           else
             newClus ← on_disk (append_a_cluster clusID);
             create_dir_entry_in_sector (newClus + ClusToSec) file
       end) s).
  { unfold create_dir_entry. by rewrite (bindM_ok _ _ _ _ _ (get_file_ok s rootfile r Hr)). }
  rewrite Eu. split.
  - intros sec k Hs. by rewrite (bindM_ok _ _ _ _ _ (L1 sec k Hs)).
  - intros Hfull. by rewrite (bindM_ok _ _ _ _ _ (L2 Hfull)).
Qed.

Lemma init_file_ok (s : fs D) p f fa nm post attr t dt c : files s !! p = Some f -> length nm = 11%nat ->
  is_byte attr -> 0 <= t < 65536 -> 0 <= dt < 65536 -> 0 <= c < 65536 ->
  init_file p fa (nm ++ post) attr t dt c 0 s
  = Ok (tt, set_files (<[p := mk_File nm attr (Reserved f) t dt c 0 fa NULLF NULLF (used f)]> (files s)) s).
Proof.
  intros Hf Hn Ha Ht Hdt Hc. unfold init_file.
  pose proof (read_cells_part nm [] post) as Er. rewrite Hn in Er. cbn [app] in Er.
  change (zlen []) with 0 in Er. rewrite (bind_lift _ _ _ _ Er), (upd_file_ok s p f _ Hf).
  by rewrite u8_small, !u16_small, u32_small by (unfold is_byte in *; lia).
Qed.

(** The file [create_empty_file] makes. *)
Definition fresh_file (g : File) (nm : list Z) (attr t dt c next : Z) : File :=
  mk_File nm attr (Reserved g) t dt c 0 rootfile NULLF next true.

(** The conditions under which the root directory can take a new file of the
    name [nm]: a free cluster of the medium and a free element of [filelist]. *)
Record can_create (s : fs D) (d : File) (l nm : list Z) (c i : Z) : Prop := {
  cc_disk : dstate_wf (fdisk s);
  cc_root : files s !! rootfile = Some d;
  cc_sibs : sibs (files s) (FstSon d) l;
  cc_names : forall x f, x ∈ l -> files s !! x = Some f -> length (Filename f) = 11%nat;
  cc_len : (length l < LOOP)%nat;
  cc_name : length nm = 11%nat /\ bytes nm;
  cc_new : List.find (named (files s) nm) l = None;
  cc_clus : first_free (dsk (fdisk s)) c /\ 2 <= c <= 2849;
  cc_slot : first_unused s i /\ file_ptr i ∉ l }.

(** Up to the entry in the directory: cluster taken and zeroed, file in the
    table, nothing linked. *)
Lemma create_start (s : fs D) d l nm post c i attr t dt : can_create s d l nm c i ->
  is_byte attr -> 0 <= t < 65536 -> 0 <= dt < 65536 ->
  exists s1 g, files s !! file_ptr i = Some g /\ used g = false /\
    create_empty_file rootfile (nm ++ post) attr t dt s
    = (r ← create_dir_entry rootfile (file_ptr i);
       if negb r then _ ← upd_file (file_ptr i) (set_used false); mret false
       else
         _ ← on_disk (write_fat_next_cluster c 0xFFF);
         d ← get_file rootfile;
         _ ← upd_file (file_ptr i) (set_NextSib (FstSon d));
         _ ← upd_file rootfile (set_FstSon (file_ptr i));
         mret true) s1 /\
    files s1 = <[file_ptr i := fresh_file g nm attr t dt c NULLF]> (files s) /\
    dsk (fdisk s1) = dwrite (dsk (fdisk s)) (c + ClusToSec) zero_sector /\ dstate_wf (fdisk s1) /\
    out s1 = out s.
Proof.
  intros [Hwf Hd Hs Hn Hl [Hnm Hb] Hf [Hc Hcr] [Hi Hil]] Ha Ht Hdt.
  pose proof Hi as (Hi0 & (g & Eg & Hu) & _).
  destruct (find_empty_ok (fdisk s) c Hwf Hc ltac:(lia)) as (d1 & E1 & W1 & D1).
  set (s1 := set_disk d1 s). assert (Hi1 : first_unused s1 i) by exact Hi.
  pose proof (get_empty_file_ok s1 i g Hi1 Eg) as E2. set (s2 := set_files _ s1) in E2.
  assert (Eg2 : files s2 !! file_ptr i = Some (new_file g)) by apply lookup_insert_eq.
  pose proof (init_file_ok s2 _ _ rootfile nm post attr t dt c Eg2 Hnm Ha Ht Hdt ltac:(lia)) as E3.
  set (s3 := set_files _ s2) in E3. exists s3, g. split; [done|]. split; [done|].
  split; [|split; [|split; [exact D1|split; [exact W1|reflexivity]]]].
  - unfold create_empty_file, is_file_exist.
    assert (Ex : (d ← get_file rootfile; find_sibling LOOP (FstSon d) (nm ++ post)) s = Ok (NULLF, s)).
    { rewrite (bindM_ok _ _ _ _ _ (get_file_ok s _ d Hd)), (find_sibling_ok s nm post l) by done.
      by rewrite Hf. }
    rewrite (bindM_ok _ _ _ _ _ Ex). change (negb (NULLF =? NULLF)) with false. cbn iota.
    rewrite (bindM_ok _ _ _ _ _ (on_disk_ok find_empty_cluster s _ _ E1)), (proj2 (Z.eqb_neq c (-1))) by lia.
    fold s1. rewrite (bindM_ok _ _ _ _ _ E2). by rewrite (bindM_ok _ _ _ _ _ E3).
  - unfold s3, s2, s1. cbn. by rewrite insert_insert_eq.
Qed.

Lemma root_slot_frame (d d' : D) sec k : (forall i, 19 <= i <= 32 -> dread d' i = dread d i) ->
  root_slot d sec k -> root_slot d' sec k.
Proof.
  intros Hf (Hr & Hk & Hb). split; [done|]. rewrite Hf by done. split; [done|].
  intros i Hi. rewrite Hf by lia. by apply Hb.
Qed.

(** Linking [p] in front of the children of the root directory. *)
Lemma sibs_linked (m : gmap Z File) d l p fr : m !! rootfile = Some d -> sibs m (FstSon d) l ->
  p ∉ l -> p <> rootfile -> p <> NULLF ->
  sibs (<[rootfile := set_FstSon p d]> (<[p := set_NextSib (FstSon d) fr]> m)) p (p :: l).
Proof.
  intros Hd Hs Hp Hr Hn. split; [done|]. split; [done|]. exists (set_NextSib (FstSon d) fr).
  split; [rewrite lookup_insert_ne by congruence; apply lookup_insert_eq|].
  cbn [NextSib set_NextSib]. apply (sibs_frame m); [done|]. intros x f Hx Ex.
  destruct (decide (x = rootfile)) as [->|].
  - rewrite Ex in Hd. injection Hd as ->. eexists. split; [apply lookup_insert_eq|reflexivity].
  - assert (p <> x) by (intros <-; by apply Hp). exists f. by rewrite !lookup_insert_ne by congruence.
Qed.

Lemma link_file_ok (s : fs D) p d f : files s !! rootfile = Some d -> files s !! p = Some f -> p <> rootfile ->
  (d ← get_file rootfile;
   _ ← upd_file p (set_NextSib (FstSon d));
   _ ← upd_file rootfile (set_FstSon p);
   mret true) s
  = Ok (true, set_files (<[rootfile := set_FstSon p d]> (<[p := set_NextSib (FstSon d) f]> (files s))) s).
Proof.
  intros Hd Hf Hne. rewrite (bindM_ok _ _ _ _ _ (get_file_ok s _ d Hd)).
  rewrite (bindM_ok _ _ _ _ _ (upd_file_ok s _ f _ Hf)). set (m := <[p := _]> _).
  assert (Hd' : files (set_files m s) !! rootfile = Some d) by (cbn; unfold m; by rewrite lookup_insert_ne).
  by rewrite (bindM_ok _ _ _ _ _ (upd_file_ok (set_files m s) _ d _ Hd')).
Qed.

(** The sectors after the entry of the file has been written and its cluster
    marked as the end of a chain. *)
Definition entered (d d' : D) (sec k c : Z) (f : File) : Prop :=
  dread d' sec = put_entry (dread d sec) k f /\ dread d' (c + ClusToSec) = zero_sector /\
  (forall j, j < 1 \/ 18 < j -> j <> sec -> j <> c + ClusToSec -> dread d' j = dread d j) /\
  (forall c', 0 <= c' < 3072 -> fat d' c' = if Z.eq_dec c' c then 0xFFF else fat d c').

Lemma enter_ok (d : D) (d1 : dstate D) sec k c f : dstate_wf d1 -> 19 <= sec <= 32 -> 0 <= k < 16 ->
  2 <= c <= 2849 -> file_wf f -> dsk d1 = dwrite d (c + ClusToSec) zero_sector ->
  exists d2, write_fat_next_cluster c 0xFFF (mk_dstate (put_in (dsk d1) sec k f) (img d1)) = Ok (tt, d2) /\
    dstate_wf d2 /\ entered d (dsk d2) sec k c f.
Proof.
  intros W1 Hsec Hk Hc Hf D1.
  assert (W2 : dstate_wf (mk_dstate (put_in (dsk d1) sec k f) (img d1))).
  { destruct W1 as [Wd Wi]. split; [|exact Wi]. apply dwrite_wf; [exact Wd|].
    apply put_entry_sector; [apply dread_sector, Wd|exact Hk|exact Hf]. }
  destruct (write_fat_ok _ c 0xFFF W2 ltac:(lia) ltac:(lia)) as (d2 & E & W & _ & O & T).
  exists d2. split; [exact E|]. split; [exact W|]. cbn [dsk] in *. unfold put_in, ClusToSec in *.
  split; [|split; [|split]].
  - rewrite O by lia. rewrite dread_eq, D1. by rewrite dread_ne by lia.
  - rewrite O by (unfold ClusToSec; lia). rewrite dread_ne by (unfold ClusToSec; lia). rewrite D1. apply dread_eq.
  - intros j Hj Hjs Hjc. rewrite O, dread_ne, D1 by done. by apply dread_ne.
  - intros c' Hc'. rewrite T by done. destruct (Z.eq_dec c' c); [done|].
    rewrite fat_dwrite, D1 by lia. apply fat_dwrite; lia.
Qed.

(** C19. Creating a file in the root directory adds exactly that file: it
    becomes the first child, the other children and files stay, its entry is
    put into the first free slot of the directory, and it owns the first free
    cluster, which is zeroed and marked as the end of a chain; no other FAT
    entry and no other sector changes. *)
Theorem create_file_adds (s : fs D) (d : File) (l nm post : list Z) (c i attr t dt sec k : Z) :
  can_create s d l nm c i -> is_byte attr -> 0 <= t < 65536 -> 0 <= dt < 65536 ->
  root_slot (dsk (fdisk s)) sec k ->
  exists s' g, create_empty_file rootfile (nm ++ post) attr t dt s = Ok (true, s') /\
    files s' !! file_ptr i = Some (fresh_file g nm attr t dt c (FstSon d)) /\
    (exists d', files s' !! rootfile = Some d' /\ sibs (files s') (FstSon d') (file_ptr i :: l)) /\
    (forall x, x <> rootfile -> x <> file_ptr i -> files s' !! x = files s !! x) /\
    entered (dsk (fdisk s)) (dsk (fdisk s')) sec k c (fresh_file g nm attr t dt c NULLF).
Proof.
  intros Hcc Ha Ht Hdt Hslot.
  destruct (create_start s d l nm post c i attr t dt Hcc Ha Ht Hdt) as (s1 & g & Eg & Hu & E & F1 & D1 & W1 & _).
  destruct Hcc as [Hwf Hd Hs _ _ [Hnm Hb] _ [_ Hc] [[Hi _] Hil]].
  assert (Hne : file_ptr i <> rootfile) by (unfold file_ptr, rootfile; lia).
  set (fr := fresh_file g nm attr t dt c NULLF) in *.
  assert (Hfr : file_wf fr) by (split; cbn; try done; lia).
  assert (Ef : files s1 !! file_ptr i = Some fr) by (rewrite F1; apply lookup_insert_eq).
  assert (Ed : files s1 !! rootfile = Some d) by (by rewrite F1, lookup_insert_ne).
  destruct (create_root_entry_ok s1 (file_ptr i) fr d Ed (dw_disk _ W1) Ef Hfr) as [Hput _].
  assert (Hslot1 : root_slot (dsk (fdisk s1)) sec k).
  { revert Hslot. apply root_slot_frame. intros j Hj. rewrite D1. apply dread_ne. unfold ClusToSec. lia. }
  specialize (Hput sec k Hslot1). destruct Hslot as (Hsr & (Hk & _) & _).
  destruct (enter_ok _ _ sec k c fr W1 Hsr Hk Hc Hfr D1) as (d3 & E3 & W3 & Hent).
  set (s2 := set_disk _ s1) in Hput. set (s3 := set_disk d3 s2).
  set (m := <[rootfile := set_FstSon (file_ptr i) d]>
    (<[file_ptr i := set_NextSib (FstSon d) fr]> (files s))).
  exists (set_files m s3), g. split; [|split; [|split; [|split; [|exact Hent]]]].
  - rewrite E, (bindM_ok _ _ _ _ _ Hput). cbn [negb].
    rewrite (bindM_ok _ _ _ _ _ (on_disk_ok _ s2 _ _ E3)). fold s3.
    rewrite (link_file_ok s3 (file_ptr i) d fr Ed Ef Hne). do 3 f_equal.
    unfold m, s3, s2. cbn. by rewrite F1, insert_insert_eq.
  - cbn [files set_files]. unfold m. rewrite lookup_insert_ne by congruence. apply lookup_insert_eq.
  - exists (set_FstSon (file_ptr i) d). split; [apply lookup_insert_eq|].
    apply sibs_linked; try done. unfold file_ptr, NULLF. lia.
  - intros x Hx Hx'. cbn [files set_files]. unfold m. by rewrite !lookup_insert_ne by congruence.
Qed.

Definition clash_message (attr : Z) : list Z :=
  if attr =? 0x20 then lit "There is a directory with the same name in this path." ++ [10]
  else lit "There is a file with the same name in this path" ++ [10].

Lemma name_clash_ok (s : fs D) x f : files s !! x = Some f ->
  name_clash x s = Ok (tt, set_out (out s ++ clash_message (Attr f)) s).
Proof.
  intros Ef. unfold name_clash. rewrite (bindM_ok _ _ _ _ _ (get_file_ok s x f Ef)).
  unfold clash_message. destruct (Attr f =? 0x20); by apply say_line_ok.
Qed.

(** Creation fails without damage.  When the name is taken nothing
    changes but the message, which calls a file (attribute 0x20) a directory
    and a directory a file.  When the directory is full the new element of
    [filelist] is free again, and the directory, the FAT and all sectors but
    that of the free cluster are as they were. *)
Theorem create_file_fails (s : fs D) (d : File) (l nm post : list Z) (attr t dt : Z) :
  (forall x f, files s !! rootfile = Some d -> sibs (files s) (FstSon d) l ->
     (forall y h, y ∈ l -> files s !! y = Some h -> length (Filename h) = 11%nat) ->
     (length l < LOOP)%nat -> length nm = 11%nat ->
     List.find (named (files s) nm) l = Some x -> files s !! x = Some f ->
     create_empty_file rootfile (nm ++ post) attr t dt s
     = Ok (false, set_out (out s ++ clash_message (Attr f)) s)) /\
  (forall c i, can_create s d l nm c i -> is_byte attr -> 0 <= t < 65536 -> 0 <= dt < 65536 ->
     root_full (dsk (fdisk s)) ->
     exists s' g, create_empty_file rootfile (nm ++ post) attr t dt s = Ok (false, s') /\
       files s' = <[file_ptr i := g]> (files s) /\ used g = false /\ out s' = out s /\
       forall j, j <> c + ClusToSec -> dread (dsk (fdisk s')) j = dread (dsk (fdisk s)) j).
Proof.
  split.
  - intros x f Hd Hs Hn Hl Hnm Hx Ef. unfold create_empty_file, is_file_exist.
    assert (Ex : (d ← get_file rootfile; find_sibling LOOP (FstSon d) (nm ++ post)) s = Ok (x, s)).
    { rewrite (bindM_ok _ _ _ _ _ (get_file_ok s _ d Hd)), (find_sibling_ok s nm post l) by done.
      by rewrite Hx. }
    rewrite (bindM_ok _ _ _ _ _ Ex). apply List.find_some in Hx as [Hin _].
    destruct (sibs_member _ _ _ x Hs) as [Hx0 _]; [by apply list_elem_of_In|].
    rewrite (proj2 (Z.eqb_neq x NULLF)) by done. cbn [negb].
    by rewrite (bindM_ok _ _ _ _ _ (name_clash_ok s x f Ef)).
  - intros c i Hcc Ha Ht Hdt Hfull.
    destruct (create_start s d l nm post c i attr t dt Hcc Ha Ht Hdt) as (s1 & g & _ & _ & E & F1 & D1 & W1 & O1).
    destruct Hcc as [Hwf Hd Hs _ _ [Hnm Hb] _ [_ Hc] [[Hi _] Hil]].
    set (fr := fresh_file g nm attr t dt c NULLF) in *.
    assert (Hfr : file_wf fr) by (split; cbn; try done; lia).
    assert (Hne : file_ptr i <> rootfile) by (unfold file_ptr, rootfile; lia).
    assert (Ef : files s1 !! file_ptr i = Some fr) by (rewrite F1; apply lookup_insert_eq).
    assert (Ed : files s1 !! rootfile = Some d) by (by rewrite F1, lookup_insert_ne).
    destruct (create_root_entry_ok s1 (file_ptr i) fr d Ed (dw_disk _ W1) Ef Hfr) as [_ Hno].
    assert (Hfull1 : root_full (dsk (fdisk s1))).
    { intros j Hj. rewrite D1, dread_ne by (unfold ClusToSec; lia). by apply Hfull. }
    exists (set_files (<[file_ptr i := set_used false fr]> (files s1)) s1), (set_used false fr).
    split; [|split; [|split; [reflexivity|split; [exact O1|]]]].
    + rewrite E, (bindM_ok _ _ _ _ _ (Hno Hfull1)). cbn [negb].
      by rewrite (bindM_ok _ _ _ _ _ (upd_file_ok s1 _ fr _ Ef)).
    + cbn. by rewrite F1, insert_insert_eq.
    + intros j Hj. cbn. rewrite D1. by apply dread_ne.
Qed.
End create.

(** ** Concrete directories for the witnesses *)

(** One child, README.TXT; in [full_root] every slot is taken. *)
Definition root_dir (son : Z) : File :=
  mk_File (replicate 11 0) 0 (replicate 10 0) 0 0 0 0 NULLF son NULLF true.
Definition root_files : gmap Z File :=
  <[1 := root_dir 2]> (<[2 := set_NextSib NULLF readme]> blank_files).
Definition root_fs : fs ramdisk := demo_fs root_files [].
Definition full_root : fs ramdisk :=
  set_disk (mk_dstate (list_to_map ([(1, demo_fat); (10, demo_fat)] ++
    ((fun j => (j, replicate 512 65)) <$> seqZ 19 14))) img0) root_fs.

Lemma full_root_wf : dstate_wf (fdisk full_root).
Proof.
  split; [|reflexivity]. apply ramdisk_sectors. apply Forall_app. split.
  - repeat (apply List.Forall_cons; [split; [reflexivity|apply (bool_decide_unpack _); vm_compute; exact I]|]).
    apply List.Forall_nil.
  - apply Forall_forall. intros q (j & -> & _)%list_elem_of_fmap. apply replicate_sector. unfold is_byte. lia.
Qed.

Lemma root_can_create (s : fs ramdisk) : dstate_wf (fdisk s) -> files s = root_files ->
  fat (dsk (fdisk s)) 4 = 0 -> used_below (dsk (fdisk s)) 4 = true ->
  can_create s (root_dir 2) [2] (name83 (lit "new.txt")) 4 1.
Proof.
  intros Hwf Hf Hz Hu. split; rewrite ?Hf.
  - exact Hwf.
  - vm_compute. reflexivity.
  - split; [reflexivity|]. split; [discriminate|]. eexists. split; [vm_compute; reflexivity|reflexivity].
  - intros x f Hx. apply list_elem_of_singleton in Hx as ->. vm_compute. intros [= <-]. reflexivity.
  - vm_compute. lia.
  - split; [reflexivity|]. apply (bool_decide_unpack _). vm_compute. exact I.
  - vm_compute. reflexivity.
  - split; [|lia]. split; [lia|]. split; [exact Hz|]. by apply used_below_spec.
  - split.
    + split; [lia|]. rewrite Hf. split; [exists blank_file; split; vm_compute; reflexivity|].
      intros j Hj. assert (j = 0) as -> by lia. exists readme. split; vm_compute; reflexivity.
    + apply (bool_decide_unpack _). vm_compute. exact I.
Qed.

Lemma create_file_adds_witness : exists s' g,
  create_empty_file rootfile (name83 (lit "new.txt") ++ [0]) 0x20 0 24608 root_fs = Ok (true, s') /\
  files s' !! 3 = Some (fresh_file g (name83 (lit "new.txt")) 0x20 0 24608 4 2) /\
  fat (dsk (fdisk s')) 4 = 0xFFF.
Proof.
  destruct (create_file_adds root_fs (root_dir 2) [2] (name83 (lit "new.txt")) [0] 4 1 0x20 0 24608 19 0)
    as (s' & g & E & F & _ & _ & _ & _ & _ & T).
  - apply root_can_create; [exact demo_wf|reflexivity|vm_compute; reflexivity|vm_compute; reflexivity].
  - split; [discriminate|reflexivity].
  - lia.
  - lia.
  - split; [lia|]. split; [|intros j Hj; lia].
    split; [lia|]. split; [left; vm_compute; reflexivity|intros j Hj; lia].
  - exists s', g. split; [exact E|]. split; [exact F|]. apply (T 4). lia.
Defined.

Lemma create_file_fails_witness :
  create_empty_file rootfile (name83 (lit "readme.txt") ++ [0]) 0x20 0 24608 root_fs
    = Ok (false, set_out (clash_message 0x20) root_fs) /\
  exists s' g, create_empty_file rootfile (name83 (lit "new.txt") ++ [0]) 0x20 0 24608 full_root = Ok (false, s') /\
    files s' = <[3 := g]> root_files.
Proof.
  split.
  - destruct (create_file_fails root_fs (root_dir 2) [2] (name83 (lit "readme.txt")) [0] 0x20 0 24608) as [Hc _].
    apply (Hc 2 (set_NextSib NULLF readme)).
    + vm_compute. reflexivity.
    + split; [reflexivity|]. split; [discriminate|]. eexists. split; [vm_compute; reflexivity|reflexivity].
    + intros x f Hx. apply list_elem_of_singleton in Hx as ->. vm_compute. intros [= <-]. reflexivity.
    + vm_compute. lia.
    + reflexivity.
    + vm_compute. reflexivity.
    + vm_compute. reflexivity.
  - destruct (create_file_fails full_root (root_dir 2) [2] (name83 (lit "new.txt")) [0] 0x20 0 24608) as [_ Hf].
    destruct (Hf 4 1) as (s' & g & E & F & _).
    + apply root_can_create; [exact full_root_wf|reflexivity|vm_compute; reflexivity|vm_compute; reflexivity].
    + split; [discriminate|reflexivity].
    + lia.
    + lia.
    + intros j Hj. assert (Eb : dread (dsk (fdisk full_root)) j = replicate 512 65).
      { assert (Hin : j ∈ seqZ 19 14) by (apply elem_of_seqZ; lia). revert j Hj Hin.
        assert (Hall : Forall (fun j => dread (dsk (fdisk full_root)) j = replicate 512 65) (seqZ 19 14)).
        { apply (bool_decide_unpack _). vm_compute. exact I. }
        intros j _ Hin. rewrite Forall_forall in Hall. by apply Hall. }
      rewrite Eb. intros k Hk [Hs|Hs]; revert Hs; unfold at_; rewrite lookup_replicate_2 by lia; discriminate.
    + exists s', g. split; [exact E|exact F].
Defined.
