(* ===== verification/Mount.v ===== *)
(** * Mount: the tree of files is the tree on the disk

    [build_all_tree] reads the directories of the disk into the table of
    files.  [read_dir] says what the directories hold, as a forest of their
    32-byte entries; [mounted] says that the table holds a forest, with the
    links between father, first son and next sibling; and the function is
    proved to mount what [read_dir] reads. *)

From Stdlib Require Import String.
From S2P Require Import Prelude CString BlockDev Disk Fat Stdio Names File Entry FsFunc FsTree FileOps.

(** ** Forests of entries *)

(** An entry, the contents of its directory and the entries behind it. *)
Inductive forest := FNil | FCons (e : list Z) (kids rest : forest).

Fixpoint fapp (F G : forest) : forest :=
  match F with FNil => G | FCons e k r => FCons e k (fapp r G) end.

Fixpoint fsize (F : forest) : Z :=
  match F with FNil => 0 | FCons _ k r => 1 + fsize k + fsize r end.

Lemma fsize_nonneg F : 0 <= fsize F.
Proof. induction F; cbn [fsize]; lia. Qed.

Lemma fsize_app F G : fsize (fapp F G) = fsize F + fsize G.
Proof. induction F as [|e k _ r IH]; cbn [fapp fsize]; lia. Qed.

Lemma fapp_assoc F G K : fapp (fapp F G) K = fapp F (fapp G K).
Proof. induction F as [|e k _ r IH]; cbn [fapp]; [done|by rewrite IH]. Qed.

Lemma fapp_nil F : fapp F FNil = F.
Proof. induction F as [|e k _ r IH]; cbn [fapp]; [done|by rewrite IH]. Qed.

(** ** Entries *)

(** The fields of a 32-byte entry. *)
Definition decode (e : list Z) : File :=
  mk_File (take 11 e) (at_ e 11) (take 10 (drop 12 e)) (at_ e 22 + 256 * at_ e 23)
    (at_ e 24 + 256 * at_ e 25) (at_ e 26 + 256 * at_ e 27)
    (at_ e 28 + 256 * at_ e 29 + 65536 * at_ e 30 + 16777216 * at_ e 31) NULLF NULLF NULLF true.

(** The file of the entry in the table: father, first son, next sibling. *)
Definition placed (e : list Z) (fa son next : Z) : File :=
  mk_File (Filename (decode e)) (Attr (decode e)) (Reserved (decode e)) (WrtTime (decode e))
    (WrtDate (decode e)) (FstClus (decode e)) (FileSize (decode e)) fa son next true.

Definition entry_live (e : list Z) : bool := negb ((at_ e 0 =? 0xE5) || (at_ e 0 =? 0)).
Definition entry_dir (e : list Z) : bool := (at_ e 11 =? 0x10) && negb (at_ e 0 =? 0x2E).

Definition entry_bytes (e : list Z) : Prop := length e = 32%nat /\ bytes e.

Lemma decode_wf e : entry_bytes e -> file_wf (decode e).
Proof.
  intros [Hl Hb]. assert (Hat : forall i, is_byte (at_ e i)) by (intros i; by apply bytes_at).
  pose proof (Hat 11). pose proof (Hat 22). pose proof (Hat 23). pose proof (Hat 24). pose proof (Hat 25).
  pose proof (Hat 26). pose proof (Hat 27). pose proof (Hat 28). pose proof (Hat 29). pose proof (Hat 30).
  pose proof (Hat 31). unfold is_byte in *. split; cbn [decode Filename Attr WrtTime WrtDate FstClus FileSize].
  - rewrite length_take. lia.
  - by apply Forall_take.
  - unfold is_byte. lia.
  - lia.
  - lia.
  - lia.
  - lia.
Qed.

Lemma list_32 (e : list Z) : length e = 32%nat ->
  e = take 11 e ++ [at_ e 11] ++ take 10 (drop 12 e) ++
      [at_ e 22; at_ e 23; at_ e 24; at_ e 25; at_ e 26; at_ e 27; at_ e 28; at_ e 29; at_ e 30; at_ e 31].
Proof.
  intros Hl. do 32 (destruct e as [|? e]; [discriminate|]). destruct e; [|discriminate]. reflexivity.
Qed.

(** Encoding the decoded entry gives the entry back. *)
Lemma encode_decode e : entry_bytes e -> encode (decode e) e = e.
Proof.
  intros [Hl Hb]. assert (Hat : forall i, 0 <= at_ e i < 256) by (intros i; apply (bytes_at e i Hb)).
  assert (H16 : forall a b, 0 <= a < 256 -> 0 <= b < 256 -> le16 (a + 256 * b) = [a; b]).
  { intros a b Ha Hb'. unfold le16. f_equal; [zarith|]. f_equal. zarith. }
  assert (H32 : forall a b c x, 0 <= a < 256 -> 0 <= b < 256 -> 0 <= c < 256 -> 0 <= x < 256 ->
    le32 (a + 256 * b + 65536 * c + 16777216 * x) = [a; b; c; x]).
  { intros a b c x Ha Hb' Hc Hx. unfold le32. f_equal; [zarith|]. f_equal; [zarith|]. f_equal; [zarith|].
    f_equal. zarith. }
  unfold encode. cbn [decode Filename Attr WrtTime WrtDate FstClus FileSize].
  rewrite !H16, H32 by auto. symmetry. exact (list_32 e Hl).
Qed.

(** ** What the directories of a disk hold *)

Definition slots (b : list Z) : list (list Z) := (fun k => take 32 (drop (32 * k) b)) <$> seq 0 16.

Fixpoint read_entries (rec : Z -> option forest) (es : list (list Z)) : option forest :=
  match es with
  | [] => Some FNil
  | e :: es' =>
      if entry_live e then
        kids ← (if entry_dir e then rec (FstClus (decode e)) else Some FNil);
        rest ← read_entries rec es';
        Some (FCons e kids rest)
      else read_entries rec es'
  end.

(** The sector a directory begins with; cluster 0 is the root directory. *)
Definition dir_start (c : Z) : Z := if c =? 0 then 19 else u16 (c + ClusToSec).

Section mount.
Context {D : Type} `{BlockDevice D}.

(** The entries of the directory from cluster [c], sector [sec] on.  [None]
    where a cluster number or sector lies outside the disk, or the directories
    are nested in a cycle and the fuel runs out. *)
Fixpoint read_dir (fuel : nat) (d : D) (c sec : Z) : option forest :=
  match fuel with
  | O => None
  | S n =>
      if (c =? 0) && (sec =? 33) then Some FNil
      else if negb (c =? 0) && (0xFF8 <=? c) && (c <=? 0xFFF) then Some FNil
      else if (c <=? 4095) && (sec <=? SecCnt) then
        F ← read_entries (fun c' => read_dir n d c' (dir_start c')) (slots (dread d sec));
        G ← (if c =? 0 then read_dir n d c (u16 (sec + 1))
             else read_dir n d (fat d c) (u16 (fat d c + ClusToSec)));
        Some (fapp F G)
      else None
  end.

(** ** A forest in the table of files *)

Definition fptr (i : Z) (F : forest) (next : Z) : Z :=
  match F with FNil => next | FCons _ _ _ => file_ptr i end.

(** The forest [F] of the father [fa] is in the table from element [i] of
    [filelist] on, in the order of a preorder walk; the last of the siblings
    points to [next]. *)
Fixpoint mounted (m : gmap Z File) (fa i : Z) (F : forest) (next : Z) : Prop :=
  match F with
  | FNil => True
  | FCons e k r =>
      m !! file_ptr i = Some (placed e fa (fptr (i + 1) k NULLF) (fptr (i + 1 + fsize k) r next)) /\
      mounted m (file_ptr i) (i + 1) k NULLF /\ mounted m fa (i + 1 + fsize k) r next
  end.

(** The element of the last of the siblings. *)
Fixpoint flast (i : Z) (F : forest) : Z :=
  match F with
  | FNil => NULLF
  | FCons _ k r => match r with FNil => file_ptr i | _ => flast (i + 1 + fsize k) r end
  end.

Lemma flast_range F : forall i, F <> FNil -> file_ptr i <= flast i F < file_ptr (i + fsize F).
Proof.
  induction F as [|e k _ r IH]; intros i Hne; [done|]. cbn [flast fsize].
  pose proof (fsize_nonneg k). pose proof (fsize_nonneg r). destruct r as [|e' k' r'].
  - unfold file_ptr. lia.
  - specialize (IH (i + 1 + fsize k) ltac:(done)). unfold file_ptr in *. lia.
Qed.

Lemma mounted_frame m m' F : forall fa i next, mounted m fa i F next ->
  (forall j, i <= j < i + fsize F -> m' !! file_ptr j = m !! file_ptr j) -> mounted m' fa i F next.
Proof.
  induction F as [|e k IHk r IHr]; intros fa i next Hm Hf; [done|]. cbn [mounted fsize] in *.
  pose proof (fsize_nonneg k). pose proof (fsize_nonneg r). destruct Hm as (Hx & Hk & Hr).
  split; [by rewrite Hf by lia|]. split; [apply IHk; [done|]; intros j Hj; apply Hf; lia|].
  apply IHr; [done|]. intros j Hj. apply Hf. lia.
Qed.

(** Giving the last sibling a new next. *)
Lemma mounted_relink m m' q F : forall fa i, mounted m fa i F NULLF ->
  (forall j, i <= j < i + fsize F -> file_ptr j <> flast i F -> m' !! file_ptr j = m !! file_ptr j) ->
  m' !! flast i F = set_NextSib q <$> m !! flast i F -> mounted m' fa i F q.
Proof.
  induction F as [|e k _ r IH]; intros fa i Hm Hf Hl; [done|]. cbn [mounted fsize] in *.
  pose proof (fsize_nonneg k). pose proof (fsize_nonneg r). destruct Hm as (Hx & Hk & Hr).
  destruct r as [|e' k' r'].
  - cbn [flast] in *. split; [by rewrite Hl, Hx|]. split; [|done].
    apply (mounted_frame m); [done|]. intros j Hj. apply Hf; [lia|unfold file_ptr; lia].
  - set (r := FCons e' k' r') in *. change (flast i (FCons e k r)) with (flast (i + 1 + fsize k) r) in *.
    pose proof (flast_range r (i + 1 + fsize k) ltac:(done)) as Hlr. unfold file_ptr in Hlr.
    split; [rewrite Hf by (unfold file_ptr; lia); exact Hx|]. split.
    + apply (mounted_frame m); [done|]. intros j Hj. apply Hf; unfold file_ptr; lia.
    + apply IH; [done| |done]. intros j Hj Hne. apply Hf; [lia|done].
Qed.

Lemma mounted_app m F G next : forall fa i, mounted m fa i F (fptr (i + fsize F) G next) ->
  mounted m fa (i + fsize F) G next -> mounted m fa i (fapp F G) next.
Proof.
  induction F as [|e k _ r IH]; intros fa i Hm Hg; cbn [fapp mounted fsize] in *.
  - by rewrite Z.add_0_r in Hg.
  - destruct Hm as (Hx & Hk & Hr).
    assert (Ei : i + (1 + fsize k + fsize r) = i + 1 + fsize k + fsize r) by lia. rewrite Ei in *.
    split; [|split; [done|by apply IH]]. rewrite Hx. do 2 f_equal. destruct r; [|done]. cbn [fapp fptr fsize].
    by rewrite Z.add_0_r.
Qed.

Lemma flast_snoc F e k : forall i, flast i (fapp F (FCons e k FNil)) = file_ptr (i + fsize F).
Proof.
  induction F as [|e' k' _ r IH]; intros i; cbn [fapp flast fsize]; [by rewrite Z.add_0_r|].
  destruct (fapp r (FCons e k FNil)) as [|e1 k1 r1] eqn:E; [by destruct r|]. rewrite IH. f_equal. lia.
Qed.

(** ** The state while mounting *)

(** The elements of [filelist] below [i] are in use, the others are free. *)
Definition ready (m : gmap Z File) (i : Z) : Prop :=
  0 <= i <= 100 /\ (forall j, 0 <= j < i -> exists f, m !! file_ptr j = Some f /\ used f = true) /\
  forall j, i <= j < 100 -> exists f, m !! file_ptr j = Some f /\ used f = false.

Definition good (d : D) (s : fs D) (i : Z) : Prop :=
  dstate_wf (fdisk s) /\ dsk (fdisk s) = d /\ ready (files s) i.

(** From [s] to [s'] the forest [F] has been mounted at [i]; nothing else of
    the table has changed. *)
Definition built (d : D) (s s' : fs D) (fa i : Z) (F : forest) : Prop :=
  good d s' (i + fsize F) /\ mounted (files s') fa i F NULLF /\
  (forall x, ~ (file_ptr i <= x < file_ptr (i + fsize F)) -> files s' !! x = files s !! x) /\
  out s' = out s.

Lemma ready_add m i f : ready m i -> i < 100 -> used f = true -> ready (<[file_ptr i := f]> m) (i + 1).
Proof.
  intros (Hi & Hu & Hf) Hlt Hfu. split; [lia|]. split.
  - intros j Hj. destruct (decide (j = i)) as [->|]; [exists f; by rewrite lookup_insert_eq|].
    destruct (Hu j ltac:(lia)) as (g & Eg & Hg). exists g. by rewrite lookup_insert_ne by (unfold file_ptr; lia).
  - intros j Hj. destruct (Hf j ltac:(lia)) as (g & Eg & Hg). exists g.
    by rewrite lookup_insert_ne by (unfold file_ptr; lia).
Qed.

Lemma ready_upd m i p f g : ready m i -> m !! p = Some f -> used g = used f -> ready (<[p := g]> m) i.
Proof.
  intros (Hi & Hu & Hf) Ep Hg.
  assert (Hgen : forall j b, (exists h, m !! file_ptr j = Some h /\ used h = b) ->
    exists h, <[p := g]> m !! file_ptr j = Some h /\ used h = b).
  { intros j b (h & Eh & Hb). destruct (decide (p = file_ptr j)) as [->|Hne].
    - exists g. rewrite lookup_insert_eq. split; [done|]. congruence.
    - exists h. by rewrite lookup_insert_ne. }
  split; [done|]. split; intros j Hj; apply Hgen; auto.
Qed.

Lemma make_ok (s : fs D) i fa pre e post : ready (files s) i -> i < 100 -> entry_bytes e ->
  make_file_from_sector fa (pre ++ e ++ post) (zlen pre) s
  = Ok (file_ptr i, set_files (<[file_ptr i := placed e fa NULLF NULLF]> (files s)) s).
Proof.
  intros (Hi & Hu & Hf) Hlt He. destruct (Hf i ltac:(lia)) as (g & Eg & Hg).
  rewrite <- (encode_decode e He) at 1.
  rewrite (make_file_from_sector_ok s fa pre e post (decode e) i g (proj1 He) (decode_wf e He)); [done| |done].
  split; [lia|]. split; [by exists g|]. intros j Hj. apply Hu. lia.
Qed.

Lemma mounted_snoc m m' fa i e k F : mounted m fa i F NULLF ->
  (forall j, i <= j < i + fsize F -> file_ptr j <> flast i F -> m' !! file_ptr j = m !! file_ptr j) ->
  (F <> FNil -> m' !! flast i F = set_NextSib (file_ptr (i + fsize F)) <$> m !! flast i F) ->
  m' !! file_ptr (i + fsize F) = Some (placed e fa (fptr (i + fsize F + 1) k NULLF) NULLF) ->
  mounted m' (file_ptr (i + fsize F)) (i + fsize F + 1) k NULLF ->
  mounted m' fa i (fapp F (FCons e k FNil)) NULLF.
Proof.
  intros Hm Hf Hl Hx Hk. apply mounted_app.
  - destruct F as [|e' k' r']; [done|]. apply (mounted_relink m); [done|done|]. by apply Hl.
  - cbn [mounted]. split; [exact Hx|]. by split.
Qed.

Lemma flast_null i F : 0 <= i -> (flast i F =? NULLF) = match F with FNil => true | _ => false end.
Proof.
  intros Hi. destruct F as [|e k r]; [done|]. apply Z.eqb_neq.
  pose proof (flast_range (FCons e k r) i ltac:(done)) as Hr. unfold file_ptr, NULLF in *. lia.
Qed.

(** ** One entry *)

(** The table with [p] behind the last of the siblings [F]. *)
Definition link_last (i : Z) (F : forest) (p : Z) (m : gmap Z File) : gmap Z File :=
  match F with FNil => m | _ => alter (set_NextSib p) (flast i F) m end.

Lemma ready_last m i F : ready m (i + fsize F) -> 0 <= i -> F <> FNil ->
  exists f, m !! flast i F = Some f /\ used f = true.
Proof.
  intros (_ & Hu & _) Hi Hne. pose proof (flast_range F i Hne) as Hr. unfold file_ptr in Hr.
  destruct (Hu (flast i F - 2) ltac:(lia)) as (f & Ef & Hf). exists f. split; [|done].
  rewrite <- Ef. f_equal. unfold file_ptr. lia.
Qed.

Lemma link_ok (s : fs D) i F p : 0 <= i -> (F <> FNil -> is_Some (files s !! flast i F)) ->
  (if flast i F =? NULLF then mret p
   else _ ← upd_file (flast i F) (set_NextSib p); mret (fptr i F NULLF)) s
  = Ok (fptr i F p, set_files (link_last i F p (files s)) s).
Proof.
  intros Hi Hm. rewrite flast_null by done. destruct F as [|e k r].
  - cbn. by destruct s.
  - destruct (Hm ltac:(done)) as [f Ef]. rewrite (bindM_ok _ _ _ _ _ (upd_file_ok s _ f _ Ef)).
    unfold link_last. by rewrite (alter_insert_eq _ _ _ _ Ef).
Qed.

(** The table before the directory of the entry is read: the file is placed
    and linked. *)
Lemma place_ok (d : D) (s : fs D) fa e i F : good d s (i + fsize F) -> 0 <= i -> i + fsize F < 100 ->
  let q := i + fsize F in
  let m := link_last i F (file_ptr q) (<[file_ptr q := placed e fa NULLF NULLF]> (files s)) in
  good d (set_files m s) (q + 1) /\ m !! file_ptr q = Some (placed e fa NULLF NULLF) /\
  (forall x, x <> file_ptr q -> x <> flast i F \/ F = FNil -> m !! x = files s !! x) /\
  (F <> FNil -> m !! flast i F = set_NextSib (file_ptr q) <$> files s !! flast i F).
Proof.
  intros (Hwf & Hd & Hr) Hi Hlt q m.
  assert (Hr1 : ready (<[file_ptr q := placed e fa NULLF NULLF]> (files s)) (q + 1)) by (by apply ready_add).
  destruct F as [|e' k' r'].
  - split; [by split|]. split; [apply lookup_insert_eq|]. split; [|done]. intros x Hx _. unfold m, link_last. by rewrite lookup_insert_ne by congruence.
  - set (F := FCons e' k' r') in *. pose proof (flast_range F i ltac:(done)) as Hl.
    assert (Hne : flast i F <> file_ptr q) by (unfold q, file_ptr in *; lia).
    destruct (ready_last (files s) i F Hr Hi ltac:(done)) as (f & Ef & Hf).
    assert (Ef1 : <[file_ptr q := placed e fa NULLF NULLF]> (files s) !! flast i F = Some f)
      by (by rewrite lookup_insert_ne).
    assert (Em : m = <[flast i F := set_NextSib (file_ptr q) f]>
      (<[file_ptr q := placed e fa NULLF NULLF]> (files s))) by (symmetry; by apply alter_insert_eq).
    rewrite Em. split; [|split; [|split]].
    + split; [done|]. split; [done|]. by apply (ready_upd _ _ _ f).
    + by rewrite lookup_insert_ne, lookup_insert_eq.
    + intros x Hx [Hx'|]; [|done]. by rewrite !lookup_insert_ne.
    + intros _. by rewrite lookup_insert_eq, Ef.
Qed.

Lemma good_set (d : D) (s : fs D) m i : good d s i -> ready m i -> good d (set_files m s) i.
Proof. intros (Hwf & Hd & _) Hr. by split. Qed.

(** The table after the entry has been read and linked holds one sibling more. *)
Lemma built_snoc (d : D) (s s' : fs D) (m : gmap Z File) fa i e k F : mounted (files s) fa i F NULLF -> 0 <= i ->
  (forall x, x <> file_ptr (i + fsize F) -> x <> flast i F \/ F = FNil -> m !! x = files s !! x) ->
  (F <> FNil -> m !! flast i F = set_NextSib (file_ptr (i + fsize F)) <$> files s !! flast i F) ->
  good d s' (i + fsize F + 1 + fsize k) ->
  files s' !! file_ptr (i + fsize F) = Some (placed e fa (fptr (i + fsize F + 1) k NULLF) NULLF) ->
  mounted (files s') (file_ptr (i + fsize F)) (i + fsize F + 1) k NULLF ->
  (forall x, x <> file_ptr (i + fsize F) ->
     ~ (file_ptr (i + fsize F + 1) <= x < file_ptr (i + fsize F + 1 + fsize k)) -> files s' !! x = m !! x) ->
  out s' = out s -> built d s s' fa i (fapp F (FCons e k FNil)).
Proof.
  intros Hm Hi Mo Ml Hg Hq Hk Hf Ho. set (q := i + fsize F) in *.
  pose proof (fsize_nonneg k) as Hk0. pose proof (fsize_nonneg F) as HF0.
  assert (Hsz : i + fsize (fapp F (FCons e k FNil)) = q + 1 + fsize k)
    by (rewrite fsize_app; cbn [fsize]; unfold q; lia).
  assert (Hlq : F <> FNil -> file_ptr i <= flast i F < file_ptr q) by apply flast_range.
  unfold built. rewrite Hsz. split; [exact Hg|]. split; [|split; [|exact Ho]].
  - apply (mounted_snoc (files s)); [done| | |exact Hq|exact Hk].
    + intros j Hj Hne. unfold q, file_ptr in *. rewrite Hf by (unfold file_ptr; lia). apply Mo; [lia|by left].
    + intros Hne. specialize (Hlq Hne). rewrite Hf by (unfold q, file_ptr in *; lia). by apply Ml.
  - intros x Hx. unfold file_ptr in Hx, Hlq. rewrite Hf by (unfold file_ptr; lia).
    apply Mo; [unfold file_ptr; lia|]. destruct F as [|e' k' r']; [by right|left].
    specialize (Hlq ltac:(done)). unfold q in *. cbn [fsize] in *. lia.
Qed.

Lemma build_entry_ok (d : D) rec k e fa pre post (s : fs D) i F :
  good d s (i + fsize F) -> mounted (files s) fa i F NULLF -> 0 <= i ->
  i + fsize F + 1 + fsize k <= 100 -> entry_bytes e ->
  (entry_dir e = true -> forall s', good d s' (i + fsize F + 1) -> exists s'',
     rec (file_ptr (i + fsize F)) (FstClus (decode e)) s' = Ok (fptr (i + fsize F + 1) k NULLF, s'') /\
     built d s' s'' (file_ptr (i + fsize F)) (i + fsize F + 1) k) ->
  (entry_dir e = false -> k = FNil) ->
  exists s', build_entry rec fa (pre ++ e ++ post) (zlen pre) (fptr i F NULLF) (flast i F) s
    = Ok ((fptr i (fapp F (FCons e k FNil)) NULLF, file_ptr (i + fsize F)), s') /\
    built d s s' fa i (fapp F (FCons e k FNil)).
Proof.
  intros Hg Hm Hi Hsz He Hdir Hfile. pose proof (fsize_nonneg k) as Hk0. pose proof (fsize_nonneg F) as HF0.
  set (q := i + fsize F) in *. destruct (place_ok d s fa e i F Hg Hi ltac:(lia)) as (Hg1 & Mq & Mo & Ml).
  fold q in Hg1, Mq, Mo, Ml. set (s0 := set_files (<[file_ptr q := placed e fa NULLF NULLF]> (files s)) s).
  set (m := link_last i F (file_ptr q) (files s0)). change (link_last _ _ _ _) with m in Hg1, Mq, Mo, Ml.
  set (s1 := set_files m s) in *. pose proof Hg as (_ & _ & Hr).
  assert (Hlast : F <> FNil -> is_Some (files s0 !! flast i F)).
  { intros Hne. destruct (ready_last (files s) i F Hr Hi Hne) as (f & Ef & _). exists f. cbn [files s0 set_files].
    pose proof (flast_range F i Hne) as Hl. by rewrite lookup_insert_ne by (unfold q, file_ptr in *; lia). }
  unfold build_entry. rewrite (bindM_ok _ _ _ _ _ (make_ok s q fa pre e post Hr ltac:(lia) He)). fold s0.
  rewrite (bindM_ok _ _ _ _ _ (link_ok s0 i F (file_ptr q) Hi Hlast)).
  change (set_files (link_last i F (file_ptr q) (files s0)) s0) with s1.
  rewrite (bindM_ok _ _ _ _ _ (get_file_ok s1 _ _ Mq)).
  assert (E0 : aget (Filename (placed e fa NULLF NULLF)) 0 = Ok (at_ e 0)).
  { destruct He as [Hl _]. change (Filename (placed e fa NULLF NULLF)) with (take 11 e). rewrite aget_at by (unfold zlen; rewrite length_take; lia).
    unfold at_. by rewrite lookup_take_lt by lia. }
  rewrite (bind_lift _ _ _ _ E0). change (Attr (placed e fa NULLF NULLF)) with (at_ e 11).
  change (FstClus (placed e fa NULLF NULLF)) with (FstClus (decode e)).
  change ((at_ e 11 =? 0x10) && negb (at_ e 0 =? 0x2E)) with (entry_dir e).
  assert (Hptr : fptr i (fapp F (FCons e k FNil)) NULLF = fptr i F (file_ptr q)).
  { destruct F; cbn [fapp fptr]; [|done]. unfold q. cbn [fsize]. by rewrite Z.add_0_r. }
  rewrite Hptr. destruct (entry_dir e).
  - destruct (Hdir eq_refl s1 Hg1) as (s2 & E2 & (Hg2 & Hm2 & Fr2 & O2)).
    assert (Ep : files s2 !! file_ptr q = Some (placed e fa NULLF NULLF)).
    { rewrite Fr2 by (unfold file_ptr; lia). exact Mq. }
    assert (Eson : (son ← rec (file_ptr q) (FstClus (decode e)); upd_file (file_ptr q) (set_FstSon son)) s1
      = Ok (tt, set_files (<[file_ptr q := placed e fa (fptr (q + 1) k NULLF) NULLF]> (files s2)) s2)).
    { rewrite (bindM_ok _ _ _ _ _ E2). by rewrite (upd_file_ok s2 _ _ _ Ep). }
    rewrite (bindM_ok _ _ _ _ _ Eson). eexists. split; [reflexivity|].
    apply (built_snoc d s _ m fa i e k F); try done.
    + apply good_set; [done|]. destruct Hg2 as (_ & _ & Hr2). by apply (ready_upd _ _ _ _ _ Hr2 Ep).
    + apply lookup_insert_eq.
    + cbn [files set_files]. apply (mounted_frame (files s2)); [done|]. intros j Hj.
      apply lookup_insert_ne. unfold file_ptr. lia.
    + intros x Hx Hx'. cbn [files set_files]. rewrite lookup_insert_ne by done. by apply Fr2.
  - specialize (Hfile eq_refl). subst k. rewrite bind_mret. eexists. split; [reflexivity|].
    apply (built_snoc d s s1 m fa i e FNil F); try done. cbn [fsize]. by rewrite Z.add_0_r.
Qed.

(** ** Sectors and directories *)

Lemma built_trans (d : D) (s s1 s2 : fs D) fa i F G : built d s s1 fa i F ->
  built d s1 s2 fa i (fapp F G) -> built d s s2 fa i (fapp F G).
Proof.
  intros (_ & _ & Hf1 & O1) (Hg & Hm & Hf2 & O2). split; [done|]. split; [done|]. split; [|congruence].
  intros x Hx. rewrite Hf2 by done. apply Hf1. intros Hin. apply Hx. rewrite fsize_app.
  pose proof (fsize_nonneg G). unfold file_ptr in *. lia.
Qed.

Lemma built_refl (d : D) (s : fs D) fa i F : good d s (i + fsize F) -> mounted (files s) fa i F NULLF ->
  built d s s fa i F.
Proof. intros Hg Hm. by split. Qed.

Lemma build_entries_ok (d : D) rec spec :
  (forall c F s p i, spec c = Some F -> 0 <= c -> 0 <= i -> good d s i -> i + fsize F <= 100 ->
     exists s', rec p c s = Ok (fptr i F NULLF, s') /\ built d s s' p i F) ->
  forall es pre F0 F (s : fs D) i fa, Forall entry_bytes es -> read_entries spec es = Some F ->
  good d s (i + fsize F0) -> mounted (files s) fa i F0 NULLF -> 0 <= i -> i + fsize F0 + fsize F <= 100 ->
  exists s', build_entries rec (length es) fa (pre ++ concat es) (zlen pre) (fptr i F0 NULLF) (flast i F0) s
    = Ok ((fptr i (fapp F0 F) NULLF, flast i (fapp F0 F)), s') /\ built d s s' fa i (fapp F0 F).
Proof.
  intros Hrec. induction es as [|e es IH]; intros pre F0 F s i fa Hes Hr Hg Hm Hi Hsz.
  - injection Hr as <-. rewrite fapp_nil. exists s. split; [done|]. by apply built_refl.
  - apply Forall_cons_1 in Hes as [He Hes]. cbn [length build_entries concat read_entries] in *.
    assert (Ea : aget (pre ++ e ++ concat es) (zlen pre) = Ok (at_ e 0)).
    { destruct e as [|x e]; [by destruct He|]. apply aget_mid. }
    rewrite (bind_lift _ _ _ _ Ea).
    assert (Epos : zlen pre + 32 = zlen (pre ++ e)) by (rewrite zlen_app; unfold zlen; by rewrite (proj1 He)).
    rewrite Epos. unfold entry_live in Hr. destruct ((at_ e 0 =? 0xE5) || (at_ e 0 =? 0)); cbn [negb] in Hr.
    { destruct (IH (pre ++ e) F0 F s i fa Hes Hr Hg Hm Hi Hsz) as (s' & E & Hb).
      rewrite <- app_assoc in E. eauto. }
    destruct (if entry_dir e then spec (FstClus (decode e)) else Some FNil) as [k|] eqn:Ek; [|done].
    destruct (read_entries spec es) as [r|] eqn:Er; [|done]. injection Hr as <-. cbn [fsize] in Hsz.
    pose proof (fsize_nonneg k). pose proof (fsize_nonneg r).
    assert (Hc : 0 <= FstClus (decode e)) by apply (fw_clus _ (decode_wf e He)).
    destruct (build_entry_ok d rec k e fa pre (concat es) s i F0 Hg Hm Hi ltac:(lia) He) as (s1 & E1 & B1).
    { intros Hd s1 Hg1. rewrite Hd in Ek. apply Hrec; [done|done| |done|lia].
      pose proof (fsize_nonneg F0). lia. }
    { intros Hd. rewrite Hd in Ek. by injection Ek as <-. }
    rewrite (bindM_ok _ _ _ _ _ E1). pose proof B1 as (Hg1 & Hm1 & _).
    rewrite <- (flast_snoc F0 e k i).
    assert (Esz : fsize (fapp F0 (FCons e k FNil)) = fsize F0 + 1 + fsize k)
      by (rewrite fsize_app; cbn [fsize]; lia).
    destruct (IH (pre ++ e) (fapp F0 (FCons e k FNil)) r s1 i fa Hes eq_refl Hg1 Hm1 Hi ltac:(lia))
      as (s2 & E2 & B2).
    rewrite <- app_assoc in E2. rewrite fapp_assoc in E2, B2. cbn [fapp] in E2, B2.
    exists s2. split; [exact E2|]. replace (fapp F0 (FCons e k r)) with (fapp (fapp F0 (FCons e k FNil)) r) in *
      by (by rewrite fapp_assoc). by apply (built_trans d s s1).
Qed.

Lemma slots_concat (b : list Z) : forall n j, length b = (32 * (j + n))%nat ->
  concat ((fun k => take 32 (drop (32 * k) b)) <$> seq j n) = drop (32 * j) b.
Proof.
  induction n as [|n IH]; intros j Hl; cbn [seq fmap list_fmap concat].
  - by rewrite drop_ge by lia.
  - rewrite IH by lia. replace (32 * S j)%nat with (32 * j + 32)%nat by lia.
    rewrite <- drop_drop. by rewrite take_drop.
Qed.

Lemma slots_sector b : sector b -> concat (slots b) = b /\ length (slots b) = 16%nat /\
  Forall entry_bytes (slots b).
Proof.
  intros [Hl Hb]. split; [|split].
  - unfold slots. rewrite slots_concat by lia. by rewrite Nat.mul_0_r, drop_0.
  - unfold slots. by rewrite length_fmap, length_seq.
  - unfold slots. apply Forall_fmap, Forall_forall. intros k Hk%elem_of_seq. split.
    + rewrite length_take, length_drop. lia.
    + by apply Forall_take, Forall_drop.
Qed.

Lemma good_img (d : D) (s : fs D) d1 i : good d s i -> dstate_wf d1 -> dsk d1 = dsk (fdisk s) ->
  good d (set_disk d1 s) i.
Proof. intros (_ & Hd & Hr) Hw E. split; [done|]. split; [|done]. cbn. congruence. Qed.

Lemma build_loop_ok (d : D) : forall fuel c sec F0 F (s : fs D) i fa, read_dir fuel d c sec = Some F ->
  0 <= c -> 0 <= sec -> good d s (i + fsize F0) -> mounted (files s) fa i F0 NULLF -> 0 <= i ->
  i + fsize F0 + fsize F <= 100 ->
  exists s', build_loop fuel fa c sec (fptr i F0 NULLF) (flast i F0) s = Ok (fptr i (fapp F0 F) NULLF, s') /\
    built d s s' fa i (fapp F0 F).
Proof.
  induction fuel as [|fuel IH]; intros c sec F0 F s i fa Hr Hc Hsec Hg Hm Hi Hsz; [done|].
  assert (Hend : F = FNil -> exists s', (mret (fptr i F0 NULLF) : M (fs D) Z) s = Ok (fptr i (fapp F0 F) NULLF, s') /\
    built d s s' fa i (fapp F0 F)).
  { intros ->. rewrite fapp_nil. exists s. split; [done|]. by apply built_refl. }
  cbn [read_dir build_loop] in *. destruct ((c =? 0) && (sec =? 33)).
  { apply Hend. congruence. }
  destruct (negb (c =? 0) && (0xFF8 <=? c) && (c <=? 0xFFF)).
  { apply Hend. congruence. }
  clear Hend. destruct ((c <=? 4095) && (sec <=? SecCnt)) eqn:Eb; [|done].
  apply andb_true_iff in Eb as [Hc4%Z.leb_le Hs4%Z.leb_le].
  destruct (read_entries _ (slots (dread d sec))) as [F1|] eqn:E1; [|done]. cbn in Hr.
  pose proof Hg as (Hwf & Hd & _).
  assert (Hb : sector (dread d sec)) by (rewrite <- Hd; apply dread_sector, Hwf).
  destruct (slots_sector _ Hb) as (Hcat & Hlen & Hes).
  rewrite (bindM_ok _ _ _ _ _ (on_read_sector s sec ltac:(lia))), Hd.
  set (rec := fun fa' c : Z => build_loop fuel fa' c (if c =? 0 then 19 else u16 (c + ClusToSec)) NULLF NULLF).
  assert (Hrec : forall c F s p i, read_dir fuel d c (dir_start c) = Some F -> 0 <= c -> 0 <= i -> good d s i ->
    i + fsize F <= 100 -> exists s', rec p c s = Ok (fptr i F NULLF, s') /\ built d s s' p i F).
  { intros c' F' s' p i' Hr' Hc' Hi' Hg' Hsz'. destruct (IH c' (dir_start c') FNil F' s' i' p Hr' Hc') as (s2 & E & B).
    - unfold dir_start. destruct (c' =? 0); [lia|apply u16_range].
    - cbn [fsize]. by rewrite Z.add_0_r.
    - done.
    - done.
    - cbn [fsize]. lia.
    - exists s2. split; [exact E|exact B]. }
  destruct (if c =? 0 then read_dir fuel d c (u16 (sec + 1))
            else read_dir fuel d (fat d c) (u16 (fat d c + ClusToSec))) as [G|] eqn:E2; [|done].
  injection Hr as <-. rewrite fsize_app in Hsz. pose proof (fsize_nonneg F1). pose proof (fsize_nonneg G).
  destruct (build_entries_ok d rec _ Hrec (slots (dread d sec)) [] F0 F1 s i fa Hes E1 Hg Hm Hi ltac:(lia))
    as (s1 & Es & B1). cbn [app] in Es. rewrite Hcat, Hlen in Es. change (zlen []) with 0 in Es.
  rewrite (bindM_ok _ _ _ _ _ Es). cbn iota beta. pose proof B1 as (Hg1 & Hm1 & _).
  rewrite <- fapp_assoc. destruct (Z.eqb_spec c 0) as [->|Hc0].
  - destruct (IH 0 (u16 (sec + 1)) (fapp F0 F1) G s1 i fa E2 ltac:(lia) ltac:(apply u16_range) Hg1 Hm1 Hi
      ltac:(rewrite fsize_app; lia)) as (s2 & E & B2).
    exists s2. split; [exact E|]. by apply (built_trans d s s1).
  - pose proof Hg1 as (Hwf1 & Hd1 & _). destruct (get_fat_ok (fdisk s1) c Hwf1 ltac:(lia)) as (d1 & Ef & Df & Wf).
    rewrite (bindM_ok _ _ _ _ _ (on_disk_ok (get_fat_next_cluster c) s1 _ _ Ef)), Hd1.
    pose proof (good_img d s1 d1 _ Hg1 Wf Df) as Hg2.
    pose proof (fat_range d c ltac:(rewrite <- Hd; apply Hwf) Hc) as Hfr.
    destruct (IH (fat d c) (u16 (fat d c + ClusToSec)) (fapp F0 F1) G (set_disk d1 s1) i fa E2 ltac:(lia)
      ltac:(apply u16_range) Hg2 Hm1 Hi ltac:(rewrite fsize_app; lia)) as (s2 & E & B2).
    exists s2. split; [exact E|]. apply (built_trans d s (set_disk d1 s1)); [|done].
    destruct B1 as (_ & _ & Fr1 & O1). by split.
Qed.

(** The files of the first level of the forest. *)
Fixpoint tops (i : Z) (F : forest) : list Z :=
  match F with FNil => [] | FCons _ k r => file_ptr i :: tops (i + 1 + fsize k) r end.

Lemma mounted_sibs m fa F : forall i, 0 <= i -> mounted m fa i F NULLF ->
  sibs m (fptr i F NULLF) (tops i F).
Proof.
  induction F as [|e k _ r IH]; intros i Hi Hm; [done|]. destruct Hm as (Hx & _ & Hr). cbn [tops fptr].
  split; [done|]. split; [unfold file_ptr, NULLF; lia|]. eexists. split; [exact Hx|]. cbn [NextSib placed].
  pose proof (fsize_nonneg k). apply IH; [lia|done].
Qed.

(** ** Properties *)

(** C20. Mounting refines the directories of the disk.  When these hold a
    forest of at most 100 entries, [build_all_tree] on an empty table returns,
    and afterwards the table holds that forest: every entry that is neither
    unused nor deleted has a file with the fields of the entry, in preorder,
    linked to its father, its first son and its next sibling; the root file
    points to the first of them; the disk is only read. *)
Theorem build_all_tree_mounts (s : fs D) (d : D) (r : File) (F : forest) :
  good d s 0 -> files s !! rootfile = Some r -> read_dir LOOP d 0 19 = Some F -> fsize F <= 100 ->
  exists s', build_all_tree s = Ok (tt, s') /\
    files s' !! rootfile = Some (set_FstSon (fptr 0 F NULLF) r) /\
    mounted (files s') rootfile 0 F NULLF /\ sibs (files s') (fptr 0 F NULLF) (tops 0 F) /\
    ready (files s') (fsize F) /\ dsk (fdisk s') = d /\ out s' = out s.
Proof.
  intros Hg Hr HF Hsz.
  destruct (build_loop_ok d LOOP 0 19 FNil F s 0 rootfile HF ltac:(lia) ltac:(lia) Hg I ltac:(lia)
    ltac:(cbn [fsize]; lia)) as (s1 & E & (Hw & Hd & Hre) & Hm & Hf & Ho).
  cbn [fapp flast fptr] in *. rewrite Z.add_0_l in *.
  assert (Er : files s1 !! rootfile = Some r).
  { rewrite Hf; [done|]. unfold rootfile, file_ptr. lia. }
  exists (set_files (<[rootfile := set_FstSon (fptr 0 F NULLF) r]> (files s1)) s1).
  assert (Hm2 : mounted (<[rootfile := set_FstSon (fptr 0 F NULLF) r]> (files s1)) rootfile 0 F NULLF).
  { apply (mounted_frame (files s1)); [done|]. intros j Hj. apply lookup_insert_ne. unfold rootfile, file_ptr. lia. }
  split; [|split; [apply lookup_insert_eq|split; [exact Hm2|split; [by apply (mounted_sibs _ rootfile)|split; [|by split]]]]].
  - unfold build_all_tree, build_tree. change (0 =? 0) with true. cbn iota.
    rewrite (bindM_ok _ _ _ _ _ E). by rewrite (upd_file_ok s1 _ r _ Er).
  - by apply (ready_upd _ _ _ r).
Qed.
End mount.

(** ** A disk with a subdirectory for the witness *)

Definition demo_entry (name : string) (attr clus : Z) : list Z :=
  encode (tree_file name attr clus NULLF NULLF) (replicate 32 0).
Definition dir_sector (es : list (list Z)) : list Z := concat es ++ replicate (512 - 32 * length es) 0.

(** The root directory holds SUB, a deleted entry and A.TXT; SUB, in the
    clusters 2 and 3, holds OLD.TXT. *)
Definition mount_disk : ramdisk :=
  list_to_map [(1, demo_fat); (10, demo_fat);
    (19, dir_sector [demo_entry "sub" 0x10 2; 0xE5 :: replicate 31 0; demo_entry "a.txt" 0x20 7]);
    (33, dir_sector [demo_entry "old.txt" 0x20 8])].
Definition mount_fs : fs ramdisk :=
  set_disk (mk_dstate mount_disk img0) (demo_fs (<[1 := mk_File (replicate 11 0) 0 (replicate 10 0) 0 0 0 0 0 0 0 true]> blank_files) []).

Lemma mount_good : good mount_disk mount_fs 0.
Proof.
  split; [|split; [reflexivity|]].
  - split; [|reflexivity]. apply ramdisk_sectors.
    repeat (apply List.Forall_cons; [split; [reflexivity|apply (bool_decide_unpack _); vm_compute; exact I]|]).
    apply List.Forall_nil.
  - split; [lia|]. split; [intros j Hj; lia|]. intros j Hj. exists blank_file. split; [|reflexivity].
    assert (Hall : Forall (fun j => files mount_fs !! file_ptr j = Some blank_file) (seqZ 0 100)).
    { apply (bool_decide_unpack _). vm_compute. exact I. }
    rewrite Forall_forall in Hall. apply Hall, elem_of_seqZ. lia.
Qed.

Lemma build_all_tree_mounts_witness : exists s', build_all_tree mount_fs = Ok (tt, s') /\
  sibs (files s') 2 [2; 4] /\
  files s' !! 3 = Some (placed (demo_entry "old.txt" 0x20 8) 2 NULLF NULLF).
Proof.
  destruct (build_all_tree_mounts mount_fs mount_disk (mk_File (replicate 11 0) 0 (replicate 10 0) 0 0 0 0 0 0 0 true)
    (FCons (demo_entry "sub" 0x10 2) (FCons (demo_entry "old.txt" 0x20 8) FNil FNil)
       (FCons (demo_entry "a.txt" 0x20 7) FNil FNil))) as (s' & E & _ & (_ & (Hk & _) & _) & Hs & _).
  - exact mount_good.
  - vm_compute. reflexivity.
  - vm_compute. reflexivity.
  - cbn. lia.
  - exists s'. split; [exact E|]. split; [exact Hs|exact Hk].
Defined.
