(* ===== verification/Kernel.v ===== *)
(** * Kernel: the global state of the kernel

    The globals of thread/thread.c, thread/sync.c and kernel/memory.c and the
    processor registers they use, as one record in five parts.  A pointer to a
    PCB, list, semaphore or lock is its address; the objects themselves are in
    finite maps keyed by address.  The link fields of list nodes are in [km]
    ([mach]), the words of physical memory in [ram].

    Field offsets of thread/thread.h and thread/sync.h that other code relies
    on: [general_node] 36 and [all_list_node] 44 in [struct pcb], [waiters] 4
    in [struct semaphore], [semaphore] 4 in [struct lock]. *)

From S2P Require Import Prelude Interrupt Lists Bitmap.

Inductive task_status :=
  | TASK_RUNNING | TASK_READY | TASK_BLOCKED | TASK_WAITING | TASK_HANGING | TASK_DIED.

#[export] Instance task_status_eq_dec : EqDecision task_status.
Proof. solve_decision. Defined.

Inductive pool_flag := PF_KERNEL | PF_USER.

#[export] Instance pool_flag_eq_dec : EqDecision pool_flag.
Proof. solve_decision. Defined.

Record virtual_addr := mk_vaddr { vaddr_bitmap : bitmap; vaddr_start : Z }.

Record pool := mk_pool { pool_bitmap : bitmap; phy_addr_start : Z; pool_size : Z }.

Record pcb := mk_pcb {
  self_kstack : Z;
  pid : Z;
  status : task_status;
  name : list Z;
  priority : Z;
  ticks : Z;
  elapsed_ticks : Z;
  pg_dir : Z;
  userprog_vaddr : virtual_addr;
  vaddr_bits : Z;   (* the pointer userprog_vaddr.vaddr_bitmap.bits *)
  parent_pid : Z;
  exit_status : Z;
  stack_magic : Z }.

Definition general_node (t : Z) : Z := t + 36.
Definition all_list_node (t : Z) : Z := t + 44.
(** [elem2entry(struct pcb, general_node, node)]. *)
Definition general_node_entry (node : Z) : Z := node - 36.
Definition all_list_node_entry (node : Z) : Z := node - 44.

Record lock := mk_lock { holder : Z; holder_repeat_cnt : Z }.
Definition waiters (sema : Z) : Z := sema + 4.
Definition lock_semaphore (lk : Z) : Z := lk + 4.

Record cpu := mk_cpu { cur : Z; cr3 : Z; tss_esp0 : Z }.

Record memory := mk_memory {
  ram : gmap Z Z;
  kernel_pool : pool;
  user_pool : pool;
  kernel_vaddr : virtual_addr }.

Record threads := mk_threads {
  pcbs : gmap Z pcb;
  thread_ready_list : Z;
  thread_all_list : Z;
  main_thread : Z;
  idle_thread : Z;
  pid_bitmap : bitmap;
  pid_start : Z }.

Record sync := mk_sync {
  sema_value : gmap Z Z;
  locks : gmap Z lock }.

Record kernel := mk_kernel { km : mach; kc : cpu; kmem : memory; kth : threads; ksy : sync }.

(** ** Access *)

Definition set_km (m : mach) (k : kernel) : kernel := mk_kernel m (kc k) (kmem k) (kth k) (ksy k).
Definition set_kc (c : cpu) (k : kernel) : kernel := mk_kernel (km k) c (kmem k) (kth k) (ksy k).
Definition set_kmem (m : memory) (k : kernel) : kernel := mk_kernel (km k) (kc k) m (kth k) (ksy k).
Definition set_kth (t : threads) (k : kernel) : kernel := mk_kernel (km k) (kc k) (kmem k) t (ksy k).
Definition set_ksy (y : sync) (k : kernel) : kernel := mk_kernel (km k) (kc k) (kmem k) (kth k) y.

Definition set_pcbs (p : gmap Z pcb) (k : kernel) : kernel :=
  let t := kth k in
  set_kth (mk_threads p (thread_ready_list t) (thread_all_list t) (main_thread t)
    (idle_thread t) (pid_bitmap t) (pid_start t)) k.

Definition set_pid_bitmap (b : bitmap) (k : kernel) : kernel :=
  let t := kth k in
  set_kth (mk_threads (pcbs t) (thread_ready_list t) (thread_all_list t) (main_thread t)
    (idle_thread t) b (pid_start t)) k.

Definition set_ram (r : gmap Z Z) (k : kernel) : kernel :=
  let m := kmem k in set_kmem (mk_memory r (kernel_pool m) (user_pool m) (kernel_vaddr m)) k.

Definition set_kernel_vaddr (v : virtual_addr) (k : kernel) : kernel :=
  let m := kmem k in set_kmem (mk_memory (ram m) (kernel_pool m) (user_pool m) v) k.

(** [(pf == PF_KERNEL) ? &kernel_pool : &user_pool]. *)
Definition pool_of (pf : pool_flag) (m : memory) : pool :=
  match pf with PF_KERNEL => kernel_pool m | PF_USER => user_pool m end.
Definition set_pool (pf : pool_flag) (p : pool) (k : kernel) : kernel :=
  let m := kmem k in
  set_kmem (match pf with
            | PF_KERNEL => mk_memory (ram m) p (user_pool m) (kernel_vaddr m)
            | PF_USER => mk_memory (ram m) (kernel_pool m) p (kernel_vaddr m)
            end) k.

Definition set_status (x : task_status) (p : pcb) : pcb :=
  mk_pcb (self_kstack p) (pid p) x (name p) (priority p) (ticks p) (elapsed_ticks p)
    (pg_dir p) (userprog_vaddr p) (vaddr_bits p) (parent_pid p) (exit_status p) (stack_magic p).
Definition set_ticks (x : Z) (p : pcb) : pcb :=
  mk_pcb (self_kstack p) (pid p) (status p) (name p) (priority p) x (elapsed_ticks p)
    (pg_dir p) (userprog_vaddr p) (vaddr_bits p) (parent_pid p) (exit_status p) (stack_magic p).
Definition set_elapsed_ticks (x : Z) (p : pcb) : pcb :=
  mk_pcb (self_kstack p) (pid p) (status p) (name p) (priority p) (ticks p) x
    (pg_dir p) (userprog_vaddr p) (vaddr_bits p) (parent_pid p) (exit_status p) (stack_magic p).
Definition set_userprog_vaddr (x : virtual_addr) (p : pcb) : pcb :=
  mk_pcb (self_kstack p) (pid p) (status p) (name p) (priority p) (ticks p) (elapsed_ticks p)
    (pg_dir p) x (vaddr_bits p) (parent_pid p) (exit_status p) (stack_magic p).

Definition set_parent_pid (x : Z) (p : pcb) : pcb :=
  mk_pcb (self_kstack p) (pid p) (status p) (name p) (priority p) (ticks p) (elapsed_ticks p)
    (pg_dir p) (userprog_vaddr p) (vaddr_bits p) x (exit_status p) (stack_magic p).
Definition set_exit_status (x : Z) (p : pcb) : pcb :=
  mk_pcb (self_kstack p) (pid p) (status p) (name p) (priority p) (ticks p) (elapsed_ticks p)
    (pg_dir p) (userprog_vaddr p) (vaddr_bits p) (parent_pid p) x (stack_magic p).
Definition set_pg_dir (x : Z) (p : pcb) : pcb :=
  mk_pcb (self_kstack p) (pid p) (status p) (name p) (priority p) (ticks p) (elapsed_ticks p)
    x (userprog_vaddr p) (vaddr_bits p) (parent_pid p) (exit_status p) (stack_magic p).
Definition set_self_kstack (x : Z) (p : pcb) : pcb :=
  mk_pcb x (pid p) (status p) (name p) (priority p) (ticks p) (elapsed_ticks p)
    (pg_dir p) (userprog_vaddr p) (vaddr_bits p) (parent_pid p) (exit_status p) (stack_magic p).
Definition set_name (x : list Z) (p : pcb) : pcb :=
  mk_pcb (self_kstack p) (pid p) (status p) x (priority p) (ticks p) (elapsed_ticks p)
    (pg_dir p) (userprog_vaddr p) (vaddr_bits p) (parent_pid p) (exit_status p) (stack_magic p).
Definition set_pid (x : Z) (p : pcb) : pcb :=
  mk_pcb (self_kstack p) x (status p) (name p) (priority p) (ticks p) (elapsed_ticks p)
    (pg_dir p) (userprog_vaddr p) (vaddr_bits p) (parent_pid p) (exit_status p) (stack_magic p).
Definition set_vaddr_bits (x : Z) (p : pcb) : pcb :=
  mk_pcb (self_kstack p) (pid p) (status p) (name p) (priority p) (ticks p) (elapsed_ticks p)
    (pg_dir p) (userprog_vaddr p) x (parent_pid p) (exit_status p) (stack_magic p).

(** [running_thread()]: the PCB in whose page the stack pointer lies. *)
Definition running_thread : M kernel Z := gets (fun k => cur (kc k)).

(** Reading and changing a PCB through its address; no PCB there is a fault. *)
Definition get_pcb (t : Z) : M kernel pcb := fun k =>
  match pcbs (kth k) !! t with Some p => Ok (p, k) | None => Err Fault end.
Definition put_pcb (t : Z) (p : pcb) : M kernel unit :=
  modify (fun k => set_pcbs (<[t := p]> (pcbs (kth k))) k).
Definition upd_pcb (t : Z) (f : pcb -> pcb) : M kernel unit :=
  p ← get_pcb t; put_pcb t (f p).

(** A list or interrupt operation as an operation on the kernel state. *)
Definition on_mach {A} (m : M mach A) : M kernel A := fun k =>
  match m (km k) with Ok (a, m') => Ok (a, set_km m' k) | Err e => Err e end.

(** ** Lemmas *)

Lemma on_mach_ok {A} (m : M mach A) k a m' :
  m (km k) = Ok (a, m') -> on_mach m k = Ok (a, set_km m' k).
Proof. intros E. unfold on_mach. by rewrite E. Qed.

Lemma get_pcb_ok k t p : pcbs (kth k) !! t = Some p -> get_pcb t k = Ok (p, k).
Proof. intros E. unfold get_pcb. by rewrite E. Qed.

Lemma upd_pcb_ok k t p f : pcbs (kth k) !! t = Some p ->
  upd_pcb t f k = Ok (tt, set_pcbs (<[t := f p]> (pcbs (kth k))) k).
Proof. intros E. unfold upd_pcb. by rewrite (bindM_ok _ _ _ _ _ (get_pcb_ok _ _ _ E)). Qed.

Lemma general_node_inj t1 t2 : general_node t1 = general_node t2 -> t1 = t2.
Proof. unfold general_node. lia. Qed.

Lemma general_node_entry_id t : general_node_entry (general_node t) = t.
Proof. unfold general_node_entry, general_node. lia. Qed.
