(* ===== verification/Paging.v ===== *)
(** * Paging: page tables, physical page allocation and page-directory switch

    The page-table part of kernel/memory.c and [process_activate] of
    userprog/process.c.  [translate] is the two-level walk of the processor;
    every pointer the code dereferences goes through it ([vload], [vstore]),
    so the code's view of the page tables, through the directory entry that
    maps the directory into itself, is connected with the walk by a theorem
    and not by assumption.  The TLB is not modelled: the code flushes it where
    it removes a mapping. *)

From S2P Require Import Prelude CString Bitmap Interrupt Lists Kernel.

Definition PG_P_1 : Z := 1.
Definition PG_RW_W : Z := 2.
Definition PG_US_U : Z := 4.

Definition PDE_IDX (addr : Z) : Z := Z.shiftr (Z.land addr 0xffc00000) 22.
Definition PTE_IDX (addr : Z) : Z := Z.shiftr (Z.land addr 0x003ff000) 12.

Definition pte_ptr (vaddr : Z) : Z :=
  let pde_idx := Z.land vaddr 0xffc00000 in
  u32 (0xffc00000 + Z.shiftr pde_idx 10 + PTE_IDX vaddr * 4).

Definition pde_ptr (vaddr : Z) : Z := u32 (0xfffff000 + PDE_IDX vaddr * 4).

(** ** The processor's walk *)

Definition word (r : gmap Z Z) (a : Z) : Z := default 0 (r !! a).
Definition frame (e : Z) : Z := Z.land e 0xfffff000.
Definition present (e : Z) : bool := negb (Z.land e PG_P_1 =? 0).

Definition pde_addr (c : Z) (v : Z) : Z := c + PDE_IDX v * 4.
Definition pte_addr (r : gmap Z Z) (c v : Z) : Z := frame (word r (pde_addr c v)) + PTE_IDX v * 4.

Definition translate (r : gmap Z Z) (c v : Z) : option Z :=
  if present (word r (pde_addr c v)) then
    let pte := word r (pte_addr r c v) in
    if present pte then Some (frame pte + Z.land v 0xfff) else None
  else None.

Definition vload (v : Z) : M kernel Z := fun k =>
  match translate (ram (kmem k)) (cr3 (kc k)) v with
  | Some a => Ok (word (ram (kmem k)) a, k)
  | None => Err Fault
  end.

Definition vstore (v x : Z) : M kernel unit := fun k =>
  match translate (ram (kmem k)) (cr3 (kc k)) v with
  | Some a => Ok (tt, set_ram (<[a := x]> (ram (kmem k))) k)
  | None => Err Fault
  end.

(** [memset(v, 0, 4 * n)] on word-aligned memory. *)
Fixpoint vzero (n : nat) (v : Z) : M kernel unit :=
  match n with
  | O => mret tt
  | S n' => _ ← vstore v 0; vzero n' (v + 4)
  end.

(** ** Operations of kernel/memory.c *)

(** NULL (0) when no page is free. *)
Definition palloc (pf : pool_flag) : M kernel Z :=
  p ← gets (fun k => pool_of pf (kmem k));
  idx ← lift (bitmap_apply_cnt (pool_bitmap p) 1);
  if idx =? -1 then mret 0
  else
    b ← lift (bitmap_set_idx (pool_bitmap p) idx 1);
    _ ← modify (set_pool pf (mk_pool b (phy_addr_start p) (pool_size p)));
    mret (u32 (idx * PG_SIZE + phy_addr_start p)).

Definition entry_of (phyaddr : Z) : Z := Z.lor (Z.lor (Z.lor phyaddr PG_US_U) PG_RW_W) PG_P_1.

Definition page_table_add (vaddr page_phyaddr : Z) : M kernel unit :=
  let pde := pde_ptr vaddr in
  let pte := pte_ptr vaddr in
  e ← vload pde;
  if present e then
    x ← vload pte;
    _ ← ASSERTM (negb (present x));
    vstore pte (entry_of page_phyaddr)
  else
    pde_phyaddr ← palloc PF_KERNEL;
    _ ← vstore pde (entry_of pde_phyaddr);
    _ ← vzero 1024 (Z.land pte 0xfffff000);
    x ← vload pte;
    _ ← ASSERTM (negb (present x));
    vstore pte (entry_of page_phyaddr).

Definition addr_vir2phy (vaddr : Z) : M kernel Z :=
  pte ← vload (pte_ptr vaddr);
  mret (u32 (Z.land pte 0xFFFFF000 + Z.land vaddr 0x00000FFF)).

(** [*pte &= ~PG_P_1; invlpg]. *)
Definition page_table_pte_remove (vaddr : Z) : M kernel unit :=
  x ← vload (pte_ptr vaddr);
  vstore (pte_ptr vaddr) (Z.land x (u32 (Z.lnot PG_P_1))).

(** The same body twice in the source, as [pfree] and [free_one_phy_page]. *)
Definition pfree (pg_phy_addr : Z) : M kernel unit :=
  m ← gets kmem;
  let pf := if phy_addr_start (user_pool m) <=? pg_phy_addr then PF_USER else PF_KERNEL in
  let p := pool_of pf m in
  let idx := u32 (pg_phy_addr - phy_addr_start p) / PG_SIZE in
  b ← lift (bitmap_set_idx (pool_bitmap p) idx 0);
  modify (set_pool pf (mk_pool b (phy_addr_start p) (pool_size p))).

Definition free_one_phy_page (pg_phy_addr : Z) : M kernel unit :=
  m ← gets kmem;
  let pf := if phy_addr_start (user_pool m) <=? pg_phy_addr then PF_USER else PF_KERNEL in
  let p := pool_of pf m in
  let idx := u32 (pg_phy_addr - phy_addr_start p) / PG_SIZE in
  b ← lift (bitmap_set_idx (pool_bitmap p) idx 0);
  modify (set_pool pf (mk_pool b (phy_addr_start p) (pool_size p))).

(** ** userprog/process.c and tss.c *)

Definition page_dir_activate (thread : Z) : M kernel unit :=
  p ← get_pcb thread;
  pagedir_phy_addr ← (if negb (pg_dir p =? NULL) then addr_vir2phy (pg_dir p) else mret 0x100000);
  modify (fun k => set_kc (mk_cpu (cur (kc k)) pagedir_phy_addr (tss_esp0 (kc k))) k).

Definition update_tss_esp (thread : Z) : M kernel unit :=
  modify (fun k => set_kc (mk_cpu (cur (kc k)) (cr3 (kc k)) (u32 (thread + PG_SIZE))) k).

Definition process_activate (thread : Z) : M kernel unit :=
  _ ← ASSERTM (negb (thread =? NULL));
  _ ← page_dir_activate thread;
  p ← get_pcb thread;
  _ ← (if negb (pg_dir p =? NULL) then update_tss_esp thread else mret tt);
  p ← get_pcb thread;
  ASSERTM (bool_decide (status p = TASK_RUNNING)).

(** ** Arithmetic of virtual addresses *)

Definition is_word (x : Z) : Prop := 0 <= x < 4294967296.

Lemma land_mid x : is_word x -> Z.land x 0x003ff000 = x mod 4194304 - x mod 4096.
Proof.
  intros Hx. replace 0x003ff000 with (Z.land (2 ^ 22 - 1) (2 ^ 22 - 2 ^ 12)) by done.
  rewrite Z.land_assoc, land_low, (land_high _ 12 22) by (unfold is_word in Hx; zarith).
  change (2 ^ 22) with 4194304. change (2 ^ 12) with 4096. zarith.
Qed.

Lemma frame_val x : is_word x -> frame x = x - x mod 4096.
Proof. intros Hx. unfold frame. apply (land_high x 12 32); unfold is_word in Hx; lia. Qed.

Lemma offset_val x : Z.land x 0xfff = x mod 4096.
Proof. apply (land_low x 12). lia. Qed.

Lemma PDE_IDX_val v : is_word v -> PDE_IDX v = v / 4194304.
Proof.
  intros Hv. unfold PDE_IDX. change 0xffc00000 with (2 ^ 32 - 2 ^ 22).
  rewrite (land_high v 22 32), Z.shiftr_div_pow2 by (unfold is_word in Hv; lia).
  change (2 ^ 22) with 4194304. zarith.
Qed.

Lemma PTE_IDX_val v : is_word v -> PTE_IDX v = v / 4096 mod 1024.
Proof.
  intros Hv. unfold PTE_IDX. rewrite land_mid, Z.shiftr_div_pow2 by (done || lia).
  change (2 ^ 12) with 4096. unfold is_word in Hv. zarith.
Qed.

Lemma pte_ptr_val v : is_word v -> pte_ptr v = 0xffc00000 + v / 4194304 * 4096 + v / 4096 mod 1024 * 4.
Proof.
  intros Hv. unfold pte_ptr. rewrite PTE_IDX_val by done.
  change (Z.land v 0xffc00000) with (Z.land v (2 ^ 32 - 2 ^ 22)).
  rewrite (land_high v 22 32), Z.shiftr_div_pow2 by (unfold is_word in Hv; lia).
  change (2 ^ 22) with 4194304. change (2 ^ 10) with 1024. unfold is_word in Hv.
  rewrite u32_small; zarith.
Qed.

Lemma pde_ptr_val v : is_word v -> pde_ptr v = 0xfffff000 + v / 4194304 * 4.
Proof.
  intros Hv. unfold pde_ptr. rewrite PDE_IDX_val by done. unfold is_word in Hv.
  rewrite u32_small; zarith.
Qed.

Lemma entry_val p : is_word p -> p mod 4096 = 0 -> entry_of p = p + 7.
Proof.
  intros Hp Ha. unfold entry_of, PG_US_U, PG_RW_W, PG_P_1.
  rewrite <- !Z.lor_assoc. change (Z.lor 4 (Z.lor 2 1)) with 7.
  pose proof (Z.add_lor_land p 7) as E. pose proof (land_low p 3 ltac:(lia)) as L.
  change (2 ^ 3 - 1) with 7 in L. rewrite L in E. change (2 ^ 3) with 8 in E. zarith.
Qed.

Lemma present_odd x : present x = negb (x mod 2 =? 0).
Proof. unfold present, PG_P_1. change 1 with (2 ^ 1 - 1). by rewrite (land_low x 1) by lia. Qed.

Lemma present_entry p : is_word p -> p mod 4096 = 0 -> present (entry_of p) = true.
Proof.
  intros Hp Ha. rewrite present_odd, entry_val by done.
  rewrite (proj2 (Z.eqb_neq _ _)); [done|]. zarith.
Qed.

Lemma frame_entry p : is_word p -> p mod 4096 = 0 -> frame (entry_of p) = p.
Proof.
  intros Hp Ha. rewrite entry_val by done. rewrite frame_val by (unfold is_word in *; zarith). zarith.
Qed.

(** ** The directory maps itself *)

Definition words_ok (r : gmap Z Z) : Prop := forall a x, r !! a = Some x -> is_word x.

(** Entry 1023 of the directory at [c] points to the directory. *)
Definition self_mapped (r : gmap Z Z) (c : Z) : Prop :=
  is_word c /\ c mod 4096 = 0 /\ present (word r (c + 4092)) = true /\ frame (word r (c + 4092)) = c.

Lemma word_ok r a : words_ok r -> is_word (word r a).
Proof.
  intros Hr. unfold word. destruct (r !! a) eqn:E; cbn [from_option]; [by eapply Hr|].
  unfold is_word. lia.
Qed.

Lemma words_insert r a x : words_ok r -> is_word x -> words_ok (<[a := x]> r).
Proof. intros Hr Hx b y [[_ <-]|[_ E]]%lookup_insert_Some; [done | by eapply Hr]. Qed.

Lemma word_insert r a b x : word (<[a := x]> r) b = if Z.eq_dec a b then x else word r b.
Proof.
  unfold word. destruct (Z.eq_dec a b) as [->|]; [by rewrite lookup_insert_eq|].
  by rewrite lookup_insert_ne.
Qed.

Lemma translate_pde_ptr r c v : self_mapped r c -> is_word v ->
  translate r c (pde_ptr v) = Some (pde_addr c v).
Proof.
  intros (Hc & Ha & Hp & Hf) Hv. unfold is_word in *.
  assert (Hw : is_word (pde_ptr v)) by (rewrite pde_ptr_val by done; unfold is_word; zarith).
  assert (Epd : pde_addr c (pde_ptr v) = c + 4092)
    by (unfold pde_addr; rewrite PDE_IDX_val, pde_ptr_val by done; zarith).
  assert (Ept : pte_addr r c (pde_ptr v) = c + 4092).
  { unfold pte_addr. rewrite Epd, Hf, PTE_IDX_val, pde_ptr_val by done. zarith. }
  unfold translate. rewrite Epd, Hp, Ept, Hp, Hf. f_equal.
  rewrite offset_val, pde_ptr_val by done. unfold pde_addr. rewrite PDE_IDX_val by done. zarith.
Qed.

Lemma translate_pte_ptr r c v : self_mapped r c -> is_word v ->
  present (word r (pde_addr c v)) = true ->
  translate r c (pte_ptr v) = Some (pte_addr r c v).
Proof.
  intros (Hc & Ha & Hp & Hf) Hv Hpd. unfold is_word in *.
  assert (Hw : is_word (pte_ptr v)) by (rewrite pte_ptr_val by done; unfold is_word; zarith).
  assert (Epd : pde_addr c (pte_ptr v) = c + 4092)
    by (unfold pde_addr; rewrite PDE_IDX_val, pte_ptr_val by done; zarith).
  assert (Ept : pte_addr r c (pte_ptr v) = pde_addr c v).
  { unfold pte_addr. rewrite Epd, Hf, PTE_IDX_val, pte_ptr_val by done.
    unfold pde_addr. rewrite PDE_IDX_val by done. zarith. }
  unfold translate. rewrite Epd, Hp, Ept, Hpd. f_equal.
  rewrite offset_val, pte_ptr_val by done. unfold pte_addr at 1. f_equal.
  rewrite PTE_IDX_val by done. zarith.
Qed.

(** ** Physical page allocation *)

Record pool_wf (p : pool) : Prop := {
  pw_bitmap : bitmap_wf (pool_bitmap p);
  pw_len : 1 <= len (pool_bitmap p);
  pw_start : 0 < phy_addr_start p;
  pw_align : phy_addr_start p mod 4096 = 0;
  pw_end : phy_addr_start p + 8 * zlen (bits (pool_bitmap p)) * 4096 <= 4294967296 }.

(** Page [i] of a pool. *)
Definition page_at (p : pool) (i : Z) : Z := phy_addr_start p + i * 4096.

Definition page_free (p : pool) (q : Z) : Prop :=
  exists i, in_bits (pool_bitmap p) i /\ q = page_at p i /\ bit (pool_bitmap p) i = false.

Lemma page_at_word p i : pool_wf p -> in_bits (pool_bitmap p) i ->
  is_word (page_at p i) /\ page_at p i mod 4096 = 0 /\ 0 < page_at p i.
Proof.
  intros [_ _ Hs Ha He] Hi. unfold in_bits, page_at, is_word in *. zarith.
Qed.

(** The pool after bit [i] has been written. *)
Definition pool_updated (p p' : pool) (i : Z) (v : bool) : Prop :=
  pool_wf p' /\ phy_addr_start p' = phy_addr_start p /\ pool_size p' = pool_size p /\
  zlen (bits (pool_bitmap p')) = zlen (bits (pool_bitmap p)) /\
  len (pool_bitmap p') = len (pool_bitmap p) /\
  forall j, in_bits (pool_bitmap p) j ->
    bit (pool_bitmap p') j = if Z.eq_dec i j then v else bit (pool_bitmap p) j.

Lemma pool_set_ok p i v : pool_wf p -> in_bits (pool_bitmap p) i -> v = 0 \/ v = 1 ->
  exists b, bitmap_set_idx (pool_bitmap p) i v = Ok b /\
    pool_updated p (mk_pool b (phy_addr_start p) (pool_size p)) i (v =? 1).
Proof.
  intros [Hb Hl Hs Ha He] Hi Hv.
  destruct (bitmap_set_idx_ok _ i v Hb Hi Hv) as (b & E & Hwf & Hlen & Hz & Hbit).
  exists b. split; [done|]. unfold pool_updated. cbn [pool_bitmap phy_addr_start pool_size].
  split; [|done]. split; cbn [pool_bitmap phy_addr_start]; by rewrite ?Hlen, ?Hz.
Qed.

Definition pool_exhausted (p : pool) : Prop :=
  forall i, 0 <= i < len (pool_bitmap p) - 1 -> bit (pool_bitmap p) i = true.

Lemma palloc_ok pf k : pool_wf (pool_of pf (kmem k)) ->
  let p := pool_of pf (kmem k) in
  (pool_exhausted p /\ palloc pf k = Ok (0, k)) \/
  exists i p', in_bits (pool_bitmap p) i /\ bit (pool_bitmap p) i = false /\
    i < len (pool_bitmap p) - 1 /\
    palloc pf k = Ok (page_at p i, set_pool pf p' k) /\ pool_updated p p' i true.
Proof.
  intros Hp p. unfold palloc. rewrite bind_gets. fold p. change (pool_wf p) in Hp. clearbody p.
  destruct (bitmap_apply_cnt_ok (pool_bitmap p) 1 (pw_bitmap _ Hp)) as (r & Er & Hcase).
  { pose proof (pw_len _ Hp). lia. }
  rewrite (bind_lift _ _ _ _ Er). destruct Hcase as [[-> Hno]|(Hr & Hf & _)].
  - left. split; [|done]. intros i Hi. specialize (Hno i Hi).
    destruct (bit (pool_bitmap p) i) eqn:E; [done|]. destruct Hno. intros j Hj.
    by replace (i + j) with i by lia.
  - right. pose proof (bw_len _ (pw_bitmap _ Hp)) as Hl.
    assert (Hin : in_bits (pool_bitmap p) r) by (unfold in_bits; lia).
    destruct (pool_set_ok p r 1 Hp Hin (or_intror eq_refl)) as (b & Eb & Hu).
    exists r, (mk_pool b (phy_addr_start p) (pool_size p)). split; [done|].
    specialize (Hf 0 ltac:(lia)). rewrite Z.add_0_r in Hf. split; [done|]. split; [lia|].
    split; [|done]. decide_bool. rewrite (bind_lift _ _ _ _ Eb), bind_modify.
    destruct (page_at_word p r Hp Hin) as (Hw & _). unfold page_at, is_word in *.
    unfold PG_SIZE. rewrite u32_small by lia. by rewrite Z.add_comm.
Qed.

(** ** Page-table updates *)

Lemma vload_ok k v a : translate (ram (kmem k)) (cr3 (kc k)) v = Some a ->
  vload v k = Ok (word (ram (kmem k)) a, k).
Proof. intros E. unfold vload. by rewrite E. Qed.

Lemma vstore_ok k v x a : translate (ram (kmem k)) (cr3 (kc k)) v = Some a ->
  vstore v x k = Ok (tt, set_ram (<[a := x]> (ram (kmem k))) k).
Proof. intros E. unfold vstore. by rewrite E. Qed.

(** The walk reads two words only. *)
Lemma translate_frame r r' c v : word r' (pde_addr c v) = word r (pde_addr c v) ->
  word r' (pte_addr r c v) = word r (pte_addr r c v) -> translate r' c v = translate r c v.
Proof.
  intros E1 E2. unfold translate, pte_addr in *. by rewrite E1, E2.
Qed.

Lemma translate_present r c v a : translate r c v = Some a ->
  present (word r (pde_addr c v)) = true /\ present (word r (pte_addr r c v)) = true.
Proof.
  unfold translate. destruct (present (word r (pde_addr c v))); [|done].
  by destruct (present (word r (pte_addr r c v))).
Qed.

Lemma PDE_IDX_range v : is_word v -> 0 <= PDE_IDX v < 1024.
Proof. intros Hv. rewrite PDE_IDX_val by done. unfold is_word in Hv. zarith. Qed.
Lemma PTE_IDX_range v : is_word v -> 0 <= PTE_IDX v < 1024.
Proof. intros Hv. rewrite PTE_IDX_val by done. zarith. Qed.

Lemma frame_aligned x : is_word x -> frame x mod 4096 = 0 /\ is_word (frame x).
Proof. intros Hx. rewrite frame_val by done. unfold is_word in *. zarith. Qed.

(** Entries of different frames are different words. *)
Lemma frames_apart f g i j : f mod 4096 = 0 -> g mod 4096 = 0 -> f <> g ->
  0 <= i < 1024 -> 0 <= j < 1024 -> f + i * 4 <> g + j * 4.
Proof. intros. zarith. Qed.

(** Clearing a table. *)
Fixpoint zero_words (n : nat) (a : Z) (r : gmap Z Z) : gmap Z Z :=
  match n with O => r | S n' => zero_words n' (a + 4) (<[a := 0]> r) end.

Lemma zero_words_0 a r : zero_words 0 a r = r.
Proof. done. Qed.
Lemma zero_words_S n a r : zero_words (S n) a r = zero_words n (a + 4) (<[a := 0]> r).
Proof. done. Qed.

Lemma zero_words_in n : forall a r i, (i < n)%nat -> word (zero_words n a r) (a + Z.of_nat i * 4) = 0.
Proof.
  assert (Hz : forall m a r b, word r b = 0 -> word (zero_words m a r) b = 0).
  { induction m as [|m IH]; intros a r b Hb; cbn [zero_words]; [done|].
    apply IH. rewrite word_insert. by destruct (Z.eq_dec a b). }
  induction n as [|n IH]; intros a r i Hi; [lia|]. cbn [zero_words].
  destruct i as [|i].
  - apply Hz. rewrite word_insert. destruct (Z.eq_dec a (a + Z.of_nat 0 * 4)); [done|lia].
  - replace (a + Z.of_nat (S i) * 4) with (a + 4 + Z.of_nat i * 4) by lia. apply IH. lia.
Qed.

Lemma zero_words_out n : forall a r b, (forall i, (i < n)%nat -> b <> a + Z.of_nat i * 4) ->
  word (zero_words n a r) b = word r b.
Proof.
  induction n as [|n IH]; intros a r b Hb; cbn [zero_words]; [done|]. rewrite IH.
  - rewrite word_insert. destruct (Z.eq_dec a b); [|done]. specialize (Hb 0%nat ltac:(lia)). lia.
  - intros i Hi. specialize (Hb (S i) ltac:(lia)). lia.
Qed.

Lemma zero_words_ok n : forall a r, words_ok r -> words_ok (zero_words n a r).
Proof.
  induction n as [|n IH]; intros a r Hr; cbn [zero_words]; [done|].
  apply IH, words_insert; [done|]. unfold is_word. lia.
Qed.

(** Words outside the table at [q] survive the clearing of [n] of its entries. *)
Lemma zero_words_page n j q r b f i : f mod 4096 = 0 -> q mod 4096 = 0 -> f <> q ->
  0 <= i < 1024 -> (j + n <= 1024)%nat -> b = f + i * 4 ->
  word (zero_words n (q + Z.of_nat j * 4) r) b = word r b.
Proof.
  intros Hf Hq Hne Hi Hj ->. apply zero_words_out. intros m Hm E.
  apply (frames_apart f q i (Z.of_nat (j + m))); lia.
Qed.

#[global] Opaque zero_words.

Lemma self_mapped_word r r' c : self_mapped r c ->
  word r' (c + 4092) = word r (c + 4092) -> self_mapped r' c.
Proof. unfold self_mapped. intros (H1 & H2 & H3 & H4) ->. done. Qed.

Lemma self_mapped_insert r c a x : self_mapped r c -> a <> c + 4092 ->
  self_mapped (<[a := x]> r) c.
Proof.
  intros Hs Ha. apply (self_mapped_word r); [done|]. rewrite word_insert.
  by destruct (Z.eq_dec a (c + 4092)).
Qed.

Lemma page_table_add_present k v p :
  let r := ram (kmem k) in let c := cr3 (kc k) in
  self_mapped r c -> is_word v -> present (word r (pde_addr c v)) = true ->
  present (word r (pte_addr r c v)) = false ->
  page_table_add v p k = Ok (tt, set_ram (<[pte_addr r c v := entry_of p]> r) k).
Proof.
  intros r c Hs Hv Hpd Hpt. unfold page_table_add. cbv zeta.
  rewrite (bindM_ok _ _ _ _ _ (vload_ok k _ _ (translate_pde_ptr r c v Hs Hv))).
  fold r. rewrite Hpd.
  pose proof (translate_pte_ptr r c v Hs Hv Hpd) as Ht.
  rewrite (bindM_ok _ _ _ _ _ (vload_ok k _ _ Ht)). fold r. rewrite Hpt.
  rewrite bind_assert by done. by rewrite (vstore_ok k _ _ _ Ht).
Qed.

Lemma set_ram_set_ram a b k : set_ram a (set_ram b k) = set_ram a k.
Proof. done. Qed.

(** Clearing part of the table of [v] through the self map. *)
Lemma vzero_table v q c : is_word v -> q mod 4096 = 0 -> is_word q -> q <> c ->
  forall n j k, cr3 (kc k) = c -> self_mapped (ram (kmem k)) c ->
  present (word (ram (kmem k)) (pde_addr c v)) = true ->
  frame (word (ram (kmem k)) (pde_addr c v)) = q -> (j + n <= 1024)%nat ->
  vzero n (0xffc00000 + v / 4194304 * 4096 + Z.of_nat j * 4) k
    = Ok (tt, set_ram (zero_words n (q + Z.of_nat j * 4) (ram (kmem k))) k).
Proof.
  intros Hv Hq Hqw Hqc. induction n as [|n IH]; intros j k Hc Hs Hp Hf Hj; cbn [vzero].
  { rewrite zero_words_0. by destruct k as [? ? [] ? ?]. }
  rewrite zero_words_S. set (w := v / 4194304 * 4194304 + Z.of_nat j * 4096).
  assert (Hw : is_word w) by (unfold w, is_word in *; zarith).
  assert (Ew : 0xffc00000 + v / 4194304 * 4096 + Z.of_nat j * 4 = pte_ptr w)
    by (rewrite pte_ptr_val by done; unfold w; zarith).
  assert (Epd : pde_addr c w = pde_addr c v)
    by (unfold pde_addr; rewrite !PDE_IDX_val by done; unfold w; zarith).
  assert (Ept : pte_addr (ram (kmem k)) c w = q + Z.of_nat j * 4).
  { unfold pte_addr. rewrite Epd, Hf, PTE_IDX_val by done. unfold w. zarith. }
  assert (Ht : translate (ram (kmem k)) (cr3 (kc k)) (pte_ptr w) = Some (q + Z.of_nat j * 4))
    by (rewrite Hc, translate_pte_ptr, Ept; by rewrite ?Epd).
  rewrite Ew, (bindM_ok _ _ _ _ _ (vstore_ok k _ 0 _ Ht)), <- Ew.
  pose proof (PDE_IDX_range v Hv) as Hi. destruct Hs as (Hcw & Hca & Hs).
  assert (Hkeep : forall i, 0 <= i < 1024 ->
    word (<[q + Z.of_nat j * 4 := 0]> (ram (kmem k))) (c + i * 4) = word (ram (kmem k)) (c + i * 4)).
  { intros i Hi'. rewrite word_insert.
    destruct (Z.eq_dec (q + Z.of_nat j * 4) (c + i * 4)) as [E|]; [|done].
    by destruct (frames_apart q c (Z.of_nat j) i Hq Hca Hqc ltac:(lia) Hi'). }
  replace (0xffc00000 + v / 4194304 * 4096 + Z.of_nat j * 4 + 4)
    with (0xffc00000 + v / 4194304 * 4096 + Z.of_nat (S j) * 4) by lia.
  replace (q + Z.of_nat j * 4 + 4) with (q + Z.of_nat (S j) * 4) by lia.
  rewrite (IH (S j) (set_ram (<[q + Z.of_nat j * 4 := 0]> (ram (kmem k))) k));
    [by rewrite set_ram_set_ram|done| | | |lia].
  - apply (self_mapped_word (ram (kmem k))); [done|]. apply (Hkeep 1023). lia.
  - cbn. unfold pde_addr. by rewrite Hkeep.
  - cbn. unfold pde_addr. by rewrite Hkeep.
Qed.

(** The tables after a new table at [q] has been linked in for [v] and [p]
    entered in it. *)
Definition new_table (r : gmap Z Z) (c v q p : Z) : gmap Z Z :=
  <[q + PTE_IDX v * 4 := entry_of p]>
    (zero_words 1024 q (<[pde_addr c v := entry_of q]> r)).

Lemma new_table_dir r c v q p i : is_word v -> q mod 4096 = 0 -> c mod 4096 = 0 -> q <> c ->
  0 <= i < 1024 ->
  word (new_table r c v q p) (c + i * 4) =
    if Z.eq_dec (pde_addr c v) (c + i * 4) then entry_of q else word r (c + i * 4).
Proof.
  intros Hv Hq Hc Hne Hi. unfold new_table. pose proof (PTE_IDX_range v Hv).
  rewrite word_insert. destruct (Z.eq_dec _ _) as [E|_].
  { by destruct (frames_apart q c (PTE_IDX v) i Hq Hc Hne). }
  rewrite <- (Z.add_0_r q) at 1. change 0 with (Z.of_nat 0 * 4).
  rewrite (zero_words_page 1024 0 q _ _ c i) by (done || lia). apply word_insert.
Qed.

Lemma new_table_words r c v q p a : is_word v -> a <> pde_addr c v -> ~ (q <= a < q + 4096) ->
  word (new_table r c v q p) a = word r a.
Proof.
  intros Hv Hne Hout. unfold new_table. pose proof (PTE_IDX_range v Hv).
  rewrite word_insert. destruct (Z.eq_dec _ _); [lia|]. rewrite zero_words_out by lia.
  rewrite word_insert. by destruct (Z.eq_dec _ _).
Qed.

Lemma page_table_add_absent k k1 v q p :
  let r := ram (kmem k) in let c := cr3 (kc k) in
  self_mapped r c -> is_word v -> PDE_IDX v <> 1023 ->
  present (word r (pde_addr c v)) = false ->
  palloc PF_KERNEL k = Ok (q, k1) -> ram (kmem k1) = r -> cr3 (kc k1) = c ->
  q mod 4096 = 0 -> is_word q -> q <> c ->
  page_table_add v p k = Ok (tt, set_ram (new_table r c v q p) k1).
Proof.
  intros r c Hs Hv Hnl Hpd Hpa Hr1 Hc1 Hq Hqw Hqc. unfold page_table_add. cbv zeta.
  rewrite (bindM_ok _ _ _ _ _ (vload_ok k _ _ (translate_pde_ptr r c v Hs Hv))).
  fold r. rewrite Hpd, (bindM_ok _ _ _ _ _ Hpa).
  assert (Ht : translate (ram (kmem k1)) (cr3 (kc k1)) (pde_ptr v) = Some (pde_addr c v))
    by (rewrite Hr1, Hc1; by apply translate_pde_ptr).
  rewrite (bindM_ok _ _ _ _ _ (vstore_ok k1 _ _ _ Ht)), Hr1.
  set (r1 := <[pde_addr c v := entry_of q]> r). set (k2 := set_ram r1 k1).
  pose proof (PDE_IDX_range v Hv) as Hi. pose proof (PTE_IDX_range v Hv) as Hj.
  assert (Hs1 : self_mapped r1 c) by (apply self_mapped_insert; [done|]; unfold pde_addr; lia).
  assert (Hw1 : word r1 (pde_addr c v) = entry_of q)
    by (unfold r1; rewrite word_insert; by destruct (Z.eq_dec _ _)).
  assert (Htbl : Z.land (pte_ptr v) 0xfffff000 = 0xffc00000 + v / 4194304 * 4096 + Z.of_nat 0 * 4).
  { fold (frame (pte_ptr v)). rewrite frame_val, pte_ptr_val by
      (done || (rewrite pte_ptr_val by done; unfold is_word in *; zarith)).
    unfold is_word in Hv. zarith. }
  rewrite Htbl. erewrite bindM_ok.
  2:{ apply (vzero_table v q c); try done; cbn [k2 set_ram set_kmem ram kmem];
        rewrite Hw1; [by apply present_entry | by apply frame_entry]. }
  cbn [k2 set_ram set_kmem ram kmem kc]. change (Z.of_nat 0 * 4) with 0. rewrite Z.add_0_r.
  set (r2 := zero_words 1024 q r1).
  destruct Hs1 as (Hcw & Hca & Hs1).
  assert (Hkeep : forall i, 0 <= i < 1024 -> word r2 (c + i * 4) = word r1 (c + i * 4)).
  { intros i Hi'. unfold r2. rewrite <- (Z.add_0_r q) at 1.
    by apply (zero_words_page 1024 0 q r1 _ c i). }
  assert (Hs2 : self_mapped r2 c)
    by (apply (self_mapped_word r1); [done | by apply (Hkeep 1023)]).
  assert (Hw2 : word r2 (pde_addr c v) = entry_of q) by (unfold pde_addr; by rewrite Hkeep).
  assert (Ept : pte_addr r2 c v = q + PTE_IDX v * 4)
    by (unfold pte_addr; by rewrite Hw2, frame_entry).
  set (k3 := set_ram r2 k2).
  assert (Ht3 : translate (ram (kmem k3)) (cr3 (kc k3)) (pte_ptr v) = Some (q + PTE_IDX v * 4)).
  { change (translate r2 (cr3 (kc k1)) (pte_ptr v) = Some (q + PTE_IDX v * 4)).
    rewrite Hc1, (translate_pte_ptr r2 c v Hs2 Hv), Ept; [reflexivity|].
    rewrite Hw2. by apply present_entry. }
  rewrite (bindM_ok _ _ _ _ _ (vload_ok k3 _ _ Ht3)).
  assert (Hz : word (ram (kmem k3)) (q + PTE_IDX v * 4) = 0).
  { change (word r2 (q + PTE_IDX v * 4) = 0). unfold r2. rewrite <- (Z2Nat.id (PTE_IDX v)) by lia. apply zero_words_in. lia. }
  rewrite Hz, bind_assert by done. by rewrite (vstore_ok k3 _ _ _ Ht3).
Qed.

(** ** The invariant of the page tables *)

(** The directory maps itself and nothing else maps it; no page table and no
    directory is a free page of the kernel pool; directory entries other than
    entry 0 (which the loader sets up as an alias of entry 768) have tables of
    their own. *)
Record paging_ok (k : kernel) : Prop := {
  po_words : words_ok (ram (kmem k));
  po_self : self_mapped (ram (kmem k)) (cr3 (kc k));
  po_dir : forall w, is_word w -> PDE_IDX w <> 1023 ->
    present (word (ram (kmem k)) (pde_addr (cr3 (kc k)) w)) = true ->
    frame (word (ram (kmem k)) (pde_addr (cr3 (kc k)) w)) <> cr3 (kc k);
  po_pool : pool_wf (kernel_pool (kmem k));
  po_cr3 : ~ page_free (kernel_pool (kmem k)) (cr3 (kc k));
  po_tables : forall w, is_word w ->
    present (word (ram (kmem k)) (pde_addr (cr3 (kc k)) w)) = true ->
    ~ page_free (kernel_pool (kmem k)) (frame (word (ram (kmem k)) (pde_addr (cr3 (kc k)) w)));
  po_inj : forall w1 w2, is_word w1 -> is_word w2 -> PDE_IDX w1 <> 0 -> PDE_IDX w2 <> 0 ->
    PDE_IDX w1 <> PDE_IDX w2 ->
    present (word (ram (kmem k)) (pde_addr (cr3 (kc k)) w1)) = true ->
    present (word (ram (kmem k)) (pde_addr (cr3 (kc k)) w2)) = true ->
    frame (word (ram (kmem k)) (pde_addr (cr3 (kc k)) w1)) <>
    frame (word (ram (kmem k)) (pde_addr (cr3 (kc k)) w2)) }.

(** The words of memory that mapping page [v] may change: the entry of [v] in
    its table or, if it has no table, the directory entry and the words of
    pages that were free. *)
Definition table_word (k : kernel) (v a : Z) : Prop :=
  let r := ram (kmem k) in let c := cr3 (kc k) in
  if present (word r (pde_addr c v)) then a = pte_addr r c v
  else a = pde_addr c v \/ exists q, page_free (kernel_pool (kmem k)) q /\ q <= a < q + 4096.

(** [v] is mapped to the page at [p], what was mapped stays mapped, no
    other page becomes mapped (outside the alias of entry 0 and the window of
    the page tables themselves), and other words of memory are kept. *)
Definition maps_added (k k' : kernel) (v p : Z) : Prop :=
  cr3 (kc k') = cr3 (kc k) /\
  translate (ram (kmem k')) (cr3 (kc k)) v = Some (p + v mod 4096) /\
  (forall w a, is_word w -> translate (ram (kmem k)) (cr3 (kc k)) w = Some a ->
    translate (ram (kmem k')) (cr3 (kc k)) w = Some a) /\
  (PDE_IDX v <> 0 -> forall w, is_word w -> PDE_IDX w <> 0 -> PDE_IDX w <> 1023 ->
    w / 4096 <> v / 4096 ->
    translate (ram (kmem k')) (cr3 (kc k)) w = translate (ram (kmem k)) (cr3 (kc k)) w) /\
  (forall a, ~ table_word k v a -> word (ram (kmem k')) a = word (ram (kmem k)) a).

(** Different pages under one directory entry have different table entries. *)
Lemma pages_apart v w : is_word v -> is_word w -> w / 4096 <> v / 4096 ->
  PDE_IDX w = PDE_IDX v -> PTE_IDX w <> PTE_IDX v.
Proof.
  intros Hv Hw. rewrite !PDE_IDX_val, !PTE_IDX_val by done. unfold is_word in *. zarith.
Qed.

Lemma pde_addr_inj c v w : pde_addr c w = pde_addr c v <-> PDE_IDX w = PDE_IDX v.
Proof. unfold pde_addr. lia. Qed.

Lemma translate_absent r c w : present (word r (pde_addr c w)) = false -> translate r c w = None.
Proof. intros E. unfold translate. by rewrite E. Qed.

(** Tables of different directory entries are different. *)
Definition tables_apart (r : gmap Z Z) (c v : Z) : Prop :=
  forall w, is_word w -> PDE_IDX w <> 0 -> PDE_IDX w <> PDE_IDX v ->
    present (word r (pde_addr c w)) = true -> frame (word r (pde_addr c w)) <> frame (word r (pde_addr c v)).

Lemma add_entry_maps r c v p : words_ok r -> c mod 4096 = 0 -> is_word v ->
  is_word p -> p mod 4096 = 0 ->
  present (word r (pde_addr c v)) = true -> frame (word r (pde_addr c v)) <> c ->
  present (word r (pte_addr r c v)) = false ->
  let r' := <[pte_addr r c v := entry_of p]> r in
  (forall i, 0 <= i < 1024 -> word r' (c + i * 4) = word r (c + i * 4)) /\
  translate r' c v = Some (p + v mod 4096) /\
  (forall w a, is_word w -> translate r c w = Some a -> translate r' c w = Some a) /\
  (tables_apart r c v -> forall w, is_word w -> PDE_IDX w <> 0 -> w / 4096 <> v / 4096 ->
     translate r' c w = translate r c w).
Proof.
  intros Hr Hc Hv Hp Hpa Hpd Hfr Hpt r'.
  pose proof (PTE_IDX_range v Hv) as Hj.
  destruct (frame_aligned _ (word_ok r (pde_addr c v) Hr)) as [Hfa _].
  assert (Hdir : forall i, 0 <= i < 1024 -> word r' (c + i * 4) = word r (c + i * 4)).
  { intros i Hi. unfold r'. rewrite word_insert. destruct (Z.eq_dec _ _) as [E|]; [|done].
    unfold pte_addr in E. by apply frames_apart in E. }
  assert (Hpde : forall w, is_word w -> word r' (pde_addr c w) = word r (pde_addr c w))
    by (intros w Hw; apply Hdir, PDE_IDX_range, Hw).
  split; [done|]. split.
  - unfold translate. rewrite Hpde, Hpd by done.
    assert (pte_addr r' c v = pte_addr r c v) as -> by (unfold pte_addr; by rewrite Hpde).
    unfold r'. rewrite word_insert. destruct (Z.eq_dec _ _); [|done].
    by rewrite present_entry, frame_entry, offset_val.
  - split.
    + intros w a Hw Ht. rewrite <- Ht. destruct (translate_present _ _ _ _ Ht) as [_ Hpw].
      apply translate_frame; [by apply Hpde|]. unfold r'. rewrite word_insert.
      destruct (Z.eq_dec _ _) as [E|]; [|done]. rewrite <- E in Hpw. congruence.
    + intros Hap w Hw Hw0 Hpg. destruct (present (word r (pde_addr c w))) eqn:Hpw.
      2:{ rewrite !translate_absent; [done|done|by rewrite Hpde]. }
      apply translate_frame; [by apply Hpde|]. unfold r'. rewrite word_insert.
      destruct (Z.eq_dec _ _) as [E|]; [exfalso|done].
      destruct (decide (PDE_IDX w = PDE_IDX v)) as [Ei|Ni].
      * apply (pages_apart v w Hv Hw Hpg Ei). unfold pte_addr in E.
        rewrite (proj2 (pde_addr_inj c v w) Ei) in E. lia.
      * destruct (frame_aligned _ (word_ok r (pde_addr c w) Hr)) as [Hwa _].
        pose proof (PTE_IDX_range w Hw) as Hjw. pose proof (Hap w Hw Hw0 Ni Hpw) as Hne.
        exact (frames_apart _ _ _ _ Hwa Hfa Hne Hjw Hj (eq_sym E)).
Qed.

Lemma new_table_maps r c v q p : words_ok r -> self_mapped r c -> is_word v ->
  PDE_IDX v <> 1023 -> present (word r (pde_addr c v)) = false ->
  is_word p -> p mod 4096 = 0 -> is_word q -> q mod 4096 = 0 -> q <> c ->
  (forall w, is_word w -> present (word r (pde_addr c w)) = true ->
     frame (word r (pde_addr c w)) <> q) ->
  let r' := new_table r c v q p in
  translate r' c v = Some (p + v mod 4096) /\
  (forall w a, is_word w -> translate r c w = Some a -> translate r' c w = Some a).
Proof.
  intros Hr (Hcw & Hca & Hs) Hv Hnl Hpd Hp Hpa Hq Hqa Hqc Hfresh r'.
  pose proof (PTE_IDX_range v Hv) as Hj. pose proof (PDE_IDX_range v Hv) as Hi.
  assert (Hdv : word r' (pde_addr c v) = entry_of q).
  { unfold r', pde_addr at 1. rewrite new_table_dir by done. unfold pde_addr.
    by destruct (Z.eq_dec _ _). }
  split.
  - assert (Ept : pte_addr r' c v = q + PTE_IDX v * 4)
      by (unfold pte_addr; by rewrite Hdv, frame_entry).
    unfold translate. rewrite Hdv, present_entry, Ept by done.
    unfold r', new_table. rewrite word_insert. destruct (Z.eq_dec _ _) as [_|N]; [|congruence].
    by rewrite present_entry, frame_entry, offset_val.
  - intros w a Hw Ht. rewrite <- Ht. destruct (translate_present _ _ _ _ Ht) as [Hpw Hqw].
    pose proof (PDE_IDX_range w Hw) as Hiw. pose proof (PTE_IDX_range w Hw) as Hjw.
    destruct (frame_aligned _ (word_ok r (pde_addr c w) Hr)) as [Hfa _].
    apply translate_frame.
    + unfold r', pde_addr. rewrite new_table_dir by done.
      destruct (Z.eq_dec _ _) as [E|]; [|done]. unfold pde_addr in *. rewrite E in Hpd. congruence.
    + unfold r', new_table. rewrite word_insert. destruct (Z.eq_dec _ _) as [E|_].
      { symmetry in E. exact (False_ind _ (frames_apart _ _ _ _ Hfa Hqa (Hfresh w Hw Hpw) Hjw Hj E)). }
      rewrite <- (Z.add_0_r q) at 1. change 0 with (Z.of_nat 0 * 4).
      rewrite (zero_words_page 1024 0 q _ _ (frame (word r (pde_addr c w))) (PTE_IDX w)
        Hfa Hqa (Hfresh w Hw Hpw) Hjw (le_n 1024) eq_refl).
      rewrite word_insert. unfold pte_addr in Hqw.
      destruct (Z.eq_dec _ _) as [E|]; [|reflexivity]. rewrite <- E in Hqw. congruence.
Qed.

(** A new table leaves the other pages alone: those of its directory entry
    are not mapped, before or after. *)
Lemma new_table_others r c v q p w : words_ok r -> self_mapped r c -> is_word v -> is_word w ->
  present (word r (pde_addr c v)) = false ->
  is_word q -> q mod 4096 = 0 -> q <> c ->
  (present (word r (pde_addr c w)) = true ->
     frame (word r (pde_addr c w)) <> q /\ frame (word r (pde_addr c w)) <> c) ->
  w / 4096 <> v / 4096 ->
  translate (new_table r c v q p) c w = translate r c w.
Proof.
  intros Hr (Hcw & Hca & Hs) Hv Hw Hpd Hq Hqa Hqc Hfresh Hpg.
  pose proof (PTE_IDX_range v Hv) as Hj. pose proof (PDE_IDX_range v Hv) as Hi.
  pose proof (PDE_IDX_range w Hw) as Hiw. pose proof (PTE_IDX_range w Hw) as Hjw.
  assert (Hdw : word (new_table r c v q p) (pde_addr c w) =
    if Z.eq_dec (pde_addr c v) (pde_addr c w) then entry_of q else word r (pde_addr c w))
    by (by apply new_table_dir).
  destruct (Z.eq_dec (pde_addr c v) (pde_addr c w)) as [E|N].
  - assert (Hj' : PTE_IDX w <> PTE_IDX v)
      by (apply pages_apart; [done..|]; unfold pde_addr in E; lia).
    rewrite (translate_absent r) by (by rewrite <- E).
    unfold translate. rewrite Hdw, present_entry by done.
    assert (Ept : pte_addr (new_table r c v q p) c w = q + PTE_IDX w * 4)
      by (unfold pte_addr; by rewrite Hdw, frame_entry).
    rewrite Ept. unfold new_table. rewrite word_insert.
    destruct (Z.eq_dec _ _) as [Ej|_]; [lia|].
    rewrite <- (Z2Nat.id (PTE_IDX w)) by lia. rewrite zero_words_in by lia. reflexivity.
  - destruct (present (word r (pde_addr c w))) eqn:Hpw.
    2:{ rewrite !translate_absent; [reflexivity | exact Hpw | by rewrite Hdw]. }
    destruct (Hfresh eq_refl) as [Hfq Hfc].
    destruct (frame_aligned _ (word_ok r (pde_addr c w) Hr)) as [Hfa _].
    apply translate_frame; [exact Hdw|].
    unfold new_table. rewrite word_insert. destruct (Z.eq_dec _ _) as [E|_].
    { symmetry in E. exact (False_ind _ (frames_apart _ _ _ _ Hfa Hqa Hfq Hjw Hj E)). }
    rewrite <- (Z.add_0_r q) at 1. change 0 with (Z.of_nat 0 * 4).
    rewrite (zero_words_page 1024 0 q _ _ (frame (word r (pde_addr c w))) (PTE_IDX w)
      Hfa Hqa Hfq Hjw (le_n 1024) eq_refl).
    rewrite word_insert. destruct (Z.eq_dec _ _) as [E|]; [|reflexivity].
    symmetry in E. exact (False_ind _ (frames_apart _ _ _ _ Hfa Hca Hfc Hjw Hi E)).
Qed.

Lemma page_free_taken p p' i q : pool_updated p p' i true -> page_free p' q ->
  page_free p q /\ q <> page_at p i.
Proof.
  intros (Hwf & Hst & _ & Hz & _ & Hb) (j & Hj & -> & Hf).
  assert (Hj' : in_bits (pool_bitmap p) j) by (unfold in_bits in *; by rewrite <- Hz).
  rewrite Hb in Hf by done. destruct (Z.eq_dec i j) as [|Hne]; [done|].
  unfold page_at. rewrite Hst. split; [by exists j|]. lia.
Qed.

(** Same directory and same kernel pool: the invariant carries over. *)
Lemma paging_ok_dir k k' : paging_ok k -> words_ok (ram (kmem k')) ->
  cr3 (kc k') = cr3 (kc k) -> kernel_pool (kmem k') = kernel_pool (kmem k) ->
  (forall i, 0 <= i < 1024 -> word (ram (kmem k')) (cr3 (kc k) + i * 4)
     = word (ram (kmem k)) (cr3 (kc k) + i * 4)) -> paging_ok k'.
Proof.
  intros [Hw Hs Hd Hp Hc Ht Hinj] Hw' Ec Ep Hdir.
  assert (Hpde : forall w, is_word w -> word (ram (kmem k')) (pde_addr (cr3 (kc k)) w)
    = word (ram (kmem k)) (pde_addr (cr3 (kc k)) w)) by (intros w Hwd; apply Hdir, PDE_IDX_range, Hwd).
  split; rewrite ?Ec, ?Ep; try done.
  - apply (self_mapped_word (ram (kmem k))); [done|]. by apply (Hdir 1023).
  - intros w Hwd. rewrite Hpde by done. by apply Hd.
  - intros w Hwd. rewrite Hpde by done. by apply Ht.
  - intros w1 w2 H1 H2. rewrite !Hpde by done. by apply Hinj.
Qed.

(** One page of a pool has been taken. *)
Definition page_taken (p p' : pool) (i : Z) : Prop :=
  in_bits (pool_bitmap p) i /\ bit (pool_bitmap p) i = false /\ i < len (pool_bitmap p) - 1 /\
  pool_updated p p' i true.

(** [q] holds a page table of the current directory. *)
Definition table_frame (k : kernel) (q : Z) : Prop :=
  exists w, is_word w /\ present (word (ram (kmem k)) (pde_addr (cr3 (kc k)) w)) = true /\
    frame (word (ram (kmem k)) (pde_addr (cr3 (kc k)) w)) = q.

(** Everything but the page tables and the kernel pool is as before, at most
    one page has been taken from the kernel pool, and it is now a page table. *)
Definition only_tables (k k' : kernel) : Prop :=
  km k' = km k /\ kc k' = kc k /\ kth k' = kth k /\ ksy k' = ksy k /\
  user_pool (kmem k') = user_pool (kmem k) /\ kernel_vaddr (kmem k') = kernel_vaddr (kmem k) /\
  (kernel_pool (kmem k') = kernel_pool (kmem k) \/
   exists i, page_taken (kernel_pool (kmem k)) (kernel_pool (kmem k')) i) /\
  (forall q, table_frame k' q -> table_frame k q \/ page_free (kernel_pool (kmem k)) q) /\
  (forall q, table_frame k q -> table_frame k' q) /\
  (forall q, page_free (kernel_pool (kmem k)) q ->
     page_free (kernel_pool (kmem k')) q \/ table_frame k' q).

Lemma new_table_frames r c v q p (k k' : kernel) x : is_word v -> q mod 4096 = 0 -> is_word q ->
  c mod 4096 = 0 -> q <> c -> ram (kmem k) = r -> cr3 (kc k) = c ->
  ram (kmem k') = new_table r c v q p -> cr3 (kc k') = c ->
  present (word r (pde_addr c v)) = false ->
  table_frame k' x <-> table_frame k x \/ x = q.
Proof.
  intros Hv Hq Hqw Hc Hqc Er Ec Er' Ec' Hab.
  assert (Hd : forall w, is_word w -> word (new_table r c v q p) (pde_addr c w) =
    if Z.eq_dec (pde_addr c v) (pde_addr c w) then entry_of q else word r (pde_addr c w))
    by (intros w Hw; apply (new_table_dir r c v q p _ Hv Hq Hc Hqc (PDE_IDX_range w Hw))).
  unfold table_frame. rewrite Er, Ec, Er', Ec'. clear Er Er'. split.
  - intros (w & Hw & Hp & Hf). rewrite Hd in Hp, Hf by exact Hw.
    destruct (Z.eq_dec _ _) as [E|]; [right; by rewrite <- Hf, frame_entry|].
    left. exists w. split; [exact Hw|]. split; [exact Hp|exact Hf].
  - intros [(w & Hw & Hp & Hf) | ->].
    + exists w. split; [exact Hw|]. rewrite Hd by exact Hw.
      destruct (Z.eq_dec _ _) as [E|]; [rewrite <- E in Hp; congruence|]. split; [exact Hp|exact Hf].
    + exists v. split; [exact Hv|]. rewrite Hd by exact Hv.
      destruct (Z.eq_dec _ _) as [_|N]; [|congruence]. split; [by apply present_entry|by apply frame_entry].
Qed.

(** The only page the update takes out of the pool. *)
Lemma page_free_kept p p' i q : pool_updated p p' i true -> page_free p q ->
  page_free p' q \/ q = page_at p i.
Proof.
  intros (_ & Hst & _ & Hz & _ & Hb) (j & Hj & -> & Hf).
  destruct (Z.eq_dec i j) as [->|Hne]; [by right|]. left. exists j.
  split; [unfold in_bits in *; by rewrite Hz|]. split; [unfold page_at; by rewrite Hst|].
  rewrite Hb by done. by destruct (Z.eq_dec i j).
Qed.

Lemma new_table_paging k p' i v p : paging_ok k -> is_word v -> PDE_IDX v <> 1023 ->
  in_bits (pool_bitmap (kernel_pool (kmem k))) i ->
  bit (pool_bitmap (kernel_pool (kmem k))) i = false ->
  pool_updated (kernel_pool (kmem k)) p' i true -> is_word (entry_of p) ->
  paging_ok (set_ram (new_table (ram (kmem k)) (cr3 (kc k)) v (page_at (kernel_pool (kmem k)) i) p)
    (set_pool PF_KERNEL p' k)).
Proof.
  intros [Hw Hs Hd Hp Hc Ht Hinj] Hv Hnl Hin Hbit Hu Hpw. destruct (page_at_word _ i Hp Hin) as (Hqw & Hqa & _).
  set (q := page_at (kernel_pool (kmem k)) i) in *. set (c := cr3 (kc k)) in *.
  set (r := ram (kmem k)) in *. pose proof Hs as (Hcw & Hca & _).
  assert (Hqf : page_free (kernel_pool (kmem k)) q) by (by exists i).
  assert (Hqc : q <> c) by (intros E; apply Hc; by rewrite <- E).
  assert (Hew : is_word (entry_of q)) by (rewrite entry_val by done; unfold is_word in *; zarith).
  pose proof (fun i => new_table_dir r c v q p i Hv Hqa Hca Hqc) as Hdir.
  pose proof (PDE_IDX_range v Hv) as Hi.
  assert (Hfree : forall x, page_free p' x -> page_free (kernel_pool (kmem k)) x /\ x <> q)
    by (intros x Hx; by apply (page_free_taken _ p')).
  split; cbn [set_ram set_pool set_kmem kmem ram kc kernel_pool]; fold c r.
  - apply words_insert; [|done]. by apply zero_words_ok, words_insert.
  - apply (self_mapped_word r); [exact Hs|]. change (c + 4092) with (c + 1023 * 4).
    rewrite (Hdir 1023) by lia. destruct (Z.eq_dec _ _) as [E|]; [unfold pde_addr in E; lia | reflexivity].
  - intros w Hwd Hnw. unfold pde_addr. rewrite Hdir by (by apply PDE_IDX_range).
    destruct (Z.eq_dec _ _) as [E|]; [by rewrite frame_entry | by apply Hd].
  - apply Hu.
  - intros Hx. destruct (Hfree _ Hx) as [Hx' _]. by apply Hc.
  - intros w Hwd. unfold pde_addr. rewrite Hdir by (by apply PDE_IDX_range).
    destruct (Z.eq_dec _ _) as [E|]; intros Hpr Hx; destruct (Hfree _ Hx) as [Hx' Hne].
    + apply Hne. by apply frame_entry.
    + by apply (Ht w Hwd Hpr).
  - intros w1 w2 H1 H2 N1 N2 Hne. unfold pde_addr. rewrite !Hdir by (by apply PDE_IDX_range).
    destruct (Z.eq_dec _ _) as [E1|], (Z.eq_dec _ _) as [E2|]; unfold pde_addr in *; try lia.
    + intros _ Hpr E. rewrite frame_entry in E by done. apply (Ht w2 H2 Hpr). by rewrite <- E.
    + intros Hpr _ E. rewrite frame_entry in E by done. apply (Ht w1 H1 Hpr). by rewrite E.
    + by apply Hinj.
Qed.

Lemma page_table_add_ok k v p : paging_ok k -> is_word v -> PDE_IDX v <> 1023 ->
  is_word p -> p mod 4096 = 0 ->
  translate (ram (kmem k)) (cr3 (kc k)) v = None ->
  ~ pool_exhausted (kernel_pool (kmem k)) ->
  exists k', page_table_add v p k = Ok (tt, k') /\ paging_ok k' /\ maps_added k k' v p /\
    only_tables k k'.
Proof.
  intros Hok Hv Hnl Hp Hpa Hno Hpool. pose proof Hok as [Hw Hs Hd Hpw Hc Ht Hinj].
  pose proof Hs as (Hcw & Hca & _).
  assert (Hew : is_word (entry_of p)) by (rewrite entry_val by done; unfold is_word in *; zarith).
  destruct (present (word (ram (kmem k)) (pde_addr (cr3 (kc k)) v))) eqn:Hpd.
  - assert (Hpt : present (word (ram (kmem k)) (pte_addr (ram (kmem k)) (cr3 (kc k)) v)) = false).
    { unfold translate in Hno. rewrite Hpd in Hno. by destruct (present (word _ (pte_addr _ _ _))). }
    destruct (add_entry_maps _ _ v p Hw Hca Hv Hp Hpa Hpd (Hd v Hv Hnl Hpd) Hpt) as (Hdir & Hm & Hk & Ho).
    eexists. split; [by apply page_table_add_present|]. split; [|split].
    + apply (paging_ok_dir k); try done. by apply words_insert.
    + split; [done|]. split; [exact Hm|]. split; [exact Hk|]. split.
      * intros Hv0 w Hwd Hw0 _ Hpg. apply Ho; try assumption.
        intros x Hx Hx0 Hxv Hxp. by apply Hinj.
      * intros a Ha. unfold table_word in Ha. rewrite Hpd in Ha. cbn [set_ram set_kmem kmem ram].
        rewrite word_insert. destruct (Z.eq_dec _ _); congruence.
    + assert (Htf : forall q, table_frame (set_ram (<[pte_addr (ram (kmem k)) (cr3 (kc k)) v := entry_of p]>
        (ram (kmem k))) k) q <-> table_frame k q).
      { intros q. unfold table_frame. cbn [set_ram set_kmem kmem ram kc].
        split; intros (w & Hwd & Hpr & Hf); exists w; unfold pde_addr in *;
          rewrite (Hdir _ (PDE_IDX_range w Hwd)) in *; (split; [|split]); assumption. }
      unfold only_tables. split_and!; try reflexivity; [by left| | |].
      * intros q Hq. left. by apply Htf.
      * intros q Hq. by apply Htf.
      * intros q Hq. by left.
  - destruct (palloc_ok PF_KERNEL k Hpw) as [[He _]|(i & p' & Hin & Hbit & Hlt & Epa & Hu)]; [done|].
    cbn [pool_of] in *. destruct (page_at_word _ i Hpw Hin) as (Hqw & Hqa & _).
    assert (Hqf : page_free (kernel_pool (kmem k)) (page_at (kernel_pool (kmem k)) i)) by (by exists i).
    assert (Hqc : page_at (kernel_pool (kmem k)) i <> cr3 (kc k)) by (intros E; apply Hc; by rewrite <- E).
    eexists. split; [by apply (page_table_add_absent _ _ _ _ _ Hs Hv Hnl Hpd Epa)|].
    split; [by apply new_table_paging|]. split.
    + assert (Hfresh : forall w, is_word w ->
        present (word (ram (kmem k)) (pde_addr (cr3 (kc k)) w)) = true ->
        frame (word (ram (kmem k)) (pde_addr (cr3 (kc k)) w)) <> page_at (kernel_pool (kmem k)) i)
        by (intros w Hwd Hpr E; apply (Ht w Hwd Hpr); by rewrite E).
      destruct (new_table_maps _ _ v _ p Hw Hs Hv Hnl Hpd Hp Hpa Hqw Hqa Hqc Hfresh) as [Hm Hk].
      split; [done|]. split; [exact Hm|]. split; [exact Hk|]. split.
      * intros _ w Hwd _ Hwn Hpg. apply new_table_others; try assumption.
        intros Hpr. split; [by apply Hfresh | by apply Hd].
      * intros a Ha. unfold table_word in Ha. rewrite Hpd in Ha. apply new_table_words; [done| |].
        -- intros E. apply Ha. by left.
        -- intros Hin'. apply Ha. right. by exists (page_at (kernel_pool (kmem k)) i).
    + assert (Htf : forall x, table_frame (set_ram (new_table (ram (kmem k)) (cr3 (kc k)) v
        (page_at (kernel_pool (kmem k)) i) p) (set_pool PF_KERNEL p' k)) x <->
        table_frame k x \/ x = page_at (kernel_pool (kmem k)) i)
        by (intros x; eapply new_table_frames; try reflexivity; eassumption).
      unfold only_tables. split_and!; try reflexivity; [right; by exists i| | |].
      * intros x Hx. apply Htf in Hx as [Hx | ->]; [by left | by right].
      * intros x Hx. apply Htf. by left.
      * intros x Hx. rewrite Htf. destruct (page_free_kept _ p' i x Hu Hx) as [Hy|Hy]; [by left|].
        right. by right.
Qed.

Lemma frame_offset_word e v : is_word e -> is_word (frame e + Z.land v 0xfff).
Proof.
  intros He. destruct (frame_aligned e He) as [Ha Hw]. rewrite offset_val. unfold is_word in *. zarith.
Qed.

(** [x & ~PG_P_1] clears the present bit, is a word and keeps the frame. *)
Lemma clear_present x : is_word x -> let y := Z.land x (u32 (Z.lnot PG_P_1)) in
  present y = false /\ is_word y /\ frame y = frame x.
Proof.
  intros Hx. cbv zeta. change (u32 (Z.lnot PG_P_1)) with (2 ^ 32 - 2 ^ 1). unfold is_word in *.
  rewrite (land_high x 1 32) by lia. rewrite present_odd, !frame_val by (unfold is_word; change (2 ^ 1) with 2; zarith).
  change (2 ^ 1) with 2. split; [apply negb_false_iff, Z.eqb_eq; zarith|]. zarith.
Qed.

(** What [addr_vir2phy] computes, mapped or not. *)
Lemma vir2phy_eq k v : paging_ok k -> is_word v -> let r := ram (kmem k) in let c := cr3 (kc k) in
  addr_vir2phy v k = if present (word r (pde_addr c v)) then Ok (frame (word r (pte_addr r c v)) + Z.land v 0xfff, k) else Err Fault.
Proof.
  intros Hok Hv r c. pose proof (po_self _ Hok) as Hs. unfold addr_vir2phy. destruct (present (word r (pde_addr c v))) eqn:Hpd.
  - rewrite (bindM_ok _ _ _ _ _ (vload_ok k _ _ (translate_pte_ptr _ _ v Hs Hv Hpd))). unfold mret, M_ret. do 2 f_equal.
    apply u32_small, frame_offset_word, word_ok, (po_words _ Hok).
  - unfold vload. unfold mbind, M_bind.
    assert (Hpw : is_word (pte_ptr v)) by (rewrite pte_ptr_val by done; unfold is_word in *; zarith).
    fold r c. assert (E : translate r c (pte_ptr v) = None); [|by rewrite E].
    destruct Hs as (Hc & Ha & Hp & Hf). fold r c in Hc, Ha, Hp, Hf. unfold is_word in Hc, Hv.
    assert (Epd : pde_addr c (pte_ptr v) = c + 4092)
      by (unfold pde_addr; rewrite PDE_IDX_val, pte_ptr_val by done; zarith).
    assert (Ept : pte_addr r c (pte_ptr v) = pde_addr c v).
    { unfold pte_addr. rewrite Epd, Hf, PTE_IDX_val, pte_ptr_val by done.
      unfold pde_addr. rewrite PDE_IDX_val by done. zarith. }
    unfold translate. by rewrite Epd, Hp, Ept, Hpd.
Qed.

Lemma addr_vir2phy_ok k v a : paging_ok k -> is_word v ->
  translate (ram (kmem k)) (cr3 (kc k)) v = Some a -> is_word a -> addr_vir2phy v k = Ok (a, k).
Proof.
  intros Hok Hv Ht _. rewrite vir2phy_eq by done. cbv zeta. unfold translate in Ht.
  destruct (present _); [|done]. destruct (present _); [|done]. by injection Ht as ->.
Qed.

(** The two pools of [mem_pool_init]: the user pool begins where the kernel
    pool ends. *)
Record pools_ok (m : memory) : Prop := {
  ps_kernel : pool_wf (kernel_pool m);
  ps_user : pool_wf (user_pool m);
  ps_apart : phy_addr_start (kernel_pool m) + 8 * zlen (bits (pool_bitmap (kernel_pool m))) * 4096
    <= phy_addr_start (user_pool m) }.

Lemma pools_wf m pf : pools_ok m -> pool_wf (pool_of pf m).
Proof. intros []. by destruct pf. Qed.

(** The index [pfree] computes leads back to the pool of the page. *)
Lemma pfree_ok pf k i : pools_ok (kmem k) -> in_bits (pool_bitmap (pool_of pf (kmem k))) i ->
  let p := pool_of pf (kmem k) in
  exists p', pfree (page_at p i) k = Ok (tt, set_pool pf p' k) /\ pool_updated p p' i false.
Proof.
  intros Hps Hi p. pose proof (pools_wf _ pf Hps) as Hp. fold p in Hp, Hi.
  destruct (pool_set_ok p i 0 Hp Hi (or_introl eq_refl)) as (b & Eb & Hu).
  exists (mk_pool b (phy_addr_start p) (pool_size p)). split; [|done].
  unfold pfree. rewrite bind_gets. cbv zeta.
  assert (Hpf : (if phy_addr_start (user_pool (kmem k)) <=? page_at p i then PF_USER else PF_KERNEL) = pf).
  { destruct Hps as [_ _ Hap]. unfold page_at, in_bits in *. subst p. destruct pf; cbn [pool_of] in *.
    - by rewrite (proj2 (Z.leb_gt _ _)) by lia.
    - by rewrite (proj2 (Z.leb_le _ _)) by lia. }
  rewrite Hpf. fold p. assert (Hidx : u32 (page_at p i - phy_addr_start p) / PG_SIZE = i).
  { destruct (page_at_word p i Hp Hi) as (Hw & _). pose proof (pw_start _ Hp).
    unfold page_at, is_word, in_bits, PG_SIZE in *. rewrite u32_small by lia. zarith. }
  rewrite Hidx. by rewrite (bind_lift _ _ _ _ Eb).
Qed.

(** ** Properties *)

(** C26. [page_table_add] maps exactly the page asked for: when the address was
    not mapped and a kernel page is available for a new table, it returns, the
    processor's walk takes the address to the given frame, every mapping that
    existed still exists with the same target, no other page of the space
    becomes mapped, the invariant of the tables is kept, and nothing else of
    the kernel changes. *)
Theorem page_table_add_maps (k : kernel) (v p : Z) :
  paging_ok k -> is_word v -> PDE_IDX v <> 1023 -> is_word p -> p mod 4096 = 0 ->
  translate (ram (kmem k)) (cr3 (kc k)) v = None ->
  ~ pool_exhausted (kernel_pool (kmem k)) ->
  exists k', page_table_add v p k = Ok (tt, k') /\ paging_ok k' /\ maps_added k k' v p /\
    only_tables k k'.
Proof. apply page_table_add_ok. Qed.

(** C38. The software lookup through the self map against the processor's walk.
    Of a mapped address [addr_vir2phy] returns the translation, and it faults
    exactly when the address has no page table.  It does not test the present
    bit of the last entry: with a table but no page the walk fails, and the
    lookup returns what the address bits of the entry say.  After
    [page_table_pte_remove], which clears only that bit, this is the frame the
    page had. *)
Theorem addr_vir2phy_is_walk (k : kernel) (v : Z) :
  paging_ok k -> is_word v ->
  let r := ram (kmem k) in let c := cr3 (kc k) in
  match translate r c v with
  | Some a => addr_vir2phy v k = Ok (a, k)
  | None => addr_vir2phy v k =
      if present (word r (pde_addr c v)) then Ok (frame (word r (pte_addr r c v)) + Z.land v 0xfff, k) else Err Fault
  end /\
  forall a k', translate r c v = Some a -> PDE_IDX v <> 1023 -> page_table_pte_remove v k = Ok (tt, k') ->
    translate (ram (kmem k')) c v = None /\ addr_vir2phy v k' = Ok (a, k').
Proof.
  intros Hok Hv r c. pose proof (po_words _ Hok) as Hw. fold r in Hw. split.
  - pose proof (vir2phy_eq k v Hok Hv) as E. fold r c in E. unfold translate in *.
    destruct (present (word r (pde_addr c v))); [|exact E]. destruct (present _); exact E.
  - intros a k' Ht H1 E. destruct (translate_present _ _ _ _ Ht) as [Hpd Hpt].
    unfold page_table_pte_remove in E.
    pose proof (translate_pte_ptr _ _ v (po_self _ Hok) Hv Hpd) as Hptr. fold r c in Hptr.
    rewrite (bindM_ok _ _ _ _ _ (vload_ok k _ _ Hptr)), (vstore_ok k _ _ _ Hptr) in E. injection E as <-.
    fold r. set (x := Z.land _ _). set (r' := <[_ := x]> r).
    destruct (clear_present _ (word_ok r (pte_addr r c v) Hw)) as (Hx & _ & Hfx). fold x in Hx, Hfx.
    assert (Epd : word r' (pde_addr c v) = word r (pde_addr c v)).
    { unfold r'. rewrite word_insert. destruct (Z.eq_dec _ _) as [E|]; [|done]. unfold pte_addr, pde_addr in E.
      destruct (po_self _ Hok) as (_ & Hca & _). fold c in Hca. pose proof (po_dir _ Hok v Hv H1 Hpd) as Hne.
      fold r c in Hne. unfold pde_addr in Hne.
      by apply frames_apart in E; [|apply (frame_aligned _ (word_ok r _ Hw))|exact Hca|exact Hne|apply PTE_IDX_range|apply PDE_IDX_range]. }
    assert (Ept : pte_addr r' c v = pte_addr r c v) by (unfold pte_addr; by rewrite Epd).
    assert (Ex : word r' (pte_addr r c v) = x) by (unfold r'; rewrite word_insert; by destruct (Z.eq_dec _ _)).
    cbn [set_ram set_kmem kmem ram]. split.
    + unfold translate. by rewrite Epd, Hpd, Ept, Ex, Hx.
    + unfold addr_vir2phy. assert (Hp' : translate r' c (pte_ptr v) = Some (pte_addr r c v)).
      { rewrite <- Ept. apply translate_pte_ptr; [|done|by rewrite Epd]. destruct (po_self _ Hok) as (A1 & A2 & A3 & A4).
        fold r c in A1, A2, A3, A4. assert (Es : word r' (c + 4092) = word r (c + 4092)).
        { unfold r'. rewrite word_insert. destruct (Z.eq_dec _ _) as [E|]; [|done]. unfold pte_addr in E.
          pose proof (po_dir _ Hok v Hv H1 Hpd) as Hne. fold r c in Hne. change 4092 with (1023 * 4) in E.
          by apply frames_apart in E; [|apply (frame_aligned _ (word_ok r _ Hw))|exact A2|exact Hne|apply PTE_IDX_range|]. }
        by rewrite <- Es in A3, A4. }
      rewrite (bindM_ok _ _ _ _ _ (vload_ok (set_ram r' k) _ _ Hp')). cbn [set_ram set_kmem kmem ram]. rewrite Ex.
      unfold translate in Ht. rewrite Hpd, Hpt in Ht. injection Ht as <-. unfold mret, M_ret. do 2 f_equal.
      fold (frame x). rewrite Hfx. apply u32_small, frame_offset_word. by apply word_ok.
Qed.

(** [palloc] hands out a page of its pool that was free, marks only that
    page, and [pfree] of the returned address finds the pool and the page
    again from the address alone: afterwards the bitmap is as it was.  With no
    clear bit below [len - 1] it returns NULL and changes nothing. *)
Theorem palloc_pfree_restores (k : kernel) (pf : pool_flag) :
  pools_ok (kmem k) ->
  let p := pool_of pf (kmem k) in
  (pool_exhausted p /\ palloc pf k = Ok (NULL, k)) \/
  exists q k1 k2, palloc pf k = Ok (q, k1) /\ q <> NULL /\
    page_free p q /\ ~ page_free (pool_of pf (kmem k1)) q /\
    (forall q', q' <> q -> page_free (pool_of pf (kmem k1)) q' <-> page_free p q') /\
    pfree q k1 = Ok (tt, k2) /\
    forall i, in_bits (pool_bitmap p) i ->
      bit (pool_bitmap (pool_of pf (kmem k2))) i = bit (pool_bitmap p) i.
Proof.
  intros Hps p. pose proof (pools_wf _ pf Hps) as Hp.
  destruct (palloc_ok pf k Hp) as [He|(i & p' & Hin & Hbit & _ & Epa & Hu)]; [by left|]. right.
  fold p in Hp, Hin, Hbit, Hu, Epa. destruct (page_at_word p i Hp Hin) as (_ & _ & Hpos).
  pose proof Hu as (Hwf' & Hst & _ & Hz & _ & Hb).
  set (k1 := set_pool pf p' k) in *. assert (Hk1 : pool_of pf (kmem k1) = p') by (by destruct pf).
  assert (Hps1 : pools_ok (kmem k1)).
  { destruct Hps as [H1 H2 H3]. subst p. destruct pf; split; cbn in *; try done.
    - by rewrite Hst, Hz.
    - by rewrite Hst. }
  assert (Hin1 : in_bits (pool_bitmap (pool_of pf (kmem k1))) i)
    by (rewrite Hk1; unfold in_bits in *; by rewrite Hz).
  destruct (pfree_ok pf k1 i Hps1 Hin1) as (p2 & E2 & Hu2). rewrite Hk1 in E2, Hu2.
  assert (Eq : page_at p' i = page_at p i) by (unfold page_at; by rewrite Hst). rewrite Eq in E2.
  assert (Hfree : forall q', page_free p' q' <-> page_free p q' /\ q' <> page_at p i).
  { intros q'. split; [by apply page_free_taken|]. intros ((j & Hj & -> & Hf) & Hne).
    assert (i <> j) by (intros ->; done). exists j. split; [unfold in_bits in *; by rewrite Hz|].
    split; [unfold page_at; by rewrite Hst|]. rewrite Hb by done. by destruct (Z.eq_dec i j). }
  exists (page_at p i), k1, (set_pool pf p2 k1). split; [done|]. unfold NULL. split; [lia|].
  split; [by exists i|]. rewrite Hk1. split; [rewrite Hfree; tauto|].
  split; [intros; rewrite Hfree; tauto|]. split; [done|].
  intros j Hj. assert (pool_of pf (kmem (set_pool pf p2 k1)) = p2) as -> by (by destruct pf).
  destruct Hu2 as (_ & _ & _ & _ & _ & Hb2).
  rewrite Hb2 by (unfold in_bits in *; by rewrite Hz). rewrite Hb by done.
  destruct (Z.eq_dec i j) as [->|]; done.
Qed.

(** When the kernel pool is exhausted [page_table_add] does not notice: it
    takes the NULL of [palloc] for a frame, installs physical page 0 as the
    page table and clears every other word of that page. *)
Theorem page_table_add_out_of_memory (k : kernel) (v p : Z) :
  paging_ok k -> is_word v -> PDE_IDX v <> 1023 ->
  present (word (ram (kmem k)) (pde_addr (cr3 (kc k)) v)) = false ->
  pool_exhausted (kernel_pool (kmem k)) -> cr3 (kc k) <> 0 ->
  exists k', page_table_add v p k = Ok (tt, k') /\
    word (ram (kmem k')) (pde_addr (cr3 (kc k)) v) = 7 /\
    forall i, 0 <= i < 1024 -> i <> PTE_IDX v -> word (ram (kmem k')) (i * 4) = 0.
Proof.
  intros [Hw Hs _ Hpw _ _ _] Hv Hnl Hpd He Hc0. pose proof Hs as (Hcw & Hca & _).
  assert (H0 : is_word 0) by (unfold is_word; lia).
  destruct (palloc_ok PF_KERNEL k Hpw) as [[_ Epa]|(i & p' & Hin & Hbit & Hlt & _)].
  2:{ cbn [pool_of] in *. rewrite He in Hbit by (unfold in_bits in Hin; lia). done. }
  eexists. split; [by apply (page_table_add_absent _ _ _ _ _ Hs Hv Hnl Hpd Epa)|].
  cbn [set_ram set_kmem kmem ram]. split.
  - unfold pde_addr at 1. rewrite new_table_dir; try done; [|by apply PDE_IDX_range].
    fold (pde_addr (cr3 (kc k)) v). by destruct (Z.eq_dec _ _).
  - intros i Hi Hne. unfold new_table. rewrite word_insert. destruct (Z.eq_dec _ _); [lia|].
    rewrite <- (Z2Nat.id i) by lia. apply (zero_words_in 1024 0). lia.
Qed.

(** ** A concrete kernel for the witnesses *)

(** Checks the directory entries one by one; tables lie below the pool. *)
Definition dir_check (k : kernel) : bool :=
  forallb (fun i =>
    let e := word (ram (kmem k)) (cr3 (kc k) + i * 4) in
    negb (present e) ||
    ((frame e <? phy_addr_start (kernel_pool (kmem k))) &&
     ((i =? 1023) || negb (frame e =? cr3 (kc k))))) (seqZ 0 1024).

Lemma dir_check_below k q : dir_check k = true -> table_frame k q ->
  q < phy_addr_start (kernel_pool (kmem k)).
Proof.
  intros Hd (w & Hw & Hp & <-). unfold dir_check in Hd. rewrite forallb_forall in Hd.
  pose proof (PDE_IDX_range w Hw). specialize (Hd (PDE_IDX w)).
  rewrite <- list_elem_of_In, elem_of_seqZ in Hd. specialize (Hd ltac:(lia)). cbv zeta in Hd.
  fold (pde_addr (cr3 (kc k)) w) in Hd. rewrite Hp in Hd. cbn [negb orb] in Hd. bool_prop. done.
Qed.

(** The entries from 1 on that are present point to different tables. *)
Definition frames_check (k : kernel) : bool :=
  let e i := word (ram (kmem k)) (cr3 (kc k) + i * 4) in
  let live := List.filter (fun i => present (e i)) (seqZ 1 1023) in
  forallb (fun i => forallb (fun j => (i =? j) || negb (frame (e i) =? frame (e j))) live) live.

Lemma frames_check_ok k w1 w2 : frames_check k = true -> is_word w1 -> is_word w2 ->
  PDE_IDX w1 <> 0 -> PDE_IDX w2 <> 0 -> PDE_IDX w1 <> PDE_IDX w2 ->
  present (word (ram (kmem k)) (pde_addr (cr3 (kc k)) w1)) = true ->
  present (word (ram (kmem k)) (pde_addr (cr3 (kc k)) w2)) = true ->
  frame (word (ram (kmem k)) (pde_addr (cr3 (kc k)) w1)) <>
  frame (word (ram (kmem k)) (pde_addr (cr3 (kc k)) w2)).
Proof.
  intros Hc H1 H2 N1 N2 Hne P1 P2. unfold frames_check in Hc. cbv zeta in Hc.
  assert (Hin : forall w, is_word w -> PDE_IDX w <> 0 ->
    present (word (ram (kmem k)) (pde_addr (cr3 (kc k)) w)) = true ->
    In (PDE_IDX w) (List.filter (fun i => present (word (ram (kmem k)) (cr3 (kc k) + i * 4))) (seqZ 1 1023))).
  { intros w Hw Hw0 Hp. apply filter_In. split; [|exact Hp].
    pose proof (PDE_IDX_range w Hw). apply list_elem_of_In, elem_of_seqZ. lia. }
  rewrite forallb_forall in Hc. specialize (Hc _ (Hin w1 H1 N1 P1)).
  rewrite forallb_forall in Hc. specialize (Hc _ (Hin w2 H2 N2 P2)). cbv beta in Hc.
  rewrite (proj2 (Z.eqb_neq _ _) Hne) in Hc. cbn [orb] in Hc.
  apply negb_true_iff, Z.eqb_neq in Hc. exact Hc.
Qed.

Lemma below_not_free p q : q < phy_addr_start p -> ~ page_free p q.
Proof. intros Hq (i & Hi & -> & _). unfold page_at, in_bits in *. lia. Qed.

Lemma dir_check_ok k : words_ok (ram (kmem k)) -> self_mapped (ram (kmem k)) (cr3 (kc k)) ->
  pool_wf (kernel_pool (kmem k)) -> cr3 (kc k) < phy_addr_start (kernel_pool (kmem k)) ->
  dir_check k = true -> frames_check k = true -> paging_ok k.
Proof.
  intros Hw Hs Hp Hc Hd Hfr.
  assert (Hall : forall w, is_word w ->
    present (word (ram (kmem k)) (pde_addr (cr3 (kc k)) w)) = true ->
    frame (word (ram (kmem k)) (pde_addr (cr3 (kc k)) w)) < phy_addr_start (kernel_pool (kmem k)) /\
    (PDE_IDX w <> 1023 -> frame (word (ram (kmem k)) (pde_addr (cr3 (kc k)) w)) <> cr3 (kc k))).
  { intros w Hwd Hpr. unfold dir_check in Hd. rewrite forallb_forall in Hd.
    pose proof (PDE_IDX_range w Hwd). specialize (Hd (PDE_IDX w)).
    rewrite <- list_elem_of_In, elem_of_seqZ in Hd. specialize (Hd ltac:(lia)). cbv zeta in Hd.
    fold (pde_addr (cr3 (kc k)) w) in Hd. rewrite Hpr in Hd. cbn [negb orb] in Hd. bool_prop.
    split; [done|]. intros Hne. rewrite (proj2 (Z.eqb_neq _ _) Hne) in *. cbn [orb] in *. bool_prop. done. }
  split; try done.
  - intros w Hwd Hne Hpr. by apply Hall.
  - by apply below_not_free.
  - intros w Hwd Hpr. apply below_not_free. by apply Hall.
  - intros w1 w2. by apply frames_check_ok.
Qed.

(** The directory of the loader at 0x100000 with its first table, and pools of
    128 pages above 2 MB. *)
Definition demo_pool (start : Z) : pool := mk_pool (mk_bitmap 16 (replicate 16 0)) start 524288.
Definition demo_ram : gmap Z Z :=
  list_to_map [(0x100000, 0x101007); (0x100c00, 0x101007); (0x100ffc, 0x100007)].
Definition demo_vaddr : virtual_addr := mk_vaddr (mk_bitmap 16 (replicate 16 0)) 0xc0100000.
Definition demo_memory : memory :=
  mk_memory demo_ram (demo_pool 0x200000) (demo_pool 0x280000) demo_vaddr.
Definition demo_kernel : kernel :=
  mk_kernel (mk_mach 0 ∅ ∅) (mk_cpu 0 0x100000 0) demo_memory
    (mk_threads ∅ 0 0 0 0 (mk_bitmap 16 (replicate 16 0)) 1) (mk_sync ∅ ∅).

Lemma demo_bitmap_wf n b : (n < 1000)%nat -> is_byte b ->
  bitmap_wf (mk_bitmap (Z.of_nat n) (replicate n b)).
Proof.
  intros Hn Hb. split; cbn [len bits]; unfold zlen; rewrite ?length_replicate; [lia|lia|].
  by apply Forall_replicate.
Qed.

Lemma demo_pool_wf start : 0 < start < 0x10000000 -> start mod 4096 = 0 -> pool_wf (demo_pool start).
Proof.
  intros Hs Ha. split; cbn [pool_bitmap demo_pool phy_addr_start]; try done; try lia.
  - apply (demo_bitmap_wf 16 0); [lia|]. unfold is_byte. lia.
  - change (zlen (bits (mk_bitmap 16 (replicate 16 0)))) with 16. lia.
Qed.

Lemma demo_words : words_ok demo_ram.
Proof.
  intros a x E. apply elem_of_list_to_map_2 in E. unfold is_word.
  repeat (apply elem_of_cons in E as [E|E]; [injection E as -> ->; lia|]).
  by apply not_elem_of_nil in E.
Qed.

Lemma demo_paging : paging_ok demo_kernel.
Proof.
  apply dir_check_ok.
  - exact demo_words.
  - split; [unfold is_word; cbn; lia|]. by vm_compute.
  - by apply demo_pool_wf.
  - done.
  - vm_compute. reflexivity.
  - vm_compute. reflexivity.
Qed.

Lemma page_table_add_maps_witness :
  exists k', page_table_add 0x08048123 0x300000 demo_kernel = Ok (tt, k') /\
    translate (ram (kmem k')) 0x100000 0x08048123 = Some 0x300123.
Proof.
  destruct (page_table_add_maps demo_kernel 0x08048123 0x300000) as (k' & E & _ & (_ & Hm & _) & _).
  - exact demo_paging.
  - unfold is_word. lia.
  - vm_compute. discriminate.
  - unfold is_word. lia.
  - reflexivity.
  - vm_compute. reflexivity.
  - intros He. specialize (He 0 ltac:(cbn; lia)). discriminate He.
  - exists k'. split; [exact E|exact Hm].
Defined.

(** The same kernel with the page 0x5000 at 0xc0005000. *)
Definition mapped_kernel : kernel := set_ram (<[0x101014 := 0x5007]> demo_ram) demo_kernel.

Lemma mapped_paging : paging_ok mapped_kernel.
Proof.
  apply dir_check_ok.
  - apply words_insert; [exact demo_words|unfold is_word; lia].
  - split; [unfold is_word; cbn; lia|]. by vm_compute.
  - by apply demo_pool_wf.
  - done.
  - vm_compute. reflexivity.
  - vm_compute. reflexivity.
Qed.

(** A mapped address of the kernel, and the same address with its page
    removed. *)
Lemma addr_vir2phy_is_walk_witness :
  (exists k', page_table_pte_remove 0xc0005000 mapped_kernel = Ok (tt, k') /\
     translate (ram (kmem k')) 0x100000 0xc0005000 = None /\ addr_vir2phy 0xc0005000 k' = Ok (0x5000, k')) /\
  addr_vir2phy 0x08048123 demo_kernel = Err Fault.
Proof.
  split; [|exact (proj1 (addr_vir2phy_is_walk demo_kernel 0x08048123 demo_paging ltac:(unfold is_word; lia)))].
  eexists. split; [vm_compute; reflexivity|].
  apply (proj2 (addr_vir2phy_is_walk mapped_kernel 0xc0005000 mapped_paging ltac:(unfold is_word; lia))).
  - vm_compute. reflexivity.
  - vm_compute. discriminate.
  - vm_compute. reflexivity.
Defined.

Lemma palloc_pfree_restores_witness :
  exists q k1 k2, palloc PF_USER demo_kernel = Ok (q, k1) /\ pfree q k1 = Ok (tt, k2).
Proof.
  destruct (palloc_pfree_restores demo_kernel PF_USER) as [[He _]|(q & k1 & k2 & E & _ & _ & _ & _ & F & _)].
  - split; [by apply demo_pool_wf | by apply demo_pool_wf | cbn; unfold zlen; cbn; lia].
  - specialize (He 0 ltac:(cbn; lia)). discriminate He.
  - exists q, k1, k2. split; [exact E|exact F].
Defined.

(** The same kernel with every page of its pool taken. *)
Definition spent_kernel : kernel :=
  set_pool PF_KERNEL (mk_pool (mk_bitmap 16 (replicate 16 255)) 0x200000 524288) demo_kernel.

Lemma page_table_add_out_of_memory_witness :
  exists k', page_table_add 0x08048000 0x300000 spent_kernel = Ok (tt, k') /\
    word (ram (kmem k')) (2 * 4) = 0.
Proof.
  destruct (page_table_add_out_of_memory spent_kernel 0x08048000 0x300000) as (k' & E & _ & Hz).
  - apply dir_check_ok.
    + exact demo_words.
    + split; [unfold is_word; cbn; lia|]. by vm_compute.
    + split; cbn [pool_bitmap spent_kernel set_pool kernel_pool kmem set_kmem phy_addr_start];
        try done.
      apply (demo_bitmap_wf 16 255); [lia|]. unfold is_byte. lia.
    + done.
    + vm_compute. reflexivity.
    + vm_compute. reflexivity.
  - unfold is_word. lia.
  - vm_compute. discriminate.
  - vm_compute. reflexivity.
  - assert (Ha : forallb (bit (mk_bitmap 16 (replicate 16 255))) (seqZ 0 15) = true)
      by (vm_compute; reflexivity).
    intros i Hi. cbn in Hi. apply (proj1 (forallb_forall _ _) Ha).
    apply list_elem_of_In, elem_of_seqZ. lia.
  - discriminate.
  - exists k'. split; [exact E|]. apply Hz; [lia|]. vm_compute. discriminate.
Defined.
