(* ===== verification/Thread.v ===== *)
(** * Thread: the scheduler of thread/thread.c

    [schedule] and the operations built on it, up to the context switch.
    [switch_to] saves the stack pointer of the old thread and loads that of
    the new one, so that [running_thread] is the new thread afterwards; what
    follows the switch in the source is executed when the old thread is
    scheduled again, so an operation that blocks returns the local variable
    its remaining code ([intr_set_status(old_status)]) needs.

    The invariant [sched_ok k Γ rs]: the links of the kernel hold the lists
    [Γ]; the ready list holds exactly the threads [rs], which are exactly the
    threads whose status is TASK_READY; exactly the current thread is
    TASK_RUNNING, and it is in no list; the idle thread is ready, running or
    blocked outside every list; every page directory can be found from every
    other ([dirs_ok]). *)

From S2P Require Import Prelude Interrupt Lists Bitmap Kernel Paging.

Definition switch_to (now next : Z) : M kernel unit :=
  modify (fun k => set_kc (mk_cpu next (cr3 (kc k)) (tss_esp0 (kc k))) k).

Definition is_waiting (s : task_status) : bool :=
  bool_decide (s = TASK_BLOCKED) || bool_decide (s = TASK_WAITING) || bool_decide (s = TASK_HANGING).

Definition thread_unblock (thread : Z) : M kernel unit :=
  p ← get_pcb thread;
  _ ← ASSERTM (is_waiting (status p));
  old_status ← on_mach intr_disable;
  p ← get_pcb thread;
  _ ← (if bool_decide (status p <> TASK_READY) then
         L ← gets (fun k => thread_ready_list (kth k));
         f ← on_mach (node_find L (general_node thread));
         _ ← ASSERTM (negb f);
         _ ← on_mach (list_push L (general_node thread));
         upd_pcb thread (set_status TASK_READY)
       else mret tt);
  _ ← on_mach (intr_set_status old_status);
  mret tt.

Definition schedule : M kernel unit :=
  st ← on_mach intr_get_status;
  _ ← ASSERTM (bool_decide (st = INTR_OFF));
  now ← running_thread;
  L ← gets (fun k => thread_ready_list (kth k));
  p ← get_pcb now;
  _ ← (if bool_decide (status p = TASK_RUNNING) then
         f ← on_mach (node_find L (general_node now));
         _ ← ASSERTM (negb f);
         _ ← on_mach (list_append L (general_node now));
         _ ← upd_pcb now (fun p => set_ticks (priority p) p);
         upd_pcb now (set_status TASK_READY)
       else mret tt);
  e ← on_mach (list_empty L);
  _ ← (if (e : bool) then idle ← gets (fun k => idle_thread (kth k)); thread_unblock idle
       else mret tt);
  e ← on_mach (list_empty L);
  _ ← ASSERTM (negb e);
  thread_node ← on_mach (list_pop L);
  let next := general_node_entry thread_node in
  _ ← upd_pcb next (set_status TASK_RUNNING);
  _ ← process_activate next;
  switch_to now next.

Definition thread_yield : M kernel intr_status :=
  now ← running_thread;
  old_status ← on_mach intr_disable;
  L ← gets (fun k => thread_ready_list (kth k));
  f ← on_mach (node_find L (general_node now));
  _ ← ASSERTM (negb f);
  _ ← on_mach (list_append L (general_node now));
  _ ← upd_pcb now (set_status TASK_READY);
  _ ← schedule;
  mret old_status.

Definition thread_block (status : task_status) : M kernel intr_status :=
  _ ← ASSERTM (is_waiting status);
  old_status ← on_mach intr_disable;
  now_thread ← running_thread;
  _ ← upd_pcb now_thread (set_status status);
  _ ← schedule;
  mret old_status.

(** What a thread does after it has been switched back in. *)
Definition resume (old_status : intr_status) : M kernel unit :=
  _ ← on_mach (intr_set_status old_status); mret tt.

(** ** The invariant *)

Definition st (k : kernel) (t : Z) : option task_status := status <$> pcbs (kth k) !! t.

(** The physical address [addr_vir2phy] computes, in the directory [c]. *)
Definition vir2phy (r : gmap Z Z) (c v : Z) : option Z :=
  match translate r c (pte_ptr v) with
  | Some a => Some (u32 (Z.land (word r a) 0xFFFFF000 + Z.land v 0xFFF))
  | None => None
  end.

Definition dir_in_use (k : kernel) (D : Z -> Z) (c : Z) : Prop :=
  c = 0x100000 \/ exists t, is_Some (pcbs (kth k) !! t) /\ c = D t.

(** [D t] is the physical page directory of thread [t]; it can be computed
    whichever directory is loaded. *)
Record dirs_ok (k : kernel) (D : Z -> Z) : Prop := {
  do_kernel : forall t p, pcbs (kth k) !! t = Some p -> pg_dir p = NULL -> D t = 0x100000;
  do_user : forall c t p, dir_in_use k D c -> pcbs (kth k) !! t = Some p -> pg_dir p <> NULL ->
    vir2phy (ram (kmem k)) c (pg_dir p) = Some (D t);
  do_cr3 : dir_in_use k D (cr3 (kc k)) }.

(** The state in which [schedule] is called: the current thread may have given
    up the processor already. *)
Record sched_pre (k : kernel) (D : Z -> Z) (Γ : gmap Z (list Z)) (rs : list Z) : Prop := {
  sp_lists : lists_ok (km k) Γ;
  sp_ready : Γ !! thread_ready_list (kth k) = Some (map general_node rs);
  sp_rs : forall t, t ∈ rs <-> st k t = Some TASK_READY;
  sp_cur : is_Some (pcbs (kth k) !! cur (kc k));
  sp_run : forall t, st k t = Some TASK_RUNNING -> t = cur (kc k) /\ fresh Γ (general_node t);
  sp_idle : exists s, st k (idle_thread (kth k)) = Some s /\
    (s = TASK_READY \/ s = TASK_RUNNING \/
     s = TASK_BLOCKED /\ fresh Γ (general_node (idle_thread (kth k))));
  sp_null : forall t, is_Some (pcbs (kth k) !! t) -> t <> NULL;
  sp_dirs : dirs_ok k D }.

Definition sched_ok (k : kernel) (D : Z -> Z) (Γ : gmap Z (list Z)) (rs : list Z) : Prop :=
  sched_pre k D Γ rs /\ st k (cur (kc k)) = Some TASK_RUNNING.

(** ** Lemmas *)

Lemma lists_ok_links s s' Γ : lists_ok s Γ -> prevs s' = prevs s -> nexts s' = nexts s ->
  lists_ok s' Γ.
Proof.
  intros [H1 H2 H3 H4] Hp Hn. split; try done. intros L xs HL.
  apply (dseg_frame s); [by apply H1| |]; intros; by rewrite ?Hp, ?Hn.
Qed.

Lemma fresh_insert Γ L xs a : fresh Γ a -> a ∉ foot L xs -> fresh (<[L := xs]> Γ) a.
Proof.
  intros [Hn Hf] Ha. split; [done|]. intros L' ys [[-> ->]|[_ H]]%lookup_insert_Some; [done | by eapply Hf].
Qed.

Lemma fresh_foot Γ L xs a : fresh Γ a -> Γ !! L = Some xs -> a ∉ foot L xs.
Proof. intros [_ Hf]. apply Hf. Qed.

(** A fresh node stays fresh when another node enters a list. *)
Lemma fresh_add Γ L xs ys a b : fresh Γ a -> Γ !! L = Some xs -> a <> b ->
  (forall x, x ∈ ys -> x = b \/ x ∈ xs) -> fresh (<[L := ys]> Γ) a.
Proof.
  intros Ha HL Hne Hys. pose proof (fresh_foot _ _ _ _ Ha HL) as Hf.
  apply fresh_insert; [done|]. unfold foot in *. set_solver.
Qed.

Lemma gnodes_elem t rs : general_node t ∈ map general_node rs <-> t ∈ rs.
Proof.
  rewrite list_elem_of_fmap. split.
  - intros (x & E & Hx). apply general_node_inj in E. by subst.
  - intros Ht. by exists t.
Qed.

Lemma st_insert k t p t' : st (set_pcbs (<[t := p]> (pcbs (kth k))) k) t' =
  if Z.eq_dec t t' then Some (status p) else st k t'.
Proof.
  unfold st. cbn. destruct (Z.eq_dec t t') as [->|];
    [by rewrite lookup_insert_eq | by rewrite lookup_insert_ne].
Qed.

Lemma addr_vir2phy_eq v k : addr_vir2phy v k =
  match vir2phy (ram (kmem k)) (cr3 (kc k)) v with Some a => Ok (a, k) | None => Err Fault end.
Proof.
  unfold addr_vir2phy, vir2phy, vload, mbind, M_bind. by destruct (translate _ _ _).
Qed.

(** Changes of a PCB that keep its page directory keep [dirs_ok]. *)
Lemma dirs_ok_upd k k' D : dirs_ok k D -> ram (kmem k') = ram (kmem k) ->
  (forall t, pg_dir <$> pcbs (kth k') !! t = pg_dir <$> pcbs (kth k) !! t) ->
  dir_in_use k' D (cr3 (kc k')) -> dirs_ok k' D.
Proof.
  intros [H1 H2 H3] Hr Hp Hc.
  assert (Hback : forall t p, pcbs (kth k') !! t = Some p ->
    exists p0, pcbs (kth k) !! t = Some p0 /\ pg_dir p0 = pg_dir p).
  { intros t p E. specialize (Hp t). rewrite E in Hp. cbn in Hp. symmetry in Hp.
    apply fmap_Some in Hp as (p0 & E0 & Eq). by exists p0. }
  split; [| |done].
  - intros t p E Hz. destruct (Hback t p E) as (p0 & E0 & Eq). apply (H1 t p0); [done|congruence].
  - intros c t p [->|(t' & [q Eq'] & ->)] E Hnz; destruct (Hback t p E) as (p0 & E0 & Eq);
      rewrite Hr, <- Eq; apply H2; try congruence; [by left|].
    right. destruct (Hback t' q Eq') as (q0 & Eq0 & _). by exists t'.
Qed.

Lemma pg_dir_insert (m : gmap Z pcb) t p p' t' : m !! t = Some p -> pg_dir p' = pg_dir p ->
  pg_dir <$> <[t := p']> m !! t' = pg_dir <$> m !! t'.
Proof.
  intros E Hd. destruct (decide (t = t')) as [->|]; [|by rewrite lookup_insert_ne].
  rewrite lookup_insert_eq, E. cbn. by rewrite Hd.
Qed.

Lemma dir_in_use_insert k D t p p' c : pcbs (kth k) !! t = Some p ->
  dir_in_use k D c -> dir_in_use (set_pcbs (<[t := p']> (pcbs (kth k))) k) D c.
Proof.
  intros E [->|(t' & [q Eq] & ->)]; [by left|]. right. exists t'. split; [|done]. cbn.
  destruct (decide (t = t')) as [->|]; [rewrite lookup_insert_eq; eauto|].
  rewrite lookup_insert_ne by done. eauto.
Qed.

Lemma dirs_ok_insert k m D t p p' : dirs_ok k D -> pcbs (kth k) !! t = Some p ->
  pg_dir p' = pg_dir p -> dirs_ok (set_km m (set_pcbs (<[t := p']> (pcbs (kth k))) k)) D.
Proof.
  intros Hd E Hp. apply (dirs_ok_upd k); [done|done|by intros; eapply pg_dir_insert|].
  destruct Hd as [_ _ Hc]. exact (dir_in_use_insert k D t p p' _ E Hc).
Qed.

(** Changes of a PCB that keep its status and its page directory. *)
Lemma sched_pre_pcb k D Γ rs t p p' : sched_pre k D Γ rs -> pcbs (kth k) !! t = Some p ->
  status p' = status p -> pg_dir p' = pg_dir p ->
  sched_pre (set_pcbs (<[t := p']> (pcbs (kth k))) k) D Γ rs.
Proof.
  intros [H1 H2 H3 H4 H5 H6 H7 H8] E Hs Hd.
  assert (Hst : forall x, st (set_pcbs (<[t := p']> (pcbs (kth k))) k) x = st k x).
  { intros x. rewrite st_insert. destruct (Z.eq_dec t x) as [<-|]; [|done]. unfold st. by rewrite E, Hs. }
  assert (Hi : forall x, is_Some (<[t := p']> (pcbs (kth k)) !! x) -> is_Some (pcbs (kth k) !! x)).
  { intros x. rewrite lookup_insert_is_Some. intros [<-|[_ H]]; [by exists p|done]. }
  split; try assumption.
  - intros x. rewrite Hst. apply H3.
  - cbn. rewrite lookup_insert_is_Some. destruct (decide (t = cur (kc k))); [by left|by right].
  - intros x. rewrite Hst. apply H5.
  - destruct H6 as (s & Es & H6). exists s. split; [by rewrite Hst|exact H6].
  - intros x Hx. apply H7. by apply Hi.
  - exact (dirs_ok_insert k (km k) D t p p' H8 E Hd).
Qed.

Lemma sched_ok_pcb k D Γ rs t p p' : sched_ok k D Γ rs -> pcbs (kth k) !! t = Some p ->
  status p' = status p -> pg_dir p' = pg_dir p ->
  sched_ok (set_pcbs (<[t := p']> (pcbs (kth k))) k) D Γ rs.
Proof.
  intros [Hp Hr] E Hs Hd. split; [by apply (sched_pre_pcb k D Γ rs t p)|].
  change (st (set_pcbs (<[t := p']> (pcbs (kth k))) k) (cur (kc k)) = Some TASK_RUNNING).
  rewrite st_insert. destruct (Z.eq_dec t (cur (kc k))) as [Et|]; [|exact Hr].
  unfold st in Hr. rewrite <- Et, E in Hr. by rewrite Hs.
Qed.

(** *** Entering the ready list *)

(** [t], in no list, becomes ready; [ys] is the new ready sequence. *)
Lemma sched_enqueue k m D Γ rs t p p' ys : sched_pre k D Γ rs ->
  pcbs (kth k) !! t = Some p -> fresh Γ (general_node t) ->
  status p' = TASK_READY -> pg_dir p' = pg_dir p ->
  (ys = t :: rs \/ ys = rs ++ [t]) ->
  let Γ' := <[thread_ready_list (kth k) := map general_node ys]> Γ in
  lists_ok m Γ' ->
  sched_pre (set_km m (set_pcbs (<[t := p']> (pcbs (kth k))) k)) D Γ' ys.
Proof.
  intros [Hl Hrd Hrs Hcur Hrun Hidle Hnull Hdirs] Et Hfr Hst Hpg Hys Γ' Hl'.
  set (k' := set_km _ _).
  assert (Hst' : forall t', st k' t' = if Z.eq_dec t t' then Some TASK_READY else st k t')
    by (intros t'; rewrite <- Hst; apply st_insert).
  assert (Hin : forall x, x ∈ ys <-> x = t \/ x ∈ rs) by (intros x; destruct Hys as [-> | ->]; set_solver).
  assert (Hfresh : forall a, fresh Γ (general_node a) -> a <> t -> fresh Γ' (general_node a)).
  { intros a Ha Hne. apply (fresh_add Γ _ (map general_node rs) _ _ (general_node t)); try done.
    - intros E. by apply general_node_inj in E.
    - intros x (y & -> & Hy)%list_elem_of_fmap. apply Hin in Hy as [->|Hy]; [by left|right].
      by apply gnodes_elem. }
  assert (Hpc : pcbs (kth k') = <[t := p']> (pcbs (kth k))) by done.
  assert (Hcr : cur (kc k') = cur (kc k)) by done.
  split; rewrite ?Hpc, ?Hcr.
  - done.
  - unfold Γ'. by rewrite lookup_insert_eq.
  - intros x. rewrite Hin, Hst', Hrs. destruct (Z.eq_dec t x) as [->|]; [tauto|].
    split; [intros [->|]; done | tauto].
  - destruct (decide (t = cur (kc k))) as [->|]; [rewrite lookup_insert_eq; eauto|].
    by rewrite lookup_insert_ne.
  - intros x. rewrite Hst'. destruct (Z.eq_dec t x) as [->|Hne]; [done|]. intros Hx.
    destruct (Hrun x Hx) as [-> Hf]. split; [done|]. by apply Hfresh.
  - destruct Hidle as (s & Es & Hs). change (idle_thread (kth k')) with (idle_thread (kth k)).
    rewrite Hst'. destruct (Z.eq_dec t (idle_thread (kth k))) as [E|Hne].
    + exists TASK_READY. split; [done | by left].
    + exists s. split; [done|]. destruct Hs as [Hs|[Hs|[Hs Hf]]]; [by left|by right; left|].
      right. right. split; [done|]. by apply Hfresh.
  - intros x [q Hq]. apply lookup_insert_Some in Hq as [[<- _]|[_ Hq]]; apply Hnull; eauto.
  - by apply (dirs_ok_insert k _ D t p).
Qed.

(** A change of status of a thread that is not in the ready list and does not
    enter it. *)
Lemma sched_status k D Γ rs t p s : sched_pre k D Γ rs -> pcbs (kth k) !! t = Some p ->
  status p = TASK_RUNNING -> s <> TASK_READY -> s <> TASK_RUNNING ->
  (t = idle_thread (kth k) -> s = TASK_BLOCKED) ->
  sched_pre (set_pcbs (<[t := set_status s p]> (pcbs (kth k))) k) D Γ rs.
Proof.
  intros [Hl Hrd Hrs Hcur Hrun Hidle Hnull Hdirs] Et Hp Hs1 Hs2 Hi.
  assert (Hstt : st k t = Some TASK_RUNNING) by (unfold st; by rewrite Et, <- Hp).
  destruct (Hrun t Hstt) as [Htc Hft].
  split; cbn [set_pcbs set_kth kth thread_ready_list idle_thread pcbs kc km]; try done.
  - intros x. rewrite st_insert, Hrs. destruct (Z.eq_dec t x) as [->|]; [|done]. cbn.
    rewrite Hstt. split; congruence.
  - rewrite <- Htc, lookup_insert_eq. eauto.
  - intros x. rewrite st_insert. destruct (Z.eq_dec t x) as [->|]; [cbn; congruence|]. apply Hrun.
  - rewrite st_insert. destruct (Z.eq_dec t (idle_thread (kth k))) as [E|]; [|done].
    exists s. cbn. split; [done|]. right. right. rewrite <- E. split; [by apply Hi|done].
  - intros x [q Hq]. apply lookup_insert_Some in Hq as [[<- _]|[_ Hq]]; apply Hnull; eauto.
  - exact (dirs_ok_insert k (km k) D t p (set_status s p) Hdirs Et eq_refl).
Qed.

(** *** thread_unblock *)

Lemma set_km_km k m m' : set_km m' (set_km m k) = set_km m' k.
Proof. done. Qed.

Definition mach_if (st : intr_status) (m : mach) : mach :=
  mk_mach (with_if st (eflags m)) (prevs m) (nexts m).

Lemma lists_ok_if s m Γ : lists_ok m Γ -> lists_ok (mach_if s m) Γ.
Proof. intros Hl. by apply (lists_ok_links m). Qed.

Lemma on_disable k : on_mach intr_disable k = Ok (status_of (km k), set_km (mach_if INTR_OFF (km k)) k).
Proof. apply on_mach_ok, intr_disable_ok. Qed.

Lemma on_set_status s k : on_mach (intr_set_status s) k
  = Ok (status_of (km k), set_km (mach_if s (km k)) k).
Proof. apply on_mach_ok, intr_set_status_ok. Qed.

Lemma on_get_status k : on_mach intr_get_status k = Ok (status_of (km k), k).
Proof. unfold on_mach. rewrite intr_get_status_ok. by destruct k. Qed.

Lemma on_node_find k Γ L xs n : lists_ok (km k) Γ -> Γ !! L = Some xs ->
  on_mach (node_find L n) k = Ok (bool_decide (n ∈ xs), k).
Proof. intros Hl HL. unfold on_mach. rewrite (node_find_ok _ _ _ _ _ Hl HL). by destruct k. Qed.

Lemma on_list_empty k Γ L xs : lists_ok (km k) Γ -> Γ !! L = Some xs ->
  on_mach (list_empty L) k = Ok (bool_decide (xs = []), k).
Proof. intros Hl HL. unfold on_mach. rewrite (list_empty_ok _ _ _ _ Hl HL). by destruct k. Qed.

Lemma is_waiting_not s : is_waiting s = true -> s <> TASK_READY /\ s <> TASK_RUNNING.
Proof. by destruct s. Qed.

Lemma thread_unblock_ok k D Γ rs t p : sched_pre k D Γ rs -> pcbs (kth k) !! t = Some p ->
  is_waiting (status p) = true -> fresh Γ (general_node t) ->
  exists m, let k' := set_km m (set_pcbs (<[t := set_status TASK_READY p]> (pcbs (kth k))) k) in
    thread_unblock t k = Ok (tt, k') /\ eflags m = eflags (km k) /\
    sched_pre k' D (<[thread_ready_list (kth k) := map general_node (t :: rs)]> Γ) (t :: rs).
Proof.
  intros Hpre Et Hw Hfr. pose proof (sp_lists _ _ _ _ Hpre) as Hl. pose proof (sp_ready _ _ _ _ Hpre) as HL.
  set (m1 := mach_if INTR_OFF (km k)).
  assert (Hl1 : lists_ok m1 Γ) by (by apply lists_ok_if).
  destruct (list_push_ok m1 Γ _ _ (general_node t) Hl1 HL Hfr) as (m2 & E2 & Hl2 & He2).
  set (m3 := mach_if (status_of (km k)) m2). exists m3. split; [|split].
  - unfold thread_unblock. rewrite (bindM_ok _ _ _ _ _ (get_pcb_ok _ _ _ Et)), bind_assert by done.
    rewrite (bindM_ok _ _ _ _ _ (on_disable k)). fold m1. set (k1 := set_km m1 k).
    rewrite (bindM_ok _ _ _ _ _ (get_pcb_ok k1 _ _ Et)).
    destruct (is_waiting_not _ Hw) as [Hnr _].
    rewrite (bool_decide_eq_true_2 (status p <> TASK_READY)) by done.
    erewrite (bindM_ok _ _ k1).
    2:{ rewrite bind_gets. rewrite (bindM_ok _ _ _ _ _ (on_node_find k1 Γ _ _ (general_node t) Hl1 HL)).
        rewrite bind_assert.
        2:{ rewrite bool_decide_eq_false_2; [done|]. intros Hin. apply (fresh_foot _ _ _ _ Hfr HL).
            unfold foot. set_solver. }
        rewrite (bindM_ok _ _ _ _ _ (on_mach_ok _ k1 _ _ E2)). by apply upd_pcb_ok. }
    by rewrite (bindM_ok _ _ _ _ _ (on_set_status _ _)).
  - unfold m3, mach_if. cbn [eflags]. rewrite He2. unfold m1, mach_if. cbn [eflags].
    by rewrite with_if_with_if, with_if_id.
  - apply (sched_enqueue k m3 D Γ rs t p); try done; [by left|]. by apply lists_ok_if.
Qed.

(** *** schedule *)

Lemma page_dir_activate_ok k D t p : dirs_ok k D -> pcbs (kth k) !! t = Some p ->
  page_dir_activate t k = Ok (tt, set_kc (mk_cpu (cur (kc k)) (D t) (tss_esp0 (kc k))) k).
Proof.
  intros [Hk Hu Hc] Et. unfold page_dir_activate. rewrite (bindM_ok _ _ _ _ _ (get_pcb_ok _ _ _ Et)).
  unfold NULL in *. destruct (Z.eqb_spec (pg_dir p) 0) as [Hz|Hz]; cbn [negb].
  - rewrite bind_mret. by rewrite (Hk t p).
  - erewrite bindM_ok; [|by rewrite addr_vir2phy_eq, (Hu _ t p Hc Et)]. done.
Qed.

Lemma process_activate_ok k D t p : dirs_ok k D -> pcbs (kth k) !! t = Some p ->
  status p = TASK_RUNNING -> t <> NULL ->
  exists esp, process_activate t k = Ok (tt, set_kc (mk_cpu (cur (kc k)) (D t) esp) k).
Proof.
  intros Hd Et Hst Hn. unfold process_activate.
  rewrite bind_assert by (unfold NULL in *; apply negb_true_iff, Z.eqb_neq; done).
  set (k1 := set_kc (mk_cpu (cur (kc k)) (D t) (tss_esp0 (kc k))) k).
  pose proof (page_dir_activate_ok k D t p Hd Et) as E1. fold k1 in E1.
  rewrite (bindM_ok _ _ _ _ _ E1).
  rewrite (bindM_ok _ _ _ _ _ (get_pcb_ok k1 _ _ Et)).
  destruct (negb (pg_dir p =? NULL)).
  - unfold update_tss_esp. rewrite bind_modify.
    set (k2 := set_kc _ k1). rewrite (bindM_ok _ _ _ _ _ (get_pcb_ok k2 _ _ Et)).
    exists (u32 (t + PG_SIZE)). unfold ASSERTM. by rewrite bool_decide_eq_true_2.
  - rewrite bind_mret, (bindM_ok _ _ _ _ _ (get_pcb_ok k1 _ _ Et)).
    exists (tss_esp0 (kc k)). unfold ASSERTM. by rewrite bool_decide_eq_true_2.
Qed.

Lemma sched_nodup k D Γ t ts : sched_pre k D Γ (t :: ts) -> t ∉ ts.
Proof.
  intros [Hl HL _ _ _ _ _ _] Hin. pose proof (lo_nodup _ _ Hl _ _ HL) as Hnd.
  unfold foot in Hnd. apply NoDup_cons in Hnd as [_ Hnd]. apply NoDup_app in Hnd as [Hnd _].
  cbn [map] in Hnd. apply NoDup_cons in Hnd as [Hn _]. apply Hn. by apply gnodes_elem.
Qed.

(** The last part of [schedule]: take the first ready thread and switch. *)
Definition dispatch (now L : Z) : M kernel unit :=
  thread_node ← on_mach (list_pop L);
  let next := general_node_entry thread_node in
  _ ← upd_pcb next (set_status TASK_RUNNING);
  _ ← process_activate next;
  switch_to now next.

Lemma dispatch_ok k D Γ t ts p now : sched_pre k D Γ (t :: ts) ->
  pcbs (kth k) !! t = Some p -> (forall x, st k x <> Some TASK_RUNNING) ->
  let Γ' := <[thread_ready_list (kth k) := map general_node ts]> Γ in
  exists m esp,
    let k' := mk_kernel m (mk_cpu t (D t) esp) (kmem k)
      (kth (set_pcbs (<[t := set_status TASK_RUNNING p]> (pcbs (kth k))) k)) (ksy k) in
    dispatch now (thread_ready_list (kth k)) k = Ok (tt, k') /\ eflags m = eflags (km k) /\
    sched_ok k' D Γ' ts.
Proof.
  intros Hpre Et Hnr Γ'. pose proof (sched_nodup _ _ _ _ _ Hpre) as Htts.
  destruct Hpre as [Hl HL Hrs Hcur Hrun Hidle Hnull Hdirs]. cbn [map] in HL.
  destruct (list_pop_ok _ _ _ _ _ Hl HL) as (m & Em & Hl' & Hfr & He).
  set (p' := set_status TASK_RUNNING p).
  set (k1 := set_km m (set_pcbs (<[t := p']> (pcbs (kth k))) k)).
  assert (Hd1 : dirs_ok k1 D) by (by apply (dirs_ok_insert k m D t p p')).
  assert (Et1 : pcbs (kth k1) !! t = Some p') by (apply lookup_insert_eq).
  assert (Hn : t <> NULL) by (apply Hnull; eauto).
  destruct (process_activate_ok k1 D t p' Hd1 Et1 eq_refl Hn) as (esp & Ea).
  exists m, esp. cbv zeta. set (k' := mk_kernel _ _ _ _ _). split; [|split; [done|]].
  { unfold dispatch. rewrite (bindM_ok _ _ _ _ _ (on_mach_ok _ _ _ _ Em)). cbv zeta.
    rewrite general_node_entry_id. rewrite (bindM_ok _ _ _ _ _ (upd_pcb_ok (set_km m k) t p _ Et)).
    change (set_pcbs _ (set_km m k)) with k1. by rewrite (bindM_ok _ _ _ _ _ Ea). }
  assert (Hst' : forall x, st k' x = if Z.eq_dec t x then Some TASK_RUNNING else st k x)
    by (intros x; exact (st_insert k t p' x)).
  assert (Hkeep : forall a, fresh Γ a -> fresh Γ' a).
  { intros a Ha. apply fresh_insert; [done|]. pose proof (fresh_foot _ _ _ _ Ha HL) as Hf.
    unfold foot in *. set_solver. }
  split; [|rewrite Hst'; cbn [k' kc cur]; by destruct (Z.eq_dec t t)].
  split.
  - done.
  - unfold Γ'. apply lookup_insert_eq.
  - intros x. rewrite Hst'. destruct (Z.eq_dec t x) as [<-|Hne]; [by split|].
    rewrite <- Hrs. set_solver.
  - unfold k'. cbn. rewrite lookup_insert_eq. eauto.
  - intros x. rewrite Hst'. destruct (Z.eq_dec t x) as [<-|Hne]; [|by intros Hx%Hnr].
    intros _. split; [done|]. by apply Hfr.
  - destruct Hidle as (s & Es & Hs). change (idle_thread (kth k')) with (idle_thread (kth k)).
    rewrite Hst'. destruct (Z.eq_dec t (idle_thread (kth k))) as [E|Hne].
    + exists TASK_RUNNING. split; [done|]. by right; left.
    + exists s. split; [done|]. destruct Hs as [Hs|[Hs|[Hs Hf]]]; [by left|by right; left|].
      right. right. split; [done|]. by apply Hkeep.
  - intros x [q Hq]. unfold k' in Hq. cbn in Hq.
    apply lookup_insert_Some in Hq as [[<- _]|[_ Hq]]; [done|]. apply Hnull. eauto.
  - apply (dirs_ok_upd k); [done|done|intros x; by apply (pg_dir_insert _ _ p)|].
    right. exists t. split; [|done]. unfold k'. cbn. rewrite lookup_insert_eq. eauto.
Qed.

(** Putting the running thread at the back of the ready list. *)
Lemma requeue_ok k D Γ rs p f : sched_ok k D Γ rs -> pcbs (kth k) !! cur (kc k) = Some p ->
  pg_dir (f p) = pg_dir p -> status (f p) = TASK_READY ->
  let now := cur (kc k) in
  let k1 m := set_km m (set_pcbs (<[now := f p]> (pcbs (kth k))) k) in
  exists m, (f ← on_mach (node_find (thread_ready_list (kth k)) (general_node now));
             _ ← ASSERTM (negb f);
             on_mach (list_append (thread_ready_list (kth k)) (general_node now))) k
      = Ok (tt, set_km m k) /\
    eflags m = eflags (km k) /\
    sched_pre (k1 m) D
      (<[thread_ready_list (kth k) := map general_node (rs ++ [now])]> Γ) (rs ++ [now]).
Proof.
  intros [Hpre Hrun] Ep Hpg Hst now k1. destruct (sp_run _ _ _ _ Hpre now Hrun) as [_ Hfr].
  pose proof (sp_lists _ _ _ _ Hpre) as Hl. pose proof (sp_ready _ _ _ _ Hpre) as HL.
  destruct (list_append_ok _ _ _ _ _ Hl HL Hfr) as (m & Em & Hl' & He).
  change (map general_node rs ++ [general_node now])
    with (map general_node rs ++ map general_node [now]) in Hl'. rewrite <- map_app in Hl'.
  exists m. split; [|split; [done|]].
  - rewrite (bindM_ok _ _ _ _ _ (on_node_find k Γ _ _ _ Hl HL)). rewrite bind_assert.
    + by apply on_mach_ok.
    + rewrite bool_decide_eq_false_2; [done|]. intros Hin. apply (fresh_foot _ _ _ _ Hfr HL).
      unfold foot. set_solver.
  - apply (sched_enqueue k m D Γ rs now p); try done. by right.
Qed.

(** What a switch leaves alone. *)
Definition sched_frame (k k' : kernel) : Prop :=
  kmem k' = kmem k /\ ksy k' = ksy k /\ kth k' = kth (set_pcbs (pcbs (kth k')) k) /\
  eflags (km k') = eflags (km k).

Definition or_idle (k : kernel) (q : list Z) : list Z :=
  match q with [] => [idle_thread (kth k)] | _ => q end.

(** The part of [schedule] after the current thread has been put away. *)
Definition schedule_next (now L : Z) : M kernel unit :=
  e ← on_mach (list_empty L);
  _ ← (if (e : bool) then idle ← gets (fun k => idle_thread (kth k)); thread_unblock idle
       else mret tt);
  e ← on_mach (list_empty L);
  _ ← ASSERTM (negb e);
  dispatch now L.

(** The only PCB that changes is that of [next], which is running. *)
Definition only_runs (k k' : kernel) (next : Z) : Prop := exists p,
  pcbs (kth k) !! next = Some p /\ pcbs (kth k') = <[next := set_status TASK_RUNNING p]> (pcbs (kth k)).

Lemma runs_others k k' next t : only_runs k k' next -> t <> next -> pcbs (kth k') !! t = pcbs (kth k) !! t.
Proof. intros (p & _ & ->) Hne. by rewrite lookup_insert_ne. Qed.

(** The outcome of a switch to the first thread of [q]. *)
Definition switched (k k' : kernel) (D : Z -> Z) (Γ : gmap Z (list Z)) (next : Z) (rest : list Z)
    : Prop :=
  sched_ok k' D (<[thread_ready_list (kth k) := map general_node rest]> Γ) rest /\
  cur (kc k') = next /\ cr3 (kc k') = D next /\ sched_frame k k' /\ only_runs k k' next.

Lemma ready_pcb k D Γ rs t : sched_pre k D Γ rs -> t ∈ rs -> is_Some (pcbs (kth k) !! t).
Proof.
  intros Hpre Ht. apply (sp_rs _ _ _ _ Hpre) in Ht. unfold st in Ht.
  apply fmap_Some in Ht as (p & E & _). eauto.
Qed.

Lemma dispatch_switched k D Γ t ts now : sched_pre k D Γ (t :: ts) ->
  (forall x, st k x <> Some TASK_RUNNING) ->
  exists k', dispatch now (thread_ready_list (kth k)) k = Ok (tt, k') /\ switched k k' D Γ t ts.
Proof.
  intros Hpre Hnr. destruct (ready_pcb _ _ _ _ t Hpre ltac:(set_solver)) as [p Et].
  destruct (dispatch_ok k D Γ t ts p now Hpre Et Hnr) as (m & esp & E & He & Hok).
  eexists. split; [exact E|]. split; [exact Hok|]. split; [done|]. split; [done|]. split.
  - by repeat split.
  - by exists p.
Qed.

Lemma schedule_next_ok k D Γ rs now : sched_pre k D Γ rs ->
  (forall x, st k x <> Some TASK_RUNNING) ->
  exists k' next rest, schedule_next now (thread_ready_list (kth k)) k = Ok (tt, k') /\
    or_idle k rs = next :: rest /\ switched k k' D Γ next rest.
Proof.
  intros Hpre Hnr. unfold schedule_next.
  rewrite (bindM_ok _ _ _ _ _ (on_list_empty k Γ _ _ (sp_lists _ _ _ _ Hpre) (sp_ready _ _ _ _ Hpre))).
  destruct rs as [|t ts].
  - rewrite (bool_decide_eq_true_2 (map general_node [] = [])) by done.
    destruct (sp_idle _ _ _ _ Hpre) as (s & Es & [->|[->|[-> Hfr]]]).
    { apply (sp_rs _ _ _ _ Hpre) in Es. by apply not_elem_of_nil in Es. }
    { by apply Hnr in Es. }
    set (idle := idle_thread (kth k)) in *. unfold st in Es. apply fmap_Some in Es as (p & Ep & Hp).
    destruct (thread_unblock_ok k D Γ [] idle p Hpre Ep) as (m & Eu & He & Hpre1);
      [by rewrite <- Hp | done |].
    cbv zeta in *. set (k1 := set_km m _) in *.
    erewrite bindM_ok by (rewrite bind_gets; exact Eu).
    rewrite (bindM_ok _ _ _ _ _ (on_list_empty k1 _ _ _ (sp_lists _ _ _ _ Hpre1) (sp_ready _ _ _ _ Hpre1))).
    rewrite bind_assert by done.
    destruct (dispatch_switched k1 D _ idle [] now Hpre1) as (k' & Ed & Hok & Hc & Hd & Hf & Ho).
    { intros x Hx. change (st k1 x) with (st (set_pcbs (<[idle := set_status TASK_READY p]> (pcbs (kth k))) k) x) in Hx.
      rewrite st_insert in Hx. destruct (Z.eq_dec idle x); [done | by apply Hnr in Hx]. }
    exists k', idle, []. split; [exact Ed|]. split; [done|]. split; [|split; [done|split; [done|split]]].
    + by rewrite insert_insert_eq in Hok.
    + destruct Hf as (F1 & F2 & F3 & F4). repeat split; [done|done|by rewrite F3|]. by rewrite F4.
    + destruct Ho as (q & Eq & Ho). exists p. split; [done|]. rewrite Ho. unfold k1 in *. cbn in *.
      rewrite lookup_insert_eq in Eq. injection Eq as <-. by rewrite insert_insert_eq.
  - rewrite bool_decide_eq_false_2 by done. rewrite bind_mret.
    rewrite (bindM_ok _ _ _ _ _ (on_list_empty k Γ _ _ (sp_lists _ _ _ _ Hpre) (sp_ready _ _ _ _ Hpre))).
    rewrite bind_assert by done.
    destruct (dispatch_switched k D Γ t ts now Hpre Hnr) as (k' & E & Hs). by exists k', t, ts.
Qed.

(** [schedule] when the running thread has used up its time slice. *)
Lemma schedule_preempt k D Γ rs : sched_ok k D Γ rs -> status_of (km k) = INTR_OFF ->
  exists k' next rest p, schedule k = Ok (tt, k') /\ pcbs (kth k) !! cur (kc k) = Some p /\
    rs ++ [cur (kc k)] = next :: rest /\
    let k1 := set_pcbs (<[cur (kc k) := set_status TASK_READY (set_ticks (priority p) p)]> (pcbs (kth k))) k in
    switched k1 k' D Γ next rest.
Proof.
  intros Hok Hoff. pose proof Hok as [Hpre Hrun]. unfold st in Hrun.
  apply fmap_Some in Hrun as (p & Ep & Hp).
  destruct (requeue_ok k D Γ rs p (fun p => set_status TASK_READY (set_ticks (priority p) p)) Hok Ep eq_refl eq_refl)
    as (m & Em & He & Hpre1). cbv zeta in *.
  set (k1 := set_km m (set_pcbs _ k)) in *.
  destruct (schedule_next_ok k1 D _ _ (cur (kc k)) Hpre1) as (k' & next & rest & En & Hq & Hsw).
  { intros x Hx. change (st k1 x) with (st (set_pcbs (pcbs (kth k1)) k) x) in Hx.
    unfold k1 in Hx. cbn [set_km set_pcbs set_kth kth pcbs] in Hx. rewrite st_insert in Hx.
    destruct (Z.eq_dec (cur (kc k)) x) as [|Hne]; [done|]. apply (sp_run _ _ _ _ Hpre) in Hx as [-> _]. done. }
  exists k', next, rest, p. split; [|split; [done|split]].
  - unfold schedule. rewrite (bindM_ok _ _ _ _ _ (on_get_status k)), Hoff.
    rewrite bind_assert by done. unfold running_thread. rewrite !bind_gets.
    rewrite (bindM_ok _ _ _ _ _ (get_pcb_ok _ _ _ Ep)), bool_decide_eq_true_2 by done.
    apply bindM_inv in Em as (b & ka & Ea & Em). apply bindM_inv in Em as (u & kb & Eb & Em).
    erewrite (bindM_ok _ _ k).
    2:{ rewrite (bindM_ok _ _ _ _ _ Ea), (bindM_ok _ _ _ _ _ Eb), (bindM_ok _ _ _ _ _ Em).
        rewrite (bindM_ok _ _ _ _ _ (upd_pcb_ok (set_km m k) _ _ _ Ep)).
        apply upd_pcb_ok. apply lookup_insert_eq. }
    cbn [set_km set_pcbs set_kth kth pcbs]. rewrite insert_insert_eq. exact En.
  - unfold or_idle in Hq. by destruct (rs ++ [cur (kc k)]) eqn:E; [by destruct rs|].
  - destruct Hsw as (H1 & H2 & H3 & (F1 & F2 & F3 & F4) & H5). cbv zeta.
    split; [by rewrite insert_insert_eq in H1|]. split; [done|]. split; [done|]. split; [|done].
    repeat split; [done|done|by rewrite F3|]. by rewrite F4.
Qed.

(** [schedule] when the current thread has given up the processor. *)
Lemma schedule_blocked k D Γ rs : sched_pre k D Γ rs -> status_of (km k) = INTR_OFF ->
  st k (cur (kc k)) <> Some TASK_RUNNING ->
  exists k' next rest, schedule k = Ok (tt, k') /\ or_idle k rs = next :: rest /\
    switched k k' D Γ next rest.
Proof.
  intros Hpre Hoff Hnr. destruct (sp_cur _ _ _ _ Hpre) as [p Ep].
  destruct (schedule_next_ok k D Γ rs (cur (kc k)) Hpre) as (k' & next & rest & En & H).
  { intros x Hx. destruct (sp_run _ _ _ _ Hpre x Hx) as [-> _]. done. }
  exists k', next, rest. split; [|done].
  unfold schedule. rewrite (bindM_ok _ _ _ _ _ (on_get_status k)), Hoff.
  rewrite bind_assert by done. unfold running_thread. rewrite !bind_gets.
  rewrite (bindM_ok _ _ _ _ _ (get_pcb_ok _ _ _ Ep)), bool_decide_eq_false_2.
  2:{ intros E. apply Hnr. unfold st. by rewrite Ep, <- E. }
  rewrite bind_mret. exact En.
Qed.

Lemma sched_pre_mach k m D Γ rs : sched_pre k D Γ rs -> lists_ok m Γ ->
  sched_pre (set_km m k) D Γ rs.
Proof. intros [H1 H2 H3 H4 H5 H6 H7 [D1 D2 D3]] Hl. by split. Qed.

Lemma sched_ok_if k s D Γ rs : sched_ok k D Γ rs -> sched_ok (set_km (mach_if s (km k)) k) D Γ rs.
Proof.
  intros [Hpre Hr]. split; [|done]. apply sched_pre_mach; [done|]. apply lists_ok_if, Hpre.
Qed.

(** Blocking, from a state in which the thread may already be on a waiting
    list. *)
Lemma thread_block_gen k D Γ rs s p : is_waiting s = true ->
  pcbs (kth k) !! cur (kc k) = Some p ->
  let k1 := set_km (mach_if INTR_OFF (km k))
              (set_pcbs (<[cur (kc k) := set_status s p]> (pcbs (kth k))) k) in
  sched_pre k1 D Γ rs ->
  exists k' next rest, thread_block s k = Ok (status_of (km k), k') /\
    or_idle k rs = next :: rest /\ switched k1 k' D Γ next rest.
Proof.
  intros Hw Ep k1 Hpre1. destruct (is_waiting_not _ Hw) as [Hn1 Hn2].
  destruct (schedule_blocked k1 D Γ rs Hpre1) as (k' & next & rest & Es & Hq & Hsw).
  { apply status_with_if. }
  { change (st (set_pcbs (<[cur (kc k) := set_status s p]> (pcbs (kth k))) k) (cur (kc k)) <> Some TASK_RUNNING).
    rewrite st_insert. destruct (Z.eq_dec _ _); [cbn; congruence | done]. }
  exists k', next, rest. split; [|split; [exact Hq|exact Hsw]].
  unfold thread_block. rewrite bind_assert by done.
  rewrite (bindM_ok _ _ _ _ _ (on_disable k)). unfold running_thread. rewrite bind_gets.
  set (k0 := set_km _ k). rewrite (bindM_ok _ _ _ _ _ (upd_pcb_ok k0 (cur (kc k0)) p _ Ep)).
  change (set_pcbs _ k0) with k1. by rewrite (bindM_ok _ _ _ _ _ Es).
Qed.

(** The thread is put away with status [s], in no list. *)
Lemma thread_block_ok k D Γ rs s p : sched_ok k D Γ rs -> is_waiting s = true ->
  (cur (kc k) = idle_thread (kth k) -> s = TASK_BLOCKED) ->
  pcbs (kth k) !! cur (kc k) = Some p ->
  let k1 := set_km (mach_if INTR_OFF (km k))
              (set_pcbs (<[cur (kc k) := set_status s p]> (pcbs (kth k))) k) in
  exists k' next rest, thread_block s k = Ok (status_of (km k), k') /\
    or_idle k rs = next :: rest /\ switched k1 k' D Γ next rest /\ fresh Γ (general_node (cur (kc k))).
Proof.
  intros [Hpre Hr] Hw Hidle Ep k1. unfold st in Hr. rewrite Ep in Hr. cbn in Hr. injection Hr as Hp.
  destruct (is_waiting_not _ Hw) as [Hn1 Hn2].
  pose proof (sched_status k D Γ rs _ p s Hpre Ep Hp Hn1 Hn2 Hidle) as Hpre1.
  destruct (thread_block_gen k D Γ rs s p Hw Ep) as (k' & next & rest & E & Hq & Hsw).
  { apply sched_pre_mach; [exact Hpre1|]. apply lists_ok_if, Hpre. }
  exists k', next, rest. split; [exact E|split; [exact Hq|split; [exact Hsw|]]].
  assert (Hst : st k (cur (kc k)) = Some TASK_RUNNING) by (unfold st; by rewrite Ep, <- Hp).
  by apply (sp_run _ _ _ _ Hpre) in Hst as [_ Hf].
Qed.

Lemma thread_yield_ok k D Γ rs p : sched_ok k D Γ rs ->
  pcbs (kth k) !! cur (kc k) = Some p ->
  let k1 := set_km (mach_if INTR_OFF (km k))
              (set_pcbs (<[cur (kc k) := set_status TASK_READY p]> (pcbs (kth k))) k) in
  exists k' next rest, thread_yield k = Ok (status_of (km k), k') /\
    rs ++ [cur (kc k)] = next :: rest /\ switched k1 k' D Γ next rest.
Proof.
  intros Hok Ep k1. set (k0 := set_km (mach_if INTR_OFF (km k)) k).
  pose proof (sched_ok_if k INTR_OFF D Γ rs Hok) as Hok0. fold k0 in Hok0.
  destruct (requeue_ok k0 D Γ rs p (set_status TASK_READY) Hok0 Ep eq_refl eq_refl)
    as (m & Em & He & Hpre1). cbv zeta in Em, Hpre1. set (k2 := set_km m (set_pcbs _ k0)) in *.
  assert (Hnr : st k2 (cur (kc k2)) <> Some TASK_RUNNING).
  { change (st (set_pcbs (<[cur (kc k) := set_status TASK_READY p]> (pcbs (kth k))) k) (cur (kc k)) <> Some TASK_RUNNING).
    rewrite st_insert. by destruct (Z.eq_dec _ _). }
  destruct (schedule_blocked k2 D _ _ Hpre1) as (k' & next & rest & Es & Hq & H1 & H2 & H3 & F & H5).
  { unfold k2, status_of. cbn [set_km km]. rewrite He. exact (status_with_if INTR_OFF (eflags (km k)) ∅ ∅). }
  { exact Hnr. }
  exists k', next, rest. split; [|split].
  - unfold thread_yield, running_thread. rewrite bind_gets, (bindM_ok _ _ _ _ _ (on_disable k)).
    fold k0. rewrite bind_gets.
    apply bindM_inv in Em as (b & ka & Ea & Em). apply bindM_inv in Em as (u & kb & Eb & Em).
    rewrite (bindM_ok _ _ _ _ _ Ea), (bindM_ok _ _ _ _ _ Eb), (bindM_ok _ _ _ _ _ Em).
    rewrite (bindM_ok _ _ _ _ _ (upd_pcb_ok (set_km m k0) _ _ _ Ep)).
    change (set_pcbs _ (set_km m k0)) with k2. by rewrite (bindM_ok _ _ _ _ _ Es).
  - unfold or_idle in Hq. change (cur (kc k0)) with (cur (kc k)) in Hq.
    by destruct (rs ++ [cur (kc k)]) eqn:E; [by destruct rs|].
  - split; [by rewrite insert_insert_eq in H1|]. split; [done|]. split; [done|]. split; [|done].
    destruct F as (F1 & F2 & F3 & F4). repeat split; [done|done|by rewrite F3|].
    rewrite F4. exact He.
Qed.

(** ** Properties *)

(** C24. Preemption is round robin and never panics: called with interrupts off
    in any consistent state, [schedule] appends the running thread to the
    ready queue with a fresh time slice, takes the first thread of the queue,
    marks it running, loads its page directory and switches to it; the
    invariant holds again and no other thread changes. *)
Theorem schedule_round_robin (k : kernel) (D : Z -> Z) (Γ : gmap Z (list Z)) (rs : list Z) :
  sched_ok k D Γ rs -> status_of (km k) = INTR_OFF ->
  exists k' next rest, schedule k = Ok (tt, k') /\ rs ++ [cur (kc k)] = next :: rest /\
    sched_ok k' D (<[thread_ready_list (kth k) := map general_node rest]> Γ) rest /\
    cur (kc k') = next /\ cr3 (kc k') = D next /\
    (next <> cur (kc k) -> exists p, pcbs (kth k') !! cur (kc k) = Some p /\
       status p = TASK_READY /\ ticks p = priority p) /\
    (forall t, t <> next -> t <> cur (kc k) -> pcbs (kth k') !! t = pcbs (kth k) !! t) /\
    kmem k' = kmem k /\ ksy k' = ksy k /\ eflags (km k') = eflags (km k).
Proof.
  intros Hok Hoff.
  destruct (schedule_preempt k D Γ rs Hok Hoff) as (k' & next & rest & p & E & Ep & Hq & H1 & H2 & H3 & F & H5).
  exists k', next, rest. do 5 (split; [done|]). destruct F as (F1 & F2 & _ & F4).
  split; [|split; [|done]].
  - intros Hne. eexists. split; [rewrite (runs_others _ _ _ _ H5) by done; apply lookup_insert_eq|]. done.
  - intros t Hn Hc. rewrite (runs_others _ _ _ _ H5) by done. cbn. by rewrite lookup_insert_ne.
Qed.

(** [thread_block] puts the running thread to sleep with the requested
    status, in no queue, and runs the first ready thread, or the idle thread
    when there is none; it never panics (the idle thread may only block as
    TASK_BLOCKED). *)
Theorem thread_block_sleeps (k : kernel) (D : Z -> Z) (Γ : gmap Z (list Z)) (rs : list Z)
    (s : task_status) :
  sched_ok k D Γ rs -> is_waiting s = true ->
  (cur (kc k) = idle_thread (kth k) -> s = TASK_BLOCKED) ->
  exists k' next rest, thread_block s k = Ok (status_of (km k), k') /\
    or_idle k rs = next :: rest /\
    sched_ok k' D (<[thread_ready_list (kth k) := map general_node rest]> Γ) rest /\
    cur (kc k') = next /\
    (next <> cur (kc k) -> st k' (cur (kc k)) = Some s /\
       fresh (<[thread_ready_list (kth k) := map general_node rest]> Γ) (general_node (cur (kc k)))) /\
    (forall t, t <> next -> t <> cur (kc k) -> pcbs (kth k') !! t = pcbs (kth k) !! t).
Proof.
  intros Hok Hw Hi. pose proof Hok as [Hpre Hr]. unfold st in Hr. apply fmap_Some in Hr as (p & Ep & Hp).
  destruct (thread_block_ok k D Γ rs s p Hok Hw Hi Ep) as (k' & next & rest & E & Hq & (H1 & H2 & H3 & F & H5) & Hfr).
  exists k', next, rest. do 4 (split; [done|]). split.
  - intros Hne. split; [unfold st; rewrite (runs_others _ _ _ _ H5) by done; cbn; by rewrite lookup_insert_eq|].
    apply (fresh_add Γ _ (map general_node rs) _ _ (general_node next)); [done|apply Hpre| |].
    + intros Eg. by apply general_node_inj in Eg.
    + intros x (y & -> & Hy)%list_elem_of_fmap. right. apply gnodes_elem.
      unfold or_idle in Hq. destruct rs as [|r rs]; [|set_solver].
      injection Hq as _ Hq'. rewrite <- Hq' in Hy. by apply not_elem_of_nil in Hy.
  - intros t Hn Hc. rewrite (runs_others _ _ _ _ H5) by done. cbn. by rewrite lookup_insert_ne.
Qed.

(** [thread_unblock] of a sleeping thread that is in no queue makes it the
    first of the ready queue, keeps the invariant and restores the interrupt
    flag; of a thread that is not asleep it panics. *)
Theorem thread_unblock_makes_ready (k : kernel) (D : Z -> Z) (Γ : gmap Z (list Z)) (rs : list Z)
    (t : Z) (p : pcb) :
  sched_pre k D Γ rs -> pcbs (kth k) !! t = Some p ->
  (is_waiting (status p) = false -> thread_unblock t k = Err Panic) /\
  (is_waiting (status p) = true -> fresh Γ (general_node t) ->
    exists k', thread_unblock t k = Ok (tt, k') /\
      sched_pre k' D (<[thread_ready_list (kth k) := map general_node (t :: rs)]> Γ) (t :: rs) /\
      st k' t = Some TASK_READY /\ eflags (km k') = eflags (km k)).
Proof.
  intros Hpre Ep. split.
  - intros Hw. unfold thread_unblock. rewrite (bindM_ok _ _ _ _ _ (get_pcb_ok _ _ _ Ep)).
    by apply bind_assert_panic.
  - intros Hw Hfr. destruct (thread_unblock_ok k D Γ rs t p Hpre Ep Hw Hfr) as (m & E & He & Hpre').
    eexists. split; [exact E|]. split; [exact Hpre'|]. split; [|exact He].
    unfold st. cbn. by rewrite lookup_insert_eq.
Qed.

(** ** An executable check of the invariant, for concrete kernels *)

Definition freshb (G : list (Z * list Z)) (n : Z) : bool :=
  negb (n =? NULL) && forallb (fun '(L, xs) => bool_decide (n ∉ foot L xs)) G.

Definition thread_check (k : kernel) (G : list (Z * list Z)) (rs : list Z) (t : Z) (p : pcb) : bool :=
  match status p with
  | TASK_READY => bool_decide (t ∈ rs)
  | TASK_RUNNING => (t =? cur (kc k)) && freshb G (general_node t)
  | _ => true
  end && negb (t =? NULL) && (pg_dir p =? NULL).

Definition idle_check (k : kernel) (G : list (Z * list Z)) : bool :=
  match st k (idle_thread (kth k)) with
  | Some TASK_READY | Some TASK_RUNNING => true
  | Some TASK_BLOCKED => freshb G (general_node (idle_thread (kth k)))
  | _ => false
  end.

Definition sched_check (k : kernel) (G : list (Z * list Z)) (rs : list Z) : bool :=
  lists_okb (km k) G
  && bool_decide ((list_to_map G : gmap Z (list Z)) !! thread_ready_list (kth k)
       = Some (map general_node rs))
  && forallb (fun '(t, p) => thread_check k G rs t p) (map_to_list (pcbs (kth k)))
  && forallb (fun t => bool_decide (st k t = Some TASK_READY)) rs
  && bool_decide (st k (cur (kc k)) = Some TASK_RUNNING)
  && idle_check k G && (cr3 (kc k) =? 0x100000).

Lemma freshb_sound G n : freshb G n = true -> fresh (list_to_map G) n.
Proof.
  unfold freshb. intros H. bool_prop. split; [done|]. intros L xs HL%elem_of_list_to_map_2.
  rewrite forallb_forall in H0. specialize (H0 (L, xs)). rewrite <- list_elem_of_In in H0.
  specialize (H0 HL). by apply bool_decide_eq_true in H0.
Qed.

Lemma sched_check_sound k G rs : sched_check k G rs = true ->
  sched_ok k (fun _ => 0x100000) (list_to_map G) rs.
Proof.
  unfold sched_check. intros H. bool_prop.
  rewrite forallb_forall in H3, H4.
  assert (Ht : forall t p, pcbs (kth k) !! t = Some p -> thread_check k G rs t p = true).
  { intros t p E. apply (H4 (t, p)). by apply list_elem_of_In, elem_of_map_to_list. }
  assert (Hd : forall t p, pcbs (kth k) !! t = Some p -> pg_dir p = NULL).
  { intros t p E%Ht. unfold thread_check in E. bool_prop. done. }
  apply bool_decide_eq_true in H2, H5.
  split; [|done]. split.
  - by apply lists_okb_sound.
  - done.
  - intros t. split.
    + intros Hin. apply list_elem_of_In, H3, bool_decide_eq_true in Hin. done.
    + unfold st. intros (p & E & Hs)%fmap_Some. apply Ht in E. unfold thread_check in E.
      rewrite <- Hs in E. bool_prop. by apply bool_decide_eq_true in H6.
  - unfold st in H2. apply fmap_Some in H2 as (p & E & _). eauto.
  - intros t. unfold st. intros (p & E & Hs)%fmap_Some. apply Ht in E. unfold thread_check in E.
    rewrite <- Hs in E. bool_prop. split; [done|]. by apply freshb_sound.
  - unfold idle_check in H1. destruct (st k (idle_thread (kth k))) as [s|] eqn:Es; [|done].
    exists s. split; [done|]. destruct s; try done; [by right; left|by left|].
    right. right. split; [done|]. by apply freshb_sound.
  - intros t [p E]. apply Ht in E. unfold thread_check in E. bool_prop. done.
  - split; [done| |by left]. intros c t p _ E Hn. by apply Hd in E.
Qed.

(** Three kernel threads: 0x1000 running, 0x2000 ready, 0x3000 (idle) asleep. *)
Definition demo_pcb (s : task_status) : pcb :=
  mk_pcb 0 1 s [] 31 3 0 NULL demo_vaddr NULL (-1) 0 0x12345678.
Definition demo_sched : kernel :=
  mk_kernel (mk_mach 0 (list_to_map [(16, 0); (0x2024, 16); (24, 0x2024)])
                       (list_to_map [(16, 0x2024); (0x2024, 24); (24, 0)]))
    (mk_cpu 0x1000 0x100000 0) demo_memory
    (mk_threads (list_to_map [(0x1000, demo_pcb TASK_RUNNING); (0x2000, demo_pcb TASK_READY);
                              (0x3000, demo_pcb TASK_BLOCKED)])
       16 64 0x1000 0x3000 (mk_bitmap 16 (replicate 16 0)) 1) (mk_sync ∅ ∅).

Lemma demo_sched_ok : sched_ok demo_sched (fun _ => 0x100000) (list_to_map [(16, [0x2024])]) [0x2000].
Proof. apply sched_check_sound. vm_compute. reflexivity. Qed.

Lemma schedule_round_robin_witness :
  exists k', schedule demo_sched = Ok (tt, k') /\ cur (kc k') = 0x2000.
Proof.
  destruct (schedule_round_robin demo_sched _ _ _ demo_sched_ok eq_refl)
    as (k' & next & rest & E & Hq & _ & Hc & _).
  injection Hq as <- _. exists k'. split; [exact E|exact Hc].
Defined.

Lemma thread_block_sleeps_witness :
  exists k', thread_block TASK_BLOCKED demo_sched = Ok (INTR_OFF, k') /\
    st k' 0x1000 = Some TASK_BLOCKED.
Proof.
  destruct (thread_block_sleeps demo_sched _ _ _ TASK_BLOCKED demo_sched_ok eq_refl)
    as (k' & next & rest & E & Hq & _ & _ & Hs & _).
  - intros _. reflexivity.
  - injection Hq as <- _. exists k'. split; [exact E|]. apply Hs. discriminate.
Defined.

Lemma thread_unblock_makes_ready_witness :
  exists k', thread_unblock 0x3000 demo_sched = Ok (tt, k') /\ st k' 0x3000 = Some TASK_READY.
Proof.
  destruct (thread_unblock_makes_ready demo_sched _ _ _ 0x3000 (demo_pcb TASK_BLOCKED)
    (proj1 demo_sched_ok) eq_refl) as [_ Hu].
  destruct Hu as (k' & E & _ & Hs & _).
  - reflexivity.
  - apply freshb_sound. vm_compute. reflexivity.
  - exists k'. split; [exact E|exact Hs].
Defined.
