(* ===== verification/Sync.v ===== *)
(** * Sync: semaphores and locks of thread/sync.c

    [semaphore_down] may switch to another thread inside its loop.  One
    iteration is [semaphore_down_iter]; it returns whether the semaphore was
    taken.  When it was not, the processor is running another thread, and the
    waiting thread continues with [semaphore_down_again] when it is scheduled:
    the tail of [thread_block] and the next test of the loop condition.

    [exec] runs one step of a system of threads that use locks as the kernel
    does: the calls of [lock_acquire] and [lock_release] split where an
    interrupt can come between, the timer interrupt that preempts the running
    thread, and the return from it.  [sys_ok] is the invariant. *)

From S2P Require Import Prelude Interrupt Lists Bitmap Kernel Paging Thread.

(** ** Semaphores *)

Definition get_value (sema : Z) : M kernel Z := fun k =>
  match sema_value (ksy k) !! sema with Some v => Ok (v, k) | None => Err Fault end.
Definition set_value (sema v : Z) : M kernel unit :=
  modify (fun k => set_ksy (mk_sync (<[sema := v]> (sema_value (ksy k))) (locks (ksy k))) k).
Definition get_lock (lk : Z) : M kernel lock := fun k =>
  match locks (ksy k) !! lk with Some l => Ok (l, k) | None => Err Fault end.
Definition set_lock (lk : Z) (l : lock) : M kernel unit :=
  modify (fun k => set_ksy (mk_sync (sema_value (ksy k)) (<[lk := l]> (locks (ksy k)))) k).

Definition semaphore_init (sema value : Z) : M kernel unit :=
  _ ← set_value sema (u8 value);
  on_mach (list_init (waiters sema)).

Definition lock_init (lk : Z) : M kernel unit :=
  _ ← set_lock lk (mk_lock NULL 0);
  semaphore_init (lock_semaphore lk) 1.

(** One test of [while (sema->value == 0)] and what follows it. *)
Definition semaphore_down_iter (sema : Z) (old_status : intr_status) : M kernel bool :=
  v ← get_value sema;
  if v =? 0 then
    now ← running_thread;
    f ← on_mach (node_find (waiters sema) (general_node now));
    _ ← ASSERTM (negb f);
    _ ← on_mach (list_append (waiters sema) (general_node now));
    _ ← thread_block TASK_BLOCKED;
    mret false
  else
    _ ← set_value sema (u8 (v - 1));
    _ ← ASSERTM (u8 (v - 1) =? 0);
    _ ← on_mach (intr_set_status old_status);
    mret true.

(** The status to restore when the semaphore was not taken at once. *)
Definition semaphore_down (sema : Z) : M kernel (option intr_status) :=
  old_status ← on_mach intr_disable;
  got ← semaphore_down_iter sema old_status;
  mret (if (got : bool) then None else Some old_status).

Definition semaphore_down_again (sema : Z) (old_status : intr_status) : M kernel bool :=
  _ ← resume INTR_OFF;
  semaphore_down_iter sema old_status.

Definition semaphore_up (sema : Z) : M kernel unit :=
  old_status ← on_mach intr_disable;
  e ← on_mach (list_empty (waiters sema));
  _ ← (if negb e then
         node ← on_mach (list_pop (waiters sema));
         thread_unblock (general_node_entry node)
       else mret tt);
  v ← get_value sema;
  _ ← set_value sema (u8 (v + 1));
  _ ← on_mach (intr_set_status old_status);
  mret tt.

(** ** Locks *)

(** The end of [lock_acquire] after [semaphore_down] has returned. *)
Definition lock_acquire_set (lk : Z) : M kernel unit :=
  now ← running_thread;
  l ← get_lock lk;
  _ ← set_lock lk (mk_lock now (holder_repeat_cnt l));
  _ ← ASSERTM (holder_repeat_cnt l =? 0);
  set_lock lk (mk_lock now 1).

Definition lock_acquire (lk : Z) : M kernel (option intr_status) :=
  now ← running_thread;
  l ← get_lock lk;
  if negb (holder l =? now) then
    r ← semaphore_down (lock_semaphore lk);
    match r with
    | None => _ ← lock_acquire_set lk; mret None
    | Some old_status => mret (Some old_status)
    end
  else
    _ ← set_lock lk (mk_lock (holder l) (u32 (holder_repeat_cnt l + 1)));
    mret None.

(** The part of [lock_release] before [semaphore_up]; whether it goes on. *)
Definition lock_release_clear (lk : Z) : M kernel bool :=
  l ← get_lock lk;
  if 1 <? holder_repeat_cnt l then
    _ ← set_lock lk (mk_lock (holder l) (holder_repeat_cnt l - 1));
    mret false
  else
    _ ← ASSERTM (holder_repeat_cnt l =? 1);
    _ ← set_lock lk (mk_lock NULL (holder_repeat_cnt l));
    _ ← set_lock lk (mk_lock NULL 0);
    mret true.

Definition lock_release (lk : Z) : M kernel unit :=
  up ← lock_release_clear lk;
  if (up : bool) then semaphore_up (lock_semaphore lk) else mret tt.

(** ** A system of threads *)

(** Where a thread is in its use of locks. *)
Inductive pc :=
  | Out                                        (* holds no lock *)
  | Trying (lk : Z) (old_status : intr_status) (* suspended in semaphore_down *)
  | Got (lk : Z)                               (* semaphore_down has returned *)
  | In (lk : Z)                                (* lock_acquire has returned *)
  | Leaving (lk : Z).                          (* about to call semaphore_up *)

Record sys := mk_sys { sk : kernel; ctl : gmap Z pc }.

Definition pc_of (s : sys) (t : Z) : pc := default Out (ctl s !! t).

Inductive action :=
  | AAcquire (lk : Z) (* lock_acquire of a lock the thread does not hold *)
  | ARetry            (* continue in semaphore_down *)
  | ASet              (* the end of lock_acquire *)
  | ANest (lk : Z)    (* lock_acquire by the holder *)
  | ARelease          (* lock_release up to semaphore_up *)
  | AUp               (* semaphore_up *)
  | APreempt          (* a timer interrupt that ends the time slice *)
  | AIret.            (* the return from it *)

Definition at_pc (s : sys) (c : pc) (k : kernel) : sys :=
  mk_sys k (<[cur (kc (sk s)) := c]> (ctl s)).

Definition exec (a : action) (s : sys) : res sys :=
  let k := sk s in
  match a, pc_of s (cur (kc k)) with
  | AAcquire lk, Out =>
      match semaphore_down (lock_semaphore lk) k with
      | Ok (None, k') => Ok (at_pc s (Got lk) k')
      | Ok (Some old, k') => Ok (at_pc s (Trying lk old) k')
      | Err e => Err e
      end
  | ARetry, Trying lk old =>
      match semaphore_down_again (lock_semaphore lk) old k with
      | Ok (true, k') => Ok (at_pc s (Got lk) k')
      | Ok (false, k') => Ok (at_pc s (Trying lk old) k')
      | Err e => Err e
      end
  | ASet, Got lk => '(_, k') ← lock_acquire_set lk k; Ok (at_pc s (In lk) k')
  | ANest lk, In _ => '(_, k') ← lock_acquire lk k; Ok (mk_sys k' (ctl s))
  | ARelease, In lk =>
      '(up, k') ← lock_release_clear lk k;
      Ok (if (up : bool) then at_pc s (Leaving lk) k' else mk_sys k' (ctl s))
  | AUp, Leaving lk => '(_, k') ← semaphore_up (lock_semaphore lk) k; Ok (at_pc s Out k')
  | APreempt, _ =>
      '(_, k') ← schedule (set_km (mach_if INTR_OFF (km k)) k); Ok (mk_sys k' (ctl s))
  | AIret, _ => Ok (mk_sys (set_km (mach_if INTR_ON (km k)) k) (ctl s))
  | _, _ => Err Fault
  end.

(** The steps a thread may take; the idle thread uses no lock. *)
Definition allowed (a : action) (s : sys) : Prop :=
  let k := sk s in
  match a with
  | AAcquire lk => pc_of s (cur (kc k)) = Out /\ is_Some (locks (ksy k) !! lk) /\
                   cur (kc k) <> idle_thread (kth k)
  | ARetry => exists lk old, pc_of s (cur (kc k)) = Trying lk old
  | ASet => exists lk, pc_of s (cur (kc k)) = Got lk
  | ANest lk => pc_of s (cur (kc k)) = In lk /\
      exists l, locks (ksy k) !! lk = Some l /\ holder_repeat_cnt l < 4294967295
  | ARelease => exists lk, pc_of s (cur (kc k)) = In lk
  | AUp => exists lk, pc_of s (cur (kc k)) = Leaving lk
  | APreempt => status_of (km k) = INTR_ON
  | AIret => match pc_of s (cur (kc k)) with Trying _ _ => False | _ => True end
  end.

(** ** The invariant *)

Definition pc_lock (c : pc) : option Z :=
  match c with Out => None | Trying lk _ | Got lk | In lk | Leaving lk => Some lk end.

Definition trying (c : pc) : Prop := match c with Trying _ _ => True | _ => False end.

(** Between taking and giving back the semaphore of [lk]. *)
Definition crit (pcs : Z -> pc) (lk t : Z) : Prop :=
  pcs t = Got lk \/ pcs t = In lk \/ pcs t = Leaving lk.

(** The waiting lists: [ws lk] are the threads asleep in [semaphore_down]. *)
Record wait_ok (k : kernel) (pcs : Z -> pc) (Γ : gmap Z (list Z)) (ws : Z -> list Z) : Prop := {
  wo_list : forall lk, is_Some (locks (ksy k) !! lk) ->
    Γ !! waiters (lock_semaphore lk) = Some (map general_node (ws lk)) /\
    waiters (lock_semaphore lk) <> thread_ready_list (kth k);
  wo_ws : forall lk t, is_Some (locks (ksy k) !! lk) ->
    t ∈ ws lk <-> (exists old, pcs t = Trying lk old) /\ st k t = Some TASK_BLOCKED;
  wo_idle : pcs (idle_thread (kth k)) = Out;
  wo_known : forall t lk, pc_lock (pcs t) = Some lk -> is_Some (locks (ksy k) !! lk);
  wo_off : trying (pcs (cur (kc k))) -> status_of (km k) = INTR_OFF }.

(** The semaphore of a lock is 1 when nobody is inside and 0 when exactly one
    thread is; holder and count are those of that thread once it has set them. *)
Record lock_inv (y : sync) (pcs : Z -> pc) : Prop := {
  li_value : forall lk l, locks y !! lk = Some l ->
    (sema_value y !! lock_semaphore lk = Some 1 /\ forall t, ~ crit pcs lk t) \/
    (sema_value y !! lock_semaphore lk = Some 0 /\
     exists t, crit pcs lk t /\ forall t', crit pcs lk t' -> t' = t);
  li_holder : forall lk l t, locks y !! lk = Some l -> pcs t = In lk ->
    holder l = t /\ 1 <= holder_repeat_cnt l < 4294967296;
  li_free : forall lk l, locks y !! lk = Some l -> (forall t, pcs t <> In lk) ->
    holder l = NULL /\ holder_repeat_cnt l = 0 }.

(** No lost wake-up: while the semaphore is free and threads sleep on it, one
    of the threads in [semaphore_down] is awake and will test it again. *)
Definition wake_ok (k : kernel) (pcs : Z -> pc) (ws : Z -> list Z) : Prop :=
  forall lk, sema_value (ksy k) !! lock_semaphore lk = Some 1 -> ws lk <> [] ->
    exists t old, pcs t = Trying lk old /\ st k t <> Some TASK_BLOCKED.

Record inv (k : kernel) (pcs : Z -> pc) (D : Z -> Z) (Γ : gmap Z (list Z)) (rs : list Z)
    (ws : Z -> list Z) : Prop := {
  iv_sched : sched_ok k D Γ rs;
  iv_wait : wait_ok k pcs Γ ws;
  iv_lock : lock_inv (ksy k) pcs;
  iv_wake : wake_ok k pcs ws }.

Definition sys_ok (s : sys) : Prop :=
  exists pcs D Γ rs ws, (forall t, pc_of s t = pcs t) /\ inv (sk s) pcs D Γ rs ws.

Definition upd {A} (f : Z -> A) (t : Z) (c : A) : Z -> A := fun x => if Z.eq_dec t x then c else f x.

Lemma upd_eq {A} (f : Z -> A) t c : upd f t c t = c.
Proof. unfold upd. by destruct (Z.eq_dec t t). Qed.
Lemma upd_ne {A} (f : Z -> A) t c x : x <> t -> upd f t c x = f x.
Proof. intros. unfold upd. destruct (Z.eq_dec t x); congruence. Qed.

Lemma sys_ok_at s pcs c k' D Γ rs ws : (forall t, pc_of s t = pcs t) ->
  inv k' (upd pcs (cur (kc (sk s))) c) D Γ rs ws -> sys_ok (at_pc s c k').
Proof.
  intros Hp Hi. exists (upd pcs (cur (kc (sk s))) c), D, Γ, rs, ws. split; [|done].
  intros t. unfold at_pc, pc_of, upd. cbn [ctl].
  destruct (Z.eq_dec (cur (kc (sk s))) t) as [->|]; [by rewrite lookup_insert_eq|].
  rewrite lookup_insert_ne by done. apply Hp.
Qed.

(** ** Scheduler lemmas for threads on a waiting list *)

Lemma sched_pre_relist k m D Γ Γ' rs : sched_pre k D Γ rs -> lists_ok m Γ' ->
  Γ' !! thread_ready_list (kth k) = Γ !! thread_ready_list (kth k) ->
  (forall t, st k t = Some TASK_RUNNING \/ t = idle_thread (kth k) ->
     fresh Γ (general_node t) -> fresh Γ' (general_node t)) ->
  sched_pre (set_km m k) D Γ' rs.
Proof.
  intros [H1 H2 H3 H4 H5 H6 H7 [D1 D2 D3]] Hl Hr Hf. split; cbn [set_km km kth kc]; try done.
  - by rewrite Hr.
  - intros t Ht. destruct (H5 t Ht). split; [done|]. apply Hf; [by left|done].
  - destruct H6 as (s & Es & Hs). exists s. split; [done|].
    destruct Hs as [Hs|[Hs|[Hs Hfr]]]; [by left|by right; left|]. right. right. split; [done|].
    apply Hf; [by right|done].
Qed.

Lemma sched_ok_ksy k y D Γ rs : sched_ok k D Γ rs -> sched_ok (set_ksy y k) D Γ rs.
Proof. intros [[H1 H2 H3 H4 H5 H6 H7 [D1 D2 D3]] Hr]. by split; [split|]. Qed.

(** After a switch the threads asleep, the idle thread apart, are the same. *)
Lemma switched_st k k' D Γ rs next rest t : sched_pre k D Γ rs -> or_idle k rs = next :: rest ->
  switched k k' D Γ next rest -> t <> idle_thread (kth k) ->
  st k' t = Some TASK_BLOCKED <-> st k t = Some TASK_BLOCKED.
Proof.
  intros Hpre Hq (Hok & Hc & _ & _ & Ho) Hi. destruct (decide (t = next)) as [->|Hne].
  - assert (Hn : next ∈ rs).
    { unfold or_idle in Hq. destruct rs; [congruence|]. rewrite Hq. set_solver. }
    apply (sp_rs _ _ _ _ Hpre) in Hn. rewrite Hn.
    destruct Hok as [_ Hr]. rewrite Hc in Hr. rewrite Hr. done.
  - unfold st. by rewrite (runs_others _ _ _ _ Ho).
Qed.

Lemma kth_frame k k' : sched_frame k k' ->
  thread_ready_list (kth k') = thread_ready_list (kth k) /\ idle_thread (kth k') = idle_thread (kth k).
Proof. intros (_ & _ & -> & _). done. Qed.

(** The waiting lists survive a switch. *)
Lemma wait_ok_switched k k' pcs D Γ rs ws next rest :
  sched_pre k D Γ rs -> or_idle k rs = next :: rest -> switched k k' D Γ next rest ->
  wait_ok k pcs Γ ws -> status_of (km k') = INTR_OFF ->
  wait_ok k' pcs (<[thread_ready_list (kth k) := map general_node rest]> Γ) ws.
Proof.
  intros Hpre Hq Hsw [W1 W2 W3 W4 W5] Hoff. pose proof Hsw as (_ & _ & _ & Hf & _).
  destruct (kth_frame _ _ Hf) as [Er Ei]. destruct Hf as (_ & Ey & _ & _).
  split; rewrite ?Ey, ?Er, ?Ei; try done.
  - intros lk Hlk. destruct (W1 lk Hlk) as [HL Hne]. by rewrite lookup_insert_ne.
  - intros lk t Hlk. rewrite (W2 lk t Hlk). split; intros [[old Ho] Hs].
    + split; [eauto|]. apply (switched_st k k' D Γ rs next rest); [done..| |done].
      intros ->. by rewrite W3 in Ho.
    + split; [eauto|]. apply (switched_st k k' D Γ rs next rest) in Hs; [done..|].
      intros ->. by rewrite W3 in Ho.
Qed.

Lemma wake_ok_switched k k' pcs D Γ rs ws next rest :
  sched_pre k D Γ rs -> or_idle k rs = next :: rest -> switched k k' D Γ next rest ->
  pcs (idle_thread (kth k)) = Out -> wake_ok k pcs ws -> wake_ok k' pcs ws.
Proof.
  intros Hpre Hq Hsw Hi Hw lk Hv Hne. pose proof Hsw as (_ & _ & _ & (_ & Ey & _ & _) & _).
  rewrite Ey in Hv. destruct (Hw lk Hv Hne) as (t & old & Hp & Hs). exists t, old. split; [done|].
  rewrite (switched_st k k' D Γ rs next rest) by (done || (intros ->; congruence)). done.
Qed.

(** ** semaphore_down *)

Lemma get_value_ok k s v : sema_value (ksy k) !! s = Some v -> get_value s k = Ok (v, k).
Proof. intros E. unfold get_value. by rewrite E. Qed.

Lemma get_lock_ok k lk l : locks (ksy k) !! lk = Some l -> get_lock lk k = Ok (l, k).
Proof. intros E. unfold get_lock. by rewrite E. Qed.

Lemma cur_running k D Γ rs : sched_ok k D Γ rs ->
  exists p, pcbs (kth k) !! cur (kc k) = Some p /\ status p = TASK_RUNNING /\
    fresh Γ (general_node (cur (kc k))).
Proof.
  intros [Hpre Hr]. destruct (sp_run _ _ _ _ Hpre _ Hr) as [_ Hf].
  unfold st in Hr. apply fmap_Some in Hr as (p & E & Hp). by exists p.
Qed.

(** A thread that is on no waiting list goes to sleep on one. *)
Lemma sched_pre_wait k m D Γ rs W xs p : sched_ok k D Γ rs ->
  cur (kc k) <> idle_thread (kth k) -> pcbs (kth k) !! cur (kc k) = Some p ->
  status p = TASK_RUNNING -> Γ !! W = Some xs -> W <> thread_ready_list (kth k) ->
  let Γ1 := <[W := xs ++ [general_node (cur (kc k))]]> Γ in
  lists_ok m Γ1 ->
  sched_pre (set_km m (set_pcbs (<[cur (kc k) := set_status TASK_BLOCKED p]> (pcbs (kth k))) k)) D Γ1 rs.
Proof.
  intros [Hpre Hr] Hni Ep Hp HW HWr Γ1 Hl.
  pose proof (sched_status k D Γ rs _ p TASK_BLOCKED Hpre Ep Hp ltac:(done) ltac:(done) ltac:(done)) as HA.
  apply (sched_pre_relist _ m D Γ Γ1 rs HA Hl).
  - unfold Γ1. by rewrite lookup_insert_ne.
  - intros t Ht Hf. apply (fresh_add Γ W xs _ _ (general_node (cur (kc k)))); try done.
    2:{ intros x. set_solver. }
    intros E%general_node_inj. subst t. destruct Ht as [Ht|Ht]; [|done].
    rewrite st_insert in Ht. by destruct (Z.eq_dec _ _).
Qed.

Lemma lock_inv_upd_out y pcs t c : lock_inv y pcs -> (forall lk, ~ crit pcs lk t) ->
  (c = Out \/ exists lk old, c = Trying lk old) -> lock_inv y (upd pcs t c).
Proof.
  intros [L1 L2 L3] Hn Hc.
  assert (Hcr : forall lk x, crit (upd pcs t c) lk x <-> crit pcs lk x).
  { intros lk x. unfold crit, upd. destruct (Z.eq_dec t x) as [<-|]; [|done].
    specialize (Hn lk). unfold crit in Hn. destruct Hc as [->|(? & ? & ->)]; naive_solver. }
  assert (Hin : forall lk x, upd pcs t c x = In lk <-> pcs x = In lk).
  { intros lk x. unfold upd. destruct (Z.eq_dec t x) as [<-|]; [|done].
    specialize (Hn lk). unfold crit in Hn. destruct Hc as [->|(? & ? & ->)]; naive_solver. }
  split.
  - intros lk l El. destruct (L1 lk l El) as [[Hv H1]|(Hv & x & Hx & Hu)]; [left|right]; (split; [done|]).
    + intros x. rewrite Hcr. apply H1.
    + exists x. rewrite Hcr. split; [done|]. intros x'. rewrite Hcr. apply Hu.
  - intros lk l x El Hx%Hin. by eapply L2.
  - intros lk l El Hno. apply (L3 lk l El). intros x Hx. by apply (Hno x), Hin.
Qed.

(** Outside the critical section of every lock, and not waiting for another. *)
Definition may_try (pcs : Z -> pc) (lk t : Z) : Prop := pcs t = Out \/ exists old, pcs t = Trying lk old.

Lemma may_try_not_crit pcs lk t : may_try pcs lk t -> forall lk', ~ crit pcs lk' t.
Proof. unfold may_try, crit. intros [->|(? & ->)] lk'; naive_solver. Qed.

Lemma down_iter_wait k pcs D Γ rs ws lk old : inv k pcs D Γ rs ws ->
  cur (kc k) <> idle_thread (kth k) -> is_Some (locks (ksy k) !! lk) ->
  sema_value (ksy k) !! lock_semaphore lk = Some 0 -> may_try pcs lk (cur (kc k)) ->
  exists k' Γ' rs', semaphore_down_iter (lock_semaphore lk) old k = Ok (false, k') /\
    inv k' (upd pcs (cur (kc k)) (Trying lk old)) D Γ' rs' (upd ws lk (ws lk ++ [cur (kc k)])).
Proof.
  intros [HS HW HL HK] Hni Hlk Hv Hmt. set (now := cur (kc k)) in *.
  destruct (cur_running _ _ _ _ HS) as (p & Ep & Hp & Hfr). fold now in Ep, Hfr.
  pose proof (sp_lists _ _ _ _ (proj1 HS)) as Hls.
  destruct (wo_list _ _ _ _ HW lk Hlk) as [HWl HWr]. set (W := waiters (lock_semaphore lk)) in *.
  destruct (list_append_ok _ _ _ _ _ Hls HWl Hfr) as (m & Em & Hlm & He).
  set (Γ1 := <[W := map general_node (ws lk) ++ [general_node now]]> Γ) in *.
  assert (Hlm' : lists_ok (mach_if INTR_OFF m) Γ1) by (by apply lists_ok_if).
  pose proof (sched_pre_wait k _ D Γ rs W _ p HS Hni Ep Hp HWl HWr Hlm') as Hpre. fold now in Hpre.
  destruct (thread_block_gen (set_km m k) D Γ1 rs TASK_BLOCKED p eq_refl Ep Hpre)
    as (k' & next & rest & Eb & Hq & Hsw).
  set (k2 := set_km _ (set_pcbs _ (set_km m k))) in *.
  change (set_km _ (set_pcbs _ k)) with k2 in Hpre.
  assert (Hst2 : forall x, st k2 x = if Z.eq_dec now x then Some TASK_BLOCKED else st k x)
    by (intros x; exact (st_insert k now (set_status TASK_BLOCKED p) x)).
  assert (Hnow : st k now = Some TASK_RUNNING) by apply HS.
  assert (Hoff : status_of (km k') = INTR_OFF).
  { destruct Hsw as (_ & _ & _ & (_ & _ & _ & F4) & _). unfold status_of. rewrite F4.
    exact (status_with_if INTR_OFF (eflags m) ∅ ∅). }
  set (pcs' := upd pcs now (Trying lk old)). set (ws' := upd ws lk (ws lk ++ [now])).
  assert (HW2 : wait_ok k2 pcs' Γ1 ws').
  { destruct HW as [W1 W2 W3 W4 W5]. split.
    - intros lk' Hlk'. destruct (W1 lk' Hlk') as [Ha Hb]. split; [|done]. unfold Γ1, ws', upd.
      destruct (Z.eq_dec lk lk') as [<-|Hne]; [rewrite lookup_insert_eq, map_app; done|].
      rewrite lookup_insert_ne; [done|]. unfold W, waiters, lock_semaphore. lia.
    - intros lk' t Hlk'. unfold ws', pcs', upd. rewrite Hst2. specialize (W2 lk' t Hlk').
      destruct (Z.eq_dec now t) as [<-|Hnt].
      + rewrite Hnow in W2. destruct (Z.eq_dec lk lk') as [<-|Hne].
        * split; [intros _; eauto | set_solver].
        * split; [intros [_ ?]%W2; done | intros [[o [= ]] _]; congruence].
      + destruct (Z.eq_dec lk lk') as [<-|Hne]; [|done]. rewrite <- W2. set_solver.
    - unfold pcs', upd. destruct (Z.eq_dec now (idle_thread (kth k2))) as [E|]; [by destruct Hni | done].
    - intros t lk'. unfold pcs', upd. destruct (Z.eq_dec now t); [intros [= <-]; done | apply W4].
    - intros _. exact (status_with_if INTR_OFF (eflags m) ∅ ∅). }
  assert (HK2 : wake_ok k2 pcs' ws').
  { intros lk' Hv' Hne'. unfold ws', upd in Hne'.
    destruct (Z.eq_dec lk lk') as [<-|Hne].
    { change (sema_value (ksy k) !! lock_semaphore lk = Some 1) in Hv'. congruence. }
    destruct (HK lk' Hv' Hne') as (t & o & Ht & Hst). exists t, o.
    assert (t <> now) by (intros ->; destruct Hmt as [Hm|[o' Hm]]; congruence).
    unfold pcs'. rewrite upd_ne by done. split; [done|]. rewrite Hst2.
    destruct (Z.eq_dec now t); [congruence|done]. }
  exists k', (<[thread_ready_list (kth k) := map general_node rest]> Γ1), rest. split; [|split].
  - unfold semaphore_down_iter. rewrite (bindM_ok _ _ _ _ _ (get_value_ok _ _ _ Hv)).
    cbn [Z.eqb]. unfold running_thread. rewrite bind_gets. fold now W.
    rewrite (bindM_ok _ _ _ _ _ (on_node_find k Γ W _ _ Hls HWl)), bind_assert.
    2:{ rewrite bool_decide_eq_false_2; [done|]. intros Hin. apply (fresh_foot _ _ _ _ Hfr HWl).
        unfold foot. set_solver. }
    rewrite (bindM_ok _ _ _ _ _ (on_mach_ok _ _ _ _ Em)). by rewrite (bindM_ok _ _ _ _ _ Eb).
  - apply Hsw.
  - by apply (wait_ok_switched k2 k' pcs' D Γ1 rs ws' next rest).
  - destruct Hsw as (_ & _ & _ & (_ & Ey & _) & _). rewrite Ey.
    apply lock_inv_upd_out; [done | by apply may_try_not_crit with lk | right; eauto].
  - apply (wake_ok_switched k2 k' pcs' D Γ1 rs ws' next rest); try done. apply HW2.
Qed.

(** A change of the synchronisation state and of the interrupt flag. *)
Lemma sched_ok_sync k y s D Γ rs : sched_ok k D Γ rs ->
  sched_ok (set_km (mach_if s (km k)) (set_ksy y k)) D Γ rs.
Proof. intros H. apply (sched_ok_if (set_ksy y k)). by apply sched_ok_ksy. Qed.

(** The running thread changes its place, not through a waiting list. *)
Lemma wait_ok_running k pcs Γ ws y m c : wait_ok k pcs Γ ws ->
  st k (cur (kc k)) = Some TASK_RUNNING -> dom (locks y) = dom (locks (ksy k)) ->
  ~ trying c -> (c = Out \/ cur (kc k) <> idle_thread (kth k)) ->
  (forall lk, pc_lock c = Some lk -> is_Some (locks (ksy k) !! lk)) ->
  wait_ok (set_km m (set_ksy y k)) (upd pcs (cur (kc k)) c) Γ ws.
Proof.
  intros [W1 W2 W3 W4 W5] Hr Hd Hc Hi Hk.
  assert (Hdom : forall lk, is_Some (locks y !! lk) <-> is_Some (locks (ksy k) !! lk))
    by (intros lk; by rewrite <- !elem_of_dom, Hd).
  split; cbn [set_km set_ksy ksy kth kc km].
  - intros lk Hlk. by apply W1, Hdom.
  - intros lk t Hlk. rewrite (W2 lk t) by (by apply Hdom). unfold upd, st. cbn.
    destruct (Z.eq_dec (cur (kc k)) t) as [<-|]; [|done]. unfold st in Hr. rewrite Hr.
    by split; intros [_ ?].
  - unfold upd. destruct (Z.eq_dec _ _) as [E|]; [destruct Hi; congruence | done].
  - intros t lk. unfold upd. rewrite Hdom. destruct (Z.eq_dec _ t); [apply Hk | apply W4].
  - rewrite upd_eq. done.
Qed.

Lemma down_iter_take k pcs D Γ rs ws lk old : inv k pcs D Γ rs ws ->
  cur (kc k) <> idle_thread (kth k) -> is_Some (locks (ksy k) !! lk) ->
  sema_value (ksy k) !! lock_semaphore lk = Some 1 -> may_try pcs lk (cur (kc k)) ->
  exists k', semaphore_down_iter (lock_semaphore lk) old k = Ok (true, k') /\
    inv k' (upd pcs (cur (kc k)) (Got lk)) D Γ rs ws /\ cur (kc k') = cur (kc k).
Proof.
  intros [HS HW HL HK] Hni Hlk Hv Hmt. set (now := cur (kc k)) in *.
  set (y := mk_sync (<[lock_semaphore lk := 0]> (sema_value (ksy k))) (locks (ksy k))).
  exists (set_km (mach_if old (km k)) (set_ksy y k)). split; [|split; [|done]].
  { unfold semaphore_down_iter. rewrite (bindM_ok _ _ _ _ _ (get_value_ok _ _ _ Hv)).
    cbn [Z.eqb]. unfold set_value. rewrite bind_modify, bind_assert by done.
    by rewrite (bindM_ok _ _ _ _ _ (on_set_status _ _)). }
  pose proof (may_try_not_crit _ _ _ Hmt) as Hnc. split.
  - by apply sched_ok_sync.
  - apply wait_ok_running; [done|apply HS|done|by intros []|by right|]. by intros lk' [= <-].
  - destruct HL as [L1 L2 L3]. change (lock_inv y (upd pcs now (Got lk))). unfold y. clear y.
    assert (Hcr : forall lk' x, crit (upd pcs now (Got lk)) lk' x <->
      (x = now /\ lk' = lk) \/ (x <> now /\ crit pcs lk' x)).
    { intros lk' x. unfold crit, upd. destruct (Z.eq_dec now x) as [<-|]; naive_solver. }
    assert (Hin : forall lk' x, upd pcs now (Got lk) x = In lk' <-> pcs x = In lk').
    { intros lk' x. unfold upd. destruct (Z.eq_dec now x) as [<-|]; [|done].
      specialize (Hnc lk'). unfold crit in Hnc. naive_solver. }
    split; cbn [locks sema_value].
    + intros lk' l El. destruct (decide (lk' = lk)) as [->|Hne].
      * right. split; [apply lookup_insert_eq|]. exists now. rewrite Hcr. split; [by left|].
        intros t'. rewrite Hcr. intros [[? _]|[_ Hc]]; [done|].
        destruct (L1 lk l El) as [[_ Hno]|[Hv0 _]]; [by destruct (Hno t')|congruence].
      * rewrite lookup_insert_ne by (unfold lock_semaphore; lia).
        destruct (L1 lk' l El) as [[Hv' H1]|(Hv' & x & Hx & Hu)]; [left|right]; (split; [done|]).
        -- intros x. rewrite Hcr. intros [[_ ?]|[_ ?]]; [done | by apply (H1 x)].
        -- exists x. assert (x <> now) by (intros ->; by apply (Hnc lk')).
           split; [rewrite Hcr; by right|]. intros x'. rewrite Hcr. intros [[_ ?]|[_ ?]]; [done | by apply Hu].
    + intros lk' l x El Hx%Hin. by eapply L2.
    + intros lk' l El Hno. apply (L3 lk' l El). intros x Hx. by apply (Hno x), Hin.
  - intros lk' Hv' Hne. cbn in Hv'. destruct (decide (lk' = lk)) as [->|Hnl].
    { by rewrite lookup_insert_eq in Hv'. }
    rewrite lookup_insert_ne in Hv' by (unfold lock_semaphore; lia).
    destruct (HK lk' Hv' Hne) as (t & o & Ht & Hs). exists t, o. split; [|done].
    rewrite upd_ne; [done|]. intros ->. destruct Hmt as [Hm|[o' Hm]]; congruence.
Qed.

Lemma inv_if k pcs D Γ rs ws s : inv k pcs D Γ rs ws ->
  (s = INTR_OFF \/ ~ trying (pcs (cur (kc k)))) ->
  inv (set_km (mach_if s (km k)) k) pcs D Γ rs ws.
Proof.
  intros [HS [W1 W2 W3 W4 W5] HL HK] Hs. split; [by apply sched_ok_if| |done|done].
  split; try done. intros Ht. destruct Hs as [->|Hn]; [|done].
  exact (status_with_if INTR_OFF (eflags (km k)) ∅ ∅).
Qed.

Lemma down_iter_ok k pcs D Γ rs ws lk old : inv k pcs D Γ rs ws ->
  cur (kc k) <> idle_thread (kth k) -> is_Some (locks (ksy k) !! lk) ->
  may_try pcs lk (cur (kc k)) ->
  exists b k' Γ' rs' ws', semaphore_down_iter (lock_semaphore lk) old k = Ok (b, k') /\
    inv k' (upd pcs (cur (kc k)) (if (b : bool) then Got lk else Trying lk old)) D Γ' rs' ws'.
Proof.
  intros Hi Hni [l El] Hmt. destruct (li_value _ _ (iv_lock _ _ _ _ _ _ Hi) lk l El) as [[Hv _]|[Hv _]].
  - destruct (down_iter_take k pcs D Γ rs ws lk old Hi Hni ltac:(eauto) Hv Hmt) as (k' & E & Hi' & _).
    by exists true, k', Γ, rs, ws.
  - destruct (down_iter_wait k pcs D Γ rs ws lk old Hi Hni ltac:(eauto) Hv Hmt) as (k' & Γ' & rs' & E & Hi').
    by exists false, k', Γ', rs', (upd ws lk (ws lk ++ [cur (kc k)])).
Qed.

(** ** semaphore_up *)

(** Waking the first sleeper of a waiting list. *)
Lemma up_wake k pcs D Γ rs ws lk t ts : inv k pcs D Γ rs ws -> is_Some (locks (ksy k) !! lk) ->
  ws lk = t :: ts ->
  exists k' Γ', (node ← on_mach (list_pop (waiters (lock_semaphore lk)));
                 thread_unblock (general_node_entry node)) k = Ok (tt, k') /\
    sched_ok k' D Γ' (t :: rs) /\ wait_ok k' pcs Γ' (upd ws lk ts) /\
    ksy k' = ksy k /\ kc k' = kc k /\ kth k' = kth (set_pcbs (pcbs (kth k')) k) /\
    eflags (km k') = eflags (km k) /\
    (forall x, st k' x = if Z.eq_dec t x then Some TASK_READY else st k x).
Proof.
  intros [HS HW HL HK] Hlk Hws. pose proof HS as [Hpre Hrun].
  pose proof HW as [W1 W2 W3 W4 W5]. destruct (W1 lk Hlk) as [HWl HWr].
  set (W := waiters (lock_semaphore lk)) in *. rewrite Hws in HWl. cbn [map] in HWl.
  destruct (list_pop_ok _ _ _ _ _ (sp_lists _ _ _ _ Hpre) HWl) as (m & Em & Hlm & Hfr & He).
  set (Γ1 := <[W := map general_node ts]> Γ) in *.
  assert (Hkeep : forall a, fresh Γ a -> fresh Γ1 a).
  { intros a Ha. apply fresh_insert; [done|]. pose proof (fresh_foot _ _ _ _ Ha HWl) as Hf.
    unfold foot in *. set_solver. }
  assert (Hpre1 : sched_pre (set_km m k) D Γ1 rs).
  { apply (sched_pre_relist k m D Γ Γ1 rs Hpre Hlm); [unfold Γ1; by rewrite lookup_insert_ne|auto]. }
  assert (Htb : (exists old, pcs t = Trying lk old) /\ st k t = Some TASK_BLOCKED)
    by (apply (W2 lk t Hlk); rewrite Hws; set_solver).
  destruct Htb as [[o Ho] Htb]. unfold st in Htb. apply fmap_Some in Htb as (p & Ep & Hp).
  destruct (thread_unblock_ok (set_km m k) D Γ1 rs t p Hpre1 Ep) as (m2 & Eu & He2 & Hpre2);
    [by rewrite <- Hp | done |]. cbv zeta in Eu, Hpre2.
  set (k2 := set_km m2 _) in *.
  assert (Hst2 : forall x, st k2 x = if Z.eq_dec t x then Some TASK_READY else st k x)
    by (intros x; exact (st_insert k t (set_status TASK_READY p) x)).
  assert (Hne : cur (kc k) <> t).
  { intros E. unfold st in Hrun. rewrite E, Ep in Hrun. cbn in Hrun. congruence. }
  exists k2, (<[thread_ready_list (kth k) := map general_node (t :: rs)]> Γ1).
  split; [|split; [|split; [|split; [done|split; [done|split; [done|split; [|exact Hst2]]]]]]].
  - rewrite (bindM_ok _ _ _ _ _ (on_mach_ok _ _ _ _ Em)). by rewrite general_node_entry_id.
  - split; [exact Hpre2|]. rewrite Hst2. cbn. destruct (Z.eq_dec t (cur (kc k))); [congruence|done].
  - assert (Hnts : t ∉ ts).
    { pose proof (lo_nodup _ _ (sp_lists _ _ _ _ Hpre) _ _ HWl) as Hnd. unfold foot in Hnd.
      apply NoDup_cons in Hnd as [_ Hnd]. apply NoDup_app in Hnd as [Hnd _].
      apply NoDup_cons in Hnd as [Hn _]. by rewrite gnodes_elem in Hn. }
    split.
    + intros lk' Hlk'. destruct (W1 lk' Hlk') as [Ha Hb]. split; [|done].
      rewrite lookup_insert_ne by done. unfold Γ1, upd. destruct (Z.eq_dec lk lk') as [<-|Hnl].
      * by rewrite lookup_insert_eq.
      * rewrite lookup_insert_ne; [done|]. unfold W, waiters, lock_semaphore. lia.
    + intros lk' x Hlk'. rewrite Hst2. specialize (W2 lk' x Hlk'). unfold upd.
      destruct (Z.eq_dec lk lk') as [<-|Hnl]; destruct (Z.eq_dec t x) as [<-|Hnx].
      * by split; [|intros [_ ?]].
      * rewrite <- W2, Hws. set_solver.
      * split; [|by intros [_ ?]]. intros [[o' Ho'] _]%W2. congruence.
      * done.
    + done.
    + done.
    + intros Ht. change (pcs (cur (kc k2))) with (pcs (cur (kc k))) in Ht. specialize (W5 Ht).
      unfold status_of in *. cbn [k2 set_km km]. rewrite He2. cbn [set_km km]. by rewrite He.
  - cbn [k2 set_km km]. rewrite He2. exact He.
Qed.

(** ** The lock invariant under the steps of the thread inside *)

Lemma crit_value y pcs lk l t : lock_inv y pcs -> locks y !! lk = Some l -> crit pcs lk t ->
  sema_value y !! lock_semaphore lk = Some 0 /\ forall t', crit pcs lk t' -> t' = t.
Proof.
  intros HL El Hc. destruct (li_value _ _ HL lk l El) as [[_ Hno]|(Hv & x & Hx & Hu)].
  - by destruct (Hno t).
  - split; [done|]. intros t' Ht'. by rewrite (Hu t' Ht'), (Hu t Hc).
Qed.

Lemma lock_inv_up y pcs lk l t : lock_inv y pcs -> locks y !! lk = Some l -> pcs t = Leaving lk ->
  lock_inv (mk_sync (<[lock_semaphore lk := 1]> (sema_value y)) (locks y)) (upd pcs t Out).
Proof.
  intros HL El Ht. assert (Hcr : crit pcs lk t) by (unfold crit; auto).
  destruct (crit_value _ _ _ _ _ HL El Hcr) as [_ Hu]. destruct HL as [L1 L2 L3].
  assert (Hc' : forall lk' x, crit (upd pcs t Out) lk' x <-> x <> t /\ crit pcs lk' x).
  { intros lk' x. unfold crit, upd. clear. destruct (Z.eq_dec t x) as [<-|]; intuition congruence. }
  assert (Hin : forall lk' x, upd pcs t Out x = In lk' <-> pcs x = In lk').
  { intros lk' x. unfold upd. destruct (Z.eq_dec t x) as [<-|]; [rewrite Ht|]; done. }
  split; cbn [locks sema_value].
  - intros lk' l' El'. destruct (decide (lk' = lk)) as [->|Hne].
    + left. split; [apply lookup_insert_eq|]. intros x. rewrite Hc'. intros [Hx Hx']. by apply Hx, Hu.
    + rewrite lookup_insert_ne by (unfold lock_semaphore; lia).
      destruct (L1 lk' l' El') as [[Hv H1]|(Hv & x & Hx & Hux)]; [left|right]; (split; [done|]).
      * intros x. rewrite Hc'. intros [_ Hx]. by apply (H1 x).
      * exists x. split; [rewrite Hc'; split; [|done]|].
        { intros ->. unfold crit in Hx. rewrite Ht in Hx. naive_solver. }
        intros x'. rewrite Hc'. intros [_ ?]. by apply Hux.
  - intros lk' l' x El' Hx%Hin. by eapply L2.
  - intros lk' l' El' Hno. apply (L3 lk' l' El'). intros x Hx. by apply (Hno x), Hin.
Qed.

(** A step that stays inside [lk] and rewrites its holder and count. *)
Lemma lock_inv_inside y pcs lk l l' t c : lock_inv y pcs -> locks y !! lk = Some l ->
  crit pcs lk t -> (c = In lk \/ c = Leaving lk) ->
  (c = In lk -> holder l' = t /\ 1 <= holder_repeat_cnt l' < 4294967296) ->
  (c = Leaving lk -> holder l' = NULL /\ holder_repeat_cnt l' = 0) ->
  lock_inv (mk_sync (sema_value y) (<[lk := l']> (locks y))) (upd pcs t c).
Proof.
  intros HL El Hcr Hc Hin Hlv. destruct (crit_value _ _ _ _ _ HL El Hcr) as [Hv Hu].
  destruct HL as [L1 L2 L3].
  assert (Hc' : forall lk' x, crit (upd pcs t c) lk' x <-> crit pcs lk' x).
  { intros lk' x. unfold crit, upd in *. destruct (Z.eq_dec t x) as [<-|]; [|done].
    clear - Hcr Hc. destruct Hc as [-> | ->], Hcr as [E|[E|E]]; rewrite E; intuition congruence. }
  assert (Hne : forall lk' x, lk' <> lk -> upd pcs t c x = In lk' <-> pcs x = In lk').
  { intros lk' x Hn. unfold crit, upd in *. destruct (Z.eq_dec t x) as [<-|]; [|done].
    clear - Hcr Hc Hn. destruct Hc as [-> | ->], Hcr as [E|[E|E]]; rewrite E; intuition congruence. }
  split; cbn [locks sema_value].
  - intros lk' l0 El'. destruct (decide (lk' = lk)) as [->|Hn].
    + right. split; [done|]. exists t. rewrite Hc'. split; [done|]. intros t'. rewrite Hc'. apply Hu.
    + rewrite lookup_insert_ne in El' by done.
      destruct (L1 lk' l0 El') as [[Hv' H1]|(Hv' & x & Hx & Hux)]; [left|right]; (split; [done|]).
      * intros x. rewrite Hc'. apply H1.
      * exists x. rewrite Hc'. split; [done|]. intros x'. rewrite Hc'. apply Hux.
  - intros lk' l0 x El' Hx. destruct (decide (lk' = lk)) as [->|Hn].
    + rewrite lookup_insert_eq in El'. injection El' as <-.
      assert (x = t) as -> by (apply Hu, Hc'; unfold crit; auto).
      rewrite upd_eq in Hx. by apply Hin.
    + rewrite lookup_insert_ne in El' by done. apply (Hne lk' x Hn) in Hx. by eapply L2.
  - intros lk' l0 El' Hno. destruct (decide (lk' = lk)) as [->|Hn].
    + rewrite lookup_insert_eq in El'. injection El' as <-. apply Hlv.
      destruct Hc as [->|]; [|done]. specialize (Hno t). by rewrite upd_eq in Hno.
    + rewrite lookup_insert_ne in El' by done. apply (L3 lk' l0 El'). intros x Hx.
      by apply (Hno x), Hne.
Qed.

(** The running thread moves from one place to another without sleeping. *)
Lemma wake_ok_upd k k' pcs ws t c : wake_ok k pcs ws -> ~ trying (pcs t) ->
  sema_value (ksy k') = sema_value (ksy k) -> (forall x, st k' x = st k x) ->
  wake_ok k' (upd pcs t c) ws.
Proof.
  intros HK Ht Hv Hs lk. rewrite Hv. intros Hv' Hne. destruct (HK lk Hv' Hne) as (x & o & Hx & Hsx).
  exists x, o. rewrite Hs. split; [|done]. rewrite upd_ne; [done|]. intros ->. by rewrite Hx in Ht.
Qed.

Lemma semaphore_up_ok k pcs D Γ rs ws lk l : inv k pcs D Γ rs ws ->
  locks (ksy k) !! lk = Some l -> pcs (cur (kc k)) = Leaving lk ->
  exists k' Γ' rs' ws', semaphore_up (lock_semaphore lk) k = Ok (tt, k') /\
    inv k' (upd pcs (cur (kc k)) Out) D Γ' rs' ws'.
Proof.
  intros Hi El Hpc. set (k0 := set_km (mach_if INTR_OFF (km k)) k).
  assert (Hi0 : inv k0 pcs D Γ rs ws) by (apply inv_if; [done|by left]).
  assert (Hlk : is_Some (locks (ksy k) !! lk)) by eauto.
  set (now := cur (kc k)) in *.
  assert (Hmid : exists k1 Γ1 rs1 ws1,
    (e ← on_mach (list_empty (waiters (lock_semaphore lk)));
     if negb e then node ← on_mach (list_pop (waiters (lock_semaphore lk)));
                    thread_unblock (general_node_entry node)
     else mret tt) k0 = Ok (tt, k1) /\ sched_ok k1 D Γ1 rs1 /\ wait_ok k1 pcs Γ1 ws1 /\
    ksy k1 = ksy k /\ cur (kc k1) = now /\
    (forall lk', ws1 lk' <> [] -> ws lk' <> []) /\
    (ws1 lk <> [] -> exists t o, pcs t = Trying lk o /\ st k1 t <> Some TASK_BLOCKED) /\
    (forall x, st k x <> Some TASK_BLOCKED -> st k1 x <> Some TASK_BLOCKED)).
  { pose proof Hi0 as [HS0 HW0 HL0 HK0]. destruct (wo_list _ _ _ _ HW0 lk Hlk) as [HWl _].
    rewrite (bindM_ok _ _ _ _ _ (on_list_empty k0 Γ _ _ (sp_lists _ _ _ _ (proj1 HS0)) HWl)).
    destruct (ws lk) as [|t ts] eqn:Ews.
    - rewrite bool_decide_eq_true_2 by done. exists k0, Γ, rs, ws. do 6 (split; [done|]).
      split; [congruence|]. done.
    - rewrite bool_decide_eq_false_2 by done.
      destruct (up_wake k0 pcs D Γ rs ws lk t ts Hi0 Hlk Ews)
        as (k1 & Γ1 & E1 & HS1 & HW1 & Ey1 & Ec1 & _ & _ & Hst1).
      exists k1, Γ1, (t :: rs), (upd ws lk ts). split; [exact E1|]. split; [done|]. split; [done|].
      split; [done|]. split; [by rewrite Ec1|].
      assert (Ht : t ∈ ws lk) by (rewrite Ews; set_solver).
      apply (wo_ws _ _ _ _ HW0 lk t Hlk) in Ht as [[o Ho] _]. split; [|split].
      + intros lk'. unfold upd. destruct (Z.eq_dec lk lk') as [<-|]; [rewrite Ews|]; done.
      + intros _. exists t, o. split; [done|]. rewrite Hst1. by destruct (Z.eq_dec t t).
      + intros x Hx. rewrite Hst1. by destruct (Z.eq_dec t x). }
  destruct Hmid as (k1 & Γ1 & rs1 & ws1 & E1 & HS1 & HW1 & Ey1 & Ec1 & Hws & Haw & Hst).
  destruct (crit_value _ _ lk l now (iv_lock _ _ _ _ _ _ Hi) El) as [Hv _]; [unfold crit; auto|].
  set (y := mk_sync (<[lock_semaphore lk := 1]> (sema_value (ksy k1))) (locks (ksy k1))).
  exists (set_km (mach_if (status_of (km k)) (km k1)) (set_ksy y k1)), Γ1, rs1, ws1. split.
  { unfold semaphore_up. rewrite (bindM_ok _ _ _ _ _ (on_disable k)). fold k0.
    apply bindM_inv in E1 as (e & ka & Ea & Eb). rewrite (bindM_ok _ _ _ _ _ Ea).
    rewrite (bindM_ok _ _ _ _ _ Eb). rewrite <- Ey1 in Hv.
    rewrite (bindM_ok _ _ _ _ _ (get_value_ok _ _ _ Hv)).
    unfold set_value. rewrite bind_modify. by rewrite (bindM_ok _ _ _ _ _ (on_set_status _ _)). }
  split.
  - by apply sched_ok_sync.
  - rewrite <- Ec1. apply wait_ok_running; [done|apply HS1|done|by intros []|by left|done].
  - cbn [set_km set_ksy ksy]. unfold y. rewrite Ey1. apply (lock_inv_up (ksy k) pcs lk l); try done. apply Hi.
  - intros lk' Hv' Hne. cbn in Hv'. rewrite Ey1 in Hv'. destruct (decide (lk' = lk)) as [->|Hnl].
    + destruct (Haw Hne) as (t & o & Ht & Hs). exists t, o. split; [|done].
      rewrite upd_ne; [done|]. intros ->. congruence.
    + rewrite lookup_insert_ne in Hv' by (unfold lock_semaphore; lia).
      destruct (iv_wake _ _ _ _ _ _ Hi lk' Hv' (Hws lk' Hne)) as (t & o & Ht & Hs).
      exists t, o. split; [rewrite upd_ne; [done|intros ->; congruence]|]. by apply Hst.
Qed.

Lemma resume_ok s k : resume s k = Ok (tt, set_km (mach_if s (km k)) k).
Proof. unfold resume. by rewrite (bindM_ok _ _ _ _ _ (on_set_status s k)). Qed.

(** ** Every allowed step succeeds and keeps the invariant *)

Lemma inv_inside k pcs D Γ rs ws lk l l' c : inv k pcs D Γ rs ws ->
  locks (ksy k) !! lk = Some l -> crit pcs lk (cur (kc k)) -> (c = In lk \/ c = Leaving lk) ->
  (c = In lk -> holder l' = cur (kc k) /\ 1 <= holder_repeat_cnt l' < 4294967296) ->
  (c = Leaving lk -> holder l' = NULL /\ holder_repeat_cnt l' = 0) ->
  inv (set_ksy (mk_sync (sema_value (ksy k)) (<[lk := l']> (locks (ksy k)))) k)
    (upd pcs (cur (kc k)) c) D Γ rs ws.
Proof.
  intros [HS HW HL HK] El Hcr Hc H1 H2.
  assert (Hnt : ~ trying (pcs (cur (kc k)))) by (destruct Hcr as [->|[-> | ->]]; by intros []).
  assert (Hni : cur (kc k) <> idle_thread (kth k)).
  { intros E. pose proof (wo_idle _ _ _ _ HW) as Hid. rewrite <- E in Hid.
    unfold crit in Hcr. rewrite Hid in Hcr. naive_solver. }
  split.
  - by apply sched_ok_ksy.
  - apply (wait_ok_running k pcs Γ ws _ (km k) c HW); [apply HS| | |by right|].
    + cbn. rewrite dom_insert_L. apply elem_of_dom_2 in El. set_solver.
    + by destruct Hc as [-> | ->]; intros [].
    + intros lk' E. destruct Hc as [-> | ->]; injection E as <-; eauto.
  - by apply (lock_inv_inside _ _ lk l).
  - by apply (wake_ok_upd k).
Qed.

Lemma inv_same k pcs pcs' D Γ rs ws : inv k pcs D Γ rs ws -> (forall t, pcs' t = pcs t) ->
  inv k pcs' D Γ rs ws.
Proof.
  intros [HS [W1 W2 W3 W4 W5] [L1 L2 L3] HK] Hp. split; [done| | |].
  - split; try done.
    + intros lk t Hlk. rewrite Hp. by apply W2.
    + by rewrite Hp.
    + intros t lk. rewrite Hp. apply W4.
    + by rewrite Hp.
  - assert (Hc : forall lk t, crit pcs' lk t <-> crit pcs lk t) by (intros; unfold crit; by rewrite Hp).
    split.
    + intros lk l El. destruct (L1 lk l El) as [[Hv H1]|(Hv & x & Hx & Hu)]; [left|right]; (split; [done|]).
      * intros t. rewrite Hc. apply H1.
      * exists x. rewrite Hc. split; [done|]. intros t. rewrite Hc. apply Hu.
    + intros lk l t El. rewrite Hp. by apply L2.
    + intros lk l El Hno. apply (L3 lk l El). intros t. by rewrite <- Hp.
  - intros lk Hv Hne. destruct (HK lk Hv Hne) as (t & o & Ht & Hs). exists t, o. by rewrite Hp.
Qed.

Lemma acquire_set_ok k pcs D Γ rs ws lk : inv k pcs D Γ rs ws -> pcs (cur (kc k)) = Got lk ->
  exists k', lock_acquire_set lk k = Ok (tt, k') /\ inv k' (upd pcs (cur (kc k)) (In lk)) D Γ rs ws.
Proof.
  intros Hi Hpc. destruct (wo_known _ _ _ _ (iv_wait _ _ _ _ _ _ Hi) (cur (kc k)) lk) as [l El];
    [by rewrite Hpc|].
  assert (Hcr : crit pcs lk (cur (kc k))) by (unfold crit; auto).
  destruct (crit_value _ _ lk l _ (iv_lock _ _ _ _ _ _ Hi) El Hcr) as [_ Hu].
  destruct (li_free _ _ (iv_lock _ _ _ _ _ _ Hi) lk l El) as [_ Hcnt].
  { intros t Ht. assert (t = cur (kc k)) as -> by (apply Hu; unfold crit; auto). congruence. }
  eexists. split.
  { unfold lock_acquire_set, running_thread. rewrite bind_gets, (bindM_ok _ _ _ _ _ (get_lock_ok _ _ _ El)).
    unfold set_lock. rewrite bind_modify, bind_assert by (by rewrite Hcnt).
    unfold modify. cbn [set_ksy ksy locks sema_value]. by rewrite insert_insert_eq. }
  apply (inv_inside k pcs D Γ rs ws lk l (mk_lock (cur (kc k)) 1) (In lk)); try done.
  by left.
Qed.

Lemma acquire_nested_ok k pcs D Γ rs ws lk l : inv k pcs D Γ rs ws -> pcs (cur (kc k)) = In lk ->
  locks (ksy k) !! lk = Some l -> holder_repeat_cnt l < 4294967295 ->
  exists k', lock_acquire lk k = Ok (None, k') /\ inv k' pcs D Γ rs ws.
Proof.
  intros Hi Hpc El Hcnt. destruct (li_holder _ _ (iv_lock _ _ _ _ _ _ Hi) lk l _ El Hpc) as [Hh Hr].
  eexists. split.
  { unfold lock_acquire, running_thread. rewrite bind_gets, (bindM_ok _ _ _ _ _ (get_lock_ok _ _ _ El)).
    rewrite Hh, Z.eqb_refl. cbn [negb]. done. }
  apply (inv_same _ (upd pcs (cur (kc k)) (In lk))).
  - apply (inv_inside k pcs D Γ rs ws lk l); try done; [unfold crit; auto|by left|].
    intros _. cbn [holder holder_repeat_cnt]. rewrite u32_small by lia. lia.
  - intros t. unfold upd. by destruct (Z.eq_dec (cur (kc k)) t) as [<-|].
Qed.

Lemma release_clear_ok k pcs D Γ rs ws lk : inv k pcs D Γ rs ws -> pcs (cur (kc k)) = In lk ->
  exists up k', lock_release_clear lk k = Ok (up, k') /\
    inv k' (if (up : bool) then upd pcs (cur (kc k)) (Leaving lk) else pcs) D Γ rs ws.
Proof.
  intros Hi Hpc. destruct (wo_known _ _ _ _ (iv_wait _ _ _ _ _ _ Hi) (cur (kc k)) lk) as [l El];
    [by rewrite Hpc|].
  destruct (li_holder _ _ (iv_lock _ _ _ _ _ _ Hi) lk l _ El Hpc) as [Hh Hr].
  assert (Hcr : crit pcs lk (cur (kc k))) by (unfold crit; auto).
  unfold lock_release_clear. rewrite (bindM_ok _ _ _ _ _ (get_lock_ok _ _ _ El)).
  destruct (Z.ltb_spec 1 (holder_repeat_cnt l)) as [Hlt|Hle].
  - exists false. eexists. split; [done|].
    apply (inv_same _ (upd pcs (cur (kc k)) (In lk))).
    + apply (inv_inside k pcs D Γ rs ws lk l); try done; [by left|].
      intros _. cbn [holder holder_repeat_cnt]. rewrite Hh. lia.
    + intros t. unfold upd. by destruct (Z.eq_dec (cur (kc k)) t) as [<-|].
  - exists true. eexists. split.
    { rewrite bind_assert by (apply Z.eqb_eq; lia). unfold set_lock. rewrite !bind_modify.
      cbn [set_ksy ksy locks sema_value]. rewrite insert_insert_eq. done. }
    apply (inv_inside k pcs D Γ rs ws lk l (mk_lock NULL 0) (Leaving lk)); try done. by right.
Qed.

Lemma preempt_ok k pcs D Γ rs ws : inv k pcs D Γ rs ws -> status_of (km k) = INTR_ON ->
  exists k' Γ' rs', schedule (set_km (mach_if INTR_OFF (km k)) k) = Ok (tt, k') /\
    inv k' pcs D Γ' rs' ws.
Proof.
  intros Hi Hon. set (k0 := set_km (mach_if INTR_OFF (km k)) k).
  assert (Hi0 : inv k0 pcs D Γ rs ws) by (apply inv_if; [done|by left]).
  pose proof Hi0 as [HS [W1 W2 W3 W4 W5] HL HK].
  assert (Hoff : status_of (km k0) = INTR_OFF) by exact (status_with_if INTR_OFF (eflags (km k)) ∅ ∅).
  destruct (schedule_preempt k0 D Γ rs HS Hoff) as (k' & next & rest & p & E & Ep & Hq & Hsw).
  cbv zeta in Hsw. set (k1 := set_pcbs _ k0) in *.
  assert (Hst1 : forall x, st k1 x = if Z.eq_dec (cur (kc k)) x then Some TASK_READY else st k x)
    by (intros x; exact (st_insert k0 (cur (kc k)) (set_status TASK_READY (set_ticks (priority p) p)) x)).
  assert (Hrun : st k (cur (kc k)) = Some TASK_RUNNING) by apply HS.
  assert (Hst : forall t, st k' t = Some TASK_BLOCKED <-> st k t = Some TASK_BLOCKED).
  { intros t. destruct Hsw as (Hok' & Hc' & _ & _ & Ho). destruct (decide (t = next)) as [->|Hne].
    - destruct Hok' as [_ Hr']. rewrite Hc' in Hr'. rewrite Hr'. split; [done|]. intros Hb.
      assert (Hin : next ∈ rs ++ [cur (kc k)]).
      { change (cur (kc k)) with (cur (kc k0)). rewrite Hq. set_solver. }
      apply elem_of_app in Hin as [Hin|Hin].
      + apply (sp_rs _ _ _ _ (proj1 HS)) in Hin. change (st k next = Some TASK_READY) in Hin. congruence.
      + apply list_elem_of_singleton in Hin as ->. congruence.
    - assert (Es : st k' t = st k1 t) by (unfold st; by rewrite (runs_others _ _ _ _ Ho)). rewrite Es, Hst1.
      destruct (Z.eq_dec (cur (kc k)) t) as [<-|]; [|done]. by rewrite Hrun. }
  pose proof Hsw as (Hok' & Hc' & _ & Hf & _). destruct (kth_frame _ _ Hf) as [Er Ei].
  destruct Hf as (_ & Ey & _ & Ee).
  exists k', (<[thread_ready_list (kth k0) := map general_node rest]> Γ), rest. split; [done|]. split.
  - exact Hok'.
  - split; rewrite ?Ey, ?Er, ?Ei; try done.
    + intros lk Hlk. destruct (W1 lk Hlk) as [Ha Hb]. by rewrite lookup_insert_ne.
    + intros lk t Hlk. rewrite Hst. by apply W2.
    + intros _. unfold status_of. rewrite Ee. exact Hoff.
  - by rewrite Ey.
  - intros lk Hv Hne. rewrite Ey in Hv. destruct (HK lk Hv Hne) as (t & o & Ht & Hs).
    exists t, o. split; [done|]. by rewrite Hst.
Qed.

Lemma exec_ok a s : sys_ok s -> allowed a s -> exists s', exec a s = Ok s' /\ sys_ok s'.
Proof.
  intros (pcs & D & Γ & rs & ws & Hp & Hi) Ha.
  pose proof (wo_idle _ _ _ _ (iv_wait _ _ _ _ _ _ Hi)) as Hid.
  unfold exec, allowed in *. cbv zeta in *. rewrite Hp in *. set (k := sk s) in *.
  destruct a as [lk| | |lk| | | |].
  - destruct Ha as (Hpc & Hlk & Hni). rewrite Hpc. unfold semaphore_down.
    rewrite (bindM_ok _ _ _ _ _ (on_disable k)). set (k0 := set_km _ k).
    assert (Hi0 : inv k0 pcs D Γ rs ws) by (apply inv_if; [done|by left]).
    destruct (down_iter_ok k0 pcs D Γ rs ws lk (status_of (km k)) Hi0 Hni Hlk) as (b & k' & Γ' & rs' & ws' & E & Hi');
      [by left|].
    rewrite (bindM_ok _ _ _ _ _ E). destruct b; cbn; eexists; (split; [done|]); by eapply sys_ok_at.
  - destruct Ha as (lk & old & Hpc). rewrite Hpc. unfold semaphore_down_again.
    rewrite (bindM_ok _ _ _ _ _ (resume_ok INTR_OFF k)). set (k0 := set_km _ k).
    assert (Hi0 : inv k0 pcs D Γ rs ws) by (apply inv_if; [done|by left]).
    destruct (down_iter_ok k0 pcs D Γ rs ws lk old Hi0) as (b & k' & Γ' & rs' & ws' & E & Hi').
    { intros E. change (cur (kc k) = idle_thread (kth k)) in E. rewrite E in Hpc. congruence. }
    { apply (wo_known _ _ _ _ (iv_wait _ _ _ _ _ _ Hi) (cur (kc k))). by rewrite Hpc. }
    { right. by exists old. }
    rewrite E. destruct b; eexists; (split; [done|]); by eapply sys_ok_at.
  - destruct Ha as (lk & Hpc). rewrite Hpc.
    destruct (acquire_set_ok k pcs D Γ rs ws lk Hi Hpc) as (k' & E & Hi').
    rewrite E. eexists. split; [done|]. by eapply sys_ok_at.
  - destruct Ha as (Hpc & l & El & Hc). rewrite Hpc.
    destruct (acquire_nested_ok k pcs D Γ rs ws lk l Hi Hpc El Hc) as (k' & E & Hi').
    rewrite E. eexists. split; [done|]. by exists pcs, D, Γ, rs, ws.
  - destruct Ha as (lk & Hpc). rewrite Hpc.
    destruct (release_clear_ok k pcs D Γ rs ws lk Hi Hpc) as (up & k' & E & Hi').
    rewrite E. eexists. split; [done|]. destruct up; [by eapply sys_ok_at|]. by exists pcs, D, Γ, rs, ws.
  - destruct Ha as (lk & Hpc). rewrite Hpc.
    destruct (wo_known _ _ _ _ (iv_wait _ _ _ _ _ _ Hi) (cur (kc k)) lk) as [l El]; [by rewrite Hpc|].
    destruct (semaphore_up_ok k pcs D Γ rs ws lk l Hi El Hpc) as (k' & Γ' & rs' & ws' & E & Hi').
    rewrite E. eexists. split; [done|]. by eapply sys_ok_at.
  - destruct (preempt_ok k pcs D Γ rs ws Hi Ha) as (k' & Γ' & rs' & E & Hi').
    exists (mk_sys k' (ctl s)). split; [|by exists pcs, D, Γ', rs', ws].
    destruct (pcs (cur (kc k))); by rewrite E.
  - exists (mk_sys (set_km (mach_if INTR_ON (km k)) k) (ctl s)). split.
    + by destruct (pcs (cur (kc k))).
    + exists pcs, D, Γ, rs, ws. split; [done|]. apply inv_if; [done|]. right.
      destruct (pcs (cur (kc k))); by try intros [].
Qed.

(** ** Initialising a lock *)

Lemma lock_init_ok k pcs D Γ rs ws lk : inv k pcs D Γ rs ws ->
  locks (ksy k) !! lk = None -> Γ !! waiters (lock_semaphore lk) = None ->
  fresh Γ (head_of (waiters (lock_semaphore lk))) -> fresh Γ (tail_of (waiters (lock_semaphore lk))) ->
  waiters (lock_semaphore lk) <> thread_ready_list (kth k) ->
  (forall t, is_Some (pcbs (kth k) !! t) -> fresh Γ (general_node t) ->
     general_node t <> head_of (waiters (lock_semaphore lk)) /\
     general_node t <> tail_of (waiters (lock_semaphore lk))) ->
  exists k', lock_init lk k = Ok (tt, k') /\
    inv k' pcs D (<[waiters (lock_semaphore lk) := []]> Γ) rs (upd ws lk []) /\
    locks (ksy k') !! lk = Some (mk_lock NULL 0) /\ kc k' = kc k /\ kth k' = kth k.
Proof.
  intros [HS [W1 W2 W3 W4 W5] HL HK] Hlk HW Hfh Hft HWr Hg.
  set (W := waiters (lock_semaphore lk)) in *. pose proof HS as [Hpre Hrun].
  destruct (list_init_ok _ Γ W (sp_lists _ _ _ _ Hpre) HW Hfh Hft) as (m & Em & Hlm & He).
  set (y := mk_sync (<[lock_semaphore lk := 1]> (sema_value (ksy k)))
                    (<[lk := mk_lock NULL 0]> (locks (ksy k)))).
  set (k1 := set_ksy y k). exists (set_km m k1).
  assert (Hno : forall t, pc_lock (pcs t) <> Some lk).
  { intros t E. destruct (W4 t lk E) as [l El]. congruence. }
  assert (Hst : forall t, st k t = Some TASK_RUNNING \/ t = idle_thread (kth k) ->
    is_Some (pcbs (kth k) !! t)).
  { intros t [Ht|Ht]; [|subst t; destruct (sp_idle _ _ _ _ Hpre) as (s & Ht & _)];
      unfold st in Ht; apply fmap_Some in Ht as (p & E & _); eauto. }
  split; [|split; [|split; [apply lookup_insert_eq|done]]].
  { unfold lock_init, semaphore_init, set_lock, set_value. rewrite !bind_modify. by apply on_mach_ok. }
  split.
  - split; [|done]. pose proof (sched_ok_ksy k y D Γ rs HS) as [Hpre1 _].
    apply (sched_pre_relist k1 m D Γ _ rs Hpre1 Hlm).
    + by rewrite lookup_insert_ne.
    + intros t Ht Hf. destruct (Hg t (Hst t Ht) Hf) as [Hh Htl]. apply fresh_insert; [done|].
      unfold foot. cbn. set_solver.
  - split; cbn [set_km k1 set_ksy ksy kth kc km]; try done.
    + intros lk' [l Hl]. unfold upd. destruct (Z.eq_dec lk lk') as [<-|Hne].
      * split; [apply lookup_insert_eq | done].
      * unfold y in Hl. cbn in Hl. rewrite lookup_insert_ne in Hl by done.
        destruct (W1 lk' ltac:(eauto)) as [Ha Hb]. split; [|done].
        rewrite lookup_insert_ne; [done|]. unfold W, waiters, lock_semaphore. lia.
    + intros lk' t [l Hl]. unfold upd. destruct (Z.eq_dec lk lk') as [<-|Hne].
      * split; [by intros ?%not_elem_of_nil|]. intros [[o Ho] _]. destruct (Hno t). by rewrite Ho.
      * unfold y in Hl. cbn in Hl. rewrite lookup_insert_ne in Hl by done. apply W2. eauto.
    + intros t lk' E. unfold y. cbn. destruct (W4 t lk' E) as [l El].
      rewrite lookup_insert_ne; [eauto|congruence].
    + intros Ht. unfold status_of in *. rewrite He. by apply W5.
  - assert (Hcr : forall t, ~ crit pcs lk t).
    { intros t Hc. apply (Hno t). by destruct Hc as [->|[-> | ->]]. }
    destruct HL as [L1 L2 L3]. split; cbn [set_km k1 set_ksy ksy]; unfold y; cbn [locks sema_value].
    + intros lk' l [[<- <-]|[Hne El]]%lookup_insert_Some.
      * left. split; [apply lookup_insert_eq | done].
      * rewrite lookup_insert_ne by (unfold lock_semaphore; lia). by apply (L1 lk' l).
    + intros lk' l t [[<- <-]|[Hne El]]%lookup_insert_Some Ht; [|by eapply L2].
      destruct (Hno t). by rewrite Ht.
    + intros lk' l [[<- <-]|[Hne El]]%lookup_insert_Some Ht; [done|by eapply L3].
  - intros lk' Hv Hne. unfold upd in Hne. destruct (Z.eq_dec lk lk') as [<-|Hnl]; [done|].
    apply HK; [|done]. cbn in Hv. rewrite lookup_insert_ne in Hv by (unfold lock_semaphore; lia). done.
Qed.

(** ** Properties *)

Inductive reach (s0 : sys) : sys -> Prop :=
  | reach_refl : reach s0 s0
  | reach_step s a s' : reach s0 s -> allowed a s -> exec a s = Ok s' -> reach s0 s'.

Lemma reach_ok s0 s : sys_ok s0 -> reach s0 s -> sys_ok s.
Proof.
  intros H0. induction 1 as [|s a s' _ IH Ha E]; [done|].
  destruct (exec_ok a s IH Ha) as (s1 & E1 & H1). rewrite E in E1. by injection E1 as <-.
Qed.

(** C1. Mutual exclusion: in every state reached by any interleaving of
    acquisitions, releases (nested ones included), timer preemptions and
    returns, at most one thread has returned from [lock_acquire] of a lock and
    not yet released it, and it is the thread the lock records as its holder. *)
Theorem lock_mutual_exclusion (s0 s : sys) (lk t1 t2 : Z) :
  sys_ok s0 -> reach s0 s -> pc_of s t1 = In lk -> pc_of s t2 = In lk ->
  t1 = t2 /\ exists l, locks (ksy (sk s)) !! lk = Some l /\ holder l = t1 /\ 1 <= holder_repeat_cnt l.
Proof.
  intros H0 Hr H1 H2. destruct (reach_ok _ _ H0 Hr) as (pcs & D & Γ & rs & ws & Hp & Hi).
  rewrite Hp in H1, H2. destruct (wo_known _ _ _ _ (iv_wait _ _ _ _ _ _ Hi) t1 lk) as [l El];
    [by rewrite H1|].
  destruct (crit_value _ _ lk l t1 (iv_lock _ _ _ _ _ _ Hi) El) as [_ Hu]; [unfold crit; auto|].
  split; [symmetry; apply Hu; unfold crit; auto|]. exists l. split; [done|].
  destruct (li_holder _ _ (iv_lock _ _ _ _ _ _ Hi) lk l t1 El H1). lia.
Qed.

(** C32. No assertion of the scheduler, the lists, the semaphores or the locks
    can fail, and no bad pointer is followed: from every reachable state every
    step a thread may take runs to completion. *)
Theorem lock_steps_never_panic (s0 s : sys) (a : action) :
  sys_ok s0 -> reach s0 s -> allowed a s -> exists s', exec a s = Ok s'.
Proof.
  intros H0 Hr Ha. destruct (exec_ok a s (reach_ok _ _ H0 Hr) Ha) as (s' & E & _). by exists s'.
Qed.

(** C31. No wake-up is lost: whenever a thread sleeps in [semaphore_down] of a
    lock, some thread is inside the lock (between taking and giving back its
    semaphore), or some thread in [semaphore_down] is awake and will test the
    semaphore again. *)
Theorem lock_no_lost_wakeup (s0 s : sys) (lk t : Z) (old : intr_status) :
  sys_ok s0 -> reach s0 s -> pc_of s t = Trying lk old -> st (sk s) t = Some TASK_BLOCKED ->
  exists t', (pc_of s t' = Got lk \/ pc_of s t' = In lk \/ pc_of s t' = Leaving lk) \/
    exists old', pc_of s t' = Trying lk old' /\ st (sk s) t' <> Some TASK_BLOCKED.
Proof.
  intros H0 Hr Ht Hb. destruct (reach_ok _ _ H0 Hr) as (pcs & D & Γ & rs & ws & Hp & Hi).
  rewrite Hp in Ht. destruct (wo_known _ _ _ _ (iv_wait _ _ _ _ _ _ Hi) t lk) as [l El];
    [by rewrite Ht|].
  assert (Hw : t ∈ ws lk) by (apply (wo_ws _ _ _ _ (iv_wait _ _ _ _ _ _ Hi) lk t); eauto).
  destruct (li_value _ _ (iv_lock _ _ _ _ _ _ Hi) lk l El) as [[Hv _]|(_ & x & Hx & _)].
  - destruct (iv_wake _ _ _ _ _ _ Hi lk Hv) as (x & o & Hx & Hs).
    { intros E. rewrite E in Hw. by apply not_elem_of_nil in Hw. }
    exists x. right. exists o. by rewrite Hp.
  - exists x. left. by rewrite !Hp.
Qed.

(** ** A concrete system for the witnesses *)

Definition demo_lock : Z := 0x500.

Lemma demo_inv : inv demo_sched (fun _ => Out) (fun _ => 0x100000) (list_to_map [(16, [0x2024])])
  [0x2000] (fun _ => []).
Proof.
  split; [exact demo_sched_ok| | |].
  - split; try done; intros lk; intros; destruct H; done.
  - split; intros lk; intros; done.
  - intros lk Hv. done.
Qed.

(** The three threads of [demo_sched] and one lock, just initialised. *)
Definition demo_locked : kernel :=
  match lock_init demo_lock demo_sched with Ok (_, k) => k | Err _ => demo_sched end.
Definition demo_sys : sys := mk_sys demo_locked ∅.

Lemma demo_sys_ok : sys_ok demo_sys.
Proof.
  destruct (lock_init_ok _ _ _ _ _ _ demo_lock demo_inv) as (k' & E & Hi & _).
  - reflexivity.
  - reflexivity.
  - apply freshb_sound. vm_compute. reflexivity.
  - apply freshb_sound. vm_compute. reflexivity.
  - discriminate.
  - intros t [p Hp] _. unfold general_node, head_of, tail_of, waiters, lock_semaphore, demo_lock.
    change (pcbs (kth demo_sched)) with
      (list_to_map [(0x1000, demo_pcb TASK_RUNNING); (0x2000, demo_pcb TASK_READY);
                    (0x3000, demo_pcb TASK_BLOCKED)] : gmap Z pcb) in Hp.
    apply elem_of_list_to_map_2 in Hp.
    repeat (apply elem_of_cons in Hp as [Hp|Hp]; [injection Hp as -> ->; lia|]).
    by apply not_elem_of_nil in Hp.
  - unfold demo_sys, demo_locked. rewrite E.
    exists (fun _ => Out), (fun _ => 0x100000), (<[waiters (lock_semaphore demo_lock) := []]>
      (list_to_map [(16, [0x2024])])), [0x2000], (upd (fun _ => []) demo_lock []).
    by split.
Qed.

Definition run (acts : list action) (s : sys) : sys :=
  fold_left (fun s a => match exec a s with Ok s' => s' | Err _ => s end) acts s.

Definition allowedb (a : action) (s : sys) : bool :=
  match a, pc_of s (cur (kc (sk s))) with
  | AAcquire lk, Out => bool_decide (is_Some (locks (ksy (sk s)) !! lk)) &&
      negb (cur (kc (sk s)) =? idle_thread (kth (sk s)))
  | ARetry, Trying _ _ | ASet, Got _ | ARelease, In _ | AUp, Leaving _ => true
  | APreempt, _ => bool_decide (status_of (km (sk s)) = INTR_ON)
  | AIret, Trying _ _ => false
  | AIret, _ => true
  | _, _ => false
  end.

Lemma allowedb_sound a s : allowedb a s = true -> allowed a s.
Proof.
  unfold allowedb, allowed. destruct a, (pc_of s (cur (kc (sk s)))) eqn:E; try done; intros H; eauto;
    try (by apply bool_decide_eq_true in H).
  bool_prop. apply bool_decide_eq_true in H. done.
Qed.

(** Each action of the list is allowed and succeeds. *)
Fixpoint runs (acts : list action) (s : sys) : bool :=
  match acts with
  | [] => true
  | a :: acts' => allowedb a s &&
      match exec a s with Ok s' => runs acts' s' | Err _ => false end
  end.

Lemma runs_reach acts : forall s0 s, reach s0 s -> runs acts s = true -> reach s0 (run acts s).
Proof.
  induction acts as [|a acts IH]; intros s0 s Hr H; [done|]. cbn [runs] in H. bool_prop.
  unfold run. cbn [fold_left]. destruct (exec a s) as [s'|] eqn:E; [|done].
  apply IH; [|done]. by eapply reach_step; [|apply allowedb_sound|].
Qed.

(** Thread 0x1000 takes the lock and is preempted; thread 0x2000 tries it. *)
Definition demo_acts : list action :=
  [AIret; AAcquire demo_lock; ASet; APreempt; AIret; AAcquire demo_lock].

Lemma lock_mutual_exclusion_witness :
  pc_of (run demo_acts demo_sys) 0x1000 = In demo_lock /\
  exists l, locks (ksy (sk (run demo_acts demo_sys))) !! demo_lock = Some l /\ holder l = 0x1000.
Proof.
  assert (Hr : reach demo_sys (run demo_acts demo_sys))
    by (apply runs_reach; [constructor|vm_compute; reflexivity]).
  assert (Hp : pc_of (run demo_acts demo_sys) 0x1000 = In demo_lock) by (vm_compute; reflexivity).
  destruct (lock_mutual_exclusion demo_sys _ demo_lock 0x1000 0x1000 demo_sys_ok Hr Hp Hp)
    as (_ & l & E & Hh & _).
  split; [exact Hp|]. exists l. split; [exact E|exact Hh].
Defined.

Lemma lock_steps_never_panic_witness :
  exists s', exec ARelease (run demo_acts demo_sys) = Ok s'.
Proof.
  apply (lock_steps_never_panic demo_sys _ _ demo_sys_ok).
  - apply runs_reach; [constructor|vm_compute; reflexivity].
  - apply allowedb_sound. vm_compute. reflexivity.
Defined.

Lemma lock_no_lost_wakeup_witness :
  exists t', (pc_of (run demo_acts demo_sys) t' = Got demo_lock \/
              pc_of (run demo_acts demo_sys) t' = In demo_lock \/
              pc_of (run demo_acts demo_sys) t' = Leaving demo_lock) \/
    exists old', pc_of (run demo_acts demo_sys) t' = Trying demo_lock old' /\
      st (sk (run demo_acts demo_sys)) t' <> Some TASK_BLOCKED.
Proof.
  apply (lock_no_lost_wakeup demo_sys _ demo_lock 0x2000 INTR_ON demo_sys_ok).
  - apply runs_reach; [constructor|vm_compute; reflexivity].
  - vm_compute. reflexivity.
  - vm_compute. reflexivity.
Defined.
