(* ===== verification/IoQueue.v ===== *)
(** * IoQueue: the ring buffer of device/ioqueue.c

    [qk] is the kernel the queue lives in, [q] the queue; [qlock] is the
    address of its lock.  [contents q] is the specification view: the
    characters from [tail] up to [head], oldest first.  A call that finds the
    queue empty (or full) switches to another thread: it returns [Waits]. *)

From S2P Require Import Prelude Interrupt Lists Bitmap Kernel Paging Thread Sync.

Definition BUF_SIZE : Z := 64.

Record ioqueue := mk_ioqueue {
  qlock : Z;
  producer : Z;
  consumer : Z;
  buf : list Z;
  head : Z;
  tail : Z }.

Record qstate := mk_qstate { qk : kernel; q : ioqueue }.

(** An operation of the kernel as an operation on the state with the queue. *)
Definition on_kernel {A} (m : M kernel A) : M qstate A := fun s =>
  match m (qk s) with Ok (a, k) => Ok (a, mk_qstate k (q s)) | Err e => Err e end.

Definition set_q (f : ioqueue -> ioqueue) : M qstate unit :=
  modify (fun s => mk_qstate (qk s) (f (q s))).

Definition set_producer (t : Z) (x : ioqueue) : ioqueue :=
  mk_ioqueue (qlock x) t (consumer x) (buf x) (head x) (tail x).
Definition set_consumer (t : Z) (x : ioqueue) : ioqueue :=
  mk_ioqueue (qlock x) (producer x) t (buf x) (head x) (tail x).

Definition ioqueue_init : M qstate unit :=
  lk ← gets (fun s => qlock (q s));
  _ ← on_kernel (lock_init lk);
  set_q (fun x => mk_ioqueue (qlock x) NULL NULL (buf x) 0 0).

Definition get_next_pos (pos : Z) : Z := Z.rem (pos + 1) BUF_SIZE.

Definition is_ioq_full : M qstate bool :=
  st ← on_kernel (on_mach intr_get_status);
  _ ← ASSERTM (bool_decide (st = INTR_OFF));
  gets (fun s => get_next_pos (head (q s)) =? tail (q s)).

Definition is_ioq_empty : M qstate bool :=
  st ← on_kernel (on_mach intr_get_status);
  _ ← ASSERTM (bool_decide (st = INTR_OFF));
  gets (fun s => head (q s) =? tail (q s)).

(** [ioq_wait(&q->producer)] and [ioq_wait(&q->consumer)], [wakeup] likewise. *)
Inductive side := Producer | Consumer.

Definition waiter (d : side) (x : ioqueue) : Z :=
  match d with Producer => producer x | Consumer => consumer x end.
Definition set_waiter (d : side) (t : Z) (x : ioqueue) : ioqueue :=
  match d with Producer => set_producer t x | Consumer => set_consumer t x end.

Definition ioq_wait (d : side) : M qstate unit :=
  w ← gets (fun s => waiter d (q s));
  _ ← ASSERTM (w =? NULL);
  now ← on_kernel running_thread;
  _ ← set_q (set_waiter d now);
  _ ← on_kernel (thread_block TASK_BLOCKED);
  mret tt.

Definition wakeup (d : side) : M qstate unit :=
  w ← gets (fun s => waiter d (q s));
  _ ← ASSERTM (negb (w =? NULL));
  _ ← on_kernel (thread_unblock w);
  set_q (set_waiter d NULL).

(** Outcome of a call: finished, or suspended in [lock_acquire] or in
    [ioq_wait]. *)
Inductive outcome (A : Type) := Done (a : A) | WaitsLock (old : intr_status) | Waits.
Arguments Done {A} a.
Arguments WaitsLock {A} old.
Arguments Waits {A}.

Definition ioq_getchar : M qstate (outcome Z) :=
  st ← on_kernel (on_mach intr_get_status);
  _ ← ASSERTM (bool_decide (st = INTR_OFF));
  e ← is_ioq_empty;
  if (e : bool) then
    lk ← gets (fun s => qlock (q s));
    r ← on_kernel (lock_acquire lk);
    match r with
    | Some old => mret (WaitsLock old)
    | None => _ ← ioq_wait Consumer; mret Waits
    end
  else
    x ← gets q;
    c ← lift (aget (buf x) (tail x));
    _ ← set_q (fun x => mk_ioqueue (qlock x) (producer x) (consumer x) (buf x) (head x)
                          (get_next_pos (tail x)));
    p ← gets (fun s => producer (q s));
    _ ← (if negb (p =? NULL) then wakeup Producer else mret tt);
    mret (Done c).

Definition ioq_putchar (c : Z) : M qstate (outcome unit) :=
  st ← on_kernel (on_mach intr_get_status);
  _ ← ASSERTM (bool_decide (st = INTR_OFF));
  f ← is_ioq_full;
  if (f : bool) then
    lk ← gets (fun s => qlock (q s));
    r ← on_kernel (lock_acquire lk);
    match r with
    | Some old => mret (WaitsLock old)
    | None => _ ← ioq_wait Producer; mret Waits
    end
  else
    x ← gets q;
    b ← lift (aset (buf x) (head x) c);
    _ ← set_q (fun x => mk_ioqueue (qlock x) (producer x) (consumer x) b
                          (get_next_pos (head x)) (tail x));
    w ← gets (fun s => consumer (q s));
    _ ← (if negb (w =? NULL) then wakeup Consumer else mret tt);
    mret (Done tt).

(** What the two loops do after [ioq_wait] has returned, before they test the
    queue again: the consumer releases the lock, the producer acquires it. *)
Definition getchar_woken : M qstate unit :=
  _ ← on_kernel (resume INTR_OFF);
  lk ← gets (fun s => qlock (q s));
  on_kernel (lock_release lk).

Definition putchar_woken : M qstate (option intr_status) :=
  _ ← on_kernel (resume INTR_OFF);
  lk ← gets (fun s => qlock (q s));
  on_kernel (lock_acquire lk).

(** ** Specification *)

Record queue_wf (x : ioqueue) : Prop := {
  qw_len : zlen (buf x) = BUF_SIZE;
  qw_head : 0 <= head x < BUF_SIZE;
  qw_tail : 0 <= tail x < BUF_SIZE }.

Definition count (x : ioqueue) : Z := (head x - tail x) mod 64.

Definition contents (x : ioqueue) : list Z :=
  map (fun i => at_ (buf x) ((tail x + i) mod 64)) (seqZ 0 (count x)).

(** ** Lemmas *)

Lemma next_pos p : 0 <= p < 64 -> get_next_pos p = (p + 1) mod 64.
Proof. intros. unfold get_next_pos, BUF_SIZE. apply Z.rem_mod_nonneg; lia. Qed.

Lemma contents_length x : zlen (contents x) = count x.
Proof.
  unfold zlen, contents. rewrite length_map, length_seqZ. unfold count. zarith.
Qed.

Lemma empty_iff x : queue_wf x -> head x = tail x <-> contents x = [].
Proof.
  intros [_ Hh Ht]. unfold BUF_SIZE in *. pose proof (contents_length x) as Hl. unfold count in Hl. split.
  - intros E. rewrite E, Z.sub_diag in Hl. change (0 mod 64) with 0 in Hl.
    apply length_zero_iff_nil. unfold zlen in Hl. lia.
  - intros E. rewrite E in Hl. change (zlen []) with 0 in Hl. zarith.
Qed.

Lemma full_iff x : queue_wf x -> get_next_pos (head x) = tail x <-> zlen (contents x) = 63.
Proof.
  intros [_ Hh Ht]. unfold BUF_SIZE in *. rewrite next_pos, contents_length by lia. unfold count. zarith.
Qed.

Definition push (x : ioqueue) (c : Z) : ioqueue :=
  mk_ioqueue (qlock x) (producer x) (consumer x) (<[Z.to_nat (head x) := c]> (buf x))
    (get_next_pos (head x)) (tail x).

Definition pop (x : ioqueue) : ioqueue :=
  mk_ioqueue (qlock x) (producer x) (consumer x) (buf x) (head x) (get_next_pos (tail x)).

Lemma push_contents x c : queue_wf x -> zlen (contents x) < 63 ->
  queue_wf (push x c) /\ contents (push x c) = contents x ++ [c].
Proof.
  intros [Hl Hh Ht] Hc. rewrite contents_length in Hc. unfold BUF_SIZE, count in *.
  split.
  { split; cbn [push buf head tail]; [by rewrite zlen_insert | | done].
    rewrite next_pos by lia. unfold BUF_SIZE. zarith. }
  unfold contents, count. cbn [push buf head tail]. rewrite next_pos by lia.
  replace (((head x + 1) mod 64 - tail x) mod 64) with ((head x - tail x) mod 64 + 1) by zarith.
  rewrite seqZ_app by zarith. rewrite map_app. f_equal.
  - apply map_ext_in. intros i Hi%list_elem_of_In%elem_of_seqZ.
    rewrite at_insert by zarith. destruct (Z.eq_dec _ _) as [E|]; [|done]. exfalso. zarith.
  - rewrite seqZ_cons by lia. change (Z.pred 1) with 0. rewrite seqZ_nil by lia. cbn [map].
    rewrite at_insert by zarith.
    destruct (Z.eq_dec _ _) as [E|N]; [done|]. destruct N. zarith.
Qed.

Lemma pop_contents x : queue_wf x -> contents x <> [] ->
  queue_wf (pop x) /\ contents x = at_ (buf x) (tail x) :: contents (pop x).
Proof.
  intros Hwf Hne. pose proof Hwf as [Hl Hh Ht]. unfold BUF_SIZE in *.
  rewrite <- empty_iff in Hne by done. split.
  { split; cbn [pop buf head tail]; [done | done |]. rewrite next_pos by lia. unfold BUF_SIZE. zarith. }
  unfold contents, count. cbn [pop buf head tail]. rewrite next_pos by lia.
  rewrite seqZ_cons by zarith. cbn [map]. f_equal.
  - f_equal. zarith.
  - replace (Z.pred ((head x - tail x) mod 64)) with ((head x - (tail x + 1) mod 64) mod 64) by zarith.
    rewrite <- (fmap_add_seqZ 1 0). rewrite map_map. apply map_ext. intros i. f_equal. zarith.
Qed.

Lemma on_kernel_ok {A} (m : M kernel A) s a k : m (qk s) = Ok (a, k) ->
  on_kernel m s = Ok (a, mk_qstate k (q s)).
Proof. intros E. unfold on_kernel. by rewrite E. Qed.

Lemma check_off s : status_of (km (qk s)) = INTR_OFF ->
  on_kernel (on_mach intr_get_status) s = Ok (INTR_OFF, s).
Proof. intros E. unfold on_kernel. rewrite on_get_status, E. by destruct s. Qed.

Lemma is_ioq_empty_ok s : status_of (km (qk s)) = INTR_OFF ->
  is_ioq_empty s = Ok (head (q s) =? tail (q s), s).
Proof. intros E. unfold is_ioq_empty. by rewrite (bindM_ok _ _ _ _ _ (check_off s E)). Qed.

Lemma is_ioq_full_ok s : status_of (km (qk s)) = INTR_OFF ->
  is_ioq_full s = Ok (get_next_pos (head (q s)) =? tail (q s), s).
Proof. intros E. unfold is_ioq_full. by rewrite (bindM_ok _ _ _ _ _ (check_off s E)). Qed.

(** The thread recorded as waiting, if any, is asleep in no list. *)
Definition waiter_ok (k : kernel) (Γ : gmap Z (list Z)) (t : Z) : Prop :=
  t = NULL \/ exists p, pcbs (kth k) !! t = Some p /\ is_waiting (status p) = true /\
    fresh Γ (general_node t).

(** Waking the waiter of one side, when there is one. *)
Definition woken (d : side) (s s' : qstate) (D : Z -> Z) (Γ : gmap Z (list Z)) (rs : list Z) : Prop :=
  let t := waiter d (q s) in
  (t = NULL /\ s' = s) \/
  (t <> NULL /\ q s' = set_waiter d NULL (q s) /\ st (qk s') t = Some TASK_READY /\
   ksy (qk s') = ksy (qk s) /\
   sched_pre (qk s') D (<[thread_ready_list (kth (qk s)) := map general_node (t :: rs)]> Γ) (t :: rs)).

Lemma wakeup_ok d s D Γ rs : sched_pre (qk s) D Γ rs -> waiter_ok (qk s) Γ (waiter d (q s)) ->
  exists s', (if negb (waiter d (q s) =? NULL) then wakeup d else mret tt) s = Ok (tt, s') /\
    woken d s s' D Γ rs.
Proof.
  intros Hpre [E|(p & Ep & Hw & Hfr)].
  - rewrite E. exists s. split; [done|]. by left.
  - assert (Hn : waiter d (q s) <> NULL) by (apply (sp_null _ _ _ _ Hpre); eauto).
    destruct (thread_unblock_ok _ D Γ rs _ p Hpre Ep Hw Hfr) as (m & Eu & He & Hpre'). cbv zeta in *.
    set (k' := set_km m _) in *. exists (mk_qstate k' (set_waiter d NULL (q s))). split.
    + rewrite (proj2 (Z.eqb_neq _ _) Hn). cbn [negb]. unfold wakeup. rewrite bind_gets, bind_assert.
      2:{ by rewrite (proj2 (Z.eqb_neq _ _) Hn). }
      by rewrite (bindM_ok _ _ _ _ _ (on_kernel_ok _ s _ _ Eu)).
    + right. split; [done|]. split; [done|]. split; [|split; [done|exact Hpre']].
      unfold st. cbn. by rewrite lookup_insert_eq.
Qed.

Lemma woken_queue d s s' D Γ rs : woken d s s' D Γ rs ->
  contents (q s') = contents (q s) /\ (queue_wf (q s) -> queue_wf (q s')).
Proof.
  intros [[_ ->]|(_ & -> & _)]; [done|]. destruct d; (split; [done|]); intros [H1 H2 H3]; by split.
Qed.

Lemma woken_sync d s s' D Γ rs y : woken d s s' D Γ rs -> ksy (qk s) = y -> ksy (qk s') = y.
Proof. intros [[_ ->]|(_ & _ & _ & -> & _)]; done. Qed.

Lemma putchar_ok s c D Γ rs : sched_pre (qk s) D Γ rs -> status_of (km (qk s)) = INTR_OFF ->
  queue_wf (q s) -> zlen (contents (q s)) < 63 -> waiter_ok (qk s) Γ (consumer (q s)) ->
  exists s', ioq_putchar c s = Ok (Done tt, s') /\
    woken Consumer (mk_qstate (qk s) (push (q s) c)) s' D Γ rs.
Proof.
  intros Hpre Hoff Hwf Hc Hw. unfold ioq_putchar.
  rewrite (bindM_ok _ _ _ _ _ (check_off s Hoff)), bind_assert by done.
  rewrite (bindM_ok _ _ _ _ _ (is_ioq_full_ok s Hoff)).
  rewrite (proj2 (Z.eqb_neq _ _)) by (rewrite full_iff by done; lia).
  rewrite bind_gets. pose proof Hwf as [Hl Hh Ht]. unfold BUF_SIZE in *.
  erewrite bind_lift by (apply aset_ok; lia). unfold set_q at 1. rewrite bind_modify, bind_gets.
  set (s1 := mk_qstate (qk s) (push (q s) c)).
  destruct (wakeup_ok Consumer s1 D Γ rs Hpre Hw) as (s' & E & Hwk).
  exists s'. split; [|done]. by rewrite (bindM_ok _ _ s1 _ _ E).
Qed.

Lemma getchar_ok s D Γ rs : sched_pre (qk s) D Γ rs -> status_of (km (qk s)) = INTR_OFF ->
  queue_wf (q s) -> contents (q s) <> [] -> waiter_ok (qk s) Γ (producer (q s)) ->
  exists s', ioq_getchar s = Ok (Done (at_ (buf (q s)) (tail (q s))), s') /\
    woken Producer (mk_qstate (qk s) (pop (q s))) s' D Γ rs.
Proof.
  intros Hpre Hoff Hwf Hc Hw. unfold ioq_getchar.
  rewrite (bindM_ok _ _ _ _ _ (check_off s Hoff)), bind_assert by done.
  rewrite (bindM_ok _ _ _ _ _ (is_ioq_empty_ok s Hoff)).
  rewrite (proj2 (Z.eqb_neq _ _)) by (by rewrite empty_iff).
  rewrite bind_gets. pose proof Hwf as [Hl Hh Ht]. unfold BUF_SIZE in *.
  erewrite bind_lift by (apply aget_at; lia). unfold set_q at 1. rewrite bind_modify, bind_gets.
  set (s1 := mk_qstate (qk s) (pop (q s))).
  destruct (wakeup_ok Producer s1 D Γ rs Hpre Hw) as (s' & E & Hwk).
  exists s'. split; [|done]. by rewrite (bindM_ok _ _ s1 _ _ E).
Qed.

(** ** Locks around the waits *)

Lemma mach_if_restore m : mach_if (status_of m) (mach_if INTR_OFF m) = m.
Proof.
  unfold mach_if. cbn [eflags prevs nexts]. rewrite with_if_with_if, with_if_id. by destruct m.
Qed.

(** Acquiring a free lock changes the lock and nothing else. *)
Lemma lock_acquire_free k lk : locks (ksy k) !! lk = Some (mk_lock NULL 0) ->
  sema_value (ksy k) !! lock_semaphore lk = Some 1 -> cur (kc k) <> NULL ->
  lock_acquire lk k = Ok (None, set_ksy (mk_sync (<[lock_semaphore lk := 0]> (sema_value (ksy k)))
    (<[lk := mk_lock (cur (kc k)) 1]> (locks (ksy k)))) k).
Proof.
  intros El Ev Hn. unfold lock_acquire, running_thread. rewrite bind_gets.
  rewrite (bindM_ok _ _ _ _ _ (get_lock_ok _ _ _ El)). cbn [holder].
  rewrite (proj2 (Z.eqb_neq _ _)) by congruence. cbn [negb].
  set (k1 := set_ksy (mk_sync (<[lock_semaphore lk := 0]> (sema_value (ksy k))) (locks (ksy k))) k).
  assert (E : semaphore_down (lock_semaphore lk) k = Ok (None, k1)).
  { unfold semaphore_down. rewrite (bindM_ok _ _ _ _ _ (on_disable k)).
    unfold semaphore_down_iter, mbind at 1, M_bind at 1.
    rewrite (bindM_ok _ _ _ _ _ (get_value_ok (set_km (mach_if INTR_OFF (km k)) k) _ _ Ev)).
    cbn [Z.eqb]. unfold set_value. rewrite bind_modify, bind_assert by done.
    rewrite (bindM_ok _ _ _ _ _ (on_set_status _ _)). cbn [set_ksy set_km km].
    rewrite mach_if_restore. by destruct k. }
  rewrite (bindM_ok _ _ _ _ _ E). unfold lock_acquire_set, running_thread.
  rewrite (bindM_ok _ _ k1 tt (set_ksy (mk_sync (<[lock_semaphore lk := 0]> (sema_value (ksy k)))
    (<[lk := mk_lock (cur (kc k)) 1]> (locks (ksy k)))) k)); [done|].
  rewrite bind_gets, (bindM_ok _ _ _ _ _ (get_lock_ok k1 _ _ El)).
  unfold set_lock. rewrite bind_modify, bind_assert by done. unfold modify.
  cbn [k1 set_ksy ksy locks sema_value]. by rewrite insert_insert_eq.
Qed.

Lemma lock_acquire_again k lk n : locks (ksy k) !! lk = Some (mk_lock (cur (kc k)) n) ->
  lock_acquire lk k = Ok (None, set_ksy (mk_sync (sema_value (ksy k))
    (<[lk := mk_lock (cur (kc k)) (u32 (n + 1))]> (locks (ksy k)))) k).
Proof.
  intros El. unfold lock_acquire, running_thread. rewrite bind_gets.
  rewrite (bindM_ok _ _ _ _ _ (get_lock_ok _ _ _ El)). cbn [holder holder_repeat_cnt].
  by rewrite Z.eqb_refl.
Qed.

(** ** Properties *)

(** C35. The ring buffer is a FIFO queue of 63 characters: with room,
    [ioq_putchar] returns after appending the character, with contents
    [ioq_getchar] returns the oldest one and removes it; a thread recorded as
    waiting on the other side becomes the first of the ready queue and is
    forgotten. *)
Theorem ioqueue_fifo (s : qstate) (D : Z -> Z) (Γ : gmap Z (list Z)) (rs : list Z) :
  sched_pre (qk s) D Γ rs -> status_of (km (qk s)) = INTR_OFF -> queue_wf (q s) ->
  waiter_ok (qk s) Γ (consumer (q s)) -> waiter_ok (qk s) Γ (producer (q s)) ->
  (forall c, zlen (contents (q s)) < 63 ->
     exists s', ioq_putchar c s = Ok (Done tt, s') /\ queue_wf (q s') /\
       contents (q s') = contents (q s) ++ [c] /\ consumer (q s') = NULL /\
       (consumer (q s) <> NULL -> st (qk s') (consumer (q s)) = Some TASK_READY)) /\
  (forall c cs, contents (q s) = c :: cs ->
     exists s', ioq_getchar s = Ok (Done c, s') /\ queue_wf (q s') /\
       contents (q s') = cs /\ producer (q s') = NULL /\
       (producer (q s) <> NULL -> st (qk s') (producer (q s)) = Some TASK_READY)).
Proof.
  intros Hpre Hoff Hwf Hc Hp. split.
  - intros c Hl. destruct (putchar_ok s c D Γ rs Hpre Hoff Hwf Hl Hc) as (s' & E & Hwk).
    destruct (push_contents (q s) c Hwf Hl) as [Hwf1 Hc1].
    destruct (woken_queue _ _ _ _ _ _ Hwk) as [Hcs Hwf2]. exists s'. split; [done|].
    split; [by apply Hwf2|]. split; [by rewrite Hcs|].
    destruct Hwk as [[Hn ->]|(Hn & -> & Hst & _)]; cbn in *; [done|]. by split.
  - intros c cs Ecs. assert (Hne : contents (q s) <> []) by (by rewrite Ecs).
    destruct (getchar_ok s D Γ rs Hpre Hoff Hwf Hne Hp) as (s' & E & Hwk).
    destruct (pop_contents (q s) Hwf Hne) as [Hwf1 Hc1]. rewrite Ecs in Hc1. injection Hc1 as -> ->.
    destruct (woken_queue _ _ _ _ _ _ Hwk) as [Hcs Hwf2]. exists s'. split; [done|].
    split; [by apply Hwf2|]. split; [by rewrite Hcs|].
    destruct Hwk as [[Hn ->]|(Hn & -> & Hst & _)]; cbn in *; [done|]. by split.
Qed.

(** On an empty queue with a free lock the reader takes the lock, records
    itself as the waiting consumer and goes to sleep; another thread runs. *)
Theorem getchar_empty_sleeps (s : qstate) (D : Z -> Z) (Γ : gmap Z (list Z)) (rs : list Z) :
  sched_ok (qk s) D Γ rs -> status_of (km (qk s)) = INTR_OFF -> queue_wf (q s) ->
  contents (q s) = [] -> consumer (q s) = NULL ->
  locks (ksy (qk s)) !! qlock (q s) = Some (mk_lock NULL 0) ->
  sema_value (ksy (qk s)) !! lock_semaphore (qlock (q s)) = Some 1 ->
  let now := cur (kc (qk s)) in
  exists s' next rest, ioq_getchar s = Ok (Waits, s') /\ or_idle (qk s) rs = next :: rest /\
    cur (kc (qk s')) = next /\ consumer (q s') = now /\
    (next <> now -> st (qk s') now = Some TASK_BLOCKED) /\
    locks (ksy (qk s')) !! qlock (q s) = Some (mk_lock now 1).
Proof.
  intros Hok Hoff Hwf He Hc El Ev now. pose proof Hok as [Hpre Hrun].
  assert (Hn : now <> NULL) by (apply (sp_null _ _ _ _ Hpre), Hpre).
  pose proof (lock_acquire_free _ _ El Ev Hn) as Ea. set (y := mk_sync _ _) in Ea.
  pose proof (sched_ok_ksy (qk s) y D Γ rs Hok) as Hok1. set (k1 := set_ksy y (qk s)) in *.
  unfold st in Hrun. apply fmap_Some in Hrun as (p & Ep & Hp).
  destruct (thread_block_ok k1 D Γ rs TASK_BLOCKED p Hok1 eq_refl ltac:(done) Ep)
    as (k' & next & rest & Eb & Hq & (H1 & H2 & _ & (_ & F2 & _) & H5) & _).
  exists (mk_qstate k' (set_consumer now (q s))), next, rest. split; [|split; [exact Hq|]].
  - unfold ioq_getchar. rewrite (bindM_ok _ _ _ _ _ (check_off s Hoff)), bind_assert by done.
    rewrite (bindM_ok _ _ _ _ _ (is_ioq_empty_ok s Hoff)).
    rewrite (proj2 (Z.eqb_eq _ _)) by (by apply empty_iff). rewrite bind_gets.
    rewrite (bindM_ok _ _ _ _ _ (on_kernel_ok _ s _ _ Ea)). fold k1.
    erewrite bindM_ok; [done|]. unfold ioq_wait. rewrite bind_gets. cbn [q waiter]. rewrite Hc.
    rewrite bind_assert by done.
    rewrite (bindM_ok _ _ _ _ _ (on_kernel_ok running_thread (mk_qstate k1 (q s)) _ _ eq_refl)).
    unfold set_q. rewrite bind_modify.
    by rewrite (bindM_ok _ _ _ _ _ (on_kernel_ok _ (mk_qstate k1 (set_consumer now (q s))) _ _ Eb)).
  - split; [exact H2|]. split; [done|]. split.
    + intros Hne. unfold st. cbn [qk]. rewrite (runs_others _ _ _ _ H5) by done. cbn. by rewrite lookup_insert_eq.
    + cbn [qk]. rewrite F2. apply lookup_insert_eq.
Qed.

(** The producer's loop acquires the lock a second time where it should
    release it: a writer that slept on a full queue and finds room when it
    runs again returns from [ioq_putchar] still holding the lock, twice. *)
Theorem putchar_never_releases (s : qstate) (c : Z) (D : Z -> Z) (Γ : gmap Z (list Z)) (rs : list Z) :
  sched_ok (qk s) D Γ rs -> queue_wf (q s) -> zlen (contents (q s)) < 63 ->
  waiter_ok (qk s) Γ (consumer (q s)) ->
  locks (ksy (qk s)) !! qlock (q s) = Some (mk_lock (cur (kc (qk s))) 1) ->
  exists s', (_ ← putchar_woken; ioq_putchar c) s = Ok (Done tt, s') /\
    contents (q s') = contents (q s) ++ [c] /\
    locks (ksy (qk s')) !! qlock (q s) = Some (mk_lock (cur (kc (qk s))) 2).
Proof.
  intros Hok Hwf Hl Hw El.
  set (k0 := set_km (mach_if INTR_OFF (km (qk s))) (qk s)).
  pose proof (lock_acquire_again k0 _ 1 El) as Ea. set (y := mk_sync _ _) in Ea.
  set (s1 := mk_qstate (set_ksy y k0) (q s)).
  assert (E1 : putchar_woken s = Ok (None, s1)).
  { unfold putchar_woken. rewrite (bindM_ok _ _ _ _ _ (on_kernel_ok _ s _ _ (resume_ok INTR_OFF (qk s)))).
    rewrite bind_gets. exact (on_kernel_ok _ (mk_qstate k0 (q s)) _ _ Ea). }
  assert (Hok1 : sched_ok (qk s1) D Γ rs) by (apply sched_ok_ksy, sched_ok_if, Hok).
  assert (Hoff : status_of (km (qk s1)) = INTR_OFF) by exact (status_with_if INTR_OFF (eflags (km (qk s))) ∅ ∅).
  destruct (putchar_ok s1 c D Γ rs (proj1 Hok1) Hoff Hwf Hl Hw) as (s' & E & Hwk).
  exists s'. split; [by rewrite (bindM_ok _ _ _ _ _ E1)|]. split.
  - destruct (woken_queue _ _ _ _ _ _ Hwk) as [-> _]. by apply push_contents.
  - assert (Hy : ksy (qk s') = y) by (by eapply woken_sync).
    rewrite Hy. apply lookup_insert_eq.
Qed.

(** ** Witnesses: a keyboard queue in the system of three threads *)

Definition demo_G : list (Z * list Z) := [(waiters (lock_semaphore demo_lock), []); (16, [0x2024])].

Lemma demo_locked_ok : sched_ok demo_locked (fun _ => 0x100000) (list_to_map demo_G) [0x2000].
Proof. apply sched_check_sound. vm_compute. reflexivity. Qed.

Definition demo_queue (h t : Z) : ioqueue := mk_ioqueue demo_lock NULL NULL (seqZ 100 64) h t.

Lemma demo_queue_wf h t : 0 <= h < 64 -> 0 <= t < 64 -> queue_wf (demo_queue h t).
Proof. by split. Qed.

(** The oldest of three characters; the queue wraps around. *)
Lemma ioqueue_fifo_witness :
  exists s', ioq_getchar (mk_qstate demo_locked (demo_queue 1 62)) = Ok (Done 162, s') /\
    contents (q s') = [163; 100].
Proof.
  destruct (ioqueue_fifo (mk_qstate demo_locked (demo_queue 1 62)) _ _ _ (proj1 demo_locked_ok))
    as [_ Hg].
  - vm_compute. reflexivity.
  - apply demo_queue_wf; lia.
  - left. reflexivity.
  - left. reflexivity.
  - destruct (Hg 162 [163; 100]) as (s' & E & _ & Hc & _); [vm_compute; reflexivity|].
    exists s'. split; [exact E|exact Hc].
Defined.

Lemma getchar_empty_sleeps_witness :
  exists s', ioq_getchar (mk_qstate demo_locked (demo_queue 5 5)) = Ok (Waits, s') /\
    consumer (q s') = 0x1000.
Proof.
  destruct (getchar_empty_sleeps (mk_qstate demo_locked (demo_queue 5 5)) _ _ _ demo_locked_ok)
    as (s' & next & rest & E & _ & _ & Hc & _).
  - vm_compute. reflexivity.
  - apply demo_queue_wf; lia.
  - vm_compute. reflexivity.
  - reflexivity.
  - vm_compute. reflexivity.
  - vm_compute. reflexivity.
  - exists s'. split; [exact E|exact Hc].
Defined.

(** The lock is held by thread 0x1000, which slept on the full queue. *)
Definition demo_held : kernel :=
  set_ksy (mk_sync (<[lock_semaphore demo_lock := 0]> ∅) (<[demo_lock := mk_lock 0x1000 1]> ∅)) demo_locked.

Lemma putchar_never_releases_witness :
  exists s', (_ ← putchar_woken; ioq_putchar 65) (mk_qstate demo_held (demo_queue 6 5)) = Ok (Done tt, s') /\
    locks (ksy (qk s')) !! demo_lock = Some (mk_lock 0x1000 2).
Proof.
  destruct (putchar_never_releases (mk_qstate demo_held (demo_queue 6 5)) 65 (fun _ => 0x100000)
    (list_to_map demo_G) [0x2000]) as (s' & E & _ & Hl).
  - apply sched_check_sound. vm_compute. reflexivity.
  - apply demo_queue_wf; lia.
  - vm_compute. reflexivity.
  - left. reflexivity.
  - vm_compute. reflexivity.
  - exists s'. split; [exact E|exact Hl].
Defined.
