(* ===== verification/Keyboard.v ===== *)
(** * Keyboard: the interrupt handler of device/keyboard.c

    One call of the handler consumes one byte of the scan-code stream, the
    value [inb(0x60)] returned.  The state is the five status flags, the
    keyboard queue (with its kernel), the flags shared with exec.c and the
    characters echoed with [put_char]. *)

From S2P Require Import Prelude Interrupt Lists Bitmap Kernel Paging Thread Sync IoQueue.

Definition esc : Z := 27.
Definition backspace : Z := 8.
Definition tab : Z := 9.
Definition enter : Z := 13.
Definition char_invisible : Z := 0.

Definition shift_l_make : Z := 0x2a.
Definition shift_r_make : Z := 0x36.
Definition alt_l_make : Z := 0x38.
Definition alt_r_make : Z := 0xe038.
Definition ctrl_l_make : Z := 0x1d.
Definition ctrl_r_make : Z := 0xe01d.
Definition caps_lock_make : Z := 0x3a.

Record kbd := mk_kbd {
  ctrl_status : bool;
  shift_status : bool;
  alt_status : bool;
  caps_lock_status : bool;
  ext_scancode : bool }.

Record kstate := mk_kstate {
  kq : qstate;
  kf : kbd;
  exec_flag : bool;
  release_flag : bool;
  screen : list Z }.

(** [keymap[i][0]] and [keymap[i][1]]. *)
Definition keymap : list (Z * Z) :=
  [(0, 0); (esc, esc); (49, 33); (50, 64); (51, 35); (52, 36); (53, 37); (54, 94); (55, 38);
   (56, 42); (57, 40); (48, 41); (45, 95); (61, 43); (backspace, backspace); (tab, tab);
   (113, 81); (119, 87); (101, 69); (114, 82); (116, 84); (121, 89); (117, 85); (105, 73);
   (111, 79); (112, 80); (91, 123); (93, 125); (enter, enter); (0, 0); (97, 65); (115, 83);
   (100, 68); (102, 70); (103, 71); (104, 72); (106, 74); (107, 75); (108, 76); (59, 58);
   (39, 34); (96, 126); (0, 0); (92, 124); (122, 90); (120, 88); (99, 67); (118, 86);
   (98, 66); (110, 78); (109, 77); (44, 60); (46, 62); (47, 63); (0, 0); (42, 42); (0, 0);
   (32, 32); (0, 0)].

Definition keymap_at (index : Z) (shift : bool) : res Z :=
  match keymap !! Z.to_nat index with
  | Some (a, b) => Ok (if shift then b else a)
  | None => Err Fault
  end.

Definition set_kf (f : kbd) : M kstate unit :=
  modify (fun s => mk_kstate (kq s) f (exec_flag s) (release_flag s) (screen s)).
Definition put_char (c : Z) : M kstate unit :=
  modify (fun s => mk_kstate (kq s) (kf s) (exec_flag s) (release_flag s) (screen s ++ [c])).
Definition put_str (l : list Z) : M kstate unit :=
  modify (fun s => mk_kstate (kq s) (kf s) (exec_flag s) (release_flag s) (screen s ++ l)).
(** "unknown key\n". *)
Definition unknown_key : list Z := [117; 110; 107; 110; 111; 119; 110; 32; 107; 101; 121; 10].
Definition set_release_flag : M kstate unit :=
  modify (fun s => mk_kstate (kq s) (kf s) (exec_flag s) true (screen s)).
Definition on_queue {A} (m : M qstate A) : M kstate A := fun s =>
  match m (kq s) with
  | Ok (a, x) => Ok (a, mk_kstate x (kf s) (exec_flag s) (release_flag s) (screen s))
  | Err e => Err e
  end.

(** [handler] is the address of [intr_keyboard_handler]; the result is the table
    of handlers. *)
Definition keyboard_init (handler : Z) (intr_function_table : list Z) : M kstate (list Z) :=
  _ ← on_queue ioqueue_init;
  lift (Idt.register_handler 0x21 handler intr_function_table).

(** Keys with two characters: only shift selects the second. *)
Definition two_char_key (scancode : Z) : bool :=
  (scancode <? 0x0e) || (scancode =? 0x29) || (scancode =? 0x1a) || (scancode =? 0x1b) ||
  (scancode =? 0x2b) || (scancode =? 0x27) || (scancode =? 0x28) || (scancode =? 0x33) ||
  (scancode =? 0x34) || (scancode =? 0x35).

(** [if (cur_char) { ... return; }]: deliver a character. *)
Definition deliver (cur_char : Z) : M kstate unit :=
  e ← gets exec_flag;
  _ ← (if negb e then
         f ← on_queue is_ioq_full;
         if negb f then _ ← put_char cur_char; _ ← on_queue (ioq_putchar cur_char); mret tt
         else mret tt
       else mret tt);
  e ← gets exec_flag;
  if (e : bool) then
    if cur_char =? esc then set_release_flag
    else f ← on_queue is_ioq_full;
         if negb f then _ ← put_char cur_char; _ ← on_queue (ioq_putchar cur_char); mret tt
         else mret tt
  else mret tt.

Definition intr_keyboard_handler (inb : Z) : M kstate unit :=
  s0 ← gets kf;
  let shift_down_last := shift_status s0 in
  let caps_lock_last := caps_lock_status s0 in
  let scancode := u16 inb in
  if scancode =? 0xe0 then
    set_kf (mk_kbd (ctrl_status s0) (shift_status s0) (alt_status s0) (caps_lock_status s0) true)
  else
    let scancode := if ext_scancode s0 then Z.lor 0xe000 scancode else scancode in
    let s1 := mk_kbd (ctrl_status s0) (shift_status s0) (alt_status s0) (caps_lock_status s0) false in
    _ ← set_kf s1;
    let break_code := negb (Z.land scancode 0x0080 =? 0) in
    if break_code then
      let make_code := Z.land scancode 0xff7f in
      if (make_code =? ctrl_l_make) || (make_code =? ctrl_r_make) then
        set_kf (mk_kbd false (shift_status s1) (alt_status s1) (caps_lock_status s1) false)
      else if (make_code =? shift_l_make) || (make_code =? shift_r_make) then
        set_kf (mk_kbd (ctrl_status s1) false (alt_status s1) (caps_lock_status s1) false)
      else if (make_code =? alt_l_make) || (make_code =? alt_r_make) then
        set_kf (mk_kbd (ctrl_status s1) (shift_status s1) false (caps_lock_status s1) false)
      else mret tt
    else if ((0x00 <? scancode) && (scancode <? 0x3b)) || (scancode =? alt_r_make) ||
            (scancode =? ctrl_r_make) then
      let shift :=
        if two_char_key scancode then shift_down_last
        else if shift_down_last && caps_lock_last then false
        else shift_down_last || caps_lock_last in
      let scancode := Z.land scancode 0x00ff in
      cur_char ← lift (keymap_at (u8 scancode) shift);
      if negb (cur_char =? 0) then deliver cur_char
      else if (scancode =? ctrl_l_make) || (scancode =? ctrl_r_make) then
        set_kf (mk_kbd true (shift_status s1) (alt_status s1) (caps_lock_status s1) false)
      else if (scancode =? shift_l_make) || (scancode =? shift_r_make) then
        set_kf (mk_kbd (ctrl_status s1) true (alt_status s1) (caps_lock_status s1) false)
      else if (scancode =? alt_l_make) || (scancode =? alt_r_make) then
        set_kf (mk_kbd (ctrl_status s1) (shift_status s1) true (caps_lock_status s1) false)
      else if scancode =? caps_lock_make then
        set_kf (mk_kbd (ctrl_status s1) (shift_status s1) (alt_status s1) (negb (caps_lock_status s1)) false)
      else mret tt
    else put_str unknown_key.

(** ** Specification *)

(** The character a key stands for: letters follow shift xor caps lock, the
    other keys follow shift. *)
Definition typed (code : Z) (shift caps : bool) : Z :=
  match keymap !! Z.to_nat code with
  | Some (a, b) =>
      if (97 <=? a) && (a <=? 122) then (if xorb shift caps then a - 32 else a)
      else if shift then b else a
  | None => 0
  end.

Inductive key := CtrlL | CtrlR | ShiftL | ShiftR | AltL | AltR | Caps.
Inductive event := Press (x : key) | Release (x : key).

(** The bytes a key sends. *)
Definition make_byte (x : key) : Z :=
  match x with
  | CtrlL | CtrlR => 0x1d | ShiftL => 0x2a | ShiftR => 0x36 | AltL | AltR => 0x38 | Caps => 0x3a
  end.
Definition prefix (x : key) : list Z := match x with CtrlR | AltR => [0xe0] | _ => [] end.
Definition encode (e : event) : list Z :=
  match e with
  | Press x => prefix x ++ [make_byte x]
  | Release x => prefix x ++ [make_byte x + 0x80]
  end.

(** What the flags mean: a modifier is on after a press and off after a
    release of either of its keys, caps lock toggles on each press. *)
Definition track (f : kbd) (e : event) : kbd :=
  let on := match e with Press _ => true | Release _ => false end in
  match e with
  | Press CtrlL | Press CtrlR | Release CtrlL | Release CtrlR =>
      mk_kbd on (shift_status f) (alt_status f) (caps_lock_status f) false
  | Press ShiftL | Press ShiftR | Release ShiftL | Release ShiftR =>
      mk_kbd (ctrl_status f) on (alt_status f) (caps_lock_status f) false
  | Press AltL | Press AltR | Release AltL | Release AltR =>
      mk_kbd (ctrl_status f) (shift_status f) on (caps_lock_status f) false
  | Press Caps =>
      mk_kbd (ctrl_status f) (shift_status f) (alt_status f) (negb (caps_lock_status f)) false
  | Release Caps => mk_kbd (ctrl_status f) (shift_status f) (alt_status f) (caps_lock_status f) false
  end.

(** The handler on a stream of bytes. *)
Fixpoint feed (bs : list Z) : M kstate unit :=
  match bs with
  | [] => mret tt
  | b :: bs' => _ ← intr_keyboard_handler b; feed bs'
  end.

(** ** Lemmas *)

(** All make codes of the table at once. *)
Definition typed_check : bool :=
  forallb (fun code => forallb (fun shift => forallb (fun caps =>
    let sh := if two_char_key code then shift
              else if shift && caps then false else shift || caps in
    match keymap_at (u8 (Z.land code 0x00ff)) sh with
    | Ok c => c =? typed code shift caps
    | Err _ => false
    end && (Z.land code 0x0080 =? 0) && (0 <? code) && (code <? 0x3b) && negb (code =? 0xe0))
    [true; false]) [true; false]) (seqZ 1 0x3a).

Lemma typed_check_ok : typed_check = true.
Proof. vm_compute. reflexivity. Qed.

Lemma typed_char code shift caps : 1 <= code <= 0x3a ->
  keymap_at (u8 (Z.land code 0x00ff))
    (if two_char_key code then shift else if shift && caps then false else shift || caps)
  = Ok (typed code shift caps) /\
  (Z.land code 0x0080 =? 0) = true.
Proof.
  intros Hc. pose proof typed_check_ok as H. unfold typed_check in H.
  rewrite forallb_forall in H. specialize (H code).
  rewrite <- list_elem_of_In, elem_of_seqZ in H. specialize (H ltac:(lia)).
  rewrite forallb_forall in H. specialize (H shift ltac:(destruct shift; cbn; auto)).
  rewrite forallb_forall in H. specialize (H caps ltac:(destruct caps; cbn; auto)).
  cbv zeta in H. bool_prop. destruct (keymap_at _ _) as [c|]; [|done]. bool_prop.
  split; [by f_equal | by apply Z.eqb_eq].
Qed.

Lemma on_queue_ok {A} (m : M qstate A) s a x : m (kq s) = Ok (a, x) ->
  on_queue m s = Ok (a, mk_kstate x (kf s) (exec_flag s) (release_flag s) (screen s)).
Proof. intros E. unfold on_queue. by rewrite E. Qed.

(** The queue is empty, its lock as [lock_init] leaves it, and the handler that
    of line 1. *)
Lemma keyboard_init_ok handler t s k : lock_init (qlock (q (kq s))) (qk (kq s)) = Ok (tt, k) -> (0x21 < length t)%nat ->
  exists t' s', keyboard_init handler t s = Ok (t', s') /\ t' !! 0x21%nat = Some handler /\ length t' = length t /\
    qk (kq s') = k /\ head (q (kq s')) = tail (q (kq s')) /\ kf s' = kf s.
Proof.
  intros E Hl. eexists _, _. split.
  - unfold keyboard_init. erewrite bindM_ok.
    2: { apply on_queue_ok. unfold ioqueue_init, on_kernel, set_q. rewrite bind_gets. unfold mbind, M_bind. rewrite E. reflexivity. }
    unfold lift, Idt.register_handler. change (u8 0x21) with 0x21. rewrite aset_ok by (unfold zlen; lia). reflexivity.
  - cbn. split; [by rewrite list_lookup_insert_eq|]. by rewrite length_insert.
Qed.

(** A make code of the table, outside an extended sequence. *)
Lemma handler_key code s c : 1 <= code <= 0x3a -> ext_scancode (kf s) = false ->
  typed code (shift_status (kf s)) (caps_lock_status (kf s)) = c -> c <> 0 ->
  intr_keyboard_handler code s = deliver c s.
Proof.
  intros Hc Hx Ht Hn. destruct (typed_char code (shift_status (kf s)) (caps_lock_status (kf s)) Hc) as [Ek Eb].
  unfold intr_keyboard_handler. rewrite bind_gets. cbv zeta. rewrite u16_small by lia.
  rewrite (proj2 (Z.eqb_neq code 0xe0)) by lia. rewrite Hx.
  unfold set_kf. rewrite bind_modify, Eb. cbn [negb].
  rewrite (proj2 (Z.ltb_lt 0 code)), (proj2 (Z.ltb_lt code 0x3b)) by lia. cbn [andb orb].
  rewrite Ek, Ht. rewrite (bind_lift _ _ _ c eq_refl), (proj2 (Z.eqb_neq c 0) Hn). cbn [negb].
  f_equal. destruct s as [? [? ? ? ? ?] ? ? ?]. cbn in *. by subst.
Qed.

Lemma deliver_room c s D Γ rs : sched_pre (qk (kq s)) D Γ rs ->
  status_of (km (qk (kq s))) = INTR_OFF -> queue_wf (q (kq s)) ->
  zlen (contents (q (kq s))) < 63 -> waiter_ok (qk (kq s)) Γ (consumer (q (kq s))) ->
  exec_flag s = false ->
  exists x, deliver c s = Ok (tt, mk_kstate x (kf s) false (release_flag s) (screen s ++ [c])) /\
    woken Consumer (mk_qstate (qk (kq s)) (push (q (kq s)) c)) x D Γ rs.
Proof.
  intros Hpre Hoff Hwf Hl Hw He. destruct (putchar_ok (kq s) c D Γ rs Hpre Hoff Hwf Hl Hw) as (x & E & Hwk).
  exists x. split; [|done]. unfold deliver. rewrite bind_gets, He. cbn [negb].
  erewrite bindM_ok.
  2:{ rewrite (bindM_ok _ _ _ _ _ (on_queue_ok _ s _ _ (is_ioq_full_ok _ Hoff))).
      rewrite (proj2 (Z.eqb_neq _ _)) by (rewrite full_iff by done; lia). cbn [negb].
      unfold put_char. rewrite bind_modify.
      rewrite (bindM_ok _ _ _ _ _ (on_queue_ok _ (mk_kstate (kq s) (kf s) (exec_flag s) (release_flag s) (screen s ++ [c])) _ _ E)).
      reflexivity. }
  rewrite bind_gets. cbn [exec_flag]. by rewrite He.
Qed.

Lemma handler_event e s : ext_scancode (kf s) = false ->
  feed (encode e) s = Ok (tt, mk_kstate (kq s) (track (kf s) e) (exec_flag s) (release_flag s) (screen s)).
Proof.
  intros Hx. destruct s as [x [c sh a cl ex] e1 e2 scr]. cbn in Hx. subst ex.
  destruct e as [[]|[]]; destruct sh, cl; vm_compute; reflexivity.
Qed.

Lemma feed_app bs1 bs2 s : feed (bs1 ++ bs2) s =
  match feed bs1 s with Ok (_, s') => feed bs2 s' | Err e => Err e end.
Proof.
  revert s. induction bs1 as [|b bs1 IH]; intros s; [done|]. cbn [app feed]. unfold mbind, M_bind.
  destruct (intr_keyboard_handler b s) as [[u s']|]; [|done]. apply IH.
Qed.

(** ** Properties *)

(** A key press delivers the right character: a letter is upper case when
    exactly one of shift and caps lock is on, any other key takes its shifted
    character when shift is on.  The character is appended to the queue and
    echoed, the flags do not change. *)
Theorem keyboard_types (s : kstate) (code c : Z) (D : Z -> Z) (Γ : gmap Z (list Z)) (rs : list Z) :
  sched_pre (qk (kq s)) D Γ rs -> status_of (km (qk (kq s))) = INTR_OFF ->
  queue_wf (q (kq s)) -> zlen (contents (q (kq s))) < 63 ->
  waiter_ok (qk (kq s)) Γ (consumer (q (kq s))) -> exec_flag s = false ->
  ext_scancode (kf s) = false -> 1 <= code <= 0x3a ->
  typed code (shift_status (kf s)) (caps_lock_status (kf s)) = c -> c <> 0 ->
  exists s', intr_keyboard_handler code s = Ok (tt, s') /\
    contents (q (kq s')) = contents (q (kq s)) ++ [c] /\
    screen s' = screen s ++ [c] /\ kf s' = kf s /\ consumer (q (kq s')) = NULL.
Proof.
  intros Hpre Hoff Hwf Hl Hw He Hx Hc Ht Hn.
  destruct (deliver_room c s D Γ rs Hpre Hoff Hwf Hl Hw He) as (x & E & Hwk).
  eexists. split; [by rewrite (handler_key code s c)|]. cbn [kq screen kf].
  split; [|split; [done|split; [done|]]].
  - destruct (woken_queue _ _ _ _ _ _ Hwk) as [-> _]. by apply push_contents.
  - destruct Hwk as [[Hz ->]|(_ & -> & _)]; done.
Qed.

(** C29. The byte stream refines key events: on the encoding of any sequence of
    presses and releases of modifier keys (the two-byte codes of the right
    control and alt keys included) the handler always returns, the flags end
    as the events say, and neither the queue nor the screen changes. *)
Theorem keyboard_modifiers_refine (s : kstate) (es : list event) :
  ext_scancode (kf s) = false ->
  feed (es ≫= encode) s =
    Ok (tt, mk_kstate (kq s) (fold_left track es (kf s)) (exec_flag s) (release_flag s) (screen s)).
Proof.
  revert s. induction es as [|e es IH]; intros s Hx; [by destruct s|].
  cbn [fold_left]. rewrite bind_cons, feed_app, handler_event by done.
  rewrite IH; [done|]. by destruct e as [[]|[]].
Qed.

(** The handler never sleeps: on a full queue the key is dropped and
    nothing changes; while a program runs ([exec_flag]) the escape key only
    sets [release_flag]. *)
Theorem keyboard_never_blocks (s : kstate) (code c : Z) :
  status_of (km (qk (kq s))) = INTR_OFF -> queue_wf (q (kq s)) ->
  ext_scancode (kf s) = false -> 1 <= code <= 0x3a ->
  typed code (shift_status (kf s)) (caps_lock_status (kf s)) = c -> c <> 0 ->
  (exec_flag s = true -> c = esc ->
     intr_keyboard_handler code s = Ok (tt, mk_kstate (kq s) (kf s) true true (screen s))) /\
  (zlen (contents (q (kq s))) = 63 -> (exec_flag s = true -> c <> esc) ->
     intr_keyboard_handler code s = Ok (tt, s)).
Proof.
  intros Hoff Hwf Hx Hc Ht Hn. rewrite (handler_key code s c) by done. unfold deliver.
  rewrite bind_gets. split.
  - intros He ->. rewrite He. cbn [negb]. rewrite bind_mret, bind_gets, He.
    unfold set_release_flag, modify. rewrite Z.eqb_refl. by rewrite He.
  - intros Hf He. assert (Hq : on_queue is_ioq_full s = Ok (true, s)).
    { rewrite (on_queue_ok _ s _ _ (is_ioq_full_ok _ Hoff)).
      rewrite (proj2 (Z.eqb_eq _ _)) by (by rewrite full_iff). by destruct s. }
    destruct (exec_flag s) eqn:Ee; cbn [negb].
    + rewrite bind_mret, bind_gets, Ee. rewrite (proj2 (Z.eqb_neq c esc)) by auto.
      by rewrite (bindM_ok _ _ _ _ _ Hq).
    + erewrite bindM_ok by (by rewrite (bindM_ok _ _ _ _ _ Hq)). by rewrite bind_gets, Ee.
Qed.

(** ** Witnesses *)

Definition demo_kbd (h t : Z) (sh cl ex : bool) : kstate :=
  mk_kstate (mk_qstate demo_locked (demo_queue h t)) (mk_kbd false sh false cl false) ex false [].

Lemma keyboard_types_witness :
  exists s', intr_keyboard_handler 0x1e (demo_kbd 3 3 true false false) = Ok (tt, s') /\ screen s' = [65].
Proof.
  destruct (keyboard_types (demo_kbd 3 3 true false false) 0x1e 65 _ _ _ (proj1 demo_locked_ok))
    as (s' & E & _ & Hs & _).
  - vm_compute. reflexivity.
  - apply demo_queue_wf; lia.
  - vm_compute. reflexivity.
  - left. reflexivity.
  - reflexivity.
  - reflexivity.
  - lia.
  - vm_compute. reflexivity.
  - lia.
  - exists s'. split; [exact E|exact Hs].
Defined.

Lemma keyboard_modifiers_refine_witness :
  feed ([Press CtrlR; Press ShiftL; Press Caps; Release CtrlR] ≫= encode) (demo_kbd 3 3 false false false)
  = Ok (tt, demo_kbd 3 3 true true false).
Proof.
  exact (keyboard_modifiers_refine (demo_kbd 3 3 false false false)
    [Press CtrlR; Press ShiftL; Press Caps; Release CtrlR] eq_refl).
Defined.

Lemma keyboard_never_blocks_witness :
  intr_keyboard_handler 0x1e (demo_kbd 2 3 false false false) = Ok (tt, demo_kbd 2 3 false false false).
Proof.
  apply (keyboard_never_blocks (demo_kbd 2 3 false false false) 0x1e 97).
  - vm_compute. reflexivity.
  - apply demo_queue_wf; lia.
  - reflexivity.
  - lia.
  - vm_compute. reflexivity.
  - lia.
  - vm_compute. reflexivity.
  - discriminate.
Defined.
