(* ===== verification/Memory.v ===== *)
(** * Memory: page allocation of kernel/memory.c

    Virtual pages come from a bitmap (the kernel's, or the running process's),
    physical pages from one of two pools, page tables from the kernel pool.
    [malloc_page] ties the three together and [mfree_page] undoes it.  The
    functions that take the lock of a pool return [WaitsLock] when the lock is
    held and the processor was switched away.

    [vspace_ok] is the invariant of a virtual address space: a page whose bit
    is clear is not mapped. *)

From S2P Require Import Prelude CString Interrupt Lists Bitmap Kernel Paging Thread Sync IoQueue.

Definition KERNEL_HEAP_START : Z := 0xc0100000.
Definition MEM_BITMAP_BASE : Z := 0xc009a000.

(** ** Virtual addresses *)

(** [while (count < cnt) bitmap_set_idx(..., idx + count++, v)]. *)
Fixpoint set_run (n : nat) (mp : bitmap) (i v : Z) : res bitmap :=
  match n with
  | O => Ok mp
  | S n' => mp' ← bitmap_set_idx mp i v; set_run n' mp' (u32 (i + 1)) v
  end.

(** The address space [pf] designates: the kernel's or that of the running process. *)
Definition get_vaddr (pf : pool_flag) : M kernel virtual_addr :=
  match pf with
  | PF_KERNEL => gets (fun k => kernel_vaddr (kmem k))
  | PF_USER => now ← running_thread; p ← get_pcb now; mret (userprog_vaddr p)
  end.
Definition set_vaddr (pf : pool_flag) (v : virtual_addr) : M kernel unit :=
  match pf with
  | PF_KERNEL => modify (set_kernel_vaddr v)
  | PF_USER => now ← running_thread; upd_pcb now (set_userprog_vaddr v)
  end.

Definition vaddr_get (pf : pool_flag) (cnt : Z) : M kernel Z :=
  va ← get_vaddr pf;
  idx ← lift (bitmap_apply_cnt (vaddr_bitmap va) cnt);
  if idx =? -1 then mret NULL
  else
    b ← lift (set_run (Z.to_nat cnt) (vaddr_bitmap va) idx 1);
    _ ← set_vaddr pf (mk_vaddr b (vaddr_start va));
    let start := u32 (vaddr_start va + idx * PG_SIZE) in
    _ ← (match pf with
         | PF_KERNEL => mret tt
         | PF_USER => ASSERTM (start <? 0xc0000000 - PG_SIZE)
         end);
    mret start.

Definition vaddr_remove (pf : pool_flag) (vaddr cnt : Z) : M kernel unit :=
  va ← get_vaddr pf;
  let bit_idx_start := u32 (vaddr - vaddr_start va) / PG_SIZE in
  b ← lift (set_run (Z.to_nat cnt) (vaddr_bitmap va) bit_idx_start 0);
  set_vaddr pf (mk_vaddr b (vaddr_start va)).

(** ** Pages *)

Fixpoint malloc_page_loop (n : nat) (pf : pool_flag) (vaddr vaddr_start : Z) : M kernel Z :=
  match n with
  | O => mret vaddr_start
  | S n' =>
      page_phyaddr ← palloc pf;
      if page_phyaddr =? NULL then mret NULL
      else
        _ ← page_table_add vaddr page_phyaddr;
        malloc_page_loop n' pf (u32 (vaddr + PG_SIZE)) vaddr_start
  end.

Definition malloc_page (pf : pool_flag) (cnt : Z) : M kernel Z :=
  _ ← ASSERTM ((0 <? cnt) && (cnt <? 3840));
  vaddr_start ← vaddr_get pf cnt;
  if vaddr_start =? NULL then mret NULL
  else malloc_page_loop (Z.to_nat cnt) pf vaddr_start vaddr_start.

(** One iteration of the loops of [mfree_page]; [lo] and [hi] are the bounds
    its assertion checks. *)
Fixpoint mfree_page_loop (n : nat) (vaddr lo hi : Z) : M kernel unit :=
  match n with
  | O => mret tt
  | S n' =>
      pg_phy_addr ← addr_vir2phy vaddr;
      _ ← ASSERTM ((pg_phy_addr mod PG_SIZE =? 0) && (lo <=? pg_phy_addr) && (pg_phy_addr <? hi));
      _ ← pfree pg_phy_addr;
      _ ← page_table_pte_remove vaddr;
      mfree_page_loop n' (u32 (vaddr + PG_SIZE)) lo hi
  end.

Definition mfree_page (pf : pool_flag) (vaddr cnt : Z) : M kernel unit :=
  _ ← ASSERTM ((1 <=? cnt) && (vaddr mod PG_SIZE =? 0));
  pg_phy_addr ← addr_vir2phy vaddr;
  _ ← ASSERTM ((pg_phy_addr mod PG_SIZE =? 0) && (0x102000 <=? pg_phy_addr));
  m ← gets kmem;
  _ ← (if phy_addr_start (user_pool m) <=? pg_phy_addr
       then mfree_page_loop (Z.to_nat cnt) vaddr (phy_addr_start (user_pool m)) 4294967296
       else mfree_page_loop (Z.to_nat cnt) vaddr (phy_addr_start (kernel_pool m))
              (phy_addr_start (user_pool m)));
  vaddr_remove pf vaddr cnt.

Section pool_locks.
(** The address of the lock in each of the two pool objects. *)
Context (pool_lock : pool_flag -> Z).

Definition get_pages (pf : pool_flag) (cnt : Z) : M kernel (outcome Z) :=
  r ← lock_acquire (pool_lock pf);
  match r with
  | Some old => mret (WaitsLock old)
  | None =>
      vaddr ← malloc_page pf cnt;
      _ ← (if negb (vaddr =? NULL) then vzero (Z.to_nat (cnt * 1024)) vaddr else mret tt);
      _ ← lock_release (pool_lock pf);
      mret (Done vaddr)
  end.
Definition get_kernel_pages (cnt : Z) : M kernel (outcome Z) := get_pages PF_KERNEL cnt.
Definition get_user_pages (cnt : Z) : M kernel (outcome Z) := get_pages PF_USER cnt.

Definition get_one_page (pf : pool_flag) (vaddr : Z) : M kernel (outcome Z) :=
  r ← lock_acquire (pool_lock pf);
  match r with
  | Some old => mret (WaitsLock old)
  | None =>
      now ← running_thread;
      p ← get_pcb now;
      _ ← (if negb (pg_dir p =? NULL) && bool_decide (pf = PF_USER) then
             let va := userprog_vaddr p in
             _ ← ASSERTM (vaddr_start va <=? vaddr);
             b ← lift (bitmap_set_idx (vaddr_bitmap va) ((vaddr - vaddr_start va) / PG_SIZE) 1);
             set_vaddr PF_USER (mk_vaddr b (vaddr_start va))
           else if (pg_dir p =? NULL) && bool_decide (pf = PF_KERNEL) then
             va ← get_vaddr PF_KERNEL;
             _ ← ASSERTM (vaddr_start va <? vaddr);
             b ← lift (bitmap_set_idx (vaddr_bitmap va) ((vaddr - vaddr_start va) / PG_SIZE) 1);
             set_vaddr PF_KERNEL (mk_vaddr b (vaddr_start va))
           else fail Panic);
      page_phyaddr ← palloc pf;
      if page_phyaddr =? NULL then
        _ ← lock_release (pool_lock pf); mret (Done NULL)
      else
        _ ← page_table_add vaddr page_phyaddr;
        _ ← lock_release (pool_lock pf);
        mret (Done vaddr)
  end.

Definition get_one_page_no_bitmap (pf : pool_flag) (vaddr : Z) : M kernel (outcome Z) :=
  r ← lock_acquire (pool_lock pf);
  match r with
  | Some old => mret (WaitsLock old)
  | None =>
      page_phyaddr ← palloc pf;
      if page_phyaddr =? NULL then
        _ ← lock_release (pool_lock pf); mret (Done NULL)
      else
        _ ← page_table_add vaddr page_phyaddr;
        _ ← lock_release (pool_lock pf);
        mret (Done vaddr)
  end.
End pool_locks.

(** ** Initialisation *)

(** The memory that holds the three bitmaps, by address and length. *)
Record layout := mk_layout {
  l_kernel_pool : pool;
  l_kernel_bits : Z;
  l_user_pool : pool;
  l_user_bits : Z;
  l_kernel_vaddr : virtual_addr;
  l_vaddr_bits : Z }.

Definition mem_pool_init (bytes_at : Z -> Z -> list Z) (all_mem : Z) : res layout :=
  let page_table_size := 256 * PG_SIZE in
  let mem_used := page_table_size + 0x100000 in
  let mem_free := u32 (all_mem - mem_used) in
  let free_page_all := u16 (mem_free / PG_SIZE) in
  let free_page_kernel := free_page_all / 2 in
  let free_page_user := u16 (free_page_all - free_page_kernel) in
  let bitmap_len_kernel := free_page_kernel / 8 in
  let bitmap_len_user := free_page_user / 8 in
  let kernel_pool_start := mem_used in
  let user_pool_start := u32 (kernel_pool_start + free_page_kernel * PG_SIZE) in
  kb ← bitmap_init (mk_bitmap bitmap_len_kernel (bytes_at MEM_BITMAP_BASE bitmap_len_kernel));
  let user_bits := u32 (MEM_BITMAP_BASE + bitmap_len_kernel) in
  ub ← bitmap_init (mk_bitmap bitmap_len_user (bytes_at user_bits bitmap_len_user));
  let vaddr_bits := u32 (MEM_BITMAP_BASE + bitmap_len_kernel + bitmap_len_user) in
  vb ← bitmap_init (mk_bitmap bitmap_len_kernel (bytes_at vaddr_bits bitmap_len_kernel));
  Ok (mk_layout
        (mk_pool kb kernel_pool_start (u32 (free_page_kernel * PG_SIZE))) MEM_BITMAP_BASE
        (mk_pool ub user_pool_start (u32 (free_page_user * PG_SIZE))) user_bits
        (mk_vaddr vb KERNEL_HEAP_START) vaddr_bits).

Record mem_block_desc := mk_desc { block_size : Z; blocks_per_arena : Z; free_list : Z }.

(** [sizeof(struct arena)]; a descriptor takes 24 bytes, its list begins at 8. *)
Definition sizeof_arena : Z := 12.

Fixpoint block_desc_loop (n : nat) (i block_size descs : Z) : M mach (list mem_block_desc) :=
  match n with
  | O => mret []
  | S n' =>
      let fl := descs + 24 * i + 8 in
      _ ← list_init fl;
      rest ← block_desc_loop n' (i + 1) (u16 (block_size * 2)) descs;
      mret (mk_desc block_size ((PG_SIZE - sizeof_arena) / block_size) fl :: rest)
  end.

Definition block_desc_init (descs : Z) : M mach (list mem_block_desc) := block_desc_loop 7 0 16 descs.

(** ** Runs of bits *)

Lemma set_run_ok n : forall mp i v, bitmap_wf mp -> 0 <= i -> i + Z.of_nat n <= 8 * zlen (bits mp) ->
  v = 0 \/ v = 1 ->
  exists mp', set_run n mp i v = Ok mp' /\ bitmap_wf mp' /\ len mp' = len mp /\
    zlen (bits mp') = zlen (bits mp) /\
    forall j, in_bits mp j ->
      bit mp' j = if bool_decide (i <= j < i + Z.of_nat n) then (v =? 1) else bit mp j.
Proof.
  induction n as [|n IH]; intros mp i v Hwf H0 Hle Hv.
  { exists mp. split; [done|]. repeat (split; [done|]). intros j Hj.
    rewrite bool_decide_eq_false_2 by lia. done. }
  pose proof (bw_small _ Hwf) as Hsm.
  destruct (bitmap_set_idx_ok mp i v Hwf ltac:(unfold in_bits; lia) Hv) as (m1 & E1 & W1 & L1 & Z1 & B1).
  destruct (IH m1 (i + 1) v W1 ltac:(lia) ltac:(lia) Hv) as (m2 & E2 & W2 & L2 & Z2 & B2).
  exists m2. cbn [set_run]. rewrite (bindR_ok _ _ _ E1), u32_small by lia.
  split; [done|]. split; [done|]. split; [congruence|]. split; [congruence|].
  intros j Hj. rewrite B2 by (unfold in_bits in *; by rewrite Z1). rewrite B1 by done.
  destruct (Z.eq_dec i j) as [->|].
  - rewrite (bool_decide_eq_true_2 (j <= j < _)) by lia. by destruct (bool_decide _).
  - destruct (decide (i + 1 <= j < i + 1 + Z.of_nat n)).
    + by rewrite !bool_decide_eq_true_2 by lia.
    + by rewrite !bool_decide_eq_false_2 by lia.
Qed.

(** ** How many pages a pool can still hand out *)

Definition free_count (p : pool) : nat :=
  length (List.filter (fun i => negb (bit (pool_bitmap p) i)) (seqZ 0 (len (pool_bitmap p) - 1))).

Lemma free_count_pos p : (0 < free_count p)%nat -> ~ pool_exhausted p.
Proof.
  intros Hc He. unfold free_count in Hc.
  destruct (List.filter _ _) as [|i l] eqn:E; [cbn in Hc; lia|].
  assert (Hi : List.In i (i :: l)) by (by left). rewrite <- E in Hi. apply filter_In in Hi as [Hi Hf].
  apply list_elem_of_In, elem_of_seqZ in Hi. rewrite He in Hf by lia. done.
Qed.

(** Taking out of a list without duplicates the one element where two tests differ. *)
Lemma filter_flip {A} (f g : A -> bool) (l : list A) x : NoDup l -> List.In x l ->
  f x = true -> g x = false -> (forall y, List.In y l -> y <> x -> f y = g y) ->
  length (List.filter f l) = S (length (List.filter g l)).
Proof.
  induction l as [|y l IH]; intros Hnd Hin Hf Hg Heq; [destruct Hin|].
  apply NoDup_cons in Hnd as [Hy Hnd]. destruct Hin as [->|Hin].
  - cbn [List.filter]. rewrite Hf, Hg. cbn [length]. f_equal. f_equal.
    apply filter_ext_in. intros z Hz. apply Heq; [by right|]. intros ->. by apply Hy, list_elem_of_In.
  - assert (y <> x) by (intros ->; by apply Hy, list_elem_of_In). cbn [List.filter].
    assert (IH' : length (List.filter f l) = S (length (List.filter g l))).
    { apply IH; [done..|]. intros z Hz. apply Heq. by right. }
    rewrite (Heq y) by (done || by left). destruct (g y); cbn [length]; lia.
Qed.

Lemma free_count_taken p p' i : page_taken p p' i -> free_count p = S (free_count p').
Proof.
  intros (Hin & Hbit & Hlt & (Hwf & _ & _ & Hz & Hl & Hb)). unfold free_count. rewrite Hl.
  pose proof (bw_len _ (pw_bitmap _ Hwf)) as Hle.
  apply (filter_flip _ _ _ i).
  - apply NoDup_seqZ.
  - apply list_elem_of_In, elem_of_seqZ. unfold in_bits in Hin. lia.
  - by rewrite Hbit.
  - rewrite Hb by done. by destruct (Z.eq_dec i i).
  - intros j Hj Hne. apply list_elem_of_In, elem_of_seqZ in Hj.
    rewrite Hb by (unfold in_bits in *; lia). by destruct (Z.eq_dec i j).
Qed.

(** ** The invariant of memory and the steps that extend it *)

(** Page tables lie in the kernel's half of memory. *)
Record mem_ok (k : kernel) : Prop := {
  mo_paging : paging_ok k;
  mo_pools : pools_ok (kmem k);
  mo_user : forall q, table_frame k q -> ~ page_free (user_pool (kmem k)) q }.

(** The same pool with no more free pages. *)
Definition shrunk (p p' : pool) : Prop :=
  pool_wf p' /\ phy_addr_start p' = phy_addr_start p /\
  zlen (bits (pool_bitmap p')) = zlen (bits (pool_bitmap p)) /\
  len (pool_bitmap p') = len (pool_bitmap p) /\ forall q, page_free p' q -> page_free p q.

Lemma shrunk_refl p : pool_wf p -> shrunk p p.
Proof. intros Hp. repeat (split; [done|]). auto. Qed.

Lemma shrunk_taken p p' i : page_taken p p' i -> shrunk p p'.
Proof.
  intros (_ & _ & _ & Hu). pose proof Hu as (Hwf & Hs & _ & Hz & Hl & _). repeat (split; [done|]).
  intros q Hq. by apply (page_free_taken p p' i).
Qed.

Lemma shrunk_trans p1 p2 p3 : shrunk p1 p2 -> shrunk p2 p3 -> shrunk p1 p3.
Proof.
  intros (W1 & S1 & Z1 & L1 & F1) (W2 & S2 & Z2 & L2 & F2). split; [done|].
  repeat (split; [congruence|]). auto.
Qed.

(** [k'] is [k] with more pages taken and more pages mapped. *)
Record extends (k k' : kernel) : Prop := {
  ex_km : km k' = km k;
  ex_kc : kc k' = kc k;
  ex_kth : kth k' = kth k;
  ex_ksy : ksy k' = ksy k;
  ex_vaddr : kernel_vaddr (kmem k') = kernel_vaddr (kmem k);
  ex_pool : forall pf, shrunk (pool_of pf (kmem k)) (pool_of pf (kmem k'));
  ex_maps : forall w a, is_word w -> translate (ram (kmem k)) (cr3 (kc k)) w = Some a ->
    translate (ram (kmem k')) (cr3 (kc k)) w = Some a }.

Lemma extends_refl k : mem_ok k -> extends k k.
Proof. intros [_ Hp _]. split; try done. intros pf. by apply shrunk_refl, pools_wf. Qed.

Lemma extends_trans k1 k2 k3 : extends k1 k2 -> extends k2 k3 -> extends k1 k3.
Proof.
  intros [A1 B1 C1 D1 E1 P1 M1] [A2 B2 C2 D2 E2 P2 M2]. split; try congruence.
  - intros pf. by eapply shrunk_trans.
  - intros w a Hw Ht. rewrite <- B1. apply M2; [done|]. rewrite B1. by apply M1.
Qed.

(** The invariant of the tables survives taking a page of a pool. *)
Lemma paging_ok_taken k pf p' i : paging_ok k -> page_taken (pool_of pf (kmem k)) p' i ->
  paging_ok (set_pool pf p' k).
Proof.
  intros Hok Ht. destruct pf; [|by apply (paging_ok_dir k); try apply Hok].
  pose proof Ht as (_ & _ & _ & Hu). destruct Hok as [Hw Hs Hd Hp Hc Htb Hinj].
  pose proof (fun q H => proj1 (page_free_taken _ p' i q Hu H)) as Hfree.
  split; cbn [set_pool set_kmem kmem ram kc kernel_pool]; try assumption.
  - apply Hu.
  - intros Hx. apply Hc, Hfree, Hx.
  - intros w Hwd Hpr Hx. apply (Htb w Hwd Hpr), Hfree, Hx.
Qed.

Lemma pools_ok_shrunk m m' : pools_ok m -> (forall pf, shrunk (pool_of pf m) (pool_of pf m')) ->
  pools_ok m'.
Proof.
  intros [H1 H2 H3] Hs. destruct (Hs PF_KERNEL) as (W1 & S1 & Z1 & _), (Hs PF_USER) as (W2 & S2 & _).
  cbn [pool_of] in *. split; [done|done|]. by rewrite S1, Z1, S2.
Qed.

(** A page of one pool is not a page of the other. *)
Lemma pools_disjoint m q : pools_ok m -> page_free (user_pool m) q -> ~ page_free (kernel_pool m) q.
Proof.
  intros [_ _ Ha] (i & Hi & -> & _) (j & Hj & E & _). unfold page_at, in_bits in *. lia.
Qed.

(** Enough free pages for [n] more pages and the tables they may need. *)
Definition budget (pf : pool_flag) (k : kernel) (n : nat) : Prop :=
  match pf with
  | PF_KERNEL => (2 * n <= free_count (kernel_pool (kmem k)))%nat
  | PF_USER => (n <= free_count (user_pool (kmem k)))%nat /\ (n <= free_count (kernel_pool (kmem k)))%nat
  end.

(** An address of the part of the space the allocator manages. *)
Definition heap_addr (v : Z) : Prop := 0x400000 <= v < 0xffc00000.

Lemma heap_addr_PDE v : heap_addr v -> is_word v /\ PDE_IDX v <> 0 /\ PDE_IDX v <> 1023.
Proof.
  unfold heap_addr. intros Hv. assert (is_word v) by (unfold is_word; lia).
  rewrite PDE_IDX_val by done. split; [done|]. zarith.
Qed.

Definition walk (k : kernel) (v : Z) : option Z := translate (ram (kmem k)) (cr3 (kc k)) v.

(** One page: a frame is taken and [v] mapped to it. *)
Record page_added (pf : pool_flag) (k k' : kernel) (v q : Z) : Prop := {
  pa_ok : mem_ok k';
  pa_extends : extends k k';
  pa_was_free : page_free (pool_of pf (kmem k)) q;
  pa_taken : ~ page_free (pool_of pf (kmem k')) q;
  pa_no_table : ~ table_frame k' q;
  pa_walk : walk k' v = Some (q + v mod 4096);
  pa_others : forall w, heap_addr w -> w / 4096 <> v / 4096 -> walk k' w = walk k w;
  pa_tables : forall x, ~ table_frame k x -> ~ page_free (kernel_pool (kmem k)) x -> ~ table_frame k' x;
  pa_new : forall x, table_frame k' x -> table_frame k x \/ page_free (kernel_pool (kmem k)) x;
  pa_kept : forall x, table_frame k x -> table_frame k' x;
  pa_account : forall pf' x, page_free (pool_of pf' (kmem k)) x ->
    page_free (pool_of pf' (kmem k')) x \/ table_frame k' x \/ x = q;
  pa_words : forall a, ~ table_word k v a -> word (ram (kmem k')) a = word (ram (kmem k)) a;
  pa_budget : forall n, budget pf k (S n) -> budget pf k' n }.

Lemma only_tables_shrunk k k' pf : mem_ok k -> only_tables k k' ->
  shrunk (pool_of pf (kmem k)) (pool_of pf (kmem k')).
Proof.
  intros [_ Hps _] (_ & _ & _ & _ & Hu & _ & Hk & _). pose proof (pools_wf _ pf Hps) as Hwf.
  destruct pf; cbn [pool_of] in *.
  - destruct Hk as [->|(i & Hi)]; [by apply shrunk_refl | by apply (shrunk_taken _ _ i)].
  - rewrite Hu. by apply shrunk_refl.
Qed.

Lemma mem_ok_taken k pf p' i : mem_ok k -> page_taken (pool_of pf (kmem k)) p' i ->
  mem_ok (set_pool pf p' k) /\ extends k (set_pool pf p' k).
Proof.
  intros [Hpg Hps Hus] Ht.
  assert (Hsh : forall pf', shrunk (pool_of pf' (kmem k)) (pool_of pf' (kmem (set_pool pf p' k)))).
  { intros pf'. pose proof (shrunk_taken _ _ _ Ht) as H1.
    pose proof (shrunk_refl _ (pools_wf _ pf' Hps)) as H2. by destruct pf, pf'. }
  split; [split|split].
  - by apply (paging_ok_taken k pf p' i).
  - by apply (pools_ok_shrunk (kmem k)).
  - intros q Hq Hf. apply (Hus q); [by destruct pf|]. destruct (Hsh PF_USER) as (_ & _ & _ & _ & Hs). by apply Hs.
  - done.
  - done.
  - done.
  - done.
  - by destruct pf.
  - exact Hsh.
  - by destruct pf.
Qed.

Lemma mem_ok_tables k k' : mem_ok k -> paging_ok k' -> only_tables k k' -> mem_ok k'.
Proof.
  intros Hok Hpg Hot. pose proof (fun pf => only_tables_shrunk k k' pf Hok Hot) as Hsh.
  destruct Hok as [_ Hps Hus]. split; [done|by apply (pools_ok_shrunk (kmem k))|].
  destruct Hot as (_ & _ & _ & _ & Hu & _ & _ & Htf & _). intros q Hq Hf. rewrite Hu in Hf.
  destruct (Htf q Hq) as [Ho|Ho]; [by apply (Hus q)|]. by apply (pools_disjoint _ _ Hps Hf).
Qed.

(** A free page is not a page table. *)
Lemma free_no_table k pf q : mem_ok k -> page_free (pool_of pf (kmem k)) q -> ~ table_frame k q.
Proof.
  intros [Hpg _ Hus] Hf Ht. destruct pf; [|by apply (Hus q)].
  destruct Ht as (w & Hw & Hp & E). apply (po_tables _ Hpg w Hw Hp). by rewrite E.
Qed.

Lemma only_tables_count k k' : only_tables k k' ->
  (free_count (kernel_pool (kmem k)) <= S (free_count (kernel_pool (kmem k'))))%nat /\
  user_pool (kmem k') = user_pool (kmem k).
Proof.
  intros (_ & _ & _ & _ & Hu & _ & Hk & _). split; [|done].
  destruct Hk as [->|(i & Hi)]; [lia|]. by rewrite (free_count_taken _ _ _ Hi).
Qed.

Lemma budget_step pf k p' i k' n : page_taken (pool_of pf (kmem k)) p' i ->
  only_tables (set_pool pf p' k) k' -> budget pf k (S n) -> budget pf k' n.
Proof.
  intros Htk Hot. pose proof (free_count_taken _ _ _ Htk) as Hfc.
  destruct (only_tables_count _ _ Hot) as [Hk Hu].
  destruct pf; cbn [budget pool_of set_pool set_kmem kmem kernel_pool user_pool] in *;
    rewrite ?Hu; lia.
Qed.

Lemma page_added_intro pf k p' i v k' : mem_ok k -> heap_addr v ->
  page_taken (pool_of pf (kmem k)) p' i ->
  paging_ok k' -> maps_added (set_pool pf p' k) k' v (page_at (pool_of pf (kmem k)) i) ->
  only_tables (set_pool pf p' k) k' ->
  page_added pf k k' v (page_at (pool_of pf (kmem k)) i).
Proof.
  intros Hok Hv Htk Hpg' (Hc & Hm & Hkeep & Hoth & Hwords) Hot.
  destruct (mem_ok_taken k pf p' i Hok Htk) as [Hok1 Hex1]. set (k1 := set_pool pf p' k) in *.
  set (q := page_at (pool_of pf (kmem k)) i) in *.
  pose proof Htk as (Hin & Hbit & _ & Hu).
  assert (Hqf : page_free (pool_of pf (kmem k)) q) by (by exists i).
  assert (Hp1 : pool_of pf (kmem k1) = p') by (by destruct pf).
  assert (Hqn : ~ page_free (pool_of pf (kmem k1)) q).
  { rewrite Hp1. intros Hx. by destruct (page_free_taken _ p' i q Hu Hx). }
  assert (Htf1 : forall x, table_frame k1 x <-> table_frame k x) by (intros x; by destruct pf).
  assert (Hw1 : forall w, walk k1 w = walk k w) by (intros w; by destruct pf).
  pose proof (fun pf' => only_tables_shrunk k1 k' pf' Hok1 Hot) as Hsh.
  pose proof Hot as (E1 & E2 & E3 & E4 & Eu & E5 & _ & Htab & Hkeept & Hacc).
  destruct (heap_addr_PDE v Hv) as (_ & Hv0 & _).
  split.
  - by apply (mem_ok_tables k1).
  - eapply extends_trans; [exact Hex1|]. split; assumption.
  - exact Hqf.
  - intros Hx. destruct (Hsh pf) as (_ & _ & _ & _ & Hf). apply Hqn, Hf, Hx.
  - intros Hx. destruct (Htab q Hx) as [Hy|Hy].
    + apply Htf1 in Hy. by apply (free_no_table k pf q).
    + destruct pf; [done|]. by apply (pools_disjoint (kmem k) q (mo_pools _ Hok)).
  - unfold walk. rewrite E2. exact Hm.
  - intros w Hw Hpw. destruct (heap_addr_PDE w Hw) as (Hww & Hw0 & Hw1').
    rewrite <- Hw1. unfold walk. rewrite E2. by apply Hoth.
  - intros x Hx Hfx Hy. destruct (Htab x Hy) as [Hz|Hz]; [by apply Hx, Htf1|].
    apply Hfx. destruct (ex_pool _ _ Hex1 PF_KERNEL) as (_ & _ & _ & _ & Hs). by apply Hs.
  - intros x Hx. destruct (Htab x Hx) as [Hz|Hz]; [left; by apply Htf1|right].
    destruct (ex_pool _ _ Hex1 PF_KERNEL) as (_ & _ & _ & _ & Hs). by apply Hs.
  - intros x Hx. by apply Hkeept, Htf1.
  - intros pf' x Hx.
    assert (Hx1 : page_free (pool_of pf' (kmem k1)) x \/ x = q).
    { destruct pf, pf'; try (by left); by apply (page_free_kept _ p' i x Hu). }
    destruct Hx1 as [Hx1|]; [|by right; right].
    destruct pf'; cbn [pool_of] in *.
    + destruct (Hacc x Hx1); [by left | by right; left].
    + left. by rewrite Eu.
  - intros a Ha. rewrite Hwords; [by destruct pf|]. intros Hx. apply Ha. unfold table_word in *.
    replace (ram (kmem k1)) with (ram (kmem k)) in Hx by (by destruct pf).
    replace (cr3 (kc k1)) with (cr3 (kc k)) in Hx by (by destruct pf).
    revert Hx. destruct (present (word (ram (kmem k)) (pde_addr (cr3 (kc k)) v))); [exact id|].
    intros [Hx|(x & Hx & Hr)]; [by left|right].
    exists x. split; [|exact Hr]. destruct (ex_pool _ _ Hex1 PF_KERNEL) as (_ & _ & _ & _ & Hs). by apply Hs.
  - intros n. by apply (budget_step pf k p' i).
Qed.

(** A page added under a directory entry that is present changes one word. *)
Lemma pa_dir pf k k' v q : mem_ok k -> heap_addr v -> page_added pf k k' v q ->
  present (word (ram (kmem k)) (pde_addr (cr3 (kc k)) v)) = true ->
  (forall a, a <> pte_addr (ram (kmem k)) (cr3 (kc k)) v -> word (ram (kmem k')) a = word (ram (kmem k)) a) /\
  (forall w, is_word w -> word (ram (kmem k')) (pde_addr (cr3 (kc k)) w) = word (ram (kmem k)) (pde_addr (cr3 (kc k)) w)).
Proof.
  intros Hok Hv Hadd Hpd. destruct (heap_addr_PDE v Hv) as (Hvw & _ & Hv1).
  assert (H1 : forall a, a <> pte_addr (ram (kmem k)) (cr3 (kc k)) v ->
    word (ram (kmem k')) a = word (ram (kmem k)) a).
  { intros a Ha. apply (pa_words _ _ _ _ _ Hadd). unfold table_word. by rewrite Hpd. }
  split; [exact H1|]. intros w Hw. apply H1. intros E. pose proof (mo_paging _ Hok) as Hpg.
  pose proof (po_self _ Hpg) as (_ & Hca & _). unfold pde_addr, pte_addr in E.
  destruct (frame_aligned _ (word_ok _ (pde_addr (cr3 (kc k)) v) (po_words _ Hpg))) as [Hfa _].
  apply (frames_apart _ _ _ _ Hca Hfa) in E; [done| |by apply PDE_IDX_range|by apply PTE_IDX_range].
  intros Ec. by apply (po_dir _ Hpg v Hvw Hv1 Hpd).
Qed.

Lemma map_page_ok pf k v : mem_ok k -> heap_addr v -> walk k v = None -> budget pf k 1 ->
  exists q k1 k', palloc pf k = Ok (q, k1) /\ q <> NULL /\ page_table_add v q k1 = Ok (tt, k') /\
    page_added pf k k' v q.
Proof.
  intros Hok Hv Hno Hbud. destruct (heap_addr_PDE v Hv) as (Hvw & Hv0 & Hv1).
  assert (Hpos : (0 < free_count (pool_of pf (kmem k)))%nat)
    by (destruct pf; cbn [budget pool_of] in *; lia).
  pose proof (pools_wf _ pf (mo_pools _ Hok)) as Hwf.
  destruct (palloc_ok pf k Hwf) as [[He _]|(i & p' & Hin & Hbit & Hlt & Epa & Hu)];
    [by destruct (free_count_pos _ Hpos)|].
  assert (Htk : page_taken (pool_of pf (kmem k)) p' i) by done.
  destruct (mem_ok_taken k pf p' i Hok Htk) as [Hok1 _].
  destruct (page_at_word _ i Hwf Hin) as (Hqw & Hqa & Hqp).
  assert (Hkpos : (0 < free_count (kernel_pool (kmem (set_pool pf p' k))))%nat).
  { pose proof (free_count_taken _ _ _ Htk) as Hfc. destruct pf; cbn in *; lia. }
  destruct (page_table_add_ok (set_pool pf p' k) v _ (mo_paging _ Hok1) Hvw Hv1 Hqw Hqa)
    as (k' & Eadd & Hpg' & Hm & Hot).
  { by destruct pf. }
  { by apply free_count_pos. }
  exists (page_at (pool_of pf (kmem k)) i), (set_pool pf p' k), k'.
  split; [done|]. split; [unfold NULL; lia|]. split; [done|].
  by apply (page_added_intro pf k p' i).
Qed.

(** The address of the table entry of [v], and whether all of the [n] pages from
    [v] on have a table. *)
Definition entry_addr (k : kernel) (v : Z) : Z := pte_addr (ram (kmem k)) (cr3 (kc k)) v.
Definition tables_present (k : kernel) (v : Z) (n : nat) : Prop := forall i, (i < n)%nat ->
  present (word (ram (kmem k)) (pde_addr (cr3 (kc k)) (v + Z.of_nat i * 4096))) = true.

(** [qs]: the frames behind the pages from [v] on. *)
Record pages_added (pf : pool_flag) (k k' : kernel) (v : Z) (qs : list Z) : Prop := {
  pas_ok : mem_ok k';
  pas_extends : extends k k';
  pas_distinct : NoDup qs;
  pas_frames : forall i q, qs !! i = Some q ->
    walk k' (v + Z.of_nat i * 4096) = Some q /\ page_free (pool_of pf (kmem k)) q /\
    ~ page_free (pool_of pf (kmem k')) q /\ ~ table_frame k' q;
  pas_others : forall w, heap_addr w -> ~ (v <= w < v + zlen qs * 4096) -> walk k' w = walk k w;
  pas_tables : forall x, ~ table_frame k x -> ~ page_free (kernel_pool (kmem k)) x -> ~ table_frame k' x;
  pas_kept : forall x, table_frame k x -> table_frame k' x;
  pas_account : forall pf' x, page_free (pool_of pf' (kmem k)) x ->
    page_free (pool_of pf' (kmem k')) x \/ table_frame k' x \/ x ∈ qs;
  pas_words : tables_present k v (length qs) ->
    forall a, (forall i, (i < length qs)%nat -> a <> entry_addr k (v + Z.of_nat i * 4096)) ->
    word (ram (kmem k')) a = word (ram (kmem k)) a;
  pas_budget : forall m, budget pf k (length qs + m) -> budget pf k' m }.

Lemma pages_added_nil pf k v : mem_ok k -> pages_added pf k k v [].
Proof.
  intros Hok. split; try done; [by apply extends_refl|constructor|].
  intros pf' x Hx. by left.
Qed.

Lemma pages_added_cons pf k k1 k' v q qs : mem_ok k -> v mod 4096 = 0 -> heap_addr v ->
  v + (1 + zlen qs) * 4096 <= 0xffc00000 ->
  page_added pf k k1 v q -> pages_added pf k1 k' (v + 4096) qs -> pages_added pf k k' v (q :: qs).
Proof.
  intros Hok Hva Hv Hend Hadd [Ok2 Ex2 Nd2 Fr2 Ot2 Tb2 Kp2 Ac2 Wd2 Bg2].
  pose proof (pa_dir pf k k1 v q Hok Hv Hadd) as Hdir.
  destruct Hadd as [Ok1 Ex1 Fr1 Tk1 Nt1 W1 Ot1 Tb1 _ Kp1 Ac1 Wd1 Bg1].
  destruct (ex_pool _ _ Ex1 pf) as (_ & _ & _ & _ & Hs1).
  destruct (ex_pool _ _ Ex2 pf) as (_ & _ & _ & _ & Hs2).
  rewrite Hva, Z.add_0_r in W1. split.
  - done.
  - by eapply extends_trans.
  - apply NoDup_cons. split; [|done]. intros Hin. apply list_elem_of_lookup in Hin as [i Hi].
    destruct (Fr2 i q Hi) as (_ & Hf & _). by apply Tk1.
  - intros [|i] x Hx; cbn in Hx.
    + injection Hx as <-. rewrite Z.mul_0_l, Z.add_0_r. split.
      { unfold walk. rewrite (ex_kc _ _ Ex2). apply (ex_maps _ _ Ex2); [unfold is_word, heap_addr in *; lia|].
        exact W1. }
      split; [done|]. split; [by intros Hx; apply Tk1, Hs2|]. apply Tb2; [done|].
      destruct pf; [done|]. intros Hk.
      apply (pools_disjoint (kmem k) q (mo_pools _ Hok) Fr1).
      destruct (ex_pool _ _ Ex1 PF_KERNEL) as (_ & _ & _ & _ & Hsk). by apply Hsk.
    + destruct (Fr2 i x Hx) as (Hw & Hf & Hn & Ht).
      replace (v + Z.of_nat (S i) * 4096) with (v + 4096 + Z.of_nat i * 4096) by lia.
      split; [done|]. split; [by apply Hs1|]. done.
  - intros w Hw Hout. rewrite zlen_cons in Hout. pose proof (zlen_nonneg qs).
    rewrite Ot2 by (done || lia). apply Ot1; [done|]. zarith.
  - intros x Hx Hfx. apply Tb2; [by apply Tb1|]. intros Hk. apply Hfx.
    destruct (ex_pool _ _ Ex1 PF_KERNEL) as (_ & _ & _ & _ & Hsk). by apply Hsk.
  - intros x Hx. by apply Kp2, Kp1.
  - intros pf' x Hx. destruct (Ac1 pf' x Hx) as [H1|[H1| ->]].
    + destruct (Ac2 pf' x H1) as [H2|[H2|H2]]; [by left | by right; left | right; right; by right].
    + right. left. by apply Kp2.
    + right. right. by left.
  - intros Hpr a Ha. cbn [length] in Hpr, Ha. unfold tables_present, entry_addr, zlen in *.
    pose proof (Hpr 0%nat ltac:(lia)) as Hp0. rewrite Z.mul_0_l, Z.add_0_r in Hp0.
    destruct (Hdir Hp0) as [Hone Hpde]. rewrite (ex_kc _ _ Ex1) in Wd2.
    assert (Hsame : forall i, (i < length qs)%nat ->
      word (ram (kmem k1)) (pde_addr (cr3 (kc k)) (v + 4096 + Z.of_nat i * 4096)) =
      word (ram (kmem k)) (pde_addr (cr3 (kc k)) (v + Z.of_nat (S i) * 4096))).
    { intros i Hi. replace (v + 4096 + Z.of_nat i * 4096) with (v + Z.of_nat (S i) * 4096) by lia.
      apply Hpde. unfold is_word, heap_addr in *. lia. }
    rewrite Wd2.
    + apply Hone. specialize (Ha 0%nat ltac:(lia)). by rewrite Z.mul_0_l, Z.add_0_r in Ha.
    + intros i Hi. rewrite Hsame by done. apply Hpr. lia.
    + intros i Hi. unfold pte_addr. rewrite Hsame by done.
      replace (v + 4096 + Z.of_nat i * 4096) with (v + Z.of_nat (S i) * 4096) by lia. apply Ha. lia.
  - intros m Hm. by apply Bg2, Bg1.
Qed.

Lemma budget_mono pf k n m : (m <= n)%nat -> budget pf k n -> budget pf k m.
Proof. destruct pf; cbn [budget]; lia. Qed.

Lemma malloc_page_loop_ok pf s n : forall k v, mem_ok k -> v mod 4096 = 0 -> 0x400000 <= v ->
  v + Z.of_nat n * 4096 <= 0xffc00000 ->
  (forall i, (i < n)%nat -> walk k (v + Z.of_nat i * 4096) = None) -> budget pf k n ->
  exists k' qs, malloc_page_loop n pf v s k = Ok (s, k') /\ length qs = n /\ pages_added pf k k' v qs.
Proof.
  induction n as [|n IH]; intros k v Hok Hva Hlo Hhi Hno Hbud.
  { exists k, []. split; [done|]. split; [done|]. by apply pages_added_nil. }
  assert (Hv : heap_addr v) by (unfold heap_addr; lia).
  assert (Hv0 : walk k v = None)
    by (pose proof (Hno 0%nat ltac:(lia)) as H0; by rewrite Z.mul_0_l, Z.add_0_r in H0).
  destruct (map_page_ok pf k v Hok Hv Hv0 (budget_mono pf k (S n) 1 ltac:(lia) Hbud))
    as (q & k1 & k2 & Epa & Hq & Eadd & Hadd).
  destruct (IH k2 (v + 4096)) as (k' & qs & El & Hlen & Hqs).
  - apply Hadd.
  - zarith.
  - lia.
  - lia.
  - intros i Hi. rewrite (pa_others _ _ _ _ _ Hadd) by (unfold heap_addr; zarith).
    pose proof (Hno (S i) ltac:(lia)) as Hi'. by replace (v + 4096 + Z.of_nat i * 4096) with (v + Z.of_nat (S i) * 4096) by lia.
  - by apply Hadd.
  - exists k', (q :: qs). split; [|split; [by cbn; rewrite Hlen |
      eapply pages_added_cons; try eassumption; unfold zlen; lia]].
    cbn [malloc_page_loop]. rewrite (bindM_ok _ _ _ _ _ Epa), (proj2 (Z.eqb_neq _ _) Hq).
    rewrite (bindM_ok _ _ _ _ _ Eadd). unfold PG_SIZE. rewrite u32_small by lia. done.
Qed.

(** ** Virtual address spaces *)

Definition vspace (pf : pool_flag) (k : kernel) : option virtual_addr :=
  match pf with
  | PF_KERNEL => Some (kernel_vaddr (kmem k))
  | PF_USER => userprog_vaddr <$> pcbs (kth k) !! cur (kc k)
  end.

Definition with_vspace (pf : pool_flag) (va : virtual_addr) (k : kernel) : kernel :=
  match pf with
  | PF_KERNEL => set_kernel_vaddr va k
  | PF_USER => set_pcbs (alter (set_userprog_vaddr va) (cur (kc k)) (pcbs (kth k))) k
  end.

Definition space_end (pf : pool_flag) : Z :=
  match pf with PF_KERNEL => 0xffc00000 | PF_USER => 0xc0000000 end.

Record vspace_wf (pf : pool_flag) (va : virtual_addr) : Prop := {
  vw_bitmap : bitmap_wf (vaddr_bitmap va);
  vw_align : vaddr_start va mod 4096 = 0;
  vw_start : 0x400000 <= vaddr_start va;
  vw_end : vaddr_start va + 8 * zlen (bits (vaddr_bitmap va)) * 4096 <= space_end pf }.

(** A page that may be handed out is not mapped. *)
Definition vspace_ok (pf : pool_flag) (va : virtual_addr) (k : kernel) : Prop :=
  vspace pf k = Some va /\ vspace_wf pf va /\
  forall i, in_bits (vaddr_bitmap va) i -> bit (vaddr_bitmap va) i = false ->
    walk k (vaddr_start va + i * 4096) = None.

Lemma get_vaddr_ok pf k va : vspace pf k = Some va -> get_vaddr pf k = Ok (va, k).
Proof.
  destruct pf; cbn [vspace]; intros E; [by injection E as <-|].
  unfold get_vaddr, running_thread. rewrite bind_gets.
  destruct (pcbs (kth k) !! cur (kc k)) as [p|] eqn:Ep; [|done]. injection E as <-.
  by rewrite (bindM_ok _ _ _ _ _ (get_pcb_ok _ _ _ Ep)).
Qed.

Lemma set_vaddr_ok pf k va va' : vspace pf k = Some va -> set_vaddr pf va' k = Ok (tt, with_vspace pf va' k).
Proof.
  destruct pf; cbn [vspace]; intros E; [done|].
  unfold set_vaddr, running_thread. rewrite bind_gets.
  destruct (pcbs (kth k) !! cur (kc k)) as [p|] eqn:Ep; [|done].
  rewrite (upd_pcb_ok _ _ _ _ Ep). unfold with_vspace. do 3 f_equal.
  apply map_eq. intros j. destruct (decide (j = cur (kc k))) as [->|N].
  - by rewrite lookup_insert_eq, lookup_alter_eq, Ep.
  - by rewrite lookup_insert_ne, lookup_alter_ne.
Qed.

Lemma vspace_with pf va va' k : vspace pf k = Some va -> vspace pf (with_vspace pf va' k) = Some va'.
Proof.
  destruct pf; cbn [vspace with_vspace]; intros E; [done|].
  cbn. rewrite lookup_alter_eq. by destruct (pcbs (kth k) !! cur (kc k)).
Qed.

(** What [with_vspace] leaves alone. *)
Lemma with_vspace_same pf va k :
  ram (kmem (with_vspace pf va k)) = ram (kmem k) /\ kc (with_vspace pf va k) = kc k /\
  (forall pf', pool_of pf' (kmem (with_vspace pf va k)) = pool_of pf' (kmem k)) /\
  (forall w, walk (with_vspace pf va k) w = walk k w) /\
  (forall q, table_frame (with_vspace pf va k) q <-> table_frame k q).
Proof. destruct pf; split_and!; try done; by intros []. Qed.

Lemma mem_ok_same k k' : mem_ok k -> ram (kmem k') = ram (kmem k) -> cr3 (kc k') = cr3 (kc k) ->
  (forall pf, pool_of pf (kmem k') = pool_of pf (kmem k)) -> mem_ok k'.
Proof.
  intros [Hpg Hps Hus] Er Ec Hp. pose proof (Hp PF_KERNEL) as Hk. pose proof (Hp PF_USER) as Hu.
  cbn [pool_of] in Hk, Hu. split.
  - apply (paging_ok_dir k); [exact Hpg|rewrite Er; apply Hpg|exact Ec|exact Hk|].
    intros i _. by rewrite Er.
  - destruct Hps as [P1 P2 P3]. split; rewrite ?Hk, ?Hu; assumption.
  - intros q (w & Hw & Hpr & Hf). rewrite Er, Ec in Hpr, Hf. rewrite Hu. apply Hus. by exists w.
Qed.

(** [vaddr_get] reserves the first run of clear bits. *)
Lemma vaddr_get_ok pf k va cnt : vspace pf k = Some va -> vspace_wf pf va ->
  1 <= cnt <= len (vaddr_bitmap va) ->
  ((forall i, 0 <= i < len (vaddr_bitmap va) - cnt -> ~ free_run (vaddr_bitmap va) i cnt) /\
   vaddr_get pf cnt k = Ok (NULL, k)) \/
  exists i b, 0 <= i < len (vaddr_bitmap va) - cnt /\ free_run (vaddr_bitmap va) i cnt /\
    vaddr_get pf cnt k = Ok (vaddr_start va + i * 4096, with_vspace pf (mk_vaddr b (vaddr_start va)) k) /\
    vspace_wf pf (mk_vaddr b (vaddr_start va)) /\ len b = len (vaddr_bitmap va) /\
    zlen (bits b) = zlen (bits (vaddr_bitmap va)) /\
    forall j, in_bits (vaddr_bitmap va) j ->
      bit b j = if bool_decide (i <= j < i + cnt) then true else bit (vaddr_bitmap va) j.
Proof.
  intros Hvs [Hb Ha Hs He] Hc. unfold vaddr_get.
  rewrite (bindM_ok _ _ _ _ _ (get_vaddr_ok pf k va Hvs)).
  destruct (bitmap_apply_cnt_ok _ cnt Hb Hc) as (r & Er & Hcase).
  rewrite (bind_lift _ _ _ _ Er). destruct Hcase as [[-> Hno]|(Hr & Hfree & _)]; [left; done|].
  right. pose proof (bw_len _ Hb) as Hlen.
  destruct (set_run_ok (Z.to_nat cnt) (vaddr_bitmap va) r 1 Hb) as (b & Eb & Wb & Lb & Zb & Bb);
    [lia|lia|by right|]. rewrite Z2Nat.id in Bb by lia.
  exists r, b. split; [done|]. split; [done|]. split.
  2:{ split; [|done]. split; cbn [vaddr_bitmap vaddr_start]; try done. by rewrite Zb. }
  decide_bool. rewrite (bind_lift _ _ _ _ Eb), (bindM_ok _ _ _ _ _ (set_vaddr_ok pf k va _ Hvs)).
  unfold PG_SIZE. rewrite u32_small by (destruct pf; cbn [space_end] in He; lia).
  destruct pf; [done|]. cbn [space_end] in He. rewrite bind_assert; [done|].
  apply Z.ltb_lt. lia.
Qed.

Definition no_run (va : virtual_addr) (cnt : Z) : Prop :=
  forall i, 0 <= i < len (vaddr_bitmap va) - cnt -> ~ free_run (vaddr_bitmap va) i cnt.

Lemma extends_vspace pf k k' : extends k k' -> vspace pf k' = vspace pf k.
Proof. intros [_ Hc Ht _ Hv _ _]. destruct pf; cbn [vspace]; by rewrite ?Hv, ?Ht, ?Hc. Qed.

(** The pages reserved by [vaddr_get] are not mapped. *)
Lemma reserved_unmapped pf va k i cnt : vspace_ok pf va k -> 0 <= i < len (vaddr_bitmap va) - cnt ->
  free_run (vaddr_bitmap va) i cnt -> forall j, (j < Z.to_nat cnt)%nat ->
  walk k (vaddr_start va + i * 4096 + Z.of_nat j * 4096) = None.
Proof.
  intros (_ & [Hb _ _ _] & Hun) Hi Hf j Hj. pose proof (bw_len _ Hb).
  replace (vaddr_start va + i * 4096 + Z.of_nat j * 4096)
    with (vaddr_start va + (i + Z.of_nat j) * 4096) by lia.
  apply Hun; [unfold in_bits; lia | apply Hf; lia].
Qed.

(** After the pages are mapped and their bits set the space is well formed. *)
Lemma vspace_ok_added pf va k k' b i cnt qs : vspace_ok pf va k -> 0 <= i -> 0 <= cnt ->
  zlen qs = cnt ->
  vspace_wf pf (mk_vaddr b (vaddr_start va)) -> zlen (bits b) = zlen (bits (vaddr_bitmap va)) ->
  (forall j, in_bits (vaddr_bitmap va) j ->
      bit b j = if bool_decide (i <= j < i + cnt) then true else bit (vaddr_bitmap va) j) ->
  pages_added pf (with_vspace pf (mk_vaddr b (vaddr_start va)) k) k' (vaddr_start va + i * 4096) qs ->
  vspace_ok pf (mk_vaddr b (vaddr_start va)) k'.
Proof.
  intros (Hvs & [Hb Ha Hs He] & Hun) Hi Hc Hlen Hwf Hz Hbit Hadd. split; [|split; [done|]].
  - rewrite (extends_vspace _ _ _ (pas_extends _ _ _ _ _ Hadd)). by apply (vspace_with pf va).
  - cbn [vaddr_bitmap vaddr_start]. intros j Hj Hf. unfold in_bits in Hj. rewrite Hz in Hj.
    rewrite Hbit in Hf by done. case_bool_decide as Hin; [done|].
    rewrite (pas_others _ _ _ _ _ Hadd).
    + destruct (with_vspace_same pf (mk_vaddr b (vaddr_start va)) k) as (_ & _ & _ & Hw & _).
      rewrite Hw. by apply Hun.
    + unfold heap_addr. destruct pf; cbn [space_end] in He; lia.
    + rewrite Hlen. lia.
Qed.

(** The fields page operations do not touch. *)
Definition same_rest (k k' : kernel) : Prop :=
  km k' = km k /\ kc k' = kc k /\ kth k' = kth k /\ ksy k' = ksy k /\
  kernel_vaddr (kmem k') = kernel_vaddr (kmem k).

Definition in_pool (p : pool) (q : Z) : Prop := exists i, in_bits (pool_bitmap p) i /\ q = page_at p i.

(** What [malloc_page] promises: [cnt] pages from [v] on, behind them frames
    that were free and are now taken, one per page, none of them a page table;
    every page no longer free is one of them or a page table; the rest of the
    space is as before. *)
Record allocated (pf : pool_flag) (k k' : kernel) (va va' : virtual_addr) (v cnt : Z) (qs : list Z) : Prop := {
  al_ok : mem_ok k';
  al_space : vspace_ok pf va' k';
  al_index : exists i, 0 <= i /\ v = vaddr_start va + i * 4096 /\
    i + cnt <= 8 * zlen (bits (vaddr_bitmap va));
  al_shape : forall pf', phy_addr_start (pool_of pf' (kmem k')) = phy_addr_start (pool_of pf' (kmem k)) /\
    forall x, in_pool (pool_of pf' (kmem k')) x <-> in_pool (pool_of pf' (kmem k)) x;
  al_count : zlen qs = cnt;
  al_distinct : NoDup qs;
  al_frames : forall i q, qs !! i = Some q ->
    walk k (v + Z.of_nat i * 4096) = None /\ walk k' (v + Z.of_nat i * 4096) = Some q /\
    page_free (pool_of pf (kmem k)) q /\ ~ page_free (pool_of pf (kmem k')) q /\ ~ table_frame k' q;
  al_account : forall pf' x,
    (page_free (pool_of pf' (kmem k')) x -> page_free (pool_of pf' (kmem k)) x) /\
    (page_free (pool_of pf' (kmem k)) x ->
       page_free (pool_of pf' (kmem k')) x \/ table_frame k' x \/ x ∈ qs);
  al_others : forall w, heap_addr w -> ~ (v <= w < v + cnt * 4096) -> walk k' w = walk k w;
  al_start : vaddr_start va' = vaddr_start va;
  al_was_clear : forall j, in_bits (vaddr_bitmap va) j ->
    v <= vaddr_start va + j * 4096 < v + cnt * 4096 -> bit (vaddr_bitmap va) j = false;
  al_bits : forall j, in_bits (vaddr_bitmap va) j -> in_bits (vaddr_bitmap va') j /\
    bit (vaddr_bitmap va') j =
      if bool_decide (v <= vaddr_start va + j * 4096 < v + cnt * 4096) then true
      else bit (vaddr_bitmap va) j;
  al_rest : same_rest (with_vspace pf va' k) k';
  al_tables : forall x, ~ table_frame k x -> ~ page_free (kernel_pool (kmem k)) x -> ~ table_frame k' x;
  al_words : tables_present k v (length qs) ->
    forall a, (forall i, (i < length qs)%nat -> a <> entry_addr k (v + Z.of_nat i * 4096)) ->
    word (ram (kmem k')) a = word (ram (kmem k)) a;
  al_budget : forall m, budget pf k (length qs + m) -> budget pf k' m;
  al_size : len (vaddr_bitmap va') = len (vaddr_bitmap va) }.

Lemma malloc_page_no_run pf va k cnt : vspace_ok pf va k -> 0 < cnt < 3840 -> cnt <= len (vaddr_bitmap va) -> no_run va cnt ->
  malloc_page pf cnt k = Ok (NULL, k).
Proof.
  intros (Hvs & Hwf & _) Hc Hlen Hn. unfold malloc_page.
  rewrite bind_assert by (apply andb_true_iff; split; apply Z.ltb_lt; lia).
  destruct (vaddr_get_ok pf k va cnt Hvs Hwf ltac:(lia)) as [[_ E]|(i & b & Hi & Hfree & _)]; [|by destruct (Hn i Hi)].
  by rewrite (bindM_ok _ _ _ _ _ E).
Qed.

Lemma malloc_page_ok pf va k cnt : mem_ok k -> vspace_ok pf va k -> 0 < cnt < 3840 ->
  cnt <= len (vaddr_bitmap va) -> budget pf k (Z.to_nat cnt) ->
  (malloc_page pf cnt k = Ok (NULL, k) /\ no_run va cnt) \/
  exists v k' va' qs, malloc_page pf cnt k = Ok (v, k') /\ allocated pf k k' va va' v cnt qs.
Proof.
  intros Hok Hsp Hc Hlen Hbud. pose proof Hsp as (Hvs & Hwf & _). unfold malloc_page.
  rewrite bind_assert by (apply andb_true_iff; split; apply Z.ltb_lt; lia).
  destruct (vaddr_get_ok pf k va cnt Hvs Hwf ltac:(lia))
    as [[Hno E]|(i & b & Hi & Hfree & E & Hwf' & Lb & Zb & Bb)];
    rewrite (bindM_ok _ _ _ _ _ E); [by left|]. right.
  pose proof Hwf as [Hb Ha Hs He]. pose proof (bw_len _ Hb) as Hbl.
  rewrite (proj2 (Z.eqb_neq _ _)) by (unfold NULL; lia).
  set (v := vaddr_start va + i * 4096) in *. set (va' := mk_vaddr b (vaddr_start va)) in *.
  destruct (with_vspace_same pf va' k) as (Er & Ec & Hp & Hw & Htf).
  assert (Hend : v + cnt * 4096 <= space_end pf) by lia.
  assert (Hse : space_end pf <= 0xffc00000) by (by destruct pf).
  destruct (malloc_page_loop_ok pf v (Z.to_nat cnt) (with_vspace pf va' k) v)
    as (k' & qs & El & Hqn & Hadd).
  - apply (mem_ok_same k); [done|done|by rewrite Ec|done].
  - unfold v. zarith.
  - lia.
  - lia.
  - intros j Hj. rewrite Hw. by apply (reserved_unmapped pf va k i cnt).
  - destruct pf; exact Hbud.
  - assert (Hql : zlen qs = cnt) by (unfold zlen; lia).
    exists v, k', va', qs. split; [exact El|]. split.
    + exact (pas_ok _ _ _ _ _ Hadd).
    + apply (vspace_ok_added pf va k k' b i cnt qs); [exact Hsp|lia|lia|exact Hql|exact Hwf'|exact Zb|exact Bb|exact Hadd].
    + exists i. split; [lia|]. split; [reflexivity|lia].
    + intros pf'. destruct (ex_pool _ _ (pas_extends _ _ _ _ _ Hadd) pf') as (_ & S' & Z' & _ & _).
      rewrite Hp in S', Z'. split; [exact S'|]. intros x. unfold in_pool, page_at, in_bits.
      rewrite S', Z'. reflexivity.
    + exact Hql.
    + exact (pas_distinct _ _ _ _ _ Hadd).
    + intros j q Hj. destruct (pas_frames _ _ _ _ _ Hadd j q Hj) as (H1 & H2 & H3 & H4).
      rewrite Hp in H2. split; [|split; [exact H1|split; [exact H2|split; [exact H3|exact H4]]]].
      apply (reserved_unmapped pf va k i cnt Hsp Hi Hfree). apply lookup_lt_Some in Hj. lia.
    + intros pf' x. destruct (ex_pool _ _ (pas_extends _ _ _ _ _ Hadd) pf') as (_ & _ & _ & _ & Hs').
      pose proof (pas_account _ _ _ _ _ Hadd pf' x) as Hacc. rewrite Hp in Hs', Hacc.
      split; [exact (Hs' x)|exact Hacc].
    + intros w Hwh Hout. rewrite <- Hql in Hout.
      exact (eq_trans (pas_others _ _ _ _ _ Hadd w Hwh Hout) (Hw w)).
    + reflexivity.
    + intros j Hj Hin. replace j with (i + (j - i)) by lia. apply Hfree. unfold v in Hin. lia.
    + intros j Hj. split; [unfold in_bits in *; cbn [vaddr_bitmap va']; rewrite Zb; exact Hj|].
      cbn [va' vaddr_bitmap]. rewrite (Bb j Hj).
      rewrite (bool_decide_ext (i <= j < i + cnt) (v <= vaddr_start va + j * 4096 < v + cnt * 4096)) by lia.
      reflexivity.
    + destruct (pas_extends _ _ _ _ _ Hadd) as [X1 X2 X3 X4 X5 _ _]. repeat (split; [assumption|]). assumption.
    + intros x Hx Hfx. apply (pas_tables _ _ _ _ _ Hadd); [by rewrite Htf|].
      by rewrite (Hp PF_KERNEL : kernel_pool _ = _).
    + pose proof (pas_words _ _ _ _ _ Hadd) as Hwd. unfold tables_present, entry_addr in *.
      rewrite Er, Ec in Hwd. exact Hwd.
    + intros m Hm. apply (pas_budget _ _ _ _ _ Hadd). destruct pf; exact Hm.
    + exact Lb.
Qed.

(** ** Freeing pages *)

(** Overwriting the table entry of [v] with one that is not present unmaps
    that page and no other. *)
Lemma drop_entry r c v x : words_ok r -> c mod 4096 = 0 -> is_word v ->
  present (word r (pde_addr c v)) = true -> frame (word r (pde_addr c v)) <> c ->
  present x = false ->
  let r' := <[pte_addr r c v := x]> r in
  (forall i, 0 <= i < 1024 -> word r' (c + i * 4) = word r (c + i * 4)) /\
  translate r' c v = None /\
  (tables_apart r c v -> forall w, is_word w -> PDE_IDX w <> 0 -> w / 4096 <> v / 4096 ->
     translate r' c w = translate r c w).
Proof.
  intros Hr Hc Hv Hpd Hfr Hx r'. pose proof (PTE_IDX_range v Hv) as Hj.
  destruct (frame_aligned _ (word_ok r (pde_addr c v) Hr)) as [Hfa _].
  assert (Hdir : forall i, 0 <= i < 1024 -> word r' (c + i * 4) = word r (c + i * 4)).
  { intros i Hi. unfold r'. rewrite word_insert. destruct (Z.eq_dec _ _) as [E|]; [|done].
    unfold pte_addr in E. by apply frames_apart in E. }
  assert (Hpde : forall w, is_word w -> word r' (pde_addr c w) = word r (pde_addr c w))
    by (intros w Hw; apply Hdir, PDE_IDX_range, Hw).
  split; [exact Hdir|]. split.
  - unfold translate. rewrite Hpde, Hpd by exact Hv.
    assert (pte_addr r' c v = pte_addr r c v) as -> by (unfold pte_addr; by rewrite Hpde).
    unfold r'. rewrite word_insert. destruct (Z.eq_dec _ _); [|done]. by rewrite Hx.
  - intros Hap w Hw Hw0 Hpg. destruct (present (word r (pde_addr c w))) eqn:Hpw.
    2:{ rewrite !translate_absent; [done|done|by rewrite Hpde]. }
    apply translate_frame; [by apply Hpde|]. unfold r'. rewrite word_insert.
    destruct (Z.eq_dec _ _) as [E|]; [exfalso|done].
    destruct (decide (PDE_IDX w = PDE_IDX v)) as [Ei|Ni].
    + apply (pages_apart v w Hv Hw Hpg Ei). unfold pte_addr in E.
      rewrite (proj2 (pde_addr_inj c v w) Ei) in E. lia.
    + destruct (frame_aligned _ (word_ok r (pde_addr c w) Hr)) as [Hwa _].
      exact (frames_apart _ _ _ _ Hwa Hfa (Hap w Hw Hw0 Ni Hpw) (PTE_IDX_range w Hw) Hj (eq_sym E)).
Qed.

Lemma pte_remove_ok k v a : paging_ok k -> heap_addr v -> walk k v = Some a ->
  exists k', page_table_pte_remove v k = Ok (tt, k') /\ paging_ok k' /\ same_rest k k' /\
    (forall pf, pool_of pf (kmem k') = pool_of pf (kmem k)) /\ walk k' v = None /\
    (forall w, heap_addr w -> w / 4096 <> v / 4096 -> walk k' w = walk k w) /\
    (forall q, table_frame k' q <-> table_frame k q) /\
    (forall i, 0 <= i < 1024 -> word (ram (kmem k')) (cr3 (kc k) + i * 4) = word (ram (kmem k)) (cr3 (kc k) + i * 4)) /\
    (forall b, b <> entry_addr k v -> word (ram (kmem k')) b = word (ram (kmem k)) b).
Proof.
  intros Hok Hva Ht. destruct (heap_addr_PDE v Hva) as (Hv & Hv0 & Hv1).
  pose proof Hok as [Hw Hs Hd _ _ _ Hinj]. pose proof Hs as (_ & Hca & _).
  destruct (translate_present _ _ _ _ Ht) as [Hpd Hpt].
  pose proof (translate_pte_ptr _ _ v Hs Hv Hpd) as Hptr. unfold page_table_pte_remove.
  rewrite (bindM_ok _ _ _ _ _ (vload_ok k _ _ Hptr)), (vstore_ok k _ _ _ Hptr).
  set (x := Z.land _ _). destruct (clear_present _ (word_ok _ (pte_addr (ram (kmem k)) (cr3 (kc k)) v) Hw)) as (Hx & Hxw & _).
  fold x in Hx, Hxw. clearbody x.
  destruct (drop_entry _ _ v x Hw Hca Hv Hpd (Hd v Hv Hv1 Hpd) Hx) as (Hdir & Hnone & Hoth).
  eexists. split; [reflexivity|]. split; [|split; [|split; [|split; [|split; [|split; [|split]]]]]].
  - apply (paging_ok_dir k); try reflexivity; [exact Hok|by apply words_insert|exact Hdir].
  - repeat split.
  - by intros [].
  - exact Hnone.
  - intros w Hwa Hpg. destruct (heap_addr_PDE w Hwa) as (Hww & Hw0 & _). apply Hoth; try assumption.
    intros y Hy Hy0 Hyv Hyp. by apply Hinj.
  - intros q. unfold table_frame. cbn [set_ram set_kmem kmem ram kc].
    split; intros (w & Hwd & Hpr & Hf); exists w; unfold pde_addr in *;
      rewrite (Hdir _ (PDE_IDX_range w Hwd)) in *; (split; [|split]); assumption.
  - exact Hdir.
  - intros b Hb. cbn [set_ram set_kmem kmem ram]. rewrite word_insert.
    destruct (Z.eq_dec _ _); [|done]. unfold entry_addr in Hb. congruence.
Qed.

(** The one page the update gives back to the pool. *)
Lemma page_free_freed p p' i q : pool_updated p p' i false -> in_bits (pool_bitmap p) i ->
  page_free p' q <-> page_free p q \/ q = page_at p i.
Proof.
  intros (_ & Hst & _ & Hz & _ & Hb) Hi. unfold page_free, page_at, in_bits in *. rewrite Hst, Hz. split.
  - intros (j & Hj & -> & Hf). rewrite Hb in Hf by exact Hj.
    destruct (Z.eq_dec i j) as [->|]; [by right|]. left. by exists j.
  - intros [(j & Hj & -> & Hf) | ->].
    + exists j. rewrite Hb by exact Hj. by destruct (Z.eq_dec i j).
    + exists i. rewrite Hb by exact Hi. by destruct (Z.eq_dec i i).
Qed.

(** The directory is its own last page table. *)
Lemma table_frame_cr3 k : paging_ok k -> table_frame k (cr3 (kc k)).
Proof.
  intros Hok. destruct (po_self _ Hok) as (_ & _ & Hp & Hf). exists 0xffc00000.
  split; [unfold is_word; lia|]. done.
Qed.

Lemma mem_ok_freed k pf p' i : mem_ok k -> in_bits (pool_bitmap (pool_of pf (kmem k))) i ->
  pool_updated (pool_of pf (kmem k)) p' i false ->
  ~ table_frame k (page_at (pool_of pf (kmem k)) i) -> mem_ok (set_pool pf p' k).
Proof.
  intros [Hpg Hps Hus] Hi Hu Hnt. pose proof (fun q => page_free_freed _ p' i q Hu Hi) as Hff.
  pose proof Hu as (Hwf & Hst & _ & Hz & _).
  pose proof (table_frame_cr3 k Hpg) as Hc3.
  split.
  - destruct pf; [|by apply (paging_ok_dir k); try apply Hpg]. cbn [pool_of] in *.
    destruct Hpg as [Hw Hs Hd Hp Hc Ht Hinj].
    split; cbn [set_pool set_kmem kmem ram kc kernel_pool]; try assumption.
    + intros [Hx|Hx]%Hff; [by apply Hc|]. by rewrite <- Hx in Hnt.
    + intros w Hwd Hpr [Hx|Hx]%Hff; [by apply (Ht w Hwd Hpr)|]. apply Hnt. by exists w.
  - destruct Hps as [P1 P2 P3]. destruct pf; split; cbn [set_pool set_kmem kmem kernel_pool user_pool pool_of] in *;
      try assumption; [by rewrite Hst, Hz | by rewrite Hst].
  - intros q Hq Hf. destruct pf; [by apply (Hus q)|]. cbn in Hf.
    apply Hff in Hf as [Hf | ->]; [by apply (Hus q)|]. by apply Hnt.
Qed.

Record pages_freed (pf : pool_flag) (k k' : kernel) (v : Z) (qs : list Z) : Prop := {
  pf_ok : mem_ok k';
  pf_rest : same_rest k k';
  pf_free : forall x, page_free (pool_of pf (kmem k')) x <-> page_free (pool_of pf (kmem k)) x \/ x ∈ qs;
  pf_shape : forall x, in_pool (pool_of pf (kmem k')) x <-> in_pool (pool_of pf (kmem k)) x;
  pf_start : forall pf', phy_addr_start (pool_of pf' (kmem k')) = phy_addr_start (pool_of pf' (kmem k));
  pf_other : forall pf', pf' <> pf -> pool_of pf' (kmem k') = pool_of pf' (kmem k);
  pf_unmapped : forall w, heap_addr w -> v <= w < v + zlen qs * 4096 -> walk k' w = None;
  pf_others : forall w, heap_addr w -> ~ (v <= w < v + zlen qs * 4096) -> walk k' w = walk k w;
  pf_tables : forall q, table_frame k' q <-> table_frame k q;
  pf_dir : forall i, 0 <= i < 1024 ->
    word (ram (kmem k')) (cr3 (kc k) + i * 4) = word (ram (kmem k)) (cr3 (kc k) + i * 4);
  pf_words : v + zlen qs * 4096 <= 0xffc00000 ->
    forall a, (forall i, (i < length qs)%nat -> a <> entry_addr k (v + Z.of_nat i * 4096)) ->
    word (ram (kmem k')) a = word (ram (kmem k)) a }.

(** Whether an address is mapped depends on its page only. *)
Lemma walk_none_page k v w : is_word v -> is_word w -> w / 4096 = v / 4096 ->
  walk k v = None -> walk k w = None.
Proof.
  intros Hv Hw Hpg. unfold walk, translate, pte_addr, pde_addr.
  rewrite !PDE_IDX_val, !PTE_IDX_val by done. unfold is_word in *.
  replace (w / 4194304) with (v / 4194304) by zarith. rewrite Hpg.
  destruct (present _); [|done]. by destruct (present _).
Qed.

(** [pfree] and [page_table_pte_remove] of one page. *)
Lemma free_page_ok pf k v q : mem_ok k -> heap_addr v -> v mod 4096 = 0 -> walk k v = Some q ->
  in_pool (pool_of pf (kmem k)) q -> ~ table_frame k q ->
  exists k1 k', addr_vir2phy v k = Ok (q, k) /\ q mod 4096 = 0 /\
    pfree q k = Ok (tt, k1) /\ page_table_pte_remove v k1 = Ok (tt, k') /\ pages_freed pf k k' v [q].
Proof.
  intros Hok Hv Hva Hw (i & Hi & Eq) Hnt. pose proof Hok as [Hpg Hps _].
  pose proof (pools_wf _ pf Hps) as Hwf. destruct (page_at_word _ i Hwf Hi) as (Hqw & Hqa & _).
  rewrite <- Eq in Hqw, Hqa. destruct (heap_addr_PDE v Hv) as (Hvw & _ & _).
  destruct (pfree_ok pf k i Hps Hi) as (p' & Ef & Hu). rewrite <- Eq in Ef.
  assert (Hok1 : mem_ok (set_pool pf p' k)) by (apply (mem_ok_freed k pf p' i); rewrite <- ?Eq; done).
  pose proof (fun x => page_free_freed _ p' i x Hu Hi) as Hff.
  assert (Hwk : forall w, walk (set_pool pf p' k) w = walk k w) by (by destruct pf).
  destruct (pte_remove_ok (set_pool pf p' k) v q (mo_paging _ Hok1) Hv)
    as (k' & Er & Hpg' & Hrest & Hpool & Hno & Hoth & Htf & Hdir & Hwords); [by rewrite Hwk|].
  pose proof Hu as (_ & Hst & _ & Hz & _).
  assert (Hp' : pool_of pf (kmem k') = p') by (rewrite Hpool; by destruct pf).
  exists (set_pool pf p' k), k'. split; [by apply addr_vir2phy_ok|]. split; [done|].
  split; [done|]. split; [done|]. split.
  - destruct Hok1 as [_ Hps1 Hus1]. pose proof (Hpool PF_KERNEL) as HK. pose proof (Hpool PF_USER) as HU.
    cbn [pool_of] in HK, HU. split; [done| |].
    + destruct Hps1 as [P1 P2 P3]. split; rewrite ?HK, ?HU; assumption.
    + intros x Hx. rewrite HU. apply Hus1. by apply Htf.
  - destruct Hrest as (R1 & R2 & R3 & R4 & R5). unfold same_rest. destruct pf; by rewrite R1, R2, R3, R4, R5.
  - intros x. rewrite Hp', Hff, list_elem_of_singleton, Eq. done.
  - intros x. rewrite Hp'. unfold in_pool, page_at, in_bits. by rewrite Hst, Hz.
  - intros pf'. rewrite Hpool. by destruct pf, pf'.
  - intros pf' Hne. rewrite Hpool. by destruct pf, pf'.
  - change (zlen [q]) with 1. intros w Hwa Hin. rewrite <- Hno.
    rewrite Hno. apply (walk_none_page k' v w); [done|unfold is_word, heap_addr in *; lia|zarith|done].
  - change (zlen [q]) with 1. intros w Hwa Hout. rewrite Hoth by (done || zarith). apply Hwk.
  - intros x. rewrite Htf. by destruct pf.
  - intros j Hj. pose proof (Hdir j Hj) as Hd. by destruct pf.
  - intros _ a Ha. specialize (Ha 0%nat ltac:(cbn; lia)). rewrite Z.mul_0_l, Z.add_0_r in Ha.
    pose proof (Hwords a) as Hw'. destruct pf; apply Hw', Ha.
Qed.

Lemma pages_freed_nil pf k v : mem_ok k -> pages_freed pf k k v [].
Proof.
  intros Hok. split; try done.
  - intros x. rewrite elem_of_nil. tauto.
  - change (zlen (@nil Z)) with 0. intros w _ Hw. lia.
Qed.

Lemma pages_freed_cons pf k k1 k' v q qs : v mod 4096 = 0 -> 0 <= v ->
  pages_freed pf k k1 v [q] -> pages_freed pf k1 k' (v + 4096) qs -> pages_freed pf k k' v (q :: qs).
Proof.
  intros Hva Hv0 [A1 B1 C1 D1 E1 F1 G1 H1 I1 J1 K1] [A2 B2 C2 D2 E2 F2 G2 H2 I2 J2 K2].
  pose proof (zlen_nonneg qs) as Hz. change (zlen [q]) with 1 in G1, H1. split.
  - exact A2.
  - destruct B1 as (? & ? & ? & ? & ?), B2 as (? & ? & ? & ? & ?). unfold same_rest. split_and!; congruence.
  - intros x. rewrite C2, C1, list_elem_of_singleton, elem_of_cons. tauto.
  - intros x. by rewrite D2, D1.
  - intros pf'. by rewrite E2, E1.
  - intros pf' Hne. rewrite F2, F1 by exact Hne. done.
  - rewrite zlen_cons. intros w Hw Hin.
    destruct (decide (v + 4096 <= w)); [apply G2; [exact Hw|lia]|].
    rewrite H2 by (exact Hw || lia). apply G1; [exact Hw|lia].
  - rewrite zlen_cons. intros w Hw Hout. rewrite H2 by (exact Hw || lia). apply H1; [exact Hw|lia].
  - intros x. by rewrite I2, I1.
  - intros i Hi. destruct B1 as (_ & Ec & _). rewrite Ec in J2. by rewrite J2, J1.
  - intros Hend a Ha. rewrite zlen_cons in Hend. cbn [length] in Ha. destruct B1 as (_ & Ec & _).
    assert (Hent : forall w, is_word w -> entry_addr k1 w = entry_addr k w).
    { intros w Hw. unfold entry_addr, pte_addr, pde_addr. rewrite Ec, J1 by (by apply PDE_IDX_range). done. }
    unfold zlen in *. rewrite K2 by (try lia; intros i Hi; rewrite Hent by (unfold is_word; lia);
      replace (v + 4096 + Z.of_nat i * 4096) with (v + Z.of_nat (S i) * 4096) by lia; apply Ha; lia).
    apply K1; [cbn [length]; lia|]. intros i Hi. cbn in Hi. apply Ha. lia.
Qed.

(** The bounds of the assertion in the loop for a page of pool [pf]. *)
Definition pool_lo (pf : pool_flag) (k : kernel) : Z := phy_addr_start (pool_of pf (kmem k)).
Definition pool_hi (pf : pool_flag) (k : kernel) : Z :=
  match pf with PF_KERNEL => phy_addr_start (user_pool (kmem k)) | PF_USER => 4294967296 end.

Lemma in_pool_bounds pf k q : pools_ok (kmem k) -> in_pool (pool_of pf (kmem k)) q ->
  pool_lo pf k <= q < pool_hi pf k /\ q mod 4096 = 0.
Proof.
  intros Hps (i & Hi & ->). destruct (page_at_word _ i (pools_wf _ pf Hps) Hi) as (Hw & Ha & _).
  destruct Hps as [_ _ Hap]. unfold pool_lo, pool_hi, page_at, in_bits, is_word in *.
  destruct pf; cbn [pool_of] in *; split; lia.
Qed.

(** The pages of [qs], all of pool [pf] and none a page table, are mapped from [v] on. *)
Definition run_mapped (pf : pool_flag) (k : kernel) (v : Z) (qs : list Z) : Prop :=
  forall i q, qs !! i = Some q -> walk k (v + Z.of_nat i * 4096) = Some q /\
    in_pool (pool_of pf (kmem k)) q /\ ~ table_frame k q.

Lemma mfree_page_loop_ok pf qs : forall k v lo hi, mem_ok k -> v mod 4096 = 0 -> 0x400000 <= v ->
  v + zlen qs * 4096 <= 0xffc00000 -> run_mapped pf k v qs ->
  lo = pool_lo pf k -> hi = pool_hi pf k ->
  exists k', mfree_page_loop (length qs) v lo hi k = Ok (tt, k') /\ pages_freed pf k k' v qs.
Proof.
  induction qs as [|q qs IH]; intros k v lo hi Hok Hva Hlo Hhi Hm Elo Ehi.
  { exists k. split; [done|]. by apply pages_freed_nil. }
  rewrite zlen_cons in Hhi. pose proof (zlen_nonneg qs) as Hz.
  assert (Hv : heap_addr v) by (unfold heap_addr; lia).
  destruct (Hm 0%nat q eq_refl) as (Hw & Hin & Hnt). rewrite Z.mul_0_l, Z.add_0_r in Hw.
  destruct (free_page_ok pf k v q Hok Hv Hva Hw Hin Hnt) as (k1 & k2 & Ea & Hqa & Ef & Er & Hfr).
  destruct (IH k2 (v + 4096) lo hi) as (k' & El & Hfr').
  - exact (pf_ok _ _ _ _ _ Hfr).
  - zarith.
  - lia.
  - lia.
  - intros i x Hx. destruct (Hm (S i) x Hx) as (Hwx & Hix & Hntx).
    split; [|split].
    + rewrite (pf_others _ _ _ _ _ Hfr).
      * by replace (v + 4096 + Z.of_nat i * 4096) with (v + Z.of_nat (S i) * 4096) by lia.
      * apply lookup_lt_Some in Hx. unfold heap_addr, zlen in *. lia.
      * change (zlen [q]) with 1. lia.
    + by apply (pf_shape _ _ _ _ _ Hfr).
    + intros Ht. by apply Hntx, (pf_tables _ _ _ _ _ Hfr).
  - subst lo. unfold pool_lo. by rewrite (pf_start _ _ _ _ _ Hfr).
  - subst hi. unfold pool_hi. destruct pf; [|done]. symmetry. apply (pf_start _ _ _ _ _ Hfr PF_USER).
  - exists k'. split; [|eapply pages_freed_cons; try eassumption; lia]. cbn [length mfree_page_loop].
    rewrite (bindM_ok _ _ _ _ _ Ea).
    destruct (in_pool_bounds pf k q (mo_pools _ Hok) Hin) as [Hb _]. subst lo hi.
    rewrite bind_assert.
    2:{ rewrite !andb_true_iff. split; [split|]; [by apply Z.eqb_eq|apply Z.leb_le; lia|apply Z.ltb_lt; lia]. }
    rewrite (bindM_ok _ _ _ _ _ Ef), (bindM_ok _ _ _ _ _ Er). unfold PG_SIZE.
    rewrite u32_small by lia. exact El.
Qed.

Lemma vaddr_remove_ok pf va k v cnt i : vspace pf k = Some va -> vspace_wf pf va ->
  0 <= i -> v = vaddr_start va + i * 4096 -> 0 <= cnt -> i + cnt <= 8 * zlen (bits (vaddr_bitmap va)) ->
  exists b, vaddr_remove pf v cnt k = Ok (tt, with_vspace pf (mk_vaddr b (vaddr_start va)) k) /\
    vspace_wf pf (mk_vaddr b (vaddr_start va)) /\ zlen (bits b) = zlen (bits (vaddr_bitmap va)) /\
    forall j, in_bits (vaddr_bitmap va) j ->
      bit b j = if bool_decide (i <= j < i + cnt) then false else bit (vaddr_bitmap va) j.
Proof.
  intros Hvs [Hb Ha Hs He] Hi Ev Hc Hle.
  destruct (set_run_ok (Z.to_nat cnt) (vaddr_bitmap va) i 0 Hb) as (b & Eb & Wb & Lb & Zb & Bb);
    [lia|lia|by left|]. rewrite Z2Nat.id in Bb by lia.
  exists b. split; [|split; [|done]].
  - unfold vaddr_remove. rewrite (bindM_ok _ _ _ _ _ (get_vaddr_ok pf k va Hvs)).
    pose proof (bw_small _ Hb). assert (Hse : space_end pf <= 0xffc00000) by (by destruct pf).
    assert (Ei : u32 (v - vaddr_start va) / PG_SIZE = i)
      by (unfold PG_SIZE; rewrite u32_small by lia; subst v; zarith).
    rewrite Ei, (bind_lift _ _ _ _ Eb). by apply (set_vaddr_ok pf k va).
  - split; cbn [vaddr_bitmap vaddr_start]; try done. by rewrite Zb.
Qed.

Lemma same_rest_vspace pf k k' : same_rest k k' -> vspace pf k' = vspace pf k.
Proof. intros (_ & Hc & Ht & _ & Hv). destruct pf; cbn [vspace]; by rewrite ?Hv, ?Ht, ?Hc. Qed.

(** What [mfree_page] promises. *)
Record released (pf : pool_flag) (k k' : kernel) (va va' : virtual_addr) (v : Z) (qs : list Z) : Prop := {
  re_ok : mem_ok k';
  re_space : vspace_ok pf va' k';
  re_free : forall x, page_free (pool_of pf (kmem k')) x <-> page_free (pool_of pf (kmem k)) x \/ x ∈ qs;
  re_other : forall pf', pf' <> pf -> pool_of pf' (kmem k') = pool_of pf' (kmem k);
  re_unmapped : forall w, heap_addr w -> v <= w < v + zlen qs * 4096 -> walk k' w = None;
  re_others : forall w, heap_addr w -> ~ (v <= w < v + zlen qs * 4096) -> walk k' w = walk k w;
  re_tables : forall q, table_frame k' q <-> table_frame k q;
  re_start : vaddr_start va' = vaddr_start va;
  re_bits : forall j, in_bits (vaddr_bitmap va) j ->
    bit (vaddr_bitmap va') j =
      if bool_decide (v <= vaddr_start va + j * 4096 < v + zlen qs * 4096) then false
      else bit (vaddr_bitmap va) j;
  re_len : zlen (bits (vaddr_bitmap va')) = zlen (bits (vaddr_bitmap va));
  re_rest : same_rest (with_vspace pf va' k) k';
  re_shape : forall pf', phy_addr_start (pool_of pf' (kmem k')) = phy_addr_start (pool_of pf' (kmem k)) /\
    forall x, in_pool (pool_of pf' (kmem k')) x <-> in_pool (pool_of pf' (kmem k)) x;
  re_words : forall a, (forall i, (i < length qs)%nat -> a <> entry_addr k (v + Z.of_nat i * 4096)) ->
    word (ram (kmem k')) a = word (ram (kmem k)) a }.

Lemma released_intro pf k k1 va b v qs i : vspace_ok pf va k -> 0 <= i ->
  v = vaddr_start va + i * 4096 -> i + zlen qs <= 8 * zlen (bits (vaddr_bitmap va)) ->
  pages_freed pf k k1 v qs ->
  vspace_wf pf (mk_vaddr b (vaddr_start va)) -> zlen (bits b) = zlen (bits (vaddr_bitmap va)) ->
  (forall j, in_bits (vaddr_bitmap va) j ->
     bit b j = if bool_decide (i <= j < i + zlen qs) then false else bit (vaddr_bitmap va) j) ->
  released pf k (with_vspace pf (mk_vaddr b (vaddr_start va)) k1) va (mk_vaddr b (vaddr_start va)) v qs.
Proof.
  intros (Hvs & [Hb Ha Hs He] & Hun) Hi Ev Hle [F1 F2 F3 F4 F5 F6 F7 F8 F9 _ F11] Hwf Hz Hbit.
  destruct (with_vspace_same pf (mk_vaddr b (vaddr_start va)) k1) as (Er & Ec & Hp & Hw & Htf).
  assert (Hse : space_end pf <= 0xffc00000) by (by destruct pf).
  assert (Hrange : forall j, (i <= j < i + zlen qs) <->
    (v <= vaddr_start va + j * 4096 < v + zlen qs * 4096)) by (intros j; lia).
  split; cbn [vaddr_start vaddr_bitmap].
  - apply (mem_ok_same k1); [exact F1|exact Er|by rewrite Ec|exact Hp].
  - split; [apply (vspace_with pf va); by rewrite (same_rest_vspace pf k k1)|]. split; [exact Hwf|].
    cbn [vaddr_start vaddr_bitmap]. unfold in_bits. rewrite Hz. intros j Hj Hf. rewrite Hw.
    assert (Hh : heap_addr (vaddr_start va + j * 4096)) by (unfold heap_addr; lia).
    rewrite Hbit in Hf by exact Hj. case_bool_decide as Hin.
    + apply F7; [exact Hh|]. by apply Hrange.
    + rewrite F8; [by apply Hun|exact Hh|]. by rewrite <- Hrange.
  - intros x. rewrite Hp. apply F3.
  - intros pf' Hne. rewrite Hp. by apply F6.
  - intros w Hwa Hin. rewrite Hw. by apply F7.
  - intros w Hwa Hout. rewrite Hw. by apply F8.
  - intros x. rewrite Htf. apply F9.
  - reflexivity.
  - intros j Hj. rewrite Hbit by exact Hj.
    by rewrite (bool_decide_ext _ _ (Hrange j)).
  - exact Hz.
  - destruct F2 as (X1 & X2 & X3 & X4 & X5). unfold same_rest.
    destruct pf; cbn [with_vspace set_kernel_vaddr set_pcbs set_kth set_kmem km kc kth ksy kmem kernel_vaddr];
      rewrite ?X1, ?X2, ?X3, ?X4, ?X5; split_and!; reflexivity.
  - intros pf'. rewrite Hp. split; [apply F5|]. intros x.
    destruct (decide (pf' = pf)) as [->|Hne]; [apply F4|]. by rewrite (F6 pf' Hne).
  - intros a Hna. rewrite Er. apply F11; [lia|exact Hna].
Qed.

Lemma mfree_page_ok pf va k v qs i : mem_ok k -> vspace_ok pf va k ->
  0x102000 <= phy_addr_start (kernel_pool (kmem k)) -> run_mapped pf k v qs -> 1 <= zlen qs ->
  0 <= i -> v = vaddr_start va + i * 4096 -> i + zlen qs <= 8 * zlen (bits (vaddr_bitmap va)) ->
  exists k' b, mfree_page pf v (zlen qs) k = Ok (tt, k') /\
    released pf k k' va (mk_vaddr b (vaddr_start va)) v qs.
Proof.
  intros Hok Hsp Hlow Hrun Hn Hi Ev Hle. pose proof Hsp as (Hvs & Hwf & _).
  pose proof Hwf as [Hb Ha Hs He]. assert (Hse : space_end pf <= 0xffc00000) by (by destruct pf).
  assert (Hva : v mod 4096 = 0) by (subst v; zarith).
  destruct qs as [|q0 qs0] eqn:Eqs; [change (zlen (@nil Z)) with 0 in Hn; lia|]. rewrite <- Eqs in *.
  destruct (Hrun 0%nat q0) as (Hw0 & Hin0 & Hnt0); [by rewrite Eqs|]. rewrite Z.mul_0_l, Z.add_0_r in Hw0.
  destruct (in_pool_bounds pf k q0 (mo_pools _ Hok) Hin0) as [Hb0 Hqa].
  assert (Hqw : is_word q0) by (destruct Hin0 as (j & Hj & ->);
    by apply page_at_word; [apply pools_wf, Hok|]).
  destruct (mfree_page_loop_ok pf qs k v (pool_lo pf k) (pool_hi pf k)) as (k1 & El & Hfr);
    [exact Hok|exact Hva|lia|lia|exact Hrun|done|done|].
  destruct (vaddr_remove_ok pf va k1 v (zlen qs) i) as (b & Ev' & Hwf' & Hz' & Hb');
    [by rewrite (same_rest_vspace pf k k1 (pf_rest _ _ _ _ _ Hfr))|exact Hwf|exact Hi|exact Ev|lia|exact Hle|].
  exists (with_vspace pf (mk_vaddr b (vaddr_start va)) k1), b.
  split; [|by apply (released_intro pf k k1 va b v qs i)].
  destruct (mo_pools _ Hok) as [P1 P2 P3]. pose proof (zlen_nonneg (bits (pool_bitmap (kernel_pool (kmem k))))).
  unfold mfree_page. rewrite bind_assert by (unfold PG_SIZE; rewrite Hva, andb_true_iff, Z.leb_le; lia).
  rewrite (bindM_ok _ _ _ _ _ (addr_vir2phy_ok k v q0 (mo_paging _ Hok) ltac:(unfold is_word; lia) Hw0 Hqw)).
  rewrite bind_assert, bind_gets.
  2:{ unfold PG_SIZE. rewrite Hqa, andb_true_iff, Z.leb_le. unfold pool_lo in Hb0. destruct pf; cbn [pool_of] in Hb0; lia. }
  unfold pool_lo, pool_hi in El, Hb0. rewrite to_nat_zlen.
  destruct pf; cbn [pool_of] in El, Hb0.
  - rewrite (proj2 (Z.leb_gt _ _)) by lia. by rewrite (bindM_ok _ _ _ _ _ El).
  - rewrite (proj2 (Z.leb_le _ _)) by lia. by rewrite (bindM_ok _ _ _ _ _ El).
Qed.

(** When the pool runs dry in the first iteration, [malloc_page] returns
    NULL but keeps the virtual pages it has reserved: their bits stay set, and
    nobody has an address to free them with. *)
Lemma malloc_page_leaks (pf : pool_flag) (va : virtual_addr) (k : kernel) (cnt i : Z) :
  mem_ok k -> vspace_ok pf va k -> 0 < cnt < 3840 -> 0 <= i < len (vaddr_bitmap va) - cnt ->
  free_run (vaddr_bitmap va) i cnt -> pool_exhausted (pool_of pf (kmem k)) ->
  exists b j, malloc_page pf cnt k = Ok (NULL, with_vspace pf (mk_vaddr b (vaddr_start va)) k) /\
    free_run (vaddr_bitmap va) j cnt /\ forall n, 0 <= n < cnt -> bit b (j + n) = true.
Proof.
  intros Hok (Hvs & Hwf & _) Hc Hi Hf He. unfold malloc_page.
  rewrite bind_assert by (apply andb_true_iff; split; apply Z.ltb_lt; lia).
  pose proof (bw_len _ (vw_bitmap _ _ Hwf)) as Hbl. pose proof (vw_start _ _ Hwf) as Hst.
  destruct (vaddr_get_ok pf k va cnt Hvs Hwf ltac:(lia)) as [[Hno _]|(j & b & Hj & Hfj & E & Hwf' & _ & Zb & Bb)];
    [by destruct (Hno i Hi)|].
  rewrite (bindM_ok _ _ _ _ _ E). rewrite (proj2 (Z.eqb_neq _ _)) by (unfold NULL; lia).
  exists b, j. split; [|split; [exact Hfj|]].
  - destruct (with_vspace_same pf (mk_vaddr b (vaddr_start va)) k) as (_ & _ & Hp & _).
    destruct (Z.to_nat cnt) as [|n] eqn:En; [lia|]. cbn [malloc_page_loop].
    set (k1 := with_vspace _ _ _) in *.
    assert (Hwp : pool_wf (pool_of pf (kmem k1))) by (rewrite Hp; apply pools_wf, Hok).
    destruct (palloc_ok pf k1 Hwp) as [[_ Epa]|(x & p' & Hx & Hbx & Hlt & _)].
    + by rewrite (bindM_ok _ _ _ _ _ Epa).
    + rewrite Hp in Hx, Hbx, Hlt. rewrite He in Hbx; [done|]. unfold in_bits in Hx. lia.
  - intros n Hn. rewrite Bb by (unfold in_bits; lia). rewrite bool_decide_eq_true_2 by lia. done.
Qed.

(** ** Properties *)

(** C16. [malloc_page] on an address space that keeps its invariant.
    - If the pools have a free frame for every page and every page table it can
      need, it either finds no run of [cnt] clear bits in the bitmap of the space
      and returns NULL with nothing changed, or returns the start of [cnt]
      pages: they were unmapped, each is now mapped to a frame of its own that
      was free in the pool and is now taken and is not a page table, their bits
      are set, the rest of the space is mapped as before, every page that is no
      longer free is one of these frames or a page table, and the invariants of
      memory and of the space (a clear bit means an unmapped page) are kept.
    - If the pool has no frame at all, it returns NULL as well; but if there was
      a run, the bits of one stay set, and nothing is mapped there. *)
Theorem malloc_page_allocates (pf : pool_flag) (va : virtual_addr) (k : kernel) (cnt : Z) :
  mem_ok k -> vspace_ok pf va k -> 0 < cnt < 3840 -> cnt <= len (vaddr_bitmap va) ->
  (budget pf k (Z.to_nat cnt) ->
   (malloc_page pf cnt k = Ok (NULL, k) /\ no_run va cnt) \/
   exists v k' va' qs, malloc_page pf cnt k = Ok (v, k') /\ allocated pf k k' va va' v cnt qs) /\
  (pool_exhausted (pool_of pf (kmem k)) ->
   (malloc_page pf cnt k = Ok (NULL, k) /\ no_run va cnt) \/
   exists b j, malloc_page pf cnt k = Ok (NULL, with_vspace pf (mk_vaddr b (vaddr_start va)) k) /\
     free_run (vaddr_bitmap va) j cnt /\ forall n, 0 <= n < cnt -> bit b (j + n) = true).
Proof.
  intros Hok Hsp Hc Hl. split; [by apply malloc_page_ok|]. intros He.
  destruct (decide (Exists (fun i => Forall (fun j => bit (vaddr_bitmap va) (i + j) = false) (zrange (Z.to_nat cnt) 0))
    (zrange (Z.to_nat (len (vaddr_bitmap va) - cnt)) 0))) as [H|H].
  - right. apply Exists_exists in H as (i & Hi & Hf). apply elem_of_zrange in Hi.
    apply (malloc_page_leaks pf va k cnt i); try done; [lia|]. intros j Hj. rewrite Forall_forall in Hf.
    apply Hf, elem_of_zrange. lia.
  - left. assert (Hno : no_run va cnt).
    { intros i Hi Hf. apply H, Exists_exists. exists i. split; [apply elem_of_zrange; lia|].
      apply Forall_forall. intros j Hj%elem_of_zrange. apply Hf. lia. }
    split; [|done]. by apply (malloc_page_no_run pf va).
Qed.

Lemma allocated_run pf k k' va va' v cnt qs : allocated pf k k' va va' v cnt qs -> run_mapped pf k' v qs.
Proof.
  intros Hal i q Hq. destruct (al_frames _ _ _ _ _ _ _ _ Hal i q Hq) as (_ & Hw & (j & Hj & Ej & _) & _ & Ht).
  split; [exact Hw|]. split; [|exact Ht].
  apply (proj2 (al_shape _ _ _ _ _ _ _ _ Hal pf)). exists j. split; assumption.
Qed.

Lemma allocated_was_none pf k k' va va' v cnt qs : allocated pf k k' va va' v cnt qs ->
  forall w, heap_addr w -> v <= w < v + cnt * 4096 -> walk k w = None.
Proof.
  intros Hal w Hw Hin. destruct (al_index _ _ _ _ _ _ _ _ Hal) as (i & Hi & Hv & Hle).
  destruct (al_space _ _ _ _ _ _ _ _ Hal) as (_ & [_ Ha Hs _] & _).
  rewrite (al_start _ _ _ _ _ _ _ _ Hal) in Ha, Hs.
  assert (Hn : (Z.to_nat ((w - v) / 4096) < length qs)%nat)
    by (pose proof (al_count _ _ _ _ _ _ _ _ Hal) as Hz; unfold zlen in Hz; zarith).
  destruct (lookup_lt_is_Some_2 _ _ Hn) as [q Hq].
  destruct (al_frames _ _ _ _ _ _ _ _ Hal _ _ Hq) as (Hno & _).
  rewrite Z2Nat.id in Hno by zarith. unfold heap_addr in Hw.
  apply (walk_none_page k (v + (w - v) / 4096 * 4096)); [unfold is_word; zarith|unfold is_word; lia|zarith|exact Hno].
Qed.

(** C25. [mfree_page] undoes [malloc_page]: freeing the pages just allocated
    succeeds, unmaps them, gives the frames back to their pool and clears
    their bits.  Afterwards the address space maps exactly what it mapped
    before the allocation and has the same bits; the pool has the free pages it had,
    except that a page that became a page table stays one. *)
Theorem malloc_mfree_roundtrip (pf : pool_flag) (va : virtual_addr) (k k1 : kernel) (v cnt : Z) :
  mem_ok k -> vspace_ok pf va k -> 0 < cnt < 3840 ->
  cnt <= len (vaddr_bitmap va) -> budget pf k (Z.to_nat cnt) ->
  0x102000 <= phy_addr_start (kernel_pool (kmem k)) ->
  malloc_page pf cnt k = Ok (v, k1) -> v <> NULL ->
  exists k2 va2, mfree_page pf v cnt k1 = Ok (tt, k2) /\ mem_ok k2 /\ vspace_ok pf va2 k2 /\
    (forall w, heap_addr w -> walk k2 w = walk k w) /\
    (forall j, in_bits (vaddr_bitmap va) j -> bit (vaddr_bitmap va2) j = bit (vaddr_bitmap va) j) /\
    (forall x, page_free (pool_of pf (kmem k2)) x -> page_free (pool_of pf (kmem k)) x) /\
    (forall x, page_free (pool_of pf (kmem k)) x ->
       page_free (pool_of pf (kmem k2)) x \/ table_frame k2 x).
Proof.
  intros Hok Hsp Hc Hlen Hbud Hlow Em Hv.
  destruct (malloc_page_ok pf va k cnt Hok Hsp Hc Hlen Hbud) as [[E _]|(v' & k' & va' & qs & E & Hal)];
    rewrite Em in E; injection E as Ev Ek; [done|]. subst v' k'.
  pose proof (al_count _ _ _ _ _ _ _ _ Hal) as Hn. pose proof Hsp as (_ & Hwf & Hun).
  destruct (al_index _ _ _ _ _ _ _ _ Hal) as (i & Hi & Hvi & Hle).
  pose proof (al_start _ _ _ _ _ _ _ _ Hal) as Est.
  pose proof (al_bits _ _ _ _ _ _ _ _ Hal) as Hbits.
  destruct (mfree_page_ok pf va' k1 v qs i) as (k2 & b & Ef & [R1 R2 R3 R4 R5 R6 R7 R8 R9]).
  - exact (al_ok _ _ _ _ _ _ _ _ Hal).
  - exact (al_space _ _ _ _ _ _ _ _ Hal).
  - pose proof (proj1 (al_shape _ _ _ _ _ _ _ _ Hal PF_KERNEL)) as Hks. cbn [pool_of] in Hks. lia.
  - exact (allocated_run _ _ _ _ _ _ _ _ Hal).
  - lia.
  - exact Hi.
  - rewrite Est. exact Hvi.
  - rewrite Hn. destruct (Hbits (i + cnt - 1)) as [Hlast _]; [unfold in_bits; lia|]. unfold in_bits in Hlast. lia.
  - rewrite Hn in Ef, R5, R6, R9. exists k2, (mk_vaddr b (vaddr_start va')).
    split; [exact Ef|]. split; [exact R1|]. split; [exact R2|]. split; [|split; [|split]].
    + intros w Hw. destruct (decide (v <= w < v + cnt * 4096)) as [Hin|Hout].
      * rewrite (R5 w Hw Hin). symmetry. exact (allocated_was_none _ _ _ _ _ _ _ _ Hal w Hw Hin).
      * rewrite (R6 w Hw Hout). exact (al_others _ _ _ _ _ _ _ _ Hal w Hw Hout).
    + intros j Hj. destruct (Hbits j Hj) as [Hj' Hbj]. rewrite (R9 j Hj'), Hbj, Est.
      case_bool_decide as Hin; [|reflexivity].
      symmetry. apply (al_was_clear _ _ _ _ _ _ _ _ Hal j Hj Hin).
    + intros x [Hx|Hx]%R3; [by apply (al_account _ _ _ _ _ _ _ _ Hal pf x)|].
      apply list_elem_of_lookup in Hx as [n Hx].
      by destruct (al_frames _ _ _ _ _ _ _ _ Hal n x Hx) as (_ & _ & Hf & _).
    + intros x Hx. rewrite R3, R7.
      destruct (al_account _ _ _ _ _ _ _ _ Hal pf x) as [_ Hacc].
      destruct (Hacc Hx) as [H1|[H1|H1]]; [by left; left|by right|by left; right].
Qed.

(** ** The layout [mem_pool_init] sets up *)

(** The bytes found at an address before the bitmaps are cleared. *)
Definition memory_bytes (bytes_at : Z -> Z -> list Z) : Prop :=
  forall a n, 0 <= n -> zlen (bytes_at a n) = n /\ bytes (bytes_at a n).

Lemma bitmap_init_zero b n : 0 <= n < 4096 -> zlen b = n -> bytes b ->
  exists mp, bitmap_init (mk_bitmap n b) = Ok mp /\ bitmap_wf mp /\ len mp = n /\ zlen (bits mp) = n /\
    forall i, 0 <= i < 8 * n -> bit mp i = false.
Proof.
  intros Hn Hz Hb. destruct (bitmap_init_ok (mk_bitmap n b)) as (mp & E & W & L & Zl & F).
  - split; cbn [len bits]; [lia|lia|exact Hb].
  - exists mp. cbn [len bits] in *. split; [exact E|]. split; [exact W|].
    split; [exact L|]. split; [lia|exact F].
Qed.

(** [mem_pool_init] divides the memory above 2 MB into two adjacent pools
    of whole pages that lie inside the memory and do not overlap, with every
    page free; the heap of the kernel begins at 0xc0100000 with as many pages
    as the kernel pool, all free; and the three bitmaps lie one after the
    other in the four pages that begin at 0xc009a000. *)
Theorem mem_pool_init_layout (bytes_at : Z -> Z -> list Z) (all_mem : Z) :
  memory_bytes bytes_at -> 0x210000 <= all_mem <= 0x10000000 -> all_mem mod 4096 = 0 ->
  exists l, mem_pool_init bytes_at all_mem = Ok l /\
    let kp := l_kernel_pool l in let up := l_user_pool l in let va := l_kernel_vaddr l in
    pool_wf kp /\ pool_wf up /\ vspace_wf PF_KERNEL va /\
    phy_addr_start kp = 0x200000 /\ phy_addr_start up = phy_addr_start kp + pool_size kp /\
    phy_addr_start up + pool_size up = all_mem /\
    (forall p i, p = kp \/ p = up -> in_bits (pool_bitmap p) i ->
       page_at p i + 4096 <= phy_addr_start p + pool_size p /\ bit (pool_bitmap p) i = false) /\
    (forall i, in_bits (vaddr_bitmap va) i -> bit (vaddr_bitmap va) i = false) /\
    zlen (bits (vaddr_bitmap va)) = zlen (bits (pool_bitmap kp)) /\
    l_kernel_bits l = MEM_BITMAP_BASE /\
    l_user_bits l = l_kernel_bits l + len (pool_bitmap kp) /\
    l_vaddr_bits l = l_user_bits l + len (pool_bitmap up) /\
    l_vaddr_bits l + len (vaddr_bitmap va) <= MEM_BITMAP_BASE + 4 * PG_SIZE.
Proof.
  intros Hbytes Hmem Hal. unfold mem_pool_init. cbv zeta.
  change (256 * PG_SIZE + 0x100000) with 0x200000. unfold PG_SIZE, MEM_BITMAP_BASE, KERNEL_HEAP_START.
  rewrite (u32_small (all_mem - 0x200000)) by lia.
  rewrite (u16_small ((all_mem - 0x200000) / 4096)) by zarith.
  set (n := (all_mem - 0x200000) / 4096). assert (Hn : 16 <= n <= 65024) by (unfold n; zarith).
  assert (En : n * 4096 = all_mem - 0x200000) by (unfold n; zarith). clearbody n.
  rewrite (u16_small (n - n / 2)) by zarith.
  set (a := n / 2). set (u := n - a). assert (Ha : 8 <= a < 32768) by (unfold a; zarith).
  assert (Hu : 8 <= u < 32768) by (unfold u, a; zarith). assert (Eu : u = n - a) by reflexivity.
  clearbody u. clearbody a.
  assert (Ha8 : 1 <= a / 8 < 4096) by zarith. assert (Hu8 : 1 <= u / 8 < 4096) by zarith.
  destruct (Hbytes 0xc009a000 (a / 8) ltac:(lia)) as [Z1 B1].
  destruct (bitmap_init_zero _ (a / 8) ltac:(lia) Z1 B1) as (kb & E1 & W1 & L1 & Zk & F1).
  rewrite (bindR_ok _ _ _ E1), !u32_small by lia.
  destruct (Hbytes (0xc009a000 + a / 8) (u / 8) ltac:(lia)) as [Z2 B2].
  destruct (bitmap_init_zero _ (u / 8) ltac:(lia) Z2 B2) as (ub & E2 & W2 & L2 & Zu & F2).
  rewrite (bindR_ok _ _ _ E2).
  destruct (Hbytes (0xc009a000 + a / 8 + u / 8) (a / 8) ltac:(lia)) as [Z3 B3].
  destruct (bitmap_init_zero _ (a / 8) ltac:(lia) Z3 B3) as (vb & E3 & W3 & L3 & Zv & F3).
  rewrite (bindR_ok _ _ _ E3). eexists. split; [reflexivity|]. cbv zeta.
  cbn [l_kernel_pool l_user_pool l_kernel_vaddr l_kernel_bits l_user_bits l_vaddr_bits
       phy_addr_start pool_size pool_bitmap vaddr_bitmap].
  assert (Ma : 8 * (a / 8) <= a) by zarith. assert (Mu : 8 * (u / 8) <= u) by zarith.
  split_and!; try lia.
  - split; cbn [phy_addr_start pool_bitmap]; try done; lia.
  - split; cbn [phy_addr_start pool_bitmap]; try done; [lia|lia|zarith|lia].
  - split; cbn [vaddr_start vaddr_bitmap space_end]; try done; lia.
  - intros p i [-> | ->]; unfold in_bits, page_at; cbn [phy_addr_start pool_bitmap pool_size]; intros Hi.
    + split; [lia|]. apply F1. lia.
    + split; [lia|]. apply F2. lia.
  - unfold in_bits. rewrite Zv. exact F3.
Qed.

(** ** Block descriptors *)

Lemma fresh_insert_nil Γ L x : fresh Γ x -> x <> head_of L -> x <> tail_of L -> fresh (<[L := []]> Γ) x.
Proof.
  intros [Hn Hf] Hh Ht. split; [exact Hn|].
  intros L2 xs [[<- <-]|[_ E]]%lookup_insert_Some; [|by eapply Hf].
  unfold foot. cbn [app]. rewrite !elem_of_cons, elem_of_nil. tauto.
Qed.

Definition desc_list (descs i : Z) : Z := descs + 24 * i + 8.

Lemma block_desc_loop_ok descs n : forall i bs s Γ, lists_ok s Γ ->
  (forall j, i <= j < i + Z.of_nat n -> Γ !! desc_list descs j = None /\
     fresh Γ (head_of (desc_list descs j)) /\ fresh Γ (tail_of (desc_list descs j))) ->
  exists ds s' Γ', block_desc_loop n i bs descs s = Ok (ds, s') /\ lists_ok s' Γ' /\
    eflags s' = eflags s /\
    (forall L xs, Γ !! L = Some xs -> Γ' !! L = Some xs) /\
    (forall j, (j < n)%nat -> Γ' !! desc_list descs (i + Z.of_nat j) = Some []) /\
    map free_list ds = map (desc_list descs) (seqZ i (Z.of_nat n)) /\
    map (fun d => (block_size d, blocks_per_arena d)) ds =
      map (fun d => (block_size d, blocks_per_arena d))
        ((fix go m b := match m with
          | O => []
          | S m' => mk_desc b ((PG_SIZE - sizeof_arena) / b) 0 :: go m' (u16 (b * 2))
          end) n bs) /\
    (forall L xs, Γ' !! L = Some xs -> Γ !! L = Some xs \/
       xs = [] /\ exists j, i <= j < i + Z.of_nat n /\ L = desc_list descs j).
Proof.
  induction n as [|n IH]; intros i bs s Γ Hok Hfr.
  { exists [], s, Γ. split; [reflexivity|]. split_and!; try done; [intros j Hj; lia|by left]. }
  destruct (Hfr i ltac:(lia)) as (Hno & Hh & Ht).
  destruct (list_init_ok s Γ (desc_list descs i) Hok Hno Hh Ht) as (s1 & E1 & Hok1 & Hfl1).
  destruct (IH (i + 1) (u16 (bs * 2)) s1 (<[desc_list descs i := []]> Γ) Hok1)
    as (ds & s' & Γ' & E2 & Hok2 & Hfl2 & Hkeep & Hnew & Hlists & Hsz & Hback).
  { intros j Hj. destruct (Hfr j ltac:(lia)) as (Nj & Fh & Ft).
    split; [rewrite lookup_insert_ne; [exact Nj|unfold desc_list; lia]|].
    split; (apply fresh_insert_nil; [assumption|unfold desc_list, head_of, tail_of; lia..]). }
  exists (mk_desc bs ((PG_SIZE - sizeof_arena) / bs) (desc_list descs i) :: ds), s', Γ'.
  split.
  { cbn [block_desc_loop]. fold (desc_list descs i). rewrite (bindM_ok _ _ _ _ _ E1).
    by rewrite (bindM_ok _ _ _ _ _ E2). }
  split; [exact Hok2|]. split; [congruence|]. split; [|split; [|split; [|split]]].
  - intros L xs HL. apply Hkeep. rewrite lookup_insert_ne; [exact HL|]. intros <-. congruence.
  - intros [|j] Hj.
    + rewrite Z.add_0_r. apply Hkeep. by rewrite lookup_insert_eq.
    + replace (i + Z.of_nat (S j)) with (i + 1 + Z.of_nat j) by lia. apply Hnew. lia.
  - rewrite seqZ_cons by lia. cbn [map free_list]. f_equal. rewrite Hlists.
    replace (Z.pred (Z.of_nat (S n))) with (Z.of_nat n) by lia. by rewrite Z.add_1_r.
  - cbn [map block_size blocks_per_arena]. f_equal. exact Hsz.
  - intros L xs HL. destruct (Hback L xs HL) as [H|(-> & j & Hj & ->)].
    + apply lookup_insert_Some in H as [[<- <-]|[_ H]]; [right|by left].
      split; [done|]. exists i. split; [lia|done].
    + right. split; [done|]. exists j. split; [lia|done].
Qed.

(** [block_desc_init] prepares seven descriptors for blocks of 16 to 1024
    bytes, each with the number of blocks that fit in a page behind the arena
    header and with an empty free list; lists that existed are not disturbed. *)
Theorem block_desc_init_ready (descs : Z) (s : mach) (Γ : gmap Z (list Z)) :
  lists_ok s Γ ->
  (forall j, 0 <= j < 7 -> Γ !! desc_list descs j = None /\
     fresh Γ (head_of (desc_list descs j)) /\ fresh Γ (tail_of (desc_list descs j))) ->
  exists ds s' Γ', block_desc_init descs s = Ok (ds, s') /\ lists_ok s' Γ' /\
    map (fun d => (block_size d, blocks_per_arena d)) ds =
      [(16, 255); (32, 127); (64, 63); (128, 31); (256, 15); (512, 7); (1024, 3)] /\
    (forall d, d ∈ ds -> Γ' !! free_list d = Some [] /\
       sizeof_arena + blocks_per_arena d * block_size d <= PG_SIZE <
       sizeof_arena + (blocks_per_arena d + 1) * block_size d) /\
    (forall L xs, Γ !! L = Some xs -> Γ' !! L = Some xs).
Proof.
  intros Hok Hfr. destruct (block_desc_loop_ok descs 7 0 16 s Γ Hok)
    as (ds & s' & Γ' & E & Hok' & _ & Hkeep & Hnew & Hlists & Hsz & _); [exact Hfr|].
  exists ds, s', Γ'. split; [exact E|]. split; [exact Hok'|]. split; [exact Hsz|]. split; [|exact Hkeep].
  intros d Hd. split.
  - assert (Hin : free_list d ∈ map free_list ds) by (apply list_elem_of_In, in_map, list_elem_of_In, Hd).
    rewrite Hlists in Hin. apply list_elem_of_In, in_map_iff in Hin as (j & Ej & Hj).
    apply list_elem_of_In, elem_of_seqZ in Hj. rewrite <- Ej.
    replace j with (0 + Z.of_nat (Z.to_nat j)) by lia. apply Hnew. lia.
  - assert (Hin : (block_size d, blocks_per_arena d) ∈
      map (fun d => (block_size d, blocks_per_arena d)) ds)
      by (apply list_elem_of_In; apply (in_map (fun d => (block_size d, blocks_per_arena d))); by apply list_elem_of_In).
    rewrite (Hsz : _ = [(16, 255); (32, 127); (64, 63); (128, 31); (256, 15); (512, 7); (1024, 3)]) in Hin.
    unfold sizeof_arena, PG_SIZE.
    repeat (apply elem_of_cons in Hin as [Hin|Hin]; [injection Hin as Hb Hc; rewrite Hb, Hc; lia|]).
    by apply not_elem_of_nil in Hin.
Qed.

(** ** Witnesses *)

Lemma demo_walk_none i : 0 <= i < 128 -> walk demo_kernel (0xc0100000 + i * 4096) = None.
Proof.
  intros Hi.
  assert (Ha : forallb (fun j => match walk demo_kernel (0xc0100000 + j * 4096) with Some _ => false | None => true end)
    (seqZ 0 128) = true) by (vm_compute; reflexivity).
  rewrite forallb_forall in Ha. specialize (Ha i). rewrite <- list_elem_of_In, elem_of_seqZ in Ha.
  specialize (Ha ltac:(lia)). by destruct (walk demo_kernel _).
Qed.

Lemma demo_mem_ok : mem_ok demo_kernel.
Proof.
  split; [exact demo_paging| |].
  - split; [by apply demo_pool_wf | by apply demo_pool_wf | cbn; unfold zlen; cbn; lia].
  - intros q Hq. apply below_not_free.
    apply Z.lt_trans with 0x200000; [|reflexivity].
    apply (dir_check_below demo_kernel); [vm_compute; reflexivity|exact Hq].
Qed.

Lemma demo_vspace : vspace_ok PF_KERNEL demo_vaddr demo_kernel.
Proof.
  split; [reflexivity|]. split.
  - split; [|reflexivity|cbn; lia|cbn; unfold zlen; cbn; lia].
    apply (demo_bitmap_wf 16 0); [lia|]. unfold is_byte. lia.
  - intros i Hi _. apply demo_walk_none. exact Hi.
Qed.

Lemma malloc_page_allocates_witness :
  exists v k' va' qs, malloc_page PF_KERNEL 3 demo_kernel = Ok (v, k') /\
    allocated PF_KERNEL demo_kernel k' demo_vaddr va' v 3 qs.
Proof.
  destruct (proj1 (malloc_page_allocates PF_KERNEL demo_vaddr demo_kernel 3 demo_mem_ok demo_vspace ltac:(lia) ltac:(cbn; lia)))
    as [[_ Hno]|H].
  - apply Nat.leb_le. vm_compute. reflexivity.
  - exfalso. apply (Hno 0); [cbn; lia|]. intros j Hj.
    assert (Ha : j = 0 \/ j = 1 \/ j = 2) by lia. destruct Ha as [->|[->| ->]]; reflexivity.
  - exact H.
Defined.

Lemma malloc_mfree_roundtrip_witness :
  exists v k1 k2, malloc_page PF_KERNEL 2 demo_kernel = Ok (v, k1) /\
    mfree_page PF_KERNEL v 2 k1 = Ok (tt, k2).
Proof.
  assert (E : exists k1, malloc_page PF_KERNEL 2 demo_kernel = Ok (0xc0100000, k1))
    by (vm_compute; eexists; reflexivity).
  destruct E as [k1 E].
  destruct (malloc_mfree_roundtrip PF_KERNEL demo_vaddr demo_kernel k1 0xc0100000 2) as (k2 & _ & F & _).
  - exact demo_mem_ok.
  - exact demo_vspace.
  - lia.
  - cbn. lia.
  - apply Nat.leb_le. vm_compute. reflexivity.
  - cbn. lia.
  - exact E.
  - unfold NULL. lia.
  - exists 0xc0100000, k1, k2. split; [exact E|exact F].
Defined.

(** The kernel of the demonstration with no kernel page left. *)
Definition dry_kernel : kernel :=
  set_pool PF_KERNEL (mk_pool (mk_bitmap 16 (replicate 16 255)) 0x200000 524288) demo_kernel.

Lemma malloc_page_leaks_witness :
  exists b j, malloc_page PF_KERNEL 2 dry_kernel =
    Ok (NULL, with_vspace PF_KERNEL (mk_vaddr b 0xc0100000) dry_kernel) /\
    forall n, 0 <= n < 2 -> bit b (j + n) = true.
Proof.
  destruct (malloc_page_leaks PF_KERNEL demo_vaddr dry_kernel 2 0) as (b & j & E & _ & H).
  - assert (Hw : pool_wf (kernel_pool (kmem dry_kernel))).
    { split; cbn [pool_bitmap dry_kernel set_pool kernel_pool kmem set_kmem phy_addr_start]; try done.
      apply (demo_bitmap_wf 16 255); [lia|]. unfold is_byte. lia. }
    split.
    + apply dir_check_ok; [exact demo_words| |exact Hw|done|vm_compute; reflexivity|vm_compute; reflexivity].
      split; [unfold is_word; cbn; lia|]. by vm_compute.
    + split; [exact Hw|by apply demo_pool_wf|cbn; unfold zlen; cbn; lia].
    + intros q Hq. exact (mo_user _ demo_mem_ok q Hq).
  - destruct demo_vspace as (_ & Hwf & Hun). split; [reflexivity|]. split; [exact Hwf|exact Hun].
  - lia.
  - cbn. lia.
  - intros n Hn. assert (Ha : n = 0 \/ n = 1) by lia. destruct Ha as [->| ->]; reflexivity.
  - assert (Ha : forallb (bit (mk_bitmap 16 (replicate 16 255))) (seqZ 0 15) = true)
      by (vm_compute; reflexivity).
    intros i Hi. cbn in Hi. apply (proj1 (forallb_forall _ _) Ha).
    apply list_elem_of_In, elem_of_seqZ. lia.
  - exists b, j. split; [exact E|exact H].
Defined.

Lemma mem_pool_init_layout_witness :
  exists l, mem_pool_init (fun _ n => replicate (Z.to_nat n) 165) 0x2000000 = Ok l /\
    phy_addr_start (l_user_pool l) = 0x1100000.
Proof.
  destruct (mem_pool_init_layout (fun _ n => replicate (Z.to_nat n) 165) 0x2000000)
    as (l & E & _ & _ & _ & H1 & H2 & H3 & _).
  - intros a n Hn. unfold zlen. rewrite length_replicate. split; [lia|].
    apply Forall_replicate. unfold is_byte. lia.
  - lia.
  - reflexivity.
  - exists l. split; [exact E|]. rewrite H2, H1.
    assert (Hk : pool_size (l_kernel_pool l) = 15728640); [|by rewrite Hk].
    revert E. clear. intros E.
    assert (Hc : exists m, mem_pool_init (fun _ n => replicate (Z.to_nat n) 165) 0x2000000 = Ok m /\
      pool_size (l_kernel_pool m) = 15728640) by (vm_compute; eexists; split; reflexivity).
    destruct Hc as (m & Em & Hm). rewrite E in Em. injection Em as <-. exact Hm.
Defined.

Lemma block_desc_init_ready_witness :
  exists ds s', block_desc_init 0xc0001000 (mk_mach 0 ∅ ∅) = Ok (ds, s') /\ length ds = 7%nat.
Proof.
  destruct (block_desc_init_ready 0xc0001000 (mk_mach 0 ∅ ∅) ∅) as (ds & s' & Γ' & E & _ & Hsz & _).
  - split; intros L; try (intros xs E; by rewrite lookup_empty in E).
    + intros xs1 xs2 a b E. by rewrite lookup_empty in E.
    + intros xs a E. by rewrite lookup_empty in E.
  - intros j Hj. split; [apply lookup_empty|].
    split; (split; [unfold head_of, tail_of, desc_list, NULL; lia|]); intros L xs E; by rewrite lookup_empty in E.
  - exists ds, s'. split; [exact E|]. rewrite <- (length_map (fun d => (block_size d, blocks_per_arena d)) ds).
    by rewrite Hsz.
Defined.
