(* ===== verification/DataPages.v ===== *)
(** * DataPages: using the pages of the allocator

    Stores to a page that holds no page table keep the invariants of memory
    and the address space as it is; an uncontended critical section of a lock
    gives the lock back as it was.  On both rest the callers of [malloc_page]
    that clear what they get: [get_kernel_pages] and [sys_malloc]. *)

From S2P Require Import Prelude Interrupt Lists Bitmap Kernel Paging Thread Sync IoQueue Memory.

(** ** Stores *)

(** [v] is a mapped address outside the page tables. *)
Definition data_at (k : kernel) (v : Z) : Prop :=
  exists q o, walk k v = Some (q + o) /\ q mod 4096 = 0 /\ 0 <= o < 4096 /\ ~ table_frame k q.

(** [r] differs from the memory of [k] in words that are not part of a table. *)
Record data_written (k : kernel) (r : gmap Z Z) : Prop := {
  dw_ok : mem_ok (set_ram r k);
  dw_walk : forall w, is_word w -> walk (set_ram r k) w = walk k w;
  dw_tables : forall q, table_frame (set_ram r k) q <-> table_frame k q }.

Lemma data_written_refl k : mem_ok k -> data_written k (ram (kmem k)).
Proof.
  intros Hok. assert (E : set_ram (ram (kmem k)) k = k) by (by destruct k as [? ? [] ? ?]).
  split; [by rewrite E|intros w _; by rewrite E|intros q; by rewrite E].
Qed.

Lemma data_written_trans k r1 r2 : data_written k r1 -> data_written (set_ram r1 k) r2 ->
  data_written k r2.
Proof.
  intros [_ W1 T1] [O2 W2 T2]. split; [exact O2| |].
  - intros w Hw. exact (eq_trans (W2 w Hw) (W1 w Hw)).
  - intros q. exact (iff_trans (T2 q) (T1 q)).
Qed.

Lemma walk_offset k v q o : is_word v -> v mod 4096 = 0 -> walk k v = Some q -> 0 <= o < 4096 ->
  q mod 4096 = 0 -> walk k (v + o) = Some (q + o).
Proof.
  intros Hv Ha Hw Ho Hq. assert (Hvo : is_word (v + o)) by (unfold is_word in *; zarith).
  unfold walk, translate in *. rewrite (offset_val v), Ha in Hw. rewrite (offset_val (v + o)).
  assert (Ed : pde_addr (cr3 (kc k)) (v + o) = pde_addr (cr3 (kc k)) v)
    by (unfold pde_addr; rewrite !PDE_IDX_val by done; f_equal; f_equal; zarith).
  assert (Et : pte_addr (ram (kmem k)) (cr3 (kc k)) (v + o) = pte_addr (ram (kmem k)) (cr3 (kc k)) v)
    by (unfold pte_addr; rewrite Ed, !PTE_IDX_val by done; f_equal; f_equal; f_equal; zarith).
  rewrite Ed, Et. destruct (present _); [|done]. destruct (present _); [|done].
  injection Hw as <-. f_equal. zarith.
Qed.

Lemma store_written k a q x : mem_ok k -> q mod 4096 = 0 -> q <= a < q + 4096 -> ~ table_frame k q ->
  is_word x -> data_written k (<[a := x]> (ram (kmem k))).
Proof.
  intros Hok Hq Ha Hnt Hx. set (r := <[a := x]> (ram (kmem k))).
  pose proof (mo_paging _ Hok) as Hpg. pose proof (table_frame_cr3 k Hpg) as Hc.
  assert (Hkeep : forall f i, table_frame k f -> f mod 4096 = 0 -> 0 <= i < 1024 ->
    word r (f + i * 4) = word (ram (kmem k)) (f + i * 4)).
  { intros f i Hf Hfa Hi. unfold r. rewrite word_insert. destruct (Z.eq_dec _ _) as [E|]; [|done].
    exfalso. apply Hnt. replace q with f; [done|]. zarith. }
  assert (Hca : cr3 (kc k) mod 4096 = 0) by (by destruct (po_self _ Hpg) as (_ & ? & _)).
  assert (Hpde : forall w, is_word w ->
    word r (pde_addr (cr3 (kc k)) w) = word (ram (kmem k)) (pde_addr (cr3 (kc k)) w))
    by (intros w Hw; apply Hkeep; [done|done|by apply PDE_IDX_range]).
  assert (Ht : forall f, table_frame (set_ram r k) f <-> table_frame k f).
  { intros f. unfold table_frame. cbn [set_ram set_kmem kmem ram kc].
    split; intros (w & Hw & H1 & H2); exists w; (split; [exact Hw|]);
      rewrite Hpde in * by exact Hw; by split. }
  split; [|intros w Hw|exact Ht].
  - pose proof (po_words _ Hpg) as Hwo. pose proof (mo_user _ Hok) as Hu.
    split; [|destruct (mo_pools _ Hok); by split|intros f Hf; by apply Hu, Ht].
    apply (paging_ok_dir k); try done.
    + by apply words_insert.
    + intros i Hi. by apply Hkeep.
  - unfold walk. cbn [set_ram set_kmem kmem ram kc]. unfold translate at 1 2. unfold pte_addr.
    rewrite Hpde by exact Hw. destruct (present _) eqn:Hp; [|done].
    rewrite Hkeep; [done|exists w; done| |by apply PTE_IDX_range].
    apply frame_aligned, word_ok, Hpg.
Qed.

(** [memset] to 0 of [n] words of data pages. *)
Lemma vzero_data n : forall k v, mem_ok k -> 0 <= v -> v + Z.of_nat n * 4 <= 4294967296 ->
  (forall i, 0 <= i < Z.of_nat n -> data_at k (v + i * 4)) ->
  exists r, vzero n v k = Ok (tt, set_ram r k) /\ data_written k r /\
    (forall i, 0 <= i < Z.of_nat n -> exists a, walk k (v + i * 4) = Some a /\ word r a = 0) /\
    (forall a, word (ram (kmem k)) a = 0 -> word r a = 0) /\
    (forall a, (forall i, 0 <= i < Z.of_nat n -> walk k (v + i * 4) <> Some a) ->
       word r a = word (ram (kmem k)) a).
Proof.
  induction n as [|n IH]; intros k v Hok H0 Hv Hd.
  { exists (ram (kmem k)). cbn [vzero]. split; [by destruct k as [? ? [] ? ?]|].
    split; [by apply data_written_refl|]. split; [lia|]. split; done. }
  destruct (Hd 0 ltac:(lia)) as (q & o & Hw & Hq & Ho & Hnt). rewrite Z.mul_0_l, Z.add_0_r in Hw.
  set (r1 := <[q + o := 0]> (ram (kmem k))).
  assert (Hdw : data_written k r1) by (apply (store_written k (q + o) q 0 Hok Hq); [lia|done|unfold is_word; lia]).
  assert (Hwk : forall i, 0 <= i < Z.of_nat (S n) -> walk (set_ram r1 k) (v + i * 4) = walk k (v + i * 4))
    by (intros i Hi; apply (dw_walk _ _ Hdw); unfold is_word; lia).
  destruct (IH (set_ram r1 k) (v + 4)) as (r & E & Hdw' & Hz & H00 & Hf).
  - apply Hdw.
  - lia.
  - lia.
  - intros i Hi. destruct (Hd (i + 1) ltac:(lia)) as (q' & o' & Hw' & Hq' & Ho' & Hnt').
    exists q', o'. replace (v + 4 + i * 4) with (v + (i + 1) * 4) by lia. rewrite Hwk by lia.
    split; [done|]. split; [done|]. split; [done|]. by rewrite (dw_tables _ _ Hdw).
  - exists r. cbn [vzero]. rewrite (bindM_ok _ _ _ _ _ (vstore_ok k v 0 _ Hw)). fold r1.
    split; [exact E|]. split; [by apply (data_written_trans k r1)|].
    assert (Hshift : forall i, v + 4 + i * 4 = v + (i + 1) * 4) by (intros; lia). split.
    + intros i Hi. destruct (decide (i = 0)) as [->|Hne].
      * exists (q + o). rewrite Z.mul_0_l, Z.add_0_r. split; [done|].
        apply H00. cbn [set_ram set_kmem kmem ram]. unfold r1. rewrite word_insert.
        by destruct (Z.eq_dec _ _).
      * destruct (Hz (i - 1) ltac:(lia)) as (a & Ea & Wa). exists a. split; [|done].
        rewrite Hshift, Hwk in Ea by lia. by replace (i - 1 + 1) with i in Ea by lia.
    + split.
      { intros a Ha. apply H00. cbn [set_ram set_kmem kmem ram]. unfold r1. rewrite word_insert.
        by destruct (Z.eq_dec _ _). }
      intros a Ha. rewrite Hf.
      * cbn [set_ram set_kmem kmem ram]. unfold r1. rewrite word_insert.
        destruct (Z.eq_dec _ _) as [<-|]; [|done]. exfalso.
        apply (Ha 0 ltac:(lia)). by rewrite Z.mul_0_l, Z.add_0_r.
      * intros i Hi. rewrite Hshift, Hwk by lia. apply Ha. lia.
Qed.

(** ** Critical sections *)

(** Nobody holds the lock or waits for it. *)
Record lock_idle (k : kernel) (Γ : gmap Z (list Z)) (lk : Z) : Prop := {
  lf_lock : locks (ksy k) !! lk = Some (mk_lock NULL 0);
  lf_value : sema_value (ksy k) !! lock_semaphore lk = Some 1;
  lf_waiters : Γ !! waiters (lock_semaphore lk) = Some [] }.

(** The locks while thread [t] is inside. *)
Definition held (y : sync) (lk t : Z) : sync :=
  mk_sync (<[lock_semaphore lk := 0]> (sema_value y)) (<[lk := mk_lock t 1]> (locks y)).

Lemma lock_enter k Γ lk : lock_idle k Γ lk -> cur (kc k) <> NULL ->
  lock_acquire lk k = Ok (None, set_ksy (held (ksy k) lk (cur (kc k))) k).
Proof. intros [El Ev _] Hc. by apply lock_acquire_free. Qed.

Lemma lock_leave k0 k Γ lk : lock_idle k0 Γ lk -> ksy k = held (ksy k0) lk (cur (kc k)) ->
  forall Γ', lists_ok (km k) Γ' -> Γ' !! waiters (lock_semaphore lk) = Some [] ->
  lock_release lk k = Ok (tt, set_ksy (ksy k0) k).
Proof.
  intros [El Ev _] Hy Γ' Hl Hw. unfold lock_release, lock_release_clear.
  assert (E1 : locks (ksy k) !! lk = Some (mk_lock (cur (kc k)) 1))
    by (rewrite Hy; cbn [held locks]; by rewrite lookup_insert_eq).
  unfold mbind at 1, M_bind at 1. rewrite (bindM_ok _ _ _ _ _ (get_lock_ok _ _ _ E1)).
  cbn [holder_repeat_cnt Z.ltb Z.compare Pos.compare Pos.compare_cont].
  rewrite bind_assert by done. unfold set_lock. rewrite !bind_modify.
  assert (Ey : forall a b c, set_ksy (mk_sync (sema_value (ksy (set_ksy a k)))
    (<[lk := b]> (locks (ksy (set_ksy (mk_sync (sema_value (ksy k)) (<[lk := c]> (locks (ksy k)))) k)))))
    (set_ksy a k) = set_ksy (mk_sync (sema_value a) (<[lk := b]> (locks (ksy k)))) k)
    by (intros a b c; cbn [set_ksy ksy locks]; by rewrite insert_insert_eq).
  unfold mret, M_ret. rewrite Ey, Hy. cbn [held locks sema_value].
  rewrite insert_insert_eq, (insert_id _ _ _ El). clear Ey E1.
  set (k1 := set_ksy _ k).
  unfold semaphore_up. rewrite (bindM_ok _ _ _ _ _ (on_disable k1)).
  assert (Hl1 : lists_ok (mach_if INTR_OFF (km k)) Γ') by (by apply lists_ok_if).
  rewrite (bindM_ok _ _ (set_km (mach_if INTR_OFF (km k)) k1) true (set_km (mach_if INTR_OFF (km k)) k1))
    by (unfold on_mach; cbn [set_km km]; rewrite (list_empty_ok _ _ _ _ Hl1 Hw); by decide_bool).
  cbn [negb]. rewrite bind_mret.
  assert (Ev0 : sema_value (ksy (set_km (mach_if INTR_OFF (km k)) k1)) !! lock_semaphore lk = Some 0)
    by (cbn [set_km set_ksy ksy sema_value k1]; by rewrite lookup_insert_eq).
  rewrite (bindM_ok _ _ _ _ _ (get_value_ok _ _ _ Ev0)).
  unfold set_value. rewrite bind_modify, (bindM_ok _ _ _ _ _ (on_set_status _ _)).
  unfold mret, M_ret. do 2 f_equal. cbn [set_km set_ksy km ksy sema_value locks k1].
  change (u8 (0 + 1)) with 1. rewrite insert_insert_eq, (insert_id _ _ _ Ev), mach_if_restore.
  clear. by destruct k0 as [? ? ? ? []], k.
Qed.

(** ** The locks are not part of the invariants of memory *)

Lemma mem_ok_ksy y k : mem_ok k -> mem_ok (set_ksy y k).
Proof. intros Hok. by apply (mem_ok_same k). Qed.

Lemma mem_ok_km m k : mem_ok k -> mem_ok (set_km m k).
Proof. intros Hok. by apply (mem_ok_same k). Qed.

Lemma same_rest_ksy pf va y y' k k' : same_rest (with_vspace pf va (set_ksy y k)) k' ->
  same_rest (with_vspace pf va (set_ksy y' k)) (set_ksy y' k').
Proof. intros (H1 & H2 & H3 & H4 & H5). by destruct pf. Qed.

Lemma allocated_ksy pf y k k' va va' v cnt qs : allocated pf (set_ksy y k) k' va va' v cnt qs ->
  allocated pf k (set_ksy (ksy k) k') va va' v cnt qs.
Proof.
  intros [A1 A2 A3 A4 A5 A6 A7 A8 A9 A10 A11 A12 A13 A14]. split; try assumption.
  - by apply mem_ok_ksy.
  - apply (same_rest_ksy pf va' y (ksy k)) in A13. by destruct k.
Qed.

(** ** Pages of the allocator, cleared *)

Lemma al_len pf k k' va va' v cnt qs : allocated pf k k' va va' v cnt qs ->
  zlen (bits (vaddr_bitmap va)) <= zlen (bits (vaddr_bitmap va')).
Proof.
  intros Hal. pose proof (zlen_nonneg (bits (vaddr_bitmap va'))).
  destruct (decide (1 <= zlen (bits (vaddr_bitmap va)))); [|lia].
  destruct (al_bits _ _ _ _ _ _ _ _ Hal (8 * zlen (bits (vaddr_bitmap va)) - 1)) as [Hin _];
    unfold in_bits in *; lia.
Qed.

Lemma allocated_data pf k k' va va' v cnt qs : allocated pf k k' va va' v cnt qs ->
  0 <= v /\ v mod 4096 = 0 /\ v + cnt * 4096 <= 0xffc00000 /\
  forall o, 0 <= o < cnt * 4096 -> exists q, qs !! Z.to_nat (o / 4096) = Some q /\
    walk k' (v + o) = Some (q + o mod 4096) /\ q mod 4096 = 0 /\ ~ table_frame k' q.
Proof.
  intros Hal. destruct (al_index _ _ _ _ _ _ _ _ Hal) as (i & Hi & Ev & Hle).
  destruct (al_space _ _ _ _ _ _ _ _ Hal) as (_ & [Hb Ha Hs He] & _).
  rewrite (al_start _ _ _ _ _ _ _ _ Hal) in Ha, Hs, He.
  pose proof (al_len _ _ _ _ _ _ _ _ Hal) as Hz.
  assert (Hse : space_end pf <= 0xffc00000) by (by destruct pf).
  split; [lia|]. split; [zarith|]. split; [lia|]. intros o Ho.
  pose proof (al_count _ _ _ _ _ _ _ _ Hal) as Hn. unfold zlen in Hn.
  destruct (lookup_lt_is_Some_2 qs (Z.to_nat (o / 4096))) as [q Hq]; [zarith|].
  destruct (allocated_run _ _ _ _ _ _ _ _ Hal _ _ Hq) as (Hw & (j & Hj & ->) & Ht).
  destruct (page_at_word _ j (pools_wf _ pf (mo_pools _ (al_ok _ _ _ _ _ _ _ _ Hal))) Hj) as (_ & Hqa & _).
  eexists. split; [done|]. split; [|done].
    replace (v + o) with (v + Z.of_nat (Z.to_nat (o / 4096)) * 4096 + o mod 4096) by zarith.
    apply walk_offset; [unfold is_word; zarith|zarith|done|zarith|done].
Qed.

(** [memset] of the pages just allocated. *)
Lemma clear_allocated pf k k' va va' v cnt qs : allocated pf k k' va va' v cnt qs -> 0 < cnt ->
  exists r, vzero (Z.to_nat (cnt * 1024)) v k' = Ok (tt, set_ram r k') /\ data_written k' r /\
    (forall q o, q ∈ qs -> 0 <= o < 1024 -> word r (q + o * 4) = 0) /\
    (forall a, (forall q, q ∈ qs -> ~ (q <= a < q + 4096)) -> word r a = word (ram (kmem k')) a).
Proof.
  intros Hal Hc. destruct (allocated_data _ _ _ _ _ _ _ _ Hal) as (H0 & Ha & He & Hd).
  destruct (vzero_data (Z.to_nat (cnt * 1024)) k' v) as (r & E & Hdw & Hz & _ & Hf).
  - exact (al_ok _ _ _ _ _ _ _ _ Hal).
  - exact H0.
  - lia.
  - intros i Hi. destruct (Hd (i * 4) ltac:(lia)) as (q & _ & Hw & Hqa & Ht).
    exists q, ((i * 4) mod 4096). split; [done|]. split; [done|]. split; [zarith|done].
  - exists r. split; [exact E|]. split; [exact Hdw|]. split.
    + intros q o Hq Ho. apply list_elem_of_lookup in Hq as [n Hq].
      assert (Hn : (n < length qs)%nat) by (by eapply lookup_lt_Some).
      pose proof (al_count _ _ _ _ _ _ _ _ Hal) as Hcnt. unfold zlen in Hcnt.
      destruct (Hz (Z.of_nat n * 1024 + o) ltac:(lia)) as (a & Ea & Wa).
      destruct (Hd (Z.of_nat n * 4096 + o * 4) ltac:(lia)) as (q' & Hq' & Hw & _).
      replace (v + (Z.of_nat n * 1024 + o) * 4) with (v + (Z.of_nat n * 4096 + o * 4)) in Ea by lia.
      rewrite Hw in Ea. injection Ea as <-.
      replace (Z.to_nat ((Z.of_nat n * 4096 + o * 4) / 4096)) with n in Hq' by zarith.
      assert (q' = q) as -> by congruence.
      by replace (q + o * 4) with (q + (Z.of_nat n * 4096 + o * 4) mod 4096) by zarith.
    + intros a Hna. apply Hf. intros i Hi Ew.
      destruct (Hd (i * 4) ltac:(lia)) as (q & Hq & Hw & _). rewrite Hw in Ew. injection Ew as <-.
      apply (Hna q); [by eapply list_elem_of_lookup_2|zarith].
Qed.

Lemma al_km pf k k' va va' v cnt qs : allocated pf k k' va va' v cnt qs ->
  km k' = km k /\ ksy k' = ksy k /\ kc k' = kc k.
Proof. intros Hal. destruct (al_rest _ _ _ _ _ _ _ _ Hal) as (H1 & H2 & _ & H4 & _). by destruct pf. Qed.

(** What [get_pages] hands out: pages as [malloc_page] promises them, all of
    whose words are 0. *)
Lemma get_pages_ok pf pool_lock va k Γ cnt : mem_ok k -> vspace_ok pf va k -> 0 < cnt < 3840 ->
  cnt <= len (vaddr_bitmap va) -> budget pf k (Z.to_nat cnt) -> lists_ok (km k) Γ ->
  lock_idle k Γ (pool_lock pf) -> cur (kc k) <> NULL ->
  (get_pages pool_lock pf cnt k = Ok (Done NULL, k) /\ no_run va cnt) \/
  exists v k' va' qs r, get_pages pool_lock pf cnt k = Ok (Done v, set_ram r k') /\ v <> NULL /\
    allocated pf k k' va va' v cnt qs /\ data_written k' r /\
    (forall q o, q ∈ qs -> 0 <= o < 1024 -> word r (q + o * 4) = 0) /\
    (forall a, (forall q, q ∈ qs -> ~ (q <= a < q + 4096)) -> word r a = word (ram (kmem k')) a).
Proof.
  intros Hok Hsp Hc Hlen Hbud Hl Hlk Hcur. set (y := held (ksy k) (pool_lock pf) (cur (kc k))).
  pose proof (lf_waiters _ _ _ Hlk) as Hwt. unfold get_pages.
  rewrite (bindM_ok _ _ _ _ _ (lock_enter k Γ _ Hlk Hcur)). fold y.
  assert (Hsp1 : vspace_ok pf va (set_ksy y k)) by (by destruct pf).
  destruct (malloc_page_ok pf va (set_ksy y k) cnt (mem_ok_ksy y k Hok) Hsp1 Hc Hlen)
    as [[E Hno]|(v & k' & va' & qs & E & Hal)]; [by destruct pf| |]; rewrite (bindM_ok _ _ _ _ _ E).
  - left. split; [|exact Hno]. cbn [NULL Z.eqb negb]. rewrite bind_mret.
    rewrite (bindM_ok _ _ _ _ _ (lock_leave k (set_ksy y k) Γ _ Hlk eq_refl Γ Hl Hwt)). by destruct k.
  - right. destruct (clear_allocated _ _ _ _ _ _ _ _ Hal ltac:(lia)) as (r & Ez & Hdw & Hz & Hout).
    destruct (al_km _ _ _ _ _ _ _ _ Hal) as (Ekm & Eks & Ekc).
    assert (Hv : v <> NULL).
    { destruct (al_index _ _ _ _ _ _ _ _ Hal) as (i & Hi & -> & _). destruct Hsp as (_ & [_ _ Hs _] & _).
      unfold NULL. lia. }
    exists v, (set_ksy (ksy k) k'), va', qs, r.
    split; [|split; [exact Hv|split; [by apply (allocated_ksy _ y)|split; [|split; [exact Hz|exact Hout]]]]].
    + rewrite (proj2 (Z.eqb_neq _ _) Hv). cbn [negb]. rewrite (bindM_ok _ _ _ _ _ Ez).
      rewrite (bindM_ok _ _ _ _ _ (lock_leave k (set_ram r k') Γ _ Hlk
        ltac:(cbn [set_ram set_kmem ksy kc]; by rewrite Eks, Ekc) Γ
        ltac:(cbn [set_ram set_kmem km]; by rewrite Ekm) Hwt)). done.
    + destruct Hdw as [D1 D2 D3]. split; [by apply (mem_ok_same (set_ram r k'))|exact D2|exact D3].
Qed.
