(* ===== verification/Pid.v ===== *)
(** * Pid: process numbers and the list of all threads (thread/thread.c)

    [alloc_pid] takes the first clear bit of the bitmap of [pid_pool],
    [release_pid] clears one, [pid2pcb] searches [thread_all_list].

    [threads_ok k Γ ts] is the invariant: [thread_all_list] holds exactly the
    threads [ts], which are those that have not died, and their numbers are
    pairwise different and taken in the bitmap. *)

From S2P Require Import Prelude Interrupt Lists Bitmap Kernel Paging Thread Sync IoQueue Memory DataPages.

(** [lock_acquire(lk); ...; lock_release(lk);] *)
Definition with_lock {A} (lk : Z) (m : M kernel A) : M kernel (outcome A) :=
  r ← lock_acquire lk;
  match r with
  | Some old => mret (WaitsLock old)
  | None => a ← m; _ ← lock_release lk; mret (Done a)
  end.

Definition set_pid_start (x : Z) (k : kernel) : kernel :=
  let t := kth k in
  set_kth (mk_threads (pcbs t) (thread_ready_list t) (thread_all_list t) (main_thread t)
    (idle_thread t) (pid_bitmap t) x) k.

Section pid_pool.
(** The address of [pid_pool.pid_lock]. *)
Context (pid_lock : Z).

(** [pid_bitmap_bits] is the static array. *)
Definition pid_pool_init (pid_bitmap_bits : list Z) : M kernel unit :=
  _ ← modify (set_pid_start 1);
  b ← lift (bitmap_init (mk_bitmap 128 pid_bitmap_bits));
  _ ← modify (set_pid_bitmap b);
  lock_init pid_lock.

Definition alloc_pid : M kernel (outcome Z) :=
  r ← with_lock pid_lock (
    mp ← gets (fun k => pid_bitmap (kth k));
    idx ← lift (bitmap_apply_cnt mp 1);
    b ← lift (bitmap_set_idx mp idx 1);
    _ ← modify (set_pid_bitmap b);
    mret idx);
  match r with
  | Done idx => start ← gets (fun k => pid_start (kth k)); mret (Done (i16 (idx + start)))
  | WaitsLock old => mret (WaitsLock old)
  | Waits => mret Waits
  end.

Definition release_pid (pid : Z) : M kernel (outcome unit) :=
  with_lock pid_lock (
    start ← gets (fun k => pid_start (kth k));
    let idx := i32 (i16 pid - start) in
    mp ← gets (fun k => pid_bitmap (kth k));
    b ← lift (bitmap_set_idx mp idx 0);
    modify (set_pid_bitmap b)).
End pid_pool.

(** The traversals of [thread_all_list]; the callback reads the PCB the node
    lies in. *)
Definition traverse_all (func : Z -> M kernel bool) : M kernel Z :=
  L ← gets (fun k => thread_all_list (kth k));
  list_traversal km L func.

Definition pid_check (x : Z) (node : Z) : M kernel bool :=
  p ← get_pcb (all_list_node_entry node);
  mret (pid p =? x).

Definition pid2pcb (x : Z) : M kernel Z :=
  node ← traverse_all (pid_check x);
  if node =? NULL then mret NULL else mret (all_list_node_entry node).

(** ** The invariant *)

(** Number [x] is taken. *)
Definition pid_taken (k : kernel) (x : Z) : bool := bit (pid_bitmap (kth k)) (x - 1).

Record pid_pool_ok (k : kernel) : Prop := {
  pp_start : pid_start (kth k) = 1;
  pp_wf : bitmap_wf (pid_bitmap (kth k));
  pp_len : len (pid_bitmap (kth k)) = 128;
  pp_bits : zlen (bits (pid_bitmap (kth k))) = 128 }.

(** [p] is the PCB of the thread [t]. *)
Definition alive (k : kernel) (t : Z) (p : pcb) : Prop :=
  pcbs (kth k) !! t = Some p /\ status p <> TASK_DIED.

Record threads_ok (k : kernel) (Γ : gmap Z (list Z)) (ts : list Z) : Prop := {
  to_list : Γ !! thread_all_list (kth k) = Some (map all_list_node ts);
  to_pcbs : forall t, t ∈ ts <-> exists p, alive k t p;
  to_pool : pid_pool_ok k;
  to_pids : forall t p, alive k t p -> 1 <= pid p <= 127 /\ pid_taken k (pid p) = true;
  to_uniq : forall t1 t2 p1 p2, alive k t1 p1 -> alive k t2 p2 -> pid p1 = pid p2 -> t1 = t2 }.

(** ** Lemmas *)

Lemma all_list_node_entry_id t : all_list_node_entry (all_list_node t) = t.
Proof. unfold all_list_node_entry, all_list_node. lia. Qed.

Lemma all_list_node_inj t1 t2 : all_list_node t1 = all_list_node t2 -> t1 = t2.
Proof. unfold all_list_node. lia. Qed.

Lemma set_ksy_id k : set_ksy (ksy k) k = k.
Proof. by destruct k. Qed.

(** A critical section under a lock nobody holds or waits for. *)
Lemma with_lock_ok {A} lk (m : M kernel A) k Γ a k' : lock_idle k Γ lk -> lists_ok (km k) Γ ->
  cur (kc k) <> NULL ->
  let y := held (ksy k) lk (cur (kc k)) in
  m (set_ksy y k) = Ok (a, k') -> ksy k' = y -> km k' = km k -> cur (kc k') = cur (kc k) ->
  with_lock lk m k = Ok (Done a, set_ksy (ksy k) k').
Proof.
  intros Hlk Hl Hcur y Em Ey Ekm Ec. unfold with_lock.
  rewrite (bindM_ok _ _ _ _ _ (lock_enter k Γ lk Hlk Hcur)). fold y.
  rewrite (bindM_ok _ _ _ _ _ Em).
  rewrite (bindM_ok _ _ _ _ _ (lock_leave k k' Γ lk Hlk ltac:(by rewrite Ec) Γ
    ltac:(by rewrite Ekm) (lf_waiters _ _ _ Hlk))). done.
Qed.

Lemma with_lock_err {A} lk (m : M kernel A) k Γ e : lock_idle k Γ lk -> cur (kc k) <> NULL ->
  m (set_ksy (held (ksy k) lk (cur (kc k))) k) = Err e -> with_lock lk m k = Err e.
Proof.
  intros Hlk Hcur Em. unfold with_lock.
  rewrite (bindM_ok _ _ _ _ _ (lock_enter k Γ lk Hlk Hcur)). by apply bindM_err.
Qed.

(** The pool after the bit of one number has been written. *)
Definition pid_written (k : kernel) (b : bitmap) (x : Z) (v : bool) : Prop :=
  pid_pool_ok (set_pid_bitmap b k) /\
  forall y, 1 <= y <= 1024 -> pid_taken (set_pid_bitmap b k) y = if Z.eq_dec x y then v else pid_taken k y.

Lemma pid_written_intro k x v : pid_pool_ok k -> 1 <= x <= 1024 -> v = 0 \/ v = 1 ->
  exists b, bitmap_set_idx (pid_bitmap (kth k)) (x - 1) v = Ok b /\ pid_written k b x (v =? 1).
Proof.
  intros [Hs Hwf Hl Hz] Hx Hv.
  destruct (bitmap_set_idx_ok _ (x - 1) v Hwf) as (b & E & Wb & Lb & Zb & Bb);
    [unfold in_bits; lia|done|].
  exists b. split; [done|]. split.
  - split; cbn; [done|done|congruence|congruence].
  - intros y Hy. unfold pid_taken. cbn. rewrite Bb by (unfold in_bits; lia).
    destruct (Z.eq_dec (x - 1) (y - 1)), (Z.eq_dec x y); done || lia.
Qed.

Lemma free_run_1 mp i : free_run mp i 1 <-> bit mp i = false.
Proof.
  split.
  - intros H. specialize (H 0 ltac:(lia)). by rewrite Z.add_0_r in H.
  - intros H j Hj. by replace (i + j) with i by lia.
Qed.

(** [alloc_pid]: the least free number, or a write outside the bitmap. *)
Lemma alloc_pid_ok lk k Γ : pid_pool_ok k -> lock_idle k Γ lk -> lists_ok (km k) Γ ->
  cur (kc k) <> NULL ->
  (alloc_pid lk k = Err Fault /\ forall y, 1 <= y <= 127 -> pid_taken k y = true) \/
  exists x b, alloc_pid lk k = Ok (Done x, set_pid_bitmap b k) /\ 1 <= x <= 127 /\
    pid_taken k x = false /\ (forall y, 1 <= y < x -> pid_taken k y = true) /\
    pid_written k b x true.
Proof.
  intros Hp Hlk Hl Hcur. pose proof Hp as [Hs Hwf Hlen Hz].
  destruct (bitmap_apply_cnt_ok _ 1 Hwf ltac:(lia)) as (r & Er & Hcase). rewrite Hlen in Hcase.
  unfold alloc_pid. set (body := gets _ ≫= _). set (y := held (ksy k) lk (cur (kc k))).
  destruct Hcase as [[-> Hno]|(Hr & Hf & Hlo)].
  - left. split.
    + erewrite bindM_err; [done|]. apply (with_lock_err _ _ _ Γ); [done|done|].
      unfold body. rewrite bind_gets, (bind_lift _ _ _ _ Er). apply bindM_err.
      unfold lift, bitmap_set_idx. cbn [Z.eqb orb ASSERT]. unfold mbind, res_bind.
      cbv beta iota zeta. change (u32 (-1) / 8) with 536870911.
      rewrite aget_fault; [done|]. cbn [set_ksy kth]. rewrite Hz. lia.
    + intros x Hx. unfold pid_taken. destruct (bit _ _) eqn:E; [done|].
      destruct (Hno (x - 1) ltac:(lia)). by apply free_run_1.
  - right. destruct (pid_written_intro k (r + 1) 1 Hp ltac:(lia) (or_intror eq_refl)) as (b & Eb & Hw).
    replace (r + 1 - 1) with r in Eb by lia.
    exists (r + 1), b. split; [|split; [lia|split; [|split; [|exact Hw]]]].
    + assert (E : body (set_ksy y k) = Ok (r, set_pid_bitmap b (set_ksy y k))).
      { unfold body. rewrite bind_gets, (bind_lift _ _ _ _ Er), (bind_lift _ _ _ _ Eb). done. }
      rewrite (bindM_ok _ _ _ _ _ (with_lock_ok lk body k Γ r _ Hlk Hl Hcur E eq_refl eq_refl eq_refl)).
      cbv iota. rewrite bind_gets.
      change (set_ksy (ksy k) (set_pid_bitmap b (set_ksy y k))) with (set_pid_bitmap b (set_ksy (ksy k) k)).
      rewrite set_ksy_id. change (pid_start (kth (set_pid_bitmap b k))) with (pid_start (kth k)). rewrite Hs.
      unfold i16. rewrite Z.mod_small by lia. by replace (r + 1 + 32768 - 32768) with (r + 1) by lia.
    + unfold pid_taken. replace (r + 1 - 1) with r by lia. by apply free_run_1.
    + intros x Hx. unfold pid_taken. destruct (bit _ _) eqn:E; [done|].
      destruct (Hlo (x - 1) ltac:(lia)). by apply free_run_1.
Qed.

Lemma release_pid_ok lk k Γ x : pid_pool_ok k -> lock_idle k Γ lk -> lists_ok (km k) Γ ->
  cur (kc k) <> NULL -> 1 <= x <= 1024 ->
  exists b, release_pid lk x k = Ok (Done tt, set_pid_bitmap b k) /\ pid_written k b x false.
Proof.
  intros Hp Hlk Hl Hcur Hx. set (y := held (ksy k) lk (cur (kc k))).
  destruct (pid_written_intro k x 0 Hp Hx (or_introl eq_refl)) as (b & Eb & Hw).
  exists b. split; [|exact Hw]. unfold release_pid. set (body := gets _ ≫= _).
  assert (E : body (set_ksy y k) = Ok (tt, set_pid_bitmap b (set_ksy y k))).
  { unfold body. rewrite !bind_gets. change (pid_start (kth (set_ksy y k))) with (pid_start (kth k)).
    rewrite (pp_start _ Hp). unfold i16. rewrite Z.mod_small by lia. rewrite i32_small by lia.
    replace (x + 32768 - 32768 - 1) with (x - 1) by lia. by rewrite (bind_lift _ _ _ _ Eb). }
  rewrite (with_lock_ok lk body k Γ tt _ Hlk Hl Hcur E eq_refl eq_refl eq_refl).
  change (set_ksy (ksy k) (set_pid_bitmap b (set_ksy y k))) with (set_pid_bitmap b (set_ksy (ksy k) k)).
  by rewrite set_ksy_id.
Qed.

(** *** Traversals *)

(** The first thread of a list whose PCB satisfies [f]. *)
Fixpoint first_thread (f : pcb -> bool) (m : gmap Z pcb) (ts : list Z) : option Z :=
  match ts with
  | [] => None
  | t :: ts' => if match m !! t with Some p => f p | None => false end then Some t
                else first_thread f m ts'
  end.

Lemma first_thread_some f m ts t : first_thread f m ts = Some t ->
  exists p ts1 ts2, ts = ts1 ++ t :: ts2 /\ m !! t = Some p /\ f p = true /\
    forall t' p', t' ∈ ts1 -> m !! t' = Some p' -> f p' = false.
Proof.
  induction ts as [|t1 ts IH]; cbn [first_thread]; [done|].
  destruct (match m !! t1 with Some p => f p | None => false end) eqn:E.
  - intros [= <-]. destruct (m !! t1) as [p|] eqn:Ep; [|done]. exists p, [], ts. split_and!; try done.
    intros t' p' Ht. by apply not_elem_of_nil in Ht.
  - intros H. destruct (IH H) as (p & l1 & l2 & -> & Ep & Ef & Hn). exists p, (t1 :: l1), l2.
    split_and!; try done. intros t' p' [->|Ht]%elem_of_cons Ep'; [by rewrite Ep' in E|by apply (Hn t')].
Qed.

Lemma first_thread_none f m ts : first_thread f m ts = None <->
  forall t p, t ∈ ts -> m !! t = Some p -> f p = false.
Proof.
  induction ts as [|t1 ts IH]; cbn [first_thread].
  { split; [|done]. intros _ t p Ht. by apply not_elem_of_nil in Ht. }
  destruct (m !! t1) as [p|] eqn:Ep; [destruct (f p) eqn:Ef|]; [split; [done|]|rewrite IH..].
  - intros H. by rewrite (H t1 p) in Ef by (done || by left).
  - split; intros H t q; [intros [->|Ht]%elem_of_cons Eq; [congruence|by apply (H t)]|].
    intros Ht. apply H. by right.
  - split; intros H t q; [intros [->|Ht]%elem_of_cons Eq; [congruence|by apply (H t)]|].
    intros Ht. apply H. by right.
Qed.

(** The node [list_traversal] returns for it. *)
Definition node_or_null (o : option Z) : Z := match o with Some t => all_list_node t | None => NULL end.

Lemma threads_pcb k Γ ts t : threads_ok k Γ ts -> t ∈ ts -> is_Some (pcbs (kth k) !! t).
Proof. intros Hto Ht. apply (to_pcbs _ _ _ Hto) in Ht as (p & Ep & _). eauto. Qed.

(** A traversal that tests PCBs and changes nothing. *)
Lemma traverse_test_ok (test : Z -> M kernel bool) f k Γ ts :
  (forall node k, test node k = (p ← get_pcb (all_list_node_entry node); mret (f p)) k) ->
  lists_ok (km k) Γ -> Γ !! thread_all_list (kth k) = Some (map all_list_node ts) ->
  (forall t, t ∈ ts -> is_Some (pcbs (kth k) !! t)) ->
  traverse_all test k = Ok (node_or_null (first_thread f (pcbs (kth k)) ts), k).
Proof.
  intros Ht Hl HL Hts. unfold traverse_all. rewrite bind_gets.
  set (ans := fun (n : Z) (s : kernel) =>
    match pcbs (kth s) !! all_list_node_entry n with Some p => f p | None => false end).
  assert (Htest : forall n s, (exists t, n = all_list_node t /\ t ∈ ts) -> s = k ->
    test n s = Ok (ans n s, s)).
  { intros n s (t & -> & Hin) ->. rewrite Ht. unfold ans. rewrite all_list_node_entry_id.
    destruct (Hts t Hin) as [p Ep]. by rewrite (bindM_ok _ _ _ _ _ (get_pcb_ok _ _ _ Ep)), Ep. }
  rewrite (list_traversal_ok km _ test ans (fun _ s => s) _ _ Htest
    ltac:(done) ltac:(done) Γ (map all_list_node ts) k Hl HL); [| |done].
  2:{ apply Forall_forall. intros n (t & -> & Hin)%list_elem_of_fmap. by exists t. }
  f_equal. clear. unfold ans. induction ts as [|t ts IH]; cbn [map trav_spec first_thread]; [done|].
  rewrite all_list_node_entry_id. destruct (pcbs (kth k) !! t) as [p|]; [destruct (f p)|]; done.
Qed.

Lemma node_not_null k Γ ts t : lists_ok (km k) Γ ->
  Γ !! thread_all_list (kth k) = Some (map all_list_node ts) -> t ∈ ts -> all_list_node t <> NULL.
Proof.
  intros Hl HL Ht. apply (lo_nonnull _ _ Hl _ _ _ HL). unfold foot. right.
  apply elem_of_app. left. by apply list_elem_of_fmap_2.
Qed.

Lemma pid2pcb_ok k Γ ts x : threads_ok k Γ ts -> lists_ok (km k) Γ ->
  pid2pcb x k = Ok (default NULL (first_thread (fun p => pid p =? x) (pcbs (kth k)) ts), k).
Proof.
  intros Hto Hl. pose proof (to_list _ _ _ Hto) as HL. unfold pid2pcb.
  rewrite (bindM_ok _ _ _ _ _ (traverse_test_ok (pid_check x) (fun p => pid p =? x) k Γ ts
    ltac:(done) Hl HL (fun t => threads_pcb k Γ ts t Hto))).
  destruct (first_thread _ _ _) as [t|] eqn:E; [|done]. cbn [node_or_null default].
  destruct (first_thread_some _ _ _ _ E) as (p & l1 & l2 & -> & _).
  rewrite (proj2 (Z.eqb_neq _ _)) by (apply (node_not_null k Γ _ t Hl HL); set_solver).
  cbn. by rewrite all_list_node_entry_id.
Qed.

(** ** Properties *)

(** [alloc_pid] returns the least free process number, marks exactly that
    number and leaves everything else as it was.  It has 127 numbers although
    the bitmap has room for 1024: when they are all taken the result -1 of the
    search is used as an index, and the function writes outside the bitmap. *)
Theorem alloc_pid_least_free (lk : Z) (k : kernel) (Γ : gmap Z (list Z)) :
  pid_pool_ok k -> lock_idle k Γ lk -> lists_ok (km k) Γ -> cur (kc k) <> NULL ->
  ((forall y, 1 <= y <= 127 -> pid_taken k y = true) -> alloc_pid lk k = Err Fault) /\
  (forall x, 1 <= x <= 127 -> pid_taken k x = false -> (forall y, 1 <= y < x -> pid_taken k y = true) ->
     exists b, alloc_pid lk k = Ok (Done x, set_pid_bitmap b k) /\
       pid_pool_ok (set_pid_bitmap b k) /\
       forall y, 1 <= y <= 1024 ->
         pid_taken (set_pid_bitmap b k) y = if Z.eq_dec x y then true else pid_taken k y).
Proof.
  intros Hp Hlk Hl Hcur. destruct (alloc_pid_ok lk k Γ Hp Hlk Hl Hcur)
    as [[E Hall]|(x & b & E & Hx & Hf & Hlo & Hw & Hb)]; split.
  - done.
  - intros x Hx Hf _. by rewrite Hall in Hf.
  - intros Hall. by rewrite Hall in Hf.
  - intros x' Hx' Hf' Hlo'. assert (x' = x) as ->; [|by exists b].
    destruct (Z.lt_trichotomy x x') as [Hlt|[->|Hlt]]; [|done|].
    + by rewrite Hlo' in Hf by lia.
    + by rewrite Hlo in Hf' by lia.
Qed.

(** A number that [release_pid] gives back is free again, and the next
    [alloc_pid] restores the pool if no smaller number is free. *)
Theorem pid_release_alloc (lk : Z) (k : kernel) (Γ : gmap Z (list Z)) (x : Z) :
  pid_pool_ok k -> lock_idle k Γ lk -> lists_ok (km k) Γ -> cur (kc k) <> NULL ->
  1 <= x <= 127 -> pid_taken k x = true -> (forall y, 1 <= y < x -> pid_taken k y = true) ->
  exists k1 k2, release_pid lk x k = Ok (Done tt, k1) /\ pid_taken k1 x = false /\
    alloc_pid lk k1 = Ok (Done x, k2) /\
    forall y, 1 <= y <= 1024 -> pid_taken k2 y = pid_taken k y.
Proof.
  intros Hp Hlk Hl Hcur Hx Ht Hlo.
  destruct (release_pid_ok lk k Γ x Hp Hlk Hl Hcur ltac:(lia)) as (b & E & Hp1 & Hb).
  set (k1 := set_pid_bitmap b k) in *.
  assert (Hfree : pid_taken k1 x = false) by (rewrite Hb by lia; by destruct (Z.eq_dec x x)).
  destruct Hlk as [L1 L2 L3]. assert (Hlk1 : lock_idle k1 Γ lk) by done.
  exists k1. destruct (alloc_pid_ok lk k1 Γ Hp1 Hlk1 Hl Hcur)
    as [[_ Hall]|(x' & b' & E' & Hx' & Hf' & Hlo' & Hw' & Hb')]; [by rewrite Hall in Hfree|].
  assert (x' = x) as ->.
  { destruct (Z.lt_trichotomy x x') as [Hlt|[->|Hlt]]; [|done|].
    - by rewrite Hlo' in Hfree by lia.
    - rewrite Hb in Hf' by lia. destruct (Z.eq_dec x x'); [lia|]. by rewrite Hlo in Hf' by lia. }
  exists (set_pid_bitmap b' k1). split_and!; try done.
  intros y Hy. rewrite Hb', Hb by done. by destruct (Z.eq_dec x y) as [<-|].
Qed.

(** [pid2pcb] finds the thread with the number, and returns NULL when there is none. *)
Lemma pid2pcb_finds k Γ ts x : threads_ok k Γ ts -> lists_ok (km k) Γ ->
  (forall t p, alive k t p -> pid p = x -> pid2pcb x k = Ok (t, k)) /\
  ((forall t p, alive k t p -> pid p <> x) -> pid2pcb x k = Ok (NULL, k)).
Proof.
  intros Hto Hl. rewrite (pid2pcb_ok k Γ ts x Hto Hl).
  destruct (first_thread (fun p => pid p =? x) (pcbs (kth k)) ts) as [t|] eqn:E.
  - destruct (first_thread_some _ _ _ _ E) as (p & l1 & l2 & -> & Ep & Ex & _). apply Z.eqb_eq in Ex.
    assert (Ha : alive k t p).
    { destruct (proj1 (to_pcbs _ _ _ Hto t) ltac:(set_solver)) as (p' & Ha).
      pose proof (proj1 Ha) as E'. rewrite Ep in E'. by injection E' as <-. }
    split; [|intros H; by destruct (H t p)]. intros t' p' Ep' Hx'. cbn. repeat f_equal.
    apply (to_uniq _ _ _ Hto t t' p p'); [done|done|congruence].
  - rewrite first_thread_none in E. split; [|done]. intros t p Ha Hx.
    assert (Ht : t ∈ ts) by (apply (to_pcbs _ _ _ Hto); eauto).
    pose proof (E t p Ht (proj1 Ha)) as Hne. by apply Z.eqb_neq in Hne.
Qed.

(** ** Witnesses *)

(** Three threads, the numbers 1, 2 and 4 taken. *)
Definition demo_pids : kernel := set_pid_bitmap (mk_bitmap 128 (11 :: replicate 127 0)) demo_locked.

Lemma demo_pids_ok : pid_pool_ok demo_pids.
Proof.
  split; try done. split; [vm_compute; split; discriminate|reflexivity|].
  apply Forall_cons. split; [unfold is_byte; lia|]. apply Forall_replicate. unfold is_byte. lia.
Qed.

Lemma demo_pids_lock : lock_idle demo_pids (list_to_map demo_G) demo_lock.
Proof. split; reflexivity. Qed.

Lemma demo_pids_lists : lists_ok (km demo_pids) (list_to_map demo_G).
Proof. exact (sp_lists _ _ _ _ (proj1 demo_locked_ok)). Qed.

Lemma alloc_pid_least_free_witness :
  exists b, alloc_pid demo_lock demo_pids = Ok (Done 3, set_pid_bitmap b demo_pids) /\
    pid_taken (set_pid_bitmap b demo_pids) 3 = true.
Proof.
  destruct (alloc_pid_least_free demo_lock demo_pids (list_to_map demo_G) demo_pids_ok
    demo_pids_lock demo_pids_lists ltac:(discriminate)) as [_ H].
  destruct (H 3) as (b & E & _ & Hb); [lia|reflexivity| |].
  - intros y Hy. assert (y = 1 \/ y = 2) as [-> | ->] by lia; reflexivity.
  - exists b. split; [exact E|]. rewrite Hb by lia. reflexivity.
Defined.

Lemma pid_release_alloc_witness :
  exists k1 k2, release_pid demo_lock 2 demo_pids = Ok (Done tt, k1) /\ pid_taken k1 2 = false /\
    alloc_pid demo_lock k1 = Ok (Done 2, k2) /\
    forall y, 1 <= y <= 1024 -> pid_taken k2 y = pid_taken demo_pids y.
Proof.
  apply (pid_release_alloc demo_lock demo_pids (list_to_map demo_G) 2 demo_pids_ok
    demo_pids_lock demo_pids_lists).
  - discriminate.
  - lia.
  - reflexivity.
  - intros y Hy. assert (y = 1) as -> by lia. reflexivity.
Defined.
