(* ===== verification/Space.v ===== *)
(** * Space: the address spaces of all processes

    Every page directory has the kernel's entries 768 to 1022, which the boot
    loader fills once and for all, and maps itself with entry 1023.  So a page
    of the kernel is mapped alike everywhere, and the page directory of one
    process can be reached from any other.

    [kspace k D O] is the invariant: [D t] is the directory of thread [t], and
    [O] the pages of the kernel that hold PCBs, directories and the like, with
    their frames.  It implies the [dirs_ok] of the scheduler, and is kept by
    [get_kernel_pages], by [mfree_page] of pages of [O] and by stores to
    them. *)

From S2P Require Import Prelude Interrupt Lists Bitmap Kernel Paging Thread Sync IoQueue Memory DataPages.

(** The directory of the kernel. *)
Definition kdir : Z := 0x100000.

Definition with_cr3 (c : Z) (k : kernel) : kernel :=
  set_kc (mk_cpu (cur (kc k)) c (tss_esp0 (kc k))) k.

(** A directory that may be loaded again. *)
Definition dir_live (k : kernel) (D : Z -> Z) (c : Z) : Prop :=
  c = kdir \/ exists t p, pcbs (kth k) !! t = Some p /\ c = D t /\
    status p <> TASK_HANGING /\ status p <> TASK_DIED.

(** Entry [i] of directory [c]. *)
Definition dir_entry (k : kernel) (c i : Z) : Z := word (ram (kmem k)) (c + i * 4).

(** Entry [i] of [c] is that of a page table in use. *)
Definition has_table (k : kernel) (D : Z -> Z) (c i : Z) : Prop :=
  dir_in_use k D c /\ 768 <= i < 1023 \/
  dir_live k D c /\ 0 <= i < 1023 /\ present (dir_entry k c i) = true.

(** [v] is a page the kernel's bitmap of virtual pages is about. *)
Definition in_heap (k : kernel) (v : Z) : Prop :=
  let va := kernel_vaddr (kmem k) in
  exists i, 0 <= i /\ v = vaddr_start va + i * 4096 /\ i + 1 <= 8 * zlen (bits (vaddr_bitmap va)).

Record kspace (k : kernel) (D : Z -> Z) (O : gmap Z Z) : Prop := {
  ks_mem : forall c, dir_live k D c -> mem_ok (with_cr3 c k);
  ks_cr3 : dir_live k D (cr3 (kc k));
  ks_vspace : vspace_ok PF_KERNEL (kernel_vaddr (kmem k)) k;
  ks_base : 0xc0000000 <= vaddr_start (kernel_vaddr (kmem k));
  ks_low : 0x102000 <= phy_addr_start (kernel_pool (kmem k));
  ks_page : forall v q, O !! v = Some q -> in_heap k v /\ walk k v = Some q /\
    in_pool (kernel_pool (kmem k)) q /\ ~ page_free (kernel_pool (kmem k)) q;
  ks_inj : forall v1 v2 q, O !! v1 = Some q -> O !! v2 = Some q -> v1 = v2;
  ks_kernel : forall t p, pcbs (kth k) !! t = Some p -> pg_dir p = NULL -> D t = kdir;
  ks_user : forall t p, pcbs (kth k) !! t = Some p -> pg_dir p <> NULL -> O !! pg_dir p = Some (D t);
  ks_uniq : forall t1 t2 p1 p2, pcbs (kth k) !! t1 = Some p1 -> pcbs (kth k) !! t2 = Some p2 ->
    pg_dir p1 <> NULL -> pg_dir p1 = pg_dir p2 -> t1 = t2;
  ks_self : forall c, dir_in_use k D c -> self_mapped (ram (kmem k)) c;
  ks_share : forall c i, dir_in_use k D c -> 768 <= i < 1023 -> dir_entry k c i = dir_entry k kdir i;
  ks_present : forall i, 768 <= i < 1023 -> present (dir_entry k kdir i) = true;
  ks_tables : forall c i, has_table k D c i ->
    frame (dir_entry k c i) <> kdir /\ forall v q, O !! v = Some q -> frame (dir_entry k c i) <> q }.

(** ** Directories *)

Lemma dir_live_in_use k D c : dir_live k D c -> dir_in_use k D c.
Proof. intros [->|(t & p & Ep & -> & _)]; [by left|]. right. exists t. eauto. Qed.

Lemma kdir_in_use k D : dir_in_use k D kdir.
Proof. by left. Qed.
Lemma kdir_live k D : dir_live k D kdir.
Proof. by left. Qed.

Lemma with_cr3_id k : with_cr3 (cr3 (kc k)) k = k.
Proof. by destruct k as [? [] ? ? ?]. Qed.

Lemma ks_current k D O : kspace k D O -> mem_ok k.
Proof. intros Hk. pose proof (ks_mem _ _ _ Hk _ (ks_cr3 _ _ _ Hk)) as Hm. by rewrite with_cr3_id in Hm. Qed.

(** An address of the kernel below the window of page tables. *)
Definition kernel_addr (v : Z) : Prop := 0xc0000000 <= v < 0xffc00000.

Lemma kernel_addr_PDE v : kernel_addr v -> is_word v /\ 768 <= PDE_IDX v < 1023 /\ heap_addr v.
Proof.
  unfold kernel_addr, heap_addr. intros Hv. assert (is_word v) by (unfold is_word; lia).
  rewrite PDE_IDX_val by done. split; [done|]. split; [zarith|lia].
Qed.

Lemma in_heap_kernel k D O v : kspace k D O -> in_heap k v -> kernel_addr v /\ v mod 4096 = 0.
Proof.
  intros Hk (i & Hi & -> & Hle). destruct (ks_vspace _ _ _ Hk) as (_ & [_ Ha _ He] & _).
  pose proof (ks_base _ _ _ Hk). cbn [space_end] in He. unfold kernel_addr. split; [lia|zarith].
Qed.

(** Pages of the kernel have the same table entry in every directory. *)
Lemma kernel_entry k D O c v : kspace k D O -> dir_in_use k D c -> kernel_addr v ->
  word (ram (kmem k)) (pde_addr c v) = word (ram (kmem k)) (pde_addr kdir v) /\
  present (word (ram (kmem k)) (pde_addr c v)) = true /\
  pte_addr (ram (kmem k)) c v = pte_addr (ram (kmem k)) kdir v.
Proof.
  intros Hk Hc Hv. destruct (kernel_addr_PDE v Hv) as (_ & Hi & _).
  pose proof (ks_share _ _ _ Hk c _ Hc Hi) as Hs. pose proof (ks_present _ _ _ Hk _ Hi) as Hp.
  unfold dir_entry in Hs, Hp. unfold pte_addr, pde_addr. rewrite Hs. done.
Qed.

Lemma kernel_walk k D O c v : kspace k D O -> dir_in_use k D c -> kernel_addr v ->
  translate (ram (kmem k)) c v = walk k v.
Proof.
  intros Hk Hc Hv. destruct (kernel_entry k D O c v Hk Hc Hv) as (E1 & _ & E2).
  destruct (kernel_entry k D O _ v Hk (dir_live_in_use _ _ _ (ks_cr3 _ _ _ Hk)) Hv) as (E3 & _ & E4).
  unfold walk, translate. by rewrite E1, E2, E3, E4.
Qed.

Lemma kspace_dirs k D O : kspace k D O -> dirs_ok k D.
Proof.
  intros Hk. split.
  - apply (ks_kernel _ _ _ Hk).
  - intros c t p Hc Ep Hn. pose proof (ks_user _ _ _ Hk t p Ep Hn) as HO.
    destruct (ks_page _ _ _ Hk _ _ HO) as (Hin & Hw & (j & Hj & Eq) & _).
    destruct (in_heap_kernel _ _ _ _ Hk Hin) as [Hka Hal].
    destruct (kernel_entry k D O c _ Hk Hc Hka) as (_ & Hp & Ept).
    destruct (kernel_addr_PDE _ Hka) as (Hvw & _ & _). unfold vir2phy.
    rewrite (translate_pte_ptr _ _ _ (ks_self _ _ _ Hk c Hc) Hvw Hp).
    rewrite <- (kernel_walk k D O c _ Hk Hc Hka) in Hw. unfold translate in Hw. rewrite Hp in Hw.
    destruct (present (word _ (pte_addr _ c _))); [|done]. injection Hw as Hw.
    rewrite offset_val, Hal, Z.add_0_r in *. unfold frame in Hw. rewrite Hw.
    destruct (mo_pools _ (ks_current _ _ _ Hk)) as [Pk _ _].
    destruct (page_at_word _ j Pk Hj) as (Hqw & _). rewrite <- Eq in Hqw.
    f_equal. by apply u32_small.
  - apply dir_live_in_use, (ks_cr3 _ _ _ Hk).
Qed.

(** A page of [O] that is not the directory in use is not a page table. *)
Lemma owned_no_table k D O v q c : kspace k D O -> O !! v = Some q -> dir_live k D c -> q <> c ->
  ~ table_frame (with_cr3 c k) q.
Proof.
  intros Hk HO Hc Hne (w & Hw & Hp & Hf). cbn [with_cr3 set_kc kmem kc cr3] in Hp, Hf.
  unfold pde_addr in *. pose proof (PDE_IDX_range w Hw) as Hi.
  destruct (decide (PDE_IDX w = 1023)) as [E|N].
  - rewrite E in Hf. destruct (ks_self _ _ _ Hk c (dir_live_in_use _ _ _ Hc)) as (_ & _ & _ & Hs).
    change (c + 1023 * 4) with (c + 4092) in Hf. congruence.
  - destruct (ks_tables _ _ _ Hk c (PDE_IDX w)) as [_ H]; [right; split; [done|split; [lia|done]]|].
    by apply (H v q HO).
Qed.

(** A frame of a pool is not the kernel's directory. *)
Lemma pool_not_kdir k D O q : kspace k D O -> in_pool (kernel_pool (kmem k)) q -> q <> kdir.
Proof.
  intros Hk (i & Hi & ->). pose proof (ks_low _ _ _ Hk). unfold page_at, in_bits, kdir in *. lia.
Qed.

(** ** Changes *)

(** The invariant of memory for a directory whose entries do not change. *)
Lemma mem_ok_transfer c k k' : mem_ok (with_cr3 c k) -> words_ok (ram (kmem k')) -> pools_ok (kmem k') ->
  (forall i, 0 <= i < 1024 -> dir_entry k' c i = dir_entry k c i) ->
  (forall pf x, page_free (pool_of pf (kmem k')) x ->
     page_free (pool_of pf (kmem k)) x \/ ~ table_frame (with_cr3 c k) x) ->
  mem_ok (with_cr3 c k').
Proof.
  intros [[Hw Hs Hd Hp Hc Ht Hinj] Hps Hus] Hw' Hps' Hdir Hfree.
  assert (Hpde : forall w, is_word w -> word (ram (kmem k')) (pde_addr c w) = word (ram (kmem k)) (pde_addr c w))
    by (intros w Hwd; apply Hdir, PDE_IDX_range, Hwd).
  cbn [with_cr3 set_kc kmem kc cr3] in *.
  assert (Htf : forall q, table_frame (with_cr3 c k') q -> table_frame (with_cr3 c k) q).
  { intros q (w & Hwd & Hpr & Hf). cbn [with_cr3 set_kc kmem kc cr3] in *. rewrite Hpde in * by done.
    by exists w. }
  assert (Hct : table_frame (with_cr3 c k) c) by (apply (table_frame_cr3 (with_cr3 c k)); by split).
  assert (Hnf : forall pf x, table_frame (with_cr3 c k) x -> ~ page_free (pool_of pf (kmem k)) x ->
    ~ page_free (pool_of pf (kmem k')) x).
  { intros pf x Hx Hn Hf. destruct (Hfree pf x Hf) as [|]; done. }
  split; [split|done|]; cbn [with_cr3 set_kc kmem kc cr3].
  - done.
  - apply (self_mapped_word (ram (kmem k))); [done|]. by apply (Hdir 1023).
  - intros w Hwd. rewrite Hpde by done. by apply Hd.
  - apply Hps'.
  - by apply (Hnf PF_KERNEL).
  - intros w Hwd Hpr. rewrite Hpde in * by done. apply (Hnf PF_KERNEL); [|by apply Ht].
    exists w. done.
  - intros w1 w2 H1 H2. rewrite !Hpde by done. by apply Hinj.
  - intros q Hq. apply Htf in Hq. by apply (Hnf PF_USER), Hus.
Qed.

(** Threads that only change otherwise, and threads that disappear. *)
Definition threads_less (k k' : kernel) : Prop :=
  forall t p', pcbs (kth k') !! t = Some p' ->
    exists p, pcbs (kth k) !! t = Some p /\ pg_dir p' = pg_dir p /\
      (status p' <> TASK_HANGING /\ status p' <> TASK_DIED ->
       status p <> TASK_HANGING /\ status p <> TASK_DIED).

Lemma threads_less_refl k : threads_less k k.
Proof. intros t p Ep. by exists p. Qed.

Lemma less_in_use k k' D c : threads_less k k' -> dir_in_use k' D c -> dir_in_use k D c.
Proof.
  intros Hl [->|(t & [p Ep] & ->)]; [by left|]. right. destruct (Hl t p Ep) as (q & Eq & _). eauto.
Qed.

Lemma less_live k k' D c : threads_less k k' -> dir_live k' D c -> dir_live k D c.
Proof.
  intros Hl [->|(t & p & Ep & -> & Hs)]; [by left|]. right. destruct (Hl t p Ep) as (q & Eq & _ & Hq).
  exists t, q. by destruct (Hq Hs).
Qed.

(** A step of the kernel that leaves the directories in use as they are, takes
    pages that were free and frees pages of [O] that no thread needs. *)
Record kstep (k k' : kernel) (D : Z -> Z) (O O' : gmap Z Z) : Prop := {
  kt_threads : threads_less k k';
  kt_cr3 : cr3 (kc k') = cr3 (kc k);
  kt_live : dir_live k' D (cr3 (kc k));
  kt_words : words_ok (ram (kmem k'));
  kt_pools : pools_ok (kmem k');
  kt_dirs : forall c i, dir_in_use k' D c -> 0 <= i < 1024 -> dir_entry k' c i = dir_entry k c i;
  kt_free : forall pf x, page_free (pool_of pf (kmem k')) x -> page_free (pool_of pf (kmem k)) x \/
    exists v, O !! v = Some x /\ ~ dir_in_use k' D x;
  kt_start : phy_addr_start (kernel_pool (kmem k')) = phy_addr_start (kernel_pool (kmem k));
  kt_vspace : vspace_ok PF_KERNEL (kernel_vaddr (kmem k')) k';
  kt_base : vaddr_start (kernel_vaddr (kmem k')) = vaddr_start (kernel_vaddr (kmem k));
  kt_page : forall v q, O' !! v = Some q -> (O !! v = Some q \/ page_free (kernel_pool (kmem k)) q) /\
    in_heap k' v /\ walk k' v = Some q /\ in_pool (kernel_pool (kmem k')) q /\
    ~ page_free (kernel_pool (kmem k')) q;
  kt_inj : forall v1 v2 q, O' !! v1 = Some q -> O' !! v2 = Some q -> v1 = v2;
  kt_user : forall t p, pcbs (kth k') !! t = Some p -> pg_dir p <> NULL -> O' !! pg_dir p = O !! pg_dir p }.

Lemma kspace_step k k' D O O' : kspace k D O -> kstep k k' D O O' -> kspace k' D O'.
Proof.
  intros Hk [S1 S2 S3 S4 S5 S6 S7 S8 S9 S10 S11 S12 S13].
  pose proof (fun c => less_in_use k k' D c S1) as Hin. pose proof (fun c => less_live k k' D c S1) as Hli.
  assert (Hmem : forall c, dir_live k' D c -> mem_ok (with_cr3 c k')).
  { intros c Hc. pose proof (dir_live_in_use _ _ _ Hc) as Hcu.
    apply (mem_ok_transfer c k); [by apply (ks_mem _ _ _ Hk), Hli|done|done|by intros; apply S6|].
    intros pf x Hx. destruct (S7 pf x Hx) as [|(v & HO & Hn)]; [by left|right].
    apply (owned_no_table k D O v x c Hk HO (Hli c Hc)). intros ->. done. }
  split; try done.
  - by rewrite S2.
  - rewrite S10. apply (ks_base _ _ _ Hk).
  - rewrite S8. apply (ks_low _ _ _ Hk).
  - intros v q HO. by destruct (S11 v q HO) as (_ & H).
  - intros t p Ep Hn. destruct (S1 t p Ep) as (p0 & E0 & Eg & _). apply (ks_kernel _ _ _ Hk t p0 E0). congruence.
  - intros t p Ep Hn. rewrite (S13 t p Ep Hn). destruct (S1 t p Ep) as (p0 & E0 & Eg & _).
    rewrite Eg in *. by apply (ks_user _ _ _ Hk).
  - intros t1 t2 p1 p2 E1 E2 Hn Eg. destruct (S1 t1 p1 E1) as (q1 & F1 & G1 & _).
    destruct (S1 t2 p2 E2) as (q2 & F2 & G2 & _). apply (ks_uniq _ _ _ Hk t1 t2 q1 q2); congruence.
  - intros c Hc. apply (self_mapped_word (ram (kmem k))); [by apply (ks_self _ _ _ Hk), Hin|].
    by apply (S6 c 1023).
  - intros c i Hc Hi. rewrite !S6 by (done || lia || apply kdir_in_use). apply (ks_share _ _ _ Hk); [by apply Hin|done].
  - intros i Hi. rewrite S6 by (apply kdir_in_use || lia). by apply (ks_present _ _ _ Hk).
  - intros c i Ht.
    assert (Hu : dir_in_use k' D c /\ 0 <= i < 1024).
    { destruct Ht as [[H ?]|[H [? _]]]; [|apply dir_live_in_use in H]; split; [done|lia|done|lia]. }
    destruct Hu as [Hu Hi]. rewrite (S6 c i Hu Hi) in *.
    assert (Ht0 : has_table k D c i).
    { destruct Ht as [[H H']|(H & H' & H'')]; [left; split; [by apply Hin|done]|right].
      rewrite (S6 c i Hu Hi) in H''. split; [by apply Hli|done]. }
    destruct (ks_tables _ _ _ Hk c i Ht0) as [H1 H2]. split; [done|]. intros v q HO E.
    destruct (S11 v q HO) as ([HO'|Hf] & _); [by apply (H2 v q)|].
    (* a page that was free is no table *)
    assert (Hlive : exists c', dir_live k D c' /\ dir_entry k c' i = dir_entry k c i /\ present (dir_entry k c i) = true).
    { destruct Ht0 as [[Hc Hr]|(Hc & _ & Hp)]; [|by exists c].
      exists kdir. rewrite (ks_share _ _ _ Hk c i Hc Hr). split; [apply kdir_live|]. split; [done|].
      by apply (ks_present _ _ _ Hk). }
    destruct Hlive as (c' & Hl & Ee & Hp). pose proof (mo_paging _ (ks_mem _ _ _ Hk c' Hl)) as Hpg.
    assert (Hw : is_word (i * 4194304)) by (unfold is_word; lia).
    assert (Hpi : PDE_IDX (i * 4194304) = i) by (rewrite PDE_IDX_val by done; zarith).
    apply (po_tables _ Hpg (i * 4194304) Hw); cbn [with_cr3 set_kc kmem kc cr3]; unfold pde_addr; rewrite Hpi;
      change (word (ram (kmem k)) (c' + i * 4)) with (dir_entry k c' i); rewrite Ee; [done|].
    by rewrite E.
Qed.
(** *** Runs of pages *)

(** The pages from [v] on, with their frames. *)
Fixpoint own (v : Z) (qs : list Z) (O : gmap Z Z) : gmap Z Z :=
  match qs with
  | [] => O
  | q :: qs' => <[v := q]> (own (v + 4096) qs' O)
  end.

(** [w] is the page of [v] that is number [i] of the run. *)
Definition in_run (v : Z) (qs : list Z) (w : Z) : Prop :=
  exists i, (i < length qs)%nat /\ w = v + Z.of_nat i * 4096.

Lemma in_run_cons v q qs w : in_run v (q :: qs) w <-> w = v \/ in_run (v + 4096) qs w.
Proof.
  unfold in_run. cbn [length]. split.
  - intros ([|i] & Hi & ->); [left; lia|right]. exists i. lia.
  - intros [->|(i & Hi & ->)]; [exists 0%nat; lia|]. exists (S i). lia.
Qed.

Lemma own_in v qs O : forall i q, qs !! i = Some q -> own v qs O !! (v + Z.of_nat i * 4096) = Some q.
Proof.
  revert v. induction qs as [|q0 qs IH]; intros v i q; [done|]. destruct i as [|i]; cbn [own lookup list_lookup].
  - intros [= ->]. rewrite Z.mul_0_l, Z.add_0_r. apply lookup_insert_eq.
  - intros Hq. rewrite lookup_insert_ne by lia.
    replace (v + Z.of_nat (S i) * 4096) with (v + 4096 + Z.of_nat i * 4096) by lia. by apply IH.
Qed.

Lemma own_out qs O w : forall v, ~ in_run v qs w -> own v qs O !! w = O !! w.
Proof.
  induction qs as [|q qs IH]; intros v Hw; [done|]. rewrite in_run_cons in Hw. cbn [own].
  rewrite lookup_insert_ne by (intros ->; tauto). apply IH. tauto.
Qed.

#[export] Instance in_run_dec v qs w : Decision (in_run v qs w).
Proof.
  destruct (decide (0 <= (w - v) / 4096 /\ (Z.to_nat ((w - v) / 4096) < length qs)%nat /\ (w - v) mod 4096 = 0)) as [H|H].
  - left. exists (Z.to_nat ((w - v) / 4096)). zarith.
  - right. intros (i & Hi & ->). apply H. zarith.
Defined.

Lemma own_inv v qs O w q : own v qs O !! w = Some q ->
  (exists i, qs !! i = Some q /\ w = v + Z.of_nat i * 4096) \/ ~ in_run v qs w /\ O !! w = Some q.
Proof.
  destruct (decide (in_run v qs w)) as [(i & Hi & ->)|N].
  - intros H. left. destruct (lookup_lt_is_Some_2 qs i Hi) as [q' Hq]. rewrite (own_in v qs O i q' Hq) in H.
    exists i. split; [congruence|done].
  - rewrite own_out by done. auto.
Qed.

(** The directory of the kernel and the owned pages hold no table, and no
    entry of a kernel table. *)
Definition known_page (O : gmap Z Z) (c : Z) : Prop := c = kdir \/ exists v, O !! v = Some c.

Lemma dir_owned k D O c : kspace k D O -> dir_in_use k D c -> known_page O c.
Proof.
  intros Hk [->|(t & [p Ep] & ->)]; [by left|]. destruct (decide (pg_dir p = NULL)) as [E|N].
  - left. by apply (ks_kernel _ _ _ Hk t p).
  - right. exists (pg_dir p). by apply (ks_user _ _ _ Hk).
Qed.

Lemma owned_aligned k D O v q : kspace k D O -> O !! v = Some q -> is_word q /\ q mod 4096 = 0.
Proof.
  intros Hk HO. destruct (ks_page _ _ _ Hk v q HO) as (_ & _ & (j & Hj & ->) & _).
  destruct (page_at_word _ j (ps_kernel _ (mo_pools _ (ks_current _ _ _ Hk))) Hj) as (H1 & H2 & _). done.
Qed.

Lemma known_aligned k D O c : kspace k D O -> known_page O c -> c mod 4096 = 0.
Proof. intros Hk [->|(v & HO)]; [done|]. by apply (owned_aligned k D O v). Qed.

Lemma dir_aligned k D O c : kspace k D O -> dir_in_use k D c -> c mod 4096 = 0.
Proof. intros Hk Hc. by apply (known_aligned k D O), (dir_owned k D O). Qed.

(** A word of such a page is not the table entry of a kernel address. *)
Lemma known_not_entry k D O c i v : kspace k D O -> known_page O c -> 0 <= i < 1024 -> kernel_addr v ->
  c + i * 4 <> entry_addr k v.
Proof.
  intros Hk Hc Hi Hv. destruct (kernel_addr_PDE v Hv) as (Hw & Hp & _).
  pose proof (dir_live_in_use _ _ _ (ks_cr3 _ _ _ Hk)) as Hu.
  assert (Ht : frame (dir_entry k (cr3 (kc k)) (PDE_IDX v)) <> c).
  { destruct (ks_tables _ _ _ Hk (cr3 (kc k)) (PDE_IDX v)) as [H1 H2]; [by left|].
    destruct Hc as [->|(w & HO)]; [done|]. by apply (H2 w). }
  unfold entry_addr, pte_addr, pde_addr. fold (dir_entry k (cr3 (kc k)) (PDE_IDX v)).
  pose proof (PTE_IDX_range v Hw). intros E.
  refine (frames_apart c (frame (dir_entry k (cr3 (kc k)) (PDE_IDX v))) i (PTE_IDX v) _ _ _ _ _ E); try lia.
  - by apply (known_aligned k D O).
  - apply frame_aligned, word_ok, (po_words _ (mo_paging _ (ks_current _ _ _ Hk))).
Qed.

Lemma dir_not_entry k D O c i v : kspace k D O -> dir_in_use k D c -> 0 <= i < 1024 -> kernel_addr v ->
  c + i * 4 <> entry_addr k v.
Proof. intros Hk Hc. by apply (known_not_entry k D O), (dir_owned k D O). Qed.

Lemma known_not_free k D O c : kspace k D O -> known_page O c -> ~ page_free (kernel_pool (kmem k)) c.
Proof.
  intros Hk [->|(w & HO)]; [|by apply (ks_page _ _ _ Hk w)].
  intros (i & Hi & E & _). by apply (pool_not_kdir k D O kdir Hk); [exists i|].
Qed.

Lemma dir_not_free k D O c : kspace k D O -> dir_in_use k D c -> ~ page_free (kernel_pool (kmem k)) c.
Proof. intros Hk Hc. by apply (known_not_free k D O), (dir_owned k D O). Qed.

(** The tables of the kernel exist. *)
Lemma kernel_tables k D O v n : kspace k D O -> (forall i, (i < n)%nat -> kernel_addr (v + Z.of_nat i * 4096)) ->
  tables_present k v n.
Proof.
  intros Hk Hv i Hi. pose proof (dir_live_in_use _ _ _ (ks_cr3 _ _ _ Hk)) as Hu.
  by destruct (kernel_entry k D O _ _ Hk Hu (Hv i Hi)) as (_ & H & _).
Qed.

(** *** Pages taken *)

(** The pages of a run of the kernel's space. *)
Lemma run_kernel_addr k v (qs : list Z) i0 : vspace_wf PF_KERNEL (kernel_vaddr (kmem k)) ->
  0xc0000000 <= vaddr_start (kernel_vaddr (kmem k)) -> 0 <= i0 ->
  v = vaddr_start (kernel_vaddr (kmem k)) + i0 * 4096 ->
  i0 + zlen qs <= 8 * zlen (bits (vaddr_bitmap (kernel_vaddr (kmem k)))) ->
  forall i, (i < length qs)%nat -> kernel_addr (v + Z.of_nat i * 4096).
Proof.
  intros [_ _ _ He] Hb Hi -> Hle i Hil. cbn [space_end] in He. unfold kernel_addr, zlen in *. lia.
Qed.

(** What remains true of [get_kernel_pages]: the pages are owned. *)
Lemma kspace_alloc k k' D O va' v cnt qs r : kspace k D O ->
  allocated PF_KERNEL k k' (kernel_vaddr (kmem k)) va' v cnt qs -> data_written k' r ->
  (forall a, (forall q, q ∈ qs -> ~ (q <= a < q + 4096)) -> word r a = word (ram (kmem k')) a) ->
  kspace (set_ram r k') D (own v qs O).
Proof.
  intros Hk Hal Hdw Hout. set (va := kernel_vaddr (kmem k)) in *.
  destruct (ks_vspace _ _ _ Hk) as (_ & Hwf & _). fold va in Hwf.
  destruct (al_index _ _ _ _ _ _ _ _ Hal) as (i0 & Hi0 & Ev & Hle).
  pose proof (al_count _ _ _ _ _ _ _ _ Hal) as Hcnt. rewrite <- Hcnt in Hle.
  pose proof (run_kernel_addr k v qs i0 Hwf (ks_base _ _ _ Hk) Hi0 Ev Hle) as Hrun.
  destruct (al_rest _ _ _ _ _ _ _ _ Hal) as (_ & Ekc & Ekth & _ & Eva).
  cbn [with_vspace set_kernel_vaddr set_kmem kc kth kmem kernel_vaddr] in Ekc, Ekth, Eva.
  destruct (al_shape _ _ _ _ _ _ _ _ Hal PF_KERNEL) as [Est Epool]. cbn [pool_of] in Est, Epool.
  assert (Hnew : forall i q, qs !! i = Some q -> page_free (kernel_pool (kmem k)) q).
  { intros i q Hq. by destruct (al_frames _ _ _ _ _ _ _ _ Hal i q Hq) as (_ & _ & Hf & _). }
  assert (Hnr : forall w q, O !! w = Some q -> ~ in_run v qs w).
  { intros w q HO (i & Hi & ->). destruct (lookup_lt_is_Some_2 qs i Hi) as [q' Hq'].
    destruct (al_frames _ _ _ _ _ _ _ _ Hal i q' Hq') as (Hn & _).
    destruct (ks_page _ _ _ Hk _ _ HO) as (_ & Hw & _). congruence. }
  assert (Hheap : forall w, in_heap k w -> in_heap (set_ram r k') w).
  { intros w (i & Hi & -> & Hl). exists i. cbn [set_ram set_kmem kmem kernel_vaddr]. rewrite Eva.
    rewrite (al_start _ _ _ _ _ _ _ _ Hal). pose proof (al_len _ _ _ _ _ _ _ _ Hal). fold va in Hl. fold va. lia. }
  assert (Hpfree : forall q, page_free (kernel_pool (kmem k)) q -> in_pool (kernel_pool (kmem k')) q).
  { intros q (j & Hj & -> & _). apply Epool. by exists j. }
  pose proof (dw_ok _ _ Hdw) as Hok.
  apply (kspace_step k _ D O); [done|]. split.
  - intros t p. cbn [set_ram set_kmem kth]. rewrite Ekth. intros Ep. by exists p.
  - cbn [set_ram set_kmem kc]. by rewrite Ekc.
  - destruct (ks_cr3 _ _ _ Hk) as [E|(t & p & H)]; [by left|right; exists t, p].
    cbn [set_ram set_kmem kth]. by rewrite Ekth.
  - exact (po_words _ (mo_paging _ Hok)).
  - exact (mo_pools _ Hok).
  - intros c i Hc Hi. assert (Hc' : dir_in_use k D c).
    { destruct Hc as [->|(t & Ht & ->)]; [by left|]. right. exists t. cbn [set_ram set_kmem kth] in Ht.
      by rewrite Ekth in Ht. }
    pose proof (dir_aligned _ _ _ _ Hk Hc') as Ha. pose proof (dir_not_free _ _ _ _ Hk Hc') as Hnf.
    unfold dir_entry. cbn [set_ram set_kmem kmem ram]. rewrite Hout.
    + apply (al_words _ _ _ _ _ _ _ _ Hal); [by apply (kernel_tables k D O)|].
      intros j Hj. apply (dir_not_entry k D O); [done|done|done|by apply Hrun].
    + intros q Hq Hin. apply list_elem_of_lookup in Hq as [j Hq]. pose proof (Hnew j q Hq) as Hf.
      assert (q mod 4096 = 0) by (destruct Hf as (l & Hl & -> & _);
        by apply (page_at_word _ l (ps_kernel _ (mo_pools _ (ks_current _ _ _ Hk))) Hl)).
      assert (q = c) as -> by zarith. done.
  - intros pf x Hx. left. destruct pf; apply (al_account _ _ _ _ _ _ _ _ Hal); exact Hx.
  - exact Est.
  - destruct (al_space _ _ _ _ _ _ _ _ Hal) as (H1 & H2 & H3). cbn [vspace] in H1.
    cbn [set_ram set_kmem kmem kernel_vaddr]. rewrite Eva in *. split; [cbn; by rewrite Eva|]. split; [done|].
    intros j Hj Hb. rewrite (dw_walk _ _ Hdw); [by apply H3|].
    destruct H2 as [_ H2a H2b H2c]. unfold is_word, in_bits in *. cbn [space_end] in H2c. lia.
  - cbn [set_ram set_kmem kmem kernel_vaddr]. rewrite Eva. apply (al_start _ _ _ _ _ _ _ _ Hal).
  - intros w q Hw. apply own_inv in Hw as [(i & Hq & ->)|[Hn HO]].
    + destruct (al_frames _ _ _ _ _ _ _ _ Hal i q Hq) as (_ & Hwk & Hf & Hnf & _).
      split; [by right|]. split; [|split; [|split; [|exact Hnf]]].
      * apply Hheap. exists (i0 + Z.of_nat i). apply lookup_lt_Some in Hq. unfold zlen in *. fold va. lia.
      * rewrite (dw_walk _ _ Hdw); [done|]. apply lookup_lt_Some, Hrun in Hq. unfold kernel_addr, is_word in *. lia.
      * by apply Hpfree.
    + destruct (ks_page _ _ _ Hk _ _ HO) as (Hih & Hwk & Hip & Hnf).
      destruct (in_heap_kernel _ _ _ _ Hk Hih) as [Hka Hal4].
      split; [by left|]. split; [by apply Hheap|]. split; [|split; [by apply Epool|]].
      * rewrite (dw_walk _ _ Hdw) by (unfold kernel_addr, is_word in *; lia).
        rewrite (al_others _ _ _ _ _ _ _ _ Hal); [done|unfold kernel_addr, heap_addr in *; lia|].
        intros Hr. apply Hn. exists (Z.to_nat ((w - v) / 4096)). destruct Hwf as [_ Hva _ _]. unfold zlen in *.
        fold va in Ev. zarith.
      * intros Hf. by apply Hnf, (al_account _ _ _ _ _ _ _ _ Hal PF_KERNEL).
  - assert (Hold : forall w q i, O !! w = Some q -> qs !! i = Some q -> False).
    { intros w q i HO Hq. destruct (ks_page _ _ _ Hk _ _ HO) as (_ & _ & _ & Hnf). by apply Hnf, (Hnew i). }
    intros v1 v2 q H1 H2. apply own_inv in H1 as [(i1 & Q1 & ->)|[N1 O1]]; apply own_inv in H2 as [(i2 & Q2 & ->)|[N2 O2]].
    + assert (i1 = i2) as ->; [|done]. eapply NoDup_lookup; [exact (al_distinct _ _ _ _ _ _ _ _ Hal)|done|done].
    + by destruct (Hold v2 q i1).
    + by destruct (Hold v1 q i2).
    + by apply (ks_inj _ _ _ Hk v1 v2 q).
  - intros t p. cbn [set_ram set_kmem kth]. rewrite Ekth. intros Ep Hn. apply own_out.
    by apply (Hnr _ (D t)), (ks_user _ _ _ Hk t p).
Qed.

(** *** Pages given back *)

Fixpoint disown (v : Z) (n : nat) (O : gmap Z Z) : gmap Z Z :=
  match n with
  | O%nat => O
  | S n' => delete v (disown (v + 4096) n' O)
  end.

Lemma disown_lookup n O w : forall v, (exists i, (i < n)%nat /\ w = v + Z.of_nat i * 4096) /\ disown v n O !! w = None \/
  ~ (exists i, (i < n)%nat /\ w = v + Z.of_nat i * 4096) /\ disown v n O !! w = O !! w.
Proof.
  induction n as [|n IH]; intros v; cbn [disown].
  { right. split; [|done]. intros (i & Hi & _). lia. }
  destruct (decide (w = v)) as [->|N].
  { left. split; [exists 0%nat; lia|apply lookup_delete_eq]. }
  rewrite lookup_delete_ne by done. destruct (IH (v + 4096)) as [[(i & Hi & E) H]|[Hn H]].
  - left. split; [exists (S i); lia|done].
  - right. split; [|done]. intros ([|i] & Hi & E); [lia|]. apply Hn. exists i. lia.
Qed.

(** The run [qs] from [v] on, of pages that no thread uses as its directory. *)
Record owned_run (k : kernel) (D : Z -> Z) (O : gmap Z Z) (v : Z) (qs : list Z) : Prop := {
  or_pages : forall i q, qs !! i = Some q -> O !! (v + Z.of_nat i * 4096) = Some q /\ ~ dir_in_use k D q;
  or_index : exists i, 0 <= i /\ v = vaddr_start (kernel_vaddr (kmem k)) + i * 4096 /\
    i + zlen qs <= 8 * zlen (bits (vaddr_bitmap (kernel_vaddr (kmem k)))) }.

Lemma owned_mapped k D O v qs : kspace k D O -> owned_run k D O v qs -> run_mapped PF_KERNEL k v qs.
Proof.
  intros Hk [Hp _] i q Hq. destruct (Hp i q Hq) as [HO Hn]. destruct (ks_page _ _ _ Hk _ _ HO) as (_ & Hw & Hi & _).
  split; [done|]. split; [done|].
  pose proof (owned_no_table k D O _ q (cr3 (kc k)) Hk HO (ks_cr3 _ _ _ Hk)) as Hnt. rewrite with_cr3_id in Hnt.
  apply Hnt. intros ->. apply Hn, dir_live_in_use, (ks_cr3 _ _ _ Hk).
Qed.

Lemma kspace_free k k' D O va' v qs : kspace k D O -> owned_run k D O v qs ->
  released PF_KERNEL k k' (kernel_vaddr (kmem k)) va' v qs -> kspace k' D (disown v (length qs) O).
Proof.
  intros Hk Hor Hre. set (va := kernel_vaddr (kmem k)) in *.
  destruct (ks_vspace _ _ _ Hk) as (_ & Hwf & _). fold va in Hwf.
  destruct Hor as [Hpg (i0 & Hi0 & Ev & Hle)]. fold va in Ev, Hle.
  pose proof (run_kernel_addr k v qs i0 Hwf (ks_base _ _ _ Hk) Hi0 Ev Hle) as Hrun.
  destruct (re_rest _ _ _ _ _ _ _ Hre) as (_ & Ekc & Ekth & _ & Eva).
  cbn [with_vspace set_kernel_vaddr set_kmem kc kth kmem kernel_vaddr] in Ekc, Ekth, Eva.
  destruct (re_shape _ _ _ _ _ _ _ Hre PF_KERNEL) as [Est Epool]. cbn [pool_of] in Est, Epool.
  assert (Hdis : forall w q, disown v (length qs) O !! w = Some q ->
    O !! w = Some q /\ ~ (exists i, (i < length qs)%nat /\ w = v + Z.of_nat i * 4096)).
  { intros w q Hw. destruct (disown_lookup (length qs) O w v) as [[_ E]|[N E]]; rewrite E in Hw; done. }
  assert (Hin : forall c, dir_in_use k' D c <-> dir_in_use k D c)
    by (intros c; unfold dir_in_use; by rewrite Ekth).
  pose proof (re_ok _ _ _ _ _ _ _ Hre) as Hok.
  apply (kspace_step k _ D O); [done|]. split.
  - intros t p. rewrite Ekth. intros Ep. by exists p.
  - by rewrite Ekc.
  - destruct (ks_cr3 _ _ _ Hk) as [E|(t & p & H)]; [by left|right; exists t, p]. by rewrite Ekth.
  - exact (po_words _ (mo_paging _ Hok)).
  - exact (mo_pools _ Hok).
  - intros c i Hc Hi. apply Hin in Hc. apply (re_words _ _ _ _ _ _ _ Hre).
    intros j Hj. apply (dir_not_entry k D O); [done|done|done|by apply Hrun].
  - intros pf x Hx. destruct pf.
    + apply (re_free _ _ _ _ _ _ _ Hre) in Hx as [Hx|Hx]; [by left|right].
      apply list_elem_of_lookup in Hx as [j Hq]. destruct (Hpg j x Hq) as [HO Hn].
      exists (v + Z.of_nat j * 4096). by rewrite Hin.
    + left. by rewrite (re_other _ _ _ _ _ _ _ Hre PF_USER) in Hx.
  - exact Est.
  - destruct (re_space _ _ _ _ _ _ _ Hre) as (H1 & H2 & H3). cbn [vspace] in H1. injection H1 as H1. rewrite H1. split; [cbn; by rewrite H1|by split].
  - rewrite Eva. apply (re_start _ _ _ _ _ _ _ Hre).
  - intros w q Hw. destruct (Hdis w q Hw) as [HO Hn].
    destruct (ks_page _ _ _ Hk _ _ HO) as (Hih & Hwk & Hip & Hnf).
    destruct (in_heap_kernel _ _ _ _ Hk Hih) as [Hka Hal4].
    split; [by left|]. split; [|split; [|split; [by apply Epool|]]].
    + destruct Hih as (i & Hi & -> & Hl). exists i. rewrite Eva, (re_start _ _ _ _ _ _ _ Hre), (re_len _ _ _ _ _ _ _ Hre). done.
    + rewrite (re_others _ _ _ _ _ _ _ Hre); [done|unfold kernel_addr, heap_addr in *; lia|].
      intros Hr. apply Hn. exists (Z.to_nat ((w - v) / 4096)). destruct Hwf as [_ Hva _ _]. unfold zlen in *. zarith.
    + intros Hf. apply (re_free _ _ _ _ _ _ _ Hre) in Hf as [Hf|Hf]; [done|].
      apply list_elem_of_lookup in Hf as [j Hq]. destruct (Hpg j q Hq) as [HO' _].
      apply Hn. exists j. split; [by eapply lookup_lt_Some|]. by apply (ks_inj _ _ _ Hk _ _ q).
  - intros v1 v2 q H1 H2. apply Hdis in H1 as [H1 _]. apply Hdis in H2 as [H2 _]. by apply (ks_inj _ _ _ Hk v1 v2 q).
  - intros t p. rewrite Ekth. intros Ep Hn. destruct (disown_lookup (length qs) O (pg_dir p) v) as [[(j & Hj & E) _]|[_ E]]; [|done].
    exfalso. destruct (lookup_lt_is_Some_2 qs j Hj) as [q Hq]. destruct (Hpg j q Hq) as [HO Hnu].
    rewrite <- E, (ks_user _ _ _ Hk t p Ep Hn) in HO. injection HO as <-. apply Hnu. right. eauto.
Qed.

(** [mfree_page] of owned pages. *)
Lemma mfree_owned k D O v qs : kspace k D O -> owned_run k D O v qs -> 1 <= zlen qs ->
  exists k' va', mfree_page PF_KERNEL v (zlen qs) k = Ok (tt, k') /\
    released PF_KERNEL k k' (kernel_vaddr (kmem k)) va' v qs /\ kspace k' D (disown v (length qs) O).
Proof.
  intros Hk Hor Hn. pose proof Hor as [_ (i & Hi & Ev & Hle)].
  destruct (mfree_page_ok PF_KERNEL (kernel_vaddr (kmem k)) k v qs i) as (k' & b & E & Hre); try done.
  - exact (ks_current _ _ _ Hk).
  - exact (ks_vspace _ _ _ Hk).
  - exact (ks_low _ _ _ Hk).
  - by apply (owned_mapped k D O).
  - exists k'. eexists. split; [exact E|]. split; [exact Hre|]. by eapply kspace_free.
Qed.

(** *** Changes that leave the pages alone *)

(** Threads change, memory does not. *)
Lemma kspace_threads k k' D O : kspace k D O -> kmem k' = kmem k -> cr3 (kc k') = cr3 (kc k) ->
  threads_less k k' -> dir_live k' D (cr3 (kc k)) -> kspace k' D O.
Proof.
  intros Hk Em Ec Hl Hc. pose proof (ks_current _ _ _ Hk) as Hok.
  assert (Hw : forall v, walk k' v = walk k v) by (intros v; unfold walk; by rewrite Em, Ec).
  apply (kspace_step k _ D O); [done|]. split; rewrite ?Em; try done.
  - exact (po_words _ (mo_paging _ Hok)).
  - exact (mo_pools _ Hok).
  - intros c i _ _. unfold dir_entry. by rewrite Em.
  - by left.
  - destruct (ks_vspace _ _ _ Hk) as (H1 & H2 & H3). split; [cbn; by rewrite Em|]. split; [done|].
    intros i. rewrite Hw. by apply H3.
  - intros v q HO. destruct (ks_page _ _ _ Hk v q HO) as (H1 & H2 & H3). rewrite Hw.
    split; [by left|]. split; [|done]. unfold in_heap. by rewrite Em.
  - apply (ks_inj _ _ _ Hk).
Qed.

Lemma kspace_km k m D O : kspace k D O -> kspace (set_km m k) D O.
Proof.
  intros Hk. apply (kspace_threads k); [done|done|done|exact (threads_less_refl k)|exact (ks_cr3 _ _ _ Hk)].
Qed.

Lemma dir_live_insert k D t p p' c : pcbs (kth k) !! t = Some p -> (status p' = status p \/
  status p' <> TASK_HANGING /\ status p' <> TASK_DIED) -> dir_live k D c ->
  dir_live (set_pcbs (<[t := p']> (pcbs (kth k))) k) D c.
Proof.
  intros Ep Hs [->|(t' & q & Eq & -> & H1 & H2)]; [by left|]. right. exists t'.
  destruct (decide (t = t')) as [<-|N].
  - exists p'. cbn. rewrite lookup_insert_eq. rewrite Ep in Eq. injection Eq as <-.
    destruct Hs as [->|[]]; done.
  - exists q. cbn. by rewrite lookup_insert_ne.
Qed.

(** One PCB changes in fields the invariant is not about. *)
Lemma kspace_pcb k D O t p p' : kspace k D O -> pcbs (kth k) !! t = Some p -> pg_dir p' = pg_dir p ->
  status p' = status p -> kspace (set_pcbs (<[t := p']> (pcbs (kth k))) k) D O.
Proof.
  intros Hk Ep Hd Hs. apply (kspace_threads k); try done.
  - intros x q. cbn. intros [[<- <-]|[_ Hx]]%lookup_insert_Some; [exists p|exists q]; rewrite ?Hs; auto.
  - apply (dir_live_insert k D t p); [done|by left|apply (ks_cr3 _ _ _ Hk)].
Qed.

(** A live thread becomes another live thread, or a thread that is not the
    running one dies. *)
Lemma kspace_status k D O t p p' : kspace k D O -> pcbs (kth k) !! t = Some p -> pg_dir p' = pg_dir p ->
  (status p <> TASK_HANGING /\ status p <> TASK_DIED /\ status p' <> TASK_HANGING /\ status p' <> TASK_DIED) \/
  ((status p' = TASK_HANGING \/ status p' = TASK_DIED) /\ (D t = cr3 (kc k) -> pg_dir p = NULL)) ->
  kspace (set_pcbs (<[t := p']> (pcbs (kth k))) k) D O.
Proof.
  intros Hk Ep Hd Hcase. apply (kspace_threads k); try done.
  - intros x q. cbn. intros [[<- <-]|[_ Hx]]%lookup_insert_Some; [exists p|exists q; auto].
    split; [done|]. split; [done|]. intros [N1 N2]. destruct Hcase as [(H1 & H2 & _)|[[H|H] _]]; done.
  - destruct Hcase as [(H1 & H2 & H3 & H4)|[H Hne]].
    + apply (dir_live_insert k D t p); [done|by right|apply (ks_cr3 _ _ _ Hk)].
    + destruct (ks_cr3 _ _ _ Hk) as [E|(t' & q & Eq & E & H1 & H2)]; [by left|].
      destruct (decide (t' = t)) as [->|N].
      * left. rewrite E. rewrite Ep in Eq. injection Eq as <-. apply (ks_kernel _ _ _ Hk t p Ep). by apply Hne.
      * right. exists t', q. split; [|done]. cbn. by rewrite lookup_insert_ne.
Qed.

(** Memory outside the tables and the directories in use is written. *)
Lemma kspace_write k D O r : kspace k D O -> data_written k r ->
  (forall c i, dir_in_use k D c -> 0 <= i < 1024 -> word r (c + i * 4) = dir_entry k c i) ->
  kspace (set_ram r k) D O.
Proof.
  intros Hk Hdw Hd. pose proof (dw_ok _ _ Hdw) as Hok.
  apply (kspace_step k _ D O); [done|]. split; try done.
  - exact (threads_less_refl k).
  - apply (ks_cr3 _ _ _ Hk).
  - exact (po_words _ (mo_paging _ Hok)).
  - exact (mo_pools _ Hok).
  - by left.
  - destruct (ks_vspace _ _ _ Hk) as (H1 & H2 & H3). split; [done|]. split; [done|].
    intros i Hi Hb. cbn [set_ram set_kmem kmem kernel_vaddr] in *. rewrite (dw_walk _ _ Hdw); [by apply H3|].
    destruct H2 as [_ H2a H2b H2c]. unfold is_word, in_bits in *. cbn [space_end] in H2c. lia.
  - intros v q HO. destruct (ks_page _ _ _ Hk v q HO) as (H1 & H2 & H3).
    split; [by left|]. split; [done|]. split; [|done]. rewrite (dw_walk _ _ Hdw); [done|].
    destruct (in_heap_kernel _ _ _ _ Hk H1) as [Hka _]. unfold kernel_addr, is_word in *. lia.
  - apply (ks_inj _ _ _ Hk).
Qed.

(** A word of an owned page that is not a directory in use. *)
Lemma kspace_store k D O v q o x : kspace k D O -> O !! v = Some q -> ~ dir_in_use k D q -> 0 <= o < 4096 ->
  is_word x -> let r := <[q + o := x]> (ram (kmem k)) in
  vstore (v + o) x k = Ok (tt, set_ram r k) /\ kspace (set_ram r k) D O /\ data_written k r.
Proof.
  intros Hk HO Hn Ho Hx r. pose proof (ks_current _ _ _ Hk) as Hok.
  destruct (ks_page _ _ _ Hk v q HO) as (Hh & Hw & _). destruct (in_heap_kernel _ _ _ _ Hk Hh) as [Hka Hal].
  destruct (kernel_addr_PDE v Hka) as (Hvw & _). destruct (owned_aligned _ _ _ _ _ Hk HO) as [Hqw Hqa].
  assert (Hnt : ~ table_frame k q).
  { pose proof (owned_no_table k D O v q (cr3 (kc k)) Hk HO (ks_cr3 _ _ _ Hk)) as H. rewrite with_cr3_id in H.
    apply H. intros ->. apply Hn, dir_live_in_use, (ks_cr3 _ _ _ Hk). }
  assert (Hdw : data_written k r) by (apply (store_written k (q + o) q x); try done; lia).
  split; [apply vstore_ok, walk_offset; done|]. split; [|done].
  apply kspace_write; [done|done|]. intros c i Hc Hi. unfold r, dir_entry. rewrite word_insert.
  destruct (Z.eq_dec _ _) as [E|]; [|done]. exfalso. apply Hn.
  pose proof (dir_aligned _ _ _ _ Hk Hc). replace q with c by zarith. done.
Qed.

(** *** New threads *)

(** The directory of thread [t]. *)
Definition set_dir (t c : Z) (D : Z -> Z) (x : Z) : Z := if Z.eq_dec x t then c else D x.

Lemma set_dir_eq t c D : set_dir t c D t = c.
Proof. unfold set_dir. by destruct (Z.eq_dec t t). Qed.
Lemma set_dir_ne t c D x : x <> t -> set_dir t c D x = D x.
Proof. intros. unfold set_dir. by destruct (Z.eq_dec x t). Qed.

(** A thread of the kernel is added. *)
Lemma kspace_add k D O t p : kspace k D O -> pcbs (kth k) !! t = None -> pg_dir p = NULL ->
  kspace (set_pcbs (<[t := p]> (pcbs (kth k))) k) (set_dir t kdir D) O.
Proof.
  intros Hk Hn Hp. set (k' := set_pcbs _ k). set (D' := set_dir t kdir D).
  assert (HD : forall x, is_Some (pcbs (kth k) !! x) -> D' x = D x)
    by (intros x [y Hx]; apply set_dir_ne; congruence).
  assert (Hu : forall c, dir_in_use k' D' c -> dir_in_use k D c).
  { intros c [->|(x & Hx & ->)]; [by left|]. cbn in Hx. apply lookup_insert_is_Some in Hx as [<-|[N Hx]].
    - left. apply set_dir_eq.
    - right. exists x. by rewrite HD. }
  assert (Hv : forall c, dir_live k' D' c -> dir_live k D c).
  { intros c [->|(x & q & Hx & -> & Hs)]; [by left|]. cbn in Hx. apply lookup_insert_Some in Hx as [[<- <-]|[N Hx]].
    - left. apply set_dir_eq.
    - right. exists x, q. rewrite HD by eauto. done. }
  assert (Hv' : forall c, dir_live k D c -> dir_live k' D' c).
  { intros c [->|(x & q & Hx & -> & Hs)]; [by left|]. right. exists x, q. rewrite HD by eauto.
    split; [|done]. cbn. rewrite lookup_insert_ne by congruence. done. }
  destruct Hk as [K1 K2 K3 K4 K5 K6 K7 K8 K9 K10 K11 K12 K13 K14]. split; try done.
  - intros c Hc. by apply (mem_ok_same (with_cr3 c k)); [apply K1, Hv|..].
  - apply Hv', K2.
  - intros x q. cbn. intros [[<- <-]|[N Hx]]%lookup_insert_Some Hq; [apply set_dir_eq|].
    rewrite HD by eauto. by apply (K8 x q).
  - intros x q. cbn. intros [[<- <-]|[N Hx]]%lookup_insert_Some Hq; [done|]. rewrite HD by eauto. by apply (K9 x q).
  - intros t1 t2 p1 p2. cbn. intros [[<- <-]|[N1 H1]]%lookup_insert_Some [[<- <-]|[N2 H2]]%lookup_insert_Some Hq E;
      try congruence. by apply (K10 t1 t2 p1 p2).
  - intros c Hc. by apply K11, Hu.
  - intros c i Hc. by apply K12, Hu.
  - intros c i Ht. apply (K14 c i). destruct Ht as [[H H']|(H & H')]; [left|right]; split; auto.
Qed.

(** What a page must hold to become the directory of a process: the entries of
    the kernel, and itself. *)
Record fresh_dir (k : kernel) (q : Z) : Prop := {
  fd_self : self_mapped (ram (kmem k)) q;
  fd_kernel : forall i, 768 <= i < 1023 -> dir_entry k q i = dir_entry k kdir i;
  fd_user : forall i, 0 <= i < 768 -> present (dir_entry k q i) = false }.

Lemma fresh_dir_mem k D O v q : kspace k D O -> O !! v = Some q -> fresh_dir k q -> mem_ok (with_cr3 q k).
Proof.
  intros Hk HO [Fs Fk Fu]. pose proof (ks_mem _ _ _ Hk kdir (kdir_live k D)) as [Hpg Hps Hus].
  destruct (ks_page _ _ _ Hk v q HO) as (_ & _ & Hip & Hnf).
  assert (Hkd : kdir <> q) by (intros <-; by apply (pool_not_kdir k D O kdir Hk)).
  (* a present entry is one of the kernel's, or entry 1023 *)
  assert (He : forall w, is_word w -> present (word (ram (kmem k)) (pde_addr q w)) = true ->
    PDE_IDX w = 1023 \/ 768 <= PDE_IDX w < 1023 /\
      word (ram (kmem k)) (pde_addr q w) = word (ram (kmem k)) (pde_addr kdir w)).
  { intros w Hw Hp. pose proof (PDE_IDX_range w Hw). destruct (decide (PDE_IDX w = 1023)); [by left|right].
    destruct (decide (PDE_IDX w < 768)) as [L|G].
    - unfold pde_addr in Hp. fold (dir_entry k q (PDE_IDX w)) in Hp. by rewrite Fu in Hp by lia.
    - split; [lia|]. apply (Fk (PDE_IDX w)). lia. }
  assert (Hself : forall w, PDE_IDX w = 1023 -> frame (word (ram (kmem k)) (pde_addr q w)) = q).
  { intros w E. unfold pde_addr. rewrite E. by destruct Fs as (_ & _ & _ & Hs). }
  assert (Hneq : forall w, is_word w -> 768 <= PDE_IDX w < 1023 ->
    frame (word (ram (kmem k)) (pde_addr kdir w)) <> q).
  { intros w Hw Hr. apply (ks_tables _ _ _ Hk kdir (PDE_IDX w)) with (v := v); [|done]. left. by split; [left|]. }
  assert (Hkp : forall w, is_word w -> 768 <= PDE_IDX w < 1023 ->
    present (word (ram (kmem k)) (pde_addr kdir w)) = true) by (intros w Hw Hr; by apply (ks_present _ _ _ Hk)).
  destruct Hpg as [P1 P2 P3 P4 P5 P6 P7]. cbn [with_cr3 set_kc kmem kc cr3] in *.
  split; [split|done|]; cbn [with_cr3 set_kc kmem kc cr3]; try done.
  - intros w Hw Hi Hp. destruct (He w Hw Hp) as [E|[Hr E]]; [done|]. rewrite E. by apply Hneq.
  - intros w Hw Hp. destruct (He w Hw Hp) as [E|[Hr E]]; [by rewrite Hself|]. rewrite E. by apply P6; auto.
  - intros w1 w2 H1 H2 N1 N2 Hne Hp1 Hp2.
    destruct (He w1 H1 Hp1) as [E1|[R1 E1]]; destruct (He w2 H2 Hp2) as [E2|[R2 E2]].
    + congruence.
    + rewrite (Hself w1 E1), E2. intros E. by apply (Hneq w2).
    + rewrite (Hself w2 E2), E1. by apply Hneq.
    + rewrite E1, E2. by apply P7; auto.
  - intros x (w & Hw & Hp & Hx). cbn [with_cr3 set_kc kmem kc cr3] in *.
    destruct (He w Hw Hp) as [E|[Hr E]].
    + rewrite (Hself w E) in Hx. subst x. intros (j & Hj & Ej & _). destruct Hip as (l & Hl & El).
      destruct Hps as [_ _ Hap]. cbn [with_cr3 set_kc kmem] in Hap. unfold page_at, in_bits in *. lia.
    + rewrite E in Hx. apply Hus. exists w. cbn [with_cr3 set_kc kmem kc cr3]. auto.
Qed.

(** A thread gets a directory. *)
Lemma kspace_set_dir k D O t p p' v q : kspace k D O -> pcbs (kth k) !! t = Some p -> pg_dir p = NULL ->
  O !! v = Some q -> (forall x y, pcbs (kth k) !! x = Some y -> pg_dir y <> v) -> fresh_dir k q ->
  v <> NULL -> pg_dir p' = v -> (status p' = status p) ->
  kspace (set_pcbs (<[t := p']> (pcbs (kth k))) k) (set_dir t q D) O.
Proof.
  intros Hk Ep Hp HO Hfr Hfd Hv0 Hpv Hst. set (k' := set_pcbs _ k). set (D' := set_dir t q D).
  pose proof (fresh_dir_mem k D O v q Hk HO Hfd) as Hq.
  assert (Hu : forall c, dir_in_use k' D' c -> c = q \/ dir_in_use k D c).
  { intros c [->|(x & Hx & ->)]; [right; by left|]. cbn in Hx. destruct (decide (x = t)) as [->|N].
    - left. apply set_dir_eq.
    - rewrite lookup_insert_ne in Hx by done. right; right. exists x. by rewrite (set_dir_ne t q D). }
  assert (Hv : forall c, dir_live k' D' c -> c = q \/ dir_live k D c).
  { intros c [->|(x & y & Hx & -> & Hs)]; [right; by left|]. cbn in Hx. destruct (decide (x = t)) as [->|N].
    - left. apply set_dir_eq.
    - rewrite lookup_insert_ne in Hx by done. right; right. exists x, y. by rewrite (set_dir_ne t q D). }
  destruct (ks_page _ _ _ Hk v q HO) as (_ & _ & Hip & Hnf).
  assert (Hkd : kdir <> q) by (intros <-; by apply (pool_not_kdir k D O kdir Hk)).
  pose proof Hk as [K1 K2 K3 K4 K5 K6 K7 K8 K9 K10 K11 K12 K13 K14]. destruct Hfd as [Fs Fk Fu]. split; try done.
  - intros c Hc. destruct (Hv c Hc) as [->|Hc']; [by apply (mem_ok_same (with_cr3 q k))|].
    by apply (mem_ok_same (with_cr3 c k)); [apply K1|..].
  - destruct K2 as [E|(x & y & Hx & E & Hs)]; [by left|]. destruct (decide (x = t)) as [->|N].
    + left. change (cr3 (kc k')) with (cr3 (kc k)). rewrite E. by apply (K8 t p).
    + right. exists x, y. cbn. rewrite lookup_insert_ne by done. by rewrite (set_dir_ne t q D).
  - intros x y. cbn. intros [[<- <-]|[N Hx]]%lookup_insert_Some Hy; [congruence|].
    rewrite (set_dir_ne t q D) by done. by apply (K8 x y).
  - intros x y. cbn. intros [[<- <-]|[N Hx]]%lookup_insert_Some Hy; [rewrite Hpv; unfold D'; by rewrite set_dir_eq|].
    rewrite (set_dir_ne t q D) by done. by apply (K9 x y).
  - intros t1 t2 p1 p2. cbn. intros [[<- <-]|[N1 H1]]%lookup_insert_Some [[<- <-]|[N2 H2]]%lookup_insert_Some Hq1 E.
    + done.
    + rewrite Hpv in E. symmetry in E. by destruct (Hfr t2 p2 H2).
    + rewrite Hpv in E. by destruct (Hfr t1 p1 H1).
    + by apply (K10 t1 t2 p1 p2).
  - intros c Hc. destruct (Hu c Hc) as [->|Hc']; [done|]. by apply K11.
  - intros c i Hc Hi. destruct (Hu c Hc) as [->|Hc']; [by apply Fk|]. by apply K12.
  - intros c i Ht. assert (Hc : c = q /\ 768 <= i < 1023 \/ has_table k D c i).
    { destruct Ht as [[H H']|(H & H' & H'')].
      - destruct (Hu c H) as [->|]; [by left|right; by left].
      - destruct (Hv c H) as [->|]; [|right; by right]. left. split; [done|].
        destruct (decide (i < 768)) as [L|G]; [|lia]. change (dir_entry k' q i) with (dir_entry k q i) in H''.
        by rewrite Fu in H'' by lia. }
    destruct Hc as [[-> Hi]|Hc]; [|by apply (K14 c i)].
    change (dir_entry k' q i) with (dir_entry k q i). rewrite Fk by done. apply (K14 kdir i). left. by split; [left|].
Qed.
