(* ===== verification/Heap.v ===== *)
(** * Heap: sys_malloc and sys_free of kernel/memory.c

    A request of more than 1024 bytes gets pages of its own; a smaller one a
    block of one of seven sizes, cut from a page that begins with a [struct
    arena].  The free blocks of a size are in the list of its descriptor.

    [heap] is the kernel together with the arenas and the descriptors, each at
    its address; the links of the free blocks are those of [km].  The kernel's
    descriptors are the static array at [kernel_block_descs], those of a
    process are in its PCB, at offset 68.  A call that finds the lock of the
    pool taken returns [WaitsLock]. *)

From S2P Require Import Prelude Interrupt Lists Bitmap Kernel Paging Thread Sync IoQueue Memory.

Record arena := mk_arena { adesc : Z; acnt : Z; alarge : bool }.

Record heap := mk_heap {
  hk : kernel;
  arenas : gmap Z arena;
  block_descs : gmap Z mem_block_desc }.

Definition on_k {A} (m : M kernel A) : M heap A := fun h =>
  match m (hk h) with Ok (a, k) => Ok (a, mk_heap k (arenas h) (block_descs h)) | Err e => Err e end.

(** Reading and writing an arena through its address; an access to a page
    that holds no arena is a fault. *)
Definition get_arena (a : Z) : M heap arena := fun h =>
  match arenas h !! a with Some x => Ok (x, h) | None => Err Fault end.
Definition put_arena (a : Z) (x : arena) : M heap unit :=
  modify (fun h => mk_heap (hk h) (<[a := x]> (arenas h)) (block_descs h)).
(** The arena disappears with the page it is in. *)
Definition drop_arena (a : Z) : M heap unit :=
  modify (fun h => mk_heap (hk h) (delete a (arenas h)) (block_descs h)).

Definition get_desc (d : Z) : M heap mem_block_desc := fun h =>
  match block_descs h !! d with Some x => Ok (x, h) | None => Err Fault end.

Definition DESC_CNT : nat := 7.
(** [&descs[i]]. *)
Definition desc_ptr (descs i : Z) : Z := descs + 24 * i.
Definition user_block_descs (thread : Z) : Z := thread + 68.

(** [arena2block] reads the block size through the descriptor of the arena. *)
Definition block_at (a size idx : Z) : Z := u32 (a + sizeof_arena + u32 (idx * size)).
Definition arena2block (a idx : Z) : M heap Z :=
  x ← get_arena a;
  d ← get_desc (adesc x);
  mret (block_at a (block_size d) idx).
Definition block2arena (b : Z) : Z := Z.land b 0xfffff000.

(** The index at which the search for a large enough block ends. *)
Fixpoint find_desc (n : nat) (descs i last size : Z) : M heap Z :=
  match n with
  | O => mret last
  | S n' =>
      d ← get_desc (desc_ptr descs i);
      if size <=? block_size d then mret i else find_desc n' descs (i + 1) i size
  end.

(** The blocks of a new arena join the free list. *)
Fixpoint fill_arena (n : nat) (a idx : Z) : M heap unit :=
  match n with
  | O => mret tt
  | S n' =>
      b ← arena2block a idx;
      x ← get_arena a;
      d ← get_desc (adesc x);
      f ← on_k (on_mach (node_find (free_list d) b));
      _ ← ASSERTM (negb f);
      _ ← on_k (on_mach (list_append (free_list d) b));
      fill_arena n' a (idx + 1)
  end.

(** The blocks of an arena that is wholly free leave the free list. *)
Fixpoint drain_arena (n : nat) (a idx : Z) : M heap unit :=
  match n with
  | O => mret tt
  | S n' =>
      b ← arena2block a idx;
      x ← get_arena a;
      d ← get_desc (adesc x);
      f ← on_k (on_mach (node_find (free_list d) b));
      _ ← ASSERTM f;
      _ ← on_k (on_mach (list_remove b));
      drain_arena n' a (idx + 1)
  end.

Section heap_ops.
Context (pool_lock : pool_flag -> Z) (kernel_block_descs : Z).

(** The pool and the descriptors of the running thread. *)
Definition my_pool : M kernel (pool_flag * Z) :=
  thread ← running_thread;
  p ← get_pcb thread;
  mret (if pg_dir p =? NULL then (PF_KERNEL, kernel_block_descs)
        else (PF_USER, user_block_descs thread)).

Definition malloc_large (pf : pool_flag) (size : Z) : M heap Z :=
  let page_cnt := DIV_ROUND_UP (u32 (size + sizeof_arena)) PG_SIZE in
  a ← on_k (malloc_page pf page_cnt);
  if a =? NULL then mret NULL
  else
    _ ← on_k (vzero (Z.to_nat (page_cnt * 1024)) a);
    _ ← put_arena a (mk_arena NULL page_cnt true);
    mret (u32 (a + sizeof_arena)).

(** A new arena for the blocks of the descriptor at [d]; false without a page. *)
Definition new_arena (pf : pool_flag) (d : Z) : M heap bool :=
  a ← on_k (malloc_page pf 1);
  if a =? NULL then mret false
  else
    _ ← on_k (vzero 1024 a);
    x ← get_desc d;
    _ ← put_arena a (mk_arena d (blocks_per_arena x) false);
    old_status ← on_k (on_mach intr_disable);
    _ ← fill_arena (Z.to_nat (blocks_per_arena x)) a 0;
    _ ← on_k (on_mach (intr_set_status old_status));
    mret true.

(** The first free block of the descriptor leaves the free list, cleared. *)
Definition take_block (x : mem_block_desc) : M heap Z :=
  b ← on_k (on_mach (list_pop (free_list x)));
  _ ← on_k (vzero (Z.to_nat (block_size x / 4)) b);
  let a := block2arena b in
  y ← get_arena a;
  _ ← put_arena a (mk_arena (adesc y) (u32 (acnt y - 1)) (alarge y));
  mret b.

Definition malloc_small (pf : pool_flag) (descs size : Z) : M heap Z :=
  desc_idx ← find_desc DESC_CNT descs 0 0 size;
  let d := desc_ptr descs desc_idx in
  x ← get_desc d;
  e ← on_k (on_mach (list_empty (free_list x)));
  r ← (if (e : bool) then new_arena pf d else mret true);
  if negb r then mret NULL else take_block x.

Definition sys_malloc (size : Z) : M heap (outcome Z) :=
  '(pf, descs) ← on_k my_pool;
  limit ← on_k (gets (fun k => pool_size (pool_of pf (kmem k))));
  if negb ((0 <? size) && (size <? limit)) then mret (Done NULL)
  else
    r ← on_k (lock_acquire (pool_lock pf));
    match r with
    | Some old => mret (WaitsLock old)
    | None =>
        b ← (if 1024 <? size then malloc_large pf size else malloc_small pf descs size);
        _ ← on_k (lock_release (pool_lock pf));
        mret (Done b)
    end.

Definition free_small (pf : pool_flag) (a ptr : Z) : M heap unit :=
  x ← get_arena a;
  d ← get_desc (adesc x);
  _ ← on_k (on_mach (list_append (free_list d) ptr));
  let cnt := u32 (acnt x + 1) in
  _ ← put_arena a (mk_arena (adesc x) cnt (alarge x));
  if cnt =? blocks_per_arena d then
    _ ← drain_arena (Z.to_nat (blocks_per_arena d)) a 0;
    _ ← on_k (mfree_page pf a 1);
    drop_arena a
  else mret tt.

Definition sys_free (ptr : Z) : M heap (outcome unit) :=
  _ ← ASSERTM (negb (ptr =? NULL));
  '(pf, _) ← on_k my_pool;
  _ ← (if bool_decide (pf = PF_KERNEL) then ASSERTM (KERNEL_HEAP_START <=? ptr) else mret tt);
  r ← on_k (lock_acquire (pool_lock pf));
  match r with
  | Some old => mret (WaitsLock old)
  | None =>
      let a := block2arena ptr in
      x ← get_arena a;
      _ ← (if (adesc x =? NULL) && alarge x then
             _ ← on_k (mfree_page pf a (acnt x)); drop_arena a
           else free_small pf a ptr);
      _ ← on_k (lock_release (pool_lock pf));
      mret (Done tt)
  end.
End heap_ops.
