(* ===== verification/HeapOk.v ===== *)
(** * HeapOk: the allocator of Heap.v hands out disjoint memory

    The ghost state of the invariant: [S] tells what is in the pages of each
    arena, [fs i] is the free list of size class [i].  [object S fs x n] says
    that [n] bytes from [x] on are in use.  [heap_ok] ties these to the arenas,
    the lists of free blocks and the mapped pages. *)

From S2P Require Import Prelude Interrupt Lists Bitmap Kernel Paging Thread Sync IoQueue Memory DataPages Heap.

(** ** Size classes *)

Definition csize (i : Z) : Z := 16 * 2 ^ i.
Definition cblocks (i : Z) : Z := (PG_SIZE - sizeof_arena) / csize i.

Lemma class_facts i : 0 <= i < 7 -> 16 <= csize i <= 1024 /\ csize i mod 16 = 0 /\
  3 <= cblocks i <= 255 /\ sizeof_arena + cblocks i * csize i <= 4096.
Proof.
  intros Hi. assert (E : i = 0 \/ i = 1 \/ i = 2 \/ i = 3 \/ i = 4 \/ i = 5 \/ i = 6) by lia.
  destruct E as [->|[->|[->|[->|[->|[->| ->]]]]]]; vm_compute; repeat split; congruence.
Qed.

Definition is_block (a i x : Z) : Prop :=
  exists j, 0 <= j < cblocks i /\ x = a + sizeof_arena + j * csize i.

Definition dlist (d i : Z) : Z := desc_ptr d i + 8.

Lemma dlist_inj d i j : dlist d i = dlist d j -> i = j.
Proof. unfold dlist, desc_ptr. lia. Qed.

Lemma is_block_range a i x : 0 <= i < 7 -> is_block a i x -> a < x /\ x + csize i <= a + 4096.
Proof.
  intros Hi (j & Hj & ->). destruct (class_facts i Hi) as (Hs & _ & Hb & He). unfold sizeof_arena in *. nia.
Qed.

Lemma block_at_val a i j : 0 <= i < 7 -> 0 <= j < cblocks i -> 0 <= a -> a + 4096 <= 4294967296 ->
  block_at a (csize i) j = a + sizeof_arena + j * csize i.
Proof.
  intros Hi Hj H0 Ha. destruct (class_facts i Hi) as (Hs & _ & Hb & He).
  assert (0 <= j * csize i <= 4096) by (unfold sizeof_arena in *; nia).
  unfold block_at. rewrite (u32_small (j * csize i)) by lia. rewrite u32_small; [lia|].
  unfold sizeof_arena in *. nia.
Qed.

Lemma block2arena_val a x : 0 <= a -> a mod 4096 = 0 -> a <= x < a + 4096 -> x < 4294967296 ->
  block2arena x = a.
Proof.
  intros H0 Ha Hx Hlt. change (frame x = a). rewrite frame_val by (unfold is_word; lia). zarith.
Qed.

(** ** The invariant *)

Inductive aspec := Small (i q : Z) | Large (qs : list Z).

Definition frames (s : aspec) : list Z := match s with Small _ q => [q] | Large qs => qs end.
(** The bytes from the address of an arena to its end. *)
Definition extent (s : aspec) : Z := 4096 * zlen (frames s).

Definition free_in (a : Z) (l : list Z) : list Z := filter (fun x => block2arena x = a) l.

Definition arena_of (d : Z) (fs : Z -> list Z) (a : Z) (s : aspec) : arena :=
  match s with
  | Small i _ => mk_arena (desc_ptr d i) (zlen (free_in a (fs i))) false
  | Large qs => mk_arena NULL (zlen qs) true
  end.

Definition spec_ok (s : aspec) : Prop :=
  match s with Small i _ => 0 <= i < 7 | Large qs => qs <> [] end.

Record heap_ok (pf : pool_flag) (d : Z) (h : heap) (Γ : gmap Z (list Z)) (fs : Z -> list Z)
    (S : gmap Z aspec) (va : virtual_addr) : Prop := {
  ho_mem : mem_ok (hk h);
  ho_space : vspace_ok pf va (hk h);
  ho_low : 0x102000 <= phy_addr_start (kernel_pool (kmem (hk h)));
  ho_lists : lists_ok (km (hk h)) Γ;
  ho_descs : forall i, 0 <= i < 7 ->
    block_descs h !! desc_ptr d i = Some (mk_desc (csize i) (cblocks i) (dlist d i)) /\
    Γ !! dlist d i = Some (fs i);
  ho_arenas : forall a s, S !! a = Some s -> arenas h !! a = Some (arena_of d fs a s) /\ spec_ok s;
  ho_pages : forall a s, S !! a = Some s ->
    (exists j, 0 <= j /\ a = vaddr_start va + j * 4096 /\
       j + zlen (frames s) <= 8 * zlen (bits (vaddr_bitmap va))) /\
    run_mapped pf (hk h) a (frames s) /\ NoDup (frames s) /\
    forall q, q ∈ frames s -> ~ page_free (pool_of pf (kmem (hk h))) q;
  ho_apart : forall a b s t, S !! a = Some s -> S !! b = Some t -> a <> b ->
    (a + extent s <= b \/ b + extent t <= a) /\ forall q, q ∈ frames s -> q ∉ frames t;
  ho_blocks : forall i x, 0 <= i < 7 -> x ∈ fs i ->
    exists a q, S !! a = Some (Small i q) /\ is_block a i x;
  ho_nodes : forall L xs x, Γ !! L = Some xs -> x ∈ foot L xs -> heap_addr x /\ walk (hk h) x <> None;
  ho_own : forall L xs x a s, Γ !! L = Some xs -> x ∈ foot L xs -> S !! a = Some s ->
    a <= x < a + extent s -> exists i q, s = Small i q /\ L = dlist d i /\ x ∈ xs;
  ho_start : pf = PF_KERNEL -> KERNEL_HEAP_START <= vaddr_start va }.

(** What is in use. *)
Inductive object (S : gmap Z aspec) (fs : Z -> list Z) : Z -> Z -> Prop :=
  | obj_small a i q x : S !! a = Some (Small i q) -> is_block a i x -> x ∉ fs i ->
      object S fs x (csize i)
  | obj_large a qs : S !! a = Some (Large qs) ->
      object S fs (a + sizeof_arena) (4096 * zlen qs - sizeof_arena).

(** Every arena has a block in use. *)
Definition no_idle_arena (S : gmap Z aspec) (fs : Z -> list Z) : Prop :=
  forall a i q, S !! a = Some (Small i q) -> exists x, is_block a i x /\ x ∉ fs i.

(** ** Consequences *)

Section facts.
Context (pf : pool_flag) (d : Z) (h : heap) (Γ : gmap Z (list Z)) (fs : Z -> list Z)
  (S : gmap Z aspec) (va : virtual_addr) (Hok : heap_ok pf d h Γ fs S va).

Lemma arena_addr a s : S !! a = Some s ->
  0x400000 <= a /\ a mod 4096 = 0 /\ a + extent s <= 0xffc00000 /\ 4096 <= extent s.
Proof using Hok.
  intros E. destruct (ho_pages _ _ _ _ _ _ _ Hok a s E) as ((j & Hj & Ea & Hle) & _).
  destruct (ho_space _ _ _ _ _ _ _ Hok) as (_ & [_ Ha Hs He] & _).
  assert (Hse : space_end pf <= 0xffc00000) by (by destruct pf).
  destruct (ho_arenas _ _ _ _ _ _ _ Hok a s E) as [_ Hsp].
  assert (1 <= zlen (frames s)).
  { destruct s as [i q|qs]; [done|]. destruct qs as [|q qs]; [done|].
    cbn [frames]. rewrite zlen_cons. pose proof (zlen_nonneg qs). lia. }
  unfold extent. split; [lia|]. split; [zarith|]. split; lia.
Qed.

Lemma block_arena a i q x : S !! a = Some (Small i q) -> is_block a i x ->
  0 <= i < 7 /\ block2arena x = a /\ a < x /\ x + csize i <= a + 4096.
Proof using Hok.
  intros E Hb. destruct (ho_arenas _ _ _ _ _ _ _ Hok a _ E) as [_ Hi]. cbn in Hi.
  destruct (arena_addr a _ E) as (H1 & H2 & H3 & _). unfold extent in H3. change (zlen (frames _)) with 1 in H3.
  destruct (is_block_range a i x Hi Hb). destruct (class_facts i Hi) as (Hs & _). split; [done|].
  split; [|lia]. apply block2arena_val; lia.
Qed.

Lemma block_unique a b i j q p x : S !! a = Some (Small i q) -> S !! b = Some (Small j p) ->
  is_block a i x -> is_block b j x -> a = b /\ i = j /\ q = p.
Proof using Hok.
  intros Ea Eb Ha Hb. destruct (block_arena _ _ _ _ Ea Ha) as (_ & E1 & _).
  destruct (block_arena _ _ _ _ Eb Hb) as (_ & E2 & _). assert (a = b) as -> by congruence.
  rewrite Ea in Eb. by injection Eb as -> ->.
Qed.

(** The arena an object is in, and where. *)
Lemma object_in x n : object S fs x n -> exists a s, S !! a = Some s /\ a < x /\ x + n <= a + extent s /\ 0 < n.
Proof using Hok.
  intros [a i q y E Hb _|a qs E].
  - exists a, (Small i q). destruct (block_arena _ _ _ _ E Hb) as (Hi & _ & H1 & H2).
    destruct (class_facts i Hi). split; [done|]. unfold extent. change (zlen (frames _)) with 1. lia.
  - exists a, (Large qs). destruct (arena_addr a _ E) as (_ & _ & _ & H4). split; [done|].
    unfold extent in *. cbn [frames] in *. unfold sizeof_arena. lia.
Qed.

Lemma objects_apart x n y m : object S fs x n -> object S fs y m -> x <> y -> x + n <= y \/ y + m <= x.
Proof using Hok.
  intros Hx Hy Hne. destruct Hx as [a i q x E Hb Hf|a qs E], Hy as [b j p y F Hc Hg|b ps F].
  - destruct (decide (a = b)) as [->|Hab].
    + rewrite E in F. injection F as <- <-. destruct Hb as (u & Hu & ->), Hc as (v & Hv & ->).
      destruct (ho_arenas _ _ _ _ _ _ _ Hok b _ E) as [_ Hi]. cbn in Hi.
      destruct (class_facts i Hi) as (Hs & _). assert (u <> v) by congruence. nia.
    + destruct (block_arena _ _ _ _ E Hb) as (_ & _ & ? & ?), (block_arena _ _ _ _ F Hc) as (_ & _ & ? & ?).
      destruct (ho_apart _ _ _ _ _ _ _ Hok a b _ _ E F Hab) as [Hap _]. unfold extent in Hap.
      change (zlen (frames _)) with 1 in Hap. change (zlen (frames (Small j p))) with 1 in Hap. lia.
  - destruct (decide (a = b)) as [->|Hab]; [congruence|].
    destruct (block_arena _ _ _ _ E Hb) as (_ & _ & ? & ?), (arena_addr _ _ F) as (_ & _ & _ & ?).
    destruct (ho_apart _ _ _ _ _ _ _ Hok a b _ _ E F Hab) as [Hap _]. unfold extent, sizeof_arena in *.
    change (zlen (frames (Small i q))) with 1 in Hap. cbn [frames] in *. lia.
  - destruct (decide (a = b)) as [->|Hab]; [congruence|].
    destruct (block_arena _ _ _ _ F Hc) as (_ & _ & ? & ?), (arena_addr _ _ E) as (_ & _ & _ & ?).
    destruct (ho_apart _ _ _ _ _ _ _ Hok a b _ _ E F Hab) as [Hap _]. unfold extent, sizeof_arena in *.
    change (zlen (frames (Small j p))) with 1 in Hap. cbn [frames] in *. lia.
  - destruct (decide (a = b)) as [->|Hab]; [congruence|].
    destruct (ho_apart _ _ _ _ _ _ _ Hok a b _ _ E F Hab) as [Hap _]. unfold extent, sizeof_arena in *.
    cbn [frames] in *. lia.
Qed.
End facts.

(** ** Running the operations *)

Definition with_k (k : kernel) (h : heap) : heap := mk_heap k (arenas h) (block_descs h).

Lemma on_k_ok {A} (m : M kernel A) h a k : m (hk h) = Ok (a, k) -> on_k m h = Ok (a, with_k k h).
Proof. intros E. unfold on_k. by rewrite E. Qed.

Lemma with_k_id h : with_k (hk h) h = h.
Proof. by destruct h. Qed.

Lemma on_mach_k {A} (m : M mach A) h a s : m (km (hk h)) = Ok (a, s) ->
  on_k (on_mach m) h = Ok (a, with_k (set_km s (hk h)) h).
Proof. intros E. by apply on_k_ok, on_mach_ok. Qed.

Lemma on_mach_read {A} (m : M mach A) h a : m (km (hk h)) = Ok (a, km (hk h)) ->
  on_k (on_mach m) h = Ok (a, h).
Proof. intros E. rewrite (on_mach_k _ _ _ _ E). by destruct h as [[] ? ?]. Qed.

Lemma get_arena_ok h a x : arenas h !! a = Some x -> get_arena a h = Ok (x, h).
Proof. intros E. unfold get_arena. by rewrite E. Qed.

Lemma get_desc_ok h p x : block_descs h !! p = Some x -> get_desc p h = Ok (x, h).
Proof. intros E. unfold get_desc. by rewrite E. Qed.

Definition is_class (d i : Z) (h : heap) : Prop :=
  0 <= i < 7 /\ block_descs h !! desc_ptr d i = Some (mk_desc (csize i) (cblocks i) (dlist d i)).

(** The class of a request is the smallest that fits. *)
Definition class_of (size i : Z) : Prop :=
  0 <= i < 7 /\ size <= csize i /\ forall j, 0 <= j < i -> csize j < size.

Lemma find_desc_ok d h size : size <= 1024 -> (forall i, 0 <= i < 7 -> is_class d i h) ->
  exists i, class_of size i /\ find_desc DESC_CNT d 0 0 size h = Ok (i, h).
Proof.
  intros Hs Hc. assert (Hgen : forall n i last, 0 <= i -> i + Z.of_nat n = 7 -> (0 < n)%nat ->
    (forall j, 0 <= j < i -> csize j < size) ->
    exists i', class_of size i' /\ find_desc n d i last size h = Ok (i', h)).
  { induction n as [|n IH]; intros i last H0 Hi Hn Hlt; [lia|]. cbn [find_desc].
    destruct (Hc i ltac:(lia)) as [_ Ed]. rewrite (bindM_ok _ _ _ _ _ (get_desc_ok _ _ _ Ed)).
    cbn [block_size]. destruct (size <=? csize i) eqn:E; bool_prop.
    - exists i. split; [|done]. split; [lia|]. split; [lia|done].
    - destruct n as [|n]; [exfalso; assert (i = 6) as -> by lia; change (csize 6) with 1024 in E; lia|].
      apply IH; [lia|lia|lia|]. intros j Hj. destruct (decide (j = i)) as [->|]; [lia|]. apply Hlt. lia. }
  apply Hgen; [lia|done|unfold DESC_CNT; lia|lia].
Qed.

Lemma arena2block_ok h a d i c l j : arenas h !! a = Some (mk_arena (desc_ptr d i) c l) ->
  is_class d i h -> 0 <= j < cblocks i -> 0 <= a -> a + 4096 <= 4294967296 ->
  arena2block a j h = Ok (a + sizeof_arena + j * csize i, h).
Proof.
  intros Ea [Hi Ed] Hj H0 Ha. unfold arena2block. rewrite (bindM_ok _ _ _ _ _ (get_arena_ok _ _ _ Ea)).
  cbn [adesc]. rewrite (bindM_ok _ _ _ _ _ (get_desc_ok _ _ _ Ed)). cbn [block_size].
  by rewrite block_at_val.
Qed.

Definition blocks (a i idx : Z) (n : nat) : list Z :=
  (fun j => a + sizeof_arena + j * csize i) <$> seqZ idx (Z.of_nat n).

Lemma blocks_cons a i idx n :
  blocks a i idx (S n) = a + sizeof_arena + idx * csize i :: blocks a i (idx + 1) n.
Proof.
  unfold blocks. rewrite seqZ_cons by lia. cbn [fmap list_fmap].
  by replace (Z.pred (Z.of_nat (S n))) with (Z.of_nat n) by lia; replace (Z.succ idx) with (idx + 1) by lia.
Qed.

Lemma blocks_elem a i idx n x : x ∈ blocks a i idx n <->
  exists j, idx <= j < idx + Z.of_nat n /\ x = a + sizeof_arena + j * csize i.
Proof.
  unfold blocks. rewrite list_elem_of_fmap. split.
  - intros (j & -> & Hj%elem_of_seqZ). exists j. split; [lia|done].
  - intros (j & Hj & ->). exists j. split; [done|]. apply elem_of_seqZ. lia.
Qed.

Lemma fill_arena_ok d a i c n : forall h Γ xs idx, lists_ok (km (hk h)) Γ ->
  Γ !! dlist d i = Some xs -> arenas h !! a = Some (mk_arena (desc_ptr d i) c false) ->
  is_class d i h -> 0 <= a -> a + 4096 <= 4294967296 -> 0 <= idx -> idx + Z.of_nat n <= cblocks i ->
  (forall x, x ∈ blocks a i idx n -> fresh Γ x) ->
  exists s, fill_arena n a idx h = Ok (tt, with_k (set_km s (hk h)) h) /\
    lists_ok s (<[dlist d i := xs ++ blocks a i idx n]> Γ) /\ eflags s = eflags (km (hk h)).
Proof.
  induction n as [|n IH]; intros h Γ xs idx Hl HL Ea Hc H0 Ha Hx Hle Hfr; cbn [fill_arena].
  { exists (km (hk h)). split; [by destruct h as [[] ? ?]|]. split; [|done].
    rewrite app_nil_r, insert_id; done. }
  pose proof Hc as [Hi Ed]. rewrite blocks_cons in Hfr. set (b := a + sizeof_arena + idx * csize i) in *.
  rewrite (bindM_ok _ _ _ _ _ (arena2block_ok _ _ _ _ _ _ idx Ea Hc ltac:(lia) H0 Ha)). fold b.
  rewrite (bindM_ok _ _ _ _ _ (get_arena_ok _ _ _ Ea)). cbn [adesc].
  rewrite (bindM_ok _ _ _ _ _ (get_desc_ok _ _ _ Ed)). cbn [free_list].
  destruct (Hfr b ltac:(by left)) as [Hb0 Hb]. pose proof (Hb _ _ HL) as Hbx.
  rewrite (bindM_ok _ _ _ _ _ (on_mach_read _ _ _ (node_find_ok _ _ _ _ b Hl HL))).
  rewrite bool_decide_eq_false_2, bind_assert by (try done; unfold foot in Hbx; set_solver).
  destruct (list_append_ok _ _ _ _ b Hl HL (conj Hb0 Hb)) as (s1 & E1 & Hl1 & He1).
  rewrite (bindM_ok _ _ _ _ _ (on_mach_k _ _ _ _ E1)).
  destruct (IH (with_k (set_km s1 (hk h)) h) (<[dlist d i := xs ++ [b]]> Γ) (xs ++ [b]) (idx + 1))
    as (s & E & Hls & Hes); [done|by rewrite lookup_insert_eq|done|done|done|done|lia|lia| |].
  - intros x Hxin. destruct (Hfr x ltac:(by right)) as [Hx0 Hxf]. split; [done|].
    intros L ys [[<- <-]|[_ HL']]%lookup_insert_Some; [|by eapply Hxf].
    pose proof (Hxf _ _ HL) as Hn. apply blocks_elem in Hxin as (j & Hj & ->).
    unfold foot in *. destruct (class_facts i Hi) as (Hsz & _).
    assert (Hne : a + sizeof_arena + j * csize i <> b) by (unfold b; nia). set_solver.
  - exists s. cbn [with_k hk set_km] in E. split; [exact E|]. rewrite blocks_cons. fold b.
    rewrite insert_insert_eq, <- app_assoc in Hls. split; [exact Hls|]. cbn in Hes. congruence.
Qed.

Lemma filter_iff_in {A} (P Q : A -> Prop) `{!forall x, Decision (P x), !forall x, Decision (Q x)} (l : list A) :
  (forall x, x ∈ l -> P x <-> Q x) -> filter P l = filter Q l.
Proof.
  induction l as [|x l IH]; intros Hpq; [done|]. assert (Hl : filter P l = filter Q l)
    by (apply IH; intros y Hy; apply Hpq; by right).
  destruct (decide (P x)) as [Hp|Hp].
  - rewrite !filter_cons_True by (by rewrite <- ?Hpq by left). by rewrite Hl.
  - rewrite !filter_cons_False by (by rewrite <- ?Hpq by left). done.
Qed.

Lemma filter_all {A} (P : A -> Prop) `{!forall x, Decision (P x)} (l : list A) :
  (forall x, x ∈ l -> P x) -> filter P l = l.
Proof.
  induction l as [|x l IH]; intros Ha; [done|].
  rewrite filter_cons_True by (apply Ha; by left). f_equal. apply IH. intros y Hy. apply Ha. by right.
Qed.

Definition without (l xs : list Z) : list Z := filter (fun x => x ∉ l) xs.

Lemma without_cons b l xs ys : NoDup (xs ++ b :: ys) ->
  without (b :: l) (xs ++ b :: ys) = without l (xs ++ ys).
Proof.
  intros Hnd. assert (Hb : b ∉ xs ++ ys).
  { rewrite <- Permutation_middle in Hnd. by apply NoDup_cons in Hnd as [? _]. }
  assert (Hg : forall zs, b ∉ zs -> without (b :: l) zs = without l zs).
  { intros zs Hz. unfold without. apply filter_iff_in. intros x Hx. rewrite not_elem_of_cons. split; [tauto|].
    intros Hl. split; [|done]. by intros ->. }
  rewrite <- (Hg (xs ++ ys)) by done. unfold without. rewrite !filter_app. f_equal.
  rewrite filter_cons_False; [done|]. rewrite elem_of_cons. tauto.
Qed.

Lemma drain_arena_ok d a i c n : forall h Γ xs idx, lists_ok (km (hk h)) Γ ->
  Γ !! dlist d i = Some xs -> arenas h !! a = Some (mk_arena (desc_ptr d i) c false) ->
  is_class d i h -> 0 <= a -> a + 4096 <= 4294967296 -> 0 <= idx -> idx + Z.of_nat n <= cblocks i ->
  (forall x, x ∈ blocks a i idx n -> x ∈ xs) ->
  exists s, drain_arena n a idx h = Ok (tt, with_k (set_km s (hk h)) h) /\
    lists_ok s (<[dlist d i := without (blocks a i idx n) xs]> Γ) /\ eflags s = eflags (km (hk h)).
Proof.
  induction n as [|n IH]; intros h Γ xs idx Hl HL Ea Hc H0 Ha Hx Hle Hin; cbn [drain_arena].
  { exists (km (hk h)). split; [by destruct h as [[] ? ?]|]. split; [|done].
    unfold without, blocks. cbn. rewrite insert_id; [done|]. rewrite HL. f_equal. symmetry.
    apply filter_all. intros x _. apply not_elem_of_nil. }
  pose proof Hc as [Hi Ed]. rewrite blocks_cons in Hin. set (b := a + sizeof_arena + idx * csize i) in *.
  rewrite (bindM_ok _ _ _ _ _ (arena2block_ok _ _ _ _ _ _ idx Ea Hc ltac:(lia) H0 Ha)). fold b.
  rewrite (bindM_ok _ _ _ _ _ (get_arena_ok _ _ _ Ea)). cbn [adesc].
  rewrite (bindM_ok _ _ _ _ _ (get_desc_ok _ _ _ Ed)). cbn [free_list].
  assert (Hb : b ∈ xs) by (apply Hin; by left).
  rewrite (bindM_ok _ _ _ _ _ (on_mach_read _ _ _ (node_find_ok _ _ _ _ b Hl HL))).
  rewrite bool_decide_eq_true_2, bind_assert by done.
  apply list_elem_of_split in Hb as (l1 & l2 & ->).
  destruct (remove_ok _ _ _ _ _ _ Hl HL) as (s1 & E1 & Hl1 & _ & He1).
  rewrite (bindM_ok _ _ _ _ _ (on_mach_k _ _ _ _ E1)).
  destruct (IH (with_k (set_km s1 (hk h)) h) (<[dlist d i := l1 ++ l2]> Γ) (l1 ++ l2) (idx + 1))
    as (s & E & Hls & Hes); [done|by rewrite lookup_insert_eq|done|done|done|done|lia|lia| |].
  - intros x Hxin. assert (Hx2 : x ∈ l1 ++ b :: l2) by (apply Hin; by right).
    apply blocks_elem in Hxin as (j & Hj & ->). destruct (class_facts i Hi) as (Hsz & _).
    assert (Hne : a + sizeof_arena + j * csize i <> b) by (unfold b; nia). set_solver.
  - exists s. split; [exact E|]. rewrite blocks_cons. fold b. rewrite without_cons.
    + rewrite insert_insert_eq in Hls. split; [exact Hls|]. cbn in Hes. congruence.
    + pose proof (lo_nodup _ _ Hl _ _ HL) as Hnd. unfold foot in Hnd.
      apply NoDup_cons in Hnd as [_ Hnd]. by apply NoDup_app in Hnd as (Hnd & _).
Qed.

(** ** What keeps the invariant *)

(** Another kernel with the same pages, frames and lists. *)
Lemma heap_ok_frame pf d h k' Γ fs S va : heap_ok pf d h Γ fs S va ->
  mem_ok k' -> vspace_ok pf va k' -> kernel_pool (kmem k') = kernel_pool (kmem (hk h)) ->
  user_pool (kmem k') = user_pool (kmem (hk h)) -> lists_ok (km k') Γ ->
  (forall w, is_word w -> walk k' w = walk (hk h) w) ->
  (forall q, table_frame k' q -> table_frame (hk h) q) -> heap_ok pf d (with_k k' h) Γ fs S va.
Proof.
  intros [H1 H2 H3 H4 H5 H6 H7 H8 H9 H10 H11 H12] Hm Hv Ek Eu Hl Hw Ht.
  assert (Ep : pool_of pf (kmem k') = pool_of pf (kmem (hk h))) by (by destruct pf).
  assert (Hwd : forall w, heap_addr w -> is_word w) by (intros w Hx; unfold heap_addr, is_word in *; lia).
  split; cbn [with_k hk arenas block_descs]; try assumption.
  - by rewrite Ek.
  - intros a s E. destruct (H7 a s E) as (Hj & Hr & Hn & Hf). split; [exact Hj|]. rewrite Ep.
    split; [|by split]. intros i q Hq. destruct (Hr i q Hq) as (R1 & R2 & R3).
    split; [|split; [by rewrite Ep|by intros ?%Ht]]. rewrite Hw; [exact R1|].
    destruct Hj as (j & Hj & -> & Hle). destruct H2 as (_ & [_ _ Hs He] & _).
    assert (Hse : space_end pf <= 0xffc00000) by (by destruct pf).
    apply lookup_lt_Some in Hq. unfold is_word, zlen in *. lia.
  - intros L xs x HL Hx. destruct (H10 L xs x HL Hx) as [Hh Hn]. split; [exact Hh|]. by rewrite Hw by auto.
Qed.

Lemma heap_ok_ksy pf d h y Γ fs S va : heap_ok pf d h Γ fs S va ->
  heap_ok pf d (with_k (set_ksy y (hk h)) h) Γ fs S va.
Proof.
  intros Hok. apply (heap_ok_frame pf d h); try done; [by apply mem_ok_ksy, Hok| |by apply Hok].
  pose proof (ho_space _ _ _ _ _ _ _ Hok). by destruct pf.
Qed.

Lemma heap_ok_mach pf d h m Γ fs S va : heap_ok pf d h Γ fs S va -> lists_ok m Γ ->
  heap_ok pf d (with_k (set_km m (hk h)) h) Γ fs S va.
Proof.
  intros Hok Hm. apply (heap_ok_frame pf d h); try done; [by apply mem_ok_km, Hok|].
  pose proof (ho_space _ _ _ _ _ _ _ Hok). by destruct pf.
Qed.

Lemma vspace_ok_written pf va k r : vspace_ok pf va k -> data_written k r -> vspace_ok pf va (set_ram r k).
Proof.
  intros (H1 & H2 & H3) Hd. split; [by destruct pf|]. split; [exact H2|]. intros i Hi Hb.
  rewrite (dw_walk _ _ Hd); [by apply H3|]. destruct H2 as [_ _ Hs He].
  assert (Hse : space_end pf <= 0xffc00000) by (by destruct pf). unfold in_bits, is_word in *. lia.
Qed.

Lemma heap_ok_written pf d h r Γ fs S va : heap_ok pf d h Γ fs S va -> data_written (hk h) r ->
  heap_ok pf d (with_k (set_ram r (hk h)) h) Γ fs S va.
Proof.
  intros Hok Hd. apply (heap_ok_frame pf d h); try done; try apply Hd; [|by apply Hok].
  apply vspace_ok_written; [apply Hok|done].
Qed.

(** A block of an arena lies in a mapped page that is no table. *)
Lemma block_data pf d h Γ fs S va a i q x : heap_ok pf d h Γ fs S va ->
  S !! a = Some (Small i q) -> is_block a i x ->
  heap_addr x /\ forall o, 0 <= o < csize i -> exists p, walk (hk h) (x + o) = Some (q + p) /\
    q mod 4096 = 0 /\ 0 <= p < 4096 /\ ~ table_frame (hk h) q.
Proof.
  intros Hok Ea Hb. destruct (block_arena _ _ _ _ _ _ _ Hok _ _ _ _ Ea Hb) as (Hi & _ & H1 & H2).
  destruct (arena_addr _ _ _ _ _ _ _ Hok _ _ Ea) as (H3 & H4 & H5 & _). unfold extent in H5.
  change (zlen (frames _)) with 1 in H5. destruct (class_facts i Hi) as (Hs & _).
  destruct (ho_pages _ _ _ _ _ _ _ Hok _ _ Ea) as (_ & Hr & _).
  destruct (Hr 0%nat q eq_refl) as (Hw & (j & Hj & Ej) & Ht). rewrite Z.mul_0_l, Z.add_0_r in Hw.
  destruct (page_at_word _ j (pools_wf _ pf (mo_pools _ (ho_mem _ _ _ _ _ _ _ Hok))) Hj) as (_ & Hqa & _).
  rewrite <- Ej in Hqa. split; [unfold heap_addr; lia|]. intros o Ho. exists (x + o - a).
  split; [|split; [done|split; [lia|done]]]. replace (x + o) with (a + (x + o - a)) by lia.
  replace (a + (x + o - a) - a) with (x + o - a) by lia. apply walk_offset; try done; unfold is_word; lia.
Qed.

Lemma foot_elem L xs x : x ∈ foot L xs <-> x = head_of L \/ x = tail_of L \/ x ∈ xs.
Proof. unfold foot. rewrite elem_of_cons, elem_of_app, list_elem_of_singleton. tauto. Qed.

Lemma foot_ends L xs : NoDup (foot L xs) -> (head_of L ∉ xs) /\ (tail_of L ∉ xs).
Proof.
  unfold foot. intros [Hh Ht]%NoDup_cons. split; [set_solver|].
  apply NoDup_app in Ht as (_ & Ht & _). intros Hin. apply (Ht _ Hin). by apply list_elem_of_singleton.
Qed.

(** The free list of one class changes to [ys], blocks of its arenas. *)
Lemma heap_ok_list pf d h m as' Γ fs S va i ys : heap_ok pf d h Γ fs S va -> 0 <= i < 7 ->
  lists_ok m (<[dlist d i := ys]> Γ) ->
  (forall x, x ∈ ys -> exists a q, S !! a = Some (Small i q) /\ is_block a i x) ->
  (forall a s, S !! a = Some s -> as' !! a = Some (arena_of d (upd fs i ys) a s)) ->
  heap_ok pf d (mk_heap (set_km m (hk h)) as' (block_descs h)) (<[dlist d i := ys]> Γ) (upd fs i ys) S va.
Proof.
  intros Hok Hi Hm Hys Has.
  pose proof Hok as [H1 H2 H3 H4 H5 H6 H7 H8 H9 H10 H11 H12].
  destruct (H5 i Hi) as [_ HL]. pose proof (foot_ends _ _ (lo_nodup _ _ H4 _ _ HL)) as [Hnh Hnt].
  split; cbn [hk arenas block_descs]; try assumption.
  - by apply mem_ok_km.
  - intros j Hj. destruct (H5 j Hj) as [D1 D2]. split; [exact D1|].
    destruct (decide (j = i)) as [->|Hne]; [by rewrite lookup_insert_eq, upd_eq|].
    rewrite upd_ne, lookup_insert_ne by (try done; by intros E%dlist_inj). done.
  - intros a s E. split; [by apply Has|]. by apply (H6 a s).
  - intros j x Hj Hx. destruct (decide (j = i)) as [->|Hne].
    + rewrite upd_eq in Hx. by apply Hys.
    + rewrite upd_ne in Hx by done. by apply H9.
  - intros L xs x [[<- <-]|[_ E]]%lookup_insert_Some Hx; [|by eapply H10].
    apply foot_elem in Hx as [->|[->|Hx]].
    + apply (H10 _ _ _ HL). apply foot_elem. by left.
    + apply (H10 _ _ _ HL). apply foot_elem. right. by left.
    + destruct (Hys x Hx) as (a & q & Ea & Hb).
      destruct (block_data _ _ _ _ _ _ _ _ _ _ _ Hok Ea Hb) as [Hh Hw]. split; [exact Hh|].
      destruct (class_facts i Hi) as (Hs & _). destruct (Hw 0 ltac:(lia)) as (p & Hp & _).
      rewrite Z.add_0_r in Hp. change (walk (hk h) x <> None). by rewrite Hp.
  - intros L xs x a s [[<- <-]|[_ E]]%lookup_insert_Some Hx Ea Hin; [|by eapply H11].
    apply foot_elem in Hx as [->|[->|Hx]].
    + destruct (H11 _ _ _ a s HL ltac:(apply foot_elem; by left) Ea Hin) as (? & ? & _ & _ & ?). done.
    + destruct (H11 _ _ _ a s HL ltac:(apply foot_elem; right; by left) Ea Hin) as (? & ? & _ & _ & ?). done.
    + destruct (Hys x Hx) as (b & q & Eb & Hb).
      destruct (block_arena _ _ _ _ _ _ _ Hok _ _ _ _ Eb Hb) as (_ & _ & B1 & B2).
      destruct (class_facts i Hi) as (Hs & _).
      destruct (decide (a = b)) as [->|Hab]; [|exfalso].
      * assert (s = Small i q) as -> by congruence. by exists i, q.
      * destruct (H8 a b s _ Ea Eb Hab) as [Hap _]. unfold extent in *.
        change (zlen (frames (Small i q))) with 1 in Hap. lia.
Qed.

(** The same with only the free blocks of arena [a] changed. *)
Lemma heap_ok_arena_list pf d h m Γ fs S va i ys a q : heap_ok pf d h Γ fs S va ->
  S !! a = Some (Small i q) -> lists_ok m (<[dlist d i := ys]> Γ) ->
  (forall x, x ∈ ys -> x ∈ fs i \/ is_block a i x) ->
  (forall b, b <> a -> free_in b ys = free_in b (fs i)) ->
  heap_ok pf d (mk_heap (set_km m (hk h))
    (<[a := mk_arena (desc_ptr d i) (zlen (free_in a ys)) false]> (arenas h)) (block_descs h))
    (<[dlist d i := ys]> Γ) (upd fs i ys) S va.
Proof.
  intros Hok Ea Hm Hys Hb. destruct (ho_arenas _ _ _ _ _ _ _ Hok a _ Ea) as [_ Hi]. cbn in Hi.
  apply heap_ok_list; try done.
  - intros x [Hx|Hx]%Hys; [by apply (ho_blocks _ _ _ _ _ _ _ Hok)|by exists a, q].
  - intros b s E. destruct (decide (b = a)) as [->|Hne].
    + rewrite lookup_insert_eq. assert (s = Small i q) as -> by congruence. cbn [arena_of]. by rewrite upd_eq.
    + rewrite lookup_insert_ne by done. destruct (ho_arenas _ _ _ _ _ _ _ Hok b s E) as [-> _].
      destruct s as [j p|ps]; [|done]. cbn [arena_of]. destruct (decide (j = i)) as [->|Hji].
      * by rewrite upd_eq, Hb.
      * by rewrite upd_ne.
Qed.

(** ** Growing and shrinking *)

Lemma in_pool_user_kernel m q : pools_ok m -> in_pool (user_pool m) q -> ~ page_free (kernel_pool m) q.
Proof.
  intros [_ _ Ha] (i & Hi & ->) (j & Hj & E & _). unfold page_at, in_bits in *. lia.
Qed.

(** The pages of an arena are mapped. *)
Lemma arena_mapped pf d h Γ fs S va a s w : heap_ok pf d h Γ fs S va -> S !! a = Some s ->
  a <= w < a + extent s -> w mod 4096 = 0 -> walk (hk h) w <> None.
Proof.
  intros Hok Ea Hw Ha. destruct (arena_addr _ _ _ _ _ _ _ Hok _ _ Ea) as (_ & Haa & _).
  destruct (ho_pages _ _ _ _ _ _ _ Hok _ _ Ea) as (_ & Hr & _). unfold extent, zlen in Hw.
  destruct (lookup_lt_is_Some_2 (frames s) (Z.to_nat ((w - a) / 4096))) as [q Hq]; [zarith|].
  destruct (Hr _ _ Hq) as (Ew & _). replace (a + _ * 4096) with w in Ew by zarith. by rewrite Ew.
Qed.

(** New pages lie apart from every arena. *)
Lemma new_pages_apart pf d h k' Γ fs S va va' v cnt qs : heap_ok pf d h Γ fs S va ->
  allocated pf (hk h) k' va va' v cnt qs -> 0 < cnt ->
  (forall w, v <= w < v + cnt * 4096 -> walk (hk h) w = None) /\
  (forall b t, S !! b = Some t -> v + 4096 * cnt <= b \/ b + extent t <= v) /\ S !! v = None.
Proof.
  intros Hok Hal Hc. destruct (allocated_data _ _ _ _ _ _ _ _ Hal) as (_ & Hva & Hve & _).
  assert (Hv4 : 0x400000 <= v).
  { destruct (al_index _ _ _ _ _ _ _ _ Hal) as (i & Hi & -> & _).
    destruct (ho_space _ _ _ _ _ _ _ Hok) as (_ & [_ _ Hs _] & _). lia. }
  assert (Hnone : forall w, v <= w < v + cnt * 4096 -> walk (hk h) w = None)
    by (intros w Hw; apply (allocated_was_none _ _ _ _ _ _ _ _ Hal); [unfold heap_addr; lia|done]).
  assert (Hsep : forall b t, S !! b = Some t -> v + 4096 * cnt <= b \/ b + extent t <= v).
  { intros b t Eb. destruct (arena_addr _ _ _ _ _ _ _ Hok _ _ Eb) as (_ & Hba & _ & Hbe).
    destruct (decide (v + 4096 * cnt <= b)) as [?|N1]; [by left|].
    destruct (decide (b + extent t <= v)) as [?|N2]; [by right|]. exfalso.
    apply (arena_mapped _ _ _ _ _ _ _ b t (Z.max v b) Hok Eb); [lia| |apply Hnone; lia].
    destruct (Z.max_spec v b) as [[_ ->]|[_ ->]]; done. }
  split; [exact Hnone|]. split; [exact Hsep|]. destruct (S !! v) as [t|] eqn:E; [|done]. exfalso.
  destruct (arena_addr _ _ _ _ _ _ _ Hok _ _ E) as (_ & _ & _ & Hbe). destruct (Hsep v t E); lia.
Qed.

(** The frames of an arena stay what they are when other pages are allocated. *)
Lemma arena_kept pf d h k' Γ fs S va va' v cnt qs a t : heap_ok pf d h Γ fs S va ->
  allocated pf (hk h) k' va va' v cnt qs -> 0 < cnt -> S !! a = Some t ->
  run_mapped pf k' a (frames t) /\ forall q, q ∈ frames t -> ~ page_free (pool_of pf (kmem k')) q.
Proof.
  intros Hok Hal Hc E. destruct (new_pages_apart _ _ _ _ _ _ _ _ _ _ _ _ Hok Hal Hc) as (Hnone & _).
  destruct (ho_pages _ _ _ _ _ _ _ Hok a t E) as (_ & Hr & _ & Hf). split.
  - intros n q Hq. destruct (Hr n q Hq) as (R1 & R2 & R3). split; [|split].
    + rewrite (al_others _ _ _ _ _ _ _ _ Hal); [exact R1| |intros Hin; by rewrite Hnone in R1].
      destruct (arena_addr _ _ _ _ _ _ _ Hok _ _ E) as (A1 & _ & A3 & _).
      apply lookup_lt_Some in Hq. unfold heap_addr, extent, zlen in *. lia.
    + by apply (al_shape _ _ _ _ _ _ _ _ Hal pf).
    + apply (al_tables _ _ _ _ _ _ _ _ Hal); [exact R3|]. destruct pf.
      * apply Hf. by eapply list_elem_of_lookup_2.
      * by apply (in_pool_user_kernel _ _ (mo_pools _ (ho_mem _ _ _ _ _ _ _ Hok))).
  - intros q Hq Hfq. apply (Hf q Hq). by apply (al_account _ _ _ _ _ _ _ _ Hal pf q).
Qed.

Lemma heap_ok_grow pf d h k' Γ fs S va va' v cnt s : heap_ok pf d h Γ fs S va ->
  allocated pf (hk h) k' va va' v cnt (frames s) -> spec_ok s -> 0 < cnt ->
  heap_ok pf d (mk_heap k' (<[v := arena_of d fs v s]> (arenas h)) (block_descs h)) Γ fs
    (<[v := s]> S) va' /\ S !! v = None.
Proof.
  intros Hok Hal Hsp Hc. pose proof Hok as [H1 H2 H3 H4 H5 H6 H7 H8 H9 H10 H11 H12].
  destruct (allocated_data _ _ _ _ _ _ _ _ Hal) as (_ & Hva & Hve & _).
  pose proof (al_count _ _ _ _ _ _ _ _ Hal) as Hcnt. pose proof (al_len _ _ _ _ _ _ _ _ Hal) as Hlen.
  pose proof (al_start _ _ _ _ _ _ _ _ Hal) as Est.
  destruct (al_shape _ _ _ _ _ _ _ _ Hal pf) as [_ Hshape].
  destruct (new_pages_apart _ _ _ _ _ _ _ _ _ _ _ _ Hok Hal Hc) as (Hnone & Hsep & Hfresh).
  assert (Hext : extent s = 4096 * cnt) by (unfold extent; lia).
  assert (Hfrees : forall q, q ∈ frames s -> page_free (pool_of pf (kmem (hk h))) q /\
    ~ page_free (pool_of pf (kmem k')) q).
  { intros q [j Hj]%list_elem_of_lookup. by destruct (al_frames _ _ _ _ _ _ _ _ Hal j q Hj) as (_ & _ & ? & ? & _). }
  split; [|exact Hfresh]. split; cbn [hk arenas block_descs]; try assumption.
  - apply Hal.
  - apply Hal.
  - by rewrite (proj1 (al_shape _ _ _ _ _ _ _ _ Hal PF_KERNEL) : phy_addr_start (kernel_pool _) = _).
  - by destruct (al_km _ _ _ _ _ _ _ _ Hal) as (-> & _).
  - intros a t [[<- <-]|[Hne E]]%lookup_insert_Some; [by rewrite lookup_insert_eq|].
    rewrite lookup_insert_ne by done. by apply H6.
  - intros a t [[<- <-]|[Hne E]]%lookup_insert_Some.
    + split; [|split; [by eapply allocated_run|split; [by apply Hal|by apply Hfrees]]].
      destruct (al_index _ _ _ _ _ _ _ _ Hal) as (j & Hj & Ej & Hle). exists j. rewrite Est, Hcnt.
      split; [done|]. split; [done|]. lia.
    + destruct (H7 a t E) as ((j & Hj & Ej & Hle) & _ & Hn & _).
      destruct (arena_kept _ _ _ _ _ _ _ _ _ _ _ _ a t Hok Hal Hc E) as [Hr Hf].
      split; [|by split]. exists j. rewrite Est. split; [done|]. split; [done|]. lia.
  - intros a b s' t [[<- <-]|[Na E]]%lookup_insert_Some [[<- <-]|[Nb F]]%lookup_insert_Some Hab; [done| | |by apply H8].
    + split; [rewrite Hext; by apply Hsep|]. intros q Hq Hq'. destruct (H7 b t F) as (_ & _ & _ & Hf).
      by apply (Hf q Hq'), Hfrees.
    + split; [rewrite Hext; destruct (Hsep a s' E); lia|]. intros q Hq Hq'. destruct (H7 a s' E) as (_ & _ & _ & Hf).
      by apply (Hf q Hq), Hfrees.
  - intros i x Hi Hx. destruct (H9 i x Hi Hx) as (a & q & Ea & Hb). exists a, q. split; [|done].
    rewrite lookup_insert_ne; [done|]. intros ->. congruence.
  - intros L xs x HL Hx. destruct (H10 L xs x HL Hx) as [Hh Hn]. split; [exact Hh|].
    change (walk k' x <> None). rewrite (al_others _ _ _ _ _ _ _ _ Hal x Hh); [done|]. intros Hin. by apply Hn, Hnone.
  - intros L xs x a t HL Hx [[<- <-]|[_ E]]%lookup_insert_Some Hin; [|by eapply H11]. exfalso.
    destruct (H10 L xs x HL Hx) as [_ Hn]. apply Hn, Hnone. lia.
  - by rewrite Est.
Qed.

(** The pages of an arena none of whose blocks is in a free list go back. *)
Lemma heap_ok_shrink pf d h k' Γ fs S va va' a s : heap_ok pf d h Γ fs S va -> S !! a = Some s ->
  (forall i x, 0 <= i < 7 -> x ∈ fs i -> ~ (a <= x < a + extent s)) ->
  released pf (hk h) k' va va' a (frames s) ->
  heap_ok pf d (mk_heap k' (delete a (arenas h)) (block_descs h)) Γ fs (delete a S) va'.
Proof.
  intros Hok Ea Hout [R1 R2 R3 R4 R5 R6 R7 R8 R9 Hz R10 R11].
  pose proof Hok as [H1 H2 H3 H4 H5 H6 H7 H8 H9 H10 H11 H12].
  assert (Hmem : forall b t, delete a S !! b = Some t -> b <> a /\ S !! b = Some t)
    by (intros b t [Hne E]%lookup_delete_Some; split; [congruence|exact E]).
  assert (Hext : extent s = zlen (frames s) * 4096) by (unfold extent; lia).
  assert (Hkm : km k' = km (hk h)) by (destruct R10 as (E & _); by destruct pf).
  split; cbn [hk arenas block_descs]; try assumption.
  - by rewrite (proj1 (R11 PF_KERNEL) : phy_addr_start (kernel_pool _) = _).
  - by rewrite Hkm.
  - intros b t [Hne E]%Hmem. rewrite lookup_delete_ne by done. by apply H6.
  - intros b t [Hne E]%Hmem. destruct (H7 b t E) as ((j & Hj & Ej & Hle) & Hr & Hn & Hf).
    destruct (H8 b a t s E Ea Hne) as [Hap Hfa]. split; [|split; [|split; [exact Hn|]]].
    + exists j. rewrite R8, Hz. by split.
    + intros n q Hq. destruct (Hr n q Hq) as (W1 & W2 & W3). split; [|split].
      * rewrite R6; [exact W1| |].
        -- destruct (arena_addr _ _ _ _ _ _ _ Hok _ _ E) as (A1 & _ & A3 & _).
           apply lookup_lt_Some in Hq. unfold heap_addr, extent, zlen in *. lia.
        -- apply lookup_lt_Some in Hq. unfold extent, zlen in *. lia.
      * by apply (proj2 (R11 pf)).
      * by rewrite R7.
    + intros q Hq [Hp|Hp]%R3; [by apply (Hf q)|]. by apply (Hfa q).
  - intros b c t u [Hb E]%Hmem [Hc F]%Hmem. by apply H8.
  - intros i x Hi Hx. destruct (H9 i x Hi Hx) as (b & q & Eb & Hb). exists b, q. split; [|exact Hb].
    apply lookup_delete_Some. split; [|exact Eb]. intros <-.
    destruct (block_arena _ _ _ _ _ _ _ Hok _ _ _ _ Eb Hb) as (_ & _ & B1 & B2).
    destruct (class_facts i Hi) as (Hs & _). assert (s = Small i q) as -> by congruence.
    apply (Hout i x Hi Hx). unfold extent. change (zlen (frames _)) with 1. lia.
  - intros L xs x HL Hx. destruct (H10 L xs x HL Hx) as [Hh Hn]. split; [exact Hh|].
    change (walk k' x <> None). rewrite R6; [exact Hn|exact Hh|]. intros Hin.
    destruct (H11 L xs x a s HL Hx Ea ltac:(lia)) as (i & q & -> & -> & Hxi).
    destruct (H6 a _ Ea) as [_ Hi]. cbn in Hi. destruct (H5 i Hi) as [_ HL']. rewrite HL' in HL.
    injection HL as <-. apply (Hout i x Hi Hxi). lia.
  - intros L xs x b t HL Hx [Hb E]%Hmem Hin. by eapply H11.
  - by rewrite R8.
Qed.

(** ** Taking a block *)

(** What the operations leave alone. *)
Definition same_thread (h h' : heap) : Prop :=
  kc (hk h') = kc (hk h) /\ ksy (hk h') = ksy (hk h) /\ block_descs h' = block_descs h /\
  eflags (km (hk h')) = eflags (km (hk h)) /\
  forall t, pg_dir <$> pcbs (kth (hk h')) !! t = pg_dir <$> pcbs (kth (hk h)) !! t.

Lemma same_thread_trans h1 h2 h3 : same_thread h1 h2 -> same_thread h2 h3 -> same_thread h1 h3.
Proof. intros (? & ? & ? & ? & ?) (? & ? & ? & ? & ?). unfold same_thread. split_and!; congruence. Qed.

Lemma with_vspace_dirs pf va k t :
  pg_dir <$> pcbs (kth (with_vspace pf va k)) !! t = pg_dir <$> pcbs (kth k) !! t.
Proof.
  destruct pf; [done|]. cbn. destruct (decide (t = cur (kc k))) as [->|Hne].
  - rewrite lookup_alter_eq. by destruct (pcbs (kth k) !! cur (kc k)).
  - by rewrite lookup_alter_ne.
Qed.

Lemma free_in_cons_eq a x l : block2arena x = a -> free_in a (x :: l) = x :: free_in a l.
Proof. intros E. unfold free_in. by rewrite filter_cons_True. Qed.
Lemma free_in_cons_ne a x l : block2arena x <> a -> free_in a (x :: l) = free_in a l.
Proof. intros E. unfold free_in. by rewrite filter_cons_False. Qed.

Lemma free_in_length a l : zlen (free_in a l) <= zlen l.
Proof. unfold zlen, free_in. pose proof (length_filter (fun x => block2arena x = a) l). lia. Qed.

(** Words of memory at virtual addresses. *)
Definition zeroed (h : heap) (x n : Z) : Prop :=
  forall j, 0 <= j -> j * 4 < n -> exists a, walk (hk h) (x + j * 4) = Some a /\ word (ram (kmem (hk h))) a = 0.

Lemma free_in_sub pf d h Γ fs S va a i q x : heap_ok pf d h Γ fs S va -> S !! a = Some (Small i q) ->
  x ∈ free_in a (fs i) -> x ∈ blocks a i 0 (Z.to_nat (cblocks i)).
Proof.
  intros Hok Ea [Ex Hx]%list_elem_of_filter.
  destruct (ho_arenas _ _ _ _ _ _ _ Hok a _ Ea) as [_ Hi]. cbn in Hi.
  destruct (ho_blocks _ _ _ _ _ _ _ Hok i x Hi Hx) as (b & p & Eb & Hb).
  destruct (block_arena _ _ _ _ _ _ _ Hok _ _ _ _ Eb Hb) as (_ & E & _). assert (b = a) as -> by congruence.
  destruct Hb as (j & Hj & ->). apply blocks_elem. exists j. split; [lia|done].
Qed.

(** No two free blocks of an arena are the same. *)
Lemma free_in_count pf d h Γ fs S va a i q : heap_ok pf d h Γ fs S va -> S !! a = Some (Small i q) ->
  zlen (free_in a (fs i)) <= cblocks i.
Proof.
  intros Hok Ea. destruct (ho_arenas _ _ _ _ _ _ _ Hok a _ Ea) as [_ Hi]. cbn in Hi.
  destruct (ho_descs _ _ _ _ _ _ _ Hok i Hi) as [_ HL].
  assert (Hnd : NoDup (fs i)).
  { pose proof (lo_nodup _ _ (ho_lists _ _ _ _ _ _ _ Hok) _ _ HL) as Hnd. unfold foot in Hnd.
    apply NoDup_cons in Hnd as [_ Hnd]. by apply NoDup_app in Hnd as (Hnd & _). }
  assert (Hle : (length (free_in a (fs i)) <= length (blocks a i 0 (Z.to_nat (cblocks i))))%nat).
  { apply NoDup_incl_length; [by apply NoDup_ListNoDup, NoDup_filter|].
    intros x Hx%list_elem_of_In. apply list_elem_of_In. by eapply free_in_sub. }
  unfold blocks in Hle. rewrite length_fmap, length_seqZ in Hle. destruct (class_facts i Hi). unfold zlen. lia.
Qed.

Lemma take_block_ok pf d h Γ fs S va i b rest : heap_ok pf d h Γ fs S va -> 0 <= i < 7 ->
  fs i = b :: rest ->
  exists h', take_block (mk_desc (csize i) (cblocks i) (dlist d i)) h = Ok (b, h') /\
    heap_ok pf d h' (<[dlist d i := rest]> Γ) (upd fs i rest) S va /\ zeroed h' b (csize i) /\
    same_thread h h'.
Proof.
  intros Hok Hi Efs. destruct (ho_descs _ _ _ _ _ _ _ Hok i Hi) as [_ HL].
  destruct (ho_blocks _ _ _ _ _ _ _ Hok i b Hi ltac:(rewrite Efs; by left)) as (a & q & Ea & Hb).
  destruct (ho_arenas _ _ _ _ _ _ _ Hok a _ Ea) as [Eas _]. cbn [arena_of] in Eas.
  destruct (block_arena _ _ _ _ _ _ _ Hok _ _ _ _ Ea Hb) as (_ & Eba & Hb1 & Hb2).
  destruct (class_facts i Hi) as (Hs & Hs16 & _).
  pose proof (free_in_count _ _ _ _ _ _ _ _ _ _ Hok Ea) as Hcnt.
  rewrite Efs in HL, Eas, Hcnt. rewrite (free_in_cons_eq a b rest Eba), zlen_cons in Eas, Hcnt.
  destruct (list_pop_ok _ _ _ b rest (ho_lists _ _ _ _ _ _ _ Hok) HL) as (m & Ep & Hm & _ & Hfl).
  unfold take_block. cbn [free_list block_size]. rewrite (bindM_ok _ _ _ _ _ (on_mach_k _ _ _ _ Ep)).
  set (h1 := with_k (set_km m (hk h)) h).
  destruct (block_data _ _ _ _ _ _ _ _ _ _ _ Hok Ea Hb) as [Hha Hd].
  destruct (vzero_data (Z.to_nat (csize i / 4)) (hk h1) b) as (r & Ez & Hdw & Hz & _ & _).
  { by apply mem_ok_km, Hok. } { unfold heap_addr in Hha. lia. } { unfold heap_addr in Hha. zarith. }
  { intros j Hj. destruct (Hd (j * 4) ltac:(zarith)) as (p & Hp). by exists q, p. }
  rewrite (bindM_ok _ _ _ _ _ (on_k_ok _ _ _ _ Ez)). cbv zeta. rewrite Eba.
  rewrite (bindM_ok _ _ _ _ _ (get_arena_ok (with_k (set_ram r (hk h1)) h1) a _ Eas)).
  cbn [adesc acnt alarge]. unfold put_arena. rewrite bind_modify. eexists. split; [done|].
  pose proof (zlen_nonneg (free_in a rest)) as Hn. destruct (class_facts i Hi) as (_ & _ & Hcb & _).
  assert (Hdw' : data_written (set_km m (hk h)) r) by exact Hdw.
  replace (u32 (1 + zlen (free_in a rest) - 1)) with (zlen (free_in a rest)) by (rewrite u32_small; lia).
  split; [|split; [|by split]].
  - pose proof (heap_ok_arena_list _ _ _ m _ _ _ _ i rest a q Hok Ea Hm
      ltac:(intros x Hx; left; rewrite Efs; by right)
      ltac:(intros c Hc; rewrite Efs; symmetry; apply free_in_cons_ne; congruence)) as Hok1.
    exact (heap_ok_written _ _ _ r _ _ _ _ Hok1 Hdw').
  - intros j Hj0 Hj. destruct (Hz j ltac:(zarith)) as (p & Ew & Hw). exists p. split; [|exact Hw].
    cbn [with_k hk]. rewrite (dw_walk _ _ Hdw); [exact Ew|]. unfold heap_addr, is_word in *. lia.
Qed.

(** ** A new arena *)

Lemma free_in_blocks a b i n : 0 <= i < 7 -> 0 <= a -> a mod 4096 = 0 -> a + 4096 <= 4294967296 ->
  Z.of_nat n <= cblocks i ->
  free_in b (blocks a i 0 n) = if decide (a = b) then blocks a i 0 n else [].
Proof.
  intros Hi H0 Ha He Hn.
  assert (Hall : forall x, x ∈ blocks a i 0 n -> block2arena x = a).
  { intros x (j & Hj & ->)%blocks_elem. apply block2arena_val; try done;
      destruct (is_block_range a i (a + sizeof_arena + j * csize i) Hi) as [? ?];
      try (by exists j; split; [lia|]); destruct (class_facts i Hi) as (? & _); lia. }
  unfold free_in. destruct (decide (a = b)) as [->|Hne].
  - apply filter_all. exact Hall.
  - destruct (filter _ _) as [|x l] eqn:E; [done|]. exfalso.
    assert (Hx : x ∈ filter (fun x => block2arena x = b) (blocks a i 0 n)) by (rewrite E; by left).
    apply list_elem_of_filter in Hx as [Ex Hx]. apply Hne. by rewrite <- Ex, Hall.
Qed.

Lemma blocks_length a i n : zlen (blocks a i 0 n) = Z.of_nat n.
Proof. unfold zlen, blocks. rewrite length_fmap, length_seqZ. lia. Qed.

(** A page that has just joined the heap holds no list node. *)
Lemma new_blocks_fresh pf d h Γ fs S va a i q x : heap_ok pf d h Γ fs S va ->
  S !! a = Some (Small i q) -> fs i = [] -> is_block a i x -> fresh Γ x.
Proof.
  intros Hok Ea Efs Hb. destruct (block_arena _ _ _ _ _ _ _ Hok _ _ _ _ Ea Hb) as (Hi & _ & H1 & H2).
  destruct (arena_addr _ _ _ _ _ _ _ Hok _ _ Ea) as (H3 & _). destruct (class_facts i Hi) as (Hs & _).
  split; [unfold NULL; lia|]. intros L xs HL Hx.
  destruct (ho_own _ _ _ _ _ _ _ Hok L xs x a _ HL Hx Ea) as (j & p & [= <- <-] & -> & Hin).
  - unfold extent. change (zlen (frames _)) with 1. lia.
  - destruct (ho_descs _ _ _ _ _ _ _ Hok i Hi) as [_ HL']. rewrite HL', Efs in HL. injection HL as <-.
    by apply not_elem_of_nil in Hin.
Qed.

Lemma fill_new_ok pf d h Γ fs S va a i q : heap_ok pf d h Γ fs S va ->
  S !! a = Some (Small i q) -> fs i = [] ->
  let h2 := mk_heap (hk h) (<[a := mk_arena (desc_ptr d i) (cblocks i) false]> (arenas h)) (block_descs h) in
  let ys := blocks a i 0 (Z.to_nat (cblocks i)) in
  exists h', (old_status ← on_k (on_mach intr_disable);
              _ ← fill_arena (Z.to_nat (cblocks i)) a 0;
              _ ← on_k (on_mach (intr_set_status old_status));
              mret true) h2 = Ok (true, h') /\
    heap_ok pf d h' (<[dlist d i := ys]> Γ) (upd fs i ys) S va /\ same_thread h h'.
Proof.
  intros Hok Ea Efs h2 ys. destruct (ho_arenas _ _ _ _ _ _ _ Hok a _ Ea) as [_ Hi]. cbn in Hi.
  destruct (arena_addr _ _ _ _ _ _ _ Hok _ _ Ea) as (Ha0 & Ham & Hae & Hae2).
  destruct (ho_descs _ _ _ _ _ _ _ Hok i Hi) as [Hd HL]. rewrite Efs in HL.
  destruct (class_facts i Hi) as (_ & _ & Hcb & _).
  rewrite (bindM_ok _ _ _ _ _ (on_mach_k _ h2 _ _ (intr_disable_ok _))).
  set (h3 := with_k _ h2).
  destruct (fill_arena_ok d a i (cblocks i) (Z.to_nat (cblocks i)) h3 Γ [] 0) as (m & E & Hm & He);
    try done; try lia.
  - apply lists_ok_if, Hok.
  - cbn [h3 with_k arenas h2]. by rewrite lookup_insert_eq.
  - intros x (j & Hj & ->)%blocks_elem. apply (new_blocks_fresh pf d h Γ fs S va a i q); try done.
    exists j. split; [lia|done].
  - rewrite (bindM_ok _ _ _ _ _ E). cbn [app] in Hm. fold ys in Hm.
    rewrite (bindM_ok _ _ _ _ _ (on_mach_k _ (with_k (set_km m (hk h3)) h3) _ _ (intr_set_status_ok _ _))).
    eexists. split; [done|]. split.
    + pose proof (heap_ok_arena_list pf d h (mach_if (status_of (km (hk h2))) m) Γ fs S va i ys a q Hok Ea
        (lists_ok_if _ _ _ Hm)) as Hfin.
      assert (El : zlen (free_in a ys) = cblocks i).
      { unfold ys. rewrite free_in_blocks, decide_True, blocks_length by (done || lia). lia. }
      rewrite El in Hfin. apply Hfin.
      * intros x (j & Hj & ->)%blocks_elem. right. exists j. split; [lia|done].
      * intros b Hb. unfold ys. rewrite free_in_blocks, decide_False, Efs by (congruence || lia). done.
    + unfold same_thread. split_and!; try done. cbn [with_k hk set_km km mach_if eflags].
      rewrite He. cbn [h3 with_k hk set_km km mach_if eflags h2]. by rewrite with_if_with_if, with_if_id.
Qed.

Lemma heap_addr_null a : 0x400000 <= a -> a <> NULL.
Proof. unfold NULL. lia. Qed.

(** Pages for a new arena, cleared. *)
Lemma new_pages pf d h Γ fs S va cnt : heap_ok pf d h Γ fs S va -> 0 < cnt < 3840 ->
  cnt <= len (vaddr_bitmap va) -> budget pf (hk h) (Z.to_nat cnt) ->
  (malloc_page pf cnt (hk h) = Ok (NULL, hk h) /\ no_run va cnt) \/
  exists a k' r va' qs, malloc_page pf cnt (hk h) = Ok (a, k') /\ a <> NULL /\
    vzero (Z.to_nat (cnt * 1024)) a k' = Ok (tt, set_ram r k') /\ zlen qs = cnt /\
    same_thread h (with_k (set_ram r k') h) /\ S !! a = None /\
    (forall q o, q ∈ qs -> 0 <= o < 1024 -> word r (q + o * 4) = 0) /\
    forall s, frames s = qs -> spec_ok s ->
      heap_ok pf d (mk_heap (set_ram r k') (<[a := arena_of d fs a s]> (arenas h)) (block_descs h))
        Γ fs (<[a := s]> S) va'.
Proof.
  intros Hok Hc Hlen Hbud.
  destruct (malloc_page_ok pf va (hk h) cnt (ho_mem _ _ _ _ _ _ _ Hok) (ho_space _ _ _ _ _ _ _ Hok) Hc Hlen Hbud)
    as [[E Hno]|(a & k' & va' & qs & E & Hal)]; [by left|right].
  destruct (clear_allocated _ _ _ _ _ _ _ _ Hal ltac:(lia)) as (r & Ez & Hdw & Hz & _).
  destruct (al_km _ _ _ _ _ _ _ _ Hal) as (K1 & K2 & K3). pose proof (al_count _ _ _ _ _ _ _ _ Hal) as Hn.
  assert (Hnull : a <> NULL).
  { destruct (al_index _ _ _ _ _ _ _ _ Hal) as (j & Hj & -> & _).
    destruct (ho_space _ _ _ _ _ _ _ Hok) as (_ & [_ _ Hs _] & _). apply heap_addr_null. lia. }
  assert (Hq : qs <> []) by (intros ->; change (zlen (@nil Z)) with 0 in Hn; lia).
  exists a, k', r, va', qs. split; [exact E|]. split; [exact Hnull|]. split; [exact Ez|]. split; [exact Hn|].
  split; [|split; [|split; [exact Hz|]]].
  - unfold same_thread. cbn [with_k hk set_ram set_kmem kc ksy km block_descs kth]. rewrite K1, K2, K3.
    destruct (al_rest _ _ _ _ _ _ _ _ Hal) as (_ & _ & Et & _). rewrite Et.
    split_and!; try done. intros t. apply with_vspace_dirs.
  - apply (heap_ok_grow pf d h k' Γ fs S va va' a cnt (Large qs) Hok Hal Hq). lia.
  - intros s Es Hsp. subst qs.
    destruct (heap_ok_grow pf d h k' Γ fs S va va' a cnt s Hok Hal Hsp ltac:(lia)) as [Hok' _].
    exact (heap_ok_written _ _ _ r _ _ _ _ Hok' Hdw).
Qed.

Lemma new_arena_ok pf d h Γ fs S va i : heap_ok pf d h Γ fs S va -> 0 <= i < 7 -> fs i = [] ->
  1 <= len (vaddr_bitmap va) -> budget pf (hk h) 1 ->
  (new_arena pf (desc_ptr d i) h = Ok (false, h) /\ no_run va 1) \/
  exists a q h' va', new_arena pf (desc_ptr d i) h = Ok (true, h') /\ S !! a = None /\
    (let ys := blocks a i 0 (Z.to_nat (cblocks i)) in
     heap_ok pf d h' (<[dlist d i := ys]> Γ) (upd fs i ys) (<[a := Small i q]> S) va') /\
    same_thread h h'.
Proof.
  intros Hok Hi Efs Hlen Hbud. unfold new_arena.
  destruct (new_pages pf d h Γ fs S va 1 Hok ltac:(lia) Hlen Hbud)
    as [[E Hno]|(a & k' & r & va' & qs & E & Hnull & Ez & Hn & Hst & Hnew & _ & Hgrow)];
    rewrite (bindM_ok _ _ _ _ _ (on_k_ok _ _ _ _ E)).
  { left. split; [|exact Hno]. by rewrite with_k_id. }
  right. rewrite (proj2 (Z.eqb_neq _ _) Hnull).
  destruct qs as [|q [|q' qs]]; [done| |unfold zlen in Hn; cbn in Hn; lia].
  destruct (ho_descs _ _ _ _ _ _ _ Hok i Hi) as [Hd _].
  change (Z.to_nat (1 * 1024)) with 1024%nat in Ez.
  rewrite (bindM_ok _ _ _ _ _ (on_k_ok _ (with_k k' h) _ _ Ez)).
  rewrite (bindM_ok _ _ _ _ _ (get_desc_ok (with_k _ (with_k k' h)) _ _ Hd)). cbn [blocks_per_arena].
  unfold put_arena. rewrite bind_modify.
  pose proof (Hgrow (Small i q) eq_refl Hi) as Hg.
  destruct (fill_new_ok _ _ _ _ _ _ _ a i q Hg ltac:(by rewrite lookup_insert_eq) Efs) as (h' & Ef & Hok' & Hst').
  cbn [hk arenas block_descs] in Ef. rewrite insert_insert_eq in Ef.
  exists a, q, h', va'. split; [exact Ef|]. split; [exact Hnew|]. split; [exact Hok'|].
  apply (same_thread_trans h _ h' Hst). exact Hst'.
Qed.

(** ** What is in use, before and after *)

(** [x] with its [n] bytes is now in use, it was not, and nothing else changed. *)
Definition granted (S : gmap Z aspec) (fs : Z -> list Z) (S' : gmap Z aspec) (fs' : Z -> list Z) (b n : Z) : Prop :=
  (forall m, ~ object S fs b m) /\
  forall x m, object S' fs' x m <-> object S fs x m \/ x = b /\ m = n.

Lemma class_nodup pf d h Γ fs S va i : heap_ok pf d h Γ fs S va -> 0 <= i < 7 -> NoDup (fs i).
Proof.
  intros Hok Hi. destruct (ho_descs _ _ _ _ _ _ _ Hok i Hi) as [_ HL].
  pose proof (lo_nodup _ _ (ho_lists _ _ _ _ _ _ _ Hok) _ _ HL) as Hnd. unfold foot in Hnd.
  apply NoDup_cons in Hnd as [_ Hnd]. by apply NoDup_app in Hnd as (Hnd & _).
Qed.

(** A block in use is not also the start of a large object. *)
Lemma block_no_large pf d h Γ fs S va a i q x b qs : heap_ok pf d h Γ fs S va ->
  S !! a = Some (Small i q) -> is_block a i x -> S !! b = Some (Large qs) -> x <> b + sizeof_arena.
Proof.
  intros Hok Ea Hb Eb ->. destruct (block_arena _ _ _ _ _ _ _ Hok _ _ _ _ Ea Hb) as (Hi & _ & H1 & H2).
  destruct (arena_addr _ _ _ _ _ _ _ Hok _ _ Eb) as (_ & _ & _ & H4). destruct (class_facts i Hi) as (Hs & _).
  assert (Hab : a <> b) by congruence.
  destruct (ho_apart _ _ _ _ _ _ _ Hok a b _ _ Ea Eb Hab) as [Hap _]. unfold extent in *.
  change (zlen (frames (Small i q))) with 1 in Hap. unfold sizeof_arena in *. lia.
Qed.

Lemma granted_take pf d h Γ fs S va i b rest : heap_ok pf d h Γ fs S va -> 0 <= i < 7 ->
  fs i = b :: rest -> granted S fs S (upd fs i rest) b (csize i).
Proof.
  intros Hok Hi Efs. pose proof (class_nodup _ _ _ _ _ _ _ i Hok Hi) as Hnd.
  destruct (ho_blocks _ _ _ _ _ _ _ Hok i b Hi ltac:(rewrite Efs; by left)) as (a & q & Ea & Hb).
  rewrite Efs in Hnd. apply NoDup_cons in Hnd as [Hbr _]. split.
  - intros m Ho. inversion Ho as [c j p x Ec Hc Hf E1 E2|c ps Ec E1 E2]; subst.
    + destruct (block_unique _ _ _ _ _ _ _ Hok _ _ _ _ _ _ _ Ec Ea Hc Hb) as (_ & -> & _).
      apply Hf. rewrite Efs. by left.
    + by eapply block_no_large.
  - intros x m. split.
    + intros [c j p y Ec Hc Hf|c ps Ec]; [|left; by constructor].
      destruct (decide (j = i)) as [->|Hne]; [|left; eapply obj_small; [done|done|by rewrite upd_ne in Hf]].
      rewrite upd_eq in Hf. destruct (decide (y = b)) as [->|Hyb]; [by right|]. left.
      eapply obj_small; [done|done|]. rewrite Efs. intros [?|?]%elem_of_cons; done.
    + intros [[c j p y Ec Hc Hf|c ps Ec]|[-> ->]]; [|by constructor|].
      * eapply obj_small; [done|done|]. destruct (decide (j = i)) as [->|Hne]; [|by rewrite upd_ne].
        rewrite upd_eq. intros Hy. apply Hf. rewrite Efs. by right.
      * eapply obj_small; [done|done|]. by rewrite upd_eq.
Qed.

(** A new arena of free blocks changes nothing. *)
Lemma object_new_arena pf d h Γ fs S va a i q : S !! a = None -> fs i = [] ->
  heap_ok pf d h Γ (upd fs i (blocks a i 0 (Z.to_nat (cblocks i)))) (<[a := Small i q]> S) va ->
  forall x m, object (<[a := Small i q]> S) (upd fs i (blocks a i 0 (Z.to_nat (cblocks i)))) x m <->
    object S fs x m.
Proof.
  intros Hnew Efs Hok x m. set (ys := blocks a i 0 (Z.to_nat (cblocks i))) in *.
  assert (Ea : <[a := Small i q]> S !! a = Some (Small i q)) by apply lookup_insert_eq.
  destruct (ho_arenas _ _ _ _ _ _ _ Hok a _ Ea) as [_ Hi]. cbn in Hi. destruct (class_facts i Hi) as (_ & _ & Hcb & _).
  split.
  - intros [c j p y Ec Hc Hf|c ps Ec].
    + destruct (decide (c = a)) as [->|Hne].
      * rewrite Ea in Ec. injection Ec as <- <-. exfalso. apply Hf. rewrite upd_eq.
        destruct Hc as (u & Hu & ->). apply blocks_elem. exists u. split; [lia|done].
      * rewrite lookup_insert_ne in Ec by done. eapply obj_small; [done|done|].
        destruct (decide (j = i)) as [->|Hji]; [rewrite Efs; apply not_elem_of_nil|by rewrite upd_ne in Hf].
    + apply lookup_insert_Some in Ec as [[_ E]|[_ Ec]]; [done|by constructor].
  - intros [c j p y Ec Hc Hf|c ps Ec].
    + assert (Hne : a <> c) by congruence.
      assert (Ec' : <[a := Small i q]> S !! c = Some (Small j p)) by (by rewrite lookup_insert_ne).
      eapply obj_small; [done|done|]. destruct (decide (j = i)) as [->|Hji]; [|by rewrite upd_ne].
      rewrite upd_eq. intros (u & Hu & ->)%blocks_elem.
      destruct (block_unique _ _ _ _ _ _ _ Hok _ _ _ _ _ _ (a + sizeof_arena + u * csize i) Ea Ec') as (? & _);
        [exists u; split; [lia|done]|done|done].
    + constructor. rewrite lookup_insert_ne; [done|]. congruence.
Qed.

Lemma granted_large pf d h Γ fs S va a qs : S !! a = None -> heap_ok pf d h Γ fs (<[a := Large qs]> S) va ->
  granted S fs (<[a := Large qs]> S) fs (a + sizeof_arena) (4096 * zlen qs - sizeof_arena).
Proof.
  intros Hnew Hok. assert (Ea : <[a := Large qs]> S !! a = Some (Large qs)) by apply lookup_insert_eq.
  assert (Hin : forall x m, object S fs x m -> object (<[a := Large qs]> S) fs x m).
  { intros x m [c j p y Ec Hc Hf|c ps Ec]; [eapply obj_small|constructor]; try done;
      rewrite lookup_insert_ne; try done; congruence. }
  split.
  - intros m Ho. inversion Ho as [c j p x Ec Hc Hf E1 E2|c ps Ec E1 E2].
    + eapply (block_no_large _ _ _ _ _ _ _ c j p (a + sizeof_arena) a qs Hok); try done.
      rewrite lookup_insert_ne; [done|congruence].
    + assert (c = a) by lia. congruence.
  - intros x m. split.
    + intros [c j p y Ec Hc Hf|c ps Ec]; apply lookup_insert_Some in Ec as [[<- E]|[_ Ec]]; try done.
      * left. by eapply obj_small.
      * injection E as <-. by right.
      * left. by constructor.
    + intros [Ho|[-> ->]]; [by apply Hin|by constructor].
Qed.
