(* ===== verification/Malloc.v ===== *)
(** * Malloc: sys_malloc and sys_free are correct

    The two operations of Heap.v against the invariant of HeapOk.v, run by one
    thread that finds the lock of its pool free. *)

From S2P Require Import Prelude Interrupt Lists Bitmap Kernel Paging Thread Sync IoQueue Memory DataPages Heap HeapOk.

Lemma lookup_class d i j xs (Γ : gmap Z (list Z)) : j <> i -> <[dlist d i := xs]> Γ !! dlist d j = Γ !! dlist d j.
Proof. intros Hne. rewrite lookup_insert_ne; [done|]. intros E%dlist_inj. congruence. Qed.

(** Lists that are not free lists stay as they are. *)
Definition same_lists (d : Z) (Γ Γ' : gmap Z (list Z)) : Prop :=
  forall L, (forall i, 0 <= i < 7 -> dlist d i <> L) -> Γ' !! L = Γ !! L.

Lemma same_lists_insert d Γ i ys : 0 <= i < 7 -> same_lists d Γ (<[dlist d i := ys]> Γ).
Proof. intros Hi L HL. rewrite lookup_insert_ne; [done|]. by apply HL. Qed.

Lemma same_lists_trans d Γ1 Γ2 Γ3 : same_lists d Γ1 Γ2 -> same_lists d Γ2 Γ3 -> same_lists d Γ1 Γ3.
Proof. intros H1 H2 L HL. by rewrite H2, H1. Qed.

Lemma no_idle_take pf d h Γ fs S va i b rest : heap_ok pf d h Γ fs S va -> 0 <= i < 7 ->
  fs i = b :: rest -> (forall a j q, S !! a = Some (Small j q) -> block2arena b <> a ->
    exists x, is_block a j x /\ x ∉ fs j) -> no_idle_arena S (upd fs i rest).
Proof.
  intros Hok Hi Efs Hidle a j q Ea. pose proof (class_nodup _ _ _ _ _ _ _ i Hok Hi) as Hnd.
  rewrite Efs in Hnd. apply NoDup_cons in Hnd as [Hbr _].
  destruct (ho_blocks _ _ _ _ _ _ _ Hok i b Hi ltac:(rewrite Efs; by left)) as (c & p & Ec & Hb).
  destruct (block_arena _ _ _ _ _ _ _ Hok _ _ _ _ Ec Hb) as (_ & Eb & _).
  destruct (decide (c = a)) as [->|Hca].
  - rewrite Ea in Ec. injection Ec as -> ->. exists b. split; [done|]. by rewrite upd_eq.
  - destruct (Hidle a j q Ea ltac:(congruence)) as (x & Hx & Hf). exists x. split; [done|].
    destruct (decide (j = i)) as [->|Hne]; [|by rewrite upd_ne]. rewrite upd_eq. intros Hin. apply Hf.
    rewrite Efs. by right.
Qed.

(** The state after a successful call. *)
Record allocates (pf : pool_flag) (d : Z) (h h' : heap) (Γ : gmap Z (list Z)) (fs : Z -> list Z)
    (S : gmap Z aspec) (b n : Z) : Prop := {
  as_ok : exists Γ' fs' S' va', heap_ok pf d h' Γ' fs' S' va' /\ same_lists d Γ Γ' /\
    granted S fs S' fs' b n /\ (no_idle_arena S fs -> no_idle_arena S' fs');
  as_zero : zeroed h' b n;
  as_thread : same_thread h h' }.

Lemma free_block_null pf d h Γ fs S va i b rest : heap_ok pf d h Γ fs S va -> 0 <= i < 7 ->
  fs i = b :: rest -> b <> NULL.
Proof.
  intros Hok Hi E. destruct (ho_blocks _ _ _ _ _ _ _ Hok i b Hi ltac:(rewrite E; by left)) as (a & q & Ea & Hb).
  destruct (block_arena _ _ _ _ _ _ _ Hok _ _ _ _ Ea Hb) as (_ & _ & H1 & _).
  destruct (arena_addr _ _ _ _ _ _ _ Hok _ _ Ea) as (H2 & _). apply heap_addr_null. lia.
Qed.

Lemma no_idle_new_arena pf d h Γ fs S va a i q b rest :
  blocks a i 0 (Z.to_nat (cblocks i)) = b :: rest -> S !! a = None ->
  heap_ok pf d h Γ (upd fs i (b :: rest)) (<[a := Small i q]> S) va -> no_idle_arena S fs -> fs i = [] ->
  no_idle_arena (<[a := Small i q]> S) (upd (upd fs i (b :: rest)) i rest).
Proof.
  intros Eys Hnew Hok Hidle Efs. assert (Ea : <[a := Small i q]> S !! a = Some (Small i q)) by apply lookup_insert_eq.
  destruct (ho_arenas _ _ _ _ _ _ _ Hok a _ Ea) as [_ Hi]. cbn in Hi. destruct (class_facts i Hi) as (_ & _ & Hcb & _).
  assert (Hin : forall x, x ∈ b :: rest -> is_block a i x).
  { rewrite <- Eys. intros x (u & Hu & ->)%blocks_elem. exists u. split; [lia|done]. }
  apply (no_idle_take _ _ _ _ _ _ _ i b rest Hok Hi ltac:(by rewrite upd_eq)). intros c j p Ec Hbc.
  destruct (block_arena _ _ _ _ _ _ _ Hok _ _ _ _ Ea (Hin b ltac:(by left))) as (_ & Ba & _).
  assert (Hca : a <> c) by congruence. pose proof Ec as Ec'. rewrite lookup_insert_ne in Ec by done.
  destruct (Hidle c j p Ec) as (x & Hx & Hf). exists x. split; [done|].
  destruct (decide (j = i)) as [->|Hne]; [|by rewrite upd_ne]. rewrite upd_eq. intros Hxb.
  by destruct (block_unique _ _ _ _ _ _ _ Hok _ _ _ _ _ _ x Ea Ec' (Hin x Hxb) Hx).
Qed.

(** An empty class is refilled and its first block taken. *)
Lemma malloc_refill_ok pf d h Γ fs S va i : heap_ok pf d h Γ fs S va -> 0 <= i < 7 -> fs i = [] ->
  1 <= len (vaddr_bitmap va) -> budget pf (hk h) 1 ->
  (new_arena pf (desc_ptr d i) h = Ok (false, h) /\ no_run va 1) \/
  exists h1 b h', new_arena pf (desc_ptr d i) h = Ok (true, h1) /\
    take_block (mk_desc (csize i) (cblocks i) (dlist d i)) h1 = Ok (b, h') /\ b <> NULL /\
    allocates pf d h h' Γ fs S b (csize i).
Proof.
  intros Hok Hi Efs Hlen Hbud.
  destruct (new_arena_ok pf d h Γ fs S va i Hok Hi Efs Hlen Hbud)
    as [?|(a & q & h1 & va' & E & Hnew & Hok1 & Hst1)]; [by left|right].
  set (ys := blocks a i 0 (Z.to_nat (cblocks i))) in *. cbv zeta in Hok1.
  destruct (class_facts i Hi) as (_ & _ & Hcb & _).
  pose proof (object_new_arena pf d h1 (<[dlist d i := ys]> Γ) fs S va' a i q Hnew Efs Hok1) as Hobj.
  pose proof (blocks_length a i (Z.to_nat (cblocks i))) as Hl. fold ys in Hobj, Hl.
  destruct ys as [|b rest] eqn:Eys; [change (zlen (@nil Z)) with 0 in Hl; lia|].
  destruct (take_block_ok _ _ _ _ _ _ _ i b rest Hok1 Hi) as (h' & Et & Hok2 & Hz & Hst2); [by rewrite upd_eq|].
  exists h1, b, h'. split; [exact E|]. split; [exact Et|].
  split; [by eapply (free_block_null _ _ _ _ _ _ _ i b rest Hok1 Hi), upd_eq|].
  split; [|exact Hz|by eapply same_thread_trans]. do 4 eexists. split; [exact Hok2|]. split; [|split].
  - eapply same_lists_trans; apply same_lists_insert; exact Hi.
  - destruct (granted_take _ _ _ _ _ _ _ i b rest Hok1 Hi ltac:(by rewrite upd_eq)) as [G1 G2].
    split; [intros m Hm; apply (G1 m), Hobj, Hm|]. intros x m. rewrite (G2 x m). by rewrite Hobj.
  - intros Hidle. by apply (no_idle_new_arena pf d h1 (<[dlist d i := b :: rest]> Γ) fs S va' a i q b rest).
Qed.

Lemma malloc_small_ok pf d h Γ fs S va size : heap_ok pf d h Γ fs S va -> size <= 1024 ->
  1 <= len (vaddr_bitmap va) -> budget pf (hk h) 1 ->
  exists i, class_of size i /\
    ((malloc_small pf d size h = Ok (NULL, h) /\ fs i = [] /\ no_run va 1) \/
     exists b h', malloc_small pf d size h = Ok (b, h') /\ b <> NULL /\ allocates pf d h h' Γ fs S b (csize i)).
Proof.
  intros Hok Hs Hlen Hbud.
  destruct (find_desc_ok d h size Hs) as (i & Hc & Ei).
  { intros i Hi. split; [done|]. by apply (ho_descs _ _ _ _ _ _ _ Hok). }
  exists i. split; [exact Hc|]. pose proof Hc as (Hi & _). destruct (ho_descs _ _ _ _ _ _ _ Hok i Hi) as [Hd HL].
  unfold malloc_small. rewrite (bindM_ok _ _ _ _ _ Ei). cbv zeta.
  rewrite (bindM_ok _ _ _ _ _ (get_desc_ok _ _ _ Hd)). cbn [free_list].
  rewrite (bindM_ok _ _ _ _ _ (on_mach_read _ _ _ (list_empty_ok _ _ _ _ (ho_lists _ _ _ _ _ _ _ Hok) HL))).
  destruct (fs i) as [|b rest] eqn:Efs.
  - rewrite bool_decide_eq_true_2 by done.
    destruct (malloc_refill_ok pf d h Γ fs S va i Hok Hi Efs Hlen Hbud) as [[E Hno]|(h1 & b & h' & E & Et & Hb & Ha)];
      rewrite (bindM_ok _ _ _ _ _ E); cbn [negb]; [left; by split|right]. by exists b, h'.
  - rewrite bool_decide_eq_false_2, bind_mret by done. cbn [negb]. right.
    destruct (take_block_ok _ _ _ _ _ _ _ i b rest Hok Hi Efs) as (h' & Et & Hok2 & Hz & Hst2).
    exists b, h'. split; [exact Et|]. split; [exact (free_block_null _ _ _ _ _ _ _ i b rest Hok Hi Efs)|].
    split; [|exact Hz|exact Hst2]. do 4 eexists. split; [exact Hok2|]. split; [by apply same_lists_insert|].
    split; [by eapply granted_take|]. intros Hidle. apply (no_idle_take _ _ _ _ _ _ _ i b rest Hok Hi Efs).
    intros c j p Ec _. by eapply Hidle.
Qed.

(** The pages of a large request. *)
Definition pages_for (size : Z) : Z := DIV_ROUND_UP (u32 (size + sizeof_arena)) PG_SIZE.
Definition MAX_REQUEST : Z := 3839 * PG_SIZE - sizeof_arena.

Lemma pages_for_facts size : 0 < size <= MAX_REQUEST ->
  0 < pages_for size < 3840 /\ size <= 4096 * pages_for size - sizeof_arena < size + 4096.
Proof.
  unfold MAX_REQUEST, pages_for, DIV_ROUND_UP, PG_SIZE, sizeof_arena. intros Hs.
  rewrite (u32_small (size + 12)), (u32_small (size + 12 + 4096)), u32_small by lia. zarith.
Qed.

Lemma large_zeroed pf d h Γ fs S va a qs : heap_ok pf d h Γ fs S va -> S !! a = Some (Large qs) ->
  (forall q o, q ∈ qs -> 0 <= o < 1024 -> word (ram (kmem (hk h))) (q + o * 4) = 0) ->
  zeroed h (a + sizeof_arena) (4096 * zlen qs - sizeof_arena).
Proof.
  intros Hok Ea Hz j Hj0 Hj. unfold sizeof_arena in *. set (o := 12 + j * 4).
  destruct (arena_addr _ _ _ _ _ _ _ Hok _ _ Ea) as (H1 & H2 & H3 & _). unfold extent in H3. cbn [frames] in H3.
  destruct (ho_pages _ _ _ _ _ _ _ Hok _ _ Ea) as (_ & Hr & _).
  destruct (lookup_lt_is_Some_2 qs (Z.to_nat (o / 4096))) as [q Hq]; [unfold zlen, o in *; zarith|].
  destruct (Hr _ q Hq) as (Hw & (i & Hi & Ei) & _).
  destruct (page_at_word _ i (pools_wf _ pf (mo_pools _ (ho_mem _ _ _ _ _ _ _ Hok))) Hi) as (_ & Hqa & _).
  rewrite <- Ei in Hqa. exists (q + o mod 4096).
  replace (a + 12 + j * 4) with (a + Z.of_nat (Z.to_nat (o / 4096)) * 4096 + o mod 4096) by (unfold o; zarith).
  assert (Ho : 0 <= o < 4096 * zlen qs) by (unfold o; lia). split.
  - apply walk_offset; [unfold is_word; zarith|zarith|exact Hw|zarith|exact Hqa].
  - replace (q + o mod 4096) with (q + (o mod 4096 / 4) * 4) by (unfold o; zarith).
    apply Hz; [by eapply list_elem_of_lookup_2|zarith].
Qed.

Lemma malloc_large_ok pf d h Γ fs S va size : heap_ok pf d h Γ fs S va -> 0 < size <= MAX_REQUEST ->
  pages_for size <= len (vaddr_bitmap va) -> budget pf (hk h) (Z.to_nat (pages_for size)) ->
  (malloc_large pf size h = Ok (NULL, h) /\ no_run va (pages_for size)) \/
  exists b h', malloc_large pf size h = Ok (b, h') /\ b <> NULL /\
    allocates pf d h h' Γ fs S b (4096 * pages_for size - sizeof_arena).
Proof.
  intros Hok Hs Hlen Hbud. destruct (pages_for_facts size Hs) as [Hp _].
  unfold malloc_large. cbv zeta. fold (pages_for size).
  destruct (new_pages pf d h Γ fs S va (pages_for size) Hok Hp Hlen Hbud)
    as [[E Hno]|(a & k' & r & va' & qs & E & Hnull & Ez & Hn & Hst & Hnew & Hz & Hgrow)];
    rewrite (bindM_ok _ _ _ _ _ (on_k_ok _ _ _ _ E)).
  { left. split; [|exact Hno]. by rewrite with_k_id. }
  right. rewrite (proj2 (Z.eqb_neq _ _) Hnull).
  rewrite (bindM_ok _ _ _ _ _ (on_k_ok _ (with_k k' h) _ _ Ez)). unfold put_arena. rewrite bind_modify.
  assert (Hq : qs <> []) by (intros ->; change (zlen (@nil Z)) with 0 in Hn; lia).
  pose proof (Hgrow (Large qs) eq_refl Hq) as Hok'.
  assert (Ea : <[a := Large qs]> S !! a = Some (Large qs)) by apply lookup_insert_eq.
  destruct (arena_addr _ _ _ _ _ _ _ Hok' _ _ Ea) as (H1 & _ & H3 & _). unfold extent in H3. cbn [frames] in H3.
  assert (Eb : u32 (a + sizeof_arena) = a + sizeof_arena)
    by (apply u32_small; unfold sizeof_arena; lia).
  cbn [arena_of] in Hok'. rewrite Hn in Hok'. rewrite Eb. do 2 eexists. split; [reflexivity|].
  split; [unfold NULL, sizeof_arena; lia|].
  pose proof (granted_large _ _ _ _ _ _ _ _ _ Hnew Hok') as Hg. rewrite Hn in Hg. split.
  - do 4 eexists. split; [exact Hok'|]. split; [by intros L _|]. split; [exact Hg|].
    intros Hidle c i q Ec. apply lookup_insert_Some in Ec as [[_ ?]|[_ Ec]]; [done|]. by eapply Hidle.
  - pose proof (large_zeroed _ _ _ _ _ _ _ _ _ Hok' Ea Hz) as Hzz. rewrite Hn in Hzz. exact Hzz.
  - exact Hst.
Qed.

(** ** Counting the free blocks of an arena *)

Lemma blocks_nodup a i n : 0 <= i < 7 -> NoDup (blocks a i 0 n).
Proof.
  intros Hi. destruct (class_facts i Hi) as (Hs & _). apply NoDup_fmap_2_strong; [|apply NoDup_seqZ].
  intros x y _ _ E. nia.
Qed.

(** An arena is wholly free exactly if it has as many free blocks as blocks. *)
Lemma arena_full pf d h Γ fs S va a i q : heap_ok pf d h Γ fs S va -> S !! a = Some (Small i q) ->
  zlen (free_in a (fs i)) = cblocks i -> forall x, is_block a i x -> x ∈ fs i.
Proof.
  intros Hok Ea Hn x (j & Hj & ->). destruct (ho_arenas _ _ _ _ _ _ _ Hok a _ Ea) as [_ Hi]. cbn in Hi.
  pose proof (class_nodup _ _ _ _ _ _ _ i Hok Hi) as Hnd.
  assert (Hin : List.incl (blocks a i 0 (Z.to_nat (cblocks i))) (free_in a (fs i))).
  { apply NoDup_length_incl.
    - by apply NoDup_ListNoDup, NoDup_filter.
    - pose proof (blocks_length a i (Z.to_nat (cblocks i))). unfold zlen in *. lia.
    - intros x Hx%list_elem_of_In. apply list_elem_of_In. by eapply free_in_sub. }
  assert (Hx : a + sizeof_arena + j * csize i ∈ blocks a i 0 (Z.to_nat (cblocks i)))
    by (apply blocks_elem; exists j; split; [lia|done]).
  apply list_elem_of_In, Hin, list_elem_of_In, list_elem_of_filter in Hx. by destruct Hx.
Qed.

Lemma arena_not_full pf d h Γ fs S va a i q : heap_ok pf d h Γ fs S va -> S !! a = Some (Small i q) ->
  zlen (free_in a (fs i)) < cblocks i -> exists x, is_block a i x /\ x ∉ fs i.
Proof.
  intros Hok Ea Hn. destruct (ho_arenas _ _ _ _ _ _ _ Hok a _ Ea) as [_ Hi]. cbn in Hi.
  destruct (decide (Forall (fun x => x ∈ fs i) (blocks a i 0 (Z.to_nat (cblocks i))))) as [Hall|Hex].
  - exfalso. rewrite Forall_forall in Hall.
    assert (Hle : (length (blocks a i 0 (Z.to_nat (cblocks i))) <= length (free_in a (fs i)))%nat).
    { apply NoDup_incl_length; [by apply NoDup_ListNoDup, blocks_nodup|].
      intros x Hx%list_elem_of_In. apply list_elem_of_In, list_elem_of_filter. split; [|by apply Hall].
      apply blocks_elem in Hx as (j & Hj & ->).
      destruct (block_arena _ _ _ _ _ _ _ Hok a i q (a + sizeof_arena + j * csize i) Ea) as (_ & E & _); [|done].
      exists j. destruct (class_facts i Hi) as (_ & _ & Hc & _). split; [lia|done]. }
    pose proof (blocks_length a i (Z.to_nat (cblocks i))). unfold zlen in *. lia.
  - apply not_Forall_Exists in Hex; [|apply _]. apply Exists_exists in Hex as (x & Hx & Hf).
    apply blocks_elem in Hx as (j & Hj & ->). exists (a + sizeof_arena + j * csize i). split; [|done].
    destruct (class_facts i Hi) as (_ & _ & Hc & _). exists j. split; [lia|done].
Qed.

(** ** Giving back *)

(** The pages of the arena at [a] are back: unmapped, their frames free in the
    pool, their bits clear. *)
Definition pages_back (pf : pool_flag) (h : heap) (va : virtual_addr) (a : Z) (s : aspec) : Prop :=
  (forall i q, frames s !! i = Some q -> walk (hk h) (a + Z.of_nat i * 4096) = None /\ page_free (pool_of pf (kmem (hk h))) q) /\
  forall j, in_bits (vaddr_bitmap va) j -> a <= vaddr_start va + j * 4096 < a + extent s -> bit (vaddr_bitmap va) j = false.

(** The object at [b] is the only one in the arena at [a]. *)
Definition last_in (S : gmap Z aspec) (fs : Z -> list Z) (a : Z) (s : aspec) (b : Z) : Prop :=
  a <= b < a + extent s /\ forall x m, object S fs x m -> a <= x < a + extent s -> x = b.

Lemma extent_unique pf d h Γ fs S va a c s t b : heap_ok pf d h Γ fs S va -> S !! a = Some s -> S !! c = Some t ->
  a <= b < a + extent s -> c <= b < c + extent t -> c = a /\ t = s.
Proof.
  intros Hok Ea Ec Ha Hc. destruct (decide (c = a)) as [->|Hne]; [split; congruence|].
  destruct (ho_apart _ _ _ _ _ _ _ Hok c a _ _ Ec Ea Hne) as [Hap _]. lia.
Qed.

(** The state after the object at [b] has been given back. *)
Record frees (pf : pool_flag) (d : Z) (h h' : heap) (Γ : gmap Z (list Z)) (fs : Z -> list Z)
    (S : gmap Z aspec) (b : Z) : Prop := {
  fr_ok : exists Γ' fs' S' va', heap_ok pf d h' Γ' fs' S' va' /\ same_lists d Γ Γ' /\
    (forall x m, object S' fs' x m <-> object S fs x m /\ x <> b) /\
    (no_idle_arena S fs -> no_idle_arena S' fs') /\
    forall a s, S !! a = Some s -> last_in S fs a s b -> pages_back pf h' va' a s;
  fr_thread : same_thread h h' }.

Lemma released_thread pf h k' va va' a qs as' : released pf (hk h) k' va va' a qs ->
  same_thread h (mk_heap k' as' (block_descs h)).
Proof.
  intros Hr. destruct (re_rest _ _ _ _ _ _ _ Hr) as (E1 & E2 & E3 & E4 & _).
  unfold same_thread. cbn [hk block_descs]. rewrite E1, E2, E3, E4.
  split_and!; try (by destruct pf). intros t. apply with_vspace_dirs.
Qed.

(** The pages of an arena go back; whatever its header says is dropped with them. *)
Lemma free_pages_ok pf d h Γ fs S va a s as' : heap_ok pf d h Γ fs S va -> S !! a = Some s ->
  (forall i x, 0 <= i < 7 -> x ∈ fs i -> ~ (a <= x < a + extent s)) ->
  delete a as' = delete a (arenas h) ->
  exists h', (_ ← on_k (mfree_page pf a (zlen (frames s))); drop_arena a)
      (mk_heap (hk h) as' (block_descs h)) = Ok (tt, h') /\
    (exists va', heap_ok pf d h' Γ fs (delete a S) va' /\ pages_back pf h' va' a s) /\ same_thread h h'.
Proof.
  intros Hok Ea Hout Has. destruct (ho_pages _ _ _ _ _ _ _ Hok a s Ea) as ((j & Hj & Eaj & Hle) & Hr & _).
  destruct (arena_addr _ _ _ _ _ _ _ Hok _ _ Ea) as (Hx1 & _ & Hx2 & Hx). unfold extent in Hx, Hx2.
  destruct (mfree_page_ok pf va (hk h) a (frames s) j) as (k' & bm & E & Hrel); try done; try (by apply Hok); [lia|].
  rewrite (bindM_ok _ _ _ _ _ (on_k_ok _ (mk_heap (hk h) as' (block_descs h)) _ _ E)).
  unfold drop_arena, modify. cbn [with_k hk arenas block_descs]. rewrite Has. eexists. split; [done|].
  split; [eexists; split; [exact (heap_ok_shrink pf d h k' Γ fs S va _ a s Hok Ea Hout Hrel)|]|].
  { destruct Hrel as [_ _ R3 _ R5 _ _ R8 R9 Rz _ _ _]. split.
    - intros i q Hq. pose proof (lookup_lt_Some _ _ _ Hq) as Hlt. split; cbn [hk].
      + apply R5; [unfold heap_addr|]; unfold zlen in *; lia.
      + apply R3. right. by eapply list_elem_of_lookup_2.
    - intros n Hn' Hin. unfold in_bits in Hn'. rewrite Rz in Hn'. rewrite R8 in Hin. rewrite R9 by done.
      rewrite bool_decide_eq_true_2; [done|]. unfold extent in Hin. lia. }
  exact (released_thread _ _ _ _ _ _ _ _ Hrel).
Qed.

Lemma free_large_ok pf d h Γ fs S va a qs : heap_ok pf d h Γ fs S va -> S !! a = Some (Large qs) ->
  exists h', (_ ← on_k (mfree_page pf a (zlen qs)); drop_arena a) h = Ok (tt, h') /\
    frees pf d h h' Γ fs S (a + sizeof_arena).
Proof.
  intros Hok Ea. destruct (free_pages_ok pf d h Γ fs S va a (Large qs) (arenas h) Hok Ea)
    as (h' & E & (va' & Hok' & Hpb) & Hst); [|done|].
  { intros i x Hi Hx Hin. destruct (ho_blocks _ _ _ _ _ _ _ Hok i x Hi Hx) as (c & p & Ec & Hb).
    destruct (block_arena _ _ _ _ _ _ _ Hok _ _ _ _ Ec Hb) as (_ & _ & H1 & H2).
    destruct (class_facts i Hi) as (Hs & _). assert (Hca : c <> a) by congruence.
    destruct (ho_apart _ _ _ _ _ _ _ Hok c a _ _ Ec Ea Hca) as [Hap _]. unfold extent in *.
    change (zlen (frames (Small i p))) with 1 in Hap. lia. }
  exists h'. split; [destruct h; exact E|]. split; [|exact Hst]. do 4 eexists. split; [exact Hok'|].
  split; [by intros L _|]. split.
  - intros x m. split.
    + intros [c j p y Ec Hc Hf|c ps Ec]; apply lookup_delete_Some in Ec as [Hne Ec].
      * split; [by eapply obj_small|]. eapply block_no_large; [exact Hok|exact Ec|exact Hc|exact Ea].
      * split; [by constructor|]. lia.
    + intros [[c j p y Ec Hc Hf|c ps Ec] Hne].
      * eapply obj_small; [|done|done]. apply lookup_delete_Some. split; [congruence|exact Ec].
      * constructor. apply lookup_delete_Some. split; [|done]. intros <-. lia.
  - split.
    + intros Hidle c i q Ec. apply lookup_delete_Some in Ec as [_ Ec]. by eapply Hidle.
    + intros c t Ec [Hc _]. destruct (arena_addr _ _ _ _ _ _ _ Hok _ _ Ea) as (_ & _ & _ & Hx).
      destruct (extent_unique _ _ _ _ _ _ _ a c _ t (a + sizeof_arena) Hok Ea Ec) as [-> ->];
        [unfold sizeof_arena; lia|exact Hc|exact Hpb].
Qed.

(** A block goes to the end of the free list of its class. *)
Lemma append_free_ok pf d h Γ fs S va a i q b : heap_ok pf d h Γ fs S va -> S !! a = Some (Small i q) ->
  is_block a i b -> b ∉ fs i ->
  exists m, list_append (dlist d i) b (km (hk h)) = Ok (tt, m) /\ eflags m = eflags (km (hk h)) /\
    heap_ok pf d (mk_heap (set_km m (hk h))
      (<[a := mk_arena (desc_ptr d i) (zlen (free_in a (fs i)) + 1) false]> (arenas h)) (block_descs h))
      (<[dlist d i := fs i ++ [b]]> Γ) (upd fs i (fs i ++ [b])) S va.
Proof.
  intros Hok Ea Hb Hf. destruct (block_arena _ _ _ _ _ _ _ Hok _ _ _ _ Ea Hb) as (Hi & Eb & H1 & H2).
  destruct (ho_descs _ _ _ _ _ _ _ Hok i Hi) as [_ HL]. destruct (class_facts i Hi) as (Hs & _).
  destruct (arena_addr _ _ _ _ _ _ _ Hok _ _ Ea) as (H3 & _).
  assert (Hfr : fresh Γ b).
  { split; [apply heap_addr_null; lia|]. intros L xs HLx Hx.
    destruct (ho_own _ _ _ _ _ _ _ Hok L xs b a _ HLx Hx Ea) as (j & p & [= <- <-] & -> & Hin).
    - unfold extent. change (zlen (frames _)) with 1. lia.
    - rewrite HL in HLx. by injection HLx as <-. }
  destruct (list_append_ok _ _ _ _ b (ho_lists _ _ _ _ _ _ _ Hok) HL Hfr) as (m & E & Hm & He).
  exists m. split; [exact E|]. split; [exact He|].
  assert (Hfi : forall c, free_in c (fs i ++ [b]) = free_in c (fs i) ++ (if decide (block2arena b = c) then [b] else [])).
  { intros c. unfold free_in. rewrite filter_app. by f_equal. }
  pose proof (heap_ok_arena_list pf d h m Γ fs S va i (fs i ++ [b]) a q Hok Ea Hm) as Hok'.
  rewrite Hfi, decide_True in Hok' by exact Eb. rewrite zlen_app in Hok'. change (zlen [b]) with 1 in Hok'.
  apply Hok'.
  - intros x [Hx|Hx%list_elem_of_singleton]%elem_of_app; [by left|right; by subst].
  - intros c Hc. rewrite Hfi, decide_False, app_nil_r; [done|congruence].
Qed.

Lemma object_append pf d h Γ fs S va a i q b : heap_ok pf d h Γ fs S va -> S !! a = Some (Small i q) ->
  is_block a i b ->
  forall x m, object S (upd fs i (fs i ++ [b])) x m <-> object S fs x m /\ x <> b.
Proof.
  intros Hok Ea Hb x m. split.
  - intros [c j p y Ec Hc Hf|c ps Ec].
    + destruct (decide (j = i)) as [->|Hne].
      * rewrite upd_eq in Hf. apply not_elem_of_app in Hf as [Hf Hy]. split; [by eapply obj_small|].
        intros ->. by apply Hy, list_elem_of_singleton.
      * rewrite upd_ne in Hf by done. split; [by eapply obj_small|]. intros ->.
        by destruct (block_unique _ _ _ _ _ _ _ Hok _ _ _ _ _ _ _ Ec Ea Hc Hb) as (_ & ? & _).
    + split; [by constructor|]. intros <-. by eapply (block_no_large _ _ _ _ _ _ _ _ _ _ _ _ _ Hok Ea Hb).
  - intros [[c j p y Ec Hc Hf|c ps Ec] Hne]; [|by constructor]. eapply obj_small; [done|done|].
    destruct (decide (j = i)) as [->|Hji]; [|by rewrite upd_ne]. rewrite upd_eq.
    intros [?|?%list_elem_of_singleton]%elem_of_app; done.
Qed.

Lemma without_elem l xs x : x ∈ without l xs <-> x ∈ xs /\ x ∉ l.
Proof. unfold without. rewrite list_elem_of_filter. tauto. Qed.

(** An arena all of whose blocks are free goes, and with it its blocks. *)
Lemma object_drain pf d h Γ fs S va a i q : heap_ok pf d h Γ fs S va -> S !! a = Some (Small i q) ->
  (forall x, is_block a i x -> x ∈ fs i) ->
  forall x m, object (delete a S) (upd fs i (without (blocks a i 0 (Z.to_nat (cblocks i))) (fs i))) x m <->
    object S fs x m.
Proof.
  intros Hok Ea Hall x m. set (l := blocks a i 0 _). split.
  - intros [c j p y Ec Hc Hf|c ps Ec]; apply lookup_delete_Some in Ec as [Hne Ec]; [|by constructor].
    eapply obj_small; [done|done|]. destruct (decide (j = i)) as [->|Hji]; [|by rewrite upd_ne in Hf].
    rewrite upd_eq in Hf. intros Hy. apply Hf, without_elem. split; [done|].
    intros (u & Hu & ->)%blocks_elem.
    destruct (ho_arenas _ _ _ _ _ _ _ Hok a _ Ea) as [_ Hi]. cbn in Hi. destruct (class_facts i Hi) as (_ & _ & Hcb & _).
    destruct (block_unique _ _ _ _ _ _ _ Hok c a i i p q (a + sizeof_arena + u * csize i) Ec Ea Hc) as (? & _);
      [exists u; split; [lia|done]|done].
  - intros [c j p y Ec Hc Hf|c ps Ec].
    + eapply obj_small; [|done|].
      * apply lookup_delete_Some. split; [|done]. intros ->. apply Hf.
        rewrite Ea in Ec. injection Ec as <- <-. by apply Hall.
      * destruct (decide (j = i)) as [->|Hji]; [|by rewrite upd_ne]. rewrite upd_eq.
        intros [Hy _]%without_elem. done.
    + constructor. apply lookup_delete_Some. split; [congruence|done].
Qed.

Lemma drain_free_ok pf d h Γ fs S va a i q : heap_ok pf d h Γ fs S va -> S !! a = Some (Small i q) ->
  (forall x, is_block a i x -> x ∈ fs i) ->
  let ys := without (blocks a i 0 (Z.to_nat (cblocks i))) (fs i) in
  exists h', (_ ← drain_arena (Z.to_nat (cblocks i)) a 0; _ ← on_k (mfree_page pf a 1); drop_arena a) h
      = Ok (tt, h') /\
    (exists va', heap_ok pf d h' (<[dlist d i := ys]> Γ) (upd fs i ys) (delete a S) va' /\ pages_back pf h' va' a (Small i q)) /\
    same_thread h h'.
Proof.
  intros Hok Ea Hall ys. destruct (ho_arenas _ _ _ _ _ _ _ Hok a _ Ea) as [Eas Hi]. cbn in Eas, Hi.
  destruct (arena_addr _ _ _ _ _ _ _ Hok _ _ Ea) as (Ha0 & Ham & Hae & Hx). pose proof (class_facts i Hi) as (_ & _ & Hcb & _).
  destruct (ho_descs _ _ _ _ _ _ _ Hok i Hi) as [Hd HL]. unfold extent in Hae, Hx. change (zlen (frames _)) with 1 in Hae, Hx.
  assert (Harena : forall x, x ∈ blocks a i 0 (Z.to_nat (cblocks i)) -> is_block a i x)
    by (intros x (j & Hj & ->)%blocks_elem; exists j; split; [lia|done]).
  destruct (drain_arena_ok d a i _ (Z.to_nat (cblocks i)) h Γ (fs i) 0 (ho_lists _ _ _ _ _ _ _ Hok) HL Eas)
    as (m & E & Hm & He); try done; try lia; [intros x Hxb; by apply Hall, Harena|]. fold ys in Hm.
  rewrite (bindM_ok _ _ _ _ _ E).
  assert (Hys : forall x, x ∈ ys -> block2arena x <> a).
  { intros x [Hxf Hxb]%without_elem Eb. apply Hxb. apply (free_in_sub pf d h Γ fs S va a i q x Hok Ea).
    by apply list_elem_of_filter. }
  assert (Hoth : forall c, c <> a -> free_in c ys = free_in c (fs i)).
  { intros c Hc. unfold free_in, ys, without. rewrite list_filter_filter. apply filter_iff_in. intros x _.
    split; [by intros [? _]|]. intros Hxc. split; [done|].
    intros (_ & Eb & _)%Harena%(block_arena _ _ _ _ _ _ _ Hok _ _ _ _ Ea). congruence. }
  pose proof (heap_ok_arena_list pf d h m Γ fs S va i ys a q Hok Ea Hm
    ltac:(intros x [? _]%without_elem; by left) Hoth) as Hok1.
  destruct (free_pages_ok pf d _ _ _ _ _ a (Small i q) (arenas h) Hok1 Ea)
    as (h' & Ef & Hok' & Hst).
  - intros j x Hj Hxj Hin. unfold extent in Hin. change (zlen (frames _)) with 1 in Hin.
    destruct (decide (j = i)) as [->|Hji].
    + rewrite upd_eq in Hxj. apply (Hys x Hxj). apply block2arena_val; lia.
    + rewrite upd_ne in Hxj by done. destruct (ho_blocks _ _ _ _ _ _ _ Hok j x Hj Hxj) as (c & p & Ec & Hb).
      destruct (block_arena _ _ _ _ _ _ _ Hok _ _ _ _ Ec Hb) as (_ & Eb & _).
      rewrite (block2arena_val a x) in Eb by lia. congruence.
  - cbn [arenas]. by rewrite delete_insert_eq.
  - exists h'. split; [exact Ef|]. split; [exact Hok'|]. apply (same_thread_trans h (with_k (set_km m (hk h)) h) h'); [|exact Hst].
    by unfold same_thread.
Qed.

Lemma free_small_ok pf d h Γ fs S va a i q b : heap_ok pf d h Γ fs S va -> S !! a = Some (Small i q) ->
  is_block a i b -> b ∉ fs i ->
  exists h', free_small pf a b h = Ok (tt, h') /\ frees pf d h h' Γ fs S b.
Proof.
  intros Hok Ea Hb Hf. destruct (ho_arenas _ _ _ _ _ _ _ Hok a _ Ea) as [Eas Hi]. cbn in Eas, Hi.
  destruct (ho_descs _ _ _ _ _ _ _ Hok i Hi) as [Hd HL]. destruct (class_facts i Hi) as (_ & _ & Hcb & _).
  assert (Hba : a <= b < a + extent (Small i q)).
  { destruct (block_arena _ _ _ _ _ _ _ Hok _ _ _ _ Ea Hb) as (_ & _ & B1 & B2). destruct (class_facts i Hi) as (Hs & _).
    unfold extent. change (zlen (frames _)) with 1. lia. }
  destruct (append_free_ok pf d h Γ fs S va a i q b Hok Ea Hb Hf) as (m & E & He & Hok1).
  pose proof (object_append pf d h Γ fs S va a i q b Hok Ea Hb) as Hobj.
  set (h1 := mk_heap (set_km m (hk h)) _ _) in Hok1.
  assert (Hst1 : same_thread h h1) by (by unfold same_thread).
  unfold free_small. rewrite (bindM_ok _ _ _ _ _ (get_arena_ok _ _ _ Eas)). cbn [adesc acnt alarge].
  rewrite (bindM_ok _ _ _ _ _ (get_desc_ok _ _ _ Hd)). cbn [free_list blocks_per_arena].
  rewrite (bindM_ok _ _ _ _ _ (on_mach_k _ _ _ _ E)). cbv zeta. unfold put_arena. rewrite bind_modify.
  pose proof (free_in_count _ _ _ _ _ _ _ _ _ _ Hok1 Ea) as Hle. rewrite upd_eq in Hle.
  pose proof (zlen_nonneg (free_in a (fs i))) as Hn0.
  assert (Hcnt : zlen (free_in a (fs i ++ [b])) = zlen (free_in a (fs i)) + 1).
  { destruct (ho_arenas _ _ _ _ _ _ _ Hok1 a _ Ea) as [E1 _]. cbn [h1 arenas arena_of] in E1.
    rewrite lookup_insert_eq, upd_eq in E1. by injection E1. }
  rewrite u32_small by lia. change (mk_heap _ _ _) with h1.
  destruct (_ =? cblocks i) eqn:Ec; bool_prop.
  - assert (Hall : forall x, is_block a i x -> x ∈ upd fs i (fs i ++ [b]) i).
    { apply (arena_full _ _ _ _ _ _ _ _ _ _ Hok1 Ea). rewrite upd_eq. lia. }
    destruct (drain_free_ok _ _ _ _ _ _ _ _ _ _ Hok1 Ea Hall) as (h' & Ed & (va' & Hok' & Hpb) & Hst).
    exists h'. split; [exact Ed|]. split; [|by eapply same_thread_trans].
    do 4 eexists. split; [exact Hok'|]. split; [eapply same_lists_trans; by apply same_lists_insert|]. split.
    + intros x n. rewrite <- Hobj. by apply (object_drain _ _ _ _ _ _ _ _ _ _ Hok1 Ea).
    + split.
      * intros Hidle c j p Ecs. apply lookup_delete_Some in Ecs as [Hne Ecs].
        destruct (Hidle c j p Ecs) as (x & Hx & Hxf). exists x. split; [done|].
        destruct (decide (j = i)) as [->|Hji]; [|by rewrite !upd_ne]. rewrite !upd_eq.
        intros [[Hy|Hy%list_elem_of_singleton]%elem_of_app _]%without_elem; [done|subst x].
        destruct (block_unique _ _ _ _ _ _ _ Hok a c i i q p b Ea Ecs Hb Hx); done.
      * intros c t Ecs [Hc _]. by destruct (extent_unique _ _ _ _ _ _ _ a c _ t b Hok Ea Ecs Hba Hc) as [-> ->].
  - exists h1. split; [done|]. split; [|exact Hst1]. do 4 eexists. split; [exact Hok1|].
    split; [by apply same_lists_insert|]. split; [exact Hobj|].
    assert (Hleft : exists x, is_block a i x /\ x ∉ upd fs i (fs i ++ [b]) i)
      by (apply (arena_not_full _ _ _ _ _ _ _ _ _ _ Hok1 Ea); rewrite upd_eq; lia). split.
    + intros Hidle c j p Ecs. destruct (decide (c = a)) as [->|Hca].
      * rewrite Ea in Ecs. injection Ecs as <- <-. exact Hleft.
      * destruct (Hidle c j p Ecs) as (x & Hx & Hxf). exists x. split; [done|].
        destruct (decide (j = i)) as [->|Hji]; [|by rewrite upd_ne]. rewrite upd_eq.
        intros [Hy|Hy%list_elem_of_singleton]%elem_of_app; [done|subst x].
        destruct (block_unique _ _ _ _ _ _ _ Hok a c i i q p b Ea Ecs Hb Hx); congruence.
    + intros c t Ecs [Hc Hone]. exfalso. destruct (extent_unique _ _ _ _ _ _ _ a c _ t b Hok Ea Ecs Hba Hc) as [-> ->].
      destruct Hleft as (x & Hx & Hxf). rewrite upd_eq in Hxf. apply not_elem_of_app in Hxf as [Hxf Hxb].
      apply Hxb, list_elem_of_singleton, (Hone x (csize i)); [by eapply obj_small|].
      destruct (block_arena _ _ _ _ _ _ _ Hok _ _ _ _ Ea Hx) as (_ & _ & X1 & X2). destruct (class_facts i Hi) as (Hs & _).
      unfold extent. change (zlen (frames _)) with 1. lia.
Qed.

(** ** sys_malloc *)

Section calls.
Context (pool_lock : pool_flag -> Z) (kernel_block_descs : Z).

(** A call of the running thread: its pool and descriptors are [pf] and [d],
    the lock of the pool is free, and it is not one of the free lists. *)
Record may_call (pf : pool_flag) (d : Z) (h : heap) (Γ : gmap Z (list Z)) : Prop := {
  mc_pool : my_pool kernel_block_descs (hk h) = Ok ((pf, d), hk h);
  mc_lock : lock_idle (hk h) Γ (pool_lock pf);
  mc_apart : forall i, 0 <= i < 7 -> dlist d i <> waiters (lock_semaphore (pool_lock pf));
  mc_cur : cur (kc (hk h)) <> NULL }.

Lemma heap_enter pf d h Γ : may_call pf d h Γ -> let h1 := with_k (set_ksy (held (ksy (hk h)) (pool_lock pf) (cur (kc (hk h)))) (hk h)) h in
  on_k (lock_acquire (pool_lock pf)) h = Ok (None, h1).
Proof. intros [_ Hl _ Hc] h1. apply on_k_ok. by eapply lock_enter. Qed.

(** The end of a critical section whose body left [h1]. *)
Lemma heap_leave pf d h h1 Γ Γ1 : may_call pf d h Γ ->
  same_thread (with_k (set_ksy (held (ksy (hk h)) (pool_lock pf) (cur (kc (hk h)))) (hk h)) h) h1 ->
  lists_ok (km (hk h1)) Γ1 -> same_lists d Γ Γ1 ->
  on_k (lock_release (pool_lock pf)) h1 = Ok (tt, with_k (set_ksy (ksy (hk h)) (hk h1)) h1) /\
  same_thread h (with_k (set_ksy (ksy (hk h)) (hk h1)) h1) /\
  lock_idle (hk (with_k (set_ksy (ksy (hk h)) (hk h1)) h1)) Γ1 (pool_lock pf).
Proof.
  intros [_ Hl Ha Hc] (T1 & T2 & T3 & T4 & T5) Hls Hsl.
  assert (Hw : Γ1 !! waiters (lock_semaphore (pool_lock pf)) = Some [])
    by (rewrite (Hsl _ Ha); apply Hl).
  split; [|split].
  - apply on_k_ok. apply (lock_leave (hk h) (hk h1) Γ (pool_lock pf) Hl) with (Γ' := Γ1); [|exact Hls|exact Hw].
    rewrite T2, T1. done.
  - unfold same_thread. cbn [with_k hk set_ksy kc ksy km block_descs]. split_and!; [exact T1|done|exact T3|exact T4|exact T5].
  - destruct Hl as [L1 L2 _]. by split.
Qed.

Lemma may_call_after pf d h h' Γ Γ' : may_call pf d h Γ -> same_thread h h' -> lock_idle (hk h') Γ' (pool_lock pf) ->
  may_call pf d h' Γ'.
Proof.
  intros [Hp Hl Ha Hc] (T1 & _ & _ & _ & T5) Hl'. split; [|exact Hl'|exact Ha|by rewrite T1].
  unfold my_pool, running_thread in *. rewrite bind_gets in *. rewrite T1. specialize (T5 (cur (kc (hk h)))).
  unfold get_pcb, mbind, M_bind in *. destruct (pcbs (kth (hk h)) !! cur (kc (hk h))) as [p|]; [|done].
  destruct (pcbs (kth (hk h')) !! cur (kc (hk h))) as [p'|]; [|done]. cbn in T5. injection T5 as T5.
  unfold mret, M_ret in *. rewrite T5. by injection Hp as ->.
Qed.

Lemma sys_malloc_ok (pf : pool_flag) (d : Z) (h : heap) (Γ : gmap Z (list Z)) (fs : Z -> list Z)
    (S : gmap Z aspec) (va : virtual_addr) (size : Z) :
  heap_ok pf d h Γ fs S va -> may_call pf d h Γ -> 0 < size <= MAX_REQUEST ->
  size < pool_size (pool_of pf (kmem (hk h))) ->
  let pages := if 1024 <? size then pages_for size else 1 in
  pages <= len (vaddr_bitmap va) -> budget pf (hk h) (Z.to_nat pages) ->
  (sys_malloc pool_lock kernel_block_descs size h = Ok (Done NULL, h) /\ no_run va pages /\
   (size <= 1024 -> exists i, class_of size i /\ fs i = [])) \/
  exists b n h' Γ' fs' S' va', sys_malloc pool_lock kernel_block_descs size h = Ok (Done b, h') /\
    b <> NULL /\ size <= n /\ zeroed h' b n /\ heap_ok pf d h' Γ' fs' S' va' /\ may_call pf d h' Γ' /\
    granted S fs S' fs' b n /\
    (forall x m, object S fs x m -> b + n <= x \/ x + m <= b) /\
    (no_idle_arena S fs -> no_idle_arena S' fs').
Proof.
  intros Hok Hcall Hs Hlim pages Hlen Hbud.
  pose proof Hcall as [Hpool Hlk Hap Hcur]. unfold sys_malloc.
  rewrite (bindM_ok _ _ _ _ _ (on_k_ok _ _ _ _ Hpool)), with_k_id.
  rewrite (bindM_ok _ _ h (pool_size (pool_of pf (kmem (hk h)))) h)
    by (unfold on_k, gets; by destruct h).
  rewrite (proj2 (Z.ltb_lt 0 size)), (proj2 (Z.ltb_lt size _)) by lia. cbn [andb negb].
  rewrite (bindM_ok _ _ _ _ _ (heap_enter pf d h Γ Hcall)). set (y := held _ _ _).
  set (h1 := with_k (set_ksy y (hk h)) h).
  pose proof (heap_ok_ksy pf d h y _ _ _ _ Hok) as Hok1. fold h1 in Hok1.
  assert (Hdone : forall b n h2, allocates pf d h1 h2 Γ fs S b n -> size <= n -> b <> NULL ->
    exists h' Γ' fs' S' va', on_k (lock_release (pool_lock pf)) h2 = Ok (tt, h') /\
    b <> NULL /\ size <= n /\ zeroed h' b n /\ heap_ok pf d h' Γ' fs' S' va' /\ may_call pf d h' Γ' /\
    granted S fs S' fs' b n /\ (forall x m, object S fs x m -> b + n <= x \/ x + m <= b) /\
    (no_idle_arena S fs -> no_idle_arena S' fs')).
  { intros b n h2 [(Γ' & fs' & S' & va' & Hok2 & Hsl & Hg & Hidle) Hz Hst] Hn Hb.
    destruct (heap_leave pf d h h2 Γ Γ' Hcall Hst (ho_lists _ _ _ _ _ _ _ Hok2) Hsl) as (E & Hst2 & Hlk2).
    exists (with_k (set_ksy (ksy (hk h)) (hk h2)) h2), Γ', fs', S', va'.
    split; [exact E|]. split; [exact Hb|]. split; [exact Hn|]. split; [exact Hz|].
    split; [by apply heap_ok_ksy|]. split; [by eapply may_call_after|]. split; [exact Hg|]. split; [|exact Hidle].
    intros x m Hx. destruct Hg as [G1 G2].
    assert (Hb' : object S' fs' b n) by (apply G2; by right).
    assert (Hx' : object S' fs' x m) by (apply G2; by left).
    destruct (decide (x = b)) as [->|Hne]; [by destruct (G1 m)|].
    destruct (objects_apart _ _ _ _ _ _ _ Hok2 _ _ _ _ Hb' Hx'); [congruence|lia|lia]. }
  assert (Hfail : forall m, m h1 = Ok (NULL, h1) ->
    (b ← m; _ ← on_k (lock_release (pool_lock pf)); mret (Done b)) h1 = Ok (Done NULL, h)).
  { intros m E. rewrite (bindM_ok _ _ _ _ _ E).
    destruct (heap_leave pf d h h1 Γ Γ Hcall) as (El & _); try done; [apply Hok|].
    rewrite (bindM_ok _ _ _ _ _ El). unfold mret, M_ret. do 2 f_equal. by destruct h as [[] ? ?]. }
  unfold pages in *. destruct (1024 <? size) eqn:El; bool_prop.
  - destruct (malloc_large_ok pf d h1 Γ fs S va size Hok1 Hs Hlen Hbud) as [[E Hno]|(b & h2 & E & Hb & Hal)].
    + left. split; [by apply Hfail|]. split; [exact Hno|lia].
    + right. destruct (pages_for_facts size Hs) as [_ Hp].
      destruct (Hdone _ _ _ Hal ltac:(lia) Hb) as (h' & Γ' & fs' & S' & va' & Er & Hrest).
      exists b, (4096 * pages_for size - sizeof_arena), h', Γ', fs', S', va'. split; [|exact Hrest].
      rewrite (bindM_ok _ _ _ _ _ E), (bindM_ok _ _ _ _ _ Er). done.
  - destruct (malloc_small_ok pf d h1 Γ fs S va size Hok1 El Hlen Hbud)
      as (i & Hc & [(E & Efs & Hno)|(b & h2 & E & Hb & Hal)]).
    + left. split; [by apply Hfail|]. split; [exact Hno|]. intros _. by exists i.
    + right. destruct (Hdone _ _ _ Hal ltac:(apply Hc) Hb) as (h' & Γ' & fs' & S' & va' & Er & Hrest).
      exists b, (csize i), h', Γ', fs', S', va'. split; [|exact Hrest].
      rewrite (bindM_ok _ _ _ _ _ E), (bindM_ok _ _ _ _ _ Er). done.
Qed.

(** Requests of no bytes or of more than the pool fail at once. *)
Lemma sys_malloc_rejects pf d h size : my_pool kernel_block_descs (hk h) = Ok ((pf, d), hk h) ->
  size <= 0 \/ pool_size (pool_of pf (kmem (hk h))) <= size ->
  sys_malloc pool_lock kernel_block_descs size h = Ok (Done NULL, h).
Proof.
  intros Hpool Hs. unfold sys_malloc. rewrite (bindM_ok _ _ _ _ _ (on_k_ok _ _ _ _ Hpool)), with_k_id.
  rewrite (bindM_ok _ _ h (pool_size (pool_of pf (kmem (hk h)))) h) by (unfold on_k, gets; by destruct h).
  assert (E : (0 <? size) && (size <? pool_size (pool_of pf (kmem (hk h)))) = false)
    by (apply andb_false_iff; rewrite !Z.ltb_ge; lia).
  by rewrite E.
Qed.

(** A request the pool could not hold together with the page table limit of
    [malloc_page] does not fail: it stops the kernel. *)
Lemma sys_malloc_panics pf d h Γ size : may_call pf d h Γ -> MAX_REQUEST < size ->
  size < pool_size (pool_of pf (kmem (hk h))) <= 2147483648 ->
  sys_malloc pool_lock kernel_block_descs size h = Err Panic.
Proof.
  intros Hcall Hs Hlim. pose proof Hcall as [Hpool _ _ _]. unfold MAX_REQUEST, PG_SIZE, sizeof_arena in Hs.
  unfold sys_malloc. rewrite (bindM_ok _ _ _ _ _ (on_k_ok _ _ _ _ Hpool)), with_k_id.
  rewrite (bindM_ok _ _ h (pool_size (pool_of pf (kmem (hk h)))) h) by (unfold on_k, gets; by destruct h).
  rewrite (proj2 (Z.ltb_lt 0 size)), (proj2 (Z.ltb_lt size _)) by lia. cbn [andb negb].
  rewrite (bindM_ok _ _ _ _ _ (heap_enter pf d h Γ Hcall)), (proj2 (Z.ltb_lt 1024 size)) by lia.
  assert (Hp : 3840 <= pages_for size).
  { unfold pages_for, DIV_ROUND_UP, PG_SIZE, sizeof_arena.
    rewrite (u32_small (size + 12)), (u32_small (size + 12 + 4096)), u32_small by lia. zarith. }
  apply bindM_err. unfold malloc_large. cbv zeta. fold (pages_for size). apply bindM_err.
  unfold on_k, malloc_page, mbind at 1, M_bind at 1, ASSERTM.
  by rewrite (proj2 (Z.ltb_ge (pages_for size) 3840)), andb_false_r by lia.
Qed.

Lemma sys_free_ok (pf : pool_flag) (d : Z) (h : heap) (Γ : gmap Z (list Z)) (fs : Z -> list Z)
    (S : gmap Z aspec) (va : virtual_addr) (b n : Z) :
  heap_ok pf d h Γ fs S va -> may_call pf d h Γ -> object S fs b n ->
  exists h' Γ' fs' S' va', sys_free pool_lock kernel_block_descs b h = Ok (Done tt, h') /\
    heap_ok pf d h' Γ' fs' S' va' /\ may_call pf d h' Γ' /\
    (forall x m, object S' fs' x m <-> object S fs x m /\ x <> b) /\
    (no_idle_arena S fs -> no_idle_arena S' fs') /\
    forall a s, S !! a = Some s -> last_in S fs a s b -> pages_back pf h' va' a s.
Proof.
  intros Hok Hcall Hobj. pose proof (ho_start _ _ _ _ _ _ _ Hok) as Hstart. pose proof Hcall as [Hpool Hlk Hap Hcur].
  destruct (object_in _ _ _ _ _ _ _ Hok b n Hobj) as (a & s & Ea & Hlo & Hhi & Hn).
  destruct (arena_addr _ _ _ _ _ _ _ Hok _ _ Ea) as (Ha0 & Ham & Hae & _).
  assert (Ha : vaddr_start va <= a) by (destruct (ho_pages _ _ _ _ _ _ _ Hok a s Ea) as ((j & Hj & -> & _) & _); lia).
  unfold sys_free. rewrite bind_assert by (apply negb_true_iff, Z.eqb_neq, heap_addr_null; lia).
  rewrite (bindM_ok _ _ _ _ _ (on_k_ok _ _ _ _ Hpool)), with_k_id.
  rewrite (bindM_ok _ _ h tt h).
  2:{ case_bool_decide as Hpf; [|done]. specialize (Hstart Hpf). unfold ASSERTM. by rewrite (proj2 (Z.leb_le _ _)) by lia. }
  rewrite (bindM_ok _ _ _ _ _ (heap_enter pf d h Γ Hcall)). set (y := held _ _ _).
  set (h1 := with_k (set_ksy y (hk h)) h).
  pose proof (heap_ok_ksy pf d h y _ _ _ _ Hok) as Hok1. fold h1 in Hok1. cbv zeta.
  assert (Hdone : forall h2, frees pf d h1 h2 Γ fs S b -> exists h' Γ' fs' S' va',
    on_k (lock_release (pool_lock pf)) h2 = Ok (tt, h') /\ heap_ok pf d h' Γ' fs' S' va' /\ may_call pf d h' Γ' /\
    (forall x m, object S' fs' x m <-> object S fs x m /\ x <> b) /\ (no_idle_arena S fs -> no_idle_arena S' fs') /\
    forall a s, S !! a = Some s -> last_in S fs a s b -> pages_back pf h' va' a s).
  { intros h2 [(Γ' & fs' & S' & va' & Hok2 & Hsl & Hg & Hidle & Hback) Hst].
    destruct (heap_leave pf d h h2 Γ Γ' Hcall Hst (ho_lists _ _ _ _ _ _ _ Hok2) Hsl) as (E & Hst2 & Hlk2).
    exists (with_k (set_ksy (ksy (hk h)) (hk h2)) h2), Γ', fs', S', va'.
    split; [exact E|]. split; [by apply heap_ok_ksy|]. split; [by eapply may_call_after|]. split; [exact Hg|]. split; [exact Hidle|exact Hback]. }
  destruct (ho_arenas _ _ _ _ _ _ _ Hok1 a s Ea) as [Eas _].
  destruct Hobj as [c i q x Ec Hb Hf|c qs Ec].
  - destruct (block_arena _ _ _ _ _ _ _ Hok _ _ _ _ Ec Hb) as (Hi & Eb & B1 & B2).
    destruct (free_small_ok pf d h1 Γ fs S va c i q x Hok1 Ec Hb Hf) as (h2 & E & Hfr).
    destruct (Hdone h2 Hfr) as (h' & Γ' & fs' & S' & va' & Er & Hrest).
    destruct (ho_arenas _ _ _ _ _ _ _ Hok1 c _ Ec) as [Ecs _]. rewrite Eb.
    exists h', Γ', fs', S', va'. split; [|exact Hrest].
    rewrite (bindM_ok _ _ _ _ _ (get_arena_ok _ _ _ Ecs)). cbn [arena_of adesc alarge]. rewrite andb_false_r.
    by rewrite (bindM_ok _ _ _ _ _ E), (bindM_ok _ _ _ _ _ Er).
  - destruct (free_large_ok pf d h1 Γ fs S va c qs Hok1 Ec) as (h2 & E & Hfr).
    destruct (Hdone h2 Hfr) as (h' & Γ' & fs' & S' & va' & Er & Hrest).
    destruct (ho_arenas _ _ _ _ _ _ _ Hok1 c _ Ec) as [Ecs _].
    destruct (arena_addr _ _ _ _ _ _ _ Hok _ _ Ec) as (C1 & C2 & C3 & C4).
    rewrite (block2arena_val c) by (unfold sizeof_arena; lia).
    exists h', Γ', fs', S', va'. split; [|exact Hrest].
    rewrite (bindM_ok _ _ _ _ _ (get_arena_ok _ _ _ Ecs)). cbn [arena_of adesc acnt alarge NULL Z.eqb andb].
    by rewrite (bindM_ok _ _ _ _ _ E), (bindM_ok _ _ _ _ _ Er).
Qed.

(** ** Properties *)

(** C12. What [sys_malloc] does with the lock of the pool free.  A request of no
    bytes, or of as many as the pool has or more, returns NULL with nothing
    changed; one above [MAX_REQUEST], the most [malloc_page] takes in one run,
    stops the kernel.  For any other, provided the pools have a free frame for
    every page and page table the request can need: either the free list of the
    smallest class that fits is empty and no run of clear bits is left for the
    pages, and then NULL is returned and nothing has changed; or it returns the
    start of at least [size] bytes, all of them 0, mapped, disjoint from every
    other object in use; these objects stay in use as they are, the lock is
    free again, the invariant of the heap holds, and no arena without a block
    in use has come into being.  (When frames run out on the way the bits of the
    run stay set: [malloc_page_allocates].) *)
Theorem sys_malloc_allocates (pf : pool_flag) (d : Z) (h : heap) (Γ : gmap Z (list Z)) (fs : Z -> list Z)
    (S : gmap Z aspec) (va : virtual_addr) (size : Z) :
  heap_ok pf d h Γ fs S va -> may_call pf d h Γ ->
  let limit := pool_size (pool_of pf (kmem (hk h))) in
  let pages := if 1024 <? size then pages_for size else 1 in
  (size <= 0 \/ limit <= size -> sys_malloc pool_lock kernel_block_descs size h = Ok (Done NULL, h)) /\
  (MAX_REQUEST < size < limit -> limit <= 2147483648 -> sys_malloc pool_lock kernel_block_descs size h = Err Panic) /\
  (0 < size <= MAX_REQUEST -> size < limit -> pages <= len (vaddr_bitmap va) -> budget pf (hk h) (Z.to_nat pages) ->
   (sys_malloc pool_lock kernel_block_descs size h = Ok (Done NULL, h) /\ no_run va pages /\
    (size <= 1024 -> exists i, class_of size i /\ fs i = [])) \/
   exists b n h' Γ' fs' S' va', sys_malloc pool_lock kernel_block_descs size h = Ok (Done b, h') /\
     b <> NULL /\ size <= n /\ zeroed h' b n /\ heap_ok pf d h' Γ' fs' S' va' /\ may_call pf d h' Γ' /\
     granted S fs S' fs' b n /\
     (forall x m, object S fs x m -> b + n <= x \/ x + m <= b) /\
     (no_idle_arena S fs -> no_idle_arena S' fs')).
Proof.
  intros Hok Hcall limit pages. split; [|split].
  - apply (sys_malloc_rejects pf d), Hcall.
  - intros Hs Hl. apply (sys_malloc_panics pf d h Γ); [done|lia|]. fold limit. lia.
  - exact (sys_malloc_ok pf d h Γ fs S va size Hok Hcall).
Qed.

(** C13. [sys_free] gives back exactly the object it is called with.  With the
    lock of the pool free, freeing an object in use returns; afterwards that
    object is not in use and every other one is, the invariant of the heap
    holds and the lock is free again.  An arena goes with its last object: when
    the object was the only one in its arena, a large one or the last block of
    its page, then every page of the arena is unmapped, its frame is free in
    the pool and its bit in the address space is clear.  If every arena had a
    block in use before, every arena has one afterwards. *)
Theorem sys_free_releases (pf : pool_flag) (d : Z) (h : heap) (Γ : gmap Z (list Z)) (fs : Z -> list Z)
    (S : gmap Z aspec) (va : virtual_addr) (b n : Z) :
  heap_ok pf d h Γ fs S va -> may_call pf d h Γ -> object S fs b n ->
  exists h' Γ' fs' S' va', sys_free pool_lock kernel_block_descs b h = Ok (Done tt, h') /\
    heap_ok pf d h' Γ' fs' S' va' /\ may_call pf d h' Γ' /\
    (forall x m, object S' fs' x m <-> object S fs x m /\ x <> b) /\
    (no_idle_arena S fs -> no_idle_arena S' fs') /\
    forall a s, S !! a = Some s -> last_in S fs a s b -> pages_back pf h' va' a s.
Proof. exact (sys_free_ok pf d h Γ fs S va b n). Qed.
End calls.

(** ** A concrete heap for the witnesses *)

(** The kernel of the demonstration with its first page mapped at 3 GB; the
    lock of the pools at 0xc0000600, the descriptors at 0xc0000800. *)
Definition heap_lock : Z := 0xc0000600.
Definition heap_descs : Z := 0xc0000800.
Definition heap_lists : list (Z * list Z) :=
  (waiters (lock_semaphore heap_lock), []) :: map (fun i => (dlist heap_descs i, [])) (seqZ 0 7).
Definition heap_mach : mach :=
  match (_ ← block_desc_init heap_descs; list_init (waiters (lock_semaphore heap_lock))) (mk_mach 0x202 ∅ ∅) with
  | Ok (_, s) => s
  | Err _ => mk_mach 0 ∅ ∅
  end.
Definition heap_kernel : kernel :=
  mk_kernel heap_mach (mk_cpu 0xc0000000 0x100000 0)
    (mk_memory (<[0x101000 := 0x7]> demo_ram) (demo_pool 0x200000) (demo_pool 0x280000) demo_vaddr)
    (mk_threads {[0xc0000000 := demo_pcb TASK_RUNNING]} 0 0 0 0 (mk_bitmap 16 (replicate 16 0)) 1)
    (mk_sync {[lock_semaphore heap_lock := 1]} {[heap_lock := mk_lock NULL 0]}).
Definition heap0 : heap :=
  mk_heap heap_kernel ∅
    (list_to_map (map (fun i => (desc_ptr heap_descs i, mk_desc (csize i) (cblocks i) (dlist heap_descs i))) (seqZ 0 7))).

Lemma heap0_mem : mem_ok heap_kernel.
Proof.
  assert (Hwo : words_ok (ram (kmem heap_kernel)))
    by (apply words_insert; [exact demo_words|unfold is_word; lia]).
  split.
  - apply dir_check_ok; [exact Hwo| |by apply demo_pool_wf|done|vm_compute; reflexivity|vm_compute; reflexivity].
    split; [unfold is_word; cbn; lia|]. by vm_compute.
  - split; [by apply demo_pool_wf | by apply demo_pool_wf | cbn; unfold zlen; cbn; lia].
  - intros q Hq. apply below_not_free. apply Z.lt_trans with 0x200000; [|reflexivity].
    apply (dir_check_below heap_kernel); [vm_compute; reflexivity|exact Hq].
Qed.

Lemma heap0_unmapped i : 0 <= i < 128 -> walk heap_kernel (0xc0100000 + i * 4096) = None.
Proof.
  intros Hi. assert (Ha : forallb (fun j => match walk heap_kernel (0xc0100000 + j * 4096) with Some _ => false | None => true end)
    (seqZ 0 128) = true) by (vm_compute; reflexivity).
  rewrite forallb_forall in Ha. specialize (Ha i). rewrite <- list_elem_of_In, elem_of_seqZ in Ha.
  specialize (Ha ltac:(lia)). by destruct (walk heap_kernel _).
Qed.

Lemma heap0_nodes : forallb (fun x => bool_decide (heap_addr x) && bool_decide (walk heap_kernel x <> None))
  (heap_lists ≫= fun '(L, xs) => foot L xs) = true.
Proof. vm_compute. reflexivity. Qed.

Lemma heap0_ok : heap_ok PF_KERNEL heap_descs heap0 (list_to_map heap_lists) (fun _ => []) ∅ demo_vaddr.
Proof.
  split; cbn [heap0 hk arenas block_descs]; try (by intros a s E; rewrite lookup_empty in E).
  - exact heap0_mem.
  - split; [reflexivity|]. destruct demo_vspace as (_ & Hwf & _). split; [exact Hwf|].
    intros i Hi _. by apply heap0_unmapped.
  - cbn. lia.
  - apply lists_okb_sound. vm_compute. reflexivity.
  - intros i Hi. assert (Ei : i = 0 \/ i = 1 \/ i = 2 \/ i = 3 \/ i = 4 \/ i = 5 \/ i = 6) by lia.
    destruct Ei as [->|[->|[->|[->|[->|[->| ->]]]]]]; split; vm_compute; reflexivity.
  - intros a b s u E. by rewrite lookup_empty in E.
  - intros i x _ Hx. by apply not_elem_of_nil in Hx.
  - intros L xs x HL Hx. pose proof heap0_nodes as Hn. rewrite forallb_forall in Hn.
    apply elem_of_list_to_map_2 in HL.
    specialize (Hn x (proj1 (list_elem_of_In _ _) (foot_in_concat _ _ _ _ HL Hx))).
    apply andb_true_iff in Hn as [H1%bool_decide_eq_true H2%bool_decide_eq_true]. by split.
  - intros L xs x a s _ _ E. by rewrite lookup_empty in E.
  - intros _. cbn. unfold KERNEL_HEAP_START. lia.
Qed.

Lemma heap0_call : may_call (fun _ => heap_lock) heap_descs PF_KERNEL heap_descs heap0 (list_to_map heap_lists).
Proof.
  split; [reflexivity|by split| |unfold NULL; cbn; lia].
  intros i Hi. unfold dlist, desc_ptr, waiters, lock_semaphore, heap_descs, heap_lock. lia.
Qed.

Lemma heap0_request size : 0 < size <= 1024 -> exists b n h' Γ' fs' S' va',
  sys_malloc (fun _ => heap_lock) heap_descs size heap0 = Ok (Done b, h') /\ size <= n /\
  heap_ok PF_KERNEL heap_descs h' Γ' fs' S' va' /\
  may_call (fun _ => heap_lock) heap_descs PF_KERNEL heap_descs h' Γ' /\ object S' fs' b n.
Proof.
  intros Hs. destruct (sys_malloc_ok (fun _ => heap_lock) heap_descs PF_KERNEL heap_descs heap0 _ _ _ _ size heap0_ok heap0_call)
    as [(_ & Hno & _)|(b & n & h' & Γ' & fs' & S' & va' & E & _ & Hn & _ & Hok & Hc & Hg & _)].
  - unfold MAX_REQUEST, PG_SIZE, sizeof_arena. lia.
  - cbn. lia.
  - rewrite (proj2 (Z.ltb_ge 1024 size)) by lia. cbn. lia.
  - rewrite (proj2 (Z.ltb_ge 1024 size)) by lia. apply Nat.leb_le. vm_compute. reflexivity.
  - exfalso. rewrite (proj2 (Z.ltb_ge 1024 size)) in Hno by lia. apply (Hno 0); [cbn; lia|].
    intros j Hj. assert (j = 0) as -> by lia. reflexivity.
  - exists b, n, h', Γ', fs', S', va'. repeat (split; [assumption|]). apply Hg. by right.
Qed.

Lemma sys_malloc_allocates_witness :
  sys_malloc (fun _ => heap_lock) heap_descs 0 heap0 = Ok (Done NULL, heap0) /\
  exists b h', sys_malloc (fun _ => heap_lock) heap_descs 20 heap0 = Ok (Done b, h') /\ zeroed h' b 20.
Proof.
  split; [apply (sys_malloc_allocates (fun _ => heap_lock) heap_descs PF_KERNEL heap_descs heap0 _ _ _ _ 0 heap0_ok heap0_call); by left|].
  destruct (sys_malloc_allocates (fun _ => heap_lock) heap_descs PF_KERNEL heap_descs heap0 _ _ _ _ 20 heap0_ok heap0_call) as (_ & _ & Hm).
  destruct Hm as [(_ & Hno & _)|(b & n & h' & Γ' & fs' & S' & va' & E & _ & Hn & Hz & _)].
  - unfold MAX_REQUEST, PG_SIZE, sizeof_arena. lia.
  - cbn. lia.
  - cbn. lia.
  - apply Nat.leb_le. vm_compute. reflexivity.
  - exfalso. change (if 1024 <? 20 then pages_for 20 else 1) with 1 in Hno.
    apply (Hno 0); [cbn; lia|]. intros j Hj. assert (j = 0) as -> by lia. reflexivity.
  - exists b, h'. split; [exact E|]. intros j H0 Hj. apply Hz; lia.
Defined.

Lemma sys_free_releases_witness : exists b h1 h2,
  sys_malloc (fun _ => heap_lock) heap_descs 20 heap0 = Ok (Done b, h1) /\
  sys_free (fun _ => heap_lock) heap_descs b h1 = Ok (Done tt, h2).
Proof.
  destruct (heap0_request 20 ltac:(lia)) as (b & n & h1 & Γ1 & fs1 & S1 & va1 & E & _ & Hok & Hc & Ho).
  destruct (sys_free_releases (fun _ => heap_lock) heap_descs PF_KERNEL heap_descs h1 Γ1 fs1 S1 va1 b n Hok Hc Ho)
    as (h2 & _ & _ & _ & _ & Ef & _).
  exists b, h1, h2. split; [exact E|exact Ef].
Defined.
