(* ===== verification/Tss.v ===== *)
(** * Tss: userprog/tss.c and the segments of user mode

    [make_gdt_desc] packs a base, a limit and the attributes of a segment into
    the eight bytes of a descriptor.  [seg_base] and the other functions of
    [Decode] are what the processor reads back.  [tss_init] fills the task
    state segment and installs three descriptors; [gdt] maps an address of the
    descriptor table to the descriptor there, [gdtr] is the operand of LGDT,
    [tr] that of LTR.  The field [esp0] of the segment is [tss_esp0] of the
    kernel state, which [update_tss_esp] writes ([Paging]). *)

From S2P Require Import Prelude.

Record gdt_desc := mk_gdt_desc {
  limit_low_word : Z;
  base_low_word : Z;
  base_mid_byte : Z;
  attr_low_byte : Z;
  limit_high_attr_high : Z;
  base_high_byte : Z }.

Definition make_gdt_desc (desc_addr limit attr_low attr_high : Z) : gdt_desc :=
  let desc_base := u32 desc_addr in
  mk_gdt_desc
    (u16 (Z.land limit 0x0000ffff))
    (u16 (Z.land desc_base 0x0000ffff))
    (u8 (Z.shiftr (Z.land desc_base 0x00ff0000) 16))
    (u8 attr_low)
    (u8 (Z.shiftr (Z.land limit 0x000f0000) 16 + u8 attr_high))
    (u8 (Z.shiftr desc_base 24)).

(** The constants of global.h. *)
Definition SELECTOR_KERNEL_STACK : Z := Z.shiftl 2 3 + Z.shiftl 0 2 + 0.
Definition SELECTOR_TSS : Z := Z.shiftl 4 3 + Z.shiftl 0 2 + 0.
Definition SELECTOR_USER_CODE : Z := Z.shiftl 5 3 + Z.shiftl 0 2 + 3.
Definition SELECTOR_USER_DATA : Z := Z.shiftl 6 3 + Z.shiftl 0 2 + 3.
Definition GDT_ATTR_HIGH : Z := Z.shiftl 1 7 + Z.shiftl 1 6 + Z.shiftl 0 5 + Z.shiftl 0 4.
Definition GDT_CODE_ATTR_LOW_DPL3 : Z := Z.shiftl 1 7 + Z.shiftl 3 5 + Z.shiftl 1 4 + 8.
Definition GDT_DATA_ATTR_LOW_DPL3 : Z := Z.shiftl 1 7 + Z.shiftl 3 5 + Z.shiftl 1 4 + 2.
Definition TSS_ATTR_HIGH : Z := Z.shiftl 1 7 + Z.shiftl 0 6 + Z.shiftl 0 5 + Z.shiftl 0 4 + 0.
Definition TSS_ATTR_LOW : Z := Z.shiftl 1 7 + Z.shiftl 0 5 + Z.shiftl 0 4 + 9.

(** The segment: 27 words, the words of [struct tss] in their order. *)
Definition tss_words : nat := 27.
Definition tss_size : Z := 108.
Definition tss_ss0 : nat := 2.
Definition tss_io_base : nat := 26.

Record segments := mk_segments { tss : list Z; gdt : gmap Z gdt_desc; gdtr : Z; tr : Z }.

(** [tss_addr] is the address of the static [tss]. *)
Definition tss_init (tss_addr : Z) : M segments unit :=
  _ ← modify (fun s => mk_segments (replicate tss_words 0) (gdt s) (gdtr s) (tr s));
  _ ← modify (fun s => mk_segments (<[tss_ss0 := SELECTOR_KERNEL_STACK]> (tss s)) (gdt s) (gdtr s) (tr s));
  _ ← modify (fun s => mk_segments (<[tss_io_base := tss_size]> (tss s)) (gdt s) (gdtr s) (tr s));
  let install a d := modify (fun s => mk_segments (tss s) (<[a := d]> (gdt s)) (gdtr s) (tr s)) in
  _ ← install 0xc0000920 (make_gdt_desc tss_addr (u32 (tss_size - 1)) TSS_ATTR_LOW TSS_ATTR_HIGH);
  _ ← install 0xc0000928 (make_gdt_desc 0 0xfffff GDT_CODE_ATTR_LOW_DPL3 GDT_ATTR_HIGH);
  _ ← install 0xc0000930 (make_gdt_desc 0 0xfffff GDT_DATA_ATTR_LOW_DPL3 GDT_ATTR_HIGH);
  let gdt_operand := Z.lor (8 * 7 - 1) (Z.shiftl (u32 0xc0000900) 16) in
  _ ← modify (fun s => mk_segments (tss s) (gdt s) gdt_operand (tr s));
  modify (fun s => mk_segments (tss s) (gdt s) (gdtr s) SELECTOR_TSS).

(** ** What the processor reads *)

Module Decode.

Definition seg_base (d : gdt_desc) : Z :=
  base_low_word d + base_mid_byte d * 65536 + base_high_byte d * 16777216.
Definition seg_limit (d : gdt_desc) : Z := limit_low_word d + limit_high_attr_high d mod 16 * 65536.
Definition granular (d : gdt_desc) : bool := Z.testbit (limit_high_attr_high d) 7.
Definition seg_present (d : gdt_desc) : bool := Z.testbit (attr_low_byte d) 7.
Definition seg_dpl (d : gdt_desc) : Z := Z.land (Z.shiftr (attr_low_byte d) 5) 3.
Definition seg_type (d : gdt_desc) : Z := attr_low_byte d mod 32.

(** The last byte of the segment. *)
Definition seg_last (d : gdt_desc) : Z :=
  if granular d then seg_limit d * 4096 + 4095 else seg_limit d.

(** The descriptor a selector names, through the register of the table; none
    behind the limit of the table. *)
Definition descriptor (s : segments) (selector : Z) : option gdt_desc :=
  let base := Z.shiftr (gdtr s) 16 in
  let limit := Z.land (gdtr s) 0xffff in
  let off := Z.shiftr selector 3 * 8 in
  if off + 7 <=? limit then gdt s !! (base + off) else None.

(** The requested privilege level of a selector. *)
Definition rpl (selector : Z) : Z := Z.land selector 3.
End Decode.
Export Decode.

(** ** Properties *)

Lemma land_mask x a n w : 0 <= a -> a + n <= w -> 0 <= n -> 0 <= x < 2 ^ w ->
  Z.shiftr (Z.land x (2 ^ (a + n) - 2 ^ a)) a = x / 2 ^ a mod 2 ^ n.
Proof.
  intros Ha Hw Hn Hx. rewrite Z.shiftr_land.
  replace (Z.shiftr (2 ^ (a + n) - 2 ^ a) a) with (2 ^ n - 1).
  - rewrite land_low, Z.shiftr_div_pow2 by done. done.
  - rewrite Z.shiftr_div_pow2, Z.pow_add_r by done.
    replace (2 ^ a * 2 ^ n - 2 ^ a) with ((2 ^ n - 1) * 2 ^ a) by ring.
    rewrite Z.div_mul; [done|]. apply Z.pow_nonzero; lia.
Qed.

Lemma make_gdt_desc_base addr limit al ah : 0 <= addr < 2 ^ 32 ->
  seg_base (make_gdt_desc addr limit al ah) = addr.
Proof.
  intros Ha. unfold seg_base, make_gdt_desc. cbn [base_low_word base_mid_byte base_high_byte].
  rewrite (u32_small addr) by lia. change 0x0000ffff with (2 ^ 16 - 1).
  rewrite (land_low addr 16) by lia. change 0x00ff0000 with (2 ^ (16 + 8) - 2 ^ 16).
  rewrite (land_mask addr 16 8 32), Z.shiftr_div_pow2 by lia. unwrap.
  change (2 ^ 16) with 65536. change (2 ^ 8) with 256. change (2 ^ 24) with 16777216.
  change (2 ^ 32) with 4294967296 in Ha. zarith.
Qed.

(** The upper four bits of the limit share a byte with the attributes, whose
    lower four bits are clear. *)
Lemma make_gdt_desc_limit addr limit al ah : 0 <= limit < 2 ^ 20 -> 0 <= ah < 256 -> ah mod 16 = 0 ->
  let d := make_gdt_desc addr limit al ah in
  seg_limit d = limit /\ granular d = Z.testbit ah 7.
Proof.
  intros Hl Hr Ha d. unfold seg_limit, granular, d, make_gdt_desc.
  cbn [limit_low_word limit_high_attr_high]. change 0x0000ffff with (2 ^ 16 - 1).
  rewrite (land_low limit 16) by lia. change 0x000f0000 with (2 ^ (16 + 4) - 2 ^ 16).
  rewrite (land_mask limit 16 4 20) by lia. rewrite (u8_small ah) by done.
  change (2 ^ 20) with 1048576 in Hl. change (2 ^ 16) with 65536. change (2 ^ 4) with 16.
  rewrite u8_small by zarith. split; [unwrap; zarith|].
  rewrite !Z.testbit_eqb by lia. change (2 ^ 7) with 128. f_equal. zarith.
Qed.

(** Look a selector up in the table [tss_init] has built. *)
Ltac find_segment :=
  match goal with |- context [if ?b then _ else _] => replace b with true by reflexivity end;
  match goal with |- context [_ !! ?a] => let v := eval vm_compute in a in change a with v end;
  rewrite ?lookup_insert_ne, lookup_insert_eq by lia; eexists; split; [reflexivity|].

(** After [tss_init] the selectors the kernel loads name these segments:
    the task register the task state segment, which user mode cannot use and
    whose stack segment for privilege 0 is that of the kernel; the selectors of
    user code and data, with privilege 3, segments that span all 4 GB and that
    user mode may use.  No other descriptor changes.  The limit of the task
    state segment is counted in pages: it ends behind the offset [io_base], and
    the words that follow [tss] in memory are its map of permitted ports. *)
Theorem tss_init_segments (tss_addr : Z) (s : segments) : 0 <= tss_addr < 2 ^ 32 ->
  exists s', tss_init tss_addr s = Ok (tt, s') /\
    (exists d, descriptor s' (tr s') = Some d /\ seg_base d = tss_addr /\ seg_limit d = tss_size - 1 /\
       seg_dpl d = 0 /\ seg_type d = 9 /\ seg_present d = true /\
       seg_last d = (tss_size - 1) * 4096 + 4095) /\
    (forall sel, sel = SELECTOR_USER_CODE \/ sel = SELECTOR_USER_DATA ->
       exists d, descriptor s' sel = Some d /\ rpl sel = 3 /\ seg_dpl d = 3 /\
         seg_present d = true /\ seg_base d = 0 /\ seg_last d = 2 ^ 32 - 1) /\
    length (tss s') = tss_words /\
    (forall i, (i < tss_words)%nat -> tss s' !! i =
       Some (if decide (i = tss_ss0) then SELECTOR_KERNEL_STACK
             else if decide (i = tss_io_base) then tss_size else 0)) /\
    (forall a, a <> 0xc0000920 -> a <> 0xc0000928 -> a <> 0xc0000930 -> gdt s' !! a = gdt s !! a).
Proof.
  intros Ha. eexists. split; [unfold tss_init; cbv zeta; rewrite !bind_modify; reflexivity|].
  unfold descriptor. cbn [tr gdt gdtr tss].
  split; [|split; [|split; [|split]]].
  - find_segment. destruct (make_gdt_desc_limit tss_addr (u32 (tss_size - 1)) TSS_ATTR_LOW TSS_ATTR_HIGH)
      as [El Eg]; [by split|by split|done|].
    split; [by apply make_gdt_desc_base|]. split; [exact El|].
    do 3 (split; [reflexivity|]). unfold seg_last. by rewrite Eg, El.
  - intros sel [-> | ->]; find_segment; repeat split.
  - reflexivity.
  - intros i Hi. do 27 (destruct i as [|i]; [reflexivity|]). unfold tss_words in Hi. lia.
  - intros a H1 H2 H3. by rewrite !lookup_insert_ne by done.
Qed.

Lemma tss_init_segments_witness :
  exists s', tss_init 0xc0012340 (mk_segments [] ∅ 0 0) = Ok (tt, s') /\
    exists d, descriptor s' (tr s') = Some d /\ seg_base d = 0xc0012340.
Proof.
  destruct (tss_init_segments 0xc0012340 (mk_segments [] ∅ 0 0)) as (s' & E & (d & Ed & Hb & _) & _).
  - split; [lia|reflexivity].
  - exists s'. split; [exact E|]. exists d. split; [exact Ed|exact Hb].
Defined.
