(* ===== verification/Screen.v ===== *)
(** * Screen: video memory, lib/kernel/print_c.c and device/console.c

    [screen] is the video memory behind the segment [gs], in cells of a
    character and its attribute, and the cursor register of the CRT
    controller.  [put_char], [put_char_pos], [put_str] and [set_cursor] follow
    lib/kernel/print_asm.asm instruction by instruction: 16-bit registers, and
    a fault beyond the 32 KB of the segment.

    The specification is a sheet of paper without end, of which the screen
    shows 25 lines ([shows]). *)

From S2P Require Import Prelude CString Stdio Interrupt Lists Bitmap Kernel Paging Thread Sync IoQueue Memory DataPages.

Definition cell : Type := Z * Z.

Record screen := mk_screen { cells : Z -> cell; cursor : Z }.

Definition blank : cell := (0x20, 0x07).

(** [mov [gs:2*pos], cl; mov byte [gs:2*pos+1], al]. *)
Definition put_cell (pos : Z) (x : cell) : M screen unit := fun s =>
  if (0 <=? pos) && (pos <? 16384)
  then Ok (tt, mk_screen (fun i => if i =? pos then x else cells s i) (cursor s))
  else Err Fault.

Definition set_cursor (pos : Z) : M screen unit :=
  modify (fun s => mk_screen (cells s) (u16 pos)).

(** [shl bx, 1] drops the upper bit of the position. *)
Definition put_char_pos (c attr pos : Z) : M screen unit :=
  put_cell (u16 pos mod 32768) (u8 c, u8 attr).

(** The character in [ah], its attribute in [al]. *)
Definition get_char_pos (pos : Z) : M screen Z := fun s =>
  let '(c, a) := cells s (u16 pos mod 32768) in
  if u16 pos mod 32768 <? 16384 then Ok (256 * c + a, s) else Err Fault.

(** The upper half of [eax] is what it was before the call. *)
Definition get_cursor_pos (eax : Z) : M screen Z :=
  c ← gets cursor; mret (eax / 65536 * 65536 + c).

(** Lines 1 to 24 move up, line 24 becomes blank. *)
Definition roll_screen : M screen unit :=
  modify (fun s => mk_screen (fun i =>
    if (0 <=? i) && (i <? 1920) then cells s (i + 80)
    else if (1920 <=? i) && (i <? 2000) then blank else cells s i) (cursor s)).

Definition line_feed (bx : Z) : M screen unit :=
  let bx := u16 (bx - bx mod 80 + 80) in
  if i16 bx <? 2000 then set_cursor bx
  else _ ← roll_screen; set_cursor 1920.

Definition put_char (c attr : Z) : M screen unit :=
  bx ← gets cursor;
  let cl := u8 c in
  if (cl =? 0xd) || (cl =? 0xa) then line_feed bx
  else if cl =? 0x8 then
    let bx := u16 (bx - 1) mod 32768 in
    _ ← put_cell bx blank; set_cursor bx
  else
    _ ← put_cell (bx mod 32768) (cl, u8 attr);
    let bx := bx mod 32768 + 1 in
    if i16 bx <? 2000 then set_cursor bx else line_feed bx.

Fixpoint put_str_loop (fuel : nat) (s : list Z) (p attr : Z) : M screen unit :=
  match fuel with
  | O => fail OutOfFuel
  | S n =>
      c ← lift (aget s p);
      if c =? 0 then mret tt
      else _ ← put_char c attr; put_str_loop n s (p + 1) attr
  end.

Definition put_str (s : list Z) (p attr : Z) : M screen unit :=
  put_str_loop (S (length s)) s p attr.

(** The loops of [put_uint] are those of [itoa], on an array of 20 bytes. *)
Definition put_uint (x b attr : Z) : M screen unit :=
  s ← lift (itoa (replicate 20 0) 0 x b);
  put_str s 0 attr.

Definition put_int (x b attr : Z) : M screen unit :=
  x ← (if x <? 0 then _ ← put_char 45 attr; mret (i32 (- x)) else mret x);
  put_uint (u32 x) b attr.

Definition put_char_in_pos (c attr pos_x pos_y : Z) : M screen unit :=
  put_char_pos c attr (u8 pos_x * 80 + u8 pos_y).

Definition set_cursor_in_pos (pos_x pos_y : Z) : M screen unit :=
  set_cursor (u32 (pos_x * 80 + pos_y)).

Fixpoint put_nuls (n : nat) : M screen unit :=
  match n with O => mret tt | S n' => _ ← put_char 0 0x07; put_nuls n' end.

Definition clear : M screen unit :=
  _ ← set_cursor_in_pos 0 0; _ ← put_nuls 2000; set_cursor_in_pos 0 0.

Definition debug_printf_s (s c : list Z) : M screen unit :=
  _ ← put_char 10 0x07; _ ← put_str s 0 0x07; _ ← put_str c 0 0x07; put_char 10 0x07.

Definition debug_printf_uint (s : list Z) (x b : Z) : M screen unit :=
  _ ← put_char 10 0x07; _ ← put_str s 0 0x07; _ ← put_uint x b 0x07; put_char 10 0x07.

(** ** device/console.c

    The same operations under [console_lock].  A call that finds the lock
    taken is suspended: [WaitsLock]. *)

Record console := mk_console { ck : kernel; cs : screen }.

Definition on_ck {A} (m : M kernel A) : M console A := fun s =>
  match m (ck s) with Ok (a, k) => Ok (a, mk_console k (cs s)) | Err e => Err e end.
Definition on_cs {A} (m : M screen A) : M console A := fun s =>
  match m (cs s) with Ok (a, x) => Ok (a, mk_console (ck s) x) | Err e => Err e end.

Section console.
Context (console_lock : Z).

Definition console_init : M console unit := on_ck (lock_init console_lock).
Definition console_acquire : M console (option intr_status) := on_ck (lock_acquire console_lock).
Definition console_release : M console unit := on_ck (lock_release console_lock).

(** [console_acquire(); ...; console_release();]. *)
Definition with_console {A} (m : M screen A) : M console (outcome A) :=
  r ← console_acquire;
  match r with
  | Some old => mret (WaitsLock old)
  | None => a ← on_cs m; _ ← console_release; mret (Done a)
  end.

Definition console_put_str (s : list Z) (p attr : Z) : M console (outcome unit) :=
  with_console (put_str s p (u8 attr)).
Definition console_put_char (c attr : Z) : M console (outcome unit) :=
  with_console (put_char c (u8 attr)).
Definition console_put_int (x b attr : Z) : M console (outcome unit) :=
  with_console (put_int x b (u8 attr)).
Definition console_put_char_in_pos (c attr pos_x pos_y : Z) : M console (outcome unit) :=
  with_console (put_char_in_pos c attr pos_x pos_y).

Definition console_get_char_pos (pos : Z) : M console (outcome Z) :=
  with_console (get_char_pos (u16 pos)).

(** [for (i = 0; i < len; i++) { put_char_pos(s[i], attr, pos); pos = pos + 1; }]. *)
Fixpoint put_chars_pos (n : nat) (s : list Z) (p attr pos : Z) : M screen unit :=
  match n with
  | O => mret tt
  | S n' =>
      c ← lift (aget s p);
      _ ← put_char_pos c attr pos;
      put_chars_pos n' s (p + 1) attr (u32 (pos + 1))
  end.

Definition console_put_str_in_pos (s : list Z) (p attr pos_x pos_y : Z) : M console (outcome unit) :=
  with_console (
    len ← lift (strlen s p);
    put_chars_pos (Z.to_nat len) s p attr (u32 (u8 pos_x * 80 + u8 pos_y))).

Definition console_clear : M console (outcome unit) :=
  with_console (_ ← set_cursor_in_pos 0 0; _ ← put_nuls 2000; set_cursor_in_pos 0 0).
Definition console_debug_printf_str (s c : list Z) : M console (outcome unit) :=
  with_console (debug_printf_s s c).
Definition console_debug_printf_uint (s : list Z) (x b : Z) : M console (outcome unit) :=
  with_console (debug_printf_uint s x b).
End console.

(** ** Specification: a sheet of paper *)

(** [doc p] is the cell at position [p] of the sheet, 80 to a line; the screen
    shows 25 lines from line [top] on; the next character goes to [at_pos]. *)
Record sheet := mk_sheet { doc : Z -> cell; top : Z; at_pos : Z }.

(** Move to [p]; the screen follows when [p] is below its last line. *)
Definition go (t : sheet) (p : Z) : sheet :=
  mk_sheet (doc t) (if p <? (top t + 25) * 80 then top t else top t + 1) p.

(** A character typed on the sheet; none at the upper end of the screen can be
    erased. *)
Definition type_char (attr c : Z) (t : sheet) : option sheet :=
  if (c =? 0xd) || (c =? 0xa) then Some (go t ((at_pos t / 80 + 1) * 80))
  else if c =? 0x8 then
    if at_pos t =? top t * 80 then None
    else Some (mk_sheet (fun p => if p =? at_pos t - 1 then blank else doc t p) (top t) (at_pos t - 1))
  else Some (go (mk_sheet (fun p => if p =? at_pos t then (c, attr) else doc t p) (top t) (at_pos t))
               (at_pos t + 1)).

Fixpoint type_str (attr : Z) (s : list Z) (t : sheet) : option sheet :=
  match s with [] => Some t | c :: s' => t' ← type_char attr c t; type_str attr s' t' end.

Record shows (s : screen) (t : sheet) : Prop := {
  sh_top : 0 <= at_pos t - top t * 80 < 2000;
  sh_cursor : cursor s = at_pos t - top t * 80;
  sh_cells : forall i, 0 <= i < 2000 -> cells s i = doc t (top t * 80 + i);
  sh_rest : forall p, top t * 80 + 2000 <= p -> doc t p = blank }.

(** ** Lemmas *)

Lemma put_cell_ok pos x s : 0 <= pos < 16384 ->
  put_cell pos x s = Ok (tt, mk_screen (fun i => if i =? pos then x else cells s i) (cursor s)).
Proof. intros Hp. unfold put_cell. by decide_bool. Qed.

(** What has been put at a position is read there. *)
Lemma put_then_get c attr pos s s' : put_char_pos c attr pos s = Ok (tt, s') ->
  get_char_pos pos s' = Ok (256 * u8 c + u8 attr, s').
Proof.
  unfold put_char_pos, put_cell, get_char_pos. destruct (0 <=? _) eqn:E0; [|done]. destruct (_ <? 16384) eqn:E1; [|done].
  cbn [andb]. intros [= <-]. cbn [cells]. by rewrite Z.eqb_refl.
Qed.

Lemma i16_small x : 0 <= x < 32768 -> i16 x = x.
Proof. intros. unwrap. rewrite Z.mod_small; lia. Qed.

(** The screen moves up a line. *)
Lemma line_feed_roll s (d : Z -> cell) l bx : 1920 <= bx <= 2000 ->
  (forall i, 0 <= i < 2000 -> cells s i = d (l * 80 + i)) ->
  (forall p, l * 80 + 2000 <= p -> d p = blank) ->
  exists s', line_feed bx s = Ok (tt, s') /\ shows s' (mk_sheet d (l + 1) ((l + 25) * 80)).
Proof.
  intros Hb Hc Hr. unfold line_feed.
  rewrite (u16_small (bx - bx mod 80 + 80)), i16_small by zarith.
  rewrite (proj2 (Z.ltb_ge _ _)) by zarith.
  eexists. split; [unfold roll_screen; rewrite bind_modify; reflexivity|].
  split; cbn [at_pos top doc cursor cells].
  - lia.
  - rewrite u16_small by lia. lia.
  - intros i Hi. destruct (Z.ltb_spec i 1920); decide_bool.
    + rewrite Hc by lia. f_equal. lia.
    + symmetry. apply Hr. lia.
  - intros p Hp. apply Hr. lia.
Qed.

(** The screen follows the sheet to the beginning of the next line. *)
Lemma line_feed_ok s t : shows s t ->
  exists s', line_feed (cursor s) s = Ok (tt, s') /\ shows s' (go t ((at_pos t / 80 + 1) * 80)).
Proof.
  intros [Ht Hcur Hc Hr]. set (bx := at_pos t - top t * 80) in *.
  assert (Ep : (at_pos t / 80 + 1) * 80 = top t * 80 + (bx / 80 + 1) * 80) by zarith.
  unfold go. rewrite Ep, Hcur. destruct (Z.ltb_spec bx 1920) as [H|H].
  - rewrite (proj2 (Z.ltb_lt _ _)) by zarith. unfold line_feed.
    assert (El : bx - bx mod 80 + 80 = (bx / 80 + 1) * 80) by zarith.
    rewrite El, u16_small, i16_small by zarith. rewrite (proj2 (Z.ltb_lt _ _)) by zarith.
    eexists. split; [reflexivity|]. split; cbn [at_pos top doc cursor cells]; try assumption; [zarith|].
    rewrite u16_small by zarith. lia.
  - rewrite (proj2 (Z.ltb_ge _ _)) by zarith.
    replace (top t * 80 + (bx / 80 + 1) * 80) with ((top t + 25) * 80) by zarith.
    apply line_feed_roll; [lia|exact Hc|exact Hr].
Qed.

Lemma put_char_ok s t t' c attr : is_byte c -> is_byte attr -> shows s t -> type_char attr c t = Some t' ->
  exists s', put_char c attr s = Ok (tt, s') /\ shows s' t'.
Proof.
  intros Hc Ha Hs E. pose proof Hs as [Ht Hcur Hce Hr]. unfold put_char, type_char in *. rewrite bind_gets.
  rewrite !u8_small by done. destruct ((c =? 0xd) || (c =? 0xa)).
  { injection E as <-. by apply line_feed_ok. }
  rewrite Hcur. set (bx := at_pos t - top t * 80) in *. destruct (c =? 0x8).
  - destruct (Z.eqb_spec (at_pos t) (top t * 80)); [done|]. injection E as <-.
    rewrite u16_small, Z.mod_small by lia.
    erewrite bindM_ok by (apply put_cell_ok; lia).
    eexists. split; [reflexivity|]. split; cbn [at_pos top doc cursor cells].
    + lia.
    + rewrite u16_small by lia. lia.
    + intros i Hi. destruct (Z.eqb_spec i (bx - 1)); destruct (Z.eqb_spec (top t * 80 + i) (at_pos t - 1));
        try lia; [done|by apply Hce].
    + intros p Hp. destruct (Z.eqb_spec p (at_pos t - 1)); [done|by apply Hr].
  - injection E as <-. rewrite Z.mod_small by lia.
    erewrite bindM_ok by (apply put_cell_ok; lia). rewrite i16_small by lia.
    set (d := fun p => if p =? at_pos t then (c, attr) else doc t p).
    assert (Hce1 : forall i, 0 <= i < 2000 ->
      (if i =? bx then (c, attr) else cells s i) = d (top t * 80 + i)).
    { intros i Hi. unfold d. destruct (Z.eqb_spec i bx); destruct (Z.eqb_spec (top t * 80 + i) (at_pos t));
        try lia; [done|by apply Hce]. }
    assert (Hr1 : forall p, top t * 80 + 2000 <= p -> d p = blank).
    { intros p Hp. unfold d. destruct (Z.eqb_spec p (at_pos t)); [lia|by apply Hr]. }
    unfold go. cbn [top doc]. destruct (Z.ltb_spec (bx + 1) 2000) as [H|H].
    + eexists. split; [reflexivity|]. rewrite (proj2 (Z.ltb_lt _ _)) by lia.
      split; cbn [at_pos top cursor cells doc]; try assumption; [lia|].
      rewrite u16_small by lia. lia.
    + rewrite (proj2 (Z.ltb_ge _ _)) by lia. replace (at_pos t + 1) with ((top t + 25) * 80) by lia.
      apply line_feed_roll; [lia|exact Hce1|exact Hr1].
Qed.

Lemma put_str_loop_ok attr str : forall fuel l p s t t', is_byte attr -> cstr l p str -> bytes str ->
  (length str < fuel)%nat -> shows s t -> type_str attr str t = Some t' ->
  exists s', put_str_loop fuel l p attr s = Ok (tt, s') /\ shows s' t'.
Proof.
  induction str as [|c str IH]; intros [|fuel] l p s t t' Ha Hl Hb Hf Hs E; try (cbn in Hf; lia).
  - injection E as <-. exists s. split; [|done]. cbn [put_str_loop].
    by rewrite (bind_lift _ _ _ _ (cstr_nul _ _ Hl)).
  - cbn [type_str] in E. destruct (type_char attr c t) as [t1|] eqn:E1; [|done].
    inversion Hb as [|? ? Hc Hb']. subst. destruct (cstr_cons _ _ _ _ Hl) as [Hn Hl'].
    destruct (put_char_ok s t t1 c attr Hc Ha Hs E1) as (s1 & Ec & Hs1).
    destruct (IH fuel l (p + 1) s1 t1 t' Ha Hl' Hb' ltac:(cbn in Hf; lia) Hs1 E) as (s' & El & Hs').
    exists s'. split; [|done]. cbn [put_str_loop].
    rewrite (bind_lift _ _ _ _ (cstr_head _ _ _ _ Hl)), (proj2 (Z.eqb_neq _ _) Hn).
    by rewrite (bindM_ok _ _ _ _ _ Ec).
Qed.

Lemma put_str_ok attr str l p s t t' : is_byte attr -> cstr l p str -> bytes str -> shows s t ->
  type_str attr str t = Some t' -> exists s', put_str l p attr s = Ok (tt, s') /\ shows s' t'.
Proof.
  intros Ha Hl Hb. apply put_str_loop_ok; [done|done|done|]. pose proof (cstr_fuel _ _ _ Hl). lia.
Qed.

(** Characters other than backspace can always be typed. *)
Lemma type_str_total attr str : Forall (fun c => c <> 0x8) str -> forall t, exists t', type_str attr str t = Some t'.
Proof.
  induction 1 as [|c str Hc _ IH]; intros t; [by exists t|]. cbn [type_str]. unfold type_char.
  rewrite (proj2 (Z.eqb_neq _ _) Hc). destruct ((c =? 0xd) || (c =? 0xa)); apply IH.
Qed.

Lemma put_uint_ok x b attr s t t' : 2 <= b <= 36 -> 0 <= x < 4294967296 -> zlen (numeral b x) < 20 ->
  is_byte attr -> shows s t -> type_str attr (numeral b x) t = Some t' ->
  exists s', put_uint x b attr s = Ok (tt, s') /\ shows s' t'.
Proof.
  intros Hb Hx Hl Ha Hs E. unfold put_uint.
  pose proof (numeral_chars b x Hb ltac:(lia)) as Hd.
  set (n := S (length (numeral b x))).
  pose proof (itoa_ok [] (replicate n 0) (replicate (20 - n) 0) x b ltac:(lia) Hx) as Ei.
  rewrite length_replicate in Ei. specialize (Ei eq_refl). cbn [app] in Ei.
  rewrite <- replicate_add in Ei. unfold zlen in Hl. replace (n + (20 - n))%nat with 20%nat in Ei by lia.
  change (zlen []) with 0 in Ei. rewrite (bind_lift _ _ _ _ Ei).
  apply (put_str_ok attr (numeral b x) _ 0 s t t'); try done.
  - exists [], (replicate (20 - n) 0). split; [done|]. split; [done|].
    eapply Forall_impl; [exact Hd|]. cbn. lia.
  - eapply Forall_impl; [exact Hd|]. unfold is_byte. cbn. lia.
Qed.

(** The text of a signed number. *)
Definition int_text (b x : Z) : list Z := if x <? 0 then 45 :: numeral b (- x) else numeral b x.

Lemma int_text_chars b x : 2 <= b <= 36 -> Forall (fun c => 45 <= c <= 90) (int_text b x).
Proof.
  intros Hb. assert (H : forall y, 0 <= y -> Forall (fun c => 45 <= c <= 90) (numeral b y)).
  { intros y Hy. eapply Forall_impl; [by apply numeral_chars|]. cbn. lia. }
  unfold int_text. destruct (Z.ltb_spec x 0); [constructor; [lia|]|]; apply H; lia.
Qed.

Lemma put_int_ok x b attr s t t' : 2 <= b <= 36 -> - 2 ^ 31 <= x < 2 ^ 31 -> zlen (numeral b (Z.abs x)) < 20 ->
  is_byte attr -> shows s t -> type_str attr (int_text b x) t = Some t' ->
  exists s', put_int x b attr s = Ok (tt, s') /\ shows s' t'.
Proof.
  intros Hb Hx Hl Ha Hs E. change (2 ^ 31) with 2147483648 in Hx.
  unfold put_int, int_text in *. destruct (Z.ltb_spec x 0) as [H|H].
  - cbn [type_str] in E. destruct (type_char attr 45 t) as [t1|] eqn:E1; [|done].
    destruct (put_char_ok s t t1 45 attr ltac:(unfold is_byte; lia) Ha Hs E1) as (s1 & Ec & Hs1).
    erewrite bindM_ok by (rewrite (bindM_ok _ _ _ _ _ Ec); reflexivity).
    assert (Eu : u32 (i32 (- x)) = - x) by (unwrap; zarith). rewrite Eu.
    rewrite Z.abs_neq in Hl by lia. apply (put_uint_ok _ _ _ s1 t1 t' Hb); [lia|exact Hl|exact Ha|exact Hs1|exact E].
  - rewrite bind_mret, u32_small by lia. rewrite Z.abs_eq in Hl by lia.
    apply (put_uint_ok _ _ _ s t t' Hb); [lia|exact Hl|exact Ha|exact Hs|exact E].
Qed.

Lemma with_console_ok {A} lk (m : M screen A) s Γ a x : lock_idle (ck s) Γ lk -> cur (kc (ck s)) <> NULL ->
  lists_ok (km (ck s)) Γ -> m (cs s) = Ok (a, x) ->
  with_console lk m s = Ok (Done a, mk_console (ck s) x).
Proof.
  intros Hlk Hc Hl E. unfold with_console, console_acquire, console_release, on_ck, on_cs.
  set (k1 := set_ksy (held (ksy (ck s)) lk (cur (kc (ck s)))) (ck s)).
  rewrite (bindM_ok _ _ s None (mk_console k1 (cs s))) by (by rewrite (lock_enter _ _ _ Hlk Hc)).
  rewrite (bindM_ok _ _ (mk_console k1 (cs s)) a (mk_console k1 x)) by (cbn [cs ck]; by rewrite E).
  pose proof (lock_leave (ck s) k1 Γ lk Hlk eq_refl Γ Hl (lf_waiters _ _ _ Hlk)) as El.
  rewrite (bindM_ok _ _ (mk_console k1 x) tt (mk_console (ck s) x)); [done|].
  cbn [ck cs]. rewrite El. unfold k1. by destruct s as [[]].
Qed.

(** ** Properties *)

(** C39. [put_str] prints: the screen that showed a sheet of paper shows the sheet
    with the string typed on it, line breaks, wrapping at the end of a line and
    scrolling included; a string without backspace can always be typed. *)
Theorem put_str_prints (s : screen) (t : sheet) (attr : Z) (l : list Z) (p : Z) (str : list Z) :
  is_byte attr -> shows s t -> cstr l p str -> bytes str ->
  (forall t', type_str attr str t = Some t' ->
     exists s', put_str l p attr s = Ok (tt, s') /\ shows s' t') /\
  (Forall (fun c => c <> 0x8) str -> exists t', type_str attr str t = Some t').
Proof.
  intros Ha Hs Hl Hb. split.
  - intros t' E. by apply (put_str_ok attr str l p s t t').
  - intros Hf. by apply type_str_total.
Qed.

(** [console_put_int] types the number, with its sign, as one piece: called with
    the console free it returns with the console free and nothing else of the
    kernel changed; a call that finds the console taken prints nothing. *)
Theorem console_put_int_prints (lk : Z) (s : console) (t : sheet) (x b attr : Z) (Γ : gmap Z (list Z)) :
  2 <= b <= 36 -> - 2 ^ 31 <= x < 2 ^ 31 -> zlen (numeral b (Z.abs x)) < 20 -> is_byte attr ->
  shows (cs s) t ->
  (lock_idle (ck s) Γ lk -> cur (kc (ck s)) <> NULL -> lists_ok (km (ck s)) Γ ->
     exists x' t', console_put_int lk x b attr s = Ok (Done tt, mk_console (ck s) x') /\
       type_str attr (int_text b x) t = Some t' /\ shows x' t') /\
  (forall old s', console_put_int lk x b attr s = Ok (WaitsLock old, s') -> cs s' = cs s).
Proof.
  intros Hb Hx Hn Ha Hs. split.
  - intros Hlk Hc Hl. destruct (type_str_total attr (int_text b x)) with (t := t) as [t' E].
    { eapply Forall_impl; [by apply int_text_chars|]. cbn. lia. }
    destruct (put_int_ok x b attr (cs s) t t' Hb Hx Hn Ha Hs E) as (x' & Ep & Hx').
    exists x', t'. split; [|done]. unfold console_put_int. rewrite u8_small by done.
    by apply (with_console_ok lk _ s Γ).
  - intros old s' (r & s1 & Er & H)%bindM_inv. unfold console_acquire, on_ck in Er.
    destruct (lock_acquire lk (ck s)) as [[r' k1]|]; [|done]. injection Er as <- <-.
    destruct r' as [old'|]; [by injection H as _ <-|].
    apply bindM_inv in H as (a & s2 & _ & H). apply bindM_inv in H as (u & s3 & _ & H). done.
Qed.

Definition empty_screen : screen := mk_screen (fun _ => blank) 1999.
Definition empty_sheet : sheet := mk_sheet (fun _ => blank) 0 1999.

Lemma empty_shows : shows empty_screen empty_sheet.
Proof. by split; cbn; try lia. Qed.

(** The last cell is written, the screen scrolls, and [!] begins line 24. *)
Lemma put_str_prints_witness :
  exists s', put_str [63; 33; 0] 0 7 empty_screen = Ok (tt, s') /\ cells s' 1919 = (63, 7) /\
    cells s' 1920 = (33, 7) /\ cursor s' = 1921.
Proof.
  destruct (put_str_prints empty_screen empty_sheet 7 [63; 33; 0] 0 [63; 33]) as [H _].
  - unfold is_byte. lia.
  - exact empty_shows.
  - exists [], []. split; [reflexivity|split; [reflexivity|]]. repeat constructor; lia.
  - repeat constructor; unfold is_byte; lia.
  - destruct (H _ eq_refl) as (s' & E & [_ Hc Hd _]). exists s'. split; [exact E|].
    split; [exact (Hd 1919 ltac:(lia))|]. split; [exact (Hd 1920 ltac:(lia))|exact Hc].
Defined.

Lemma demo_console_idle : lock_idle demo_locked (list_to_map demo_G) demo_lock.
Proof. split; reflexivity. Qed.

Lemma console_put_int_prints_witness :
  exists x', console_put_int demo_lock (-42) 10 7 (mk_console demo_locked empty_screen)
    = Ok (Done tt, mk_console demo_locked x') /\ cells x' 1919 = (45, 7) /\ cells x' 1921 = (50, 7).
Proof.
  destruct (console_put_int_prints demo_lock (mk_console demo_locked empty_screen) empty_sheet
    (-42) 10 7 (list_to_map demo_G)) as [H _].
  - lia.
  - split; [discriminate|reflexivity].
  - reflexivity.
  - unfold is_byte. lia.
  - exact empty_shows.
  - destruct H as (x' & t' & E & Et & [_ _ Hd _]); [exact demo_console_idle|discriminate| |].
    + exact (sp_lists _ _ _ _ (proj1 demo_locked_ok)).
    + exists x'. split; [exact E|]. injection Et as <-.
      split; [exact (Hd 1919 ltac:(lia))|exact (Hd 1921 ltac:(lia))].
Defined.
