(* ===== verification/Vectors.v ===== *)
(** * Vectors: the initialisation of interrupts and the default handler
    (kernel/interrupt.c, the part that is not in Interrupt.v)

    The state is the tables of interrupt.c, the register the processor keeps
    the address of the descriptor table in, and the pair of 8259A controllers.
    The controllers are hardware: [Pics] has a byte written to a port as an
    operation and, as laws, what the data sheet says of the initialisation
    sequence and of the mask register. *)

From Stdlib Require Import String.
From S2P Require Import Prelude CString Stdio Names Interrupt Screen.
Open Scope gw_scope.
Import Idt.

Definition PIC_M_CTRL : Z := 0x20.
Definition PIC_M_DATA : Z := 0x21.
Definition PIC_S_CTRL : Z := 0xa0.
Definition PIC_S_DATA : Z := 0xa1.

(** The master is [false], the slave [true]. *)
Definition ctrl_port (slave : bool) : Z := if slave then PIC_S_CTRL else PIC_M_CTRL.
Definition data_port (slave : bool) : Z := if slave then PIC_S_DATA else PIC_M_DATA.

Class Pics (C : Type) := {
  pic_out : Z -> Z -> C -> C;
  pic_ready : C -> bool -> Prop;      (* the sequence is over *)
  pic_base : C -> bool -> Z;          (* the vector of line 0 *)
  pic_mask : C -> bool -> Z;
  pic_init_law : forall c b v w, v mod 8 = 0 ->
    let c' := pic_out (data_port b) 0x01 (pic_out (data_port b) w (pic_out (data_port b) v (pic_out (ctrl_port b) 0x11 c))) in
    pic_ready c' b /\ pic_base c' b = v /\
    (pic_ready c (negb b) -> pic_ready c' (negb b)) /\ pic_base c' (negb b) = pic_base c (negb b) /\
    pic_mask c' (negb b) = pic_mask c (negb b);
  pic_mask_law : forall c b x, pic_ready c b ->
    let c' := pic_out (data_port b) x c in
    pic_ready c' b /\ pic_mask c' b = x /\ pic_base c' b = pic_base c b /\
    (pic_ready c (negb b) -> pic_ready c' (negb b)) /\ pic_base c' (negb b) = pic_base c (negb b) /\
    pic_mask c' (negb b) = pic_mask c (negb b) }.

(** A line of the pair lets interrupts through, and the vector it raises. *)
Definition line_open {C} `{Pics C} (c : C) (irq : Z) : bool :=
  negb (Z.testbit (pic_mask c (8 <=? irq)) (irq mod 8)).
Definition line_vector {C} `{Pics C} (c : C) (irq : Z) : Z := pic_base c (8 <=? irq) + irq mod 8.

Section vectors.
Context {C : Type} `{Pics C}.

Record intr := mk_intr {
  idt : list gate_desc;
  intr_function_table : list Z;
  intr_name : list (list Z);
  idtr : Z;
  pics : C }.

Definition outb (port data : Z) : M intr unit :=
  modify (fun s => mk_intr (idt s) (intr_function_table s) (intr_name s) (idtr s) (pic_out (u16 port) (u8 data) (pics s))).

Definition pic_init : M intr unit :=
  _ ← outb PIC_M_CTRL 0x11;
  _ ← outb PIC_M_DATA 0x20;
  _ ← outb PIC_M_DATA 0x04;
  _ ← outb PIC_M_DATA 0x01;
  _ ← outb PIC_S_CTRL 0x11;
  _ ← outb PIC_S_DATA 0x28;
  _ ← outb PIC_S_DATA 0x02;
  _ ← outb PIC_S_DATA 0x01;
  _ ← outb PIC_M_DATA 0xf8;
  outb PIC_S_DATA 0xbf.

(** The entries of the two tables. *)
Definition set_function (i f : Z) : M intr unit :=
  s ← get; t ← lift (aset (intr_function_table s) i f);
  put (mk_intr (idt s) t (intr_name s) (idtr s) (pics s)).
Definition set_name (i : Z) (n : string) : M intr unit :=
  s ← get;
  if (0 <=? i) && (i <? zlen (intr_name s)) then
    put (mk_intr (idt s) (intr_function_table s) (<[Z.to_nat i := lit n ++ [0]]> (intr_name s)) (idtr s) (pics s))
  else fail Fault.

Fixpoint intr_function_loop (n : nat) (i general_intr_handler : Z) : M intr unit :=
  match n with
  | O => mret tt
  | S n' =>
      _ ← set_function i general_intr_handler;
      _ ← set_name i "unknown";
      intr_function_loop n' (i + 1) general_intr_handler
  end.

Definition intr_function_init (general_intr_handler : Z) : M intr unit :=
  _ ← intr_function_loop (Z.to_nat IDT_DESC_CNT) 0 general_intr_handler;
  _ ← set_name 0 "#DE Divide Error";
  _ ← set_name 1 "#DB Debug Exception";
  _ ← set_name 2 "NMI Interrupt";
  _ ← set_name 3 "#BP Breakpoint Exception";
  _ ← set_name 4 "#OF Overflow Exception";
  _ ← set_name 5 "#BR BOUND Range Exceeded Exception";
  _ ← set_name 6 "#UD Invalid Opcode Exception";
  _ ← set_name 7 "#NM Device Not Available Exception";
  _ ← set_name 8 "#DF Double Fault Exception";
  _ ← set_name 9 "Coprocessor Segment Overrun";
  _ ← set_name 10 "#TS Invalid TSS Exception";
  _ ← set_name 11 "#NP Segment Not Present";
  _ ← set_name 12 "#SS Stack Fault Exception";
  _ ← set_name 13 "#GP General Protection Exception";
  _ ← set_name 14 "#PF Page-Fault Exception";
  _ ← set_name 16 "#MF x87 FPU Floating-Point Error";
  _ ← set_name 17 "#AC Alignment Check Exception";
  _ ← set_name 18 "#MC Machine-Check Exception";
  set_name 19 "#XF SIMD Floating-Point Exception".

(** The operand of [lidt]: the limit in 16 bits, the address above it. *)
Definition lidt (idt_operand : Z) : M intr unit :=
  modify (fun s => mk_intr (idt s) (intr_function_table s) (intr_name s) idt_operand (pics s)).

Definition sizeof_gate_desc : Z := 8.

(** [idt_addr] is the address of [idt]. *)
Definition interrupt_init (intr_entry_table : list Z) (syscall_handler general_intr_handler idt_addr : Z) : M intr unit :=
  s ← get;
  t ← lift (idt_init intr_entry_table syscall_handler (idt s));
  _ ← put (mk_intr t (intr_function_table s) (intr_name s) (idtr s) (pics s));
  _ ← intr_function_init general_intr_handler;
  _ ← pic_init;
  lidt (Z.lor (sizeof_gate_desc * IDT_DESC_CNT - 1) (Z.shiftl (u32 idt_addr) 16)).
End vectors.

(** ** The default handler *)

(** It returns at once, or never. *)
Inductive handled := Ignored | Hangs.

(** [while (cur_pos < 320) put_char(' ', 0x07)]. *)
Fixpoint put_spaces (n : nat) : M screen unit :=
  match n with O => mret tt | S n' => _ ← put_char 32 0x07; put_spaces n' end.

Definition say (s : list Z) : M screen unit := put_str s 0 0x07.

(** [cr2] is the address that has faulted. *)
Definition general_intr_handler (intr_name : list (list Z)) (cr2 vector_id : Z) : M screen handled :=
  let vector_id := u8 vector_id in
  if (vector_id =? 0x27) || (vector_id =? 0x2f) then mret Ignored
  else
    _ ← put_spaces 320;
    _ ← say (lit "--- excetion message begin ---" ++ [10; 0]);
    _ ← (if vector_id =? 14 then
           _ ← say ([10] ++ lit "page fault addr is " ++ [0]);
           put_uint (u32 cr2) 16 0x07
         else
           _ ← say (lit "int vector: 0x" ++ [0]);
           _ ← put_int vector_id 16 0x07;
           _ ← put_char 10 0x07;
           _ ← (match intr_name !! Z.to_nat vector_id with Some n => say n | None => fail Fault end);
           put_char 10 0x07);
    _ ← say ([10] ++ lit "--- excetion message end ---" ++ [10; 0]);
    mret Hangs.

(** ** The tables *)

Definition unknown : list Z := lit "unknown" ++ [0].

(** The name of an exception, by its vector. *)
Definition exception_text (v : Z) : list Z :=
  match v with
  | 0 => lit "#DE Divide Error" | 1 => lit "#DB Debug Exception" | 2 => lit "NMI Interrupt"
  | 3 => lit "#BP Breakpoint Exception" | 4 => lit "#OF Overflow Exception"
  | 5 => lit "#BR BOUND Range Exceeded Exception" | 6 => lit "#UD Invalid Opcode Exception"
  | 7 => lit "#NM Device Not Available Exception" | 8 => lit "#DF Double Fault Exception"
  | 9 => lit "Coprocessor Segment Overrun" | 10 => lit "#TS Invalid TSS Exception"
  | 11 => lit "#NP Segment Not Present" | 12 => lit "#SS Stack Fault Exception"
  | 13 => lit "#GP General Protection Exception" | 14 => lit "#PF Page-Fault Exception"
  | 16 => lit "#MF x87 FPU Floating-Point Error" | 17 => lit "#AC Alignment Check Exception"
  | 18 => lit "#MC Machine-Check Exception" | 19 => lit "#XF SIMD Floating-Point Exception"
  | _ => lit "unknown"
  end.

Section tables.
Context {C : Type} `{Pics C}.

Definition with_functions (t : list Z) (s : intr (C := C)) : intr := mk_intr (idt s) t (intr_name s) (idtr s) (pics s).
Definition with_names (t : list (list Z)) (s : intr (C := C)) : intr := mk_intr (idt s) (intr_function_table s) t (idtr s) (pics s).

Lemma set_name_ok i n (s : intr (C := C)) : 0 <= i < zlen (intr_name s) ->
  set_name i n s = Ok (tt, with_names (<[Z.to_nat i := lit n ++ [0]]> (intr_name s)) s).
Proof. intros Hi. unfold set_name. rewrite bind_get. by decide_bool. Qed.

Lemma intr_function_loop_ok h n : forall i fs ns (s : intr (C := C)), length fs = n -> length ns = n ->
  intr_function_table s = replicate i h ++ fs -> intr_name s = replicate i unknown ++ ns ->
  intr_function_loop n (Z.of_nat i) h s = Ok (tt, with_names (replicate (i + n) unknown) (with_functions (replicate (i + n) h) s)).
Proof.
  induction n as [|n IH]; intros i fs ns s Hf Hn Ef En; cbn [intr_function_loop].
  - destruct fs, ns; try done. rewrite app_nil_r in *. rewrite Nat.add_0_r, <- Ef, <- En. by destruct s.
  - destruct fs as [|f fs], ns as [|m ns]; try done. injection Hf as Hf. injection Hn as Hn.
    assert (Ea : aset (intr_function_table s) (Z.of_nat i) h = Ok (replicate i h ++ h :: fs)).
    { rewrite Ef. pose proof (aset_mid (replicate i h) f h fs) as E. unfold zlen in E. by rewrite length_replicate in E. }
    unfold set_function at 1. rewrite (bindM_ok _ _ s tt (with_functions (replicate i h ++ h :: fs) s))
      by (rewrite bind_get, (bindM_ok _ _ _ _ _ (lift_ok _ _ _ Ea)); done).
    set (s1 := with_functions (replicate i h ++ h :: fs) s).
    assert (Hi : 0 <= Z.of_nat i < zlen (intr_name s1)).
    { cbn [s1 with_functions intr_name]. rewrite En. unfold zlen. rewrite length_app, length_replicate. cbn. lia. }
    rewrite (bindM_ok _ _ _ _ _ (set_name_ok (Z.of_nat i) "unknown" s1 Hi)).
    unfold s1. cbn [with_functions intr_name]. rewrite En, Nat2Z.id.
    assert (Ei : <[i := lit "unknown" ++ [0]]> (replicate i unknown ++ m :: ns) = replicate i unknown ++ unknown :: ns).
    { rewrite insert_app_r_alt by (by rewrite length_replicate). by rewrite length_replicate, Nat.sub_diag. }
    rewrite Ei. replace (Z.of_nat i + 1) with (Z.of_nat (S i)) by lia.
    rewrite (IH (S i) fs ns); [|done|done| |].
    + by rewrite <- Nat.add_succ_comm.
    + cbn [with_names with_functions intr_function_table]. change (replicate (S i) h) with (h :: replicate i h). by rewrite replicate_cons_app, <- app_assoc.
    + cbn [with_names intr_name]. change (replicate (S i) unknown) with (unknown :: replicate i unknown). by rewrite replicate_cons_app, <- app_assoc.
Qed.

(** The names, as [intr_function_init] leaves them. *)
Definition all_names : list (list Z) := map (fun v => exception_text v ++ [0]) (seqZ 0 129).

Lemma intr_function_init_ok h (s : intr (C := C)) : zlen (intr_function_table s) = IDT_DESC_CNT -> zlen (intr_name s) = IDT_DESC_CNT ->
  intr_function_init h s = Ok (tt, with_names all_names (with_functions (replicate 129 h) s)).
Proof.
  unfold IDT_DESC_CNT. intros Hf Hn. unfold intr_function_init. change (Z.to_nat IDT_DESC_CNT) with 129%nat.
  rewrite (bindM_ok _ _ _ _ _ (intr_function_loop_ok h 129 0 (intr_function_table s) (intr_name s) s ltac:(unfold zlen in Hf; lia) ltac:(unfold zlen in Hn; lia) eq_refl eq_refl)).
  set (s1 := with_functions _ s). change (0 + 129)%nat with 129%nat.
  assert (Hstep : forall ns i n (k : unit -> M intr unit), zlen ns = 129 -> 0 <= i < 129 ->
    (set_name i n ≫= k) (with_names ns s1) = k tt (with_names (<[Z.to_nat i := lit n ++ [0]]> ns) s1)).
  { intros ns i n k Hz Hi. rewrite (bindM_ok _ _ _ _ _ (set_name_ok i n (with_names ns s1) ltac:(cbn [with_names intr_name]; lia))). done. }
  do 18 (rewrite Hstep; [|reflexivity|lia]).
  rewrite set_name_ok by (cbn [with_names intr_name]; split; [lia|reflexivity]).
  reflexivity.
Qed.

(** The controllers: vectors 0x20 and 0x28, and the masks. *)
Lemma pic_init_ok (s : intr (C := C)) : exists c, pic_init s = Ok (tt, mk_intr (idt s) (intr_function_table s) (intr_name s) (idtr s) c) /\
  pic_base c false = 0x20 /\ pic_base c true = 0x28 /\ pic_mask c false = 0xf8 /\ pic_mask c true = 0xbf.
Proof.
  set (c1 := pic_out (data_port false) 0x01 (pic_out (data_port false) 0x04 (pic_out (data_port false) 0x20 (pic_out (ctrl_port false) 0x11 (pics s))))).
  set (c2 := pic_out (data_port true) 0x01 (pic_out (data_port true) 0x02 (pic_out (data_port true) 0x28 (pic_out (ctrl_port true) 0x11 c1)))).
  set (c3 := pic_out (data_port false) 0xf8 c2). set (c4 := pic_out (data_port true) 0xbf c3).
  exists c4. split; [reflexivity|].
  destruct (pic_init_law (pics s) false 0x20 0x04 eq_refl) as (R1 & B1 & _). fold c1 in R1, B1.
  destruct (pic_init_law c1 true 0x28 0x02 eq_refl) as (R2 & B2 & R2' & B2' & _). fold c2 in R2, B2, R2', B2'. cbn [negb] in R2', B2'.
  destruct (pic_mask_law c2 false 0xf8 (R2' R1)) as (R3 & M3 & B3 & R3' & B3' & _). fold c3 in R3, M3, B3, R3', B3'. cbn [negb] in R3', B3'.
  destruct (pic_mask_law c3 true 0xbf (R3' R2)) as (_ & M4 & B4 & _ & B4' & M4'). fold c4 in M4, B4, B4', M4'. cbn [negb] in B4', M4'.
  split; [congruence|]. split; [congruence|]. split; congruence.
Qed.
End tables.

(** ** What is printed *)

(** The screen that shows a sheet shows the sheet with the text typed on it. *)
Definition prints (m : M screen unit) (text : list Z) : Prop := forall s t t', shows s t -> type_str 7 text t = Some t' ->
  exists s', m s = Ok (tt, s') /\ shows s' t'.

Lemma type_str_app attr a b t : type_str attr (a ++ b) t = (t' ← type_str attr a t; type_str attr b t').
Proof.
  revert t. induction a as [|c a IH]; intros t; [done|]. cbn [app type_str]. destruct (type_char attr c t) as [t'|]; cbn; [apply IH|done].
Qed.

Lemma prints_seq (m1 m2 : M screen unit) a b : prints m1 a -> prints m2 b -> prints (_ ← m1; m2) (a ++ b).
Proof.
  intros H1 H2 s t t' Hs E. rewrite type_str_app in E. destruct (type_str 7 a t) as [t1|] eqn:E1; [|done].
  destruct (H1 s t t1 Hs E1) as (s1 & Em & Hs1). rewrite (bindM_ok _ _ _ _ _ Em). by apply (H2 s1 t1).
Qed.

Lemma prints_char c : is_byte c -> prints (put_char c 0x07) [c].
Proof.
  intros Hc s t t' Hs E. cbn [type_str] in E. destruct (type_char 7 c t) as [t1|] eqn:E1; [|done]. injection E as <-.
  apply (put_char_ok s t); [done|unfold is_byte; lia|done|done].
Qed.

Lemma prints_spaces n : prints (put_spaces n) (replicate n 32).
Proof.
  induction n as [|n IH]; cbn [put_spaces replicate].
  - intros s t t' Hs [= <-]. by exists s.
  - apply (prints_seq _ _ [32]); [apply prints_char; unfold is_byte; lia|done].
Qed.

Lemma prints_say str : Forall (fun c => 0 < c < 256) str -> prints (say (str ++ [0])) str.
Proof.
  intros Hf s t t' Hs E. apply (put_str_ok 7 str (str ++ [0]) 0 s t); [unfold is_byte; lia| |  |done|done].
  - exists [], []. split; [done|]. split; [done|]. eapply Forall_impl; [exact Hf|]. cbn. lia.
  - eapply Forall_impl; [exact Hf|]. unfold is_byte. cbn. lia.
Qed.

Lemma numeral_16_length x : 0 <= x < 4294967296 -> zlen (numeral 16 x) <= 8.
Proof.
  intros Hx. unfold numeral, zlen. destruct (x =? 0); [cbn; lia|]. rewrite length_reverse.
  assert (Hd : forall m n y, 0 <= y < 16 ^ Z.of_nat m -> (length (rdigits n 16 y) <= m)%nat).
  { induction m as [|m IH]; intros [|n] y Hy; cbn [rdigits length]; try lia.
    - rewrite (proj2 (Z.eqb_eq _ _)) by (cbn in Hy; lia). cbn. lia.
    - destruct (y =? 0); cbn [length]; [lia|]. apply le_n_S, IH. rewrite Nat2Z.inj_succ, Z.pow_succ_r in Hy by lia. zarith. }
  pose proof (Hd 8%nat 32%nat x). cbn in *. lia.
Qed.


(** ** Properties *)

Lemma texts_ok v : Forall (fun c => 32 <= c < 256) (exception_text v).
Proof.
  assert (H : forall l : list Z, forallb (fun c => (32 <=? c) && (c <? 256)) l = true -> Forall (fun c => 32 <= c < 256) l).
  { intros l Hl. rewrite forallb_forall in Hl. apply Forall_forall. intros c Hc. rewrite list_elem_of_In in Hc. specialize (Hl c Hc). bool_prop. lia. }
  apply H. unfold exception_text. repeat (case_match; try reflexivity).
Qed.

(** What is reported of an exception. *)
Definition report (cr2 v : Z) : list Z :=
  replicate 320 32 ++ (lit "--- excetion message begin ---" ++ [10]) ++
  (if v =? 14 then ([10] ++ lit "page fault addr is ") ++ numeral 16 cr2
   else lit "int vector: 0x" ++ numeral 16 v ++ [10] ++ exception_text v ++ [10]) ++
  ([10] ++ lit "--- excetion message end ---" ++ [10]).

Lemma report_total cr2 v t : 0 <= cr2 < 4294967296 -> 0 <= v -> exists t', type_str 7 (report cr2 v) t = Some t'.
Proof.
  intros Hc Hv. apply type_str_total. unfold report.
  assert (Hn : forall x, 0 <= x -> Forall (fun c => c <> 8) (numeral 16 x)).
  { intros x Hx. eapply Forall_impl; [apply (numeral_chars 16 x); lia|]. cbn. lia. }
  assert (Ht : Forall (fun c => c <> 8) (exception_text v)) by (eapply Forall_impl; [apply texts_ok|]; cbn; lia).
  assert (Hl : forall l : list Z, forallb (fun c => negb (c =? 8)) l = true -> Forall (fun c => c <> 8) l).
  { intros l Hl. rewrite forallb_forall in Hl. apply Forall_forall. intros c Hx. rewrite list_elem_of_In in Hx. specialize (Hl c Hx). bool_prop. lia. }
  apply Forall_app. split; [by apply Hl|]. apply Forall_app. split; [by apply Hl|]. apply Forall_app. split; [|by apply Hl].
  destruct (v =? 14); repeat (apply Forall_app; split); try (by apply Hl); try done; apply Hn; lia.
Qed.

Lemma handler_prints cr2 v (names : list (list Z)) : 0 <= cr2 < 4294967296 -> 0 <= v <= 0x80 -> v <> 0x27 -> v <> 0x2f ->
  names !! Z.to_nat v = Some (exception_text v ++ [0]) -> prints (
    _ ← put_spaces 320;
    _ ← say (lit "--- excetion message begin ---" ++ [10; 0]);
    _ ← (if v =? 14 then
           _ ← say ([10] ++ lit "page fault addr is " ++ [0]);
           put_uint (u32 cr2) 16 0x07
         else
           _ ← say (lit "int vector: 0x" ++ [0]);
           _ ← put_int v 16 0x07;
           _ ← put_char 10 0x07;
           _ ← (match names !! Z.to_nat v with Some n => say n | None => fail Fault end);
           put_char 10 0x07);
    say ([10] ++ lit "--- excetion message end ---" ++ [10; 0])) (report cr2 v).
Proof.
  intros Hc Hv H27 H2f Hn. unfold report. rewrite Hn.
  assert (Hs : forall str : list Z, forallb (fun c => (0 <? c) && (c <? 256)) str = true -> prints (say (str ++ [0])) str).
  { intros str Hf. apply prints_say. rewrite forallb_forall in Hf. apply Forall_forall. intros c Hx. rewrite list_elem_of_In in Hx. specialize (Hf c Hx). bool_prop. lia. }
  apply prints_seq; [apply prints_spaces|]. apply prints_seq; [by apply (Hs (lit "--- excetion message begin ---" ++ [10]))|].
  apply prints_seq; [|by apply (Hs ([10] ++ lit "--- excetion message end ---" ++ [10]))].
  destruct (v =? 14).
  - apply prints_seq; [by apply (Hs ([10] ++ lit "page fault addr is "))|]. rewrite u32_small by done. intros s t t' Hst E.
    pose proof (numeral_16_length cr2 Hc). apply (put_uint_ok cr2 16 7 s t); first [done|unfold is_byte; lia].
  - apply prints_seq; [by apply (Hs (lit "int vector: 0x"))|]. apply prints_seq.
    { intros s t t' Hst E. pose proof (numeral_16_length v ltac:(lia)).
      apply (put_int_ok v 16 7 s t); [lia|lia|rewrite Z.abs_eq by lia; lia|unfold is_byte; lia|done|].
      unfold int_text. by rewrite (proj2 (Z.ltb_ge _ _)) by lia. }
    apply prints_seq; [apply prints_char; unfold is_byte; lia|]. apply prints_seq; [|apply prints_char; unfold is_byte; lia].
    apply prints_say. eapply Forall_impl; [apply texts_ok|]. cbn. lia.
Qed.

Lemma lor_fields x a n : 0 <= n -> 0 <= x < 2 ^ n -> Z.lor x (Z.shiftl a n) = x + a * 2 ^ n.
Proof.
  intros Hn Hx. assert (Hl : Z.land x (Z.shiftl a n) = 0).
  { apply Z.bits_inj'. intros i Hi. rewrite Z.land_spec, Z.bits_0. destruct (Z.ltb_spec i n).
    - rewrite (Z.shiftl_spec_low a n i) by lia. apply andb_false_r.
    - destruct (Z.eq_dec x 0) as [->|]; [by rewrite Z.bits_0|].
      rewrite (Z.bits_above_log2 x i); [done|lia|]. apply (Z.lt_le_trans _ n); [|done]. apply Z.log2_lt_pow2; lia. }
  by rewrite <- Z.lxor_lor, <- Z.add_nocarry_lxor, Z.shiftl_mul_pow2 by done.
Qed.

Lemma all_names_at v : 0 <= v <= 0x80 -> all_names !! Z.to_nat v = Some (exception_text v ++ [0]).
Proof.
  intros Hv. unfold all_names. rewrite list_lookup_fmap, lookup_seqZ_lt by lia. cbn [fmap option_fmap option_map]. do 3 f_equal. lia.
Qed.

(** C28. What [interrupt_init] leaves behind.  It reads 129 words from
    [intr_entry_table] on: kernel.asm puts the 48 entry stubs there, and
    [behind] are the 81 words that lie in memory after them.  The gates 0 to
    0x2f, all that the exceptions and the controllers use, lead to their stubs,
    gate 0x80 to the system call, the only one user code may call; the gates
    between lead to whatever the words behind the table are.  Every vector has
    the default handler and every exception its name, the processor knows the
    place and the size of the table, and the controllers let exactly the timer,
    the keyboard, the second controller and the disk through, at the vectors
    0x20, 0x21, 0x22 and 0x2e. *)
Theorem interrupt_init_ready {C : Type} `{Pics C} (s : intr (C := C)) (entry_stubs behind : list Z)
    (syscall_handler handler idt_addr : Z) :
  zlen entry_stubs = 48 -> zlen behind = 81 -> zlen (idt s) = IDT_DESC_CNT -> zlen (intr_function_table s) = IDT_DESC_CNT ->
  zlen (intr_name s) = IDT_DESC_CNT -> Forall (fun f => 0 <= f < 4294967296) (entry_stubs ++ behind) ->
  0 <= syscall_handler < 4294967296 -> 0 <= idt_addr < 4294967296 ->
  exists s', interrupt_init (entry_stubs ++ behind) syscall_handler handler idt_addr s = Ok (tt, s') /\
    (forall v, 0 <= v <= 0x80 -> exists g, idt s' !! Z.to_nat v = Some g /\
       gate_target g = (if v <? 48 then at_ entry_stubs v else if v =? 0x80 then syscall_handler else at_ behind (v - 48)) /\
       gate_dpl g = (if v =? 0x80 then 3 else 0)) /\
    (forall v, 0 <= v <= 0x80 -> intr_function_table s' !! Z.to_nat v = Some handler /\
       intr_name s' !! Z.to_nat v = Some (exception_text v ++ [0])) /\
    idtr s' mod 65536 = 8 * 129 - 1 /\ idtr s' / 65536 = idt_addr /\
    (forall irq, 0 <= irq < 16 -> line_open (pics s') irq = bool_decide (irq ∈ [0; 1; 2; 14]) /\
       line_vector (pics s') irq = 0x20 + irq).
Proof.
  intros Hl48 Hl81 Hi Hf Hn Hs Hh Ha. set (intr_entry_table := entry_stubs ++ behind).
  assert (Ht : zlen intr_entry_table = IDT_DESC_CNT) by (unfold intr_entry_table; rewrite zlen_app, Hl48, Hl81; done).
  unfold interrupt_init. rewrite bind_get.
  destruct (idt_init_gates intr_entry_table syscall_handler (idt s) Ht Hi Hs Hh) as (t & Et & Hg). rewrite (bindM_ok _ _ _ _ _ (lift_ok _ _ _ Et)).
  set (s1 := mk_intr t _ _ _ _). rewrite (bindM_ok _ _ s tt s1) by done.
  rewrite (bindM_ok _ _ _ _ _ (intr_function_init_ok handler s1 Hf Hn)). set (s2 := with_names _ _).
  destruct (pic_init_ok s2) as (c & Ec & B0 & B1 & M0 & M1). rewrite (bindM_ok _ _ _ _ _ Ec). eexists. split; [reflexivity|].
  cbn [lidt idt intr_function_table intr_name idtr pics s2 s1 with_names with_functions].
  split; [|split; [|split; [|split]]].
  - intros v Hv. destruct (Hg v Hv) as (g & Eg & _ & Hlt & Heq). exists g. split; [done|].
    destruct (Z.eqb_spec v 0x80) as [->|]; [by apply Heq|]. destruct (Hlt ltac:(lia)) as [-> ->]. split; [|done].
    unfold at_, intr_entry_table, zlen in *. destruct (Z.ltb_spec v 48).
    + rewrite lookup_app_l; [done|lia].
    + rewrite lookup_app_r by lia. do 2 f_equal. lia.
  - intros v Hv. split; [|by apply all_names_at]. apply lookup_replicate_2. lia.
  - rewrite (u32_small idt_addr), lor_fields by (done || (unfold sizeof_gate_desc, IDT_DESC_CNT; lia)).
    unfold sizeof_gate_desc, IDT_DESC_CNT. zarith.
  - rewrite (u32_small idt_addr), lor_fields by (done || (unfold sizeof_gate_desc, IDT_DESC_CNT; lia)).
    unfold sizeof_gate_desc, IDT_DESC_CNT. zarith.
  - intros irq Hirq.
    assert (Hall : forallb (fun n => Bool.eqb (negb (Z.testbit (if 8 <=? n then 0xbf else 0xf8) (n mod 8))) (bool_decide (n ∈ [0; 1; 2; 14])) &&
      ((if 8 <=? n then 0x28 else 0x20) + n mod 8 =? 0x20 + n)) (seqZ 0 16) = true) by (vm_compute; reflexivity).
    rewrite forallb_forall in Hall. specialize (Hall irq). rewrite <- list_elem_of_In, elem_of_seqZ in Hall. specialize (Hall ltac:(lia)).
    apply andb_true_iff in Hall as [H1%eqb_prop H2%Z.eqb_eq]. unfold line_open, line_vector.
    destruct (8 <=? irq); rewrite ?B0, ?B1, ?M0, ?M1; by split.
Qed.

(** A vector nobody has registered: the spurious interrupts 0x27 and 0x2f
    return at once; for any other one the screen gets 320 blanks and the report,
    with the address in hexadecimal for a page fault and the name of the
    exception otherwise, and the processor never comes back. *)
Theorem general_intr_handler_reports (s : screen) (t : sheet) (cr2 v : Z) :
  shows s t -> 0 <= cr2 < 4294967296 -> 0 <= v <= 0x80 ->
  (v = 0x27 \/ v = 0x2f -> general_intr_handler all_names cr2 v s = Ok (Ignored, s)) /\
  (v <> 0x27 -> v <> 0x2f -> exists s' t', general_intr_handler all_names cr2 v s = Ok (Hangs, s') /\
     type_str 7 (report cr2 v) t = Some t' /\ shows s' t').
Proof.
  intros Hs Hc Hv. unfold general_intr_handler. rewrite (u8_small v) by lia. cbv zeta. split.
  - by intros [->| ->].
  - intros H27 H2f. rewrite (proj2 (Z.eqb_neq v 0x27) H27), (proj2 (Z.eqb_neq v 0x2f) H2f). cbn [orb].
    destruct (report_total cr2 v t Hc ltac:(lia)) as [t' Et].
    destruct (handler_prints cr2 v all_names Hc Hv H27 H2f (all_names_at v Hv) s t t' Hs Et) as (s' & E & Hs').
    exists s', t'. split; [|by split].
    apply bindM_inv in E as ([] & s1 & E1 & E). rewrite (bindM_ok _ _ _ _ _ E1).
    apply bindM_inv in E as ([] & s2 & E2 & E). rewrite (bindM_ok _ _ _ _ _ E2).
    apply bindM_inv in E as ([] & s3 & E3 & E). rewrite (bindM_ok _ _ _ _ _ E3). by rewrite (bindM_ok _ _ _ _ _ E).
Qed.

(** kernel.asm has entries for 48 vectors only: [idt_init] reads past them. *)
Lemma idt_loop_short tbl : forall n i t, 0 <= i <= zlen tbl -> zlen tbl < i + Z.of_nat n -> idt_loop n i tbl t = Err Fault.
Proof.
  induction n as [|n IH]; intros i t Hi Hn; [lia|]. cbn [idt_loop]. destruct (Z.eq_dec i (zlen tbl)) as [->|Hne].
  - rewrite aget_fault by lia. done.
  - rewrite (bindR_ok _ _ _ (aget_at tbl i ltac:(lia))). apply IH; lia.
Qed.

Lemma idt_init_reads_past (intr_entry_table : list Z) (syscall_handler : Z) (t : list gate_desc) :
  zlen intr_entry_table = 48 -> idt_init intr_entry_table syscall_handler t = Err Fault.
Proof.
  intros Hl. unfold idt_init. rewrite idt_loop_short; [done|lia|]. rewrite Hl. unfold IDT_DESC_CNT. lia.
Qed.

(** ** Witnesses *)

(** A controller that follows the data sheet: the words of the initialisation
    sequence still to come, the base and the mask. *)
Record chip := mk_chip { awaits : nat; base : Z; mask : Z }.

Definition chip_ctrl (x : Z) (c : chip) : chip := if Z.testbit x 4 then mk_chip 3 (base c) 0 else c.
Definition chip_data (x : Z) (c : chip) : chip :=
  match awaits c with
  | 0%nat => mk_chip 0 (base c) x
  | 3%nat => mk_chip 2 (x - x mod 8) (mask c)
  | S n => mk_chip n (base c) (mask c)
  end.

#[export] Instance two_chips : Pics (chip * chip).
Proof.
  refine {| pic_out := fun port x c =>
              if port =? 0x20 then (chip_ctrl x c.1, c.2) else if port =? 0x21 then (chip_data x c.1, c.2)
              else if port =? 0xa0 then (c.1, chip_ctrl x c.2) else if port =? 0xa1 then (c.1, chip_data x c.2) else c;
            pic_ready := fun c b => awaits (if b then c.2 else c.1) = 0%nat;
            pic_base := fun c b => base (if b then c.2 else c.1);
            pic_mask := fun c b => mask (if b then c.2 else c.1) |}.
  - intros [m s] [] v w Hv; cbn; (split; [done|]); (split; [lia|done]).
  - intros [m s] [] x Hx; cbn in *; unfold chip_data; rewrite Hx; done.
Defined.

Definition demo_intr : intr (C := chip * chip) :=
  mk_intr (replicate 129 (mk_gate 0 0 0 0 0)) (replicate 129 0) (replicate 129 []) 0 (mk_chip 1 0 0, mk_chip 0 0 0xff).

(** The stubs at multiples of 32, and no code behind the table. *)
Definition demo_stubs : list Z := map (fun i => 0xc0001500 + 32 * i) (zrange 48 0).

Lemma interrupt_init_ready_witness :
  exists s', interrupt_init (demo_stubs ++ replicate 81 0) 0xc0002000 0xc0003000 0xc0005000 demo_intr = Ok (tt, s') /\
    (exists g, idt s' !! 33%nat = Some g /\ gate_target g = 0xc0001920) /\
    idtr s' / 65536 = 0xc0005000 /\ line_vector (pics s') 14 = 0x2e /\ line_open (pics s') 14 = true.
Proof.
  destruct (interrupt_init_ready demo_intr demo_stubs (replicate 81 0) 0xc0002000 0xc0003000 0xc0005000) as (s' & E & H1 & _ & _ & H2 & H3);
    [reflexivity|reflexivity|reflexivity|reflexivity|reflexivity|by apply (bool_decide_unpack _)|lia|lia|].
  exists s'. split; [exact E|]. split; [|split; [exact H2|]].
  - destruct (H1 33) as (g & Eg & Tg & _); [lia|]. exists g. split; [exact Eg|exact Tg].
  - assert (H14 : 0 <= 14 < 16) by lia. destruct (H3 14 H14) as [Ho Hv].
    split; [exact Hv|]. rewrite Ho. reflexivity.
Defined.

(** A division by zero on an empty screen. *)
Lemma general_intr_handler_reports_witness : exists s', general_intr_handler all_names 0 0 empty_screen = Ok (Hangs, s').
Proof.
  assert (H0 : 0 <= 0 < 4294967296) by lia. assert (Hv : 0 <= 0 <= 0x80) by lia.
  destruct (general_intr_handler_reports empty_screen empty_sheet 0 0 empty_shows H0 Hv) as [_ H].
  destruct H as (s' & _ & E & _); [lia|lia|]. exists s'. exact E.
Defined.
