(* ===== verification/Timer.v ===== *)
(** * Timer: device/timer.c

    [clock] is the kernel, the screen with the sign that turns in its corner,
    the counters of timer.c, the table of interrupt handlers and the bytes
    written to ports, in order.  The handler runs with interrupts off; when it
    calls [schedule] the processor is another thread's afterwards.

    [ticks_to_sleep] yields inside its loop: one test of the loop is
    [sleep_test], which returns what the thread needs to continue with
    [sleep_again] when it is scheduled. *)

From S2P Require Import Prelude Interrupt Lists Bitmap Kernel Paging Thread Sync IoQueue Screen.

Record clock := mk_clock {
  tk : kernel;
  tscreen : screen;
  total_ticks : Z;
  FHL_count : Z;
  intr_function_table : list Z;
  ports_out : list (Z * Z) }.

Definition on_tk {A} (m : M kernel A) : M clock A := fun s =>
  match m (tk s) with
  | Ok (a, k) => Ok (a, mk_clock k (tscreen s) (total_ticks s) (FHL_count s) (intr_function_table s) (ports_out s))
  | Err e => Err e
  end.
Definition on_tscreen {A} (m : M screen A) : M clock A := fun s =>
  match m (tscreen s) with
  | Ok (a, x) => Ok (a, mk_clock (tk s) x (total_ticks s) (FHL_count s) (intr_function_table s) (ports_out s))
  | Err e => Err e
  end.
Definition set_total_ticks (n : Z) : M clock unit :=
  modify (fun s => mk_clock (tk s) (tscreen s) n (FHL_count s) (intr_function_table s) (ports_out s)).
Definition set_FHL_count (n : Z) : M clock unit :=
  modify (fun s => mk_clock (tk s) (tscreen s) (total_ticks s) n (intr_function_table s) (ports_out s)).
Definition outb (port data : Z) : M clock unit :=
  modify (fun s => mk_clock (tk s) (tscreen s) (total_ticks s) (FHL_count s) (intr_function_table s)
                     (ports_out s ++ [(u16 port, u8 data)])).

Definition IRQ0_FREQUENCY : Z := 100.
Definition INPUT_FREQUENCY : Z := 1193180.
Definition COUNTER0_VALUE : Z := INPUT_FREQUENCY / IRQ0_FREQUENCY.
Definition CONTRER0_PORT : Z := 0x40.
Definition PIT_CONTROL_PORT : Z := 0x43.
Definition ms_per_intr : Z := 1000 / IRQ0_FREQUENCY.
Definition STACK_MAGIC : Z := 0x12345678.

Definition frequency_set (counter_port counter_no rwl counter_mode counter_value : Z) : M clock unit :=
  _ ← outb PIT_CONTROL_PORT
        (u8 (Z.lor (Z.lor (Z.shiftl counter_no 6) (Z.shiftl rwl 4)) (Z.shiftl counter_mode 1)));
  _ ← outb counter_port (u8 counter_value);
  outb counter_port (Z.shiftr (u8 counter_value) 8).

Definition FHL_char (n : Z) : Z := if n =? 0 then 124 else if n =? 1 then 47 else 92.

Definition intr_timer_handler : M clock unit :=
  n ← gets FHL_count;
  let n := u32 (n + 1) mod 3 in
  _ ← set_FHL_count n;
  _ ← on_tscreen (put_char_in_pos (FHL_char n) 0x0B 24 79);
  now ← on_tk running_thread;
  p ← on_tk (get_pcb now);
  _ ← ASSERTM (stack_magic p =? STACK_MAGIC);
  _ ← on_tk (upd_pcb now (fun p => set_elapsed_ticks (u32 (elapsed_ticks p + 1)) p));
  t ← gets total_ticks;
  _ ← set_total_ticks (u32 (t + 1));
  p ← on_tk (get_pcb now);
  if ticks p =? 0 then on_tk schedule
  else on_tk (upd_pcb now (fun p => set_ticks (u8 (ticks p - 1)) p)).

(** [Some old_status]: the thread has yielded. *)
Definition sleep_test (start_tick sleep_ticks : Z) : M clock (option intr_status) :=
  t ← gets total_ticks;
  if u32 (t - start_tick) <? sleep_ticks then
    old_status ← on_tk thread_yield; mret (Some old_status)
  else mret None.

Definition sleep_again (old_status : intr_status) (start_tick sleep_ticks : Z) : M clock (option intr_status) :=
  _ ← on_tk (resume old_status);
  sleep_test start_tick sleep_ticks.

Definition ticks_to_sleep (sleep_ticks : Z) : M clock (option intr_status) :=
  start_tick ← gets total_ticks;
  sleep_test start_tick sleep_ticks.

Definition ms_sleep (ms : Z) : M clock (option intr_status) :=
  let sleep_ticks := DIV_ROUND_UP ms ms_per_intr in
  _ ← ASSERTM (0 <? sleep_ticks);
  ticks_to_sleep sleep_ticks.

(** [handler] is the address of [intr_timer_handler]. *)
Definition timer_init (handler : Z) : M clock unit :=
  _ ← set_FHL_count 0;
  _ ← frequency_set CONTRER0_PORT 0 3 2 COUNTER0_VALUE;
  s ← get;
  tbl ← lift (Idt.register_handler 0x20 handler (intr_function_table s));
  modify (fun s => mk_clock (tk s) (tscreen s) (total_ticks s) (FHL_count s) tbl (ports_out s)).

(** [n] timer interrupts in a row. *)
Fixpoint run_ticks (n : nat) : M clock unit :=
  match n with O => mret tt | S n' => _ ← intr_timer_handler; run_ticks n' end.

(** ** Lemmas *)

Lemma on_tk_ok {A} (m : M kernel A) s a k : m (tk s) = Ok (a, k) ->
  on_tk m s = Ok (a, mk_clock k (tscreen s) (total_ticks s) (FHL_count s) (intr_function_table s) (ports_out s)).
Proof. intros E. unfold on_tk. by rewrite E. Qed.

(** The PCB of the interrupted thread after one more tick. *)
Definition ticked (p : pcb) : pcb := set_elapsed_ticks (u32 (elapsed_ticks p + 1)) p.

(** The handler up to its test of the time slice. *)
Lemma handler_start s p : pcbs (kth (tk s)) !! cur (kc (tk s)) = Some p -> stack_magic p = STACK_MAGIC ->
  0 <= FHL_count s < 3 ->
  exists x, intr_timer_handler s =
    (if ticks p =? 0 then on_tk schedule
     else on_tk (upd_pcb (cur (kc (tk s))) (fun p => set_ticks (u8 (ticks p - 1)) p)))
    (mk_clock (set_pcbs (<[cur (kc (tk s)) := ticked p]> (pcbs (kth (tk s)))) (tk s)) x
       (u32 (total_ticks s + 1)) ((FHL_count s + 1) mod 3) (intr_function_table s) (ports_out s)).
Proof.
  intros Ep Hm Hf. unfold intr_timer_handler, set_FHL_count, set_total_ticks, running_thread.
  rewrite bind_gets, bind_modify, (u32_small (FHL_count s + 1)) by lia.
  set (c := FHL_char _). set (n := (FHL_count s + 1) mod 3).
  assert (Ex : exists x, put_char_in_pos c 0x0B 24 79 (tscreen s) = Ok (tt, x)) by (eexists; reflexivity).
  destruct Ex as [x Ex]. exists x.
  set (s1 := mk_clock (tk s) (tscreen s) (total_ticks s) n (intr_function_table s) (ports_out s)).
  set (s2 := mk_clock (tk s) x (total_ticks s) n (intr_function_table s) (ports_out s)).
  rewrite (bindM_ok _ _ s1 tt s2) by (unfold on_tscreen; cbn [s1 tscreen]; by rewrite Ex).
  erewrite (bindM_ok _ _ s2) by reflexivity.
  rewrite (bindM_ok _ _ _ _ _ (on_tk_ok _ s2 _ _ (get_pcb_ok (tk s2) (cur (kc (tk s2))) p Ep))).
  rewrite bind_assert by (by apply Z.eqb_eq).
  rewrite (bindM_ok _ _ _ _ _ (on_tk_ok _ s2 _ _ (upd_pcb_ok (tk s2) (cur (kc (tk s2))) p _ Ep))).
  rewrite bind_gets, bind_modify. cbn [tk s2 tscreen total_ticks FHL_count intr_function_table ports_out].
  set (s3 := mk_clock _ x _ n _ _).
  assert (Ep3 : pcbs (kth (tk s3)) !! cur (kc (tk s)) = Some (ticked p)) by apply lookup_insert_eq.
  rewrite (bindM_ok _ _ _ _ _ (on_tk_ok _ s3 _ _ (get_pcb_ok (tk s3) _ _ Ep3))). done.
Qed.

(** [n] ticks later, the slice not used up. *)
Definition slice_used (p : pcb) (n : Z) : pcb :=
  set_ticks (ticks p - n) (set_elapsed_ticks (u32 (elapsed_ticks p + n)) p).

Lemma slice_used_0 p : is_word (elapsed_ticks p) -> slice_used p 0 = p.
Proof. intros Hw. unfold slice_used. rewrite Z.add_0_r, Z.sub_0_r, u32_small by done. by destruct p. Qed.

Lemma slice_used_S p n : 0 <= ticks p <= 255 -> 0 <= n < ticks p ->
  set_ticks (u8 (ticks (ticked (slice_used p n)) - 1)) (ticked (slice_used p n)) = slice_used p (n + 1).
Proof.
  intros Hp Hn. unfold slice_used, ticked, set_ticks, set_elapsed_ticks. cbn.
  rewrite u8_small by lia. f_equal; [lia|]. unwrap. zarith.
Qed.

(** The state of a clock [n] ticks later in the same thread. *)
Record same_slice (s s' : clock) (p : pcb) (n : Z) : Prop := {
  ss_kernel : tk s' = set_pcbs (<[cur (kc (tk s)) := slice_used p n]> (pcbs (kth (tk s)))) (tk s);
  ss_total : total_ticks s' = u32 (total_ticks s + n);
  ss_fhl : 0 <= FHL_count s' < 3 }.

Lemma tick_in_slice s p n s1 : pcbs (kth (tk s)) !! cur (kc (tk s)) = Some p -> stack_magic p = STACK_MAGIC ->
  0 <= ticks p <= 255 -> 0 <= n < ticks p -> same_slice s s1 p n ->
  exists s2, intr_timer_handler s1 = Ok (tt, s2) /\ same_slice s s2 p (n + 1).
Proof.
  intros Ep Hm Ht Hn [Hk Htot Hf]. set (t := cur (kc (tk s))) in *.
  assert (Ec : cur (kc (tk s1)) = t) by (by rewrite Hk).
  assert (E1 : pcbs (kth (tk s1)) !! cur (kc (tk s1)) = Some (slice_used p n))
    by (rewrite Ec, Hk; apply lookup_insert_eq).
  destruct (handler_start s1 (slice_used p n) E1 Hm Hf) as (x & E). rewrite Ec in *.
  change (ticks (slice_used p n)) with (ticks p - n) in E.
  rewrite (proj2 (Z.eqb_neq _ _)) in E by lia. set (s1' := mk_clock _ x _ _ _ _) in E.
  assert (E1' : pcbs (kth (tk s1')) !! t = Some (ticked (slice_used p n))) by apply lookup_insert_eq.
  rewrite (on_tk_ok _ s1' _ _ (upd_pcb_ok _ _ _ _ E1')) in E.
  eexists. split; [exact E|]. split; cbn [tk total_ticks FHL_count s1'].
  - cbn [set_pcbs set_kth kth pcbs]. rewrite slice_used_S, Hk by done. cbn [set_pcbs set_kth kth pcbs].
    by rewrite !insert_insert_eq.
  - rewrite Htot. unwrap. zarith.
  - zarith.
Qed.

Lemma run_ticks_ok s p : pcbs (kth (tk s)) !! cur (kc (tk s)) = Some p -> stack_magic p = STACK_MAGIC ->
  0 <= ticks p <= 255 -> forall m n s1, 0 <= n -> n + Z.of_nat m <= ticks p -> same_slice s s1 p n ->
  exists s2, run_ticks m s1 = Ok (tt, s2) /\ same_slice s s2 p (n + Z.of_nat m).
Proof.
  intros Ep Hm Ht. induction m as [|m IH]; intros n s1 Hn Hle Hss.
  { exists s1. rewrite Z.add_0_r. by split. }
  destruct (tick_in_slice s p n s1 Ep Hm Ht ltac:(lia) Hss) as (s2 & E & Hss2).
  destruct (IH (n + 1) s2 ltac:(lia) ltac:(lia) Hss2) as (s3 & E3 & Hss3).
  exists s3. cbn [run_ticks]. rewrite (bindM_ok _ _ _ _ _ E). split; [exact E3|].
  by replace (n + Z.of_nat (S m)) with (n + 1 + Z.of_nat m) by lia.
Qed.

(** ** Properties *)

(** C23. Time slices.  A thread whose slice is [ticks p] keeps the processor for that
    many timer interrupts, during which only its counters change; the next
    interrupt puts it at the end of the ready queue with a new slice of
    [priority p] ticks and runs the first ready thread.  No assertion fails,
    the invariant of the scheduler holds afterwards, and both the counter of
    the thread and that of the kernel have counted every interrupt. *)
Theorem timer_time_slice (s : clock) (D : Z -> Z) (Γ : gmap Z (list Z)) (rs : list Z) (p : pcb) :
  sched_ok (tk s) D Γ rs -> status_of (km (tk s)) = INTR_OFF ->
  pcbs (kth (tk s)) !! cur (kc (tk s)) = Some p -> stack_magic p = STACK_MAGIC ->
  0 <= ticks p <= 255 -> is_word (elapsed_ticks p) -> is_word (total_ticks s) -> 0 <= FHL_count s < 3 ->
  exists s1 s2 next rest,
    run_ticks (Z.to_nat (ticks p)) s = Ok (tt, s1) /\ same_slice s s1 p (ticks p) /\
    intr_timer_handler s1 = Ok (tt, s2) /\ rs ++ [cur (kc (tk s))] = next :: rest /\
    sched_ok (tk s2) D (<[thread_ready_list (kth (tk s)) := map general_node rest]> Γ) rest /\
    cur (kc (tk s2)) = next /\ total_ticks s2 = u32 (total_ticks s + ticks p + 1) /\
    (next <> cur (kc (tk s)) -> exists q, pcbs (kth (tk s2)) !! cur (kc (tk s)) = Some q /\
       status q = TASK_READY /\ ticks q = priority p /\ elapsed_ticks q = u32 (elapsed_ticks p + ticks p + 1)) /\
    (forall t, t <> next -> t <> cur (kc (tk s)) -> pcbs (kth (tk s2)) !! t = pcbs (kth (tk s)) !! t).
Proof.
  intros Hok Hoff Ep Hm Ht He Htot Hf. set (now := cur (kc (tk s))) in *.
  assert (H0 : same_slice s s p 0).
  { split; [|by rewrite Z.add_0_r, u32_small|done]. rewrite slice_used_0 by done.
    rewrite insert_id by done. by destruct s as [[? ? ? [] ?]]. }
  destruct (run_ticks_ok s p Ep Hm Ht (Z.to_nat (ticks p)) 0 s ltac:(lia) ltac:(lia) H0) as (s1 & E1 & Hss).
  rewrite Z.add_0_l, Z2Nat.id in Hss by lia. pose proof Hss as [Hk Ht1 Hf1].
  set (p1 := slice_used p (ticks p)) in *.
  assert (Ec : cur (kc (tk s1)) = now) by (by rewrite Hk).
  assert (Ep1 : pcbs (kth (tk s1)) !! cur (kc (tk s1)) = Some p1) by (rewrite Ec, Hk; apply lookup_insert_eq).
  destruct (handler_start s1 p1 Ep1 Hm Hf1) as (x & E2). rewrite Ec in *.
  rewrite (proj2 (Z.eqb_eq (ticks p1) 0)) in E2 by (unfold p1, slice_used; cbn; lia).
  set (s1' := mk_clock _ x _ _ _ _) in E2.
  assert (Eq : tk s1' = set_pcbs (<[now := ticked p1]> (pcbs (kth (tk s)))) (tk s)).
  { cbn [tk s1']. rewrite Hk. cbn [set_pcbs set_kth kth pcbs]. by rewrite insert_insert_eq. }
  assert (Hok1 : sched_ok (tk s1') D Γ rs) by (rewrite Eq; by apply (sched_ok_pcb _ _ _ _ _ p)).
  destruct (schedule_preempt (tk s1') D Γ rs Hok1) as (k' & next & rest & q & Es & Eqp & Hq & Hsw);
    [by rewrite Eq|].
  cbv zeta in Hsw. rewrite Eq in Eqp, Hq, Hsw. cbn [set_pcbs set_kth kc kth pcbs] in Eqp, Hq.
  fold now in Eqp, Hq. rewrite lookup_insert_eq in Eqp. injection Eqp as <-.
  destruct Hsw as (S1 & S2 & _ & _ & S5). pose proof (fun t => runs_others _ _ _ t S5) as S6. clear S5. rename S6 into S5. cbn [set_pcbs set_kth kc kth pcbs thread_ready_list] in S1, S5.
  rewrite (on_tk_ok _ s1' _ _ Es) in E2.
  exists s1. eexists. exists next, rest. split; [exact E1|]. split; [exact Hss|]. split; [exact E2|].
  split; [exact Hq|]. split; [exact S1|]. split; [exact S2|]. cbn [tk total_ticks s1'].
  split; [rewrite Ht1; unwrap; zarith|]. fold now in S5. split.
  - intros Hne. eexists. split; [rewrite S5 by done; apply lookup_insert_eq|].
    split; [reflexivity|]. split; [reflexivity|]. cbn. unwrap. zarith.
  - intros t Hn Hc. rewrite S5 by done. by rewrite !lookup_insert_ne by done.
Qed.

(** C40. [ms_sleep] sleeps long enough and no longer: when [d] ticks have passed since the
    call, the counter wrapping or not, the test goes on sleeping exactly if the
    [d] ticks are less than the milliseconds asked for.  Sleeping 0 ms, or so
    many that rounding up overflows, stops the kernel in an assertion. *)
Theorem ms_sleep_duration (s : clock) (ms : Z) : is_word ms ->
  (0 < ms <= 4294967286 ->
     exists n, ms_sleep ms s = sleep_test (total_ticks s) n s /\
       forall s' d, 0 <= d < 4294967296 -> total_ticks s' = u32 (total_ticks s + d) ->
         (ms <= d * 10 -> sleep_test (total_ticks s) n s' = Ok (None, s')) /\
         (d * 10 < ms -> sleep_test (total_ticks s) n s'
            = (old ← on_tk thread_yield; mret (Some old)) s')) /\
  (ms = 0 \/ 4294967286 < ms -> ms_sleep ms s = Err Panic).
Proof.
  intros Hms. unfold is_word in Hms. split.
  - intros Hr. exists (DIV_ROUND_UP ms ms_per_intr).
    assert (En : DIV_ROUND_UP ms ms_per_intr = (ms + 9) / 10).
    { change ms_per_intr with 10. rewrite DIV_ROUND_UP_spec by lia. replace (ms + 10 - 1) with (ms + 9) by ring. reflexivity. }
    split.
    { unfold ms_sleep. rewrite bind_assert; [done|]. rewrite En, Z.ltb_lt. zarith. }
    intros s' d Hd Et. unfold sleep_test. rewrite !bind_gets, Et, En.
    assert (Ed : u32 (u32 (total_ticks s + d) - total_ticks s) = d) by (unwrap; zarith).
    rewrite Ed. split; intros H.
    + rewrite (proj2 (Z.ltb_ge _ _)) by zarith. done.
    + rewrite (proj2 (Z.ltb_lt _ _)) by zarith. done.
  - intros Hr. unfold ms_sleep. apply bind_assert_panic. apply Z.ltb_ge.
    unfold DIV_ROUND_UP. change ms_per_intr with 10. unwrap. zarith.
Qed.

(** [timer_init] programs channel 0 as a rate generator, but sends 0 as the upper
    byte of its counter: the interrupts come 1193180 / 155 times a second, not
    the 100 times the rest of the kernel counts with. *)
Theorem timer_frequency (s : clock) (handler : Z) : (0x20 < length (intr_function_table s))%nat ->
  exists s', timer_init handler s = Ok (tt, s') /\
    ports_out s' = ports_out s ++ [(0x43, 0x34); (0x40, 155); (0x40, 0)] /\
    COUNTER0_VALUE = 11931 /\ intr_function_table s' !! 0x20%nat = Some handler /\ tk s' = tk s.
Proof.
  intros Hl. unfold timer_init, frequency_set, outb, set_FHL_count.
  rewrite bind_modify. unfold mbind at 1, M_bind at 1. rewrite !bind_modify. unfold modify at 1.
  rewrite bind_get. cbn [intr_function_table].
  unfold Idt.register_handler. change (u8 0x20) with 0x20.
  erewrite bind_lift by (apply aset_ok; unfold zlen; cbn [intr_function_table]; lia).
  eexists. split; [reflexivity|]. cbn [ports_out tk intr_function_table].
  split; [by rewrite <- !app_assoc|]. split; [reflexivity|]. split; [|done].
  by rewrite list_lookup_insert_eq.
Qed.

Definition demo_clock : clock := mk_clock demo_sched empty_screen 7 2 (replicate 129 0) [].

Lemma timer_time_slice_witness :
  exists s1 s2, run_ticks 3 demo_clock = Ok (tt, s1) /\ cur (kc (tk s1)) = 0x1000 /\
    intr_timer_handler s1 = Ok (tt, s2) /\ cur (kc (tk s2)) = 0x2000 /\ total_ticks s2 = 11.
Proof.
  destruct (timer_time_slice demo_clock _ _ _ (demo_pcb TASK_RUNNING) demo_sched_ok eq_refl eq_refl eq_refl)
    as (s1 & s2 & next & rest & E1 & [Hk _ _] & E2 & Hq & _ & Hc & Ht & _).
  - cbn. lia.
  - cbn. unfold is_word. lia.
  - cbn. unfold is_word. lia.
  - cbn. lia.
  - exists s1, s2. injection Hq as <- _. split; [exact E1|]. split; [by rewrite Hk|].
    split; [exact E2|]. split; [exact Hc|exact Ht].
Defined.

Lemma ms_sleep_duration_witness :
  ms_sleep 0 demo_clock = Err Panic /\
  exists n, ms_sleep 25 demo_clock = sleep_test 7 n demo_clock /\
    sleep_test 7 n (mk_clock demo_sched empty_screen 10 0 [] []) =
      Ok (None, mk_clock demo_sched empty_screen 10 0 [] []).
Proof.
  split.
  - destruct (ms_sleep_duration demo_clock 0) as [_ H]; [unfold is_word; lia|]. apply H. by left.
  - destruct (ms_sleep_duration demo_clock 25) as [H _]; [unfold is_word; lia|].
    destruct H as (n & E & H); [lia|]. exists n. split; [exact E|].
    apply (H _ 3); [lia|reflexivity|lia].
Defined.

Lemma timer_frequency_witness :
  exists s', timer_init 0xc0001000 demo_clock = Ok (tt, s') /\
    ports_out s' = [(0x43, 0x34); (0x40, 155); (0x40, 0)].
Proof.
  destruct (timer_frequency demo_clock 0xc0001000) as (s' & E & Ep & _).
  - vm_compute. lia.
  - exists s'. split; [exact E|exact Ep].
Defined.
