(* ===== verification/Ide.v ===== *)
(** * Ide: the disk driver of device/ide.c

    The driver talks to the controller through ports: [Ports] has the port
    instructions of io.h, the passing of time, and the interrupt the controller
    raises.  Nothing in [Ports] says what a disk is; [Ata] states the part of
    the ATA standard the driver relies on, for commands of one sector, which
    are the only ones the rest of the kernel gives.  [AtaModel] is a controller
    that satisfies it.

    The state is a channel and its controller.  While a thread holds the lock
    of the channel no other uses it, so [semaphore_down] of [disk_done] is
    modelled as a whole: if the semaphore is 0 the thread sleeps, the next thing
    that happens to the channel is the interrupt, its handler runs, and the
    thread continues.  A wait that nothing ends is [OutOfFuel]. *)

From S2P Require Import Prelude CString BlockDev Sync IoQueue.

Class Ports (D : Type) := {
  p_outb : Z -> Z -> D -> D;
  p_inb : Z -> D -> Z * D;
  p_insw : Z -> nat -> D -> list Z * D;    (* the bytes of [cnt] words *)
  p_outsw : Z -> list Z -> D -> D;
  p_elapse : Z -> D -> D;                  (* milliseconds *)
  p_intr : D -> option D }.                (* up to the next interrupt *)

Record ide_channel := mk_channel {
  port_base : Z;
  irq_no : Z;
  chan_lock : bool;
  expecting_intr : bool;
  disk_done : Z }.

(** A disk of the channel: master 0 or slave 1. *)
Record disk := mk_disk { dev_no : Z }.
Definition sda : disk := mk_disk 0.
Definition sdb : disk := mk_disk 1.

Definition reg_data (c : ide_channel) : Z := port_base c + 0.
Definition reg_sect_cnt (c : ide_channel) : Z := port_base c + 2.
Definition reg_lba_l (c : ide_channel) : Z := port_base c + 3.
Definition reg_lba_m (c : ide_channel) : Z := port_base c + 4.
Definition reg_lba_h (c : ide_channel) : Z := port_base c + 5.
Definition reg_dev (c : ide_channel) : Z := port_base c + 6.
Definition reg_status (c : ide_channel) : Z := port_base c + 7.
Definition reg_cmd (c : ide_channel) : Z := reg_status c.

Definition BIT_STAT_BSY : Z := 0x80.
Definition BIT_STAT_DRQ : Z := 0x8.
Definition BIT_DEV_MBS : Z := 0xa0.
Definition BIT_DEV_LBA : Z := 0x40.
Definition BIT_DEV_DEV : Z := 0x10.
Definition CMD_READ_SECTOR : Z := 0x20.
Definition CMD_WRITE_SECTOR : Z := 0x30.
Definition max_lba : Z := 80 * 1024 * 1024 / 512 - 1.

Record ide (D : Type) := mk_ide { channel : ide_channel; dev : D }.
Arguments mk_ide {D}.
Arguments channel {D}.
Arguments dev {D}.

Section driver.
Context {D : Type} `{Ports D}.

Definition on_channel (f : ide_channel -> ide_channel) : M (ide D) unit :=
  modify (fun s => mk_ide (f (channel s)) (dev s)).
Definition set_expecting (b : bool) (c : ide_channel) : ide_channel :=
  mk_channel (port_base c) (irq_no c) (chan_lock c) b (disk_done c).
Definition set_done (n : Z) (c : ide_channel) : ide_channel :=
  mk_channel (port_base c) (irq_no c) (chan_lock c) (expecting_intr c) n.
Definition set_chan_lock (b : bool) (c : ide_channel) : ide_channel :=
  mk_channel (port_base c) (irq_no c) b (expecting_intr c) (disk_done c).

(** The instructions: a port is 16 bits wide, a byte 8. *)
Definition outb (port data : Z) : M (ide D) unit :=
  modify (fun s => mk_ide (channel s) (p_outb (u16 port) (u8 data) (dev s))).
Definition inb (port : Z) : M (ide D) Z := fun s =>
  let '(x, d) := p_inb (u16 port) (dev s) in Ok (u8 x, mk_ide (channel s) d).
Definition insw (port : Z) (cnt : nat) : M (ide D) (list Z) := fun s =>
  let '(x, d) := p_insw (u16 port) cnt (dev s) in Ok (x, mk_ide (channel s) d).
Definition outsw (port : Z) (bytes : list Z) : M (ide D) unit :=
  modify (fun s => mk_ide (channel s) (p_outsw (u16 port) bytes (dev s))).
Definition sleep (ms : Z) : M (ide D) unit :=
  modify (fun s => mk_ide (channel s) (p_elapse ms (dev s))).

Definition select_disk (hd : disk) : M (ide D) unit :=
  c ← gets channel;
  let reg_device := Z.lor BIT_DEV_MBS BIT_DEV_LBA in
  let reg_device := if dev_no hd =? 1 then Z.lor reg_device BIT_DEV_DEV else reg_device in
  outb (reg_dev c) reg_device.

Definition select_sector (hd : disk) (lba sec_cnt : Z) : M (ide D) unit :=
  _ ← ASSERTM (lba <=? max_lba);
  c ← gets channel;
  _ ← outb (reg_sect_cnt c) (u8 sec_cnt);
  _ ← outb (reg_lba_l c) lba;
  _ ← outb (reg_lba_m c) (Z.shiftr lba 8);
  _ ← outb (reg_lba_h c) (Z.shiftr lba 16);
  outb (reg_dev c)
    (Z.lor (Z.lor (Z.lor BIT_DEV_MBS BIT_DEV_LBA) (if dev_no hd =? 1 then BIT_DEV_DEV else 0))
       (Z.shiftr lba 24)).

Definition cmd_out (cmd : Z) : M (ide D) unit :=
  _ ← on_channel (set_expecting true);
  c ← gets channel;
  outb (reg_cmd c) cmd.

Definition size_in_byte (sec_cnt : Z) : Z :=
  if u8 sec_cnt =? 0 then 256 * 512 else u8 sec_cnt * 512.

(** [insw] stores the words at [buf + p]. *)
Fixpoint store_bytes (buf : list Z) (p : Z) (x : list Z) : res (list Z) :=
  match x with
  | [] => Ok buf
  | b :: x' => buf' ← aset buf p b; store_bytes buf' (p + 1) x'
  end.

Definition read_from_sector (buf : list Z) (p sec_cnt : Z) : M (ide D) (list Z) :=
  c ← gets channel;
  x ← insw (reg_data c) (Z.to_nat (size_in_byte sec_cnt / 2));
  lift (store_bytes buf p x).

(** The bytes [outsw] fetches from [buf + p] on. *)
Fixpoint fetch_bytes (n : nat) (buf : list Z) (p : Z) : res (list Z) :=
  match n with
  | O => Ok []
  | S n' => b ← aget buf p; x ← fetch_bytes n' buf (p + 1); Ok (b :: x)
  end.

Definition write2sector (buf : list Z) (p sec_cnt : Z) : M (ide D) unit :=
  c ← gets channel;
  x ← lift (fetch_bytes (Z.to_nat (size_in_byte sec_cnt / 2 * 2)) buf p);
  outsw (reg_data c) x.

(** [while (time_limit -= 10 >= 0)]: the comparison binds tighter than the
    assignment, so 1 is subtracted each time.  [n] is [time_limit]. *)
Fixpoint busy_wait_loop (n : nat) : M (ide D) bool :=
  match n with
  | O => mret false
  | S O => mret false
  | S n' =>
      c ← gets channel;
      s ← inb (reg_status c);
      if Z.land s BIT_STAT_BSY =? 0 then
        s ← inb (reg_status c);
        mret (negb (Z.land s BIT_STAT_DRQ =? 0))
      else
        _ ← sleep 10;
        busy_wait_loop n'
  end.

Definition busy_wait : M (ide D) bool := busy_wait_loop (Z.to_nat (u16 (30 * 1000))).

(** [semaphore_up(&channel->disk_done)] is the only statement of the handler
    that other threads see. *)
Definition intr_hd_handler (irq : Z) : M (ide D) unit :=
  _ ← ASSERTM ((irq =? 0x2e) || (irq =? 0x2f));
  c ← gets channel;
  _ ← ASSERTM (irq_no c =? irq);
  if expecting_intr c then
    _ ← on_channel (set_expecting false);
    _ ← on_channel (fun c => set_done (u8 (disk_done c + 1)) c);
    _ ← inb (reg_status c);
    mret tt
  else mret tt.

(** The thread sleeps until the controller's interrupt. *)
Definition next_intr : M (ide D) unit := fun s =>
  match p_intr (dev s) with
  | Some d => intr_hd_handler (irq_no (channel s)) (mk_ide (channel s) d)
  | None => Err OutOfFuel
  end.

Definition down_disk_done : M (ide D) unit :=
  c ← gets channel;
  _ ← (if disk_done c =? 0 then next_intr else mret tt);
  c ← gets channel;
  if disk_done c =? 0 then fail OutOfFuel
  else
    _ ← ASSERTM (u8 (disk_done c - 1) =? 0);
    on_channel (set_done (u8 (disk_done c - 1))).

Definition secs_op (secs_done sec_cnt : Z) : Z :=
  if u32 (secs_done + 256) <=? sec_cnt then 256 else u32 (sec_cnt - secs_done).

Fixpoint ide_read_loop (fuel : nat) (hd : disk) (lba : Z) (buf : list Z) (secs_done sec_cnt : Z)
    : M (ide D) (list Z) :=
  match fuel with
  | O => fail OutOfFuel
  | S n =>
      if negb (secs_done <? sec_cnt) then mret buf
      else
        let op := secs_op secs_done sec_cnt in
        _ ← select_sector hd (u32 (lba + secs_done)) op;
        _ ← cmd_out CMD_READ_SECTOR;
        _ ← down_disk_done;
        ready ← busy_wait;
        _ ← ASSERTM ready;
        buf ← read_from_sector buf (secs_done * 512) op;
        ide_read_loop n hd lba buf (u32 (secs_done + op)) sec_cnt
  end.

Fixpoint ide_write_loop (fuel : nat) (hd : disk) (lba : Z) (buf : list Z) (secs_done sec_cnt : Z)
    : M (ide D) unit :=
  match fuel with
  | O => fail OutOfFuel
  | S n =>
      if negb (secs_done <? sec_cnt) then mret tt
      else
        let op := secs_op secs_done sec_cnt in
        _ ← select_sector hd (u32 (lba + secs_done)) op;
        _ ← cmd_out CMD_WRITE_SECTOR;
        ready ← busy_wait;
        _ ← ASSERTM ready;
        _ ← write2sector buf (secs_done * 512) op;
        _ ← down_disk_done;
        ide_write_loop n hd lba buf (u32 (secs_done + op)) sec_cnt
  end.

(** [lock_acquire(&hd->my_channel->lock); ...; lock_release(...);]: a call that
    finds the channel in use is suspended ([Waits]). *)
Definition with_channel {A} (m : M (ide D) A) : M (ide D) (outcome A) :=
  c ← gets channel;
  if chan_lock c then mret Waits
  else
    _ ← on_channel (set_chan_lock true);
    a ← m;
    _ ← on_channel (set_chan_lock false);
    mret (Done a).

(** Each round does at least one sector. *)
Definition ide_fuel (sec_cnt : Z) : nat := S (Z.to_nat sec_cnt).

Definition ide_read (hd : disk) (lba : Z) (buf : list Z) (sec_cnt : Z) : M (ide D) (outcome (list Z)) :=
  _ ← ASSERTM (lba <=? max_lba);
  _ ← ASSERTM (0 <? sec_cnt);
  with_channel (_ ← select_disk hd; ide_read_loop (ide_fuel sec_cnt) hd lba buf 0 sec_cnt).

Definition ide_write (hd : disk) (lba : Z) (buf : list Z) (sec_cnt : Z) : M (ide D) (outcome unit) :=
  _ ← ASSERTM (lba <=? max_lba);
  _ ← ASSERTM (0 <? sec_cnt);
  with_channel (_ ← select_disk hd; ide_write_loop (ide_fuel sec_cnt) hd lba buf 0 sec_cnt).

(** The system calls of userprog/syscall-init.c. *)
Definition sys_read_disk (buf : list Z) (secID : Z) (is_sdb : bool) : M (ide D) (outcome (list Z)) :=
  ide_read (if is_sdb then sdb else sda) (u32 secID) buf 1.
Definition sys_write_disk (buf : list Z) (secID : Z) (is_sdb : bool) : M (ide D) (outcome unit) :=
  ide_write (if is_sdb then sdb else sda) (u32 secID) buf 1.
End driver.

(** [swap_pairs_bytes]: pairs of bytes change places; the index is a byte. *)
Fixpoint swap_pairs_loop (fuel : nat) (dst : list Z) (p : Z) (buf : list Z) (idx len : Z) : res (list Z * Z) :=
  match fuel with
  | O => Err OutOfFuel
  | S n =>
      if idx <? len then
        x ← aget dst p;
        buf ← aset buf (idx + 1) x;
        y ← aget dst (p + 1);
        buf ← aset buf idx y;
        swap_pairs_loop n dst (p + 2) buf (u8 (idx + 2)) len
      else Ok (buf, idx)
  end.

Definition swap_pairs_bytes (dst : list Z) (p : Z) (buf : list Z) (len : Z) : res (list Z) :=
  '(buf, idx) ← swap_pairs_loop (S (length dst)) dst p buf 0 len;
  aset buf idx 0.

(** ** What the driver relies on *)

(** The registers of the task file. *)
Record regs := mk_regs { r_cnt : Z; r_l : Z; r_m : Z; r_h : Z; r_dev : Z }.

(** A command of one sector: the drive (0 or 1) and the sector. *)
Record target := mk_target { t_drive : Z; t_lba : Z }.

(** The drive and the sector the registers name, in LBA mode. *)
Definition drive_of (r : regs) : Z := Z.land (Z.shiftr (r_dev r) 4) 1.
Definition lba_of (r : regs) : Z :=
  r_l r + r_m r * 256 + r_h r * 65536 + Z.land (r_dev r) 15 * 16777216.

(** What the controller is doing. *)
Inductive phase :=
  | Idle (r : regs)               (* no command *)
  | Seeking (t : target)          (* READ SECTOR accepted, the interrupt will come *)
  | DataIn (t : target)           (* the sector can be read from the data port *)
  | Accepting (t : target) (w : Z) (* WRITE SECTOR accepted, busy for [w] ms *)
  | Storing (t : target) (x : list Z). (* the data has arrived, the interrupt will come *)

(** The controller at [base]: register accesses while it is idle; a READ
    command ends in an interrupt, after which the status has DRQ and not BSY
    until the 256 words of the sector are read; a WRITE command shows BSY for a
    while, then DRQ, takes the 256 words, and ends in an interrupt with the
    sector stored.  Only a write changes the medium. *)
Class Ata (D : Type) `{Ports D} (base : Z) := {
  media : D -> Z -> Z -> list Z;
  phase_of : D -> phase;
  ata_sector : forall d n lba, sector (media d n lba);
  ata_reg : forall d r x i, phase_of d = Idle r -> is_byte x ->
    (i = 2 \/ i = 3 \/ i = 4 \/ i = 5 \/ i = 6) ->
    media (p_outb (base + i) x d) = media d /\
    phase_of (p_outb (base + i) x d) = Idle
      (mk_regs (if i =? 2 then x else r_cnt r) (if i =? 3 then x else r_l r)
         (if i =? 4 then x else r_m r) (if i =? 5 then x else r_h r) (if i =? 6 then x else r_dev r));
  ata_read : forall d r, phase_of d = Idle r -> r_cnt r = 1 -> Z.testbit (r_dev r) 6 = true ->
    media (p_outb (base + 7) 0x20 d) = media d /\
    phase_of (p_outb (base + 7) 0x20 d) = Seeking (mk_target (drive_of r) (lba_of r));
  ata_write : forall d r, phase_of d = Idle r -> r_cnt r = 1 -> Z.testbit (r_dev r) 6 = true ->
    media (p_outb (base + 7) 0x30 d) = media d /\
    exists w, w <= 250000 /\
      phase_of (p_outb (base + 7) 0x30 d) = Accepting (mk_target (drive_of r) (lba_of r)) w;
  ata_seek : forall d t, phase_of d = Seeking t ->
    exists d', p_intr d = Some d' /\ media d' = media d /\ phase_of d' = DataIn t;
  ata_store : forall d t x, phase_of d = Storing t x -> sector x ->
    exists d' r, p_intr d = Some d' /\ phase_of d' = Idle r /\
      forall n lba, media d' n lba =
        if bool_decide (n = t_drive t /\ lba = t_lba t) then x else media d n lba;
  ata_status : forall d, let '(s, d') := p_inb (base + 7) d in
    is_byte s /\ media d' = media d /\ phase_of d' = phase_of d /\
    match phase_of d with
    | DataIn _ => Z.land s 0x80 = 0 /\ Z.land s 0x8 <> 0
    | Accepting _ w => if 0 <? w then Z.land s 0x80 <> 0 else Z.land s 0x80 = 0 /\ Z.land s 0x8 <> 0
    | _ => True
    end;
  ata_elapse : forall d t w ms, phase_of d = Accepting t w -> 0 <= ms ->
    media (p_elapse ms d) = media d /\ phase_of (p_elapse ms d) = Accepting t (w - ms);
  ata_insw : forall d t, phase_of d = DataIn t ->
    let '(x, d') := p_insw base 256 d in
    x = media d (t_drive t) (t_lba t) /\ media d' = media d /\ exists r, phase_of d' = Idle r;
  ata_outsw : forall d t w x, phase_of d = Accepting t w -> w <= 0 -> sector x ->
    media (p_outsw base x d) = media d /\ phase_of (p_outsw base x d) = Storing t x }.

(** ** Lemmas *)

Section ata.
Context {D : Type} `{Ports D} {base : Z} `{!Ata D base}.

(** The channel of the controller, not in use. *)
Record chan_ok (c : ide_channel) : Prop := {
  co_base : port_base c = base;
  co_range : 0 <= base < 65528;
  co_irq : irq_no c = 0x2e \/ irq_no c = 0x2f;
  co_done : disk_done c = 0 }.

(** The byte for the device register. *)
Definition dev_byte (hd : disk) (lba : Z) : Z :=
  Z.lor (Z.lor (Z.lor BIT_DEV_MBS BIT_DEV_LBA) (if dev_no hd =? 1 then BIT_DEV_DEV else 0)) (Z.shiftr lba 24).

Lemma dev_byte_ok hd lba : 0 <= lba <= max_lba -> dev_no hd = 0 \/ dev_no hd = 1 ->
  is_byte (dev_byte hd lba) /\ Z.testbit (dev_byte hd lba) 6 = true /\
  Z.land (Z.shiftr (dev_byte hd lba) 4) 1 = dev_no hd /\ Z.land (dev_byte hd lba) 15 = lba / 2 ^ 24.
Proof.
  intros Hl Hd. change max_lba with 163839 in Hl. unfold dev_byte.
  rewrite Z.shiftr_div_pow2 by lia. change (2 ^ 24) with 16777216. rewrite (Z.div_small lba) by lia.
  destruct Hd as [E|E]; rewrite E; repeat split; try reflexivity; vm_compute; congruence.
Qed.

Lemma regs_lba lba hd : 0 <= lba <= max_lba -> dev_no hd = 0 \/ dev_no hd = 1 ->
  let r := mk_regs 1 (u8 lba) (u8 (Z.shiftr lba 8)) (u8 (Z.shiftr lba 16)) (dev_byte hd lba) in
  lba_of r = lba /\ drive_of r = dev_no hd.
Proof.
  intros Hl Hd. destruct (dev_byte_ok hd lba Hl Hd) as (_ & _ & Hdr & Htop). split; [|exact Hdr].
  unfold lba_of. cbn [r_l r_m r_h r_dev]. rewrite Htop, !Z.shiftr_div_pow2 by lia. unwrap.
  change max_lba with 163839 in Hl. change (2 ^ 8) with 256. change (2 ^ 16) with 65536.
  change (2 ^ 24) with 16777216. zarith.
Qed.

(** One register written while the controller is idle. *)
Lemma outb_reg c d r x i (f : ide_channel -> Z) : chan_ok c -> phase_of d = Idle r ->
  i = 2 \/ i = 3 \/ i = 4 \/ i = 5 \/ i = 6 -> f c = port_base c + i ->
  exists d', outb (f c) x (mk_ide c d) = Ok (tt, mk_ide c d') /\ media d' = media d /\
    phase_of d' = Idle (mk_regs (if i =? 2 then u8 x else r_cnt r) (if i =? 3 then u8 x else r_l r)
      (if i =? 4 then u8 x else r_m r) (if i =? 5 then u8 x else r_h r) (if i =? 6 then u8 x else r_dev r)).
Proof.
  intros [Hb Hr _ _] Hp Hi Hf. eexists. split; [reflexivity|]. cbn [dev]. rewrite Hf, Hb, u16_small by lia.
  apply ata_reg; [exact Hp|apply u8_range|exact Hi].
Qed.

Lemma select_disk_ok c d r hd : chan_ok c -> phase_of d = Idle r ->
  exists d' r', select_disk hd (mk_ide c d) = Ok (tt, mk_ide c d') /\ media d' = media d /\ phase_of d' = Idle r'.
Proof.
  intros Hc Hp. unfold select_disk. rewrite bind_gets. cbn [channel]. cbv zeta.
  destruct (outb_reg c d r (if dev_no hd =? 1 then Z.lor (Z.lor BIT_DEV_MBS BIT_DEV_LBA) BIT_DEV_DEV
    else Z.lor BIT_DEV_MBS BIT_DEV_LBA) 6 reg_dev Hc Hp ltac:(lia) eq_refl) as (d' & E & Hm & Hp').
  eauto.
Qed.

Lemma select_sector_ok c d r hd lba : chan_ok c -> phase_of d = Idle r -> 0 <= lba <= max_lba ->
  dev_no hd = 0 \/ dev_no hd = 1 ->
  exists d' r', select_sector hd lba 1 (mk_ide c d) = Ok (tt, mk_ide c d') /\ media d' = media d /\
    phase_of d' = Idle r' /\ r_cnt r' = 1 /\ Z.testbit (r_dev r') 6 = true /\
    lba_of r' = lba /\ drive_of r' = dev_no hd.
Proof.
  intros Hc Hp Hl Hd. unfold select_sector. rewrite bind_assert by (apply Z.leb_le; lia).
  rewrite bind_gets. cbn [channel].
  destruct (outb_reg c d r (u8 1) 2 reg_sect_cnt Hc Hp ltac:(lia) eq_refl) as (d1 & E1 & M1 & P1).
  destruct (outb_reg c d1 _ lba 3 reg_lba_l Hc P1 ltac:(lia) eq_refl) as (d2 & E2 & M2 & P2).
  destruct (outb_reg c d2 _ (Z.shiftr lba 8) 4 reg_lba_m Hc P2 ltac:(lia) eq_refl) as (d3 & E3 & M3 & P3).
  destruct (outb_reg c d3 _ (Z.shiftr lba 16) 5 reg_lba_h Hc P3 ltac:(lia) eq_refl) as (d4 & E4 & M4 & P4).
  destruct (outb_reg c d4 _ (dev_byte hd lba) 6 reg_dev Hc P4 ltac:(lia) eq_refl) as (d5 & E5 & M5 & P5).
  rewrite (bindM_ok _ _ _ _ _ E1), (bindM_ok _ _ _ _ _ E2), (bindM_ok _ _ _ _ _ E3), (bindM_ok _ _ _ _ _ E4).
  cbn [Z.eqb Pos.eqb r_cnt r_l r_m r_h r_dev] in P5.
  destruct (dev_byte_ok hd lba Hl Hd) as (Hby & Hb6 & _ & _). rewrite (u8_small (dev_byte hd lba)) in P5 by exact Hby.
  eexists. eexists. split; [exact E5|]. split; [congruence|]. split; [exact P5|]. cbn [r_cnt r_dev].
  split; [reflexivity|]. split; [exact Hb6|]. by apply regs_lba.
Qed.

(** The status register. *)
Lemma status_ok c d : chan_ok c ->
  exists s d', inb (reg_status c) (mk_ide c d) = Ok (s, mk_ide c d') /\ media d' = media d /\
    phase_of d' = phase_of d /\
    match phase_of d with
    | DataIn _ => Z.land s 0x80 = 0 /\ Z.land s 0x8 <> 0
    | Accepting _ w => if 0 <? w then Z.land s 0x80 <> 0 else Z.land s 0x80 = 0 /\ Z.land s 0x8 <> 0
    | _ => True
    end.
Proof.
  intros [Hb Hr _ _]. unfold inb, reg_status. rewrite Hb. cbn [dev channel]. rewrite u16_small by lia.
  pose proof (ata_status d) as Hs. destruct (p_inb (base + 7) d) as [s d1]. destruct Hs as (Hby & Hm & Hq & Hs).
  exists s, d1. split; [by rewrite u8_small|]. by split.
Qed.

(** [busy_wait] with the data ready. *)
Lemma busy_wait_ready n c d : chan_ok c -> (1 < n)%nat ->
  (exists t, phase_of d = DataIn t) \/ (exists t w, phase_of d = Accepting t w /\ w <= 0) ->
  exists d', busy_wait_loop n (mk_ide c d) = Ok (true, mk_ide c d') /\ media d' = media d /\
    phase_of d' = phase_of d.
Proof.
  intros Hc Hn Hp. destruct n as [|[|n]]; [lia|lia|]. cbn [busy_wait_loop]. rewrite bind_gets. cbn [channel].
  destruct (status_ok c d Hc) as (s1 & d1 & E1 & Hm1 & Hp1 & H1).
  destruct (status_ok c d1 Hc) as (s2 & d2 & E2 & Hm2 & Hp2 & H2). rewrite Hp1 in H2, Hp2.
  assert (Hz : Z.land s1 0x80 = 0 /\ Z.land s2 0x8 <> 0).
  { destruct Hp as [(t & Hp)|(t & w & Hp & Hw)]; rewrite Hp in H1, H2; [by destruct H1, H2|].
    rewrite (proj2 (Z.ltb_ge 0 w)) in H1, H2 by lia. by destruct H1, H2. }
  destruct Hz as [Hz1 Hz2]. rewrite (bindM_ok _ _ _ _ _ E1). unfold BIT_STAT_BSY. rewrite Hz1. cbn [Z.eqb].
  rewrite (bindM_ok _ _ _ _ _ E2). unfold BIT_STAT_DRQ. rewrite (proj2 (Z.eqb_neq _ _) Hz2).
  exists d2. split; [done|]. by rewrite Hm2, Hm1.
Qed.

(** [busy_wait] while a WRITE command is being accepted. *)
Lemma busy_wait_accepting m : forall c d t w, chan_ok c -> phase_of d = Accepting t w ->
  w <= 10 * Z.of_nat m ->
  exists d' w', busy_wait_loop (S (S m)) (mk_ide c d) = Ok (true, mk_ide c d') /\ media d' = media d /\
    phase_of d' = Accepting t w' /\ w' <= 0.
Proof.
  induction m as [|m IH]; intros c d t w Hc Hp Hw; destruct (Z_le_gt_dec w 0) as [Hle|Hgt].
  1, 3: match goal with |- context [busy_wait_loop ?n] =>
    destruct (busy_wait_ready n c d Hc ltac:(lia) (or_intror (ex_intro _ t (ex_intro _ w (conj Hp Hle)))))
      as (d' & E & Hm & Hq); exists d', w; rewrite Hq; by split end.
  { lia. }
  change (busy_wait_loop (S (S (S m)))) with
    (c ← gets channel; s ← inb (reg_status c);
     if Z.land s BIT_STAT_BSY =? 0 then s ← inb (reg_status c); mret (negb (Z.land s BIT_STAT_DRQ =? 0))
     else _ ← sleep 10; busy_wait_loop (S (S m)) : M (ide D) bool).
  rewrite bind_gets. cbn [channel]. destruct (status_ok c d Hc) as (s1 & d1 & E1 & Hm & Hq & Hs).
  rewrite Hp, (proj2 (Z.ltb_lt 0 w)) in Hs by lia. rewrite (bindM_ok _ _ _ _ _ E1). unfold BIT_STAT_BSY.
  rewrite (proj2 (Z.eqb_neq _ _) Hs). unfold sleep. rewrite bind_modify. cbn [dev channel].
  rewrite Hp in Hq. destruct (ata_elapse d1 t w 10 Hq ltac:(lia)) as [Hm1 Hp1].
  destruct (IH c (p_elapse 10 d1) t (w - 10) Hc Hp1 ltac:(lia)) as (d' & w' & E & Hm' & Hp' & Hw').
  exists d', w'. split; [exact E|]. split; [congruence|by split].
Qed.

Lemma time_limit_nat : exists m, Z.to_nat (u16 (30 * 1000)) = S (S m) /\ Z.of_nat m = 29998.
Proof.
  exists (Z.to_nat 29998). rewrite u16_small, <- !Z2Nat.inj_succ by lia. split; [done|]. by rewrite Z2Nat.id.
Qed.

(** The handler of the interrupt that ends a command, and the thread that
    waited for it. *)
Lemma wait_intr_ok c d d1 : chan_ok c -> expecting_intr c = true -> p_intr d = Some d1 ->
  exists d', down_disk_done (mk_ide c d) = Ok (tt, mk_ide (set_done 0 (set_expecting false c)) d') /\
    media d' = media d1 /\ phase_of d' = phase_of d1.
Proof.
  intros Hc He Ei. pose proof Hc as [Hb Hr Hi Hd]. unfold down_disk_done. rewrite bind_gets.
  cbn [channel]. rewrite Hd.
  change (0 =? 0) with true. cbv iota.
  assert (E : exists d', next_intr (mk_ide c d) = Ok (tt, mk_ide (set_done 1 (set_expecting false c)) d') /\
    media d' = media d1 /\ phase_of d' = phase_of d1).
  { unfold next_intr. cbn [dev channel]. rewrite Ei. unfold intr_hd_handler.
    rewrite bind_assert by (apply orb_true_iff; rewrite !Z.eqb_eq; exact Hi).
    rewrite bind_gets. cbn [channel]. rewrite bind_assert by apply Z.eqb_refl. rewrite He.
    unfold on_channel. rewrite !bind_modify. cbn [channel dev set_expecting disk_done]. rewrite Hd.
    change (u8 (0 + 1)) with 1. set (c1 := set_done 1 _).
    destruct (status_ok c d1 Hc) as (s & d' & E & Hm & Hp & _).
    assert (E1 : inb (reg_status c) (mk_ide c1 d1) = Ok (s, mk_ide c1 d')).
    { unfold inb in *. cbn [dev channel] in *. destruct (p_inb _ d1) as [y z]. by injection E as <- <-. }
    exists d'. rewrite (bindM_ok _ _ _ _ _ E1). by split. }
  destruct E as (d' & E & Hm & Hp). exists d'. rewrite (bindM_ok _ _ _ _ _ E), bind_gets.
  cbn [channel set_done disk_done]. by split.
Qed.

Lemma cmd_read_ok c d r : chan_ok c -> phase_of d = Idle r -> r_cnt r = 1 -> Z.testbit (r_dev r) 6 = true ->
  exists d', cmd_out CMD_READ_SECTOR (mk_ide c d) = Ok (tt, mk_ide (set_expecting true c) d') /\
    media d' = media d /\ phase_of d' = Seeking (mk_target (drive_of r) (lba_of r)).
Proof.
  intros [Hb Hr Hi Hd] Hp H1 H6. eexists. split; [reflexivity|]. cbn [dev].
  unfold reg_cmd, reg_status. cbn [set_expecting port_base channel]. rewrite Hb, u16_small by lia.
  by apply ata_read.
Qed.

Lemma cmd_write_ok c d r : chan_ok c -> phase_of d = Idle r -> r_cnt r = 1 -> Z.testbit (r_dev r) 6 = true ->
  exists d' w, cmd_out CMD_WRITE_SECTOR (mk_ide c d) = Ok (tt, mk_ide (set_expecting true c) d') /\
    media d' = media d /\ w <= 250000 /\ phase_of d' = Accepting (mk_target (drive_of r) (lba_of r)) w.
Proof.
  intros [Hb Hr Hi Hd] Hp H1 H6. destruct (ata_write d r Hp H1 H6) as (Hm & w & Hw & Hq).
  eexists. exists w. split; [reflexivity|]. cbn [dev].
  unfold reg_cmd, reg_status. cbn [set_expecting port_base channel]. rewrite Hb, u16_small by lia. by split.
Qed.

Lemma store_bytes_ok x : forall pre mid post, length mid = length x ->
  store_bytes (pre ++ mid ++ post) (zlen pre) x = Ok (pre ++ x ++ post).
Proof.
  induction x as [|b x IH]; intros pre [|m mid] post Hl; try done. cbn [store_bytes app].
  rewrite (bindR_ok _ _ _ (aset_mid pre m b _)), (snoc_shift pre b (mid ++ post)),
    (snoc_shift pre b (x ++ post)), <- (zlen_snoc pre b).
  apply IH. by injection Hl.
Qed.

Lemma fetch_bytes_ok x : forall pre post,
  fetch_bytes (length x) (pre ++ x ++ post) (zlen pre) = Ok x.
Proof.
  induction x as [|b x IH]; intros pre post; [done|]. cbn [fetch_bytes length app].
  rewrite (bindR_ok _ _ _ (aget_mid pre b _)), (snoc_shift pre b (x ++ post)), <- (zlen_snoc pre b).
  by rewrite (bindR_ok _ _ _ (IH _ _)).
Qed.

(** A channel that is not in use, its controller idle. *)
Record ready (s : ide D) : Prop := {
  rd_chan : chan_ok (channel s);
  rd_lock : chan_lock (channel s) = false;
  rd_expect : expecting_intr (channel s) = false;
  rd_idle : exists r, phase_of (dev s) = Idle r }.

Lemma ide_read_ok s hd lba buf : ready s -> 0 <= lba <= max_lba -> dev_no hd = 0 \/ dev_no hd = 1 ->
  512 <= zlen buf ->
  exists d', ide_read hd lba buf 1 s
      = Ok (Done (media (dev s) (dev_no hd) lba ++ drop 512 buf), mk_ide (channel s) d') /\
    media d' = media (dev s) /\ ready (mk_ide (channel s) d').
Proof.
  destruct s as [c d]. intros [Hc Hlk Hex [r Hp]] Hl Hd Hb. cbn [channel dev] in *.
  unfold ide_read. rewrite bind_assert by (apply Z.leb_le; lia). rewrite bind_assert by done.
  unfold with_channel. rewrite bind_gets. cbn [channel]. rewrite Hlk. cbv iota. unfold on_channel. rewrite bind_modify.
  cbn [channel dev]. set (c1 := set_chan_lock true c). assert (Hc1 : chan_ok c1) by (by destruct Hc).
  destruct (select_disk_ok c1 d r hd Hc1 Hp) as (d1 & r1 & E1 & M1 & P1).
  destruct (select_sector_ok c1 d1 r1 hd lba Hc1 P1 Hl Hd) as (d2 & r2 & E2 & M2 & P2 & R1 & R2 & R3 & R4).
  destruct (cmd_read_ok c1 d2 r2 Hc1 P2 R1 R2) as (d3 & E3 & M3 & P3). rewrite R3, R4 in P3.
  destruct (ata_seek d3 _ P3) as (d4 & Ei & M4 & P4). set (c2 := set_expecting true c1) in *.
  assert (Hc2 : chan_ok c2) by (by destruct Hc).
  destruct (wait_intr_ok c2 d3 d4 Hc2 eq_refl Ei) as (d5 & E5 & M5 & P5). rewrite P4 in P5.
  set (c3 := set_done 0 _) in E5. assert (Hc3 : chan_ok c3) by (by destruct Hc).
  destruct time_limit_nat as (tl & Etl & Htl).
  destruct (busy_wait_ready (S (S tl)) c3 d5 Hc3 ltac:(lia)) as (d6 & E6 & M6 & P6); [eauto|].
  rewrite P5 in P6.
  pose proof (ata_insw d6 _ P6) as Hin. destruct (p_insw base 256 d6) as [x d7] eqn:E7.
  destruct Hin as (Ex & M7 & r7 & P7). cbn [t_drive t_lba] in Ex.
  assert (EM : media d6 = media d) by congruence.
  assert (Hx : length x = 512%nat) by (rewrite Ex; apply ata_sector).
  assert (Es : store_bytes buf (0 * 512) x = Ok (x ++ drop 512 buf)).
  { rewrite <- (take_drop 512 buf) at 1. change (0 * 512) with (zlen (@nil Z)).
    apply (store_bytes_ok x []). rewrite length_take. unfold zlen in Hb. lia. }
  assert (Er : (ide_read_loop (ide_fuel 1) hd lba buf 0 1) (mk_ide c1 d1) = Ok (x ++ drop 512 buf, mk_ide c3 d7)).
  { change (ide_fuel 1) with 2%nat. cbn [ide_read_loop]. change (0 <? 1) with true. cbn [negb].
    change (secs_op 0 1) with 1. rewrite (Z.add_0_r lba), (u32_small lba) by (change max_lba with 163839 in Hl; lia).
    rewrite (bindM_ok _ _ _ _ _ E2), (bindM_ok _ _ _ _ _ E3), (bindM_ok _ _ _ _ _ E5).
    unfold busy_wait. rewrite Etl, (bindM_ok _ _ _ _ _ E6), bind_assert by done.
    erewrite (bindM_ok _ _ (mk_ide c3 d6)); [reflexivity|]. unfold read_from_sector. rewrite bind_gets.
    unfold reg_data. cbn [channel]. rewrite (co_base _ Hc3), Z.add_0_r.
    unfold mbind, M_bind, insw. cbn [dev channel]. rewrite u16_small by (pose proof (co_range _ Hc); lia).
    change (Z.to_nat (size_in_byte 1 / 2)) with 256%nat. rewrite E7. by apply lift_ok. }
  assert (Ec : set_chan_lock false c3 = c).
  { unfold c3, c2, c1. destruct c; cbn in *. destruct Hc as [_ _ _ Hz]. cbn in Hz. by subst. }
  exists d7. split; [|split; [congruence|]].
  - erewrite bindM_ok by (rewrite (bindM_ok _ _ _ _ _ E1); exact Er).
    rewrite bind_modify. cbn [channel dev]. by rewrite Ec, Ex, EM.
  - split; cbn [channel dev]; eauto.
Qed.

Lemma ide_write_ok s hd lba buf : ready s -> 0 <= lba <= max_lba -> dev_no hd = 0 \/ dev_no hd = 1 ->
  512 <= zlen buf -> bytes (take 512 buf) ->
  exists d', ide_write hd lba buf 1 s = Ok (Done tt, mk_ide (channel s) d') /\
    (forall n l, media d' n l = if bool_decide (n = dev_no hd /\ l = lba) then take 512 buf else media (dev s) n l) /\
    ready (mk_ide (channel s) d').
Proof.
  destruct s as [c d]. intros [Hc Hlk Hex [r Hp]] Hl Hd Hb Hby. cbn [channel dev] in *.
  unfold ide_write. rewrite bind_assert by (apply Z.leb_le; lia). rewrite bind_assert by done.
  unfold with_channel. rewrite bind_gets. cbn [channel]. rewrite Hlk. cbv iota. unfold on_channel. rewrite bind_modify.
  cbn [channel dev]. set (c1 := set_chan_lock true c). assert (Hc1 : chan_ok c1) by (by destruct Hc).
  destruct (select_disk_ok c1 d r hd Hc1 Hp) as (d1 & r1 & E1 & M1 & P1).
  destruct (select_sector_ok c1 d1 r1 hd lba Hc1 P1 Hl Hd) as (d2 & r2 & E2 & M2 & P2 & R1 & R2 & R3 & R4).
  destruct (cmd_write_ok c1 d2 r2 Hc1 P2 R1 R2) as (d3 & w & E3 & M3 & Hw & P3). rewrite R3, R4 in P3.
  set (c2 := set_expecting true c1) in *. assert (Hc2 : chan_ok c2) by (by destruct Hc).
  destruct time_limit_nat as (tl & Etl & Htl).
  destruct (busy_wait_accepting tl c2 d3 _ w Hc2 P3) as (d4 & w4 & E4 & M4 & P4 & Hw4); [lia|].
  set (x := take 512 buf) in *. assert (Hlx : length x = 512%nat) by (unfold x; rewrite length_take; unfold zlen in Hb; lia).
  destruct (ata_outsw d4 _ w4 x P4 Hw4 (conj Hlx Hby)) as [M5 P5].
  destruct (ata_store _ _ _ P5 (conj Hlx Hby)) as (d6 & r6 & Ei & P6 & M6). cbn [t_drive t_lba] in M6.
  destruct (wait_intr_ok c2 _ d6 Hc2 eq_refl Ei) as (d7 & E7 & M7 & P7).
  set (c3 := set_done 0 _) in E7.
  assert (Er : (ide_write_loop (ide_fuel 1) hd lba buf 0 1) (mk_ide c1 d1) = Ok (tt, mk_ide c3 d7)).
  { change (ide_fuel 1) with 2%nat. cbn [ide_write_loop]. change (0 <? 1) with true. cbn [negb].
    change (secs_op 0 1) with 1. rewrite (Z.add_0_r lba), (u32_small lba) by (change max_lba with 163839 in Hl; lia).
    rewrite (bindM_ok _ _ _ _ _ E2), (bindM_ok _ _ _ _ _ E3).
    unfold busy_wait. rewrite Etl, (bindM_ok _ _ _ _ _ E4), bind_assert by done.
    erewrite (bindM_ok _ _ (mk_ide c2 d4)); [rewrite (bindM_ok _ _ _ _ _ E7); reflexivity|].
    unfold write2sector. rewrite bind_gets. change (Z.to_nat (size_in_byte 1 / 2 * 2)) with 512%nat.
    assert (Ef : fetch_bytes 512 buf (0 * 512) = Ok x).
    { rewrite <- Hlx at 1. rewrite <- (take_drop 512 buf). exact (fetch_bytes_ok x [] (drop 512 buf)). }
    rewrite (bind_lift _ _ _ _ Ef). unfold reg_data, outsw, modify. cbn [channel dev].
    rewrite (co_base _ Hc2), Z.add_0_r, u16_small by (pose proof (co_range _ Hc); lia). done. }
  assert (Ec : set_chan_lock false c3 = c).
  { unfold c3, c2, c1. destruct c; cbn in *. destruct Hc as [_ _ _ Hz]. cbn in Hz. by subst. }
  exists d7. split; [|split].
  - erewrite bindM_ok by (rewrite (bindM_ok _ _ _ _ _ E1); exact Er).
    rewrite bind_modify. cbn [channel dev]. by rewrite Ec.
  - intros n l. rewrite M7, M6. case_bool_decide; [done|]. by rewrite M5, M4, M3, M2, M1.
  - split; cbn [channel dev]; try done. exists r6. by rewrite P7.
Qed.
End ata.

(** ** Properties *)

Section refinement.
Context {D : Type} `{Ports D} {base : Z} `{!Ata D base} {B : Type} `{BlockDevice B}.

(** The slave disk holds the sectors of [bd]. *)
Definition holds (bd : B) (s : ide D) : Prop :=
  @ready D _ base _ s /\ forall lba, 0 <= lba <= max_lba -> media (dev s) 1 lba = dread bd lba.

(** C21. The driver implements the block device the file system is proved over: with
    an ATA controller, [sys_read_disk] returns the sector and changes nothing,
    [sys_write_disk] stores the buffer in exactly that sector of exactly that
    disk; both return with the channel free and the controller idle, and no
    assertion fails.  A sector beyond the limit of the driver stops the kernel. *)
Theorem sys_disk_implements_device (s : ide D) (bd : B) (buf : list Z) (secID : Z) :
  holds bd s -> 0 <= secID < 4294967296 -> 512 <= zlen buf -> bytes (take 512 buf) ->
  (secID <= max_lba ->
     (exists s', sys_read_disk buf secID true s = Ok (Done (dread bd secID ++ drop 512 buf), s') /\ holds bd s') /\
     (exists s', sys_write_disk buf secID true s = Ok (Done tt, s') /\
        holds (dwrite bd secID (take 512 buf)) s' /\
        forall lba, media (dev s') 0 lba = media (dev s) 0 lba)) /\
  (max_lba < secID -> sys_read_disk buf secID true s = Err Panic /\ sys_write_disk buf secID true s = Err Panic).
Proof.
  intros [Hr Hm] Hs Hb Hby. unfold sys_read_disk, sys_write_disk. rewrite u32_small by lia. split.
  - intros Hl. split.
    + destruct (ide_read_ok s sdb secID buf Hr ltac:(lia) (or_intror eq_refl) Hb) as (d' & E & Em & Hr').
      change (dev_no sdb) with 1 in E. eexists. split; [rewrite E, (Hm secID) by lia; reflexivity|]. split; [exact Hr'|].
      intros lba Hlba. cbn [dev]. rewrite Em. by apply Hm.
    + destruct (ide_write_ok s sdb secID buf Hr ltac:(lia) (or_intror eq_refl) Hb Hby) as (d' & E & Em & Hr').
      eexists. split; [exact E|]. split; [split; [exact Hr'|]|].
      * intros lba Hlba. cbn [dev]. rewrite Em. change (dev_no sdb) with 1. case_bool_decide as Hd.
        { destruct Hd as [_ ->]. by rewrite dread_eq. }
        rewrite dread_ne by (intros ->; by apply Hd). by apply Hm.
      * intros lba. cbn [dev]. rewrite Em. by rewrite bool_decide_eq_false_2 by (intros []; done).
  - intros Hl. split; apply bind_assert_panic; apply Z.leb_gt; lia.
Qed.
End refinement.

Section gives_up.
Context {D : Type} `{Ports D}.

(** One poll of a controller that is busy. *)
Definition poll (p : Z) (d : D) : D := p_elapse 10 (snd (p_inb p d)).

Lemma busy_wait_loop_busy n : forall s p, u16 (reg_status (channel s)) = p ->
  (forall i, (i < n)%nat -> Z.land (u8 (fst (p_inb p (Nat.iter i (poll p) (dev s))))) BIT_STAT_BSY <> 0) ->
  busy_wait_loop (S n) s = Ok (false, mk_ide (channel s) (Nat.iter n (poll p) (dev s))).
Proof.
  induction n as [|n IH]; intros [c d] p Hp Hbusy; [done|]. cbn [channel dev] in *.
  change (busy_wait_loop (S (S n)) (mk_ide c d)) with
    ((s ← inb (reg_status c);
      if Z.land s BIT_STAT_BSY =? 0 then s ← inb (reg_status c); mret (negb (Z.land s BIT_STAT_DRQ =? 0))
      else _ ← sleep 10; busy_wait_loop (S n)) (mk_ide c d)).
  assert (E : inb (reg_status c) (mk_ide c d) = Ok (u8 (fst (p_inb p d)), mk_ide c (snd (p_inb p d))))
    by (unfold inb; cbn [dev channel]; rewrite Hp; by destruct (p_inb p d)).
  pose proof (Hbusy O ltac:(lia)) as H0. change (Nat.iter 0 (poll p) d) with d in H0.
  rewrite (bindM_ok _ _ _ _ _ E), (proj2 (Z.eqb_neq _ _) H0). unfold sleep. rewrite bind_modify.
  cbn [channel dev]. rewrite (IH (mk_ide c (p_elapse 10 (snd (p_inb p d)))) p Hp).
  { cbn [channel dev]. by rewrite Nat.iter_succ_r. }
  intros i Hi. specialize (Hbusy (S i) ltac:(lia)). by rewrite Nat.iter_succ_r in Hbusy.
Qed.

(** [busy_wait] returns even if the controller never becomes ready: it reports the
    failure after 29999 polls with 10 ms between them, five minutes where the
    comment says thirty seconds. *)
Theorem busy_wait_gives_up (s : ide D) (p : Z) : u16 (reg_status (channel s)) = p ->
  (forall i, (i < Z.to_nat 29999)%nat ->
     Z.land (u8 (fst (p_inb p (Nat.iter i (poll p) (dev s))))) BIT_STAT_BSY <> 0) ->
  busy_wait s = Ok (false, mk_ide (channel s) (Nat.iter (Z.to_nat 29999) (poll p) (dev s))).
Proof.
  intros Hp Hb. unfold busy_wait. replace (Z.to_nat (u16 (30 * 1000))) with (S (Z.to_nat 29999)).
  - by apply busy_wait_loop_busy.
  - rewrite u16_small, <- Z2Nat.inj_succ by lia. reflexivity.
Qed.
End gives_up.

(** ** A controller *)

Module AtaModel.

Record controller := mk_controller { sectors : gmap (Z * Z) (list Z); doing : phase }.

Definition sector_bytes (b : list Z) : bool :=
  (length b =? 512)%nat && forallb (fun x => (0 <=? x) && (x <? 256)) b.

Definition sector_at (d : controller) (n lba : Z) : list Z :=
  let b := default zero_sector (sectors d !! (n, lba)) in
  if sector_bytes b then b else zero_sector.

Definition set_reg (i x : Z) (r : regs) : regs :=
  mk_regs (if i =? 2 then x else r_cnt r) (if i =? 3 then x else r_l r)
    (if i =? 4 then x else r_m r) (if i =? 5 then x else r_h r) (if i =? 6 then x else r_dev r).

Definition command (x : Z) (r : regs) : phase :=
  let t := mk_target (drive_of r) (lba_of r) in
  if x =? 0x20 then Seeking t else if x =? 0x30 then Accepting t 15 else Idle r.

Definition no_regs : regs := mk_regs 0 0 0 0 0.

#[export] Instance ports : Ports controller := {
  p_outb port x d :=
    match doing d with
    | Idle r => mk_controller (sectors d) (if port =? 0x1f7 then command x r else Idle (set_reg (port - 0x1f0) x r))
    | _ => d
    end;
  p_inb port d :=
    (match doing d with
     | DataIn _ => 0x48 | Accepting _ w => if 0 <? w then 0x80 else 0x48 | _ => 0x40 end, d);
  p_insw port n d :=
    match doing d with
    | DataIn t => (sector_at d (t_drive t) (t_lba t), mk_controller (sectors d) (Idle no_regs))
    | _ => ([], d)
    end;
  p_outsw port x d :=
    match doing d with
    | Accepting t w => mk_controller (sectors d) (Storing t x)
    | _ => d
    end;
  p_elapse ms d :=
    match doing d with
    | Accepting t w => mk_controller (sectors d) (Accepting t (w - ms))
    | _ => d
    end;
  p_intr d :=
    match doing d with
    | Seeking t => Some (mk_controller (sectors d) (DataIn t))
    | Storing t x => Some (mk_controller (<[(t_drive t, t_lba t) := x]> (sectors d)) (Idle no_regs))
    | _ => None
    end }.

Lemma sector_bytes_ok b : sector_bytes b = true <-> sector b.
Proof.
  unfold sector_bytes, sector, bytes. rewrite andb_true_iff, Nat.eqb_eq, forallb_forall, Forall_forall.
  split; intros [Hl Hb]; (split; [exact Hl|]); intros x Hx.
  - apply list_elem_of_In, Hb in Hx. bool_prop. by split.
  - apply list_elem_of_In, Hb in Hx. unfold is_byte in Hx. apply andb_true_iff. rewrite Z.leb_le, Z.ltb_lt. lia.
Qed.

#[export] Instance ata : Ata controller 0x1f0.
Proof.
  refine {| media := sector_at; phase_of := doing |}.
  - intros d n lba. unfold sector_at. destruct (sector_bytes _) eqn:E; [by apply sector_bytes_ok|apply zero_sector_ok].
  - intros d r x i Hp Hx Hi. cbn. rewrite Hp. cbn. rewrite (proj2 (Z.eqb_neq _ _)) by lia.
    unfold set_reg. replace (0x1f0 + i - 0x1f0) with i by lia. by split.
  - intros d r Hp H1 H6. cbn. rewrite Hp. by split.
  - intros d r Hp H1 H6. cbn. rewrite Hp. split; [done|]. exists 15. split; [lia|done].
  - intros d t Hp. cbn. rewrite Hp. eexists. by split.
  - intros d t x Hp Hx. cbn. rewrite Hp. eexists. exists no_regs. split; [done|]. split; [done|].
    intros n lba. unfold sector_at. cbn [sectors]. case_bool_decide as E.
    + destruct E as [-> ->]. rewrite lookup_insert_eq. change (default zero_sector (Some x)) with x.
      by rewrite (proj2 (sector_bytes_ok x) Hx).
    + rewrite lookup_insert_ne; [done|]. intros [= <- <-]. by apply E.
  - intros d. cbn. destruct (doing d) as [| | |t w|] eqn:E; (split; [unfold is_byte; try lia|split; [done|split; [done|]]]); try done.
    + destruct (0 <? w); lia.
    + by destruct (0 <? w).
  - intros d t w ms Hp Hms. cbn. by rewrite Hp.
  - intros d t Hp. cbn. rewrite Hp. split; [done|]. split; [done|]. by exists no_regs.
  - intros d t w x Hp Hw Hx. cbn. by rewrite Hp.
Defined.

Definition demo : ide controller :=
  mk_ide (mk_channel 0x1f0 0x2e false false 0) (mk_controller ∅ (Idle no_regs)).

Lemma demo_holds : @holds controller ports 0x1f0 ata (gmap Z (list Z)) _ ∅ demo.
Proof. split; [split; cbn; try done; [split; cbn; by auto|by exists no_regs]|]. by intros lba _. Qed.
End AtaModel.
Import AtaModel.

Lemma sys_disk_implements_device_witness :
  exists s', sys_write_disk (replicate 512 7) 33 true AtaModel.demo = Ok (Done tt, s') /\
    media (dev s') 1 33 = replicate 512 7 /\ media (dev s') 1 34 = zero_sector.
Proof.
  destruct (sys_disk_implements_device AtaModel.demo (∅ : gmap Z (list Z)) (replicate 512 7) 33 AtaModel.demo_holds)
    as [H _].
  - lia.
  - vm_compute. discriminate.
  - apply Forall_take, Forall_replicate. unfold is_byte. lia.
  - destruct H as [_ (s' & E & [_ Hm] & _)]; [vm_compute; discriminate|].
    exists s'. split; [exact E|]. split.
    + rewrite Hm by (split; vm_compute; discriminate). rewrite dread_eq. reflexivity.
    + rewrite Hm by (split; vm_compute; discriminate). rewrite dread_ne by lia. reflexivity.
Defined.

(** A controller that never finishes its command. *)
Definition stuck (w : Z) : AtaModel.controller :=
  AtaModel.mk_controller ∅ (Accepting (mk_target 0 0) w).

Lemma stuck_polls i w : Nat.iter i (poll 0x177) (stuck w) = stuck (w - 10 * Z.of_nat i).
Proof.
  induction i as [|i IH]; [by rewrite Z.sub_0_r|]. rewrite Nat.iter_succ, IH.
  unfold stuck, poll. cbn [p_inb p_elapse AtaModel.ports AtaModel.doing AtaModel.sectors snd]. do 2 f_equal. lia.
Qed.

Lemma busy_wait_gives_up_witness :
  busy_wait (mk_ide (mk_channel 0x170 0x2f false false 0) (stuck 1000000))
    = Ok (false, mk_ide (mk_channel 0x170 0x2f false false 0) (stuck 700010)).
Proof.
  rewrite (busy_wait_gives_up (mk_ide (mk_channel 0x170 0x2f false false 0) (stuck 1000000)) 0x177).
  - cbn [dev channel]. rewrite stuck_polls, Z2Nat.id by lia. reflexivity.
  - reflexivity.
  - intros i Hi. cbn [dev]. rewrite stuck_polls. cbn [p_inb AtaModel.ports AtaModel.doing stuck fst].
    rewrite (proj2 (Z.ltb_lt _ _)) by lia. discriminate.
Defined.
