(* ===== verification/Process.v ===== *)
(** * Process: creating threads and processes (thread/thread.c, userprog/process.c)

    A PCB is the record at its address in [pcbs]; the kernel stack in the same
    page is words of memory, reached through the page tables as every other
    address.  The stack frames [thread_create] and [start_process] build are
    at fixed offsets of [struct intr_stack] and [struct thread_stack].

    The functions that take pages or a process number may find a lock taken;
    [⇐] sequences them: what is left of a call that is suspended is not part
    of its result.  Addresses of functions are arguments. *)

From S2P Require Import Prelude CString Interrupt Lists Bitmap Kernel Paging Thread Sync IoQueue Memory DataPages Heap Tss Pid.

Definition obind {S A B} (m : M S (outcome A)) (f : A -> M S (outcome B)) : M S (outcome B) :=
  r ← m;
  match r with
  | Done a => f a
  | WaitsLock old => mret (WaitsLock old)
  | Waits => mret Waits
  end.
Notation "x ⇐ m ; f" := (obind m (fun x => f)) (at level 20, m at level 100, f at level 200, only parsing) : gw_scope.
Open Scope gw_scope.

Lemma obind_done {S A B} (m : M S (outcome A)) (f : A -> M S (outcome B)) s a s' :
  m s = Ok (Done a, s') -> obind m f s = f a s'.
Proof. intros E. unfold obind. by rewrite (bindM_ok _ _ _ _ _ E). Qed.

Lemma obind_err {S A B} (m : M S (outcome A)) (f : A -> M S (outcome B)) s e :
  m s = Err e -> obind m f s = Err e.
Proof. intros E. unfold obind. by apply bindM_err. Qed.

(** ** Stack frames *)

Definition sizeof_intr_stack : Z := 76.
Definition sizeof_thread_stack : Z := 32.

(** Offsets of the fields of [struct thread_stack]. *)
Definition ts_ebp : Z := 0.
Definition ts_ebx : Z := 4.
Definition ts_edi : Z := 8.
Definition ts_esi : Z := 12.
Definition ts_eip : Z := 16.
Definition ts_func : Z := 24.
Definition ts_func_arg : Z := 28.

(** Offsets of the fields of [struct intr_stack]. *)
Definition is_edi : Z := 4.
Definition is_esi : Z := 8.
Definition is_ebp : Z := 12.
Definition is_esp_dummy : Z := 16.
Definition is_ebx : Z := 20.
Definition is_edx : Z := 24.
Definition is_ecx : Z := 28.
Definition is_eax : Z := 32.
Definition is_gs : Z := 36.
Definition is_fs : Z := 40.
Definition is_es : Z := 44.
Definition is_ds : Z := 48.
Definition is_eip : Z := 56.
Definition is_cs : Z := 60.
Definition is_eflags : Z := 64.
Definition is_esp : Z := 68.
Definition is_ss : Z := 72.

(** Stores to fields of the object at [a]. *)
Fixpoint vstores (a : Z) (l : list (Z * Z)) : M kernel unit :=
  match l with
  | [] => mret tt
  | (off, x) :: l' => _ ← vstore (a + off) x; vstores a l'
  end.

(** [memcpy(dst, src, 4 * n)] on words. *)
Fixpoint vcopy (n : nat) (dst src : Z) : M kernel unit :=
  match n with
  | O => mret tt
  | S n' => x ← vload src; _ ← vstore dst x; vcopy n' (dst + 4) (src + 4)
  end.

(** ** PCBs *)

Definition STACK_MAGIC : Z := 0x12345678.

(** A PCB all of whose bytes are 0. *)
Definition zero_pcb : pcb :=
  mk_pcb 0 0 TASK_RUNNING (replicate 16 0) 0 0 0 NULL (mk_vaddr (mk_bitmap 0 []) NULL) NULL 0 0 0.

(** The list nodes inside a PCB: its two nodes and the ends of the free lists
    of its block descriptors. *)
Definition user_free_list (thread i : Z) : Z := desc_ptr (user_block_descs thread) i + 8.
Definition pcb_nodes (thread : Z) : list Z :=
  [general_node thread; all_list_node thread] ++
  flat_map (fun i => [head_of (user_free_list thread i); tail_of (user_free_list thread i)]) (seqZ 0 7).

Fixpoint zero_links (nodes : list Z) : M mach unit :=
  match nodes with
  | [] => mret tt
  | n :: nodes' => _ ← wr_prev n NULL; _ ← wr_next n NULL; zero_links nodes'
  end.

(** The block descriptors of a PCB, from [i] on. *)
Fixpoint put_descs (thread i : Z) (l : list mem_block_desc) : M heap unit :=
  match l with
  | [] => mret tt
  | d :: l' =>
      _ ← modify (fun h => mk_heap (hk h) (arenas h) (<[desc_ptr (user_block_descs thread) i := d]> (block_descs h)));
      put_descs thread (i + 1) l'
  end.

(** [memset(thread, 0, sizeof( *thread))]. *)
Definition clear_pcb (thread : Z) : M heap unit :=
  if thread =? NULL then fail Fault
  else
    _ ← on_k (put_pcb thread zero_pcb);
    _ ← on_k (on_mach (zero_links (pcb_nodes thread)));
    put_descs thread 0 (map (fun i => mk_desc 0 0 (user_free_list thread i)) (seqZ 0 7)).

Section creation.
(** The locks of the two pools and of the pool of process numbers; the entry
    points of code the C code only names. *)
Context (pool_lock : pool_flag -> Z) (pid_lock : Z).
Context (kernel_thread start_process_addr idle_addr init_addr : Z).

Definition init_thread (thread : Z) (name : list Z) (priority : Z) : M heap (outcome unit) :=
  _ ← clear_pcb thread;
  _ ← on_k (upd_pcb thread (set_self_kstack (u32 (thread + PG_SIZE))));
  new_pid ⇐ on_k (alloc_pid pid_lock);
  main ← on_k (gets (fun k => main_thread (kth k)));
  p ← on_k (get_pcb thread);
  nm ← lift (strcpy (Kernel.name p) 0 name 0);
  _ ← on_k (put_pcb thread (mk_pcb (self_kstack p) new_pid
        (if thread =? main then TASK_RUNNING else TASK_READY) nm (u8 priority) (u8 priority) 0
        NULL (userprog_vaddr p) (vaddr_bits p) (-1) (exit_status p) STACK_MAGIC));
  mret (Done tt).

(** [self_kstack] points to words, so the sizes are counted in words. *)
Definition thread_create (thread func func_arg : Z) : M kernel unit :=
  _ ← upd_pcb thread (fun p => set_self_kstack (u32 (self_kstack p - 4 * sizeof_intr_stack)) p);
  _ ← upd_pcb thread (fun p => set_self_kstack (u32 (self_kstack p - 4 * sizeof_thread_stack)) p);
  p ← get_pcb thread;
  vstores (self_kstack p)
    [(ts_eip, kernel_thread); (ts_func, func); (ts_func_arg, func_arg);
     (ts_ebp, 0); (ts_ebx, 0); (ts_esi, 0); (ts_edi, 0)].

(** The assertions and the two [list_append] with which a new thread enters
    the lists. *)
Definition enter_lists (thread : Z) : M kernel unit :=
  R ← gets (fun k => thread_ready_list (kth k));
  A ← gets (fun k => thread_all_list (kth k));
  f ← on_mach (node_find R (general_node thread));
  _ ← ASSERTM (negb f);
  f ← on_mach (node_find A (all_list_node thread));
  _ ← ASSERTM (negb f);
  _ ← on_mach (list_append R (general_node thread));
  on_mach (list_append A (all_list_node thread)).

Definition thread_start (name : list Z) (priority func func_arg : Z) : M heap (outcome Z) :=
  thread ⇐ on_k (get_kernel_pages pool_lock 1);
  _ ⇐ init_thread thread name priority;
  _ ← on_k (thread_create thread func func_arg);
  _ ← on_k (enter_lists thread);
  mret (Done thread).

Definition set_main_thread (x : Z) (k : kernel) : kernel :=
  let t := kth k in
  set_kth (mk_threads (pcbs t) (thread_ready_list t) (thread_all_list t) x
    (idle_thread t) (pid_bitmap t) (pid_start t)) k.
Definition set_idle_thread (x : Z) (k : kernel) : kernel :=
  let t := kth k in
  set_kth (mk_threads (pcbs t) (thread_ready_list t) (thread_all_list t) (main_thread t)
    x (pid_bitmap t) (pid_start t)) k.

Definition make_main_thread : M heap (outcome unit) :=
  now ← on_k running_thread;
  _ ← on_k (modify (set_main_thread now));
  _ ⇐ init_thread now [109; 97; 105; 110; 0] 31;
  A ← on_k (gets (fun k => thread_all_list (kth k)));
  f ← on_k (on_mach (node_find A (all_list_node now)));
  _ ← ASSERTM (negb f);
  _ ← on_k (on_mach (list_append A (all_list_node now)));
  mret (Done tt).

(** ** User processes *)

Definition USER_STACK3_VADDR : Z := 0xc0000000 - 0x1000.
Definition USER_VADDR_START : Z := 0x8048000.
Definition default_priority : Z := 31.

(** The message printed when there is no page is not part of the state. *)
Definition create_page_dir : M kernel (outcome Z) :=
  page_dir_vaddr ⇐ get_kernel_pages pool_lock 1;
  if page_dir_vaddr =? NULL then mret (Done NULL)
  else
    _ ← vcopy 256 (u32 (page_dir_vaddr + 0x300 * 4)) (0xfffff000 + 0x300 * 4);
    new_page_dir_phy_addr ← addr_vir2phy page_dir_vaddr;
    _ ← vstore (page_dir_vaddr + 4 * 1023) (entry_of new_page_dir_phy_addr);
    mret (Done page_dir_vaddr).

(** The length in bytes of the bitmap of a process, and the pages it takes. *)
Definition user_bitmap_len : Z := (0xc0000000 - USER_VADDR_START) / PG_SIZE / 8.
Definition user_bitmap_pages : Z := DIV_ROUND_UP user_bitmap_len PG_SIZE.

(** The bytes [get_kernel_pages] hands out are 0; the array is the part of the
    pages the bitmap is made of. *)
Definition create_user_vaddr_bitmap (user_prog : Z) : M kernel (outcome unit) :=
  bits ⇐ get_kernel_pages pool_lock user_bitmap_pages;
  if bits =? NULL then fail Fault
  else
    mp ← lift (bitmap_init (mk_bitmap user_bitmap_len (replicate (Z.to_nat user_bitmap_len) 0)));
    _ ← upd_pcb user_prog (set_vaddr_bits bits);
    _ ← upd_pcb user_prog (set_userprog_vaddr (mk_vaddr mp USER_VADDR_START));
    mret (Done tt).

Definition init_user_descs (thread : Z) : M heap unit :=
  l ← on_k (on_mach (block_desc_init (user_block_descs thread)));
  put_descs thread 0 l.

Definition process_execute (proc : Z) (name : list Z) : M heap (outcome unit) :=
  thread ⇐ on_k (get_kernel_pages pool_lock 1);
  _ ← ASSERTM (negb (thread =? NULL));
  _ ⇐ init_thread thread name default_priority;
  _ ⇐ on_k (create_user_vaddr_bitmap thread);
  _ ← on_k (thread_create thread start_process_addr proc);
  page_dir ⇐ on_k create_page_dir;
  _ ← on_k (upd_pcb thread (set_pg_dir page_dir));
  _ ← init_user_descs thread;
  old_status ← on_k (on_mach intr_disable);
  _ ← on_k (enter_lists thread);
  _ ← on_k (on_mach (intr_set_status old_status));
  mret (Done tt).

Definition EFLAGS_MBS : Z := Z.shiftl 1 1.
Definition EFLAGS_IF_1 : Z := Z.shiftl 1 9.
Definition EFLAGS_IOPL_0 : Z := Z.shiftl 0 12.

(** Run by the new process; the result is the frame [intr_exit] returns
    through. *)
Definition start_process (proc : Z) : M kernel (outcome Z) :=
  now ← running_thread;
  _ ← upd_pcb now (fun p => set_self_kstack (u32 (self_kstack p + 4 * sizeof_thread_stack)) p);
  p ← get_pcb now;
  let proc_stack := self_kstack p in
  _ ← vstores proc_stack
    [(is_esp_dummy, 0); (is_ebp, 0); (is_esi, 0); (is_edi, 0);
     (is_eax, 0); (is_ecx, 0); (is_edx, 0); (is_ebx, 0); (is_gs, 0);
     (is_fs, SELECTOR_USER_DATA); (is_es, SELECTOR_USER_DATA); (is_ds, SELECTOR_USER_DATA);
     (is_eip, proc); (is_cs, SELECTOR_USER_CODE);
     (is_eflags, Z.lor (Z.lor EFLAGS_IOPL_0 EFLAGS_MBS) EFLAGS_IF_1)];
  page ⇐ get_one_page pool_lock PF_USER USER_STACK3_VADDR;
  _ ← vstores proc_stack [(is_esp, u32 (page + PG_SIZE)); (is_ss, SELECTOR_USER_DATA)];
  mret (Done proc_stack).

(** ** The idle thread and the start of the system *)

(** One round of [idle]: up to its [thread_block], and after it. *)
Definition idle : M kernel intr_status := thread_block TASK_BLOCKED.
Definition idle_again (old_status : intr_status) : M kernel unit :=
  _ ← resume old_status;
  on_mach sti.

(** [pid_bitmap_bits] is the static array. *)
Definition thread_init (pid_bitmap_bits : list Z) : M heap (outcome unit) :=
  R ← on_k (gets (fun k => thread_ready_list (kth k)));
  A ← on_k (gets (fun k => thread_all_list (kth k)));
  _ ← on_k (on_mach (list_init R));
  _ ← on_k (on_mach (list_init A));
  _ ← on_k (pid_pool_init pid_lock pid_bitmap_bits);
  _ ⇐ process_execute init_addr [105; 110; 105; 116; 0];
  _ ⇐ make_main_thread;
  t ⇐ thread_start [105; 100; 108; 101; 0] 10 idle_addr NULL;
  _ ← on_k (modify (set_idle_thread t));
  mret (Done tt).
End creation.
