(* ===== verification/Partition.v ===== *)
(** * Partition: identifying disks and scanning partition tables (device/ide.c)

    [ide_init] prepares the channels, asks each disk for its parameters and
    reads the partition tables of the slave disks.  The state has the two
    channels with their controllers, the disks, the heap that lends the buffers
    and the list of all partitions.  [list_append] puts a partition at the end
    of that list (Lists).  [kprintf] formats its message into a local array and
    prints nothing. *)

From Stdlib Require Import String.
From S2P Require Import Prelude CString Stdio Names BlockDev Disk Interrupt Lists Bitmap Kernel Paging Thread Sync IoQueue Memory DataPages Heap HeapOk Malloc Process Ide.
Open Scope gw_scope.

(** ** Data *)

Record partition := mk_part { start_lba : Z; sec_cnt : Z; part_name : list Z }.

Record hdisk := mk_hdisk { disk_name : list Z; prim_parts : list partition; logic_parts : list partition }.

(** The tag of a partition in [partition_list]. *)
Inductive tag := Prim (hd i : Z) | Logic (hd i : Z).

Record disks (D : Type) := mk_disks {
  channels : list (ide D);
  channel_names : list (list Z);
  devices : list hdisk;                 (* two for each channel *)
  alloc : heap;
  ext_lba_base : Z;
  p_no : Z;
  l_no : Z;
  channel_cnt : Z;
  partition_list : list tag;
  handlers : list Z }.
Arguments mk_disks {D}.
Arguments channels {D}.
Arguments channel_names {D}.
Arguments devices {D}.
Arguments alloc {D}.
Arguments ext_lba_base {D}.
Arguments p_no {D}.
Arguments l_no {D}.
Arguments channel_cnt {D}.
Arguments partition_list {D}.
Arguments handlers {D}.

Section scan.
Context {D : Type} `{Ports D}.
Context (pool_lock : pool_flag -> Z) (kernel_block_descs : Z).

Definition on_chan {A} (ch : Z) (m : M (ide D) A) : M (disks D) A := fun s =>
  match channels s !! Z.to_nat ch with
  | Some c => match m c with
              | Ok (a, c') => Ok (a, mk_disks (<[Z.to_nat ch := c']> (channels s)) (channel_names s) (devices s) (alloc s)
                  (ext_lba_base s) (p_no s) (l_no s) (channel_cnt s) (partition_list s) (handlers s))
              | Err e => Err e
              end
  | None => Err Fault
  end.
Definition on_alloc {A} (m : M heap A) : M (disks D) A := fun s =>
  match m (alloc s) with
  | Ok (a, h) => Ok (a, mk_disks (channels s) (channel_names s) (devices s) h (ext_lba_base s) (p_no s) (l_no s)
      (channel_cnt s) (partition_list s) (handlers s))
  | Err e => Err e
  end.

Definition set_ext (x : Z) (s : disks D) : disks D := mk_disks (channels s) (channel_names s) (devices s) (alloc s) x (p_no s)
  (l_no s) (channel_cnt s) (partition_list s) (handlers s).
Definition set_nos (p l : Z) (s : disks D) : disks D := mk_disks (channels s) (channel_names s) (devices s) (alloc s) (ext_lba_base s) p
  l (channel_cnt s) (partition_list s) (handlers s).
Definition set_devices (x : list hdisk) (s : disks D) : disks D := mk_disks (channels s) (channel_names s) x (alloc s)
  (ext_lba_base s) (p_no s) (l_no s) (channel_cnt s) (partition_list s) (handlers s).
Definition set_list (x : list tag) (s : disks D) : disks D := mk_disks (channels s) (channel_names s) (devices s) (alloc s)
  (ext_lba_base s) (p_no s) (l_no s) (channel_cnt s) x (handlers s).

(** A disk is named by its index [hd]: two to a channel. *)
Definition channel_of (hd : Z) : Z := hd / 2.
Definition dev_of (hd : Z) : disk := mk_disk (hd mod 2).

Definition get_disk (hd : Z) : M (disks D) hdisk := fun s =>
  match devices s !! Z.to_nat hd with Some d => Ok (d, s) | None => Err Fault end.
Definition put_disk (hd : Z) (d : hdisk) : M (disks D) unit :=
  modify (fun s => set_devices (<[Z.to_nat hd := d]> (devices s)) s).

(** An element of one of the two arrays of a disk. *)
Definition put_part (l : list partition) (i : Z) (p : partition) : res (list partition) :=
  if (0 <=? i) && (i <? zlen l) then Ok (<[Z.to_nat i := p]> l) else Err Fault.
Definition get_part (l : list partition) (i : Z) : res partition :=
  match l !! Z.to_nat i with Some p => Ok p | None => Err Fault end.

Definition kprintf (format : list Z) (args : list arg) : M (disks D) unit :=
  _ ← lift (vsprintf (replicate 1024 0) format args); mret tt.

Definition CMD_IDENTIFY : Z := 0xec.

(** A failure prints into a local array and panics. *)
Definition identify_disk (hd : Z) : M (disks D) unit :=
  _ ← on_chan (channel_of hd) (select_disk (dev_of hd));
  _ ← on_chan (channel_of hd) (cmd_out CMD_IDENTIFY);
  _ ← on_chan (channel_of hd) down_disk_done;
  ok ← on_chan (channel_of hd) busy_wait;
  _ ← ASSERTM ok;
  id_info ← on_chan (channel_of hd) (read_from_sector (replicate 512 0) 0 1);
  d ← get_disk hd;
  buf ← lift (swap_pairs_bytes id_info 20 (replicate 64 0) 20);
  _ ← kprintf (lit "   disk %s info:" ++ [10] ++ lit "      SN: %s" ++ [10; 0]) [AStr (disk_name d) 0; AStr buf 0];
  buf ← lift (swap_pairs_bytes id_info 54 (replicate 64 0) 40);
  _ ← kprintf (lit "      MODULE: %s" ++ [10; 0]) [AStr buf 0];
  sectors ← lift (get_u32 id_info 120);
  _ ← kprintf (lit "      SECTORS: %d" ++ [10; 0]) [AInt sectors];
  kprintf (lit "      CAPACITY: %dMB" ++ [10; 0]) [AInt (u32 (sectors * 512) / 1024 / 1024)].

(** The partition of entry [p] becomes the next primary or logical one. *)
Definition add_primary (hd ext_lba start cnt : Z) : M (disks D) unit :=
  s ← get;
  d ← get_disk hd;
  old ← lift (get_part (prim_parts d) (p_no s));
  '(nm, _) ← lift (sprintf (part_name old) (lit "%s%d" ++ [0]) [AStr (disk_name d) 0; AInt (p_no s + 1)]);
  l ← lift (put_part (prim_parts d) (p_no s) (mk_part (u32 (ext_lba + start)) cnt nm));
  _ ← put_disk hd (mk_hdisk (disk_name d) l (logic_parts d));
  _ ← modify (fun s => set_list (partition_list s ++ [Prim hd (p_no s)]) s);
  _ ← modify (fun s => set_nos (u8 (p_no s + 1)) (l_no s) s);
  s ← get;
  ASSERTM (p_no s <? 4).

Definition add_logical (hd ext_lba start cnt : Z) : M (disks D) unit :=
  s ← get;
  d ← get_disk hd;
  old ← lift (get_part (logic_parts d) (l_no s));
  '(nm, _) ← lift (sprintf (part_name old) (lit "%s%d" ++ [0]) [AStr (disk_name d) 0; AInt (l_no s + 5)]);
  l ← lift (put_part (logic_parts d) (l_no s) (mk_part (u32 (ext_lba + start)) cnt nm));
  _ ← put_disk hd (mk_hdisk (disk_name d) (prim_parts d) l);
  _ ← modify (fun s => set_list (partition_list s ++ [Logic hd (l_no s)]) s);
  modify (fun s => set_nos (p_no s) (u8 (l_no s + 1)) s).

(** The four entries of the table in [bs], from entry [i] on; [scan] is the
    recursive call.  The result tells whether the loop ran to its end. *)
Section entries.
Context (scan : Z -> M (disks D) (outcome unit)) (hd ext_lba : Z) (bs : list Z).

Fixpoint scan_entries (n : nat) (i : Z) : M (disks D) (outcome bool) :=
  match n with
  | O => mret (Done true)
  | S n' =>
      let p := 446 + 16 * i in
      fs_type ← lift (aget bs (p + 4));
      start ← lift (get_u32 bs (p + 8));
      cnt ← lift (get_u32 bs (p + 12));
      if fs_type =? 5 then
        b ← gets ext_lba_base;
        if negb (b =? 0) then _ ⇐ scan (u32 (start + b)); scan_entries n' (i + 1)
        else _ ← modify (set_ext (i32 start)); _ ⇐ scan start; scan_entries n' (i + 1)
      else if negb (fs_type =? 0) then
        if ext_lba =? 0 then _ ← add_primary hd ext_lba start cnt; scan_entries n' (i + 1)
        else
          _ ← add_logical hd ext_lba start cnt;
          s ← get;
          if 8 <=? l_no s then mret (Done false) else scan_entries n' (i + 1)
      else scan_entries n' (i + 1)
  end.
End entries.

(** [bs] is the buffer the heap lends; a table without a partition behind it
    goes one level deeper for each extended partition. *)
Fixpoint partition_scan (fuel : nat) (hd ext_lba : Z) : M (disks D) (outcome unit) :=
  match fuel with
  | O => fail OutOfFuel
  | S n =>
      bs ⇐ on_alloc (sys_malloc pool_lock kernel_block_descs 512);
      table ⇐ on_chan (channel_of hd) (ide_read (dev_of hd) ext_lba (replicate 512 0) 1);
      all ⇐ scan_entries (partition_scan n hd) hd ext_lba table 4 0;
      if (all : bool) then on_alloc (sys_free pool_lock kernel_block_descs bs) else mret (Done tt)
  end.

Definition partition_info (t : tag) : M (disks D) bool :=
  p ← (match t with
       | Prim hd i => d ← get_disk hd; lift (get_part (prim_parts d) i)
       | Logic hd i => d ← get_disk hd; lift (get_part (logic_parts d) i)
       end);
  _ ← kprintf (lit "   %s start_lba:0x%x, sec_cnt:0x%x" ++ [10; 0]) [AStr (part_name p) 0; AInt (start_lba p); AInt (sec_cnt p)];
  mret false.

(** [list_traversal(&partition_list, partition_info, NULL)]. *)
Fixpoint all_partitions (l : list tag) : M (disks D) unit :=
  match l with [] => mret tt | t :: l' => found ← partition_info t; if found : bool then mret tt else all_partitions l' end.
End scan.

Section init.
Context {D : Type} `{Ports D}.
Context (pool_lock : pool_flag -> Z) (kernel_block_descs intr_hd_handler_addr : Z) (fuel : nat).

Definition chan_init (channel_no : Z) (c : ide_channel) : ide_channel :=
  let '(base, irq) := if channel_no =? 0 then (0x1f0, 0x20 + 14) else if channel_no =? 1 then (0x170, 0x20 + 15)
                      else (port_base c, irq_no c) in
  mk_channel base irq false false 0.

Definition set_channel_name (ch : Z) (nm : list Z) (s : disks D) : disks D :=
  mk_disks (channels s) (<[Z.to_nat ch := nm]> (channel_names s)) (devices s) (alloc s) (ext_lba_base s) (p_no s) (l_no s)
    (channel_cnt s) (partition_list s) (handlers s).
Definition set_handlers (x : list Z) (s : disks D) : disks D := mk_disks (channels s) (channel_names s) (devices s) (alloc s)
  (ext_lba_base s) (p_no s) (l_no s) (channel_cnt s) (partition_list s) x.
Definition set_channel_cnt (x : Z) (s : disks D) : disks D := mk_disks (channels s) (channel_names s) (devices s) (alloc s)
  (ext_lba_base s) (p_no s) (l_no s) x (partition_list s) (handlers s).

(** One of the two disks of a channel. *)
Definition disk_init (channel_no dev_no : Z) : M (disks D) (outcome unit) :=
  let hd := 2 * channel_no + dev_no in
  d ← get_disk hd;
  '(nm, _) ← lift (sprintf (disk_name d) (lit "sd%c" ++ [0]) [AInt (97 + channel_no * 2 + dev_no)]);
  _ ← put_disk hd (mk_hdisk nm (prim_parts d) (logic_parts d));
  _ ← identify_disk hd;
  _ ⇐ (if negb (dev_no =? 0) then partition_scan pool_lock kernel_block_descs fuel hd 0 else mret (Done tt));
  _ ← modify (set_nos 0 0);
  mret (Done tt).

Definition channel_init (channel_no : Z) : M (disks D) (outcome unit) :=
  s ← get;
  old ← lift (match channel_names s !! Z.to_nat channel_no with Some n => Ok n | None => Err Fault end);
  '(nm, _) ← lift (sprintf old (lit "ide%d" ++ [0]) [AInt channel_no]);
  _ ← modify (set_channel_name channel_no nm);
  _ ← on_chan channel_no (on_channel (chan_init channel_no));
  c ← on_chan channel_no (gets channel);
  t ← lift (Idt.register_handler (irq_no c) intr_hd_handler_addr (handlers s));
  _ ← modify (set_handlers t);
  _ ⇐ disk_init channel_no 0;
  disk_init channel_no 1.

Fixpoint channels_init (n : nat) (channel_no : Z) : M (disks D) (outcome unit) :=
  match n with
  | O => mret (Done tt)
  | S n' => _ ⇐ channel_init channel_no; channels_init n' (channel_no + 1)
  end.

(** [hd_cnt] is the number of disks the BIOS has left at 0x475; the loop over
    the partition table goes [fuel] levels deep at most. *)
Definition ide_init (hd_cnt : Z) : M (disks D) (outcome unit) :=
  _ ← kprintf (lit "ide_init start" ++ [10; 0]) [];
  _ ← ASSERTM (0 <? hd_cnt);
  _ ← modify (set_list []);
  let cnt := u8 (DIV_ROUND_UP hd_cnt 2) in
  _ ← modify (set_channel_cnt cnt);
  _ ⇐ channels_init (Z.to_nat cnt) 0;
  _ ← kprintf ([10] ++ lit "   all partition info" ++ [10; 0]) [];
  l ← gets partition_list;
  _ ← all_partitions l;
  _ ← kprintf (lit "ide_init done" ++ [10; 0]) [];
  mret (Done tt).
End init.

(** ** Specification: the partitions the tables describe *)

(** An entry of a table: unused, a partition, or a link to the next table. *)
Inductive slot := Nothing | Data (start cnt : Z) | Link (start : Z).

Definition word_at (b : list Z) (i : Z) : Z :=
  u32 (at_ b i + Z.shiftl (at_ b (i + 1)) 8 + Z.shiftl (at_ b (i + 2)) 16 + Z.shiftl (at_ b (i + 3)) 24).

Definition slot_of (b : list Z) (i : Z) : slot :=
  let p := 446 + 16 * i in
  if at_ b (p + 4) =? 0 then Nothing
  else if at_ b (p + 4) =? 5 then Link (word_at b (p + 8)) else Data (word_at b (p + 8)) (word_at b (p + 12)).

Definition table_of (b : list Z) : list slot := map (slot_of b) [0; 1; 2; 3].

Definition datas (l : list slot) : list (Z * Z) := flat_map (fun x => match x with Data s c => [(s, c)] | _ => [] end) l.
Definition links (l : list slot) : list Z := flat_map (fun x => match x with Link s => [s] | _ => [] end) l.

(** A table of the chain: where it is, and its partition, both as the tables
    give them: the first from the start of the extended partition, the second
    from the table. *)
Record ebr := mk_ebr { e_off : Z; e_start : Z; e_cnt : Z }.

Section layout.
Context (disk : Z -> list Z) (base : Z).

Fixpoint chain_at (l : list ebr) : Prop :=
  match l with
  | [] => False
  | e :: l' =>
      0 < base + e_off e <= max_lba /\ base + e_off e + e_start e < 4294967296 /\
      exists next, table_of (disk (base + e_off e)) = [Data (e_start e) (e_cnt e); next; Nothing; Nothing] /\
        match l' with
        | [] => next = Nothing
        | e' :: _ => next = Link (e_off e') /\ 0 <= e_off e' /\ chain_at l'
        end
  end.

(** The absolute start and the size of the logical partitions. *)
Definition logicals (l : list ebr) : list (Z * Z) := map (fun e => (base + e_off e + e_start e, e_cnt e)) l.
End layout.

(** At most three primary partitions and one extended one, with its chain. *)
Record layout_ok (disk : Z -> list Z) (base : Z) (chain : list ebr) : Prop := {
  lo_primaries : (length (datas (table_of (disk 0%Z))) <= 3)%nat;
  lo_links : links (table_of (disk 0)) = match chain with [] => [] | _ => [base] end;
  lo_chain : match chain with [] => True | e :: _ => e_off e = 0 /\ chain_at disk base chain end }.

(** The order in which the scan meets them. *)
Fixpoint met (hd : Z) (l : list slot) (p : Z) (n : nat) : list tag :=
  match l with
  | [] => []
  | Nothing :: l' => met hd l' p n
  | Data _ _ :: l' => Prim hd p :: met hd l' (p + 1) n
  | Link _ :: l' => map (fun i => Logic hd i) (seqZ 0 (Z.of_nat n)) ++ met hd l' p n
  end.

(** Partitions numbered from [i] on; a name is padded with 0 to 8 bytes. *)
Definition padded (nm : list Z) : list Z := nm ++ replicate (8 - length nm) 0.
Definition blank_part : partition := mk_part 0 0 (padded []).

Fixpoint numbered (nm : list Z) (i : Z) (l : list (Z * Z)) : list partition :=
  match l with
  | [] => []
  | (s, c) :: l' => mk_part s c (padded (nm ++ numeral 10 i)) :: numbered nm (i + 1) l'
  end.

(** An array of [n] partitions, the rest of it unused. *)
Definition array (n : nat) (nm : list Z) (i : Z) (l : list (Z * Z)) : list partition :=
  numbered nm i l ++ replicate (n - length l) blank_part.

(** ** Lemmas *)

Lemma numbered_app nm l l' : forall i, numbered nm i (l ++ l') = numbered nm i l ++ numbered nm (i + zlen l) l'.
Proof.
  induction l as [|[s c] l IH]; intros i; cbn [numbered app].
  - by rewrite Z.add_0_r.
  - rewrite IH, zlen_cons. do 3 f_equal. lia.
Qed.

Lemma length_numbered nm l : forall i, length (numbered nm i l) = length l.
Proof. induction l as [|[s c] l IH]; intros i; cbn; [done|]. by rewrite IH. Qed.

Lemma length_array n nm i l : (length l <= n)%nat -> length (array n nm i l) = n.
Proof. intros Hl. unfold array. rewrite length_app, length_numbered, length_replicate. lia. Qed.

(** The first free element of the array. *)
Lemma array_next n nm i l : (length l < n)%nat -> array n nm i l !! length l = Some blank_part.
Proof.
  intros Hl. unfold array. rewrite lookup_app_r by (rewrite length_numbered; lia).
  rewrite length_numbered, Nat.sub_diag. apply lookup_replicate_2. lia.
Qed.

Lemma array_insert n nm i l s c : (length l < n)%nat ->
  <[length l := mk_part s c (padded (nm ++ numeral 10 (i + zlen l)))]> (array n nm i l) = array n nm i (l ++ [(s, c)]).
Proof.
  intros Hl. unfold array. rewrite numbered_app, length_app. cbn [numbered length].
  replace (n - length l)%nat with (S (n - (length l + 1))) by lia. cbn [replicate].
  rewrite <- (length_numbered nm l i) at 1. rewrite insert_app_r_alt by lia. rewrite Nat.sub_diag. cbn. by rewrite <- app_assoc.
Qed.

Lemma put_part_ok n nm i l s c : (length l < n)%nat -> (n <= 8)%nat ->
  put_part (array n nm i l) (zlen l) (mk_part s c (padded (nm ++ numeral 10 (i + zlen l)))) = Ok (array n nm i (l ++ [(s, c)])).
Proof.
  intros Hl Hn. unfold put_part. pose proof (zlen_nonneg l).
  assert (Ez : zlen (array n nm i l) = Z.of_nat n) by (unfold zlen; by rewrite length_array by lia).
  rewrite Ez, (proj2 (Z.leb_le _ _)), (proj2 (Z.ltb_lt _ _)) by (unfold zlen; lia). cbn [andb].
  rewrite <- array_insert by done. do 3 f_equal. unfold zlen. lia.
Qed.

Lemma get_part_ok n nm i l : (length l < n)%nat -> get_part (array n nm i l) (zlen l) = Ok blank_part.
Proof. intros Hl. unfold get_part, zlen. by rewrite Nat2Z.id, array_next. Qed.

(** A short name. *)
Definition name_ok (nm : list Z) : Prop := (length nm <= 4)%nat /\ Forall (fun c => c <> 0) nm.

Lemma number_text i : 1 <= i <= 12 -> (length (numeral 10 i) <= 2)%nat /\ Forall (fun c => c <> 0) (numeral 10 i).
Proof.
  intros Hi. assert (Hall : forallb (fun i => (length (numeral 10 i) <=? 2)%nat && forallb (fun c => negb (c =? 0)) (numeral 10 i))
    (seqZ 1 12) = true) by (vm_compute; reflexivity).
  rewrite forallb_forall in Hall. specialize (Hall i). rewrite <- list_elem_of_In, elem_of_seqZ in Hall.
  specialize (Hall ltac:(lia)). apply andb_true_iff in Hall as [H1%Nat.leb_le H2]. split; [done|].
  apply Forall_forall. intros c Hc. rewrite forallb_forall in H2. apply list_elem_of_In, H2 in Hc. bool_prop. done.
Qed.

Lemma part_name_ok nm i : name_ok nm -> 1 <= i <= 12 ->
  sprintf (padded []) (lit "%s%d" ++ [0]) [AStr (padded nm) 0; AInt i] = Ok (padded (nm ++ numeral 10 i), zlen (nm ++ numeral 10 i)).
Proof.
  intros [Hl Hnz] Hi. destruct (number_text i Hi) as [Hl2 Hnz2]. set (out := nm ++ numeral 10 i).
  assert (Hout : (length out <= 6)%nat) by (unfold out; rewrite length_app; lia).
  assert (Hc : cstr (padded nm) 0 nm).
  { exists [], (replicate (7 - length nm) 0). split; [|done]. unfold padded. cbn [app]. f_equal.
    by replace (8 - length nm)%nat with (S (7 - length nm)) by lia. }
  replace (padded []) with (replicate (S (length out)) 0 ++ replicate (7 - length out) 0)
    by (rewrite <- replicate_add; unfold padded; cbn [app length]; f_equal; lia).
  unfold sprintf. rewrite (vsprintf_ok _ (lit "%s%d")) with (out := out).
  - do 2 f_equal. unfold padded. f_equal. by replace (8 - length out)%nat with (S (7 - length out)) by lia.
  - exists [], []. split; [done|split; [done|]]. change (lit "%s%d") with [37; 115; 37; 100].
    repeat (apply Forall_cons; split; [lia|]). by apply Forall_nil.
  - reflexivity.
  - repeat (apply Forall_cons; split); [exists nm; split; [done|unfold zlen; lia]|cbn; lia|done].
  - change (lit "%s%d") with [37; 115; 37; 100]. cbn [render Z.eqb Pos.eqb].
    rewrite (strlen_ok _ _ _ Hc), u32_small by (unfold zlen; lia). cbn [fmap option_fmap option_map]. unfold zlen. rewrite Nat2Z.id, drop_0.
    unfold padded. rewrite take_app_length. cbn. rewrite app_nil_r. done.
  - unfold out. by apply Forall_app.
  - unfold zlen. lia.
  - by rewrite length_replicate.
Qed.

(** *** The buffers *)

Section buffers.
Context (pool_lock : pool_flag -> Z) (kernel_block_descs : Z) (pf : pool_flag) (d : Z).
Abbreviation malloc := (sys_malloc pool_lock kernel_block_descs).
Abbreviation free := (sys_free pool_lock kernel_block_descs).

(** The heap is well formed, the caller may use it, and exactly the objects [P]
    are in use: address and size. *)
Definition heap_inv (h : heap) (P : Z -> Z -> Prop) : Prop :=
  exists Γ fs S va, heap_ok pf d h Γ fs S va /\ may_call pool_lock kernel_block_descs pf d h Γ /\
    forall x m, object S fs x m <-> P x m.

(** [n] requests for a sector in a row succeed, and there are frames for each. *)
Fixpoint room (n : nat) (h : heap) : Prop :=
  match n with
  | O => True
  | S n' =>
      512 < pool_size (pool_of pf (kmem (hk h))) /\
      (exists va, vspace pf (hk h) = Some va /\ 1 <= len (vaddr_bitmap va)) /\ budget pf (hk h) 1 /\
      exists b h', malloc 512 h = Ok (Done b, h') /\ b <> NULL /\ room n' h'
  end.

Definition also (P : Z -> Z -> Prop) (b m : Z) (x k : Z) : Prop := P x k \/ x = b /\ k = m.

Lemma heap_inv_iff h P Q : heap_inv h P -> (forall x m, P x m <-> Q x m) -> heap_inv h Q.
Proof. intros (Γ & fs & S & va & H1 & H2 & H3) H. exists Γ, fs, S, va. split; [done|]. split; [done|]. intros x m. by rewrite H3. Qed.

Lemma malloc_buffer n h P : heap_inv h P -> room (S n) h ->
  exists b h' m, malloc 512 h = Ok (Done b, h') /\ room n h' /\ heap_inv h' (also P b m) /\ forall k, ~ P b k.
Proof.
  intros (Γ & fs & S & va & Hok & Hc & HP) (Hsz & (va0 & Ev & Hlen) & Hbud & b & h' & E & Hb & Hroom).
  assert (va0 = va) as -> by (destruct (ho_space _ _ _ _ _ _ _ Hok) as (E' & _); congruence).
  destruct (sys_malloc_ok pool_lock kernel_block_descs pf d h Γ fs S va 512 Hok Hc) as
    [(E2 & _)|(b2 & m & h2 & Γ' & fs' & S' & va' & E2 & _ & _ & _ & Hok' & Hc' & [Hg1 Hg2] & _)].
  - unfold MAX_REQUEST, PG_SIZE, sizeof_arena. lia.
  - exact Hsz.
  - exact Hlen.
  - exact Hbud.
  - rewrite E in E2. by injection E2 as -> _.
  - rewrite E in E2. injection E2 as -> ->. exists b2, h2, m. split; [done|]. split; [done|]. split.
    + exists Γ', fs', S', va'. split; [done|]. split; [done|]. intros x k. rewrite Hg2, HP. done.
    + intros k Hk. by apply (Hg1 k), HP.
Qed.

Lemma free_buffer h P b m : heap_inv h P -> P b m ->
  exists h', free b h = Ok (Done tt, h') /\ heap_inv h' (fun x k => P x k /\ x <> b).
Proof.
  intros (Γ & fs & S & va & Hok & Hc & HP) Hb.
  destruct (sys_free_ok pool_lock kernel_block_descs pf d h Γ fs S va b m Hok Hc) as (h' & Γ' & fs' & S' & va' & E & Hok' & Hc' & Hg & _).
  { by apply HP. }
  exists h'. split; [done|]. exists Γ', fs', S', va'. split; [done|]. split; [done|]. intros x k. by rewrite Hg, HP.
Qed.
End buffers.

(** *** Reading a table *)

Lemma get_u32_word b i : 0 <= i -> i + 4 <= zlen b -> get_u32 b i = Ok (word_at b i).
Proof. intros H1 H2. unfold get_u32. 
  by rewrite (bindR_ok _ _ _ (aget_at b i ltac:(lia))), (bindR_ok _ _ _ (aget_at b (i + 1) ltac:(lia))),
    (bindR_ok _ _ _ (aget_at b (i + 2) ltac:(lia))), (bindR_ok _ _ _ (aget_at b (i + 3) ltac:(lia))).
Qed.

Lemma word_at_range b i : 0 <= word_at b i < 4294967296.
Proof. apply u32_range. Qed.

Lemma table_slots b x0 x1 x2 x3 : table_of b = [x0; x1; x2; x3] ->
  slot_of b 0 = x0 /\ slot_of b 1 = x1 /\ slot_of b 2 = x2 /\ slot_of b 3 = x3.
Proof. by intros [= -> -> -> ->]. Qed.

Section table.
Context {D : Type} `{Ports D}.
Context (scan : Z -> M (disks D) (outcome unit)) (hd ext_lba : Z) (bs : list Z) (sector_len : zlen bs = 512).

(** One round of the loop, by the kind of the entry. *)
Lemma scan_entry n i s : 0 <= i < 4 -> scan_entries scan hd ext_lba bs (S n) i s =
  match slot_of bs i with
  | Nothing => scan_entries scan hd ext_lba bs n (i + 1) s
  | Link start =>
      (b ← gets ext_lba_base;
       if negb (b =? 0) then _ ⇐ scan (u32 (start + b)); scan_entries scan hd ext_lba bs n (i + 1)
       else _ ← modify (set_ext (i32 start)); _ ⇐ scan start; scan_entries scan hd ext_lba bs n (i + 1)) s
  | Data start cnt =>
      (if ext_lba =? 0 then _ ← add_primary hd ext_lba start cnt; scan_entries scan hd ext_lba bs n (i + 1)
       else
         _ ← add_logical hd ext_lba start cnt;
         s ← get;
         if 8 <=? l_no s then mret (Done false) else scan_entries scan hd ext_lba bs n (i + 1)) s
  end.
Proof using sector_len.
  intros Hi. cbn [scan_entries]. cbv zeta.
  rewrite (bind_lift _ _ _ _ (aget_at bs (446 + 16 * i + 4) ltac:(lia))),
    (bind_lift _ _ _ _ (get_u32_word bs (446 + 16 * i + 8) ltac:(lia) ltac:(lia))),
    (bind_lift _ _ _ _ (get_u32_word bs (446 + 16 * i + 12) ltac:(lia) ltac:(lia))).
  unfold slot_of. cbv zeta. destruct (Z.eqb_spec (at_ bs (446 + 16 * i + 4)) 0) as [->|H0]; [done|].
  by destruct (Z.eqb_spec (at_ bs (446 + 16 * i + 4)) 5).
Qed.
End table.

(** *** The scan *)

Section scanning.
Context {D : Type} `{Ports D} {port : Z} `{!Ata D port}.
Context (pool_lock : pool_flag -> Z) (kernel_block_descs : Z) (pf : pool_flag) (descs : Z).
Context (hd : Z) (nm : list Z) (nm_ok : name_ok nm) (disk : Z -> list Z) (devs : list hdisk).

Abbreviation inv := (heap_inv pool_lock kernel_block_descs pf descs).
Abbreviation rooms := (room pool_lock kernel_block_descs pf).
Abbreviation pscan := (partition_scan pool_lock kernel_block_descs).

(** The partitions found so far; [P] are the objects in use. *)
Record scanning (s : disks D) (P : Z -> Z -> Prop) (prims logics : list (Z * Z)) (tags : list tag) : Prop := {
  sc_chan : exists c, channels s !! Z.to_nat (channel_of hd) = Some c /\ @ready D _ port _ c /\
    forall lba, 0 <= lba <= max_lba -> media (dev c) (dev_no (dev_of hd)) lba = disk lba;
  sc_disk : devices s !! Z.to_nat hd = Some (mk_hdisk (padded nm) (array 4 nm 1 prims) (array 8 nm 5 logics));
  sc_others : forall j, j <> Z.to_nat hd -> devices s !! j = devs !! j;
  sc_p : p_no s = zlen prims;
  sc_l : l_no s = zlen logics;
  sc_list : partition_list s = tags;
  sc_heap : inv (alloc s) P }.

Lemma get_disk_ok (s : disks D) d : devices s !! Z.to_nat hd = Some d -> get_disk hd s = Ok (d, s).
Proof. intros E. unfold get_disk. by rewrite E. Qed.

Lemma put_disk_ok (s : disks D) d : put_disk hd d s = Ok (tt, set_devices (<[Z.to_nat hd := d]> (devices s)) s).
Proof. done. Qed.

Lemma add_primary_ok s P prims logics tags st cnt : scanning s P prims logics tags -> (length prims < 3)%nat ->
  0 <= st < 4294967296 ->
  exists s', add_primary hd 0 st cnt s = Ok (tt, s') /\
    scanning s' P (prims ++ [(st, cnt)]) logics (tags ++ [Prim hd (zlen prims)]) /\
    ext_lba_base s' = ext_lba_base s /\ alloc s' = alloc s.
Proof using nm_ok.
  intros [Hc Hd Ho Hp Hl Ht Hh] Hn Hst. unfold add_primary. rewrite bind_get.
  rewrite (bindM_ok _ _ _ _ _ (get_disk_ok s _ Hd)). cbn [prim_parts logic_parts disk_name]. rewrite Hp.
  assert (Hz : zlen prims = Z.of_nat (length prims)) by done.
  rewrite (bind_lift _ _ _ _ (get_part_ok 4 nm 1 prims ltac:(lia))). cbn [part_name blank_part].
  rewrite (Z.add_comm (zlen prims) 1), (bind_lift _ _ _ _ (part_name_ok nm (1 + zlen prims) nm_ok ltac:(lia))).
  rewrite Z.add_0_l, (u32_small st) by lia.
  rewrite (bind_lift _ _ _ _ (put_part_ok 4 nm 1 prims st cnt ltac:(lia) ltac:(lia))).
  rewrite (bindM_ok _ _ _ _ _ (put_disk_ok s _)), !bind_modify, bind_get.
  cbn [p_no set_nos set_list set_devices]. rewrite Hp, u8_small by lia.
  unfold ASSERTM. rewrite (proj2 (Z.ltb_lt _ _)) by lia. eexists. split; [reflexivity|]. split; [|done].
  split; cbn [channels devices p_no l_no partition_list alloc set_nos set_list set_devices]; try done.
  - apply list_lookup_insert_eq. by apply lookup_lt_Some in Hd.
  - intros j Hj. rewrite list_lookup_insert_ne by done. by apply Ho.
  - rewrite zlen_snoc. done.
  - by rewrite Ht, ?Hp.
Qed.

Lemma add_logical_ok s P prims logics tags ext st cnt : scanning s P prims logics tags -> (length logics < 8)%nat ->
  0 <= ext + st < 4294967296 ->
  exists s', add_logical hd ext st cnt s = Ok (tt, s') /\
    scanning s' P prims (logics ++ [(ext + st, cnt)]) (tags ++ [Logic hd (zlen logics)]) /\
    ext_lba_base s' = ext_lba_base s /\ alloc s' = alloc s.
Proof using nm_ok.
  intros [Hc Hd Ho Hp Hl Ht Hh] Hn Hst. unfold add_logical. rewrite bind_get.
  rewrite (bindM_ok _ _ _ _ _ (get_disk_ok s _ Hd)). cbn [prim_parts logic_parts disk_name]. rewrite Hl.
  assert (Hz : zlen logics = Z.of_nat (length logics)) by done.
  rewrite (bind_lift _ _ _ _ (get_part_ok 8 nm 5 logics ltac:(lia))). cbn [part_name blank_part].
  rewrite (Z.add_comm (zlen logics) 5), (bind_lift _ _ _ _ (part_name_ok nm (5 + zlen logics) nm_ok ltac:(lia))).
  rewrite (u32_small (ext + st)) by lia.
  rewrite (bind_lift _ _ _ _ (put_part_ok 8 nm 5 logics (ext + st) cnt ltac:(lia) ltac:(lia))).
  rewrite (bindM_ok _ _ _ _ _ (put_disk_ok s _)), bind_modify.
  eexists. split; [reflexivity|]. split; [|done].
  split; cbn [channels devices p_no l_no partition_list alloc set_nos set_list set_devices]; try done.
  - apply list_lookup_insert_eq. by apply lookup_lt_Some in Hd.
  - intros j Hj. rewrite list_lookup_insert_ne by done. by apply Ho.
  - rewrite zlen_snoc, ?Hl, u8_small by lia. done.
  - by rewrite Ht, ?Hl.
Qed.

(** A fourth primary partition stops the kernel. *)
Lemma fourth_primary_panics s P prims logics tags st cnt : scanning s P prims logics tags -> length prims = 3%nat ->
  add_primary hd 0 st cnt s = Err Panic.
Proof using nm_ok.
  intros [Hc Hd Ho Hp Hl Ht Hh] Hn. unfold add_primary. rewrite bind_get.
  rewrite (bindM_ok _ _ _ _ _ (get_disk_ok s _ Hd)). cbn [prim_parts logic_parts disk_name]. rewrite Hp.
  assert (Hz : zlen prims = 3) by (unfold zlen; lia).
  rewrite (bind_lift _ _ _ _ (get_part_ok 4 nm 1 prims ltac:(lia))). cbn [part_name blank_part].
  rewrite (Z.add_comm (zlen prims) 1), (bind_lift _ _ _ _ (part_name_ok nm (1 + zlen prims) nm_ok ltac:(lia))).
  rewrite (bind_lift _ _ _ _ (put_part_ok 4 nm 1 prims _ cnt ltac:(lia) ltac:(lia))).
  rewrite (bindM_ok _ _ _ _ _ (put_disk_ok s _)), !bind_modify, bind_get.
  cbn [p_no set_nos set_list set_devices]. rewrite Hp, u8_small by lia.
  unfold ASSERTM. by rewrite (proj2 (Z.ltb_ge _ _)) by lia.
Qed.

(** The buffer and the table in it. *)
Lemma open_table n s P prims logics tags lba : scanning s P prims logics tags -> rooms (S n) (alloc s) -> 0 <= lba <= max_lba ->
  exists b m s', scanning s' (also P b m) prims logics tags /\ (forall k, ~ P b k) /\ rooms n (alloc s') /\
    ext_lba_base s' = ext_lba_base s /\ zlen (disk lba) = 512 /\
    forall f, pscan (S f) hd lba s =
      (all ⇐ scan_entries (pscan f hd) hd lba (disk lba) 4 0;
       if (all : bool) then on_alloc (sys_free pool_lock kernel_block_descs b) else mret (Done tt)) s'.
Proof.
  intros [(c & Hc & Hr & Hm) Hd Ho Hp Hl Ht Hh] Hroom Hlba.
  destruct (malloc_buffer _ _ _ _ n (alloc s) P Hh Hroom) as (b & h' & m & Em & Hroom' & Hh' & Hfresh).
  destruct (ide_read_ok c (dev_of hd) lba (replicate 512 0) Hr Hlba) as (d' & Er & Em' & Hr').
  { unfold dev_of. cbn [dev_no]. zarith. }
  { by vm_compute. }
  rewrite (Hm lba Hlba) in Er. cbn [drop] in Er. rewrite app_nil_r in Er.
  pose proof (ata_sector (dev c) (dev_no (dev_of hd)) lba) as [Hlen _]. rewrite (Hm lba Hlba) in Hlen.
  exists b, m. eexists. split; [|split; [exact Hfresh|split; [|split; [|split; [|intros f; cbn [partition_scan]]]]]].
  5: { erewrite obind_done. 2: { unfold on_alloc. rewrite Em. reflexivity. }
       erewrite obind_done. 2: { unfold on_chan. cbn [channels]. rewrite Hc, Er. reflexivity. }
       reflexivity. }
  - split; cbn [channels devices p_no l_no partition_list alloc]; try done.
    exists (mk_ide (channel c) d'). split; [apply list_lookup_insert_eq; by apply lookup_lt_Some in Hc|].
    split; [done|]. intros l Hl'. cbn [dev]. rewrite Em'. by apply Hm.
  - exact Hroom'.
  - done.
  - unfold zlen. rewrite Hlen. done.
Qed.

Lemma close_table s P b m prims logics tags : scanning s P prims logics tags -> P b m ->
  exists s', on_alloc (sys_free pool_lock kernel_block_descs b) s = Ok (Done tt, s') /\
    scanning s' (fun x k => P x k /\ x <> b) prims logics tags /\ ext_lba_base s' = ext_lba_base s.
Proof.
  intros [Hc Hd Ho Hp Hl Ht Hh] Hb. destruct (free_buffer _ _ _ _ _ _ b m Hh Hb) as (h' & E & Hh').
  unfold on_alloc. rewrite E. eexists. split; [reflexivity|]. split; [|done]. by split.
Qed.
Lemma scanning_iff s P Q prims logics tags : scanning s P prims logics tags -> (forall x k, P x k <-> Q x k) ->
  scanning s Q prims logics tags.
Proof. intros [Hc Hd Ho Hp Hl Ht Hh] HQ. split; try done. by apply (heap_inv_iff _ _ _ _ _ P). Qed.

(** A table of the chain and those behind it: of the logical partitions as many
    as there is room for; if the array is full, one buffer stays in use. *)
Definition remaining (logics : list (Z * Z)) (l : list ebr) : nat := Nat.min (length l) (8 - length logics).

Record chain_scanned (s' : disks D) (P : Z -> Z -> Prop) (prims logics : list (Z * Z)) (tags : list tag) (base : Z)
    (l : list ebr) (leak : list (Z * Z)) : Prop := {
  cs_found : scanning s' (fun x k => P x k \/ (x, k) ∈ leak) prims (logics ++ take (8 - length logics) (logicals base l))
    (tags ++ map (Logic hd) (seqZ (zlen logics) (Z.of_nat (remaining logics l))));
  cs_ext : ext_lba_base s' = base;
  cs_leak : length leak = if (8 <=? length logics + length l)%nat then 1%nat else 0%nat;
  cs_new : forall x k, (x, k) ∈ leak -> forall k', ~ P x k' }.

Lemma remaining_cons logics x e l : (length logics < 8)%nat ->
  remaining logics (e :: l) = S (remaining (logics ++ [x]) l).
Proof. intros Hl. unfold remaining. rewrite length_app. cbn [length]. lia. Qed.

(** The partition of a table of the chain. *)
Lemma chain_head n s P prims logics tags lba st cnt : scanning s P prims logics tags -> rooms (S n) (alloc s) ->
  0 < lba <= max_lba -> slot_of (disk lba) 0 = Data st cnt -> 0 <= st -> lba + st < 4294967296 -> (length logics < 8)%nat ->
  exists b m s2, scanning s2 (also P b m) prims (logics ++ [(lba + st, cnt)]) (tags ++ [Logic hd (zlen logics)]) /\
    (forall k, ~ P b k) /\ rooms n (alloc s2) /\ ext_lba_base s2 = ext_lba_base s /\ zlen (disk lba) = 512 /\
    forall f, pscan (S f) hd lba s =
      (all ⇐ (if 8 <=? zlen logics + 1 then mret (Done false) else scan_entries (pscan f hd) hd lba (disk lba) 3 1);
       if (all : bool) then on_alloc (sys_free pool_lock kernel_block_descs b) else mret (Done tt)) s2.
Proof using nm_ok.
  intros Hs Hroom Hlba T0 Hst Hsum Hlog.
  destruct (open_table n s P prims logics tags lba Hs Hroom ltac:(lia)) as (b & m & s1 & Hs1 & Hf & Hr1 & He1 & Hlen & E).
  destruct (add_logical_ok s1 _ _ _ _ lba st cnt Hs1 Hlog ltac:(lia)) as (s2 & E2 & Hs2 & He2 & Ha2).
  exists b, m, s2. split; [done|]. split; [done|]. split; [by rewrite Ha2|]. split; [congruence|]. split; [done|].
  intros f. rewrite E. unfold obind, mbind, M_bind. rewrite (scan_entry _ _ _ _ Hlen) by lia. rewrite T0, (proj2 (Z.eqb_neq lba 0)) by lia.
  rewrite (bindM_ok _ _ _ _ _ E2), bind_get, (sc_l _ _ _ _ _ Hs2), zlen_snoc. by destruct (8 <=? zlen logics + 1).
Qed.

Lemma scan_nothing scan lba (s : disks D) : forall n i, 0 <= i -> i + Z.of_nat n <= 4 -> zlen (disk lba) = 512 ->
  (forall j, i <= j < i + Z.of_nat n -> slot_of (disk lba) j = Nothing) ->
  scan_entries scan hd lba (disk lba) n i s = Ok (Done true, s).
Proof.
  induction n as [|n IH]; intros i Hi Hn Hlen Hnone; [done|]. rewrite (scan_entry _ _ _ _ Hlen) by lia.
  rewrite (Hnone i) by lia. apply IH; [lia|lia|done|]. intros j Hj. apply Hnone. lia.
Qed.

Lemma slot_data b i st cnt : slot_of b i = Data st cnt -> 0 <= st < 4294967296.
Proof.
  unfold slot_of. cbv zeta. destruct (_ =? 0); [done|]. destruct (_ =? 5); [done|]. intros [= <- _]. apply word_at_range.
Qed.

(** The array is full after the partition of this table. *)
Lemma chain_full s P prims logics tags base e l b m : scanning s (also P b m) prims
    (logics ++ [(base + e_off e + e_start e, e_cnt e)]) (tags ++ [Logic hd (zlen logics)]) ->
  ext_lba_base s = base -> length logics = 7%nat -> (forall k, ~ P b k) ->
  chain_scanned s P prims logics tags base (e :: l) [(b, m)].
Proof.
  intros Hs He Hl Hf. assert (Hr : remaining logics (e :: l) = 1%nat) by (unfold remaining; cbn [length]; lia).
  split.
  - rewrite Hr, Hl. cbn [Nat.sub take logicals map]. rewrite take_0.
    change (map (Logic hd) (seqZ (zlen logics) (Z.of_nat 1))) with [Logic hd (0 + zlen logics)].
    rewrite Z.add_0_l. apply (scanning_iff _ _ _ _ _ _ Hs). intros y k. unfold also. rewrite list_elem_of_singleton.
    naive_solver.
  - done.
  - rewrite Hl. cbn [length]. by rewrite (proj2 (Nat.leb_le _ _)) by lia.
  - intros y k Hy k'. apply list_elem_of_singleton in Hy as [= -> ->]. apply Hf.
Qed.

(** The last table. *)
Lemma chain_last s P prims logics tags base e : scanning s P prims
    (logics ++ [(base + e_off e + e_start e, e_cnt e)]) (tags ++ [Logic hd (zlen logics)]) ->
  ext_lba_base s = base -> (length logics < 7)%nat -> chain_scanned s P prims logics tags base [e] [].
Proof.
  intros Hs He Hl. assert (Hr : remaining logics [e] = 1%nat) by (unfold remaining; cbn [length]; lia).
  split.
  - rewrite Hr. destruct (8 - length logics)%nat as [|r] eqn:Er; [lia|]. cbn [take logicals map]. rewrite take_nil.
    change (map (Logic hd) (seqZ (zlen logics) (Z.of_nat 1))) with [Logic hd (0 + zlen logics)].
    rewrite Z.add_0_l. apply (scanning_iff _ _ _ _ _ _ Hs). intros y k. rewrite elem_of_nil. tauto.
  - done.
  - cbn [length]. by rewrite (proj2 (Nat.leb_gt _ _)) by lia.
  - intros y k Hy. by apply not_elem_of_nil in Hy.
Qed.

(** A table in front of a chain that has been scanned. *)
Lemma chain_step s s' P prims logics tags base e l b m leak :
  chain_scanned s (also P b m) prims (logics ++ [(base + e_off e + e_start e, e_cnt e)]) (tags ++ [Logic hd (zlen logics)])
    base l leak -> (length logics < 7)%nat -> (forall k, ~ P b k) ->
  scanning s' (fun x k => (also P b m x k \/ (x, k) ∈ leak) /\ x <> b) prims
    ((logics ++ [(base + e_off e + e_start e, e_cnt e)]) ++
       take (8 - length (logics ++ [(base + e_off e + e_start e, e_cnt e)])) (logicals base l))
    ((tags ++ [Logic hd (zlen logics)]) ++ map (Logic hd) (seqZ (zlen (logics ++ [(base + e_off e + e_start e, e_cnt e)]))
       (Z.of_nat (remaining (logics ++ [(base + e_off e + e_start e, e_cnt e)]) l)))) ->
  ext_lba_base s' = base -> chain_scanned s' P prims logics tags base (e :: l) leak.
Proof.
  intros [Hs He Hlk Hnew] Hl Hf Hs' He'. split.
  - rewrite (remaining_cons logics (base + e_off e + e_start e, e_cnt e)) by lia.
    rewrite length_app in Hs'. cbn [length] in Hs'. rewrite zlen_snoc, <- !app_assoc in Hs'.
    destruct (8 - length logics)%nat as [|r] eqn:Er; [lia|]. replace (8 - (length logics + 1))%nat with r in Hs' by lia.
    cbn [logicals map take]. cbn [app] in Hs'.
    rewrite Nat2Z.inj_succ, seqZ_cons, Z.pred_succ by lia. cbn [map]. unfold Z.succ.
    apply (scanning_iff _ _ _ _ _ _ Hs'). intros y k. unfold also. split.
    + intros [[[HP|[-> ->]]|Hy] Hyb]; [by left|done|by right].
    + intros [HP|Hy].
      * split; [by left; left|]. intros ->. by apply (Hf k).
      * split; [by right|]. intros ->. apply (Hnew b k Hy m). by right.
  - done.
  - rewrite Hlk, length_app. cbn [length]. by replace (length logics + 1 + length l)%nat with (length logics + S (length l))%nat by lia.
  - intros y k Hy k' HP. apply (Hnew y k Hy k'). by left.
Qed.

Lemma scan_chain base l : forall e f s P prims logics tags,
  chain_at disk base (e :: l) -> ext_lba_base s = base -> base <> 0 -> scanning s P prims logics tags ->
  (length logics < 8)%nat -> rooms (remaining logics (e :: l)) (alloc s) -> (remaining logics (e :: l) <= f)%nat ->
  exists s' leak, pscan f hd (base + e_off e) s = Ok (Done tt, s') /\ chain_scanned s' P prims logics tags base (e :: l) leak.
Proof using nm_ok.
  induction l as [|e' l IH]; intros e f s P prims logics tags Hch Hext Hb Hs Hlog Hroom Hf;
    cbn [chain_at] in Hch; destruct Hch as (Hlba & Hst & next & Htab & Hnext); apply table_slots in Htab as (T0 & T1 & T2 & T3);
    pose proof (slot_data _ _ _ _ T0) as Hst0;
    set (x := (base + e_off e + e_start e, e_cnt e)); rewrite (remaining_cons logics x) in Hroom, Hf by done;
    (destruct f as [|f]; [lia|]); apply le_S_n in Hf;
    destruct (chain_head _ s P prims logics tags _ _ _ Hs Hroom Hlba T0 (proj1 Hst0) Hst Hlog) as (b & m & s2 & Hs2 & Hfr & Hr2 & He2 & Hlen & E);
    rewrite E; clear E; rewrite Hext in He2;
    (destruct (Z.leb_spec 8 (zlen logics + 1)) as [Hfull|Hnf];
      [exists s2, [(b, m)]; split; [done|]; apply chain_full; [done|done|unfold zlen in Hfull; lia|done]|]);
    assert (Hl7 : (length logics < 7)%nat) by (unfold zlen in Hnf; lia).
  - subst next. rewrite (obind_done _ _ _ _ _ (scan_nothing _ _ s2 3 1 ltac:(lia) ltac:(lia) Hlen ltac:(intros j Hj;
      assert (j = 1 \/ j = 2 \/ j = 3) as [->|[->| ->]] by lia; assumption))). cbn iota.
    destruct (close_table s2 _ b m _ _ _ Hs2) as (s3 & E3 & Hs3 & He3); [by right|].
    exists s3, []. split; [exact E3|]. apply chain_last; [|congruence|done].
    apply (scanning_iff _ _ _ _ _ _ Hs3). intros y k. unfold also. split; [intros [[HP|[-> _]] Hy]; done|].
    intros HP. split; [by left|]. intros ->. by apply (Hfr k).
  - destruct Hnext as (-> & Hoff & Hch).
    destruct (IH e' f s2 (also P b m) prims (logics ++ [x]) _ Hch He2 Hb Hs2 ltac:(rewrite length_app; cbn; lia) Hr2 Hf)
      as (s3 & leak & E3 & Hcs).
    assert (Es : scan_entries (pscan f hd) hd (base + e_off e) (disk (base + e_off e)) 3 1 s2 = Ok (Done true, s3)).
    { rewrite (scan_entry _ _ _ _ Hlen) by lia. rewrite T1, bind_gets, He2, (proj2 (Z.eqb_neq base 0) Hb). cbn [negb].
      assert (Hlba' : base + e_off e' <= max_lba) by (destruct l; cbn [chain_at] in Hch; apply Hch).
      change max_lba with 163839 in Hlba', Hlba.
      rewrite (Z.add_comm (e_off e') base), u32_small by (destruct l; cbn [chain_at] in Hch; lia).
      rewrite (obind_done _ _ _ _ _ E3). apply scan_nothing; [lia|lia|done|]. intros j Hj.
      assert (j = 2 \/ j = 3) as [->| ->] by lia; assumption. }
    rewrite (obind_done _ _ _ _ _ Es). cbn iota.
    destruct (close_table s3 _ b m _ _ _ (cs_found _ _ _ _ _ _ _ _ Hcs)) as (s4 & E4 & Hs4 & He4); [left; by right|].
    exists s4, leak. split; [exact E4|].
    apply (chain_step s3 s4 P prims logics tags base e (e' :: l) b m leak Hcs Hl7 Hfr Hs4). rewrite He4. apply (cs_ext _ _ _ _ _ _ _ _ Hcs).
Qed.

(** *** The table of the disk *)

Lemma scan_primaries scan (Hlen : zlen (disk 0) = 512) n : forall i s P prims logics tags k, 0 <= i -> i + Z.of_nat n <= 4 ->
  scanning s P prims logics tags -> let sl := map (slot_of (disk 0)) (zrange n i) in
  links sl = [] -> (length prims + length (datas sl) <= 3)%nat ->
  exists s', scan_entries scan hd 0 (disk 0) n i s = Ok (Done true, s') /\
    scanning s' P (prims ++ datas sl) logics (tags ++ met hd sl (zlen prims) k).
Proof using nm_ok.
  induction n as [|n IH]; intros i s P prims logics tags k Hi Hn Hs sl Hl Hp.
  { exists s. split; [done|]. unfold sl. cbn. by rewrite !app_nil_r. }
  subst sl. cbn [zrange map] in *. rewrite (scan_entry _ _ _ _ Hlen) by lia. pose proof (slot_data (disk 0) i) as Hw.
  destruct (slot_of (disk 0) i) as [|st cnt|]; [| |done].
  - apply (IH (i + 1)); [lia|lia|done|done|done].
  - change (0 =? 0) with true. cbn iota. cbn [datas flat_map app length] in Hp. fold (datas (map (slot_of (disk 0)) (zrange n (i + 1)))) in Hp.
    destruct (add_primary_ok s P prims logics tags st cnt Hs ltac:(lia) (Hw st cnt eq_refl)) as (s1 & E1 & Hs1 & _).
    rewrite (bindM_ok _ _ _ _ _ E1). destruct (IH (i + 1) s1 P _ _ _ k ltac:(lia) ltac:(lia) Hs1 Hl) as (s' & E' & Hs').
    { rewrite length_app. cbn [length]. lia. }
    exists s'. split; [exact E'|]. rewrite zlen_snoc, <- !app_assoc in Hs'. exact Hs'.
Qed.

Lemma scanning_ext s P prims logics tags b : scanning s P prims logics tags -> scanning (set_ext b s) P prims logics tags.
Proof. intros []. by split. Qed.

Section mbr.
Context (base : Z) (e : ebr) (chain : list ebr) (Hoff : e_off e = 0) (Hch : chain_at disk base (e :: chain)) (f : nat)
  (Hf : (remaining [] (e :: chain) <= f)%nat) (Hlen : zlen (disk 0) = 512).

Lemma scan_mbr n : forall i s P prims tags, 0 <= i -> i + Z.of_nat n <= 4 ->
  scanning s P prims [] tags -> let sl := map (slot_of (disk 0)) (zrange n i) in
  links sl = [base] -> (length prims + length (datas sl) <= 3)%nat -> ext_lba_base s = 0 ->
  rooms (remaining [] (e :: chain)) (alloc s) ->
  exists s' leak, scan_entries (pscan f hd) hd 0 (disk 0) n i s = Ok (Done true, s') /\
    scanning s' (fun x k => P x k \/ (x, k) ∈ leak) (prims ++ datas sl) (take 8 (logicals base (e :: chain)))
      (tags ++ met hd sl (zlen prims) (remaining [] (e :: chain))) /\
    length leak = (if (8 <=? length (e :: chain))%nat then 1%nat else 0%nat) /\
    (forall x k, (x, k) ∈ leak -> forall k', ~ P x k').
Proof using nm_ok Hoff Hch Hf Hlen.
  induction n as [|n IH]; intros i s P prims tags Hi Hn Hs sl Hl Hp Hext Hroom; [done|].
  subst sl. cbn [zrange map] in *. rewrite (scan_entry _ _ _ _ Hlen) by lia. pose proof (slot_data (disk 0) i) as Hw.
  destruct (slot_of (disk 0) i) as [|st cnt|st].
  - apply (IH (i + 1)); [lia|lia|done..].
  - change (0 =? 0) with true. cbn iota. cbn [datas flat_map app length] in Hp. fold (datas (map (slot_of (disk 0)) (zrange n (i + 1)))) in Hp.
    destruct (add_primary_ok s P prims [] tags st cnt Hs ltac:(lia) (Hw st cnt eq_refl)) as (s1 & E1 & Hs1 & He1 & Ha1).
    rewrite (bindM_ok _ _ _ _ _ E1).
    destruct (IH (i + 1) s1 P _ _ ltac:(lia) ltac:(lia) Hs1 Hl) as (s' & leak & E' & Hs' & Hlk & Hnew).
    { rewrite length_app. cbn [length]. lia. }
    { congruence. }
    { by rewrite Ha1. }
    exists s', leak. split; [exact E'|]. split; [|done]. rewrite zlen_snoc, <- !app_assoc in Hs'. exact Hs'.
  - cbn [links flat_map app] in Hl. injection Hl as -> Hl.
    assert (Hlba : 0 < base <= max_lba) by (destruct chain; cbn [chain_at] in Hch; rewrite Hoff, Z.add_0_r in Hch; apply Hch).
    change max_lba with 163839 in Hlba. rewrite bind_gets, Hext. cbn [Z.eqb negb]. rewrite bind_modify.
    rewrite (i32_small base) by lia.
    destruct (scan_chain base chain e f (set_ext base s) P prims [] tags Hch eq_refl ltac:(lia) (scanning_ext _ _ _ _ _ _ Hs)
      ltac:(cbn; lia) Hroom Hf) as (s2 & leak & E2 & [Hs2 He2 Hlk Hnew]).
    rewrite Hoff, Z.add_0_r in E2. rewrite (obind_done _ _ _ _ _ E2).
    destruct (scan_primaries (pscan f hd) Hlen n (i + 1) s2 _ _ _ _ (remaining [] (e :: chain)) ltac:(lia) ltac:(lia) Hs2 Hl) as (s' & E' & Hs').
    { cbn [datas flat_map app] in Hp. exact Hp. }
    exists s', leak. split; [exact E'|]. split; [|done]. cbn [app length Nat.sub] in Hs'.
    rewrite <- app_assoc in Hs'. exact Hs'.
Qed.
End mbr.

(** C22. The scan of a disk finds exactly the partitions its tables describe.
    The table in sector 0 has at most three primary partitions and possibly a
    link to a chain of tables; [base] is where that chain starts.  Afterwards
    the primary ones are in [prim_parts], named from 1 on, the first eight
    logical ones in [logic_parts], at their absolute sectors and named from 5
    on, and the list has them in the order of the tables.  Every buffer has been
    given back, save one when the eighth logical partition is met. *)
Theorem partition_scan_finds base chain f s P tags :
  layout_ok disk base chain -> scanning s P [] [] tags -> ext_lba_base s = 0 ->
  rooms (S (remaining [] chain)) (alloc s) -> (remaining [] chain <= f)%nat ->
  exists s' leak, pscan (S f) hd 0 s = Ok (Done tt, s') /\
    scanning s' (fun x k => P x k \/ (x, k) ∈ leak) (datas (table_of (disk 0))) (take 8 (logicals base chain))
      (tags ++ met hd (table_of (disk 0)) 0 (remaining [] chain)) /\
    length leak = (if (8 <=? length chain)%nat then 1 else 0)%nat /\
    forall x k, (x, k) ∈ leak -> forall k', ~ P x k'.
Proof using nm_ok.
  intros [Hp Hl Hch] Hs Hext Hroom Hf.
  destruct (open_table _ s P [] [] tags 0 Hs Hroom ltac:(by vm_compute)) as (b & m & s1 & Hs1 & Hfr & Hr1 & He1 & Hlen & E).
  rewrite Hext in He1.
  assert (Hscan : exists s2 leak, scan_entries (pscan f hd) hd 0 (disk 0) 4 0 s1 = Ok (Done true, s2) /\
    scanning s2 (fun x k => also P b m x k \/ (x, k) ∈ leak) (datas (table_of (disk 0))) (take 8 (logicals base chain))
      (tags ++ met hd (table_of (disk 0)) 0 (remaining [] chain)) /\
    length leak = (if (8 <=? length chain)%nat then 1 else 0)%nat /\
    forall x k, (x, k) ∈ leak -> forall k', ~ also P b m x k').
  { destruct chain as [|e chain].
    - destruct (scan_primaries (pscan f hd) Hlen 4 0 s1 _ [] [] tags 0 ltac:(lia) ltac:(lia) Hs1 Hl Hp) as (s2 & E2 & Hs2).
      exists s2, []. split; [exact E2|]. split; [|split; [done|]].
      + apply (scanning_iff _ _ _ _ _ _ Hs2). intros x k. rewrite elem_of_nil. tauto.
      + intros x k Hx. by apply not_elem_of_nil in Hx.
    - destruct Hch as [Hoff Hch].
      exact (scan_mbr base e chain Hoff Hch f Hf Hlen 4 0 s1 _ [] tags ltac:(lia) ltac:(lia) Hs1 Hl Hp He1 Hr1). }
  destruct Hscan as (s2 & leak & E2 & Hs2 & Hlk & Hnew).
  destruct (close_table s2 _ b m _ _ _ Hs2) as (s3 & E3 & Hs3 & _); [left; by right|].
  exists s3, leak. rewrite E, (obind_done _ _ _ _ _ E2). split; [exact E3|]. split; [|split; [done|]].
  - apply (scanning_iff _ _ _ _ _ _ Hs3). intros x k. unfold also. split.
    + intros [[[HP|[-> ->]]|Hx] Hxb]; [by left|done|by right].
    + intros [HP|Hx].
      * split; [by left; left|]. intros ->. by apply (Hfr k).
      * split; [by right|]. intros ->. apply (Hnew b k Hx m). by right.
  - intros x k Hx k' HP. apply (Hnew x k Hx k'). by left.
Qed.

End scanning.

(** ** A disk with two primary and two logical partitions *)

Module PartitionDemo.
Import AtaModel.
Definition le32 (x : Z) : list Z := [x mod 256; x / 256 mod 256; x / 65536 mod 256; x / 16777216 mod 256].
Definition entry (ty s c : Z) : list Z := [0; 0; 0; 0; ty; 0; 0; 0] ++ le32 s ++ le32 c.
Definition boot_sector (l : list (list Z)) : list Z := replicate 446 0 ++ List.concat l ++ [0x55; 0xaa].
Definition unused : list Z := entry 0 0 0.

Definition partitioned : gmap (Z * Z) (list Z) :=
  {[(1, 0) := boot_sector [entry 0x83 63 1000; entry 5 2000 3000; entry 0x83 5000 10; unused];
    (1, 2000) := boot_sector [entry 0x83 63 900; entry 5 100 500; unused; unused];
    (1, 2100) := boot_sector [entry 0x83 63 400; unused; unused; unused]]}.

Definition new_disk (nm : list Z) : hdisk := mk_hdisk (padded nm) (array 4 nm 1 []) (array 8 nm 5 []).
Definition two_disks : list hdisk := [new_disk (lit "sda"); new_disk (lit "sdb")].

Definition attached : disks controller :=
  mk_disks [mk_ide (mk_channel 0x1f0 0x2e false false 0) (mk_controller partitioned (Idle no_regs))] [replicate 8 0]
    two_disks heap0 0 0 0 1 [] (replicate 129 0).

Definition sectors_of (lba : Z) : list Z := sector_at (mk_controller partitioned (Idle no_regs)) 1 lba.

Definition demo_chain : list ebr := [mk_ebr 0 63 900; mk_ebr 100 63 400].

Lemma attached_layout : layout_ok sectors_of 2000 demo_chain.
Proof.
  split; [vm_compute; lia|vm_compute; reflexivity|].
  split; [reflexivity|]. cbn [demo_chain chain_at e_off e_start e_cnt]. change max_lba with 163839.
  split; [lia|]. split; [lia|]. exists (Link 100). split; [vm_compute; reflexivity|]. split; [reflexivity|]. split; [lia|].
  split; [lia|]. split; [lia|]. exists Nothing. split; [vm_compute; reflexivity|reflexivity].
Qed.

Lemma attached_scanning : @scanning controller ports 0x1f0 ata (fun _ => heap_lock) heap_descs PF_KERNEL heap_descs 1 (lit "sdb")
  sectors_of two_disks attached (fun _ _ => False) [] [] [].
Proof.
  split; try done.
  - eexists. split; [reflexivity|]. split; [|by intros lba _].
    split; cbn; try done; [split; cbn; by auto|by exists no_regs].
  - exists (list_to_map heap_lists), (fun _ => []), ∅, demo_vaddr. split; [exact heap0_ok|]. split; [exact heap0_call|].
    intros x m. split; [|done]. by intros [a i q y E _ _|a qs E]; rewrite lookup_empty in E.
Qed.

(** Three requests for a sector in the heap of the start. *)
Abbreviation borrow h := (sys_malloc (fun _ => heap_lock) heap_descs 512 h).
Fixpoint roomb (n : nat) (h : heap) : bool :=
  match n with
  | O => true
  | S n' =>
      (512 <? pool_size (kernel_pool (kmem (hk h)))) && (1 <=? len (vaddr_bitmap (kernel_vaddr (kmem (hk h))))) &&
      (2 <=? free_count (kernel_pool (kmem (hk h))))%nat &&
      match borrow h with Ok (Done b, h') => negb (b =? NULL) && roomb n' h' | _ => false end
  end.

Lemma roomb_ok n : forall h, roomb n h = true -> room (fun _ => heap_lock) heap_descs PF_KERNEL n h.
Proof.
  induction n as [|n IH]; intros h; [done|]. cbn [roomb room]. rewrite !andb_true_iff, Z.ltb_lt, Z.leb_le, Nat.leb_le.
  intros [[[H1 H2] H3] H4]. split; [exact H1|]. split; [by eexists|]. split; [exact H3|].
  destruct (borrow h) as [[[b| |] h']|] eqn:E; [|done..]. apply andb_true_iff in H4 as [H4 H5].
  exists b, h'. split; [done|]. split; [|by apply IH]. apply negb_true_iff, Z.eqb_neq in H4. exact H4.
Qed.

Lemma attached_room : room (fun _ => heap_lock) heap_descs PF_KERNEL 3 (alloc attached).
Proof. apply roomb_ok. vm_compute. reflexivity. Qed.
End PartitionDemo.
Import AtaModel PartitionDemo.

Lemma partition_scan_finds_witness : exists s' c,
  partition_scan (fun _ => heap_lock) heap_descs 3 1 0 attached = Ok (Done tt, s') /\
  partition_list s' = [Prim 1 0; Logic 1 0; Logic 1 1; Prim 1 1] /\
  devices s' !! 1%nat = Some c /\ logic_parts c = array 8 (lit "sdb") 5 [(2063, 900); (2163, 400)] /\
  prim_parts c = array 4 (lit "sdb") 1 [(63, 1000); (5000, 10)].
Proof.
  destruct (@partition_scan_finds controller ports 0x1f0 ata (fun _ => heap_lock) heap_descs PF_KERNEL heap_descs 1 (lit "sdb")
    ltac:(split; [vm_compute; lia|repeat constructor; discriminate]) sectors_of two_disks 2000 demo_chain 2%nat attached _ []
    attached_layout attached_scanning eq_refl attached_room ltac:(vm_compute; lia)) as (s' & leak & E & Hs & _).
  exists s'. eexists. split; [exact E|]. split.
  - rewrite (sc_list _ _ _ _ _ _ _ _ _ _ _ _ _ Hs). vm_compute. reflexivity.
  - split; [exact (sc_disk _ _ _ _ _ _ _ _ _ _ _ _ _ Hs)|]. split; vm_compute; reflexivity.
Defined.
