(* ===== verification/System.v ===== *)
(** * System: the threads and the memory of the kernel together

    [system_ok] joins the invariants of the scheduler, of the list of all
    threads and of the address spaces, and adds what relates them: PCBs and
    linked nodes lie in mapped pages of the kernel, so a page just handed out
    holds none of them.  The operations that create and end threads keep it. *)

From S2P Require Import Prelude CString Interrupt Lists Bitmap Kernel Paging Thread Sync IoQueue Memory DataPages Heap Pid Space Process.

(** A mapped address of the kernel. *)
Definition kmapped (k : kernel) (a : Z) : Prop := kernel_addr a /\ walk k a <> None.

Section system.
Context (pool_lock : pool_flag -> Z) (pid_lock : Z).

Record system_ok (k : kernel) (D : Z -> Z) (O : gmap Z Z) (Γ : gmap Z (list Z)) (rs ts : list Z) : Prop := {
  so_space : kspace k D O;
  so_sched : sched_ok k D Γ rs;
  so_threads : threads_ok k Γ ts;
  so_linked : forall L xs a, Γ !! L = Some xs -> a ∈ foot L xs -> kmapped k a;
  so_pcbs : forall t, is_Some (pcbs (kth k) !! t) -> kmapped k t /\ t mod 4096 = 0;
  so_pool_lock : lock_idle k Γ (pool_lock PF_KERNEL);
  so_pid_lock : lock_idle k Γ pid_lock;
  so_apart : NoDup [thread_ready_list (kth k); thread_all_list (kth k);
    waiters (lock_semaphore (pool_lock PF_KERNEL)); waiters (lock_semaphore pid_lock)];
  so_main : is_Some (pcbs (kth k) !! main_thread (kth k)) }.
End system.

(** ** The scheduler *)

(** The page directories are known from the address spaces. *)
Lemma sched_pre_space k k' D O Γ rs : sched_pre k D Γ rs -> kspace k' D O -> km k' = km k ->
  kth k' = kth k -> cur (kc k') = cur (kc k) -> sched_pre k' D Γ rs.
Proof.
  intros [S1 S2 S3 S4 S5 S6 S7 S8] Hk Em Et Ec. unfold st in *.
  split; unfold st; rewrite ?Em, ?Et, ?Ec; try done. by apply (kspace_dirs _ _ O).
Qed.

Lemma sched_ok_space k k' D O Γ rs : sched_ok k D Γ rs -> kspace k' D O -> km k' = km k ->
  kth k' = kth k -> cur (kc k') = cur (kc k) -> sched_ok k' D Γ rs.
Proof.
  intros [Hp Hr] Hk Em Et Ec. split; [by apply (sched_pre_space k _ _ O)|]. unfold st in *. by rewrite Et, Ec.
Qed.

(** A thread that is neither ready nor running appears. *)
Lemma sched_pre_add k D O Γ rs t p : sched_pre k D Γ rs -> kspace k D O -> pcbs (kth k) !! t = None -> t <> NULL ->
  is_waiting (status p) = true -> pg_dir p = NULL ->
  sched_pre (set_pcbs (<[t := p]> (pcbs (kth k))) k) (set_dir t kdir D) Γ rs.
Proof.
  intros [S1 S2 S3 S4 S5 S6 S7 S8] Hk Hn H0 Hw Hp. apply is_waiting_not in Hw as [W1 W2].
  assert (Hst : forall x s, s = TASK_READY \/ s = TASK_RUNNING ->
    st (set_pcbs (<[t := p]> (pcbs (kth k))) k) x = Some s <-> st k x = Some s).
  { intros x s Hs. rewrite st_insert. destruct (Z.eq_dec t x) as [<-|]; [|done]. unfold st. rewrite Hn. cbn.
    split; [intros [= E]|done]. destruct Hs as [-> | ->]; done. }
  assert (Hne : forall x s, st k x = Some s -> t <> x).
  { intros x s Hx ->. unfold st in Hx. by rewrite Hn in Hx. }
  split; cbn [set_pcbs set_kth km kth kc thread_ready_list pcbs idle_thread]; try done.
  - intros x. rewrite Hst by auto. apply S3.
  - rewrite lookup_insert_ne; [done|]. intros ->. rewrite Hn in S4. by destruct S4.
  - intros x Hx. apply S5. by apply Hst in Hx; [|right].
  - destruct S6 as (s & Es & H). exists s. split; [|done]. rewrite st_insert.
    destruct (Z.eq_dec t (idle_thread (kth k))); [by destruct (Hne _ _ Es)|done].
  - intros x [q Hq]. apply lookup_insert_Some in Hq as [[<- _]|[_ Hq]]; [done|]. apply S7. eauto.
  - apply (kspace_dirs _ _ O), kspace_add; done.
Qed.

(** Other lists change. *)
Lemma sched_pre_lists k m D Γ Γ' rs : sched_pre k D Γ rs -> lists_ok m Γ' ->
  Γ' !! thread_ready_list (kth k) = Γ !! thread_ready_list (kth k) ->
  (forall t, is_Some (pcbs (kth k) !! t) -> fresh Γ (general_node t) -> fresh Γ' (general_node t)) ->
  sched_pre (set_km m k) D Γ' rs.
Proof.
  intros [S1 S2 S3 S4 S5 S6 S7 S8] Hl Hr Hf. split; try done.
  - cbn. by rewrite Hr.
  - intros t Ht. destruct (S5 t Ht) as [-> Hfr]. split; [done|]. by apply Hf.
  - destruct S6 as (s & Es & H). exists s. split; [done|]. destruct H as [|[|[-> H]]]; [by left|by right; left|].
    right; right. split; [done|]. apply Hf; [|done]. cbn. unfold st in Es. apply fmap_Some in Es as (p & E & _). eauto.
  - by destruct S8.
Qed.

(** ** Nodes in new pages *)

(** Nothing is linked in a page that was not mapped. *)
Lemma unmapped_fresh k Γ v a : (forall L xs x, Γ !! L = Some xs -> x ∈ foot L xs -> kmapped k x) ->
  kernel_addr v -> v mod 4096 = 0 -> walk k v = None -> v <= a < v + 4096 -> fresh Γ a.
Proof.
  intros Hl Hv Ha Hn Hin. unfold kernel_addr in Hv. split; [unfold NULL; lia|]. intros L xs HL Hx.
  destruct (Hl L xs a HL Hx) as [Hka Hw]. apply Hw.
  apply (walk_none_page k v); [unfold is_word; lia|unfold is_word; lia|zarith|done].
Qed.

Lemma kmapped_kept k k' a : (forall v, kernel_addr v -> walk k v <> None -> walk k' v <> None) ->
  kmapped k a -> kmapped k' a.
Proof. intros H [H1 H2]. split; auto. Qed.

(** Links outside the lists. *)
Lemma zero_links_ok nodes : forall m Γ, lists_ok m Γ -> (forall a, a ∈ nodes -> fresh Γ a) ->
  exists m', zero_links nodes m = Ok (tt, m') /\ lists_ok m' Γ /\ eflags m' = eflags m.
Proof.
  induction nodes as [|n nodes IH]; intros m Γ Hl Hf; cbn [zero_links]; [eauto|].
  destruct (Hf n ltac:(by left)) as [Hn Hnf].
  rewrite (bindM_ok _ _ _ _ _ (wr_prev_ok _ _ _ Hn)), (bindM_ok _ _ _ _ _ (wr_next_ok _ _ _ Hn)).
  cbn [eflags prevs nexts]. set (m1 := mk_mach _ _ _).
  destruct (IH m1 Γ) as (m' & E & Hl' & Ef).
  - destruct Hl as [L1 L2 L3 L4]. split; try done. intros L xs HL. apply (dseg_frame m); [by apply L1|..].
    + intros c Hc. cbn. rewrite lookup_insert_ne; [done|]. intros ->. apply (Hnf L xs HL). unfold foot. set_solver.
    + intros c Hc. cbn. rewrite lookup_insert_ne; [done|]. intros ->. apply (Hnf L xs HL). unfold foot. set_solver.
  - intros a Ha. apply Hf. by right.
  - eauto.
Qed.

Lemma put_descs_ok thread l : forall i h, exists d, put_descs thread i l h = Ok (tt, mk_heap (hk h) (arenas h) d) /\
  forall x, (forall j, i <= j < i + zlen l -> x <> desc_ptr (user_block_descs thread) j) -> d !! x = block_descs h !! x.
Proof.
  induction l as [|y l IH]; intros i h; cbn [put_descs].
  { exists (block_descs h). by destruct h. }
  rewrite bind_modify. rewrite zlen_cons. pose proof (zlen_nonneg l).
  edestruct (IH (i + 1)) as (d & E & Hd). exists d. split; [exact E|].
  intros x Hx. rewrite Hd by (intros j Hj; apply Hx; lia). cbn [block_descs].
  rewrite lookup_insert_ne; [done|]. intros <-. by apply (Hx i); [lia|].
Qed.

(** ** PCBs *)

Lemma pcb_nodes_in t a : a ∈ pcb_nodes t -> t <= a < t + 4096.
Proof.
  unfold pcb_nodes. rewrite elem_of_app, elem_of_cons, list_elem_of_singleton.
  unfold general_node, all_list_node. intros [[->| ->]|Ha]; [lia|lia|].
  rewrite list_elem_of_In, in_flat_map in Ha. destruct Ha as (i & Hi & Ha).
  rewrite <- list_elem_of_In, elem_of_seqZ in Hi. cbn [List.In] in Ha.
  unfold user_free_list, desc_ptr, user_block_descs, head_of, tail_of in Ha.
  destruct Ha as [<-|[<-|[]]]; lia.
Qed.

Lemma on_hk_ok {A} (m : M kernel A) h a k : m (hk h) = Ok (a, k) ->
  on_k m h = Ok (a, mk_heap k (arenas h) (block_descs h)).
Proof. intros E. unfold on_k. by rewrite E. Qed.

Lemma on_hk_err {A} (m : M kernel A) h e : m (hk h) = Err e -> on_k m h = Err e.
Proof. intros E. unfold on_k. by rewrite E. Qed.

(** Only the descriptors inside the page of [t] change. *)
Definition descs_kept (t : Z) (d d' : gmap Z mem_block_desc) : Prop :=
  forall x, ~ (t <= x < t + 4096) -> d' !! x = d !! x.

Lemma clear_pcb_ok h Γ t : lists_ok (km (hk h)) Γ -> (forall a, t <= a < t + 4096 -> fresh Γ a) ->
  exists m d, clear_pcb t h = Ok (tt, mk_heap (set_km m (set_pcbs (<[t := zero_pcb]> (pcbs (kth (hk h)))) (hk h))) (arenas h) d) /\
    lists_ok m Γ /\ eflags m = eflags (km (hk h)) /\ descs_kept t (block_descs h) d.
Proof.
  intros Hl Hf. assert (Ht : t <> NULL) by (apply (Hf t); lia). unfold clear_pcb.
  rewrite (proj2 (Z.eqb_neq _ _) Ht). unfold put_pcb.
  rewrite (bindM_ok _ _ _ _ _ (on_hk_ok _ h tt _ eq_refl)).
  set (k1 := set_pcbs _ (hk h)). destruct (zero_links_ok (pcb_nodes t) (km k1) Γ Hl) as (m & E & Hl' & Ef).
  { intros a Ha. by apply Hf, pcb_nodes_in. }
  rewrite (bindM_ok _ _ _ _ _ (on_hk_ok _ (mk_heap k1 (arenas h) (block_descs h)) tt _ (on_mach_ok _ k1 _ _ E))).
  cbn [hk arenas block_descs].
  match goal with |- context [put_descs t 0 ?l ?h0] => destruct (put_descs_ok t l 0 h0) as (d & Ed & Hd) end.
  exists m, d. split; [exact Ed|]. split; [done|]. split; [done|].
  intros x Hx. rewrite Hd; [done|]. intros j Hj ->. apply Hx. unfold desc_ptr, user_block_descs.
  change (zlen _) with 7 in Hj. lia.
Qed.

(** The PCB of a new thread. *)
Definition new_pcb (t x : Z) (s : task_status) (nm : list Z) (prio : Z) : pcb :=
  mk_pcb (u32 (t + PG_SIZE)) x s (nm ++ replicate (16 - length nm) 0) (u8 prio) (u8 prio) 0
    NULL (mk_vaddr (mk_bitmap 0 []) NULL) NULL (-1) 0 STACK_MAGIC.

Lemma strcpy_name nm name : cstr name 0 nm -> (length nm < 16)%nat ->
  strcpy (replicate 16 0) 0 name 0 = Ok (nm ++ replicate (16 - length nm) 0).
Proof.
  intros Hc Hl. pose proof (strcpy_ok name 0 nm [] (replicate (S (length nm)) 0)
    (replicate (15 - length nm) 0) Hc ltac:(by rewrite length_replicate)) as E.
  cbn [app] in E. change (zlen (@nil Z)) with 0 in E. rewrite <- replicate_add in E.
  replace (S (length nm) + (15 - length nm))%nat with 16%nat in E by lia. rewrite E. f_equal.
  rewrite <- app_assoc. f_equal. by replace (16 - length nm)%nat with (S (15 - length nm)) by lia.
Qed.

Section init.
Context (pid_lock : Z).

(** What [init_thread] does to the kernel: it takes process number [x]. *)
Definition thread_added (k : kernel) (m : mach) (b : bitmap) (t : Z) (p : pcb) : kernel :=
  set_km m (set_pid_bitmap b (set_pcbs (<[t := p]> (pcbs (kth k))) k)).

Lemma init_thread_ok h Γ t name nm prio : lists_ok (km (hk h)) Γ -> (forall a, t <= a < t + 4096 -> fresh Γ a) ->
  pid_pool_ok (hk h) -> lock_idle (hk h) Γ pid_lock -> cur (kc (hk h)) <> NULL ->
  cstr name 0 nm -> (length nm < 16)%nat ->
  (init_thread pid_lock t name prio h = Err Fault /\ forall y, 1 <= y <= 127 -> pid_taken (hk h) y = true) \/
  exists m b x d, init_thread pid_lock t name prio h = Ok (Done tt,
      mk_heap (thread_added (hk h) m b t (new_pcb t x
        (if t =? main_thread (kth (hk h)) then TASK_RUNNING else TASK_READY) nm prio)) (arenas h) d) /\
    lists_ok m Γ /\ eflags m = eflags (km (hk h)) /\ descs_kept t (block_descs h) d /\ 1 <= x <= 127 /\
    pid_taken (hk h) x = false /\ (forall y, 1 <= y < x -> pid_taken (hk h) y = true) /\
    pid_written (hk h) b x true.
Proof.
  intros Hl Hf Hpid Hlk Hcur Hname Hlen. set (k := hk h) in *.
  destruct (clear_pcb_ok h Γ t Hl Hf) as (m & d & E & Hl' & Ef & Hd). fold k in E.
  set (k1 := set_km m (set_pcbs (<[t := zero_pcb]> (pcbs (kth k))) k)) in E.
  unfold init_thread. rewrite (bindM_ok _ _ _ _ _ E).
  assert (E2 : upd_pcb t (set_self_kstack (u32 (t + PG_SIZE))) k1 = Ok (tt,
    set_pcbs (<[t := set_self_kstack (u32 (t + PG_SIZE)) zero_pcb]> (pcbs (kth k1))) k1))
    by (apply upd_pcb_ok; apply lookup_insert_eq).
  rewrite (bindM_ok _ _ _ _ _ (on_hk_ok _ (mk_heap k1 (arenas h) d) _ _ E2)). cbn [arenas block_descs].
  cbn [k1 set_km set_pcbs set_kth kth pcbs]. rewrite insert_insert_eq.
  set (p1 := set_self_kstack (u32 (t + PG_SIZE)) zero_pcb).
  change (set_pcbs (<[t:=p1]> (pcbs (kth k))) k1) with (set_km m (set_pcbs (<[t:=p1]> (pcbs (kth k))) k)).
  set (k2 := set_km m (set_pcbs (<[t:=p1]> (pcbs (kth k))) k)).
  assert (Hpid2 : pid_pool_ok k2) by (destruct Hpid; by split).
  assert (Hlk2 : lock_idle k2 Γ pid_lock) by (destruct Hlk; by split).
  destruct (alloc_pid_ok pid_lock k2 Γ Hpid2 Hlk2 Hl' Hcur) as [[Ea Hall]|(x & b & Ea & Hx & Hfr & Hlo & Hw)].
  { left. split; [|exact Hall]. by apply obind_err, on_hk_err. }
  right. exists m, b, x, d. split; [|refine (conj Hl' (conj Ef (conj Hd (conj Hx (conj Hfr (conj Hlo _)))))); destruct Hw as [[] Hb]; split; [by split|exact Hb]].
  rewrite (obind_done _ _ _ _ _ (on_hk_ok _ (mk_heap k2 (arenas h) d) _ _ Ea)). cbn [arenas block_descs].
  set (k3 := set_pid_bitmap b k2).
  rewrite (bindM_ok _ _ _ _ _ (on_hk_ok _ (mk_heap k3 (arenas h) d) (main_thread (kth k)) k3 eq_refl)).
  assert (E4 : get_pcb t k3 = Ok (p1, k3)) by (apply get_pcb_ok, lookup_insert_eq).
  rewrite (bindM_ok _ _ _ _ _ (on_hk_ok _ (mk_heap k3 (arenas h) d) _ _ E4)). cbn [arenas block_descs].
  rewrite (bind_lift _ _ _ _ (strcpy_name nm name Hname Hlen)). unfold put_pcb.
  rewrite (bindM_ok _ _ _ _ _ (on_hk_ok _ (mk_heap k3 (arenas h) d) tt _ eq_refl)). cbn [arenas block_descs].
  unfold mret, M_ret. do 4 f_equal. unfold thread_added, k3, k2.
  cbn [hk set_pid_bitmap set_km set_pcbs set_kth kth pcbs]. rewrite insert_insert_eq. reflexivity.
Qed.
End init.

(** *** Kernel stacks *)

(** The words [vstores] leaves behind. *)
Fixpoint put_words (a : Z) (l : list (Z * Z)) (r : gmap Z Z) : gmap Z Z :=
  match l with
  | [] => r
  | (off, x) :: l' => put_words a l' (<[a + off := x]> r)
  end.

Lemma put_words_out a l b : forall r, (forall off x, (off, x) ∈ l -> b <> a + off) -> word (put_words a l r) b = word r b.
Proof.
  induction l as [|[off x] l IH]; intros r Hb; [done|]. cbn [put_words].
  rewrite IH by (intros o y Hy; apply (Hb o y); by right). rewrite word_insert.
  destruct (Z.eq_dec _ _) as [E|]; [|done]. by destruct (Hb off x ltac:(by left)).
Qed.

Lemma put_words_in a l : forall r off x, NoDup (map fst l) -> (off, x) ∈ l -> word (put_words a l r) (a + off) = x.
Proof.
  induction l as [|[o y] l IH]; intros r off x Hnd Hin; [by apply not_elem_of_nil in Hin|].
  cbn [map fst] in Hnd. apply NoDup_cons in Hnd as [Hn Hnd]. cbn [put_words].
  apply elem_of_cons in Hin as [[= -> ->]|Hin]; [|by apply IH].
  rewrite put_words_out; [rewrite word_insert; by destruct (Z.eq_dec _ _)|].
  intros o' x' Hin' E. apply Hn. replace o with o' by lia. apply list_elem_of_fmap. by exists (o', x').
Qed.

(** The stores fit into the page, [o0] bytes from its start. *)
Definition fits (o0 : Z) (l : list (Z * Z)) : Prop :=
  Forall (fun '(off, x) => 0 <= o0 + off < 4096 /\ is_word x) l.

Lemma vstores_owned D O v q o0 l : forall k, kspace k D O -> O !! v = Some q -> ~ dir_in_use k D q -> fits o0 l ->
  let r := put_words (q + o0) l (ram (kmem k)) in
  vstores (v + o0) l k = Ok (tt, set_ram r k) /\ kspace (set_ram r k) D O /\ data_written k r.
Proof.
  induction l as [|[off x] l IH]; intros k Hk HO Hn Hf; cbn [vstores put_words].
  { assert (E : set_ram (ram (kmem k)) k = k) by (by destruct k as [? ? [] ? ?]). rewrite E.
    split; [done|]. split; [done|]. apply data_written_refl, (ks_current _ _ _ Hk). }
  apply Forall_cons in Hf as [[Ho Hx] Hf].
  destruct (kspace_store k D O v q (o0 + off) x Hk HO Hn Ho Hx) as (E1 & K1 & W1).
  cbv zeta in E1, K1, W1. rewrite (Z.add_assoc q), (Z.add_assoc v) in E1. rewrite (Z.add_assoc q) in K1, W1. rewrite (bindM_ok _ _ _ _ _ E1).
  set (r1 := <[q + o0 + off := x]> (ram (kmem k))) in *.
  destruct (IH (set_ram r1 k) K1 HO Hn Hf) as (E2 & K2 & W2). cbn [set_ram set_kmem kmem ram] in E2, K2, W2.
  split; [exact E2|]. split; [exact K2|]. by apply (data_written_trans k r1).
Qed.

(** What lies at [a], read through the page tables. *)
Definition frame_at (k : kernel) (a : Z) (l : list (Z * Z)) : Prop :=
  forall off x, (off, x) ∈ l -> vload (a + off) k = Ok (x, k).

Lemma frame_at_km m k a l : frame_at k a l -> frame_at (set_km m k) a l.
Proof.
  intros Hf off x Hin. specialize (Hf off x Hin). unfold vload in *. cbn [set_km kmem kc].
  destruct (translate _ _ _); [|done]. by injection Hf as ->.
Qed.

Lemma frame_at_intro k D O v q o0 l r : kspace (set_ram r k) D O -> O !! v = Some q ->
  r = put_words (q + o0) l (ram (kmem k)) -> fits o0 l -> NoDup (map fst l) -> frame_at (set_ram r k) (v + o0) l.
Proof.
  intros Hk HO -> Hf Hnd off x Hin. set (r := put_words _ _ _) in *.
  destruct (ks_page _ _ _ Hk v q HO) as (Hh & Hw & _). destruct (in_heap_kernel _ _ _ _ Hk Hh) as [Hka Hal].
  destruct (kernel_addr_PDE v Hka) as (Hvw & _). destruct (owned_aligned _ _ _ _ _ Hk HO) as [_ Hqa].
  pose proof (proj1 (Forall_forall _ _) Hf _ Hin) as [Ho _].
  rewrite <- Z.add_assoc. rewrite (vload_ok (set_ram r k) _ (q + (o0 + off))) by (by apply walk_offset).
  do 2 f_equal. cbn [set_ram set_kmem kmem ram]. rewrite Z.add_assoc. by apply put_words_in.
Qed.

(** The words stay as long as the page does. *)
Lemma frame_at_kept k k2 D D2 O O2 v q o0 l : kspace k D O -> kspace k2 D2 O2 -> O !! v = Some q -> O2 !! v = Some q ->
  Forall (fun '(off, x) => 0 <= o0 + off < 4096 /\ (o0 + off) mod 4 = 0) l ->
  (forall i, 0 <= i < 1024 -> dir_entry k2 q i = dir_entry k q i) ->
  frame_at k (v + o0) l -> frame_at k2 (v + o0) l.
Proof.
  intros Hk Hk2 HO HO2 Hl Hw Hf off x Hin.
  destruct (proj1 (Forall_forall _ _) Hl _ Hin) as [Ho Ha]. specialize (Hf off x Hin).
  destruct (ks_page _ _ _ Hk v q HO) as (Hh & Hw1 & _). destruct (in_heap_kernel _ _ _ _ Hk Hh) as [Hka Hal].
  destruct (ks_page _ _ _ Hk2 v q HO2) as (_ & Hw2 & _).
  destruct (kernel_addr_PDE v Hka) as (Hvw & _). destruct (owned_aligned _ _ _ _ _ Hk HO) as [_ Hqa].
  rewrite <- Z.add_assoc in *. rewrite (vload_ok k _ (q + (o0 + off))) in Hf by (by apply walk_offset).
  rewrite (vload_ok k2 _ (q + (o0 + off))) by (by apply walk_offset). injection Hf as Hf. do 2 f_equal.
  specialize (Hw ((o0 + off) / 4) ltac:(zarith)). unfold dir_entry in Hw.
  replace (q + (o0 + off) / 4 * 4) with (q + (o0 + off)) in Hw by zarith. congruence.
Qed.

Definition thread_frame (kernel_thread func func_arg : Z) : list (Z * Z) :=
  [(ts_eip, kernel_thread); (ts_func, func); (ts_func_arg, func_arg); (ts_ebp, 0); (ts_ebx, 0); (ts_esi, 0); (ts_edi, 0)].

(** Where the frame of a new thread is in its page: 432 bytes below its end. *)
Definition frame_off : Z := 4096 - 4 * sizeof_intr_stack - 4 * sizeof_thread_stack.

Lemma thread_frame_fits kt f a : is_word kt -> is_word f -> is_word a ->
  fits frame_off (thread_frame kt f a) /\ NoDup (map fst (thread_frame kt f a)).
Proof.
  intros H1 H2 H3. split.
  - unfold fits, thread_frame. repeat (apply Forall_cons; split; [split; [by vm_compute|]|]); try done;
      unfold is_word; lia.
  - apply (bool_decide_unpack _). by vm_compute.
Qed.

Lemma thread_frame_aligned kt f a :
  Forall (fun '(off, x) => 0 <= frame_off + off < 4096 /\ (frame_off + off) mod 4 = 0) (thread_frame kt f a).
Proof. unfold thread_frame. repeat (apply Forall_cons; split; [by vm_compute|]). done. Qed.

Lemma thread_create_ok kt k D O t q p func arg : kspace k D O -> O !! t = Some q -> ~ dir_in_use k D q ->
  pcbs (kth k) !! t = Some p -> self_kstack p = u32 (t + PG_SIZE) -> is_word kt -> is_word func -> is_word arg ->
  let k1 := set_pcbs (<[t := set_self_kstack (t + frame_off) p]> (pcbs (kth k))) k in
  exists r, thread_create kt t func arg k = Ok (tt, set_ram r k1) /\ kspace (set_ram r k1) D O /\
    frame_at (set_ram r k1) (t + frame_off) (thread_frame kt func arg) /\
    data_written k1 r /\ (forall a, ~ (q <= a < q + 4096) -> word r a = word (ram (kmem k)) a).
Proof.
  intros Hk HO Hn Ep Es H1 H2 H3 k1.
  destruct (ks_page _ _ _ Hk t q HO) as (Hh & _). destruct (in_heap_kernel _ _ _ _ Hk Hh) as [Hka Hal].
  assert (Eu : forall d, 0 <= d <= 4096 -> u32 (t + d) = t + d)
    by (intros d Hd; unfold kernel_addr in Hka; apply u32_small; lia).
  unfold PG_SIZE in Es. rewrite (Eu 4096) in Es by lia.
  unfold thread_create. rewrite (bindM_ok _ _ _ _ _ (upd_pcb_ok _ _ _ _ Ep)).
  rewrite Es. set (p1 := set_self_kstack (u32 (t + 4096 - 4 * sizeof_intr_stack)) p).
  set (k0 := set_pcbs (<[t := p1]> (pcbs (kth k))) k).
  assert (Ep1 : pcbs (kth k0) !! t = Some p1) by apply lookup_insert_eq.
  rewrite (bindM_ok _ _ _ _ _ (upd_pcb_ok _ _ _ _ Ep1)).
  cbn [k0 set_pcbs set_kth kth pcbs]. rewrite insert_insert_eq.
  assert (Ep2 : set_self_kstack (u32 (self_kstack p1 - 4 * sizeof_thread_stack)) p1 = set_self_kstack (t + frame_off) p).
  { unfold p1, frame_off, sizeof_intr_stack, sizeof_thread_stack. cbn [self_kstack set_self_kstack].
    replace (t + 4096 - 4 * 76) with (t + 3792) by lia. rewrite (Eu 3792) by lia.
    replace (t + 3792 - 4 * 32) with (t + 3664) by lia. rewrite (Eu 3664) by lia. done. }
  rewrite Ep2.
  assert (K1 : kspace k1 D O) by (by apply (kspace_pcb k D O t p)).
  assert (N1 : ~ dir_in_use k1 D q).
  { intros [E|(x & Hx & E)]; apply Hn; [by left|right]. exists x. split; [|done].
    cbn in Hx. apply lookup_insert_is_Some in Hx as [<-|[_ Hx]]; eauto. }
  destruct (thread_frame_fits kt func arg H1 H2 H3) as [F1 F2].
  destruct (vstores_owned D O t q frame_off (thread_frame kt func arg) k1 K1 HO N1 F1) as (E & K2 & W2).
  eexists. split; [|split; [exact K2|split; [|split; [exact W2|]]]].
  - rewrite (bindM_ok _ _ k1 _ _ (get_pcb_ok k1 t _ (lookup_insert_eq (pcbs (kth k)) t _))). exact E.
  - by apply (frame_at_intro k1 D O t q).
  - intros a Ha. rewrite put_words_out; [done|]. intros off x Hin E'. apply Ha.
    pose proof (proj1 (Forall_forall _ _) F1 _ Hin) as [? _]. lia.
Qed.

(** *** The lists *)

Definition entered (k : kernel) (Γ : gmap Z (list Z)) (rs ts : list Z) (t : Z) : gmap Z (list Z) :=
  <[thread_all_list (kth k) := map all_list_node (ts ++ [t])]>
    (<[thread_ready_list (kth k) := map general_node (rs ++ [t])]> Γ).

Lemma enter_lists_ok k Γ rs ts t : lists_ok (km k) Γ -> thread_ready_list (kth k) <> thread_all_list (kth k) ->
  Γ !! thread_ready_list (kth k) = Some (map general_node rs) ->
  Γ !! thread_all_list (kth k) = Some (map all_list_node ts) ->
  fresh Γ (general_node t) -> fresh Γ (all_list_node t) ->
  exists m, enter_lists t k = Ok (tt, set_km m k) /\ lists_ok m (entered k Γ rs ts t) /\ eflags m = eflags (km k).
Proof.
  intros Hl Hne HR HA Fg Fa. unfold enter_lists. rewrite !bind_gets.
  assert (Hnin : forall L xs a, Γ !! L = Some xs -> fresh Γ a -> bool_decide (a ∈ xs) = false).
  { intros L xs a HL Ha. apply bool_decide_eq_false_2. intros Hin. apply (proj2 Ha L xs HL). unfold foot. set_solver. }
  rewrite (bindM_ok _ _ _ _ _ (on_node_find k Γ _ _ _ Hl HR)), (Hnin _ _ _ HR Fg), bind_assert by done.
  rewrite (bindM_ok _ _ _ _ _ (on_node_find k Γ _ _ _ Hl HA)), (Hnin _ _ _ HA Fa), bind_assert by done.
  destruct (list_append_ok (km k) Γ _ _ _ Hl HR Fg) as (m1 & E1 & L1 & F1).
  rewrite (bindM_ok _ _ _ _ _ (on_mach_ok _ k _ _ E1)).
  set (Γ1 := <[thread_ready_list (kth k) := map general_node rs ++ [general_node t]]> Γ) in *.
  destruct (list_append_ok m1 Γ1 (thread_all_list (kth k)) (map all_list_node ts) (all_list_node t) L1)
    as (m2 & E2 & L2 & F2).
  - unfold Γ1. by rewrite lookup_insert_ne.
  - apply (fresh_add Γ _ (map general_node rs) _ _ (general_node t)); try done.
    + unfold all_list_node, general_node. lia.
    + intros x. set_solver.
  - exists m2. rewrite (on_mach_ok _ (set_km m1 k) _ _ E2). split; [done|]. split; [|congruence].
    unfold entered. rewrite !map_app. exact L2.
Qed.

(** *** A thread enters *)

(** [Γ1] has more lists than [Γ], in the page of [t] behind its two nodes. *)
Record page_lists (t : Z) (Γ Γ1 : gmap Z (list Z)) : Prop := {
  pl_old : forall L xs, Γ !! L = Some xs -> Γ1 !! L = Some xs;
  pl_new : forall L xs a, Γ1 !! L = Some xs -> a ∈ foot L xs -> Γ !! L = Some xs \/ t + 48 <= a < t + 4096 }.

Lemma page_lists_refl t Γ : page_lists t Γ Γ.
Proof. split; auto. Qed.

Lemma page_lists_fresh t Γ Γ1 a : page_lists t Γ Γ1 -> fresh Γ a -> ~ (t + 48 <= a < t + 4096) -> fresh Γ1 a.
Proof.
  intros [_ Hn] [H0 Hf] Ha. split; [done|]. intros L xs HL Hin. destruct (Hn L xs a HL Hin) as [HG|]; [|done].
  by apply (Hf L xs).
Qed.

(** [k] is [k0] with one thread more, which is in no list yet. *)
Record newcomer (k0 k : kernel) (t : Z) (p : pcb) : Prop := {
  nc_pcbs : pcbs (kth k) = <[t := p]> (pcbs (kth k0));
  nc_status : status p = TASK_READY;
  nc_pid : 1 <= pid p <= 127 /\ pid_taken k0 (pid p) = false;
  nc_pool : pid_pool_ok k /\ forall y, 1 <= y <= 1024 ->
    pid_taken k y = if Z.eq_dec (pid p) y then true else pid_taken k0 y;
  nc_kth : thread_ready_list (kth k) = thread_ready_list (kth k0) /\
    thread_all_list (kth k) = thread_all_list (kth k0) /\ idle_thread (kth k) = idle_thread (kth k0) /\
    main_thread (kth k) = main_thread (kth k0);
  nc_cur : cur (kc k) = cur (kc k0);
  nc_ksy : ksy k = ksy k0;
  nc_walk : forall v, kernel_addr v -> walk k0 v <> None -> walk k v <> None;
  nc_page : kernel_addr t /\ t mod 4096 = 0 /\ walk k0 t = None /\ walk k t <> None }.

Section enter.
Context (pool_lock : pool_flag -> Z) (pid_lock : Z).

Lemma system_no_pcb k D O Γ rs ts t : system_ok pool_lock pid_lock k D O Γ rs ts -> walk k t = None ->
  pcbs (kth k) !! t = None.
Proof.
  intros Hs Hn. destruct (pcbs (kth k) !! t) eqn:E; [|done].
  destruct (so_pcbs _ _ _ _ _ _ _ _ Hs t ltac:(eauto)) as [[_ Hw] _]. done.
Qed.

Lemma aligned_nodes t x : t mod 4096 = 0 -> x mod 4096 = 0 -> general_node x <> all_list_node t.
Proof. unfold general_node, all_list_node. intros. zarith. Qed.

Lemma st_newcomer k0 k t p x : newcomer k0 k t p -> st k x = if Z.eq_dec t x then Some TASK_READY else st k0 x.
Proof.
  intros Hn. unfold st. rewrite (nc_pcbs _ _ _ _ Hn). destruct (Z.eq_dec t x) as [<-|].
  - rewrite lookup_insert_eq. cbn. by rewrite (nc_status _ _ _ _ Hn).
  - by rewrite lookup_insert_ne.
Qed.

Lemma enter_sched k0 k D D' O' O Γ Γ1 rs ts t p m : system_ok pool_lock pid_lock k0 D O Γ rs ts -> newcomer k0 k t p ->
  page_lists t Γ Γ1 -> kspace k D' O' -> lists_ok m (entered k Γ1 rs ts t) ->
  sched_ok (set_km m k) D' (entered k Γ1 rs ts t) (rs ++ [t]).
Proof.
  intros Hs Hn Hpl Hk Hl. pose proof Hn as [N1 N2 N3 N4 (R1 & R2 & R3 & R4) N6 N7 N8 (P1 & P2 & P3 & P4)].
  destruct (so_sched _ _ _ _ _ _ _ _ Hs) as [[S1 S2 S3 S4 S5 S6 S7 S8] Sr].
  pose proof (system_no_pcb _ _ _ _ _ _ _ Hs P3) as Hnt.
  assert (Hne : thread_ready_list (kth k) <> thread_all_list (kth k)).
  { rewrite R1, R2. pose proof (so_apart _ _ _ _ _ _ _ _ Hs) as Ha.
    apply NoDup_cons in Ha as [Ha _]. set_solver. }
  assert (Hst : forall x, st (set_km m k) x = if Z.eq_dec t x then Some TASK_READY else st k0 x)
    by (intros x; by apply (st_newcomer k0 k t p)).
  assert (Hfr : forall x, is_Some (pcbs (kth k0) !! x) -> fresh Γ (general_node x) ->
    fresh (entered k Γ1 rs ts t) (general_node x)).
  { intros x Hx Hf. destruct (so_pcbs _ _ _ _ _ _ _ _ Hs x Hx) as [_ Hxa].
    assert (Hxt : x <> t) by (intros ->; rewrite Hnt in Hx; by destruct Hx).
    pose proof (page_lists_fresh t Γ Γ1 _ Hpl Hf ltac:(unfold general_node; zarith)) as Hf1.
    pose proof (to_list _ _ _ (so_threads _ _ _ _ _ _ _ _ Hs)) as HA. rewrite <- R2 in HA. rewrite <- R1 in S2.
    unfold entered. rewrite !map_app.
    apply (fresh_add _ _ (map all_list_node ts) _ _ (all_list_node t)).
    - apply (fresh_add Γ1 _ (map general_node rs) _ _ (general_node t)); [done|by apply (pl_old _ _ _ Hpl)| |set_solver].
      intros E. by apply general_node_inj in E.
    - rewrite lookup_insert_ne by done. by apply (pl_old _ _ _ Hpl).
    - by apply aligned_nodes.
    - set_solver. }
  split; [split|].
  - exact Hl.
  - cbn. unfold entered. rewrite lookup_insert_ne by done. apply lookup_insert_eq.
  - intros x. rewrite Hst, elem_of_app, list_elem_of_singleton, S3. destruct (Z.eq_dec t x) as [->|]; [tauto|].
    split; [intros [|E]; [done|congruence]|tauto].
  - cbn. rewrite N1, N6. apply lookup_insert_is_Some. destruct (decide (t = cur (kc k0))); [by left|by right].
  - intros x. rewrite Hst. destruct (Z.eq_dec t x); [done|]. intros Hx. destruct (S5 x Hx) as [-> Hf].
    split; [by cbn|]. by apply Hfr.
  - destruct S6 as (s & Es & Hcase). exists s. rewrite Hst. cbn. rewrite R3.
    destruct (Z.eq_dec t (idle_thread (kth k0))) as [E|].
    + exfalso. unfold st in Es. rewrite <- E, Hnt in Es. done.
    + split; [done|]. destruct Hcase as [|[|[-> Hf]]]; [by left|by right; left|]. right; right. split; [done|].
      apply Hfr; [|done]. unfold st in Es. apply fmap_Some in Es as (y & Ey & _). eauto.
  - intros x. cbn. rewrite N1. intros [<-|[_ Hx]]%lookup_insert_is_Some; [unfold kernel_addr, NULL in *; lia|].
    by apply S7.
  - apply (dirs_ok_upd k); [by apply (kspace_dirs _ _ O')|done|done|].
    apply (dir_live_in_use k D'), (ks_cr3 _ _ _ Hk).
  - rewrite Hst. cbn. rewrite N6. destruct (Z.eq_dec t (cur (kc k0))) as [E|]; [|done].
    rewrite <- E, Hnt in S4. by destruct S4.
Qed.

Lemma enter_threads k0 k D O Γ Γ1 rs ts t p m : system_ok pool_lock pid_lock k0 D O Γ rs ts -> newcomer k0 k t p ->
  threads_ok (set_km m k) (entered k Γ1 rs ts t) (ts ++ [t]).
Proof.
  intros Hs Hn. pose proof Hn as [N1 N2 [N3 N3'] [N4 N4'] (R1 & R2 & R3 & R4) N6 N7 N8 (P1 & P2 & P3 & P4)].
  destruct (so_threads _ _ _ _ _ _ _ _ Hs) as [T1 T2 T3 T4 T5].
  pose proof (system_no_pcb _ _ _ _ _ _ _ Hs P3) as Hnt.
  assert (Ha : forall x y, alive (set_km m k) x y <-> x = t /\ y = p \/ alive k0 x y).
  { intros x y. unfold alive. cbn. rewrite N1, lookup_insert_Some. split.
    - intros [[[<- <-]|[_ H]] H']; [by left|by right].
    - intros [[-> ->]|[H H']]; [split; [by left|by rewrite N2]|].
      split; [|done]. right. split; [|done]. intros <-. congruence. }
  assert (Hpid : forall y, 1 <= y <= 127 -> pid_taken k0 y = true -> pid_taken (set_km m k) y = true).
  { intros y Hy Hyt. change (pid_taken k y = true). rewrite N4' by lia. by destruct (Z.eq_dec _ _). }
  split.
  - cbn. unfold entered. apply lookup_insert_eq.
  - intros x. rewrite elem_of_app, list_elem_of_singleton, T2. split.
    + intros [[y Hy]| ->]; [exists y; apply Ha; by right|exists p; apply Ha; by left].
    + intros (y & Hy). apply Ha in Hy as [[-> _]|Hy]; [by right|left; eauto].
  - destruct N4. by split.
  - intros x y Hy. apply Ha in Hy as [[-> ->]|Hy].
    + split; [done|]. change (pid_taken k (pid p) = true). rewrite N4' by lia. by destruct (Z.eq_dec _ _).
    + destruct (T4 x y Hy). auto.
  - intros t1 t2 p1 p2 H1 H2 E. apply Ha in H1 as [[-> ->]|H1]; apply Ha in H2 as [[-> ->]|H2]; [done| | |].
    + destruct (T4 t2 p2 H2). congruence.
    + destruct (T4 t1 p1 H1). congruence.
    + by apply (T5 t1 t2 p1 p2).
Qed.

Lemma entered_lookup k0 k D O Γ Γ1 rs ts t p L : system_ok pool_lock pid_lock k0 D O Γ rs ts -> newcomer k0 k t p ->
  page_lists t Γ Γ1 -> L <> thread_ready_list (kth k0) -> L <> thread_all_list (kth k0) ->
  forall xs, Γ !! L = Some xs -> entered k Γ1 rs ts t !! L = Some xs.
Proof.
  intros Hs [_ _ _ _ (R1 & R2 & _) _ _ _ _] Hpl N1 N2 xs HL. unfold entered.
  rewrite !lookup_insert_ne by congruence. by apply (pl_old _ _ _ Hpl).
Qed.

Lemma system_enter k0 k D D' O O' Γ Γ1 rs ts t p m : system_ok pool_lock pid_lock k0 D O Γ rs ts ->
  newcomer k0 k t p -> page_lists t Γ Γ1 -> kspace k D' O' -> lists_ok m (entered k Γ1 rs ts t) ->
  system_ok pool_lock pid_lock (set_km m k) D' O' (entered k Γ1 rs ts t) (rs ++ [t]) (ts ++ [t]).
Proof.
  intros Hs Hn Hpl Hk Hl. pose proof Hn as [N1 N2 N3 N4 (R1 & R2 & R3 & R4) N6 N7 N8 (P1 & P2 & P3 & P4)].
  pose proof (so_apart _ _ _ _ _ _ _ _ Hs) as Hap.
  pose proof (kspace_km k m D' O' Hk) as Hk'.
  assert (Hkept : forall a, kmapped k0 a -> kmapped (set_km m k) a)
    by (intros a; apply kmapped_kept; exact N8).
  assert (Hpage : forall a, t <= a < t + 4096 -> kmapped (set_km m k) a).
  { intros a Ha. unfold kernel_addr in P1. split; [unfold kernel_addr; zarith|]. intros Hw. apply P4.
    apply (walk_none_page (set_km m k) a); [unfold is_word; zarith|unfold is_word; zarith|zarith|done]. }
  assert (Hlock : forall lk, lock_idle k0 Γ lk -> waiters (lock_semaphore lk) <> thread_ready_list (kth k0) ->
    waiters (lock_semaphore lk) <> thread_all_list (kth k0) -> lock_idle (set_km m k) (entered k Γ1 rs ts t) lk).
  { intros lk [L1 L2 L3] W1 W2. split; cbn; rewrite ?N7; [done|done|]. by apply (entered_lookup k0 k D O Γ Γ1 rs ts t p). }
  split.
  - exact Hk'.
  - by apply (enter_sched k0 k D D' O' O Γ Γ1 rs ts t p m).
  - by apply (enter_threads k0 k D O Γ Γ1 rs ts t p m).
  - assert (Hnodes : forall a, a ∈ foot (thread_ready_list (kth k)) (map general_node (rs ++ [t])) \/
      a ∈ foot (thread_all_list (kth k)) (map all_list_node (ts ++ [t])) -> kmapped (set_km m k) a).
    { pose proof (so_linked _ _ _ _ _ _ _ _ Hs) as Hlk.
      pose proof (sp_ready _ _ _ _ (proj1 (so_sched _ _ _ _ _ _ _ _ Hs))) as HR.
      pose proof (to_list _ _ _ (so_threads _ _ _ _ _ _ _ _ Hs)) as HA.
      intros a. rewrite R1, R2, !map_app. unfold foot. cbn [map].
      intros [Ha|Ha]; rewrite !elem_of_cons, !elem_of_app, !list_elem_of_singleton in Ha.
      - destruct Ha as [->|[[Ha| ->]| ->]].
        + apply Hkept, (Hlk _ _ _ HR). unfold foot. set_solver.
        + apply Hkept, (Hlk _ _ _ HR). unfold foot. set_solver.
        + apply Hpage. unfold general_node. lia.
        + apply Hkept, (Hlk _ _ _ HR). unfold foot. set_solver.
      - destruct Ha as [->|[[Ha| ->]| ->]].
        + apply Hkept, (Hlk _ _ _ HA). unfold foot. set_solver.
        + apply Hkept, (Hlk _ _ _ HA). unfold foot. set_solver.
        + apply Hpage. unfold all_list_node. lia.
        + apply Hkept, (Hlk _ _ _ HA). unfold foot. set_solver. }
    intros L xs a. unfold entered. intros [[<- <-]|[_ HL]]%lookup_insert_Some Ha; [apply Hnodes; by right|].
    apply lookup_insert_Some in HL as [[<- <-]|[_ HL]]; [apply Hnodes; by left|].
    destruct (pl_new _ _ _ Hpl L xs a HL Ha) as [HG|Hr]; [|apply Hpage; lia].
    by apply Hkept, (so_linked _ _ _ _ _ _ _ _ Hs L xs).
  - intros x. cbn. rewrite N1. intros [<-|[_ Hx]]%lookup_insert_is_Some.
    + split; [apply Hpage; lia|done].
    + destruct (so_pcbs _ _ _ _ _ _ _ _ Hs x Hx). split; [by apply Hkept|done].
  - apply Hlock; [apply (so_pool_lock _ _ _ _ _ _ _ _ Hs)| |]; rewrite !NoDup_cons in Hap; set_solver.
  - apply Hlock; [apply (so_pid_lock _ _ _ _ _ _ _ _ Hs)| |]; rewrite !NoDup_cons in Hap; set_solver.
  - cbn. by rewrite R1, R2.
  - cbn. rewrite N1, R4, lookup_insert_is_Some'. right. apply (so_main _ _ _ _ _ _ _ _ Hs).
Qed.
End enter.

(** *** Pages *)

(** What [get_kernel_pages] leaves: the [n] pages from [v] on, in [qs]. *)
Record pages_got (k k1 : kernel) (D : Z -> Z) (O : gmap Z Z) (v n : Z) (qs : list Z) : Prop := {
  pg_space : kspace k1 D (own v qs O);
  pg_km : km k1 = km k;
  pg_kc : kc k1 = kc k;
  pg_kth : kth k1 = kth k;
  pg_ksy : ksy k1 = ksy k;
  pg_count : zlen qs = n;
  pg_addr : v mod 4096 = 0 /\ forall i, 0 <= i < n * 4096 -> kernel_addr (v + i) /\ walk k (v + i) = None;
  pg_frames : forall q, q ∈ qs -> ~ dir_in_use k D q;
  pg_owned : owned_run k1 D (own v qs O) v qs;
  pg_walk : forall w, kernel_addr w -> walk k w <> None -> walk k1 w = walk k w;
  pg_zero : forall q o, q ∈ qs -> 0 <= o < 1024 -> word (ram (kmem k1)) (q + o * 4) = 0;
  pg_budget : forall m, budget PF_KERNEL k (Z.to_nat n + m) -> budget PF_KERNEL k1 m;
  pg_kept : forall c i, known_page O c -> 0 <= i < 1024 -> dir_entry k1 c i = dir_entry k c i;
  pg_size : len (vaddr_bitmap (kernel_vaddr (kmem k1))) = len (vaddr_bitmap (kernel_vaddr (kmem k)));
  pg_bits : let va := kernel_vaddr (kmem k) in forall j, in_bits (vaddr_bitmap va) j ->
    bit (vaddr_bitmap (kernel_vaddr (kmem k1))) j =
      if bool_decide (v <= vaddr_start va + j * 4096 < v + n * 4096) then true else bit (vaddr_bitmap va) j }.

Lemma budget_ram pf k r n : budget pf (set_ram r k) n <-> budget pf k n.
Proof. by destruct pf. Qed.

Lemma in_use_kth k k' D c : kth k' = kth k -> dir_in_use k' D c <-> dir_in_use k D c.
Proof. intros E. unfold dir_in_use. by rewrite E. Qed.

Lemma kernel_pages_ok pool_lock k D O Γ n : kspace k D O -> lists_ok (km k) Γ -> lock_idle k Γ (pool_lock PF_KERNEL) ->
  cur (kc k) <> NULL -> 0 < n < 3840 -> n <= len (vaddr_bitmap (kernel_vaddr (kmem k))) ->
  budget PF_KERNEL k (Z.to_nat n) ->
  (get_kernel_pages pool_lock n k = Ok (Done NULL, k) /\ no_run (kernel_vaddr (kmem k)) n) \/
  exists v qs k1, get_kernel_pages pool_lock n k = Ok (Done v, k1) /\ v <> NULL /\ pages_got k k1 D O v n qs.
Proof.
  intros Hk Hl Hlk Hc Hn Hlen Hb.
  destruct (get_pages_ok PF_KERNEL pool_lock _ k Γ n (ks_current _ _ _ Hk) (ks_vspace _ _ _ Hk) Hn Hlen Hb Hl Hlk Hc)
    as [H|(v & k' & va' & qs & r & E & Hv & Hal & Hdw & Hz & Hout)]; [by left|right].
  pose proof (kspace_alloc k k' D O va' v n qs r Hk Hal Hdw Hout) as Hk1.
  pose proof (ks_vspace _ _ _ Hk) as (_ & Hwf & Hun).
  destruct (al_index _ _ _ _ _ _ _ _ Hal) as (i0 & Hi0 & Ev & Hle). set (va := kernel_vaddr (kmem k)) in *.
  pose proof (al_count _ _ _ _ _ _ _ _ Hal) as Hcnt.
  destruct (al_km _ _ _ _ _ _ _ _ Hal) as (Ekm & Eks & Ekc).
  destruct (al_rest _ _ _ _ _ _ _ _ Hal) as (_ & _ & Eth & _ & Eva). cbn in Eth, Eva.
  pose proof Hwf as [Hb1 Hb2 Hb3 Hb4]. cbn [space_end] in Hb4. pose proof (ks_base _ _ _ Hk) as Hbase. fold va in Hbase.
  assert (Hfr : forall q, q ∈ qs -> page_free (kernel_pool (kmem k)) q /\ q mod 4096 = 0).
  { intros q Hq. apply list_elem_of_lookup in Hq as [j Hj].
    destruct (al_frames _ _ _ _ _ _ _ _ Hal j q Hj) as (_ & _ & Hf & _). split; [done|].
    destruct Hf as (l & Hl' & -> & _). by apply (page_at_word _ l (ps_kernel _ (mo_pools _ (ks_current _ _ _ Hk))) Hl'). }
  assert (Hnu : forall q, q ∈ qs -> ~ dir_in_use k D q)
    by (intros q Hq Hu; apply (dir_not_free k D O q Hk Hu), Hfr, Hq).
  assert (Hmapped : forall w, walk k w <> None -> ~ (v <= w < v + n * 4096) \/ ~ kernel_addr w).
  { intros w Hw. destruct (decide (kernel_addr w)) as [Hka|]; [left|by right]. intros Hin. apply Hw.
    destruct (lookup_lt_is_Some_2 qs (Z.to_nat ((w - v) / 4096))) as [q Hq]; [unfold zlen in Hcnt; zarith|].
    destruct (al_frames _ _ _ _ _ _ _ _ Hal _ q Hq) as (Hnone & _).
    apply (walk_none_page k (v + Z.of_nat (Z.to_nat ((w - v) / 4096)) * 4096));
      [unfold kernel_addr, is_word in *; zarith|unfold kernel_addr, is_word in *; zarith|zarith|done]. }
  exists v, qs, (set_ram r k'). split; [exact E|]. split; [exact Hv|]. split; try done.
  - split; [subst v; zarith|]. intros i Hi. assert (Hka : kernel_addr (v + i)) by (unfold kernel_addr; lia).
    split; [done|]. destruct (walk k (v + i)) eqn:Ew; [|done]. exfalso.
    destruct (Hmapped (v + i)) as [Hx|Hx]; [by rewrite Ew|lia|done].
  - split.
    + intros i q Hq. split; [by apply own_in|]. intros Hu. apply (Hnu q); [by eapply list_elem_of_lookup_2|].
      by apply (in_use_kth k (set_ram r k')).
    + exists i0. cbn [set_ram set_kmem kmem kernel_vaddr]. rewrite Eva, (al_start _ _ _ _ _ _ _ _ Hal).
      pose proof (al_len _ _ _ _ _ _ _ _ Hal). lia.
  - intros w Hka Hw. rewrite (dw_walk _ _ Hdw) by (unfold kernel_addr, is_word in *; lia).
    apply (al_others _ _ _ _ _ _ _ _ Hal); [unfold kernel_addr, heap_addr in *; lia|].
    by destruct (Hmapped w Hw).
  - intros m Hm. apply budget_ram, (al_budget _ _ _ _ _ _ _ _ Hal).
    replace (length qs) with (Z.to_nat n) by (unfold zlen in Hcnt; lia). exact Hm.
  - intros c i Hu Hi. pose proof (known_aligned _ _ _ _ Hk Hu). unfold dir_entry. cbn [set_ram set_kmem kmem ram].
    assert (Hrun : forall j, (j < length qs)%nat -> kernel_addr (v + Z.of_nat j * 4096))
      by (intros j Hj; unfold kernel_addr, zlen in *; lia).
    rewrite Hout.
    + apply (al_words _ _ _ _ _ _ _ _ Hal); [by apply (kernel_tables k D O)|].
      intros j Hj. apply (known_not_entry k D O); [done|done|done|by apply Hrun].
    + intros q Hq Hin. destruct (Hfr q Hq) as [Hf Ha]. assert (q = c) as -> by zarith.
      by apply (known_not_free k D O c Hk Hu).
  - cbn [set_ram set_kmem kmem kernel_vaddr]. rewrite Eva. apply (al_size _ _ _ _ _ _ _ _ Hal).
  - cbn zeta. intros j Hj. cbn [set_ram set_kmem kmem kernel_vaddr]. rewrite Eva. by apply (al_bits _ _ _ _ _ _ _ _ Hal).
Qed.

Section pages.
Context (pool_lock : pool_flag -> Z) (pid_lock : Z).

Lemma system_cur k D O Γ rs ts : system_ok pool_lock pid_lock k D O Γ rs ts ->
  kernel_addr (cur (kc k)) /\ cur (kc k) <> NULL.
Proof.
  intros Hs. destruct (so_pcbs _ _ _ _ _ _ _ _ Hs (cur (kc k))) as [[Hka _] _].
  - apply (sp_cur _ _ _ _ (proj1 (so_sched _ _ _ _ _ _ _ _ Hs))).
  - split; [done|]. unfold kernel_addr, NULL in *. lia.
Qed.

(** Pages alone do not disturb the system. *)
Lemma system_mem k k1 D O O' Γ rs ts : system_ok pool_lock pid_lock k D O Γ rs ts -> kspace k1 D O' ->
  km k1 = km k -> kth k1 = kth k -> ksy k1 = ksy k -> cur (kc k1) = cur (kc k) ->
  (forall w, kernel_addr w -> walk k w <> None -> walk k1 w <> None) ->
  system_ok pool_lock pid_lock k1 D O' Γ rs ts.
Proof.
  intros [S1 S2 S3 S4 S5 [A1 A2 A3] [B1 B2 B3] S8 S9] Hk Em Et Ey Ec Hw.
  assert (Hkept : forall a, kmapped k a -> kmapped k1 a) by (intros a; by apply kmapped_kept).
  split; try rewrite Et; try done.
  - by apply (sched_ok_space k _ _ O').
  - destruct S3 as [T1 T2 [P1 P2 P3 P4] T4 T5]. unfold pid_taken, alive in *. split; unfold pid_taken, alive; rewrite ?Et; try done.
    split; by rewrite Et.
  - intros L xs a HL Ha. by apply Hkept, (S4 L xs).
  - intros t Ht. destruct (S5 t Ht). split; [by apply Hkept|done].
  - split; by rewrite ?Ey.
  - split; by rewrite ?Ey.
Qed.

(** The links change, the lists do not. *)
Lemma system_km k m D O Γ rs ts : system_ok pool_lock pid_lock k D O Γ rs ts -> lists_ok m Γ ->
  system_ok pool_lock pid_lock (set_km m k) D O Γ rs ts.
Proof.
  intros [S1 [S2 S2'] [T1 T2 [P1 P2 P3 P4] T4 T5] S4 S5 [A1 A2 A3] [B1 B2 B3] S8 S9] Hl. split; try done.
  - by apply kspace_km.
  - split; [by apply sched_pre_mach|done].
Qed.
End pages.

Lemma thread_added_space k D O m b t p : kspace k D O -> pcbs (kth k) !! t = None -> pg_dir p = NULL ->
  kspace (thread_added k m b t p) (set_dir t kdir D) O.
Proof.
  intros Hk Hn Hp. pose proof (kspace_add k D O t p Hk Hn Hp) as Hk1. unfold thread_added.
  set (k1 := set_pcbs _ k) in *. apply (kspace_threads k1); try done.
  - exact (threads_less_refl k1).
  - exact (ks_cr3 _ _ _ Hk1).
Qed.

Lemma set_dir_in_use k D m b t p q : ~ dir_in_use k D q -> pcbs (kth k) !! t = None -> q <> kdir ->
  ~ dir_in_use (thread_added k m b t p) (set_dir t kdir D) q.
Proof.
  intros Hn Ht Hq [E|(x & Hx & E)]; [done|]. cbn in Hx. apply lookup_insert_is_Some in Hx as [<-|[N Hx]].
  - by rewrite set_dir_eq in E.
  - rewrite set_dir_ne in E by done. apply Hn. right. by exists x.
Qed.
