(* ===== verification/Switch.v ===== *)
(** * Switch: the scheduler keeps the system

    A switch loads another page directory and changes the status of threads.
    Kernel pages being mapped alike in every directory, the address spaces
    stay as they are, and so does everything [system_ok] says. *)

From S2P Require Import Prelude CString Interrupt Lists Bitmap Kernel Paging Thread Sync IoQueue Memory DataPages Heap Pid Space Process System.

(** *** Switching between processes *)

(** Another directory is loaded. *)
Lemma kspace_load k D O c : kspace k D O -> dir_live k D c -> kspace (with_cr3 c k) D O.
Proof.
  intros Hk Hc. assert (Hw : forall v, kernel_addr v -> walk (with_cr3 c k) v = walk k v)
    by (intros v Hv; apply (kernel_walk k D O); [done|by apply dir_live_in_use|done]).
  pose proof Hk as [K1 K2 K3 K4 K5 K6 K7 K8 K9 K10 K11 K12 K13 K14]. split; try done.
  - destruct K3 as (H1 & H2 & H3). split; [done|]. split; [done|]. intros i Hi Hb. rewrite Hw; [by apply H3|].
    destruct H2 as [_ _ _ H2e]. cbn [space_end] in H2e. unfold kernel_addr, in_bits in *. cbn in *. lia.
  - intros v q HO. destruct (K6 v q HO) as (H1 & H2 & H3). split; [done|]. split; [|done].
    rewrite Hw; [done|]. by destruct (in_heap_kernel _ _ _ _ Hk H1).
Qed.

Lemma kspace_switch k k' D O : kspace k D O -> kmem k' = kmem k -> threads_less k k' ->
  dir_live k' D (cr3 (kc k')) -> kspace k' D O.
Proof.
  intros Hk Em Hl Hc. apply (kspace_threads (with_cr3 (cr3 (kc k')) k)); try done.
  apply kspace_load; [done|]. by apply (less_live k k').
Qed.

(** The PCBs of [k'] are those of [k] but for the status; threads neither come
    back to life nor die. *)
Definition same_thread_but_status (p p' : pcb) : Prop :=
  p' = set_status (status p') p /\ (status p' = TASK_DIED <-> status p = TASK_DIED) /\
  (status p = TASK_HANGING -> status p' = TASK_HANGING).

Definition relabelled (k k' : kernel) : Prop := forall t,
  match pcbs (kth k) !! t, pcbs (kth k') !! t with
  | Some p, Some p' => same_thread_but_status p p'
  | None, None => True
  | _, _ => False
  end.

Lemma relabelled_old k k' t p' : relabelled k k' -> pcbs (kth k') !! t = Some p' ->
  exists p, pcbs (kth k) !! t = Some p /\ same_thread_but_status p p'.
Proof. intros Hr E. specialize (Hr t). rewrite E in Hr. destruct (pcbs (kth k) !! t) as [p|]; [eauto|done]. Qed.

Lemma relabelled_new k k' t p : relabelled k k' -> pcbs (kth k) !! t = Some p ->
  exists p', pcbs (kth k') !! t = Some p' /\ same_thread_but_status p p'.
Proof. intros Hr E. specialize (Hr t). rewrite E in Hr. destruct (pcbs (kth k') !! t) as [p'|]; [eauto|done]. Qed.

Lemma relabelled_alive k k' t p' : relabelled k k' -> alive k' t p' -> exists p, alive k t p /\ pid p = pid p'.
Proof.
  intros Hr [E Hs]. destruct (relabelled_old k k' t p' Hr E) as (p & Ep & E1 & E2 & _). exists p.
  split; [split; [done|by rewrite <- E2]|]. by rewrite E1.
Qed.

Lemma relabelled_less k k' : relabelled k k' -> threads_less k k'.
Proof.
  intros Hr t p' E. destruct (relabelled_old k k' t p' Hr E) as (p & Ep & E1 & E2 & E3). exists p.
  split; [done|]. split; [by rewrite E1|]. intros [H1 H2]. split; [by intros ?%E3|by rewrite <- E2].
Qed.

Lemma same_but_live p x : x <> TASK_DIED -> status p <> TASK_DIED -> status p <> TASK_HANGING ->
  same_thread_but_status p (set_status x p).
Proof. intros H1 H2 H3. split; [by destruct p|]. by split. Qed.

Lemma same_but_refl p : same_thread_but_status p p.
Proof. split; [by destruct p|]. by split. Qed.

(** Every address of the page of a PCB is mapped. *)
Lemma kmapped_page k t o : mem_ok k -> kmapped k t -> t mod 4096 = 0 -> 0 <= o < 4096 -> kmapped k (t + o).
Proof.
  intros Hok [Hk Hw] Ha Ho. assert (kernel_addr (t + o)) by (unfold kernel_addr in *; zarith). split; [done|].
  intros Hn. apply Hw. apply (walk_none_page k (t + o)); unfold kernel_addr, is_word in *; [lia|lia|zarith|done].
Qed.

Section switch.
Context (pool_lock : pool_flag -> Z) (pid_lock : Z).

(** What an operation of the scheduler does to the system: threads change
    their status, the ready queue is another, one of the threads runs. *)
Lemma system_relabel k k' D O Γ rs rs' ts : system_ok pool_lock pid_lock k D O Γ rs ts ->
  let Γ' := <[thread_ready_list (kth k) := map general_node rs']> Γ in
  sched_ok k' D Γ' rs' -> kmem k' = kmem k -> ksy k' = ksy k -> kth k' = kth (set_pcbs (pcbs (kth k')) k) ->
  relabelled k k' -> dir_live k' D (cr3 (kc k')) ->
  system_ok pool_lock pid_lock k' D O Γ' rs' ts.
Proof.
  intros [S1 [P1 P2] [T1 T2 T3 T4 T5] S4 S5 [A1 A2 A3] [B1 B2 B3] S8 S9] Γ' Hs Em Ey Et Hr Hd.
  assert (Hsp : kspace k' D O) by (apply (kspace_switch k); [done|done|by apply relabelled_less|done]).
  assert (Hmap : forall a, kmapped k a -> kmapped k' a).
  { intros a [Ha Hw]. split; [done|]. assert (E : walk k' a = walk (with_cr3 (cr3 (kc k')) k) a)
      by (unfold walk; by rewrite Em). rewrite E.
    assert (E' : walk (with_cr3 (cr3 (kc k')) k) a = walk k a); [|by rewrite E'].
    apply (kernel_walk k D O); [done| |done]. apply dir_live_in_use, (less_live k k'); [by apply relabelled_less|done]. }
  assert (Hpcb : forall t, is_Some (pcbs (kth k') !! t) -> is_Some (pcbs (kth k) !! t)).
  { intros t [p' E]. destruct (relabelled_old k k' t p' Hr E) as (p & Ep & _). eauto. }
  assert (Ht : thread_ready_list (kth k') = thread_ready_list (kth k) /\ thread_all_list (kth k') = thread_all_list (kth k) /\
    main_thread (kth k') = main_thread (kth k) /\ pid_bitmap (kth k') = pid_bitmap (kth k) /\ pid_start (kth k') = pid_start (kth k))
    by (rewrite Et; done).
  destruct Ht as (Ht1 & Ht2 & Ht3 & Ht4 & Ht5).
  assert (Htk : forall x, pid_taken k' x = pid_taken k x) by (intros x; unfold pid_taken; by rewrite Ht4).
  pose proof S8 as Hnd. apply NoDup_cons in S8 as [N1 _].
  assert (Hother : forall L, L ∈ [thread_all_list (kth k); waiters (lock_semaphore (pool_lock PF_KERNEL)); waiters (lock_semaphore pid_lock)] ->
    Γ' !! L = Γ !! L) by (intros L H; apply lookup_insert_ne; intros <-; done).
  split; rewrite ?Ht1, ?Ht2, ?Ht3; try done.
  - split; rewrite ?Ht2.
    + rewrite Hother; [done|by left].
    + intros t. rewrite T2. split.
      * intros (p & E & Hd'). destruct (relabelled_new k k' t p Hr E) as (p' & E' & _ & H2 & _). exists p'.
        split; [done|by rewrite H2].
      * intros (p' & Ha). destruct (relabelled_alive k k' t p' Hr Ha) as (p & Hp & _). by exists p.
    + destruct T3. by split; rewrite ?Ht4, ?Ht5.
    + intros t p' Ha. destruct (relabelled_alive k k' t p' Hr Ha) as (p & Hp & <-). rewrite Htk. by apply (T4 t).
    + intros t1 t2 p1 p2 H1 H2 E. destruct (relabelled_alive k k' t1 p1 Hr H1) as (q1 & Q1 & R1).
      destruct (relabelled_alive k k' t2 p2 Hr H2) as (q2 & Q2 & R2). apply (T5 t1 t2 q1 q2); congruence.
  - intros L xs a HL Ha. apply lookup_insert_Some in HL as [[<- <-]|[_ HL]]; [|by apply Hmap, (S4 L xs)].
    unfold foot in Ha. apply elem_of_cons in Ha as [->|[Ha|Ha%list_elem_of_singleton]%elem_of_app].
    + apply Hmap, (S4 _ _ _ (sp_ready _ _ _ _ P1)). by left.
    + apply list_elem_of_fmap in Ha as (t & -> & Ht). destruct (S5 t) as [Hm Hal].
      { apply Hpcb, (ready_pcb k' D Γ' rs'); [apply Hs|done]. }
      apply Hmap, kmapped_page; [by apply (ks_current k D O)|done|done|lia].
    + rewrite Ha. apply Hmap, (S4 _ _ _ (sp_ready _ _ _ _ P1)). right. apply elem_of_app. right. by left.
  - intros t Ht. destruct (S5 t (Hpcb t Ht)). split; [by apply Hmap|done].
  - split; rewrite ?Ey; try done. rewrite Hother; [done|right; by left].
  - split; rewrite ?Ey; try done. rewrite Hother; [done|right; right; by left].
  - destruct S9 as [p E]. destruct (relabelled_new k k' _ p Hr E) as (p' & E' & _). eauto.
Qed.

(** The running thread goes to sleep or exits. *)
Lemma system_block k k' D O Γ rs ts s p next rest : system_ok pool_lock pid_lock k D O Γ rs ts ->
  is_waiting s = true -> pcbs (kth k) !! cur (kc k) = Some p -> or_idle k rs = next :: rest ->
  let k1 := set_km (mach_if INTR_OFF (km k)) (set_pcbs (<[cur (kc k) := set_status s p]> (pcbs (kth k))) k) in
  switched k1 k' D Γ next rest ->
  system_ok pool_lock pid_lock k' D O (<[thread_ready_list (kth k) := map general_node rest]> Γ) rest ts /\
  (next <> cur (kc k) -> pcbs (kth k') !! cur (kc k) = Some (set_status s p)).
Proof.
  intros Hs Hw Ep Hq k1 (Hok & Hc & Hd & (F1 & F2 & F3 & _) & Hrun).
  pose proof (so_sched _ _ _ _ _ _ _ _ Hs) as [Hpre Hcur]. destruct Hrun as (q & Eq & Ek).
  cbn [k1 set_km set_pcbs set_kth kth pcbs] in Eq, Ek. split.
  2:{ intros Hn. rewrite Ek. rewrite lookup_insert_ne by done. apply lookup_insert_eq. }
  assert (Hsp : s <> TASK_DIED) by (intros ->; done).
  assert (Hrun : status p = TASK_RUNNING) by (unfold st in Hcur; rewrite Ep in Hcur; cbn in Hcur; congruence).
  assert (Hnext : exists x, st k next = Some x /\ (x = TASK_READY \/ x = TASK_RUNNING \/ x = TASK_BLOCKED)).
  { unfold or_idle in Hq. destruct rs as [|r rs'].
    - injection Hq as <- _. destruct (sp_idle _ _ _ _ Hpre) as (x & Ex & Hx). exists x. split; [done|naive_solver].
    - injection Hq as <- _. exists TASK_READY. split; [|by left]. apply (sp_rs _ _ _ _ Hpre). by left. }
  assert (Enext : pcbs (kth k') !! next = Some (set_status TASK_RUNNING q)) by (rewrite Ek; apply lookup_insert_eq).
  apply (system_relabel k k' D O Γ rs rest ts); try done.
  - intros t. rewrite Ek. destruct Hnext as (x & Ex & Hx). unfold st in Ex. apply fmap_Some in Ex as (y & Ey & ->).
    assert (status y <> TASK_DIED /\ status y <> TASK_HANGING) as [Hy1 Hy2] by (split; intros E; rewrite E in Hx; naive_solver).
    destruct (decide (t = next)) as [->|N1].
    + rewrite lookup_insert_eq, Ey. destruct (decide (next = cur (kc k))) as [E|N2].
      * rewrite E, lookup_insert_eq in Eq. injection Eq as <-. rewrite E, Ep in Ey. injection Ey as <-.
        change (set_status TASK_RUNNING (set_status s p)) with (set_status TASK_RUNNING p). apply same_but_live; rewrite ?Hrun; done.
      * rewrite lookup_insert_ne in Eq by done. assert (q = y) as -> by congruence. by apply same_but_live.
    + rewrite lookup_insert_ne by done. destruct (decide (t = cur (kc k))) as [->|N2].
      * rewrite lookup_insert_eq, Ep. apply same_but_live; rewrite ?Hrun; done.
      * rewrite lookup_insert_ne by done. destruct (pcbs (kth k) !! t) as [z|]; [apply same_but_refl|done].
  - right. exists next, (set_status TASK_RUNNING q). by rewrite Hd.
Qed.
End switch.
