(* ===== verification/Pending.v ===== *)
(** * Pending: a thread on its way into the lists

    Between [init_thread] and [enter_lists] a new thread has a PCB and a number
    but is in no list: [pending k0 k D O Γ t p].  The steps in between - more
    pages, stores to owned pages, a page directory, the block descriptors -
    keep that state, and [enter_lists] turns it into [system_ok] again. *)

From S2P Require Import Prelude CString Interrupt Lists Bitmap Kernel Paging Thread Sync IoQueue Memory DataPages Heap Pid Space Process System.

(** There are pages for [n] more, and the tables they may need. *)
Definition room (k : kernel) (n : Z) : Prop :=
  n <= len (vaddr_bitmap (kernel_vaddr (kmem k))) /\ budget PF_KERNEL k (Z.to_nat n).

(** The new PCB and the memory change, the rest does not. *)
Lemma newcomer_change k0 k k2 t p p' : newcomer k0 k t p ->
  kth k2 = kth (set_pcbs (<[t := p']> (pcbs (kth k))) k) -> status p' = status p -> pid p' = pid p ->
  cur (kc k2) = cur (kc k) -> ksy k2 = ksy k ->
  (forall v, kernel_addr v -> walk k v <> None -> walk k2 v <> None) -> newcomer k0 k2 t p'.
Proof.
  intros [N1 N2 N3 [[P1 P2 P3 P4] N4] N5 N6 N7 N8 (Q1 & Q2 & Q3 & Q4)] Et Es Ep Ec Ey Hw.
  unfold pid_taken in *. split; unfold pid_taken; rewrite ?Et, ?Ep.
  - cbn. by rewrite N1, insert_insert_eq.
  - congruence.
  - done.
  - split; [|exact N4]. split; rewrite Et; done.
  - done.
  - congruence.
  - congruence.
  - auto.
  - auto 6.
Qed.

Lemma newcomer_km k0 k m t p : newcomer k0 k t p -> newcomer k0 (set_km m k) t p.
Proof. intros [N1 N2 N3 [[P1 P2 P3 P4] N4] N5 N6 N7 N8 N9]. by split. Qed.

(** [k] is [k0] with the PCB [p] of a new thread that is in no list yet. *)
Record pending (k0 k : kernel) (D : Z -> Z) (O : gmap Z Z) (Γ : gmap Z (list Z)) (t : Z) (p : pcb) : Prop := {
  pe_new : newcomer k0 k t p;
  pe_space : kspace k D O;
  pe_lists : lists_ok (km k) Γ;
  pe_flags : eflags (km k) = eflags (km k0);
  pe_kc : kc k = kc k0 }.

Lemma pending_pcb_eq k0 k D O Γ t p : pending k0 k D O Γ t p -> pcbs (kth k) !! t = Some p.
Proof. intros [[N1 _ _ _ _ _ _ _ _] _ _ _ _]. rewrite N1. apply lookup_insert_eq. Qed.

Lemma pending_pages k0 k k1 D O Γ t p v n qs : pending k0 k D O Γ t p -> pages_got k k1 D O v n qs ->
  pending k0 k1 D (own v qs O) Γ t p.
Proof.
  intros Hpe Hg. pose proof (pending_pcb_eq _ _ _ _ _ _ _ Hpe) as Ep. destruct Hpe as [N1 N2 N3 N4 N5].
  destruct Hg as [G1 G2 G3 G4 G5 G6 G7 G8 G9 G10 G11 G12 _ _ _]. split; try congruence.
  apply (newcomer_change k0 k k1 t p); try done; try congruence.
  - cbn. rewrite (insert_id _ _ _ Ep), G4. by destruct (kth k).
  - intros w Hw Hm. by rewrite G10.
Qed.

Lemma pending_pcb k0 k D O Γ t p p' : pending k0 k D O Γ t p -> pg_dir p' = pg_dir p -> status p' = status p ->
  pid p' = pid p -> pending k0 (set_pcbs (<[t := p']> (pcbs (kth k))) k) D O Γ t p'.
Proof.
  intros Hpe Hd Hs Hp. pose proof (pending_pcb_eq _ _ _ _ _ _ _ Hpe) as Ep. destruct Hpe as [N1 N2 N3 N4 N5].
  split; try done.
  - by apply (newcomer_change k0 k _ t p).
  - by apply (kspace_pcb k D O t p).
Qed.

Lemma pending_write k0 k D O O' Γ t p r : pending k0 k D O Γ t p -> kspace (set_ram r k) D O' -> data_written k r ->
  pending k0 (set_ram r k) D O' Γ t p.
Proof.
  intros Hpe Hk Hdw. pose proof (pending_pcb_eq _ _ _ _ _ _ _ Hpe) as Ep. destruct Hpe as [N1 N2 N3 N4 N5].
  split; try done. apply (newcomer_change k0 k _ t p); try done.
  - cbn. rewrite (insert_id _ _ _ Ep). by destruct (kth k).
  - intros w Hw Hm. rewrite (dw_walk _ _ Hdw); [done|]. unfold kernel_addr, is_word in *. lia.
Qed.

Lemma pending_dir k0 k D O Γ t p v q : pending k0 k D O Γ t p -> pg_dir p = NULL -> O !! v = Some q ->
  (forall x y, pcbs (kth k) !! x = Some y -> pg_dir y <> v) -> fresh_dir k q -> v <> NULL ->
  pending k0 (set_pcbs (<[t := set_pg_dir v p]> (pcbs (kth k))) k) (set_dir t q D) O Γ t (set_pg_dir v p).
Proof.
  intros Hpe Hd HO Hfr Hfd Hv. pose proof (pending_pcb_eq _ _ _ _ _ _ _ Hpe) as Ep. destruct Hpe as [N1 N2 N3 N4 N5].
  split; try done.
  - by apply (newcomer_change k0 k _ t p).
  - by apply (kspace_set_dir k D O t p _ v q).
Qed.

Lemma room_pages k k1 D O v n m qs : pages_got k k1 D O v n qs -> 0 < n -> 0 <= m -> room k (n + m) -> room k1 m.
Proof.
  intros Hg Hn Hm [H1 H2]. split; [rewrite (pg_size _ _ _ _ _ _ _ Hg); lia|].
  apply (pg_budget _ _ _ _ _ _ _ Hg). by rewrite <- Z2Nat.inj_add by lia.
Qed.

Lemma room_less k n m : 0 <= m <= n -> room k n -> room k m.
Proof. intros Hm [H1 H2]. split; [lia|]. apply (budget_mono _ _ (Z.to_nat n)); [lia|done]. Qed.

Section pending.
Context (pool_lock : pool_flag -> Z) (pid_lock : Z).
Abbreviation system := (system_ok pool_lock pid_lock).

(** [init_thread] on the page just taken. *)
Lemma init_added k0 k1 D O Γ rs ts h t q name nm prio : system k0 D O Γ rs ts ->
  pages_got k0 k1 D O t 1 [q] -> hk h = k1 -> cstr name 0 nm -> (length nm < 16)%nat ->
  (init_thread pid_lock t name prio h = Err Fault /\ forall y, 1 <= y <= 127 -> pid_taken k0 y = true) \/
  exists m b x d, let p := new_pcb t x TASK_READY nm prio in
    init_thread pid_lock t name prio h = Ok (Done tt, mk_heap (thread_added k1 m b t p) (arenas h) d) /\
    pending k0 (thread_added k1 m b t p) (set_dir t kdir D) (own t [q] O) Γ t p /\
    ~ dir_in_use (thread_added k1 m b t p) (set_dir t kdir D) q /\ descs_kept t (block_descs h) d /\
    (forall y, 1 <= y < x -> pid_taken k0 y = true).
Proof.
  intros Hs Hg Eh Hname Hlen. pose proof (so_space _ _ _ _ _ _ _ _ Hs) as Hk.
  destruct Hg as [G1 G2 G3 G4 G5 G6 [G7 G8] G9 G10 G11 G12 G13 _ _ _].
  destruct (G8 0 ltac:(lia)) as [Hka Hnone]. rewrite Z.add_0_r in Hka, Hnone.
  pose proof (system_no_pcb _ _ _ _ _ _ _ _ _ Hs Hnone) as Hnp.
  assert (Hmain : (t =? main_thread (kth k1)) = false).
  { apply Z.eqb_neq. intros ->. destruct (so_main _ _ _ _ _ _ _ _ Hs). rewrite G4 in Hnp. congruence. }
  pose proof (so_threads _ _ _ _ _ _ _ _ Hs) as [T1 T2 [Tp1 Tp2 Tp3 Tp4] T4 T5].
  destruct (so_pid_lock _ _ _ _ _ _ _ _ Hs) as [L1 L2 L3].
  destruct (system_cur _ _ _ _ _ _ _ _ Hs) as [_ Hcur].
  pose proof (sp_lists _ _ _ _ (proj1 (so_sched _ _ _ _ _ _ _ _ Hs))) as Hl.
  destruct (init_thread_ok pid_lock h Γ t name nm prio) as [[E Hall]|(m & b & x & d & E & Hr)]; rewrite ?Eh.
  - by rewrite G2.
  - intros a Ha. by apply (unmapped_fresh k0 Γ t); [apply (so_linked _ _ _ _ _ _ _ _ Hs)|..].
  - split; by rewrite G4.
  - split; by rewrite ?G5.
  - by rewrite G3.
  - done.
  - done.
  - left. split; [done|]. unfold pid_taken in *. by rewrite Eh, G4 in Hall.
  - right. rewrite Eh in *. rewrite Hmain in E. destruct Hr as (R1 & R2 & R3 & R4 & R5 & R6 & R7).
    assert (Hpt : forall y, pid_taken k1 y = pid_taken k0 y) by (intros y; unfold pid_taken; by rewrite G4).
    rewrite Hpt in R5. exists m, b, x, d. split; [done|].
    destruct R7 as [[W1 W2 W3 W4] W5].
    assert (Hw1 : walk k1 t <> None).
    { destruct (ks_page _ _ _ G1 t q) as (_ & Hw & _); [apply lookup_insert_eq|]. by rewrite Hw. }
    split; [split; [| |done|cbn; congruence|exact G3]|split; [|split; [done|]]].
    + split; cbn; try done; try by rewrite ?G3, ?G4.
      * split; [by split|]. intros y Hy. specialize (W5 y Hy). rewrite Hpt in W5. exact W5.
      * intros v Hv Hw. change (walk k1 v <> None). by rewrite G11.
    + apply thread_added_space; [done|by rewrite G4|done].
    + apply set_dir_in_use; [|by rewrite G4|].
      * intros Hu. apply (G9 q); [by left|]. by apply (in_use_kth k0 k1).
      * intros ->. destruct (ks_page _ _ _ G1 t kdir) as (_ & _ & Hip & _); [apply lookup_insert_eq|].
        by apply (pool_not_kdir _ _ _ _ G1 Hip).
    + intros y Hy. rewrite <- Hpt. by apply R6.
Qed.

(** *** Page directories *)

(** The entries of the loaded directory, read through its last entry. *)
Lemma vload_dir k D O i : kspace k D O -> 0 <= i < 1024 ->
  vload (0xfffff000 + i * 4) k = Ok (dir_entry k (cr3 (kc k)) i, k).
Proof.
  intros Hk Hi. pose proof (ks_self _ _ _ Hk _ (dir_live_in_use _ _ _ (ks_cr3 _ _ _ Hk))) as Hself.
  assert (Hw : is_word (i * 4194304)) by (unfold is_word; lia).
  pose proof (translate_pde_ptr _ _ _ Hself Hw) as E. rewrite pde_ptr_val in E by done.
  unfold pde_addr in E. rewrite PDE_IDX_val in E by done. replace (i * 4194304 / 4194304) with i in E by zarith.
  by rewrite (vload_ok k _ _ E).
Qed.

Lemma vcopy_dir D O v q n : forall i k, kspace k D O -> O !! v = Some q -> ~ dir_in_use k D q ->
  0 <= i -> i + Z.of_nat n <= 1024 ->
  exists r, vcopy n (v + i * 4) (0xfffff000 + i * 4) k = Ok (tt, set_ram r k) /\ kspace (set_ram r k) D O /\
    data_written k r /\ (forall j, i <= j < i + Z.of_nat n -> word r (q + j * 4) = dir_entry k (cr3 (kc k)) j) /\
    (forall a, ~ (q + i * 4 <= a < q + (i + Z.of_nat n) * 4) -> word r a = word (ram (kmem k)) a).
Proof.
  induction n as [|n IH]; intros i k Hk HO Hn Hi Hle; cbn [vcopy].
  { assert (E : set_ram (ram (kmem k)) k = k) by (by destruct k as [? ? [] ? ?]).
    exists (ram (kmem k)). rewrite E. split; [done|]. split; [done|].
    split; [apply data_written_refl, (ks_current _ _ _ Hk)|]. split; [intros j Hj; lia|done]. }
  rewrite (bindM_ok _ _ _ _ _ (vload_dir k D O i Hk ltac:(lia))).
  assert (Hw : is_word (dir_entry k (cr3 (kc k)) i))
    by apply word_ok, (po_words _ (mo_paging _ (ks_current _ _ _ Hk))).
  destruct (kspace_store k D O v q (i * 4) _ Hk HO Hn ltac:(lia) Hw) as (E1 & K1 & W1).
  rewrite (bindM_ok _ _ _ _ _ E1). set (r1 := <[q + i * 4 := _]> (ram (kmem k))) in *.
  destruct (IH (i + 1) (set_ram r1 k) K1 HO Hn ltac:(lia) ltac:(lia)) as (r & E & Hk' & W & Hin & Hout).
  replace (v + i * 4 + 4) with (v + (i + 1) * 4) by lia.
  replace (0xfffff000 + i * 4 + 4) with (0xfffff000 + (i + 1) * 4) by lia.
  exists r. split; [exact E|]. split; [exact Hk'|]. split; [by apply (data_written_trans k r1)|].
  pose proof (dir_aligned _ _ _ _ Hk (dir_live_in_use _ _ _ (ks_cr3 _ _ _ Hk))) as Hca.
  destruct (owned_aligned _ _ _ _ _ Hk HO) as [_ Hqa].
  assert (Hr1 : forall j, 0 <= j < 1024 -> dir_entry (set_ram r1 k) (cr3 (kc k)) j = dir_entry k (cr3 (kc k)) j).
  { intros j Hj. unfold dir_entry, r1. cbn [set_ram set_kmem kmem ram]. rewrite word_insert.
    destruct (Z.eq_dec _ _) as [Ea|]; [|done]. exfalso. apply Hn.
    replace q with (cr3 (kc k)) by zarith. apply dir_live_in_use, (ks_cr3 _ _ _ Hk). }
  split.
  - intros j Hj. destruct (decide (j = i)) as [->|Nj].
    + rewrite Hout by lia. unfold r1. cbn [set_ram set_kmem kmem ram]. rewrite word_insert. by destruct (Z.eq_dec _ _).
    + rewrite Hin by lia. apply Hr1. lia.
  - intros a Ha. rewrite Hout by lia. unfold r1. cbn [set_ram set_kmem kmem ram]. rewrite word_insert.
    destruct (Z.eq_dec _ _); [lia|done].
Qed.

(** A new directory: the page [v], whose frame is [q]. *)
Lemma create_page_dir_ok k D O Γ : kspace k D O -> lists_ok (km k) Γ -> lock_idle k Γ (pool_lock PF_KERNEL) ->
  cur (kc k) <> NULL -> room k 1 ->
  (create_page_dir pool_lock k = Ok (Done NULL, k) /\ no_run (kernel_vaddr (kmem k)) 1) \/
  exists v q k1 r, create_page_dir pool_lock k = Ok (Done v, set_ram r k1) /\ v <> NULL /\ pages_got k k1 D O v 1 [q] /\
    kspace (set_ram r k1) D (own v [q] O) /\ data_written k1 r /\ fresh_dir (set_ram r k1) q /\
    ~ dir_in_use k D q /\ (forall a, ~ (q <= a < q + 4096) -> word r a = word (ram (kmem k1)) a).
Proof.
  intros Hk Hl Hlk Hcur [Hlen Hb]. unfold create_page_dir.
  destruct (kernel_pages_ok pool_lock k D O Γ 1 Hk Hl Hlk Hcur ltac:(lia) Hlen Hb)
    as [[E Hno]|(v & qs & k1 & E & Hv & Hg)]; rewrite (obind_done _ _ _ _ _ E); [by left|right].
  rewrite (proj2 (Z.eqb_neq _ _) Hv). pose proof (pg_count _ _ _ _ _ _ _ Hg) as Hq. destruct qs as [|q [|]]; try done.
  2:{ exfalso. rewrite !zlen_cons in Hq. pose proof (zlen_nonneg l). lia. }
  clear Hq. pose proof Hg as [G1 G2 G3 G4 G5 G6 [G7 G8] G9 G10 G11 G12 G13 _ _ _].
  destruct (G8 0 ltac:(lia)) as [Hka _]. rewrite Z.add_0_r in Hka.
  assert (HO : own v [q] O !! v = Some q) by apply lookup_insert_eq.
  assert (Hnu : ~ dir_in_use k1 D q) by (intros Hu; apply (G9 q); [by left|by apply (in_use_kth k k1)]).
  replace (u32 (v + 0x300 * 4)) with (v + 768 * 4) by (unfold kernel_addr in Hka; rewrite u32_small; lia).
  destruct (vcopy_dir D (own v [q] O) v q 256 768 k1 G1 HO Hnu ltac:(lia) ltac:(lia)) as (r & Ec & K2 & W2 & Hin & Hout).
  rewrite (bindM_ok _ _ _ _ _ Ec). set (k2 := set_ram r k1) in *.
  destruct (ks_page _ _ _ K2 v q HO) as (Hh & Hw & Hip & _). destruct (owned_aligned _ _ _ _ _ K2 HO) as [Hqw Hqa].
  destruct (kernel_addr_PDE v Hka) as (Hvw & _).
  rewrite (bindM_ok _ _ _ _ _ (addr_vir2phy_ok k2 v q (mo_paging _ (ks_current _ _ _ K2)) Hvw Hw Hqw)).
  assert (Hew : is_word (entry_of q)) by (rewrite entry_val by done; unfold is_word in *; zarith).
  destruct (kspace_store k2 D (own v [q] O) v q (4 * 1023) (entry_of q) K2 HO Hnu ltac:(lia) Hew) as (E3 & K3 & W3).
  set (r3 := <[q + 4 * 1023 := entry_of q]> (ram (kmem k2))) in *. rewrite (bindM_ok _ _ _ _ _ E3).
  exists v, q, k1, r3. change (set_ram r3 k1) with (set_ram r3 k2). split; [done|]. split; [done|].
  split; [done|]. split; [done|]. split; [by apply (data_written_trans k1 r)|].
  pose proof (dir_live_in_use _ _ _ (ks_cr3 _ _ _ G1)) as Hcu.
  assert (Hkd : kdir <> q) by (intros <-; by apply (pool_not_kdir _ _ _ kdir K2)).
  assert (Hfar : forall a, ~ (q <= a < q + 4096) -> word r3 a = word (ram (kmem k1)) a).
  { intros a Ha. unfold r3. rewrite word_insert. destruct (Z.eq_dec _ _); [lia|].
    change (ram (kmem k2)) with r. apply Hout. lia. }
  split; [|split; [by apply G9; left|exact Hfar]]. split.
  - split; [done|]. split; [done|]. unfold r3. cbn [set_ram set_kmem kmem ram]. rewrite word_insert.
    replace (q + 4 * 1023) with (q + 4092) by lia. destruct (Z.eq_dec _ _); [|done].
    split; [by apply present_entry|by apply frame_entry].
  - intros i Hi. unfold dir_entry, r3. cbn [set_ram set_kmem kmem ram]. rewrite !word_insert.
    destruct (Z.eq_dec _ _); [lia|]. assert (kdir mod 4096 = 0) by done. destruct (Z.eq_dec _ _); [zarith|].
    change (ram (kmem k2)) with r. rewrite Hin, (Hout (kdir + i * 4)) by zarith.
    apply (ks_share _ _ _ G1); [done|lia].
  - intros i Hi. unfold dir_entry, r3. cbn [set_ram set_kmem kmem ram]. rewrite !word_insert.
    destruct (Z.eq_dec _ _); [lia|]. change (ram (kmem k2)) with r. rewrite Hout by lia.
    rewrite G12 by (by left || lia). done.
Qed.
Lemma pending_lock k0 k D0 O0 D O Γ rs ts t p : system k0 D0 O0 Γ rs ts -> pending k0 k D O Γ t p ->
  lock_idle k Γ (pool_lock PF_KERNEL) /\ cur (kc k) <> NULL.
Proof.
  intros Hs [[N1 _ _ _ _ N6 N7 _ _] _ _ _ _]. destruct (so_pool_lock _ _ _ _ _ _ _ _ Hs) as [L1 L2 L3].
  split; [split; by rewrite ?N7|]. rewrite N6. by apply (system_cur _ _ _ _ _ _ _ _ Hs).
Qed.

(** The bitmap of an address space nothing is mapped in. *)
Definition empty_vspace (va : virtual_addr) : Prop :=
  vspace_wf PF_USER va /\ vaddr_start va = USER_VADDR_START /\ len (vaddr_bitmap va) = user_bitmap_len /\
  forall i, 0 <= i < 8 * user_bitmap_len -> bit (vaddr_bitmap va) i = false.

Lemma user_bitmap_ok k0 k D0 O0 D O Γ rs ts t p : system k0 D0 O0 Γ rs ts -> pending k0 k D O Γ t p ->
  room k user_bitmap_pages ->
  (create_user_vaddr_bitmap pool_lock t k = Err Fault /\ no_run (kernel_vaddr (kmem k)) user_bitmap_pages) \/
  exists v qs k1 va, let p' := set_userprog_vaddr va (set_vaddr_bits v p) in
    create_user_vaddr_bitmap pool_lock t k = Ok (Done tt, set_pcbs (<[t := p']> (pcbs (kth k1))) k1) /\
    pages_got k k1 D O v user_bitmap_pages qs /\ empty_vspace va /\
    pending k0 (set_pcbs (<[t := p']> (pcbs (kth k1))) k1) D (own v qs O) Γ t p'.
Proof.
  intros Hs Hpe [Hlen Hb]. destruct (pending_lock _ _ _ _ _ _ _ _ _ _ _ Hs Hpe) as [Hlk Hcur].
  unfold create_user_vaddr_bitmap.
  destruct (kernel_pages_ok pool_lock k D O Γ user_bitmap_pages (pe_space _ _ _ _ _ _ _ Hpe) (pe_lists _ _ _ _ _ _ _ Hpe)
    Hlk Hcur ltac:(by vm_compute) Hlen Hb) as [[E Hno]|(v & qs & k1 & E & Hv & Hg)];
    rewrite (obind_done _ _ _ _ _ E); [by left|right].
  rewrite (proj2 (Z.eqb_neq _ _) Hv).
  set (n := user_bitmap_len) in *. assert (Hn : 0 <= n < 268435456) by (by vm_compute).
  destruct (bitmap_init_ok (mk_bitmap n (replicate (Z.to_nat n) 0))) as (mp & Em & Wm & Lm & Zm & Fm).
  { split; cbn [len bits]; unfold zlen; rewrite ?length_replicate; [lia|lia|]. apply Forall_replicate. unfold is_byte. lia. }
  cbn [len bits] in Lm, Zm, Fm. unfold zlen in Zm at 2. rewrite length_replicate in Zm.
  rewrite (bind_lift _ _ _ _ Em).
  pose proof (pending_pages _ _ _ _ _ _ _ _ _ _ _ Hpe Hg) as Hpe1.
  pose proof (pending_pcb_eq _ _ _ _ _ _ _ Hpe1) as Ep1.
  rewrite (bindM_ok _ _ _ _ _ (upd_pcb_ok _ _ _ _ Ep1)).
  set (p1 := set_vaddr_bits v p) in *. set (k2 := set_pcbs (<[t := p1]> (pcbs (kth k1))) k1).
  assert (Ep2 : pcbs (kth k2) !! t = Some p1) by apply lookup_insert_eq.
  rewrite (bindM_ok _ _ _ _ _ (upd_pcb_ok _ _ _ _ Ep2)). cbn [k2 set_pcbs set_kth kth pcbs].
  rewrite insert_insert_eq. exists v, qs, k1, (mk_vaddr mp USER_VADDR_START).
  split; [done|]. split; [done|]. split.
  - split; [split; cbn [vaddr_bitmap vaddr_start space_end]|split; [done|split; [done|]]].
    + done.
    + by vm_compute.
    + by vm_compute.
    + assert (zlen (bits mp) = n) as -> by lia. by vm_compute.
    + exact Fm.
  - by apply (pending_pcb _ _ _ _ _ _ p).
Qed.

Lemma pending_in_use k k' D t p p' q : pcbs (kth k) !! t = Some p -> pcbs (kth k') = <[t := p']> (pcbs (kth k)) ->
  dir_in_use k' D q -> dir_in_use k D q.
Proof.
  intros Ep E [->|(x & Hx & ->)]; [by left|right]. exists x. split; [|done]. rewrite E in Hx.
  apply lookup_insert_is_Some in Hx as [<-|[_ Hx]]; eauto.
Qed.

(** The pages owned before are owned still, with the same words. *)
Definition pages_kept (k k' : kernel) (O O' : gmap Z Z) : Prop := forall w q, O !! w = Some q ->
  O' !! w = Some q /\ forall i, 0 <= i < 1024 -> dir_entry k' q i = dir_entry k q i.

Lemma pages_got_kept k k1 D O v n qs : kspace k D O -> pages_got k k1 D O v n qs -> pages_kept k k1 O (own v qs O).
Proof.
  intros Hk Hg w q HO. split.
  - rewrite own_out; [done|]. intros (i & Hi & ->). destruct (ks_page _ _ _ Hk _ _ HO) as (_ & Hw & _).
    destruct (pg_addr _ _ _ _ _ _ _ Hg) as [_ Hn]. pose proof (pg_count _ _ _ _ _ _ _ Hg) as Hc. unfold zlen in Hc.
    destruct (Hn (Z.of_nat i * 4096)) as [_ Hnone]; [lia|congruence].
  - intros i Hi. apply (pg_kept _ _ _ _ _ _ _ Hg); [|done]. right. eauto.
Qed.

(** [thread->pg_dir = create_page_dir();] *)
Lemma page_dir_step k0 k D0 O0 D O Γ rs ts t p : system k0 D0 O0 Γ rs ts -> pending k0 k D O Γ t p ->
  room k 1 -> pg_dir p = NULL ->
  exists v k1 D' O', create_page_dir pool_lock k = Ok (Done v, k1) /\ pcbs (kth k1) !! t = Some p /\
    let k2 := set_pcbs (<[t := set_pg_dir v p]> (pcbs (kth k1))) k1 in
    pending k0 k2 D' O' Γ t (set_pg_dir v p) /\ pages_kept k k2 O O' /\
    (v = NULL -> no_run (kernel_vaddr (kmem k2)) 1) /\ (v <> NULL -> O' !! v = Some (D' t) /\ fresh_dir k2 (D' t)).
Proof.
  intros Hs Hpe Hroom Hd. destruct (pending_lock _ _ _ _ _ _ _ _ _ _ _ Hs Hpe) as [Hlk Hcur].
  pose proof (pending_pcb_eq _ _ _ _ _ _ _ Hpe) as Ep. pose proof (pe_space _ _ _ _ _ _ _ Hpe) as Hk.
  destruct (create_page_dir_ok k D O Γ Hk (pe_lists _ _ _ _ _ _ _ Hpe) Hlk Hcur Hroom)
    as [[E Hno]|(v & q & k1 & r & E & Hv & Hg & K1 & W1 & Hfd & Hnu & Hfar)].
  - exists NULL, k, D, O. split; [done|]. split; [done|]. split; [by apply (pending_pcb k0 k D O Γ t p)|].
    split; [|by split]. intros w q HO. by split.
  - pose proof (pending_write _ _ _ _ _ _ _ _ _ (pending_pages _ _ _ _ _ _ _ _ _ _ _ Hpe Hg) K1 W1) as Hpe1.
    assert (HO : own v [q] O !! v = Some q) by apply lookup_insert_eq.
    assert (Hfr : forall x y, pcbs (kth (set_ram r k1)) !! x = Some y -> pg_dir y <> v).
    { intros x y Hx Hy. change (kth (set_ram r k1)) with (kth k1) in Hx. rewrite (pg_kth _ _ _ _ _ _ _ Hg) in Hx.
      destruct (ks_page _ _ _ Hk _ _ (ks_user _ _ _ Hk x y Hx ltac:(congruence))) as (_ & Hw & _).
      destruct (pg_addr _ _ _ _ _ _ _ Hg) as [_ Hn]. destruct (Hn 0 ltac:(lia)) as [_ Hnone].
      rewrite Z.add_0_r in Hnone. congruence. }
    pose proof (pending_dir _ _ _ _ _ _ _ v q Hpe1 Hd HO Hfr Hfd Hv) as Hpe2.
    exists v, (set_ram r k1), (set_dir t q D), (own v [q] O). split; [done|].
    split; [exact (pending_pcb_eq _ _ _ _ _ _ _ Hpe1)|]. split; [exact Hpe2|]. split.
    + pose proof (pages_got_kept _ _ _ _ _ _ _ Hk Hg) as Hpk. intros w x Hx. destruct (Hpk w x Hx) as [H1 H2].
      split; [done|]. intros i Hi. rewrite <- H2 by done. unfold dir_entry.
      change (word r (x + i * 4) = word (ram (kmem k1)) (x + i * 4)). apply Hfar.
      destruct (owned_aligned _ _ _ _ _ K1 HO) as [_ Ha]. destruct (owned_aligned _ _ _ _ _ K1 H1) as [_ Ha'].
      intros Hin. assert (x = q) as -> by zarith. pose proof (ks_inj _ _ _ K1 _ _ _ HO H1) as <-.
      destruct (ks_page _ _ _ Hk _ _ Hx) as (_ & Hw & _).
      destruct (pg_addr _ _ _ _ _ _ _ Hg) as [_ Hn]. destruct (Hn 0 ltac:(lia)) as [_ Hnone].
      rewrite Z.add_0_r in Hnone. congruence.
    + split; [done|]. intros _. rewrite set_dir_eq. split; [done|]. destruct Hfd as [F1 F2 F3]. by split.
Qed.

(** [block_desc_init(thread->user_block_descs);] *)
Lemma user_descs_step k0 k D0 O0 D O Γ rs ts t p h : system k0 D0 O0 Γ rs ts -> pending k0 k D O Γ t p -> hk h = k ->
  exists m Γ1 d, init_user_descs t h = Ok (tt, mk_heap (set_km m k) (arenas h) d) /\ lists_ok m Γ1 /\
    eflags m = eflags (km k) /\ page_lists t Γ Γ1 /\ descs_kept t (block_descs h) d.
Proof.
  intros Hs [[_ _ _ _ _ _ _ _ (P1 & P2 & P3 & _)] _ Hl _ _] Eh.
  assert (Hfr : forall a, t <= a < t + 4096 -> fresh Γ a)
    by (intros a Ha; apply (unmapped_fresh k0 Γ t); [apply (so_linked _ _ _ _ _ _ _ _ Hs)|done..]).
  destruct (block_desc_loop_ok (user_block_descs t) 7 0 16 (km k) Γ Hl) as (ds & m & Γ1 & E & Hl1 & Hf & Hkeep & _ & Hds & _ & Hback).
  { intros j Hj. assert (Hin : forall b, 8 <= b <= 16 -> fresh Γ (t + 68 + 24 * j + b)) by (intros b Hb; apply Hfr; lia).
    unfold desc_list, user_block_descs, head_of, tail_of.
    split; [|split; [apply (Hin 8); lia|replace (t + 68 + 24 * j + 8 + 8) with (t + 68 + 24 * j + 16) by lia; apply (Hin 16); lia]].
    destruct (Γ !! _) as [xs|] eqn:EL; [|done]. destruct (Hin 8 ltac:(lia)) as [_ H]. exfalso. apply (H _ _ EL).
    unfold foot, head_of. by left. }
  unfold init_user_descs. rewrite (bindM_ok _ _ h ds (mk_heap (set_km m k) (arenas h) (block_descs h)))
    by (apply on_hk_ok; rewrite Eh; by apply on_mach_ok).
  destruct (put_descs_ok t ds 0 (mk_heap (set_km m k) (arenas h) (block_descs h))) as (d & Ed & Hd).
  exists m, Γ1, d. split; [exact Ed|]. split; [done|]. split; [done|]. split.
  - split; [done|]. intros L xs a HL Ha. destruct (Hback L xs HL) as [H|(-> & j & Hj & ->)]; [by left|right].
    unfold foot, head_of, tail_of, desc_list, user_block_descs in Ha. cbn [app] in Ha.
    rewrite !elem_of_cons, elem_of_nil in Ha. lia.
  - intros x Hx. apply Hd. intros j Hj ->. apply Hx. unfold desc_ptr, user_block_descs.
    assert (zlen ds = 7); [|lia]. unfold zlen. rewrite <- (length_map free_list ds), Hds, length_map, length_seqZ. done.
Qed.

(** The lists, between [intr_disable] and [intr_set_status]. *)
Lemma pending_enter k0 k D0 O0 D O Γ Γ1 rs ts t p : system k0 D0 O0 Γ rs ts -> newcomer k0 k t p -> kspace k D O ->
  lists_ok (km k) Γ1 -> page_lists t Γ Γ1 ->
  exists m, enter_lists t k = Ok (tt, set_km m k) /\ eflags m = eflags (km k) /\
    lists_ok m (entered k0 Γ1 rs ts t) /\
    system (set_km m k) D O (entered k0 Γ1 rs ts t) (rs ++ [t]) (ts ++ [t]).
Proof.
  intros Hs Hn Hk Hl Hpl. pose proof Hn as [N1 N2 N3 N4 (R1 & R2 & R3 & R4) N6 N7 N8 (P1 & P2 & P3 & P4)].
  assert (Hfr : forall a, t <= a < t + 48 -> fresh Γ1 a).
  { intros a Ha. apply (page_lists_fresh t Γ); [done| |lia].
    apply (unmapped_fresh k0 Γ t); [apply (so_linked _ _ _ _ _ _ _ _ Hs)|done|done|done|lia]. }
  pose proof (so_apart _ _ _ _ _ _ _ _ Hs) as Hap. apply NoDup_cons in Hap as [Hap _].
  destruct (enter_lists_ok k Γ1 rs ts t) as (m & Ee & Hlm & Hfl).
  - done.
  - rewrite R1, R2. set_solver.
  - rewrite R1. apply (pl_old _ _ _ Hpl), (sp_ready _ _ _ _ (proj1 (so_sched _ _ _ _ _ _ _ _ Hs))).
  - rewrite R2. apply (pl_old _ _ _ Hpl), (to_list _ _ _ (so_threads _ _ _ _ _ _ _ _ Hs)).
  - apply Hfr. unfold general_node. lia.
  - apply Hfr. unfold all_list_node. lia.
  - assert (Hent : entered k Γ1 rs ts t = entered k0 Γ1 rs ts t) by (unfold entered; by rewrite R1, R2).
    pose proof (system_enter pool_lock pid_lock k0 k D0 D O0 O Γ Γ1 rs ts t p m Hs Hn Hpl Hk Hlm) as Hs'.
    rewrite Hent in *. by exists m.
Qed.
End pending.
