(* ===== verification/Demo.v ===== *)
(** * Demo: a concrete kernel for the witnesses

    Kernel tables for the whole upper gigabyte as the loader makes them, two
    pools of 512 pages, three threads in the first megabyte and optionally
    processes that have ended, whose pages are in the kernel's heap.  Boolean
    checks with soundness lemmas establish [system_ok] for it. *)

From S2P Require Import Prelude CString Interrupt Lists Bitmap Kernel Paging Thread Sync IoQueue Memory DataPages Heap Pid Space Process System.

(** ** Address spaces *)

Ltac get_forallb H x := rewrite forallb_forall in H; specialize (H x); rewrite <- list_elem_of_In in H.

Definition assoc (l : list (Z * Z)) : gmap Z Z := list_to_map l.
Definition dir_of (Ds : list (Z * Z)) (t : Z) : Z := default kdir (assoc Ds !! t).

Definition ended (p : pcb) : bool := bool_decide (status p = TASK_HANGING \/ status p = TASK_DIED).

Definition page_check (k : kernel) (v q : Z) : bool :=
  let va := kernel_vaddr (kmem k) in let kp := kernel_pool (kmem k) in
  let i := (v - vaddr_start va) / 4096 in let j := (q - phy_addr_start kp) / 4096 in
  (v =? vaddr_start va + i * 4096) && (0 <=? i) && (i + 1 <=? 8 * zlen (bits (vaddr_bitmap va))) &&
  bool_decide (walk k v = Some q) &&
  (q =? page_at kp j) && (0 <=? j) && (j <? 8 * zlen (bits (pool_bitmap kp))) && bit (pool_bitmap kp) j.

Definition dirs_check (k : kernel) (c : Z) : bool :=
  let r := ram (kmem k) in
  (0 <=? c) && (c <? 4294967296) && (c mod 4096 =? 0) && present (word r (c + 4092)) && (frame (word r (c + 4092)) =? c) &&
  forallb (fun i => dir_entry k c i =? dir_entry k kdir i) (zrange 255 768).

(** The directories that may be loaded are among [live]. *)
Definition thread_dir_check (live : list Z) (Ds Ol : list (Z * Z)) (t : Z) (p : pcb) : bool :=
  if pg_dir p =? NULL then dir_of Ds t =? kdir
  else (ended p || bool_decide (dir_of Ds t ∈ live)) && bool_decide (assoc Ol !! pg_dir p = Some (dir_of Ds t)).

Definition loaded_live (Ds : list (Z * Z)) (k : kernel) : bool :=
  (cr3 (kc k) =? kdir) ||
  existsb (fun '(t, p) => (cr3 (kc k) =? dir_of Ds t) && negb (ended p)) (map_to_list (pcbs (kth k))).

Definition user_dirs (k : kernel) : list (Z * Z) :=
  List.filter (fun '(_, d) => negb (d =? NULL)) (map (fun '(t, p) => (t, pg_dir p)) (map_to_list (pcbs (kth k)))).

Definition kspace_check (k : kernel) (live : list Z) (Ds Ol : list (Z * Z)) : bool :=
  loaded_live Ds k && (0xc0000000 <=? vaddr_start (kernel_vaddr (kmem k))) &&
  (0x102000 <=? phy_addr_start (kernel_pool (kmem k))) &&
  forallb (fun '(v, q) => page_check k v q) Ol && bool_decide (NoDup (map snd Ol)) &&
  forallb (fun '(t, p) => thread_dir_check live Ds Ol t p) (map_to_list (pcbs (kth k))) &&
  bool_decide (NoDup (map snd (user_dirs k))) &&
  forallb (fun c => dirs_check k c) (kdir :: map snd Ds) &&
  forallb (fun i => present (dir_entry k kdir i)) (zrange 255 768) &&
  forallb (fun c => forallb (fun i => negb (present (dir_entry k c i)) ||
    negb (bool_decide (frame (dir_entry k c i) ∈ kdir :: map snd Ol))) (zrange 1023 0)) (kdir :: live).

Lemma dir_of_in Ds t : dir_of Ds t ∈ kdir :: map snd Ds.
Proof.
  unfold dir_of, assoc. destruct (list_to_map Ds !! t) as [c|] eqn:E; cbn; [|by left].
  right. apply elem_of_list_to_map_2 in E. apply list_elem_of_fmap. by exists (t, c).
Qed.

Lemma page_check_ok k v q : page_check k v q = true ->
  in_heap k v /\ walk k v = Some q /\ in_pool (kernel_pool (kmem k)) q /\ (pool_wf (kernel_pool (kmem k)) ->
  ~ page_free (kernel_pool (kmem k)) q).
Proof.
  unfold page_check. cbv zeta. intros H. bool_prop.
  repeat match goal with H : bool_decide _ = true |- _ => apply bool_decide_eq_true in H end.
  split; [|split; [done|split]].
  - exists ((v - vaddr_start (kernel_vaddr (kmem k))) / 4096). done.
  - eexists. split; [|eassumption]. unfold in_bits. lia.
  - intros Hp (i & Hi & E & Hb). unfold page_at in *.
    assert (i = (q - phy_addr_start (kernel_pool (kmem k))) / 4096) as -> by lia. congruence.
Qed.

Section check.
Context (k : kernel) (live : list Z) (Ds Ol : list (Z * Z)) (Hc : kspace_check k live Ds Ol = true).

Lemma check_dirs c : c ∈ kdir :: map snd Ds -> self_mapped (ram (kmem k)) c /\
  forall i, 768 <= i < 1023 -> dir_entry k c i = dir_entry k kdir i.
Proof.
  intros Hin. unfold kspace_check in Hc. apply andb_true_iff in Hc as [Hc1 _]. apply andb_true_iff in Hc1 as [Hc1 _].
  apply andb_true_iff in Hc1 as [_ Hd]. rewrite forallb_forall in Hd. specialize (Hd c).
  rewrite <- list_elem_of_In in Hd. specialize (Hd Hin). unfold dirs_check in Hd. cbv zeta in Hd. bool_prop.
  rewrite forallb_forall in H0. split; [by repeat split|]. intros i Hi. specialize (H0 i).
  rewrite <- list_elem_of_In, elem_of_zrange in H0. specialize (H0 ltac:(lia)). by apply Z.eqb_eq in H0.
Qed.

Lemma check_threads t p : pcbs (kth k) !! t = Some p -> thread_dir_check live Ds Ol t p = true.
Proof.
  intros Ep. unfold kspace_check in Hc. bool_prop. rewrite forallb_forall in H4. apply (H4 (t, p)).
  by apply list_elem_of_In, elem_of_map_to_list.
Qed.

Lemma ended_false p : ended p = false <-> status p <> TASK_HANGING /\ status p <> TASK_DIED.
Proof. unfold ended. rewrite bool_decide_eq_false. tauto. Qed.

Lemma check_live c : dir_live k (dir_of Ds) c -> c ∈ kdir :: live.
Proof.
  intros [->|(t & p & Ep & -> & H)]; [by left|]. pose proof (check_threads t p Ep) as Ht. unfold thread_dir_check in Ht.
  apply ended_false in H. rewrite H in Ht. cbn [orb] in Ht. destruct (pg_dir p =? NULL); bool_prop; [rewrite Ht; by left|].
  right. match goal with H : bool_decide (_ ∈ _) = true |- _ => by apply bool_decide_eq_true in H end.
Qed.

Lemma check_loaded : dir_live k (dir_of Ds) (cr3 (kc k)).
Proof.
  pose proof Hc as H. unfold kspace_check in H. do 9 apply andb_true_iff in H as [H _]. unfold loaded_live in H.
  apply orb_true_iff in H as [H%Z.eqb_eq|H]; [by left|]. apply existsb_exists in H as ([t p] & Hin & H).
  bool_prop. rewrite <- list_elem_of_In, elem_of_map_to_list in Hin. right. exists t, p. split; [done|]. split; [done|].
  by apply ended_false.
Qed.

Lemma check_in_use c : dir_in_use k (dir_of Ds) c -> c ∈ kdir :: map snd Ds.
Proof. intros [->|(t & _ & ->)]; [by left|apply dir_of_in]. Qed.

Lemma check_tables c i : c ∈ kdir :: live -> 0 <= i < 1023 -> present (dir_entry k c i) = true ->
  frame (dir_entry k c i) ∉ kdir :: map snd Ol.
Proof.
  intros Hl Hi Hp. pose proof Hc as H. unfold kspace_check in H. apply andb_true_iff in H as [_ H].
  get_forallb H c. specialize (H Hl). get_forallb H i. rewrite elem_of_zrange in H. specialize (H ltac:(lia)).
  rewrite Hp in H. cbn [negb orb] in H. bool_prop. by apply bool_decide_eq_false in H.
Qed.

Lemma check_present i : 768 <= i < 1023 -> present (dir_entry k kdir i) = true.
Proof.
  intros Hi. unfold kspace_check in Hc. bool_prop. rewrite forallb_forall in H1. specialize (H1 i).
  rewrite <- list_elem_of_In, elem_of_zrange in H1. apply H1. lia.
Qed.

Lemma check_owned v q : assoc Ol !! v = Some q -> (v, q) ∈ Ol.
Proof. apply elem_of_list_to_map_2. Qed.

Lemma kspace_check_ok : (forall c, c ∈ kdir :: live -> mem_ok (with_cr3 c k)) -> vspace_ok PF_KERNEL (kernel_vaddr (kmem k)) k ->
  kspace k (dir_of Ds) (assoc Ol).
Proof.
  intros Hm Hv. pose proof Hc as Hc'. unfold kspace_check in Hc'. bool_prop.
  repeat match goal with H : bool_decide _ = true |- _ => apply bool_decide_eq_true in H end.
  match goal with H : forallb (fun '(v, q) => page_check k v q) Ol = true |- _ => rewrite forallb_forall in H; rename H into Hpg end.
  match goal with H : NoDup (map snd Ol) |- _ => rename H into Hnd end.
  match goal with H : NoDup (map snd (user_dirs k)) |- _ => rename H into Hud end.
  assert (Hth : forall t p, pcbs (kth k) !! t = Some p -> thread_dir_check live Ds Ol t p = true) by apply check_threads.
  assert (Hu : forall t p, pcbs (kth k) !! t = Some p -> pg_dir p <> NULL -> (t, pg_dir p) ∈ user_dirs k).
  { intros t p Ep Hn. unfold user_dirs. apply list_elem_of_In, filter_In. split; [|by apply negb_true_iff, Z.eqb_neq].
    apply in_map_iff. exists (t, p). split; [done|]. by apply list_elem_of_In, elem_of_map_to_list. }
  split; try done.
  - intros c Hl. by apply Hm, check_live.
  - exact check_loaded.
  - intros v q HO. apply check_owned, list_elem_of_In, Hpg in HO. destruct (page_check_ok _ _ _ HO) as (H1' & H2' & H3' & H4').
    split; [done|]. split; [done|]. split; [done|]. apply H4'. exact (ps_kernel _ (mo_pools _ (Hm kdir ltac:(by left)))).
  - intros v1 v2 q H1' H2'. apply check_owned in H1', H2'.
    apply list_elem_of_lookup in H1' as [i1 E1]. apply list_elem_of_lookup in H2' as [i2 E2].
    assert (i1 = i2) as ->; [|congruence]. apply (NoDup_lookup (map snd Ol) i1 i2 q Hnd); by rewrite list_lookup_fmap, ?E1, ?E2.
  - intros t p Ep E. pose proof (Hth t p Ep) as H'. unfold thread_dir_check in H'. rewrite E in H'. cbn in H'. by apply Z.eqb_eq in H'.
  - intros t p Ep E. pose proof (Hth t p Ep) as H'. unfold thread_dir_check in H'.
    rewrite (proj2 (Z.eqb_neq _ _) E) in H'. bool_prop.
    by match goal with H : bool_decide (assoc Ol !! _ = _) = true |- _ => apply bool_decide_eq_true in H end.
  - intros t1 t2 p1 p2 E1 E2 Hn E. pose proof (Hu t1 p1 E1 Hn) as I1. pose proof (Hu t2 p2 E2 ltac:(congruence)) as I2.
    apply list_elem_of_lookup in I1 as [i1 L1]. apply list_elem_of_lookup in I2 as [i2 L2].
    assert (i1 = i2) as ->; [|congruence].
    apply (NoDup_lookup (map snd (user_dirs k)) i1 i2 (pg_dir p1) Hud); by rewrite list_lookup_fmap, ?L1, ?L2, ?E.
  - intros c Hi. by apply check_dirs, check_in_use.
  - intros c i Hi. by apply check_dirs, check_in_use.
  - apply check_present.
  - intros c i Ht. assert (Hk : exists d, d ∈ kdir :: live /\ 0 <= i < 1023 /\ present (dir_entry k d i) = true /\
      dir_entry k c i = dir_entry k d i).
    { destruct Ht as [[H' Hr]|(H' & Hr & Hp)].
      - exists kdir. split; [by left|]. split; [lia|]. split; [by apply check_present|]. by apply check_dirs; [apply check_in_use|].
      - exists c. split; [by apply check_live|]. done. }
    destruct Hk as (d & Hd & Hr & Hp & ->). pose proof (check_tables d i Hd Hr Hp) as Hn. split; [intros E; apply Hn; rewrite E; by left|].
    intros v q HO E. apply Hn. right. apply list_elem_of_fmap. exists (v, q). split; [done|]. by apply check_owned.
Qed.
End check.

(** *** Pools and page tables *)

Definition words_check (l : list (Z * Z)) : bool := forallb (fun '(_, x) => (0 <=? x) && (x <? 4294967296)) l.

Lemma words_check_ok l : words_check l = true -> words_ok (list_to_map l).
Proof.
  intros H a x E%elem_of_list_to_map_2. unfold words_check in H. get_forallb H (a, x). specialize (H E).
  cbn beta iota in H. bool_prop. done.
Qed.

Definition page_freeb (p : pool) (q : Z) : bool :=
  let j := (q - phy_addr_start p) / 4096 in
  (phy_addr_start p <=? q) && (j <? 8 * zlen (bits (pool_bitmap p))) && negb (bit (pool_bitmap p) j).

Lemma page_freeb_ok p q : page_freeb p q = false -> ~ page_free p q.
Proof.
  unfold page_freeb. cbv zeta. intros H (i & [Hi1 Hi2] & -> & Hb). unfold page_at in *.
  replace ((phy_addr_start p + i * 4096 - phy_addr_start p) / 4096) with i in H by zarith.
  rewrite Hb, (proj2 (Z.leb_le _ _)), (proj2 (Z.ltb_lt _ _)) in H by lia. done.
Qed.

Definition bitmap_check (mp : bitmap) : bool :=
  (0 <=? len mp) && (len mp <=? zlen (bits mp)) && (zlen (bits mp) <? 268435456) && forallb (fun b => (0 <=? b) && (b <? 256)) (bits mp).

Definition pool_check (p : pool) : bool :=
  bitmap_check (pool_bitmap p) && (1 <=? len (pool_bitmap p)) && (0 <? phy_addr_start p) &&
  (phy_addr_start p mod 4096 =? 0) && (phy_addr_start p + 8 * zlen (bits (pool_bitmap p)) * 4096 <=? 4294967296).

(** The page tables of the directory [c]. *)
Definition table_list (r : gmap Z Z) (c : Z) : list Z :=
  flat_map (fun i => let e := word r (c + i * 4) in if present e then [frame e] else []) (zrange 1023 1).

(** The directory that is loaded. *)
Definition loaded_check (k : kernel) : bool :=
  let r := ram (kmem k) in let c := cr3 (kc k) in
  (0 <=? c) && (c <? 4294967296) && (c mod 4096 =? 0) && present (word r (c + 4092)) && (frame (word r (c + 4092)) =? c) &&
  negb (page_freeb (kernel_pool (kmem k)) c) &&
  forallb (fun i => let e := word r (c + i * 4) in negb (present e) ||
    (((i =? 1023) || negb (frame e =? c)) && negb (page_freeb (kernel_pool (kmem k)) (frame e)) &&
     negb (page_freeb (user_pool (kmem k)) (frame e)))) (zrange 1024 0) &&
  bool_decide (NoDup (table_list r c)).

Lemma flat_map_NoDup {A B} (f : A -> list B) (l : list A) x y b : NoDup (flat_map f l) -> x ∈ l -> y ∈ l ->
  b ∈ f x -> b ∈ f y -> x = y.
Proof.
  intros Hnd Hx Hy Hbx Hby. induction l as [|a l IH]; [by apply not_elem_of_nil in Hx|].
  cbn [flat_map] in Hnd. apply NoDup_app in Hnd as (_ & Hd & Hnd). apply elem_of_cons in Hx, Hy.
  assert (Hin : forall z, z ∈ l -> b ∈ f z -> b ∈ flat_map f l).
  { intros z Hz Hb. rewrite list_elem_of_In, in_flat_map. exists z. by rewrite <- !list_elem_of_In. }
  destruct Hx as [->|Hx], Hy as [->|Hy]; [done|..|by apply IH]; exfalso.
  - apply (Hd b Hbx). by apply (Hin y).
  - apply (Hd b Hby). by apply (Hin x).
Qed.

Lemma table_list_ok r c w1 w2 : NoDup (table_list r c) -> is_word w1 -> is_word w2 ->
  PDE_IDX w1 <> 0 -> PDE_IDX w2 <> 0 -> PDE_IDX w1 <> PDE_IDX w2 ->
  present (word r (pde_addr c w1)) = true -> present (word r (pde_addr c w2)) = true ->
  frame (word r (pde_addr c w1)) <> frame (word r (pde_addr c w2)).
Proof.
  intros Hnd H1 H2 N1 N2 Hne P1 P2 E. apply Hne. pose proof (PDE_IDX_range w1 H1). pose proof (PDE_IDX_range w2 H2).
  apply (flat_map_NoDup _ _ _ _ (frame (word r (pde_addr c w1))) Hnd).
  - rewrite elem_of_zrange. lia.
  - rewrite elem_of_zrange. lia.
  - fold (pde_addr c w1). cbv zeta. rewrite P1. by left.
  - fold (pde_addr c w2). cbv zeta. rewrite P2, E. by left.
Qed.

Definition mem_check (k : kernel) (cs : list Z) : bool :=
  words_check (map_to_list (ram (kmem k))) && pool_check (kernel_pool (kmem k)) && pool_check (user_pool (kmem k)) &&
  (phy_addr_start (kernel_pool (kmem k)) + 8 * zlen (bits (pool_bitmap (kernel_pool (kmem k)))) * 4096 <=?
    phy_addr_start (user_pool (kmem k))) &&
  forallb (fun c => loaded_check (with_cr3 c k)) cs.

Definition space_check (k : kernel) : bool :=
  let va := kernel_vaddr (kmem k) in
  bitmap_check (vaddr_bitmap va) && (4194304 <=? vaddr_start va) && (vaddr_start va mod 4096 =? 0) &&
  (vaddr_start va + 8 * zlen (bits (vaddr_bitmap va)) * 4096 <=? space_end PF_KERNEL) &&
  forallb (fun i => bit (vaddr_bitmap va) i || match walk k (vaddr_start va + i * 4096) with Some _ => false | None => true end)
    (zrange (Z.to_nat (8 * zlen (bits (vaddr_bitmap va)))) 0).


Lemma bitmap_check_ok mp : bitmap_check mp = true -> bitmap_wf mp.
Proof.
  unfold bitmap_check. intros H. bool_prop. split; [lia|lia|]. apply Forall_forall. intros b Hb.
  get_forallb H0 b. specialize (H0 Hb). bool_prop. done.
Qed.
Lemma pool_check_ok p : pool_check p = true -> pool_wf p.
Proof. unfold pool_check. intros H. bool_prop. split; try done. by apply bitmap_check_ok. Qed.

Lemma map_words_ok (m : gmap Z Z) : words_check (map_to_list m) = true -> words_ok m.
Proof. intros H. apply words_check_ok in H. by rewrite list_to_map_to_list in H. Qed.

Lemma loaded_check_ok k : loaded_check k = true -> words_ok (ram (kmem k)) -> pools_ok (kmem k) -> mem_ok k.
Proof.
  unfold loaded_check. cbv zeta. intros H Hw Hp.
  apply andb_true_iff in H as [H Hfr%bool_decide_eq_true]. apply andb_true_iff in H as [H Hd].
  apply andb_true_iff in H as [H Hc].
  assert (Hall : forall w, is_word w -> let e := word (ram (kmem k)) (pde_addr (cr3 (kc k)) w) in present e = true ->
    (PDE_IDX w <> 1023 -> frame e <> cr3 (kc k)) /\ ~ page_free (kernel_pool (kmem k)) (frame e) /\
    ~ page_free (user_pool (kmem k)) (frame e)).
  { intros w Hwd e Hpr. pose proof (PDE_IDX_range w Hwd). get_forallb Hd (PDE_IDX w). rewrite elem_of_zrange in Hd.
    specialize (Hd ltac:(lia)). fold (pde_addr (cr3 (kc k)) w) in Hd. fold e in Hd. rewrite Hpr in Hd. cbn [negb orb] in Hd.
    apply andb_true_iff in Hd as [Hd H3]. apply andb_true_iff in Hd as [H1 H2]. bool_prop.
    split; [|split; by apply page_freeb_ok].
    intros Hne. rewrite (proj2 (Z.eqb_neq _ _) Hne) in H1. cbn [orb] in H1. bool_prop. done. }
  split; [|exact Hp|].
  - split; try done.
    + bool_prop. split; [done|]. split; [done|]. by split.
    + intros w Hwd Hne Hpr. by apply Hall.
    + by apply ps_kernel.
    + by apply page_freeb_ok, negb_true_iff.
    + intros w Hwd Hpr. by apply Hall.
    + intros w1 w2. by apply table_list_ok.
  - intros q (w & Hwd & Hpr & <-). by apply Hall.
Qed.

Lemma mem_check_ok k cs c : mem_check k cs = true -> c ∈ cs -> mem_ok (with_cr3 c k).
Proof.
  unfold mem_check. intros H Hc. apply andb_true_iff in H as [H Hcs]. get_forallb Hcs c. specialize (Hcs Hc).
  apply andb_true_iff in H as [H Ha]. apply andb_true_iff in H as [H Hu]. apply andb_true_iff in H as [H Hk].
  apply loaded_check_ok; [done|by apply map_words_ok|]. split; [by apply pool_check_ok|by apply pool_check_ok|]. by apply Z.leb_le.
Qed.

Lemma space_check_ok k : space_check k = true -> vspace_ok PF_KERNEL (kernel_vaddr (kmem k)) k.
Proof.
  unfold space_check. cbv zeta. intros H. apply andb_true_iff in H as [H Hu]. bool_prop.
  split; [done|]. split.
  - split; try done; try by apply bitmap_check_ok.
  - intros i [Hi1 Hi2] Hb. get_forallb Hu i. rewrite elem_of_zrange in Hu. specialize (Hu ltac:(lia)).
    rewrite Hb in Hu. cbn [orb] in Hu. by destruct (walk k _).
Qed.

(** ** Threads *)

Definition kmappedb (k : kernel) (a : Z) : bool :=
  (0xc0000000 <=? a) && (a <? 0xffc00000) && match walk k a with Some _ => true | None => false end.

Definition thread_ok_check (k : kernel) (G : list (Z * list Z)) (rs ts : list Z) (t : Z) (p : pcb) : bool :=
  match status p with
  | TASK_READY => bool_decide (t ∈ rs)
  | TASK_RUNNING => (t =? cur (kc k)) && freshb G (general_node t)
  | _ => true
  end && kmappedb k t && (t mod 4096 =? 0) &&
  (bool_decide (status p = TASK_DIED) || (bool_decide (t ∈ ts) && (1 <=? pid p) && (pid p <=? 127) && pid_taken k (pid p))).

Definition alive_pids (k : kernel) (ts : list Z) : list Z :=
  map (fun t => match pcbs (kth k) !! t with Some p => pid p | None => 0 end) ts.

Definition lock_check (k : kernel) (G : list (Z * list Z)) (lk : Z) : bool :=
  bool_decide (sema_value (ksy k) !! lock_semaphore lk = Some 1) &&
  match locks (ksy k) !! lk with Some l => (holder l =? NULL) && (holder_repeat_cnt l =? 0) | None => false end &&
  bool_decide ((list_to_map G : gmap Z (list Z)) !! waiters (lock_semaphore lk) = Some []).

Definition system_check (k : kernel) (pl pil : Z) (G : list (Z * list Z)) (rs ts : list Z) : bool :=
  let Γ : gmap Z (list Z) := list_to_map G in
  lists_okb (km k) G &&
  bool_decide (Γ !! thread_ready_list (kth k) = Some (map general_node rs)) &&
  bool_decide (Γ !! thread_all_list (kth k) = Some (map all_list_node ts)) &&
  forallb (fun '(t, p) => thread_ok_check k G rs ts t p) (map_to_list (pcbs (kth k))) &&
  forallb (fun t => bool_decide (st k t = Some TASK_READY)) rs &&
  forallb (fun t => match pcbs (kth k) !! t with Some p => negb (bool_decide (status p = TASK_DIED)) | None => false end) ts &&
  bool_decide (NoDup (alive_pids k ts)) &&
  bool_decide (st k (cur (kc k)) = Some TASK_RUNNING) && idle_check k G &&
  forallb (fun '(L, xs) => forallb (kmappedb k) (foot L xs)) G &&
  lock_check k G pl && lock_check k G pil &&
  bool_decide (NoDup [thread_ready_list (kth k); thread_all_list (kth k); waiters (lock_semaphore pl); waiters (lock_semaphore pil)]) &&
  bool_decide (is_Some (pcbs (kth k) !! main_thread (kth k))) && (pid_start (kth k) =? 1) && (len (pid_bitmap (kth k)) =? 128).

Lemma kmappedb_ok k a : kmappedb k a = true -> kmapped k a.
Proof. unfold kmappedb. intros H. bool_prop. split; [done|]. by destruct (walk k a). Qed.

Lemma lock_check_ok k G lk : lock_check k G lk = true -> lock_idle k (list_to_map G) lk.
Proof.
  unfold lock_check. intros H. destruct (locks (ksy k) !! lk) as [l|] eqn:E; bool_prop; [|done].
  repeat match goal with H : bool_decide _ = true |- _ => apply bool_decide_eq_true in H end.
  split; [|done|done]. rewrite E. f_equal. destruct l. cbn in *. congruence.
Qed.

Lemma system_check_ok k pool_lock pil G rs ts D O : system_check k (pool_lock PF_KERNEL) pil G rs ts = true ->
  kspace k D O -> bitmap_wf (pid_bitmap (kth k)) -> zlen (bits (pid_bitmap (kth k))) = 128 ->
  system_ok pool_lock pil k D O (list_to_map G) rs ts.
Proof.
  unfold system_check. intros H Hk Hb1 Hb2. bool_prop.
  repeat match goal with H : bool_decide _ = true |- _ => apply bool_decide_eq_true in H end.
  match goal with H : forallb (fun '(t, p) => thread_ok_check _ _ _ _ _ _) _ = true |- _ => rename H into Hth end.
  match goal with H : forallb _ rs = true |- _ => rename H into Hrs end.
  match goal with H : forallb _ ts = true |- _ => rename H into Hts end.
  match goal with H : forallb _ G = true |- _ => rename H into Hln end.
  match goal with H : idle_check _ _ = true |- _ => rename H into Hid end.
  match goal with H : NoDup (alive_pids _ _) |- _ => rename H into Hnd end.
  match goal with H : st _ _ = _ |- _ => rename H into Hcur end.
  assert (Ht : forall t p, pcbs (kth k) !! t = Some p -> thread_ok_check k G rs ts t p = true).
  { intros t p E. rewrite forallb_forall in Hth. apply (Hth (t, p)). by apply list_elem_of_In, elem_of_map_to_list. }
  assert (Htin : forall t, t ∈ ts -> exists p, pcbs (kth k) !! t = Some p /\ status p <> TASK_DIED).
  { intros t Hin. get_forallb Hts t. specialize (Hts Hin). destruct (pcbs (kth k) !! t) as [p|]; [|done].
    exists p. bool_prop. by apply bool_decide_eq_false in Hts. }
  assert (Halive : forall t p, alive k t p -> t ∈ ts /\ 1 <= pid p <= 127 /\ pid_taken k (pid p) = true).
  { intros t p [Ep Hs]. pose proof (Ht t p Ep) as E. unfold thread_ok_check in E. rewrite (bool_decide_eq_false_2 _ Hs) in E.
    cbn [orb] in E. bool_prop. match goal with H : bool_decide (t ∈ ts) = true |- _ => apply bool_decide_eq_true in H end. done. }
  assert (Hmap : forall t, is_Some (pcbs (kth k) !! t) -> kmapped k t /\ t mod 4096 = 0).
  { intros t [p Ep]. pose proof (Ht t p Ep) as E. unfold thread_ok_check in E. bool_prop. split; [by apply kmappedb_ok|done]. }
  split; try done.
  - split; [split|done]; try done.
    + by apply lists_okb_sound.
    + intros t. split.
      * intros Hin. get_forallb Hrs t. specialize (Hrs Hin). by apply bool_decide_eq_true in Hrs.
      * unfold st. intros (p & E & Hs)%fmap_Some. apply Ht in E. unfold thread_ok_check in E.
        rewrite <- Hs in E. bool_prop. match goal with H : bool_decide (t ∈ rs) = true |- _ => by apply bool_decide_eq_true in H end.
    + unfold st in Hcur. apply fmap_Some in Hcur as (p & E & _). eauto.
    + intros t. unfold st. intros (p & E & Hs)%fmap_Some. apply Ht in E. unfold thread_ok_check in E.
      rewrite <- Hs in E. bool_prop. split; [done|]. by apply freshb_sound.
    + unfold idle_check in Hid. destruct (st k (idle_thread (kth k))) as [s|] eqn:Es; [|done].
      exists s. split; [done|]. destruct s; try done; [by right; left|by left|].
      right. right. split; [done|]. by apply freshb_sound.
    + intros t Hs. destruct (Hmap t Hs) as [[Hka _] _]. unfold kernel_addr, NULL in *. lia.
    + by apply (kspace_dirs _ _ O).
  - split; try done.
    + intros t. split; [intros Hin; destruct (Htin t Hin) as (p & Ep & Hs); by exists p|].
      intros (p & Ha). by apply (Halive t p).
    + intros t p Ha. by apply (Halive t p).
    + intros t1 t2 p1 p2 H1' H2' E. destruct (Halive t1 p1 H1') as [I1 _]. destruct (Halive t2 p2 H2') as [I2 _].
      destruct H1' as [E1 _], H2' as [E2 _].
      apply list_elem_of_lookup in I1 as [i1 L1]. apply list_elem_of_lookup in I2 as [i2 L2].
      assert (i1 = i2) as ->; [|congruence]. unfold alive_pids in Hnd.
      apply (NoDup_lookup _ i1 i2 (pid p1) Hnd); rewrite list_lookup_fmap, ?L1, ?L2; cbn; [by rewrite E1|by rewrite E2, E].
  - intros L xs a HL%elem_of_list_to_map_2 Ha. get_forallb Hln (L, xs). specialize (Hln HL). cbn beta iota in Hln.
    get_forallb Hln a. by apply kmappedb_ok, Hln.
  - by apply lock_check_ok.
  - by apply lock_check_ok.
Qed.

(** ** The kernel *)

Definition base_ram : list (Z * Z) :=
  [(0x100000, 0x101007); (0x100004, 0x90007); (0x90000, 0x91007); (0x100ffc, 0x100007)] ++
  map (fun i => (0x100c00 + i * 4, 0x101007 + i * 4096)) (zrange 255 0) ++
  map (fun i => (0x101000 + i * 4, i * 4096 + 7)) (zrange 256 0).

(** The table entries of the pages in use, and a page directory at [q]. *)
Definition heap_ptes (Ol : list (Z * Z)) : list (Z * Z) :=
  map (fun '(v, q) => (0x101000 + (v - 0xc0000000) / 4096 * 4, q + 7)) Ol.
Definition dir_words (q : Z) : list (Z * Z) :=
  (q + 4092, q + 7) :: map (fun i => (q + 0xc00 + i * 4, 0x101007 + i * 4096)) (zrange 255 0).

(** A bitmap of 512 bits with the first [n], at most 8, set. *)
Definition first_bits (n : Z) : bitmap := mk_bitmap 64 ((Z.shiftl 1 n - 1) :: replicate 63 0).

Definition demo_mem (Ol : list (Z * Z)) (dirs : list Z) : memory :=
  mk_memory (list_to_map (base_ram ++ heap_ptes Ol ++ flat_map dir_words dirs))
    (mk_pool (first_bits (zlen Ol)) 0x200000 0x200000) (mk_pool (first_bits 0) 0x400000 0x200000)
    (mk_vaddr (first_bits (zlen Ol)) 0xc0100000).

(** Links as [list_init] and [list_append] make them. *)
Fixpoint append_all (L : Z) (xs : list Z) : M mach unit :=
  match xs with [] => mret tt | x :: xs' => _ ← list_append L x; append_all L xs' end.
Fixpoint link_all (G : list (Z * list Z)) : M mach unit :=
  match G with [] => mret tt | (L, xs) :: G' => _ ← list_init L; _ ← append_all L xs; link_all G' end.
Definition linked (f : Z) (G : list (Z * list Z)) : mach :=
  match link_all G (mk_mach f ∅ ∅) with Ok (_, m) => m | Err _ => mk_mach f ∅ ∅ end.

Definition t_main : Z := 0xc0010000.
Definition t_ready : Z := 0xc0011000.
Definition t_idle : Z := 0xc0012000.
Definition l_ready : Z := 0xc0005000.
Definition l_all : Z := 0xc0005020.
Definition lk_pool (pf : pool_flag) : Z := match pf with PF_KERNEL => 0xc0005040 | PF_USER => 0xc0005060 end.
Definition lk_pid : Z := 0xc0005080.

Definition demo_lists (rs ts : list Z) : list (Z * list Z) :=
  [(l_ready, map general_node rs); (l_all, map all_list_node ts);
   (waiters (lock_semaphore (lk_pool PF_KERNEL)), []); (waiters (lock_semaphore (lk_pool PF_USER)), []);
   (waiters (lock_semaphore lk_pid), [])].

Definition demo_sync : sync :=
  let lks := [lk_pool PF_KERNEL; lk_pool PF_USER; lk_pid] in
  mk_sync (list_to_map (map (fun l => (lock_semaphore l, 1)) lks)) (list_to_map (map (fun l => (l, mk_lock NULL 0)) lks)).

Definition demo_thread (x : Z) (s : task_status) (dir parent exit : Z) : pcb :=
  mk_pcb 0xc0010e00 x s (replicate 16 0) 31 31 0 dir (mk_vaddr (mk_bitmap 16 (replicate 16 0)) USER_VADDR_START) NULL
    parent exit STACK_MAGIC.

Definition kernel_threads : list (Z * pcb) :=
  [(t_main, demo_thread 1 TASK_RUNNING NULL (-1) 0); (t_ready, demo_thread 2 TASK_READY NULL (-1) 0);
   (t_idle, demo_thread 3 TASK_BLOCKED NULL (-1) 0)].

Definition demo_k (f : Z) (Ol : list (Z * Z)) (dirs : list Z) (others : list (Z * pcb)) : kernel :=
  let ts := [t_main; t_ready; t_idle] ++ map fst others in
  mk_kernel (linked f (demo_lists [t_ready] ts)) (mk_cpu t_main kdir 0) (demo_mem Ol dirs)
    (mk_threads (list_to_map (kernel_threads ++ others)) l_ready l_all t_main t_idle
       (mk_bitmap 128 ((Z.shiftl 1 (3 + zlen others) - 1) :: replicate 127 0)) 1) demo_sync.

(** *** Its memory *)

Lemma first_bits_wf n : 0 <= n <= 8 -> bitmap_wf (first_bits n).
Proof.
  intros Hn. assert (Hz : zlen (bits (first_bits n)) = 64) by done.
  split; rewrite ?Hz; [done|lia|]. apply Forall_cons. split; [|apply Forall_replicate; unfold is_byte; lia].
  rewrite Z.shiftl_1_l. pose proof (Z.pow_pos_nonneg 2 n). pose proof (Z.pow_le_mono_r 2 n 8). unfold is_byte. lia.
Qed.

Definition demo_mem_check (f : Z) (Ol : list (Z * Z)) (dirs : list Z) (others : list (Z * pcb)) : bool :=
  let k := demo_k f Ol dirs others in mem_check k [kdir] && space_check k.

Lemma demo_k_ok f Ol dirs others Ds : demo_mem_check f Ol dirs others = true ->
  let k := demo_k f Ol dirs others in
  kspace_check k [] Ds Ol = true ->
  system_check k (lk_pool PF_KERNEL) lk_pid (demo_lists [t_ready] ([t_main; t_ready; t_idle] ++ map fst others))
    [t_ready] ([t_main; t_ready; t_idle] ++ map fst others) = true -> zlen others <= 5 ->
  system_ok lk_pool lk_pid k (dir_of Ds) (assoc Ol) (list_to_map (demo_lists [t_ready] ([t_main; t_ready; t_idle] ++ map fst others)))
    [t_ready] ([t_main; t_ready; t_idle] ++ map fst others).
Proof.
  intros Hm k Hk Hs Hn. apply andb_true_iff in Hm as [Hm Hv].
  apply system_check_ok; [done|apply (kspace_check_ok _ []); [done| |by apply space_check_ok]| |done].
  - intros c Hc. by apply (mem_check_ok k [kdir]).
  - pose proof (zlen_nonneg others). split; cbn [k demo_k kth pid_bitmap len bits]; [done|done|].
    apply Forall_cons. split; [|apply Forall_replicate; unfold is_byte; lia].
    rewrite Z.shiftl_1_l. pose proof (Z.pow_pos_nonneg 2 (3 + zlen others)). pose proof (Z.pow_le_mono_r 2 (3 + zlen others) 8).
    unfold is_byte. lia.
Qed.

(** Three kernel threads, interrupts on, nothing in the heap. *)
Definition demo_three : kernel := demo_k 0x202 [] [] [].
Definition three_lists : gmap Z (list Z) := list_to_map (demo_lists [t_ready] [t_main; t_ready; t_idle]).

Lemma demo_three_ok : system_ok lk_pool lk_pid demo_three (dir_of []) (assoc []) three_lists [t_ready] [t_main; t_ready; t_idle].
Proof.
  apply (demo_k_ok 0x202 [] [] [] []).
  - vm_compute. reflexivity.
  - vm_compute. reflexivity.
  - vm_compute. reflexivity.
  - done.
Qed.
