(* ===== verification/Start.v ===== *)
(** * Start: starting threads and processes

    [thread_start] adds one ready thread that will run its function;
    [process_execute] adds a ready process with an address space of its own.
    Both keep [system_ok], so whatever the scheduler, the locks and the page
    allocator promise holds with the new thread as well. *)

From S2P Require Import Prelude CString Interrupt Lists Bitmap Kernel Paging Thread Sync IoQueue Memory DataPages Heap Pid Space Process System Pending Demo.

Section start.
Context (pool_lock : pool_flag -> Z) (pid_lock kernel_thread start_process_addr : Z).
Abbreviation system := (system_ok pool_lock pid_lock).

(** [x] is the number [alloc_pid] gives out. *)
Definition next_pid (k : kernel) (x : Z) : Prop :=
  1 <= x <= 127 /\ pid_taken k x = false /\ forall y, 1 <= y < x -> pid_taken k y = true.

(** The thread [t] with number [x], about to run [func(arg)] through
    [kernel_thread]. *)
Record started (h h' : heap) (D : Z -> Z) (O : gmap Z Z) (Γ : gmap Z (list Z)) (rs ts : list Z)
    (t q x : Z) (nm : list Z) (prio func arg : Z) : Prop := {
  sd_new : pcbs (kth (hk h)) !! t = None;
  sd_number : next_pid (hk h) x;
  sd_system : system (hk h') (set_dir t kdir D) (own t [q] O) (entered (hk h) Γ rs ts t) (rs ++ [t]) (ts ++ [t]);
  sd_pcbs : pcbs (kth (hk h')) =
    <[t := set_self_kstack (t + frame_off) (new_pcb t x TASK_READY nm prio)]> (pcbs (kth (hk h)));
  sd_frame : frame_at (hk h') (t + frame_off) (thread_frame kernel_thread func arg);
  sd_kc : kc (hk h') = kc (hk h);
  sd_flags : eflags (km (hk h')) = eflags (km (hk h));
  sd_arenas : arenas h' = arenas h /\ descs_kept t (block_descs h) (block_descs h') }.

(** One page for a PCB, initialised. *)
Lemma new_thread_ok h D O Γ rs ts name nm prio : system (hk h) D O Γ rs ts -> room (hk h) 1 ->
  cstr name 0 nm -> (length nm < 16)%nat ->
  (get_kernel_pages pool_lock 1 (hk h) = Ok (Done NULL, hk h) /\ no_run (kernel_vaddr (kmem (hk h))) 1) \/
  exists t q k1, get_kernel_pages pool_lock 1 (hk h) = Ok (Done t, k1) /\ t <> NULL /\ pages_got (hk h) k1 D O t 1 [q] /\
    let h1 := mk_heap k1 (arenas h) (block_descs h) in
    (init_thread pid_lock t name prio h1 = Err Fault /\ (forall y, 1 <= y <= 127 -> pid_taken (hk h) y = true) \/
     exists k2 x d, init_thread pid_lock t name prio h1 = Ok (Done tt, mk_heap k2 (arenas h) d) /\
       pending (hk h) k2 (set_dir t kdir D) (own t [q] O) Γ t (new_pcb t x TASK_READY nm prio) /\
       ~ dir_in_use k2 (set_dir t kdir D) q /\ next_pid (hk h) x /\ descs_kept t (block_descs h) d /\ kmem k2 = kmem k1).
Proof.
  intros Hs [Hlen Hb] Hname Hn16. pose proof (sp_lists _ _ _ _ (proj1 (so_sched _ _ _ _ _ _ _ _ Hs))) as Hl.
  destruct (kernel_pages_ok pool_lock (hk h) D O Γ 1 (so_space _ _ _ _ _ _ _ _ Hs) Hl (so_pool_lock _ _ _ _ _ _ _ _ Hs)
    ltac:(by apply (system_cur _ _ _ _ _ _ _ _ Hs)) ltac:(lia) Hlen Hb) as [[E Hno]|(t & qs & k1 & E & Ht & Hg)]; [by left|right].
  pose proof (pg_count _ _ _ _ _ _ _ Hg) as Hq. destruct qs as [|q [|]]; try done.
  2:{ exfalso. rewrite !zlen_cons in Hq. pose proof (zlen_nonneg l). lia. }
  exists t, q, k1. split; [done|]. split; [done|]. split; [done|]. intros h1.
  destruct (init_added pool_lock pid_lock (hk h) k1 D O Γ rs ts h1 t q name nm prio Hs Hg eq_refl Hname Hn16)
    as [[Ei Hall]|(m & b & x & d & Ei & Hpe & Hnu & Hd & Hlo)]; [by left|right].
  exists (thread_added k1 m b t (new_pcb t x TASK_READY nm prio)), x, d. split; [done|]. split; [done|]. split; [done|].
  split; [|done]. destruct (nc_pid _ _ _ _ (pe_new _ _ _ _ _ _ _ Hpe)) as [N1 N2]. done.
Qed.

Lemma thread_start_ok h D O Γ rs ts name nm prio func arg : system (hk h) D O Γ rs ts -> room (hk h) 1 ->
  cstr name 0 nm -> (length nm < 16)%nat -> is_word kernel_thread -> is_word func -> is_word arg ->
  (thread_start pool_lock pid_lock kernel_thread name prio func arg h = Err Fault /\
     (no_run (kernel_vaddr (kmem (hk h))) 1 \/ forall y, 1 <= y <= 127 -> pid_taken (hk h) y = true)) \/
  exists t q x h', thread_start pool_lock pid_lock kernel_thread name prio func arg h = Ok (Done t, h') /\
    started h h' D O Γ rs ts t q x nm prio func arg.
Proof.
  intros Hs Hroom Hname Hn16 Hw1 Hw2 Hw3. unfold thread_start.
  destruct (new_thread_ok h D O Γ rs ts name nm prio Hs Hroom Hname Hn16)
    as [[E Hno]|(t & q & k1 & E & Ht & Hg & [[Ei Hall]|(k2 & x & d & Ei & Hpe & Hnu & Hx & Hd & _)])];
    rewrite (obind_done _ _ _ _ _ (on_hk_ok _ h _ _ E)).
  { left. split; [|by left]. apply obind_err. unfold init_thread. by apply bindM_err. }
  { left. split; [|by right]. by apply obind_err. }
  right. rewrite (obind_done _ _ _ _ _ Ei). set (p := new_pcb t x TASK_READY nm prio) in *.
  pose proof (pending_pcb_eq _ _ _ _ _ _ _ Hpe) as Ep.
  destruct (thread_create_ok kernel_thread k2 _ _ t q p func arg (pe_space _ _ _ _ _ _ _ Hpe)
    (lookup_insert_eq _ _ _) Hnu Ep eq_refl Hw1 Hw2 Hw3) as (r & Ec & Hk3 & Hfr & Hdw & _).
  rewrite (bindM_ok _ _ _ _ _ (on_hk_ok _ (mk_heap k2 (arenas h) d) _ _ Ec)). cbn [arenas block_descs].
  set (p3 := set_self_kstack (t + frame_off) p) in *. set (k3 := set_ram r _) in *.
  pose proof (pending_write _ _ _ _ _ _ _ _ _ (pending_pcb _ _ _ _ _ _ _ p3 Hpe eq_refl eq_refl eq_refl) Hk3 Hdw) as Hpe3.
  fold k3 in Hpe3. destruct Hpe3 as [Hn3 _ Hl3 Hf3 Hc3].
  destruct (pending_enter pool_lock pid_lock (hk h) k3 D O _ _ Γ Γ rs ts t p3 Hs Hn3 Hk3 Hl3 (page_lists_refl _ _))
    as (m & Ee & Hfl & _ & Hs').
  exists t, q, x, (mk_heap (set_km m k3) (arenas h) d).
  rewrite (bindM_ok _ _ _ _ _ (on_hk_ok _ (mk_heap k3 (arenas h) d) _ _ Ee)). split; [done|].
  split; cbn [hk arenas block_descs]; try done.
  - apply (system_no_pcb _ _ _ _ _ _ _ _ _ Hs). by destruct (nc_page _ _ _ _ Hn3) as (_ & _ & ? & _).
  - exact (nc_pcbs _ _ _ _ Hn3).
  - by apply frame_at_km.
  - cbn. by rewrite Hfl.
Qed.

(** One more page is taken. *)
Definition one_taken (va va1 : virtual_addr) : Prop := len (vaddr_bitmap va1) = len (vaddr_bitmap va) /\
  exists i, forall j, in_bits (vaddr_bitmap va) j -> bit (vaddr_bitmap va1) j = bool_decide (j = i) || bit (vaddr_bitmap va) j.

(** Why [process_execute] may fail: no page, no process number, no room for
    the bitmap behind the page of the PCB. *)
Definition no_process (k : kernel) : Prop :=
  no_run (kernel_vaddr (kmem k)) 1 \/ (forall y, 1 <= y <= 127 -> pid_taken k y = true) \/
  exists va1, one_taken (kernel_vaddr (kmem k)) va1 /\ no_run va1 user_bitmap_pages.

(** The process [t] with number [x], whose address space is empty: it has a page
    for its directory, which holds the kernel's entries and no other.  It runs on
    the kernel's own directory only if the kernel has no virtual page left. *)
Record executed (h h' : heap) (rs ts : list Z) (t x : Z) (nm : list Z) (proc : Z) : Prop := {
  xd_new : pcbs (kth (hk h)) !! t = None;
  xd_number : next_pid (hk h) x;
  xd_system : exists D O Γ, system (hk h') D O Γ (rs ++ [t]) (ts ++ [t]) /\
    exists p, pcbs (kth (hk h')) = <[t := p]> (pcbs (kth (hk h))) /\ status p = TASK_READY /\ pid p = x /\
      Kernel.name p = nm ++ replicate (16 - length nm) 0 /\ priority p = default_priority /\
      ticks p = default_priority /\ parent_pid p = -1 /\ self_kstack p = t + frame_off /\
      empty_vspace (userprog_vaddr p) /\
      (pg_dir p = NULL /\ D t = kdir /\ no_run (kernel_vaddr (kmem (hk h'))) 1 \/
       pg_dir p <> NULL /\ O !! pg_dir p = Some (D t) /\ fresh_dir (hk h') (D t));
  xd_frame : frame_at (hk h') (t + frame_off) (thread_frame kernel_thread start_process_addr proc);
  xd_kc : kc (hk h') = kc (hk h);
  xd_flags : status_of (km (hk h')) = status_of (km (hk h)) }.

(** The rest of [process_execute], once the stack of the new process stands. *)
Lemma execute_rest h k4 D O D4 O4 Γ rs ts t q p4 d proc : system (hk h) D O Γ rs ts ->
  pending (hk h) k4 D4 O4 Γ t p4 -> room k4 1 -> pg_dir p4 = NULL -> O4 !! t = Some q ->
  frame_at k4 (t + frame_off) (thread_frame kernel_thread start_process_addr proc) ->
  exists v h' D5 O5 Γ',
    (page_dir ⇐ on_k (create_page_dir pool_lock);
     _ ← on_k (upd_pcb t (set_pg_dir page_dir));
     _ ← init_user_descs t;
     old_status ← on_k (on_mach intr_disable);
     _ ← on_k (enter_lists t);
     _ ← on_k (on_mach (intr_set_status old_status));
     mret (Done tt)) (mk_heap k4 (arenas h) d) = Ok (Done tt, h') /\
    system (hk h') D5 O5 Γ' (rs ++ [t]) (ts ++ [t]) /\
    pcbs (kth (hk h')) = <[t := set_pg_dir v p4]> (pcbs (kth (hk h))) /\
    (v = NULL /\ D5 t = kdir /\ no_run (kernel_vaddr (kmem (hk h'))) 1 \/
     v <> NULL /\ O5 !! v = Some (D5 t) /\ fresh_dir (hk h') (D5 t)) /\
    frame_at (hk h') (t + frame_off) (thread_frame kernel_thread start_process_addr proc) /\
    kc (hk h') = kc (hk h) /\ status_of (km (hk h')) = status_of (km (hk h)).
Proof.
  intros Hs Hpe4 Hr4 Hd4 HO4 Hfr.
  destruct (page_dir_step pool_lock pid_lock (hk h) k4 D O _ _ Γ rs ts t p4 Hs Hpe4 Hr4 Hd4)
    as (v & k5 & D5 & O5 & Ed & Ep5 & Hpe5 & Hkept & Hnull & Hdir).
  rewrite (obind_done _ _ _ _ _ (on_hk_ok _ (mk_heap k4 (arenas h) d) _ _ Ed)). cbn [arenas block_descs].
  rewrite (bindM_ok _ _ _ _ _ (on_hk_ok _ (mk_heap k5 (arenas h) d) _ _ (upd_pcb_ok _ _ _ _ Ep5))).
  cbn [arenas block_descs]. set (p5 := set_pg_dir v p4) in *. set (k6 := set_pcbs _ k5) in *.
  (* the descriptors and the lists *)
  destruct (user_descs_step pool_lock pid_lock (hk h) k6 D O _ _ Γ rs ts t p5 (mk_heap k6 (arenas h) d) Hs Hpe5 eq_refl)
    as (m & Γ1 & d1 & Eu & Hlm & Hfm & Hpl & _).
  rewrite (bindM_ok _ _ _ _ _ Eu). cbn [arenas].
  set (k7 := set_km (mach_if INTR_OFF m) k6).
  rewrite (bindM_ok _ _ _ _ _ (on_hk_ok _ (mk_heap (set_km m k6) (arenas h) d1) _ _ (on_disable _))).
  cbn [arenas block_descs set_km km]. change (set_km (mach_if INTR_OFF m) (set_km m k6)) with k7.
  pose proof (newcomer_km _ _ (mach_if INTR_OFF m) _ _ (pe_new _ _ _ _ _ _ _ Hpe5)) as Hn7.
  pose proof (kspace_km _ (mach_if INTR_OFF m) _ _ (pe_space _ _ _ _ _ _ _ Hpe5)) as Hk7.
  destruct (pending_enter pool_lock pid_lock (hk h) k7 D O D5 O5 Γ Γ1 rs ts t p5 Hs Hn7 Hk7 (lists_ok_if _ _ _ Hlm) Hpl)
    as (m' & Ee & Hfl & Hlm' & Hs').
  rewrite (bindM_ok _ _ _ _ _ (on_hk_ok _ (mk_heap k7 (arenas h) d1) _ _ Ee)). cbn [arenas block_descs].
  rewrite (bindM_ok _ _ _ _ _ (on_hk_ok _ (mk_heap (set_km m' k7) (arenas h) d1) _ _ (on_set_status _ _))).
  pose proof Hpe5 as [_ _ _ Hf5 Hc5].
  exists v. eexists. exists D5, O5, (entered (hk h) Γ1 rs ts t). split; [reflexivity|]. cbn [hk arenas set_km km].
  split; [by apply (system_km pool_lock pid_lock (set_km m' k7)), lists_ok_if|].
  split; [exact (nc_pcbs _ _ _ _ Hn7)|]. split; [|split; [|split; [exact Hc5|]]].
  - destruct (decide (v = NULL)) as [E0|N0]; [left|right].
    + split; [done|]. split; [|exact (Hnull E0)]. apply (ks_kernel _ _ _ (pe_space _ _ _ _ _ _ _ Hpe5) t p5); [|exact E0].
      exact (pending_pcb_eq _ _ _ _ _ _ _ Hpe5).
    + split; [done|]. destruct (Hdir N0) as [H1 [F1 F2 F3]]. split; [done|by split].
  - apply (frame_at_km _ k6). destruct (Hkept t q HO4) as [HO6 Hw6].
    apply (frame_at_kept k4 k6 D4 D5 O4 O5 t q); try done; [exact (pe_space _ _ _ _ _ _ _ Hpe4)|
      exact (pe_space _ _ _ _ _ _ _ Hpe5)|apply thread_frame_aligned].
  - unfold mach_if. rewrite status_with_if. unfold status_of. by rewrite Hfm, Hf5.
Qed.

Lemma page_one_taken k k1 D O t q : kspace k D O -> pages_got k k1 D O t 1 [q] ->
  one_taken (kernel_vaddr (kmem k)) (kernel_vaddr (kmem k1)).
Proof.
  intros Hk Hg. split; [apply (pg_size _ _ _ _ _ _ _ Hg)|]. set (va := kernel_vaddr (kmem k)).
  exists ((t - vaddr_start va) / 4096). intros j Hj. pose proof (pg_bits _ _ _ _ _ _ _ Hg j Hj) as Hb. cbv zeta in Hb.
  fold va in Hb. rewrite Hb. destruct (pg_addr _ _ _ _ _ _ _ Hg) as [Ha _].
  destruct (ks_vspace _ _ _ Hk) as (_ & [_ Hs _ _] & _). fold va in Hs.
  rewrite (bool_decide_ext (t <= vaddr_start va + j * 4096 < t + 1 * 4096) (j = (t - vaddr_start va) / 4096)) by (split; zarith).
  by destruct (bool_decide _).
Qed.

Lemma process_execute_ok h D O Γ rs ts proc name nm : system (hk h) D O Γ rs ts -> room (hk h) 25 ->
  cstr name 0 nm -> (length nm < 16)%nat -> is_word kernel_thread -> is_word start_process_addr -> is_word proc ->
  (exists e, process_execute pool_lock pid_lock kernel_thread start_process_addr proc name h = Err e /\ no_process (hk h)) \/
  exists t x h', process_execute pool_lock pid_lock kernel_thread start_process_addr proc name h = Ok (Done tt, h') /\
    executed h h' rs ts t x nm proc.
Proof.
  intros Hs Hroom Hname Hn16 Hw1 Hw2 Hw3. unfold process_execute.
  destruct (new_thread_ok h D O Γ rs ts name nm default_priority Hs (room_less _ 25 1 ltac:(lia) Hroom) Hname Hn16)
    as [[E Hno]|(t & q & k1 & E & Ht & Hg & [[Ei Hall]|(k2 & x & d & Ei & Hpe & Hnu & Hx & Hd & Em)])];
    rewrite (obind_done _ _ _ _ _ (on_hk_ok _ h _ _ E)).
  { left. eexists. split; [done|by left]. }
  { left. exists Fault. split; [|by right; left]. rewrite bind_assert by (by rewrite (proj2 (Z.eqb_neq _ _) Ht)). by apply obind_err. }
  rewrite bind_assert by (by rewrite (proj2 (Z.eqb_neq _ _) Ht)). rewrite (obind_done _ _ _ _ _ Ei).
  assert (Hr2 : room k2 (user_bitmap_pages + 1)).
  { pose proof (room_pages _ _ _ _ _ _ 24 _ Hg ltac:(lia) ltac:(lia) Hroom) as [R1 R2].
    change (user_bitmap_pages + 1) with 24. split; [by rewrite Em|]. unfold budget in *. by rewrite Em. }
  (* the bitmap *)
  destruct (user_bitmap_ok pool_lock pid_lock (hk h) k2 D O _ _ Γ rs ts t _ Hs Hpe (room_less k2 (user_bitmap_pages + 1) user_bitmap_pages ltac:(by vm_compute) Hr2))
    as [[Eb Hno]|(vb & qs & k3 & va & Eb & Hg3 & Hva & Hpe3)].
  { left. exists Fault. split; [by apply obind_err, on_hk_err|]. right; right. eexists. split; [|exact Hno].
    rewrite Em. apply (page_one_taken (hk h) k1 D O t q); [exact (so_space _ _ _ _ _ _ _ _ Hs)|exact Hg]. }
  rewrite (obind_done _ _ _ _ _ (on_hk_ok _ (mk_heap k2 (arenas h) d) _ _ Eb)). cbn [arenas block_descs].
  set (p3 := set_userprog_vaddr va _) in *. set (k3' := set_pcbs _ k3) in *.
  (* the stack *)
  pose proof (pages_got_kept _ _ _ _ _ _ _ (pe_space _ _ _ _ _ _ _ Hpe) Hg3 t q (lookup_insert_eq _ _ _)) as [HO3 _].
  assert (Hnu3 : ~ dir_in_use k3' (set_dir t kdir D) q).
  { intros Hu. apply Hnu. apply (pending_in_use k2 k3' _ t _ p3 q (pending_pcb_eq _ _ _ _ _ _ _ Hpe)); [|done].
    cbn. by rewrite (pg_kth _ _ _ _ _ _ _ Hg3). }
  destruct (thread_create_ok kernel_thread k3' _ _ t q p3 start_process_addr proc (pe_space _ _ _ _ _ _ _ Hpe3)
    HO3 Hnu3 (pending_pcb_eq _ _ _ _ _ _ _ Hpe3) eq_refl Hw1 Hw2 Hw3) as (r & Ec & Hk4 & Hfr & Hdw & _).
  rewrite (bindM_ok _ _ _ _ _ (on_hk_ok _ (mk_heap k3' (arenas h) d) _ _ Ec)). cbn [arenas block_descs].
  set (p4 := set_self_kstack (t + frame_off) p3) in *. set (k4 := set_ram r _) in *.
  pose proof (pending_write _ _ _ _ _ _ _ _ _ (pending_pcb _ _ _ _ _ _ _ p4 Hpe3 eq_refl eq_refl eq_refl) Hk4 Hdw) as Hpe4.
  fold k4 in Hpe4.
  assert (Hr4 : room k4 1).
  { destruct (room_pages _ _ _ _ _ _ 1 _ Hg3 ltac:(by vm_compute) ltac:(lia) Hr2) as [R1 R2].
    split; [exact R1|]. by apply budget_ram. }
  destruct (execute_rest h k4 D O _ _ Γ rs ts t q p4 d proc Hs Hpe4 Hr4 eq_refl HO3 Hfr)
    as (v & h' & D5 & O5 & Γ' & Er & Hs' & Hp' & Hv & Hfr' & Hc' & Hst').
  right. exists t, x, h'. split; [exact Er|]. split; try done.
  - apply (system_no_pcb _ _ _ _ _ _ _ _ _ Hs). by destruct (nc_page _ _ _ _ (pe_new _ _ _ _ _ _ _ Hpe)) as (_ & _ & ? & _).
  - exists D5, O5, Γ'. split; [exact Hs'|]. exists (set_pg_dir v p4). split; [exact Hp'|].
    do 7 (split; [done|]). split; [exact Hva|exact Hv].
Qed.
End start.

(** ** Properties *)

(** C14. [thread_start] in a consistent system with room for a page: it adds
    exactly one thread, in a page that no thread, list or directory used, with
    the least free process number, the name and the priority asked for, last
    in the ready queue, and its kernel stack makes it enter
    [kernel_thread(func, arg)]; every invariant of threads, lists and memory
    holds with it, and interrupts are as before.  Without a page or a number
    the function faults: it tests neither result. *)
Theorem thread_start_adds (pool_lock : pool_flag -> Z) (pid_lock kernel_thread : Z) (h : heap) (D : Z -> Z)
    (O : gmap Z Z) (Γ : gmap Z (list Z)) (rs ts name nm : list Z) (prio func arg : Z) :
  system_ok pool_lock pid_lock (hk h) D O Γ rs ts -> room (hk h) 1 ->
  cstr name 0 nm -> (length nm < 16)%nat -> is_word kernel_thread -> is_word func -> is_word arg ->
  (thread_start pool_lock pid_lock kernel_thread name prio func arg h = Err Fault /\
     (no_run (kernel_vaddr (kmem (hk h))) 1 \/ forall y, 1 <= y <= 127 -> pid_taken (hk h) y = true)) \/
  exists t q x h', thread_start pool_lock pid_lock kernel_thread name prio func arg h = Ok (Done t, h') /\
    started pool_lock pid_lock kernel_thread h h' D O Γ rs ts t q x nm prio func arg.
Proof. apply thread_start_ok. Qed.

(** C15. [process_execute] adds exactly one process: the least free number,
    last in the ready queue, its kernel stack set to enter [start_process],
    the bitmap of its addresses all clear, and in a page of its own a page
    directory with the kernel's entries, itself in entry 1023, and nothing below
    3 GB; the invariants hold with it, and the interrupt flag is restored.  Only
    when the kernel has no virtual page left for the directory, which is not
    tested, does the process run on the kernel's. *)
Theorem process_execute_adds (pool_lock : pool_flag -> Z) (pid_lock kernel_thread start_process_addr : Z) (h : heap)
    (D : Z -> Z) (O : gmap Z Z) (Γ : gmap Z (list Z)) (rs ts : list Z) (proc : Z) (name nm : list Z) :
  system_ok pool_lock pid_lock (hk h) D O Γ rs ts -> room (hk h) 25 ->
  cstr name 0 nm -> (length nm < 16)%nat -> is_word kernel_thread -> is_word start_process_addr -> is_word proc ->
  (exists e, process_execute pool_lock pid_lock kernel_thread start_process_addr proc name h = Err e /\ no_process (hk h)) \/
  exists t x h', process_execute pool_lock pid_lock kernel_thread start_process_addr proc name h = Ok (Done tt, h') /\
    executed pool_lock pid_lock kernel_thread start_process_addr h h' rs ts t x nm proc.
Proof. apply process_execute_ok. Qed.

(** ** Witnesses *)

Definition demo_heap : heap := mk_heap demo_three ∅ ∅.

Lemma free_bits j : 0 <= j < 64 -> bit (vaddr_bitmap (kernel_vaddr (kmem demo_three))) j = false.
Proof.
  intros Hj. assert (H : forallb (fun i => negb (bit (vaddr_bitmap (kernel_vaddr (kmem demo_three))) i)) (seqZ 0 64) = true)
    by (vm_compute; reflexivity).
  get_forallb H j. rewrite elem_of_seqZ in H. apply negb_true_iff, H. lia.
Qed.

Lemma thread_start_adds_witness :
  exists t h', thread_start lk_pool lk_pid 0xc0001000 [105; 100; 108; 101; 0] 10 0xc0002000 0 demo_heap = Ok (Done t, h') /\
    frame_at (hk h') (t + frame_off) (thread_frame 0xc0001000 0xc0002000 0).
Proof.
  destruct (thread_start_adds lk_pool lk_pid 0xc0001000 demo_heap _ _ _ _ _ [105; 100; 108; 101; 0] [105; 100; 108; 101] 10
    0xc0002000 0 demo_three_ok) as [[_ [H|H]]|(t & q & x & h' & E & [_ _ _ _ F _ _ _])].
  - split; vm_compute; [discriminate|]. lia.
  - exists [], []. repeat split; repeat constructor; lia.
  - cbn. lia.
  - unfold is_word. lia.
  - unfold is_word. lia.
  - unfold is_word. lia.
  - destruct (H 0); [cbn; lia|]. intros j Hj. assert (j = 0) as -> by lia. reflexivity.
  - specialize (H 4 ltac:(lia)). discriminate.
  - exists t, h'. split; [exact E|exact F].
Defined.

Lemma process_execute_adds_witness :
  exists t h', process_execute lk_pool lk_pid 0xc0001000 0xc0003000 0x8048000 [105; 110; 105; 116; 0] demo_heap = Ok (Done tt, h') /\
    frame_at (hk h') (t + frame_off) (thread_frame 0xc0001000 0xc0003000 0x8048000).
Proof.
  destruct (process_execute_adds lk_pool lk_pid 0xc0001000 0xc0003000 demo_heap _ _ _ _ _ 0x8048000 [105; 110; 105; 116; 0]
    [105; 110; 105; 116] demo_three_ok) as [[e E]|(t & x & h' & E & [_ _ _ F _ _])].
  - split; vm_compute; [discriminate|]. lia.
  - exists [], []. repeat split; repeat constructor; lia.
  - cbn. lia.
  - unfold is_word. lia.
  - unfold is_word. lia.
  - unfold is_word. lia.
  - exfalso. destruct E as (_ & [H|[H|(va1 & [Hl (i & Hb)] & H)]]).
    + destruct (H 0); [cbn; lia|]. intros j Hj. assert (j = 0) as -> by lia. reflexivity.
    + specialize (H 4 ltac:(lia)). discriminate.
    + assert (Hc : forall j, 0 <= j < 64 -> bit (vaddr_bitmap va1) j = bool_decide (j = i)).
      { intros j Hj. rewrite Hb by (unfold in_bits; change (zlen (bits (vaddr_bitmap (kernel_vaddr (kmem (hk demo_heap)))))) with 64; lia).
        change (hk demo_heap) with demo_three. rewrite (free_bits j) by lia. by rewrite orb_false_r. }
      assert (El : len (vaddr_bitmap va1) = 64) by (rewrite Hl; reflexivity).
      assert (Hu : user_bitmap_pages = 23) by reflexivity. unfold no_run in H. rewrite Hu, El in H.
      destruct (decide (0 <= i < 23)).
      * apply (H 23); [lia|]. intros j Hj. rewrite Hc by lia. apply bool_decide_eq_false_2. lia.
      * apply (H 0); [lia|]. intros j Hj. rewrite Hc by lia. apply bool_decide_eq_false_2. lia.
  - exists t, h'. split; [exact E|exact F].
Defined.
