(* ===== verification/Wait.v ===== *)
(** * Wait: the end of threads (thread/thread.c, userprog/exit.c, userprog/wait.c)

    [sys_exit] leaves the PCB of a process behind, with status TASK_HANGING,
    for the parent to collect; [sys_wait_without_pid] and [sys_wait] collect
    it through [thread_exit], or put the parent to sleep as TASK_WAITING.

    [thread_exit] gives the page of the PCB back and then reads the process
    number in it.  The page is unmapped but, [page_table_pte_remove] having
    flushed another address, still in the TLB, so the model lets it be read;
    the PCB disappears from [pcbs] when the function is done with it. *)

From S2P Require Import Prelude CString Interrupt Lists Bitmap Kernel Paging Thread Sync IoQueue Memory DataPages Heap Pid.

Definition drop_pcb (thread : Z) : M kernel unit :=
  modify (fun k => set_pcbs (delete thread (pcbs (kth k))) k).

(** ** Giving the memory of a process back *)

(** The inner loop: the frames in one page table. *)
Fixpoint release_ptes (n : nat) (first_pte_vaddr_in_pde pte_idx : Z) : M kernel unit :=
  match n with
  | O => mret tt
  | S n' =>
      pte ← vload (u32 (first_pte_vaddr_in_pde + 4 * pte_idx));
      _ ← (if negb (Z.land pte 0x00000001 =? 0)
           then free_one_phy_page (Z.land pte 0xfffff000) else mret tt);
      release_ptes n' first_pte_vaddr_in_pde (u16 (pte_idx + 1))
  end.

(** The outer loop: the tables of the directory at [pgdir_vaddr].  The product
    [pde_idx * 0x400000] wraps like the address it becomes. *)
Fixpoint release_pdes (n : nat) (pgdir_vaddr pde_idx : Z) : M kernel unit :=
  match n with
  | O => mret tt
  | S n' =>
      pde ← vload (u32 (pgdir_vaddr + 4 * pde_idx));
      _ ← (if negb (Z.land pde 0x00000001 =? 0) then
             _ ← release_ptes 1024 (pte_ptr (u32 (pde_idx * 0x400000))) 0;
             free_one_phy_page (Z.land pde 0xfffff000)
           else mret tt);
      release_pdes n' pgdir_vaddr (u16 (pde_idx + 1))
  end.

Definition release_prog_resource (thread : Z) : M kernel unit :=
  p ← get_pcb thread;
  _ ← release_pdes 768 (pg_dir p) 0;
  p ← get_pcb thread;
  let cnt := len (vaddr_bitmap (userprog_vaddr p)) / PG_SIZE in
  mfree_page PF_KERNEL (vaddr_bits p) cnt.

Section ends.
Context (pid_lock : Z).

(** With [need_schedule] the thread leaves the processor for good and never
    gets behind [schedule], where the code panics. *)
Definition thread_exit (thread : Z) (need_schedule : bool) : M kernel (outcome unit) :=
  _ ← on_mach intr_disable;
  _ ← upd_pcb thread (set_status TASK_DIED);
  L ← gets (fun k => thread_ready_list (kth k));
  f ← on_mach (node_find L (general_node thread));
  _ ← (if (f : bool) then on_mach (list_remove (general_node thread)) else mret tt);
  p ← get_pcb thread;
  _ ← (if negb (pg_dir p =? NULL) then mfree_page PF_KERNEL (pg_dir p) 1 else mret tt);
  _ ← on_mach (list_remove (all_list_node thread));
  main ← gets (fun k => main_thread (kth k));
  _ ← (if negb (thread =? main) then mfree_page PF_KERNEL thread 1 else mret tt);
  p ← get_pcb thread;
  r ← release_pid pid_lock (pid p);
  match r with
  | Done _ =>
      if need_schedule then _ ← schedule; mret Waits
      else
        _ ← (if negb (thread =? main) then drop_pcb thread else mret tt);
        mret (Done tt)
  | WaitsLock old => mret (WaitsLock old)
  | Waits => mret Waits
  end.

(** ** sys_wait *)

Definition node_pcb (node : Z) : M kernel pcb := get_pcb (all_list_node_entry node).

Definition check_child (ppid node : Z) : M kernel bool :=
  p ← node_pcb node; mret (parent_pid p =? ppid).
Definition check_hanging_child (ppid node : Z) : M kernel bool :=
  p ← node_pcb node; mret ((parent_pid p =? ppid) && bool_decide (status p = TASK_HANGING)).
Definition check_thread (x node : Z) : M kernel bool :=
  p ← node_pcb node; mret (pid p =? x).
Definition check_hanging_thread (x node : Z) : M kernel bool :=
  p ← node_pcb node; mret ((pid p =? x) && bool_decide (status p = TASK_HANGING)).

(** How one round of the loop ends: with the value returned, suspended in
    [thread_block], or suspended on the lock of [release_pid]. *)
Inductive waited := Returns (x : Z) | Sleeps (old : intr_status) | InLock (old : intr_status).

(** What both functions do with a hanging child. *)
Definition reap (child child_exit_status : Z) : M kernel waited :=
  p ← get_pcb child;
  _ ← vstore child_exit_status (u32 (exit_status p));
  let child_pid := u16 (pid p) in
  r ← thread_exit child false;
  mret (match r with Done _ => Returns (i16 child_pid) | WaitsLock old => InLock old
        | Waits => InLock INTR_OFF end).

(** One round: the tests differ between the two functions. *)
Definition wait_round (hanging any : Z -> M kernel bool) (child_exit_status : Z) : M kernel waited :=
  node ← traverse_all hanging;
  if negb (node =? NULL) then reap (all_list_node_entry node) child_exit_status
  else
    node ← traverse_all any;
    if node =? NULL then mret (Returns (-1))
    else old ← thread_block TASK_WAITING; mret (Sleeps old).

Definition sys_wait_without_pid (child_exit_status : Z) : M kernel waited :=
  parent ← running_thread;
  p ← get_pcb parent;
  wait_round (check_hanging_child (pid p)) (check_child (pid p)) child_exit_status.

Definition sys_wait (x child_exit_status : Z) : M kernel waited :=
  wait_round (check_hanging_thread x) (check_thread x) child_exit_status.

(** The next round, once the parent runs again. *)
Definition sys_wait_without_pid_again (old : intr_status) (child_exit_status : Z) : M kernel waited :=
  _ ← resume old; sys_wait_without_pid child_exit_status.
Definition sys_wait_again (old : intr_status) (x child_exit_status : Z) : M kernel waited :=
  _ ← resume old; sys_wait x child_exit_status.
End ends.

(** ** sys_exit *)

Definition change_parent_to_init (ppid node : Z) : M kernel bool :=
  p ← node_pcb node;
  _ ← (if parent_pid p =? ppid then upd_pcb (all_list_node_entry node) (set_parent_pid 1) else mret tt);
  mret false.

Definition sys_exit (st : Z) : M kernel intr_status :=
  child ← running_thread;
  _ ← upd_pcb child (set_exit_status (i8 st));
  p ← get_pcb child;
  _ ← ASSERTM (negb (parent_pid p =? -1));
  _ ← traverse_all (change_parent_to_init (pid p));
  _ ← release_prog_resource child;
  p ← get_pcb child;
  parent ← pid2pcb (parent_pid p);
  _ ← (if negb (parent =? NULL) then
         q ← get_pcb parent;
         if bool_decide (status q = TASK_WAITING) then thread_unblock parent else mret tt
       else mret tt);
  thread_block TASK_HANGING.
