(* ===== verification/Reap.v ===== *)
(** * Reap: collecting a process that has exited

    [thread_exit] and the waiting of a parent.  The memory part of
    [thread_exit] does not look at links and threads ([blind]), so it is what
    a kernel that has already forgotten the thread would do; in that kernel
    nobody uses the PCB's page and the page directory, and [mfree_page] frees
    them as it frees any page. *)

From S2P Require Import Prelude CString Interrupt Lists Bitmap Kernel Paging Thread Sync IoQueue Memory DataPages Heap Pid Space Process System Switch Demo Wait.
Open Scope gw_scope.

(** ** Operations on memory alone *)

(** [k] with other links and threads. *)
Definition with_frame (m : mach) (T : threads) (k : kernel) : kernel := mk_kernel m (kc k) (kmem k) T (ksy k).

(** An operation that neither reads nor changes links and threads. *)
Definition blind {A} (x : M kernel A) : Prop := forall m T k,
  x (with_frame m T k) = match x k with Ok (a, k') => Ok (a, with_frame m T k') | Err e => Err e end.

Create HintDb blind.

Lemma blind_bind {A B} (x : M kernel A) (f : A -> M kernel B) :
  blind x -> (forall a, blind (f a)) -> blind (x ≫= f).
Proof.
  intros Hx Hf m T k. unfold mbind, M_bind. rewrite Hx. destruct (x k) as [[a k']|e]; [|done]. apply Hf.
Qed.
Lemma blind_ret {A} (a : A) : blind (mret a).
Proof. done. Qed.
Lemma blind_lift {A} (r : res A) : blind (lift r).
Proof. intros m T k. by destruct r. Qed.
Lemma blind_kmem {A} (f : memory -> A) : blind (gets (fun k => f (kmem k))).
Proof. done. Qed.
Lemma blind_vload v : blind (vload v).
Proof. intros m T k. unfold vload. cbn. by destruct (translate _ _ _). Qed.
Lemma blind_vstore v x : blind (vstore v x).
Proof. intros m T k. unfold vstore. cbn. by destruct (translate _ _ _). Qed.
Lemma blind_pool pf p : blind (modify (set_pool pf p)).
Proof. done. Qed.
Lemma blind_vaddr va : blind (modify (set_kernel_vaddr va)).
Proof. done. Qed.
Lemma blind_assert b : blind (ASSERTM b).
Proof. apply blind_lift. Qed.
Lemma blind_if {A} (b : bool) (x y : M kernel A) : blind x -> blind y -> blind (if b then x else y).
Proof. by destruct b. Qed.
#[export] Hint Resolve blind_bind blind_ret blind_lift blind_vload blind_vstore blind_pool
  blind_vaddr blind_assert blind_if : blind.
#[export] Hint Extern 1 (blind (gets kmem)) => exact (blind_kmem id) : blind.

Lemma blind_pfree q : blind (pfree q).
Proof. unfold pfree. eauto 10 with blind. Qed.
Lemma blind_vir2phy v : blind (addr_vir2phy v).
Proof. unfold addr_vir2phy. eauto with blind. Qed.
Lemma blind_pte_remove v : blind (page_table_pte_remove v).
Proof. unfold page_table_pte_remove. eauto with blind. Qed.
#[export] Hint Resolve blind_pfree blind_vir2phy blind_pte_remove : blind.

Lemma blind_mfree_loop n : forall v lo hi, blind (mfree_page_loop n v lo hi).
Proof. induction n; intros; cbn [mfree_page_loop]; eauto 10 with blind. Qed.
Lemma blind_mfree v n : blind (mfree_page PF_KERNEL v n).
Proof.
  unfold mfree_page, vaddr_remove, get_vaddr, set_vaddr.
  assert (blind (gets (fun k => kernel_vaddr (kmem k)))) by apply blind_kmem.
  pose proof blind_mfree_loop. eauto 10 with blind.
Qed.

Lemma blind_run {A} (x : M kernel A) m T k a k' : blind x -> x k = Ok (a, k') ->
  x (with_frame m T k) = Ok (a, with_frame m T k').
Proof. intros Hx E. by rewrite Hx, E. Qed.

(** ** Pages of the kernel *)

(** Outside the page tables memory is as before, and the tables are the same. *)
Definition data_kept (k k' : kernel) : Prop :=
  (forall q, table_frame k' q <-> table_frame k q) /\
  forall a, (forall q, table_frame k q -> ~ (q <= a < q + 4096)) -> word (ram (kmem k')) a = word (ram (kmem k)) a.

Lemma data_kept_refl k : data_kept k k.
Proof. done. Qed.
Lemma data_kept_trans k1 k2 k3 : data_kept k1 k2 -> data_kept k2 k3 -> data_kept k1 k3.
Proof.
  intros [T1 W1] [T2 W2]. split; [intros q; by rewrite T2|]. intros a Ha. rewrite W2; [by apply W1|].
  intros q Hq. by apply Ha, T1.
Qed.

(** The table entry of a page of the kernel is in a page table. *)
Lemma entry_in_table k D O v : kspace k D O -> kernel_addr v ->
  exists q, table_frame k q /\ q <= entry_addr k v < q + 4096.
Proof.
  intros Hk Hv. destruct (kernel_addr_PDE v Hv) as (Hw & _).
  destruct (kernel_entry k D O _ v Hk (dir_live_in_use _ _ _ (ks_cr3 _ _ _ Hk)) Hv) as (_ & Hp & _).
  eexists. split; [exists v; split; [done|]; split; [exact Hp|reflexivity]|].
  unfold entry_addr, pte_addr. pose proof (PTE_IDX_range v Hw). lia.
Qed.

(** What giving back the page [v] of frame [q] does. *)
Record page_gone (k k' : kernel) (D : Z -> Z) (O : gmap Z Z) (v q : Z) : Prop := {
  gn_space : kspace k' D (delete v O);
  gn_km : km k' = km k;
  gn_kc : kc k' = kc k;
  gn_kth : kth k' = kth k;
  gn_ksy : ksy k' = ksy k;
  gn_walk : forall w, heap_addr w -> walk k' w = if decide (v <= w < v + 4096) then None else walk k w;
  gn_free : forall x, page_free (kernel_pool (kmem k')) x <-> page_free (kernel_pool (kmem k)) x \/ x = q;
  gn_user : user_pool (kmem k') = user_pool (kmem k);
  gn_data : data_kept k k' }.

Lemma free_owned k D O v q : kspace k D O -> O !! v = Some q -> ~ dir_in_use k D q ->
  exists k', mfree_page PF_KERNEL v 1 k = Ok (tt, k') /\ page_gone k k' D O v q.
Proof.
  intros Hk HO Hn. assert (Hr : owned_run k D O v [q]).
  { split.
    - intros [|i] q'; cbn; [|done]. intros [= <-]. by rewrite Z.add_0_r.
    - destruct (ks_page _ _ _ Hk v q HO) as [(i & Hi & -> & Hle) _]. exists i. change (zlen [q]) with 1. by split. }
  destruct (mfree_owned k D O v [q] Hk Hr) as (k' & va' & E & Hre & Hk'); [done|].
  exists k'. split; [exact E|]. destruct (re_rest _ _ _ _ _ _ _ Hre) as (R1 & R2 & R3 & R4 & _).
  split; try done.
  - intros w Hh. change (v + 4096) with (v + zlen [q] * 4096).
    destruct (decide _); [by apply (re_unmapped _ _ _ _ _ _ _ Hre)|by apply (re_others _ _ _ _ _ _ _ Hre)].
  - intros x. rewrite (re_free _ _ _ _ _ _ _ Hre). cbn [pool_of]. by rewrite list_elem_of_singleton.
  - exact (re_other _ _ _ _ _ _ _ Hre PF_USER ltac:(done)).
  - split; [exact (re_tables _ _ _ _ _ _ _ Hre)|]. intros a Ha. apply (re_words _ _ _ _ _ _ _ Hre).
    intros [|i]; cbn [length]; [|lia]. intros _ ->. rewrite Z.add_0_r in Ha.
    destruct (ks_page _ _ _ Hk v q HO) as [Hh _]. destruct (in_heap_kernel _ _ _ _ Hk Hh) as [Hka _].
    destruct (entry_in_table k D O v Hk Hka) as (x & Hx & Hin). by apply (Ha x).
Qed.

(** ** Threads that have exited *)

(** [c] has exited: nobody uses its PCB or its page directory, and only
    [thread_all_list] links a node in the page of the PCB, its own. *)
Record exited (k : kernel) (O : gmap Z Z) (Γ : gmap Z (list Z)) (c : Z) (p : pcb) (qc : Z) : Prop := {
  ex_pcb : pcbs (kth k) !! c = Some p;
  ex_status : status p = TASK_HANGING;
  ex_main : c <> main_thread (kth k);
  ex_page : O !! c = Some qc;
  ex_dirs : forall t y, pcbs (kth k) !! t = Some y -> pg_dir y <> c /\ t <> pg_dir p;
  ex_nodes : forall L xs a, Γ !! L = Some xs -> a ∈ foot L xs ->
    ~ (pg_dir p <= a < pg_dir p + 4096) /\ (c <= a < c + 4096 -> a = all_list_node c) }.

Definition without_pcb (c : Z) (k : kernel) : kernel := set_pcbs (delete c (pcbs (kth k))) k.

Lemma without_pcb_lookup k c t y : pcbs (kth (without_pcb c k)) !! t = Some y <-> t <> c /\ pcbs (kth k) !! t = Some y.
Proof. cbn. rewrite lookup_delete_Some. naive_solver. Qed.

Lemma without_pcb_space k D O c p : kspace k D O -> pcbs (kth k) !! c = Some p -> status p = TASK_HANGING ->
  kspace (without_pcb c k) D O.
Proof.
  intros Hk Ep Hs. apply (kspace_threads k); try done.
  - intros t y Hy%without_pcb_lookup. exists y. naive_solver.
  - destruct (ks_cr3 _ _ _ Hk) as [E|(t & y & Ey & E & H1 & H2)]; [by left|right].
    exists t, y. rewrite without_pcb_lookup. split; [|done]. split; [|done]. intros ->. congruence.
Qed.

(** Without the PCB its page and its directory are in nobody's use. *)
Lemma not_in_use k D O c p v q : kspace k D O -> pcbs (kth k) !! c = Some p -> O !! v = Some q ->
  (forall t y, t <> c -> pcbs (kth k) !! t = Some y -> pg_dir y <> v) ->
  ~ dir_in_use (without_pcb c k) D q.
Proof.
  intros Hk Ep HO Hv [E|(t & [y [Hn Ey]%without_pcb_lookup] & E)].
  - destruct (ks_page _ _ _ Hk _ _ HO) as (_ & _ & Hip & _). by apply (pool_not_kdir k D O q).
  - destruct (decide (pg_dir y = NULL)) as [N|N].
    + rewrite (ks_kernel _ _ _ Hk t y Ey N) in E. destruct (ks_page _ _ _ Hk _ _ HO) as (_ & _ & Hip & _).
      by apply (pool_not_kdir k D O q).
    + apply (Hv t y Hn Ey). apply (ks_inj _ _ _ Hk _ _ q); [|done]. rewrite E. by apply (ks_user _ _ _ Hk).
Qed.

(** The pages of the thread, freed by a kernel that has forgotten it. *)
Record pages_gone (k k' : kernel) (D : Z -> Z) (O : gmap Z Z) (c : Z) (p : pcb) (qc : Z) : Prop := {
  pn_space : kspace k' D (delete c (delete (pg_dir p) O));
  pn_km : km k' = km k;
  pn_kc : kc k' = kc k;
  pn_kth : kth k' = kth k;
  pn_ksy : ksy k' = ksy k;
  pn_walk : forall w, heap_addr w ->
    walk k' w = if decide (pg_dir p <= w < pg_dir p + 4096 \/ c <= w < c + 4096) then None else walk k w;
  pn_free : forall x, page_free (kernel_pool (kmem k')) x <->
    page_free (kernel_pool (kmem k)) x \/ x = qc \/ pg_dir p <> NULL /\ x = D c;
  pn_user : user_pool (kmem k') = user_pool (kmem k);
  pn_data : data_kept k k' }.

Definition free_dir (p : pcb) : M kernel unit :=
  if negb (pg_dir p =? NULL) then mfree_page PF_KERNEL (pg_dir p) 1 else mret tt.

Lemma free_exited k D O Γ c p qc : kspace k D O -> exited k O Γ c p qc ->
  exists k1 k2, free_dir p (without_pcb c k) = Ok (tt, k1) /\ mfree_page PF_KERNEL c 1 k1 = Ok (tt, k2) /\
    pages_gone (without_pcb c k) k2 D O c p qc.
Proof.
  intros Hk [Ep Es _ HO Hd _]. set (j := without_pcb c k).
  assert (Hj : kspace j D O) by by apply (without_pcb_space k D O c p).
  assert (Hc : ~ dir_in_use j D qc) by (apply (not_in_use k D O c p c qc); [done..|intros t y _ Ey; by apply (Hd t y)]).
  assert (Hcn : c <> pg_dir p) by by destruct (Hd c p Ep).
  destruct (ks_page _ _ _ Hj _ _ HO) as (Hih & _). destruct (in_heap_kernel _ _ _ _ Hj Hih) as [Hck _].
  unfold free_dir. destruct (decide (pg_dir p = NULL)) as [N|N].
  - rewrite N. cbn [Z.eqb negb NULL]. destruct (free_owned j D O c qc Hj HO Hc) as (k' & E & G).
    exists j, k'. split; [done|]. split; [done|]. destruct G as [G1 G2 G3 G4 G5 G6 G7 G8 G9].
    assert (HN : delete (pg_dir p) O = O).
    { apply delete_id. rewrite N. destruct (O !! NULL) as [q|] eqn:E0; [|done].
      destruct (ks_page _ _ _ Hj _ _ E0) as (H0 & _). apply (in_heap_kernel _ _ _ _ Hj) in H0 as [H0 _].
      unfold kernel_addr, NULL in *. lia. }
    split; try done.
    + by rewrite HN.
    + intros w Hw. rewrite G6 by done. unfold heap_addr in Hw. rewrite N. unfold NULL.
      repeat case_decide; done || lia.
    + intros x. rewrite G7. rewrite N. naive_solver.
  - rewrite (proj2 (Z.eqb_neq _ _) N). cbn [negb].
    pose proof (ks_user _ _ _ Hk c p Ep N) as HOd.
    assert (Hu : ~ dir_in_use j D (D c)).
    { apply (not_in_use k D O c p (pg_dir p) (D c)); try done. intros t y Ht Ey E.
      apply Ht. apply (ks_uniq _ _ _ Hk t c y p); congruence. }
    destruct (free_owned j D O _ _ Hj HOd Hu) as (k1 & E1 & [G1 G2 G3 G4 G5 G6 G7 G8 G9]).
    assert (HO1 : delete (pg_dir p) O !! c = Some qc) by by rewrite lookup_delete_ne.
    assert (Hc1 : ~ dir_in_use k1 D qc) by (unfold dir_in_use in *; by rewrite G4).
    destruct (free_owned k1 D _ c qc G1 HO1 Hc1) as (k2 & E2 & [F1 F2 F3 F4 F5 F6 F7 F8 F9]).
    exists k1, k2. split; [done|]. split; [done|]. split; try congruence; try (by eapply data_kept_trans); try done.
    + intros w Hw. rewrite F6, G6 by done. repeat case_decide; done || lia.
    + intros x. rewrite F7, G7. naive_solver.
Qed.

(** ** [thread_exit] of such a thread *)

Definition others (c : Z) (ts : list Z) : list Z := filter (fun t => t <> c) ts.

Lemma others_id c ts : c ∉ ts -> others c ts = ts.
Proof.
  induction ts as [|t ts IH]; [done|]. rewrite not_elem_of_cons. intros [Hn Hi]. unfold others in *.
  rewrite filter_cons_True by congruence. by rewrite IH.
Qed.

Lemma others_split c ts1 ts2 : NoDup (ts1 ++ c :: ts2) -> others c (ts1 ++ c :: ts2) = ts1 ++ ts2.
Proof.
  intros (_ & H1 & [H2 _]%NoDup_cons)%NoDup_app. unfold others. rewrite filter_app, filter_cons_False by naive_solver.
  change (others c ts1 ++ others c ts2 = ts1 ++ ts2). rewrite !others_id; [done|done|].
  intros Hc. apply (H1 c Hc). by left.
Qed.

Section reap.
Context (pool_lock : pool_flag -> Z) (pid_lock : Z).

(** What is left: [k'] is [k] without the thread, its two pages and its number. *)
Record reaped (k k' : kernel) (D : Z -> Z) (O : gmap Z Z) (Γ : gmap Z (list Z)) (rs ts : list Z)
    (c : Z) (p : pcb) (qc : Z) : Prop := {
  rp_system : system_ok pool_lock pid_lock k' D (delete c (delete (pg_dir p) O))
    (<[thread_all_list (kth k) := map all_list_node (others c ts)]> Γ) rs (others c ts);
  rp_pcbs : pcbs (kth k') = delete c (pcbs (kth k));
  rp_pid : forall y, 1 <= y <= 1024 -> pid_taken k' y = if Z.eq_dec (pid p) y then false else pid_taken k y;
  rp_free : forall x, page_free (kernel_pool (kmem k')) x <->
    page_free (kernel_pool (kmem k)) x \/ x = qc \/ pg_dir p <> NULL /\ x = D c;
  rp_user : user_pool (kmem k') = user_pool (kmem k);
  rp_walk : forall w, heap_addr w ->
    walk k' w = if decide (pg_dir p <= w < pg_dir p + 4096 \/ c <= w < c + 4096) then None else walk k w;
  rp_kc : kc k' = kc k;
  rp_ksy : ksy k' = ksy k;
  rp_data : data_kept k k';
  rp_off : status_of (km k') = INTR_OFF }.

(** The state in which [thread_exit] leaves the kernel. *)
Definition reaped_kernel (k j : kernel) (m : mach) (b : bitmap) (c : Z) : kernel :=
  set_pcbs (delete c (pcbs (kth k))) (set_pid_bitmap b (with_frame m (kth k) j)).

Lemma reaped_ok k j m b D O Γ rs ts c p qc : system_ok pool_lock pid_lock k D O Γ rs ts ->
  exited k O Γ c p qc -> pages_gone (without_pcb c k) j D O c p qc ->
  let Γ' := <[thread_all_list (kth k) := map all_list_node (others c ts)]> Γ in
  lists_ok m Γ' -> fresh Γ' (all_list_node c) -> status_of m = INTR_OFF -> pid_written k b (pid p) false ->
  reaped k (reaped_kernel k j m b c) D O Γ rs ts c p qc.
Proof.
  intros [S1 [[P1 P2 P3 P4 P5 P6 P7 P8] P9] [T1 T2 T3 T4 T5] S4 S5 [A1 A2 A3] [B1 B2 B3] S8 S9]
    [X1 X2 X3 X4 X5 X6] [G1 G2 G3 G4 G5 G6 G7 G8 G9] Γ' Hl Hfc Hoff [Hpid Hbits].
  set (k' := reaped_kernel k j m b c). cbn [without_pcb set_pcbs set_kth kc ksy] in G3, G5.
  assert (Ew : forall w, walk k' w = walk j w) by done.
  assert (Hst : forall t s, s <> TASK_HANGING -> st k' t = Some s <-> st k t = Some s).
  { intros t s Hs. unfold st. cbn [k' reaped_kernel set_pcbs set_kth kth pcbs]. destruct (decide (t = c)) as [->|N].
    - rewrite lookup_delete_eq, X1. cbn. rewrite X2. naive_solver.
    - by rewrite lookup_delete_ne. }
  assert (Hne : forall t s, st k t = Some s -> s <> TASK_HANGING -> t <> c).
  { intros t s Hs Hn ->. unfold st in Hs. rewrite X1 in Hs. cbn in Hs. congruence. }
  assert (Halive : forall t q, alive k' t q -> t <> c /\ alive k t q).
  { intros t q [Hq Hd]. cbn in Hq. apply lookup_delete_Some in Hq as [Hn Hq]. by split. }
  (* the lists have only lost the node of the thread *)
  assert (Hfoot : forall L xs a, Γ' !! L = Some xs -> a ∈ foot L xs ->
    a <> all_list_node c /\ exists ys, Γ !! L = Some ys /\ a ∈ foot L ys).
  { intros L xs a HL Ha. split; [intros ->; by apply (proj2 Hfc L xs)|].
    apply lookup_insert_Some in HL as [[<- <-]|[_ HL]]; [|by exists xs].
    eexists. split; [exact T1|]. unfold foot in *. set_unfold. destruct Ha as [->|[(t & -> & Ht)|Ha]]; [by left| |by right; right].
    right; left. exists t. split; [done|]. by apply list_elem_of_filter in Ht as [_ Ht]. }
  assert (Hfr : forall a, fresh Γ a -> fresh Γ' a).
  { intros a [H0 H]. split; [done|]. intros L xs HL Ha. destruct (Hfoot L xs a HL Ha) as (_ & ys & HL' & Ha').
    by apply (H L ys). }
  pose proof S8 as Hnd. apply NoDup_cons in S8 as [N1 N2]. apply NoDup_cons in N2 as [N2 _].
  assert (Hother : forall L, L <> thread_all_list (kth k) -> Γ' !! L = Γ !! L) by (intros L H; by apply lookup_insert_ne).
  assert (Hsp : kspace k' D (delete c (delete (pg_dir p) O))).
  { apply (kspace_threads j); try done.
    - intros t y Hy. cbn in Hy. rewrite G4. exists y. split; [exact Hy|done].
    - destruct (ks_cr3 _ _ _ G1) as [E|(t & y & Hy & H)]; [by left|right]. exists t, y. rewrite G4 in Hy. by split. }
  assert (Hkept : forall a, kmapped k a -> ~ (pg_dir p <= a < pg_dir p + 4096) -> ~ (c <= a < c + 4096) -> kmapped k' a).
  { intros a [H1 H2] H3 H4. split; [done|]. rewrite Ew, G6 by by apply kernel_addr_PDE. rewrite decide_False by tauto. exact H2. }
  assert (Hal : pg_dir p mod 4096 = 0).
  { destruct (decide (pg_dir p = NULL)) as [->|N]; [done|].
    pose proof (ks_user _ _ _ S1 c p X1 N) as HO. destruct (ks_page _ _ _ S1 _ _ HO) as [Hh _].
    by destruct (in_heap_kernel _ _ _ _ S1 Hh). }
  destruct (S5 c ltac:(eauto)) as [_ Hcal].
  split; try done.
  - split; try done.
    + split; [split|]; try done.
      * rewrite Hother; [done|]. intros E. change (thread_ready_list (kth k) = thread_all_list (kth k)) in E. apply N1. rewrite E. by left.
      * intros t. rewrite Hst by done. apply P3.
      * cbn [k' reaped_kernel set_pcbs set_kth kc with_frame set_pid_bitmap kth pcbs]. rewrite G3, lookup_delete_ne; [done|].
        intros E. by apply (Hne (cur (kc k)) TASK_RUNNING).
      * intros t Ht. apply Hst in Ht; [|done]. cbn [k' reaped_kernel set_pcbs set_kth kc with_frame set_pid_bitmap]. rewrite G3.
        destruct (P5 t Ht) as [-> Hf]. split; [done|by apply Hfr].
      * destruct P6 as (s & Es & Hs). exists s. split; [apply Hst; [naive_solver|exact Es]|].
        destruct Hs as [|[|[-> Hf]]]; [by left|by right; left|right; right]. split; [done|by apply Hfr].
      * intros t [y Hy]. cbn in Hy. apply lookup_delete_Some in Hy as [_ Hy]. eauto.
      * by apply (kspace_dirs _ _ (delete c (delete (pg_dir p) O))).
      * apply Hst; [done|]. cbn [k' reaped_kernel set_pcbs set_kth kc with_frame set_pid_bitmap]. by rewrite G3.
    + split; try done.
      * apply lookup_insert_eq.
      * intros t. unfold others. rewrite list_elem_of_filter, T2. split.
        -- intros (N & q & Hq & Hd). exists q. split; [|done]. cbn. by rewrite lookup_delete_ne.
        -- intros (q & Hq). destruct (Halive t q Hq). eauto.
      * destruct Hpid; by split.
      * intros t q Hq. destruct (Halive t q Hq) as [N Hq']. destruct (T4 t q Hq') as [Hr Ht]. split; [done|].
        change (pid_taken k' (pid q)) with (pid_taken (set_pid_bitmap b k) (pid q)). rewrite Hbits by lia.
        destruct (Z.eq_dec _ _) as [E|]; [|done]. destruct N. apply (T5 t c q p); [done| |done]. split; [done|congruence].
      * intros t1 t2 p1 p2 H1 H2. apply T5; by apply Halive.
    + intros L xs a HL Ha. destruct (Hfoot L xs a HL Ha) as (Hn & ys & HL' & Ha').
      destruct (X6 L ys a HL' Ha') as [H1 H2]. apply Hkept; [by apply (S4 L ys)|done|]. intros Hin. by apply Hn, H2.
    + intros t [y Hy]. cbn in Hy. apply lookup_delete_Some in Hy as [Hn Hy]. destruct (S5 t ltac:(eauto)) as [Hm Ha].
      split; [|done]. destruct (X5 t y Hy) as [_ Hd]. apply Hkept; [done| |].
      * intros Hin. apply Hd. zarith.
      * intros Hin. apply Hn. zarith.
    + split; cbn [k' reaped_kernel set_pcbs set_kth ksy with_frame set_pid_bitmap]; rewrite ?G5; try done.
      rewrite Hother; [done|]. intros E. apply N2. rewrite <- E. by left.
    + split; cbn [k' reaped_kernel set_pcbs set_kth ksy with_frame set_pid_bitmap]; rewrite ?G5; try done.
      rewrite Hother; [done|]. intros E. apply N2. rewrite <- E. right. by left.
    + change (main_thread (kth k')) with (main_thread (kth k)). change (pcbs (kth k')) with (delete c (pcbs (kth k))).
      by rewrite lookup_delete_ne.
Qed.

(** [thread_exit(c, false)]. *)
Lemma thread_exit_ok k D O Γ rs ts c p qc : system_ok pool_lock pid_lock k D O Γ rs ts -> exited k O Γ c p qc ->
  exists k', thread_exit pid_lock c false k = Ok (Done tt, k') /\ reaped k k' D O Γ rs ts c p qc.
Proof.
  intros Hs Hx. pose proof Hx as [Ep Est Hmain _ _ _]. pose proof (so_sched _ _ _ _ _ _ _ _ Hs) as [Hpre _].
  pose proof (so_threads _ _ _ _ _ _ _ _ Hs) as Hth. pose proof (sp_lists _ _ _ _ Hpre) as Hl.
  destruct (free_exited k D O Γ c p qc (so_space _ _ _ _ _ _ _ _ Hs) Hx) as (j1 & j2 & E1 & E2 & Hg).
  (* the links *)
  set (m1 := mach_if INTR_OFF (km k)). assert (Hl1 : lists_ok m1 Γ) by by apply lists_ok_if.
  assert (Hc : c ∈ ts) by (apply (to_pcbs _ _ _ Hth); exists p; split; [done|congruence]).
  destruct (list_elem_of_split _ _ Hc) as (ts1 & ts2 & Ets).
  pose proof (to_list _ _ _ Hth) as HL. pose proof (lo_nodup _ _ Hl _ _ HL) as Hnd.
  assert (Hndt : NoDup (ts1 ++ c :: ts2)).
  { rewrite <- Ets. apply (NoDup_fmap_1 all_list_node). unfold foot in Hnd.
    apply NoDup_cons in Hnd as [_ Hnd]. by apply NoDup_app in Hnd as [Hnd _]. }
  rewrite Ets, map_app in HL. cbn [map] in HL.
  destruct (remove_ok m1 Γ _ _ _ _ Hl1 HL) as (m2 & Em & Hl2 & Hf2 & Ef2).
  rewrite <- map_app, <- (others_split c ts1 ts2 Hndt), <- Ets in Hl2, Hf2.
  set (Γ' := <[thread_all_list (kth k) := map all_list_node (others c ts)]> Γ) in *.
  (* the number *)
  destruct (to_pids _ _ _ Hth c p) as [Hpid _]; [split; [done|congruence]|].
  pose proof (pn_kc _ _ _ _ _ _ _ Hg) as Ekc. pose proof (pn_ksy _ _ _ _ _ _ _ Hg) as Eksy.
  cbn [without_pcb set_pcbs set_kth kc ksy] in Ekc, Eksy.
  set (p1 := set_status TASK_DIED p). set (T1 := kth (set_pcbs (<[c := p1]> (pcbs (kth k))) k)).
  set (k5 := with_frame m2 T1 j2). pose proof (so_apart _ _ _ _ _ _ _ _ Hs) as Hap.
  assert (Hlk : lock_idle k5 Γ' pid_lock).
  { destruct (so_pid_lock _ _ _ _ _ _ _ _ Hs) as [L1 L2 L3]. split; cbn [k5 with_frame ksy]; rewrite ?Eksy; try done.
    unfold Γ'. rewrite lookup_insert_ne; [done|]. intros E. apply NoDup_cons in Hap as [_ [Hap _]%NoDup_cons].
    apply Hap. rewrite E. right. by left. }
  assert (Hpp : pid_pool_ok k5) by (destruct (to_pool _ _ _ Hth); by split).
  destruct (release_pid_ok pid_lock k5 Γ' (pid p) Hpp Hlk Hl2) as (b & E5 & Hb).
  { cbn [k5 with_frame kc]. rewrite Ekc. by apply (system_cur pool_lock pid_lock k D O Γ rs ts). }
  { lia. }
  exists (reaped_kernel k j2 m2 b c). split.
  2:{ apply reaped_ok; try done.
      - unfold status_of. rewrite Ef2. apply status_with_if.
      - destruct Hb as [[] Hb]. split; [by split|exact Hb]. }
  (* the run *)
  unfold thread_exit. rewrite (bindM_ok _ _ _ _ _ (on_disable _)). fold m1.
  rewrite (bindM_ok _ _ _ _ _ (upd_pcb_ok (set_km m1 k) c p _ Ep)). fold p1.
  rewrite bind_gets. set (k2 := set_pcbs _ _).
  assert (Eready : Γ !! thread_ready_list (kth k2) = Some (map general_node rs)) by apply Hpre.
  rewrite (bindM_ok _ _ _ _ _ (on_node_find k2 Γ _ _ (general_node c) Hl1 Eready)).
  rewrite bool_decide_eq_false_2.
  2:{ intros (t & E & Ht)%list_elem_of_fmap. apply general_node_inj in E as ->. apply (sp_rs _ _ _ _ Hpre) in Ht.
      unfold st in Ht. rewrite Ep in Ht. cbn in Ht. congruence. }
  rewrite bind_mret. assert (Eg : forall m T j, pcbs T = <[c := p1]> (pcbs (kth k)) -> get_pcb c (with_frame m T j) = Ok (p1, with_frame m T j)).
  { intros m T j ET. apply get_pcb_ok. cbn. rewrite ET. apply lookup_insert_eq. }
  change k2 with (with_frame m1 T1 (without_pcb c k)). rewrite (bindM_ok _ _ _ _ _ (Eg m1 T1 _ eq_refl)).
  change (if negb (pg_dir p1 =? NULL) then mfree_page PF_KERNEL (pg_dir p1) 1 else mret ()) with (free_dir p).
  assert (Hbl : blind (free_dir p)) by (unfold free_dir; apply blind_if; [apply blind_mfree|done]).
  rewrite (bindM_ok _ _ _ _ _ (blind_run _ m1 T1 _ _ _ Hbl E1)).
  assert (Erm : on_mach (list_remove (all_list_node c)) (with_frame m1 T1 j1) = Ok (tt, with_frame m2 T1 j1))
    by (unfold on_mach; cbn [with_frame km]; by rewrite Em).
  rewrite (bindM_ok _ _ _ _ _ Erm), bind_gets. change (main_thread (kth (with_frame m2 T1 j1))) with (main_thread (kth k)).
  rewrite (proj2 (Z.eqb_neq _ _) Hmain). cbn [negb].
  rewrite (bindM_ok _ _ _ _ _ (blind_run _ m2 T1 _ _ _ (blind_mfree c 1) E2)).
  rewrite (bindM_ok _ _ _ _ _ (Eg m2 T1 j2 eq_refl)). change (pid p1) with (pid p). fold k5.
  rewrite (bindM_ok _ _ _ _ _ E5). unfold drop_pcb. rewrite bind_modify. unfold mret, M_ret. f_equal. f_equal.
  unfold reaped_kernel, k5. cbn. by rewrite delete_insert_eq.
Qed.
End reap.

(** ** [sys_wait] *)

(** [a] is the address of a word of user memory, [pa] that of the word. *)
Record data_at (k : kernel) (D : Z -> Z) (a pa : Z) : Prop := {
  da_addr : 0x400000 <= a < 0xc0000000;
  da_walk : walk k a = Some pa;
  da_page : forall q, table_frame k q \/ dir_in_use k D q -> ~ (q <= pa < q + 4096) }.

Section store.
Context (pool_lock : pool_flag -> Z) (pid_lock : Z).

(** The word is written. *)
Lemma user_store k D O Γ rs ts a pa x : system_ok pool_lock pid_lock k D O Γ rs ts -> data_at k D a pa -> is_word x ->
  let k1 := set_ram (<[pa := x]> (ram (kmem k))) k in
  vstore a x k = Ok (tt, k1) /\ system_ok pool_lock pid_lock k1 D O Γ rs ts /\ data_written k (ram (kmem k1)).
Proof.
  intros Hs [Ha Hw Hp] Hx k1. pose proof (so_space _ _ _ _ _ _ _ _ Hs) as Hk. pose proof (ks_current _ _ _ Hk) as Hok.
  assert (Hdw : data_written k (<[pa := x]> (ram (kmem k)))).
  { apply (store_written k pa (pa - pa mod 4096) x); [done|zarith|zarith| |done].
    intros Ht. apply (Hp (pa - pa mod 4096)); [by left|zarith]. }
  split; [by apply vstore_ok|]. split; [|exact Hdw].
  apply (system_mem pool_lock pid_lock k _ D O); try done.
  - apply kspace_write; [done|done|]. intros c i Hc Hi. unfold dir_entry. rewrite word_insert.
    destruct (Z.eq_dec _ _) as [E|]; [|done]. exfalso. apply (Hp c); [by right|lia].
  - intros w Hka Hww. unfold k1. rewrite (dw_walk _ _ Hdw); [done|unfold kernel_addr, is_word in *; lia].
Qed.
End store.

Section wait.
Context (pool_lock : pool_flag -> Z) (pid_lock : Z).

(** The tests of the two functions. *)
Definition tests (f : pcb -> bool) (test : Z -> M kernel bool) : Prop :=
  forall node k, test node k = (p ← get_pcb (all_list_node_entry node); mret (f p)) k.

Lemma tests_child ppid : tests (fun p => parent_pid p =? ppid) (check_child ppid).
Proof. done. Qed.
Lemma tests_hanging_child ppid :
  tests (fun p => (parent_pid p =? ppid) && bool_decide (status p = TASK_HANGING)) (check_hanging_child ppid).
Proof. done. Qed.
Lemma tests_thread x : tests (fun p => pid p =? x) (check_thread x).
Proof. done. Qed.
Lemma tests_hanging_thread x :
  tests (fun p => (pid p =? x) && bool_decide (status p = TASK_HANGING)) (check_hanging_thread x).
Proof. done. Qed.

(** One search of the list of threads. *)
Lemma search_ok k D O Γ rs ts f test : system_ok pool_lock pid_lock k D O Γ rs ts -> tests f test ->
  (forall t p, alive k t p -> f p = false) /\ traverse_all test k = Ok (NULL, k) \/
  exists t p, alive k t p /\ f p = true /\ all_list_node t <> NULL /\ traverse_all test k = Ok (all_list_node t, k).
Proof.
  intros Hs Ht. pose proof (so_threads _ _ _ _ _ _ _ _ Hs) as Hth.
  pose proof (sp_lists _ _ _ _ (proj1 (so_sched _ _ _ _ _ _ _ _ Hs))) as Hl. pose proof (to_list _ _ _ Hth) as HL.
  rewrite (traverse_test_ok test f k Γ ts Ht Hl HL (fun t => threads_pcb k Γ ts t Hth)).
  destruct (first_thread f (pcbs (kth k)) ts) as [t|] eqn:E.
  - right. destruct (first_thread_some _ _ _ _ E) as (p & l1 & l2 & Ets & Ep & Ef & _).
    assert (Hin : t ∈ ts) by (rewrite Ets; apply elem_of_app; right; by left).
    destruct (proj1 (to_pcbs _ _ _ Hth t) Hin) as (p' & Ha). pose proof (proj1 Ha) as Ep'. rewrite Ep in Ep'. injection Ep' as <-.
    exists t, p. split; [done|]. split; [done|]. split; [by apply (node_not_null k Γ ts)|done].
  - left. split; [|done]. intros t p Ha. rewrite first_thread_none in E. apply (E t); [|apply Ha].
    apply (to_pcbs _ _ _ Hth). by exists p.
Qed.

(** The outcome of collecting [c]: its status is stored and its number is
    returned, and the thread is gone. *)
Definition collected (k k' : kernel) (D : Z -> Z) (O : gmap Z Z) (Γ : gmap Z (list Z)) (rs ts : list Z)
    (c : Z) (p : pcb) (qc a pa : Z) : Prop :=
  reaped pool_lock pid_lock (set_ram (<[pa := u32 (exit_status p)]> (ram (kmem k))) k) k' D O Γ rs ts c p qc /\
  vload a k' = Ok (u32 (exit_status p), k').

Lemma reap_ok k D O Γ rs ts c p qc a pa : system_ok pool_lock pid_lock k D O Γ rs ts -> exited k O Γ c p qc ->
  data_at k D a pa ->
  exists k', reap pid_lock c a k = Ok (Returns (pid p), k') /\ collected k k' D O Γ rs ts c p qc a pa.
Proof.
  intros Hs Hx Hd. pose proof Hx as [Ep Est Hm HO Hdi Hn]. pose proof Hd as [Ha Hw Hp].
  pose proof (so_space _ _ _ _ _ _ _ _ Hs) as Hk.
  destruct (user_store pool_lock pid_lock k D O Γ rs ts a pa (u32 (exit_status p)) Hs Hd (u32_range _)) as (E1 & Hs1 & Hdw).
  set (k1 := set_ram _ k) in *. assert (Hx1 : exited k1 O Γ c p qc) by by split.
  destruct (thread_exit_ok pool_lock pid_lock k1 D O Γ rs ts c p qc Hs1 Hx1) as (k' & E2 & Hr).
  assert (Hpid : 1 <= pid p <= 127).
  { apply (to_pids _ _ _ (so_threads _ _ _ _ _ _ _ _ Hs) c p). split; [done|congruence]. }
  exists k'. split.
  - unfold reap. rewrite (bindM_ok _ _ _ _ _ (get_pcb_ok _ _ _ Ep)), (bindM_ok _ _ _ _ _ E1), (bindM_ok _ _ _ _ _ E2).
    unfold mret, M_ret. rewrite u16_small by lia. unfold i16. rewrite Z.mod_small by lia. repeat f_equal. lia.
  - split; [exact Hr|].
    assert (Hk1 : walk k1 a = Some pa).
    { unfold k1. rewrite (dw_walk _ _ Hdw); [done|unfold is_word; lia]. }
    assert (Hw' : walk k' a = Some pa).
    { rewrite (rp_walk _ _ _ _ _ _ _ _ _ _ _ _ Hr) by (unfold heap_addr; lia). rewrite decide_False; [done|].
      assert (Hc : kernel_addr c) by (destruct (ks_page _ _ _ Hk _ _ HO) as [Hh _]; by apply (in_heap_kernel _ _ _ _ Hk Hh)).
      intros [Hin|Hin]; [|unfold kernel_addr in Hc; lia]. destruct (decide (pg_dir p = NULL)) as [N|N].
      - rewrite N in Hin. unfold NULL in Hin. lia.
      - pose proof (ks_user _ _ _ Hk c p Ep N) as HOd. destruct (ks_page _ _ _ Hk _ _ HOd) as [Hh _].
        destruct (in_heap_kernel _ _ _ _ Hk Hh) as [Hka _]. unfold kernel_addr in Hka. lia. }
    unfold vload. unfold walk in Hw'. rewrite Hw'. f_equal. f_equal.
    destruct (rp_data _ _ _ _ _ _ _ _ _ _ _ _ Hr) as [_ Hwd]. rewrite Hwd.
    + unfold k1. cbn. rewrite word_insert. by destruct (Z.eq_dec _ _).
    + intros q Hq. apply (dw_tables _ _ Hdw) in Hq. apply Hp. by left.
Qed.

(** One round, for any two tests. *)
Lemma wait_round_ok hanging any fh fa k D O Γ rs ts a : tests fh hanging -> tests fa any ->
  system_ok pool_lock pid_lock k D O Γ rs ts -> cur (kc k) <> idle_thread (kth k) ->
  ((forall t p, alive k t p -> fh p = false) /\ (forall t p, alive k t p -> fa p = false) /\
     wait_round pid_lock hanging any a k = Ok (Returns (-1), k)) \/
  ((forall t p, alive k t p -> fh p = false) /\ (exists t p, alive k t p /\ fa p = true) /\
     exists k' next rest p, wait_round pid_lock hanging any a k = Ok (Sleeps (status_of (km k)), k') /\
       or_idle k rs = next :: rest /\ cur (kc k') = next /\
       pcbs (kth k) !! cur (kc k) = Some p /\ pcbs (kth k') !! cur (kc k) = Some (set_status TASK_WAITING p) /\
       system_ok pool_lock pid_lock k' D O (<[thread_ready_list (kth k) := map general_node rest]> Γ) rest ts) \/
  (exists c p, alive k c p /\ fh p = true /\
     wait_round pid_lock hanging any a k = reap pid_lock c a k).
Proof.
  intros Hh Ha Hs Hi. destruct (search_ok k D O Γ rs ts fh hanging Hs Hh) as [[Hno E]|(c & p & Hal & Hf & Hnn & E)].
  2:{ right; right. exists c, p. split; [done|]. split; [done|]. unfold wait_round. rewrite (bindM_ok _ _ _ _ _ E).
      rewrite (proj2 (Z.eqb_neq _ _) Hnn). cbn [negb]. by rewrite all_list_node_entry_id. }
  destruct (search_ok k D O Γ rs ts fa any Hs Ha) as [[Hno2 E2]|(t & p & Hal & Hf & Hnn & E2)].
  - left. split; [done|]. split; [done|]. unfold wait_round. rewrite (bindM_ok _ _ _ _ _ E). cbn [Z.eqb negb NULL].
    by rewrite (bindM_ok _ _ _ _ _ E2).
  - right; left. split; [done|]. split; [eauto|]. pose proof (so_sched _ _ _ _ _ _ _ _ Hs) as Hsc.
    destruct (sp_cur _ _ _ _ (proj1 Hsc)) as [pc Epc].
    destruct (thread_block_ok k D Γ rs TASK_WAITING pc Hsc eq_refl) as (k' & next & rest & Eb & Hq & Hsw & _); [done|done|].
    destruct (system_block pool_lock pid_lock k k' D O Γ rs ts TASK_WAITING pc next rest Hs eq_refl Epc Hq Hsw) as [Hs' Hpc].
    exists k', next, rest, pc. split.
    { unfold wait_round. rewrite (bindM_ok _ _ _ _ _ E). cbn [Z.eqb negb NULL]. rewrite (bindM_ok _ _ _ _ _ E2).
      rewrite (proj2 (Z.eqb_neq _ _) Hnn). by rewrite (bindM_ok _ _ _ _ _ Eb). }
    split; [done|]. destruct Hsw as (_ & Hc & _). split; [done|]. split; [done|]. split; [|done]. apply Hpc.
    intros ->. unfold or_idle in Hq. destruct rs as [|r rs']; [by injection Hq as E0 _|]. injection Hq as E0 _.
    assert (Hr : st k r = Some TASK_READY) by (apply (sp_rs _ _ _ _ (proj1 Hsc)); by left).
    destruct Hsc as [_ Hrun]. rewrite E0, Hrun in Hr. done.
Qed.
End wait.

(** [sys_wait_without_pid] collects the first child that has exited. *)
Lemma sys_wait_without_pid_ok (pool_lock : pool_flag -> Z) (pid_lock : Z) k D O Γ rs ts a pa me :
  system_ok pool_lock pid_lock k D O Γ rs ts -> cur (kc k) <> idle_thread (kth k) ->
  pcbs (kth k) !! cur (kc k) = Some me -> data_at k D a pa ->
  (forall c p, alive k c p -> parent_pid p = pid me -> status p = TASK_HANGING -> exists qc, exited k O Γ c p qc) ->
  ((forall t p, alive k t p -> parent_pid p <> pid me) /\
     sys_wait_without_pid pid_lock a k = Ok (Returns (-1), k)) \/
  (exists k' next rest, sys_wait_without_pid pid_lock a k = Ok (Sleeps (status_of (km k)), k') /\
     (exists t p, alive k t p /\ parent_pid p = pid me) /\
     (forall t p, alive k t p -> parent_pid p = pid me -> status p <> TASK_HANGING) /\
     or_idle k rs = next :: rest /\ pcbs (kth k') !! cur (kc k) = Some (set_status TASK_WAITING me) /\
     system_ok pool_lock pid_lock k' D O (<[thread_ready_list (kth k) := map general_node rest]> Γ) rest ts) \/
  (exists c p qc k', sys_wait_without_pid pid_lock a k = Ok (Returns (pid p), k') /\
     exited k O Γ c p qc /\ parent_pid p = pid me /\ collected pool_lock pid_lock k k' D O Γ rs ts c p qc a pa).
Proof.
  intros Hs Hi Eme Hd Hx. unfold sys_wait_without_pid, running_thread.
  rewrite bind_gets, (bindM_ok _ _ _ _ _ (get_pcb_ok _ _ _ Eme)).
  destruct (wait_round_ok pool_lock pid_lock _ _ _ _ k D O Γ rs ts a (tests_hanging_child (pid me)) (tests_child (pid me)) Hs Hi)
    as [(_ & H2 & E)|[(H1 & (t & p & Ha & Hf) & k' & next & rest & q & E & Hq & _ & Eq & Eq' & Hs')|(c & p & Ha & Hf & E)]].
  - left. split; [|done]. intros t p Ha Hp. pose proof (H2 t p Ha) as Hn. by rewrite Hp, Z.eqb_refl in Hn.
  - right; left. exists k', next, rest. split; [done|]. apply Z.eqb_eq in Hf. split; [eauto|].
    split; [|split; [done|split; [congruence|done]]]. intros t' p' Ha' Hp Hst. pose proof (H1 t' p' Ha') as Hn. rewrite Hp, Hst, Z.eqb_refl in Hn.
    by rewrite bool_decide_eq_true_2 in Hn.
  - right; right. apply andb_true_iff in Hf as [Hf Hh]. apply Z.eqb_eq in Hf. apply bool_decide_eq_true in Hh.
    destruct (Hx c p Ha Hf Hh) as [qc Hxc]. destruct (reap_ok pool_lock pid_lock k D O Γ rs ts c p qc a pa Hs Hxc Hd) as (k' & Er & Hc).
    exists c, p, qc, k'. rewrite E, Er. done.
Qed.

(** ** Properties *)

(** C6. [sys_wait] of a number no thread has returns -1 and changes nothing.
    While the thread runs, the caller goes to sleep as TASK_WAITING and the
    first ready thread runs, every invariant kept.  Once the thread has exited,
    its status is stored at the address given, its number is returned, and it
    is gone: from the threads and their list, with its number, the page of its
    PCB and that of its page directory free again, and every invariant of
    threads, lists and memory kept.  Interrupts are left off then. *)
Theorem sys_wait_collects (pool_lock : pool_flag -> Z) (pid_lock : Z) (k : kernel) (D : Z -> Z) (O : gmap Z Z)
    (Γ : gmap Z (list Z)) (rs ts : list Z) (x a : Z) :
  system_ok pool_lock pid_lock k D O Γ rs ts -> cur (kc k) <> idle_thread (kth k) ->
  ((forall t p, alive k t p -> pid p <> x) -> sys_wait pid_lock x a k = Ok (Returns (-1), k)) /\
  (forall t p, alive k t p -> pid p = x -> status p <> TASK_HANGING ->
     exists k' next rest q, sys_wait pid_lock x a k = Ok (Sleeps (status_of (km k)), k') /\
       or_idle k rs = next :: rest /\ cur (kc k') = next /\
       pcbs (kth k) !! cur (kc k) = Some q /\ pcbs (kth k') !! cur (kc k) = Some (set_status TASK_WAITING q) /\
       system_ok pool_lock pid_lock k' D O (<[thread_ready_list (kth k) := map general_node rest]> Γ) rest ts) /\
  (forall c p qc pa, exited k O Γ c p qc -> pid p = x -> data_at k D a pa ->
     exists k', sys_wait pid_lock x a k = Ok (Returns x, k') /\
       collected pool_lock pid_lock k k' D O Γ rs ts c p qc a pa).
Proof.
  intros Hs Hi. pose proof (to_uniq _ _ _ (so_threads _ _ _ _ _ _ _ _ Hs)) as Hu.
  destruct (wait_round_ok pool_lock pid_lock _ _ _ _ k D O Γ rs ts a (tests_hanging_thread x) (tests_thread x) Hs Hi)
    as [(_ & H2 & E)|[(H1 & _ & E)|(c & p & Ha & Hf & E)]]; split_and!.
  - done.
  - intros t p Ha <-. pose proof (H2 t p Ha) as Hn. by rewrite Z.eqb_refl in Hn.
  - intros c p qc pa Hx <-. assert (Ha : alive k c p) by (split; [apply Hx|by rewrite (ex_status _ _ _ _ _ _ Hx)]).
    pose proof (H2 c p Ha) as Hn. by rewrite Z.eqb_refl in Hn.
  - intros Hn. destruct E as (k' & next & rest & q & E & _). exfalso.
    destruct (search_ok pool_lock pid_lock k D O Γ rs ts _ _ Hs (tests_thread x)) as [[_ E2]|(t & p & Ha & Hf & _)].
    + unfold sys_wait, wait_round in E.
      destruct (search_ok pool_lock pid_lock k D O Γ rs ts _ _ Hs (tests_hanging_thread x)) as [[_ E1]|(t & p & Ha & Hf & _)].
      * rewrite (bindM_ok _ _ _ _ _ E1) in E. cbn [Z.eqb negb NULL] in E. by rewrite (bindM_ok _ _ _ _ _ E2) in E.
      * by rewrite (H1 t p Ha) in Hf.
    + apply Z.eqb_eq in Hf. by apply (Hn t p).
  - intros t p _ _ _. destruct E as (k' & next & rest & q & E). by exists k', next, rest, q.
  - intros c p qc pa Hx <-. assert (Ha : alive k c p) by (split; [apply Hx|by rewrite (ex_status _ _ _ _ _ _ Hx)]).
    pose proof (H1 c p Ha) as Hn. rewrite Z.eqb_refl, (ex_status _ _ _ _ _ _ Hx) in Hn. by rewrite bool_decide_eq_true_2 in Hn.
  - intros Hn. apply andb_true_iff in Hf as [Hf _]. apply Z.eqb_eq in Hf. by destruct (Hn c p).
  - intros t q Hq E1 Hst. apply andb_true_iff in Hf as [Hf Hh]. apply Z.eqb_eq in Hf. apply bool_decide_eq_true in Hh.
    assert (t = c) as -> by (apply (Hu t c q p); [done..|congruence]). destruct Hq as [Hq _], Ha as [Ha _]. congruence.
  - intros c' p' qc pa Hx Ex Hd. apply andb_true_iff in Hf as [Hf Hh]. apply Z.eqb_eq in Hf.
    assert (Ha' : alive k c' p') by (split; [apply Hx|by rewrite (ex_status _ _ _ _ _ _ Hx)]).
    assert (c = c') as -> by (apply (Hu c c' p p'); [done..|congruence]).
    destruct (reap_ok pool_lock pid_lock k D O Γ rs ts c' p' qc a pa Hs Hx Hd) as (k' & Er & Hc).
    exists k'. unfold sys_wait. rewrite E, Er, Ex. done.
Qed.

(** ** Witnesses *)

Definition outside (q a : Z) : bool := negb ((q <=? a) && (a <? q + 4096)).

Lemma outside_ok q a : outside q a = true -> ~ (q <= a < q + 4096).
Proof. unfold outside. intros H [H1%Z.leb_le H2%Z.ltb_lt]. by rewrite H1, H2 in H. Qed.

Definition exited_check (k : kernel) (G : list (Z * list Z)) (c dir : Z) : bool :=
  forallb (fun '(t, y) => negb (pg_dir y =? c) && negb (t =? dir)) (map_to_list (pcbs (kth k))) &&
  forallb (fun '(L, xs) => forallb (fun a =>
    outside dir a && (outside c a || (a =? all_list_node c))) (foot L xs)) G.

Lemma exited_check_ok k O G c p qc : pcbs (kth k) !! c = Some p -> status p = TASK_HANGING ->
  c <> main_thread (kth k) -> O !! c = Some qc -> exited_check k G c (pg_dir p) = true -> exited k O (list_to_map G) c p qc.
Proof.
  intros Ep Es Hm HO H. unfold exited_check in H. apply andb_true_iff in H as [H1 H2]. split; try done.
  - intros t y Ey. get_forallb H1 (t, y). specialize (H1 (proj2 (elem_of_map_to_list _ _ _) Ey)). cbn beta iota in H1.
    bool_prop. done.
  - intros L xs a HL%elem_of_list_to_map_2 Ha. get_forallb H2 (L, xs). specialize (H2 HL). cbn beta iota in H2.
    get_forallb H2 a. specialize (H2 Ha). apply andb_true_iff in H2 as [H2 H3]. split; [by apply outside_ok|].
    intros Hin. apply orb_true_iff in H3 as [H3|H3]; [by apply outside_ok in H3|lia].
Qed.

Definition data_check (k : kernel) (Ds : list (Z * Z)) (pa : Z) : bool :=
  forallb (fun i => let e := dir_entry k (cr3 (kc k)) i in negb (present e) || outside (frame e) pa) (seqZ 0 1024) &&
  outside kdir pa && forallb (fun '(t, _) => outside (dir_of Ds t) pa) (map_to_list (pcbs (kth k))).

Lemma data_check_ok k Ds a pa : 0x400000 <= a < 0xc0000000 -> walk k a = Some pa -> data_check k Ds pa = true ->
  data_at k (dir_of Ds) a pa.
Proof.
  intros Ha Hw H. unfold data_check in H. cbv zeta in H. apply andb_true_iff in H as [H H3].
  apply andb_true_iff in H as [H1 H2]. split; try done. intros q [(w & Hww & Hp & <-)|[->|(t & [p Ep] & ->)]].
  - pose proof (PDE_IDX_range w Hww). get_forallb H1 (PDE_IDX w). rewrite elem_of_seqZ in H1. specialize (H1 ltac:(lia)).
    change (dir_entry k (cr3 (kc k)) (PDE_IDX w)) with (word (ram (kmem k)) (pde_addr (cr3 (kc k)) w)) in H1.
    rewrite Hp in H1. by apply outside_ok.
  - by apply outside_ok.
  - get_forallb H3 (t, p). specialize (H3 (proj2 (elem_of_map_to_list _ _ _) Ep)). by apply outside_ok.
Qed.

(** Process 4 has exited with status 7; its PCB and its page directory are the
    first two pages of the heap. *)
Definition t_gone : Z := 0xc0100000.
Definition gone_pcb : pcb := demo_thread 4 TASK_HANGING 0xc0101000 1 7.
Definition gone_pages : list (Z * Z) := [(t_gone, 0x200000); (0xc0101000, 0x201000)].
Definition demo_gone : kernel := demo_k 0x202 gone_pages [0x201000] [(t_gone, gone_pcb)].
Definition gone_lists : list (Z * list Z) := demo_lists [t_ready] [t_main; t_ready; t_idle; t_gone].

Lemma demo_gone_ok : system_ok lk_pool lk_pid demo_gone (dir_of [(t_gone, 0x201000)]) (assoc gone_pages)
  (list_to_map gone_lists) [t_ready] [t_main; t_ready; t_idle; t_gone].
Proof.
  apply (demo_k_ok 0x202 gone_pages [0x201000] [(t_gone, gone_pcb)] [(t_gone, 0x201000)]).
  - vm_compute. reflexivity.
  - vm_compute. reflexivity.
  - vm_compute. reflexivity.
  - done.
Qed.

Lemma demo_gone_exited : exited demo_gone (assoc gone_pages) (list_to_map gone_lists) t_gone gone_pcb 0x200000.
Proof. apply exited_check_ok; done. Qed.

Lemma demo_gone_data : data_at demo_gone (dir_of [(t_gone, 0x201000)]) 0x400010 0x91010.
Proof. apply data_check_ok; [lia|vm_compute; reflexivity|vm_compute; reflexivity]. Qed.

Lemma sys_wait_collects_witness :
  exists k', sys_wait lk_pid 4 0x400010 demo_gone = Ok (Returns 4, k') /\ vload 0x400010 k' = Ok (7, k') /\
    pcbs (kth k') !! t_gone = None /\ pid_taken k' 4 = false.
Proof.
  destruct (sys_wait_collects lk_pool lk_pid demo_gone _ _ _ _ _ 4 0x400010 demo_gone_ok ltac:(done)) as (_ & _ & H).
  destruct (H _ _ _ _ demo_gone_exited eq_refl demo_gone_data) as (k' & E & [Hr Hl]).
  exists k'. split; [exact E|]. split; [exact Hl|]. split.
  - rewrite (rp_pcbs _ _ _ _ _ _ _ _ _ _ _ _ Hr). reflexivity.
  - rewrite (rp_pid _ _ _ _ _ _ _ _ _ _ _ _ Hr) by lia. reflexivity.
Defined.
