(* ===== verification/Fork.v ===== *)
(** * Fork: userprog/fork.c

    The child gets a copy of the PCB and of the kernel stack in its page, of
    the bitmap of user pages, and of every user page.  A user page is copied
    through a page of the kernel, the page directories of parent and child
    being loaded in turn. *)

From S2P Require Import Prelude CString Interrupt Lists Bitmap Kernel Paging Thread Sync IoQueue Memory DataPages Heap Pid Process.
Open Scope gw_scope.

Section fork.
Context (pool_lock : pool_flag -> Z) (pid_lock : Z).
(** The entry point of [intr_exit]. *)
Context (intr_exit : Z).

(** [memcpy(child, parent, PG_SIZE)]: the record, and the words of the page. *)
Definition copy_pcb_page (child parent : Z) : M kernel unit :=
  p ← get_pcb parent;
  _ ← put_pcb child p;
  vcopy 1024 child parent.

(** The last statements of [copy_pcb_vaddrbitmap_stack0]: "_fork" behind the name. *)
Definition fork_name (name : list Z) : res (list Z) :=
  len ← strlen name 0;
  _ ← ASSERT (len <? 11);
  len ← strlen name 0;
  n ← aset name len 95;
  n ← aset n (len + 1) 102;
  n ← aset n (len + 2) 111;
  n ← aset n (len + 3) 114;
  n ← aset n (len + 4) 107;
  aset n (len + 5) 0.

(** The result is that of the C function.  The bits of the address bitmap are a
    value in the record, so the copy of the record is their copy as well. *)
Definition copy_pcb_vaddrbitmap_stack0 (child parent : Z) : M heap (outcome Z) :=
  _ ← on_k (copy_pcb_page child parent);
  new_pid ⇐ on_k (alloc_pid pid_lock);
  q ← on_k (get_pcb parent);
  _ ← on_k (upd_pcb child (fun p => set_parent_pid (pid q) (set_ticks (priority p)
        (set_status TASK_READY (set_elapsed_ticks 0 (set_pid new_pid p))))));
  _ ← on_k (on_mach (zero_links [general_node child; all_list_node child]));
  _ ← init_user_descs child;
  vaddr_btmp ⇐ on_k (get_kernel_pages pool_lock user_bitmap_pages);
  if vaddr_btmp =? NULL then mret (Done (-1))
  else
    _ ← on_k (upd_pcb child (set_vaddr_bits vaddr_btmp));
    p ← on_k (get_pcb child);
    n ← lift (fork_name (name p));
    _ ← on_k (upd_pcb child (set_name n));
    mret (Done 0).

(** One user page; what [get_one_page_no_bitmap] returns is not looked at. *)
Definition copy_page (child parent tran_page prog_vaddr : Z) : M kernel (outcome unit) :=
  _ ← vcopy 1024 tran_page prog_vaddr;
  _ ← page_dir_activate child;
  _ ⇐ get_one_page_no_bitmap pool_lock PF_USER prog_vaddr;
  _ ← vcopy 1024 prog_vaddr tran_page;
  _ ← page_dir_activate parent;
  mret (Done tt).

(** [while (idx_bit < 8)], [n] rounds left. *)
Fixpoint copy_bits (n : nat) (idx_bit byte : Z) (first child parent tran_page : Z) : M kernel (outcome unit) :=
  match n with
  | O => mret (Done tt)
  | S n' =>
      if negb (Z.land (Z.shiftl 1 idx_bit) byte =? 0) then
        _ ⇐ copy_page child parent tran_page (u32 (first + idx_bit * PG_SIZE));
        copy_bits n' (idx_bit + 1) byte first child parent tran_page
      else copy_bits n' (idx_bit + 1) byte first child parent tran_page
  end.

(** [while (idx_byte < len)], [n] rounds left; the bitmap of the parent does
    not change on the way. *)
Fixpoint copy_bytes (n : nat) (idx_byte : Z) (va : virtual_addr) (child parent tran_page : Z)
    : M kernel (outcome unit) :=
  match n with
  | O => mret (Done tt)
  | S n' =>
      byte ← lift (aget (bits (vaddr_bitmap va)) idx_byte);
      _ ⇐ (if negb (byte =? 0)
           then copy_bits 8 0 byte (idx_byte * 8 * PG_SIZE + vaddr_start va) child parent tran_page
           else mret (Done tt));
      copy_bytes n' (idx_byte + 1) va child parent tran_page
  end.

Definition copy_body_stack3 (child parent tran_page : Z) : M kernel (outcome unit) :=
  p ← get_pcb parent;
  let va := userprog_vaddr p in
  copy_bytes (Z.to_nat (len (vaddr_bitmap va))) 0 va child parent tran_page.

Definition build_child_stack (child : Z) : M kernel unit :=
  let intr_stack := u32 (child + PG_SIZE - sizeof_intr_stack) in
  _ ← vstores intr_stack
    [(is_eax, 0); (- 4, intr_exit); (- 8, 0); (- 12, 0); (- 16, 0); (- 20, 0)];
  upd_pcb child (set_self_kstack (u32 (intr_stack - 20))).

Definition copy_process (child parent : Z) : M heap (outcome Z) :=
  tran_page ⇐ on_k (get_kernel_pages pool_lock 1);
  if tran_page =? NULL then mret (Done (-1))
  else
    r ⇐ copy_pcb_vaddrbitmap_stack0 child parent;
    if r =? -1 then mret (Done (-1))
    else
      page_dir ⇐ on_k (create_page_dir pool_lock);
      _ ← on_k (upd_pcb child (set_pg_dir page_dir));
      if page_dir =? NULL then mret (Done (-1))
      else
        _ ⇐ on_k (copy_body_stack3 child parent tran_page);
        _ ← on_k (build_child_stack child);
        _ ← on_k (mfree_page PF_KERNEL tran_page 1);
        mret (Done 0).

Definition sys_fork : M heap (outcome Z) :=
  parent ← on_k running_thread;
  child ⇐ on_k (get_kernel_pages pool_lock 1);
  if child =? NULL then mret (Done (-1))
  else
    st ← on_k (on_mach intr_get_status);
    p ← on_k (get_pcb parent);
    _ ← ASSERTM (bool_decide (st = INTR_OFF) && negb (pg_dir p =? NULL));
    r ⇐ copy_process child parent;
    if r =? -1 then mret (Done (-1))
    else
      _ ← on_k (enter_lists child);
      p ← on_k (get_pcb child);
      mret (Done (pid p)).
End fork.
