(* ===== verification/ForkPages.v ===== *)
(** * ForkPages: the address space of a child (userprog/fork.c)

    [copying] is the invariant of the loops of [copy_body_stack3]: the pages
    the child has so far hold the parent's words, and everything of the parent
    is as it was.  Below it are the steps of one round: a page more in the
    loaded directory keeps the address spaces of all other processes
    ([added_kspace], [added_other]), and words written to a page of data keep
    them all ([written_kspace], [written_uspace]). *)

From stdpp Require Import fin_maps fin_sets gmap.
From S2P Require Import Prelude CString Interrupt Lists Bitmap Kernel Paging Thread Sync IoQueue Memory DataPages Space Heap Pid Process System Switch Demo Fork.
Open Scope gw_scope.

(** ** A page more in the loaded directory *)

Definition user_addr (v : Z) : Prop := 0x400000 <= v < 0xc0000000.

Lemma user_addr_PDE v : user_addr v -> is_word v /\ 1 <= PDE_IDX v < 768 /\ heap_addr v.
Proof.
  unfold user_addr, heap_addr. intros Hv. assert (is_word v) by (unfold is_word; lia).
  rewrite PDE_IDX_val by done. split; [done|]. split; [zarith|lia].
Qed.

Lemma extends_in_use k k' D c : extends k k' -> dir_in_use k' D c <-> dir_in_use k D c.
Proof. intros Hx. unfold dir_in_use. by rewrite (ex_kth _ _ Hx). Qed.

Lemma extends_live k k' D c : extends k k' -> dir_live k' D c <-> dir_live k D c.
Proof. intros Hx. unfold dir_live. by rewrite (ex_kth _ _ Hx). Qed.

Lemma extends_pool k k' q : extends k k' -> in_pool (kernel_pool (kmem k)) q <-> in_pool (kernel_pool (kmem k')) q.
Proof.
  intros Hx. destruct (ex_pool _ _ Hx PF_KERNEL) as (_ & Es & Ez & El & _). cbn [pool_of] in *.
  unfold in_pool, in_bits, page_at. rewrite Ez, Es. done.
Qed.

Lemma extends_free pf k k' q : extends k k' -> page_free (pool_of pf (kmem k')) q -> page_free (pool_of pf (kmem k)) q.
Proof. intros Hx. destruct (ex_pool _ _ Hx pf) as (_ & _ & _ & _ & H). intros Hf. apply H, Hf. Qed.


Section added.
Context (k k' : kernel) (D : Z -> Z) (O : gmap Z Z) (v q : Z).
Hypothesis Hk : kspace k D O.
Hypothesis Hv : user_addr v.
Hypothesis Ha : page_added PF_USER k k' v q.

Local Lemma added_extends : extends k k'.
Proof using Ha. apply (pa_extends _ _ _ _ _ Ha). Qed.

Local Lemma current_aligned : cr3 (kc k) mod 4096 = 0.
Proof using Hk. apply (dir_aligned k D O); [done|]. apply dir_live_in_use, (ks_cr3 _ _ _ Hk). Qed.

(** Words of a page of the kernel that is known, other than the entry of [v] in
    the loaded directory. *)
Local Lemma added_known c i : known_page O c -> 0 <= i < 1024 -> c + i * 4 <> pde_addr (cr3 (kc k)) v ->
  word (ram (kmem k')) (c + i * 4) = dir_entry k c i.
Proof using Hk Hv Ha.
  intros Hc Hi Hne. apply (pa_words _ _ _ _ _ Ha). unfold table_word. destruct (user_addr_PDE v Hv) as (Hw & Hp & _).
  pose proof (known_aligned k D O c Hk Hc) as Hca. destruct (present _) eqn:Epr.
  - intros E. assert (Ht : has_table k D (cr3 (kc k)) (PDE_IDX v))
      by (right; split; [apply (ks_cr3 _ _ _ Hk)|split; [lia|done]]).
    destruct (ks_tables _ _ _ Hk _ _ Ht) as [H1 H2]. unfold pte_addr, pde_addr in E. fold (dir_entry k (cr3 (kc k)) (PDE_IDX v)) in E.
    apply (frames_apart c (frame (dir_entry k (cr3 (kc k)) (PDE_IDX v))) i (PTE_IDX v)) in E; [done|done| | |lia|by apply PTE_IDX_range].
    + apply frame_aligned, word_ok, (po_words _ (mo_paging _ (ks_current _ _ _ Hk))).
    + intros E2. destruct Hc as [->|(w & HO)]; [by apply H1|]. by apply (H2 w c).
  - intros [E|(x & Hx & Hin)]; [done|]. apply (known_not_free k D O c Hk Hc).
    assert (x mod 4096 = 0) by (destruct Hx as (l & Hl & -> & _);
      by apply (page_at_word _ l (ps_kernel _ (mo_pools _ (ks_current _ _ _ Hk))) Hl)).
    assert (x = c) as <- by zarith. done.
Qed.

Local Lemma added_dir c i : dir_in_use k D c -> 0 <= i < 1024 -> c <> cr3 (kc k) \/ i <> PDE_IDX v ->
  dir_entry k' c i = dir_entry k c i.
Proof using Hk Hv Ha.
  intros Hc Hi Hne. destruct (user_addr_PDE v Hv) as (Hw & Hp & _). apply added_known; [by apply (dir_owned k D O)|done|].
  unfold pde_addr. intros E. pose proof (dir_aligned k D O c Hk Hc) as Hca. pose proof current_aligned. zarith.
Qed.

(** The tables of the loaded directory are the old ones and one that was free. *)
Local Lemma added_table i : 0 <= i < 1023 -> present (dir_entry k' (cr3 (kc k)) i) = true ->
  (exists j, has_table k D (cr3 (kc k)) j /\ frame (dir_entry k (cr3 (kc k)) j) = frame (dir_entry k' (cr3 (kc k)) i)) \/
  page_free (kernel_pool (kmem k)) (frame (dir_entry k' (cr3 (kc k)) i)).
Proof using Hk Hv Ha.
  intros Hi Hp. set (x := frame _). pose proof (pa_ok _ _ _ _ _ Ha) as Hok'. pose proof added_extends as Hx.
  assert (Hiw : is_word (i * 4194304)) by (unfold is_word; lia).
  assert (Hii : PDE_IDX (i * 4194304) = i) by (rewrite PDE_IDX_val by done; zarith).
  assert (Ht : table_frame k' x).
  { exists (i * 4194304). rewrite (ex_kc _ _ Hx). unfold pde_addr. rewrite Hii. by split. }
  assert (Hxc : x <> cr3 (kc k)).
  { pose proof (po_dir _ (mo_paging _ Hok') (i * 4194304) Hiw) as Hd. rewrite (ex_kc _ _ Hx) in Hd.
    unfold pde_addr in Hd. rewrite Hii in Hd. apply Hd; [lia|exact Hp]. }
  destruct (pa_new _ _ _ _ _ Ha x Ht) as [Hold|]; [left|by right]. destruct Hold as (w & Hw & Hpw & Ef). exists (PDE_IDX w). pose proof (PDE_IDX_range w Hw).
  split; [|exact Ef]. right. split; [apply (ks_cr3 _ _ _ Hk)|]. split; [|exact Hpw].
  destruct (decide (PDE_IDX w = 1023)) as [E|]; [|lia]. exfalso. apply Hxc. rewrite <- Ef. unfold pde_addr. rewrite E.
  by destruct (ks_self _ _ _ Hk (cr3 (kc k))) as (_ & _ & _ & Hs); [apply dir_live_in_use, (ks_cr3 _ _ _ Hk)|].
Qed.

Lemma added_kspace : kspace k' D O.
Proof using Hk Hv Ha.
  pose proof added_extends as Hx. destruct (user_addr_PDE v Hv) as (Hvw & Hp & Hvh).
  pose proof (pa_ok _ _ _ _ _ Ha) as Hok'. pose proof (ks_current _ _ _ Hk) as Hok.
  pose proof (ks_vspace _ _ _ Hk) as (_ & Hvs & Hun).
  assert (Hin : forall c, dir_in_use k' D c <-> dir_in_use k D c) by (intros c; by apply extends_in_use).
  assert (Hli : forall c, dir_live k' D c <-> dir_live k D c) by (intros c; by apply extends_live).
  assert (Hwalk : forall w, 0xc0000000 <= w < 0xffc00000 -> walk k' w = walk k w).
  { intros w Hw. apply (pa_others _ _ _ _ _ Ha); [unfold heap_addr; lia|]. unfold user_addr in Hv. zarith. }
  split.
  - intros c Hc. apply Hli in Hc. destruct (decide (c = cr3 (kc k))) as [->|N].
    + rewrite <- (ex_kc _ _ Hx), with_cr3_id. done.
    + apply (mem_ok_transfer c k); [by apply (ks_mem _ _ _ Hk)|exact (po_words _ (mo_paging _ Hok'))|exact (mo_pools _ Hok')| |].
      * intros i Hi. apply added_dir; [by apply dir_live_in_use|done|by left].
      * intros pf x Hf. left. by apply (extends_free pf k k').
  - apply Hli. rewrite (ex_kc _ _ Hx). apply (ks_cr3 _ _ _ Hk).
  - split; [done|]. rewrite (ex_vaddr _ _ Hx). split; [done|]. intros i Hi Hb.
    destruct Hvs as [_ H2a H2b H2c]. pose proof (ks_base _ _ _ Hk). rewrite Hwalk; [by apply Hun|].
    unfold in_bits in *. cbn [space_end] in H2c. lia.
  - rewrite (ex_vaddr _ _ Hx). apply (ks_base _ _ _ Hk).
  - destruct (ex_pool _ _ Hx PF_KERNEL) as (_ & Es & _). cbn [pool_of] in Es. rewrite Es. apply (ks_low _ _ _ Hk).
  - intros w x HO. destruct (ks_page _ _ _ Hk w x HO) as (H1 & H2 & H3 & H4).
    destruct (in_heap_kernel _ _ _ _ Hk H1) as [Hka _]. split; [|split; [|split]].
    + unfold in_heap. by rewrite (ex_vaddr _ _ Hx).
    + rewrite Hwalk; [done|exact Hka].
    + by apply (extends_pool k k').
    + intros Hf. by apply H4, (extends_free PF_KERNEL k k').
  - apply (ks_inj _ _ _ Hk).
  - rewrite (ex_kth _ _ Hx). apply (ks_kernel _ _ _ Hk).
  - rewrite (ex_kth _ _ Hx). apply (ks_user _ _ _ Hk).
  - rewrite (ex_kth _ _ Hx). apply (ks_uniq _ _ _ Hk).
  - intros c Hc. apply Hin in Hc. apply (self_mapped_word (ram (kmem k))); [by apply (ks_self _ _ _ Hk)|].
    apply (added_dir c 1023 Hc); lia.
  - intros c i Hc Hi. apply Hin in Hc. rewrite (added_dir c i), (added_dir kdir i); [|apply kdir_in_use|lia|lia|done|lia|lia].
    by apply (ks_share _ _ _ Hk).
  - intros i Hi. rewrite (added_dir kdir i); [|apply kdir_in_use|lia|lia]. by apply (ks_present _ _ _ Hk).
  - intros c i Ht.
    assert (Hcase : has_table k D c i /\ dir_entry k' c i = dir_entry k c i \/
      c = cr3 (kc k) /\ 0 <= i < 1023 /\ present (dir_entry k' c i) = true).
    { destruct Ht as [[Hc Hr]|(Hc & Hr & Hpr)].
      - apply Hin in Hc. left. split; [by left|]. apply added_dir; [done|lia|lia].
      - apply Hli in Hc. destruct (decide (c = cr3 (kc k))) as [->|N]; [by right|left].
        assert (E : dir_entry k' c i = dir_entry k c i) by (apply added_dir; [by apply dir_live_in_use|lia|by left]).
        split; [|done]. right. by rewrite E in Hpr. }
    destruct Hcase as [[H0 E]|(-> & Hi & Hpr)]; [rewrite E; by apply (ks_tables _ _ _ Hk)|].
    destruct (added_table i Hi Hpr) as [(j & Hj & <-)|Hf]; [by apply (ks_tables _ _ _ Hk)|]. split.
    + intros E. rewrite E in Hf. by apply (known_not_free k D O kdir Hk); [left|].
    + intros w x HO E. rewrite E in Hf. apply (known_not_free k D O x Hk); [right; by exists w|done].
Qed.
End added.

(** ** Copying a page *)

Lemma set_ram_id k : set_ram (ram (kmem k)) k = k.
Proof. by destruct k as [? ? [] ? ?]. Qed.

(** From the page [src], at [y] in memory, to the page [dst], at [x]. *)
Lemma vcopy_page src dst y x : is_word src -> src mod 4096 = 0 -> is_word dst -> dst mod 4096 = 0 ->
  y mod 4096 = 0 -> x mod 4096 = 0 -> x <> y -> forall n i k, mem_ok k -> walk k src = Some y -> walk k dst = Some x ->
  ~ table_frame k x -> 0 <= i -> i + Z.of_nat n <= 1024 ->
  exists r, vcopy n (dst + i * 4) (src + i * 4) k = Ok (tt, set_ram r k) /\ data_written k r /\
    (forall j, i <= j < i + Z.of_nat n -> word r (x + j * 4) = word (ram (kmem k)) (y + j * 4)) /\
    (forall a, ~ (x + i * 4 <= a < x + (i + Z.of_nat n) * 4) -> word r a = word (ram (kmem k)) a).
Proof.
  intros Hs Hsa Hd Hda Hya Hxa Hne. induction n as [|n IH]; intros i k Hok Hy Hx Hnt Hi Hle; cbn [vcopy].
  { exists (ram (kmem k)). rewrite set_ram_id. split; [done|]. split; [by apply data_written_refl|]. split; [intros j Hj; lia|done]. }
  pose proof (walk_offset k src y (i * 4) Hs Hsa Hy ltac:(lia) Hya) as Ws.
  pose proof (walk_offset k dst x (i * 4) Hd Hda Hx ltac:(lia) Hxa) as Wd.
  rewrite (bindM_ok _ _ _ _ _ (vload_ok k _ _ Ws)), (bindM_ok _ _ _ _ _ (vstore_ok k _ _ _ Wd)).
  set (b := word (ram (kmem k)) (y + i * 4)). set (r1 := <[x + i * 4 := b]> (ram (kmem k))).
  assert (Hdw : data_written k r1).
  { apply (store_written k (x + i * 4) x); [done|done|lia|done|]. apply word_ok, (po_words _ (mo_paging _ Hok)). }
  destruct (IH (i + 1) (set_ram r1 k)) as (r & E & Hdw' & Hin & Hout).
  - apply Hdw.
  - by rewrite (dw_walk _ _ Hdw).
  - by rewrite (dw_walk _ _ Hdw).
  - by rewrite (dw_tables _ _ Hdw).
  - lia.
  - lia.
  - replace (dst + i * 4 + 4) with (dst + (i + 1) * 4) by lia. replace (src + i * 4 + 4) with (src + (i + 1) * 4) by lia.
    exists r. split; [exact E|]. split; [by apply (data_written_trans k r1)|]. cbn [set_ram set_kmem kmem ram] in Hin, Hout.
    split.
    + intros j Hj. destruct (decide (j = i)) as [->|N].
      * rewrite Hout by lia. unfold r1. rewrite word_insert. by destruct (Z.eq_dec _ _).
      * rewrite Hin by lia. unfold r1. rewrite word_insert. destruct (Z.eq_dec _ _); [exfalso; zarith|done].
    + intros a Haa. rewrite Hout by lia. unfold r1. rewrite word_insert. destruct (Z.eq_dec _ _); [lia|done].
Qed.

(** ** The user pages of a directory *)

(** The page table behind entry [i] of the user's part of directory [c]. *)
Definition user_table (k : kernel) (c f : Z) : Prop :=
  exists i, 1 <= i < 768 /\ present (dir_entry k c i) = true /\ frame (dir_entry k c i) = f.

(** [U]: the pages a process has, with their frames. *)
Record uspace (k : kernel) (c : Z) (U : gmap Z Z) : Prop := {
  us_map : forall v, user_addr v -> v mod 4096 = 0 -> translate (ram (kmem k)) c v = U !! v;
  us_page : forall v q, U !! v = Some q -> user_addr v /\ v mod 4096 = 0;
  us_frame : forall v q, U !! v = Some q -> in_pool (user_pool (kmem k)) q /\ ~ page_free (user_pool (kmem k)) q;
  us_inj : forall v w q, U !! v = Some q -> U !! w = Some q -> v = w;
  us_zero : present (dir_entry k c 0) = false;
  us_table : forall f, user_table k c f -> in_pool (kernel_pool (kmem k)) f /\ ~ page_free (kernel_pool (kmem k)) f }.

(** The words that say what the user pages are: those of the directory and of
    its tables. *)
Lemma uspace_keep k k' c U : uspace k c U -> (forall i, 0 <= i < 768 -> dir_entry k' c i = dir_entry k c i) ->
  (forall f j, user_table k c f -> 0 <= j < 1024 -> word (ram (kmem k')) (f + j * 4) = word (ram (kmem k)) (f + j * 4)) ->
  (forall pf q, in_pool (pool_of pf (kmem k)) q -> in_pool (pool_of pf (kmem k')) q) ->
  (forall pf q, page_free (pool_of pf (kmem k')) q -> page_free (pool_of pf (kmem k)) q) -> uspace k' c U.
Proof.
  intros [H1 H2 H3 H4 H0 H5] Hd Ht Hin Hf.
  assert (Htab : forall f, user_table k' c f -> user_table k c f).
  { intros f (i & Hi & Hp & E). exists i. rewrite Hd in Hp, E by lia. done. }
  split.
  - intros v Hv Ha. rewrite <- H1 by done. destruct (user_addr_PDE v Hv) as (Hw & Hp & _).
    unfold translate, pte_addr, pde_addr. fold (dir_entry k' c (PDE_IDX v)) (dir_entry k c (PDE_IDX v)). rewrite Hd by lia.
    destruct (present (dir_entry k c (PDE_IDX v))) eqn:E; [|done]. rewrite Ht; [done|by exists (PDE_IDX v)|by apply PTE_IDX_range].
  - done.
  - intros v q E. destruct (H3 v q E) as [A B]. split; [by apply (Hin PF_USER)|]. intros F. by apply B, (Hf PF_USER).
  - done.
  - by rewrite Hd by lia.
  - intros f F. destruct (H5 f (Htab f F)) as [A B]. split; [by apply (Hin PF_KERNEL)|]. intros G. by apply B, (Hf PF_KERNEL).
Qed.

Lemma pools_apart_in m q1 q2 : pools_ok m -> in_pool (kernel_pool m) q1 -> in_pool (user_pool m) q2 -> q1 <> q2.
Proof.
  intros [W1 W2 Hap] (i & Hi & ->) (j & Hj & ->). unfold page_at, in_bits in *. lia.
Qed.

Lemma in_pool_aligned pf m q : pools_ok m -> in_pool (pool_of pf m) q -> q mod 4096 = 0 /\ is_word q.
Proof. intros Hp (i & Hi & ->). destruct (page_at_word _ i (pools_wf _ pf Hp) Hi) as (? & ? & _). done. Qed.

(** ** The locks are not part of it *)

Lemma page_added_ksy pf y k k' v q : page_added pf (set_ksy y k) k' v q ->
  page_added pf k (set_ksy (ksy k) k') v q.
Proof.
  intros [H1 [E1 E2 E3 E4 E5 E6 E7] H3 H4 H5 H6 H7 H8 H9 H10 H11 H12 H13]. split; try done.
  - by apply mem_ok_ksy.
Qed.

Lemma kspace_ksy y k D O : kspace k D O -> kspace (set_ksy y k) D O.
Proof. intros Hk. apply (kspace_threads k); [done|done|done|exact (threads_less_refl k)|exact (ks_cr3 _ _ _ Hk)]. Qed.

Section one_page.
Context (pool_lock : pool_flag -> Z) (k : kernel) (D : Z -> Z) (O : gmap Z Z) (Γ : gmap Z (list Z)) (v : Z).
Hypothesis Hk : kspace k D O.
Hypothesis Hl : lists_ok (km k) Γ.
Hypothesis Hlk : lock_idle k Γ (pool_lock PF_USER).
Hypothesis Hcur : cur (kc k) <> NULL.

Lemma get_one_page_no_bitmap_ok : user_addr v -> walk k v = None -> budget PF_USER k 1 ->
  exists q k', get_one_page_no_bitmap pool_lock PF_USER v k = Ok (Done v, k') /\ page_added PF_USER k k' v q /\
    kspace k' D O.
Proof using Hk Hl Hlk Hcur.
  intros Hv Hno Hb. destruct (user_addr_PDE v Hv) as (_ & _ & Hh). unfold get_one_page_no_bitmap.
  set (k1 := set_ksy (held (ksy k) (pool_lock PF_USER) (cur (kc k))) k).
  rewrite (bindM_ok _ _ _ None k1) by (by apply (lock_enter k Γ)).
  destruct (map_page_ok PF_USER k1 v) as (q & k2 & k3 & Ep & Hq & Ea & Hadd);
    [by apply mem_ok_ksy, (ks_current k D O)|done|exact Hno|exact Hb|].
  rewrite (bindM_ok _ _ _ _ _ Ep), (proj2 (Z.eqb_neq _ _) Hq), (bindM_ok _ _ _ _ _ Ea).
  destruct (pa_extends _ _ _ _ _ Hadd) as [E1 E2 E3 E4 _ _ _].
  assert (El : lock_release (pool_lock PF_USER) k3 = Ok (tt, set_ksy (ksy k) k3)).
  { apply (lock_leave k k3 Γ (pool_lock PF_USER) Hlk) with (Γ' := Γ).
    - rewrite E4, E2. done.
    - by rewrite E1.
    - apply (lf_waiters _ _ _ Hlk). }
  rewrite (bindM_ok _ _ _ _ _ El). pose proof (page_added_ksy _ _ _ _ _ _ Hadd) as Hadd'.
  exists q, (set_ksy (ksy k) k3). split; [done|]. split; [done|]. by apply (added_kspace k _ D O v q).
Qed.
End one_page.

(** ** One page of the child *)

(** A page of memory that is data: owned but no directory, or of the user pool. *)
Definition data_frame (k : kernel) (D : Z -> Z) (O : gmap Z Z) (x : Z) : Prop :=
  (exists v, O !! v = Some x) /\ ~ dir_in_use k D x \/ in_pool (user_pool (kmem k)) x.

Section frames.
Context (k : kernel) (D : Z -> Z) (O : gmap Z Z) (Hk : kspace k D O).

Lemma data_frame_aligned x : data_frame k D O x -> x mod 4096 = 0.
Proof using Hk.
  intros [[[v HO] _]|Hx]; [by apply (owned_aligned k D O v)|].
  by apply (in_pool_aligned PF_USER _ x (mo_pools _ (ks_current _ _ _ Hk))).
Qed.

Lemma known_not_user c : known_page O c -> ~ in_pool (user_pool (kmem k)) c.
Proof using Hk.
  pose proof (mo_pools _ (ks_current _ _ _ Hk)) as Hp. intros [->|(v & HO)] Hu.
  - destruct Hu as (i & Hi & E). destruct Hp as [W1 W2 Hap]. pose proof (ks_low _ _ _ Hk). unfold page_at, in_bits, kdir in *.
    pose proof (zlen_nonneg (bits (pool_bitmap (kernel_pool (kmem k))))). lia.
  - destruct (ks_page _ _ _ Hk v c HO) as (_ & _ & Hin & _). by apply (pools_apart_in _ c c Hp).
Qed.

Lemma data_not_dir x c : data_frame k D O x -> dir_in_use k D c -> c <> x.
Proof using Hk.
  intros [[_ Hn]|Hu] Hc ->; [done|]. by apply (known_not_user x); [apply (dir_owned k D O)|].
Qed.

Lemma user_table_unknown c f : dir_live k D c -> user_table k c f -> ~ known_page O f.
Proof using Hk.
  intros Hc (i & Hi & Hp & <-) Hf. destruct (ks_tables _ _ _ Hk c i) as [H1 H2].
  { right. split; [done|]. split; [lia|done]. }
  destruct Hf as [E|(v & HO)]; [done|]. by apply (H2 v _ HO).
Qed.

Lemma data_not_table x c U f : data_frame k D O x -> dir_live k D c -> uspace k c U -> user_table k c f -> f <> x.
Proof using Hk.
  intros [[Hv _]|Hu] Hc HU Hf ->.
  - by apply (user_table_unknown c x Hc Hf); right.
  - destruct (us_table _ _ _ HU x Hf) as [Hin _]. by apply (pools_apart_in _ x x (mo_pools _ (ks_current _ _ _ Hk))).
Qed.

Lemma user_table_aligned c f : user_table k c f -> f mod 4096 = 0.
Proof using Hk. intros (i & _ & _ & <-). apply frame_aligned, word_ok, (po_words _ (mo_paging _ (ks_current _ _ _ Hk))). Qed.

(** A page of data is written. *)
Context (r : gmap Z Z) (x : Z) (Hx : data_frame k D O x).
Hypothesis Hout : forall a, ~ (x <= a < x + 4096) -> word r a = word (ram (kmem k)) a.

Lemma written_kspace : data_written k r -> kspace (set_ram r k) D O.
Proof using Hk Hx Hout.
  intros Hdw. apply kspace_write; [done|done|]. intros c i Hc Hi. apply Hout.
  pose proof (data_not_dir x c Hx Hc). pose proof (data_frame_aligned x Hx). pose proof (dir_aligned k D O c Hk Hc). zarith.
Qed.

Lemma written_uspace c U : dir_live k D c -> uspace k c U -> uspace (set_ram r k) c U.
Proof using Hk Hx Hout.
  intros Hc HU. pose proof (data_frame_aligned x Hx) as Hxa. apply (uspace_keep k); try done.
  - intros i Hi. apply Hout. pose proof (dir_live_in_use _ _ _ Hc) as Hu.
    pose proof (data_not_dir x c Hx Hu). pose proof (dir_aligned k D O c Hk Hu). zarith.
  - intros f j Hf Hj. apply Hout. pose proof (data_not_table x c U f Hx Hc HU Hf). pose proof (user_table_aligned c f Hf). zarith.
Qed.
End frames.

Section child_page.
Context (k k' : kernel) (D : Z -> Z) (O : gmap Z Z) (v q : Z).
Hypothesis Hk : kspace k D O.
Hypothesis Hv : user_addr v.
Hypothesis Hva : v mod 4096 = 0.
Hypothesis Ha : page_added PF_USER k k' v q.

Local Lemma added_live : dir_live k D (cr3 (kc k)).
Proof using Hk. apply (ks_cr3 _ _ _ Hk). Qed.

(** A page that is no table of the loaded directory and was not free stays. *)
Lemma added_words x j : x mod 4096 = 0 -> x <> cr3 (kc k) -> ~ user_table k (cr3 (kc k)) x ->
  ~ page_free (kernel_pool (kmem k)) x -> 0 <= j < 1024 ->
  word (ram (kmem k')) (x + j * 4) = word (ram (kmem k)) (x + j * 4).
Proof using Hk Hv Ha.
  intros Hxa Hne Hnt Hnf Hj. apply (pa_words _ _ _ _ _ Ha). unfold table_word. destruct (user_addr_PDE v Hv) as (Hw & Hp & _).
  pose proof (dir_aligned k D O _ Hk (dir_live_in_use _ _ _ added_live)) as Hca. destruct (present _) eqn:Epr.
  - intros E. apply Hnt. exists (PDE_IDX v). split; [done|]. split; [done|].
    pose proof (frame_aligned _ (word_ok _ (pde_addr (cr3 (kc k)) v) (po_words _ (mo_paging _ (ks_current _ _ _ Hk))))) as [Hfa _].
    unfold pte_addr, pde_addr in *. pose proof (PTE_IDX_range v Hw). unfold dir_entry. zarith.
  - intros [E|(y & Hy & Hin)].
    + unfold pde_addr in E. pose proof (PDE_IDX_range v Hw). zarith.
    + apply Hnf. assert (y mod 4096 = 0) by (destruct Hy as (l & Hl & -> & _);
        by apply (page_at_word _ l (ps_kernel _ (mo_pools _ (ks_current _ _ _ Hk))) Hl)).
      assert (x = y) as -> by zarith. done.
Qed.

Lemma added_user_table f : present (dir_entry k (cr3 (kc k)) 0) = false -> user_table k' (cr3 (kc k)) f ->
  user_table k (cr3 (kc k)) f \/ page_free (kernel_pool (kmem k)) f.
Proof using Hk Hv Ha.
  intros Hz (i & Hi & Hp & Ef). destruct (user_addr_PDE v Hv) as (Hvw & Hpv & Hh). pose proof added_live as Hli.
  pose proof (dir_live_in_use _ _ _ Hli) as Hu. pose proof (ex_kc _ _ (pa_extends _ _ _ _ _ Ha)) as Ekc.
  assert (Hsame : forall j, 0 <= j < 1024 -> j <> PDE_IDX v -> dir_entry k' (cr3 (kc k)) j = dir_entry k (cr3 (kc k)) j)
    by (intros j Hj N; apply (added_dir k k' D O v q Hk Hv Ha); [done|done|by right]).
  destruct (decide (i = PDE_IDX v)) as [->|N].
  2: { left. exists i. rewrite Hsame in Hp, Ef by lia. done. }
  destruct (present (dir_entry k (cr3 (kc k)) (PDE_IDX v))) eqn:Epr.
  { left. exists (PDE_IDX v). split; [done|]. split; [done|]. rewrite <- Ef. unfold dir_entry. f_equal.
    symmetry. apply (pa_dir PF_USER k k' v q); [apply (ks_current _ _ _ Hk)|done|done|done|done]. }
  pose proof (pa_ok _ _ _ _ _ Ha) as Hok'.
  assert (Ht : table_frame k' f) by (exists v; rewrite Ekc; done).
  destruct (pa_new _ _ _ _ _ Ha f Ht) as [(w & Hw & Hpw & Ew)|]; [|by right]. exfalso.
  fold (dir_entry k (cr3 (kc k)) (PDE_IDX w)) in Hpw, Ew. pose proof (PDE_IDX_range w Hw) as Hr.
  unfold pde_addr in Hpw, Ew. fold (dir_entry k (cr3 (kc k)) (PDE_IDX w)) in Hpw, Ew.
  assert (Nv : PDE_IDX w <> PDE_IDX v) by congruence. assert (N0 : PDE_IDX w <> 0) by congruence.
  destruct (decide (PDE_IDX w = 1023)) as [E|N1].
  - destruct (ks_self _ _ _ Hk (cr3 (kc k)) Hu) as (_ & _ & _ & Hs). rewrite E in Ew. unfold dir_entry in Ew.
    pose proof (po_dir _ (mo_paging _ Hok') v Hvw) as Hd. rewrite Ekc in Hd. apply Hd; [lia|exact Hp|].
    change (frame (dir_entry k' (cr3 (kc k)) (PDE_IDX v)) = cr3 (kc k)). rewrite Ef, <- Ew. exact Hs.
  - pose proof (po_inj _ (mo_paging _ Hok') v w Hvw Hw) as Hd. rewrite Ekc in Hd.
    apply Hd; [lia|done|congruence|exact Hp| |].
    + change (present (dir_entry k' (cr3 (kc k)) (PDE_IDX w)) = true). by rewrite Hsame by lia.
    + change (frame (dir_entry k' (cr3 (kc k)) (PDE_IDX v)) = frame (dir_entry k' (cr3 (kc k)) (PDE_IDX w))).
      rewrite Ef, Hsame by lia. by rewrite Ew.
Qed.

Local Lemma added_pools pf x : in_pool (pool_of pf (kmem k)) x -> in_pool (pool_of pf (kmem k')) x.
Proof using Ha.
  destruct (ex_pool _ _ (pa_extends _ _ _ _ _ Ha) pf) as (_ & Es & Ez & _). unfold in_pool, in_bits, page_at.
  rewrite Ez, Es. done.
Qed.

(** Another directory. *)
Lemma added_other c U : dir_live k D c -> c <> cr3 (kc k) -> uspace k c U ->
  (forall f, user_table k c f -> ~ user_table k (cr3 (kc k)) f) -> uspace k' c U.
Proof using Hk Hv Ha.
  intros Hc Hne HU Hap. apply (uspace_keep k); [done| | |apply added_pools|].
  - intros i Hi. apply (added_dir k k' D O v q Hk Hv Ha); [by apply dir_live_in_use|lia|by left].
  - intros f j Hf Hj. destruct (us_table _ _ _ HU f Hf) as [Hin Hnf].
    apply added_words; [by apply (user_table_aligned k D O Hk c)| |by apply Hap|done|done].
    intros ->. apply (user_table_unknown k D O Hk c _ Hc Hf), (dir_owned k D O); [done|]. apply dir_live_in_use, added_live.
  - intros pf x. apply (extends_free pf k k'), (pa_extends _ _ _ _ _ Ha).
Qed.

(** The loaded directory. *)
Lemma added_own U : uspace k (cr3 (kc k)) U -> U !! v = None -> uspace k' (cr3 (kc k)) (<[v := q]> U).
Proof using Hk Hv Hva Ha.
  intros HU Hno. pose proof (ex_kc _ _ (pa_extends _ _ _ _ _ Ha)) as Ekc. pose proof (pa_was_free _ _ _ _ _ Ha) as Hqf.
  cbn [pool_of] in Hqf.
  assert (Hkept : forall w x, U !! w = Some x -> x <> q).
  { intros w x E ->. destruct (us_frame _ _ _ HU w q E) as [_ H]. done. }
  split.
  - intros w Hw Hwa. destruct (decide (v = w)) as [<-|N].
    + rewrite lookup_insert_eq. pose proof (pa_walk _ _ _ _ _ Ha) as E. unfold walk in E. by rewrite Ekc, Hva, Z.add_0_r in E.
    + rewrite lookup_insert_ne by done. rewrite <- (us_map _ _ _ HU) by done. destruct (user_addr_PDE w Hw) as (_ & _ & Hh).
      pose proof (pa_others _ _ _ _ _ Ha w Hh ltac:(zarith)) as E. unfold walk in E. by rewrite Ekc in E.
  - intros w x [[<- <-]|[_ E]]%lookup_insert_Some; [done|]. by apply (us_page _ _ _ HU w x).
  - intros w x [[<- <-]|[_ E]]%lookup_insert_Some.
    + split; [|exact (pa_taken _ _ _ _ _ Ha)]. apply (added_pools PF_USER). destruct Hqf as (i & Hi & E & _). by exists i.
    + destruct (us_frame _ _ _ HU w x E) as [H1 H2]. split; [by apply (added_pools PF_USER)|].
      intros F. apply H2, (extends_free PF_USER k k'); [apply (pa_extends _ _ _ _ _ Ha)|done].
  - intros w1 w2 x [[<- <-]|[N1 E1]]%lookup_insert_Some [[<- E2]|[N2 E2]]%lookup_insert_Some; try done.
    + by destruct (Hkept w2 q E2).
    + subst x. by destruct (Hkept w1 q E1).
    + by apply (us_inj _ _ _ HU w1 w2 x).
  - destruct (user_addr_PDE v Hv) as (_ & Hp & _).
    rewrite (added_dir k k' D O v q Hk Hv Ha); [apply (us_zero _ _ _ HU)|apply dir_live_in_use, added_live|lia|lia].
  - intros f Hf. assert (Hnf : ~ page_free (kernel_pool (kmem k')) f).
    { intros F. destruct Hf as (i & Hi & Hp & E). assert (Hiw : is_word (i * 4194304)) by (unfold is_word; lia).
      pose proof (po_tables _ (mo_paging _ (pa_ok _ _ _ _ _ Ha)) (i * 4194304) Hiw) as H. rewrite Ekc in H.
      unfold pde_addr in H. rewrite PDE_IDX_val in H by done. replace (i * 4194304 / 4194304) with i in H by zarith.
      apply H; [exact Hp|]. unfold dir_entry in E. by rewrite E. }
    split; [|done]. apply (added_pools PF_KERNEL). destruct (added_user_table f (us_zero _ _ _ HU) Hf) as [H|H].
    + by apply (us_table _ _ _ HU).
    + destruct H as (i & Hi & E & _). by exists i.
Qed.
End child_page.

(** ** Copying the pages of a process *)

(** The word [j] of the page at [x]. *)
Definition page_word (k : kernel) (x j : Z) : Z := word (ram (kmem k)) (x + j * 4).

Section forking.
Context (pool_lock : pool_flag -> Z) (D : Z -> Z) (O : gmap Z Z) (Γ : gmap Z (list Z)).
Context (child parent tran qt : Z) (k0 : kernel) (UP : gmap Z Z).
Hypothesis Hl : lists_ok (km k0) Γ.
Hypothesis Hlk : lock_idle k0 Γ (pool_lock PF_USER).
Hypothesis Hcur : cur (kc k0) <> NULL.
Hypothesis Htran : O !! tran = Some qt.
Hypothesis Hqt : ~ dir_in_use k0 D qt.

(** A thread with a directory of its own that may be loaded. *)
Definition has_space (t : Z) : Prop := exists p, pcbs (kth k0) !! t = Some p /\ pg_dir p <> NULL /\
  status p <> TASK_HANGING /\ status p <> TASK_DIED.
Hypothesis Hparent : has_space parent.
Hypothesis Hchild : has_space child.
Hypothesis Hdiff : child <> parent.

(** [UC]: the pages the child has so far, all of them copied but that at [hole].
    The parent's are as they were, and so are the pages of the kernel but the
    one in between and the child's directory.  The directory of [c] is loaded. *)
Record copying (k : kernel) (c : Z) (hole : option Z) (UC : gmap Z Z) : Prop := {
  cg_space : kspace k D O;
  cg_km : km k = km k0;
  cg_kc : kc k = kc (with_cr3 (D c) k0);
  cg_kth : kth k = kth k0;
  cg_ksy : ksy k = ksy k0;
  cg_vaddr : kernel_vaddr (kmem k) = kernel_vaddr (kmem k0);
  cg_parent : uspace k (D parent) UP;
  cg_child : uspace k (D child) UC;
  cg_frames : forall v w q, UP !! v = Some q -> UC !! w <> Some q;
  cg_tables : forall f, user_table k (D parent) f -> ~ user_table k (D child) f;
  cg_copied : forall v q, UC !! v = Some q -> hole <> Some v -> exists q0, UP !! v = Some q0 /\
    forall j, 0 <= j < 1024 -> page_word k q j = page_word k0 q0 j;
  cg_kept : forall x j, (exists v, UP !! v = Some x) \/ (exists v, O !! v = Some x) /\ x <> qt /\ x <> D child ->
    0 <= j < 1024 -> page_word k x j = page_word k0 x j }.

Section steps.
Context (k : kernel) (c : Z) (hole : option Z) (UC : gmap Z Z) (Hg : copying k c hole UC).

Lemma copying_live t : has_space t -> dir_live k D (D t).
Proof using Hg. intros (p & Ep & _ & H). right. exists t, p. by rewrite (cg_kth _ _ _ _ Hg). Qed.

Lemma copying_dirs : D child <> D parent.
Proof using Hg Hchild Hparent Hdiff.
  destruct Hchild as (p1 & E1 & N1 & _), Hparent as (p2 & E2 & N2 & _). rewrite <- (cg_kth _ _ _ _ Hg) in E1, E2.
  pose proof (cg_space _ _ _ _ Hg) as Hk. intros E. apply Hdiff.
  pose proof (ks_user _ _ _ Hk _ _ E1 N1) as O1. pose proof (ks_user _ _ _ Hk _ _ E2 N2) as O2. rewrite E in O1.
  apply (ks_uniq _ _ _ Hk child parent p1 p2 E1 E2 N1). by apply (ks_inj _ _ _ Hk _ _ (D parent)).
Qed.

Lemma copying_cr3 : cr3 (kc k) = D c.
Proof using Hg. by rewrite (cg_kc _ _ _ _ Hg). Qed.

Lemma copying_load t : has_space t ->
  page_dir_activate t k = Ok (tt, with_cr3 (D t) k) /\ copying (with_cr3 (D t) k) t hole UC.
Proof using Hg.
  intros Ht. pose proof (copying_live t Ht) as Hlive. destruct Ht as (p & Ep & _). rewrite <- (cg_kth _ _ _ _ Hg) in Ep.
  pose proof (kspace_dirs _ _ _ (cg_space _ _ _ _ Hg)) as Hd. split; [by apply (page_dir_activate_ok k D t p)|].
  destruct Hg as [H1 H2 H3 H4 H5 H6 H7 H8 H9 H10 H11 H12]. split; try done.
  - by apply kspace_load.
  - unfold with_cr3. cbn [set_kc kc]. by rewrite H3.
  - destruct H7. by split.
  - destruct H8. by split.
Qed.

(** The page in between or the page in the hole is written. *)
Lemma copying_write r x : data_frame k D O x -> data_written k r ->
  (forall a, ~ (x <= a < x + 4096) -> word r a = word (ram (kmem k)) a) ->
  (forall v, UP !! v <> Some x) -> (forall v, O !! v = Some x -> x = qt) -> (forall w, UC !! w = Some x -> hole = Some w) ->
  copying (set_ram r k) c hole UC.
Proof using Hg Hchild Hparent.
  intros Hx Hdw Hout HP HO HC. pose proof (cg_space _ _ _ _ Hg) as Hk. pose proof (data_frame_aligned k D O Hk x Hx) as Hxa.
  pose proof (mo_pools _ (ks_current _ _ _ Hk)) as Hpools.
  assert (Hw : forall y j, y mod 4096 = 0 -> y <> x -> 0 <= j < 1024 -> page_word (set_ram r k) y j = page_word k y j).
  { intros y j Hy Hne Hj. apply Hout. zarith. }
  assert (Hua : forall y, in_pool (user_pool (kmem k)) y -> y mod 4096 = 0)
    by (intros y Hy; by apply (in_pool_aligned PF_USER _ y Hpools)).
  pose proof (copying_live parent Hparent) as LP. pose proof (copying_live child Hchild) as LC.
  assert (Hd : forall t f, dir_live k D (D t) -> user_table (set_ram r k) (D t) f -> user_table k (D t) f).
  { intros t f Hlive (i & Hi & Hp & Ef). exists i. pose proof (dir_live_in_use _ _ _ Hlive) as Hu.
    assert (E : dir_entry (set_ram r k) (D t) i = dir_entry k (D t) i).
    { apply (Hw (D t) i); [by apply (dir_aligned k D O)|by apply (data_not_dir k D O Hk)|lia]. }
    by rewrite E in Hp, Ef. }
  destruct Hg as [H1 H2 H3 H4 H5 H6 H7 H8 H9 H10 H11 H12]. split; try done.
  - by apply (written_kspace k D O Hk r x).
  - by apply (written_uspace k D O Hk r x).
  - by apply (written_uspace k D O Hk r x).
  - intros f F1 F2. by apply (H10 f); apply Hd.
  - intros v q E Hh. destruct (H11 v q E Hh) as (q0 & E0 & Ej). exists q0. split; [done|]. intros j Hj.
    rewrite Hw; [by apply Ej| | |done]; [by apply Hua, (us_frame _ _ _ H8 v)|]. intros ->. by apply Hh, HC.
  - intros y j Hy Hj. rewrite Hw; [by apply H12| | |done].
    + destruct Hy as [[v E]|[[v E] _]]; [by apply Hua, (us_frame _ _ _ H7 v)|by apply (owned_aligned k D O v)].
    + intros ->. destruct Hy as [[v E]|[[v E] [N _]]]; [by apply (HP v)|by apply N, (HO v)].
Qed.
End steps.

Lemma copying_fill k c v UC q q0 : copying k c (Some v) UC -> UC !! v = Some q -> UP !! v = Some q0 ->
  (forall j, 0 <= j < 1024 -> page_word k q j = page_word k0 q0 j) -> copying k c None UC.
Proof.
  intros [] E E0 Ej. split; try done. intros w x Ew _. destruct (decide (v = w)) as [<-|N].
  - rewrite E in Ew. injection Ew as <-. by exists q0.
  - apply cg_copied0; [done|congruence].
Qed.

(** A page for the child, whose directory is loaded. *)
Lemma copying_add k v UC q0 : copying k child None UC -> UP !! v = Some q0 -> UC !! v = None -> budget PF_USER k 1 ->
  exists q k', get_one_page_no_bitmap pool_lock PF_USER v k = Ok (Done v, k') /\
    copying k' child (Some v) (<[v := q]> UC) /\ walk k' v = Some q /\ ~ table_frame k' q /\
    (forall j, 0 <= j < 1024 -> page_word k' qt j = page_word k qt j) /\
    (forall n, budget PF_USER k (S n) -> budget PF_USER k' n).
Proof using Hl Hlk Hcur Htran Hqt Hparent Hchild Hdiff.
  intros Hg EP EC Hb. pose proof (cg_space _ _ _ _ Hg) as Hk. pose proof (copying_cr3 _ _ _ _ Hg) as Ecr.
  pose proof (copying_dirs _ _ _ _ Hg) as HD.
  pose proof (copying_live _ _ _ _ Hg parent Hparent) as LP. pose proof (copying_live _ _ _ _ Hg child Hchild) as LC.
  pose proof (mo_pools _ (ks_current _ _ _ Hk)) as Hpools.
  destruct (us_page _ _ _ (cg_parent _ _ _ _ Hg) v q0 EP) as [Hv Hva].
  assert (Hlk' : lock_idle k Γ (pool_lock PF_USER)) by (destruct Hlk; split; by rewrite ?(cg_ksy _ _ _ _ Hg)).
  destruct (get_one_page_no_bitmap_ok pool_lock k D O Γ v Hk) as (q & k' & E & Ha & Hk'); [|done| |done| |done|].
  - by rewrite (cg_km _ _ _ _ Hg).
  - by rewrite (cg_kc _ _ _ _ Hg).
  - unfold walk. rewrite Ecr, (us_map _ _ _ (cg_child _ _ _ _ Hg)) by done. done.
  - pose proof (pa_extends _ _ _ _ _ Ha) as [X1 X2 X3 X4 X5 _ _].
    pose proof (cg_child _ _ _ _ Hg) as HC. pose proof (cg_parent _ _ _ _ Hg) as HPs. rewrite <- Ecr in HC, HD.
    assert (Hold : forall x, in_pool (user_pool (kmem k)) x \/ (exists w, O !! w = Some x) /\ x <> D child ->
      forall j, 0 <= j < 1024 -> page_word k' x j = page_word k x j).
    { intros x Hx j Hj. apply (added_words k k' D O v q Hk Hv Ha); [| | | |done].
      - destruct Hx as [Hx|[[w Hx] _]]; [by apply (in_pool_aligned PF_USER _ x Hpools)|by apply (owned_aligned k D O w)].
      - destruct Hx as [Hx|[_ Hx]]; [|congruence]. intros ->. apply (known_not_user k D O Hk _) in Hx; [done|].
        apply (dir_owned k D O _ Hk), dir_live_in_use, (ks_cr3 _ _ _ Hk).
      - intros Ht. destruct Hx as [Hx|[[w Hx] _]].
        + by apply (pools_apart_in _ x x Hpools (proj1 (us_table _ _ _ HC x Ht))).
        + by apply (user_table_unknown k D O Hk _ x (ks_cr3 _ _ _ Hk) Ht); right; exists w.
      - destruct Hx as [Hx|[[w Hx] _]].
        + intros (i & Hi & Ei & _). apply (pools_apart_in _ x x Hpools); [by exists i|done|done].
        + by apply (known_not_free k D O x Hk); right; exists w. }
    assert (Hqu : forall w, UP !! w <> Some q).
    { intros w Ew. destruct (us_frame _ _ _ HPs w q Ew) as [_ Hn]. apply Hn, (pa_was_free _ _ _ _ _ Ha). }
    assert (HO : forall w, O !! w = Some (D child) -> True) by done.
    exists q, k'. split; [exact E|]. split; [|split; [|split; [|split]]].
    + split.
      * done.
      * rewrite X1. apply (cg_km _ _ _ _ Hg).
      * rewrite X2. apply (cg_kc _ _ _ _ Hg).
      * rewrite X3. apply (cg_kth _ _ _ _ Hg).
      * rewrite X4. apply (cg_ksy _ _ _ _ Hg).
      * rewrite X5. apply (cg_vaddr _ _ _ _ Hg).
      * apply (added_other k k' D O v q Hk Hv Ha (D parent) UP LP); [congruence|done|].
        rewrite Ecr. apply (cg_tables _ _ _ _ Hg).
      * rewrite <- Ecr. by apply (added_own k k' D O v q Hk Hv Hva Ha).
      * intros w1 w2 x E1 [[<- <-]|[_ E2]]%lookup_insert_Some; [by apply (Hqu w1)|]. by apply (cg_frames _ _ _ _ Hg w1 w2 x).
      * intros f F1 F2.
        assert (F1' : user_table k (D parent) f).
        { destruct F1 as (i & Hi & Hp & Ef). exists i. rewrite (added_dir k k' D O v q Hk Hv Ha) in Hp, Ef;
            [done|by apply dir_live_in_use|lia|left; congruence|by apply dir_live_in_use|lia|left; congruence]. }
        rewrite <- Ecr in F2. destruct (added_user_table k k' D O v q Hk Hv Ha f (us_zero _ _ _ HC) F2) as [F|F].
        { rewrite Ecr in F. by apply (cg_tables _ _ _ _ Hg f). }
        by apply (us_table _ _ _ HPs f F1').
      * intros w x [[<- <-]|[N E2]]%lookup_insert_Some Hh; [done|].
        destruct (cg_copied _ _ _ _ Hg w x E2 ltac:(done)) as (y & Ey & Hj). exists y. split; [done|]. intros j Hjj.
        rewrite Hold; [by apply Hj| |done]. left. apply (us_frame _ _ _ HC w x E2).
      * intros x j Hx Hj. rewrite Hold; [by apply (cg_kept _ _ _ _ Hg)| |done].
        destruct Hx as [[w Ew]|[Hx [_ Hx']]]; [left; by apply (us_frame _ _ _ HPs w)|by right].
    + rewrite (pa_walk _ _ _ _ _ Ha). f_equal. lia.
    + exact (pa_no_table _ _ _ _ _ Ha).
    + intros j Hj. apply Hold; [|done]. right. split; [by exists tran|]. intros ->. apply Hqt.
      destruct Hchild as (p & Ep & _). right. exists child. by split; [exists p|].
    + exact (pa_budget _ _ _ _ _ Ha).
Qed.

(** One page of the parent is copied. *)
Lemma copy_page_ok k v UC q0 : copying k parent None UC -> UP !! v = Some q0 -> UC !! v = None -> budget PF_USER k 1 ->
  exists q k', copy_page pool_lock child parent tran v k = Ok (Done tt, k') /\ copying k' parent None (<[v := q]> UC) /\
    (forall n, budget PF_USER k (S n) -> budget PF_USER k' n).
Proof using Hl Hlk Hcur Htran Hqt Hparent Hchild Hdiff.
  intros Hg EP EC Hb. pose proof (cg_space _ _ _ _ Hg) as Hk. pose proof (copying_cr3 _ _ _ _ Hg) as Ecr.
  pose proof (mo_pools _ (ks_current _ _ _ Hk)) as Hpools.
  destruct (us_page _ _ _ (cg_parent _ _ _ _ Hg) v q0 EP) as [Hv Hva]. destruct (user_addr_PDE v Hv) as (Hvw & _ & _).
  destruct (us_frame _ _ _ (cg_parent _ _ _ _ Hg) v q0 EP) as [Hq0 _].
  destruct (in_pool_aligned PF_USER _ q0 Hpools Hq0) as [Hq0a _].
  destruct (ks_page _ _ _ Hk _ _ Htran) as (Hih & Hwt & Hqk & _).
  destruct (in_heap_kernel _ _ _ _ Hk Hih) as [Hka Hta]. destruct (kernel_addr_PDE _ Hka) as (Htw & _ & _).
  destruct (owned_aligned _ _ _ _ _ Hk Htran) as [_ Hqa].
  assert (Hqtu : forall y, in_pool (user_pool (kmem k)) y -> y <> qt) by (intros y Hy ->; by apply (pools_apart_in _ qt qt Hpools)).
  assert (Hinuse : forall k', kth k' = kth k0 -> ~ dir_in_use k' D qt) by (intros k' E; unfold dir_in_use; by rewrite E).
  assert (Hnt : forall k', kspace k' D O -> kth k' = kth k0 -> ~ table_frame k' qt).
  { intros k' Hk' E. pose proof (owned_no_table k' D O tran qt (cr3 (kc k')) Hk' Htran (ks_cr3 _ _ _ Hk')) as H.
    rewrite with_cr3_id in H. apply H. intros Eq. apply (Hinuse k' E). rewrite Eq. apply dir_live_in_use, (ks_cr3 _ _ _ Hk'). }
  unfold copy_page.
  (* out of the parent *)
  destruct (vcopy_page v tran q0 qt Hvw Hva Htw Hta Hq0a Hqa (not_eq_sym (Hqtu q0 Hq0)) 1024 0 k) as (r1 & E1 & Hdw1 & Hin1 & Hout1);
    [by apply (ks_current k D O)| |done|by apply Hnt; [|apply (cg_kth _ _ _ _ Hg)]|lia|lia|].
  { unfold walk. by rewrite Ecr, (us_map _ _ _ (cg_parent _ _ _ _ Hg)). }
  rewrite !Z.mul_0_l, !Z.add_0_r in E1. rewrite (bindM_ok _ _ _ _ _ E1).
  assert (Hg1 : copying (set_ram r1 k) parent None UC).
  { apply (copying_write k parent None UC Hg r1 qt); [|done| | | |].
    - left. split; [by exists tran|]. apply Hinuse, (cg_kth _ _ _ _ Hg).
    - intros a Ha. apply Hout1. lia.
    - intros w Ew. by apply (Hqtu qt); [apply (us_frame _ _ _ (cg_parent _ _ _ _ Hg) w)|].
    - done.
    - intros w Ew. exfalso. by apply (Hqtu qt); [apply (us_frame _ _ _ (cg_child _ _ _ _ Hg) w)|]. }
  (* into the child *)
  destruct (copying_load _ _ _ _ Hg1 child Hchild) as [E2 Hg2]. rewrite (bindM_ok _ _ _ _ _ E2).
  destruct (copying_add _ v UC q0 Hg2 EP EC Hb) as (q & k3 & E3 & Hg3 & Hw3 & Hnt3 & Hqw & Hbud).
  rewrite (obind_done _ _ _ _ _ E3). pose proof (cg_space _ _ _ _ Hg3) as Hk3.
  pose proof (mo_pools _ (ks_current _ _ _ Hk3)) as Hpools3.
  destruct (us_frame _ _ _ (cg_child _ _ _ _ Hg3) v q (lookup_insert_eq _ _ _)) as [Hq _].
  destruct (in_pool_aligned PF_USER _ q Hpools3 Hq) as [Hqal _].
  destruct (ks_page _ _ _ Hk3 _ _ Htran) as (_ & Hwt3 & Hqk3 & _).
  assert (Hne : q <> qt) by (intros ->; by apply (pools_apart_in _ qt qt Hpools3)).
  destruct (vcopy_page tran v qt q Htw Hta Hvw Hva Hqa Hqal Hne 1024 0 k3) as (r4 & E4 & Hdw4 & Hin4 & Hout4);
    [by apply (ks_current k3 D O)|done|done|done|lia|lia|].
  rewrite !Z.mul_0_l, !Z.add_0_r in E4. rewrite (bindM_ok _ _ _ _ _ E4).
  assert (Hg4 : copying (set_ram r4 k3) child (Some v) (<[v := q]> UC)).
  { apply (copying_write k3 child (Some v) _ Hg3 r4 q); [|done| | | |].
    - by right.
    - intros a Ha. apply Hout4. lia.
    - intros w Ew. by apply (cg_frames _ _ _ _ Hg3 w v q Ew), lookup_insert_eq.
    - intros w Ew. exfalso. apply (known_not_user k3 D O Hk3 q); [by right; exists w|done].
    - intros w Ew. f_equal. by apply (us_inj _ _ _ (cg_child _ _ _ _ Hg3) v w q), Ew; apply lookup_insert_eq. }
  assert (Hg5 : copying (set_ram r4 k3) child None (<[v := q]> UC)).
  { apply (copying_fill _ _ v _ q q0 Hg4); [apply lookup_insert_eq|done|]. intros j Hj.
    unfold page_word at 1. cbn [set_ram set_kmem kmem ram]. rewrite Hin4 by lia.
    rewrite <- (cg_kept _ _ _ _ Hg q0 j) by (done || (left; by exists v)).
    pose proof (Hqw j Hj) as Ew. unfold page_word in Ew |- *. rewrite Ew. cbn [with_cr3 set_kc set_ram set_kmem kmem ram].
    apply Hin1. lia. }
  destruct (copying_load _ _ _ _ Hg5 parent Hparent) as [E6 Hg6]. rewrite (bindM_ok _ _ _ _ _ E6).
  exists q. eexists. split; [reflexivity|]. split; [exact Hg6|]. intros n Hn. by apply (Hbud n).
Qed.

(** *** All pages *)

Section all_pages.
Context (va : virtual_addr).
Abbreviation mp := (vaddr_bitmap va).
Abbreviation page i := (vaddr_start va + i * 4096).
Hypothesis Hwf : bitmap_wf mp.
(** The parent has the pages its bitmap says. *)
Hypothesis Hbits : forall v, is_Some (UP !! v) <-> exists i, 0 <= i < 8 * len mp /\ bit mp i = true /\ v = page i.

(** The pages from index [m] on, and those that have been copied before. *)
Definition rest (m : Z) : nat := length (List.filter (bit mp) (seqZ m (8 * len mp - m))).
Definition copied_below (m : Z) (UC : gmap Z Z) : Prop :=
  forall v, is_Some (UC !! v) <-> exists i, 0 <= i < m /\ bit mp i = true /\ v = page i.

Lemma rest_step m : 0 <= m < 8 * len mp -> rest m = ((if bit mp m then 1 else 0) + rest (m + 1))%nat.
Proof.
  intros Hm. unfold rest. rewrite (seqZ_cons m) by lia. cbn [List.filter].
  replace (Z.pred (8 * len mp - m)) with (8 * len mp - (m + 1)) by lia. unfold Z.succ. by destruct (bit mp m).
Qed.

Lemma copied_skip m UC : 0 <= m -> bit mp m = false -> copied_below m UC -> copied_below (m + 1) UC.
Proof.
  intros Hm Hb Hc v. rewrite (Hc v). split; intros (i & Hi & Hbi & Ev); exists i; (split; [|done]); [lia|].
  destruct (decide (i = m)) as [->|]; [congruence|lia].
Qed.

Lemma copied_next m UC q : 0 <= m -> bit mp m = true -> copied_below m UC -> copied_below (m + 1) (<[page m := q]> UC).
Proof.
  intros Hm Hb Hc v. rewrite lookup_insert_is_Some. rewrite (Hc v). split.
  - intros [<-|[_ (i & Hi & Hbi & Ev)]]; [by exists m; split; [lia|]|exists i; split; [lia|done]].
  - intros (i & Hi & Hbi & ->). destruct (decide (i = m)) as [->|]; [by left|right]. split; [lia|]. exists i. split; [lia|done].
Qed.

Lemma copy_bits_ok n : forall b ib k UC, 0 <= ib < len mp -> 0 <= b -> b + Z.of_nat n = 8 ->
  copying k parent None UC -> copied_below (ib * 8 + b) UC -> budget PF_USER k (rest (ib * 8 + b)) ->
  exists k' UC', copy_bits pool_lock n b (at_ (bits mp) ib) (ib * 8 * PG_SIZE + vaddr_start va) child parent tran k = Ok (Done tt, k') /\
    copying k' parent None UC' /\ copied_below (ib * 8 + 8) UC' /\ budget PF_USER k' (rest (ib * 8 + 8)).
Proof using Hl Hlk Hcur Htran Hqt Hparent Hchild Hdiff Hwf Hbits.
  induction n as [|n IH]; intros b ib k UC Hib Hb Hn Hg Hc Hbud; cbn [copy_bits].
  { replace b with 8 in * by lia. by exists k, UC. }
  assert (Eb : bit mp (ib * 8 + b) = Z.testbit (at_ (bits mp) ib) b)
    by (unfold bit; f_equal; [f_equal; zarith|zarith]).
  rewrite Z.land_comm, land_bit by done. rewrite <- Eb. rewrite rest_step in Hbud by lia.
  destruct (bit mp (ib * 8 + b)) eqn:E.
  - assert (Hp : is_Some (UP !! page (ib * 8 + b))) by (apply Hbits; exists (ib * 8 + b); split; [lia|done]).
    destruct Hp as [q0 Hp].
    assert (Hnew : UC !! page (ib * 8 + b) = None).
    { apply eq_None_not_Some. intros (i & Hi & _ & Ei)%Hc. lia. }
    assert (Ev : u32 (ib * 8 * PG_SIZE + vaddr_start va + b * PG_SIZE) = page (ib * 8 + b)).
    { destruct (us_page _ _ _ (cg_parent _ _ _ _ Hg) _ _ Hp) as [Hu _]. unfold user_addr in Hu. unfold PG_SIZE.
      rewrite u32_small by lia. lia. }
    destruct (copy_page_ok k (page (ib * 8 + b)) UC q0 Hg Hp Hnew) as (q & k1 & E1 & Hg1 & Hb1).
    { cbn [budget] in *. lia. }
    rewrite Ev, (obind_done _ _ _ _ _ E1).
    destruct (IH (b + 1) ib k1 (<[page (ib * 8 + b) := q]> UC) Hib ltac:(lia) ltac:(lia) Hg1) as (k' & UC' & E' & H').
    + rewrite Z.add_assoc. by apply copied_next; [lia|..].
    + rewrite Z.add_assoc. by apply Hb1.
    + exists k', UC'. split; [exact E'|done].
  - apply (IH (b + 1) ib k UC); [done|lia|lia|done| |]; rewrite Z.add_assoc; [by apply copied_skip; [lia|..]|done].
Qed.

Lemma copy_bytes_ok n : forall ib k UC, 0 <= ib -> ib + Z.of_nat n = len mp ->
  copying k parent None UC -> copied_below (ib * 8) UC -> budget PF_USER k (rest (ib * 8)) ->
  exists k' UC', copy_bytes pool_lock n ib va child parent tran k = Ok (Done tt, k') /\
    copying k' parent None UC' /\ copied_below (8 * len mp) UC'.
Proof using Hl Hlk Hcur Htran Hqt Hparent Hchild Hdiff Hwf Hbits.
  induction n as [|n IH]; intros ib k UC Hib Hn Hg Hc Hbud; cbn [copy_bytes].
  { exists k, UC. split; [done|]. split; [done|]. by replace (8 * len mp) with (ib * 8) by lia. }
  pose proof (bw_len _ Hwf) as Hlen. assert (Hlt : ib < len mp) by lia. rewrite (bind_lift _ _ _ _ (aget_at (bits mp) ib ltac:(lia))).
  assert (Hbyte : exists k1 UC1, (if negb (at_ (bits mp) ib =? 0)
      then copy_bits pool_lock 8 0 (at_ (bits mp) ib) (ib * 8 * PG_SIZE + vaddr_start va) child parent tran else mret (Done tt)) k
      = Ok (Done tt, k1) /\ copying k1 parent None UC1 /\ copied_below (ib * 8 + 8) UC1 /\ budget PF_USER k1 (rest (ib * 8 + 8))).
  { destruct (Z.eqb_spec (at_ (bits mp) ib) 0) as [Ez|Nz]; cbn [negb].
    - exists k, UC. split; [done|]. split; [done|].
      assert (Hz : forall b, 0 <= b < 8 -> bit mp (ib * 8 + b) = false).
      { intros b Hb. unfold bit. replace ((ib * 8 + b) / 8) with ib by zarith. by rewrite Ez, Z.testbit_0_l. }
      clear Hn IH. assert (Hall : forall j : nat, (j <= 8)%nat -> copied_below (ib * 8 + Z.of_nat j) UC /\ rest (ib * 8 + Z.of_nat j) = rest (ib * 8)).
      { induction j as [|j IHj]; intros Hj; [by rewrite Z.add_0_r|]. destruct (IHj ltac:(lia)) as [I1 I2].
        rewrite Nat2Z.inj_succ, <- Z.add_1_r, Z.add_assoc. split; [apply copied_skip; [lia|apply Hz; lia|done]|].
        rewrite <- I2, (rest_step (ib * 8 + Z.of_nat j)) by lia. by rewrite Hz by lia. }
      destruct (Hall 8%nat ltac:(lia)) as [A1 A2]. split; [exact A1|]. change (Z.of_nat 8) with 8 in A2. by rewrite A2.
    - pose proof (copy_bits_ok 8 0 ib k UC) as H. rewrite Z.add_0_r in H. apply H; [lia|lia|lia|done..]. }
  destruct Hbyte as (k1 & UC1 & E1 & Hg1 & Hc1 & Hb1). rewrite (obind_done _ _ _ _ _ E1).
  replace (ib * 8 + 8) with ((ib + 1) * 8) in * by lia. apply (IH (ib + 1) k1 UC1); [lia|lia|done..].
Qed.
End all_pages.
End forking.

(** ** Properties *)

(** [child] has a page directory without user pages, [parent]'s is loaded and
    has the pages [UP], those its bitmap says; [tran] is a page of the kernel. *)
Record fork_ready (pool_lock : pool_flag -> Z) (k : kernel) (D : Z -> Z) (O : gmap Z Z) (Γ : gmap Z (list Z))
    (child parent tran : Z) (pp : pcb) (UP : gmap Z Z) : Prop := {
  fr_space : kspace k D O;
  fr_lists : lists_ok (km k) Γ;
  fr_lock : lock_idle k Γ (pool_lock PF_USER);
  fr_cur : cur (kc k) <> NULL;
  fr_tran : exists qt, O !! tran = Some qt /\ ~ dir_in_use k D qt;
  fr_pcb : pcbs (kth k) !! parent = Some pp;
  fr_parent : has_space k parent;
  fr_child : has_space k child;
  fr_diff : child <> parent;
  fr_loaded : cr3 (kc k) = D parent;
  fr_pages : uspace k (D parent) UP;
  fr_empty : forall i, 0 <= i < 768 -> present (dir_entry k (D child) i) = false;
  fr_bitmap : bitmap_wf (vaddr_bitmap (userprog_vaddr pp));
  fr_bits : forall v, is_Some (UP !! v) <-> exists i, 0 <= i < 8 * len (vaddr_bitmap (userprog_vaddr pp)) /\
    bit (vaddr_bitmap (userprog_vaddr pp)) i = true /\ v = vaddr_start (userprog_vaddr pp) + i * 4096 }.

(** The child has the parent's pages, in frames of its own, with the same
    words; for the rest the kernel is as it was. *)
Record pages_copied (k k' : kernel) (D : Z -> Z) (O : gmap Z Z) (child parent tran : Z) (UP UC : gmap Z Z) : Prop := {
  pc_space : kspace k' D O;
  pc_same : km k' = km k /\ kc k' = kc k /\ kth k' = kth k /\ ksy k' = ksy k;
  pc_parent : uspace k' (D parent) UP;
  pc_child : uspace k' (D child) UC;
  pc_dom : forall v, is_Some (UC !! v) <-> is_Some (UP !! v);
  pc_words : forall v q q', UP !! v = Some q -> UC !! v = Some q' -> q' <> q /\
    forall j, 0 <= j < 1024 -> page_word k' q' j = page_word k q j /\ page_word k' q j = page_word k q j;
  pc_kernel : forall v x j, O !! v = Some x -> v <> tran -> x <> D child -> 0 <= j < 1024 ->
    page_word k' x j = page_word k x j }.

(** The address spaces of [fork]. *)
Lemma uspace_empty k D O c : kspace k D O -> (forall i, 0 <= i < 768 -> present (dir_entry k c i) = false) ->
  uspace k c ∅.
Proof.
  intros Hk He. split.
  - intros v Hv _. destruct (user_addr_PDE v Hv) as (_ & Hp & _). unfold translate, pde_addr.
    fold (dir_entry k c (PDE_IDX v)). by rewrite He by lia.
  - intros v q E. by rewrite lookup_empty in E.
  - intros v q E. by rewrite lookup_empty in E.
  - intros v w q E. by rewrite lookup_empty in E.
  - apply He. lia.
  - intros f (i & Hi & Hp & _). by rewrite He in Hp by lia.
Qed.

(** As many bits are set as there are pages. *)
Lemma rest_size va UP :
  (forall v, is_Some (UP !! v) <-> exists i, 0 <= i < 8 * len (vaddr_bitmap va) /\ bit (vaddr_bitmap va) i = true /\
     v = vaddr_start va + i * 4096) -> (rest va 0 <= size (UP : gmap Z Z))%nat.
Proof.
  intros Hb. unfold rest. set (l := List.filter _ _). set (ps := (fun i => vaddr_start va + i * 4096) <$> l).
  assert (Hl : forall i, i ∈ l <-> 0 <= i < 8 * len (vaddr_bitmap va) /\ bit (vaddr_bitmap va) i = true).
  { intros i. unfold l. rewrite list_elem_of_In, filter_In, <- list_elem_of_In, elem_of_seqZ. intuition lia. }
  assert (Hnd : NoDup ps).
  { apply NoDup_fmap_2; [intros i j; lia|]. unfold l. apply (proj2 (NoDup_ListNoDup _)), List.NoDup_filter, (proj1 (NoDup_ListNoDup _)), NoDup_seqZ. }
  rewrite <- size_dom, <- (length_fmap (fun i => vaddr_start va + i * 4096) l). fold ps.
  rewrite <- (size_list_to_set (C := gset Z) ps Hnd). apply subseteq_size. intros v.
  rewrite elem_of_list_to_set, elem_of_dom, (Hb v). intros (i & -> & Hi)%list_elem_of_fmap. apply Hl in Hi as [? ?]. by exists i.
Qed.

(** C9. [copy_body_stack3], the heart of [fork]: it gives the child exactly the
    pages of the parent, at the same addresses, each in a frame of its own and
    with the same 1024 words; the parent's pages and what they hold, the
    threads, the lists, the locks and the pages of the kernel, but the one the
    words go through and the child's directory, are as before, and the
    parent's directory is loaded again.  It takes a frame of the user pool for
    each page, and at most one of the kernel's for its table. *)
Theorem fork_copies_pages (pool_lock : pool_flag -> Z) (k : kernel) (D : Z -> Z) (O : gmap Z Z) (Γ : gmap Z (list Z))
    (child parent tran : Z) (pp : pcb) (UP : gmap Z Z) :
  fork_ready pool_lock k D O Γ child parent tran pp UP -> budget PF_USER k (size UP) ->
  exists k' UC, copy_body_stack3 pool_lock child parent tran k = Ok (Done tt, k') /\
    pages_copied k k' D O child parent tran UP UC.
Proof.
  intros [H1 H2 H3 H4 (qt & H5 & H6) H7 H8 H9 H10 H11 H12 H13 H14 H15] Hb.
  set (va := userprog_vaddr pp) in *. unfold copy_body_stack3. rewrite (bindM_ok _ _ _ _ _ (get_pcb_ok _ _ _ H7)). fold va.
  pose proof (uspace_empty k D O (D child) H1 H13) as Hempty.
  assert (Hg : copying D O child parent qt k UP k parent None ∅).
  { split; try done.
    - unfold with_cr3. cbn [set_kc kc]. rewrite <- H11. by destruct (kc k).
    - intros f _ (i & Hi & Hp & _). by rewrite H13 in Hp by lia. }
  destruct (copy_bytes_ok pool_lock D O Γ child parent tran qt k UP H2 H3 H4 H5 H6 H8 H9 H10 va H14 H15
    (Z.to_nat (len (vaddr_bitmap va))) 0 k ∅) as (k' & UC & E & Hg' & Hc).
  - lia.
  - pose proof (bw_len _ H14). lia.
  - done.
  - intros v. rewrite lookup_empty. split; [by intros [? ?]|]. intros (i & Hi & _). lia.
  - destruct Hb as [B1 B2]. pose proof (rest_size va UP H15) as Hr. change (0 * 8) with 0. cbn [budget]. lia.
  - exists k', UC. split; [exact E|]. pose proof Hg' as [G1 G2 G3 G4 G5 G6 G7 G8 G9 G10 G11 G12].
    assert (Hdom : forall v, is_Some (UC !! v) <-> is_Some (UP !! v)) by (intros v; by rewrite (Hc v), (H15 v)).
    split; try done.
    + split; [done|]. split; [|done]. rewrite G3. unfold with_cr3. cbn [set_kc kc]. rewrite <- H11. by destruct (kc k).
    + intros v q q' Eq Eq'. split; [intros ->; by apply (G9 v v q)|]. intros j Hj.
      destruct (G11 v q' Eq' ltac:(done)) as (q0 & E0 & Hw). rewrite Eq in E0. injection E0 as <-.
      split; [by apply Hw|]. apply G12; [left; by exists v|done].
    + intros v x j Ev Nv Nx Hj. apply G12; [right|done]. split; [by exists v|]. split; [|done].
      intros ->. apply Nv. by apply (ks_inj _ _ _ H1 v tran qt).
Qed.

(** ** Two processes *)

Module ForkDemo.
Definition t_child : Z := 0xc0013000.
Definition v_parent : Z := 0xc0100000.
Definition v_child : Z := 0xc0101000.
Definition v_tran : Z := 0xc0102000.
Definition owned_pages : list (Z * Z) := [(v_parent, 0x200000); (v_child, 0x201000); (v_tran, 0x202000)].
Definition directories : list (Z * Z) := [(t_main, 0x200000); (t_child, 0x201000)].

(** The parent has one page, number 2 of its bitmap, behind a table at 0x203000. *)
Definition parent_pages : list (Z * Z) := [(0x804a000, 0x400000)].
Definition parent_space : virtual_addr := mk_vaddr (mk_bitmap 16 (4 :: replicate 15 0)) USER_VADDR_START.
Definition fork_memory : memory :=
  let m := demo_mem owned_pages [0x200000; 0x201000] in
  mk_memory (<[0x200000 + 32 * 4 := 0x203007]> (<[0x203000 + 74 * 4 := 0x400007]>
      (list_to_map (map (fun i => (0x400000 + i * 4, 3 * i)) (zrange 1024 0)) ∪ ram m)))
    (mk_pool (first_bits 4) 0x200000 0x200000) (mk_pool (first_bits 1) 0x400000 0x200000) (kernel_vaddr m).

Definition fork_lists : list (Z * list Z) := demo_lists [t_ready] [t_main; t_ready; t_idle].
Definition p_parent : pcb := set_userprog_vaddr parent_space (demo_thread 1 TASK_RUNNING v_parent (-1) 0).
Definition fork_kernel : kernel :=
  mk_kernel (linked 0x2 fork_lists) (mk_cpu t_main 0x200000 0) fork_memory
    (mk_threads (list_to_map [(t_main, p_parent); (t_child, demo_thread 4 TASK_READY v_child 1 0);
         (t_ready, demo_thread 2 TASK_READY NULL (-1) 0); (t_idle, demo_thread 3 TASK_BLOCKED NULL (-1) 0)])
       l_ready l_all t_main t_idle (mk_bitmap 128 (15 :: replicate 127 0)) 1) demo_sync.

(** The user pages of a directory, by its tables. *)
Definition uspace_check (k : kernel) (c : Z) (U : gmap Z Z) : bool :=
  negb (present (dir_entry k c 0)) &&
  forallb (fun i =>
    if present (dir_entry k c i) then
      let f := frame (dir_entry k c i) in let kp := kernel_pool (kmem k) in let j := (f - phy_addr_start kp) / 4096 in
      (f =? page_at kp j) && (0 <=? j) && (j <? 8 * zlen (bits (pool_bitmap kp))) && bit (pool_bitmap kp) j &&
      forallb (fun j => bool_decide (translate (ram (kmem k)) c (i * 4194304 + j * 4096) = U !! (i * 4194304 + j * 4096))) (zrange 1024 0)
    else forallb (fun '(v, _) => negb (PDE_IDX v =? i)) (map_to_list U)) (zrange 767 1) &&
  forallb (fun '(v, q) =>
    let up := user_pool (kmem k) in let j := (q - phy_addr_start up) / 4096 in
    (0x400000 <=? v) && (v <? 0xc0000000) && (v mod 4096 =? 0) &&
    (q =? page_at up j) && (0 <=? j) && (j <? 8 * zlen (bits (pool_bitmap up))) && bit (pool_bitmap up) j) (map_to_list U) &&
  bool_decide (NoDup (map snd (map_to_list U))).

Lemma taken_page p q : pool_wf p -> q = page_at p ((q - phy_addr_start p) / 4096) ->
  0 <= (q - phy_addr_start p) / 4096 < 8 * zlen (bits (pool_bitmap p)) ->
  bit (pool_bitmap p) ((q - phy_addr_start p) / 4096) = true -> in_pool p q /\ ~ page_free p q.
Proof.
  intros Hp E Hi Hb. split; [by eexists|]. intros (i & _ & E2 & Hb2). unfold page_at in *.
  assert (i = (q - phy_addr_start p) / 4096) as -> by lia. congruence.
Qed.

Lemma uspace_check_ok k c U : pools_ok (kmem k) -> uspace_check k c U = true -> uspace k c U.
Proof.
  intros [Wk Wu _]. unfold uspace_check. cbv zeta. intros H. apply andb_true_iff in H as [H Hnd%bool_decide_eq_true].
  apply andb_true_iff in H as [H HU]. apply andb_true_iff in H as [Hz HD].
  assert (Hpage : forall v q, U !! v = Some q -> (user_addr v /\ v mod 4096 = 0) /\
    in_pool (user_pool (kmem k)) q /\ ~ page_free (user_pool (kmem k)) q).
  { intros v q E. pose proof HU as H. get_forallb H (v, q). rewrite elem_of_map_to_list in H. specialize (H E).
    cbn beta iota in H. bool_prop. split; [by split|]. by apply taken_page. }
  split.
  - intros v Hv Ha. destruct (user_addr_PDE v Hv) as (Hw & Hp & _). pose proof HD as H. get_forallb H (PDE_IDX v).
    rewrite elem_of_zrange in H. specialize (H ltac:(lia)). destruct (present (dir_entry k c (PDE_IDX v))) eqn:E.
    + apply andb_true_iff in H as [_ H]. get_forallb H (PTE_IDX v). pose proof (PTE_IDX_range v Hw).
      rewrite elem_of_zrange in H. specialize (H ltac:(lia)). apply bool_decide_eq_true in H.
      replace (PDE_IDX v * 4194304 + PTE_IDX v * 4096) with v in H; [done|].
      rewrite PDE_IDX_val, PTE_IDX_val by done. zarith.
    + unfold translate, pde_addr. fold (dir_entry k c (PDE_IDX v)). rewrite E. symmetry. apply eq_None_not_Some. intros [q Eq].
      get_forallb H (v, q). rewrite elem_of_map_to_list in H. specialize (H Eq). cbn beta iota in H. bool_prop. done.
  - intros v q E. by apply (Hpage v q).
  - intros v q E. by apply (Hpage v q).
  - intros v w q E1 E2. apply elem_of_map_to_list, list_elem_of_lookup in E1 as [i1 L1].
    apply elem_of_map_to_list, list_elem_of_lookup in E2 as [i2 L2].
    assert (i1 = i2) as ->; [|congruence]. apply (NoDup_lookup _ i1 i2 q Hnd); by rewrite list_lookup_fmap, ?L1, ?L2.
  - by apply negb_true_iff.
  - intros f (i & Hi & Hp & <-). get_forallb HD i. rewrite elem_of_zrange in HD. specialize (HD ltac:(lia)). rewrite Hp in HD.
    apply andb_true_iff in HD as [HD _]. bool_prop. by apply taken_page.
Qed.

Abbreviation fork_D := (dir_of directories).
Abbreviation fork_O := (assoc owned_pages).
Abbreviation fork_G := (list_to_map fork_lists : gmap Z (list Z)).

Lemma fork_mem c : c ∈ [kdir; 0x200000; 0x201000] -> mem_ok (with_cr3 c fork_kernel).
Proof. apply (mem_check_ok fork_kernel [kdir; 0x200000; 0x201000]). vm_compute. reflexivity. Qed.

Lemma fork_kspace : kspace fork_kernel fork_D fork_O.
Proof.
  apply (kspace_check_ok fork_kernel [0x200000; 0x201000]); [vm_compute; reflexivity|exact fork_mem|].
  apply space_check_ok. vm_compute. reflexivity.
Qed.

Lemma fork_pools : pools_ok (kmem fork_kernel).
Proof. exact (mo_pools _ (fork_mem kdir ltac:(by left))). Qed.

Lemma fork_bits v : is_Some (assoc parent_pages !! v) <->
  exists i, 0 <= i < 8 * 16 /\ bit (vaddr_bitmap parent_space) i = true /\ v = USER_VADDR_START + i * 4096.
Proof.
  assert (Hb : forall i, 0 <= i < 128 -> bit (vaddr_bitmap parent_space) i = bool_decide (i = 2)).
  { intros i Hi. assert (H : forallb (fun i => eqb (bit (vaddr_bitmap parent_space) i) (bool_decide (i = 2))) (zrange 128 0) = true)
      by (vm_compute; reflexivity). get_forallb H i. rewrite elem_of_zrange in H. by apply eqb_prop, H; lia. }
  unfold assoc, parent_pages. cbn [list_to_map foldr fst snd]. rewrite lookup_insert_is_Some, lookup_empty. split.
  - intros [<-|[_ [? ?]]]; [|done]. exists 2. split; [lia|]. by split; [rewrite Hb by lia; apply bool_decide_eq_true|].
  - intros (i & Hi & Hbi & ->). rewrite Hb in Hbi by lia. apply bool_decide_eq_true in Hbi as ->. by left.
Qed.

Lemma fork_kernel_ready :
  fork_ready lk_pool fork_kernel fork_D fork_O fork_G t_child t_main v_tran p_parent (assoc parent_pages).
Proof.
  split.
  - exact fork_kspace.
  - apply lists_okb_sound. vm_compute. reflexivity.
  - apply lock_check_ok. vm_compute. reflexivity.
  - done.
  - exists 0x202000. split; [vm_compute; reflexivity|]. intros H. apply (check_in_use fork_kernel directories) in H.
    revert H. apply (bool_decide_eq_false (_ ∈ _)). vm_compute. reflexivity.
  - vm_compute. reflexivity.
  - exists p_parent. split; [vm_compute; reflexivity|]. done.
  - eexists. split; [vm_compute; reflexivity|]. done.
  - done.
  - vm_compute. reflexivity.
  - apply uspace_check_ok; [exact fork_pools|]. vm_compute. reflexivity.
  - intros i Hi. assert (H : forallb (fun i => negb (present (dir_entry fork_kernel 0x201000 i))) (zrange 768 0) = true)
      by (vm_compute; reflexivity). get_forallb H i. rewrite elem_of_zrange in H. apply negb_true_iff, H. lia.
  - apply bitmap_check_ok. vm_compute. reflexivity.
  - exact fork_bits.
Qed.
End ForkDemo.
Import ForkDemo.

(** Word 5 of the page the parent has at 0x804a000 is 15. *)
Lemma fork_copies_pages_witness : exists k' q,
  copy_body_stack3 lk_pool t_child t_main v_tran fork_kernel = Ok (Done tt, k') /\
  translate (ram (kmem k')) 0x201000 0x804a000 = Some q /\ q <> 0x400000 /\ page_word k' q 5 = 15.
Proof.
  destruct (fork_copies_pages lk_pool fork_kernel _ _ _ t_child t_main v_tran p_parent (assoc parent_pages) fork_kernel_ready)
    as (k' & UC & E & H).
  - split; apply Nat.leb_le; vm_compute; reflexivity.
  - destruct (pc_dom _ _ _ _ _ _ _ _ _ H 0x804a000) as [_ Hd].
    destruct Hd as [q Eq]; [exists 0x400000; vm_compute; reflexivity|]. exists k', q. split; [exact E|].
    destruct (pc_words _ _ _ _ _ _ _ _ _ H 0x804a000 0x400000 q) as [Hne Hw]; [vm_compute; reflexivity|exact Eq|].
    split; [|split; [exact Hne|]].
    + rewrite <- Eq. apply (us_map _ _ _ (pc_child _ _ _ _ _ _ _ _ _ H)); [unfold user_addr; lia|reflexivity].
    + rewrite (proj1 (Hw 5 ltac:(lia))). vm_compute. reflexivity.
Defined.
