(* ===== verification/Resume.v ===== *)
(** * Resume: how a thread gets the processor back (thread/switch.asm, kernel/kernel.asm)

    [switch_to] takes the registers of the next thread from its kernel stack,
    and [intr_exit] those of user code from the frame at the top of it.  Here
    the registers of the processor are modelled, and the two pieces of assembly
    as the sequences of pops they are, so that a frame C code has written means
    what the processor reads from it.  With this follows what the child of a
    [fork] returns with. *)

From stdpp Require Import fin_maps fin_sets gmap.
From S2P Require Import Prelude CString Interrupt Lists Bitmap Kernel Paging Thread Sync IoQueue Memory DataPages Space Heap Tss Pid Process System Switch Demo Fork ForkPages.
Open Scope gw_scope.

(** ** Registers *)

Inductive reg := EAX | EBX | ECX | EDX | ESI | EDI | EBP | ESP | EIP | EFLAGS | CS | DS | ES | FS | GS | SS.

#[export] Instance reg_eq : EqDecision reg.
Proof. solve_decision. Defined.

Record machine := mk_machine { mk : kernel; regs : reg -> Z }.

Definition set (r : reg) (x : Z) (c : reg -> Z) : reg -> Z := fun r' => if decide (r = r') then x else c r'.

Lemma set_eq r x c : set r x c r = x.
Proof. unfold set. by rewrite decide_True. Qed.
Lemma set_ne r x c r' : r <> r' -> set r x c r' = c r'.
Proof. intros. unfold set. by rewrite decide_False. Qed.

Definition get_reg (r : reg) : M machine Z := gets (fun m => regs m r).
Definition put_reg (r : reg) (x : Z) : M machine unit := modify (fun m => mk_machine (mk m) (set r x (regs m))).
Definition on_kernel {A} (f : M kernel A) : M machine A := fun m =>
  match f (mk m) with Ok (a, k) => Ok (a, mk_machine k (regs m)) | Err e => Err e end.

(** [pop r] and [add esp, n]. *)
Definition pop (r : reg) : M machine unit :=
  a ← get_reg ESP;
  x ← on_kernel (vload a);
  _ ← put_reg ESP (u32 (a + 4));
  put_reg r x.
Definition add_esp (n : Z) : M machine unit :=
  a ← get_reg ESP; put_reg ESP (u32 (a + n)).

Fixpoint pops (l : list reg) : M machine unit :=
  match l with [] => mret tt | r :: l' => _ ← pop r; pops l' end.

(** The second half of [switch_to]: [mov esp, [eax]] with the PCB of the next
    thread in eax, whose first field is [self_kstack]; the pops; [ret]. *)
Definition switch_in (next : Z) : M machine unit :=
  _ ← put_reg EAX next;
  p ← on_kernel (get_pcb next);
  _ ← put_reg ESP (self_kstack p);
  _ ← pops [EBP; EBX; EDI; ESI];
  pop EIP.

(** [iretd]: to code of another level the stack is taken from the frame too. *)
Definition iretd : M machine unit :=
  old ← get_reg CS;
  _ ← pops [EIP; CS; EFLAGS];
  cs ← get_reg CS;
  if Z.land old 3 <? Z.land cs 3 then
    a ← get_reg ESP;
    esp ← on_kernel (vload a);
    ss ← on_kernel (vload (u32 (a + 4)));
    _ ← put_reg ESP esp;
    put_reg SS ss
  else mret tt.

(** The parameter, [popad] (which drops the saved esp), the segments, the error
    code. *)
Definition intr_exit_code : M machine unit :=
  _ ← add_esp 4;
  _ ← pops [EDI; ESI; EBP];
  _ ← add_esp 4;
  _ ← pops [EBX; EDX; ECX; EAX];
  _ ← pops [GS; FS; ES; DS];
  _ ← add_esp 4;
  iretd.

(** A thread gets the processor with [intr_exit] as the return address on its
    kernel stack. *)
Definition resumes (intr_exit next : Z) : M machine unit :=
  _ ← switch_in next;
  eip ← get_reg EIP;
  if eip =? intr_exit then intr_exit_code else fail Fault.

(** ** The frame of an interrupt, as [struct intr_stack] names its fields *)

Definition field_of (r : reg) : Z :=
  match r with
  | EAX => is_eax | EBX => is_ebx | ECX => is_ecx | EDX => is_edx | ESI => is_esi | EDI => is_edi | EBP => is_ebp
  | ESP => is_esp | EIP => is_eip | EFLAGS => is_eflags | CS => is_cs | DS => is_ds | ES => is_es | FS => is_fs
  | GS => is_gs | SS => is_ss
  end.

(** The words at [a], by their distance from there. *)
Definition words_at (k : kernel) (a : Z) (w : Z -> Z) (n : Z) : Prop :=
  forall off, 0 <= off < n -> off mod 4 = 0 -> vload (a + off) k = Ok (w off, k).

(** ** Lemmas *)

Lemma on_regs_ok {A} (f : M kernel A) k c x k' : f k = Ok (x, k') -> on_kernel f (mk_machine k c) = Ok (x, mk_machine k' c).
Proof. intros E. unfold on_kernel. cbn [mk regs]. by rewrite E. Qed.

Lemma bind_get_reg {B} r (f : Z -> M machine B) k c : (get_reg r ≫= f) (mk_machine k c) = f (c r) (mk_machine k c).
Proof. done. Qed.

Lemma bind_put_reg {B} r x (f : unit -> M machine B) k c : (put_reg r x ≫= f) (mk_machine k c) = f tt (mk_machine k (set r x c)).
Proof. done. Qed.

Lemma pop_ok r k c v x : c ESP = v -> vload v k = Ok (x, k) -> 0 <= v -> v + 4 < 4294967296 ->
  pop r (mk_machine k c) = Ok (tt, mk_machine k (set r x (set ESP (v + 4) c))).
Proof.
  intros Es El H0 H1. unfold pop. rewrite bind_get_reg, Es, (bindM_ok _ _ _ _ _ (on_regs_ok _ _ _ _ _ El)).
  rewrite u32_small by lia. done.
Qed.

Lemma add_esp_ok n k c v : c ESP = v -> 0 <= v -> 0 <= n -> v + n < 4294967296 ->
  add_esp n (mk_machine k c) = Ok (tt, mk_machine k (set ESP (v + n) c)).
Proof.
  intros Es H0 Hn H1. unfold add_esp. rewrite bind_get_reg, Es, u32_small by lia. done.
Qed.

(** The registers of [l] from the words at [a + off] on. *)
Fixpoint popped (l : list reg) (w : Z -> Z) (a off : Z) (c : reg -> Z) : reg -> Z :=
  match l with [] => c | r :: l' => popped l' w a (off + 4) (set r (w off) (set ESP (a + off + 4) c)) end.

Lemma pops_ok k a w n l : words_at k a w n -> 0 <= a -> a + n < 4294967296 -> ESP ∉ l -> forall off c, c ESP = a + off -> 0 <= off -> off mod 4 = 0 ->
  off + 4 * zlen l <= n -> pops l (mk_machine k c) = Ok (tt, mk_machine k (popped l w a off c)) /\
    popped l w a off c ESP = a + (off + 4 * zlen l).
Proof.
  intros Hw H0 Hn. induction l as [|r l IH]; intros Hne off c Es H1 Hm Hle; cbn [pops popped].
  { split; [done|]. rewrite Es. change (zlen (@nil reg)) with 0. lia. }
  rewrite zlen_cons in *. pose proof (zlen_nonneg l). apply not_elem_of_cons in Hne as [Hr Hne].
  rewrite (bindM_ok _ _ _ _ _ (pop_ok r k c (a + off) _ Es (Hw off ltac:(lia) Hm) ltac:(lia) ltac:(lia))).
  destruct (IH Hne (off + 4) (set r (w off) (set ESP (a + off + 4) c))) as [E1 E2].
  - rewrite set_ne, set_eq by done. lia.
  - lia.
  - zarith.
  - lia.
  - split; [exact E1|]. rewrite E2. lia.
Qed.

(** The words of a page of the kernel, in whatever directory is loaded. *)
Lemma page_words k D O v q dir o n : kspace k D O -> O !! v = Some q -> dir_in_use k D dir -> 0 <= o -> o + n <= 4096 ->
  words_at (with_cr3 dir k) (v + o) (fun off => word (ram (kmem k)) (q + o + off)) n.
Proof.
  intros Hk HO Hd Ho Hn off Hoff _. destruct (ks_page _ _ _ Hk v q HO) as (Hh & Hw & _).
  destruct (in_heap_kernel _ _ _ _ Hk Hh) as [Hka Hal]. destruct (kernel_addr_PDE v Hka) as (Hvw & _).
  destruct (owned_aligned _ _ _ _ _ Hk HO) as [_ Hqa].
  assert (Hw' : walk (with_cr3 dir k) v = Some q).
  { rewrite <- Hw. unfold walk at 1. cbn [with_cr3 set_kc kmem kc cr3]. by apply (kernel_walk k D O). }
  pose proof (walk_offset (with_cr3 dir k) v q (o + off) Hvw Hal Hw' ltac:(lia) Hqa) as E.
  rewrite <- Z.add_assoc, (vload_ok _ _ _ E). cbn [with_cr3 set_kc kmem ram]. by rewrite <- Z.add_assoc.
Qed.

(** Words say nothing about PCBs. *)
Lemma words_at_kmem k k' a w n : kmem k' = kmem k -> cr3 (kc k') = cr3 (kc k) -> words_at k a w n -> words_at k' a w n.
Proof.
  intros Em Ec Hw off Hoff Ha. specialize (Hw off Hoff Ha). unfold vload in *. rewrite Em, Ec.
  destruct (translate _ _ _); [|done]. by injection Hw as ->.
Qed.

Lemma words_at_ext k a w w' n : (forall off, 0 <= off < n -> off mod 4 = 0 -> w' off = w off) -> words_at k a w n -> words_at k a w' n.
Proof. intros E Hw off Hoff Ha. rewrite E by done. by apply Hw. Qed.

Lemma words_at_from k a w n o m : words_at k a w n -> 0 <= o -> o mod 4 = 0 -> o + m <= n ->
  words_at k (a + o) (fun off => w (o + off)) m.
Proof. intros Hw Ho Ha Hm off Hoff Hb. rewrite <- Z.add_assoc. apply Hw; [lia|zarith]. Qed.

(** [intr_exit] to user code: every register is the field of the frame. *)
Lemma intr_exit_ok k a w c : words_at k a w 76 -> 0 <= a -> a + 76 < 4294967296 -> c ESP = a ->
  Z.land (c CS) 3 = 0 -> 0 < Z.land (w is_cs) 3 ->
  exists c', intr_exit_code (mk_machine k c) = Ok (tt, mk_machine k c') /\ forall r, c' r = w (field_of r).
Proof.
  intros Hw H0 H1 Es Hk Hu. unfold intr_exit_code.
  rewrite (bindM_ok _ _ _ _ _ (add_esp_ok 4 k c a Es H0 ltac:(lia) ltac:(lia))). set (c1 := set ESP (a + 4) c).
  destruct (pops_ok k a w 76 [EDI; ESI; EBP] Hw H0 H1 ltac:(by apply (bool_decide_unpack _)) 4 c1) as [E2 S2];
    [apply set_eq|lia|done|done|]. rewrite (bindM_ok _ _ _ _ _ E2). set (c2 := popped _ _ _ 4 c1) in *. change (4 + 4 * zlen [EDI; ESI; EBP]) with 16 in S2.
  rewrite (bindM_ok _ _ _ _ _ (add_esp_ok 4 k c2 _ S2 ltac:(lia) ltac:(lia) ltac:(lia))).
  set (c3 := set ESP _ c2).
  destruct (pops_ok k a w 76 [EBX; EDX; ECX; EAX] Hw H0 H1 ltac:(by apply (bool_decide_unpack _)) 20 c3) as [E4 S4];
    [subst c3; rewrite set_eq; lia|lia|done|done|]. rewrite (bindM_ok _ _ _ _ _ E4). set (c4 := popped _ _ _ 20 c3) in *.
  destruct (pops_ok k a w 76 [GS; FS; ES; DS] Hw H0 H1 ltac:(by apply (bool_decide_unpack _)) 36 c4) as [E5 S5];
    [exact S4|lia|done|done|]. rewrite (bindM_ok _ _ _ _ _ E5). set (c5 := popped _ _ _ 36 c4) in *. change (36 + 4 * zlen [GS; FS; ES; DS]) with 52 in S5.
  rewrite (bindM_ok _ _ _ _ _ (add_esp_ok 4 k c5 _ S5 ltac:(lia) ltac:(lia) ltac:(lia))).
  set (c6 := set ESP _ c5). unfold iretd. rewrite bind_get_reg.
  destruct (pops_ok k a w 76 [EIP; CS; EFLAGS] Hw H0 H1 ltac:(by apply (bool_decide_unpack _)) 56 c6) as [E7 S7];
    [subst c6; rewrite set_eq; lia|lia|done|done|]. rewrite (bindM_ok _ _ _ _ _ E7). set (c7 := popped _ _ _ 56 c6) in *. change (56 + 4 * zlen [EIP; CS; EFLAGS]) with 68 in S7.
  rewrite bind_get_reg.
  assert (Eold : c6 CS = c CS) by reflexivity. assert (Ecs : c7 CS = w is_cs) by reflexivity.
  rewrite Eold, Ecs, Hk, (proj2 (Z.ltb_lt _ _) Hu), bind_get_reg, S7.
  rewrite (bindM_ok _ _ _ _ _ (on_regs_ok _ _ _ _ _ (Hw 68 ltac:(lia) eq_refl))). rewrite u32_small by lia.
  replace (a + 68 + 4) with (a + 72) by lia.
  rewrite (bindM_ok _ _ _ _ _ (on_regs_ok _ _ _ _ _ (Hw 72 ltac:(lia) eq_refl))).
  eexists. split; [reflexivity|]. intros []; reflexivity.
Qed.

Lemma switch_in_ok k t p w c : pcbs (kth k) !! t = Some p -> words_at k (self_kstack p) w 20 ->
  0 <= self_kstack p -> self_kstack p + 20 < 4294967296 ->
  exists c', switch_in t (mk_machine k c) = Ok (tt, mk_machine k c') /\ c' EIP = w 16 /\ c' ESP = self_kstack p + 20 /\
    c' CS = c CS /\ c' EBP = w 0 /\ c' EBX = w 4 /\ c' EDI = w 8 /\ c' ESI = w 12.
Proof.
  intros Ep Hw H0 H1. unfold switch_in. rewrite bind_put_reg.
  rewrite (bindM_ok _ _ _ _ _ (on_regs_ok _ _ _ _ _ (get_pcb_ok _ _ _ Ep))). rewrite bind_put_reg.
  set (a := self_kstack p) in *. set (c1 := set ESP a _).
  destruct (pops_ok k a w 20 [EBP; EBX; EDI; ESI] Hw H0 ltac:(lia) ltac:(by apply (bool_decide_unpack _)) 0 c1) as [E2 S2];
    [subst c1; rewrite set_eq; lia|lia|done|done|]. rewrite (bindM_ok _ _ _ _ _ E2). set (c2 := popped _ _ _ 0 c1) in *.
  change (0 + 4 * zlen [EBP; EBX; EDI; ESI]) with 16 in S2.
  rewrite (pop_ok EIP k c2 _ _ S2 (Hw 16 ltac:(lia) eq_refl)) by lia. eexists. split; [reflexivity|].
  split; [reflexivity|]. split; [rewrite set_ne, set_eq by done; lia|]. repeat split.
Qed.

(** ** The child of a fork *)

(** A page of which no process has made its directory. *)
Lemma no_dir_page k D O v q : kspace k D O -> O !! v = Some q ->
  (forall t y, pcbs (kth k) !! t = Some y -> pg_dir y <> v) -> ~ dir_in_use k D q.
Proof.
  intros Hk HO Hv Hu. destruct (ks_page _ _ _ Hk _ _ HO) as (_ & _ & Hip & _).
  destruct Hu as [E|(t & [y Ey] & E)]; [by apply (pool_not_kdir k D O q)|].
  destruct (decide (pg_dir y = NULL)) as [N|N].
  - rewrite (ks_kernel _ _ _ Hk t y Ey N) in E. by apply (pool_not_kdir k D O q).
  - apply (Hv t y Ey). apply (ks_inj _ _ _ Hk _ _ q); [|done]. rewrite E. by apply (ks_user _ _ _ Hk).
Qed.

Lemma owned_page k D O v q : kspace k D O -> O !! v = Some q ->
  is_word v /\ v mod 4096 = 0 /\ walk k v = Some q /\ q mod 4096 = 0 /\ kernel_addr v.
Proof.
  intros Hk HO. destruct (ks_page _ _ _ Hk v q HO) as (Hh & Hw & _).
  destruct (in_heap_kernel _ _ _ _ Hk Hh) as [Hka Hal]. destruct (kernel_addr_PDE v Hka) as (Hvw & _).
  by destruct (owned_aligned _ _ _ _ _ Hk HO) as [_ Hqa].
Qed.

Lemma copy_pcb_page_ok k D O child parent qc qp pp : kspace k D O -> O !! child = Some qc -> O !! parent = Some qp ->
  child <> parent -> ~ dir_in_use k D qc -> pcbs (kth k) !! parent = Some pp ->
  exists k1, copy_pcb_page child parent k = Ok (tt, k1) /\ pcbs (kth k1) = <[child := pp]> (pcbs (kth k)) /\
    (forall j, 0 <= j < 1024 -> page_word k1 qc j = page_word k qp j) /\
    (forall a, ~ (qc <= a < qc + 4096) -> word (ram (kmem k1)) a = word (ram (kmem k)) a).
Proof.
  intros Hk Hc Hp Hne Hn Ep. unfold copy_pcb_page. rewrite (bindM_ok _ _ _ _ _ (get_pcb_ok _ _ _ Ep)). unfold put_pcb. rewrite bind_modify.
  destruct (owned_page _ _ _ _ _ Hk Hc) as (C1 & C2 & C3 & C4 & _). destruct (owned_page _ _ _ _ _ Hk Hp) as (P1 & P2 & P3 & P4 & _).
  set (k0 := set_pcbs _ k).
  destruct (vcopy_page parent child qp qc P1 P2 C1 C2 P4 C4) with (n := 1024%nat) (i := 0) (k := k0) as (r & E & _ & Hin & Hout).
  - intros ->. by apply Hne, (ks_inj _ _ _ Hk child parent qp).
  - by apply (mem_ok_same k); [apply (ks_current k D O)|..].
  - exact P3.
  - exact C3.
  - intros Ht. apply (owned_no_table k D O child qc (cr3 (kc k)) Hk Hc (ks_cr3 _ _ _ Hk)); [|by rewrite with_cr3_id].
    intros ->. by apply Hn, dir_live_in_use, (ks_cr3 _ _ _ Hk).
  - lia.
  - lia.
  - rewrite !Z.add_0_r in E. exists (set_ram r k0). split; [exact E|]. split; [done|]. split.
    + intros j Hj. apply Hin. lia.
    + intros a Ha. apply Hout. lia.
Qed.

Lemma build_child_stack_ok intr_exit k D O child qc p : kspace k D O -> O !! child = Some qc -> ~ dir_in_use k D qc ->
  pcbs (kth k) !! child = Some p -> is_word intr_exit ->
  let l := [(is_eax, 0); (- 4, intr_exit); (- 8, 0); (- 12, 0); (- 16, 0); (- 20, 0)] in
  let r := put_words (qc + 4020) l (ram (kmem k)) in
  build_child_stack intr_exit child k =
    Ok (tt, set_pcbs (<[child := set_self_kstack (child + 4000) p]> (pcbs (kth k))) (set_ram r k)) /\
  kspace (set_ram r k) D O.
Proof.
  intros Hk HO Hn Ep Hi l r. destruct (owned_page _ _ _ _ _ Hk HO) as (C1 & C2 & _ & _ & C5).
  assert (Hf : fits 4020 l).
  { repeat (apply Forall_cons; split; [split; [try unfold is_eax; lia|first [done|unfold is_word; lia]]|]). by apply Forall_nil. }
  destruct (vstores_owned D O child qc 4020 l k Hk HO Hn Hf) as (E & Hk' & _). cbv zeta in E, Hk'. split; [|exact Hk'].
  unfold kernel_addr in C5. unfold build_child_stack. cbv zeta. unfold PG_SIZE, sizeof_intr_stack.
  rewrite (u32_small (child + 4096 - 76)) by lia. replace (child + 4096 - 76) with (child + 4020) by lia. fold l.
  rewrite (bindM_ok _ _ _ _ _ E), (upd_pcb_ok (set_ram r k) child p _ Ep). rewrite u32_small by lia.
  by replace (child + 4020 - 20) with (child + 4000) by lia.
Qed.

(** C10. The child of a [fork] returns 0.  [copy_pcb_page] makes the page of the
    child the parent's page.  Once the child is set up, with the words of its
    page as the copy left them, [build_child_stack] changes it so that, when the
    scheduler resumes the child in whatever address space is loaded, the pops
    and the [ret] of [switch_to] lead to [intr_exit], and its pops and the
    [iretd] leave in each register what the parent's system call had saved
    there, in eax 0. *)
Theorem child_returns_zero (intr_exit : Z) (k : kernel) (D : Z -> Z) (O : gmap Z Z) (child parent qc qp : Z) (pp : pcb) :
  kspace k D O -> O !! child = Some qc -> O !! parent = Some qp -> child <> parent ->
  (forall t y, pcbs (kth k) !! t = Some y -> pg_dir y <> child) -> pcbs (kth k) !! parent = Some pp ->
  is_word intr_exit ->
  let saved r := word (ram (kmem k)) (qp + (4096 - sizeof_intr_stack) + field_of r) in
  0 < Z.land (saved CS) 3 ->
  exists k1, copy_pcb_page child parent k = Ok (tt, k1) /\ pcbs (kth k1) = <[child := pp]> (pcbs (kth k)) /\
    (forall j, 0 <= j < 1024 -> page_word k1 qc j = page_word k qp j) /\
    (forall a, ~ (qc <= a < qc + 4096) -> word (ram (kmem k1)) a = word (ram (kmem k)) a) /\
    forall k2 D2 O2 p, kspace k2 D2 O2 -> O2 !! child = Some qc -> pcbs (kth k2) !! child = Some p ->
      (forall t y, pcbs (kth k2) !! t = Some y -> pg_dir y <> child) ->
      (forall j, 0 <= j < 1024 -> page_word k2 qc j = page_word k1 qc j) ->
      exists k3, build_child_stack intr_exit child k2 = Ok (tt, k3) /\ kspace k3 D2 O2 /\
        forall dir c, dir_in_use k2 D2 dir -> Z.land (c CS) 3 = 0 ->
          exists c', resumes intr_exit child (mk_machine (with_cr3 dir k3) c) = Ok (tt, mk_machine (with_cr3 dir k3) c') /\
            c' EAX = 0 /\ forall r, r <> EAX -> c' r = saved r.
Proof.
  intros Hk Hc Hp Hne Hd Ep Hi saved Hu.
  destruct (copy_pcb_page_ok k D O child parent qc qp pp Hk Hc Hp Hne (no_dir_page _ _ _ _ _ Hk Hc Hd) Ep) as (k1 & E1 & Hp1 & Hin & Hout).
  exists k1. split; [exact E1|]. split; [exact Hp1|]. split; [exact Hin|]. split; [exact Hout|]. clear E1 Hp1 Hout.
  intros k2 D2 O2 p Hk2 Hc2 Ep2 Hd2 Hsame.
  destruct (build_child_stack_ok intr_exit k2 D2 O2 child qc p Hk2 Hc2 (no_dir_page _ _ _ _ _ Hk2 Hc2 Hd2) Ep2 Hi) as [E3 Hk3].
  cbv zeta in E3, Hk3. set (l := [(is_eax, 0); _; _; _; _; _]) in *. set (r := put_words _ l _) in *.
  set (k3 := set_pcbs _ (set_ram r k2)) in *. exists k3. split; [exact E3|].
  split; [by apply (kspace_pcb (set_ram r k2) D2 O2 child p)|]. intros dir c Hdir2 Hcs.
  destruct (owned_page _ _ _ _ _ Hk2 Hc2) as (_ & _ & _ & Hqa & Hka). unfold kernel_addr in Hka.
  assert (Hk3' : kspace k3 D2 O2) by (by apply (kspace_pcb (set_ram r k2) D2 O2 child p)).
  assert (Hdir : dir_in_use k3 D2 dir).
  { destruct Hdir2 as [->|(t & Ht & ->)]; [by left|right]. exists t. split; [|done]. apply lookup_insert_is_Some'. by right. }
  pose proof (page_words k3 D2 O2 child qc dir 4000 96 Hk3' Hc2 Hdir ltac:(lia) ltac:(lia)) as Hw.
  change (ram (kmem k3)) with r in Hw. set (w := fun off => word r (qc + 4000 + off)) in Hw.
  assert (Hwin : forall off x, (off, x) ∈ l -> w (20 + off) = x).
  { intros off x Hx. unfold w. replace (qc + 4000 + (20 + off)) with (qc + 4020 + off) by lia.
    apply put_words_in; [by apply (bool_decide_unpack _)|done]. }
  assert (Hwout : forall reg, reg <> EAX -> w (20 + field_of reg) = saved reg).
  { intros reg Hr. unfold w, saved, r.
    assert (Hf : 0 <= field_of reg < 76 /\ field_of reg mod 4 = 0 /\ field_of reg <> is_eax) by (by destruct reg).
    rewrite put_words_out.
    - pose proof (Hsame ((4020 + field_of reg) / 4) ltac:(zarith)) as Hs. rewrite Hin in Hs by zarith. unfold page_word in Hs.
      unfold sizeof_intr_stack. replace (qc + 4000 + (20 + field_of reg)) with (qc + (4020 + field_of reg) / 4 * 4) by zarith.
      rewrite Hs. f_equal. zarith.
    - intros off x Hx. unfold l in Hx. repeat (apply elem_of_cons in Hx as [[= -> ->]|Hx]; [lia|]). by apply not_elem_of_nil in Hx. }
  destruct (switch_in_ok (with_cr3 dir k3) child (set_self_kstack (child + 4000) p) w c) as (c1 & E4 & Hip & Hsp & Hcs1 & _).
  - apply lookup_insert_eq.
  - intros off Hoff. apply Hw. lia.
  - cbn. lia.
  - cbn. lia.
  - change (self_kstack _) with (child + 4000) in Hsp. unfold resumes. rewrite (bindM_ok _ _ _ _ _ E4), bind_get_reg, Hip.
    rewrite (Hwin (- 4) intr_exit ltac:(right; left) : w 16 = _), Z.eqb_refl.
    destruct (intr_exit_ok (with_cr3 dir k3) (child + 4000 + 20) (fun off => w (20 + off)) c1) as (c2 & E5 & Hr).
    + by apply (words_at_from _ _ w 96).
    + lia.
    + lia.
    + exact Hsp.
    + by rewrite Hcs1.
    + change is_cs with (field_of CS). by rewrite Hwout.
    + exists c2. split; [exact E5|]. split; [rewrite Hr; by apply Hwin; left|]. intros reg Hreg. rewrite Hr. by apply Hwout.
Qed.

(** A parent that has called [fork] with number 2 in eax, before the copy and
    when the child has its directory. *)
Module ResumeDemo.
Definition v_parent : Z := 0xc0100000.
Definition v_child : Z := 0xc0101000.
Definition resume_pages : list (Z * Z) := [(v_parent, 0x200000); (v_child, 0x201000); (0xc0102000, 0x202000); (0xc0103000, 0x203000)].
Definition frame_words (q : Z) : list (Z * Z) := map (fun '(off, x) => (q + 4020 + off, x))
  [(is_eax, 2); (is_ecx, 7); (is_eip, 0x8048123); (is_cs, SELECTOR_USER_CODE); (is_eflags, 0x202); (is_esp, 0xbfffff00); (is_ss, SELECTOR_USER_DATA)].
Definition p_caller : pcb := demo_thread 1 TASK_RUNNING 0xc0102000 (-1) 0.
Definition resume_kernel (words : list (Z * Z)) (child : list (Z * pcb)) : kernel :=
  let m := demo_mem resume_pages [0x202000; 0x203000] in
  mk_kernel (mk_mach 0x2 ∅ ∅) (mk_cpu v_parent 0x202000 0)
    (mk_memory (list_to_map words ∪ ram m) (kernel_pool m) (user_pool m) (kernel_vaddr m))
    (mk_threads (list_to_map ((v_parent, p_caller) :: child)) l_ready l_all NULL NULL (mk_bitmap 0 []) 1) demo_sync.
Definition before_copy : kernel := resume_kernel (frame_words 0x200000) [].
Definition child_ready : kernel :=
  resume_kernel (frame_words 0x200000 ++ frame_words 0x201000) [(v_child, demo_thread 2 TASK_READY 0xc0103000 1 0)].

Lemma resume_space words child (Ds : list (Z * Z)) (live : list Z) :
  let k := resume_kernel words child in
  mem_check k (kdir :: live) && space_check k && kspace_check k live Ds resume_pages = true ->
  kspace k (dir_of Ds) (assoc resume_pages).
Proof.
  intros k [[Hm Hs]%andb_true_iff Hk]%andb_true_iff. apply (kspace_check_ok k live); [done| |by apply space_check_ok].
  intros c Hc. by apply (mem_check_ok k (kdir :: live)).
Qed.
End ResumeDemo.

(** The child gets the processor in its own address space. *)
Lemma child_returns_zero_witness : exists k c,
  resumes 0xc0007000 ResumeDemo.v_child (mk_machine (with_cr3 0x203000 k) (fun _ => 0)) = Ok (tt, mk_machine (with_cr3 0x203000 k) c) /\
  c EAX = 0 /\ c ECX = 7 /\ c EIP = 0x8048123 /\ c ESP = 0xbfffff00.
Proof.
  destruct (child_returns_zero 0xc0007000 ResumeDemo.before_copy (dir_of [(ResumeDemo.v_parent, 0x202000)]) (assoc ResumeDemo.resume_pages)
    ResumeDemo.v_child ResumeDemo.v_parent 0x201000 0x200000 ResumeDemo.p_caller) as (k1 & _ & _ & Hin & _ & H).
  - apply (ResumeDemo.resume_space _ _ _ [0x202000]). vm_compute. reflexivity.
  - vm_compute. reflexivity.
  - vm_compute. reflexivity.
  - done.
  - intros t y. cbn [ResumeDemo.before_copy ResumeDemo.resume_kernel kth pcbs list_to_map foldr].
    rewrite lookup_insert_Some, lookup_empty. intros [[_ <-]|[_ ?]]; [vm_compute; discriminate|done].
  - vm_compute. reflexivity.
  - unfold is_word. lia.
  - vm_compute. reflexivity.
  - destruct (H ResumeDemo.child_ready (dir_of [(ResumeDemo.v_parent, 0x202000); (ResumeDemo.v_child, 0x203000)])
      (assoc ResumeDemo.resume_pages) (demo_thread 2 TASK_READY 0xc0103000 1 0)) as (k3 & _ & _ & H3).
    + apply (ResumeDemo.resume_space _ _ _ [0x202000; 0x203000]). vm_compute. reflexivity.
    + vm_compute. reflexivity.
    + vm_compute. reflexivity.
    + intros t y. cbn [ResumeDemo.child_ready ResumeDemo.resume_kernel kth pcbs list_to_map foldr].
      rewrite !lookup_insert_Some, lookup_empty. intros [[_ <-]|[_ [[_ <-]|[_ ?]]]]; [vm_compute; discriminate..|done].
    + intros j Hj. rewrite Hin by done.
      assert (Hc : forallb (fun j => page_word ResumeDemo.child_ready 0x201000 j =? page_word ResumeDemo.before_copy 0x200000 j) (zrange 1024 0) = true)
        by (vm_compute; reflexivity).
      get_forallb Hc j. rewrite elem_of_zrange in Hc. by apply Z.eqb_eq, Hc.
    + destruct (H3 0x203000 (fun _ => 0)) as (c' & E & H0 & Hr).
      * right. exists ResumeDemo.v_child. split; [eexists; vm_compute; reflexivity|reflexivity].
      * done.
      * exists k3, c'. split; [exact E|]. split; [exact H0|]. rewrite !Hr by done. vm_compute. done.
Defined.
