(* ===== verification/Exec.v ===== *)
(** * Exec: loading programs (userprog/exec.c)

    The state is the kernel, the disk with the cache [img] it shares with
    filesystem/disk.c, and the bytes of the local object a read may go to.
    The disk driver is its interface, [BlockDevice].  Bytes are stored through
    the page tables like words, in the byte of the word they are part of. *)

From S2P Require Import Prelude CString Interrupt Lists Bitmap BlockDev Disk Fat File Kernel Paging Thread Sync IoQueue Memory DataPages Ide Process.
Open Scope gw_scope.

(** ** Bytes of memory *)

Definition byte_of (x i : Z) : Z := Z.land (Z.shiftr x (8 * i)) 255.
Definition set_byte (x i b : Z) : Z := Z.lor (Z.ldiff x (Z.shiftl 255 (8 * i))) (Z.shiftl b (8 * i)).

(** The byte at physical address [a]. *)
Definition byte_at (r : gmap Z Z) (a : Z) : Z := byte_of (word r (a - a mod 4)) (a mod 4).

Definition vstoreb (v b : Z) : M kernel unit := fun k =>
  match translate (ram (kmem k)) (cr3 (kc k)) v with
  | Some a =>
      let w := a - a mod 4 in
      Ok (tt, set_ram (<[w := set_byte (word (ram (kmem k)) w) (a mod 4) b]> (ram (kmem k))) k)
  | None => Err Fault
  end.

(** A chain visits no cluster of the FAT twice. *)
Definition chain_fuel : nat := 4097.

Section exec.
Context {D : Type} `{BlockDevice D} (pool_lock : pool_flag -> Z).

Record xstate := mk_xstate { xk : kernel; xd : dstate D; xl : list Z }.

Definition on_kx {A} (m : M kernel A) : M xstate A := fun s =>
  match m (xk s) with Ok (a, k) => Ok (a, mk_xstate k (xd s) (xl s)) | Err e => Err e end.

(** A destination: the local object, or a user address. *)
Inductive dest := Local | User (v : Z).

Definition put_dest (dst : dest) (i b : Z) : M xstate unit :=
  match dst with
  | Local => s ← get; l ← lift (aset (xl s) i b); put (mk_xstate (xk s) (xd s) l)
  | User v => on_kx (vstoreb (u32 (v + i)) b)
  end.

(** [ide_read(sdb, lba, buff, 1)]. *)
Definition read_sdb (lba : Z) : M xstate (list Z) :=
  _ ← ASSERTM (u32 lba <=? max_lba);
  gets (fun s => dread (dsk (xd s)) (u32 lba)).

Fixpoint sys_update_img_loop (n i : nat) : M xstate unit :=
  match n with
  | O => mret tt
  | S n' =>
      buff ← read_sdb (Z.of_nat i);
      _ ← modify (fun s => mk_xstate (xk s) (mk_dstate (dsk (xd s)) (copy_into (img (xd s)) i buff)) (xl s));
      sys_update_img_loop n' (S i)
  end.
Definition sys_update_img : M xstate unit := sys_update_img_loop 20 0.

Definition sys_get_fat_next_cluster (clusID : Z) : M xstate Z :=
  let clusID := u16 clusID in
  _ ← sys_update_img;
  im ← gets (fun s => img (xd s));
  lift (img_entry im clusID).

(** The inner loop of [sys_read_file], [n] bytes of the sector left: the new
    [dst_len], and whether [size] bytes have been stored. *)
Fixpoint read_bytes (n : nat) (buff : list Z) (i dst_len size : Z) (dst : dest) : M xstate (Z * bool) :=
  match n with
  | O => mret (dst_len, false)
  | S n' =>
      b ← lift (aget buff i);
      _ ← put_dest dst dst_len b;
      if u32 (dst_len + 1) =? size then mret (dst_len + 1, true)
      else read_bytes n' buff (i + 1) (dst_len + 1) size dst
  end.

Fixpoint read_file_loop (fuel : nat) (clusID offset dst_len size : Z) (dst : dest) : M xstate Z :=
  match fuel with
  | O => fail OutOfFuel
  | S n =>
      if (0xFF8 <=? clusID) && (clusID <=? 0xFFF) then mret (-1)
      else
        buff ← read_sdb (clusID + ClusToSec);
        if 512 <=? offset then
          next ← sys_get_fat_next_cluster clusID;
          read_file_loop n next (offset - 512) dst_len size dst
        else
          '(len, full) ← read_bytes (Z.to_nat (512 - offset)) buff offset dst_len size dst;
          if full : bool then mret (i32 size)
          else
            next ← sys_get_fat_next_cluster clusID;
            read_file_loop n next 0 len size dst
  end.

Definition sys_read_file (acfile : File) (offset size : Z) (dst : dest) : M xstate Z :=
  read_file_loop chain_fuel (FstClus acfile) offset 0 size dst.

(** ** Segments *)

Fixpoint segment_pages (n : nat) (vaddr_page : Z) : M kernel (outcome bool) :=
  match n with
  | O => mret (Done true)
  | S n' =>
      pde ← vload (pde_ptr vaddr_page);
      mapped ← (if Z.land pde 1 =? 0 then mret false
                else pte ← vload (pte_ptr vaddr_page); mret (negb (Z.land pte 1 =? 0)));
      if mapped : bool then segment_pages n' (u32 (vaddr_page + PG_SIZE))
      else
        page ⇐ get_one_page pool_lock PF_USER vaddr_page;
        if page =? NULL then mret (Done false) else segment_pages n' (u32 (vaddr_page + PG_SIZE))
  end.

(** How many pages [segment_load] needs. *)
Definition occupy_pages (filesz vaddr : Z) : Z :=
  let size_in_first_page := PG_SIZE - Z.land vaddr 0x00000fff in
  if size_in_first_page <? filesz
  then u32 (DIV_ROUND_UP (filesz - size_in_first_page) PG_SIZE + 1) else 1.

Definition segment_load (acfile : File) (offset filesz vaddr : Z) : M xstate (outcome bool) :=
  ok ⇐ on_kx (segment_pages (Z.to_nat (occupy_pages filesz vaddr)) (Z.land vaddr 0xfffff000));
  if ok : bool then
    _ ← sys_read_file acfile offset filesz (User vaddr);
    mret (Done true)
  else mret (Done false).

(** ** Programs *)

Definition sizeof_Ehdr : Z := 52.
Definition sizeof_Phdr : Z := 32.
Definition PT_LOAD : Z := 1.

(** The fields of [struct Elf32_Ehdr] that are used. *)
Record Ehdr := mk_Ehdr {
  e_ident : list Z; e_type : Z; e_machine : Z; e_version : Z; e_entry : Z; e_phoff : Z;
  e_phentsize : Z; e_phnum : Z }.

Definition get_Ehdr (l : list Z) : res Ehdr :=
  ty ← get_u16 l 16; ma ← get_u16 l 18; ve ← get_u32 l 20; en ← get_u32 l 24; po ← get_u32 l 28;
  ps ← get_u16 l 42; pn ← get_u16 l 44;
  Ok (mk_Ehdr (take 16 l) ty ma ve en po ps pn).

(** The fields of [struct Elf32_Phdr] that are used. *)
Record Phdr := mk_Phdr { p_type : Z; p_offset : Z; p_vaddr : Z; p_filesz : Z }.

Definition get_Phdr (l : list Z) : res Phdr :=
  ty ← get_u32 l 0; off ← get_u32 l 4; va ← get_u32 l 8; fs ← get_u32 l 16;
  Ok (mk_Phdr ty off va fs).

(** [memset] of the local object that is read next. *)
Definition clear_local (size : Z) : M xstate unit :=
  modify (fun s => mk_xstate (xk s) (xd s) (replicate (Z.to_nat size) 0)).

(** The file is not an executable of the kind that is supported. *)
Definition bad_header (e : Ehdr) : res bool :=
  c ← memcmp (e_ident e) 0 [127; 69; 76; 70; 1; 1; 1; 0] 0 7;
  Ok (negb (c =? 0) || negb (e_type e =? 2) || negb (e_machine e =? 3) || negb (e_version e =? 1) ||
      (1024 <? e_phnum e) || negb (e_phentsize e =? sizeof_Phdr)).

(** [while (prog_idx < e_phnum)], [n] headers left; false: load failed. *)
Fixpoint load_segments (n : nat) (acfile : File) (prog_header_offset e_phentsize : Z) : M xstate (outcome bool) :=
  match n with
  | O => mret (Done true)
  | S n' =>
      _ ← clear_local e_phentsize;
      r ← sys_read_file acfile prog_header_offset e_phentsize Local;
      if negb (r =? e_phentsize) then mret (Done false)
      else
        l ← gets xl;
        h ← lift (get_Phdr l);
        ok ⇐ (if PT_LOAD =? p_type h
              then segment_load acfile (p_offset h) (p_filesz h) (p_vaddr h) else mret (Done true));
        if ok : bool
        then load_segments n' acfile (u32 (prog_header_offset + e_phentsize)) e_phentsize
        else mret (Done false)
  end.

Definition load (acfile : File) : M xstate (outcome Z) :=
  _ ← clear_local sizeof_Ehdr;
  r ← sys_read_file acfile 0 sizeof_Ehdr Local;
  if negb (r =? sizeof_Ehdr) then mret (Done (-1))
  else
    l ← gets xl;
    e ← lift (get_Ehdr l);
    bad ← lift (bad_header e);
    if bad : bool then mret (Done (-1))
    else
      ok ⇐ load_segments (Z.to_nat (e_phnum e)) acfile (e_phoff e) (e_phentsize e);
      if ok : bool then mret (Done (i32 (e_entry e))) else mret (Done (-1)).

(** The 16 bytes from the start of a [struct File]: its name has 11. *)
Definition file_head (f : File) : list Z := Filename f ++ [Attr f] ++ Reserved f.

(** Either -1 is returned, or the processor leaves through the frame at this
    address. *)
Inductive execd := Failed | Enters (intr_0_stack : Z).

Definition sys_execv (acfile : File) (argv : Z) : M xstate (outcome execd) :=
  entry_point ⇐ load acfile;
  if entry_point =? -1 then mret (Done Failed)
  else
    cur ← on_kx running_thread;
    p ← on_kx (get_pcb cur);
    n ← lift (memcpy (name p) 0 (file_head acfile) 0 16);
    _ ← on_kx (upd_pcb cur (set_name n));
    let intr_0_stack := u32 (cur + PG_SIZE - sizeof_intr_stack) in
    _ ← on_kx (vstores intr_0_stack
          [(is_ebx, argv); (is_ecx, 0); (is_eip, u32 entry_point); (is_esp, 0xc0000000)]);
    mret (Done (Enters intr_0_stack)).
End exec.
