(* ===== verification/Syscall.v ===== *)
(** * Syscall: the system calls (userprog/syscall-init.c, lib/user/syscall.c)

    A library function leaves the number of the call in eax and its arguments
    in ebx, ecx and edx; [syscall_handler] calls the function at that index of
    [syscall_table].  [dispatch] composes the two, [service] gives the handler
    its arguments. *)

From S2P Require Import Prelude CString Interrupt Lists Bitmap Kernel Paging Thread Sync IoQueue Keyboard Screen Memory DataPages Heap Pid Space Process System Demo Wait Reap.

(** [enum SYSCALL_FUNC]. *)
Definition SYS_GET_PID : Z := 0.
Definition SYS_WRITE : Z := 1.
Definition SYS_READ : Z := 2.
Definition SYS_READ_CHAR : Z := 3.
Definition SYS_WRITE_IN_POS : Z := 4.
Definition SYS_CALL_2A : Z := 5.
Definition SYS_MALLOC : Z := 6.
Definition SYS_FREE : Z := 7.
Definition SYS_FORK : Z := 8.
Definition SYS_WAIT : Z := 9.
Definition SYS_EXIT : Z := 10.
Definition SYS_SLEEP : Z := 11.
Definition SYS_WAIT_WITHOUT_PID : Z := 12.
Definition SYS_ACQUIRE_LOCK : Z := 13.
Definition SYS_RELEASE_LOCK : Z := 14.
Definition SYS_INITIAL_LOCK : Z := 15.
Definition SYS_READ_DISK : Z := 16.
Definition SYS_WRITE_DISK : Z := 17.
Definition SYS_EXECV : Z := 18.

(** The functions of the kernel that the table points to. *)
Inductive handler :=
  | h_get_pid | h_write | h_read | h_read_char | h_write_in_pos | h_call_intr2a
  | h_malloc | h_free | h_fork | h_wait | h_exit | h_ms_sleep | h_wait_without_pid
  | h_lock_acquire | h_lock_release | h_lock_init | h_read_disk | h_write_disk | h_execv.

#[export] Instance handler_eq_dec : EqDecision handler.
Proof. solve_decision. Defined.

Definition syscall_cnt : Z := 32.

(** The table is a static array: entries that are not set are NULL. *)
Definition syscall_init (t : list (option handler)) : list (option handler) :=
  let set n h t := <[Z.to_nat n := Some h]> t in
  set SYS_EXECV h_execv (set SYS_WRITE_DISK h_write_disk (set SYS_READ_DISK h_read_disk
  (set SYS_INITIAL_LOCK h_lock_init (set SYS_RELEASE_LOCK h_lock_release
  (set SYS_ACQUIRE_LOCK h_lock_acquire (set SYS_WAIT_WITHOUT_PID h_wait_without_pid
  (set SYS_SLEEP h_ms_sleep (set SYS_EXIT h_exit (set SYS_WAIT h_wait (set SYS_FORK h_fork
  (set SYS_FREE h_free (set SYS_MALLOC h_malloc (set SYS_CALL_2A h_call_intr2a
  (set SYS_WRITE_IN_POS h_write_in_pos (set SYS_READ_CHAR h_read_char (set SYS_READ h_read
  (set SYS_WRITE h_write (set SYS_GET_PID h_get_pid t)))))))))))))))))).

Definition syscall_table : list (option handler) := syscall_init (replicate (Z.to_nat syscall_cnt) None).

(** ** The library *)

(** The registers at [int $0x80]. *)
Record registers := mk_registers { eax : Z; ebx : Z; ecx : Z; edx : Z }.

(** A call with fewer than three arguments leaves the other registers as they
    happened to be. *)
Definition _syscall0 (number : Z) (r : registers) : registers := mk_registers number (ebx r) (ecx r) (edx r).
Definition _syscall1 (number a1 : Z) (r : registers) : registers := mk_registers number a1 (ecx r) (edx r).
Definition _syscall2 (number a1 a2 : Z) (r : registers) : registers := mk_registers number a1 a2 (edx r).
Definition _syscall3 (number a1 a2 a3 : Z) (_ : registers) : registers := mk_registers number a1 a2 a3.

Definition get_pid : registers -> registers := _syscall0 SYS_GET_PID.
Definition write (s attr : Z) : registers -> registers := _syscall2 SYS_WRITE s attr.
Definition read (s : Z) : registers -> registers := _syscall1 SYS_READ s.
Definition read_char : registers -> registers := _syscall0 SYS_READ_CHAR.
Definition write_in_pos (s attr pos : Z) : registers -> registers := _syscall3 SYS_WRITE_IN_POS s attr pos.
Definition call_2a : registers -> registers := _syscall0 SYS_CALL_2A.
Definition malloc (size : Z) : registers -> registers := _syscall1 SYS_MALLOC size.
Definition free (ptr : Z) : registers -> registers := _syscall1 SYS_FREE ptr.
Definition fork : registers -> registers := _syscall0 SYS_FORK.
Definition wait (pid child_exit_status : Z) : registers -> registers := _syscall2 SYS_WAIT pid child_exit_status.
Definition wait_without_pid (child_exit_status : Z) : registers -> registers := _syscall1 SYS_WAIT child_exit_status.
Definition exit (status : Z) : registers -> registers := _syscall1 SYS_EXIT status.
Definition sleep (ms : Z) : registers -> registers := _syscall1 SYS_SLEEP ms.
Definition acquire_lock (lock : Z) : registers -> registers := _syscall1 SYS_ACQUIRE_LOCK lock.
Definition release_lock (lock : Z) : registers -> registers := _syscall1 SYS_RELEASE_LOCK lock.
Definition initial_lock (lock : Z) : registers -> registers := _syscall1 SYS_INITIAL_LOCK lock.
Definition read_disk (buf secID is_sdb : Z) : registers -> registers := _syscall3 SYS_READ_DISK buf secID is_sdb.
Definition write_disk (buf secID is_sdb : Z) : registers -> registers := _syscall3 SYS_WRITE_DISK buf secID is_sdb.
Definition execv (acfile argv : Z) : registers -> registers := _syscall2 SYS_EXECV acfile argv.

(** [call [syscall_table + eax * 4]] with the three arguments pushed. *)
Definition dispatch (r : registers) : option (handler * (Z * Z * Z)) :=
  match syscall_table !! Z.to_nat (eax r) with
  | Some (Some h) => Some (h, (ebx r, ecx r, edx r))
  | _ => None
  end.

(** ** The handlers of syscall-init.c *)

Definition sys_get_pid : M kernel Z :=
  now ← running_thread;
  p ← get_pcb now;
  mret (u32 (pid p)).

Definition sys_write (console_lock : Z) (s : list Z) (p attr : Z) : M console (outcome Z) :=
  r ← console_put_str console_lock s p (u8 attr);
  match r with
  | Done _ => n ← lift (strlen s p); mret (Done n)
  | WaitsLock old => mret (WaitsLock old)
  | Waits => mret Waits
  end.

Definition sys_write_in_pos (console_lock : Z) (s : list Z) (p attr pos : Z) : M console (outcome unit) :=
  console_put_str_in_pos console_lock s p (u8 attr) (u8 (pos / 80)) (u8 (pos mod 80)).

(** [sys_read]: the characters read so far, and how the call ended; each round
    takes a character out of the queue, so one more than it holds is enough. *)
Fixpoint sys_read_loop (fuel : nat) (s : list Z) (len : Z) : M qstate (list Z * Z * outcome unit) :=
  match fuel with
  | O => fail OutOfFuel
  | S n =>
      r ← ioq_getchar;
      match r with
      | Done c =>
          if (c =? 10) || (c =? 13) || (c =? 32) then
            s ← lift (aset s len 0); mret (s, len, Done tt)
          else s ← lift (aset s len c); sys_read_loop n s (u32 (len + 1))
      | WaitsLock old => mret (s, len, WaitsLock old)
      | Waits => mret (s, len, Waits)
      end
  end.
Definition sys_read (s : list Z) : M qstate (list Z * Z * outcome unit) :=
  sys_read_loop (Z.to_nat BUF_SIZE) s 0.

Definition sys_read_char : M qstate (outcome Z) := ioq_getchar.

(** Calls that wait for children, as the processor performs them. *)
Definition service (pid_lock : Z) (r : registers) : M kernel waited :=
  match dispatch r with
  | Some (h_wait, (a1, a2, _)) => sys_wait pid_lock (i32 a1) a2
  | Some (h_wait_without_pid, (a1, _, _)) => sys_wait_without_pid pid_lock a1
  | _ => fail Fault
  end.

(** ** Properties *)

(** Every library function enters the kernel function of its name with its
    arguments in order, except [wait_without_pid], whose number is that of
    [wait]: the address it passes arrives as the process number.  The other
    numbers below 32 have no handler. *)
Theorem library_calls_dispatch (r : registers) (a b c : Z) :
  dispatch (get_pid r) = Some (h_get_pid, (ebx r, ecx r, edx r)) /\
  dispatch (write a b r) = Some (h_write, (a, b, edx r)) /\
  dispatch (read a r) = Some (h_read, (a, ecx r, edx r)) /\
  dispatch (read_char r) = Some (h_read_char, (ebx r, ecx r, edx r)) /\
  dispatch (write_in_pos a b c r) = Some (h_write_in_pos, (a, b, c)) /\
  dispatch (call_2a r) = Some (h_call_intr2a, (ebx r, ecx r, edx r)) /\
  dispatch (malloc a r) = Some (h_malloc, (a, ecx r, edx r)) /\
  dispatch (free a r) = Some (h_free, (a, ecx r, edx r)) /\
  dispatch (fork r) = Some (h_fork, (ebx r, ecx r, edx r)) /\
  dispatch (wait a b r) = Some (h_wait, (a, b, edx r)) /\
  dispatch (wait_without_pid a r) = Some (h_wait, (a, ecx r, edx r)) /\
  dispatch (exit a r) = Some (h_exit, (a, ecx r, edx r)) /\
  dispatch (sleep a r) = Some (h_ms_sleep, (a, ecx r, edx r)) /\
  dispatch (acquire_lock a r) = Some (h_lock_acquire, (a, ecx r, edx r)) /\
  dispatch (release_lock a r) = Some (h_lock_release, (a, ecx r, edx r)) /\
  dispatch (initial_lock a r) = Some (h_lock_init, (a, ecx r, edx r)) /\
  dispatch (read_disk a b c r) = Some (h_read_disk, (a, b, c)) /\
  dispatch (write_disk a b c r) = Some (h_write_disk, (a, b, c)) /\
  dispatch (execv a b r) = Some (h_execv, (a, b, edx r)) /\
  forall n, 19 <= n < 32 -> dispatch (mk_registers n a b c) = None.
Proof.
  do 19 (split; [reflexivity|]). intros n Hn.
  assert (Hall : forallb (fun n => match syscall_table !! Z.to_nat n with Some (Some _) => false | _ => true end) (seqZ 19 13) = true)
    by reflexivity.
  rewrite forallb_forall in Hall. specialize (Hall n). rewrite <- list_elem_of_In, elem_of_seqZ in Hall.
  specialize (Hall ltac:(lia)). unfold dispatch. cbn [eax]. destruct (syscall_table !! Z.to_nat n) as [[h|]|]; done.
Qed.

(** [wait_without_pid] in any consistent system, with the address of a word
    of user memory: it returns -1 and collects nobody, whatever children of
    the caller there are, since no thread has that number; the status is not
    stored and the children that have exited stay. *)
Theorem wait_without_pid_collects_nobody (pool_lock : pool_flag -> Z) (pid_lock : Z) (k : kernel) (D : Z -> Z)
    (O : gmap Z Z) (Γ : gmap Z (list Z)) (rs ts : list Z) (r : registers) (a : Z) :
  system_ok pool_lock pid_lock k D O Γ rs ts -> cur (kc k) <> idle_thread (kth k) -> 0x400000 <= a < 0xc0000000 ->
  service pid_lock (wait_without_pid a r) k = Ok (Returns (-1), k).
Proof.
  intros Hs Hi Ha. change (service pid_lock (wait_without_pid a r)) with (sys_wait pid_lock (i32 a) (ecx r)).
  destruct (wait_round_ok pool_lock pid_lock _ _ _ _ k D O Γ rs ts (ecx r) (tests_hanging_thread (i32 a)) (tests_thread (i32 a)) Hs Hi)
    as [(_ & _ & E)|[(_ & (t & p & Hal & Hf) & _)|(c & p & Hal & Hf & _)]]; [done|exfalso..].
  - apply Z.eqb_eq in Hf. destruct (to_pids _ _ _ (so_threads _ _ _ _ _ _ _ _ Hs) t p Hal) as [Hp _].
    unfold i32 in Hf. zarith.
  - apply andb_true_iff in Hf as [Hf _]. apply Z.eqb_eq in Hf.
    destruct (to_pids _ _ _ (so_threads _ _ _ _ _ _ _ _ Hs) c p Hal) as [Hp _]. unfold i32 in Hf. zarith.
Qed.

(** A child of the caller has exited; the system call for any child finds it. *)
Lemma wait_without_pid_collects_nobody_witness :
  service lk_pid (wait_without_pid 0x400010 (mk_registers 0 0 0 0)) demo_gone = Ok (Returns (-1), demo_gone) /\
  match service lk_pid (mk_registers SYS_WAIT_WITHOUT_PID 0x400010 0 0) demo_gone with
  | Ok (Returns x, _) => x = 4 | _ => False end.
Proof.
  split; [|vm_compute; reflexivity].
  apply (wait_without_pid_collects_nobody lk_pool lk_pid demo_gone _ _ _ _ _ _ _ demo_gone_ok); [done|lia].
Defined.
