(* ===== verification/Programs.v ===== *)
(** * Programs: what fork and execv do to a process

    The name of a child (userprog/fork.c); what a program
    file is read as, and the files that are refused (userprog/exec.c).  The
    reads of the kernel go through its own copies of the FAT routines, which
    are shown to be those of Disk.v; [read_out] says what a read gives. *)

From S2P Require Import Prelude CString Interrupt Lists Bitmap BlockDev Disk Fat Entry FsTree FileOps File Kernel Paging Thread Sync IoQueue Memory DataPages Heap Pid Space Process System Demo Reap Fork Exec.
Open Scope gw_scope.

(** ** The name of a child *)

Definition fork_suffix : list Z := [95; 102; 111; 114; 107; 0].

Lemma list_16 (l : list Z) n : length l = 16%nat -> (n < 11)%nat -> exists pre a b c d e f post,
  l = pre ++ a :: b :: c :: d :: e :: f :: post /\ length pre = n.
Proof.
  intros Hl Hn. exists (take n l). pose proof (take_drop n l) as E. pose proof (length_drop l n) as Hd.
  assert (Ht : length (take n l) = n) by (rewrite length_take; lia).
  destruct (drop n l) as [|a [|b [|c [|d [|e [|f post]]]]]]; cbn in Hd; try lia.
  exists a, b, c, d, e, f, post. by rewrite <- E at 1.
Qed.

Lemma aset_behind pre a post x : aset (pre ++ a :: post) (zlen pre) x = Ok (pre ++ x :: post).
Proof. apply aset_mid. Qed.

Lemma fork_name_ok l nm : cstr l 0 nm -> length l = 16%nat -> (length nm < 11)%nat ->
  exists post, fork_name l = Ok (nm ++ fork_suffix ++ post) /\ length (nm ++ fork_suffix ++ post) = 16%nat.
Proof.
  intros Hc Hl Hn. assert (Hs : strlen l 0 = Ok (zlen nm)).
  { rewrite (strlen_ok _ _ _ Hc). f_equal. apply u32_small. unfold zlen. lia. }
  destruct Hc as (pre & rest & El & Hp & _). assert (pre = []) as -> by (destruct pre; [done|unfold zlen in Hp; cbn in Hp; lia]).
  cbn [app] in El. destruct (list_16 l (length nm) Hl Hn) as (pre & a & b & c & d & e & f & post & E & Hpl).
  assert (pre = nm) as ->.
  { rewrite El in E. by apply app_inj_1 in E as [-> _]. }
  exists post. unfold fork_name. rewrite (bindR_ok _ _ _ Hs). cbn [ASSERT]. rewrite (proj2 (Z.ltb_lt _ _)) by (unfold zlen; lia).
  rewrite (bindR_ok _ _ tt eq_refl), (bindR_ok _ _ _ Hs). rewrite E.
  rewrite (bindR_ok _ _ _ (aset_behind nm a _ 95)).
  assert (Hstep : forall pre y l' x k, k = zlen nm + zlen pre -> aset (nm ++ pre ++ y :: l') k x = Ok (nm ++ (pre ++ [x]) ++ l')).
  { intros pre y l' x k ->. rewrite app_assoc, <- zlen_app, aset_behind. by rewrite <- !app_assoc. }
  pose proof (Hstep [95] b (c :: d :: e :: f :: post) 102 (zlen nm + 1) eq_refl) as H1.
  pose proof (Hstep [95; 102] c (d :: e :: f :: post) 111 (zlen nm + 2) eq_refl) as H2.
  pose proof (Hstep [95; 102; 111] d (e :: f :: post) 114 (zlen nm + 3) eq_refl) as H3.
  pose proof (Hstep [95; 102; 111; 114] e (f :: post) 107 (zlen nm + 4) eq_refl) as H4.
  pose proof (Hstep [95; 102; 111; 114; 107] f post 0 (zlen nm + 5) eq_refl) as H5.
  cbn [app] in H1, H2, H3, H4, H5.
  rewrite (bindR_ok _ _ _ H1), (bindR_ok _ _ _ H2), (bindR_ok _ _ _ H3), (bindR_ok _ _ _ H4), H5. split; [done|].
  rewrite E in Hl. rewrite !length_app in *. cbn [fork_suffix length] in *. lia.
Qed.

(** The scan ends behind a 0. *)
Lemma scan_nul_end fuel : forall l p r, scan_nul fuel l p = Ok r -> exists q, p <= q /\ r = q + 1 /\ aget l q = Ok 0.
Proof.
  induction fuel as [|fuel IH]; intros l p r; cbn [scan_nul]; [done|].
  intros (c & Ec & E)%bindR_inv. destruct (c =? 0) eqn:Hc.
  - injection E as <-. apply Z.eqb_eq in Hc as ->. exists p. by split; [lia|].
  - destruct (IH _ _ _ E) as (q & Hq & -> & H0). exists q. split; [lia|done].
Qed.

Lemma fork_name_long l : length l = 16%nat -> (forall i, 0 <= i < 11 -> aget l i <> Ok 0) -> exists e, fork_name l = Err e.
Proof.
  intros Hlen Hl. unfold fork_name. destruct (strlen l 0) as [n|e] eqn:E; [|by exists e].
  unfold strlen in E. apply bindR_inv in E as (r & Er & [= <-]).
  destruct (scan_nul_end _ _ _ _ Er) as (q & Hq & -> & H0).
  assert (Hq11 : 11 <= q). { destruct (decide (q < 11)); [|lia]. by destruct (Hl q); [lia|]. }
  apply aget_inv in H0 as [H0 _]. unfold zlen in H0. rewrite Hlen in H0. exists Panic.
  match goal with |- context [Ok ?x ≫= ?g] => rewrite (bindR_ok (Ok x) g x eq_refl) end. rewrite u32_small by lia. unfold ASSERT.
  by rewrite (proj2 (Z.ltb_ge _ _)) by lia.
Qed.

(** A child of a process whose name has fewer than 11 characters gets the
    name with "_fork" behind it.  After [execv] the name is 16 bytes from the
    start of the file record, 11 of them the padded name without a 0: [fork] of
    such a process stops the kernel. *)
Theorem fork_name_after_execv (nm l name : list Z) (f : File) :
  (cstr l 0 nm -> length l = 16%nat -> (length nm < 11)%nat ->
     exists post, fork_name l = Ok (nm ++ fork_suffix ++ post) /\ length (nm ++ fork_suffix ++ post) = 16%nat) /\
  (length name = 16%nat -> length (Filename f) = 11%nat -> length (Reserved f) = 10%nat ->
     Forall (fun c => c <> 0) (Filename f) ->
     exists n e, memcpy name 0 (file_head f) 0 16 = Ok n /\ fork_name n = Err e).
Proof.
  split; [apply fork_name_ok|]. intros Hn Hf Hr Hz.
  pose proof (memcpy_ok [] name [] [] (take 16 (file_head f)) (drop 16 (file_head f))) as E.
  assert (Hh : length (file_head f) = 22%nat) by (unfold file_head; rewrite !length_app, Hf, Hr; done).
  cbn [app] in E. rewrite app_nil_r, take_drop in E. change (zlen (@nil Z)) with 0 in E.
  assert (Ht : length (take 16 (file_head f)) = 16%nat) by (rewrite length_take, Hh; done).
  unfold zlen in E. rewrite Ht in E. rewrite app_nil_r in E.
  exists (take 16 (file_head f)). destruct (fork_name_long (take 16 (file_head f)) Ht) as [e He].
  - intros i Hi H0. apply aget_inv in H0 as [_ H0]. unfold at_, file_head in H0.
    assert (Hl : take 16 (Filename f ++ [Attr f] ++ Reserved f) !! Z.to_nat i = Filename f !! Z.to_nat i)
      by (rewrite lookup_take_lt by lia; apply lookup_app_l; lia).
    destruct (lookup_lt_is_Some_2 (Filename f) (Z.to_nat i)) as [x Hx]; [lia|].
    apply (Forall_lookup_1 _ _ _ _ Hz Hx). rewrite Hl, Hx in H0. by symmetry in H0.
  - exists e. split; [|done]. by apply E.
Qed.

(** ** Reading a file *)

Section files.
Context {D : Type} `{BlockDevice D}.

Definition with_xd (s : xstate (D := D)) (d : dstate D) : xstate := mk_xstate (xk s) d (xl s).
Definition with_xl (s : xstate (D := D)) (l : list Z) : xstate (D := D) := mk_xstate (xk s) (xd s) l.

Lemma read_sdb_ok i (s : xstate (D := D)) : 0 <= i <= SecCnt -> read_sdb i s = Ok (dread (dsk (xd s)) i, s).
Proof.
  unfold SecCnt. intros Hi. unfold read_sdb, ASSERTM, ASSERT. rewrite u32_small by lia.
  rewrite (proj2 (Z.leb_le _ _)); [done|]. change Ide.max_lba with 163839. lia.
Qed.

(** The kernel's way to the FAT does to the cache what the one of the file
    system does. *)
Lemma sys_update_img_loop_as n : forall i (s : xstate (D := D)), (i + n <= 20)%nat ->
  sys_update_img_loop n i s =
  match update_img_loop n i (xd s) with Ok (_, d) => Ok (tt, with_xd s d) | Err e => Err e end.
Proof.
  induction n as [|n IH]; intros i s Hi; cbn [sys_update_img_loop update_img_loop].
  - destruct s. done.
  - rewrite (bindM_ok _ _ _ _ _ (read_sdb_ok (Z.of_nat i) s ltac:(unfold SecCnt; lia))).
    rewrite (bindM_ok _ _ _ _ _ (read_sector_ok (xd s) (Z.of_nat i) ltac:(unfold SecCnt; lia))).
    rewrite !bind_modify. rewrite IH by lia. cbn [xd]. done.
Qed.

Lemma sys_get_fat_as c (s : xstate (D := D)) : sys_get_fat_next_cluster c s =
  match get_fat_next_cluster c (xd s) with Ok (x, d) => Ok (x, with_xd s d) | Err e => Err e end.
Proof.
  unfold sys_get_fat_next_cluster, get_fat_next_cluster. cbv zeta.
  assert (E : sys_update_img s = match update_img (xd s) with Ok (_, d) => Ok (tt, with_xd s d) | Err e => Err e end)
    by (exact (sys_update_img_loop_as 20 0 s ltac:(lia))).
  destruct (update_img (xd s)) as [[[] d]|e] eqn:Eu.
  - rewrite (bindM_ok _ _ _ _ _ E), (bindM_ok _ _ _ _ _ Eu), !bind_gets. cbn [xd with_xd]. unfold lift. by destruct (img_entry _ _).
  - by rewrite (bindM_err _ _ _ _ E), (bindM_err _ _ _ _ Eu).
Qed.

Lemma sys_get_fat_ok c (s : xstate (D := D)) : dstate_wf (xd s) -> 0 <= c < 6484 ->
  exists d', sys_get_fat_next_cluster c s = Ok (fat (dsk (xd s)) c, with_xd s d') /\ dsk d' = dsk (xd s) /\ dstate_wf d'.
Proof.
  intros Hw Hc. destruct (get_fat_ok (xd s) c Hw Hc) as (d' & E & Hd & Hw'). exists d'.
  split; [|by split]. rewrite sys_get_fat_as, E. reflexivity.
Qed.

(** *** Reading into the local object *)

Definition stored (s : xstate (D := D)) (pre w old : list Z) : xstate := with_xl s (pre ++ w ++ drop (length w) old).

Lemma put_local (s : xstate (D := D)) pre o old b : xl s = pre ++ o :: old ->
  put_dest Local (zlen pre) b s = Ok (tt, with_xl s (pre ++ b :: old)).
Proof.
  intros Hx. unfold put_dest. rewrite bind_get, Hx. by rewrite (bindM_ok _ _ _ _ _ (lift_ok _ _ _ (aset_mid pre o b old))).
Qed.

(** The bytes [w] of a sector: they all fit in what is left, or [size] is
    reached among them. *)
Lemma read_bytes_all w : forall seen (s : xstate (D := D)) pre old size, xl s = pre ++ old -> (length w <= length old)%nat ->
  zlen pre + zlen w < 2 ^ 31 -> size <= zlen pre \/ zlen pre + zlen w < size ->
  read_bytes (length w) (seen ++ w) (zlen seen) (zlen pre) size Local s = Ok ((zlen pre + zlen w, false), stored s pre w old).
Proof.
  induction w as [|b w IH]; intros seen s pre old size Hx Ho Hz Hs; cbn [length read_bytes].
  - unfold stored, with_xl. change (drop (length []) old) with old. cbn [app]. rewrite <- Hx. unfold zlen at 2. cbn [length].
    rewrite Z.add_0_r. by destruct s.
  - rewrite (bindM_ok _ _ _ _ _ (lift_ok _ _ _ (aget_mid seen b w))). destruct old as [|o old]; [cbn in Ho; lia|].
    rewrite (bindM_ok _ _ _ _ _ (put_local s pre o old b Hx)).
    rewrite zlen_cons in *. pose proof (zlen_nonneg w). pose proof (zlen_nonneg pre).
    rewrite u32_small by lia. rewrite (proj2 (Z.eqb_neq _ _)) by lia.
    specialize (IH (seen ++ [b]) (with_xl s (pre ++ b :: old)) (pre ++ [b]) old size).
    rewrite <- !app_assoc, !zlen_app in IH. change (zlen [b]) with 1 in IH. cbn [app with_xl xl] in IH.
    rewrite Z.add_assoc, (IH eq_refl) by (cbn in Ho; lia). do 2 f_equal.
    unfold stored, with_xl. cbn [xk xd length]. rewrite <- app_assoc. done.
Qed.

Lemma read_bytes_full w : forall n seen post (s : xstate (D := D)) pre old size, xl s = pre ++ old -> (length w <= length old)%nat ->
  (length w <= n)%nat -> w <> [] -> zlen pre + zlen w = size -> size < 2 ^ 31 ->
  read_bytes n (seen ++ w ++ post) (zlen seen) (zlen pre) size Local s = Ok ((size, true), stored s pre w old).
Proof.
  induction w as [|b w IH]; intros n seen post s pre old size Hx Ho Hn Hw Hs Hz; [done|].
  destruct n as [|n]; [cbn in Hn; lia|]. cbn [read_bytes app].
  rewrite (bindM_ok _ _ _ _ _ (lift_ok _ _ _ (aget_mid seen b (w ++ post)))). destruct old as [|o old]; [cbn in Ho; lia|].
  rewrite (bindM_ok _ _ _ _ _ (put_local s pre o old b Hx)).
  rewrite zlen_cons in *. pose proof (zlen_nonneg w). pose proof (zlen_nonneg pre). rewrite u32_small by lia.
  destruct w as [|c w].
  - rewrite (proj2 (Z.eqb_eq _ _)) by (change (zlen []) with 0 in *; lia). change (zlen []) with 0 in Hs.
    rewrite Z.add_0_r in Hs. subst size. reflexivity.
  - pose proof (zlen_cons c w). pose proof (zlen_nonneg w). rewrite (proj2 (Z.eqb_neq _ _)) by lia.
    specialize (IH n (seen ++ [b]) post (with_xl s (pre ++ b :: old)) (pre ++ [b]) old size).
    rewrite <- !app_assoc, !zlen_app in IH. change (zlen [b]) with 1 in IH. cbn [app with_xl xl] in IH.
    cbn [app]. rewrite (IH eq_refl) by (done || (cbn in *; lia)). do 2 f_equal.
    unfold stored, with_xl. cbn [xk xd length]. rewrite <- app_assoc. done.
Qed.

(** What is stored, and the result, when [data] lies from the offset on to the
    end of the chain and [n] bytes have been stored before it. *)
Definition read_out (n size : Z) (data : list Z) : list Z * Z :=
  if (n <? size) && (size <=? n + zlen data) then (take (Z.to_nat (size - n)) data, size) else (data, -1).

Lemma read_out_reached n size data : n < size <= n + zlen data -> read_out n size data = (take (Z.to_nat (size - n)) data, size).
Proof. intros Hs. unfold read_out. by decide_bool. Qed.

Lemma read_out_all n size data : ~ (n < size <= n + zlen data) -> read_out n size data = (data, -1).
Proof. intros Hs. unfold read_out. destruct (Z.ltb_spec n size), (Z.leb_spec size (n + zlen data)); cbn [andb]; done || lia. Qed.

Lemma read_out_app n size w rest : read_out n size (w ++ rest) =
  if decide (n < size <= n + zlen w) then (take (Z.to_nat (size - n)) w, size)
  else let (v, r) := read_out (n + zlen w) size rest in (w ++ v, r).
Proof.
  pose proof (zlen_nonneg w). pose proof (zlen_nonneg rest). case_decide as Hw.
  - rewrite read_out_reached by (rewrite zlen_app; lia). by rewrite take_app_le by (unfold zlen in *; lia).
  - destruct (decide (n < size <= n + zlen (w ++ rest))) as [Hr|Hr]; rewrite zlen_app in Hr.
    + rewrite !read_out_reached by (rewrite ?zlen_app; lia). rewrite take_app_ge by (unfold zlen in *; lia).
      do 3 f_equal. unfold zlen in *. lia.
    + by rewrite !read_out_all by (rewrite ?zlen_app; lia).
Qed.

Abbreviation file_contents := FileOps.contents.

Lemma file_contents_cons d x l : file_contents d (x :: l) = dread d (x + ClusToSec) ++ file_contents d l.
Proof. done. Qed.

Lemma not_eocb x : 2 <= x <= 2849 -> (0xFF8 <=? x) && (x <=? 0xFFF) = false.
Proof. intros Hx. by decide_bool. Qed.

Definition read_done (s s' : xstate (D := D)) (pre w old : list Z) : Prop :=
  xk s' = xk s /\ dsk (xd s') = dsk (xd s) /\ dstate_wf (xd s') /\ xl s' = pre ++ w ++ drop (length w) old.

Lemma read_done_from s s' d1 pre w old : dsk d1 = dsk (xd s) -> read_done (with_xd s d1) s' pre w old -> read_done s s' pre w old.
Proof. intros Hd (Hk & Hd' & Hw & Hx). split; [exact Hk|]. split; [by rewrite <- Hd|]. by split. Qed.

Lemma read_file_loop_ok l : forall fuel c off (s : xstate (D := D)) pre old size,
  dstate_wf (xd s) -> chain (dsk (xd s)) c l -> (length l < fuel)%nat -> 0 <= off -> 0 <= size < 2 ^ 31 ->
  xl s = pre ++ old -> let data := drop (Z.to_nat off) (file_contents (dsk (xd s)) l) in
  zlen pre + zlen data < 2 ^ 31 -> let (w, r) := read_out (zlen pre) size data in (length w <= length old)%nat ->
  exists s', read_file_loop fuel c off (zlen pre) size Local s = Ok (r, s') /\ read_done s s' pre w old.
Proof.
  induction l as [|x l IH]; intros fuel c off s pre old size Hw Hc Hf Ho Hs Hx data Hz;
    (destruct fuel as [|fuel]; [cbn in Hf; lia|]); cbn [read_file_loop]; cbn [chain] in Hc.
  - subst data. change (file_contents (dsk (xd s)) []) with (@nil Z) in *. rewrite drop_nil in *.
    rewrite read_out_all by (change (zlen []) with 0; lia). intros _. exists s. split.
    + apply eocb_spec in Hc. unfold eocb in Hc. by rewrite Hc.
    + split; [done|]. split; [done|]. by split.
  - destruct Hc as (-> & Hx2 & Hc). rewrite not_eocb by done. cbn [length] in Hf.
    rewrite (bindM_ok _ _ _ _ _ (read_sdb_ok (x + ClusToSec) s ltac:(unfold ClusToSec, SecCnt; lia))).
    set (b := dread _ _) in *. assert (Hb : zlen b = 512) by (apply dread_length, Hw).
    destruct (sys_get_fat_ok x s Hw ltac:(lia)) as (d1 & E1 & Hd1 & Hw1).
    subst data. rewrite file_contents_cons in *. fold b in Hz |- *.
    destruct (Z.leb_spec 512 off).
    + rewrite (bindM_ok _ _ _ _ _ E1). specialize (IH fuel (fat (dsk (xd s)) x) (off - 512) (with_xd s d1) pre old size).
      cbn [with_xd xk xd xl] in IH. rewrite Hd1 in IH.
      assert (Ed : drop (Z.to_nat off) (b ++ file_contents (dsk (xd s)) l) = drop (Z.to_nat (off - 512)) (file_contents (dsk (xd s)) l)).
      { rewrite drop_app_ge by (unfold zlen in Hb; lia). f_equal. unfold zlen in Hb. lia. }
      rewrite Ed in *. specialize (IH Hw1 Hc ltac:(lia) ltac:(lia) Hs Hx Hz). destruct (read_out _ _ _) as [w r].
      intros Hl. destruct (IH Hl) as (s' & E & Hr). exists s'. split; [exact E|]. by apply (read_done_from s s' d1).
    + set (w := drop (Z.to_nat off) b).
      assert (Ew : (length w = Z.to_nat (512 - off))%nat) by (unfold w; rewrite length_drop; unfold zlen in Hb; lia).
      assert (Eb : b = take (Z.to_nat off) b ++ w) by (symmetry; apply take_drop).
      assert (Eo : zlen (take (Z.to_nat off) b) = off) by (unfold zlen in *; rewrite length_take; lia).
      rewrite drop_app_le in * by (unfold zlen in Hb; lia). fold w in Hz |- *. rewrite zlen_app in Hz.
      rewrite read_out_app. rewrite <- Ew. pose proof (zlen_nonneg (file_contents (dsk (xd s)) l)). pose proof (zlen_nonneg pre).
      case_decide as Hr; [|destruct (read_out _ _ _) as [v r] eqn:Ev]; intros Hl.
      * exists (stored s pre (take (Z.to_nat (size - zlen pre)) w) old). split; [|exact (conj eq_refl (conj eq_refl (conj Hw eq_refl)))].
        pose proof (read_bytes_full (take (Z.to_nat (size - zlen pre)) w) (length w) (take (Z.to_nat off) b)
          (drop (Z.to_nat (size - zlen pre)) w) s pre old size Hx Hl) as E.
        rewrite take_drop, Eo, <- Eb in E. assert (Hlt : length (take (Z.to_nat (size - zlen pre)) w) = Z.to_nat (size - zlen pre))
          by (rewrite length_take; unfold zlen in *; lia).
        rewrite (bindM_ok _ _ _ _ _ (E ltac:(unfold zlen in *; lia) ltac:(intros E0; rewrite E0 in Hlt; cbn in Hlt; unfold zlen in *; lia) ltac:(unfold zlen in *; lia) ltac:(lia))).
        by rewrite i32_small by lia.
      * rewrite length_app in Hl.
        pose proof (read_bytes_all w (take (Z.to_nat off) b) s pre old size Hx ltac:(lia) ltac:(lia) ltac:(lia)) as E.
        rewrite Eo, <- Eb in E. rewrite (bindM_ok _ _ _ _ _ E). set (s1 := stored s pre w old) in *.
        destruct (sys_get_fat_ok x s1 Hw ltac:(lia)) as (d2 & E2 & Hd2 & Hw2). rewrite (bindM_ok _ _ _ _ _ E2).
        specialize (IH fuel (fat (dsk (xd s)) x) 0 (with_xd s1 d2) (pre ++ w) (drop (length w) old) size).
        cbn [with_xd xk xd xl s1 stored with_xl] in IH, Hd2. rewrite Hd2, zlen_app in IH. change (Z.to_nat 0) with 0%nat in IH. rewrite drop_0, Ev in IH.
        destruct (IH Hw2 Hc ltac:(lia) ltac:(lia) Hs (app_assoc _ _ _) ltac:(lia) ltac:(rewrite length_drop; lia)) as (s' & E' & Hr').
        exists s'. split; [exact E'|]. apply (read_done_from s1 s' d2) in Hr'; [|exact Hd2]. destruct Hr' as (Hk & Hd & Hws & Hxs).
        split; [exact Hk|]. split; [exact Hd|]. split; [exact Hws|]. by rewrite Hxs, <- !app_assoc, length_app, drop_drop.
Qed.

Lemma file_contents_length d l : dwf d -> zlen (file_contents d l) = 512 * zlen l.
Proof.
  intros Hd. induction l as [|x l IH]; [done|]. rewrite file_contents_cons, zlen_app, zlen_cons, IH, dread_length by done. lia.
Qed.

Lemma sys_read_file_ok (s : xstate (D := D)) (f : File) (l : list Z) (offset size : Z) :
  dstate_wf (xd s) -> chain (dsk (xd s)) (FstClus f) l -> NoDup l -> 0 <= offset -> 0 <= size < 2 ^ 31 ->
  let (w, r) := read_out 0 size (drop (Z.to_nat offset) (file_contents (dsk (xd s)) l)) in
  (length w <= length (xl s))%nat ->
  exists s', sys_read_file f offset size Local s = Ok (r, s') /\ read_done s s' [] w (xl s).
Proof.
  intros Hw Hc Hn Ho Hs. assert (Hl : (length l <= 2848)%nat) by (apply chain_length; [done|]; intros x Hx; by apply (chain_in _ _ _ Hc x Hx)).
  apply (read_file_loop_ok l chain_fuel (FstClus f) offset s [] (xl s) size); try done.
  - unfold chain_fuel. lia.
  - pose proof (file_contents_length (dsk (xd s)) l (dw_disk _ Hw)). unfold zlen in *. rewrite length_drop. change (length (@nil Z)) with 0%nat. lia.
Qed.

(** C36. [sys_read_file] into an object of the kernel: with [size] bytes or more
    from the offset to the end of the cluster chain, it stores the first
    [size] of them and returns [size]; with fewer, or for size 0, it stores all
    of them and returns -1.  The kernel and the disk stay as they are. *)
Theorem sys_read_file_reads_chain (s : xstate (D := D)) (f : File) (l : list Z) (offset size : Z) :
  dstate_wf (xd s) -> chain (dsk (xd s)) (FstClus f) l -> NoDup l -> 0 <= offset -> 0 <= size < 2 ^ 31 ->
  let data := drop (Z.to_nat offset) (file_contents (dsk (xd s)) l) in
  let w := if (0 <? size) && (size <=? zlen data) then take (Z.to_nat size) data else data in
  (length w <= length (xl s))%nat ->
  exists s', sys_read_file f offset size Local s = Ok (if (0 <? size) && (size <=? zlen data) then size else -1, s') /\
    xk s' = xk s /\ dsk (xd s') = dsk (xd s) /\ xl s' = w ++ drop (length w) (xl s).
Proof.
  intros Hw Hc Hn Ho Hs data w Hl. pose proof (sys_read_file_ok s f l offset size Hw Hc Hn Ho Hs) as R. fold data in R.
  unfold read_out in R. rewrite Z.add_0_l, Z.sub_0_r in R. subst w. destruct (_ && _); destruct (R Hl) as (s' & E & Hk & Hd & _ & Hx); by exists s'.
Qed.

(** ** The header of a program *)

Definition word16 (b : list Z) (i : Z) : Z := at_ b i + 256 * at_ b (i + 1).
Definition word32 (b : list Z) (i : Z) : Z := word16 b i + 65536 * word16 b (i + 2).

(** What [load] takes for a program, on the first 52 bytes of the file. *)
Definition executable (b : list Z) : bool :=
  bool_decide (take 7 b = [127; 69; 76; 70; 1; 1; 1]) && (word16 b 16 =? 2) && (word16 b 18 =? 3) && (word32 b 20 =? 1) &&
  (word16 b 44 <=? 1024) && (word16 b 42 =? 32).

Lemma get_u16_at b i : bytes b -> 0 <= i -> i + 2 <= zlen b -> get_u16 b i = Ok (word16 b i).
Proof.
  intros Hb Hi Hz. unfold get_u16, word16. rewrite (bindR_ok _ _ _ (aget_at b i ltac:(lia))), (bindR_ok _ _ _ (aget_at b (i + 1) ltac:(lia))).
  pose proof (bytes_at b i Hb). pose proof (bytes_at b (i + 1) Hb). unfold is_byte in *.
  rewrite Z.shiftl_mul_pow2 by lia. change (2 ^ 8) with 256. rewrite u16_small by lia. f_equal. lia.
Qed.

Lemma get_u32_at b i : bytes b -> 0 <= i -> i + 4 <= zlen b -> get_u32 b i = Ok (word32 b i).
Proof.
  intros Hb Hi Hz. unfold get_u32, word32, word16. rewrite (bindR_ok _ _ _ (aget_at b i ltac:(lia))), (bindR_ok _ _ _ (aget_at b (i + 1) ltac:(lia))).
  rewrite (bindR_ok _ _ _ (aget_at b (i + 2) ltac:(lia))), (bindR_ok _ _ _ (aget_at b (i + 3) ltac:(lia))).
  pose proof (bytes_at b i Hb). pose proof (bytes_at b (i + 1) Hb). pose proof (bytes_at b (i + 2) Hb). pose proof (bytes_at b (i + 3) Hb).
  unfold is_byte in *. rewrite !Z.shiftl_mul_pow2 by lia. change (2 ^ 8) with 256. change (2 ^ 16) with 65536. change (2 ^ 24) with 16777216.
  replace (i + 2 + 1) with (i + 3) by lia. rewrite u32_small by lia. f_equal. lia.
Qed.

Lemma memcmp_spec_eq (a b : list Z) : length a = length b -> memcmp_spec a b = 0 <-> a = b.
Proof.
  revert b. induction a as [|x a IH]; intros [|y b] Hl; cbn in Hl; try done. cbn [memcmp_spec].
  destruct (Z.eqb_spec x y) as [->|Hne].
  - rewrite IH by lia. split; congruence.
  - split; [destruct (schar y <? schar x); lia | congruence].
Qed.

Definition Ehdr_of (b : list Z) : Ehdr :=
  mk_Ehdr (take 16 b) (word16 b 16) (word16 b 18) (word32 b 20) (word32 b 24) (word32 b 28) (word16 b 42) (word16 b 44).

Lemma get_Ehdr_at b : bytes b -> zlen b = 52 -> get_Ehdr b = Ok (Ehdr_of b).
Proof.
  intros Hb Hz. unfold get_Ehdr. rewrite !get_u16_at, !get_u32_at by (done || lia). done.
Qed.

Lemma take_bytes n b : bytes b -> bytes (take n b).
Proof. apply Forall_take. Qed.

Lemma bad_header_at b : bytes b -> zlen b = 52 -> bad_header (Ehdr_of b) = Ok (negb (executable b)).
Proof.
  intros Hb Hz. unfold bad_header, Ehdr_of, executable. cbn [e_ident e_type e_machine e_version e_phnum e_phentsize].
  assert (Hl : length (take 7 b) = 7%nat) by (rewrite length_take; unfold zlen in Hz; lia).
  assert (E : take 16 b = take 7 b ++ take 9 (drop 7 b)) by (rewrite <- (take_drop 7 b) at 1; rewrite take_app_ge by lia; by rewrite Hl).
  pose proof (memcmp_loop_ok (take 7 b) [127; 69; 76; 70; 1; 1; 1] (take 16 b) [127; 69; 76; 70; 1; 1; 1; 0] [] (take 9 (drop 7 b)) [] [0]
    ltac:(by rewrite Hl) (take_bytes _ _ Hb) ltac:(by apply (bool_decide_unpack _)) E eq_refl) as Em.
  rewrite Hl in Em. change (zlen (@nil Z)) with 0 in Em. unfold memcmp. change (Z.to_nat 7) with 7%nat. rewrite (bindR_ok _ _ _ Em). f_equal.
  pose proof (memcmp_spec_eq (take 7 b) [127; 69; 76; 70; 1; 1; 1] ltac:(by rewrite Hl)) as Hs.
  rewrite !negb_andb. rewrite <- Z.ltb_antisym. unfold sizeof_Phdr.
  assert (E0 : (memcmp_spec (take 7 b) [127; 69; 76; 70; 1; 1; 1] =? 0) = bool_decide (take 7 b = [127; 69; 76; 70; 1; 1; 1])).
  { apply eq_true_iff_eq. by rewrite Z.eqb_eq, bool_decide_eq_true. }
  by rewrite E0.
Qed.

Lemma bytes_contents d l : dwf d -> bytes (file_contents d l).
Proof.
  intros Hd. induction l as [|x l IH]; [by apply Forall_nil|]. rewrite file_contents_cons. apply Forall_app. split; [|done].
  apply (dread_sector d _ Hd).
Qed.

(** C11. A file that does not start with the header of a program of the kind
    that is supported, or that is shorter than a header, is not run: [load]
    returns -1, [sys_execv] fails, and nothing but the cache of the FAT
    changes.  In particular the calling process keeps its memory and name. *)
Theorem execv_rejects (pool_lock : pool_flag -> Z) (s : xstate (D := D)) (f : File) (l : list Z) (argv : Z) :
  dstate_wf (xd s) -> chain (dsk (xd s)) (FstClus f) l -> NoDup l ->
  executable (take 52 (file_contents (dsk (xd s)) l)) = false ->
  exists s', load pool_lock f s = Ok (Done (-1), s') /\ sys_execv pool_lock f argv s = Ok (Done Failed, s') /\
    xk s' = xk s /\ dsk (xd s') = dsk (xd s).
Proof.
  intros Hw Hc Hn He. set (s1 := with_xl s (replicate 52 0)). set (data := file_contents (dsk (xd s)) l) in *.
  pose proof (sys_read_file_ok s1 f l 0 52 Hw Hc Hn ltac:(lia) ltac:(lia)) as R. cbn [s1 with_xl xd xl] in R. fold data s1 in R.
  change (drop (Z.to_nat 0) data) with data in R. unfold read_out in R. rewrite Z.add_0_l, Z.sub_0_r in R. change (0 <? 52) with true in R.
  assert (Hload : exists s', load pool_lock f s = Ok (Done (-1), s') /\ xk s' = xk s /\ dsk (xd s') = dsk (xd s)).
  { unfold load, clear_local. rewrite bind_modify. change (replicate (Z.to_nat sizeof_Ehdr) 0) with (replicate 52 0). fold (with_xl s (replicate 52 0)) s1.
    destruct (Z.leb_spec 52 (zlen data)) as [Hz|Hz]; cbn [andb] in R.
    - change (Z.to_nat 52) with 52%nat in R. destruct R as (s' & E & Hk & Hd & _ & Hx); [rewrite length_take, length_replicate; lia|].
      exists s'. split; [|by split]. rewrite (bindM_ok _ _ _ _ _ E). change (negb (52 =? sizeof_Ehdr)) with false.
      cbv iota. rewrite bind_gets.
      assert (Hlt : zlen (take 52 data) = 52) by (unfold zlen in *; rewrite length_take; lia).
      rewrite drop_ge, app_nil_r in Hx by (rewrite length_replicate; unfold zlen in Hlt; lia). cbn [app] in Hx. rewrite Hx.
      assert (Hb : bytes (take 52 data)) by (apply take_bytes, bytes_contents, Hw).
      rewrite (bindM_ok _ _ _ _ _ (lift_ok _ _ _ (get_Ehdr_at _ Hb Hlt))), (bindM_ok _ _ _ _ _ (lift_ok _ _ _ (bad_header_at _ Hb Hlt))).
      by rewrite He.
    - destruct R as (s' & E & Hk & Hd & _ & Hx); [rewrite length_replicate; unfold zlen in Hz; lia|].
      exists s'. split; [|by split]. by rewrite (bindM_ok _ _ _ _ _ E). }
  destruct Hload as (s' & E & Hk & Hd). exists s'. split; [exact E|]. split; [|by split].
  unfold sys_execv, obind. rewrite (bindM_ok _ _ _ _ _ E). done.
Qed.
End files.

(** ** Witnesses *)

Definition demo_file : File :=
  mk_File [73; 78; 73; 84; 32; 32; 32; 32; 66; 73; 78] 32 (replicate 10 0) 0 0 2 600 0 0 0 true.
Definition demo_x : xstate := mk_xstate demo_three Fat.demo (replicate 16 7).

Lemma demo_chain : chain (dsk (xd demo_x)) (FstClus demo_file) [2; 3].
Proof. by apply (bool_decide_unpack _). Qed.

Lemma fork_name_after_execv_witness :
  (exists post, fork_name ([115; 104] ++ replicate 14 0) = Ok ([115; 104] ++ fork_suffix ++ post)) /\
  exists n e, memcpy (replicate 16 0) 0 (file_head demo_file) 0 16 = Ok n /\ fork_name n = Err e.
Proof.
  split.
  - destruct (fork_name_after_execv [115; 104] ([115; 104] ++ replicate 14 0) [] demo_file) as [H _].
    destruct H as (post & E & _); [|reflexivity|cbn; lia|by exists post].
    exists [], (replicate 13 0). split; [reflexivity|]. split; [reflexivity|]. by apply (bool_decide_unpack _).
  - destruct (fork_name_after_execv [] [] (replicate 16 0) demo_file) as [_ H].
    apply H; [reflexivity..|]. by apply (bool_decide_unpack _).
Defined.

Lemma sys_read_file_reads_chain_witness : exists s', sys_read_file demo_file 510 4 Local demo_x = Ok (4, s') /\
  xl s' = replicate 4 0 ++ replicate 12 7.
Proof.
  destruct (sys_read_file_reads_chain demo_x demo_file [2; 3] 510 4 demo_wf demo_chain) as (s' & E & _ & _ & Hx).
  - by apply (bool_decide_unpack _).
  - lia.
  - lia.
  - by apply (bool_decide_unpack _).
  - exists s'. split; [exact E|exact Hx].
Defined.

Lemma execv_rejects_witness : exists s', sys_execv lk_pool demo_file 0 demo_x = Ok (Done Failed, s') /\ xk s' = demo_three.
Proof.
  destruct (execv_rejects lk_pool demo_x demo_file [2; 3] 0 demo_wf demo_chain) as (s' & _ & E & Hk & _).
  - by apply (bool_decide_unpack _).
  - vm_compute. reflexivity.
  - exists s'. split; [exact E|exact Hk].
Defined.
