(* ===== verification/Typed.v ===== *)
(** * Typed: every field keeps a value of its C type

    The model computes with integers; [typed] says that the kernel's are values
    of their C types.  [types m Q] is the typing judgement of an operation:
    from a typed state it leads to a typed state and a value in [Q].  It has a
    rule for each construct of the monad, [typing] applies them, and the
    database [typed] holds the judgements of the functions.

    [world] is the kernel with its heap, clock and disk, and [reachable] the
    states that calls in any order lead to.  A call that is suspended returns;
    the code it would continue with is a call of its own, or is left out where
    the model of the function leaves it out. *)

From S2P Require Import Prelude CString Interrupt Lists Bitmap BlockDev Disk Fat File Kernel Paging Thread Sync IoQueue Memory DataPages Screen Timer Heap Pid Process Demo Wait Fork Exec.
Open Scope gw_scope.

(** ** C types *)

Definition is_int8 (x : Z) : Prop := -128 <= x < 128.
Definition is_int16 (x : Z) : Prop := -32768 <= x < 32768.

Record bitmap_typed (mp : bitmap) : Prop := {
  bt_len : is_word (len mp);
  bt_bytes : bytes (bits mp) }.

Record vaddr_typed (v : virtual_addr) : Prop := {
  vt_bitmap : bitmap_typed (vaddr_bitmap v);
  vt_start : is_word (vaddr_start v) }.

Record pool_typed (p : pool) : Prop := {
  lt_bitmap : bitmap_typed (pool_bitmap p);
  lt_start : is_word (phy_addr_start p);
  lt_size : is_word (pool_size p) }.

(** The fields of [struct pcb] hold values of their types, [name] 16 bytes. *)
Record pcb_typed (p : pcb) : Prop := {
  pt_kstack : is_word (self_kstack p);
  pt_pid : is_int16 (pid p);
  pt_name : bytes (name p) /\ length (name p) = 16%nat;
  pt_priority : is_byte (priority p);
  pt_ticks : is_byte (ticks p);
  pt_elapsed : is_word (elapsed_ticks p);
  pt_dir : is_word (pg_dir p);
  pt_vaddr : vaddr_typed (userprog_vaddr p);
  pt_bits : is_word (vaddr_bits p);
  pt_parent : is_int16 (parent_pid p);
  pt_exit : is_int8 (exit_status p);
  pt_magic : is_word (stack_magic p) }.

(** The kernel: its PCBs, the words of memory, the pools and bitmaps, the
    registers, the values of semaphores and the counters of locks. *)
Record typed (k : kernel) : Prop := {
  ty_pcbs : forall t p, pcbs (kth k) !! t = Some p -> pcb_typed p;
  ty_words : words_ok (ram (kmem k));
  ty_pools : forall pf, pool_typed (pool_of pf (kmem k));
  ty_vaddr : vaddr_typed (kernel_vaddr (kmem k));
  ty_pids : bitmap_typed (pid_bitmap (kth k));
  ty_cr3 : is_word (cr3 (kc k));
  ty_esp0 : is_word (tss_esp0 (kc k));
  ty_values : forall s v, sema_value (ksy k) !! s = Some v -> is_byte v;
  ty_locks : forall lk l, locks (ksy k) !! lk = Some l -> is_word (holder_repeat_cnt l) }.

(** ** Typing of operations *)

(** A state is typed if the kernel in it is, its disk keeps sectors of bytes
    and its counters are words. *)
Class TypedState (S : Type) := state_typed : S -> Prop.
#[export] Instance kernel_state : TypedState kernel := typed.
#[export] Instance heap_state : TypedState heap := fun h => typed (hk h).
#[export] Instance clock_state : TypedState clock := fun s => typed (tk s) /\ is_word (total_ticks s) /\ is_word (FHL_count s).
#[export] Instance xstate_state {D} `{BlockDevice D} : TypedState (@xstate D) := fun s => typed (xk s) /\ dwf (dsk (xd s)).

(** From a typed state [m] leads to a typed state and a value in [Q]. *)
Definition types {S A} `{TypedState S} (m : M S A) (Q : A -> Prop) : Prop :=
  forall s a s', state_typed s -> m s = Ok (a, s') -> state_typed s' /\ Q a.

Definition any {A} (_ : A) : Prop := True.
(** The value of a call that was not suspended. *)
Definition done_ {A} (Q : A -> Prop) (o : outcome A) : Prop := match o with Done a => Q a | _ => True end.

Create HintDb typed discriminated.

Section rules.
Context {S : Type} `{TypedState S}.

Lemma types_bind {A B} (m : M S A) (f : A -> M S B) Q R :
  types m Q -> (forall a, Q a -> types (f a) R) -> types (m ≫= f) R.
Proof.
  intros Hm Hf s b s' Hs E. apply bindM_inv in E as (a & s1 & E1 & E2).
  destruct (Hm s a s1 Hs E1) as [Hs1 Ha]. by apply (Hf a Ha s1).
Qed.

Lemma types_obind {A B} (m : M S (outcome A)) (f : A -> M S (outcome B)) Q R :
  types m (done_ Q) -> (forall a, Q a -> types (f a) (done_ R)) -> types (obind m f) (done_ R).
Proof.
  intros Hm Hf. apply (types_bind _ _ (done_ Q)); [done|].
  intros o Ho. destruct o; [by apply Hf|..]; intros s o s' Hs [= <- <-]; done.
Qed.

Lemma types_ret {A} (a : A) (Q : A -> Prop) : Q a -> types (mret a) Q.
Proof. intros Ha s b s' Hs [= <- <-]. done. Qed.

Lemma types_fail {A} e (Q : A -> Prop) : types (fail e) Q.
Proof. done. Qed.

Lemma types_lift {A} (r : res A) (Q : A -> Prop) : (forall a, r = Ok a -> Q a) -> types (lift r) Q.
Proof. intros Hr s a s' Hs E. unfold lift in E. destruct r as [b|]; [|done]. injection E as <- <-. auto. Qed.

Lemma types_assert b : types (ASSERTM b) (fun _ => b = true).
Proof. apply types_lift. by destruct b. Qed.

Lemma types_weaken {A} (m : M S A) (Q R : A -> Prop) : types m Q -> (forall a, Q a -> R a) -> types m R.
Proof. intros Hm HQ s a s' Hs E. destruct (Hm s a s' Hs E). auto. Qed.

Lemma types_any {A} (m : M S A) (Q : A -> Prop) : types m Q -> types m any.
Proof. intros Hm. by apply (types_weaken m Q). Qed.
End rules.

Lemma types_gets {A} (f : kernel -> A) (Q : A -> Prop) : (forall k, typed k -> Q (f k)) -> types (gets f) Q.
Proof. intros Hf k a k' Hk [= <- <-]. split; [done|]. by apply Hf. Qed.

Lemma types_modify (f : kernel -> kernel) : (forall k, typed k -> typed (f k)) -> types (modify f) any.
Proof. intros Hf k a k' Hk [= <- <-]. split; [by apply Hf|done]. Qed.

Lemma types_on_mach {A} (m : M mach A) : types (on_mach m) any.
Proof.
  intros k a k' Hk E. unfold on_mach in E. destruct (m (km k)) as [[b x]|]; [|done]. injection E as <- <-.
  split; [|done]. destruct Hk. by split.
Qed.

Lemma types_on_k {A} (m : M kernel A) Q : types m Q -> types (on_k m) Q.
Proof.
  intros Hm h a h' Hs E. unfold on_k in E. destruct (m (hk h)) as [[b k]|] eqn:Em; [|done].
  injection E as <- <-. by apply (Hm (hk h)).
Qed.

Lemma types_on_tk {A} (m : M kernel A) Q : types m Q -> types (on_tk m) Q.
Proof.
  intros Hm h a h' [Hs Hc] E. unfold on_tk in E. destruct (m (tk h)) as [[b k]|] eqn:Em; [|done].
  injection E as <- <-. destruct (Hm (tk h) _ _ Hs Em). by split; [split|].
Qed.

Lemma types_on_kx {D} `{BlockDevice D} {A} (m : M kernel A) Q : types m Q -> types (on_kx m) Q.
Proof.
  intros Hm h a h' [Hs Hc] E. unfold on_kx in E. destruct (m (xk h)) as [[b k]|] eqn:Em; [|done].
  injection E as <- <-. destruct (Hm (xk h) _ _ Hs Em). by split; [split|].
Qed.

(** ** Values *)

Lemma u32_word x : is_word (u32 x).
Proof. apply u32_range. Qed.
Lemma u8_byte x : is_byte (u8 x).
Proof. apply u8_range. Qed.
Lemma i16_int16 x : is_int16 (i16 x).
Proof. unfold is_int16, i16. zarith. Qed.
Lemma i8_int8 x : is_int8 (i8 x).
Proof. unfold is_int8, i8. zarith. Qed.

(** Bit by bit. *)
Lemma word_bits x : is_word x <-> 0 <= x /\ forall i, 32 <= i -> Z.testbit x i = false.
Proof.
  split.
  - intros [H0 Hx]. split; [done|]. intros i Hi. destruct (decide (x = 0)) as [->|N]; [apply Z.bits_0|].
    apply Z.bits_above_log2; [done|]. assert (Z.log2 x < 32); [|lia]. apply Z.log2_lt_pow2; lia.
  - intros [H0 Hb]. split; [done|]. destruct (Z.lt_ge_cases x 4294967296) as [|Hge]; [done|].
    assert (Hx : 0 < x) by lia. pose proof (Z.bit_log2 x Hx) as Ht. rewrite Hb in Ht; [done|].
    apply Z.log2_le_pow2; lia.
Qed.

Lemma land_word x y : is_word x -> is_word (Z.land x y).
Proof.
  rewrite !word_bits. intros [H0 Hb]. split; [apply Z.land_nonneg; by left|].
  intros i Hi. by rewrite Z.land_spec, Hb.
Qed.
Lemma land_word_r x y : is_word y -> is_word (Z.land x y).
Proof. rewrite Z.land_comm. apply land_word. Qed.
Lemma lor_word x y : is_word x -> is_word y -> is_word (Z.lor x y).
Proof.
  rewrite !word_bits. intros [H0 Hb] [G0 Gb]. split; [by apply Z.lor_nonneg|].
  intros i Hi. by rewrite Z.lor_spec, Hb, Gb.
Qed.
Lemma entry_word x : is_word x -> is_word (entry_of x).
Proof. intros Hx. unfold entry_of. repeat apply lor_word; try done; unfold is_word, PG_US_U, PG_RW_W, PG_P_1; lia. Qed.
#[export] Hint Resolve u32_word u8_byte i16_int16 i8_int8 land_word land_word_r lor_word entry_word : typed.

Lemma aset_length l i x l' : aset l i x = Ok l' -> length l' = length l.
Proof. unfold aset. destruct (_ || _); [done|]. intros [= <-]. apply length_insert. Qed.
Lemma aset_bytes l i x l' : aset l i x = Ok l' -> bytes l -> is_byte x -> bytes l'.
Proof. unfold aset. destruct (_ || _); [done|]. intros [= <-] Hl Hx. by apply Forall_insert. Qed.
Lemma aget_byte l i x : aget l i = Ok x -> bytes l -> is_byte x.
Proof.
  unfold aget. destruct (i <? 0); [done|]. destruct (l !! _) as [y|] eqn:E; [|done].
  intros [= <-] Hl. by apply (Forall_lookup_1 _ _ _ _ Hl E).
Qed.

Lemma set_idx_typed mp i v mp' : bitmap_set_idx mp i v = Ok mp' -> bitmap_typed mp -> bitmap_typed mp'.
Proof.
  unfold bitmap_set_idx. intros E [Hl Hb]. apply bindR_inv in E as (u & _ & E). apply bindR_inv in E as (b & _ & E).
  apply bindR_inv in E as (bs & Es & [= <-]). split; [done|]. apply (aset_bytes _ _ _ _ Es); [done|apply u8_byte].
Qed.

Lemma set_run_typed n : forall mp i v mp', set_run n mp i v = Ok mp' -> bitmap_typed mp -> bitmap_typed mp'.
Proof.
  induction n as [|n IH]; intros mp i v mp'; cbn [set_run]; [by intros [= <-]|].
  intros (m1 & E1 & E2)%bindR_inv Hm. by apply (IH _ _ _ _ E2), (set_idx_typed _ _ _ _ E1).
Qed.

Lemma strcpy_loop_typed n : forall dst p src q dst', strcpy_loop n dst p src q = Ok dst' ->
  bytes dst -> bytes src -> bytes dst' /\ length dst' = length dst.
Proof.
  induction n as [|n IH]; intros dst p src q dst'; cbn [strcpy_loop]; [done|].
  intros (c & Ec & (d1 & E1 & E2)%bindR_inv)%bindR_inv Hd Hs.
  assert (Hd1 : bytes d1) by (apply (aset_bytes _ _ _ _ E1); [done|by apply (aget_byte _ _ _ Ec)]).
  rewrite <- (aset_length _ _ _ _ E1). destruct (c =? 0); [by injection E2 as <-|by apply (IH _ _ _ _ _ E2)].
Qed.

Lemma memcpy_loop_typed n : forall dst p src q dst', memcpy_loop n dst p src q = Ok dst' ->
  bytes dst -> bytes src -> bytes dst' /\ length dst' = length dst.
Proof.
  induction n as [|n IH]; intros dst p src q dst'; cbn [memcpy_loop]; [by intros [= <-]|].
  intros (c & Ec & (d1 & E1 & E2)%bindR_inv)%bindR_inv Hd Hs.
  rewrite <- (aset_length _ _ _ _ E1). apply (IH _ _ _ _ _ E2); [|done].
  apply (aset_bytes _ _ _ _ E1); [done|by apply (aget_byte _ _ _ Ec)].
Qed.

Lemma memset_loop_typed n : forall dst p v dst', memset_loop n dst p v = Ok dst' -> is_byte v -> bytes dst -> bytes dst'.
Proof.
  induction n as [|n IH]; intros dst p v dst'; cbn [memset_loop]; [by intros [= <-]|].
  intros (d1 & E1 & E2)%bindR_inv Hv Hd. by apply (IH _ _ _ _ E2), (aset_bytes _ _ _ _ E1).
Qed.

Lemma bitmap_init_typed mp mp' : bitmap_init mp = Ok mp' -> bitmap_typed mp -> bitmap_typed mp'.
Proof.
  intros (b & E & [= <-])%bindR_inv [Hl Hb]. split; [done|]. by apply (memset_loop_typed _ _ _ _ _ E).
Qed.

(** ** Parts of the kernel *)

Lemma typed_pcbs k p : typed k -> (forall t q, p !! t = Some q -> pcb_typed q) -> typed (set_pcbs p k).
Proof. intros Hk Hp. destruct Hk. by split. Qed.
Lemma typed_pids k b : typed k -> bitmap_typed b -> typed (set_pid_bitmap b k).
Proof. intros Hk Hb. destruct Hk. by split. Qed.
Lemma typed_start x k : typed k -> typed (set_pid_start x k).
Proof. intros Hk. destruct Hk. by split. Qed.
Lemma typed_main x k : typed k -> typed (set_main_thread x k).
Proof. intros Hk. destruct Hk. by split. Qed.
Lemma typed_idle x k : typed k -> typed (set_idle_thread x k).
Proof. intros Hk. destruct Hk. by split. Qed.
Lemma typed_cpu c d e k : typed k -> is_word d -> is_word e -> typed (set_kc (mk_cpu c d e) k).
Proof. intros Hk H1 H2. destruct Hk. by split. Qed.
Lemma typed_pool pf p k : typed k -> pool_typed p -> typed (set_pool pf p k).
Proof.
  intros Hk Hp. destruct Hk as [T1 T2 T3 T4 T5 T6 T7 T8 T9]. pose proof (T3 PF_KERNEL). pose proof (T3 PF_USER).
  by split; try done; [destruct pf|intros []; destruct pf|destruct pf..].
Qed.
Lemma typed_vaddr v k : typed k -> vaddr_typed v -> typed (set_kernel_vaddr v k).
Proof. intros Hk Hv. destruct Hk as [T1 T2 T3 T4 T5 T6 T7 T8 T9]. by split. Qed.
Lemma typed_ram r k : typed k -> words_ok r -> typed (set_ram r k).
Proof. intros Hk Hv. destruct Hk as [T1 T2 T3 T4 T5 T6 T7 T8 T9]. by split. Qed.
Lemma typed_insert k t p : typed k -> pcb_typed p -> typed (set_pcbs (<[t := p]> (pcbs (kth k))) k).
Proof.
  intros Hk Hp. apply typed_pcbs; [done|]. intros x q [[_ <-]|[_ E]]%lookup_insert_Some; [done|]. by apply (ty_pcbs _ Hk x).
Qed.
#[export] Hint Resolve typed_pids typed_start typed_main typed_idle typed_cpu typed_pool typed_vaddr typed_ram typed_insert : typed.
#[export] Hint Resolve ty_pools ty_vaddr ty_pids ty_cr3 ty_esp0 : typed.

(** *** Fields of PCBs *)

Lemma set_status_typed x p : pcb_typed p -> pcb_typed (set_status x p).
Proof. intros []. by split. Qed.
Lemma set_ticks_typed x p : pcb_typed p -> is_byte x -> pcb_typed (set_ticks x p).
Proof. intros []. by split. Qed.
Lemma set_elapsed_typed x p : pcb_typed p -> is_word x -> pcb_typed (set_elapsed_ticks x p).
Proof. intros []. by split. Qed.
Lemma set_vaddr_typed x p : pcb_typed p -> vaddr_typed x -> pcb_typed (set_userprog_vaddr x p).
Proof. intros []. by split. Qed.
Lemma set_parent_typed x p : pcb_typed p -> is_int16 x -> pcb_typed (set_parent_pid x p).
Proof. intros []. by split. Qed.
Lemma set_exit_typed x p : pcb_typed p -> is_int8 x -> pcb_typed (set_exit_status x p).
Proof. intros []. by split. Qed.
Lemma set_dir_typed x p : pcb_typed p -> is_word x -> pcb_typed (set_pg_dir x p).
Proof. intros []. by split. Qed.
Lemma set_kstack_typed x p : pcb_typed p -> is_word x -> pcb_typed (set_self_kstack x p).
Proof. intros []. by split. Qed.
Lemma set_name_typed x p : pcb_typed p -> bytes x -> length x = 16%nat -> pcb_typed (set_name x p).
Proof. intros []. by split. Qed.
Lemma set_pid_typed x p : pcb_typed p -> is_int16 x -> pcb_typed (set_pid x p).
Proof. intros []. by split. Qed.
Lemma set_bits_typed x p : pcb_typed p -> is_word x -> pcb_typed (set_vaddr_bits x p).
Proof. intros []. by split. Qed.
#[export] Hint Resolve set_status_typed set_ticks_typed set_elapsed_typed set_vaddr_typed set_parent_typed
  set_exit_typed set_dir_typed set_kstack_typed set_name_typed set_pid_typed set_bits_typed : typed.
#[export] Hint Resolve pt_kstack pt_pid pt_priority pt_ticks pt_elapsed pt_dir pt_vaddr pt_bits pt_parent pt_exit
  vt_bitmap vt_start lt_bitmap lt_start lt_size : typed.

Lemma mk_vaddr_typed b s : bitmap_typed b -> is_word s -> vaddr_typed (mk_vaddr b s).
Proof. by split. Qed.
Lemma mk_pool_typed b s n : bitmap_typed b -> is_word s -> is_word n -> pool_typed (mk_pool b s n).
Proof. by split. Qed.
#[export] Hint Resolve mk_vaddr_typed mk_pool_typed : typed.

Lemma zero_pcb_typed : pcb_typed zero_pcb.
Proof. split; try (unfold zero_pcb, is_word, is_int16, is_byte, is_int8, NULL; cbn; lia).
  - split; [apply Forall_replicate; unfold is_byte; lia|done].
  - split; [split|]; cbn; try (unfold is_word, NULL; lia). by apply Forall_nil.
Qed.
#[export] Hint Resolve zero_pcb_typed : typed.

(** ** Primitive operations *)

Lemma types_get_pcb t : types (get_pcb t) pcb_typed.
Proof.
  intros k p k' Hk E. unfold get_pcb in E. destruct (pcbs (kth k) !! t) as [q|] eqn:Eq; [|done].
  injection E as <- <-. split; [done|]. by apply (ty_pcbs _ Hk t).
Qed.
Lemma types_put_pcb t p : pcb_typed p -> types (put_pcb t p) any.
Proof. intros Hp. apply types_modify. intros k Hk. by apply typed_insert. Qed.
Lemma types_upd_pcb t f : (forall p, pcb_typed p -> pcb_typed (f p)) -> types (upd_pcb t f) any.
Proof. intros Hf. apply (types_bind _ _ pcb_typed); [apply types_get_pcb|]. intros p Hp. by apply types_put_pcb, Hf. Qed.
Lemma types_vload v : types (vload v) is_word.
Proof.
  intros k x k' Hk E. unfold vload in E. destruct (translate _ _ _) as [a|]; [|done]. injection E as <- <-.
  split; [done|]. apply word_ok, (ty_words _ Hk).
Qed.
Lemma types_vstore v x : is_word x -> types (vstore v x) any.
Proof.
  intros Hx k u k' Hk E. unfold vstore in E. destruct (translate _ _ _) as [a|]; [|done]. injection E as <- <-.
  split; [|done]. apply typed_ram; [done|]. intros b y [[_ <-]|[_ Ey]]%lookup_insert_Some; [done|]. by apply (ty_words _ Hk b).
Qed.
Lemma types_running : types running_thread any.
Proof. by apply types_gets. Qed.
Lemma types_set_value s v : is_byte v -> types (set_value s v) any.
Proof.
  intros Hv. apply types_modify. intros k Hk. destruct Hk as [T1 T2 T3 T4 T5 T6 T7 T8 T9]. split; try done.
  intros x y E. cbn in E. apply lookup_insert_Some in E as [[_ <-]|[_ E]]; [done|by apply (T8 x)].
Qed.
Lemma types_get_value s : types (get_value s) is_byte.
Proof.
  intros k v k' Hk E. unfold get_value in E. destruct (_ !! s) as [x|] eqn:Ex; [|done]. injection E as <- <-.
  split; [done|by apply (ty_values _ Hk s)].
Qed.
Lemma types_set_lock lk h n : is_word n -> types (set_lock lk (mk_lock h n)) any.
Proof.
  intros Hv. apply types_modify. intros k Hk. destruct Hk as [T1 T2 T3 T4 T5 T6 T7 T8 T9]. split; try done.
  intros x y E. cbn in E. apply lookup_insert_Some in E as [[_ <-]|[_ E]]; [done|by apply (T9 x)].
Qed.
Lemma types_get_lock lk : types (get_lock lk) (fun l => is_word (holder_repeat_cnt l)).
Proof.
  intros k v k' Hk E. unfold get_lock in E. destruct (_ !! lk) as [x|] eqn:Ex; [|done]. injection E as <- <-.
  split; [done|by apply (ty_locks _ Hk lk)].
Qed.
#[export] Hint Resolve types_get_pcb types_put_pcb types_upd_pcb types_vload types_vstore types_running types_set_value
  types_get_value types_set_lock types_get_lock types_on_mach types_on_k types_on_tk types_on_kx : typed.

Lemma is_word_lit x : ((0 <=? x) && (x <? 4294967296)) = true -> is_word x.
Proof. intros H. bool_prop. done. Qed.
Ltac literal x := first [is_const x | lazymatch x with Zpos _ => idtac | Z0 => idtac end].
#[export] Hint Extern 2 (is_word ?x) => (literal x; apply is_word_lit; reflexivity) : typed.
#[export] Hint Extern 2 (is_int16 ?x) => (lazymatch x with Zpos _ => idtac | Zneg _ => idtac end; unfold is_int16; lia) : typed.
#[export] Hint Extern 1 (any _) => exact I : typed.
#[export] Hint Extern 1 (True) => exact I : typed.
#[export] Hint Extern 1 (done_ _ _) => progress cbn [done_] : typed.

(** One rule for every construct of the monad; what is left are the ranges of
    the values. *)
Ltac typing_step :=
  cbv zeta;
  lazymatch goal with
  | |- forall _, _ => intros ?
  | |- types (mret _) _ => apply types_ret
  | |- types (fail _) _ => apply types_fail
  | |- types (ASSERTM _) _ => first [apply types_assert | eapply types_weaken; [apply types_assert|intros; exact I]]
  | |- types (if ?b then _ else _) _ => destruct b eqn:?
  | |- types (match ?x with _ => _ end) _ => destruct x
  | |- types (obind _ _) _ => eapply types_obind
  | |- @types _ _ _ (@mbind _ _ unit _ _ _) _ => apply (types_bind _ _ any)
  | |- @types _ _ _ (@mbind _ _ bool _ _ _) _ => apply (types_bind _ _ any)
  | |- @types _ _ _ (@mbind _ _ intr_status _ _ _) _ => apply (types_bind _ _ any)
  | |- types (_ ≫= _) _ => eapply types_bind
  | |- types (on_k _) _ => apply types_on_k
  | |- types (on_tk _) _ => apply types_on_tk
  | |- types (on_kx _) _ => apply types_on_kx
  | |- types (modify _) _ => apply types_modify
  | |- types (upd_pcb _ _) _ => first [apply types_upd_pcb; intros; solve [eauto 10 with typed] | eapply types_any; apply types_upd_pcb; intros; solve [eauto 10 with typed]]
  | |- types (gets _) _ => first [solve [eauto 6 with typed] | apply (types_gets _ any); intros; exact I]
  | |- types (lift _) _ => first [solve [eauto 6 with typed] | apply (types_lift _ any); intros; exact I]
  | |- types _ _ => first [solve [eauto 6 with typed] | eapply types_any; solve [eauto 6 with typed]]
  | |- _ => solve [eauto 6 with typed]
  end.
Ltac typing := repeat (typing_step; try eassumption).

(** ** Memory *)

Lemma types_vzero n : forall v, types (vzero n v) any.
Proof. induction n as [|n IH]; intros v; cbn [vzero]; typing. Qed.
Lemma types_palloc pf : types (palloc pf) is_word.
Proof.
  unfold palloc. eapply (types_bind _ _ pool_typed); [apply types_gets; intros k Hk; apply (ty_pools _ Hk)|].
  intros p Hp. apply (types_bind _ _ any); [by apply types_lift|]. intros idx _. destruct (idx =? -1); [typing|].
  apply (types_bind _ _ bitmap_typed); [apply types_lift; intros b E; by apply (set_idx_typed _ _ _ _ E), lt_bitmap|].
  intros b Hb. typing.
Qed.
#[export] Hint Resolve types_vzero types_palloc : typed.
Lemma types_page_table_add v q : is_word q -> types (page_table_add v q) any.
Proof. intros Hq. unfold page_table_add. typing. Qed.
Lemma types_vir2phy v : types (addr_vir2phy v) is_word.
Proof. unfold addr_vir2phy. typing. Qed.
Lemma types_pte_remove v : types (page_table_pte_remove v) any.
Proof. unfold page_table_pte_remove. typing. Qed.
Lemma types_pfree q : types (pfree q) any.
Proof.
  unfold pfree. apply (types_bind _ _ (fun m => forall pf, pool_typed (pool_of pf m))); [apply types_gets; intros k Hk; apply (ty_pools _ Hk)|].
  intros m Hm. cbv zeta. match goal with |- context [pool_of ?pf m] => set (q0 := pf); specialize (Hm q0) end.
  apply (types_bind _ _ bitmap_typed); [apply types_lift; intros b E; by apply (set_idx_typed _ _ _ _ E), lt_bitmap|].
  intros b Hb. typing.
Qed.
Lemma types_free_one q : types (free_one_phy_page q) any.
Proof. apply types_pfree. Qed.
#[export] Hint Resolve types_page_table_add types_vir2phy types_pte_remove types_pfree types_free_one : typed.
Lemma types_activate t : types (page_dir_activate t) any.
Proof.
  unfold page_dir_activate. apply (types_bind _ _ pcb_typed); [apply types_get_pcb|]. intros p Hp.
  apply (types_bind _ _ is_word); [typing|]. intros c Hc. typing.
Qed.
Lemma types_update_esp t : types (update_tss_esp t) any.
Proof. unfold update_tss_esp. typing. Qed.
#[export] Hint Resolve types_activate types_update_esp : typed.
Lemma types_process_activate t : types (process_activate t) any.
Proof. unfold process_activate. typing. Qed.
Lemma types_switch_to t n : types (switch_to t n) any.
Proof. unfold switch_to. typing. Qed.
#[export] Hint Resolve types_process_activate types_switch_to : typed.

(** ** Threads *)

Lemma types_unblock t : types (thread_unblock t) any.
Proof. unfold thread_unblock. typing. Qed.
#[export] Hint Resolve types_unblock : typed.
Lemma types_schedule : types schedule any.
Proof. unfold schedule. typing. Qed.
#[export] Hint Resolve types_schedule : typed.
Lemma types_yield : types thread_yield any.
Proof. unfold thread_yield. typing. Qed.
Lemma types_block s : types (thread_block s) any.
Proof. unfold thread_block. typing. Qed.
Lemma types_resume s : types (resume s) any.
Proof. unfold resume. typing. Qed.
#[export] Hint Resolve types_yield types_block types_resume : typed.

(** ** Semaphores and locks *)

Lemma types_sema_init s v : types (semaphore_init s v) any.
Proof. unfold semaphore_init. typing. Qed.
#[export] Hint Resolve types_sema_init : typed.
Lemma types_lock_init lk : types (lock_init lk) any.
Proof. unfold lock_init. typing. Qed.
Lemma types_down_iter s o : types (semaphore_down_iter s o) any.
Proof. unfold semaphore_down_iter. typing. Qed.
#[export] Hint Resolve types_lock_init types_down_iter : typed.
Lemma types_down s : types (semaphore_down s) any.
Proof. unfold semaphore_down. typing. Qed.
Lemma types_down_again s o : types (semaphore_down_again s o) any.
Proof. unfold semaphore_down_again. typing. Qed.
Lemma types_up s : types (semaphore_up s) any.
Proof. unfold semaphore_up. typing. Qed.
#[export] Hint Resolve types_down types_down_again types_up : typed.
Lemma types_acquire_set lk : types (lock_acquire_set lk) any.
Proof. unfold lock_acquire_set. typing. Qed.
#[export] Hint Resolve types_acquire_set : typed.
Lemma types_acquire lk : types (lock_acquire lk) any.
Proof. unfold lock_acquire. typing. Qed.
Lemma types_release_clear lk : types (lock_release_clear lk) any.
Proof.
  unfold lock_release_clear. typing. apply types_set_lock. bool_prop. unfold is_word in *. lia.
Qed.
#[export] Hint Resolve types_acquire types_release_clear : typed.
Lemma types_release lk : types (lock_release lk) any.
Proof. unfold lock_release. typing. Qed.
#[export] Hint Resolve types_release : typed.

(** ** Page allocation *)

Lemma types_get_vaddr pf : types (get_vaddr pf) vaddr_typed.
Proof.
  unfold get_vaddr. destruct pf; [apply types_gets; intros k Hk; by apply ty_vaddr|]. typing.
Qed.
Lemma types_set_vaddr pf v : vaddr_typed v -> types (set_vaddr pf v) any.
Proof. intros Hv. unfold set_vaddr. typing. Qed.
#[export] Hint Resolve types_get_vaddr types_set_vaddr : typed.

Lemma types_vaddr_get pf n : types (vaddr_get pf n) is_word.
Proof.
  unfold vaddr_get. apply (types_bind _ _ vaddr_typed); [apply types_get_vaddr|]. intros va Hva.
  apply (types_bind _ _ any); [by apply types_lift|]. intros idx _. destruct (idx =? -1); [typing|].
  apply (types_bind _ _ bitmap_typed); [apply types_lift; intros b E; by apply (set_run_typed _ _ _ _ _ E), vt_bitmap|].
  intros b Hb. destruct pf; typing.
Qed.
Lemma types_vaddr_remove pf v n : types (vaddr_remove pf v n) any.
Proof.
  unfold vaddr_remove. apply (types_bind _ _ vaddr_typed); [apply types_get_vaddr|]. intros va Hva. cbv zeta.
  apply (types_bind _ _ bitmap_typed); [apply types_lift; intros b E; by apply (set_run_typed _ _ _ _ _ E), vt_bitmap|].
  typing.
Qed.
#[export] Hint Resolve types_vaddr_get types_vaddr_remove : typed.
Lemma types_malloc_loop n : forall pf v s, is_word s -> types (malloc_page_loop n pf v s) is_word.
Proof. induction n as [|n IH]; intros pf v s Hs; cbn [malloc_page_loop]; typing. Qed.
#[export] Hint Resolve types_malloc_loop : typed.
Lemma types_malloc_page pf n : types (malloc_page pf n) is_word.
Proof. unfold malloc_page. typing. Qed.
Lemma types_mfree_loop n : forall v lo hi, types (mfree_page_loop n v lo hi) any.
Proof. induction n as [|n IH]; intros v lo hi; cbn [mfree_page_loop]; typing. Qed.
#[export] Hint Resolve types_malloc_page types_mfree_loop : typed.
Lemma types_mfree_page pf v n : types (mfree_page pf v n) any.
Proof. unfold mfree_page. typing. Qed.
#[export] Hint Resolve types_mfree_page : typed.

Lemma types_get_pages pl pf n : types (get_pages pl pf n) (done_ is_word).
Proof. unfold get_pages. typing. Qed.
Lemma types_get_kernel_pages pl n : types (get_kernel_pages pl n) (done_ is_word).
Proof. apply types_get_pages. Qed.
Lemma types_get_user_pages pl n : types (get_user_pages pl n) (done_ is_word).
Proof. apply types_get_pages. Qed.
#[export] Hint Resolve types_get_pages types_get_kernel_pages types_get_user_pages : typed.
Lemma types_get_one_page_no_bitmap pl pf v : is_word v -> types (get_one_page_no_bitmap pl pf v) (done_ is_word).
Proof. intros Hv. unfold get_one_page_no_bitmap. typing. Qed.
Lemma types_set_bit {S} `{TypedState S} mp i v : bitmap_typed mp -> types (lift (S := S) (bitmap_set_idx mp i v)) bitmap_typed.
Proof. intros Hm. apply types_lift. intros b E. by apply (set_idx_typed _ _ _ _ E). Qed.
#[export] Hint Resolve types_set_bit types_get_one_page_no_bitmap : typed.
Lemma types_get_one_page pl pf v : is_word v -> types (get_one_page pl pf v) (done_ is_word).
Proof. intros Hv. unfold get_one_page. typing. Qed.
#[export] Hint Resolve types_get_one_page : typed.

(** ** The heap *)

(** What does not touch the kernel. *)
Lemma types_no_kernel {A} (m : M heap A) : (forall h a h', m h = Ok (a, h') -> hk h' = hk h) -> types m any.
Proof. intros Hm h a h' Hs E. split; [|done]. unfold state_typed, heap_state in *. by rewrite (Hm h a h' E). Qed.

Lemma types_get_arena a : types (get_arena a) any.
Proof. apply types_no_kernel. intros h x h' E. unfold get_arena in E. destruct (arenas h !! a); [|done]. by injection E as _ <-. Qed.
Lemma types_put_arena a x : types (put_arena a x) any.
Proof. apply types_no_kernel. intros h u h' E. by injection E as _ <-. Qed.
Lemma types_drop_arena a : types (drop_arena a) any.
Proof. apply types_no_kernel. intros h u h' E. by injection E as _ <-. Qed.
Lemma types_get_desc d : types (get_desc d) any.
Proof. apply types_no_kernel. intros h x h' E. unfold get_desc in E. destruct (block_descs h !! d); [|done]. by injection E as _ <-. Qed.
#[export] Hint Resolve types_get_arena types_put_arena types_drop_arena types_get_desc : typed.

Lemma types_arena2block a i : types (arena2block a i) any.
Proof. unfold arena2block. typing. Qed.
Lemma types_find_desc n : forall d i l s, types (find_desc n d i l s) any.
Proof. induction n as [|n IH]; intros; cbn [find_desc]; typing. Qed.
#[export] Hint Resolve types_arena2block types_find_desc : typed.
Lemma types_fill_arena n : forall a i, types (fill_arena n a i) any.
Proof. induction n as [|n IH]; intros; cbn [fill_arena]; typing. Qed.
Lemma types_drain_arena n : forall a i, types (drain_arena n a i) any.
Proof. induction n as [|n IH]; intros; cbn [drain_arena]; typing. Qed.
#[export] Hint Resolve types_fill_arena types_drain_arena : typed.
Lemma types_malloc_large pf n : types (malloc_large pf n) any.
Proof. unfold malloc_large. typing. Qed.
Lemma types_new_arena pf d : types (new_arena pf d) any.
Proof. unfold new_arena. typing. Qed.
Lemma types_take_block x : types (take_block x) any.
Proof. unfold take_block. typing. Qed.
#[export] Hint Resolve types_malloc_large types_new_arena types_take_block : typed.
Lemma types_malloc_small pf d n : types (malloc_small pf d n) any.
Proof. unfold malloc_small. typing. Qed.
Lemma types_my_pool d : types (my_pool d) any.
Proof. unfold my_pool. typing. Qed.
#[export] Hint Resolve types_malloc_small types_my_pool : typed.
Lemma types_sys_malloc pl d n : types (sys_malloc pl d n) any.
Proof. unfold sys_malloc. typing. Qed.
Lemma types_free_small pf a p : types (free_small pf a p) any.
Proof. unfold free_small. typing. Qed.
#[export] Hint Resolve types_sys_malloc types_free_small : typed.
Lemma types_sys_free pl d p : types (sys_free pl d p) any.
Proof. unfold sys_free. typing. Qed.
#[export] Hint Resolve types_sys_free : typed.

(** ** Process numbers *)

Lemma types_pid_bitmap : types (gets (fun k => pid_bitmap (kth k))) bitmap_typed.
Proof. apply types_gets. intros k Hk. by apply ty_pids. Qed.
#[export] Hint Resolve types_pid_bitmap : typed.
Lemma types_with_lock {A} lk (m : M kernel A) : types m any -> types (with_lock lk m) any.
Proof. intros Hm. unfold with_lock. typing. Qed.
Lemma types_alloc_pid lk : types (alloc_pid lk) (done_ is_int16).
Proof.
  unfold alloc_pid. apply (types_bind _ _ any).
  - apply types_with_lock. eapply types_bind; [apply types_pid_bitmap|]. typing.
  - typing.
Qed.
Lemma types_release_pid lk x : types (release_pid lk x) any.
Proof.
  unfold release_pid. apply types_with_lock. typing.
Qed.
Lemma types_pid_pool_init lk l : bytes l -> types (pid_pool_init lk l) any.
Proof.
  intros Hl. unfold pid_pool_init. apply (types_bind _ _ any); [typing|]. intros _ _.
  apply (types_bind _ _ bitmap_typed); [|typing]. apply types_lift. intros b E. apply (bitmap_init_typed _ _ E).
  by split; [apply is_word_lit|].
Qed.
#[export] Hint Resolve types_alloc_pid types_release_pid types_pid_pool_init : typed.

(** ** Searching the list of threads *)

Lemma types_traversal_loop n L (f : Z -> M kernel bool) : (forall x, types (f x) any) ->
  forall node, types (list_traversal_loop km n L node f) any.
Proof.
  intros Hf. induction n as [|n IH]; intros node; cbn [list_traversal_loop]; [apply types_fail|].
  destruct (_ =? _); [typing|]. apply (types_bind _ _ any); [apply Hf|]. intros b _. destruct b; [typing|].
  apply (types_bind _ _ any); [|intros; apply IH]. intros k a k' Hk E. unfold on_links in E.
  destruct (rd_next node (km k)) as [[x m]|]; [|done]. by injection E as <- <-.
Qed.

Lemma types_traverse f : (forall x, types (f x) any) -> types (traverse_all f) any.
Proof.
  intros Hf. unfold traverse_all. apply (types_bind _ _ any); [by apply (types_gets _ any)|]. intros L _.
  intros k a k' Hk. revert k a k' Hk. unfold list_traversal. intros k a k' Hk E.
  assert (Hl : forall A (m : M mach A), types (on_links km m) any).
  { intros A m k0 b k0' Hk0 E0. unfold on_links in E0. destruct (m (km k0)) as [[x y]|]; [|done]. by injection E0 as <- <-. }
  revert E. apply (types_bind (on_links km (rd_next (head_of L))) _ any any); [apply Hl| |done]. intros node _.
  apply (types_bind _ _ any); [apply Hl|]. intros b _. destruct b; [typing|]. by apply types_traversal_loop.
Qed.
#[export] Hint Resolve types_traverse : typed.
Lemma types_pid_check x n : types (pid_check x n) any.
Proof. unfold pid_check. typing. Qed.
#[export] Hint Resolve types_pid_check : typed.
Lemma types_pid2pcb x : types (pid2pcb x) any.
Proof. unfold pid2pcb. typing. Qed.
#[export] Hint Resolve types_pid2pcb : typed.

(** ** The timer *)

Lemma types_total x : is_word x -> types (set_total_ticks x) any.
Proof. intros Hx s u s' (H1 & _ & H3) [= <- <-]. by split; [split|]. Qed.
Lemma types_FHL x : is_word x -> types (set_FHL_count x) any.
Proof. intros Hx s u s' (H1 & H2 & _) [= <- <-]. by split; [split|]. Qed.
Lemma types_get_total : types (gets total_ticks) is_word.
Proof. intros s u s' Hs [= <- <-]. split; [done|apply Hs]. Qed.
Lemma types_get_FHL : types (gets FHL_count) is_word.
Proof. intros s u s' Hs [= <- <-]. split; [done|apply Hs]. Qed.
Lemma types_tscreen {A} (m : M screen A) : types (on_tscreen m) any.
Proof.
  intros s a s' Hs E. unfold on_tscreen in E. destruct (m (tscreen s)) as [[b x]|]; [|done]. by injection E as <- <-.
Qed.
Lemma mod3_word x : is_word (u32 x mod 3).
Proof. pose proof (u32_word x). unfold is_word in *. zarith. Qed.
#[export] Hint Resolve types_total types_FHL types_get_total types_get_FHL types_tscreen mod3_word : typed.
Lemma types_timer : types intr_timer_handler any.
Proof. unfold intr_timer_handler. typing. Qed.
Lemma types_sleep_test a n : types (sleep_test a n) any.
Proof. unfold sleep_test. typing. Qed.
#[export] Hint Resolve types_timer types_sleep_test : typed.
Lemma types_sleep_again o a n : types (sleep_again o a n) any.
Proof. unfold sleep_again. typing. Qed.
Lemma types_ms_sleep n : types (ms_sleep n) any.
Proof. unfold ms_sleep, ticks_to_sleep. typing. Qed.
#[export] Hint Resolve types_sleep_again types_ms_sleep : typed.

(** ** Creating threads and processes *)

Lemma types_vstores l : forall a, Forall (fun '(_, x) => is_word x) l -> types (vstores a l) any.
Proof. induction l as [|[o x] l IH]; intros a Hl; cbn [vstores]; [typing|]. apply Forall_cons in Hl as [Hx Hl]. typing. Qed.
Lemma types_vcopy n : forall d s, types (vcopy n d s) any.
Proof. induction n as [|n IH]; intros d s; cbn [vcopy]; typing. Qed.
Lemma types_zero_links l : types (on_mach (zero_links l)) any.
Proof. apply types_on_mach. Qed.
Lemma types_put_descs t l : forall i, types (put_descs t i l) any.
Proof.
  induction l as [|d l IH]; intros i; cbn [put_descs]; [typing|]. apply (types_bind _ _ any); [|intros; apply IH].
  apply types_no_kernel. intros h u h' E. by injection E as _ <-.
Qed.
#[export] Hint Resolve types_vcopy types_put_descs : typed.
#[export] Hint Extern 1 (types (vstores _ _) _) =>
  (apply types_vstores; repeat (apply Forall_cons; split); [eauto with typed..|apply Forall_nil]) : typed.
Lemma types_clear_pcb t : types (clear_pcb t) any.
Proof. unfold clear_pcb. typing. Qed.
#[export] Hint Resolve types_clear_pcb : typed.

Section creation.
Context (pool_lock : pool_flag -> Z) (pid_lock kernel_thread start_process_addr idle_addr init_addr intr_exit : Z).
Context (kernel_thread_word : is_word kernel_thread) (start_word : is_word start_process_addr)
  (idle_word : is_word idle_addr) (init_word : is_word init_addr) (intr_exit_word : is_word intr_exit).

Lemma types_init_thread t name prio : bytes name -> types (init_thread pid_lock t name prio) (done_ any).
Proof.
  intros Hn. unfold init_thread. apply (types_bind _ _ any); [typing|]. intros _ _.
  apply (types_bind _ _ any); [typing|]. intros _ _.
  apply (types_obind _ _ is_int16); [typing|]. intros x Hx. apply (types_bind _ _ any); [typing|]. intros main _.
  apply (types_bind _ _ pcb_typed); [typing|]. intros p Hp.
  apply (types_bind _ _ (fun l => bytes l /\ length l = 16%nat)).
  - apply types_lift. intros l E. destruct (pt_name _ Hp) as [H1 H2].
    destruct (strcpy_loop_typed _ _ _ _ _ _ E H1 Hn). by rewrite H2 in *.
  - intros l [Hl1 Hl2]. apply (types_bind _ _ any); [|typing]. apply types_on_k, types_put_pcb. destruct Hp.
    split; cbn; eauto with typed.
Qed.

Lemma types_thread_create t f a : is_word f -> is_word a -> types (thread_create kernel_thread t f a) any.
Proof.
  intros Hf Ha. unfold thread_create. typing.
Qed.
Lemma types_enter_lists t : types (enter_lists t) any.
Proof. unfold enter_lists. typing. Qed.
Hint Resolve types_init_thread types_thread_create types_enter_lists : typed.

Lemma types_thread_start name prio f a : bytes name -> is_word f -> is_word a ->
  types (thread_start pool_lock pid_lock kernel_thread name prio f a) (done_ any).
Proof. intros Hn Hf Ha. unfold thread_start. typing. Qed.

Ltac literal_bytes := repeat (apply Forall_cons; split); [unfold is_byte; lia..|apply Forall_nil].
Hint Extern 1 (bytes (_ :: _)) => literal_bytes : typed.

Lemma types_make_main : types (make_main_thread pid_lock) (done_ any).
Proof.
  unfold make_main_thread. typing.
Qed.

Lemma types_create_page_dir : types (create_page_dir pool_lock) (done_ is_word).
Proof. unfold create_page_dir. typing. Qed.

Lemma types_user_bitmap t : types (create_user_vaddr_bitmap pool_lock t) (done_ any).
Proof.
  unfold create_user_vaddr_bitmap. apply (types_obind _ _ is_word); [typing|]. intros b Hb. destruct (b =? NULL); [typing|].
  apply (types_bind _ _ bitmap_typed); [|typing]. apply types_lift. intros m E. apply (bitmap_init_typed _ _ E).
  split; [by apply is_word_lit|]. apply Forall_replicate. unfold is_byte. lia.
Qed.

Lemma types_init_descs t : types (init_user_descs t) any.
Proof. unfold init_user_descs. typing. Qed.
Hint Resolve types_thread_start types_make_main types_create_page_dir types_user_bitmap types_init_descs : typed.

Lemma types_process_execute proc name : bytes name -> is_word proc ->
  types (process_execute pool_lock pid_lock kernel_thread start_process_addr proc name) (done_ any).
Proof. intros Hn Hp. unfold process_execute. typing. Qed.

Lemma types_start_process proc : is_word proc -> types (start_process pool_lock proc) (done_ any).
Proof.
  intros Hp. unfold start_process. typing.
Qed.
Hint Resolve types_process_execute types_start_process : typed.

Lemma types_thread_init l : bytes l ->
  types (thread_init pool_lock pid_lock kernel_thread start_process_addr idle_addr init_addr l) (done_ any).
Proof. intros Hl. unfold thread_init. typing. Qed.
Hint Resolve types_thread_init : typed.

(** ** The end of processes *)

Lemma types_release_ptes n : forall v i, types (release_ptes n v i) any.
Proof. induction n as [|n IH]; intros v i; cbn [release_ptes]; typing. Qed.
Hint Resolve types_release_ptes : typed.
Lemma types_release_pdes n : forall v i, types (release_pdes n v i) any.
Proof. induction n as [|n IH]; intros v i; cbn [release_pdes]; typing. Qed.
Hint Resolve types_release_pdes : typed.
Lemma types_release_prog t : types (release_prog_resource t) any.
Proof. unfold release_prog_resource. typing. Qed.
Lemma types_drop_pcb t : types (drop_pcb t) any.
Proof.
  apply types_modify. intros k Hk. apply typed_pcbs; [done|]. intros x q [_ E]%lookup_delete_Some. by apply (ty_pcbs _ Hk x).
Qed.
Hint Resolve types_release_prog types_drop_pcb : typed.
Lemma types_thread_exit t b : types (thread_exit pid_lock t b) any.
Proof. unfold thread_exit. typing. Qed.
Hint Resolve types_thread_exit : typed.
Lemma types_reap c a : types (reap pid_lock c a) any.
Proof. unfold reap. typing. Qed.
Hint Resolve types_reap : typed.
Lemma types_node_pcb n : types (node_pcb n) pcb_typed.
Proof. apply types_get_pcb. Qed.
Hint Resolve types_node_pcb : typed.
Lemma types_wait_round h f a : (forall n, types (h n) any) -> (forall n, types (f n) any) -> types (wait_round pid_lock h f a) any.
Proof. intros Hh Hf. unfold wait_round. typing. Qed.
Lemma types_tests : (forall x n, types (check_child x n) any) /\ (forall x n, types (check_hanging_child x n) any) /\
  (forall x n, types (check_thread x n) any) /\ (forall x n, types (check_hanging_thread x n) any).
Proof. unfold check_child, check_hanging_child, check_thread, check_hanging_thread. split_and!; intros; typing. Qed.
Lemma types_sys_wait x a : types (sys_wait pid_lock x a) any.
Proof. apply types_wait_round; apply types_tests. Qed.
Lemma types_sys_wait_any a : types (sys_wait_without_pid pid_lock a) any.
Proof. unfold sys_wait_without_pid. typing. apply types_wait_round; apply types_tests. Qed.
Hint Resolve types_sys_wait types_sys_wait_any : typed.
Lemma types_change_parent x n : types (change_parent_to_init x n) any.
Proof. unfold change_parent_to_init. typing. Qed.
Hint Resolve types_change_parent : typed.
Lemma types_sys_exit st : types (sys_exit st) any.
Proof. unfold sys_exit. typing. Qed.

(** ** Fork *)

Lemma types_copy_pcb_page c p : types (copy_pcb_page c p) any.
Proof. unfold copy_pcb_page. typing. Qed.
Lemma fork_name_typed n n' : fork_name n = Ok n' -> bytes n /\ length n = 16%nat -> bytes n' /\ length n' = 16%nat.
Proof.
  unfold fork_name. intros E [Hb Hl]. apply bindR_inv in E as (l & _ & E). apply bindR_inv in E as (u & _ & E).
  apply bindR_inv in E as (l' & _ & E).
  repeat (apply bindR_inv in E as (? & E1 & E);
    pose proof (aset_bytes _ _ _ _ E1 ltac:(done) ltac:(unfold is_byte; lia));
    pose proof (aset_length _ _ _ _ E1); clear E1).
  split; [apply (aset_bytes _ _ _ _ E); [done|unfold is_byte; lia]|]. rewrite (aset_length _ _ _ _ E). congruence.
Qed.
Lemma types_fork_name p : pcb_typed p ->
  types (lift (S := heap) (fork_name (name p))) (fun n => bytes n /\ length n = 16%nat).
Proof. intros Hp. apply types_lift. intros n E. apply (fork_name_typed _ _ E), Hp. Qed.
Lemma set_name_typed2 x p : pcb_typed p -> bytes x /\ length x = 16%nat -> pcb_typed (set_name x p).
Proof. intros Hp [H1 H2]. by apply set_name_typed. Qed.
Hint Resolve types_fork_name set_name_typed2 types_copy_pcb_page : typed.
Lemma types_copy_stack0 c p : types (copy_pcb_vaddrbitmap_stack0 pool_lock pid_lock c p) (done_ any).
Proof. unfold copy_pcb_vaddrbitmap_stack0. typing. Qed.
Lemma types_copy_page c p t v : is_word v -> types (copy_page pool_lock c p t v) (done_ any).
Proof. intros Hv. unfold copy_page. typing. Qed.
Hint Resolve types_copy_stack0 types_copy_page : typed.
Lemma types_copy_bits n : forall i b f c p t, types (copy_bits pool_lock n i b f c p t) (done_ any).
Proof. induction n as [|n IH]; intros; cbn [copy_bits]; typing. Qed.
Hint Resolve types_copy_bits : typed.
Lemma types_copy_bytes n : forall i va c p t, types (copy_bytes pool_lock n i va c p t) (done_ any).
Proof.
  induction n as [|n IH]; intros; cbn [copy_bytes]; [typing|]. apply (types_bind _ _ any); [typing|]. intros b _.
  apply (types_obind _ _ any); typing.
Qed.
Hint Resolve types_copy_bytes : typed.
Lemma types_copy_body c p t : types (copy_body_stack3 pool_lock c p t) (done_ any).
Proof. unfold copy_body_stack3. typing. Qed.
Lemma types_build_child c : types (build_child_stack intr_exit c) any.
Proof. unfold build_child_stack. typing. Qed.
Hint Resolve types_copy_body types_build_child : typed.
Lemma types_copy_process c p : types (copy_process pool_lock pid_lock intr_exit c p) (done_ any).
Proof. unfold copy_process. typing. Qed.
Hint Resolve types_copy_process : typed.
Lemma types_sys_fork : types (sys_fork pool_lock pid_lock intr_exit) (done_ any).
Proof. unfold sys_fork. typing. Qed.
Hint Resolve types_sys_fork types_sys_exit : typed.

(** ** Programs *)

Section programs.
Context {D : Type} `{BlockDevice D}.

Lemma set_byte_word x i b : is_word x -> 0 <= i < 4 -> is_byte b -> is_word (set_byte x i b).
Proof.
  intros Hx Hi Hb. apply lor_word.
  - apply word_bits in Hx as [H0 Hx]. apply word_bits. split; [apply Z.ldiff_nonneg; by left|].
    intros j Hj. by rewrite Z.ldiff_spec, Hx.
  - unfold is_byte in Hb. rewrite Z.shiftl_mul_pow2 by lia. unfold is_word.
    assert (i = 0 \/ i = 1 \/ i = 2 \/ i = 3) as [->|[->|[->| ->]]] by lia;
      match goal with |- context [2 ^ ?e] => let v := eval vm_compute in (2 ^ e) in change (2 ^ e) with v end; lia.
Qed.

Lemma types_vstoreb v b : is_byte b -> types (vstoreb v b) any.
Proof.
  intros Hb k u k' Hk E. unfold vstoreb in E. destruct (translate _ _ _) as [a|]; [|done]. injection E as <- <-.
  split; [|done]. apply typed_ram; [done|]. intros c y [[_ <-]|[_ Ey]]%lookup_insert_Some; [|by apply (ty_words _ Hk c)].
  apply set_byte_word; [apply word_ok, (ty_words _ Hk)|zarith|done].
Qed.
Hint Resolve types_vstoreb : typed.

(** What changes neither the kernel nor the disk. *)
Lemma types_local {A} (m : M (@xstate D) A) : (forall s a s', m s = Ok (a, s') -> xk s' = xk s /\ dsk (xd s') = dsk (xd s)) ->
  types m any.
Proof.
  intros Hm s a s' Hs E. destruct (Hm s a s' E) as [E1 E2]. split; [|done]. unfold state_typed, xstate_state in *. by rewrite E1, E2.
Qed.

Lemma types_put_dest dst i b : is_byte b -> types (put_dest dst i b) any.
Proof.
  intros Hb. destruct dst as [|v]; [|cbn [put_dest]; typing]. apply types_local. intros s u s'. unfold put_dest.
  intros E. apply bindM_inv in E as (s0 & s1 & [= -> ->] & E). apply bindM_inv in E as (l & s2 & E1 & E2).
  unfold lift in E1. destruct (aset _ _ _); [|done]. injection E1 as <- <-. by injection E2 as <- <-.
Qed.
Lemma types_read_sdb lba : types (read_sdb lba) bytes.
Proof.
  unfold read_sdb. apply (types_bind _ _ any); [eapply types_any, types_assert|]. intros _ _ s b s' Hs [= <- <-].
  split; [done|]. by apply (dread_sector _ _ (proj2 Hs)).
Qed.
Hint Resolve types_put_dest types_read_sdb : typed.
Lemma types_update_img n : forall i, types (sys_update_img_loop n i) any.
Proof.
  induction n as [|n IH]; intros i; cbn [sys_update_img_loop]; [typing|]. apply (types_bind _ _ bytes); [typing|]. intros b _.
  apply (types_bind _ _ any); [|intros; apply IH]. apply types_local. by intros s u s' [= <- <-].
Qed.
Hint Resolve types_update_img : typed.
Lemma types_next_cluster c : types (sys_get_fat_next_cluster c) any.
Proof.
  unfold sys_get_fat_next_cluster, sys_update_img. typing.
  apply types_local. by intros s u s' [= <- <-].
Qed.
Lemma types_aget {S} `{TypedState S} l i : bytes l -> types (lift (S := S) (aget l i)) is_byte.
Proof. intros Hl. apply types_lift. intros b E. by apply (aget_byte _ _ _ E). Qed.
Hint Resolve types_next_cluster types_aget : typed.
Lemma types_read_bytes n : forall b i l sz dst, bytes b -> types (read_bytes n b i l sz dst) any.
Proof. induction n as [|n IH]; intros; cbn [read_bytes]; typing. Qed.
Hint Resolve types_read_bytes : typed.
Lemma types_read_loop n : forall c o l sz dst, types (read_file_loop n c o l sz dst) any.
Proof. induction n as [|n IH]; intros; cbn [read_file_loop]; typing. Qed.
Hint Resolve types_read_loop : typed.
Lemma types_read_file f o n dst : types (sys_read_file f o n dst) any.
Proof. apply types_read_loop. Qed.
Lemma types_segment_pages n : forall v, is_word v -> types (segment_pages pool_lock n v) (done_ any).
Proof. induction n as [|n IH]; intros v Hv; cbn [segment_pages]; typing. Qed.
Lemma types_clear_local n : types (clear_local n) any.
Proof. apply types_local. by intros s u s' [= <- <-]. Qed.
Hint Resolve types_read_file types_segment_pages types_clear_local : typed.
Lemma types_segment_load f o n v : types (segment_load pool_lock f o n v) (done_ any).
Proof. unfold segment_load. typing. Qed.
Lemma types_gets_local {A} (g : @xstate D -> A) : types (gets g) any.
Proof. apply types_local. by intros s u s' [= _ <-]. Qed.
Hint Resolve types_segment_load types_gets_local : typed.
Lemma types_load_segments n : forall f o z, types (load_segments pool_lock n f o z) (done_ any).
Proof. induction n as [|n IH]; intros; cbn [load_segments]; typing. Qed.
Hint Resolve types_load_segments : typed.
Lemma types_load f : types (load pool_lock f) (done_ any).
Proof. unfold load. typing. Qed.
Hint Resolve types_load : typed.

Lemma types_sys_execv f argv : bytes (file_head f) -> is_word argv -> types (sys_execv pool_lock f argv) (done_ any).
Proof.
  intros Hf Ha. unfold sys_execv. apply (types_obind _ _ any); [typing|]. intros e _. destruct (e =? -1); [typing|].
  apply (types_bind _ _ any); [typing|]. intros c _. apply (types_bind _ _ pcb_typed); [typing|]. intros p Hp.
  apply (types_bind _ _ (fun n => bytes n /\ length n = 16%nat)); [|intros n Hn; typing].
  apply types_lift. intros n E. destruct (pt_name _ Hp) as [H1 H2].
  destruct (memcpy_loop_typed _ _ _ _ _ _ E H1 Hf). by rewrite H2 in *.
Qed.
End programs.

End creation.

(** ** A running system

    The kernel with what is outside of it, and the calls of the code that runs
    on it, in any order: system calls, the timer interrupt, and the functions
    of the kernel that threads use.  A call is given values of the types of its
    parameters. *)

Section world.
Context {D : Type} `{BlockDevice D}.
Context (pool_lock : pool_flag -> Z) (pid_lock kernel_block_descs : Z).
Context (kernel_thread start_process_addr idle_addr init_addr intr_exit : Z).

Record world := mk_world {
  w_kernel : kernel;
  w_arenas : gmap Z arena;
  w_descs : gmap Z mem_block_desc;
  w_clock : clock;
  w_disk : @dstate D }.

Definition on_heap {A} (m : M heap A) : M world unit := fun w =>
  match m (mk_heap (w_kernel w) (w_arenas w) (w_descs w)) with
  | Ok (_, h) => Ok (tt, mk_world (hk h) (arenas h) (block_descs h) (w_clock w) (w_disk w))
  | Err e => Err e
  end.

Definition with_tk (k : kernel) (c : clock) : clock :=
  mk_clock k (tscreen c) (total_ticks c) (FHL_count c) (intr_function_table c) (ports_out c).

Definition on_clock {A} (m : M clock A) : M world unit := fun w =>
  match m (with_tk (w_kernel w) (w_clock w)) with
  | Ok (_, c) => Ok (tt, mk_world (tk c) (w_arenas w) (w_descs w) c (w_disk w))
  | Err e => Err e
  end.

Definition on_prog {A} (m : M (@xstate D) A) : M world unit := fun w =>
  match m (mk_xstate (w_kernel w) (w_disk w) []) with
  | Ok (_, x) => Ok (tt, mk_world (xk x) (w_arenas w) (w_descs w) (w_clock w) (xd x))
  | Err e => Err e
  end.

Inductive call :=
  | CThreadInit (bitmap_bits : list Z)
  | CThreadStart (name : list Z) (priority func arg : Z)
  | CProcessExecute (proc : Z) (name : list Z)
  | CStartProcess (proc : Z)
  | CTick
  | CYield
  | CBlock (s : task_status)
  | CUnblock (t : Z)
  | CResume (old : intr_status)
  | CAcquire (lk : Z)
  | CDownAgain (sema : Z) (old : intr_status)
  | CAcquireSet (lk : Z)
  | CRelease (lk : Z)
  | CLockInit (lk : Z)
  | CGetPages (pf : pool_flag) (cnt : Z)
  | CFreePages (pf : pool_flag) (v cnt : Z)
  | CMalloc (size : Z)
  | CFree (ptr : Z)
  | CFork
  | CExecv (acfile : File) (argv : Z)
  | CExit (st : Z)
  | CWait (x a : Z)
  | CWaitAny (a : Z)
  | CSleep (ms : Z)
  | CSleepAgain (old : intr_status) (start n : Z).

Definition call_typed (c : call) : Prop :=
  match c with
  | CThreadInit l => bytes l
  | CThreadStart nm _ f a => bytes nm /\ is_word f /\ is_word a
  | CProcessExecute p nm => is_word p /\ bytes nm
  | CStartProcess p => is_word p
  | CExecv f a => bytes (file_head f) /\ is_word a
  | _ => True
  end.

Definition run_call (c : call) : M world unit :=
  match c with
  | CThreadInit l => on_heap (thread_init pool_lock pid_lock kernel_thread start_process_addr idle_addr init_addr l)
  | CThreadStart nm pr f a => on_heap (thread_start pool_lock pid_lock kernel_thread nm pr f a)
  | CProcessExecute p nm => on_heap (process_execute pool_lock pid_lock kernel_thread start_process_addr p nm)
  | CStartProcess p => on_heap (on_k (start_process pool_lock p))
  | CTick => on_clock intr_timer_handler
  | CYield => on_heap (on_k thread_yield)
  | CBlock s => on_heap (on_k (thread_block s))
  | CUnblock t => on_heap (on_k (thread_unblock t))
  | CResume o => on_heap (on_k (resume o))
  | CAcquire lk => on_heap (on_k (lock_acquire lk))
  | CDownAgain s o => on_heap (on_k (semaphore_down_again s o))
  | CAcquireSet lk => on_heap (on_k (lock_acquire_set lk))
  | CRelease lk => on_heap (on_k (lock_release lk))
  | CLockInit lk => on_heap (on_k (lock_init lk))
  | CGetPages pf n => on_heap (on_k (get_pages pool_lock pf n))
  | CFreePages pf v n => on_heap (on_k (mfree_page pf v n))
  | CMalloc n => on_heap (sys_malloc pool_lock kernel_block_descs n)
  | CFree p => on_heap (sys_free pool_lock kernel_block_descs p)
  | CFork => on_heap (sys_fork pool_lock pid_lock intr_exit)
  | CExecv f a => on_prog (sys_execv pool_lock f a)
  | CExit st => on_heap (on_k (sys_exit st))
  | CWait x a => on_heap (on_k (sys_wait pid_lock x a))
  | CWaitAny a => on_heap (on_k (sys_wait_without_pid pid_lock a))
  | CSleep ms => on_clock (ms_sleep ms)
  | CSleepAgain o s n => on_clock (sleep_again o s n)
  end.

#[global] Instance world_state : TypedState world := fun w =>
  typed (w_kernel w) /\ is_word (total_ticks (w_clock w)) /\ is_word (FHL_count (w_clock w)) /\ dwf (dsk (w_disk w)).

(** The states a system can get to from [w0]. *)
Inductive reachable (w0 : world) : world -> Prop :=
  | reachable_start : reachable w0 w0
  | reachable_call w c u w' : reachable w0 w -> call_typed c -> run_call c w = Ok (u, w') -> reachable w0 w'.

Lemma types_on_heap {A} (m : M heap A) Q : types m Q -> types (on_heap m) any.
Proof.
  intros Hm w u w' (H1 & H2 & H3 & H4) E. unfold on_heap in E. destruct (m _) as [[a h]|] eqn:Em; [|done].
  injection E as <- <-. destruct (Hm (mk_heap _ _ _) _ _ H1 Em). by split; [split|].
Qed.
Lemma types_on_clock {A} (m : M clock A) Q : types m Q -> types (on_clock m) any.
Proof.
  intros Hm w u w' (H1 & H2 & H3 & H4) E. unfold on_clock in E. destruct (m _) as [[a h]|] eqn:Em; [|done].
  injection E as <- <-. destruct (Hm (with_tk _ _) _ _ (conj H1 (conj H2 H3)) Em) as [(G1 & G2 & G3) _]. by split; [split|].
Qed.
Lemma types_on_prog {A} (m : M (@xstate D) A) Q : types m Q -> types (on_prog m) any.
Proof.
  intros Hm w u w' (H1 & H2 & H3 & H4) E. unfold on_prog in E. destruct (m _) as [[a h]|] eqn:Em; [|done].
  injection E as <- <-. destruct (Hm (mk_xstate _ _ _) _ _ (conj H1 H4) Em) as [(G1 & G2) _]. by split; [split|].
Qed.

Context (kernel_thread_word : is_word kernel_thread) (start_word : is_word start_process_addr)
  (idle_word : is_word idle_addr) (init_word : is_word init_addr) (intr_exit_word : is_word intr_exit).

Lemma call_keeps_types c : call_typed c -> types (run_call c) any.
Proof.
  intros Hc. destruct c; cbn [run_call call_typed] in *;
    first [eapply types_on_heap | eapply types_on_clock | eapply types_on_prog]; try apply types_on_k; eauto 6 with typed.
  - by apply types_thread_init.
  - destruct Hc as (H1 & H2 & H3). by apply types_thread_start.
  - destruct Hc as (H1 & H2). by apply types_process_execute.
  - by apply types_start_process.
  - by apply types_sys_fork.
  - destruct Hc as (H1 & H2). by apply types_sys_execv.
  - apply types_sys_exit.
  - apply types_sys_wait.
  - apply types_sys_wait_any.
Qed.
End world.

(** ** Properties *)

(** Whatever calls threads make, in whatever order and with whatever
    values of the types of the parameters, every field of every PCB keeps a
    value of its C type (names their 16 bytes), and so do the words of memory,
    the bitmaps of pages and of process numbers, the control registers, the
    values of semaphores, the counters of locks and of the clock. *)
Lemma kernel_stays_typed {D : Type} `{BlockDevice D} (pool_lock : pool_flag -> Z)
    (pid_lock kernel_block_descs kernel_thread start_process_addr idle_addr init_addr intr_exit : Z) (w0 w : @world D) :
  is_word kernel_thread -> is_word start_process_addr -> is_word idle_addr -> is_word init_addr -> is_word intr_exit ->
  state_typed w0 ->
  reachable pool_lock pid_lock kernel_block_descs kernel_thread start_process_addr idle_addr init_addr intr_exit w0 w ->
  state_typed w.
Proof.
  intros H1 H2 H3 H4 H5 H0 Hr. induction Hr as [|w c u w' Hr IH Hc E]; [done|].
  apply (call_keeps_types pool_lock pid_lock kernel_block_descs kernel_thread start_process_addr idle_addr init_addr
    intr_exit H1 H2 H3 H4 H5 c Hc w u w' IH E).
Qed.

(** ** Witnesses *)

Section runs.
Context {D : Type} `{BlockDevice D}.
Context (pool_lock : pool_flag -> Z) (pid_lock kernel_block_descs : Z).
Context (kernel_thread start_process_addr idle_addr init_addr intr_exit : Z).

Fixpoint run_calls (cs : list call) : M (@world D) unit :=
  match cs with
  | [] => mret tt
  | c :: cs' =>
      _ ← run_call pool_lock pid_lock kernel_block_descs kernel_thread start_process_addr idle_addr init_addr intr_exit c;
      run_calls cs'
  end.

Lemma runs_reachable cs : forall w0 w u w', 
  reachable pool_lock pid_lock kernel_block_descs kernel_thread start_process_addr idle_addr init_addr intr_exit w0 w ->
  Forall call_typed cs -> run_calls cs w = Ok (u, w') ->
  reachable pool_lock pid_lock kernel_block_descs kernel_thread start_process_addr idle_addr init_addr intr_exit w0 w'.
Proof.
  induction cs as [|c cs IH]; intros w0 w u w' Hr Hc; cbn [run_calls]; [by intros [= _ <-]|].
  apply Forall_cons in Hc as [Hc Hcs]. intros (v & w1 & E1 & E2)%bindM_inv.
  apply (IH w0 w1 u w'); [|done|done]. by apply (reachable_call _ _ _ _ _ _ _ _ w0 w c v).
Qed.
End runs.

Lemma demo_thread_typed x s dir parent exit : is_int16 x -> is_word dir -> is_int16 parent -> is_int8 exit ->
  pcb_typed (demo_thread x s dir parent exit).
Proof.
  intros Hx Hd Hp He. assert (Hb : bytes (replicate 16 0)) by (apply Forall_replicate; unfold is_byte; lia).
  split; try done; by split; [split|]; [apply is_word_lit| |apply is_word_lit].
Qed.

Lemma first_bits_typed n : 0 <= n <= 8 -> bitmap_typed (first_bits n).
Proof. intros Hn. split; [by apply is_word_lit|]. by apply bw_bytes, first_bits_wf. Qed.

Lemma demo_three_typed : typed demo_three.
Proof.
  split.
  - intros t p E. apply elem_of_list_to_map_2 in E. cbn in E. rewrite !elem_of_cons in E.
    destruct E as [[= -> ->]|[[= -> ->]|[[= -> ->]|E]]]; [..|by apply not_elem_of_nil in E];
      apply demo_thread_typed; unfold is_int16, is_word, is_int8, NULL; lia.
  - apply words_check_ok. vm_compute. reflexivity.
  - intros []; split; try (by apply is_word_lit); apply first_bits_typed; unfold zlen; cbn; lia.
  - split; [apply first_bits_typed; unfold zlen; cbn; lia|by apply is_word_lit].
  - split; [by apply is_word_lit|]. apply Forall_cons; split; [split; by vm_compute|].
    apply Forall_replicate. unfold is_byte. lia.
  - by apply is_word_lit.
  - by apply is_word_lit.
  - intros s v E. apply elem_of_list_to_map_2 in E. cbn in E. rewrite !elem_of_cons in E. unfold is_byte.
    destruct E as [[= -> ->]|[[= -> ->]|[[= -> ->]|E]]]; [lia..|by apply not_elem_of_nil in E].
  - intros s v E. apply elem_of_list_to_map_2 in E. cbn in E. rewrite !elem_of_cons in E. unfold is_word.
    destruct E as [[= -> ->]|[[= -> ->]|[[= -> ->]|E]]]; [cbn; lia..|by apply not_elem_of_nil in E].
Qed.

Definition demo_world : @world ramdisk :=
  mk_world demo_three ∅ ∅ (mk_clock demo_three empty_screen 0 0 [] []) Fat.demo.

Lemma kernel_stays_typed_witness :
  exists w, reachable lk_pool lk_pid 0xc0005100 0xc0001000 0xc0002000 0xc0003000 0xc0004000 0xc0006000 demo_world w /\
    cur (kc (w_kernel w)) = t_ready /\ state_typed w.
Proof.
  set (r := run_calls lk_pool lk_pid 0xc0005100 0xc0001000 0xc0002000 0xc0003000 0xc0004000 0xc0006000
    [CTick; CAcquire lk_pid; CGetPages PF_KERNEL 1; CWait 9 0; CRelease lk_pid; CYield; CTick] demo_world).
  assert (Hr : match r with Ok (_, w) => cur (kc (w_kernel w)) =? t_ready | Err _ => false end = true)
    by (vm_compute; reflexivity).
  destruct r as [[u w]|] eqn:E; [|done]. exists w.
  assert (Hw : reachable lk_pool lk_pid 0xc0005100 0xc0001000 0xc0002000 0xc0003000 0xc0004000 0xc0006000 demo_world w).
  { apply (runs_reachable lk_pool lk_pid 0xc0005100 0xc0001000 0xc0002000 0xc0003000 0xc0004000 0xc0006000 _ _ _ u w
      (reachable_start _ _ _ _ _ _ _ _ demo_world)) with (2 := E). by repeat constructor. }
  split; [exact Hw|]. split; [by apply Z.eqb_eq|].
  apply (kernel_stays_typed lk_pool lk_pid 0xc0005100 0xc0001000 0xc0002000 0xc0003000 0xc0004000 0xc0006000 demo_world w);
    try (by apply is_word_lit); [|exact Hw].
  split; [exact demo_three_typed|]. split; [by apply is_word_lit|]. split; [by apply is_word_lit|]. apply demo_wf.
Defined.
