(* ===== verification/Boot.v ===== *)
(** * Boot: memory and threads come up (kernel/init.c, kernel/main.c)

    [mem_init] and [thread_init] in the order of [init_all]: the state the
    other components start from.  [init_all] calls [interrupt_init] before them, and
    device initialisation after them ([timer_init], [console_init],
    [keyboard_init], [tss_init], [syscall_init], [ide_init], the file system);
    those calls are not part of this model, and nothing is claimed of the
    states after them.

    The state the loader leaves is concrete: a directory with tables for the
    upper gigabyte, its first megabyte mapped, all other memory 0 (the loader
    clears only the directory), the stack below 0xc009f000.  The
    addresses the linker chooses are examples.  Whether a state keeps the
    invariants is decided by the checks of Demo. *)

From S2P Require Import Prelude CString Interrupt Lists Bitmap Kernel Paging Thread Sync IoQueue Memory DataPages Pid Space Heap HeapOk Tss Process System Demo Wait Typed.
Open Scope gw_scope.

Section boot.
Context (pool_lock : pool_flag -> Z) (pid_lock kernel_block_descs : Z) (bytes_at : Z -> Z -> list Z).
Context (kernel_thread_addr start_process_addr idle_addr init_addr : Z).

(** The descriptors from [i] on get their values. *)
Fixpoint put_block_descs (descs i : Z) (l : list mem_block_desc) : M heap unit :=
  match l with
  | [] => mret tt
  | d :: l' =>
      _ ← modify (fun h => mk_heap (hk h) (arenas h) (<[desc_ptr descs i := d]> (block_descs h)));
      put_block_descs descs (i + 1) l'
  end.

Definition set_layout (l : layout) (k : kernel) : kernel :=
  set_kmem (mk_memory (ram (kmem k)) (l_kernel_pool l) (l_user_pool l) (l_kernel_vaddr l)) k.

(** [bytes_at] are the bytes the bitmaps are laid over; the locks of the pools
    are initialised in the middle of [mem_pool_init]. *)
Definition mem_init : M heap unit :=
  l ← lift (mem_pool_init bytes_at 0x2000000);
  _ ← on_k (modify (set_layout l));
  _ ← on_k (lock_init (pool_lock PF_KERNEL));
  _ ← on_k (lock_init (pool_lock PF_USER));
  d ← on_k (on_mach (block_desc_init kernel_block_descs));
  put_block_descs kernel_block_descs 0 d.

(** The two calls of [init_all] about memory and threads, in its order. *)
Definition init_kernel (pid_bitmap_bits : list Z) : M heap (outcome unit) :=
  _ ← mem_init;
  thread_init pool_lock pid_lock kernel_thread_addr start_process_addr idle_addr init_addr pid_bitmap_bits.

End boot.

(** ** The state the loader leaves *)

Definition boot_ram : list (Z * Z) :=
  [(0x100000, 0x101007); (0x100ffc, 0x100007)] ++
  map (fun i => (0x100c00 + i * 4, 0x101007 + i * 4096)) (zrange 255 0) ++
  map (fun i => (0x101000 + i * 4, i * 4096 + 7)) (zrange 256 0).

Definition no_bits : bitmap := mk_bitmap 0 [].

(** The first instruction of [main]: interrupts off, static variables 0. *)
Definition loaded : heap :=
  mk_heap (mk_kernel (mk_mach 2 ∅ ∅) (mk_cpu 0xc009e000 kdir 0)
    (mk_memory (list_to_map boot_ram) (mk_pool no_bits 0 0) (mk_pool no_bits 0 0) (mk_vaddr no_bits 0))
    (mk_threads ∅ l_ready l_all 0 0 no_bits 0) (mk_sync ∅ ∅)) ∅ ∅.

Definition no_bytes (_ n : Z) : list Z := replicate (Z.to_nat n) 0.
Definition descs : Z := 0xc0006000.
Definition a_kernel_thread : Z := 0xc0001000.
Definition a_start_process : Z := 0xc0001100.
Definition a_idle : Z := 0xc0001200.
Definition a_init : Z := 0xc0001300.
Definition pid_bits : list Z := replicate 128 0.

Abbreviation booted := (init_kernel lk_pool lk_pid descs no_bytes a_kernel_thread a_start_process a_idle a_init pid_bits).
(** *** The bitmap of an address space is cleared at once *)

Lemma memset_zero n : memset (replicate n 0) 0 0 (Z.of_nat n) = Ok (replicate n 0).
Proof.
  pose proof (memset_ok [] (replicate n 0) [] 0) as E. cbn [app] in E. unfold zlen in E.
  rewrite !app_nil_r, !length_replicate in E. exact E.
Qed.

Lemma user_bitmap_zero : bitmap_init (mk_bitmap user_bitmap_len (replicate (Z.to_nat user_bitmap_len) 0)) =
  Ok (mk_bitmap user_bitmap_len (replicate (Z.to_nat user_bitmap_len) 0)).
Proof.
  unfold bitmap_init. cbn [bits len]. pose proof (memset_zero (Z.to_nat user_bitmap_len)) as E.
  rewrite Z2Nat.id in E by (vm_compute; discriminate). by rewrite E.
Qed.

(** ** Checks *)

Definition t_boot : Z := 0xc009e000.   (* the main thread *)
Definition t_init : Z := 0xc0100000.
Definition init_dir : Z := 0xc0118000.
Definition idle_t : Z := 0xc0119000.

(** The pages of the heap, in the order they were taken: the PCB, the bitmap and
    the directory of init, the PCB of idle. *)
Definition boot_pages : list (Z * Z) := map (fun i => (0xc0100000 + i * 4096, 0x200000 + i * 4096)) (zrange 26 0).
Definition boot_dirs : list (Z * Z) := [(t_init, 0x218000)].
Definition boot_lists (rs ts : list Z) : list (Z * list Z) :=
  demo_lists rs ts ++ map (fun i => (dlist descs i, [])) (zrange 7 0) ++ map (fun i => (dlist (user_block_descs t_init) i, [])) (zrange 7 0).

Definition pids_check (mp : bitmap) : bool := bitmap_check mp && (zlen (bits mp) =? 128).

Definition boot_check (k : kernel) (rs ts : list Z) : bool :=
  mem_check k [kdir; 0x218000] && space_check k && kspace_check k [0x218000] boot_dirs boot_pages &&
  system_check k (lk_pool PF_KERNEL) lk_pid (boot_lists rs ts) rs ts && pids_check (pid_bitmap (kth k)).

Lemma boot_check_ok k rs ts : boot_check k rs ts = true ->
  system_ok lk_pool lk_pid k (dir_of boot_dirs) (assoc boot_pages) (list_to_map (boot_lists rs ts)) rs ts.
Proof.
  unfold boot_check. intros H. apply andb_true_iff in H as [H Hp]. apply andb_true_iff in H as [H Hs].
  apply andb_true_iff in H as [H Hk]. apply andb_true_iff in H as [Hm Hv].
  apply andb_true_iff in Hp as [Hp Hz%Z.eqb_eq].
  apply system_check_ok; [done| |by apply bitmap_check_ok|done].
  apply (kspace_check_ok k [0x218000]); [done| |by apply space_check_ok].
  intros c Hc. by apply (mem_check_ok k [kdir; 0x218000]).
Qed.

#[export] Instance mem_block_desc_eq : EqDecision mem_block_desc.
Proof. solve_decision. Defined.

(** The kernel's heap is empty. *)
Definition heap_check (h : heap) : bool :=
  forallb (fun i => bool_decide (block_descs h !! desc_ptr descs i = Some (mk_desc (csize i) (cblocks i) (dlist descs i)))) (zrange 7 0) &&
  (KERNEL_HEAP_START <=? vaddr_start (kernel_vaddr (kmem (hk h)))).

Lemma boot_lists_descs rs ts i : 0 <= i < 7 -> (list_to_map (boot_lists rs ts) : gmap Z (list Z)) !! dlist descs i = Some [].
Proof.
  intros Hi. assert (Hin : i ∈ zrange 7 0) by (rewrite elem_of_zrange; lia). clear Hi. revert i Hin. apply Forall_forall.
  repeat (apply Forall_cons; split; [vm_compute; reflexivity|]). done.
Qed.

Lemma heap_check_ok h D O rs ts : heap_check h = true ->
  system_ok lk_pool lk_pid (hk h) D O (list_to_map (boot_lists rs ts)) rs ts ->
  heap_ok PF_KERNEL descs h (list_to_map (boot_lists rs ts)) (fun _ => []) ∅ (kernel_vaddr (kmem (hk h))).
Proof.
  unfold heap_check. intros [Hd Hl%Z.leb_le]%andb_true_iff Hs. pose proof (so_space _ _ _ _ _ _ _ _ Hs) as Hk.
  split; try done.
  - by apply (ks_current _ _ _ Hk).
  - apply (ks_vspace _ _ _ Hk).
  - apply (ks_low _ _ _ Hk).
  - apply (sp_lists _ _ _ _ (proj1 (so_sched _ _ _ _ _ _ _ _ Hs))).
  - intros i Hi. get_forallb Hd i. rewrite elem_of_zrange in Hd. specialize (Hd ltac:(lia)). apply bool_decide_eq_true in Hd.
    split; [done|]. by apply boot_lists_descs.
  - intros i x Hi Hx. by apply not_elem_of_nil in Hx.
  - intros L xs x HL Hx. destruct (so_linked _ _ _ _ _ _ _ _ Hs L xs x HL Hx) as [Ha Hw]. split; [|done].
    unfold kernel_addr, heap_addr in *. lia.
Qed.

(** ** Types *)

Lemma types_put_block_descs d l : forall i, types (put_block_descs d i l) any.
Proof.
  induction l as [|x l IH]; intros i; cbn [put_block_descs]; [typing|]. apply (types_bind _ _ any); [|intros; apply IH].
  apply types_no_kernel. intros h u h' E. by injection E as _ <-.
Qed.

Definition layout_typed (l : layout) : Prop :=
  pool_typed (l_kernel_pool l) /\ pool_typed (l_user_pool l) /\ vaddr_typed (l_kernel_vaddr l).

Lemma pool_wf_typed p : pool_wf p -> is_word (pool_size p) -> pool_typed p.
Proof.
  intros [[B1 B2 B3] L1 L2 L3 L4] Hs. split; [split|..]; try done; unfold is_word; lia.
Qed.

Lemma mem_pool_init_typed bytes_at : memory_bytes bytes_at ->
  types (S := heap) (lift (mem_pool_init bytes_at 0x2000000)) layout_typed.
Proof.
  intros Hb. destruct (mem_pool_init_layout bytes_at 0x2000000 Hb ltac:(lia) ltac:(done)) as (l & E & H).
  cbv zeta in H. destruct H as (H1 & H2 & [B A S Hend] & H3 & H4 & H5 & H6 & _).
  apply types_lift. intros l' E'. rewrite E in E'. injection E' as <-.
  assert (Hsz : forall p, pool_wf p -> p = l_kernel_pool l \/ p = l_user_pool l -> 4096 <= pool_size p).
  { intros p [[B1 _ _] L _ _ _] Hp. destruct (H6 p 0 Hp) as [Hle _]; [unfold in_bits; lia|]. unfold page_at in Hle. lia. }
  pose proof (Hsz _ H1 (or_introl eq_refl)). pose proof (Hsz _ H2 (or_intror eq_refl)).
  split; [|split]; [apply pool_wf_typed; [done|unfold is_word; lia]..|].
  cbn [space_end] in Hend. destruct B as [B1 B2 B3]. split; [split|]; [unfold is_word; lia|done|unfold is_word; lia].
Qed.

Lemma types_mem_init pool_lock d bytes_at : memory_bytes bytes_at -> types (mem_init pool_lock d bytes_at) any.
Proof.
  intros Hb. unfold mem_init. apply (types_bind _ _ layout_typed); [by apply mem_pool_init_typed|]. intros l (H1 & H2 & H3).
  apply (types_bind _ _ any).
  { apply types_on_k, types_modify. intros k []. split; try done. by intros []. }
  intros _ _. do 2 (apply (types_bind _ _ any); [apply types_on_k, types_lock_init|intros _ _]).
  apply (types_bind _ _ any); [apply types_on_k, types_on_mach|]. intros. apply types_put_block_descs.
Qed.

Lemma no_bytes_ok : memory_bytes no_bytes.
Proof.
  intros a n Hn. unfold no_bytes, zlen. rewrite length_replicate. split; [lia|]. apply Forall_replicate. unfold is_byte. lia.
Qed.

Section typed_boot.
Context (pool_lock : pool_flag -> Z) (pid_lock d : Z) (bytes_at : Z -> Z -> list Z) (kt sp idle_addr init_addr : Z).
Context (bytes_ok : memory_bytes bytes_at) (kt_word : is_word kt) (sp_word : is_word sp) (idle_word : is_word idle_addr)
  (init_word : is_word init_addr).

Lemma types_init_kernel l : bytes l -> types (init_kernel pool_lock pid_lock d bytes_at kt sp idle_addr init_addr l) (done_ any).
Proof using All.
  intros Hl. apply (types_bind _ _ any); [by apply types_mem_init|]. intros _ _. by apply types_thread_init.
Qed.

End typed_boot.

Lemma no_bits_typed : bitmap_typed no_bits.
Proof. split; [by apply is_word_lit|]. by apply Forall_nil. Qed.

Lemma loaded_typed : typed (hk loaded).
Proof.
  assert (Hw0 : is_word 0) by by apply is_word_lit.
  split.
  - intros t p E. discriminate E.
  - apply (words_check_ok boot_ram). vm_compute. reflexivity.
  - intros []; (split; [apply no_bits_typed|exact Hw0..]).
  - split; [apply no_bits_typed|exact Hw0].
  - apply no_bits_typed.
  - by apply is_word_lit.
  - exact Hw0.
  - intros s v E. discriminate E.
  - intros lk l E. discriminate E.
Qed.

(** ** Running *)

(** The state after [m], checked; [m] is executed by evaluation, but for the
    bitmap of the new address space. *)
Definition ends {S A} (r : res (A * S)) (P : A -> S -> bool) : bool := match r with Ok (a, s) => P a s | Err _ => false end.

Lemma ends_ok {S A} (r : res (A * S)) P : ends r P = true -> exists a s, r = Ok (a, s) /\ P a s = true.
Proof. destruct r as [[a s]|]; [eauto|done]. Qed.

Definition is_done {A} (o : outcome A) : bool := match o with Done _ => true | _ => false end.

Ltac execute := unfold init_kernel, thread_init, process_execute, create_user_vaddr_bitmap;
  rewrite user_bitmap_zero; vm_compute; reflexivity.

Lemma booted_check : ends (booted loaded) (fun o h => is_done o && heap_check h &&
  boot_check (hk h) [t_init; idle_t] [t_init; t_boot; idle_t]) = true.
Proof. execute. Qed.

(** ** Properties *)

(** C7. Booting establishes the invariants the other theorems start from: from
    the state the loader leaves, [mem_init] and [thread_init] end normally; then
    the ready threads are init and idle, the main thread runs, every invariant
    of threads, lists, process numbers, page tables, pools and directories
    holds, the kernel's heap is empty and well formed, and the state is well
    typed. *)
Theorem boot_establishes_invariants : exists h Γ,
  booted loaded = Ok (Done tt, h) /\
  system_ok lk_pool lk_pid (hk h) (dir_of boot_dirs) (assoc boot_pages) Γ [t_init; idle_t] [t_init; t_boot; idle_t] /\
  heap_ok PF_KERNEL descs h Γ (fun _ => []) ∅ (kernel_vaddr (kmem (hk h))) /\
  typed (hk h).
Proof.
  destruct (ends_ok _ _ booted_check) as (o & h & E & H). apply andb_true_iff in H as [H Hb].
  apply andb_true_iff in H as [Ho Hh]. destruct o as [[]|old|]; [|discriminate Ho..].
  apply boot_check_ok in Hb. exists h, (list_to_map (boot_lists [t_init; idle_t] [t_init; t_boot; idle_t])).
  split; [exact E|]. split; [exact Hb|]. split; [by apply (heap_check_ok _ _ _ _ _ Hh Hb)|].
  refine (proj1 (types_init_kernel lk_pool lk_pid descs no_bytes _ _ _ _ no_bytes_ok _ _ _ _ pid_bits _ loaded _ h loaded_typed E));
    first [by apply is_word_lit|apply Forall_replicate; unfold is_byte; lia].
Qed.
