(* ===== verification/FirstRun.v ===== *)
(** * FirstRun: a process enters user mode (thread/switch.asm, thread.c, userprog/process.c)

    A new process has never run: [switch_to] pops the frame [thread_create] has
    built and returns into [kernel_thread], which enables the interrupts and
    calls [start_process]; that takes the page of the user stack, builds the
    frame of an interrupt and leaves through [intr_exit].

    The path is followed with the registers of Resume.  C functions are entered
    as the compiler enters them: the return address at esp, the parameters
    behind it.  No interrupt arrives between [intr_enable] and [intr_exit]; a
    switch there would change [self_kstack], which [start_process] reads. *)

From stdpp Require Import fin_maps fin_sets gmap.
From S2P Require Import Prelude CString Interrupt Lists Bitmap Kernel Paging Thread Sync IoQueue Memory DataPages Space Heap HeapOk Tss Pid Process System Switch Pending Demo Fork ForkPages Resume Boot.
Open Scope gw_scope.

Section first_run.
Context (pool_lock : pool_flag -> Z) (pid_lock kernel_thread_addr start_process_addr : Z).

(** [func(func_arg)] with the interrupts on; the only function looked at here
    is [start_process]. *)
Definition kernel_thread (func func_arg : Z) : M kernel (outcome Z) :=
  _ ← on_mach intr_enable;
  if func =? start_process_addr then start_process pool_lock func_arg else fail Fault.

(** From the switch to [next] on; at the end [start_process] loads esp with the
    frame and jumps to [intr_exit]. *)
Definition first_run (next : Z) : M machine (outcome unit) :=
  _ ← switch_in next;
  eip ← get_reg EIP;
  if eip =? kernel_thread_addr then
    esp ← get_reg ESP;
    func ← on_kernel (vload (u32 (esp + 4)));
    func_arg ← on_kernel (vload (u32 (esp + 8)));
    proc_stack ← on_kernel (kernel_thread func func_arg);
    match proc_stack with
    | Done frame => _ ← put_reg ESP frame; _ ← intr_exit_code; mret (Done tt)
    | WaitsLock old => mret (WaitsLock old)
    | Waits => mret Waits
    end
  else fail Fault.

(** The registers of a program at its first instruction. *)
Definition user_context (proc : Z) (r : reg) : Z :=
  match r with
  | EIP => proc
  | ESP => 0xc0000000
  | CS => SELECTOR_USER_CODE
  | DS | ES | FS | SS => SELECTOR_USER_DATA
  | EFLAGS => 0x202
  | _ => 0
  end.

(** ** The system with a PCB or a word of memory changed *)

Abbreviation system := (system_ok pool_lock pid_lock).

Lemma threads_ok_pcb k Γ ts t p p' : threads_ok k Γ ts -> pcbs (kth k) !! t = Some p -> status p' = status p ->
  pid p' = pid p -> threads_ok (set_pcbs (<[t := p']> (pcbs (kth k))) k) Γ ts.
Proof.
  intros [T1 T2 [P1 P2 P3 P4] T4 T5] Ep Hs Hp. set (k' := set_pcbs _ k).
  assert (Ha : forall x y, alive k' x y -> exists y0, alive k x y0 /\ pid y = pid y0).
  { intros x y [Ex Hy]. cbn in Ex. apply lookup_insert_Some in Ex as [[<- <-]|[_ Ex]].
    - exists p. split; [split; [done|by rewrite <- Hs]|done].
    - exists y. by split; [split|]. }
  split; try done.
  - intros x. rewrite T2. split; intros (y & Hy).
    + destruct Hy as [Ey Hy]. destruct (decide (x = t)) as [->|N].
      * exists p'. split; [apply lookup_insert_eq|]. rewrite Ep in Ey. injection Ey as <-. by rewrite Hs.
      * exists y. split; [by rewrite <- Ey; apply lookup_insert_ne|done].
    + destruct (Ha x y Hy) as (y0 & H0 & _). by exists y0.
  - intros x y Hy. destruct (Ha x y Hy) as (y0 & H0 & ->). by apply (T4 x).
  - intros x1 x2 y1 y2 H1 H2 E. destruct (Ha _ _ H1) as (z1 & Z1 & E1). destruct (Ha _ _ H2) as (z2 & Z2 & E2).
    apply (T5 x1 x2 z1 z2); [done|done|congruence].
Qed.

Lemma system_pcb k D O Γ rs ts t p p' : system k D O Γ rs ts -> pcbs (kth k) !! t = Some p -> status p' = status p ->
  pid p' = pid p -> pg_dir p' = pg_dir p -> system (set_pcbs (<[t := p']> (pcbs (kth k))) k) D O Γ rs ts.
Proof.
  intros [S1 S2 S3 S4 S5 [A1 A2 A3] [B1 B2 B3] S8 S9] Ep Hs Hp Hd. split; try done.
  - by apply (kspace_pcb k D O t p).
  - by apply (sched_ok_pcb k D Γ rs t p).
  - by apply (threads_ok_pcb k Γ ts t p).
  - intros x [y Hx]. cbn in Hx. apply S5. apply lookup_insert_Some in Hx as [[<- _]|[_ Hx]]; eauto.
  - apply lookup_insert_is_Some'. by right.
Qed.

(** Words of a page of data of the kernel. *)
Lemma system_stores k D O Γ rs ts v q o l : system k D O Γ rs ts -> O !! v = Some q -> ~ dir_in_use k D q -> fits o l ->
  let r := put_words (q + o) l (ram (kmem k)) in
  vstores (v + o) l k = Ok (tt, set_ram r k) /\ system (set_ram r k) D O Γ rs ts.
Proof.
  intros Hs HO Hn Hf r. destruct (vstores_owned D O v q o l k (so_space _ _ _ _ _ _ _ _ Hs) HO Hn Hf) as (E & Hk' & Hdw).
  split; [exact E|]. apply (system_mem pool_lock pid_lock k _ D O O); try done.
  intros w Hw. rewrite (dw_walk _ _ Hdw); [done|]. unfold kernel_addr, is_word in *. lia.
Qed.
(** ** The page of the user stack *)

(** The address space of a process that has its stack page and nothing else. *)
Definition stack_only (va : virtual_addr) : Prop :=
  bitmap_wf (vaddr_bitmap va) /\ vaddr_start va = USER_VADDR_START /\ len (vaddr_bitmap va) = user_bitmap_len /\
  forall i, 0 <= i < 8 * user_bitmap_len -> bit (vaddr_bitmap va) i = (USER_VADDR_START + i * 4096 =? USER_STACK3_VADDR).

Lemma stack_user_addr : user_addr USER_STACK3_VADDR.
Proof. unfold user_addr. by vm_compute. Qed.

Lemma below_len n m i : 0 <= i < n -> n <= m -> 0 <= i < m.
Proof. lia. Qed.

Lemma set_stack_bit va : empty_vspace va ->
  exists b, bitmap_set_idx (vaddr_bitmap va) ((USER_STACK3_VADDR - vaddr_start va) / PG_SIZE) 1 = Ok b /\
    stack_only (mk_vaddr b (vaddr_start va)).
Proof.
  intros ([Hwf _ _ _] & Hst & Hlen & Hb). pose proof (bw_len _ Hwf) as Hz. rewrite Hlen in Hz.
  destruct (bitmap_set_idx_ok (vaddr_bitmap va) ((USER_STACK3_VADDR - vaddr_start va) / PG_SIZE) 1 Hwf) as (b & E & W & L & Z0 & B);
    [rewrite Hst; unfold in_bits; apply (below_len (8 * user_bitmap_len)); [by vm_compute|lia]|by right|].
  exists b. split; [exact E|]. split; [exact W|]. split; [exact Hst|]. split; [by rewrite <- Hlen|].
  cbn [vaddr_bitmap]. intros i Hi. rewrite B by (unfold in_bits; lia). rewrite Hst.
  destruct (Z.eq_dec _ i) as [E2|N].
  - symmetry. rewrite <- E2. by vm_compute.
  - rewrite Hb by done. symmetry. apply Z.eqb_neq. intros E2. apply N.
    replace USER_STACK3_VADDR with (USER_VADDR_START + i * 4096). unfold PG_SIZE. zarith.
Qed.

Lemma user_stack_ok k D O Γ rs ts p : system k D O Γ rs ts -> lock_idle k Γ (pool_lock PF_USER) ->
  pcbs (kth k) !! cur (kc k) = Some p -> pg_dir p <> NULL -> empty_vspace (userprog_vaddr p) ->
  walk k USER_STACK3_VADDR = None -> budget PF_USER k 1 ->
  exists y va k', let k1 := set_pcbs (<[cur (kc k) := set_userprog_vaddr va p]> (pcbs (kth k))) k in
    get_one_page pool_lock PF_USER USER_STACK3_VADDR k = Ok (Done USER_STACK3_VADDR, k') /\ stack_only va /\
    page_added PF_USER k1 k' USER_STACK3_VADDR y /\ system k' D O Γ rs ts.
Proof.
  intros Hs Hlk Ep Hd Hva Hno Hb. destruct (system_cur _ _ _ _ _ _ _ _ Hs) as [_ Hcur].
  destruct (set_stack_bit _ Hva) as (b & Eb & Hso). set (va := mk_vaddr b _) in Hso.
  set (k1 := set_pcbs (<[cur (kc k) := set_userprog_vaddr va p]> (pcbs (kth k))) k).
  assert (Hs1 : system k1 D O Γ rs ts) by (by apply (system_pcb k D O Γ rs ts _ p)).
  set (y := held (ksy k) (pool_lock PF_USER) (cur (kc k))).
  destruct (map_page_ok PF_USER (set_ksy y k1) USER_STACK3_VADDR) as (q & k2 & k3 & Ea & Hq & Et & Hadd).
  - apply mem_ok_ksy, (ks_current k1 D O), (so_space _ _ _ _ _ _ _ _ Hs1).
  - apply user_addr_PDE, stack_user_addr.
  - exact Hno.
  - exact Hb.
  - pose proof (pa_extends _ _ _ _ _ Hadd) as [E1 E2 E3 E4 _ _ _].
    exists q, va, (set_ksy (ksy k) k3). cbv zeta. fold k1.
    pose proof (page_added_ksy _ _ _ _ _ _ Hadd) as Hadd'. change (ksy k1) with (ksy k) in Hadd'.
    split; [|split; [exact Hso|split; [exact Hadd'|]]].
    + unfold get_one_page. rewrite (bindM_ok _ _ _ None (set_ksy y k)) by (by apply (lock_enter k Γ)).
      unfold running_thread. rewrite bind_gets. cbn [set_ksy kc]. rewrite (bindM_ok _ _ _ _ _ (get_pcb_ok (set_ksy y k) _ _ Ep)).
      rewrite (proj2 (Z.eqb_neq _ _) Hd). rewrite bool_decide_eq_true_2 by done. cbn [negb andb]. cbv zeta.
      assert (El : lock_release (pool_lock PF_USER) k3 = Ok (tt, set_ksy (ksy k) k3)).
      { apply (lock_leave k k3 Γ (pool_lock PF_USER) Hlk) with (Γ' := Γ).
        - rewrite E4, E2. done.
        - rewrite E1. apply (sp_lists _ _ _ _ (proj1 (so_sched _ _ _ _ _ _ _ _ Hs))).
        - apply (lf_waiters _ _ _ Hlk). }
      rewrite (bindM_ok _ _ (set_ksy y k) tt (set_ksy y k1)).
      * rewrite (bindM_ok _ _ _ _ _ Ea), (proj2 (Z.eqb_neq _ _) Hq), (bindM_ok _ _ _ _ _ Et), (bindM_ok _ _ _ _ _ El). done.
      * destruct Hva as (_ & Hst & _). assert (Ha : (vaddr_start (userprog_vaddr p) <=? USER_STACK3_VADDR) = true) by (by rewrite Hst).
        rewrite Ha, (bindM_ok _ _ (set_ksy y k) tt (set_ksy y k) eq_refl), (bind_lift _ _ _ _ Eb). unfold set_vaddr, running_thread. rewrite bind_gets.
        cbn [set_ksy kc]. rewrite (upd_pcb_ok (set_ksy y k) _ p _ Ep). reflexivity.
    + apply (system_mem pool_lock pid_lock k1 _ D O O).
      * exact Hs1.
      * apply (added_kspace k1 _ D O USER_STACK3_VADDR q); [apply (so_space _ _ _ _ _ _ _ _ Hs1)|apply stack_user_addr|exact Hadd'].
      * exact E1.
      * exact E3.
      * done.
      * cbn [set_ksy kc]. by rewrite E2.
      * intros w Hw. rewrite (pa_others _ _ _ _ _ Hadd'); [done|by apply kernel_addr_PDE|].
        unfold kernel_addr, USER_STACK3_VADDR in *. zarith.
Qed.
(** ** The frame of the interrupt *)

Definition intr_frame_off : Z := frame_off + 4 * sizeof_thread_stack.

Definition frame_start (proc : Z) : list (Z * Z) :=
  [(is_esp_dummy, 0); (is_ebp, 0); (is_esi, 0); (is_edi, 0);
   (is_eax, 0); (is_ecx, 0); (is_edx, 0); (is_ebx, 0); (is_gs, 0);
   (is_fs, SELECTOR_USER_DATA); (is_es, SELECTOR_USER_DATA); (is_ds, SELECTOR_USER_DATA);
   (is_eip, proc); (is_cs, SELECTOR_USER_CODE);
   (is_eflags, Z.lor (Z.lor EFLAGS_IOPL_0 EFLAGS_MBS) EFLAGS_IF_1)].
Definition frame_end : list (Z * Z) := [(is_esp, u32 (USER_STACK3_VADDR + PG_SIZE)); (is_ss, SELECTOR_USER_DATA)].

Lemma frame_start_fits proc : is_word proc -> fits intr_frame_off (frame_start proc).
Proof.
  intros Hp. repeat (apply Forall_cons; split; [split; [split; vm_compute; congruence|first [exact Hp|split; vm_compute; congruence]]|]). by apply Forall_nil.
Qed.
Lemma frame_end_fits : fits intr_frame_off frame_end.
Proof. repeat (apply Forall_cons; split; [split; split; vm_compute; congruence|]). by apply Forall_nil. Qed.

(** Every register but the two of the user stack is in the first stores. *)
Lemma frame_holds proc r : ((field_of r, user_context proc r) ∈ frame_start proc /\ field_of r ∉ map fst frame_end) \/
  (field_of r, user_context proc r) ∈ frame_end.
Proof.
  assert (Hin : forall x (l : list Z), bool_decide (x ∉ l) = true -> x ∉ l) by (intros x l H; by apply bool_decide_eq_true in H).
  destruct r; first [right; by repeat (first [left|right])|left; split; [by repeat (first [left|right])|apply Hin; reflexivity]].
Qed.

Lemma put_words_apart a l b r : (forall off, off ∈ map fst l -> b <> a + off) -> word (put_words a l r) b = word r b.
Proof. intros H. apply put_words_out. intros off x Hin. apply H, list_elem_of_fmap. by exists (off, x). Qed.

(** The words of a frame lie in the page. *)
Lemma fits_page q o l a : fits o l -> ~ (q <= a < q + 4096) -> forall off, off ∈ map fst l -> a <> q + o + off.
Proof.
  intros Hf Ha off (x & -> & Hin)%list_elem_of_fmap. pose proof (proj1 (Forall_forall _ _) Hf _ Hin) as H. destruct x as [o2 z]. cbn [fst].
  destruct H as [H _]. lia.
Qed.
(** A new process [t] that runs: its directory loaded, nothing in its address
    space, and a frame of the user pool left for its stack. *)
Record fresh_process (k : kernel) (D : Z -> Z) (O : gmap Z Z) (Γ : gmap Z (list Z)) (rs ts : list Z) (t q : Z) (p : pcb) : Prop := {
  fp_system : system k D O Γ rs ts;
  fp_cur : cur (kc k) = t;
  fp_loaded : cr3 (kc k) = D t;
  fp_page : O !! t = Some q;
  fp_no_dir : forall x y, pcbs (kth k) !! x = Some y -> pg_dir y <> t;
  fp_pcb : pcbs (kth k) !! t = Some p;
  fp_stack : self_kstack p = t + frame_off;
  fp_process : pg_dir p <> NULL;
  fp_vspace : empty_vspace (userprog_vaddr p);
  fp_pages : uspace k (D t) ∅;
  fp_lock : lock_idle k Γ (pool_lock PF_USER);
  fp_budget : budget PF_USER k 1 }.

Lemma fresh_process_km k m D O Γ rs ts t q p : fresh_process k D O Γ rs ts t q p -> lists_ok m Γ ->
  fresh_process (set_km m k) D O Γ rs ts t q p.
Proof.
  intros [F1 F2 F3 F4 F5 F6 F7 F8 F9 F10 [L1 L2 L3] F12] Hl. split; try done.
  - by apply system_km.
  - by apply (uspace_keep k).
Qed.

(** The first stores of [start_process], up to the page of the stack. *)
Lemma stored_frame k D O Γ rs ts t q p p1 o l : fresh_process k D O Γ rs ts t q p -> status p1 = status p -> pid p1 = pid p ->
  pg_dir p1 = pg_dir p -> fits o l ->
  let k1 := set_pcbs (<[t := p1]> (pcbs (kth k))) k in
  let r := put_words (q + o) l (ram (kmem k)) in
  vstores (t + o) l k1 = Ok (tt, set_ram r k1) /\ system (set_ram r k1) D O Γ rs ts /\ uspace (set_ram r k1) (D t) ∅ /\
  ~ dir_in_use (set_ram r k1) D q.
Proof.
  intros [F1 F2 F3 F4 F5 F6 F7 F8 F9 F10 F11 F12] Es Ep Ed Hf k1 r.
  pose proof (no_dir_page k D O t q (so_space _ _ _ _ _ _ _ _ F1) F4 F5) as Hn.
  assert (Hn1 : ~ dir_in_use k1 D q) by (intros H; by apply Hn, (pending_in_use k k1 D t p p1)).
  assert (Hs1 : system k1 D O Γ rs ts) by (by apply (system_pcb k D O Γ rs ts t p)).
  destruct (system_stores k1 D O Γ rs ts t q o l Hs1 F4 Hn1 Hf) as [E Hs2].
  split; [exact E|]. split; [exact Hs2|]. split; [|exact Hn1].
  apply (written_uspace k1 D O (so_space _ _ _ _ _ _ _ _ Hs1) r q); [left; by split; [exists t|]| | |].
  - intros a Ha. apply put_words_apart. by apply (fits_page q o l).
  - rewrite <- F3. apply (ks_cr3 _ _ _ (so_space _ _ _ _ _ _ _ _ Hs1)).
  - by apply (uspace_keep k).
Qed.

Lemma start_process_ok k D O Γ rs ts t q p proc : fresh_process k D O Γ rs ts t q p -> is_word proc ->
  exists y va k' p', start_process pool_lock proc k = Ok (Done (t + intr_frame_off), k') /\ system k' D O Γ rs ts /\
    kc k' = kc k /\ km k' = km k /\ pcbs (kth k') = <[t := p']> (pcbs (kth k)) /\ userprog_vaddr p' = va /\ stack_only va /\
    uspace k' (D t) {[USER_STACK3_VADDR := y]} /\
    forall r, word (ram (kmem k')) (q + intr_frame_off + field_of r) = user_context proc r.
Proof.
  intros Hf Hp. pose proof Hf as [F1 F2 F3 F4 F5 F6 F7 F8 F9 F10 F11 F12].
  destruct (owned_page _ _ _ _ _ (so_space _ _ _ _ _ _ _ _ F1) F4) as (_ & _ & _ & Hqa & Hka). unfold kernel_addr in Hka.
  set (p1 := set_self_kstack (t + intr_frame_off) p).
  destruct (stored_frame k D O Γ rs ts t q p p1 intr_frame_off (frame_start proc) Hf eq_refl eq_refl eq_refl (frame_start_fits proc Hp))
    as (E1 & Hs1 & Hu1 & Hn1).
  set (k1 := set_pcbs (<[t := p1]> _) k) in *. set (r1 := put_words _ (frame_start proc) _) in *. set (k2 := set_ram r1 k1) in *.
  destruct (user_stack_ok k2 D O Γ rs ts p1) as (y & va & k3 & E2 & Hva & Hadd & Hs3); [done|by destruct F11| |done|done| |exact F12|].
  { change (cur (kc k2)) with (cur (kc k)). rewrite F2. apply lookup_insert_eq. }
  { pose proof (us_map _ _ _ Hu1 USER_STACK3_VADDR stack_user_addr eq_refl) as Hm. rewrite lookup_empty in Hm.
    unfold walk. change (cr3 (kc k2)) with (cr3 (kc k)). by rewrite F3. }
  set (k2' := set_pcbs _ k2) in *. pose proof (pa_extends _ _ _ _ _ Hadd) as Hx.
  assert (Ep2 : pcbs (kth k2) !! cur (kc k2) = Some p1)
    by (change (cur (kc k2)) with (cur (kc k)); rewrite F2; apply lookup_insert_eq).
  assert (Hs2 : system k2' D O Γ rs ts) by (by apply (system_pcb k2 D O Γ rs ts _ p1)).
  pose proof (so_space _ _ _ _ _ _ _ _ Hs2) as Hk2. pose proof (so_space _ _ _ _ _ _ _ _ Hs3) as Hk3.
  assert (Hc2 : cr3 (kc k2') = D t) by exact F3. assert (Ec3 : kc k3 = kc k) by exact (ex_kc _ _ Hx).
  assert (Hn2 : ~ dir_in_use k2' D q) by (intros H; by apply Hn1, (pending_in_use k2 k2' D (cur (kc k2)) p1 (set_userprog_vaddr va p1))).
  assert (Hn3 : ~ dir_in_use k3 D q) by (by rewrite (extends_in_use k2' k3)).
  assert (Hu3 : uspace k3 (D t) {[USER_STACK3_VADDR := y]}).
  { rewrite <- Hc2. apply (added_own k2' k3 D O USER_STACK3_VADDR y Hk2 stack_user_addr eq_refl Hadd); [|done].
    rewrite Hc2. by apply (uspace_keep k2). }
  assert (Hkept : forall r, word (ram (kmem k3)) (q + intr_frame_off + field_of r) = word r1 (q + intr_frame_off + field_of r)).
  { intros r. assert (Hr : 0 <= intr_frame_off + field_of r < 4096 /\ (intr_frame_off + field_of r) mod 4 = 0) by (by destruct r).
    pose proof (ForkPages.added_known k2' k3 D O USER_STACK3_VADDR y Hk2 stack_user_addr Hadd q ((intr_frame_off + field_of r) / 4)
      ltac:(right; by exists t) ltac:(zarith)) as H. unfold dir_entry in H.
    replace (q + (intr_frame_off + field_of r) / 4 * 4) with (q + intr_frame_off + field_of r) in H by zarith. apply H.
    rewrite Hc2. pose proof (dir_aligned k2' D O (D t) Hk2) as Hda. unfold pde_addr.
    assert (Hdt : dir_in_use k2' D (D t)) by (rewrite <- Hc2; apply dir_live_in_use, (ks_cr3 _ _ _ Hk2)).
    specialize (Hda Hdt). intros E. apply Hn2. replace q with (D t); [done|].
    change (PDE_IDX USER_STACK3_VADDR) with 767 in E. zarith. }
  destruct (system_stores k3 D O Γ rs ts t q intr_frame_off frame_end Hs3 F4 Hn3 frame_end_fits) as [E3 Hs4].
  set (r3 := put_words _ frame_end _) in *. set (k4 := set_ram r3 k3) in *.
  exists y, va, k4, (set_userprog_vaddr va p1). split; [|split; [exact Hs4|]].
  - unfold start_process, running_thread. rewrite bind_gets, F2. rewrite (bindM_ok _ _ _ _ _ (upd_pcb_ok k t p _ F6)).
    replace (u32 (self_kstack p + 4 * sizeof_thread_stack)) with (t + intr_frame_off)
      by (rewrite F7; unfold frame_off, intr_frame_off, frame_off, sizeof_thread_stack, sizeof_intr_stack; rewrite u32_small by lia; lia).
    fold p1 k1. rewrite (bindM_ok _ _ k1 p1 k1) by (apply get_pcb_ok, lookup_insert_eq). cbv zeta. change (self_kstack p1) with (t + intr_frame_off).
    fold (frame_start proc). rewrite (bindM_ok _ _ _ _ _ E1), (obind_done _ _ _ _ _ E2). fold frame_end. by rewrite (bindM_ok _ _ _ _ _ E3).
  - split; [exact Ec3|]. split; [exact (ex_km _ _ Hx)|]. split; [|split; [done|split; [exact Hva|split]]].
    + change (kth k4) with (kth k3). rewrite (ex_kth _ _ Hx). cbn [k2' set_pcbs set_kth kth pcbs]. 
      change (cur (kc k2)) with (cur (kc k)). rewrite F2. apply insert_insert_eq.
    + apply (written_uspace k3 D O Hk3 r3 q); [left; by split; [exists t|]| | |exact Hu3].
      * intros a Ha. apply put_words_apart. apply (fits_page q intr_frame_off frame_end); [apply frame_end_fits|done].
      * rewrite <- F3, <- Ec3. apply (ks_cr3 _ _ _ Hk3).
    + intros r. destruct (frame_holds proc r) as [[H1 H2]|H].
      * change (ram (kmem k4)) with r3. unfold r3. rewrite put_words_apart.
        -- rewrite Hkept. apply put_words_in; [by apply (bool_decide_unpack _)|done].
        -- intros off Hoff E. apply H2. by replace (field_of r) with off by lia.
      * change (ram (kmem k4)) with r3. apply put_words_in; [by apply (bool_decide_unpack _)|done].
Qed.
Lemma intr_enable_ok m : intr_enable m = Ok (status_of m, mach_if INTR_ON m).
Proof. exact (intr_set_status_ok INTR_ON m). Qed.

(** The frame [thread_create] builds, as words from its start. *)
Lemma thread_frame_words k a func arg : frame_at k a (thread_frame kernel_thread_addr func arg) ->
  words_at k a (fun off => if off =? ts_eip then kernel_thread_addr else 0) 20.
Proof.
  intros Hf off Ho Ha. assert (Hoff : off = 0 \/ off = 4 \/ off = 8 \/ off = 12 \/ off = 16) by zarith.
  destruct Hoff as [->|[->|[->|[->| ->]]]]; apply Hf; repeat (first [left|right]).
Qed.

(** C8. The first run of a process: the pops and the [ret] of [switch_to] lead
    from the frame [thread_create] has built to [kernel_thread]; it enables the
    interrupts and calls [start_process] with the entry point of the program,
    which maps the page of the user stack and leaves through [intr_exit].  At
    the end the processor is at that entry point in user mode, esp at the top of
    the stack page, interrupts allowed and all other registers cleared; the
    process has the stack page in its address space and nothing else, and its
    bitmap says so; of the PCBs only its own has changed, and every invariant
    holds with the threads, lists and directories there were. *)
Theorem process_enters_user_mode (k : kernel) (D : Z -> Z) (O : gmap Z Z) (Γ : gmap Z (list Z)) (rs ts : list Z) (t q : Z) (p : pcb)
    (proc : Z) (c : reg -> Z) :
  fresh_process k D O Γ rs ts t q p ->
  frame_at k (t + frame_off) (thread_frame kernel_thread_addr start_process_addr proc) -> is_word proc -> Z.land (c CS) 3 = 0 ->
  exists k' c' y p', first_run t (mk_machine k c) = Ok (Done tt, mk_machine k' c') /\
    (forall r, c' r = user_context proc r) /\ status_of (km k') = INTR_ON /\
    system k' D O Γ rs ts /\ kc k' = kc k /\ pcbs (kth k') = <[t := p']> (pcbs (kth k)) /\
    uspace k' (D t) {[USER_STACK3_VADDR := y]} /\ stack_only (userprog_vaddr p').
Proof.
  intros Hf Hfr Hp Hc. pose proof Hf as [F1 F2 F3 F4 F5 F6 F7 F8 F9 F10 F11 F12].
  destruct (owned_page _ _ _ _ _ (so_space _ _ _ _ _ _ _ _ F1) F4) as (_ & _ & _ & _ & Hka). unfold kernel_addr in Hka.
  assert (Hfo : frame_off = 3664) by done. assert (Hio : intr_frame_off = 3792) by done.
  destruct (switch_in_ok k t p (fun off => if off =? ts_eip then kernel_thread_addr else 0) c F6) as (c1 & E1 & Hip & Hsp & Hcs & _).
  { rewrite F7. exact (thread_frame_words _ _ _ _ Hfr). }
  { rewrite F7. lia. }
  { rewrite F7. lia. }
  change (16 =? ts_eip) with true in Hip. cbv iota in Hip. rewrite F7 in Hsp.
  set (k1 := set_km (mach_if INTR_ON (km k)) k).
  assert (Hf1 : fresh_process k1 D O Γ rs ts t q p).
  { apply fresh_process_km; [exact Hf|]. apply lists_ok_if, (sp_lists _ _ _ _ (proj1 (so_sched _ _ _ _ _ _ _ _ F1))). }
  destruct (start_process_ok k1 D O Γ rs ts t q p proc Hf1 Hp) as (y & va & k2 & p2 & E2 & Hs2 & Ec2 & Em2 & Ep2 & Ev & Hva & Hu2 & Hw).
  assert (Hcr : with_cr3 (cr3 (kc k2)) k2 = k2) by apply with_cr3_id.
  pose proof (page_words k2 D O t q (cr3 (kc k2)) intr_frame_off 76 (so_space _ _ _ _ _ _ _ _ Hs2) F4
    (dir_live_in_use _ _ _ (ks_cr3 _ _ _ (so_space _ _ _ _ _ _ _ _ Hs2))) ltac:(lia) ltac:(lia)) as Hwords. rewrite Hcr in Hwords.
  destruct (intr_exit_ok k2 (t + intr_frame_off) _ (set ESP (t + intr_frame_off) c1) Hwords) as (c2 & E3 & Hr).
  - lia.
  - lia.
  - apply set_eq.
  - rewrite set_ne by done. by rewrite Hcs.
  - pose proof (Hw CS) as Hcw. cbn [field_of] in Hcw. rewrite Hcw. by vm_compute.
  - exists k2, c2, y, p2. split.
    + unfold first_run. rewrite (bindM_ok _ _ _ _ _ E1), bind_get_reg, Hip, Z.eqb_refl, bind_get_reg, Hsp.
      replace (u32 (t + frame_off + 20 + 4)) with (t + frame_off + ts_func) by (unfold ts_func; rewrite u32_small by lia; lia).
      replace (u32 (t + frame_off + 20 + 8)) with (t + frame_off + ts_func_arg) by (unfold ts_func_arg; rewrite u32_small by lia; lia).
      rewrite (bindM_ok _ _ _ _ _ (on_regs_ok _ _ _ _ _ (Hfr ts_func start_process_addr ltac:(right; left)))).
      rewrite (bindM_ok _ _ _ _ _ (on_regs_ok _ _ _ _ _ (Hfr ts_func_arg proc ltac:(right; right; left)))).
      assert (Ek : kernel_thread start_process_addr proc k = Ok (Done (t + intr_frame_off), k2)).
      { unfold kernel_thread. rewrite (bindM_ok _ _ _ _ _ (on_mach_ok _ k _ _ (intr_enable_ok (km k)))), Z.eqb_refl. exact E2. }
      rewrite (bindM_ok _ _ _ _ _ (on_regs_ok _ _ _ _ _ Ek)), bind_put_reg, (bindM_ok _ _ _ _ _ E3). done.
    + split; [intros r; rewrite Hr; apply Hw|]. split; [rewrite Em2; apply status_with_if|]. split; [exact Hs2|]. split; [exact Ec2|].
      split; [exact Ep2|]. split; [exact Hu2|]. by rewrite Ev.
Qed.
End first_run.

(** ** The first process of the system

    The booted system, when the main thread sleeps in the driver of the disk and
    the scheduler has switched to init. *)

Definition empty_check (va : virtual_addr) : bool :=
  (vaddr_start va =? USER_VADDR_START) && (len (vaddr_bitmap va) =? user_bitmap_len) &&
  (zlen (bits (vaddr_bitmap va)) =? user_bitmap_len) && forallb (fun b => b =? 0) (bits (vaddr_bitmap va)).

Lemma empty_check_ok va : empty_check va = true -> empty_vspace va.
Proof.
  unfold empty_check. intros H. apply andb_true_iff in H as [H Hz]. apply andb_true_iff in H as [H Hb%Z.eqb_eq].
  apply andb_true_iff in H as [Hs%Z.eqb_eq Hl%Z.eqb_eq].
  assert (H0 : forall i, at_ (bits (vaddr_bitmap va)) i = 0).
  { intros i. unfold at_. destruct (_ !! _) as [b|] eqn:E; [|done]. get_forallb Hz b. apply list_elem_of_lookup_2 in E.
    by apply Z.eqb_eq, Hz. }
  split; [split|split; [exact Hs|split; [exact Hl|]]].
  - split; [rewrite Hl, Hb; by vm_compute|rewrite Hb; by vm_compute|]. apply Forall_forall. intros b Hin. get_forallb Hz b.
    rewrite (proj1 (Z.eqb_eq b 0)); [unfold is_byte; lia|by apply Hz].
  - rewrite Hs. by vm_compute.
  - rewrite Hs. by vm_compute.
  - rewrite Hs, Hb. by vm_compute.
  - intros i _. unfold bit. rewrite H0. apply Z.bits_0.
Qed.

Abbreviation first_lists := (boot_lists [idle_t] [t_init; t_boot; idle_t]).

Definition first_frame : list (Z * Z) := thread_frame a_kernel_thread a_start_process a_init.

Definition frame_check (k : kernel) (a : Z) (l : list (Z * Z)) : bool :=
  forallb (fun '(off, x) => match vload (a + off) k with Ok (y, _) => x =? y | Err _ => false end) l.

Lemma frame_check_ok k a l : frame_check k a l = true -> frame_at k a l.
Proof.
  intros H off x Hin. unfold frame_check in H. get_forallb H (off, x). specialize (H Hin). cbn beta iota in H.
  destruct (vload (a + off) k) as [[y k']|] eqn:E; [|done]. apply Z.eqb_eq in H as ->.
  unfold vload in *. destruct (translate _ _ _); [|done]. by injection E as <- <-.
Qed.

Definition first_check (k : kernel) : bool :=
  boot_check k [idle_t] [t_init; t_boot; idle_t] && (cur (kc k) =? t_init) && (cr3 (kc k) =? 0x218000) &&
  match pcbs (kth k) !! t_init with
  | Some p => (self_kstack p =? t_init + frame_off) && negb (pg_dir p =? NULL) && empty_check (userprog_vaddr p)
  | None => false
  end &&
  forallb (fun '(_, y) => negb (pg_dir y =? t_init)) (map_to_list (pcbs (kth k))) &&
  forallb (fun i => negb (present (dir_entry k 0x218000 i))) (zrange 768 0) &&
  lock_check k first_lists (lk_pool PF_USER) &&
  (1 <=? free_count (user_pool (kmem k)))%nat && (1 <=? free_count (kernel_pool (kmem k)))%nat &&
  frame_check k (t_init + frame_off) first_frame.

Lemma first_check_ok k : first_check k = true ->
  exists p, fresh_process lk_pool lk_pid k (dir_of boot_dirs) (assoc boot_pages) (list_to_map first_lists) [idle_t]
    [t_init; t_boot; idle_t] t_init 0x200000 p /\ frame_at k (t_init + frame_off) first_frame.
Proof.
  unfold first_check. intros H. do 2 apply andb_true_iff in H as [H ?Hf]. apply andb_true_iff in H as [H Hbu].
  apply andb_true_iff in H as [H Hlk]. apply andb_true_iff in H as [H Hus]. apply andb_true_iff in H as [H Hnd].
  apply andb_true_iff in H as [H Hp]. apply andb_true_iff in H as [H Hcr%Z.eqb_eq]. apply andb_true_iff in H as [Hb Hcu%Z.eqb_eq].
  apply Nat.leb_le in Hbu, Hf0. destruct (pcbs (kth k) !! t_init) as [p|] eqn:Ep; [|done].
  apply andb_true_iff in Hp as [Hp He]. apply andb_true_iff in Hp as [Hst%Z.eqb_eq Hpd].
  exists p. split; [|by apply frame_check_ok]. pose proof (boot_check_ok _ _ _ Hb) as Hs. split; try done.
  - intros x y E. get_forallb Hnd (x, y). apply elem_of_map_to_list in E. specialize (Hnd E). cbn beta iota in Hnd.
    by apply negb_true_iff, Z.eqb_neq in Hnd.
  - by apply negb_true_iff, Z.eqb_neq in Hpd.
  - by apply empty_check_ok.
  - apply (uspace_empty k (dir_of boot_dirs) (assoc boot_pages)); [apply (so_space _ _ _ _ _ _ _ _ Hs)|]. intros i Hi.
    get_forallb Hus i. rewrite elem_of_zrange in Hus. apply negb_true_iff, Hus. lia.
  - by apply lock_check_ok.
Qed.

Lemma first_ready : ends (booted loaded) (fun o h => is_done o &&
  ends (thread_block TASK_BLOCKED (hk h)) (fun _ k => first_check k)) = true.
Proof. execute. Qed.

Lemma process_enters_user_mode_witness : exists h old k k' c',
  booted loaded = Ok (Done tt, h) /\ thread_block TASK_BLOCKED (hk h) = Ok (old, k) /\
  first_run lk_pool a_kernel_thread a_start_process t_init (mk_machine k (fun _ => 0)) = Ok (Done tt, mk_machine k' c') /\
  c' EIP = a_init /\ c' ESP = 0xc0000000 /\ Z.land (c' CS) 3 = 3.
Proof.
  destruct (ends_ok _ _ first_ready) as (o & h & E & H). apply andb_true_iff in H as [Ho H]. destruct o as [[]| |]; [|discriminate Ho..].
  destruct (ends_ok _ _ H) as (old & k & E2 & H2). destruct (first_check_ok k H2) as (p & Hf & Hfr).
  destruct (process_enters_user_mode lk_pool lk_pid a_kernel_thread a_start_process k _ _ _ _ _ t_init 0x200000 p a_init (fun _ => 0) Hf Hfr)
    as (k' & c' & y & p' & E3 & Hc & _).
  - unfold is_word, a_init. lia.
  - reflexivity.
  - exists h, old, k, k', c'. split; [exact E|]. split; [exact E2|]. split; [exact E3|]. rewrite !Hc. repeat split.
Defined.
