(* ===== verification/Shared.v ===== *)
(** * Shared: programs of several processes that share memory and locks

    The user programs are linked with the kernel, so the global variables and
    locks of readerwriter.c and bank.c lie in the part of the address space
    that all processes have in common.  A process is a loop over a list of
    operations, one access to memory or one call of lib/user/syscall.c each;
    processes are interleaved at every operation.  A lock does what
    [lock_acquire] and [lock_release] of thread/sync.c do to holder and count:
    acquiring waits until the lock is free and nests for the holder; releasing
    does not look at the holder and stops the kernel when the lock is free. *)

From stdpp Require Import functions relations.
From S2P Require Import Prelude.
Open Scope Z_scope.

Section machine.
(** The locks, the variables, and the kinds of processes with their loops. *)
Context {L V R : Type} `{EqDecision L, EqDecision V}.

Inductive op :=
  | Acq (l : L)                       (* acquire_lock(&l) *)
  | Rel (l : L)                       (* release_lock(&l) *)
  | Ld (v : V)                        (* read v into a register *)
  | St (v : V) (f : Z -> Z -> Z)      (* v = f(number of the process, register) *)
  | Unless (v : V) (c : Z) (n : nat). (* if (v == c) { the next n operations } *)

Context (code : R -> list op).

Record proc := mk_proc { role : R; pc : nat; reg : Z }.

(** A lock that is held: its holder and how often. *)
Record shared := mk_shared { lk : L -> option (nat * nat); va : V -> Z; procs : gmap nat proc }.

Definition set_lk (l : L) (o : option (nat * nat)) (w : shared) : shared := mk_shared (<[l := o]> (lk w)) (va w) (procs w).
Definition set_va (v : V) (x : Z) (w : shared) : shared := mk_shared (lk w) (<[v := x]> (va w)) (procs w).
Definition set_proc (t : nat) (h : proc) (w : shared) : shared := mk_shared (lk w) (va w) (<[t := h]> (procs w)).

Definition at_pc (h : proc) (i : nat) : proc := mk_proc (role h) i (reg h).

Inductive outcome := Waits | Panics | Steps (w : shared).

Definition acquire (t : nat) (l : L) (w : shared) : outcome :=
  match lk w l with
  | None => Steps (set_lk l (Some (t, 1%nat)) w)
  | Some (h, n) => if decide (h = t) then Steps (set_lk l (Some (t, S n)) w) else Waits
  end.

Definition release (l : L) (w : shared) : outcome :=
  match lk w l with
  | Some (h, S (S n)) => Steps (set_lk l (Some (h, S n)) w)
  | Some (_, 1%nat) => Steps (set_lk l None w)
  | _ => Panics
  end.

Definition then_move (o : outcome) (t : nat) (h : proc) : outcome :=
  match o with Steps w => Steps (set_proc t h w) | _ => o end.

(** One operation of process [t]; behind the last one it starts again. *)
Definition step (t : nat) (w : shared) : outcome :=
  match procs w !! t with
  | None => Waits
  | Some h =>
      let i := pc h in
      match code (role h) !! i with
      | None => Steps (set_proc t (at_pc h 0) w)
      | Some (Acq l) => then_move (acquire t l w) t (at_pc h (S i))
      | Some (Rel l) => then_move (release l w) t (at_pc h (S i))
      | Some (Ld v) => Steps (set_proc t (mk_proc (role h) (S i) (va w v)) w)
      | Some (St v f) => Steps (set_va v (f (Z.of_nat t) (reg h)) (set_proc t (at_pc h (S i)) w))
      | Some (Unless v c n) => Steps (set_proc t (at_pc h (if (va w v =? c)%Z then S i else S (i + n))) w)
      end
  end.

Definition steps (w w' : shared) : Prop := exists t, step t w = Steps w'.
Definition reachable : shared -> shared -> Prop := rtc steps.

(** Running processes in a given order, a process that waits losing its turn. *)
Fixpoint run (ts : list nat) (w : shared) : shared :=
  match ts with
  | [] => w
  | t :: ts' => match step t w with Steps w' => run ts' w' | Waits => run ts' w | Panics => w end
  end.

Lemma run_reachable ts w : reachable w (run ts w).
Proof.
  revert w. induction ts as [|t ts IH]; intros w; cbn [run]; [apply rtc_refl|].
  destruct (step t w) as [| |w'] eqn:E; [apply IH|apply rtc_refl|]. apply (rtc_l _ _ w'); [by exists t|apply IH].
Qed.

(** ** What a step does *)

(** The step of process [t], in state [h], to position [i]. *)
Inductive does (w : shared) (t : nat) (h : proc) : shared -> Prop :=
  | Does_loop : code (role h) !! pc h = None -> does w t h (set_proc t (at_pc h 0) w)
  | Does_acquire l : code (role h) !! pc h = Some (Acq l) -> lk w l = None ->
      does w t h (set_proc t (at_pc h (S (pc h))) (set_lk l (Some (t, 1%nat)) w))
  | Does_nest l n : code (role h) !! pc h = Some (Acq l) -> lk w l = Some (t, n) ->
      does w t h (set_proc t (at_pc h (S (pc h))) (set_lk l (Some (t, S n)) w))
  | Does_unnest l u n : code (role h) !! pc h = Some (Rel l) -> lk w l = Some (u, S (S n)) ->
      does w t h (set_proc t (at_pc h (S (pc h))) (set_lk l (Some (u, S n)) w))
  | Does_release l u : code (role h) !! pc h = Some (Rel l) -> lk w l = Some (u, 1%nat) ->
      does w t h (set_proc t (at_pc h (S (pc h))) (set_lk l None w))
  | Does_load v : code (role h) !! pc h = Some (Ld v) -> does w t h (set_proc t (mk_proc (role h) (S (pc h)) (va w v)) w)
  | Does_store v f : code (role h) !! pc h = Some (St v f) ->
      does w t h (set_va v (f (Z.of_nat t) (reg h)) (set_proc t (at_pc h (S (pc h))) w))
  | Does_enter v c n : code (role h) !! pc h = Some (Unless v c n) -> va w v = c ->
      does w t h (set_proc t (at_pc h (S (pc h))) w)
  | Does_skip v c n : code (role h) !! pc h = Some (Unless v c n) -> va w v <> c ->
      does w t h (set_proc t (at_pc h (S (pc h + n))) w).

Lemma step_does t w w' : step t w = Steps w' -> exists h, procs w !! t = Some h /\ does w t h w'.
Proof.
  unfold step. destruct (procs w !! t) as [h|] eqn:E; [|done]. intros Hs. exists h. split; [done|].
  destruct (code (role h) !! pc h) as [[l|l|v|v f|v c n]|] eqn:Ec; cbv zeta in Hs.
  - unfold acquire in Hs. destruct (lk w l) as [[u n]|] eqn:El.
    + destruct (decide (u = t)) as [->|]; [|done]. injection Hs as <-. by apply Does_nest.
    + injection Hs as <-. by apply Does_acquire.
  - unfold release in Hs. destruct (lk w l) as [[u [|[|n]]]|] eqn:El; try done; injection Hs as <-.
    + by apply (Does_release _ _ _ _ u).
    + by apply Does_unnest.
  - injection Hs as <-. by apply Does_load.
  - injection Hs as <-. by apply Does_store.
  - injection Hs as <-. destruct (Z.eqb_spec (va w v) c); [by apply (Does_enter _ _ _ v c n)|by apply (Does_skip _ _ _ v c n)].
  - injection Hs as <-. by apply Does_loop.
Qed.

Lemma does_proc w t h w' : does w t h w' -> exists i x, procs w' = <[t := mk_proc (role h) i x]> (procs w).
Proof. intros []; cbn; by eauto. Qed.

Lemma procs_inv (m m' : gmap nat proc) t h' u x : m' = <[t := h']> m -> m' !! u = Some x ->
  u = t /\ x = h' \/ u <> t /\ m !! u = Some x.
Proof. intros ->. rewrite lookup_insert_Some. naive_solver. Qed.

(** ** Counting processes *)

Definition count (P : proc -> bool) (m : gmap nat proc) : Z := Z.of_nat (size (filter (fun p => P p.2 = true) m)).

Lemma count_delete P m t h : m !! t = Some h -> count P m = (Z.b2z (P h) + count P (delete t m))%Z.
Proof.
  intros Ht. unfold count. rewrite <- (insert_delete_id m t h Ht) at 1. destruct (P h) eqn:E.
  - rewrite map_filter_insert_True by done. rewrite map_size_insert_None; [cbn [Z.b2z]; lia|].
    apply map_lookup_filter_None. left. apply lookup_delete_eq.
  - rewrite map_filter_insert_False by (cbn; congruence). rewrite delete_delete_eq. cbn [Z.b2z]. lia.
Qed.

Lemma count_insert P m t h h' : m !! t = Some h ->
  count P (<[t := h']> m) = (count P m + Z.b2z (P h') - Z.b2z (P h))%Z.
Proof.
  intros Ht. rewrite (count_delete P m t h Ht), (count_delete P (<[t := h']> m) t h') by apply lookup_insert_eq.
  rewrite delete_insert_eq. lia.
Qed.

Lemma count_bounds P m : (0 <= count P m <= Z.of_nat (size m))%Z.
Proof. unfold count. pose proof (map_size_filter (fun p : nat * proc => P p.2 = true) m). lia. Qed.

Lemma count_some P m t h : m !! t = Some h -> P h = true -> (1 <= count P m)%Z.
Proof. intros Ht Hp. rewrite (count_delete P m t h Ht), Hp. pose proof (count_bounds P (delete t m)). cbn. lia. Qed.

Lemma count_two P m t h u x : m !! t = Some h -> m !! u = Some x -> t <> u -> P h = true -> P x = true -> (2 <= count P m)%Z.
Proof.
  intros Ht Hu Hne Hh Hx. rewrite (count_delete P m t h Ht), Hh.
  pose proof (count_some P (delete t m) u x ltac:(by rewrite lookup_delete_ne) Hx). cbn. lia.
Qed.

(** More are counted than the one process: there is another one. *)
Lemma count_other P m t h : m !! t = Some h -> count P m <> Z.b2z (P h) -> exists u x, u <> t /\ m !! u = Some x /\ P x = true.
Proof.
  intros Ht Hc. rewrite (count_delete P m t h Ht) in Hc.
  destruct (decide (filter (fun p : nat * proc => P p.2 = true) (delete t m) = ∅)) as [E|E].
  - unfold count in Hc. rewrite E, map_size_empty in Hc. lia.
  - apply map_choose in E as (u & x & [Hu Hx]%map_lookup_filter_Some). apply lookup_delete_Some in Hu as [Hne Hu].
    exists u, x. by split.
Qed.

(** ** Locks and regions *)

(** [inside l r i]: between the operations of [r] that acquire and release [l]
    for it.  A kind of processes may hold a lock as a group: one of them
    acquires it and one of them, perhaps another, releases it. *)
Context (inside : L -> R -> nat -> bool) (grp : L -> R -> bool).

Definition in_reg (l : L) (h : proc) : bool := inside l (role h) (pc h).

Record lock_ok (l : L) (w : shared) : Prop := {
  lo_solo : forall t h, procs w !! t = Some h -> in_reg l h = true -> grp l (role h) = false -> lk w l = Some (t, 1%nat);
  lo_grp : forall t h, procs w !! t = Some h -> in_reg l h = true -> grp l (role h) = true ->
    exists u hu, procs w !! u = Some hu /\ grp l (role hu) = true /\ lk w l = Some (u, 1%nat);
  lo_held : forall u n, lk w l = Some (u, n) -> n = 1%nat /\ exists hu t h, procs w !! u = Some hu /\ procs w !! t = Some h /\
    in_reg l h = true /\ grp l (role h) = grp l (role hu) /\ (grp l (role hu) = false -> t = u) }.

(** What the other processes of the group do. *)
Definition alone (t : nat) (l : L) (w : shared) : Prop :=
  forall u h, u <> t -> procs w !! u = Some h -> in_reg l h = true -> grp l (role h) = false.
Definition company (t : nat) (l : L) (w : shared) : Prop :=
  exists u h, u <> t /\ procs w !! u = Some h /\ in_reg l h = true /\ grp l (role h) = true.

(** The regions of [l] in the loop of [r] are what its operations make of them;
    only a group may enter or leave one by a jump. *)
Definition fits_at (l : L) (r : R) (i : nat) : bool :=
  let same j := eqb (inside l r i) (inside l r j) in
  match code r !! i with
  | Some (Acq l') => if decide (l' = l) then negb (inside l r i) && inside l r (S i) else same (S i)
  | Some (Rel l') => if decide (l' = l) then inside l r i && negb (inside l r (S i)) else same (S i)
  | Some (Unless _ _ n) => same (S i) && (grp l r || same (S (i + n))%nat)
  | Some _ => same (S i)
  | None => same 0%nat
  end.

Definition fits (l : L) (r : R) : Prop := forall i, fits_at l r i = true.

(** What the group must see to at the operations on its lock and at the jumps. *)
Record group_ok (w : shared) (t : nat) (h : proc) (l : L) : Prop := {
  go_alone : code (role h) !! pc h = Some (Acq l) \/ code (role h) !! pc h = Some (Rel l) -> alone t l w;
  go_company : forall v c n, code (role h) !! pc h = Some (Unless v c n) -> va w v <> c ->
    in_reg l h <> inside l (role h) (S (pc h + n)) -> company t l w }.

Section change.
Context (l : L) (w w' : shared) (t : nat) (h h' : proc).
Hypothesis Hok : lock_ok l w.
Hypothesis Ht : procs w !! t = Some h.
Hypothesis Hp : procs w' = <[t := h']> (procs w).
Hypothesis Hr : role h' = role h.

Lemma changed_inv u x : procs w' !! u = Some x -> u = t /\ x = h' \/ u <> t /\ procs w !! u = Some x.
Proof. by apply procs_inv. Qed.

Lemma changed_other u x : u <> t -> procs w !! u = Some x -> procs w' !! u = Some x.
Proof. intros Hu Ex. by rewrite Hp, lookup_insert_ne. Qed.

Lemma changed_self : procs w' !! t = Some h'.
Proof. by rewrite Hp, lookup_insert_eq. Qed.

(** Every process has a successor of the same kind. *)
Lemma changed_role u x : procs w !! u = Some x -> exists x', procs w' !! u = Some x' /\ role x' = role x.
Proof.
  intros Ex. destruct (decide (u = t)) as [->|Hu]; [|exists x; split; [by apply changed_other|done]].
  exists h'. split; [apply changed_self|]. by rewrite Ht in Ex; injection Ex as <-.
Qed.

Lemma lock_frame : lk w' l = lk w l -> in_reg l h' = in_reg l h -> lock_ok l w'.
Proof.
  intros El Er. destruct Hok as [Hs Hg Hh].
  assert (Hback : forall u x, procs w' !! u = Some x -> exists y, procs w !! u = Some y /\ in_reg l y = in_reg l x /\ role y = role x).
  { intros u x [[-> ->]|[_ Ex]]%changed_inv; [exists h|exists x]; done. }
  split; rewrite El.
  - intros u x (y & Ey & Ei & Eo)%Hback Hi Hgr. rewrite <- Eo in Hgr. rewrite <- Ei in Hi. by apply (Hs u y).
  - intros u x (y & Ey & Ei & Eo)%Hback Hi Hgr. rewrite <- Eo in Hgr. rewrite <- Ei in Hi.
    destruct (Hg u y Ey Hi Hgr) as (v & hv & Ev & Hgv & Hl). destruct (changed_role v hv Ev) as (hv' & Ev' & Er').
    exists v, hv'. by rewrite Er'.
  - intros u n Hl. destruct (Hh u n Hl) as (Hn & hu & v & x & Eu & Ex & Hi & Hg' & Hv). split; [done|].
    destruct (changed_role u hu Eu) as (hu' & Eu' & Er'). exists hu', v.
    destruct (decide (v = t)) as [->|Hvt].
    + exists h'. rewrite Ht in Ex. injection Ex as <-. rewrite Er', Hr, Er. split; [done|]. split; [apply changed_self|]. done.
    + exists x. rewrite Er'. split; [done|]. split; [by apply changed_other|]. done.
Qed.

(** A free lock is taken. *)
Lemma lock_taken : lk w l = None -> lk w' l = Some (t, 1%nat) -> in_reg l h' = true -> lock_ok l w'.
Proof.
  intros El El' Hi. destruct Hok as [Hs Hg Hh]. split; rewrite El'.
  - intros u x [[-> ->]|[Hu Ex]]%changed_inv Hx Hgr; [done|]. pose proof (Hs u x Ex Hx Hgr). congruence.
  - intros u x [[-> ->]|[Hu Ex]]%changed_inv Hx Hgr; [exists t, h'; by rewrite changed_self|].
    destruct (Hg u x Ex Hx Hgr) as (? & ? & ? & ? & ?). congruence.
  - intros u n [= <- <-]. split; [done|]. exists h', t, h'. by rewrite changed_self.
Qed.

(** The lock is given back. *)
Lemma lock_given u : lk w l = Some (u, 1%nat) -> lk w' l = None -> in_reg l h = true -> in_reg l h' = false ->
  (grp l (role h) = true -> alone t l w) -> lock_ok l w'.
Proof.
  intros El El' Hi Hi' Hal. destruct Hok as [Hs Hg Hh].
  assert (Hno : forall v x, v <> t -> procs w !! v = Some x -> in_reg l x = true -> False).
  { intros v x Hv Ex Hx. destruct (grp l (role h)) eqn:Egt, (grp l (role x)) eqn:Egx.
    - pose proof (Hal eq_refl v x Hv Ex Hx). congruence.
    - pose proof (Hs v x Ex Hx Egx) as E1. destruct (Hg t h Ht Hi Egt) as (y & hy & Ey & Egy & E2). rewrite E1 in E2. congruence.
    - pose proof (Hs t h Ht Hi Egt) as E1. destruct (Hg v x Ex Hx Egx) as (y & hy & Ey & Egy & E2). rewrite E1 in E2. congruence.
    - pose proof (Hs v x Ex Hx Egx) as E1. pose proof (Hs t h Ht Hi Egt) as E2. congruence. }
  split; rewrite ?El'; try done.
  - intros v x [[-> ->]|[Hv Ex]]%changed_inv Hx; [congruence|]. by destruct (Hno v x).
  - intros v x [[-> ->]|[Hv Ex]]%changed_inv Hx; [congruence|]. by destruct (Hno v x).
Qed.

(** A process of the group goes in or out while another one is inside. *)
Lemma lock_jump : lk w' l = lk w l -> grp l (role h) = true -> company t l w -> lock_ok l w'.
Proof.
  intros El Hgr (v & x & Hv & Ex & Hx & Hgx). destruct Hok as [Hs Hg Hh].
  destruct (Hg v x Ex Hx Hgx) as (u & hu & Eu & Egu & Elu). destruct (changed_role u hu Eu) as (hu' & Eu' & Er').
  split; rewrite El.
  - intros y z [[-> ->]|[Hy Ez]]%changed_inv Hz Hgz; [rewrite Hr in Hgz; congruence|]. by apply (Hs y z).
  - intros y z _ _ _. exists u, hu'. by rewrite Er'.
  - intros y n Ey. rewrite Ey in Elu. injection Elu as <- ->. split; [done|].
    exists hu', v, x. rewrite Er', Egu. split; [done|]. split; [by apply changed_other|]. done.
Qed.
End change.

(** A lock about to be taken is not held by the process already. *)
Lemma lock_not_nested l w t h n : lock_ok l w -> procs w !! t = Some h -> in_reg l h = false ->
  (grp l (role h) = true -> alone t l w) -> lk w l <> Some (t, n).
Proof.
  intros Hok Ht Hi Hal El. destruct (lo_held _ _ Hok _ _ El) as (_ & hu & v & x & Eu & Ex & Hx & Hg & Hv).
  rewrite Ht in Eu. injection Eu as <-. destruct (grp l (role h)) eqn:Egt.
  - assert (Hvt : v <> t) by (intros ->; rewrite Ht in Ex; injection Ex as <-; congruence).
    pose proof (Hal eq_refl v x Hvt Ex Hx). congruence.
  - rewrite (Hv eq_refl), Ht in Ex. injection Ex as <-. congruence.
Qed.

(** Inside, the lock is held, once. *)
Lemma lock_inside l w t h : lock_ok l w -> procs w !! t = Some h -> in_reg l h = true -> exists u, lk w l = Some (u, 1%nat).
Proof.
  intros Hok Ht Hi. destruct (grp l (role h)) eqn:Eg; [|exists t; by apply (lo_solo _ _ Hok t h)].
  destruct (lo_grp _ _ Hok t h Ht Hi Eg) as (u & _ & _ & _ & El). by exists u.
Qed.

Lemma fits_acquire l r i : fits l r -> code r !! i = Some (Acq l) -> inside l r i = false /\ inside l r (S i) = true.
Proof.
  intros Hf Ec. specialize (Hf i). unfold fits_at in Hf. rewrite Ec, decide_True in Hf by done.
  by apply andb_true_iff in Hf as [?%negb_true_iff ?].
Qed.

Lemma fits_release l r i : fits l r -> code r !! i = Some (Rel l) -> inside l r i = true /\ inside l r (S i) = false.
Proof.
  intros Hf Ec. specialize (Hf i). unfold fits_at in Hf. rewrite Ec, decide_True in Hf by done.
  by apply andb_true_iff in Hf as [? ?%negb_true_iff].
Qed.

(** Whoever follows the regions keeps what is known of the lock. *)
Lemma lock_step l w t h w' : lock_ok l w -> procs w !! t = Some h -> does w t h w' -> fits l (role h) ->
  (grp l (role h) = true -> group_ok w t h l) -> lock_ok l w'.
Proof.
  intros Hok Ht Hd Hf Hg. pose proof (Hf (pc h)) as Hi. unfold fits_at in Hi. destruct Hd as [Ec|l' Ec El|l' n Ec El|l' u n Ec El|l' u Ec El|v Ec|v f Ec|v c n Ec Ev|v c n Ec Ev];
    rewrite Ec in Hi.
  - apply eqb_prop in Hi. by apply (lock_frame l w _ t h (at_pc h 0)).
  - destruct (decide (l' = l)) as [->|Hl].
    + apply (lock_taken l w _ t (at_pc h (S (pc h)))); try done; [by cbn; rewrite fn_lookup_insert|by apply (fits_acquire l _ _ Hf)].
    + apply eqb_prop in Hi. apply (lock_frame l w _ t h (at_pc h (S (pc h)))); try done. cbn. by rewrite fn_lookup_insert_ne.
  - destruct (decide (l' = l)) as [->|Hl].
    + exfalso. apply (lock_not_nested l w t h n Hok Ht); [by apply (fits_acquire l _ _ Hf)|intros Eg; apply (go_alone _ _ _ _ (Hg Eg)); by left|done].
    + apply eqb_prop in Hi. apply (lock_frame l w _ t h (at_pc h (S (pc h)))); try done. cbn. by rewrite fn_lookup_insert_ne.
  - destruct (decide (l' = l)) as [->|Hl].
    + by destruct (lo_held _ _ Hok _ _ El) as [? _].
    + apply eqb_prop in Hi. apply (lock_frame l w _ t h (at_pc h (S (pc h)))); try done. cbn. by rewrite fn_lookup_insert_ne.
  - destruct (decide (l' = l)) as [->|Hl].
    + destruct (fits_release l _ _ Hf Ec) as [H1 H2].
      refine (lock_given l w _ t h (at_pc h (S (pc h))) Hok Ht _ u El _ H1 H2 _); [done|by cbn; rewrite fn_lookup_insert|].
      intros Eg. apply (go_alone _ _ _ _ (Hg Eg)). by right.
    + apply eqb_prop in Hi. apply (lock_frame l w _ t h (at_pc h (S (pc h)))); try done. cbn. by rewrite fn_lookup_insert_ne.
  - apply eqb_prop in Hi. by apply (lock_frame l w _ t h (mk_proc (role h) (S (pc h)) (va w v))).
  - apply eqb_prop in Hi. by apply (lock_frame l w _ t h (at_pc h (S (pc h)))).
  - apply andb_true_iff in Hi as [Hi%eqb_prop _]. by apply (lock_frame l w _ t h (at_pc h (S (pc h)))).
  - apply andb_true_iff in Hi as [_ Hi].
    destruct (bool_decide (inside l (role h) (pc h) = inside l (role h) (S (pc h + n)))) eqn:Eb.
    + apply bool_decide_eq_true in Eb. by apply (lock_frame l w _ t h (at_pc h (S (pc h + n)))).
    + apply bool_decide_eq_false in Eb. destruct (grp l (role h)) eqn:Eg; [|by apply eqb_prop in Hi].
      apply (lock_jump l w _ t h (at_pc h (S (pc h + n)))); try done. by apply (go_company _ _ _ _ (Hg eq_refl) v c n).
Qed.

(** Releasing inside never stops the kernel. *)
Lemma release_ok l w t h : lock_ok l w -> procs w !! t = Some h -> fits l (role h) -> code (role h) !! pc h = Some (Rel l) ->
  release l w <> Panics.
Proof.
  intros Hok Ht Hf Ec. destruct (lock_inside l w t h Hok Ht) as [u El]; [by apply (fits_release l _ _ Hf)|].
  unfold release. by rewrite El.
Qed.

(** Two processes in the region of a lock: both of the group. *)
Lemma lock_excludes l w t h u x : lock_ok l w -> procs w !! t = Some h -> procs w !! u = Some x -> t <> u ->
  in_reg l h = true -> in_reg l x = true -> grp l (role h) = true /\ grp l (role x) = true.
Proof.
  intros Hok Ht Hu Hne Hh Hx. destruct (grp l (role h)) eqn:Eh, (grp l (role x)) eqn:Ex; try done; exfalso.
  - pose proof (lo_solo _ _ Hok u x Hu Hx Ex) as E1. destruct (lo_grp _ _ Hok t h Ht Hh Eh) as (v & hv & Ev & Egv & E2).
    rewrite E1 in E2. injection E2 as <-. congruence.
  - pose proof (lo_solo _ _ Hok t h Ht Hh Eh) as E1. destruct (lo_grp _ _ Hok u x Hu Hx Ex) as (v & hv & Ev & Egv & E2).
    rewrite E1 in E2. injection E2 as <-. congruence.
  - pose proof (lo_solo _ _ Hok u x Hu Hx Ex). pose proof (lo_solo _ _ Hok t h Ht Hh Eh). congruence.
Qed.

(** ** A counter that decides who takes a lock for the group

    The first process in takes the lock [l], the last one gives it back; the
    counter [v] is used under the lock [x], which nobody holds for a group. *)
Context (v : V) (x : L) (counted : R -> nat -> bool) (knows : R -> nat -> option Z).

Definition stores (r : R) (i : nat) : bool :=
  match code r !! i with Some (St v' _) => bool_decide (v' = v) | _ => false end.

(** From [i] to [j] without a store to the counter; the jump has shown it to be
    [seen], or it has just been loaded. *)
Definition moves (r : R) (i j : nat) (seen : option Z) (loaded : bool) : bool :=
  eqb (counted r i) (counted r j) && (negb (stores r j) || loaded) &&
  match knows r j with None => true | Some c => bool_decide (knows r i = Some c \/ seen = Some c) end.

Definition counts_at (r : R) (i : nat) : bool :=
  (match knows r i with Some _ => inside x r i | None => true end) && (negb (stores r i) || inside x r i) &&
  match code r !! i with
  | Some (St v' _) => if decide (v' = v) then negb (stores r (S i)) && bool_decide (knows r (S i) = None) else moves r i (S i) None false
  | Some (Ld v') => moves r i (S i) None (bool_decide (v' = v))
  | Some (Unless v' c n) => moves r i (S i) (if decide (v' = v) then Some c else None) false && moves r i (S (i + n)) None false
  | Some _ => moves r i (S i) None false
  | None => moves r i 0 None false
  end.

Definition is_counted (h : proc) : bool := counted (role h) (pc h).

Record counter_ok (w : shared) : Prop := {
  co_count : va w v = count is_counted (procs w);
  co_loaded : forall t h, procs w !! t = Some h -> stores (role h) (pc h) = true -> reg h = va w v;
  co_knows : forall t h c, procs w !! t = Some h -> knows (role h) (pc h) = Some c -> va w v = c;
  co_size : Z.of_nat (size (procs w)) < 2 ^ 31 }.

Context (Hcounts : forall r i, counts_at r i = true).
Context (Hadds : forall r i f, code r !! i = Some (St v f) ->
  forall t y, f t y = i32 (y + Z.b2z (counted r (S i)) - Z.b2z (counted r i))).
Context (Hguard : forall r, grp x r = false).

Lemma counts_inside r i : stores r i = true \/ is_Some (knows r i) -> inside x r i = true.
Proof.
  intros Hi. pose proof (Hcounts r i) as Hc. unfold counts_at in Hc. apply andb_true_iff in Hc as [[Hk Hs]%andb_true_iff _].
  destruct Hi as [Hi|[c Hi]]; [by rewrite Hi in Hs|by rewrite Hi in Hk].
Qed.

Lemma size_same w w' (t : nat) (h h' : proc) : procs w !! t = Some h -> procs w' = <[t := h']> (procs w) -> size (procs w') = size (procs w).
Proof. intros Ht ->. by apply map_size_insert_Some. Qed.

Lemma counter_moves w w' t h h' seen loaded : counter_ok w -> procs w !! t = Some h -> procs w' = <[t := h']> (procs w) ->
  role h' = role h -> va w' v = va w v -> moves (role h) (pc h) (pc h') seen loaded = true ->
  (loaded = true -> reg h' = va w v) -> (forall c, seen = Some c -> va w v = c) -> counter_ok w'.
Proof.
  intros [C1 C2 C3 C4] Ht Hp Hr Hv Hm Hl Hs. unfold moves in Hm. apply andb_true_iff in Hm as [[Hc%eqb_prop Hst]%andb_true_iff Hk].
  split.
  - rewrite Hv, Hp, (count_insert _ _ t h h' Ht), C1. assert (E : is_counted h' = is_counted h) by (unfold is_counted; by rewrite Hr, Hc).
    rewrite E. lia.
  - intros u y [[-> ->]|[Hu Ey]]%(procs_inv _ _ t h' _ _ Hp) Hy; rewrite Hv; [|by apply (C2 u)].
    rewrite Hr in Hy. rewrite Hy in Hst. by apply Hl.
  - intros u y c [[-> ->]|[Hu Ey]]%(procs_inv _ _ t h' _ _ Hp) Hy; rewrite Hv; [|by apply (C3 u y)].
    rewrite Hr in Hy. rewrite Hy in Hk. apply bool_decide_eq_true in Hk as [Hk|Hk]; [by apply (C3 t h)|by apply Hs].
  - by rewrite (size_same w w' t h h' Ht Hp).
Qed.

Lemma counter_stores w t h f : counter_ok w -> lock_ok x w -> procs w !! t = Some h -> code (role h) !! pc h = Some (St v f) ->
  counter_ok (set_va v (f (Z.of_nat t) (reg h)) (set_proc t (at_pc h (S (pc h))) w)).
Proof.
  intros [C1 C2 C3 C4] Hx Ht Ec. pose proof (Hcounts (role h) (pc h)) as Hc. unfold counts_at in Hc. rewrite Ec, decide_True in Hc by done.
  apply andb_true_iff in Hc as [_ [Hs%negb_true_iff Hk%bool_decide_eq_true]%andb_true_iff].
  assert (Est : stores (role h) (pc h) = true) by (unfold stores; rewrite Ec; by apply bool_decide_eq_true).
  assert (Hin : in_reg x h = true) by (apply counts_inside; by left).
  assert (Hothers : forall u y, u <> t -> procs w !! u = Some y -> ~ (stores (role y) (pc y) = true \/ is_Some (knows (role y) (pc y)))).
  { intros u y Hu Ey Hy%counts_inside. destruct (lock_excludes x w t h u y Hx Ht Ey (not_eq_sym Hu) Hin Hy) as [E _].
    rewrite Hguard in E. done. }
  set (w' := set_va _ _ _). set (h' := at_pc h (S (pc h))). assert (Hp : procs w' = <[t := h']> (procs w)) by done.
  split.
  - unfold w' at 1. cbn [set_va va]. rewrite fn_lookup_insert, (Hadds _ _ _ Ec), (C2 t h Ht Est), C1.
    rewrite Hp, (count_insert _ _ t h h' Ht). change (is_counted h') with (counted (role h) (S (pc h))).
    change (is_counted h) with (counted (role h) (pc h)). pose proof (count_bounds is_counted (procs w')) as Hb.
    rewrite Hp, (count_insert _ _ t h h' Ht) in Hb. rewrite map_size_insert_Some in Hb by done.
    change (is_counted h') with (counted (role h) (S (pc h))) in Hb. change (is_counted h) with (counted (role h) (pc h)) in Hb.
    apply i32_small. lia.
  - intros u y [[-> ->]|[Hu Ey]]%(procs_inv _ _ t h' _ _ Hp) Hy; [|by destruct (Hothers u y Hu Ey); left].
    change (stores (role h) (S (pc h)) = true) in Hy. congruence.
  - intros u y c [[-> ->]|[Hu Ey]]%(procs_inv _ _ t h' _ _ Hp) Hy; [|destruct (Hothers u y Hu Ey); right; by exists c].
    change (knows (role h) (S (pc h)) = Some c) in Hy. congruence.
  - by rewrite (size_same w w' t h h' Ht Hp).
Qed.

(** The counter counts. *)
Lemma counter_step w t h w' : counter_ok w -> lock_ok x w -> procs w !! t = Some h -> does w t h w' -> counter_ok w'.
Proof.
  intros Hc Hx Ht Hd. pose proof (Hcounts (role h) (pc h)) as Hs. unfold counts_at in Hs. apply andb_true_iff in Hs as [_ Hs].
  destruct Hd as [Ec|l Ec El|l n Ec El|l u n Ec El|l u Ec El|y Ec|y f Ec|y c n Ec Ev|y c n Ec Ev]; rewrite Ec in Hs.
  - by apply (counter_moves w _ t h (at_pc h 0) None false).
  - by apply (counter_moves w _ t h (at_pc h (S (pc h))) None false).
  - by apply (counter_moves w _ t h (at_pc h (S (pc h))) None false).
  - by apply (counter_moves w _ t h (at_pc h (S (pc h))) None false).
  - by apply (counter_moves w _ t h (at_pc h (S (pc h))) None false).
  - apply (counter_moves w _ t h (mk_proc (role h) (S (pc h)) (va w y)) None (bool_decide (y = v))); try done.
    by intros ->%bool_decide_eq_true.
  - destruct (decide (y = v)) as [->|Hy]; [by apply counter_stores|].
    apply (counter_moves w _ t h (at_pc h (S (pc h))) None false); try done. cbn. by rewrite fn_lookup_insert_ne.
  - apply andb_true_iff in Hs as [Hs _].
    apply (counter_moves w _ t h (at_pc h (S (pc h))) (if decide (y = v) then Some c else None) false); try done.
    intros d. case_decide as Hy; [|done]. intros [= <-]. by rewrite <- Hy.
  - apply andb_true_iff in Hs as [_ Hs]. by apply (counter_moves w _ t h (at_pc h (S (pc h + n))) None false).
Qed.

(** The counter decides who takes [l]. *)
Definition decides_at (l : L) (r : R) (i : nat) : bool :=
  implb (counted r i) (grp l r) &&
  implb (grp l r)
   ((inside x r i || eqb (inside l r i) (counted r i)) &&
    match code r !! i with
    | Some (Acq l') => implb (bool_decide (l' = l)) (inside x r i && counted r i && bool_decide (knows r i = Some 1))
    | Some (Rel l') => implb (bool_decide (l' = l)) (inside x r i && negb (counted r i) && bool_decide (knows r i = Some 0))
    | Some (Unless v' c n) => eqb (inside l r i) (inside l r (S (i + n))) ||
        (inside x r i && bool_decide (v' = v) && (if counted r i then c =? 1 else c =? 0))
    | _ => true
    end).

Section decides.
Context (l : L) (Hdec : forall r i, decides_at l r i = true).
Context (w : shared) (Hc : counter_ok w) (Hx : lock_ok x w).

Lemma decides_grp h : is_counted h = true -> grp l (role h) = true.
Proof.
  intros Hh. pose proof (Hdec (role h) (pc h)) as Hd. unfold decides_at in Hd. apply andb_true_iff in Hd as [Hd _].
  unfold is_counted in Hh. rewrite Hh in Hd. done.
Qed.

(** Outside of the guard the region of [l] is where a process is counted. *)
Lemma decides_outside h : grp l (role h) = true -> in_reg x h = false -> in_reg l h = is_counted h.
Proof.
  intros Hg Hh. pose proof (Hdec (role h) (pc h)) as Hd. unfold decides_at in Hd. rewrite Hg in Hd.
  apply andb_true_iff in Hd as [_ [Hd _]%andb_true_iff]. unfold in_reg in *. rewrite Hh in Hd. by apply eqb_prop in Hd.
Qed.

(** While one process is inside the guard all others are outside. *)
Lemma decides_others t h u y : procs w !! t = Some h -> in_reg x h = true -> procs w !! u = Some y -> u <> t ->
  grp l (role y) = true -> in_reg l y = is_counted y.
Proof.
  intros Ht Hh Hu Hne Hg. apply decides_outside; [done|]. destruct (in_reg x y) eqn:Ey; [|done].
  destruct (lock_excludes x w t h u y Hx Ht Hu (not_eq_sym Hne) Hh Ey) as [E _]. by rewrite Hguard in E.
Qed.

Lemma decides_company t h : procs w !! t = Some h -> in_reg x h = true -> va w v <> Z.b2z (is_counted h) -> company t l w.
Proof.
  intros Ht Hh Hv. rewrite (co_count _ Hc) in Hv. destruct (count_other _ _ _ _ Ht Hv) as (u & y & Hne & Hu & Hy).
  exists u, y. split; [done|]. split; [done|]. split; [|by apply decides_grp].
  rewrite (decides_others t h u y Ht Hh Hu Hne (decides_grp y Hy)). done.
Qed.

Lemma decides_alone t h : procs w !! t = Some h -> in_reg x h = true -> va w v = Z.b2z (is_counted h) -> alone t l w.
Proof.
  intros Ht Hh Hv u y Hne Hu Hy. destruct (grp l (role y)) eqn:Eg; [|done]. exfalso.
  rewrite (decides_others t h u y Ht Hh Hu Hne Eg) in Hy. rewrite (co_count _ Hc) in Hv. destruct (is_counted h) eqn:Eh.
  - pose proof (count_two is_counted _ t h u y Ht Hu (not_eq_sym Hne) Eh Hy). cbn in Hv. lia.
  - pose proof (count_some is_counted _ u y Hu Hy). cbn in Hv. lia.
Qed.

Lemma decides_group t h : procs w !! t = Some h -> grp l (role h) = true -> group_ok w t h l.
Proof.
  intros Ht Hg. pose proof (Hdec (role h) (pc h)) as Hd. unfold decides_at in Hd. rewrite Hg in Hd.
  apply andb_true_iff in Hd as [_ [_ Hd]%andb_true_iff]. split.
  - intros [Ec|Ec]; rewrite Ec, bool_decide_true in Hd by done; cbn [implb] in Hd;
      apply andb_true_iff in Hd as [[Hi Hk]%andb_true_iff Hn%bool_decide_eq_true]; apply (decides_alone t h Ht Hi).
    + unfold is_counted. rewrite Hk. by apply (co_knows _ Hc t h).
    + apply negb_true_iff in Hk. unfold is_counted. rewrite Hk. by apply (co_knows _ Hc t h).
  - intros v' c n Ec Hv Hj. rewrite Ec in Hd. apply orb_true_iff in Hd as [Hd%eqb_prop|Hd]; [done|].
    apply andb_true_iff in Hd as [[Hi Hy%bool_decide_eq_true]%andb_true_iff Hk]. subst v'. apply (decides_company t h Ht Hi).
    unfold is_counted. destruct (counted (role h) (pc h)); apply Z.eqb_eq in Hk; by subst c.
Qed.
End decides.
End machine.
