(* ===== verification/ReaderWriter.v ===== *)
(** * ReaderWriter: the readers and writers of actualuserprogs/readerwriter.c

    Any number of processes, each the loop of [reader] or of [writer] on the
    variables and locks the program shares. *)

From stdpp Require Import functions relations.
From S2P Require Import Prelude Shared.
Open Scope Z_scope.

Inductive lockname := rdr | wrt | m | x | y.
Inductive var := data | reader_counter | writer_counter.
Inductive kind := is_reader | is_writer.

#[export] Instance lockname_eq : EqDecision lockname.
Proof. solve_decision. Defined.
#[export] Instance var_eq : EqDecision var.
Proof. solve_decision. Defined.
#[export] Instance kind_eq : EqDecision kind.
Proof. solve_decision. Defined.

(** [counter++] and [counter--] on the value loaded. *)
Definition plus1 (_ v : Z) : Z := i32 (v + 1).
Definition minus1 (_ v : Z) : Z := i32 (v - 1).

Definition reader : list (op (L := lockname) (V := var)) := [
  Acq rdr; Rel rdr;
  Acq x; Ld reader_counter; St reader_counter plus1;
  Unless reader_counter 1 2; Acq wrt; Acq m;
  Rel x;
  Ld data;
  Acq x; Ld reader_counter; St reader_counter minus1;
  Unless reader_counter 0 2; Rel wrt; Rel m;
  Rel x].

(** [data = 'a' + pid % 26]. *)
Definition letter (pid _ : Z) : Z := 97 + Z.rem pid 26.

Definition writer : list (op (L := lockname) (V := var)) := [
  Acq wrt; Rel wrt;
  Acq y; Ld writer_counter; St writer_counter plus1;
  Unless writer_counter 1 1; Acq rdr;
  Rel y;
  Acq m; St data letter; Ld data; Rel m;
  Acq y; Ld writer_counter; St writer_counter minus1;
  Unless writer_counter 0 1; Rel rdr;
  Rel y].

Definition program (r : kind) : list op := match r with is_reader => reader | is_writer => writer end.

(** The processes started, after [initial_lock] of the five locks. *)
Definition started (rs : list kind) : shared (L := lockname) (V := var) (R := kind) :=
  mk_shared (fun _ => None) (fun v => match v with data => 97 | _ => 0 end)
    (list_to_map (imap (fun t r => (t, mk_proc r 0 0)) rs)).

(** [readerwriter]: three writers and three readers. *)
Definition readerwriter : shared := started [is_writer; is_writer; is_writer; is_reader; is_reader; is_reader].

(** ** Regions *)

Definition within (a b i : nat) : bool := (a <=? i)%nat && (i <? b)%nat.

Definition inside (l : lockname) (r : kind) (i : nat) : bool :=
  match l, r with
  | rdr, is_reader => within 1 2 i | rdr, is_writer => within 7 17 i
  | wrt, is_reader => within 7 15 i | wrt, is_writer => within 1 2 i
  | m, is_reader => within 8 16 i | m, is_writer => within 9 12 i
  | x, is_reader => within 3 9 i || within 11 17 i | x, is_writer => false
  | y, is_reader => false | y, is_writer => within 3 8 i || within 13 18 i
  end.

(** The readers hold [wrt] and [m] together, the writers [rdr]. *)
Definition grp (l : lockname) (r : kind) : bool :=
  match l, r with rdr, is_writer | wrt, is_reader | m, is_reader => true | _, _ => false end.

Definition reads (r : kind) (i : nat) : bool := match r with is_reader => within 5 13 i | is_writer => false end.
Definition writes (r : kind) (i : nat) : bool := match r with is_reader => false | is_writer => within 5 14 i || (i =? 14)%nat end.

Definition knows_readers (r : kind) (i : nat) : option Z :=
  match r with
  | is_reader => if within 6 8 i then Some 1 else if within 14 16 i then Some 0 else None
  | is_writer => None
  end.
Definition knows_writers (r : kind) (i : nat) : option Z :=
  match r with
  | is_reader => None
  | is_writer => if (i =? 6)%nat then Some 1 else if (i =? 16)%nat then Some 0 else None
  end.

(** A table is checked position by position; none has an entry behind the loop. *)
Ltac positions i := do 19 (destruct i as [|i]; [reflexivity|]); reflexivity.

Lemma fits_all l r : fits program inside grp l r.
Proof. intros i. destruct l, r; positions i. Qed.

Lemma counts_readers r i : counts_at program inside reader_counter x reads knows_readers r i = true.
Proof. destruct r; positions i. Qed.
Lemma counts_writers r i : counts_at program inside writer_counter y writes knows_writers r i = true.
Proof. destruct r; positions i. Qed.

Lemma decides_wrt r i : decides_at program inside grp reader_counter x reads knows_readers wrt r i = true.
Proof. destruct r; positions i. Qed.
Lemma decides_m r i : decides_at program inside grp reader_counter x reads knows_readers m r i = true.
Proof. destruct r; positions i. Qed.
Lemma decides_rdr r i : decides_at program inside grp writer_counter y writes knows_writers rdr r i = true.
Proof. destruct r; positions i. Qed.

(** ** The invariant *)

Abbreviation world := (shared (L := lockname) (V := var) (R := kind)).
Abbreviation runs := (reachable program).

Record consistent (w : world) : Prop := {
  cs_locks : forall l, lock_ok inside grp l w;
  cs_readers : counter_ok program reader_counter reads knows_readers w;
  cs_writers : counter_ok program writer_counter writes knows_writers w;
  cs_stored : forall t h, procs w !! t = Some h -> role h = is_writer -> pc h = 10%nat -> va w data = letter (Z.of_nat t) 0;
  cs_printed : forall t h, procs w !! t = Some h -> role h = is_writer -> pc h = 11%nat -> reg h = letter (Z.of_nat t) 0;
  cs_letter : 97 <= va w data <= 122;
  cs_read : forall t h, procs w !! t = Some h -> role h = is_reader -> pc h = 10%nat -> reg h = va w data }.

Lemma adds_readers r i f : program r !! i = Some (St reader_counter f) ->
  forall t v, f t v = i32 (v + Z.b2z (reads r (S i)) - Z.b2z (reads r i)).
Proof.
  destruct r; do 18 (destruct i as [|i]; [try discriminate; intros [= <-]; intros; cbn; unfold plus1, minus1; f_equal; lia|]); discriminate.
Qed.
Lemma adds_writers r i f : program r !! i = Some (St writer_counter f) ->
  forall t v, f t v = i32 (v + Z.b2z (writes r (S i)) - Z.b2z (writes r i)).
Proof.
  destruct r; do 18 (destruct i as [|i]; [try discriminate; intros [= <-]; intros; cbn; unfold plus1, minus1; f_equal; lia|]); discriminate.
Qed.

(** What the group that holds a lock sees to. *)
Lemma group_all w t h l : consistent w -> procs w !! t = Some h -> grp l (role h) = true -> group_ok program inside grp w t h l.
Proof.
  intros [Hl Hr Hw _ _ _ _] Ht Hg. destruct l.
  - by apply (decides_group program inside grp writer_counter y writes knows_writers (fun r => ltac:(by destruct r)) rdr decides_rdr w Hw (Hl y)).
  - by apply (decides_group program inside grp reader_counter x reads knows_readers (fun r => ltac:(by destruct r)) wrt decides_wrt w Hr (Hl x)).
  - by apply (decides_group program inside grp reader_counter x reads knows_readers (fun r => ltac:(by destruct r)) m decides_m w Hr (Hl x)).
  - by destruct (role h).
  - by destruct (role h).
Qed.

(** The only store to [data], and what is read behind it. *)
Lemma stores_data r i f : program r !! i = Some (St data f) -> r = is_writer /\ i = 9%nat /\ f = letter.
Proof. destruct r; do 18 (destruct i as [|i]; [try discriminate; by intros [= <-]|]); discriminate. Qed.

Lemma writer_at i o : program is_writer !! i = Some o -> S i = 10%nat \/ S i = 11%nat ->
  i = 9%nat /\ o = St data letter \/ i = 10%nat /\ o = Ld data.
Proof. intros Ho [Hi|Hi]; injection Hi as ->; injection Ho as <-; auto. Qed.

Lemma writer_jump i v c n : program is_writer !! i = Some (Unless v c n) -> S (i + n) <> 10%nat /\ S (i + n) <> 11%nat.
Proof. do 18 (destruct i as [|i]; [try discriminate; by intros [= <- <- <-]|]); discriminate. Qed.

Lemma data_same w t h w' : does program w t h w' -> va w' data = va w data \/ role h = is_writer /\ pc h = 9%nat /\ va w' data = letter (Z.of_nat t) 0.
Proof.
  intros [Ec|l Ec El|l n Ec El|l u n Ec El|l u Ec El|v Ec|v f Ec|v c n Ec Ev|v c n Ec Ev]; try by left.
  destruct (decide (v = data)) as [->|Hv].
  - right. destruct (stores_data _ _ _ Ec) as (Hr & Hi & ->). cbn. by rewrite fn_lookup_insert.
  - left. cbn. by rewrite fn_lookup_insert_ne.
Qed.

(** The process itself comes to position 10 by the store, to 11 by reading. *)
Lemma data_self w t h w' h' : does program w t h w' -> procs w' = <[t := h']> (procs w) -> role h = is_writer ->
  (pc h' = 10%nat -> va w' data = letter (Z.of_nat t) 0) /\ (pc h' = 11%nat -> pc h = 10%nat /\ reg h' = va w data).
Proof.
  intros Hd Hp Hr. destruct Hd as [Ec|l Ec El|l n Ec El|l u n Ec El|l u Ec El|v Ec|v f Ec|v c n Ec Ev|v c n Ec Ev];
    cbn [set_proc set_lk set_va procs] in Hp; apply (f_equal (lookup t)) in Hp; rewrite !lookup_insert_eq in Hp; injection Hp as <-; cbn [at_pc pc reg]; rewrite Hr in Ec;
    try (split; intros Hi; [destruct (writer_at _ _ Ec (or_introl Hi)) as [[_ ?]|[_ ?]]|destruct (writer_at _ _ Ec (or_intror Hi)) as [[_ ?]|[_ ?]]]; done).
  - done.
  - split; intros Hi.
    + destruct (writer_at _ _ Ec (or_introl Hi)) as [[_ ?]|[? ?]]; [done|lia].
    + destruct (writer_at _ _ Ec (or_intror Hi)) as [[_ ?]|[? [= ->]]]; [done|]. by split.
  - split; intros Hi.
    + destruct (writer_at _ _ Ec (or_introl Hi)) as [[_ [= -> ->]]|[_ ?]]; [|done]. cbn. by rewrite fn_lookup_insert.
    + destruct (writer_at _ _ Ec (or_intror Hi)) as [[? _]|[_ ?]]; [lia|done].
  - destruct (writer_jump _ _ _ _ Ec) as [H1 H2]. by split.
Qed.

(** A reader comes to position 10 by reading. *)
Lemma reader_at i o : program is_reader !! i = Some o -> S i = 10%nat -> o = Ld data.
Proof. intros Ho [= ->]. by injection Ho as <-. Qed.

Lemma reader_jump i v c n : program is_reader !! i = Some (Unless v c n) -> S (i + n) <> 10%nat.
Proof. do 17 (destruct i as [|i]; [try discriminate; by intros [= <- <- <-]|]); discriminate. Qed.

Lemma reader_self w t h w' h' : does program w t h w' -> procs w' = <[t := h']> (procs w) -> role h = is_reader ->
  pc h' = 10%nat -> reg h' = va w' data.
Proof.
  intros Hd Hp Hr. destruct Hd as [Ec|l Ec El|l n Ec El|l u n Ec El|l u Ec El|v Ec|v f Ec|v c n Ec Ev|v c n Ec Ev];
    cbn [set_proc set_lk set_va procs] in Hp; apply (f_equal (lookup t)) in Hp; rewrite !lookup_insert_eq in Hp; injection Hp as <-;
    cbn [at_pc pc reg]; rewrite Hr in Ec; intros Hi;
    first [done|by destruct (reader_jump _ _ _ _ Ec Hi)|pose proof (reader_at _ _ Ec Hi) as Eo]; try done.
  by injection Eo as ->.
Qed.

Lemma letter_range t : 97 <= letter (Z.of_nat t) 0 <= 122.
Proof. unfold letter. pose proof (Z.rem_bound_pos (Z.of_nat t) 26). lia. Qed.

Lemma consistent_step w t w' : consistent w -> step program t w = Steps w' -> consistent w'.
Proof.
  intros Hc Hs. destruct (step_does program t w w' Hs) as (h & Ht & Hd). destruct Hc as [Hl Hr Hw Hd10 Hd11 Hlet Hrd] eqn:Ec. clear Ec.
  assert (Hc' : consistent w) by done.
  destruct (does_proc program w t h w' Hd) as (i & z & Hp). set (h' := mk_proc (role h) i z) in *.
  split.
  - intros l. apply (lock_step program inside grp l w t h w' (Hl l) Ht Hd (fits_all l (role h))).
    intros Hg. by apply group_all.
  - apply (counter_step program inside grp reader_counter x reads knows_readers counts_readers adds_readers (fun r => ltac:(by destruct r)) w t h); done.
  - apply (counter_step program inside grp writer_counter y writes knows_writers counts_writers adds_writers (fun r => ltac:(by destruct r)) w t h); done.
  - intros u g [[-> ->]|[Hu Eg]]%(procs_inv _ _ t h' _ _ Hp) Hk Hi.
    + by apply (data_self w t h w' h').
    + destruct (data_same w t h w' Hd) as [->|(Hr' & Hi' & _)]; [by apply (Hd10 u g)|]. exfalso.
      destruct (lock_excludes inside grp m w t h u g (Hl m) Ht Eg (not_eq_sym Hu)) as [E _].
      * unfold in_reg. by rewrite Hr', Hi'.
      * unfold in_reg. by rewrite Hk, Hi.
      * by rewrite Hr' in E.
  - intros u g [[-> ->]|[Hu Eg]]%(procs_inv _ _ t h' _ _ Hp) Hk Hi; [|by apply (Hd11 u g)].
    destruct (data_self w t h w' h' Hd Hp Hk) as [_ H2]. destruct (H2 Hi) as [H10 ->]. by apply (Hd10 t h).
  - destruct (data_same w t h w' Hd) as [->|(_ & _ & ->)]; [done|apply letter_range].
  - intros u g [[-> ->]|[Hu Eg]]%(procs_inv _ _ t h' _ _ Hp) Hk Hi; [by apply (reader_self w t h w' h')|].
    destruct (data_same w t h w' Hd) as [->|(Hr' & Hi' & _)]; [by apply (Hrd u g)|]. exfalso.
    destruct (lock_excludes inside grp m w t h u g (Hl m) Ht Eg (not_eq_sym Hu)) as [E _].
    + unfold in_reg. by rewrite Hr', Hi'.
    + unfold in_reg. by rewrite Hk, Hi.
    + by rewrite Hr' in E.
Qed.

Lemma started_proc rs t h : procs (started rs) !! t = Some h -> pc h = 0%nat /\ rs !! t = Some (role h).
Proof.
  cbn. intros Hl%elem_of_list_to_map_2. apply list_elem_of_lookup in Hl as [i Hi]. rewrite list_lookup_imap in Hi.
  destruct (rs !! i) as [r|] eqn:E; [|done]. injection Hi as <- <-. done.
Qed.

Lemma started_size rs : (size (procs (started rs)) <= length rs)%nat.
Proof.
  cbn. rewrite <- (length_imap (fun t r => (t, mk_proc r 0 0)) rs). generalize (imap (fun t r => (t, mk_proc r 0 0)) rs).
  intros l. induction l as [|[t p] l IH]; [done|]. rewrite list_to_map_cons, map_size_insert. cbn [length fst snd].
  destruct (_ !! t); unfold id; lia.
Qed.

Lemma none_counted P (mp : gmap nat (proc (R := kind))) : (forall t h, mp !! t = Some h -> P h = false) -> count P mp = 0.
Proof.
  intros Hn. unfold count. rewrite map_empty_filter_2; [done|]. intros t h Ht. cbn. rewrite (Hn t h Ht). done.
Qed.

Lemma consistent_start rs : Z.of_nat (length rs) < 2 ^ 31 -> consistent (started rs).
Proof.
  intros Hn. pose proof (started_size rs) as Hs.
  assert (Hz : forall (P : kind -> nat -> bool), (forall r, P r 0%nat = false) -> count (is_counted P) (procs (started rs)) = 0).
  { intros P HP. apply none_counted. intros t h [Hi _]%started_proc. unfold is_counted. by rewrite Hi. }
  split.
  - intros l. split; [intros t h [Hi _]%started_proc Hr _; exfalso..|done].
    + unfold in_reg in Hr. rewrite Hi in Hr. by destruct l, (role h).
    + unfold in_reg in Hr. rewrite Hi in Hr. by destruct l, (role h).
  - split; [symmetry; apply Hz; by intros []| | |lia]; intros t h; [intros [Hi _]%started_proc|intros c [Hi _]%started_proc]; rewrite Hi; by destruct (role h).
  - split; [symmetry; apply Hz; by intros []| | |lia]; intros t h; [intros [Hi _]%started_proc|intros c [Hi _]%started_proc]; rewrite Hi; by destruct (role h).
  - intros t h [Hi _]%started_proc. by rewrite Hi.
  - intros t h [Hi _]%started_proc. by rewrite Hi.
  - cbn. lia.
  - intros t h [Hi _]%started_proc. by rewrite Hi.
Qed.

Lemma consistent_runs rs w : Z.of_nat (length rs) < 2 ^ 31 -> runs (started rs) w -> consistent w.
Proof.
  intros Hn Hr. assert (H0 : consistent (started rs)) by (by apply consistent_start). revert H0.
  induction Hr as [|w1 w2 w3 [t E] _ IH]; [done|]. intros Hc. apply IH. by apply (consistent_step w1 t).
Qed.

(** ** Progress *)

(** A process that waits is about to acquire a lock that is held; only then. *)
Lemma waits_inv w t h : procs w !! t = Some h -> step program t w = Waits ->
  exists l u n, program (role h) !! pc h = Some (Acq l) /\ lk w l = Some (u, n) /\ u <> t.
Proof.
  intros Ht Hs. unfold step in Hs. rewrite Ht in Hs. destruct (program (role h) !! pc h) as [[l|l|v|v f|v c n]|]; try done.
  - unfold acquire in Hs. destruct (lk w l) as [[u n]|] eqn:El; [|done]. case_decide; [done|]. by exists l, u, n.
  - unfold release in Hs. by destruct (lk w l) as [[u [|[|n]]]|].
Qed.

Lemma never_panics w t : consistent w -> step program t w <> Panics.
Proof.
  intros Hc Hs. unfold step in Hs. destruct (procs w !! t) as [h|] eqn:Ht; [|done].
  destruct (program (role h) !! pc h) as [[l|l|v|v f|v c n]|] eqn:Ec; try done.
  - unfold acquire in Hs. destruct (lk w l) as [[u n]|]; [|done]. by case_decide.
  - pose proof (release_ok program inside grp l w t h (cs_locks w Hc l) Ht (fits_all l (role h)) Ec). by destruct (release l w).
Qed.

(** Where processes wait. *)
Lemma acquires r i l : program r !! i = Some (Acq l) ->
  match r, l with
  | is_reader, rdr => i = 0 | is_reader, x => i = 2 \/ i = 10 | is_reader, wrt => i = 6 | is_reader, m => i = 7
  | is_writer, wrt => i = 0 | is_writer, y => i = 2 \/ i = 12 | is_writer, rdr => i = 6 | is_writer, m => i = 8
  | _, _ => False
  end%nat.
Proof. destruct r; do 18 (destruct i as [|i]; [try discriminate; intros [= <-]; auto|]); discriminate. Qed.

Section stuck.
Context (w : world) (Hc : consistent w) (Hall : forall t h, procs w !! t = Some h -> step program t w = Waits).

(** Who waits for a lock waits for somebody in its region, who waits himself. *)
Lemma stuck_at t h : procs w !! t = Some h -> exists l u g, program (role h) !! pc h = Some (Acq l) /\
  procs w !! u = Some g /\ inside l (role g) (pc g) = true.
Proof.
  intros Ht. destruct (waits_inv w t h Ht (Hall t h Ht)) as (l & u & n & Ec & El & _).
  destruct (lo_held _ _ _ _ (cs_locks w Hc l) u n El) as (_ & _ & v & g & _ & Hg & Hi & _). by exists l, v, g.
Qed.

Lemma stuck_pos t h : procs w !! t = Some h ->
  match role h with
  | is_reader => pc h = 0 \/ pc h = 2 \/ pc h = 6 \/ pc h = 7 \/ pc h = 10
  | is_writer => pc h = 0 \/ pc h = 2 \/ pc h = 6 \/ pc h = 8 \/ pc h = 12
  end%nat.
Proof.
  intros Ht. destruct (stuck_at t h Ht) as (l & _ & _ & Ec & _). apply acquires in Ec. destruct (role h), l; lia.
Qed.

(** The position at which [l] is waited for. *)
Lemma stuck_region t h l : procs w !! t = Some h -> program (role h) !! pc h = Some (Acq l) ->
  exists u g, procs w !! u = Some g /\
    match l with
    | rdr => role g = is_writer /\ (pc g = 8 \/ pc g = 12)
    | wrt => role g = is_reader /\ (pc g = 7 \/ pc g = 10)
    | m => role g = is_reader /\ pc g = 10
    | x => role g = is_reader /\ (pc g = 6 \/ pc g = 7)
    | y => role g = is_writer /\ pc g = 6
    end%nat.
Proof.
  intros Ht Ec. destruct (stuck_at t h Ht) as (l' & u & g & Ec' & Hu & Hi). rewrite Ec in Ec'. injection Ec' as <-.
  exists u, g. split; [done|]. pose proof (stuck_pos u g Hu) as Hp.
  destruct l, (role g); destruct Hp as [Hp|[Hp|[Hp|[Hp|Hp]]]]; rewrite Hp in Hi |- *; try discriminate Hi; auto.
Qed.

Lemma stuck_alone v k P t h u g : va w v = count (is_counted P) (procs w) -> procs w !! t = Some h -> procs w !! u = Some g ->
  va w v = k -> k = 1 -> P (role h) (pc h) = true -> P (role g) (pc g) = true -> pc h <> pc g -> False.
Proof.
  intros Hv Ht Hu Hk -> Hh Hg Hne. assert (t <> u) by congruence.
  pose proof (count_two (is_counted P) _ t h u g Ht Hu ltac:(done) Hh Hg). lia.
Qed.

Lemma no_writer_6 t h : procs w !! t = Some h -> role h = is_writer -> pc h <> 6%nat.
Proof.
  intros Ht Hr Hi. assert (Ec : program (role h) !! pc h = Some (Acq rdr)) by by rewrite Hr, Hi.
  destruct (stuck_region t h rdr Ht Ec) as (u & g & Hu & Hg & Hp).
  apply (stuck_alone writer_counter 1 writes t h u g); try done; [apply Hc| | | |].
  - apply (co_knows _ _ _ _ _ (cs_writers w Hc) t h); [done|]. by rewrite Hr, Hi.
  - by rewrite Hr, Hi.
  - by destruct Hp as [Hp|Hp]; rewrite Hg, Hp.
  - lia.
Qed.

Lemma no_reader_67 t h : procs w !! t = Some h -> role h = is_reader -> pc h <> 6%nat /\ pc h <> 7%nat.
Proof.
  intros Ht Hr. assert (Hk : (pc h = 6 \/ pc h = 7)%nat -> va w reader_counter = 1 /\ reads (role h) (pc h) = true).
  { intros Hi. split; [|by destruct Hi as [Hi|Hi]; rewrite Hr, Hi].
    apply (co_knows _ _ _ _ _ (cs_readers w Hc) t h); [done|]. by destruct Hi as [Hi|Hi]; rewrite Hr, Hi. }
  split; intros Hi; destruct (Hk ltac:(lia)) as [Hk1 Hk2].
  - assert (Ec : program (role h) !! pc h = Some (Acq wrt)) by by rewrite Hr, Hi.
    destruct (stuck_region t h wrt Ht Ec) as (u & g & Hu & Hg & Hp).
    apply (stuck_alone reader_counter 1 reads t h u g); try done; [apply Hc|by destruct Hp as [Hp|Hp]; rewrite Hg, Hp|lia].
  - assert (Ec : program (role h) !! pc h = Some (Acq m)) by by rewrite Hr, Hi.
    destruct (stuck_region t h m Ht Ec) as (u & g & Hu & Hg & Hp).
    apply (stuck_alone reader_counter 1 reads t h u g); try done; [apply Hc|by rewrite Hg, Hp|lia].
Qed.

(** Nobody waits for [l] any more once its region is known to be empty. *)
Lemma stuck_nobody t h : procs w !! t = Some h -> False.
Proof.
  assert (Ny : forall t h, procs w !! t = Some h -> program (role h) !! pc h <> Some (Acq y)).
  { intros u g Hu Ec. destruct (stuck_region u g y Hu Ec) as (v & f & Hv & Hr & Hp). by apply (no_writer_6 v f). }
  assert (Nx : forall t h, procs w !! t = Some h -> program (role h) !! pc h <> Some (Acq x)).
  { intros u g Hu Ec. destruct (stuck_region u g x Hu Ec) as (v & f & Hv & Hr & Hp). destruct (no_reader_67 v f Hv Hr). tauto. }
  assert (Nm : forall t h, procs w !! t = Some h -> program (role h) !! pc h <> Some (Acq m)).
  { intros u g Hu Ec. destruct (stuck_region u g m Hu Ec) as (v & f & Hv & Hr & Hp). apply (Nx v f Hv). by rewrite Hr, Hp. }
  assert (Nr : forall t h, procs w !! t = Some h -> program (role h) !! pc h <> Some (Acq rdr)).
  { intros u g Hu Ec. destruct (stuck_region u g rdr Hu Ec) as (v & f & Hv & Hr & [Hp|Hp]).
    - apply (Nm v f Hv). by rewrite Hr, Hp.
    - apply (Ny v f Hv). by rewrite Hr, Hp. }
  intros Ht. destruct (stuck_at t h Ht) as (l & _ & _ & Ec & _). destruct l; [by apply (Nr t h)| |by apply (Nm t h)|by apply (Nx t h)|by apply (Ny t h)].
  destruct (stuck_region t h wrt Ht Ec) as (v & f & Hv & Hr & [Hp|Hp]); [destruct (no_reader_67 v f Hv Hr); tauto|].
  apply (Nx v f Hv). by rewrite Hr, Hp.
Qed.
End stuck.

(** In every consistent state some process can go on. *)
Lemma some_steps w t h : consistent w -> procs w !! t = Some h -> exists u w', step program u w = Steps w'.
Proof.
  intros Hc Ht.
  assert (Hd : forall (u : nat) (g : proc (R := kind)), Decision (step program u w = Waits)).
  { intros u g. destruct (step program u w); [by left|by right..]. }
  destruct (decide (map_Forall (fun u _ => step program u w = Waits) (procs w))) as [Hall|Hnot].
  - exfalso. apply (stuck_nobody w Hc (fun u g Hu => Hall u g Hu) t h Ht).
  - apply map_not_Forall in Hnot as (u & g & Hu & Hs); [|done]. exists u. pose proof (never_panics w u Hc).
    destruct (step program u w) as [| |w']; [done|done|by exists w'].
Qed.

Lemma runs_procs w w' : runs w w' -> forall t h, procs w !! t = Some h -> is_Some (procs w' !! t).
Proof.
  induction 1 as [w|w1 w2 w3 [u E] _ IH]; [by eauto|]. intros t h Ht.
  destruct (step_does program u w1 w2 E) as (g & Hu & Hd). destruct (does_proc program w1 u g w2 Hd) as (i & z & Hp).
  destruct (decide (t = u)) as [->|Hne].
  - apply (IH u (mk_proc (role g) i z)). by rewrite Hp, lookup_insert_eq.
  - apply (IH t h). by rewrite Hp, lookup_insert_ne.
Qed.

Lemma within_iff a b i : within a b i = true <-> (a <= i < b)%nat.
Proof. unfold within. rewrite andb_true_iff, Nat.leb_le, Nat.ltb_lt. done. Qed.

(** ** Properties *)

(** C3. Readers and writers in any number and any interleaving: while a process
    is between acquiring and releasing [m] to write, no other one writes, and no
    reader is past the point where the readers have the lock, in particular none
    reads.  What a writer prints is the letter it has written; what a reader has
    read to print is still what [data] holds, and it is a letter. *)
Theorem writers_exclude (rs : list kind) (w : shared) :
  Z.of_nat (length rs) < 2 ^ 31 -> reachable program (started rs) w ->
  (forall t u h g, procs w !! t = Some h -> role h = is_writer -> (9 <= pc h < 12)%nat ->
     procs w !! u = Some g -> u <> t ->
     (role g = is_writer -> ~ (9 <= pc g < 12)%nat) /\ (role g = is_reader -> ~ (8 <= pc g < 16)%nat)) /\
  (forall t h, procs w !! t = Some h -> role h = is_writer -> pc h = 11%nat -> reg h = letter (Z.of_nat t) 0) /\
  (forall t h, procs w !! t = Some h -> role h = is_reader -> pc h = 10%nat -> reg h = va w data /\ 97 <= reg h <= 122).
Proof.
  intros Hn Hr. pose proof (consistent_runs rs w Hn Hr) as Hc. split; [|split; [apply (cs_printed w Hc)|]].
  - intros t u h g Ht Hk Hi Hu Hne.
    assert (Hm : in_reg inside m h = true) by (unfold in_reg; rewrite Hk; by apply within_iff).
    assert (Hx : in_reg inside m g <> true).
    { intros E. destruct (lock_excludes inside grp m w t h u g (cs_locks w Hc m) Ht Hu (not_eq_sym Hne) Hm E) as [Eg _]. by rewrite Hk in Eg. }
    split; intros Hg Hp; apply Hx; unfold in_reg; rewrite Hg; by apply within_iff.
  - intros t h Ht Hk Hi. rewrite (cs_read w Hc t h Ht Hk Hi). split; [done|apply (cs_letter w Hc)].
Qed.

(** C4. Readers and writers in any number and any interleaving never stop the
    kernel by releasing a lock that is free, and never come to a state in which
    all of them wait for each other. *)
Theorem never_stuck (rs : list kind) (w : shared) (t : nat) :
  Z.of_nat (length rs) < 2 ^ 31 -> reachable program (started rs) w -> (t < length rs)%nat ->
  (forall u, step program u w <> Panics) /\ exists u w', step program u w = Steps w'.
Proof.
  intros Hn Hr Ht. pose proof (consistent_runs rs w Hn Hr) as Hc. split; [intros u; by apply never_panics|].
  destruct (lookup_lt_is_Some_2 rs t Ht) as [r Er].
  assert (H0 : procs (started rs) !! t = Some (mk_proc r 0 0)).
  { cbn. apply elem_of_list_to_map_1'.
    - intros y' Hy. apply list_elem_of_lookup in Hy as [i Hi]. rewrite list_lookup_imap in Hi. destruct (rs !! i) eqn:E; [|done].
      injection Hi as -> <-. congruence.
    - apply list_elem_of_lookup. exists t. by rewrite list_lookup_imap, Er. }
  destruct (runs_procs _ _ Hr t _ H0) as [h Hh]. by apply (some_steps w t h).
Qed.

(** ** Witnesses *)

(** A writer has come to its printing; the other writers and the readers wait. *)
Definition writer_first : shared := run program [0; 0; 0; 0; 0; 0; 0; 0; 0; 0; 0; 1; 3; 3; 4; 5]%nat readerwriter.

(** A reader has read what the writer 0 has written. *)
Definition reader_after : shared :=
  run program ([0; 0; 0; 0; 0; 0; 0; 0; 0; 0; 0; 0; 0; 0; 0; 0; 0; 0; 0] ++ replicate 10 3)%nat readerwriter.

Lemma writers_exclude_witness :
  (exists h g, procs writer_first !! 0%nat = Some h /\ pc h = 11%nat /\ reg h = 97 /\
     procs writer_first !! 3%nat = Some g /\ ~ (8 <= pc g < 16)%nat) /\
  exists h, procs reader_after !! 3%nat = Some h /\ pc h = 10%nat /\ reg h = va reader_after data.
Proof.
  assert (Hn : Z.of_nat (length [is_writer; is_writer; is_writer; is_reader; is_reader; is_reader]) < 2 ^ 31) by (cbn; lia).
  destruct (writers_exclude _ writer_first Hn (run_reachable _ _ _)) as (H1 & H2 & _).
  destruct (writers_exclude _ reader_after Hn (run_reachable _ _ _)) as (_ & _ & H3). split.
  - eexists _, _. split; [vm_compute; reflexivity|]. split; [reflexivity|]. split; [|split; [vm_compute; reflexivity|]].
    + eapply (H2 0%nat); [vm_compute; reflexivity|reflexivity|reflexivity].
    + eapply (H1 0%nat 3%nat); [vm_compute; reflexivity|reflexivity|cbn; lia|vm_compute; reflexivity|lia|reflexivity].
  - eexists. split; [vm_compute; reflexivity|]. split; [reflexivity|].
    eapply (H3 3%nat); [vm_compute; reflexivity|reflexivity|reflexivity].
Defined.

Lemma never_stuck_witness : exists u w', step program u writer_first = Steps w'.
Proof.
  apply (never_stuck [is_writer; is_writer; is_writer; is_reader; is_reader; is_reader] writer_first 0);
    [cbn; lia|apply run_reachable|cbn; lia].
Defined.
