(* ===== verification/Bank.v ===== *)
(** * Bank: the two processes of actualuserprogs/bank.c

    The father pays 10 in, the child draws 20, each reading and writing the
    balance under the lock; the totals are local variables of one process. *)

From stdpp Require Import functions relations.
From S2P Require Import Prelude Shared.
Open Scope Z_scope.

Inductive bank_lock := banklock.
Inductive bank_var := bankbalance | totalsave | totaldraw.
Inductive teller := father | child.

#[export] Instance bank_lock_eq : EqDecision bank_lock.
Proof. solve_decision. Defined.
#[export] Instance bank_var_eq : EqDecision bank_var.
Proof. solve_decision. Defined.

(** [t += d] on the value loaded. *)
Definition plus (d _ t : Z) : Z := i32 (t + d).

Definition bank_program (r : teller) : list (op (L := bank_lock) (V := bank_var)) :=
  match r with
  | father => [Acq banklock; Ld bankbalance; St bankbalance (plus 10); Rel banklock; Ld totalsave; St totalsave (plus 10)]
  | child => [Acq banklock; Ld bankbalance; St bankbalance (plus (-20)); Rel banklock; Ld totaldraw; St totaldraw (plus 20)]
  end.

Definition bank : shared (L := bank_lock) (V := bank_var) (R := teller) :=
  mk_shared (fun _ => None) (fun v => match v with bankbalance => 1000 | _ => 0 end)
    {[0%nat := mk_proc father 0 0; 1%nat := mk_proc child 0 0]}.

Definition inside (_ : bank_lock) (_ : teller) (i : nat) : bool := (1 <=? i)%nat && (i <? 4)%nat.
Definition grp (_ : bank_lock) (_ : teller) : bool := false.

Lemma bank_fits l r : fits bank_program inside grp l r.
Proof. intros i. destruct l, r; do 7 (destruct i as [|i]; [reflexivity|]); reflexivity. Qed.

(** ** The balance *)

Abbreviation world := (shared (L := bank_lock) (V := bank_var) (R := teller)).

Definition amount (r : teller) : Z := match r with father => 10 | child => -20 end.
Definition total (r : teller) : bank_var := match r with father => totalsave | child => totaldraw end.

(** What is in the balance and not yet in the total, [i] being the position. *)
Definition pending (r : teller) (i : nat) : Z := if (3 <=? i)%nat && (i <? 6)%nat then amount r else 0.

(** What a process has loaded is still there when it stores. *)
Definition loaded (w : world) (h : proc) : Prop :=
  (pc h = 2%nat -> reg h = va w bankbalance) /\ (pc h = 5%nat -> reg h = va w (total (role h))) /\ (pc h <= 6)%nat.

Record bank_ok (w : world) (f c : proc) : Prop := {
  bk_procs : procs w = {[0%nat := f; 1%nat := c]};
  bk_roles : role f = father /\ role c = child;
  bk_lock : lock_ok inside grp banklock w;
  bk_loaded : loaded w f /\ loaded w c;
  bk_sum : u32 (va w bankbalance) = u32 (1000 + va w totalsave - va w totaldraw + pending father (pc f) + pending child (pc c)) }.

Lemma pair_lookup (f c : proc (R := teller)) t h : ({[0%nat := f; 1%nat := c]} : gmap nat proc) !! t = Some h ->
  t = 0%nat /\ h = f \/ t = 1%nat /\ h = c.
Proof.
  intros [[<- <-]|[Hne Ht]]%lookup_insert_Some; [by left|]. apply lookup_singleton_Some in Ht as [<- <-]. by right.
Qed.

Lemma u32_i32 a : u32 (i32 a) = u32 a.
Proof. unfold u32, i32. zarith. Qed.

Lemma u32_congr a b : (exists n, a = b + n * 4294967296) -> u32 a = u32 b.
Proof. intros [n ->]. unfold u32. by rewrite Z_mod_plus_full. Qed.

Lemma u32_congr_inv a b : u32 a = u32 b -> exists n, a = b + n * 4294967296.
Proof. unfold u32. intros E. exists (a / 4294967296 - b / 4294967296). pose proof (Z.div_mod a 4294967296). pose proof (Z.div_mod b 4294967296). lia. Qed.

Lemma i32_congr a : exists n, i32 a = a + n * 4294967296.
Proof. exists (- ((a + 2147483648) / 4294967296)). unfold i32. pose proof (Z.div_mod (a + 2147483648) 4294967296). lia. Qed.

(** Where a process is, what it does and what becomes of the variables. *)
Inductive moved (w : world) (t : nat) (h : proc) : world -> nat -> Prop :=
  | Moved w' i : procs w' = <[t := mk_proc (role h) i (reg h)]> (procs w) -> va w' = va w ->
      i <> 2%nat -> i <> 5%nat -> (i <= 6)%nat -> pending (role h) i = pending (role h) (pc h) -> moved w t h w' i
  | Moved_load w' v : procs w' = <[t := mk_proc (role h) (S (pc h)) (va w v)]> (procs w) -> va w' = va w ->
      pc h = 1%nat /\ v = bankbalance \/ pc h = 4%nat /\ v = total (role h) -> moved w t h w' (S (pc h))
  | Moved_change w' : procs w' = <[t := mk_proc (role h) 3 (reg h)]> (procs w) -> pc h = 2%nat ->
      va w' = <[bankbalance := i32 (reg h + amount (role h))]> (va w) -> moved w t h w' 3
  | Moved_total w' : procs w' = <[t := mk_proc (role h) 6 (reg h)]> (procs w) -> pc h = 5%nat ->
      va w' = <[total (role h) := i32 (reg h + Z.abs (amount (role h)))]> (va w) -> moved w t h w' 6.

Lemma teller_moves w t h w' : does bank_program w t h w' -> (pc h <= 6)%nat -> exists i, moved w t h w' i.
Proof.
  destruct h as [r i z]. cbn [pc]. intros Hd Hi.
  destruct Hd as [Ec|l Ec El|l n Ec El|l u n Ec El|l u Ec El|v Ec|v f Ec|v c n Ec Ev|v c n Ec Ev]; cbn [role pc] in Ec;
    destruct r; do 7 try (destruct i as [|i]; [try discriminate Ec|]); try lia; try first [injection Ec as <- <- | injection Ec as <-].
  all: try (eexists; apply Moved; cbn; (done || lia)).
  all: try (eexists; eapply Moved_load; cbn; [reflexivity|reflexivity|auto]).
  all: try (eexists; apply Moved_change; cbn; done).
  all: try (eexists; apply Moved_total; cbn; done).
Qed.

(** ** The step of a process, of the two *)

Section teller_step.
Context (w w' : world) (t i : nat) (h g : proc (R := teller)).
Hypothesis Hm : moved w t h w' i.
Hypothesis Hh : loaded w h.
Hypothesis Hg : loaded w g.
Hypothesis Hr : role h <> role g.
(** The other one does not have the lock while this one changes the balance. *)
Hypothesis Hx : pc h = 2%nat -> pc g <> 2%nat.

(** The balance, with what each of the two has not yet entered. *)
Definition balance_due (w : world) (h g : proc (R := teller)) : Z :=
  1000 + va w totalsave - va w totaldraw + pending (role h) (pc h) + pending (role g) (pc g).

Lemma teller_step : exists h', procs w' = <[t := h']> (procs w) /\ role h' = role h /\ loaded w' h' /\ loaded w' g /\
  (u32 (va w bankbalance) = u32 (balance_due w h g) -> u32 (va w' bankbalance) = u32 (balance_due w' h' g)).
Proof.
  destruct Hh as (H2 & H5 & H6), Hg as (G2 & G5 & G6). destruct Hm as [w1 j Hp Hv N2 N5 N6 Hpe|w1 v Hp Hv Hi|w1 Hp Hi Hv|w1 Hp Hi Hv].
  - eexists. split; [exact Hp|]. unfold loaded, balance_due. rewrite Hv. cbn [role pc]. rewrite Hpe. done.
  - eexists. split; [exact Hp|]. unfold loaded, balance_due. rewrite Hv. cbn [role pc reg]. split; [done|]. split; [|split; [done|]].
    + destruct Hi as [[-> ->]|[-> ->]]; (split; [lia || done|]); (split; [lia || done|lia]).
    + assert (E : pending (role h) (S (pc h)) = pending (role h) (pc h)) by by destruct Hi as [[-> _]|[-> _]].
      by rewrite E.
  - eexists. split; [exact Hp|]. unfold loaded, balance_due. rewrite Hv. cbn [role pc reg]. specialize (H2 Hi). rewrite Hi.
    split; [done|]. split; [split; [lia|split; [lia|lia]]|]. split; [split; [intros E; by destruct (Hx Hi)|split; [|done]]|].
    + intros E. rewrite fn_lookup_insert_ne by (by destruct (role g)). by apply G5.
    + rewrite fn_lookup_insert, !fn_lookup_insert_ne by done. intros [n E]%u32_congr_inv. rewrite u32_i32, H2.
      apply u32_congr. exists n. change (pending (role h) 2) with 0 in E. change (pending (role h) 3) with (amount (role h)). lia.
  - eexists. split; [exact Hp|]. unfold loaded, balance_due. rewrite Hv. cbn [role pc reg]. specialize (H5 Hi). rewrite Hi.
    split; [done|]. split; [split; [lia|split; [lia|lia]]|]. split; [split; [|split; [|done]]|].
    + intros E. rewrite fn_lookup_insert_ne by (by destruct (role h)). by apply G2.
    + intros E. rewrite fn_lookup_insert_ne by (destruct (role h), (role g); done). by apply G5.
    + rewrite fn_lookup_insert_ne by (by destruct (role h)). intros E. rewrite E, H5.
      change (pending (role h) 6) with 0. change (pending (role h) 5) with (amount (role h)).
      destruct (role h); cbn [total amount]; rewrite fn_lookup_insert, fn_lookup_insert_ne by done; change (Z.abs 10) with 10; change (Z.abs (-20)) with 20.
      * destruct (i32_congr (va w totalsave + 10)) as [k ->]. apply u32_congr. exists (- k). lia.
      * destruct (i32_congr (va w totaldraw + 20)) as [k ->]. apply u32_congr. exists k. lia.
Qed.
End teller_step.

(** ** Properties *)

Lemma bank_step w f c t w' : bank_ok w f c -> step bank_program t w = Steps w' -> exists f' c', bank_ok w' f' c'.
Proof.
  intros [Hp [Rf Rc] Hl [Lf Lc] Hs] E. destruct (step_does bank_program t w w' E) as (h & Ht & Hd).
  pose proof (lock_step bank_program inside grp banklock w t h w' Hl Ht Hd (bank_fits banklock (role h)) ltac:(done)) as Hl'.
  assert (Hx : forall u1 u2 (a b : proc (R := teller)), procs w !! u1 = Some a -> procs w !! u2 = Some b -> u1 <> u2 -> pc a = 2%nat -> pc b <> 2%nat).
  { intros u1 u2 a b H1 H2 Hne Ha Hb. destruct (lock_excludes inside grp banklock w u1 a u2 b Hl H1 H2 Hne) as [? _];
      [unfold in_reg; by rewrite Ha|unfold in_reg; by rewrite Hb|done]. }
  rewrite Hp in Ht. destruct (pair_lookup f c t h Ht) as [[-> ->]|[-> ->]].
  - destruct (teller_moves w 0 f w' Hd) as [i Hm]; [by apply Lf|].
    destruct (teller_step w w' 0 i f c Hm Lf Lc) as (f' & Hp' & Hr & Lf' & Lc' & Hb); [congruence|by apply (Hx 0%nat 1%nat f c); rewrite ?Hp|].
    exists f', c. split; try done.
    + rewrite Hp', Hp. by rewrite insert_insert_eq.
    + split; congruence.
    + unfold balance_due in Hb. rewrite Hr, Rf, Rc in Hb. by apply Hb.
  - destruct (teller_moves w 1 c w' Hd) as [i Hm]; [by apply Lc|].
    destruct (teller_step w w' 1 i c f Hm Lc Lf) as (c' & Hp' & Hr & Lc' & Lf' & Hb); [congruence|by apply (Hx 1%nat 0%nat c f); rewrite ?Hp|].
    exists f, c'. split; try done.
    + rewrite Hp', Hp. apply map_eq. intros j. by destruct j as [|[|j]].
    + split; congruence.
    + unfold balance_due in Hb. rewrite Hr, Rf, Rc in Hb. rewrite <- !Z.add_assoc, (Z.add_comm (pending father _)), !Z.add_assoc.
      apply Hb. rewrite Hs. f_equal. lia.
Qed.

Lemma bank_start : bank_ok bank (mk_proc father 0 0) (mk_proc child 0 0).
Proof.
  split; [done|done| |by repeat split; cbn; lia|done].
  split; [intros t h Ht Hi _; exfalso..|done].
  - by destruct (pair_lookup _ _ _ _ Ht) as [[_ ->]|[_ ->]].
  - by destruct (pair_lookup _ _ _ _ Ht) as [[_ ->]|[_ ->]].
Qed.

(** C5. No payment is lost: in every interleaving of the two processes the
    balance is, modulo 2^32, 1000 and what the father has paid in less what the
    child has drawn, counting what has reached the balance and not yet the
    total; so whenever both are at the start of their loops it is the balance
    the totals say. *)
Theorem no_lost_update (w : shared) : reachable bank_program bank w -> exists f c : proc,
  procs w = {[0%nat := f; 1%nat := c]} /\ role f = father /\ role c = child /\
  u32 (va w bankbalance) = u32 (1000 + va w totalsave - va w totaldraw + pending father (pc f) + pending child (pc c)).
Proof.
  intros Hr. assert (H0 : exists f c, bank_ok bank f c) by (eexists _, _; apply bank_start). revert H0.
  induction Hr as [w|w1 w2 w3 [t E] _ IH]; intros (f & c & Hb).
  - exists f, c. destruct Hb as [Hp [Rf Rc] _ _ Hs]. done.
  - apply IH. by apply (bank_step w1 f c t).
Qed.

(** ** Witnesses *)

(** Both want to change the balance; the child waits for the lock. *)
Lemma no_lost_update_witness : exists f c,
  procs (run bank_program [0; 0; 1; 0; 0; 1; 1; 1]%nat bank) = {[0%nat := f; 1%nat := c]} /\
  u32 (va (run bank_program [0; 0; 1; 0; 0; 1; 1; 1]%nat bank) bankbalance) = 990.
Proof.
  destruct (no_lost_update (run bank_program [0; 0; 1; 0; 0; 1; 1; 1]%nat bank)) as (f & c & Hp & _ & _ & Hs); [apply run_reachable|].
  exists f, c. split; [exact Hp|]. vm_compute. reflexivity.
Defined.
